(* ===== verification/_CoqProject ===== *)
-Q . S2P
Prelude.v
Atomic.v
Dll.v
Drr.v
Shaper.v
CakeTypes.v
Cobalt.v
CakeFlow.v
CakeHier.v
CakeConfig.v
CakeTopo.v
CakeEnqueue.v
CakeDequeue.v
CakeTin.v
CakeMoves.v
CakeSched.v
CakeServe.v
CakeDispatch.v
CakePlugin.v
CakeSystem.v
CgnatTypes.v
CgnatTcp.v
CgnatDet.v
CgnatSession.v
CgnatInv.v
CgnatConfig.v
CgnatNodes.v
CgnatSafety.v
CgnatRun.v
CgnatSystem.v
Packet.v
CgnatPackets.v
CgnatSubscriber.v
Access.v
L2tpSession.v
L2tpInv.v
L2tpRun.v
L2tpNodes.v
L2tpPackets.v
L2tpSystem.v
PppoeSession.v
PppoeNodes.v
PppoeInv.v
PppoeRun.v
PppoePackets.v
PppoeSystem.v
IpoeSession.v
IpoeNodes.v
IpoeInv.v
IpoeRun.v
IpoeSystem.v
TxFrames.v
PuntShm.v
PuntConfig.v
PuntLayout.v
PuntRing.v
PuntNodes.v
PuntSystem.v
PuntEnable.v
PuntEgress.v
L2gwCircuit.v
L2gwCli.v
L2gwNode.v
L2gwInv.v
L2gwRun.v
L2gwSystem.v
L2gwPackets.v
L2gwFrame.v
L2gwTrigger.v
SrgGroup.v
SrgGarp.v
SrgSystem.v
SrgFrames.v
