(* ===== verification/Prelude.v ===== *)
(** Verification of the osvbng plugins for VPP.

    osvbng is the data plane of a broadband network gateway: plugins of the VPP packet
    processor, programmed over its binary API by a control plane.  This development
    models the plugins whose C code decides what happens to a subscriber's packets, and
    proves what each promises.  Names are those of the code under
    [src/plugins].


    * How to read it

    Every definition is executable and follows one C function; a record has the
    fields of the C structure.  A C integer is a [Z] with its wrap written out ([u32],
    [u64], [i32], ...); an index whose [~0] means none is an [option Z]; pools, hash
    tables and index vectors are finite maps; pointers into a pool are indices.  Slots
    that [pool_get] returns, clocks and random numbers are arguments.  A function of VPP
    that a plugin calls and the repository does not contain is a field of a class
    ([Vpp], [NatVpp], [VlibVpp], [AccessVpp]); what is relied on of it is a class of laws, with an instance.
    State is passed explicitly; where the code could touch a freed pool entry, divide by
    zero or fail to end, the result is an option and the theorems show it is [Some].
    Traces, prefetching and VPP's own batching of frames are left out everywhere, counters
    shown to the operator where a section does not name them.

    This file is the prelude: machine integers and the tactic [ints], record update
    ([r⟪f := v⟫], [r⟪f ::= g⟫]), sums over lists and maps, bytes in memory, hints
    ([bng]).  [Atomic] is about compare-and-swap loops in general, [Dll] about intrusive
    doubly linked lists: [DllNode] is the interface an element type offers, instantiated
    by the scheduler's flows and by the NAT's sessions.


    * The scheduler: [osvbng_qos_sched]

    A CAKE scheduler per subscriber interface under a tree of aggregates.
    - [Drr], [Shaper]: [cake_drr.h], [cake_shaper.h].  The two lock-free routines are
      also machines with one step per load and exchange, shown to refine an atomic
      object; an aggregate's occupancy never passes its limit and its rate gate conforms
      to the configured rate over every window, whatever the interleaving.
    - [CakeTypes], [Cobalt], [CakeFlow], [CakeHier]: the data of [osvbng_qos_sched.h],
      queue management ([cake_cobalt.c], [cake_overhead.c]), flows, hashing and tins
      ([cake_hash.c]), the parent chain.  Admission and the gates are all or nothing
      along the chain, and activation keeps the active weights exact.
    - [CakeConfig]: [osvbng_qos_sched.c].  Reparenting keeps all accounting.  [CakeTopo]:
      the parents of the aggregates stay a tree and the attachments in it, so that every
      walk along them ends.
    - [CakeEnqueue], [CakeDequeue]: [cake_enqueue.c], [cake_handoff.c], [cake_dequeue.c].
    - [CakeTin], [CakeMoves], [CakeSched], [CakeServe], [CakeDispatch], [CakePlugin]:
      invariants, from one flow to all schedulers.  [tin_ok] threads the flows of a tin
      on its three lists, [sched_ok] adds the scheduler's counters, [main_ok] the active
      bitmaps.  [held h] sums [h] over queued buffers, so that an equation for all [h] is
      one between multisets.  [work] bounds the turns left in a dispatch.
    - [CakeSystem]: runs of configuration calls and dispatches.  [qos_run st come gone]
      is a run to [st] with the buffers that came and went.  Packets are conserved, no
      loop runs on, none is stranded, the node is work conserving.

    A loop that is not over a list takes fuel, and running out of it is a missing result,
    which the theorems exclude: [codel_count] turns for CoDel's missed drop times, the
    pool's size for the walk up the parents, the interface table's for the walk up the
    super-interfaces (which ends because VPP's chains do, [vnet_ok]), the ring's length for
    its draining, and [DISPATCH_FUEL] for the dequeue node's two loops.  [DISPATCH_FUEL] is one more than [WORK_MAX], a
    bound on [work]: a queued packet weighs 2^22, which pays for its own turn and the
    debt of at most 2^20 its flow may run into and works off one quantum (at least one)
    per turn.


    * The NAT: [osvbng_cgnat]

    - [CgnatTypes], [CgnatTcp], [CgnatDet]: the data and inline helpers of
      [osvbng_cgnat.h]; the TCP state machine over whole packet sequences; deterministic
      mappings, which are injective and reversible.
    - [CgnatSession], [CgnatConfig], [CgnatNodes]: [osvbng_cgnat_session.c],
      [osvbng_cgnat.c] with [osvbng_cgnat_api.c], the four packet nodes.
    - [CgnatInv], [CgnatSafety], [CgnatRun], [CgnatSystem]: [nat_ok] ties tables, pools,
      session lists and counts together; every operation keeps it, so that no run
      touches a freed entry, and the expiry walk removes exactly the idle sessions.
    - [CgnatPackets]: translation changes the addresses and ports it should and no
      checksum's validity.
    - [CgnatSubscriber]: a reply reaches the subscriber whose packet opened the session;
      deleting a mapping removes it and its sessions and nothing else; and two runs that
      show what the code does not prevent.

    Locks are left out: each call of the session table is one step.  Walks over the
    pools take the pool's size as fuel.  The pool of fragment records is of a fixed size
    ([CGNAT_MAX_FRAG_REWRITES]) and taken from without a check: a packet that needs a record
    when there is none left faults, in the model as in the code, and the theorem that no
    operation faults asks for room in it ([frag_room]).


    * Access: [l2tpv2], [osvbng_pppoe], [osvbng_ipoe]

    - [Packet]: VPP's buffers, byte strings at an address, IPv4 and UDP headers and their
      checksums.  [Access]: what the plugins ask of VPP.  A call into it is an entry of
      a log; [routes] and [visible] say what a log leaves behind, [iface_ok] that each
      session has an interface of its own.
    - [L2tpSession], [L2tpNodes]: tunnels, sessions and bindings ([l2tpv2_session.c],
      [l2tpv2_api.c]), the input node and both encapsulations.
    - [L2tpInv], [L2tpRun], [L2tpPackets], [L2tpSystem]: in every state the API can reach
      the tables are exact, reference counts are counts, and the routes in VPP are the
      live bindings.  A data packet of any form reaches its session with its payload, the
      node reads nothing outside the packet, one end undoes what the other does, and the
      rewrite of the adjacency makes the same packet as the raw encapsulation.
    - [PppoeSession], [PppoeNodes]: sessions, bindings and LAC mode ([osvbng_pppoe.c],
      [osvbng_pppoe_api.c]), the input node with its cache and counters
      ([osvbng_pppoe_decap.c]), the rewrite, and the LAC output node.
    - [PppoeInv], [PppoeRun], [PppoePackets], [PppoeSystem]: the same for the PPPoE
      plugin; the cache does not show and the counters are exact; and the two plugins
      together: a frame bridged through a tunnel to the other end is unchanged.
    - [IpoeSession], [IpoeNodes]: the IPoE plugin ([osvbng_ipoe.c], [osvbng_ipoe_api.c],
      [osvbng_ipoe_input.c]).  [IpoeInv], [IpoeRun], [IpoeSystem]: the same again; a
      deleted session leaves no route and no interface; and a subscriber's answer to a
      session's own header finds the session, unless the session has an outer tag only.

    [l2tp_run], [pppoe_run] and [ipoe_run] are runs: states reached from start-up by any
    calls, with the slots and interfaces that VPP hands out unused ones.  Their flag
    [true] restricts the calls to those that remove a binding by what it was set to,
    without which the code leaks routes ([l2tp_wrong_unbind_leaks],
    [pppoe_delete_leaks]), and to delegated prefixes whose length is neither 0, which the
    code installs and never removes, nor 128.  A PPPoE session's key is not the empty
    cache's, the broadcast address with identifier 0xffff.  An IPoE session is added on an interface and in a table that
    exist, which that plugin does not check ([ipoe_unknown_vrf_faults]).


    * The punt path: [osvbng_punt]

    Control packets go to a daemon through rings in a shared memory region, one ring per
    thread, and come back through a single one.
    - [PuntShm]: [osvbng_punt_shared.h], [osvbng_punt.h], [osvbng_punt_shm.c].  The region
      is a byte memory with the rings and descriptors beside it; [PuntLayout] shows that
      its parts do not overlap, whatever the number of threads, up to the 32-bit size.
      The policer's doubles are binary64 as the standard library specifies it.
    - [PuntConfig], [PuntEnable]: [osvbng_punt.c], [osvbng_punt_api.c] and the enable and
      disable functions; which ports and routes are registered after any calls.
    - [PuntRing]: the threads and the daemon as one machine, [punt_step], whose steps are
      the loads, the copy, the store of head, the exchange of the flag, and the daemon's
      read and store of tail.  Each ring is a bounded queue under every interleaving.
    - [PuntNodes], [PuntSystem]: the classifier nodes; a packet's first buffer, from as far
      in front as the node rewinds, reaches its thread's ring, and the discovery node's
      unrolled loops are its step.
    - [PuntEgress]: [osvbng_punt_egress.c], with [TxFrames], its frames towards output
      nodes.  Packets leave in the order of the ring, each
      towards its interface's node; and the wake-up protocol as a machine, in which none
      is lost when every store is visible before the next step of its thread.  With a
      store buffer, which the code's memory orders allow, one can be
      ([wakeup_lost_with_store_buffer]).

    Of the daemon only what it does to the rings and the eventfd is assumed.


    * The layer 2 gateway: [osvbng_l2gw]

    Wholesale subscribers whose frames are switched to another operator's port, their
    VLAN tags replaced.  A circuit is two pool entries, one per direction.
    - [L2gwCircuit], [L2gwCli]: [osvbng_l2gw.h], [osvbng_l2gw.c] with the handlers of
      [osvbng_l2gw_api.c], and the commands of [osvbng_l2gw_cli.c].
    - [L2gwNode]: [osvbng_l2gw_node.c], the input node.  The frames it fills for output
      nodes are [TxFrames], which the punt plugin's egress node has too.
    - [L2gwInv], [L2gwRun], [L2gwSystem]: [l2gw_ok] ties entries, keys and peers together,
      [circuit_step] is what a call does to the set of circuits, which is all that the
      tables hold after any calls, commands and frames ([l2gw_run]); the dump reports
      that set in messages that add it again.
    - [L2gwPackets]: frames as byte strings; what is switched where with which tags, and
      that the way back gives a frame the tags it came with.
    - [L2gwFrame], [L2gwTrigger]: the caches and the batching do not show and the
      counters are exact; punts of a tuple for any protocol are an interval apart, over
      any frames and calls ([l2gw_trace]).


    * Subscriber redundancy groups: [osvbng_srg]

    Two gateways serve the same subscribers; the one whose group is active has the group's
    virtual MAC address on its hardware and announces it.
    - [SrgGroup]: [osvbng_srg.h], [osvbng_srg.c], handlers and dump of [osvbng_srg_api.c].
      A key of the name table is a pointer into the pool, hence the pool's address in it.
    - [SrgGarp]: [osvbng_srg_garp.c] and its handler: gratuitous ARPs and neighbour
      advertisements, batched; the fuel is the number of entries, which is enough
      ([batches_sent]).
    - [SrgSystem]: the calls as operations on a set of groups, and which addresses are on
      which hardware after any calls ([srg_run]); what goes wrong outside its conditions is
      in examples (a pool that moves, a refused address, a deleted interface).
    - [SrgFrames]: the announcements as frames, their counters and their buffers.


    * Not modelled

    The plugin [osvbng_tunnel] and the scheduler's API handlers.
    The CLI except those of the punt plugin, the layer 2 gateway and the redundancy groups, trace formatting, API encoding
    and plugin registration: input and output around the functions modelled.  Concurrency
    beyond the lock-free routines of the scheduler and the rings: configuration runs under
    VPP's worker barrier, and a scheduler is served by one thread. *)

From Stdlib Require Export ZArith Lia.
From stdpp Require Export functions gmap list fin_maps sets sorting.

#[global] Open Scope Z_scope.

(** * Machine integers

    A C integer is a [Z] in its range; every operation that the C type
    wraps is written with the wrap of its width. *)

Definition u8 (z : Z) : Z := z mod 2 ^ 8.
Definition u16 (z : Z) : Z := z mod 2 ^ 16.
Definition u32 (z : Z) : Z := z mod 2 ^ 32.
Definition u64 (z : Z) : Z := z mod 2 ^ 64.

(** Reinterpretation of the low bits as a signed value. *)
Definition i32 (z : Z) : Z := (z + 2 ^ 31) mod 2 ^ 32 - 2 ^ 31.
Definition i64 (z : Z) : Z := (z + 2 ^ 63) mod 2 ^ 64 - 2 ^ 63.

(** [~0] of type [u32]: the "no index" marker of the plugins. *)
Definition NONE : Z := 2 ^ 32 - 1.

Definition is_u16 (z : Z) : Prop := 0 <= z < 2 ^ 16.
Definition is_u32 (z : Z) : Prop := 0 <= z < 2 ^ 32.
Definition is_u64 (z : Z) : Prop := 0 <= z < 2 ^ 64.

(** [ints] turns wraps, signed casts and ranges into linear arithmetic and
    closes the goal. *)
Ltac unfold_ints :=
  unfold is_u16, is_u32, is_u64, NONE, u8, u16, u32, u64, i32, i64 in *.
Ltac ints := unfold_ints; Z.to_euclidean_division_equations; lia.

(** [zcases] splits on the integer comparisons of the goal, innermost first;
    [zcases in H] does so in a hypothesis. *)
Ltac no_if t :=
  lazymatch t with context [if _ then _ else _] => fail | _ => idtac end.
Ltac zcase_of t :=
  match t with
  | context [?a <? ?b] => no_if a; no_if b; destruct (Z.ltb_spec a b)
  | context [?a <=? ?b] => no_if a; no_if b; destruct (Z.leb_spec a b)
  | context [?a =? ?b] => no_if a; no_if b; destruct (Z.eqb_spec a b)
  end.
Ltac zcases :=
  repeat match goal with |- ?g => zcase_of g end; cbn [andb orb negb].
Tactic Notation "zcases" "in" hyp(H) :=
  repeat match type of H with ?h => zcase_of h end; cbn [andb orb negb] in H.

Lemma u16_range z : is_u16 (u16 z).
Proof. ints. Qed.

Lemma u32_range z : is_u32 (u32 z).
Proof. ints. Qed.

Lemma u64_range z : is_u64 (u64 z).
Proof. ints. Qed.

Lemma u32_small z : is_u32 z → u32 z = z.
Proof. intros ?. unfold u32. apply Z.mod_small. done. Qed.

Lemma u64_small z : is_u64 z → u64 z = z.
Proof. intros ?. unfold u64. apply Z.mod_small. done. Qed.

Lemma u32_cong3 x y z : u32 (u32 x - y + z) = u32 (x - y + z).
Proof. ints. Qed.

Lemma i32_small z : - 2 ^ 31 <= z < 2 ^ 31 → i32 z = z.
Proof. intros ?. unfold i32. rewrite Z.mod_small; lia. Qed.

Lemma i64_small z : - 2 ^ 63 <= z < 2 ^ 63 → i64 z = z.
Proof. intros ?. unfold i64. rewrite Z.mod_small; lia. Qed.

Lemma i32_range z : - 2 ^ 31 <= i32 z < 2 ^ 31.
Proof. ints. Qed.

(** A disjoint "or" is a sum. *)
Lemma lor_shiftl_add a b n :
  0 <= n → 0 <= a < 2 ^ n → Z.lor a (Z.shiftl b n) = a + b * 2 ^ n.
Proof.
  intros Hn Ha. rewrite <- Z.shiftl_mul_pow2, <- Z.add_lor_land by done.
  assert (Z.land a (Z.shiftl b n) = 0) as ->; [|lia].
  apply Z.bits_inj'. intros k Hk. rewrite Z.land_spec, Z.bits_0.
  destruct (Z.ltb_spec k n).
  - rewrite Z.shiftl_spec_low by lia. apply andb_false_r.
  - rewrite <- (Z.mod_small a (2 ^ n)) by done. rewrite Z.mod_pow2_bits_high by lia. done.
Qed.

Lemma land_ones_mod z n : 0 <= n → Z.land z (2 ^ n - 1) = z mod 2 ^ n.
Proof. intros. rewrite <- Z.land_ones, Z.ones_equiv by done. f_equal. Qed.

Lemma land_shiftl_r z m n : 0 <= n →
  Z.land z (Z.shiftl m n) = Z.shiftl (Z.land (Z.shiftr z n) m) n.
Proof.
  intros. apply Z.bits_inj'. intros k Hk. rewrite Z.land_spec.
  destruct (Z.ltb_spec k n).
  - rewrite !Z.shiftl_spec_low by lia. apply andb_false_r.
  - rewrite !Z.shiftl_spec, Z.land_spec, Z.shiftr_spec by lia. do 2 f_equal. lia.
Qed.

(** * Functional record update

    [r ⟪ f := v ⟫] replaces one field.  A record type becomes updatable by an
    instance of [Eta], its expansion into constructor and projections. *)

Class Eta (R : Type) := eta : R → R.
Class Upd {R T : Type} (proj : R → T) := upd : (T → T) → R → R.
Arguments upd {R T} proj {_} f r.
#[global] Typeclasses Opaque Eta Upd.

Ltac find_upd :=
  lazymatch goal with
  | |- @Upd ?R ?T ?proj =>
      let e := constr:(_ : Eta R) in
      let b := eval hnf in e in
      match eval pattern proj in b with
      | ?g _ => exact (fun (f : T → T) (r : R) => g (fun x => f (proj x)) r)
      end
  end.
#[export] Hint Extern 0 (Upd _) => find_upd : typeclass_instances.

Notation "r ⟪ p := v ⟫" := (upd p (fun _ => v) r)
  (at level 1, p at level 200, v at level 200, format "r ⟪ p  :=  v ⟫").
Notation "r ⟪ p ::= g ⟫" := (upd p g r)
  (at level 1, p at level 200, g at level 200, format "r ⟪ p  ::=  g ⟫").

(** [rsimpl] computes projections of updated records. *)
Ltac rsimpl := unfold upd; simpl.
Tactic Notation "rsimpl" "in" hyp(H) := unfold upd in H; simpl in H.

(** [rproj] computes a projection of an update without expanding the record. *)
Ltac rproj_one p q f r :=
  first [ change (p (upd q f r)) with (p r)
        | let v := eval cbv beta in (f (p r)) in change (p (upd q f r)) with v ].
Ltac rproj :=
  repeat match goal with
         | |- context [?p (@upd _ _ ?q _ ?f ?r)] => rproj_one p q f r
         end.
Ltac rproj_one_in p q f r H :=
  first [ change (p (upd q f r)) with (p r) in H
        | let v := eval cbv beta in (f (p r)) in change (p (upd q f r)) with v in H ].
Tactic Notation "rproj" "in" hyp(H) :=
  repeat match type of H with
         | context [?p (@upd _ _ ?q _ ?f ?r)] => rproj_one_in p q f r H
         end.

(** * Sums over lists *)

Definition zsum (l : list Z) : Z := foldr Z.add 0 l.

Lemma zsum_app l k : zsum (l ++ k) = zsum l + zsum k.
Proof. induction l as [|x l IH]; simpl; [done|]. unfold zsum in *. simpl. lia. Qed.

Lemma zsum_nonneg l : Forall (fun x => 0 <= x) l → 0 <= zsum l.
Proof. induction 1; unfold zsum in *; simpl; lia. Qed.

Lemma zsum_elem_le x l : Forall (fun x => 0 <= x) l → x ∈ l → x <= zsum l.
Proof.
  intros Hl. induction 1 as [y l|y z l Hin IH];
    inversion Hl as [|? ? ? Hl']; subst; simpl.
  - pose proof (zsum_nonneg l Hl'). unfold zsum in *. simpl. lia.
  - specialize (IH Hl'). unfold zsum in *. simpl. lia.
Qed.

Lemma zsum_insert {A} (f : A → Z) (l : list A) i x y :
  l !! i = Some x →
  zsum (map f (<[i:=y]> l)) = zsum (map f l) - f x + f y.
Proof.
  revert i. induction l as [|z l IH]; intros [|i] Hi; simplify_eq/=.
  - unfold zsum. simpl. lia.
  - specialize (IH i Hi). unfold zsum in *. simpl. lia.
Qed.

Lemma zsum_map_nonneg {A} (f : A → Z) l :
  (∀ x, 0 <= f x) → 0 <= zsum (map f l).
Proof. intros H. induction l as [|x l IH]; unfold zsum in *; simpl; [lia|]. specialize (H x). lia. Qed.

Lemma zsum_map_le {A} (f g : A → Z) l :
  (∀ x, x ∈ l → f x <= g x) → zsum (map f l) <= zsum (map g l).
Proof.
  intros H. induction l as [|x l IH]; unfold zsum in *; simpl; [lia|].
  pose proof (H x ltac:(set_solver)). specialize (IH ltac:(set_solver)). lia.
Qed.

Lemma pos_nonneg (l : list Z) : Forall (fun x => 0 < x) l → Forall (fun x => 0 <= x) l.
Proof. induction 1; constructor; [lia|done]. Qed.

(** * Ranges *)

Lemma map_seqZ_ext {A} (f g : Z → A) m n :
  (∀ k, m <= k < m + n → f k = g k) → map f (seqZ m n) = map g (seqZ m n).
Proof.
  intros H. apply map_ext_in. intros k Hk%list_elem_of_In%elem_of_seqZ. auto.
Qed.

Lemma map_seqZ_shift {A} (f : Z → A) m n :
  map f (seqZ (m + 1) n) = map (λ k, f (k + 1)) (seqZ m n).
Proof.
  replace (m + 1) with (1 + m) by lia. rewrite <- fmap_add_seqZ.
  change (map f (map (Z.add 1) (seqZ m n)) = map (λ k, f (k + 1)) (seqZ m n)).
  rewrite map_map. apply map_seqZ_ext. intros. f_equal. lia.
Qed.

Lemma alter_insert_lookup {A} (g : A → A) i (m : gmap Z A) x :
  m !! i = Some x → alter g i m = <[i := g x]> m.
Proof.
  intros Hi. apply map_eq. intros k. destruct (decide (k = i)) as [->|].
  - by rewrite lookup_alter_eq, lookup_insert_eq, Hi.
  - by rewrite lookup_alter_ne, lookup_insert_ne by congruence.
Qed.

(** * Sums over finite maps *)

Definition msum {A} (f : A → Z) (m : gmap Z A) : Z := map_fold (λ _ a s, f a + s) 0 m.

Section msum.
Context {A : Type}.
Implicit Types (f g : A → Z) (m : gmap Z A).

Lemma msum_empty f : msum f ∅ = 0.
Proof. apply map_fold_empty. Qed.

Lemma msum_insert_new f m i x : m !! i = None → msum f (<[i:=x]> m) = f x + msum f m.
Proof.
  intros Hi. unfold msum.
  rewrite (map_fold_insert_L (λ _ a s, f a + s) 0 i x m); [done|intros; lia|done].
Qed.

Lemma msum_delete f m i x : m !! i = Some x → msum f m = f x + msum f (delete i m).
Proof.
  intros Hi. rewrite <- (insert_delete_id m i x Hi) at 1.
  apply msum_insert_new, lookup_delete_eq.
Qed.

Lemma msum_insert f m i x y :
  m !! i = Some x → msum f (<[i:=y]> m) = msum f m - f x + f y.
Proof.
  intros Hi. rewrite <- (insert_delete_eq m i y), msum_insert_new by apply lookup_delete_eq.
  rewrite (msum_delete f m i x Hi). lia.
Qed.

Lemma msum_ext f g m :
  (∀ i x, m !! i = Some x → f x = g x) → msum f m = msum g m.
Proof.
  induction m as [|i x m Hi IH] using map_ind; intros H; [done|].
  rewrite !msum_insert_new by done. rewrite (H i x) by apply lookup_insert_eq.
  f_equal. apply IH. intros j y Hj. apply (H j). rewrite lookup_insert_ne; [done|].
  intros ->. congruence.
Qed.

Lemma msum_zero f m : (∀ i x, m !! i = Some x → f x = 0) → msum f m = 0.
Proof.
  intros H. rewrite (msum_ext f (λ _, 0)) by done.
  clear H. induction m as [|i x m Hi IH] using map_ind; [done|].
  rewrite msum_insert_new by done. lia.
Qed.

Lemma msum_le f m c :
  (∀ i x, m !! i = Some x → 0 <= f x <= c) → 0 <= msum f m <= c * Z.of_nat (size m).
Proof.
  induction m as [|i x m Hi IH] using map_ind; intros H.
  { rewrite msum_empty, map_size_empty. lia. }
  rewrite msum_insert_new, map_size_insert_None by done.
  pose proof (H i x (lookup_insert_eq _ _ _)).
  assert (0 <= msum f m <= c * Z.of_nat (size m)) as Hm; [|nia].
  apply IH. intros j y Hj. apply (H j). rewrite lookup_insert_ne; [done|].
  intros ->. congruence.
Qed.

Lemma msum_nonneg f m : (∀ x, 0 <= f x) → 0 <= msum f m.
Proof.
  intros H. induction m as [|i x m Hi IH] using map_ind; [by rewrite msum_empty|].
  rewrite msum_insert_new by done. specialize (H x). lia.
Qed.

Lemma msum_elem_le f m i x : (∀ x, 0 <= f x) → m !! i = Some x → f x <= msum f m.
Proof.
  intros H Hi. rewrite (msum_delete f m i x Hi). pose proof (msum_nonneg f (delete i m) H). lia.
Qed.
End msum.

(** Entries counted by [f] have keys of their own below [n]: there are at most [n]. *)
Lemma msum_keys_bound {A} (f : A → Z) (g : Z → A → Z) (m : gmap Z A) n :
  0 <= n →
  (∀ i x, m !! i = Some x → f x = 0 \/ f x = 1 /\ 0 <= g i x < n) →
  (∀ i j x y, m !! i = Some x → m !! j = Some y → f x = 1 → f y = 1 → g i x = g j y → i = j) →
  msum f m <= n.
Proof.
  intros Hn Hr Hinj.
  assert (exists X : gset Z, Z.of_nat (size X) = msum f m /\
    ∀ k, k ∈ X → exists i x, m !! i = Some x /\ f x = 1 /\ g i x = k) as (X & HX & Hk).
  { induction m as [|i x m Hi IH] using map_ind.
    { exists ∅. rewrite msum_empty, size_empty. split; [done|set_solver]. }
    destruct IH as (X & HX & Hk).
    { intros j y Hj. apply (Hr j). rewrite lookup_insert_ne; congruence. }
    { intros j k y z Hj Hk. apply (Hinj j k); rewrite lookup_insert_ne; congruence. }
    assert (∀ k, k ∈ X → exists j y, <[i := x]> m !! j = Some y /\ f y = 1 /\ g j y = k /\ j ≠ i) as Hk'.
    { intros k Hin. destruct (Hk k Hin) as (j & y & Hj & ?). exists j, y.
      assert (j ≠ i) by congruence. rewrite lookup_insert_ne by done. tauto. }
    rewrite msum_insert_new by done.
    destruct (Hr i x (lookup_insert_eq _ _ _)) as [E|[E _]]; rewrite E.
    - exists X. split; [lia|]. intros k Hin. destruct (Hk' k Hin) as (j & y & ?). naive_solver.
    - exists ({[g i x]} ∪ X). split.
      + rewrite size_union, size_singleton; [lia|]. apply disjoint_singleton_l. intros Hin.
        destruct (Hk' _ Hin) as (j & y & Hj & Hf & Hg & Hne). apply Hne.
        by apply (Hinj j i y x Hj (lookup_insert_eq _ _ _)).
      + intros k [->%elem_of_singleton|Hin]%elem_of_union.
        * exists i, x. by rewrite lookup_insert_eq.
        * destruct (Hk' k Hin) as (j & y & ?). naive_solver. }
  rewrite <- HX.
  assert (X ⊆ list_to_set (seqZ 0 n)) as Hsub.
  { intros k Hin. apply elem_of_list_to_set, elem_of_seqZ.
    destruct (Hk k Hin) as (i & x & Hi & Hf & <-). destruct (Hr i x Hi); lia. }
  apply subseteq_size in Hsub. rewrite size_list_to_set in Hsub by apply NoDup_seqZ.
  rewrite length_seqZ in Hsub. lia.
Qed.

Lemma msum_same_keys {A B} (f : A → Z) (g : B → Z) (m : gmap Z A) (n : gmap Z B) :
  (∀ i, f <$> m !! i = g <$> n !! i) → msum f m = msum g n.
Proof.
  revert n. induction m as [|i x m Hi IH] using map_ind; intros n H.
  - assert (n = ∅) as ->; [|done]. apply map_empty. intros i. specialize (H i).
    rewrite lookup_empty in H. by destruct (n !! i).
  - pose proof (H i) as Hx. rewrite lookup_insert_eq in Hx. simpl in Hx.
    destruct (n !! i) as [y|] eqn:Hy; [|done]. injection Hx as Hx.
    rewrite msum_insert_new, (msum_delete g n i y Hy), Hx by done. f_equal. apply IH.
    intros j. specialize (H j). destruct (decide (j = i)) as [->|].
    + by rewrite Hi, lookup_delete_eq.
    + by rewrite lookup_insert_ne in H by congruence; rewrite lookup_delete_ne by congruence.
Qed.

(** * Bytes in memory

    A buffer is a function from offsets to bytes.  Loads and stores are those of
    the little-endian target; network order is the byte swap of a load. *)

Definition ld16 (d : Z → Z) (o : Z) : Z := d o + Z.shiftl (d (o + 1)) 8.
Definition ld32 (d : Z → Z) (o : Z) : Z := ld16 d o + Z.shiftl (ld16 d (o + 2)) 16.
Definition ld64 (d : Z → Z) (o : Z) : Z := ld32 d o + Z.shiftl (ld32 d (o + 4)) 32.
Definition st16 (d : Z → Z) (o v : Z) : Z → Z :=
  <[o := u8 v]> (<[o + 1 := u8 (Z.shiftr v 8)]> d).
Definition st32 (d : Z → Z) (o v : Z) : Z → Z :=
  <[o := u8 v]> (<[o + 1 := u8 (Z.shiftr v 8)]>
    (<[o + 2 := u8 (Z.shiftr v 16)]> (<[o + 3 := u8 (Z.shiftr v 24)]> d))).

Definition clib_net_to_host_u16 (v : Z) : Z := Z.shiftl (u8 v) 8 + u8 (Z.shiftr v 8).
Definition clib_net_to_host_u32 (v : Z) : Z :=
  Z.shiftl (u8 v) 24 + Z.shiftl (u8 (Z.shiftr v 8)) 16 +
  Z.shiftl (u8 (Z.shiftr v 16)) 8 + u8 (Z.shiftr v 24).

Lemma swap16_eq v : clib_net_to_host_u16 v = v mod 256 * 256 + v / 256 mod 256.
Proof. unfold clib_net_to_host_u16, u8. by rewrite Z.shiftl_mul_pow2, Z.shiftr_div_pow2. Qed.

Lemma swap32_eq v :
  clib_net_to_host_u32 v =
  v mod 256 * 16777216 + v / 256 mod 256 * 65536 + v / 65536 mod 256 * 256 +
  v / 16777216 mod 256.
Proof.
  unfold clib_net_to_host_u32, u8. by rewrite !Z.shiftl_mul_pow2, !Z.shiftr_div_pow2 by lia.
Qed.

Lemma swap16_range v : is_u16 (clib_net_to_host_u16 v).
Proof. rewrite swap16_eq. ints. Qed.

Lemma swap32_range v : is_u32 (clib_net_to_host_u32 v).
Proof. rewrite swap32_eq. ints. Qed.

Lemma swap16_involutive v : is_u16 v → clib_net_to_host_u16 (clib_net_to_host_u16 v) = v.
Proof. rewrite !swap16_eq. ints. Qed.

(** The four digits of a number in base 256, most significant last. *)
Lemma digits_unique a b c e a' b' c' e' :
  0 <= a < 256 → 0 <= b < 256 → 0 <= c < 256 →
  0 <= a' < 256 → 0 <= b' < 256 → 0 <= c' < 256 →
  a + 256 * (b + 256 * (c + 256 * e)) = a' + 256 * (b' + 256 * (c' + 256 * e')) →
  a = a' /\ b = b' /\ c = c' /\ e = e'.
Proof. lia. Qed.

Lemma swap32_involutive v : is_u32 v → clib_net_to_host_u32 (clib_net_to_host_u32 v) = v.
Proof.
  intros Hv. rewrite (swap32_eq v).
  set (a := v mod 256). set (b := v / 256 mod 256). set (c := v / 65536 mod 256).
  set (e := v / 16777216 mod 256).
  assert (v = a + 256 * (b + 256 * (c + 256 * e))) as Hd by (unfold a, b, c, e; ints).
  assert (0 <= a < 256 /\ 0 <= b < 256 /\ 0 <= c < 256 /\ 0 <= e < 256) as (Ha & Hb & Hc & He)
    by (unfold a, b, c, e; ints).
  clearbody a b c e. rewrite swap32_eq, Hd. ints.
Qed.

Lemma ld16_range d o : (∀ p, 0 <= d p < 256) → is_u16 (ld16 d o).
Proof.
  intros H. unfold ld16. rewrite Z.shiftl_mul_pow2 by lia.
  pose proof (H o). pose proof (H (o + 1)). ints.
Qed.

Lemma ld16_st16 d o v : is_u16 v → ld16 (st16 d o v) o = v.
Proof.
  intros Hv. unfold ld16, st16. rewrite fn_lookup_insert, fn_lookup_insert_ne, fn_lookup_insert by lia.
  unfold u8. rewrite Z.shiftl_mul_pow2, Z.shiftr_div_pow2 by lia. ints.
Qed.

Lemma st16_other d o v p : p ≠ o → p ≠ o + 1 → st16 d o v p = d p.
Proof. intros. unfold st16. by rewrite !fn_lookup_insert_ne by congruence. Qed.

Lemma st32_other d o v p : (p < o \/ o + 3 < p) → st32 d o v p = d p.
Proof. intros. unfold st32. by rewrite !fn_lookup_insert_ne by lia. Qed.

(** A 32-bit store is two 16-bit stores. *)
Lemma st32_st16 d o v p : st32 d o v p = st16 (st16 d (o + 2) (Z.shiftr v 16)) o v p.
Proof.
  unfold st32, st16. rewrite Z.shiftr_shiftr by lia.
  replace (o + 2 + 1) with (o + 3) by lia. done.
Qed.

Lemma ld32_st32 d o v : is_u32 v → ld32 (st32 d o v) o = v.
Proof.
  intros Hv. unfold ld32, ld16, st32.
  replace (o + 2 + 1) with (o + 3) by lia.
  repeat first [rewrite fn_lookup_insert | rewrite fn_lookup_insert_ne by lia].
  unfold u8. rewrite !Z.shiftl_mul_pow2, !Z.shiftr_div_pow2 by lia. ints.
Qed.

(** * Hints

    Ranges of the wraps and of network-order values, for [auto with bng]. *)

Create HintDb bng.
#[export] Hint Resolve u16_range u32_range u64_range i32_range swap16_range swap32_range
  ld16_range : bng.
#[export] Hint Rewrite u32_small u64_small i32_small i64_small using (by auto with bng) : bng.

(** * Loops over a list that may fail *)

Fixpoint foldl_option {A B} (f : B → A → option B) (b : B) (l : list A) : option B :=
  match l with
  | [] => Some b
  | x :: l => b ← f b x; foldl_option f b l
  end.

(** If no turn fails and each keeps to [R], neither does the loop. *)
Lemma foldl_option_rel {A B} (R : B → B → Prop) (f : B → A → option B) l b :
  (∀ b, R b b) → (∀ b1 b2 b3, R b1 b2 → R b2 b3 → R b1 b3) →
  (∀ x b', x ∈ l → R b b' → exists b'', f b' x = Some b'' /\ R b' b'') →
  exists b', foldl_option f b l = Some b' /\ R b b'.
Proof.
  intros Hr Ht. revert b. induction l as [|x l IH]; intros b Hf; [by exists b|]. cbn [foldl_option].
  destruct (Hf x b) as (b1 & -> & H1); [by left|done|]. cbn [mbind option_bind].
  destruct (IH b1) as (b2 & -> & H2); [|by exists b2; eauto].
  intros y b' Hy Hb. apply Hf; [by right|by eapply Ht].
Qed.

(** What every turn keeps, a loop that ends keeps. *)
Lemma foldl_option_inv {A B} (R : B → B → Prop) (f : B → A → option B) l b b' :
  (∀ b, R b b) → (∀ b1 b2 b3, R b1 b2 → R b2 b3 → R b1 b3) →
  (∀ x b b', f b x = Some b' → R b b') →
  foldl_option f b l = Some b' → R b b'.
Proof.
  intros Hr Ht Hf. revert b. induction l as [|x l IH]; intros b; cbn [foldl_option].
  - by intros [= <-].
  - destruct (f b x) as [b1|] eqn:E; [|done]. cbn [mbind option_bind]. intros H1%IH.
    eapply Ht; [by eapply Hf|exact H1].
Qed.
