(* ===== verification/Atomic.v ===== *)
(** Compare-and-swap retry loops, and the atomic object they implement.

    Two routines of the scheduler ([cake_drr_shared_reserve] and
    [cake_shaper_gate_take]) have the same shape: load a 64-bit word, compute a
    response and possibly a new word, publish it with a weak exchange, retry on
    failure.  Section [CasLoop] models any number of threads running such a
    loop, every load and every exchange a separate step, and shows that what
    callers observe is what an object with one atomic step per call allows. *)

From S2P Require Import Prelude.

Section CasLoop.

Context {Op Env Resp : Type}.

(** [attempt o e w]: one pass over the loaded word [w]; [e] stands for the
    values the pass reads beside the word.  [ok] restricts what is called and
    read. *)
Variable attempt : Op → Env → Z → Resp * option Z.
Variable ok : Op → Env → Prop.

Inductive label :=
  | Invoke (t : nat) (o : Op)
  | Return (t : nat) (o : Op) (r : Resp)
  | Tau.

(** ** The threads as the code runs *)

Inductive pc :=
  | Idle
  | Running (o : Op)
  | Loaded (o : Op) (e : Env) (old : Z).

Record conc := mkConc { c_word : Z; c_pc : nat → pc }.

Inductive cstep : conc → label → conc → Prop :=
  | cs_invoke w p t o :
      p t = Idle →
      cstep (mkConc w p) (Invoke t o) (mkConc w (<[t:=Running o]> p))
  | cs_load w p t o e :
      p t = Running o → ok o e →
      cstep (mkConc w p) Tau (mkConc w (<[t:=Loaded o e w]> p))
  | cs_exchange w p t o e r new :
      p t = Loaded o e w → attempt o e w = (r, Some new) →
      cstep (mkConc w p) (Return t o r) (mkConc new (<[t:=Idle]> p))
  | cs_retry w p t o e old r new :
      p t = Loaded o e old → attempt o e old = (r, Some new) →
      cstep (mkConc w p) Tau (mkConc w (<[t:=Running o]> p))
  | cs_refuse w p t o e old r :
      p t = Loaded o e old → attempt o e old = (r, None) →
      cstep (mkConc w p) (Return t o r) (mkConc w (<[t:=Idle]> p)).

(** ** The atomic object: one step decides and applies a call *)

Inductive apc :=
  | AIdle
  | APending (o : Op)
  | ADone (o : Op) (r : Resp).

Record abst := mkAbst { a_word : Z; a_pc : nat → apc }.

Inductive astep : abst → label → abst → Prop :=
  | as_invoke w p t o :
      p t = AIdle →
      astep (mkAbst w p) (Invoke t o) (mkAbst w (<[t:=APending o]> p))
  | as_apply w p t o e r new :
      p t = APending o → ok o e → attempt o e w = (r, new) →
      astep (mkAbst w p) Tau (mkAbst (default w new) (<[t:=ADone o r]> p))
  | as_return w p t o r :
      p t = ADone o r →
      astep (mkAbst w p) (Return t o r) (mkAbst w (<[t:=AIdle]> p)).

(** ** Visible traces *)

Definition visible (l : label) : list label :=
  match l with Tau => [] | _ => [l] end.

Inductive exec {S} (step : S → label → S → Prop) : S → list label → S → Prop :=
  | exec_nil s : exec step s [] s
  | exec_cons s l s' tr s'' :
      step s l s' → exec step s' tr s'' → exec step s (visible l ++ tr) s''.

Lemma exec_one {S} (step : S → label → S → Prop) s l s' :
  step s l s' → exec step s (visible l) s'.
Proof. intros H. rewrite <- (app_nil_r (visible l)). eapply exec_cons; [done|constructor]. Qed.

Lemma exec_app {S} (step : S → label → S → Prop) s tr s' tr' s'' :
  exec step s tr s' → exec step s' tr' s'' → exec step s (tr ++ tr') s''.
Proof.
  induction 1 as [|s l s1 tr s2 Hs Hex IH]; [done|].
  intros H. rewrite <- app_assoc. eapply exec_cons; [done|]. by apply IH.
Qed.

(** ** Forward simulation *)

Definition pc_sim (c : pc) (a : apc) : Prop :=
  match c with
  | Idle => a = AIdle
  | Running o => a = APending o
  | Loaded o e old =>
      ok o e /\
      match attempt o e old with
      | (r, None) => a = ADone o r
      | (_, Some _) => a = APending o
      end
  end.

Definition sim (c : conc) (a : abst) : Prop :=
  a_word a = c_word c /\ ∀ t, pc_sim (c_pc c t) (a_pc a t).

Lemma pc_sim_insert (p : nat → pc) (q : nat → apc) (t : nat) c a :
  (∀ t, pc_sim (p t) (q t)) → pc_sim c a →
  ∀ t', pc_sim ((<[t:=c]> p) t') ((<[t:=a]> q) t').
Proof.
  intros H Hc t'. destruct (decide (t = t')) as [->|Hne].
  - by rewrite !fn_lookup_insert.
  - by rewrite !fn_lookup_insert_ne.
Qed.

Lemma pc_sim_insert_l (p : nat → pc) (q : nat → apc) (t : nat) c :
  (∀ t, pc_sim (p t) (q t)) → pc_sim c (q t) →
  ∀ t', pc_sim ((<[t:=c]> p) t') (q t').
Proof.
  intros H Hc t'. destruct (decide (t = t')) as [->|Hne].
  - by rewrite fn_lookup_insert.
  - by rewrite fn_lookup_insert_ne.
Qed.

Lemma sim_step c l c' a :
  cstep c l c' → sim c a → exists a', exec astep a (visible l) a' /\ sim c' a'.
Proof.
  intros Hstep [Hw Hp]. destruct a as [w' q]. simpl in *.
  destruct Hstep as [w p t o Ht|w p t o e Ht Hok|w p t o e r new Ht Hat
                    |w p t o e old r new Ht Hat|w p t o e old r Ht Hat];
    simpl in *; subst w'; pose proof (Hp t) as Hpt; rewrite Ht in Hpt; simpl in Hpt.
  - eexists. split; [eapply (exec_one astep _ (Invoke t o)), as_invoke; exact Hpt|].
    split; [done|]. simpl. by apply pc_sim_insert.
  - destruct (attempt o e w) as [r [new|]] eqn:E.
    + eexists. split; [constructor|]. split; [done|]. simpl.
      apply pc_sim_insert_l; [done|]. simpl. by rewrite E.
    + eexists. split.
      { eapply (exec_one astep _ Tau), as_apply; [exact Hpt|exact Hok|exact E]. }
      split; [done|]. simpl. apply pc_sim_insert; [done|]. simpl. by rewrite E.
  - rewrite Hat in Hpt. destruct Hpt as [Hok Hpt]. eexists. split.
    { eapply (exec_cons astep _ Tau); [eapply as_apply; [exact Hpt|exact Hok|exact Hat]|].
      eapply (exec_one astep _ (Return t o r)), as_return. by rewrite fn_lookup_insert. }
    split; [done|]. simpl. intros t'. destruct (decide (t = t')) as [->|Hne].
    + by rewrite !fn_lookup_insert.
    + rewrite !fn_lookup_insert_ne by done. apply Hp.
  - rewrite Hat in Hpt. destruct Hpt as [Hok Hpt]. eexists. split; [constructor|].
    split; [done|]. simpl. by apply pc_sim_insert_l.
  - rewrite Hat in Hpt. destruct Hpt as [Hok Hpt]. eexists.
    split; [eapply (exec_one astep _ (Return t o r)), as_return; exact Hpt|].
    split; [done|]. simpl. by apply pc_sim_insert.
Qed.

Definition cinit (w : Z) : conc := mkConc w (fun _ => Idle).
Definition ainit (w : Z) : abst := mkAbst w (fun _ => AIdle).

Lemma sim_exec c tr c' :
  exec cstep c tr c' → ∀ a, sim c a → exists a', exec astep a tr a' /\ sim c' a'.
Proof.
  induction 1 as [|c l c1 tr c2 Hs Hex IH]; intros a Ha.
  - exists a. split; [constructor|done].
  - destruct (sim_step _ _ _ _ Hs Ha) as (a1 & Ha1 & Hsim1).
    destruct (IH a1 Hsim1) as (a2 & Ha2 & Hsim2).
    exists a2. split; [|done]. by eapply exec_app.
Qed.

(** Every behaviour of the retry loops is a behaviour of the atomic object. *)
Lemma cas_loop_linearizable w tr c :
  exec cstep (cinit w) tr c →
  exists a, exec astep (ainit w) tr a /\ a_word a = c_word c.
Proof.
  intros H. destruct (sim_exec _ _ _ H (ainit w)) as (a & Ha & Hw & _).
  { split; [done|]. intros t. done. }
  by exists a.
Qed.

(** An invariant of the atomic step holds of the word at every instant of every
    interleaving. *)
Lemma cas_loop_invariant (I : Z → Prop) :
  (∀ o e w, ok o e → I w → I (default w (snd (attempt o e w)))) →
  ∀ w tr c, I w → exec cstep (cinit w) tr c → I (c_word c).
Proof.
  intros HI w tr c Hw Hex.
  destruct (cas_loop_linearizable _ _ _ Hex) as (a & Ha & <-).
  assert (∀ a0 a1 tr, exec astep a0 tr a1 → I (a_word a0) → I (a_word a1)) as Hall.
  { clear -HI. induction 1 as [|a0 l a1 tr a2 Hs Hex IH]; [done|]. intros H0. apply IH.
    destruct Hs as [| w p t o e r new Ht Hok Hat|]; simpl in *; try done.
    specialize (HI o e w Hok H0). by rewrite Hat in HI. }
  by apply (Hall _ _ _ Ha).
Qed.

End CasLoop.

Arguments Invoke {Op Resp}. Arguments Return {Op Resp}. Arguments Tau {Op Resp}.
