(* ===== verification/Dll.v ===== *)
(** Intrusive doubly linked lists over an indexed store.

    The scheduler threads its flows, and the NAT its sessions, on lists whose
    links are fields of the elements and whose nodes are named by index; [~0]
    ends a list and is [None] here.  [DllNode] is the interface an element type
    offers; [seg] and [dll] say that a stretch of the store carries a given list
    of indices, and the section proves what linking in and out do to that list
    and leave of the others.  The operations follow
    [cake_flow_list_prepend], [cake_flow_list_append_tail] and
    [cake_flow_list_remove] of [osvbng_qos_sched.h]. *)

From S2P Require Import Prelude.

Class DllNode (A : Type) := {
  nd_next : A → option Z;
  nd_prev : A → option Z;
  nd_set_next : option Z → A → A;
  nd_set_prev : option Z → A → A
}.

Class DllNodeLaws (A : Type) `{DllNode A} : Prop := {
  next_set_next x v : nd_next (nd_set_next v x) = v;
  prev_set_prev x v : nd_prev (nd_set_prev v x) = v;
  next_set_prev x v : nd_next (nd_set_prev v x) = nd_next x;
  prev_set_next x v : nd_prev (nd_set_next v x) = nd_prev x
}.

Section Dll.

Context {A : Type} `{DllNodeLaws A}.
Implicit Types (m : gmap Z A) (h t : option Z) (i : Z) (l : list Z).

(** ** Operations: head, tail and store in, head, tail and store out *)

Definition dll_prepend (h t : option Z) (m : gmap Z A) (i : Z)
    : option Z * option Z * gmap Z A :=
  let m := alter (λ f, nd_set_prev None (nd_set_next h f)) i m in
  match h with
  | Some j => (Some i, t, alter (nd_set_prev (Some i)) j m)
  | None => (Some i, Some i, m)
  end.

Definition dll_append_tail (h t : option Z) (m : gmap Z A) (i : Z)
    : option Z * option Z * gmap Z A :=
  let m := alter (λ f, nd_set_prev t (nd_set_next None f)) i m in
  match t with
  | Some j => (h, Some i, alter (nd_set_next (Some i)) j m)
  | None => (Some i, Some i, m)
  end.

Definition dll_remove (h t : option Z) (m : gmap Z A) (i : Z)
    : option Z * option Z * gmap Z A :=
  match m !! i with
  | None => (h, t, m)
  | Some f =>
      let '(h, m) :=
        match nd_prev f with
        | Some p => (h, alter (nd_set_next (nd_next f)) p m)
        | None => (nd_next f, m)
        end in
      let '(t, m) :=
        match nd_next f with
        | Some n => (t, alter (nd_set_prev (nd_prev f)) n m)
        | None => (nd_prev f, m)
        end in
      (h, t, alter (λ f, nd_set_prev None (nd_set_next None f)) i m)
  end.

(** ** Segments *)

Fixpoint seg (m : gmap Z A) (p : option Z) (l : list Z) (n : option Z) : Prop :=
  match l with
  | [] => True
  | i :: l =>
      (exists x, m !! i = Some x /\ nd_prev x = p /\
                 nd_next x = match l with [] => n | j :: _ => Some j end) /\
      seg m (Some i) l n
  end.

Definition first (l : list Z) (d : option Z) : option Z :=
  match l with [] => d | i :: _ => Some i end.
Definition final (l : list Z) (d : option Z) : option Z :=
  match last l with Some i => Some i | None => d end.

Lemma final_cons i l d : final (i :: l) d = final l (Some i).
Proof.
  unfold final. rewrite last_cons. destruct (last l) as [j|]; done.
Qed.

Lemma final_snoc l i d : final (l ++ [i]) d = Some i.
Proof. unfold final. by rewrite last_snoc. Qed.

Lemma seg_app m p l1 l2 n :
  seg m p (l1 ++ l2) n <->
  seg m p l1 (first l2 n) /\ seg m (final l1 p) l2 n.
Proof.
  revert p. induction l1 as [|i l1 IH]; intros p.
  { simpl. unfold final. simpl. tauto. }
  rewrite final_cons. simpl. rewrite IH.
  assert (match l1 ++ l2 with [] => n | j :: _ => Some j end
          = match l1 with [] => first l2 n | j :: _ => Some j end) as ->.
  { by destruct l1, l2. }
  tauto.
Qed.

Lemma seg_frame m m' p l n :
  (∀ i, i ∈ l → m' !! i = m !! i) → seg m p l n → seg m' p l n.
Proof.
  revert p. induction l as [|i l IH]; intros p Hm; [done|].
  intros [Hx Hs]. split.
  - rewrite Hm by set_solver. done.
  - apply IH; [|done]. intros j Hj. apply Hm. set_solver.
Qed.

(** Only the links matter. *)
Lemma seg_links m m' p l n :
  (∀ i x, i ∈ l → m !! i = Some x →
     exists y, m' !! i = Some y /\ nd_next y = nd_next x /\ nd_prev y = nd_prev x) →
  seg m p l n → seg m' p l n.
Proof.
  revert p. induction l as [|i l IH]; intros p Hm; [done|].
  intros [(x & Hx & Hp & Hn) Hs]. split.
  - destruct (Hm i x) as (y & Hy & Hyn & Hyp); [set_solver|done|]. exists y.
    rewrite Hyn, Hyp. done.
  - apply IH; [|done]. intros j y Hj. apply Hm. set_solver.
Qed.

Lemma seg_lookup m p l n i : seg m p l n → i ∈ l → is_Some (m !! i).
Proof.
  revert p. induction l as [|j l IH]; intros p; [set_solver|].
  intros [(x & Hx & _) Hs] [->|Hi]%elem_of_cons; [by rewrite Hx|]. by eapply IH.
Qed.

(** The whole list: its indices are distinct, and head and tail are its ends. *)
Definition dll (m : gmap Z A) (h t : option Z) (l : list Z) : Prop :=
  NoDup l /\ h = first l None /\ t = final l None /\ seg m None l None.

Lemma dll_frame m m' h t l :
  (∀ i, i ∈ l → m' !! i = m !! i) → dll m h t l → dll m' h t l.
Proof.
  intros Hm (Hnd & Hh & Ht & Hs). repeat split; try done. by eapply seg_frame.
Qed.

Lemma dll_links m m' h t l :
  (∀ i x, i ∈ l → m !! i = Some x →
     exists y, m' !! i = Some y /\ nd_next y = nd_next x /\ nd_prev y = nd_prev x) →
  dll m h t l → dll m' h t l.
Proof.
  intros Hm (Hnd & Hh & Ht & Hs). repeat split; try done. by eapply seg_links.
Qed.

(** The tail is determined, for a list whose code keeps only the head. *)
Lemma dll_final m h t l : dll m h t l → dll m h (final l None) l.
Proof. intros (Hnd & Hh & _ & Hs). by repeat split. Qed.

Lemma dll_nil m : dll m None None [].
Proof. repeat split; try done. constructor. Qed.

Lemma dll_head_in m h t l i : dll m h t l → h = Some i → exists l', l = i :: l'.
Proof. intros (_ & -> & _) Hi. destruct l as [|j l]; simplify_eq/=. eauto. Qed.

Lemma dll_head_nil m t l : dll m None t l → l = [].
Proof. intros (_ & Hh & _). by destruct l. Qed.

Lemma dll_lookup m h t l i : dll m h t l → i ∈ l → is_Some (m !! i).
Proof. intros (_ & _ & _ & Hs). by eapply seg_lookup. Qed.

Lemma seg_alter_notin m p l n j (f : A → A) :
  j ∉ l → seg m p l n → seg (alter f j m) p l n.
Proof.
  intros Hj. apply seg_frame. intros i Hi. rewrite lookup_alter_ne; [done|].
  intros ->. done.
Qed.

(** Redirecting the incoming link of a segment's first node. *)
Lemma seg_set_prev m p p' i l n :
  i ∉ l → seg m p (i :: l) n → seg (alter (nd_set_prev p') i m) p' (i :: l) n.
Proof.
  intros Hi [(x & Hx & Hp & Hn) Hs]. split.
  - exists (nd_set_prev p' x). rewrite lookup_alter_eq, Hx. simpl.
    rewrite prev_set_prev, next_set_prev. done.
  - by apply seg_alter_notin.
Qed.

(** Redirecting the outgoing link of a segment's last node. *)
Lemma seg_set_next m p l j n n' :
  j ∉ l → seg m p (l ++ [j]) n → seg (alter (nd_set_next n') j m) p (l ++ [j]) n'.
Proof.
  intros Hj. rewrite !seg_app. intros [Hl [(x & Hx & Hp & Hn) _]]. split.
  - by apply seg_alter_notin.
  - split; [|done]. exists (nd_set_next n' x). rewrite lookup_alter_eq, Hx. simpl.
    rewrite prev_set_next, next_set_next. done.
Qed.

(** ** What the operations do to the list *)

Lemma dll_prepend_spec m h t l i m' h' t' :
  dll m h t l → i ∉ l → is_Some (m !! i) →
  dll_prepend h t m i = (h', t', m') →
  dll m' h' t' (i :: l) /\ (∀ j, j ≠ i → j ∉ l → m' !! j = m !! j).
Proof.
  intros (Hnd & -> & -> & Hs) Hi [x Hx]. unfold dll_prepend.
  set (m1 := alter _ i m).
  assert (seg m1 None l None) as Hs1 by (by apply seg_alter_notin).
  assert (m1 !! i = Some (nd_set_prev None (nd_set_next (first l None) x))) as Hx1.
  { unfold m1. rewrite lookup_alter_eq, Hx. done. }
  destruct l as [|j l]; simpl; intros [= <- <- <-].
  - split; [|intros k Hk _; unfold m1; by rewrite lookup_alter_ne].
    repeat split; try done; [apply NoDup_singleton|].
    eexists. split; [exact Hx1|]. rewrite prev_set_prev, next_set_prev, next_set_next. done.
  - apply NoDup_cons in Hnd as [Hj Hnd].
    split.
    + split; [|split; [done|split]].
      * constructor; [done|]. by constructor.
      * by rewrite final_cons, final_cons, final_cons.
      * split; [|by apply (seg_set_prev m1 None)].
        eexists. rewrite lookup_alter_ne by set_solver.
        split; [exact Hx1|]. rewrite prev_set_prev, next_set_prev, next_set_next. done.
    + intros k Hk Hkl. rewrite lookup_alter_ne by set_solver.
      unfold m1. by rewrite lookup_alter_ne.
Qed.

Lemma dll_append_tail_spec m h t l i m' h' t' :
  dll m h t l → i ∉ l → is_Some (m !! i) →
  dll_append_tail h t m i = (h', t', m') →
  dll m' h' t' (l ++ [i]) /\ (∀ j, j ≠ i → j ∉ l → m' !! j = m !! j).
Proof.
  intros (Hnd & -> & -> & Hs) Hi [x Hx]. unfold dll_append_tail.
  set (m1 := alter _ i m).
  assert (seg m1 None l None) as Hs1 by (by apply seg_alter_notin).
  assert (m1 !! i = Some (nd_set_prev (final l None) (nd_set_next None x))) as Hx1.
  { unfold m1. rewrite lookup_alter_eq, Hx. done. }
  destruct l as [|j l _] using rev_ind; simpl; intros Heq.
  - unfold final in *. simpl in *. injection Heq as <- <- <-.
    split; [|intros k Hk _; unfold m1; by rewrite lookup_alter_ne].
    repeat split; try done; [apply NoDup_singleton|].
    eexists. split; [exact Hx1|]. rewrite prev_set_prev, next_set_prev, next_set_next. done.
  - rewrite final_snoc in *. injection Heq as <- <- <-.
    apply NoDup_app in Hnd as (Hnd & Hdis & _).
    assert (j ∉ l) as Hj by (intros Hj; apply (Hdis j Hj); set_solver).
    split.
    + split; [|split; [|split]].
      * apply NoDup_app. split.
        { apply NoDup_app. split; [done|]. split; [done|]. apply NoDup_singleton. }
        split; [set_solver|]. apply NoDup_singleton.
      * by destruct l.
      * by rewrite final_snoc.
      * rewrite seg_app, final_snoc. split; [by apply (seg_set_next m1 None l j None)|].
        split; [|done]. eexists. rewrite lookup_alter_ne by set_solver.
        split; [exact Hx1|]. rewrite prev_set_prev, next_set_prev, next_set_next. done.
    + intros k Hk Hkl. rewrite lookup_alter_ne by set_solver.
      unfold m1. by rewrite lookup_alter_ne.
Qed.

(** The two stores a removal writes, as one segment statement. *)
Lemma seg_unlink m l1 i l2 :
  NoDup (l1 ++ i :: l2) → seg m None (l1 ++ i :: l2) None →
  let m1 := match final l1 None with
            | Some p => alter (nd_set_next (first l2 None)) p m | None => m end in
  let m2 := match first l2 None with
            | Some n => alter (nd_set_prev (final l1 None)) n m1 | None => m1 end in
  seg m2 None (l1 ++ l2) None.
Proof.
  intros Hnd Hs. intros m1 m2.
  apply NoDup_app in Hnd as (Hnd1 & Hdis & Hnd2). apply NoDup_cons in Hnd2 as [Hi Hnd2].
  rewrite seg_app in Hs. destruct Hs as [Hs1 [_ Hs2]].
  assert (seg m1 None l1 (first l2 None) /\ seg m1 (Some i) l2 None) as [Hs1' Hs2'].
  { subst m1. destruct l1 as [|p l1 _] using rev_ind; [done|].
    rewrite final_snoc.
    apply NoDup_app in Hnd1 as (_ & Hd1 & _).
    assert (p ∉ l1) by (intros Hp; apply (Hd1 p Hp); set_solver).
    split; [by eapply seg_set_next|].
    apply seg_alter_notin; [|done]. intros Hp. apply (Hdis p); set_solver. }
  subst m2. destruct l2 as [|n l2]; simpl; [by rewrite app_nil_r|].
  apply NoDup_cons in Hnd2 as [Hn Hnd2].
  rewrite seg_app. split.
  - apply seg_alter_notin; [|done]. intros Hp. apply (Hdis n); set_solver.
  - by apply (seg_set_prev m1 (Some i)).
Qed.

Lemma final_app l1 l2 d : final (l1 ++ l2) d = final l2 (final l1 d).
Proof. unfold final. rewrite last_app. by destruct (last l2). Qed.

Lemma first_app l1 l2 d : first (l1 ++ l2) d = first l1 (first l2 d).
Proof. by destruct l1. Qed.

Lemma final_None l : final l None = None → l = [].
Proof.
  destruct l as [|i l]; [done|]. rewrite final_cons. unfold final.
  by destruct (last l).
Qed.

Lemma first_final_Some l p d : final l None = Some p → ∀ d', first l d = first l d'.
Proof. by destruct l. Qed.

Lemma dll_remove_spec m h t l1 l2 i m' h' t' :
  dll m h t (l1 ++ i :: l2) → dll_remove h t m i = (h', t', m') →
  dll m' h' t' (l1 ++ l2) /\ (∀ j, j ∉ l1 ++ i :: l2 → m' !! j = m !! j) /\
  (∀ x, m !! i = Some x →
     m' !! i = Some (nd_set_prev None (nd_set_next None x))).
Proof.
  intros (Hnd & -> & -> & Hs) Hrm.
  pose proof (seg_unlink m l1 i l2 Hnd Hs) as Hu.
  pose proof Hs as Hs'. rewrite seg_app in Hs'. destruct Hs' as [_ [(x & Hx & Hp & Hn) _]].
  unfold dll_remove in Hrm. rewrite Hx, Hp in Hrm.
  change (match l2 with [] => None | j :: _ => Some j end) with (first l2 None) in Hn.
  rewrite Hn in Hrm.
  apply NoDup_app in Hnd as (Hnd1 & Hdis & Hnd2). apply NoDup_cons in Hnd2 as [Hi Hnd2].
  assert (i ∉ l1) as Hi1 by (intros Hin; apply (Hdis i Hin); set_solver).
  assert (NoDup (l1 ++ l2)) as Hnd12.
  { apply NoDup_app. split; [done|]. split; [|done]. intros j Hj Hj2.
    apply (Hdis j Hj). set_solver. }
  assert (final l1 None ≠ Some i) as Hf1.
  { intros Hf. unfold final in Hf. destruct (last l1) as [k|] eqn:El; [|done].
    simplify_eq. apply last_Some_elem_of in El. done. }
  assert (first l2 None ≠ Some i) as Hf2 by (destruct l2; set_solver).
  set (m1 := match final l1 None with
             | Some p => alter (nd_set_next (first l2 None)) p m | None => m end).
  set (m2 := match first l2 None with
             | Some n => alter (nd_set_prev (final l1 None)) n m1 | None => m1 end).
  change (seg m2 None (l1 ++ l2) None) in Hu.
  assert (h' = first (l1 ++ l2) None /\ t' = final (l1 ++ l2) None /\
          m' = alter (λ f, nd_set_prev None (nd_set_next None f)) i m2) as (-> & -> & ->).
  { subst m1 m2. rewrite final_app, first_app. rewrite final_app, first_app, final_cons in Hrm.
    destruct (final l1 None) as [p|] eqn:E1; destruct l2 as [|n l2];
      simpl in *; injection Hrm as <- <- <-; rewrite ?final_cons;
      rewrite ?(final_None _ E1); repeat split; by eapply first_final_Some. }
  assert (∀ j, j ∉ l1 ++ i :: l2 → m2 !! j = m !! j) as Hfr.
  { intros j Hj. subst m1 m2.
    assert (∀ k, first l2 None = Some k → k ≠ j) as H2 by (destruct l2; set_solver).
    assert (∀ k, final l1 None = Some k → k ≠ j) as H1.
    { intros k Hk. unfold final in Hk. destruct (last l1) eqn:El; simplify_eq.
      apply last_Some_elem_of in El. set_solver. }
    destruct (first l2 None), (final l1 None);
      rewrite ?lookup_alter_ne by auto; done. }
  assert (m2 !! i = Some x) as Hx2.
  { subst m1 m2. destruct (first l2 None), (final l1 None);
      rewrite ?lookup_alter_ne by congruence; done. }
  split; [|split].
  - repeat split; try done. apply seg_alter_notin; [set_solver|done].
  - intros j Hj. rewrite lookup_alter_ne by set_solver. by apply Hfr.
  - intros x' Hx'. rewrite Hx in Hx'. injection Hx' as <-.
    rewrite lookup_alter_eq, Hx2. done.
Qed.

(** ** What the operations leave alone: everything but the links *)

Section Payload.

Context {B : Type} (b : A → B).
Hypothesis b_next : ∀ v x, b (nd_set_next v x) = b x.
Hypothesis b_prev : ∀ v x, b (nd_set_prev v x) = b x.

Lemma fmap_alter_links (g : A → A) i m : (∀ x, b (g x) = b x) → b <$> alter g i m = b <$> m.
Proof.
  intros Hg. apply map_eq. intros j. rewrite !lookup_fmap.
  destruct (decide (j = i)) as [->|]; [|by rewrite lookup_alter_ne by congruence].
  rewrite lookup_alter_eq. destruct (m !! i); simpl; [by rewrite Hg|done].
Qed.

Ltac payload :=
  cbv zeta;
  repeat (case_match; try done);
  intros; simplify_eq;
  rewrite ?fmap_alter_links by (intros; rewrite ?b_next, ?b_prev; done); done.

Lemma dll_prepend_payload m h t i m' h' t' :
  dll_prepend h t m i = (h', t', m') → b <$> m' = b <$> m.
Proof. unfold dll_prepend. payload. Qed.

Lemma dll_append_tail_payload m h t i m' h' t' :
  dll_append_tail h t m i = (h', t', m') → b <$> m' = b <$> m.
Proof. unfold dll_append_tail. payload. Qed.

Lemma dll_remove_payload m h t i m' h' t' :
  dll_remove h t m i = (h', t', m') → b <$> m' = b <$> m.
Proof. unfold dll_remove. payload. Qed.

End Payload.

End Dll.
