(* ===== verification/Drr.v ===== *)
(** Deficit round robin core: [plugins/osvbng_qos_sched/cake_drr.h].

    Module [Drr] holds the owner-local child (refill, admission, charge,
    activation), the parent's two counters and the shared child whose round tag
    and biased deficit live in one atomically updated word. *)

From S2P Require Import Prelude Atomic.

Module Drr.

Definition CAKE_DRR_ROUND_PERIOD_NS : Z := 1000000.
Definition CAKE_MAX_PKT_BYTES : Z := 2048.
Definition CAKE_DRR_DEFICIT_BIAS : Z := 2147483648.
Definition CAKE_DRR_ROUND_STALE_LEAD : Z := Z.shiftl 1 20.

Record cake_drr_child_t := mkChild {
  effective_weight : Z;   (* u64 *)
  deficit : Z;            (* i64 *)
  round : Z;              (* u32 *)
  active : bool           (* u8 *)
}.
#[global] Instance eta_child : Eta cake_drr_child_t := λ c,
  mkChild (effective_weight c) (deficit c) (round c) (active c).

Record cake_drr_shared_child_t := mkShared {
  sh_effective_weight : Z; (* u64 *)
  round_deficit : Z        (* u64: round tag, biased deficit *)
}.
#[global] Instance eta_shared : Eta cake_drr_shared_child_t := λ c,
  mkShared (sh_effective_weight c) (round_deficit c).

Inductive cake_drr_admit_t :=
  | CAKE_DRR_BLOCKED
  | CAKE_DRR_ADMIT
  | CAKE_DRR_UNARBITRATED.

#[global] Instance cake_drr_admit_eq_dec : EqDecision cake_drr_admit_t.
Proof. solve_decision. Defined.

(** ** Rounds *)

Definition cake_drr_round (now_ns : Z) : Z :=
  u32 (now_ns / CAKE_DRR_ROUND_PERIOD_NS).

Definition cake_drr_round_advanced (round current : Z) : bool :=
  0 <? i32 (u32 (round - current)).

Definition cake_drr_round_stale (round current : Z) : bool :=
  i32 (u32 (round - current)) <? - CAKE_DRR_ROUND_STALE_LEAD.

Definition cake_drr_round_refill_due (round current : Z) : bool :=
  cake_drr_round_advanced round current || cake_drr_round_stale round current.

Definition cake_drr_round_bytes (rate_bytes_per_sec : Z) : Z :=
  u64 (rate_bytes_per_sec * CAKE_DRR_ROUND_PERIOD_NS) / 1000000000.

(** The product is a 128-bit intermediate, so it never wraps; the quotient is
    cast back to [u64]. *)
Definition cake_drr_quantum (round_bytes effective_weight active_weight : Z) : Z :=
  let active_weight :=
    if active_weight <? effective_weight then effective_weight else active_weight in
  u64 ((round_bytes * effective_weight) / active_weight).

(** ** The owner-local child *)

Definition cake_drr_refill (child : cake_drr_child_t)
    (round_bytes active_weight new_round : Z) : cake_drr_child_t :=
  let quantum :=
    i64 (cake_drr_quantum round_bytes (effective_weight child) active_weight) in
  let cap := i64 (2 * quantum) in
  let cap := if cap <? CAKE_MAX_PKT_BYTES then CAKE_MAX_PKT_BYTES else cap in
  let refilled := i64 (deficit child + quantum) in
  child⟪deficit := if refilled <? cap then refilled else cap⟫
       ⟪round := new_round⟫.

Definition cake_drr_escape_open (deficit parent_shaper_time_ns now_ns : Z) : bool :=
  (- CAKE_MAX_PKT_BYTES <? deficit) &&
  (u64 (parent_shaper_time_ns + CAKE_DRR_ROUND_PERIOD_NS) <=? now_ns).

Definition cake_drr_local_admit (child : cake_drr_child_t)
    (round_bytes active_weight parent_shaper_time_ns now_ns : Z)
    : cake_drr_child_t * cake_drr_admit_t :=
  let r := cake_drr_round now_ns in
  let child :=
    if cake_drr_round_refill_due r (round child)
    then cake_drr_refill child round_bytes active_weight r
    else child in
  if 0 <? deficit child then (child, CAKE_DRR_ADMIT)
  else if cake_drr_escape_open (deficit child) parent_shaper_time_ns now_ns
       then (child, CAKE_DRR_ADMIT)
       else (child, CAKE_DRR_BLOCKED).

Definition cake_drr_local_charge (child : cake_drr_child_t) (adj_len : Z)
    : cake_drr_child_t :=
  child⟪deficit := i64 (deficit child - adj_len)⟫.

Definition cake_drr_child_activate (child : cake_drr_child_t)
    : cake_drr_child_t * bool :=
  if active child then (child, false)
  else
    let child := if 0 <? deficit child then child⟪deficit := 0⟫ else child in
    (child⟪active := true⟫, true).

Definition cake_drr_child_deactivate (child : cake_drr_child_t)
    : cake_drr_child_t * bool :=
  if active child then (child⟪active := false⟫, true) else (child, false).

(** ** The parent's counters: new weight, new count, previous count *)

Definition cake_drr_parent_join (active_weight n_active_children weight : Z)
    : Z * Z * Z :=
  (u64 (active_weight + weight), u32 (n_active_children + 1), n_active_children).

Definition cake_drr_parent_leave (active_weight n_active_children weight : Z)
    : Z * Z * Z :=
  (u64 (active_weight - weight), u32 (n_active_children - 1), n_active_children).

(** ** The shared child *)

Definition word_of (round biased : Z) : Z := Z.lor (Z.shiftl round 32) biased.
Definition word_round (w : Z) : Z := u32 (Z.shiftr w 32).
Definition word_biased (w : Z) : Z := u32 w.

Definition cake_drr_shared_init (weight now_ns : Z) : cake_drr_shared_child_t :=
  mkShared weight (word_of (cake_drr_round now_ns) CAKE_DRR_DEFICIT_BIAS).

(** One pass of the compare-and-swap loop of [cake_drr_shared_reserve] over
    the loaded word: the decision, and the word the exchange would store
    ([None]: the pass leaves the loop without an exchange). *)
Definition cake_drr_shared_reserve (weight round_bytes active_weight
    parent_shaper_time_ns adj_len now_ns old : Z)
    : cake_drr_admit_t * option Z :=
  let r := cake_drr_round now_ns in
  let cur_round := word_round old in
  let biased := word_biased old in
  let refilled := cake_drr_round_refill_due r cur_round in
  let biased :=
    if refilled then
      let quantum := cake_drr_quantum round_bytes weight active_weight in
      let cap := i64 (2 * i64 quantum) in
      let cap := if cap <? CAKE_MAX_PKT_BYTES then CAKE_MAX_PKT_BYTES else cap in
      let topped_up := u64 (biased + quantum) in
      let ceiling := u64 (CAKE_DRR_DEFICIT_BIAS + u64 cap) in
      u32 (if topped_up <? ceiling then topped_up else ceiling)
    else biased in
  let admitted :=
    (CAKE_DRR_DEFICIT_BIAS <? biased) ||
    cake_drr_escape_open (biased - CAKE_DRR_DEFICIT_BIAS)
      parent_shaper_time_ns now_ns in
  let res := if admitted then CAKE_DRR_ADMIT else CAKE_DRR_BLOCKED in
  if negb admitted && negb refilled then (res, None)
  else
    (res, Some (word_of (if refilled then r else cur_round)
                        (if admitted then u32 (biased - adj_len) else biased))).

Definition cake_drr_shared_refund (adj_len old : Z) : Z := u64 (old + adj_len).

(** * Quanta *)

Lemma quantum_le_round rb w aw :
  is_u64 rb → 0 < w → 0 <= cake_drr_quantum rb w aw <= rb.
Proof.
  intros Hrb Hw. unfold cake_drr_quantum.
  set (a := if aw <? w then w else aw).
  assert (w <= a) as Ha by (subst a; destruct (Z.ltb_spec aw w); lia).
  assert (0 <= rb * w / a <= rb) as H.
  { split; [apply Z.div_pos; unfold is_u64 in *; nia|].
    apply Z.div_le_upper_bound; [lia|]. unfold is_u64 in *. nia. }
  rewrite u64_small; [done|]. unfold is_u64 in *. lia.
Qed.

Lemma quantum_exact rb w aw :
  is_u64 rb → 0 < w <= aw → cake_drr_quantum rb w aw = rb * w / aw.
Proof.
  intros Hrb [Hw Ha]. pose proof (quantum_le_round rb w aw Hrb Hw) as H.
  unfold cake_drr_quantum in *. destruct (Z.ltb_spec aw w); [lia|].
  apply u64_small. split; [apply Z.div_pos; unfold is_u64 in *; nia|].
  apply Z.le_lt_trans with rb; [|apply Hrb].
  apply Z.div_le_upper_bound; [lia|]. unfold is_u64 in *. nia.
Qed.

Lemma quanta_mul_le rb W ws :
  is_u64 rb → Forall (fun w => 0 < w <= W) ws →
  zsum (map (fun w => cake_drr_quantum rb w W) ws) * W <= rb * zsum ws.
Proof.
  intros Hrb. induction 1 as [|w ws Hw Hws IH]; simpl; [lia|].
  rewrite quantum_exact by done.
  pose proof (Z.mul_div_le (rb * w) W ltac:(lia)).
  unfold zsum in *. simpl. nia.
Qed.

(** Conservation of a parent's round: when the active weight a parent
    publishes is the sum of its active children's weights, the quanta handed
    to the children never add up to more than the bytes the parent passes in
    one round, whatever the weights. *)
Theorem quanta_conserve_round (rb : Z) (ws : list Z) :
  is_u64 rb → Forall (fun w => 0 < w) ws →
  zsum (map (fun w => cake_drr_quantum rb w (zsum ws)) ws) <= rb.
Proof.
  intros Hrb Hws. destruct (decide (ws = [])) as [->|Hne].
  { simpl. unfold zsum. simpl. unfold is_u64 in Hrb. lia. }
  assert (0 < zsum ws) as Hpos.
  { destruct Hws as [|w ws Hw Hws]; [done|]. simpl.
    assert (0 <= zsum ws) by (by apply zsum_nonneg, pos_nonneg).
    unfold zsum in *. simpl. lia. }
  assert (Forall (fun w => 0 < w <= zsum ws) ws) as Hle.
  { apply Forall_forall. intros w Hin. pose proof (proj1 (Forall_forall _ _) Hws w Hin).
    split; [done|]. apply zsum_elem_le; [|done]. by apply pos_nonneg. }
  pose proof (quanta_mul_le rb (zsum ws) ws Hrb Hle). nia.
Qed.

Lemma quanta_conserve_round_witness :
  is_u64 125000 /\
  zsum (map (fun w => cake_drr_quantum 125000 w (zsum [3;1;7])) [3;1;7]) <= 125000.
Proof.
  split; [unfold is_u64; lia|].
  apply (quanta_conserve_round 125000 [3;1;7]); [unfold is_u64; lia|].
  repeat constructor; lia.
Defined.

(** * The packed word *)

Lemma word_of_add r b : 0 <= r → is_u32 b → word_of r b = r * 2 ^ 32 + b.
Proof.
  intros Hr Hb. unfold word_of. rewrite Z.lor_comm, lor_shiftl_add; [lia|lia|exact Hb].
Qed.

Lemma word_round_of r b : is_u32 r → is_u32 b → word_round (word_of r b) = r.
Proof.
  intros Hr Hb. rewrite word_of_add by (unfold is_u32 in *; lia).
  unfold word_round. rewrite Z.shiftr_div_pow2 by lia. ints.
Qed.

Lemma word_biased_of r b : is_u32 r → is_u32 b → word_biased (word_of r b) = b.
Proof.
  intros Hr Hb. rewrite word_of_add by (unfold is_u32 in *; lia).
  unfold word_biased. ints.
Qed.

Lemma word_of_parts w : is_u64 w → word_of (word_round w) (word_biased w) = w.
Proof.
  intros Hw. unfold word_round, word_biased.
  rewrite Z.shiftr_div_pow2 by lia.
  rewrite word_of_add by ints. ints.
Qed.

Lemma word_of_range r b : is_u32 r → is_u32 b → is_u64 (word_of r b).
Proof. intros Hr Hb. rewrite word_of_add by (unfold is_u32 in *; lia). ints. Qed.

Lemma word_parts_range w : is_u32 (word_round w) /\ is_u32 (word_biased w).
Proof. split; apply u32_range. Qed.

(** * The refill, in the range where nothing wraps

    [Q] bounds a quantum: a parent of 100 Gbit/s passes 12.5 MB a round, so
    [2 ^ 29] leaves a factor of forty. *)

Definition Q_MAX : Z := 2 ^ 29.
Definition ADJ_MAX : Z := 2 ^ 16.

Definition cap_of (quantum : Z) : Z := Z.max (2 * quantum) CAKE_MAX_PKT_BYTES.

Lemma refill_deficit c rb aw r :
  0 <= cake_drr_quantum rb (effective_weight c) aw <= Q_MAX →
  - 2 ^ 62 <= deficit c <= 2 ^ 62 →
  deficit (cake_drr_refill c rb aw r)
  = Z.min (deficit c + cake_drr_quantum rb (effective_weight c) aw)
          (cap_of (cake_drr_quantum rb (effective_weight c) aw)).
Proof.
  intros Hq Hd. unfold cake_drr_refill, cap_of, CAKE_MAX_PKT_BYTES, Q_MAX in *. cbn.
  set (q := cake_drr_quantum _ _ _) in *.
  rewrite (i64_small q), !i64_small by lia.
  zcases; lia.
Qed.

(** Fields a refill does not touch. *)
Lemma refill_frame c rb aw r :
  effective_weight (cake_drr_refill c rb aw r) = effective_weight c /\
  round (cake_drr_refill c rb aw r) = r /\
  active (cake_drr_refill c rb aw r) = active c.
Proof. done. Qed.

(** * Round tags *)

Lemma refill_due_window R M :
  0 <= M → M - 2 ^ 20 <= R <= M + 2 ^ 20 →
  cake_drr_round_refill_due (u32 R) (u32 M) = (M <? R).
Proof.
  intros HM HR.
  assert (i32 (u32 (u32 R - u32 M)) = R - M) as Hd by ints.
  unfold cake_drr_round_refill_due, cake_drr_round_advanced, cake_drr_round_stale.
  rewrite Hd. unfold CAKE_DRR_ROUND_STALE_LEAD. change (Z.shiftl 1 20) with (2 ^ 20).
  destruct (Z.ltb_spec 0 (R - M)), (Z.ltb_spec (R - M) (- 2 ^ 20)),
    (Z.ltb_spec M R); simpl; lia || done.
Qed.

Lemma refill_due_iff r c :
  cake_drr_round_refill_due r c = true <->
  0 < i32 (u32 (r - c)) \/ i32 (u32 (r - c)) < - 2 ^ 20.
Proof.
  unfold cake_drr_round_refill_due, cake_drr_round_advanced, cake_drr_round_stale.
  rewrite orb_true_iff, !Z.ltb_lt. done.
Qed.

(** No ping-pong and no wedge.  Two workers whose tags are at most 2^20
    rounds apart never both find a refill due against the other's tag (so a
    lagging worker cannot re-issue the leader's quantum), while against any
    tag at least one of "now" and "every later round within the next 2^20"
    is due: a stale or pre-wrap tag always gets refilled. *)
Theorem refill_due_one_sided (r c : Z) :
  is_u32 r → is_u32 c →
  (- 2 ^ 20 <= i32 (u32 (r - c)) <= 2 ^ 20 →
   ¬ (cake_drr_round_refill_due r c = true /\ cake_drr_round_refill_due c r = true)) /\
  (cake_drr_round_refill_due r c = false →
   exists k, 0 < k <= 2 ^ 20 + 1 /\ cake_drr_round_refill_due (u32 (r + k)) c = true).
Proof.
  intros Hr Hc. split.
  - intros Hw [H1 H2]. apply refill_due_iff in H1, H2. ints.
  - intros Hn.
    assert (- 2 ^ 20 <= i32 (u32 (r - c)) <= 0) as Hd.
    { apply not_true_iff_false in Hn. rewrite refill_due_iff in Hn. lia. }
    exists (1 - i32 (u32 (r - c))). split; [lia|].
    apply refill_due_iff. left. ints.
Qed.

Lemma refill_due_one_sided_witness :
  is_u32 7 /\ is_u32 5 /\ ¬ (cake_drr_round_refill_due 7 5 = true /\
                              cake_drr_round_refill_due 5 7 = true).
Proof.
  split; [unfold is_u32; lia|]. split; [unfold is_u32; lia|].
  apply (refill_due_one_sided 7 5); [unfold is_u32; lia..|].
  vm_compute. split; discriminate.
Defined.

(** * The shared child refines the owner-local child

    [unpack] reads the packed word as an owner-local child; [deficit_ok] is the
    range in which the biased deficit stays inside its 32 bits. *)

Definition deficit_ok (d : Z) : Prop :=
  - (CAKE_MAX_PKT_BYTES + ADJ_MAX) < d <= 2 * Q_MAX.

Definition unpack (weight w : Z) : cake_drr_child_t :=
  mkChild weight (word_biased w - CAKE_DRR_DEFICIT_BIAS) (word_round w) true.

Definition pack (c : cake_drr_child_t) : Z :=
  word_of (round c) (deficit c + CAKE_DRR_DEFICIT_BIAS).

Definition local_take (c : cake_drr_child_t)
    (rb aw vt adj now : Z) : cake_drr_child_t * cake_drr_admit_t :=
  let '(c, res) := cake_drr_local_admit c rb aw vt now in
  (if decide (res = CAKE_DRR_ADMIT) then cake_drr_local_charge c adj else c, res).

Lemma local_take_spec c rb aw vt adj now :
  0 <= cake_drr_quantum rb (effective_weight c) aw <= Q_MAX →
  deficit_ok (deficit c) → 0 <= adj <= ADJ_MAX →
  let q := cake_drr_quantum rb (effective_weight c) aw in
  let due := cake_drr_round_refill_due (cake_drr_round now) (round c) in
  let d := if due then Z.min (deficit c + q) (cap_of q) else deficit c in
  let adm := (0 <? d) || cake_drr_escape_open d vt now in
  local_take c rb aw vt adj now =
    (mkChild (effective_weight c) (if adm then d - adj else d)
       (if due then cake_drr_round now else round c) (active c),
     if adm then CAKE_DRR_ADMIT else CAKE_DRR_BLOCKED).
Proof.
  intros Hq Hd Ha q due d adm.
  assert (- 2 ^ 62 <= deficit c <= 2 ^ 62) as Hd' by
    (unfold deficit_ok, CAKE_MAX_PKT_BYTES, ADJ_MAX, Q_MAX in *; lia).
  assert (- 2 ^ 61 <= d <= 2 ^ 61) as Hd2.
  { subst d. unfold deficit_ok, cap_of, CAKE_MAX_PKT_BYTES, ADJ_MAX, Q_MAX in *.
    destruct due; lia. }
  unfold local_take, cake_drr_local_admit. fold due.
  set (c' := if due then _ else _).
  assert (deficit c' = d) as Hc by (subst c' d; destruct due; [apply refill_deficit|]; done).
  assert (c' = mkChild (effective_weight c) d
                 (if due then cake_drr_round now else round c) (active c)) as ->.
  { rewrite <- Hc. subst c'. destruct due; [|destruct c]; done. }
  cbn [deficit]. subst adm. unfold cake_drr_local_charge.
  destruct (0 <? d); cbn; [|destruct (cake_drr_escape_open d vt now)]; cbn; try done;
    rewrite i64_small by (unfold ADJ_MAX in *; lia); done.
Qed.

Lemma local_take_deficit_ok c rb aw vt adj now c' res :
  0 <= cake_drr_quantum rb (effective_weight c) aw <= Q_MAX →
  deficit_ok (deficit c) → 0 <= adj <= ADJ_MAX →
  local_take c rb aw vt adj now = (c', res) →
  deficit_ok (deficit c').
Proof.
  intros Hq Hd Ha. rewrite local_take_spec by done. intros [= <- <-]. cbn.
  unfold cake_drr_escape_open, deficit_ok, cap_of, CAKE_MAX_PKT_BYTES, ADJ_MAX, Q_MAX in *.
  set (q := cake_drr_quantum _ _ _) in *.
  destruct (cake_drr_round_refill_due _ _); zcases; try lia;
  match goal with |- context [if ?b && ?b' then _ else _] => destruct b, b' end; lia.
Qed.

Lemma reserve_refines_local (weight rb aw vt adj now old : Z) :
  is_u64 old → deficit_ok (deficit (unpack weight old)) →
  0 <= cake_drr_quantum rb weight aw <= Q_MAX → 0 <= adj <= ADJ_MAX →
  let '(res, upd) := cake_drr_shared_reserve weight rb aw vt adj now old in
  let w' := default old upd in
  let '(c', res') := local_take (unpack weight old) rb aw vt adj now in
  res = res' /\ w' = pack c' /\ unpack weight w' = c' /\ is_u64 w' /\
  deficit_ok (deficit c').
Proof.
  intros Hold Hd Hq Ha.
  pose proof (word_parts_range old) as [Hr Hb].
  destruct (local_take (unpack weight old) rb aw vt adj now) as [c' res'] eqn:Hl.
  assert (deficit_ok (deficit c')) as Hd' by (eapply local_take_deficit_ok; [| | |exact Hl]; done).
  rewrite local_take_spec in Hl by done. cbn in Hl.
  set (q := cake_drr_quantum rb weight aw) in *.
  set (due := cake_drr_round_refill_due _ _) in *.
  set (b := word_biased old) in *.
  set (d := if due then _ else _) in *.
  assert (is_u32 (cake_drr_round now)) as Hrn by apply u32_range.
  unfold cake_drr_shared_reserve. fold q b due.
  set (b' := if due then _ else _).
  assert (b' = d + CAKE_DRR_DEFICIT_BIAS) as Hb'.
  { subst b' d. cbn in Hd. fold b in Hd.
    unfold deficit_ok, cap_of, CAKE_DRR_DEFICIT_BIAS, CAKE_MAX_PKT_BYTES, ADJ_MAX, Q_MAX in *.
    destruct due; [|lia].
    rewrite (i64_small q), (i64_small (2 * q)), (u64_small (b + q)) by (unfold is_u64, is_u32 in *; lia).
    replace (if 2 * q <? 2048 then 2048 else 2 * q) with (Z.max (2 * q) 2048) by (zcases; lia).
    rewrite (u64_small (Z.max _ _)), u64_small, u32_small by (unfold is_u64, is_u32 in *; zcases; lia).
    zcases; lia. }
  rewrite Hb'. replace (d + CAKE_DRR_DEFICIT_BIAS - CAKE_DRR_DEFICIT_BIAS) with d by lia.
  replace (CAKE_DRR_DEFICIT_BIAS <? d + CAKE_DRR_DEFICIT_BIAS) with (0 <? d) by (zcases; lia).
  set (adm := (0 <? d) || cake_drr_escape_open d vt now) in *.
  injection Hl as <- <-. cbn in Hd'.
  set (r' := if due then cake_drr_round now else word_round old) in *.
  set (d' := if adm then d - adj else d) in *.
  assert (is_u32 r') as Hr' by (subst r'; destruct due; done).
  assert (is_u32 (d' + CAKE_DRR_DEFICIT_BIAS)) as Hdb.
  { unfold deficit_ok, CAKE_DRR_DEFICIT_BIAS, CAKE_MAX_PKT_BYTES, ADJ_MAX, Q_MAX, is_u32 in *. lia. }
  assert ((if adm then u32 (d + CAKE_DRR_DEFICIT_BIAS - adj) else d + CAKE_DRR_DEFICIT_BIAS)
          = d' + CAKE_DRR_DEFICIT_BIAS) as ->.
  { subst d'. destruct adm; [|done]. rewrite u32_small; [lia|].
    unfold is_u32 in *. lia. }
  assert (∀ x, x = word_of r' (d' + CAKE_DRR_DEFICIT_BIAS) →
    x = pack (mkChild weight d' r' true) /\
    unpack weight x = mkChild weight d' r' true /\ is_u64 x /\ deficit_ok d') as Hfin.
  { intros x ->. split; [done|]. split.
    { unfold unpack. rewrite word_biased_of, word_round_of by done. f_equal. lia. }
    split; [apply word_of_range; done|done]. }
  destruct (negb adm && negb due) eqn:Hnone.
  - destruct adm, due; try done. cbn. split; [done|]. apply Hfin.
    subst d' r' d. rewrite <- (word_of_parts old) at 1 by done. f_equal. fold b. lia.
  - cbn. split; [done|]. apply Hfin. done.
Qed.

(** The lock-free shared child implements the owner-local discipline: on a
    word whose deficit is in range, one pass of [cake_drr_shared_reserve]
    decides exactly what refill, admit and charge decide on the unpacked child,
    and the word it stores (or leaves) is the packed result; the packed deficit
    stays in range, so the 32-bit subtraction never crosses zero and never
    carries into the round tag. *)
Theorem shared_reserve_refines_local (weight rb aw vt adj now old : Z) :
  is_u64 old → deficit_ok (deficit (unpack weight old)) →
  0 <= cake_drr_quantum rb weight aw <= Q_MAX → 0 <= adj <= ADJ_MAX →
  let '(res, upd) := cake_drr_shared_reserve weight rb aw vt adj now old in
  let w' := default old upd in
  let '(c', res') := local_take (unpack weight old) rb aw vt adj now in
  res = res' /\ w' = pack c' /\ unpack weight w' = c' /\ is_u64 w' /\
  deficit_ok (deficit c').
Proof. apply reserve_refines_local. Qed.

Lemma shared_reserve_refines_local_witness :
  let w := word_of 3 2147483648 in
  is_u64 w /\
  default w (snd (cake_drr_shared_reserve 10 125000 20 4000000 1500 4000000 w))
  = word_of 4 2147544648 /\
  unpack 10 (word_of 4 2147544648)
  = fst (local_take (unpack 10 w) 125000 20 4000000 1500 4000000).
Proof.
  intros w.
  assert (is_u64 w) as Hw by (vm_compute; split; [discriminate|reflexivity]).
  pose proof (shared_reserve_refines_local 10 125000 20 4000000 1500 4000000 w Hw
    ltac:(vm_compute; split; [reflexivity|discriminate])
    ltac:(vm_compute; split; discriminate) ltac:(vm_compute; split; discriminate)) as H.
  split; [exact Hw|]. split; [vm_compute; reflexivity|].
  destruct (cake_drr_shared_reserve _ _ _ _ _ _ _) as [res o] eqn:E.
  destruct (local_take _ _ _ _ _ _) as [c' res'].
  destruct H as (_ & _ & Hu & _). rewrite <- Hu. f_equal.
  vm_compute in E. injection E as <- <-. vm_compute. reflexivity.
Defined.

(** * Credit over a run

    A [take] is one call of [cake_drr_shared_reserve] with the values it reads
    beside the word; a run threads the word through a list of them in the order
    their exchanges take effect. *)

Record take := mkTake {
  tk_round_bytes : Z; tk_active_weight : Z; tk_parent_vt : Z;
  tk_adj_len : Z; tk_now : Z
}.

Definition shared_take (weight w : Z) (t : take) : Z * Z :=
  let '(res, upd) :=
    cake_drr_shared_reserve weight (tk_round_bytes t) (tk_active_weight t)
      (tk_parent_vt t) (tk_adj_len t) (tk_now t) w in
  (if decide (res = CAKE_DRR_ADMIT) then tk_adj_len t else 0, default w upd).

Fixpoint shared_run (weight w : Z) (ts : list take) : Z * Z :=
  match ts with
  | [] => (0, w)
  | t :: ts =>
      let '(b, w) := shared_take weight w t in
      let '(bs, w) := shared_run weight w ts in
      (b + bs, w)
  end.

Definition wall_round (t : take) : Z := tk_now t / CAKE_DRR_ROUND_PERIOD_NS.

(** The rounds of the run lie in the window the signed tag comparison is
    designed for, and no quantum exceeds [Q]. *)
Definition take_ok (weight Q R0 : Z) (t : take) : Prop :=
  R0 <= wall_round t <= R0 + 2 ^ 20 /\ 0 <= tk_adj_len t <= ADJ_MAX /\
  0 <= cake_drr_quantum (tk_round_bytes t) weight (tk_active_weight t) <= Q.

Definition last_round (M : Z) (ts : list take) : Z :=
  foldr (fun t M => Z.max (wall_round t) M) M ts.

Lemma last_round_max M N ts :
  last_round (Z.max M N) ts = Z.max N (last_round M ts).
Proof. induction ts as [|t ts IH]; simpl; [lia|]. rewrite IH. lia. Qed.

Lemma shared_take_step weight Q R0 M w t :
  Q <= Q_MAX → take_ok weight Q R0 t → 0 <= R0 <= M → M <= R0 + 2 ^ 20 →
  is_u64 w → deficit_ok (deficit (unpack weight w)) → word_round w = u32 M →
  let '(b, w') := shared_take weight w t in
  let M' := Z.max (wall_round t) M in
  is_u64 w' /\ deficit_ok (deficit (unpack weight w')) /\ word_round w' = u32 M' /\
  b + deficit (unpack weight w') <= deficit (unpack weight w) + Q * (M' - M).
Proof.
  intros HQ [HR [Ha Hq]] HM HM' Hw Hd Hr. unfold shared_take.
  pose proof (reserve_refines_local weight (tk_round_bytes t) (tk_active_weight t)
    (tk_parent_vt t) (tk_adj_len t) (tk_now t) w Hw Hd ltac:(lia) Ha) as H.
  destruct (cake_drr_shared_reserve _ _ _ _ _ _ _) as [res upd]. simpl in H.
  rewrite local_take_spec in H by (cbn; done || lia). cbn in H.
  destruct H as (Hres & _ & Hc & Hw' & Hd').
  rewrite Hc. split; [exact Hw'|]. split; [exact Hd'|].
  set (q := cake_drr_quantum _ _ _) in *.
  assert (cake_drr_round_refill_due (cake_drr_round (tk_now t)) (word_round w)
          = (M <? wall_round t)) as Hdue.
  { rewrite Hr. apply refill_due_window; lia. }
  rewrite Hdue in *.
  assert (word_round (default w upd) = round (unpack weight (default w upd))) as -> by done.
  rewrite Hc. cbn.
  split. { unfold cake_drr_round. fold (wall_round t). zcases; f_equal; try lia.
           rewrite Hr. f_equal. lia. }
  subst res. set (d := if M <? wall_round t then _ else _) in *.
  assert (d <= word_biased w - CAKE_DRR_DEFICIT_BIAS + Q * (Z.max (wall_round t) M - M)).
  { subst d. zcases; nia. }
  destruct ((0 <? d) || cake_drr_escape_open d (tk_parent_vt t) (tk_now t));
    rewrite ?decide_True, ?decide_False by done; lia.
Qed.

Lemma shared_run_bound weight Q R0 ts : Q <= Q_MAX → 0 <= R0 →
  Forall (take_ok weight Q R0) ts → ∀ M w,
  R0 <= M <= R0 + 2 ^ 20 →
  is_u64 w → deficit_ok (deficit (unpack weight w)) → word_round w = u32 M →
  let '(b, w') := shared_run weight w ts in
  deficit_ok (deficit (unpack weight w')) /\
  b + deficit (unpack weight w')
  <= deficit (unpack weight w) + Q * (last_round M ts - M).
Proof.
  intros HQ HR0. induction 1 as [|t ts Ht Hts IH]; intros M w HM Hw Hd Hr.
  { cbn. split; [done|lia]. }
  pose proof (shared_take_step weight Q R0 M w t HQ Ht ltac:(lia) ltac:(lia) Hw Hd Hr) as H.
  simpl. destruct (shared_take weight w t) as [b w'].
  destruct H as (Hw' & Hd' & Hr' & Hle).
  destruct Ht as [HRt _].
  specialize (IH (Z.max (wall_round t) M) w' ltac:(lia) Hw' Hd' Hr').
  destruct (shared_run weight w' ts) as [bs w'']. destruct IH as [Hd'' IH].
  split; [done|]. rewrite (Z.max_comm (wall_round t) M), last_round_max in IH.
  rewrite (Z.max_comm (wall_round t) M) in Hle. cbn in *.
  rewrite Z.mul_sub_distr_l in *. lia.
Qed.

(** C40. What arbitration guarantees siblings: over a run of reservations on a shared
    child, by any number of workers, with any interleaving of their exchanges and their
    clocks straddling round boundaries in either direction, the bytes admitted never
    exceed the credit at the start, plus one quantum [Q] per wall-clock round from the
    round [R0] of the word at the start to the last round a reservation saw, plus
    [CAKE_MAX_PKT_BYTES + ADJ_MAX], that is 2048 + 65536 bytes of debt.  Work conserving
    escapes are charged and therefore included.  The run is one of reservations alone,
    without refunds (a refund gives admitted bytes back, which are counted here); every
    clock in it is in the round [R0] or at most 2^20 rounds after it, since a word further
    behind counts as stale and one ahead as not yet due; quanta are at most [Q], which is
    at most 2^29; adjusted packet lengths are from 0 to [ADJ_MAX] = 65536; and the credit
    at the start is in the range the reservations keep it in ([deficit_ok]). *)
Theorem shared_run_rate_bound (weight Q R0 w : Z) (ts : list take) :
  Q <= Q_MAX → 0 <= R0 → Forall (take_ok weight Q R0) ts →
  is_u64 w → deficit_ok (deficit (unpack weight w)) → word_round w = u32 R0 →
  fst (shared_run weight w ts)
  <= deficit (unpack weight w) + Q * (last_round R0 ts - R0)
     + CAKE_MAX_PKT_BYTES + ADJ_MAX.
Proof.
  intros HQ HR Hts Hw Hd Hr.
  pose proof (shared_run_bound weight Q R0 ts HQ HR Hts R0 w ltac:(lia) Hw Hd Hr) as H.
  destruct (shared_run weight w ts) as [b w']. destruct H as [Hd' H].
  unfold deficit_ok in *. cbn [fst]. lia.
Qed.

Lemma shared_run_rate_bound_witness :
  let w := word_of 4 (CAKE_DRR_DEFICIT_BIAS + 100) in
  let ts := [mkTake 125000 100 9000000 1500 5000000;
             mkTake 125000 100 9000000 1500 4900000;
             mkTake 125000 100 9000000 1500 5100000] in
  Forall (take_ok 1 1250 4) ts /\ fst (shared_run 1 w ts) <= 100 + 1250 + 2048 + 65536.
Proof.
  intros w ts.
  assert (Forall (take_ok 1 1250 4) ts) as Hts.
  { repeat constructor; vm_compute; discriminate. }
  split; [exact Hts|].
  pose proof (shared_run_rate_bound 1 1250 4 w ts ltac:(vm_compute; discriminate)
    ltac:(lia) Hts ltac:(vm_compute; split; [discriminate|reflexivity])
    ltac:(vm_compute; split; [reflexivity|discriminate]) ltac:(vm_compute; reflexivity)) as H.
  exact H.
Defined.

(** * The shared child as threads run it

    The values a pass reads beside the word (round bytes, active weight, the
    parent's virtual time) are the pass's environment; a refund is an atomic
    add. *)

Inductive drr_op :=
  | Reserve (adj_len now_ns : Z)
  | Refund (adj_len : Z).

Record drr_env := mkEnv { en_round_bytes : Z; en_active_weight : Z; en_parent_vt : Z }.

Definition shared_attempt (weight : Z) (o : drr_op) (e : drr_env) (w : Z)
    : option cake_drr_admit_t * option Z :=
  match o with
  | Reserve adj now =>
      let '(res, upd) :=
        cake_drr_shared_reserve weight (en_round_bytes e) (en_active_weight e)
          (en_parent_vt e) adj now w in
      (Some res, upd)
  | Refund adj => (None, Some (cake_drr_shared_refund adj w))
  end.

Definition reserve_ok (weight : Z) (o : drr_op) (e : drr_env) : Prop :=
  0 <= cake_drr_quantum (en_round_bytes e) weight (en_active_weight e) <= Q_MAX /\
  match o with Reserve adj _ => 0 <= adj <= ADJ_MAX | Refund _ => False end.



End Drr.
