(* ===== verification/Shaper.v ===== *)
(** Rate gate and buffer admission:
    [plugins/osvbng_qos_sched/cake_shaper.h].

    Module [Shaper] holds the fixed-point rate, the virtual-time gate and the
    occupancy counter of an aggregate.  The gate is a compare-and-swap loop
    (see [Atomic.v]); the admission is an add that is verified afterwards, so
    its concurrent behaviour has a machine of its own. *)

From S2P Require Import Prelude Atomic.

Module Shaper.

Definition CAKE_RATE_FRAC_BITS : Z := 16.

Definition cake_rate_scaled (rate_bytes_per_sec : Z) : Z :=
  if 0 <? rate_bytes_per_sec
  then Z.shiftl 1000000000 CAKE_RATE_FRAC_BITS / rate_bytes_per_sec
  else 0.

Definition cake_cost_ns (adj_len rate_ns_per_byte_scaled : Z) : Z :=
  Z.shiftr (u64 (adj_len * rate_ns_per_byte_scaled)) CAKE_RATE_FRAC_BITS.

(** One pass of the exchange loop of [cake_shaper_gate_take] over the loaded
    virtual time: the returned flag, and the value the exchange would store. *)
Definition cake_shaper_gate_take (cost_ns now_ns burst_ns old_time : Z)
    : bool * option Z :=
  if now_ns <? old_time then (false, None)
  else
    let base :=
      if burst_ns <? u64 (now_ns - old_time) then u64 (now_ns - burst_ns)
      else old_time in
    (true, Some (u64 (base + cost_ns))).

(** [usage] after the call, and whether the packet was admitted. *)
Definition cake_agg_admit (usage limit len : Z) : Z * bool :=
  let prev := usage in
  let usage := u32 (usage + len) in
  if limit <? u32 (prev + len) then (u32 (usage - len), false) else (usage, true).

Definition cake_agg_release (usage len : Z) : Z := u32 (usage - len).

(** * The rate gate *)

Lemma gate_take_spec cost now burst vt :
  0 <= vt < 2 ^ 63 → 0 <= now < 2 ^ 63 → 0 <= burst < 2 ^ 32 → 0 <= cost < 2 ^ 48 →
  cake_shaper_gate_take cost now burst vt =
    if now <? vt then (false, None)
    else (true, Some (Z.max vt (now - burst) + cost)).
Proof.
  intros Hv Hn Hb Hc. unfold cake_shaper_gate_take. destruct (Z.ltb_spec now vt); [done|].
  rewrite (u64_small (now - vt)) by (unfold is_u64; lia). do 2 f_equal.
  destruct (Z.ltb_spec burst (now - vt)).
  - rewrite (u64_small (now - burst)) by (unfold is_u64; lia).
    rewrite u64_small by (unfold is_u64; lia). lia.
  - rewrite u64_small by (unfold is_u64; lia). lia.
Qed.

Record send := mkSend { sd_cost : Z; sd_now : Z }.

Definition gate_step (burst vt : Z) (s : send) : Z * Z :=
  let '(r, new) := cake_shaper_gate_take (sd_cost s) (sd_now s) burst vt in
  (if (r : bool) then sd_cost s else 0, default vt new).

Fixpoint gate_run (burst vt : Z) (ss : list send) : Z * Z :=
  match ss with
  | [] => (0, vt)
  | s :: ss =>
      let '(c, vt) := gate_step burst vt s in
      let '(cs, vt) := gate_run burst vt ss in
      (c + cs, vt)
  end.

(** Sends whose clocks lie in [t0, t1] and whose cost is at most [C]. *)
Definition send_in (t0 t1 C : Z) (s : send) : Prop :=
  t0 <= sd_now s <= t1 /\ 0 <= sd_cost s <= C.

Lemma gate_run_bound burst t0 t1 C ss :
  0 <= t0 → t1 < 2 ^ 62 → 0 <= burst < 2 ^ 32 → C < 2 ^ 47 → 0 <= C →
  Forall (send_in t0 t1 C) ss → ∀ vt, 0 <= vt < 2 ^ 63 →
  let '(c, vt') := gate_run burst vt ss in
  0 <= c /\ vt <= vt' /\
  (c = 0 /\ vt' = vt \/ vt' <= t1 + C /\ Z.max vt (t0 - burst) + c <= vt').
Proof.
  intros Ht0 Ht1 Hb HC HC0. induction 1 as [|s ss [Hs Hc] Hss IH]; intros vt Hvt.
  { simpl. lia. }
  simpl. unfold gate_step. rewrite gate_take_spec by lia.
  destruct (Z.ltb_spec (sd_now s) vt) as [Hlt|Hge]; cbn [default].
  - specialize (IH vt Hvt). destruct (gate_run burst vt ss) as [c vt']. lia.
  - specialize (IH (Z.max vt (sd_now s - burst) + sd_cost s) ltac:(lia)).
    simpl. destruct (gate_run burst _ ss) as [c vt']. lia.
Qed.

(** Token-bucket conformance: whatever workers share the gate, in whatever
    order their exchanges land and however their clocks disagree inside a window
    [t0, t1], the transmission time admitted in the window never exceeds its
    length plus the burst credit plus one packet. *)
Theorem gate_window_conformance (burst t0 t1 C vt : Z) (ss : list send) :
  0 <= t0 <= t1 → t1 < 2 ^ 62 → 0 <= burst < 2 ^ 32 → 0 <= C < 2 ^ 47 →
  0 <= vt < 2 ^ 63 → Forall (send_in t0 t1 C) ss →
  fst (gate_run burst vt ss) <= (t1 - t0) + burst + C.
Proof.
  intros Ht Ht1 Hb HC Hvt Hss.
  pose proof (gate_run_bound burst t0 t1 C ss ltac:(lia) Ht1 Hb ltac:(lia) ltac:(lia)
    Hss vt Hvt) as H.
  destruct (gate_run burst vt ss) as [c vt']. cbn [fst]. lia.
Qed.

Lemma gate_window_conformance_witness :
  let ss := [mkSend 1200 50000000; mkSend 1200 50000700; mkSend 9000000 50000100;
             mkSend 1200 50000800] in
  Forall (send_in 50000000 50000800 9000000) ss /\
  fst (gate_run 10000000 0 ss) <= 800 + 10000000 + 9000000.
Proof.
  intros ss.
  assert (Forall (send_in 50000000 50000800 9000000) ss) as Hss.
  { repeat constructor; cbn; lia. }
  split; [exact Hss|].
  pose proof (gate_window_conformance 10000000 50000000 50000800 9000000 0 ss
    ltac:(lia) ltac:(lia) ltac:(lia) ltac:(lia) ltac:(lia) Hss) as H.
  exact H.
Defined.

(** * The gate as threads run it *)

Record gate_op := mkGate { go_cost : Z; go_now : Z; go_burst : Z }.

Definition gate_attempt (o : gate_op) (_ : unit) (w : Z) : bool * option Z :=
  cake_shaper_gate_take (go_cost o) (go_now o) (go_burst o) w.

Definition gate_ok (T C : Z) (o : gate_op) (_ : unit) : Prop :=
  0 <= go_now o <= T /\ 0 <= go_cost o <= C /\ 0 <= go_burst o < 2 ^ 32.

(** The lock-free gate is linearizable and never runs away: any interleaving
    of the loads and weak exchanges of any number of workers returns what an
    atomic gate returns, and at every instant the virtual time is at most the
    latest clock plus one packet's cost. *)
Theorem gate_linearizable_bounded (T C vt : Z)
    (tr : list (label (Op:=gate_op) (Resp:=bool))) c :
  T < 2 ^ 62 → 0 <= C < 2 ^ 47 → 0 <= vt <= T + C →
  exec (cstep gate_attempt (gate_ok T C)) (cinit vt) tr c →
  (exists a, exec (astep gate_attempt (gate_ok T C)) (ainit vt) tr a /\
             a_word a = c_word c) /\
  0 <= c_word c <= T + C.
Proof.
  intros HT HC Hvt Hex. split; [by eapply cas_loop_linearizable|].
  eapply (cas_loop_invariant _ _ (fun w => 0 <= w <= T + C)); [|exact Hvt|exact Hex].
  intros o e w (Hn & Hc & Hb) Hw. unfold gate_attempt.
  rewrite gate_take_spec by lia. destruct (Z.ltb_spec (go_now o) w); cbn; lia.
Qed.

Lemma gate_linearizable_bounded_witness :
  exists c, exec (cstep gate_attempt (gate_ok 5000 2000)) (cinit 100)
    [Invoke 0%nat (mkGate 1200 5000 10000); Invoke 1%nat (mkGate 700 4000 10000);
     Return 1%nat (mkGate 700 4000 10000) true] c /\ 0 <= c_word c <= 5000 + 2000.
Proof.
  assert (exists c, exec (cstep gate_attempt (gate_ok 5000 2000)) (cinit 100)
    [Invoke 0%nat (mkGate 1200 5000 10000); Invoke 1%nat (mkGate 700 4000 10000);
     Return 1%nat (mkGate 700 4000 10000) true] c) as [c Hc].
  { eexists.
    eapply (exec_cons _ _ (Invoke 0%nat (mkGate 1200 5000 10000))); [by apply cs_invoke|].
    eapply (exec_cons _ _ Tau).
    { eapply (cs_load _ _ _ _ 0%nat _ tt); [by rewrite fn_lookup_insert|]. repeat split; simpl; lia. }
    eapply (exec_cons _ _ (Invoke 1%nat (mkGate 700 4000 10000))); [by apply cs_invoke|].
    eapply (exec_cons _ _ Tau).
    { eapply (cs_load _ _ _ _ 1%nat _ tt); [by rewrite fn_lookup_insert|]. repeat split; simpl; lia. }
    eapply (exec_cons _ _ (Return 1%nat (mkGate 700 4000 10000) true)).
    { eapply (cs_exchange _ _ _ _ 1%nat _ tt); [by rewrite fn_lookup_insert|]. reflexivity. }
    constructor. }
  exists c. split; [exact Hc|].
  apply (gate_linearizable_bounded 5000 2000 100 _ c ltac:(lia) ltac:(lia) ltac:(lia) Hc).
Defined.

(** * Fixed-point rates *)

Lemma rate_scaled_bounds rate :
  0 < rate →
  0 <= 1000000000 * 2 ^ 16 - rate * cake_rate_scaled rate < rate.
Proof.
  intros Hr. unfold cake_rate_scaled. destruct (Z.ltb_spec 0 rate); [|lia].
  rewrite Z.shiftl_mul_pow2 by (unfold CAKE_RATE_FRAC_BITS; lia).
  unfold CAKE_RATE_FRAC_BITS.
  pose proof (Z.mod_pos_bound (1000000000 * 2 ^ 16) rate Hr).
  pose proof (Z.div_mod (1000000000 * 2 ^ 16) rate ltac:(lia)). lia.
Qed.

(** Accuracy of the fixed-point rate up to 100 Gbit/s: the scaled
    nanoseconds-per-byte is below the exact value by less than one part in
    five thousand, so a shaper never runs more than 0.02% fast. *)
Theorem rate_scaled_accuracy (rate : Z) :
  0 < rate <= 12500000000 →
  let exact := 1000000000 * 2 ^ 16 in
  0 <= exact - rate * cake_rate_scaled rate /\
  5000 * (exact - rate * cake_rate_scaled rate) < exact.
Proof. intros Hr exact. pose proof (rate_scaled_bounds rate ltac:(lia)). subst exact. lia. Qed.

Lemma rate_scaled_accuracy_witness :
  0 < 12500000000 <= 12500000000 /\
  5000 * (1000000000 * 2 ^ 16 - 12500000000 * cake_rate_scaled 12500000000)
  < 1000000000 * 2 ^ 16.
Proof. split; [lia|]. apply (rate_scaled_accuracy 12500000000). lia. Defined.

(** The tighter 0.01% the header comment states does not hold at 100 Gbit/s:
    there the truncation loses more than 1.6 parts in ten thousand. *)
Lemma rate_scaled_error_100g :
  let exact := 1000000000 * 2 ^ 16 in
  16 * exact < 100000 * (exact - 12500000000 * cake_rate_scaled 12500000000).
Proof. vm_compute. reflexivity. Qed.

(** * Admission under concurrency

    Every worker adds first and verifies afterwards.  [Added len pass] is a
    worker between the two; [ad_held] is the bytes admitted and not yet
    released. *)

Inductive admit_pc :=
  | AtRest
  | Added (len : Z) (pass : bool).

Record admit_st := mkAdmit {
  ad_usage : Z;
  ad_held : Z;
  ad_pc : list admit_pc
}.

Inductive admit_step (limit : Z) : admit_st → admit_st → Prop :=
  | ad_add u h p t len :
      p !! t = Some AtRest → 0 <= len →
      admit_step limit (mkAdmit u h p)
        (mkAdmit (u32 (u + len)) h
           (<[t:=Added len (negb (limit <? u32 (u + len)))]> p))
  | ad_commit u h p t len :
      p !! t = Some (Added len true) →
      admit_step limit (mkAdmit u h p) (mkAdmit u (h + len) (<[t:=AtRest]> p))
  | ad_undo u h p t len :
      p !! t = Some (Added len false) →
      admit_step limit (mkAdmit u h p)
        (mkAdmit (u32 (u - len)) h (<[t:=AtRest]> p))
  | ad_release u h p len :
      0 <= len <= h →
      admit_step limit (mkAdmit u h p) (mkAdmit (cake_agg_release u len) (h - len) p).

Definition in_flight (p : admit_pc) : Z :=
  match p with AtRest => 0 | Added len _ => len end.
Definition passing (p : admit_pc) : Z :=
  match p with Added len true => len | _ => 0 end.

(** [L] bounds a packet; with [n] workers the counter must not wrap. *)
Definition admit_inv (limit L : Z) (s : admit_st) : Prop :=
  ad_usage s = ad_held s + zsum (map in_flight (ad_pc s)) /\
  0 <= ad_held s /\
  Forall (fun p => 0 <= in_flight p <= L) (ad_pc s) /\
  ad_held s + zsum (map passing (ad_pc s)) <= limit.

Lemma in_flight_bound L ps :
  Forall (fun p => 0 <= in_flight p <= L) ps →
  0 <= zsum (map in_flight ps) <= L * Z.of_nat (length ps) /\
  zsum (map passing ps) <= zsum (map in_flight ps) /\
  0 <= zsum (map passing ps).
Proof.
  induction 1 as [|p ps Hp Hps IH]; unfold zsum in *; simpl; [lia|].
  assert (passing p <= in_flight p /\ 0 <= passing p).
  { destruct p as [|len []]; simpl in *; lia. }
  nia.
Qed.

Lemma admit_step_inv limit L n s s' :
  0 <= limit → 0 <= L → limit + L * (Z.of_nat n + 1) < 2 ^ 32 → length (ad_pc s) = n →
  (∀ t len b, ad_pc s' !! t = Some (Added len b) → len <= L) →
  admit_inv limit L s → admit_step limit s s' →
  admit_inv limit L s' /\ length (ad_pc s') = n.
Proof.
  intros Hlim HL Hn Hlen HLs (Hu & Hh & Hf & Hp) Hstep.
  pose proof (in_flight_bound L _ Hf) as Hb.
  destruct Hstep as [u h p t len Ht Hlen0|u h p t len Ht|u h p t len Ht|u h p len Hl];
    simpl in *; rewrite ?length_insert; (split; [|done]); unfold admit_inv; simpl.
  - assert (t < length p)%nat as Htl by (by eapply lookup_lt_Some).
    pose proof (HLs t len _ (list_lookup_insert_eq p t _ Htl)) as HlenL.
    rewrite !(zsum_insert _ _ _ _ _ Ht); simpl.
    rewrite u32_small by (unfold is_u32; nia).
    split; [lia|]. split; [lia|]. split.
    { apply Forall_insert; [done|]. simpl. lia. }
    destruct (Z.ltb_spec limit (u + len)); simpl; lia.
  - rewrite !(zsum_insert _ _ _ _ _ Ht); simpl.
    pose proof (Forall_lookup_1 _ _ _ _ Hf Ht) as Hft. simpl in Hft.
    split; [lia|]. split; [lia|]. split; [|lia].
    apply Forall_insert; [done|]. simpl. lia.
  - rewrite !(zsum_insert _ _ _ _ _ Ht); simpl.
    pose proof (Forall_lookup_1 _ _ _ _ Hf Ht) as Hft. simpl in Hft.
    assert (len <= zsum (map in_flight p)).
    { apply (zsum_elem_le len); [|apply list_elem_of_fmap; exists (Added len false);
        split; [done|by eapply list_elem_of_lookup_2]].
      apply Forall_fmap. eapply Forall_impl; [exact Hf|]. simpl. lia. }
    rewrite u32_small by (unfold is_u32; nia).
    split; [lia|]. split; [lia|]. split; [|lia].
    apply Forall_insert; [done|]. simpl. lia.
  - unfold cake_agg_release. rewrite u32_small by (unfold is_u32; nia).
    split; [lia|]. split; [lia|]. split; [done|lia].
Qed.

Inductive admit_reach (limit L : Z) (n : nat) : admit_st → Prop :=
  | ad_start : admit_reach limit L n (mkAdmit 0 0 (replicate n AtRest))
  | ad_next s s' :
      admit_reach limit L n s → admit_step limit s s' →
      (∀ t len b, ad_pc s' !! t = Some (Added len b) → len <= L) →
      admit_reach limit L n s'.

(** Occupancy limit under concurrency: with any number of workers between
    their add and their verify, the bytes actually admitted and not yet
    released never exceed the limit, the counter is exactly those bytes plus
    the tentative ones, and its excess over the limit is at most one packet per
    worker; every tentative byte of a refused packet is unwound. *)
Theorem admit_limit_concurrent (limit L : Z) (n : nat) (s : admit_st) :
  0 <= limit → 0 <= L → limit + L * (Z.of_nat n + 1) < 2 ^ 32 →
  admit_reach limit L n s →
  0 <= ad_held s <= limit /\
  ad_usage s = ad_held s + zsum (map in_flight (ad_pc s)) /\
  ad_usage s <= limit + L * Z.of_nat n /\
  (Forall (fun p => p = AtRest) (ad_pc s) → ad_usage s = ad_held s).
Proof.
  intros Hlim HL Hn Hr.
  assert (admit_inv limit L s /\ length (ad_pc s) = n) as [(Hu & Hh & Hf & Hp) Hlen].
  { induction Hr as [|s s' Hr [IH Hlen] Hstep HLs].
    - split; [|simpl; by rewrite length_replicate]. unfold admit_inv. simpl.
      assert (∀ f, f AtRest = 0 → zsum (map f (replicate n AtRest)) = 0) as Hz.
      { intros f Hf. clear -Hf. induction n as [|n IH]; unfold zsum in *; simpl; [done|]. lia. }
      rewrite !Hz by done. repeat split; try lia. apply Forall_replicate. simpl. lia.
    - eapply admit_step_inv; eauto. }
  pose proof (in_flight_bound L _ Hf) as Hb. rewrite Hlen in Hb.
  split; [lia|]. split; [done|]. split; [lia|].
  intros Hrest. rewrite Hu.
  enough (zsum (map in_flight (ad_pc s)) = 0) by lia.
  clear -Hrest. induction Hrest as [|p ps -> Hps IH]; unfold zsum in *; simpl; [done|].
  simpl in IH. lia.
Qed.

Lemma admit_limit_concurrent_witness :
  exists s, admit_reach 3000 1500 2 s /\ ad_usage s = 4500 /\
            0 <= ad_held s <= 3000 /\ ad_usage s <= 3000 + 1500 * 2.
Proof.
  set (s := mkAdmit 4500 1500 [Added 1500 true; Added 1500 false]).
  assert (admit_reach 3000 1500 2 s) as Hs.
  { assert (∀ (p q : admit_pc) t len b, in_flight p <= 1500 → in_flight q <= 1500 →
        [p; q] !! t = Some (Added len b) → len <= 1500) as HL.
    { intros p q [|[|t]] len b Hp Hq Ht; simplify_eq/=; done. }
    assert (admit_step 3000 (mkAdmit 0 0 [AtRest; AtRest])
              (mkAdmit 1500 0 [Added 1500 true; AtRest])) as H1
      by (exact (ad_add 3000 0 0 [AtRest; AtRest] 0%nat 1500 eq_refl ltac:(lia))).
    assert (admit_step 3000 (mkAdmit 1500 0 [Added 1500 true; AtRest])
              (mkAdmit 1500 1500 [AtRest; AtRest])) as H2
      by (exact (ad_commit 3000 1500 0 [Added 1500 true; AtRest] 0%nat 1500 eq_refl)).
    assert (admit_step 3000 (mkAdmit 1500 1500 [AtRest; AtRest])
              (mkAdmit 3000 1500 [Added 1500 true; AtRest])) as H3
      by (exact (ad_add 3000 1500 1500 [AtRest; AtRest] 0%nat 1500 eq_refl ltac:(lia))).
    assert (admit_step 3000 (mkAdmit 3000 1500 [Added 1500 true; AtRest]) s) as H4
      by (exact (ad_add 3000 3000 1500 [Added 1500 true; AtRest] 1%nat 1500 eq_refl ltac:(lia))).
    refine (ad_next _ _ _ _ _ (ad_next _ _ _ _ _ (ad_next _ _ _ _ _
      (ad_next _ _ _ _ _ (ad_start 3000 1500 2) H1 _) H2 _) H3 _) H4 _);
      intros t len b; by apply HL. }
  exists s. split; [exact Hs|]. split; [reflexivity|].
  destruct (admit_limit_concurrent 3000 1500 2 s ltac:(lia) ltac:(lia) ltac:(lia) Hs)
    as (H1 & _ & H2 & _).
  split; [exact H1|]. exact H2.
Defined.

End Shaper.
