(* ===== verification/CakeTypes.v ===== *)
(** Data of the scheduler: [plugins/osvbng_qos_sched/osvbng_qos_sched.h].

    The records carry the fields of the C structures under a prefix per
    structure.  An index of type [u32] whose [~0] means "none" is an [option Z];
    a table that C allocates as an array is a finite map over its indices. *)

From S2P Require Import Prelude Dll Drr.

(** ** Constants *)

Definition CAKE_QUEUES : Z := 1024.
Definition CAKE_SET_WAYS : Z := 8.
Definition CAKE_SET_COUNT : Z := CAKE_QUEUES / CAKE_SET_WAYS.
Definition CAKE_QUANTUM_DEFAULT : Z := 1514.
Definition CAKE_FLOW_RING_SIZE : Z := 128.
Definition CAKE_FLOW_RING_MASK : Z := CAKE_FLOW_RING_SIZE - 1.
Definition CAKE_TARGET_US_DEFAULT : Z := 5000.
Definition CAKE_INTERVAL_US_DEFAULT : Z := 100000.
Definition CAKE_REC_INV_SQRT_CACHE : Z := 16.
Definition CAKE_AGG_BURST_NS : Z := 10 * 1000000.
Definition CAKE_AGG_BURST_NS_MIN : Z := 10 * 1000000.
Definition CAKE_AGG_BURST_NS_MAX : Z := 150 * 1000000.
Definition CAKE_WEIGHT_MIN : Z := 1.
Definition CAKE_WEIGHT_MAX : Z := 256.
Definition CAKE_HOSTS : Z := 256.
Definition CAKE_HOSTS_MASK : Z := CAKE_HOSTS - 1.
Definition CAKE_SVLAN_MAX : Z := 4096.

(** [vlib] hands at most this many buffers to a node per dispatch. *)
Definition VLIB_FRAME_SIZE : Z := 256.

(** ** Flows, hosts, tins *)

Inductive cake_flow_state :=
  | CAKE_FLOW_NONE
  | CAKE_FLOW_SPARSE
  | CAKE_FLOW_BULK
  | CAKE_FLOW_DECAYING.

#[export] Instance cake_flow_state_eq_dec : EqDecision cake_flow_state.
Proof. solve_decision. Defined.

(** [fl_ring = None] is the NULL ring of a flow that owns no slots; a slot the
    code has not written yet has no entry. *)
Record cake_flow_t := mkFlow {
  fl_ring : option (gmap Z Z);
  fl_head : Z;             (* u32 *)
  fl_tail : Z;             (* u32 *)
  fl_deficit : Z;          (* i32 *)
  fl_next : option Z;
  fl_prev : option Z;
  fl_backlog_bytes : Z;    (* u32 *)
  fl_flow_state : cake_flow_state;
  fl_set_index : Z;        (* u8 *)
  fl_dropping : bool;
  fl_codel_count : Z;      (* u32 *)
  fl_rec_inv_sqrt : Z;     (* u32 *)
  fl_drop_next_us : Z;     (* u32 *)
  fl_p_drop : Z;           (* u32 *)
  fl_blue_timer_us : Z;    (* u32 *)
  fl_dst_host_idx : Z      (* u16 *)
}.
#[export] Instance eta_flow : Eta cake_flow_t := λ f,
  mkFlow (fl_ring f) (fl_head f) (fl_tail f) (fl_deficit f) (fl_next f) (fl_prev f)
    (fl_backlog_bytes f) (fl_flow_state f) (fl_set_index f) (fl_dropping f)
    (fl_codel_count f) (fl_rec_inv_sqrt f) (fl_drop_next_us f) (fl_p_drop f)
    (fl_blue_timer_us f) (fl_dst_host_idx f).

(** The flow [clib_memset] leaves, with the two links set to [~0] as every
    caller does next. *)
Definition flow_zero : cake_flow_t :=
  mkFlow None 0 0 0 None None 0 CAKE_FLOW_NONE 0 false 0 0 0 0 0 0.

#[export] Instance flow_node : DllNode cake_flow_t := {|
  nd_next := fl_next;
  nd_prev := fl_prev;
  nd_set_next := λ v f, f⟪fl_next := v⟫;
  nd_set_prev := λ v f, f⟪fl_prev := v⟫
|}.

#[export] Instance flow_node_laws : DllNodeLaws cake_flow_t.
Proof. by split. Qed.

Record cake_host_t := mkHost {
  ho_ip_hash : Z;          (* u32 *)
  ho_bulk_flow_count : Z   (* u16 *)
}.
#[export] Instance eta_host : Eta cake_host_t := λ h,
  mkHost (ho_ip_hash h) (ho_bulk_flow_count h).

Record cake_tin_t := mkTin {
  tn_flows : gmap Z cake_flow_t;
  tn_flow_tags : gmap Z Z;           (* no entry reads as 0 *)
  tn_flow_count : Z;                 (* u32 *)
  tn_new_flow_head : option Z;
  tn_new_flow_tail : option Z;
  tn_old_flow_head : option Z;
  tn_old_flow_tail : option Z;
  tn_decaying_flow_head : option Z;
  tn_decaying_flow_tail : option Z;
  tn_quantum : Z;                    (* u32 *)
  tn_tin_quantum : Z;                (* u32 *)
  tn_packets : Z;                    (* u64 *)
  tn_bytes : Z;                      (* u64 *)
  tn_drops : Z;                      (* u64 *)
  tn_ecn_marks : Z;                  (* u64 *)
  tn_sparse_flow_count : Z;          (* u32 *)
  tn_bulk_flow_count : Z;            (* u32 *)
  tn_hosts : gmap Z cake_host_t      (* no entry reads as zeros *)
}.
#[export] Instance eta_tin : Eta cake_tin_t := λ t,
  mkTin (tn_flows t) (tn_flow_tags t) (tn_flow_count t)
    (tn_new_flow_head t) (tn_new_flow_tail t) (tn_old_flow_head t) (tn_old_flow_tail t)
    (tn_decaying_flow_head t) (tn_decaying_flow_tail t) (tn_quantum t)
    (tn_tin_quantum t) (tn_packets t) (tn_bytes t) (tn_drops t) (tn_ecn_marks t)
    (tn_sparse_flow_count t) (tn_bulk_flow_count t) (tn_hosts t).

Definition tag_at (tin : cake_tin_t) (slot : Z) : Z := default 0 (tn_flow_tags tin !! slot).
Definition host_at (tin : cake_tin_t) (slot : Z) : cake_host_t :=
  default (mkHost 0 0) (tn_hosts tin !! slot).
Definition set_host (slot : Z) (h : cake_host_t) (tin : cake_tin_t) : cake_tin_t :=
  tin⟪tn_hosts ::= insert slot h⟫.
Definition set_flow (idx : Z) (f : cake_flow_t) (tin : cake_tin_t) : cake_tin_t :=
  tin⟪tn_flows ::= insert idx f⟫.
Definition flow_at (tin : cake_tin_t) (idx : Z) : cake_flow_t :=
  default flow_zero (tn_flows tin !! idx).

(** ** Aggregates *)

Record cake_agg_stats_t := mkAggStats {
  as_shaped_pkts : Z;
  as_shaped_bytes : Z;
  as_backpressure_events : Z;
  as_drr_blocked : Z;
  as_parent_blocked : Z
}.
#[export] Instance eta_agg_stats : Eta cake_agg_stats_t := λ s,
  mkAggStats (as_shaped_pkts s) (as_shaped_bytes s) (as_backpressure_events s)
    (as_drr_blocked s) (as_parent_blocked s).

Inductive cake_agg_level := CAKE_AGG_LEVEL_PORT | CAKE_AGG_LEVEL_SVLAN.

(** [ag_svlan_map] has an entry per mapped tag ([~0] entries are absent); it is
    [None] on an S-VLAN aggregate, which has no map. *)
Record cake_aggregate_t := mkAgg {
  ag_rate_bytes_per_sec : Z;        (* u64 *)
  ag_rate_ns_per_byte_scaled : Z;   (* u64 *)
  ag_drr_round_bytes : Z;           (* u64 *)
  ag_sw_if_index : Z;
  ag_agg_index : Z;
  ag_buffer_limit : Z;              (* u32 *)
  ag_parent_index : option Z;
  ag_burst_ns : Z;                  (* u32 *)
  ag_svlan_id : Z;                  (* u16 *)
  ag_svlan_id_end : Z;              (* u16 *)
  ag_weight : Z;                    (* u16 *)
  ag_level : cake_agg_level;
  ag_stats : list cake_agg_stats_t; (* one per thread *)
  ag_global_shaper_time_ns : Z;     (* u64, atomic *)
  ag_buffer_usage : Z;              (* u32, atomic *)
  ag_drr : Drr.cake_drr_shared_child_t;
  ag_active_weight : Z;             (* u64, atomic *)
  ag_n_active_children : Z;         (* u32, atomic *)
  ag_svlan_map : option (gmap Z Z)
}.
#[export] Instance eta_agg : Eta cake_aggregate_t := λ a,
  mkAgg (ag_rate_bytes_per_sec a) (ag_rate_ns_per_byte_scaled a) (ag_drr_round_bytes a)
    (ag_sw_if_index a) (ag_agg_index a) (ag_buffer_limit a) (ag_parent_index a)
    (ag_burst_ns a) (ag_svlan_id a) (ag_svlan_id_end a) (ag_weight a) (ag_level a)
    (ag_stats a) (ag_global_shaper_time_ns a) (ag_buffer_usage a) (ag_drr a)
    (ag_active_weight a) (ag_n_active_children a) (ag_svlan_map a).

Definition agg_weight (a : cake_aggregate_t) : Z := Drr.sh_effective_weight (ag_drr a).

(** ** Schedulers, threads, the plugin's main structure *)

Inductive cake_tin_mode :=
  | CAKE_TIN_MODE_BESTEFFORT
  | CAKE_TIN_MODE_DIFFSERV3
  | CAKE_TIN_MODE_DIFFSERV4
  | CAKE_TIN_MODE_DIFFSERV8.

(** [cs_owner_thread = None] is [CAKE_OWNER_UNSET]. *)
Record cake_sched_t := mkSched {
  cs_rate_bytes_per_sec : Z;        (* u64 *)
  cs_rate_ns_per_byte_scaled : Z;   (* u64 *)
  cs_global_shaper_time_ns : Z;     (* u64 *)
  cs_sw_if_index : Z;
  cs_sched_index : Z;
  cs_owner_thread : option Z;
  cs_overhead_bytes : Z;            (* i16 *)
  cs_atm_mode : Z;                  (* u8 *)
  cs_mpu : Z;                       (* u8 *)
  cs_n_tins : Z;                    (* u8 *)
  cs_tin_mode : cake_tin_mode;
  cs_buffer_limit : Z;              (* u32 *)
  cs_buffer_usage : Z;              (* u32 *)
  cs_queued_buffers : Z;            (* u32 *)
  cs_target_us : Z;                 (* u32 *)
  cs_interval_us : Z;               (* u32 *)
  cs_mtu_time_us : Z;               (* u32 *)
  cs_p_inc : Z;                     (* u32 *)
  cs_p_dec : Z;                     (* u32 *)
  cs_dscp_to_tin : list Z;
  cs_tins : list cake_tin_t;
  cs_enqueued_pkts : Z;             (* u64 *)
  cs_enqueued_bytes : Z;            (* u64 *)
  cs_dequeued_pkts : Z;             (* u64 *)
  cs_dequeued_bytes : Z;            (* u64 *)
  cs_dropped_pkts : Z;              (* u64 *)
  cs_aggregate_index : option Z;
  cs_weight : Z;                    (* u32 *)
  cs_drr : Drr.cake_drr_child_t;
  cs_drr_blocked : Z;               (* u64 *)
  cs_parent_blocked : Z             (* u64 *)
}.
#[export] Instance eta_sched : Eta cake_sched_t := λ c,
  mkSched (cs_rate_bytes_per_sec c) (cs_rate_ns_per_byte_scaled c)
    (cs_global_shaper_time_ns c) (cs_sw_if_index c) (cs_sched_index c)
    (cs_owner_thread c) (cs_overhead_bytes c) (cs_atm_mode c) (cs_mpu c)
    (cs_n_tins c) (cs_tin_mode c) (cs_buffer_limit c) (cs_buffer_usage c)
    (cs_queued_buffers c) (cs_target_us c) (cs_interval_us c) (cs_mtu_time_us c)
    (cs_p_inc c) (cs_p_dec c) (cs_dscp_to_tin c) (cs_tins c) (cs_enqueued_pkts c)
    (cs_enqueued_bytes c) (cs_dequeued_pkts c) (cs_dequeued_bytes c)
    (cs_dropped_pkts c) (cs_aggregate_index c) (cs_weight c) (cs_drr c)
    (cs_drr_blocked c) (cs_parent_blocked c).

Record cake_per_thread_t := mkPerThread {
  pt_active_bitmap : gset Z;
  pt_random_seed : Z
}.
#[export] Instance eta_per_thread : Eta cake_per_thread_t := λ p,
  mkPerThread (pt_active_bitmap p) (pt_random_seed p).

(** [cm_polling] is the set of threads whose [cake-dequeue] node is in the
    polling state, [cm_features] the interfaces whose two output arcs run the
    enqueue nodes: both are the effects of VPP calls the plugin makes. *)
Record cake_main_t := mkMain {
  cm_schedulers : gmap Z cake_sched_t;
  cm_per_thread : list cake_per_thread_t;
  cm_sched_index_by_sw_if_index : gmap Z Z;
  cm_n_schedulers : Z;              (* u32 *)
  cm_aggregates : gmap Z cake_aggregate_t;
  cm_agg_index_by_sw_if_index : gmap Z Z;
  cm_polling : gset Z;
  cm_features : gset Z
}.
#[export] Instance eta_main : Eta cake_main_t := λ m,
  mkMain (cm_schedulers m) (cm_per_thread m) (cm_sched_index_by_sw_if_index m)
    (cm_n_schedulers m) (cm_aggregates m) (cm_agg_index_by_sw_if_index m)
    (cm_polling m) (cm_features m).

(** ** Buffers *)

(** What the scheduler reads and writes of a [vlib_buffer_t]: its bytes by
    offset from [data], the header offsets, the flag of a scheduled buffer, the
    egress interface, the chain's length and the stamped enqueue time. *)
Record vlib_buffer_t := mkBuffer {
  bf_data : Z → Z;
  bf_current_data : Z;
  bf_l3_hdr_offset : option Z;      (* None: the flag is not set *)
  bf_save_rewrite_length : Z;
  bf_scheduled : bool;              (* CAKE_BUFFER_F_SCHEDULED *)
  bf_sw_if_index_tx : Z;
  bf_length_in_chain : Z;
  bf_enqueue_time : Z
}.
#[export] Instance eta_buffer : Eta vlib_buffer_t := λ b,
  mkBuffer (bf_data b) (bf_current_data b) (bf_l3_hdr_offset b)
    (bf_save_rewrite_length b) (bf_scheduled b) (bf_sw_if_index_tx b)
    (bf_length_in_chain b) (bf_enqueue_time b).

Definition cake_l3_header (b : vlib_buffer_t) : Z :=
  match bf_l3_hdr_offset b with
  | Some off => off
  | None => bf_current_data b + bf_save_rewrite_length b
  end.

Definition cake_effective_weight (rate_bytes_per_sec weight : Z) : Z :=
  let w := if weight =? 0 then 1 else weight in
  let rate := if rate_bytes_per_sec =? 0 then 1 else rate_bytes_per_sec in
  u64 (rate * w).

(** ** What the scheduler calls in VPP *)

(** Hash, header and random-number functions of VPP, which the plugin calls and
    does not define.  The packet arguments are a buffer's bytes and the offset of
    the header in them. *)
Class Vpp := {
  clib_xxhash : Z → Z;
  ip4_header_bytes : (Z → Z) → Z → Z;
  ip6_flow_label_network_order : (Z → Z) → Z → Z;
  ip4_header_set_ecn_w_chksum : (Z → Z) → Z → Z → (Z → Z);
  random_u32 : Z → Z * Z
}.

(** Setting the ECN field of an IPv4 header writes the low two bits of the TOS
    byte and the checksum, and nothing else. *)
Class VppLaws `{Vpp} : Prop := {
  set_ecn_tos d o e : 0 <= e < 4 → 0 <= d (o + 1) < 256 →
    ip4_header_set_ecn_w_chksum d o e (o + 1) = Z.lor (Z.land (d (o + 1)) 252) e;
  set_ecn_frame d o e p : p ≠ o + 1 → p ≠ o + 10 → p ≠ o + 11 →
    ip4_header_set_ecn_w_chksum d o e p = d p
}.
