(* ===== verification/Cobalt.v ===== *)
(** COBALT queue management and link overhead: [cake_cobalt.c], the [cobalt_*]
    functions and [cake_overhead_adjust] of [osvbng_qos_sched.h], and the preset
    table of [cake_overhead.c].

    CoDel's control law needs [1/sqrt (count)]; the code keeps it as a 32-bit
    fraction and moves it by Newton steps whenever the count moves by one. *)

From S2P Require Import Prelude Drr CakeTypes.

(** ** The reciprocal square root *)

Definition cobalt_newton_step (f : cake_flow_t) : cake_flow_t :=
  let invsqrt := fl_rec_inv_sqrt f in
  let invsqrt2 := u32 (Z.shiftr (u64 (invsqrt * invsqrt)) 32) in
  let val := u64 (Z.shiftl 3 32 - u64 (fl_codel_count f * invsqrt2)) in
  let val := Z.shiftr val 2 in
  let val := Z.shiftr (u64 (val * invsqrt)) (32 - 2 + 1) in
  f⟪fl_rec_inv_sqrt := u32 val⟫.

(** One turn of the loop of [cake_cobalt_cache_init] over the scratch flow [v]. *)
Fixpoint cache_fill (n : nat) (v : cake_flow_t) : list Z :=
  match n with
  | O => []
  | S n =>
      let v := cobalt_newton_step (cobalt_newton_step
                 (cobalt_newton_step (cobalt_newton_step v))) in
      fl_rec_inv_sqrt v :: cache_fill n (v⟪fl_codel_count := u32 (fl_codel_count v + 1)⟫)
  end.

Definition cake_cobalt_cache_init : list Z :=
  let v := flow_zero⟪fl_rec_inv_sqrt := 2 ^ 32 - 1⟫ in
  fl_rec_inv_sqrt v ::
    cache_fill (Z.to_nat (CAKE_REC_INV_SQRT_CACHE - 1)) (v⟪fl_codel_count := 1⟫).

(** The table after initialisation, evaluated once. *)
Definition cobalt_rec_inv_sqrt_cache : list Z :=
  Eval vm_compute in cake_cobalt_cache_init.

Definition cobalt_invsqrt (f : cake_flow_t) : cake_flow_t :=
  if fl_codel_count f <? CAKE_REC_INV_SQRT_CACHE
  then f⟪fl_rec_inv_sqrt :=
           default 0 (cobalt_rec_inv_sqrt_cache !! Z.to_nat (fl_codel_count f))⟫
  else cobalt_newton_step f.

Definition cobalt_control (t_us interval_us rec_inv_sqrt : Z) : Z :=
  u32 (t_us + u32 (Z.shiftr (u64 (interval_us * rec_inv_sqrt)) 32)).

(** ** BLUE: the drop probability *)

Definition cobalt_queue_full (f : cake_flow_t) (target_us p_inc now_us : Z)
    : cake_flow_t :=
  let f :=
    if i32 target_us <? i32 (u32 (now_us - fl_blue_timer_us f)) then
      let p := u32 (fl_p_drop f + p_inc) in
      let p := if p <? p_inc then 2 ^ 32 - 1 else p in
      f⟪fl_p_drop := p⟫⟪fl_blue_timer_us := now_us⟫
    else f in
  let f := f⟪fl_dropping := true⟫⟪fl_drop_next_us := now_us⟫ in
  if fl_codel_count f =? 0 then f⟪fl_codel_count := 1⟫ else f.

Definition cobalt_queue_empty (f : cake_flow_t) (target_us p_dec interval_us now_us : Z)
    : cake_flow_t :=
  let f :=
    if negb (fl_p_drop f =? 0) &&
       (i32 target_us <? i32 (u32 (now_us - fl_blue_timer_us f))) then
      let p := if fl_p_drop f <? p_dec then 0 else u32 (fl_p_drop f - p_dec) in
      f⟪fl_p_drop := p⟫⟪fl_blue_timer_us := now_us⟫
    else f in
  let f := f⟪fl_dropping := false⟫ in
  if negb (fl_codel_count f =? 0) && (0 <=? i32 (u32 (now_us - fl_drop_next_us f))) then
    let f := cobalt_invsqrt (f⟪fl_codel_count := u32 (fl_codel_count f - 1)⟫) in
    f⟪fl_drop_next_us :=
        cobalt_control (fl_drop_next_us f) interval_us (fl_rec_inv_sqrt f)⟫
  else f.

(** ** The drop decision *)

Definition next_due_of (f : cake_flow_t) (schedule : Z) : bool :=
  negb (fl_codel_count f =? 0) && (0 <=? schedule).

(** The [while (next_due)] loop.  Each turn takes one off a count that is not
    zero, so [codel_count] turns are enough; [None] is running out of fuel. *)
Fixpoint drain_due (fuel : nat) (interval_us now_us : Z) (next_due : bool)
    (f : cake_flow_t) (schedule : Z) : option (cake_flow_t * Z) :=
  if next_due then
    match fuel with
    | O => None
    | S fuel =>
        let f := cobalt_invsqrt (f⟪fl_codel_count := u32 (fl_codel_count f - 1)⟫) in
        let f := f⟪fl_drop_next_us :=
                     cobalt_control (fl_drop_next_us f) interval_us (fl_rec_inv_sqrt f)⟫ in
        let schedule := i32 (u32 (now_us - fl_drop_next_us f)) in
        drain_due fuel interval_us now_us (next_due_of f schedule) f schedule
    end
  else Some (f, schedule).

Section Drop.

(** [random_u32] of [vppinfra]: the number drawn and the next seed. *)
Context (random_u32 : Z → Z * Z).

Record drop_result := mkDrop {
  dr_drop : bool;
  dr_ecn_marked : bool;
  dr_seed : Z;
  dr_flow : cake_flow_t
}.

Definition over_target (cs : cake_sched_t) (sojourn_us bulk_flows : Z) : bool :=
  (cs_target_us cs <? sojourn_us) &&
  (u32 (u32 (cs_mtu_time_us cs * bulk_flows) * 2) <? sojourn_us) &&
  (u32 (cs_mtu_time_us cs * 4) <? sojourn_us).

(** Entering and leaving the dropping state. *)
Definition codel_state (f : cake_flow_t) (cs : cake_sched_t) (over : bool) (now_us : Z)
    : cake_flow_t :=
  if over then
    let f :=
      if fl_dropping f then f
      else f⟪fl_dropping := true⟫
            ⟪fl_drop_next_us := cobalt_control now_us (cs_interval_us cs) (fl_rec_inv_sqrt f)⟫ in
    if fl_codel_count f =? 0 then f⟪fl_codel_count := 1⟫ else f
  else if fl_dropping f then f⟪fl_dropping := false⟫ else f.

(** A due drop, or mark, in the dropping state: the count goes up and stays
    up at its ceiling. *)
Definition codel_escalate (f : cake_flow_t) (cs : cake_sched_t) : cake_flow_t :=
  let f := f⟪fl_codel_count ::= λ c, u32 (c + 1)⟫ in
  let f := if fl_codel_count f =? 0 then f⟪fl_codel_count ::= λ c, u32 (c - 1)⟫ else f in
  let f := cobalt_invsqrt f in
  f⟪fl_drop_next_us :=
      cobalt_control (fl_drop_next_us f) (cs_interval_us cs) (fl_rec_inv_sqrt f)⟫.

Definition cobalt_should_drop (f : cake_flow_t) (cs : cake_sched_t)
    (sojourn_us now_us bulk_flows : Z) (ecn_capable : bool) (random_seed : Z)
    : option drop_result :=
  let over := over_target cs sojourn_us bulk_flows in
  let schedule := i32 (u32 (now_us - fl_drop_next_us f)) in
  let next_due := next_due_of f schedule in
  let f := codel_state f cs over now_us in
  r ← (if next_due && fl_dropping f then
         Some (negb ecn_capable, ecn_capable, schedule, codel_escalate f cs)
       else
         '(f, schedule) ← drain_due (Z.to_nat (fl_codel_count f)) (cs_interval_us cs)
                            now_us next_due f schedule;
         Some (false, false, schedule, f));
  let '(drop, marked, schedule, f) := r in
  let '(drop, random_seed) :=
    if negb (fl_p_drop f =? 0) then
      let '(x, random_seed) := random_u32 random_seed in
      (drop || (x <? fl_p_drop f), random_seed)
    else (drop, random_seed) in
  let f :=
    if fl_codel_count f =? 0 then f⟪fl_drop_next_us := u32 (now_us + cs_interval_us cs)⟫
    else if (0 <? schedule) && negb drop then f⟪fl_drop_next_us := now_us⟫
    else f in
  Some (mkDrop drop marked random_seed f).

End Drop.

(** ** Link overhead *)

(** The C division truncates towards zero. *)
Definition cake_overhead_adjust (cs : cake_sched_t) (pkt_len : Z) : Z :=
  let adjusted := i32 (i32 pkt_len + cs_overhead_bytes cs) in
  let adjusted := if adjusted <? cs_mpu cs then cs_mpu cs else adjusted in
  let adjusted := if cs_atm_mode cs =? 1 then i32 (Z.quot (i32 (adjusted + 47)) 48 * 53)
                  else adjusted in
  u32 adjusted.

Inductive cake_overhead_name :=
  | OVERHEAD_NONE | OVERHEAD_ETHERNET | OVERHEAD_DOCSIS
  | OVERHEAD_DSL_PPPOE_PTM | OVERHEAD_DSL_PPPOE_ATM | OVERHEAD_GPON.

Record cake_overhead_preset_t := mkPreset {
  op_name : cake_overhead_name;
  op_overhead_bytes : Z;
  op_atm_mode : Z;
  op_mpu : Z
}.

Definition cake_overhead_presets : list cake_overhead_preset_t := [
  mkPreset OVERHEAD_NONE 0 0 0;
  mkPreset OVERHEAD_ETHERNET 14 0 64;
  mkPreset OVERHEAD_DOCSIS 18 0 64;
  mkPreset OVERHEAD_DSL_PPPOE_PTM 27 2 64;
  mkPreset OVERHEAD_DSL_PPPOE_ATM 32 1 64;
  mkPreset OVERHEAD_GPON 4 0 64
].

(** * The control law stays in range *)

(** What the Newton steps need of the pair (count, root): the square of the
    root times the count stays below [64/27] of one, in 32-bit fixed point. *)
Definition cobalt_ok (f : cake_flow_t) : Prop :=
  is_u32 (fl_rec_inv_sqrt f) /\ is_u32 (fl_codel_count f) /\
  (2 <= fl_codel_count f →
   27 * (fl_codel_count f * (fl_rec_inv_sqrt f * fl_rec_inv_sqrt f)) <= 64 * 2 ^ 64).

Lemma newton_cubic M N : 0 <= N → 0 <= M → N <= 3 * M →
  27 * (N * (4 * M - N) * (4 * M - N)) <= 256 * (M * M * M).
Proof.
  intros HN HM H3.
  assert (0 <= (4 * M - 3 * N) * (4 * M - 3 * N) * (16 * M - 3 * N)) as Hp.
  { apply Z.mul_nonneg_nonneg; [apply Z.square_nonneg|lia]. }
  lia.
Qed.

(** A Newton step without the machine's wraps. *)
Definition newton_root (n x : Z) : Z :=
  (3 * 2 ^ 32 - n * (x * x / 2 ^ 32)) / 4 * x / 2 ^ 31.

(** Under the invariant no intermediate of a Newton step wraps. *)
Lemma newton_exact f :
  is_u32 (fl_rec_inv_sqrt f) → is_u32 (fl_codel_count f) →
  fl_codel_count f * (fl_rec_inv_sqrt f * fl_rec_inv_sqrt f) <= 3 * 2 ^ 64 →
  16 <= fl_codel_count f →
  fl_rec_inv_sqrt (cobalt_newton_step f) =
    newton_root (fl_codel_count f) (fl_rec_inv_sqrt f) /\
  is_u32 (fl_rec_inv_sqrt (cobalt_newton_step f)).
Proof.
  unfold is_u32, cobalt_newton_step, newton_root.
  generalize (fl_rec_inv_sqrt f) (fl_codel_count f). intros x n Hx Hn Hnx Hn16.
  unfold upd. cbn [fl_rec_inv_sqrt].
  assert (0 <= x * x / 2 ^ 32 < 2 ^ 32) as Hq.
  { split; [apply Z.div_pos; nia|]. apply Z.div_lt_upper_bound; nia. }
  pose proof (Z.mul_div_le (x * x) (2 ^ 32) ltac:(lia)) as Hqx.
  set (q := x * x / 2 ^ 32) in *.
  assert (0 <= n * q <= 3 * 2 ^ 32) as Hnq by nia.
  rewrite !Z.shiftr_div_pow2, Z.shiftl_mul_pow2 by lia.
  rewrite (u64_small (x * x)) by (unfold is_u64; nia). fold q.
  rewrite (u32_small q) by done.
  rewrite (u64_small (n * q)) by (unfold is_u64; lia).
  rewrite (u64_small (3 * 2 ^ 32 - n * q)) by (unfold is_u64; lia).
  change (2 ^ 2) with 4. change (32 - 2 + 1) with 31.
  set (v := 3 * 2 ^ 32 - n * q) in *.
  assert (0 <= v / 4 <= 3 * 2 ^ 30) as Hv4
    by (split; [apply Z.div_pos|apply Z.div_le_upper_bound]; lia).
  rewrite (u64_small (v / 4 * x)) by (unfold is_u64; nia).
  assert (0 <= v / 4 * x / 2 ^ 31 < 2 ^ 32) as Hr.
  { split; [apply Z.div_pos; nia|]. apply Z.div_lt_upper_bound; [lia|].
    assert (x < 2 ^ 31) by nia. nia. }
  by rewrite u32_small.
Qed.

Lemma newton_root_bound n x :
  0 <= x < 2 ^ 32 → 16 <= n < 2 ^ 32 → n * (x * x) <= 3 * 2 ^ 64 →
  0 <= newton_root n x →
  27 * (n * (newton_root n x * newton_root n x)) <= 64 * 2 ^ 64.
Proof.
  intros Hx Hn H. unfold newton_root.
  set (K := 2 ^ 32). set (q := x * x / K). set (v := 3 * K - n * q).
  set (r := v / 4 * x / 2 ^ 31). intros Hr.
  assert (2 * K * r <= v * x) as H1.
  { pose proof (Z.mul_div_le (v / 4 * x) (2 ^ 31) ltac:(lia)) as Ha. fold r in Ha.
    pose proof (Z.mul_div_le v 4 ltac:(lia)). subst K. nia. }
  assert (v * K <= 4 * (K * K) - n * (x * x)) as H2.
  { pose proof (Z.mul_succ_div_gt (x * x) K ltac:(subst K; lia)) as Hd. fold q in Hd.
    subst v. nia. }
  set (N := n * (x * x)) in *.
  assert (0 <= N) as HN0 by (subst N; nia).
  assert (N <= 3 * (K * K)) as HN3 by (subst K; lia).
  assert (2 * (K * K) * r <= (4 * (K * K) - N) * x) as H3 by nia.
  assert (0 <= 2 * (K * K) * r) as H4 by nia.
  assert ((2 * (K * K) * r) * (2 * (K * K) * r) <=
          ((4 * (K * K) - N) * x) * ((4 * (K * K) - N) * x)) as H5
    by (apply Z.mul_le_mono_nonneg; lia).
  pose proof (newton_cubic (K * K) N HN0 ltac:(nia) HN3) as H6.
  assert (n * ((2 * (K * K) * r) * (2 * (K * K) * r)) <=
          N * (4 * (K * K) - N) * (4 * (K * K) - N)) as H7.
  { apply Z.le_trans with (n * (((4 * (K * K) - N) * x) * ((4 * (K * K) - N) * x))).
    - apply Z.mul_le_mono_nonneg_l; lia.
    - subst N. lia. }
  assert (4 * (K * K) * (K * K) * (27 * (n * (r * r))) <=
          4 * (K * K) * (K * K) * (64 * (K * K))) as H8 by lia.
  apply Z.mul_le_mono_pos_l in H8; [|subst K; lia].
  subst K. lia.
Qed.

Lemma cache_ok n : 0 <= n < 16 →
  let x := default 0 (cobalt_rec_inv_sqrt_cache !! Z.to_nat n) in
  is_u32 x /\ (2 <= n → 27 * (n * (x * x)) <= 64 * 2 ^ 64).
Proof.
  intros Hn.
  assert (Forall (λ n, let x := default 0 (cobalt_rec_inv_sqrt_cache !! Z.to_nat n) in
            is_u32 x /\ (2 <= n → 27 * (n * (x * x)) <= 64 * 2 ^ 64))
            [0;1;2;3;4;5;6;7;8;9;10;11;12;13;14;15]) as Hall.
  { unfold is_u32. repeat constructor; vm_compute; congruence. }
  rewrite Forall_forall in Hall. apply Hall. set_unfold. lia.
Qed.

(** One move of the count keeps the invariant. *)
Lemma invsqrt_ok f :
  is_u32 (fl_rec_inv_sqrt f) → is_u32 (fl_codel_count f) →
  (16 <= fl_codel_count f →
   fl_codel_count f * (fl_rec_inv_sqrt f * fl_rec_inv_sqrt f) <= 3 * 2 ^ 64) →
  cobalt_ok (cobalt_invsqrt f) /\
  fl_codel_count (cobalt_invsqrt f) = fl_codel_count f.
Proof.
  intros Hx Hn H. unfold cobalt_invsqrt, CAKE_REC_INV_SQRT_CACHE.
  destruct (Z.ltb_spec (fl_codel_count f) 16) as [Hlt|Hge]; split; try done.
  - pose proof (cache_ok (fl_codel_count f) ltac:(unfold is_u32 in Hn; lia)) as [Hr Hc].
    split; [exact Hr|]. split; [exact Hn|]. exact Hc.
  - specialize (H Hge). destruct (newton_exact f Hx Hn H Hge) as [Heq Hr].
    split; [done|]. split; [exact Hn|]. intros _. rewrite Heq in *.
    change (fl_codel_count (cobalt_newton_step f)) with (fl_codel_count f).
    apply newton_root_bound; unfold is_u32 in *; try lia.
Qed.

Lemma invsqrt_step_ok f n :
  cobalt_ok f → is_u32 n → n <= fl_codel_count f + 1 →
  cobalt_ok (cobalt_invsqrt (f⟪fl_codel_count := n⟫)) /\
  fl_codel_count (cobalt_invsqrt (f⟪fl_codel_count := n⟫)) = n.
Proof.
  intros (Hx & Hn & H) Hn' Hle. apply invsqrt_ok; try done.
  cbn [fl_codel_count fl_rec_inv_sqrt]. unfold upd. cbn [fl_codel_count fl_rec_inv_sqrt].
  intros Hge. specialize (H ltac:(lia)).
  assert (0 <= fl_rec_inv_sqrt f * fl_rec_inv_sqrt f) by nia.
  unfold is_u32 in *. nia.
Qed.

(** Changing neither the count nor the root keeps the invariant. *)
Lemma cobalt_ok_same f f' :
  fl_rec_inv_sqrt f' = fl_rec_inv_sqrt f → fl_codel_count f' = fl_codel_count f →
  cobalt_ok f → cobalt_ok f'.
Proof. unfold cobalt_ok. intros -> ->. done. Qed.

Lemma cobalt_ok_one f : cobalt_ok f → cobalt_ok (f⟪fl_codel_count := 1⟫).
Proof. intros (Hx & _ & _). split; [exact Hx|]. rsimpl. split; [ints|lia]. Qed.

#[local] Hint Resolve cobalt_ok_one : cobalt.
#[local] Hint Extern 2 (cobalt_ok (upd _ _ _)) =>
  (eapply cobalt_ok_same; [reflexivity|reflexivity|]) : cobalt.

Lemma queue_full_ok f target p_inc now :
  cobalt_ok f → cobalt_ok (cobalt_queue_full f target p_inc now).
Proof.
  intros Hf. unfold cobalt_queue_full.
  destruct (i32 target <? _);
    match goal with |- cobalt_ok (if ?b then _ else _) => destruct b end;
    eauto 6 with cobalt.
Qed.

Lemma dec_count f : is_u32 (fl_codel_count f) → fl_codel_count f ≠ 0 →
  u32 (fl_codel_count f - 1) = fl_codel_count f - 1 /\ is_u32 (fl_codel_count f - 1).
Proof. intros. split; [apply u32_small|]; ints. Qed.

Lemma queue_empty_ok f target p_dec interval now :
  cobalt_ok f → cobalt_ok (cobalt_queue_empty f target p_dec interval now).
Proof.
  intros Hf. unfold cobalt_queue_empty.
  set (g := (if negb (fl_p_drop f =? 0) && _ then _ else f)).
  assert (cobalt_ok (g⟪fl_dropping := false⟫)) as Hg.
  { subst g. destruct (negb _ && _); eauto 6 with cobalt. }
  destruct (Z.eqb_spec (fl_codel_count (g⟪fl_dropping := false⟫)) 0) as [|Hne];
    [done|]. cbn [negb andb].
  destruct (0 <=? _); [|done].
  pose proof Hg as (_ & Hn & _). destruct (dec_count _ Hn Hne) as [-> Hn'].
  apply (cobalt_ok_same _ _ eq_refl eq_refl). apply invsqrt_step_ok; [done|done|lia].
Qed.

(** The drain loop ends within [codel_count] turns. *)
Lemma drain_due_total interval now fuel due f s :
  cobalt_ok f → (due = true → fl_codel_count f ≠ 0) →
  fl_codel_count f <= Z.of_nat fuel →
  exists f' s', drain_due fuel interval now due f s = Some (f', s') /\
    cobalt_ok f' /\ fl_p_drop f' = fl_p_drop f /\ fl_dropping f' = fl_dropping f /\
    fl_codel_count f' <= fl_codel_count f /\
    (due = true → fl_codel_count f' < fl_codel_count f /\ next_due_of f' s' = false).
Proof.
  revert due f s. induction fuel as [|fuel IH]; intros due f s Hf Hdue Hfuel; simpl.
  - destruct due; [|by exists f, s]. pose proof Hf as (_ & Hn & _). unfold is_u32 in Hn.
    specialize (Hdue eq_refl). lia.
  - destruct due; [|by exists f, s].
    pose proof Hf as (_ & Hn & _). destruct (dec_count _ Hn (Hdue eq_refl)) as [-> Hn'].
    destruct (invsqrt_step_ok f _ Hf Hn' ltac:(lia)) as [Hok Hcnt].
    set (g := cobalt_invsqrt _) in *.
    set (g' := g⟪fl_drop_next_us := _⟫).
    assert (fl_p_drop g' = fl_p_drop f /\ fl_dropping g' = fl_dropping f) as [Hp Hd].
    { subst g' g. unfold cobalt_invsqrt. destruct (_ <? _); done. }
    assert (fl_codel_count g' = fl_codel_count f - 1) as Hc by done.
    set (s1 := i32 _).
    destruct (IH (next_due_of g' s1) g' s1) as (f' & s' & He & Hf' & Hp' & Hd' & Hc' & Hl).
    { by apply (cobalt_ok_same g). }
    { unfold next_due_of. intros Hb. apply andb_prop in Hb as [Hb _].
      destruct (Z.eqb_spec (fl_codel_count g') 0); done. }
    { lia. }
    exists f', s'. split; [exact He|]. split; [done|]. split; [congruence|].
    split; [congruence|]. split; [lia|]. intros _. split; [lia|].
    destruct (next_due_of g' s1) eqn:E; [by apply Hl|].
    destruct fuel; simpl in He; congruence.
Qed.

Section DropFacts.

Context (random_u32 : Z → Z * Z).

Lemma codel_state_facts f cs over now :
  cobalt_ok f →
  let f' := codel_state f cs over now in
  cobalt_ok f' /\ fl_dropping f' = over /\ fl_p_drop f' = fl_p_drop f /\
  (fl_codel_count f ≠ 0 → fl_codel_count f' = fl_codel_count f).
Proof.
  intros Hf. unfold codel_state. destruct over.
  - set (g := if fl_dropping f then f else _).
    assert (cobalt_ok g /\ fl_dropping g = true /\ fl_p_drop g = fl_p_drop f /\
            fl_codel_count g = fl_codel_count f) as (Hg & Hd & Hp & Hc).
    { subst g. destruct (fl_dropping f) eqn:E; [done|].
      split; [by apply (cobalt_ok_same f)|done]. }
    destruct (Z.eqb_spec (fl_codel_count g) 0); [|done].
    split; [by apply cobalt_ok_one|]. repeat split; try done. lia.
  - destruct (fl_dropping f) eqn:E; [|done].
    split; [by apply (cobalt_ok_same f)|done].
Qed.

Lemma codel_escalate_ok f cs :
  cobalt_ok f → fl_codel_count f ≠ 0 →
  cobalt_ok (codel_escalate f cs) /\ fl_p_drop (codel_escalate f cs) = fl_p_drop f.
Proof.
  intros Hf Hne. unfold codel_escalate.
  set (g := f⟪fl_codel_count ::= λ c, u32 (c + 1)⟫).
  set (g' := if fl_codel_count g =? 0 then _ else g).
  assert (exists n, g' = f⟪fl_codel_count := n⟫ /\ is_u32 n /\ n <= fl_codel_count f + 1)
    as (n & -> & Hn & Hle).
  { pose proof Hf as (_ & Hn & _). subst g'.
    change (fl_codel_count g) with (u32 (fl_codel_count f + 1)).
    destruct (Z.eqb_spec (u32 (fl_codel_count f + 1)) 0) as [E|E].
    - exists (fl_codel_count f). split; [|split; [done|lia]]. subst g. rsimpl.
      rewrite E. f_equal. ints.
    - exists (u32 (fl_codel_count f + 1)). split; [done|]. split; [apply u32_range|]. ints. }
  destruct (invsqrt_step_ok f n Hf Hn Hle) as [Hok _].
  split; [by eapply cobalt_ok_same|].
  unfold cobalt_invsqrt. destruct (_ <? _); done.
Qed.

(** The result of the decision, and the state it leaves, on every branch. *)
Lemma should_drop_spec f cs sojourn now bulk ecn seed :
  cobalt_ok f →
  let due := next_due_of f (i32 (u32 (now - fl_drop_next_us f))) in
  let over := over_target cs sojourn bulk in
  let blue := negb (fl_p_drop f =? 0) && (fst (random_u32 seed) <? fl_p_drop f) in
  exists r, cobalt_should_drop random_u32 f cs sojourn now bulk ecn seed = Some r /\
    cobalt_ok (dr_flow r) /\
    dr_ecn_marked r = (due && over && ecn) /\
    dr_drop r = (due && over && negb ecn || blue).
Proof.
  intros Hf due over blue. unfold cobalt_should_drop. fold over. fold due.
  destruct (codel_state_facts f cs over now Hf) as (Hok & Hd & Hp & Hc).
  set (g := codel_state f cs over now) in *. rewrite Hd.
  assert (due = true → fl_codel_count f ≠ 0) as Hdue.
  { subst due. unfold next_due_of. intros Hb. apply andb_prop in Hb as [Hb _].
    destruct (Z.eqb_spec (fl_codel_count f) 0); done. }
  assert (exists s g', (if due && over then
         Some (negb ecn, ecn, i32 (u32 (now - fl_drop_next_us f)), codel_escalate g cs)
       else
         '(f, schedule) ← drain_due (Z.to_nat (fl_codel_count g)) (cs_interval_us cs)
                            now due g (i32 (u32 (now - fl_drop_next_us f)));
         Some (false, false, schedule, f)) =
      Some (due && over && negb ecn, due && over && ecn, s, g') /\
      cobalt_ok g' /\ fl_p_drop g' = fl_p_drop f) as (s & g' & -> & Hok' & Hp').
  { destruct (due && over) eqn:E.
    - apply andb_prop in E as [E1 _].
      destruct (codel_escalate_ok g cs Hok) as [H1 H2]; [rewrite Hc; auto|].
      do 2 eexists. split; [reflexivity|]. split; [done|congruence].
    - destruct (drain_due_total (cs_interval_us cs) now (Z.to_nat (fl_codel_count g)) due g
        (i32 (u32 (now - fl_drop_next_us f))) Hok) as (g' & s & He & Hg' & Hpg & _).
      { intros H1. rewrite Hc; auto. }
      { lia. }
      rewrite He. simpl. exists s, g'. split; [done|]. split; [done|congruence]. }
  simpl. rewrite Hp'. subst blue.
  destruct (random_u32 seed) as [x seed'] eqn:Er. simpl.
  assert (∀ b : bool, cobalt_ok
    (if fl_codel_count g' =? 0
     then g'⟪fl_drop_next_us := u32 (now + cs_interval_us cs)⟫
     else if (0 <? s) && b then g'⟪fl_drop_next_us := now⟫ else g')) as Hend.
  { intros b. destruct (_ =? 0); [by apply (cobalt_ok_same g')|].
    destruct (_ && b); [by apply (cobalt_ok_same g')|done]. }
  destruct (Z.eqb_spec (fl_p_drop f) 0); simpl; eexists; (split; [reflexivity|]); simpl;
    (split; [apply Hend|]); rewrite ?orb_false_r; done.
Qed.

(** The drop decision terminates on every flow the scheduler can hold, and
    is exactly this: CoDel acts when a drop is due and the packet is over
    target; it then marks an ECN-capable packet and drops any other; on top of
    that BLUE drops with probability [p_drop].  So CoDel never drops a packet
    that can be marked, and never touches one under target. *)
Theorem should_drop_decides f cs sojourn now bulk ecn seed :
  cobalt_ok f →
  exists r, cobalt_should_drop random_u32 f cs sojourn now bulk ecn seed = Some r /\
    let codel := next_due_of f (i32 (u32 (now - fl_drop_next_us f))) &&
                 over_target cs sojourn bulk in
    dr_ecn_marked r = (codel && ecn) /\
    dr_drop r = (codel && negb ecn ||
                 negb (fl_p_drop f =? 0) && (fst (random_u32 seed) <? fl_p_drop f)).
Proof.
  intros Hf. destruct (should_drop_spec f cs sojourn now bulk ecn seed Hf)
    as (r & He & _ & Hm & Hd). exists r. done.
Qed.

(** The Newton iteration is safe for ever: starting from any flow in the
    invariant (a zeroed flow is), every operation that moves the drop count keeps
    [27 * count * root^2 <= 64 * 2^64], and so no 64-bit intermediate of a step
    wraps at any 32-bit count. *)
Theorem cobalt_root_in_range f cs sojourn now bulk ecn seed :
  cobalt_ok f →
  cobalt_ok (cobalt_queue_full f (cs_target_us cs) (cs_p_inc cs) now) /\
  cobalt_ok (cobalt_queue_empty f (cs_target_us cs) (cs_p_dec cs) (cs_interval_us cs) now) /\
  (∀ r, cobalt_should_drop random_u32 f cs sojourn now bulk ecn seed = Some r →
        cobalt_ok (dr_flow r)) /\
  (16 <= fl_codel_count f →
   fl_rec_inv_sqrt (cobalt_newton_step f) =
     newton_root (fl_codel_count f) (fl_rec_inv_sqrt f)).
Proof.
  intros Hf. split; [by apply queue_full_ok|]. split; [by apply queue_empty_ok|]. split.
  - intros r Hr. destruct (should_drop_spec f cs sojourn now bulk ecn seed Hf)
      as (r' & He & Hok & _). congruence.
  - intros Hn. pose proof Hf as (Hx & Hc & H). apply newton_exact; try done.
    specialize (H ltac:(lia)). unfold is_u32 in *. nia.
Qed.

End DropFacts.

(** A flow in the dropping state with a due drop, and a scheduler, to
    instantiate the theorems with. *)
Definition sample_flow : cake_flow_t :=
  flow_zero⟪fl_dropping := true⟫⟪fl_codel_count := 20⟫⟪fl_rec_inv_sqrt := 960000000⟫
    ⟪fl_drop_next_us := 900⟫⟪fl_p_drop := 5⟫.
Definition sample_sched : cake_sched_t :=
  mkSched 12500000 0 0 7 0 (Some 1) 27 2 64 1 CAKE_TIN_MODE_BESTEFFORT 2000000 0 0
    5000 100000 122 16777215 1048575 (repeat 0 64) [] 0 0 0 0 0 None 1
    (Drr.mkChild 12500000 0 0 false) 0 0.
Definition sample_random (s : Z) : Z * Z := (u32 (s * 1664525 + 1013904223), s + 1).

Lemma sample_flow_ok : cobalt_ok sample_flow.
Proof. unfold cobalt_ok, is_u32. simpl. lia. Qed.

Lemma should_drop_decides_witness :
  cobalt_ok sample_flow /\
  exists r, cobalt_should_drop sample_random sample_flow sample_sched 9000 1000 1 true 42 = Some r /\
    dr_ecn_marked r = true /\ dr_drop r = false.
Proof.
  split; [apply sample_flow_ok|].
  destruct (should_drop_decides sample_random sample_flow sample_sched 9000 1000 1 true 42
    sample_flow_ok) as (r & Hr & Hm & Hd).
  exists r. split; [exact Hr|]. split; [rewrite Hm; vm_compute; reflexivity|].
  rewrite Hd; vm_compute; reflexivity.
Defined.

Lemma cobalt_root_in_range_witness :
  cobalt_ok sample_flow /\
  fl_rec_inv_sqrt (cobalt_newton_step sample_flow) = 960383653.
Proof.
  split; [apply sample_flow_ok|].
  destruct (cobalt_root_in_range sample_random sample_flow sample_sched 9000 1000 1 true 42
    sample_flow_ok) as (_ & _ & _ & H).
  rewrite H; [vm_compute; reflexivity|vm_compute; congruence].
Defined.

(** The table the plugin fills at start is the reciprocal square root of
    its index, in 32-bit fixed point: the square of every entry times the index
    is one to within 0.12 percent. *)
Theorem cache_accurate (n : nat) :
  (1 <= n < 16)%nat →
  exists x, cake_cobalt_cache_init !! n = Some x /\ is_u32 x /\
    10000 * Z.abs (Z.of_nat n * (x * x) - 2 ^ 64) <= 12 * 2 ^ 64.
Proof.
  intros Hn.
  assert (Forall (λ n, exists x, cake_cobalt_cache_init !! n = Some x /\ is_u32 x /\
            10000 * Z.abs (Z.of_nat n * (x * x) - 2 ^ 64) <= 12 * 2 ^ 64)
          [1;2;3;4;5;6;7;8;9;10;11;12;13;14;15]%nat) as Hall.
  { unfold is_u32. repeat constructor; eexists;
      (split; [vm_compute; reflexivity|]; vm_compute; repeat split; congruence). }
  rewrite Forall_forall in Hall. apply Hall. set_unfold. lia.
Qed.

Lemma cache_accurate_witness :
  (1 <= 9 < 16)%nat /\ exists x, cake_cobalt_cache_init !! 9%nat = Some x /\
    10000 * Z.abs (9 * (x * x) - 2 ^ 64) <= 12 * 2 ^ 64.
Proof.
  split; [lia|]. destruct (cache_accurate 9 ltac:(lia)) as (x & Hx & _ & H).
  exists x. split; [exact Hx|exact H].
Defined.

(** BLUE's probability saturates instead of wrapping: raising it adds
    [p_inc] up to the all-ones ceiling, lowering it subtracts [p_dec] down to
    zero, and neither moves it more than once per target. *)
Theorem blue_saturates f target p_inc p_dec interval now :
  is_u32 (fl_p_drop f) → is_u32 p_inc → is_u32 p_dec →
  let quiet := negb (i32 target <? i32 (u32 (now - fl_blue_timer_us f))) in
  fl_p_drop (cobalt_queue_full f target p_inc now) =
    (if quiet then fl_p_drop f else Z.min (fl_p_drop f + p_inc) (2 ^ 32 - 1)) /\
  fl_p_drop (cobalt_queue_empty f target p_dec interval now) =
    (if quiet then fl_p_drop f else Z.max (fl_p_drop f - p_dec) 0).
Proof.
  intros Hp Hi Hd. cbn zeta.
  assert (∀ g, fl_p_drop (cobalt_invsqrt g) = fl_p_drop g) as Hinv
    by (intros g; unfold cobalt_invsqrt; by destruct (_ <? _)).
  unfold cobalt_queue_full, cobalt_queue_empty. split.
  - destruct (i32 target <? _); simpl; destruct (_ =? 0); rsimpl; try done;
      zcases; ints.
  - destruct (i32 target <? _); rewrite ?andb_true_r, ?andb_false_r; simpl.
    + destruct (Z.eqb_spec (fl_p_drop f) 0); simpl;
        match goal with |- context [if ?b then _ else _] =>
          match b with context [cobalt_control] => fail 1 | context [_ && _] => destruct b end end;
        rewrite ?Hinv; rsimpl; rewrite ?Hinv; rsimpl; zcases; ints.
    + destruct (_ && _); rsimpl; rewrite ?Hinv; done.
Qed.

Lemma blue_saturates_witness :
  is_u32 4294960000 /\
  fl_p_drop (cobalt_queue_full (flow_zero⟪fl_p_drop := 4294960000⟫) 5000 16777215 6000)
    = 4294967295.
Proof.
  split; [unfold is_u32; lia|].
  destruct (blue_saturates (flow_zero⟪fl_p_drop := 4294960000⟫) 5000 16777215 1048575
    100000 6000) as [H _];
    [unfold is_u32; simpl; lia|unfold is_u32; lia|unfold is_u32; lia|].
  rewrite H. reflexivity.
Defined.

(** Overhead accounting: the adjusted length is the packet plus the link's
    per-packet overhead, never less than the minimum unit, and on ATM the bytes
    of the fewest 53-byte cells whose 48-byte payloads hold it; no intermediate
    overflows the [i32] arithmetic. *)
Theorem overhead_adjust_exact cs pkt_len :
  0 <= pkt_len <= 2 ^ 20 → - 2 ^ 15 <= cs_overhead_bytes cs < 2 ^ 15 →
  0 <= cs_mpu cs < 2 ^ 8 →
  let wire := Z.max (pkt_len + cs_overhead_bytes cs) (cs_mpu cs) in
  let adj := cake_overhead_adjust cs pkt_len in
  (cs_atm_mode cs ≠ 1 → adj = wire) /\
  (cs_atm_mode cs = 1 →
   exists cells, adj = 53 * cells /\ 48 * (cells - 1) < wire <= 48 * cells).
Proof.
  intros Hl Ho Hm. unfold cake_overhead_adjust. cbn zeta.
  rewrite (i32_small pkt_len) by lia.
  rewrite (i32_small (pkt_len + cs_overhead_bytes cs)) by lia.
  set (wire := Z.max _ _).
  assert ((if pkt_len + cs_overhead_bytes cs <? cs_mpu cs then cs_mpu cs
           else pkt_len + cs_overhead_bytes cs) = wire) as -> by (subst wire; zcases; lia).
  assert (0 <= wire <= 2 ^ 21) as Hw by (subst wire; lia).
  destruct (Z.eqb_spec (cs_atm_mode cs) 1) as [E|E]; (split; [intros ?; try done|intros ?; try done]).
  - exists ((wire + 47) / 48). rewrite (i32_small (wire + 47)) by lia.
    rewrite Z.quot_div_nonneg by lia.
    split; [|Z.to_euclidean_division_equations; lia].
    rewrite i32_small by (Z.to_euclidean_division_equations; lia).
    rewrite u32_small by (unfold is_u32; Z.to_euclidean_division_equations; lia). lia.
  - rewrite u32_small; [done|unfold is_u32; lia].
Qed.

Lemma overhead_adjust_exact_witness :
  let cs := sample_sched⟪cs_atm_mode := 1⟫⟪cs_overhead_bytes := 32⟫ in
  0 <= 1500 <= 2 ^ 20 /\
  exists cells, cake_overhead_adjust cs 1500 = 53 * cells /\
                48 * (cells - 1) < 1532 <= 48 * cells.
Proof.
  intros cs. split; [lia|].
  destruct (overhead_adjust_exact cs 1500) as [_ H]; [lia|simpl; lia|simpl; lia|].
  destruct (H eq_refl) as (cells & Hc & Hw). exists cells. split; [exact Hc|exact Hw].
Defined.
