(* ===== verification/CakeFlow.v ===== *)
(** Packets, flows and tins: the per-flow half of [osvbng_qos_sched.h], with the
    DiffServ tables and the tin set-up of [osvbng_qos_sched.c]. *)

From S2P Require Import Prelude Dll Drr CakeTypes.

(** ** Packet fields *)

Section Packet.

Context `{Vpp}.

Definition IP_PROTOCOL_TCP : Z := 6.
Definition IP_PROTOCOL_UDP : Z := 17.
Definition IP_ECN_NON_ECN : Z := 0.
Definition IP_ECN_CE : Z := 3.
Definition IP_PACKET_TC_FIELD_ECN_MASK : Z := 3.

Definition cake_dscp_from_buffer (b : vlib_buffer_t) (is_ip4 : bool) : Z :=
  let ip := cake_l3_header b in
  if is_ip4 then Z.land (Z.shiftr (bf_data b (ip + 1)) 2) 63
  else
    let vtcfl := clib_net_to_host_u32 (ld32 (bf_data b) ip) in
    Z.land (Z.shiftr vtcfl 22) 63.

Definition cake_dst_host_hash (b : vlib_buffer_t) (is_ip4 : bool) : Z :=
  let ip := cake_l3_header b in
  if is_ip4 then ld32 (bf_data b) (ip + 16)
  else Z.lxor (ld32 (bf_data b) (ip + 24)) (ld32 (bf_data b) (ip + 36)).

(** The two keys of the flow hash: addresses, and ports with the protocol (the
    flow label for IPv6).  Ports are read for TCP and UDP only. *)
Definition flow_ports (d : Z → Z) (protocol l4 : Z) : Z * Z :=
  if (protocol =? IP_PROTOCOL_TCP) || (protocol =? IP_PROTOCOL_UDP)
  then (ld16 d l4, ld16 d (l4 + 2)) else (0, 0).

Definition cake_hash_flow (b : vlib_buffer_t) (is_ip4 : bool) : Z :=
  let d := bf_data b in
  let ip := cake_l3_header b in
  let '(k0, k1) :=
    if is_ip4 then
      let protocol := d (ip + 9) in
      let '(sport, dport) := flow_ports d protocol (ip + ip4_header_bytes d ip) in
      (Z.lor (Z.shiftl (ld32 d (ip + 12)) 32) (ld32 d (ip + 16)),
       Z.lor (Z.lor (Z.shiftl sport 16) dport) (Z.shiftl protocol 32))
    else
      let protocol := d (ip + 6) in
      let flow_label := ip6_flow_label_network_order d ip in
      let '(sport, dport) := flow_ports d protocol (ip + 40) in
      (Z.lxor (ld64 d (ip + 8)) (ld64 d (ip + 16)),
       Z.lxor (Z.lxor (ld64 d (ip + 24)) (ld64 d (ip + 32)))
              (Z.lor (Z.lor (Z.shiftl sport 16) dport) (Z.shiftl flow_label 32))) in
  let hash := u32 (clib_xxhash (Z.lxor k0 k1)) in
  Z.lor hash 1.

(** The bytes of the packet after marking, and whether it could be marked. *)
Definition cake_ecn_mark (b : vlib_buffer_t) : vlib_buffer_t * bool :=
  let d := bf_data b in
  let ip := cake_l3_header b in
  if Z.shiftr (d ip) 4 =? 4 then
    if Z.land (d (ip + 1)) IP_PACKET_TC_FIELD_ECN_MASK =? IP_ECN_NON_ECN then (b, false)
    else (b⟪bf_data := ip4_header_set_ecn_w_chksum d ip IP_ECN_CE⟫, true)
  else
    let vtcfl := clib_net_to_host_u32 (ld32 d ip) in
    let tc := Z.land (Z.shiftr vtcfl 20) 255 in
    if Z.land tc 3 =? 0 then (b, false)
    else
      let tc := Z.lor (Z.land tc 252) 3 in
      let vtcfl := Z.lor (Z.land vtcfl (2 ^ 32 - 1 - Z.shiftl 255 20)) (Z.shiftl tc 20) in
      (b⟪bf_data := st32 d ip (clib_net_to_host_u32 vtcfl)⟫, true).

End Packet.

(** ** Hosts and the flow quantum *)

Fixpoint host_probe (n : nat) (i idx ip_hash : Z) (tin : cake_tin_t)
    : option (cake_tin_t * Z) :=
  match n with
  | O => None
  | S n =>
      let slot := Z.land (u16 (idx + i)) CAKE_HOSTS_MASK in
      let h := host_at tin slot in
      if ho_ip_hash h =? ip_hash then Some (tin, slot)
      else if ho_ip_hash h =? 0 then
        Some (set_host slot (h⟪ho_ip_hash := ip_hash⟫) tin, slot)
      else host_probe n (i + 1) idx ip_hash tin
  end.

Definition cake_host_lookup (tin : cake_tin_t) (ip_hash : Z) : cake_tin_t * Z :=
  let idx := Z.land ip_hash CAKE_HOSTS_MASK in
  match host_probe 4 0 idx ip_hash tin with
  | Some r => r
  | None => (set_host idx (mkHost ip_hash 0) tin, idx)
  end.

(** The reciprocal table [osvbng_qos_sched_init] fills. *)
Definition cake_quantum_div (i : Z) : Z := if i =? 0 then u16 (2 ^ 32 - 1) else 65535 / i.

Definition cake_quantum_for_flow (tin : cake_tin_t) (f : cake_flow_t) : Z :=
  let host_load :=
    if fl_dst_host_idx f <? CAKE_HOSTS then
      let hl := ho_bulk_flow_count (host_at tin (fl_dst_host_idx f)) in
      let hl := if CAKE_QUEUES <? hl then CAKE_QUEUES else hl in
      if 1 <? hl then hl else 1
    else 1 in
  let quantum := Z.shiftr (u32 (tn_quantum tin * cake_quantum_div host_load)) 16 in
  if quantum =? 0 then 1 else quantum.

(** ** Flow lists *)

Definition cake_flow_list_prepend (h t : option Z) (flows : gmap Z cake_flow_t) (idx : Z) :=
  dll_prepend h t flows idx.
Definition cake_flow_list_append_tail (h t : option Z) (flows : gmap Z cake_flow_t) (idx : Z) :=
  dll_append_tail h t flows idx.
Definition cake_flow_list_remove (h t : option Z) (flows : gmap Z cake_flow_t) (idx : Z) :=
  dll_remove h t flows idx.

(** The three lists of a tin, as the callers pass them. *)
Definition new_prepend (idx : Z) (tin : cake_tin_t) : cake_tin_t :=
  let '(h, t, m) := cake_flow_list_prepend (tn_new_flow_head tin) (tn_new_flow_tail tin)
                      (tn_flows tin) idx in
  tin⟪tn_flows := m⟫⟪tn_new_flow_head := h⟫⟪tn_new_flow_tail := t⟫.
Definition new_remove (idx : Z) (tin : cake_tin_t) : cake_tin_t :=
  let '(h, t, m) := cake_flow_list_remove (tn_new_flow_head tin) (tn_new_flow_tail tin)
                      (tn_flows tin) idx in
  tin⟪tn_flows := m⟫⟪tn_new_flow_head := h⟫⟪tn_new_flow_tail := t⟫.
Definition old_append (idx : Z) (tin : cake_tin_t) : cake_tin_t :=
  let '(h, t, m) := cake_flow_list_append_tail (tn_old_flow_head tin) (tn_old_flow_tail tin)
                      (tn_flows tin) idx in
  tin⟪tn_flows := m⟫⟪tn_old_flow_head := h⟫⟪tn_old_flow_tail := t⟫.
Definition old_remove (idx : Z) (tin : cake_tin_t) : cake_tin_t :=
  let '(h, t, m) := cake_flow_list_remove (tn_old_flow_head tin) (tn_old_flow_tail tin)
                      (tn_flows tin) idx in
  tin⟪tn_flows := m⟫⟪tn_old_flow_head := h⟫⟪tn_old_flow_tail := t⟫.
Definition decaying_append (idx : Z) (tin : cake_tin_t) : cake_tin_t :=
  let '(h, t, m) := cake_flow_list_append_tail (tn_decaying_flow_head tin)
                      (tn_decaying_flow_tail tin) (tn_flows tin) idx in
  tin⟪tn_flows := m⟫⟪tn_decaying_flow_head := h⟫⟪tn_decaying_flow_tail := t⟫.
Definition decaying_remove (idx : Z) (tin : cake_tin_t) : cake_tin_t :=
  let '(h, t, m) := cake_flow_list_remove (tn_decaying_flow_head tin)
                      (tn_decaying_flow_tail tin) (tn_flows tin) idx in
  tin⟪tn_flows := m⟫⟪tn_decaying_flow_head := h⟫⟪tn_decaying_flow_tail := t⟫.

(** ** The packet ring of a flow *)

Definition cake_flow_queue_len (f : cake_flow_t) : Z := u32 (fl_tail f - fl_head f).

Definition ring_at (f : cake_flow_t) (pos : Z) : Z :=
  match fl_ring f with
  | Some r => default 0 (r !! Z.land pos CAKE_FLOW_RING_MASK)
  | None => 0
  end.

Definition cake_flow_ring_alloc (f : cake_flow_t) : cake_flow_t :=
  f⟪fl_ring := Some ∅⟫⟪fl_head := 0⟫⟪fl_tail := 0⟫.

(** [ring[tail & MASK] = bi; tail++], the store of the enqueue node. *)
Definition ring_push (f : cake_flow_t) (bi : Z) : cake_flow_t :=
  f⟪fl_ring ::= fmap (<[Z.land (fl_tail f) CAKE_FLOW_RING_MASK := bi]>)⟫
   ⟪fl_tail ::= λ t, u32 (t + 1)⟫.

(** The loop of [cake_flow_ring_free]: the buffers it frees, in order.  One
    turn per queued buffer; [None] is running out of fuel. *)
Fixpoint ring_drain (fuel : nat) (f : cake_flow_t) : option (cake_flow_t * list Z) :=
  if fl_head f =? fl_tail f then Some (f, [])
  else match fuel with
  | O => None
  | S fuel =>
      let bi := ring_at f (fl_head f) in
      '(f, freed) ← ring_drain fuel (f⟪fl_head ::= λ h, u32 (h + 1)⟫);
      Some (f, bi :: freed)
  end.

Definition cake_flow_ring_free (f : cake_flow_t) : option (cake_flow_t * list Z) :=
  match fl_ring f with
  | None => Some (f, [])
  | Some _ =>
      '(f, freed) ← ring_drain (Z.to_nat (cake_flow_queue_len f)) f;
      Some (f⟪fl_ring := None⟫⟪fl_head := 0⟫⟪fl_tail := 0⟫, freed)
  end.

(** ** The eight-way flow table *)

Record way_scan := mkScan {
  sc_hit : option Z;            (* the slot the tag was found in *)
  sc_empty : option Z;
  sc_evict : option Z;
  sc_evict_backlog : Z
}.

Fixpoint scan_ways (n : nat) (slot tag : Z) (tin : cake_tin_t) (s : way_scan) : way_scan :=
  match n with
  | O => s
  | S n =>
      let slot_tag := tag_at tin slot in
      if slot_tag =? tag
      then mkScan (Some slot) (sc_empty s) (sc_evict s) (sc_evict_backlog s)
      else
        let empty := match sc_empty s with
                     | Some e => Some e
                     | None => if slot_tag =? 0 then Some slot else None
                     end in
        let bl := fl_backlog_bytes (flow_at tin slot) in
        let s :=
          if negb (slot_tag =? 0) && bool_decide (empty = None) && (bl <? sc_evict_backlog s)
          then mkScan None empty (Some slot) bl
          else mkScan None empty (sc_evict s) (sc_evict_backlog s) in
        scan_ways n (slot + 1) tag tin s
  end.

(** The tin, the slot ([None]: all eight ways are taken), the slot to evict. *)
Definition cake_flow_lookup (tin : cake_tin_t) (tag set_base : Z)
    : cake_tin_t * option Z * option Z :=
  let s := scan_ways (Z.to_nat CAKE_SET_WAYS) set_base tag tin
             (mkScan None None None (2 ^ 32 - 1)) in
  match sc_hit s with
  | Some slot => (tin, Some slot, sc_evict s)
  | None =>
      match sc_empty s with
      | Some e => (tin⟪tn_flow_tags ::= insert e tag⟫, Some e, None)
      | None => (tin, None, sc_evict s)
      end
  end.

(** The set a tag selects, as the enqueue node computes it. *)
Definition set_base_of (tag : Z) : Z := (tag mod CAKE_SET_COUNT) * CAKE_SET_WAYS.

(** ** DiffServ tables *)

Definition cake_dscp_besteffort : list Z := repeat 0 64.

Definition cake_dscp_diffserv3 : list Z := [
  1; 1; 1; 1; 2; 1; 1; 1; 0; 1; 1; 1; 1; 1; 1; 1;
  1; 1; 1; 1; 1; 1; 1; 1; 1; 1; 1; 1; 1; 1; 1; 1;
  1; 1; 1; 1; 1; 1; 1; 1; 1; 1; 1; 1; 2; 1; 2; 1;
  2; 1; 1; 1; 1; 1; 1; 1; 2; 1; 1; 1; 1; 1; 1; 1].

Definition cake_dscp_diffserv4 : list Z := [
  1; 2; 1; 1; 2; 1; 1; 1; 0; 1; 1; 1; 1; 1; 1; 1;
  2; 1; 2; 1; 2; 1; 2; 1; 2; 1; 2; 1; 2; 1; 2; 1;
  3; 1; 2; 1; 2; 1; 2; 1; 3; 1; 1; 1; 3; 1; 3; 1;
  3; 1; 1; 1; 1; 1; 1; 1; 3; 1; 1; 1; 1; 1; 1; 1].

Definition cake_dscp_diffserv8 : list Z := [
  2; 5; 1; 2; 4; 2; 2; 2; 0; 2; 1; 2; 1; 2; 1; 2;
  5; 2; 4; 2; 4; 2; 4; 2; 3; 2; 3; 2; 3; 2; 3; 2;
  6; 2; 3; 2; 3; 2; 3; 2; 6; 2; 2; 2; 6; 2; 6; 2;
  7; 2; 2; 2; 2; 2; 2; 2; 7; 2; 2; 2; 2; 2; 2; 2].

Definition cake_dscp_tables (m : cake_tin_mode) : list Z :=
  match m with
  | CAKE_TIN_MODE_BESTEFFORT => cake_dscp_besteffort
  | CAKE_TIN_MODE_DIFFSERV3 => cake_dscp_diffserv3
  | CAKE_TIN_MODE_DIFFSERV4 => cake_dscp_diffserv4
  | CAKE_TIN_MODE_DIFFSERV8 => cake_dscp_diffserv8
  end.

Definition cake_tin_counts (m : cake_tin_mode) : Z :=
  match m with
  | CAKE_TIN_MODE_BESTEFFORT => 1
  | CAKE_TIN_MODE_DIFFSERV3 => 3
  | CAKE_TIN_MODE_DIFFSERV4 => 4
  | CAKE_TIN_MODE_DIFFSERV8 => 8
  end.

(** ** Tin set-up *)

Definition cake_tin_init (quantum : Z) : cake_tin_t :=
  mkTin (list_to_map (map (λ i, (i, flow_zero)) (seqZ 0 CAKE_QUEUES))) ∅ 0
    None None None None None None quantum 0 0 0 0 0 0 0 ∅.

Definition cake_select_flow (tin : cake_tin_t) : option Z :=
  match tn_new_flow_head tin, tn_old_flow_head tin with
  | Some i, _ => Some i
  | None, Some i => Some i
  | None, None => tn_decaying_flow_head tin
  end.

(** * The ring is a FIFO queue *)

(** The buffers a flow holds, oldest first. *)
Definition queue (f : cake_flow_t) : list Z :=
  map (λ k, ring_at f (u32 (fl_head f + k))) (seqZ 0 (cake_flow_queue_len f)).

Definition ring_ok (f : cake_flow_t) : Prop :=
  is_u32 (fl_head f) /\ is_u32 (fl_tail f) /\
  cake_flow_queue_len f <= CAKE_FLOW_RING_SIZE.

Lemma ring_slot p : Z.land p CAKE_FLOW_RING_MASK = p mod 128.
Proof. change CAKE_FLOW_RING_MASK with (Z.ones 7). by rewrite Z.land_ones. Qed.

Lemma queue_length f : Z.of_nat (length (queue f)) = cake_flow_queue_len f.
Proof.
  unfold queue. rewrite length_map, length_seqZ.
  pose proof (u32_range (fl_tail f - fl_head f)). unfold is_u32, cake_flow_queue_len in *. lia.
Qed.

Lemma queue_len_push f bi :
  ring_ok f → cake_flow_queue_len f < CAKE_FLOW_RING_SIZE →
  cake_flow_queue_len (ring_push f bi) = cake_flow_queue_len f + 1.
Proof.
  unfold ring_ok, cake_flow_queue_len, ring_push, CAKE_FLOW_RING_SIZE. rsimpl. intros. ints.
Qed.

Lemma ring_push_ok f bi :
  ring_ok f → cake_flow_queue_len f < CAKE_FLOW_RING_SIZE → ring_ok (ring_push f bi).
Proof.
  intros Hok Hlt. split; [apply Hok|]. split; [apply u32_range|].
  rewrite queue_len_push by done. unfold CAKE_FLOW_RING_SIZE in *. lia.
Qed.

Lemma ring_at_push f bi pos r :
  fl_ring f = Some r →
  ring_at (ring_push f bi) pos =
    if pos mod 128 =? fl_tail f mod 128 then bi else ring_at f pos.
Proof.
  intros Hr. unfold ring_at, ring_push. rsimpl. rewrite Hr. simpl. rewrite !ring_slot.
  destruct (Z.eqb_spec (pos mod 128) (fl_tail f mod 128)) as [->|Hne].
  - by rewrite lookup_insert_eq.
  - by rewrite lookup_insert_ne.
Qed.

Lemma queue_push f bi :
  ring_ok f → is_Some (fl_ring f) → cake_flow_queue_len f < CAKE_FLOW_RING_SIZE →
  queue (ring_push f bi) = queue f ++ [bi].
Proof.
  intros Hok [r Hr] Hlt. unfold queue. rewrite queue_len_push by done.
  pose proof (u32_range (fl_tail f - fl_head f)) as Hl. fold (cake_flow_queue_len f) in Hl.
  unfold is_u32 in Hl. rewrite seqZ_app by lia. rewrite map_app. f_equal.
  - apply map_seqZ_ext. intros k Hk. rewrite (ring_at_push f bi _ r Hr).
    destruct (Z.eqb_spec (u32 (fl_head (ring_push f bi) + k) mod 128) (fl_tail f mod 128))
      as [E|]; [|done].
    exfalso. revert E Hk Hlt Hok. unfold ring_ok, cake_flow_queue_len, CAKE_FLOW_RING_SIZE.
    rsimpl. intros. ints.
  - change (seqZ (0 + cake_flow_queue_len f) 1) with [cake_flow_queue_len f].
    simpl. f_equal. rewrite (ring_at_push f bi _ r Hr).
    destruct (Z.eqb_spec (u32 (fl_head f + cake_flow_queue_len f) mod 128)
      (fl_tail f mod 128)) as [|E]; [done|].
    exfalso. revert E Hlt Hok. unfold ring_ok, cake_flow_queue_len. rsimpl. intros. ints.
Qed.

Lemma queue_pop f :
  ring_ok f → cake_flow_queue_len f ≠ 0 →
  let f' := f⟪fl_head ::= λ h, u32 (h + 1)⟫ in
  queue f = ring_at f (fl_head f) :: queue f' /\ ring_ok f' /\
  cake_flow_queue_len f' = cake_flow_queue_len f - 1.
Proof.
  intros (Hh & Ht & Hlen) Hne f'.
  pose proof (u32_range (fl_tail f - fl_head f)) as Hl. fold (cake_flow_queue_len f) in Hl.
  assert (cake_flow_queue_len f' = cake_flow_queue_len f - 1) as Hlen'.
  { subst f'. unfold cake_flow_queue_len in *. rsimpl. ints. }
  split; [|split; [|done]].
  - unfold queue. unfold is_u32 in Hl. rewrite seqZ_cons by lia. simpl.
    rewrite Hlen'. f_equal.
    + f_equal. rewrite Z.add_0_r. by apply u32_small.
    + change (Z.succ 0) with (0 + 1). rewrite map_seqZ_shift. apply map_seqZ_ext.
      intros k _. change (ring_at f') with (ring_at f). f_equal. subst f'. rsimpl. ints.
  - split; [apply u32_range|]. split; [done|]. lia.
Qed.

Lemma ring_drain_spec n f :
  ring_ok f → Z.of_nat n = cake_flow_queue_len f →
  ring_drain n f = Some (f⟪fl_head := fl_tail f⟫, queue f).
Proof.
  revert f. induction n as [|n IH]; intros f Hok Hn; pose proof Hok as (Hh & Ht & Hlen).
  - assert (fl_head f = fl_tail f) as E by (unfold cake_flow_queue_len in Hn; ints).
    simpl. rewrite E, Z.eqb_refl. unfold queue. rewrite <- Hn. rewrite <- E. by destruct f.
  - simpl. destruct (Z.eqb_spec (fl_head f) (fl_tail f)) as [E|E].
    { unfold cake_flow_queue_len in Hn. rewrite E in Hn. ints. }
    destruct (queue_pop f Hok ltac:(lia)) as (Hq & Hok' & Hl').
    rewrite (IH _ Hok' ltac:(lia)). cbn [mbind option_bind]. by rewrite Hq.
Qed.

(** The ring buffer refines a bounded FIFO queue, across the wrap of its
    32-bit counters: a push below capacity appends, a pop takes the oldest
    buffer, undoing the pop gives it back, and freeing the ring releases exactly
    the queued buffers, oldest first. *)
Theorem ring_fifo f bi :
  ring_ok f → is_Some (fl_ring f) → cake_flow_queue_len f < CAKE_FLOW_RING_SIZE →
  let f1 := ring_push f bi in
  let f2 := f1⟪fl_head ::= λ h, u32 (h + 1)⟫ in
  queue f1 = queue f ++ [bi] /\ ring_ok f1 /\
  queue f1 = ring_at f1 (fl_head f1) :: queue f2 /\ ring_ok f2 /\
  f2⟪fl_head ::= λ h, u32 (h - 1)⟫ = f1 /\
  exists f3, cake_flow_ring_free f1 = Some (f3, queue f1) /\ fl_ring f3 = None.
Proof.
  intros Hok Hr Hlt. cbn zeta.
  pose proof (queue_push f bi Hok Hr Hlt) as Hq.
  pose proof (ring_push_ok f bi Hok Hlt) as Hok1.
  pose proof (queue_len_push f bi Hok Hlt) as Hl1.
  pose proof (u32_range (fl_tail f - fl_head f)) as Hl. fold (cake_flow_queue_len f) in Hl.
  unfold is_u32 in Hl.
  destruct (queue_pop (ring_push f bi) Hok1 ltac:(lia)) as (Hq2 & Hok2 & _).
  repeat (split; [done|]). split.
  - assert (u32 (u32 (fl_head f + 1) - 1) = fl_head f) as E
      by (destruct Hok as (Hh & _); ints).
    unfold ring_push. rsimpl. rewrite E. done.
  - unfold cake_flow_ring_free. destruct Hr as [r Hr].
    destruct (fl_ring (ring_push f bi)) eqn:E.
    + rewrite (ring_drain_spec (Z.to_nat (cake_flow_queue_len (ring_push f bi))) _ Hok1
        ltac:(lia)). cbn [mbind option_bind]. by eexists.
    + unfold ring_push in E. rsimpl in E. by rewrite Hr in E.
Qed.

(** A ring whose counters are about to wrap. *)
Definition sample_ring : cake_flow_t :=
  flow_zero⟪fl_ring := Some (list_to_map [(126, 11); (127, 12)])⟫
    ⟪fl_head := 2 ^ 32 - 2⟫⟪fl_tail := 0⟫.

Lemma ring_fifo_witness :
  queue sample_ring = [11; 12] /\ queue (ring_push sample_ring 13) = [11; 12; 13].
Proof.
  destruct (ring_fifo sample_ring 13) as [H _];
    [repeat split; vm_compute; congruence|eexists; reflexivity|vm_compute; congruence|].
  split; [vm_compute; reflexivity|]. rewrite H. vm_compute. reflexivity.
Defined.

(** * The flow table *)

Lemma scan_hit n slot tag tin s : sc_hit s = None →
  match sc_hit (scan_ways n slot tag tin s) with
  | Some h => slot <= h < slot + Z.of_nat n /\ tag_at tin h = tag
  | None => ∀ i, slot <= i < slot + Z.of_nat n → tag_at tin i ≠ tag
  end.
Proof.
  revert slot s. induction n as [|n IH]; intros slot s Hs; simpl; [rewrite Hs; lia|].
  destruct (Z.eqb_spec (tag_at tin slot) tag) as [Hx|Hx]; simpl; [lia|].
  match goal with |- context [scan_ways n (slot + 1) tag tin ?s] =>
    specialize (IH (slot + 1) s ltac:(by destruct (_ && _))) end.
  destruct (sc_hit _) as [h|]; [lia|].
  intros i Hi. destruct (decide (i = slot)) as [->|]; [done|]. apply IH. lia.
Qed.

Lemma scan_empty n slot tag tin s :
  sc_hit (scan_ways n slot tag tin s) = None →
  match sc_empty (scan_ways n slot tag tin s) with
  | Some e => sc_empty s = Some e \/
              slot <= e < slot + Z.of_nat n /\ tag_at tin e = 0
  | None => sc_empty s = None /\
            ∀ i, slot <= i < slot + Z.of_nat n → tag_at tin i ≠ 0
  end.
Proof.
  revert slot s. induction n as [|n IH]; intros slot s; simpl.
  { destruct (sc_empty s); [auto|]. split; [done|lia]. }
  destruct (Z.eqb_spec (tag_at tin slot) tag) as [Hx|Hx]; simpl; [done|].
  intros Hr. specialize (IH _ _ Hr). revert IH.
  match goal with |- context [sc_empty (if ?b then ?x else ?y)] =>
    replace (sc_empty (if b then x else y)) with (sc_empty x) by (by destruct b) end.
  destruct (sc_empty (scan_ways _ _ _ _ _)) as [e|]; simpl.
  - intros [He|He]; [|lia]. destruct (sc_empty s); [auto|].
    destruct (Z.eqb_spec (tag_at tin slot) 0); simplify_eq. right. split; [lia|done].
  - intros [He Hi]. destruct (sc_empty s); [done|]. split; [done|].
    destruct (Z.eqb_spec (tag_at tin slot) 0); [done|].
    intros i Hsl. destruct (decide (i = slot)) as [->|]; [done|]. apply Hi. lia.
Qed.

Definition backlog_at (tin : cake_tin_t) (slot : Z) : Z := fl_backlog_bytes (flow_at tin slot).

Lemma scan_evict n slot tag tin s :
  let r := scan_ways n slot tag tin s in
  sc_hit r = None → sc_empty r = None →
  sc_evict_backlog r <= sc_evict_backlog s /\
  (∀ i, slot <= i < slot + Z.of_nat n → sc_evict_backlog r <= backlog_at tin i) /\
  (sc_evict r = sc_evict s /\ sc_evict_backlog r = sc_evict_backlog s \/
   exists e, sc_evict r = Some e /\ slot <= e < slot + Z.of_nat n /\
             backlog_at tin e = sc_evict_backlog r).
Proof.
  revert slot s. induction n as [|n IH]; intros slot s; simpl.
  { intros _ _. split; [lia|]. split; [lia|]. by left. }
  destruct (Z.eqb_spec (tag_at tin slot) tag) as [Hx|Hx]; simpl; [done|].
  match goal with |- context [scan_ways n (slot + 1) tag tin ?x] => set (s1 := x) end.
  intros Hh He. specialize (IH (slot + 1) s1 Hh He).
  pose proof (scan_empty n (slot + 1) tag tin s1 Hh) as Hem. rewrite He in Hem.
  destruct Hem as [Hs1 _]. destruct IH as (Hle & Hall & Hev).
  assert (sc_evict_backlog s1 = Z.min (sc_evict_backlog s) (backlog_at tin slot) /\
    (sc_evict s1 = sc_evict s /\ sc_evict_backlog s1 = sc_evict_backlog s \/
     sc_evict s1 = Some slot /\ backlog_at tin slot = sc_evict_backlog s1)) as [Hm Hc].
  { subst s1. fold (backlog_at tin slot) in *.
    destruct (sc_empty s) as [e|]; simpl in *.
    { by destruct (_ && _). }
    destruct (Z.eqb_spec (tag_at tin slot) 0); simpl in *; [done|].
    destruct (Z.ltb_spec (backlog_at tin slot) (sc_evict_backlog s)); simpl in *.
    - split; [lia|]. by right.
    - split; [lia|]. by left. }
  split; [lia|]. split.
  - intros i Hi. destruct (decide (i = slot)) as [->|]; [lia|]. apply Hall. lia.
  - destruct Hev as [[E1 E2]|(e & E1 & E2 & E3)].
    + destruct Hc as [[C1 C2]|[C1 C2]]; [left; split; congruence|].
      right. exists slot. split; [congruence|]. split; [lia|congruence].
    + right. exists e. split; [done|]. split; [lia|done].
Qed.

(** The flow table is an eight-way set: a tag that is present is found
    where it is; an absent tag takes an empty way of its set if there is one, and
    is found there afterwards; and only when every way is taken does the lookup
    name a victim, which is then a way of the set holding the least backlog. *)
Theorem flow_lookup_spec tin tag base :
  tag ≠ 0 → (∀ i, 0 <= backlog_at tin i < 2 ^ 32 - 1) →
  let way i := base <= i < base + CAKE_SET_WAYS in
  let '(tin', found, evict) := cake_flow_lookup tin tag base in
  tin'⟪tn_flow_tags := tn_flow_tags tin⟫ = tin /\
  match found with
  | Some slot =>
      way slot /\ tag_at tin' slot = tag /\
      (∀ i, i ≠ slot → tag_at tin' i = tag_at tin i) /\
      (tag_at tin slot = tag \/
       tag_at tin slot = 0 /\ ∀ i, way i → tag_at tin i ≠ tag)
  | None =>
      tin' = tin /\ (∀ i, way i → tag_at tin i ≠ 0 /\ tag_at tin i ≠ tag) /\
      exists e, evict = Some e /\ way e /\ ∀ i, way i → backlog_at tin e <= backlog_at tin i
  end.
Proof.
  intros Htag Hbl. cbn zeta. unfold cake_flow_lookup.
  set (s0 := mkScan None None None (2 ^ 32 - 1)).
  change (Z.to_nat CAKE_SET_WAYS) with 8%nat. change CAKE_SET_WAYS with 8.
  pose proof (scan_hit 8 base tag tin s0 eq_refl) as Hhit.
  pose proof (scan_empty 8 base tag tin s0) as Hem.
  pose proof (scan_evict 8 base tag tin s0) as Hev. cbn zeta in Hev.
  set (r := scan_ways 8 base tag tin s0) in *.
  destruct (sc_hit r) as [h|].
  { split; [by destruct tin|]. split; [lia|]. split; [lia|]. split; [done|]. left. lia. }
  specialize (Hem eq_refl). destruct (sc_empty r) as [e|].
  - destruct Hem as [?|[He He0]]; [done|]. split; [by destruct tin|].
    split; [lia|]. unfold tag_at in *. rsimpl. rewrite lookup_insert_eq. split; [done|].
    split; [|right; split; [done|intros i Hi; apply Hhit; lia]].
    intros i Hi. by rewrite lookup_insert_ne by congruence.
  - destruct Hem as [_ Hne]. destruct (Hev eq_refl eq_refl) as (_ & Hall & Hc).
    split; [by destruct tin|]. split; [done|].
    split; [intros i Hi; split; [apply Hne|apply Hhit]; lia|].
    destruct Hc as [[_ E]|(e & E1 & E2 & E3)].
    + specialize (Hall base ltac:(lia)). rewrite E in Hall. simpl in Hall.
      specialize (Hbl base). lia.
    + exists e. split; [done|]. split; [lia|]. intros i Hi. rewrite E3. apply Hall. lia.
Qed.

Definition sample_tin : cake_tin_t :=
  (mkTin ∅ ∅ 0 None None None None None None 1514 0 0 0 0 0 0 0 ∅)
    ⟪tn_flow_tags := list_to_map [(8, 17); (9, 145); (10, 273); (11, 401);
                                  (12, 529); (13, 657); (14, 785); (15, 913)]⟫
    ⟪tn_flows ::= insert 10 (flow_zero⟪fl_backlog_bytes := 3⟫)⟫.

Lemma sample_tin_backlog i : 0 <= backlog_at sample_tin i < 2 ^ 32 - 1.
Proof.
  unfold backlog_at, flow_at.
  assert (map_Forall (λ _ f, 0 <= fl_backlog_bytes f < 2 ^ 32 - 1) (tn_flows sample_tin))
    as H.
  { apply (bool_decide_unpack _). vm_compute. exact I. }
  destruct (tn_flows sample_tin !! i) as [f|] eqn:E; simpl; [exact (H i f E)|lia].
Qed.

Lemma flow_lookup_spec_witness :
  exists e, cake_flow_lookup sample_tin 1041 8 = (sample_tin, None, Some e) /\
    ∀ i, 8 <= i < 16 → backlog_at sample_tin e <= backlog_at sample_tin i.
Proof.
  pose proof (flow_lookup_spec sample_tin 1041 8 ltac:(lia) sample_tin_backlog) as H.
  assert (cake_flow_lookup sample_tin 1041 8 = (sample_tin, None, Some 8)) as E
    by (vm_compute; reflexivity).
  rewrite E in H. destruct H as (_ & _ & _ & e & He & _ & Hmin).
  exists e. split; [rewrite E, He; reflexivity|exact Hmin].
Defined.

(** Half of the table is never used: the hash always has its low bit set,
    and that bit selects the set, so no packet reaches an even-numbered set and
    at most 512 of the 1024 queues can hold a flow. *)
Theorem hash_reaches_odd_sets_only `{Vpp} b is_ip4 :
  let set := set_base_of (cake_hash_flow b is_ip4) / CAKE_SET_WAYS in
  Z.odd set = true.
Proof.
  cbn zeta. unfold set_base_of. rewrite Z.div_mul by done.
  assert (Z.odd (cake_hash_flow b is_ip4) = true) as Hodd.
  { unfold cake_hash_flow. destruct (if is_ip4 then _ else _) as [k0 k1].
    rewrite <- Z.bit0_odd, Z.lor_spec. apply orb_true_r. }
  change CAKE_SET_COUNT with 128.
  rewrite Z.mod_eq by done. rewrite Z.odd_sub, Hodd.
  by rewrite Z.odd_mul.
Qed.

(** * Marking *)

Definition bytes (d : Z → Z) : Prop := ∀ o, 0 <= d o < 256.

Lemma be32_value d o : bytes d →
  clib_net_to_host_u32 (ld32 d o) =
    d o * 2 ^ 24 + d (o + 1) * 2 ^ 16 + d (o + 2) * 2 ^ 8 + d (o + 3).
Proof.
  intros Hd. unfold clib_net_to_host_u32, ld32, ld16, u8.
  rewrite !Z.shiftl_mul_pow2, !Z.shiftr_div_pow2 by lia.
  replace (o + 2 + 1) with (o + 3) by lia.
  pose proof (Hd o). pose proof (Hd (o + 1)). pose proof (Hd (o + 2)). pose proof (Hd (o + 3)).
  Z.to_euclidean_division_equations. lia.
Qed.

(** Storing a host-order word writes its bytes most significant first. *)
Lemma st32_be32 d o v p : is_u32 v →
  st32 d o (clib_net_to_host_u32 v) p =
    if p =? o then v / 2 ^ 24 else if p =? o + 1 then v / 2 ^ 16 mod 256
    else if p =? o + 2 then v / 2 ^ 8 mod 256 else if p =? o + 3 then v mod 256 else d p.
Proof.
  intros Hv. unfold st32, clib_net_to_host_u32, u8, is_u32 in *.
  rewrite !Z.shiftl_mul_pow2, !Z.shiftr_div_pow2 by lia.
  unfold insert, fn_insert.
  repeat case_decide; subst; zcases; try lia; Z.to_euclidean_division_equations; lia.
Qed.

Lemma mark_tc tc : 0 <= tc < 256 → Z.lor (Z.land tc 252) 3 = tc - tc mod 4 + 3.
Proof.
  intros Htc.
  assert (Forall (λ tc, Z.lor (Z.land tc 252) 3 = tc - tc mod 4 + 3) (seqZ 0 256)) as H
    by (apply (bool_decide_unpack _); vm_compute; exact I).
  rewrite Forall_seqZ in H. apply H. lia.
Qed.

(** Replacing the traffic class of an IPv6 first word. *)
Lemma set_tc v t : is_u32 v → 0 <= t < 256 →
  Z.lor (Z.land v (2 ^ 32 - 1 - Z.shiftl 255 20)) (Z.shiftl t 20) =
    v / 2 ^ 28 * 2 ^ 28 + t * 2 ^ 20 + v mod 2 ^ 20.
Proof.
  intros Hv Ht. change (2 ^ 32 - 1 - Z.shiftl 255 20) with (Z.lor (2 ^ 20 - 1) (Z.shiftl 15 28)).
  rewrite Z.land_lor_distr_r, land_ones_mod, land_shiftl_r by lia.
  change 15 with (2 ^ 4 - 1). rewrite land_ones_mod, Z.shiftr_div_pow2 by lia.
  rewrite (Z.lor_comm (v mod 2 ^ 20)), <- Z.lor_assoc, Z.lor_comm.
  rewrite (lor_shiftl_add (v mod 2 ^ 20)) by (try lia; apply Z.mod_pos_bound; lia).
  unfold is_u32 in Hv.
  rewrite lor_shiftl_add; Z.to_euclidean_division_equations; lia.
Qed.

(** The two ECN bits of a packet, wherever its IP version puts them. *)
Definition ecn_field (d : Z → Z) (ip : Z) : Z :=
  if Z.shiftr (d ip) 4 =? 4 then Z.land (d (ip + 1)) 3
  else Z.land (Z.shiftr (clib_net_to_host_u32 (ld32 d ip)) 20) 3.

Lemma tos_marked t : 0 <= t < 256 →
  Z.land (Z.lor (Z.land t 252) 3) 3 = 3 /\
  Z.land (Z.shiftr (Z.lor (Z.land t 252) 3) 2) 63 = Z.land (Z.shiftr t 2) 63.
Proof.
  intros Ht.
  assert (Forall (λ t, Z.land (Z.lor (Z.land t 252) 3) 3 = 3 /\
    Z.land (Z.shiftr (Z.lor (Z.land t 252) 3) 2) 63 = Z.land (Z.shiftr t 2) 63) (seqZ 0 256))
    as H by (apply (bool_decide_unpack _); vm_compute; exact I).
  rewrite Forall_seqZ in H. apply H. lia.
Qed.

(** The IPv6 branch touches one byte of the packet. *)
Lemma mark6_bytes d ip : bytes d →
  let v := clib_net_to_host_u32 (ld32 d ip) in
  let tc := Z.lor (Z.land (Z.land (Z.shiftr v 20) 255) 252) 3 in
  let v' := Z.lor (Z.land v (2 ^ 32 - 1 - Z.shiftl 255 20)) (Z.shiftl tc 20) in
  let d' := st32 d ip (clib_net_to_host_u32 v') in
  (∀ p, p ≠ ip + 1 → d' p = d p) /\
  d' (ip + 1) = d (ip + 1) - d (ip + 1) / 16 mod 4 * 16 + 48.
Proof.
  intros Hd. cbn zeta. rewrite be32_value by done.
  pose proof (Hd ip) as H0. pose proof (Hd (ip + 1)) as H1.
  pose proof (Hd (ip + 2)) as H2. pose proof (Hd (ip + 3)) as H3.
  set (v := d ip * 2 ^ 24 + d (ip + 1) * 2 ^ 16 + d (ip + 2) * 2 ^ 8 + d (ip + 3)).
  assert (Z.land (Z.shiftr v 20) 255 = v / 2 ^ 20 mod 2 ^ 8) as ->.
  { change 255 with (2 ^ 8 - 1). by rewrite land_ones_mod, Z.shiftr_div_pow2 by lia. }
  assert (0 <= v / 2 ^ 20 mod 2 ^ 8 < 256) as Htc by (apply Z.mod_pos_bound; lia).
  rewrite mark_tc by done. set (t := _ - _ + 3).
  assert (0 <= t < 256) as Ht by (subst t; Z.to_euclidean_division_equations; lia).
  assert (is_u32 v) as Hv by (subst v; unfold is_u32; lia).
  rewrite set_tc by done. set (v' := _ + _ + _).
  assert (is_u32 v') as Hv'
    by (subst v'; unfold is_u32 in *; Z.to_euclidean_division_equations; lia).
  assert (v' / 2 ^ 24 = d ip /\ v' / 2 ^ 8 mod 256 = d (ip + 2) /\ v' mod 256 = d (ip + 3) /\
          v' / 2 ^ 16 mod 256 = d (ip + 1) - d (ip + 1) / 16 mod 4 * 16 + 48)
    as (E0 & E2 & E3 & E1).
  { subst v' t v. clear - H0 H1 H2 H3.
    repeat split; Z.to_euclidean_division_equations; lia. }
  split.
  - intros p Hp. rewrite st32_be32 by done. zcases; subst; done.
  - rewrite st32_be32 by done. zcases; lia.
Qed.

(** Marking is exact: it succeeds just when the packet's ECN bits are not
    zero, an unmarked packet is returned unchanged, a marked one carries CE, keeps
    its DSCP, and differs from the original in no byte but the traffic class (and
    the header checksum of IPv4). *)
Theorem ecn_mark_exact `{VppLaws} b :
  bytes (bf_data b) →
  let ip := cake_l3_header b in
  let v4 := Z.shiftr (bf_data b ip) 4 =? 4 in
  let '(b', ok) := cake_ecn_mark b in
  ok = negb (ecn_field (bf_data b) ip =? 0) /\
  (ok = false → b' = b) /\
  (ok = true →
   ecn_field (bf_data b') ip = 3 /\
   cake_dscp_from_buffer b' v4 = cake_dscp_from_buffer b v4 /\
   ∀ p, p ≠ ip + 1 → (v4 = true → p ≠ ip + 10 /\ p ≠ ip + 11) →
        bf_data b' p = bf_data b p).
Proof.
  intros Hd. cbn zeta. unfold cake_ecn_mark, ecn_field, cake_dscp_from_buffer.
  set (d := bf_data b) in *. set (ip := cake_l3_header b).
  destruct (Z.shiftr (d ip) 4 =? 4) eqn:Hv.
  - unfold IP_PACKET_TC_FIELD_ECN_MASK, IP_ECN_NON_ECN, IP_ECN_CE.
    destruct (Z.eqb_spec (Z.land (d (ip + 1)) 3) 0) as [E|E]; [done|].
    split; [done|]. split; [done|]. intros _. rsimpl.
    change (cake_l3_header _) with ip.
    rewrite (set_ecn_frame d ip 3 ip) by lia. rewrite Hv, set_ecn_tos by (exact (Hd _) || lia).
    destruct (tos_marked (d (ip + 1)) (Hd _)) as [T1 T2].
    split; [exact T1|]. split; [exact T2|].
    intros p Hp Hck. destruct (Hck eq_refl). by apply set_ecn_frame.
  - assert (Z.land (Z.land (Z.shiftr (clib_net_to_host_u32 (ld32 d ip)) 20) 255) 3 =
            Z.land (Z.shiftr (clib_net_to_host_u32 (ld32 d ip)) 20) 3) as ->
      by (rewrite <- Z.land_assoc; done).
    destruct (Z.eqb_spec (Z.land (Z.shiftr (clib_net_to_host_u32 (ld32 d ip)) 20) 3) 0)
      as [E|E]; [done|].
    split; [done|]. split; [done|]. intros _. rsimpl. change (cake_l3_header _) with ip.
    destruct (mark6_bytes d ip Hd) as [Hfr H1]. cbn zeta in Hfr, H1.
    set (d' := st32 _ _ _) in *. rewrite Hfr, Hv by lia.
    assert (bytes d') as Hd'.
    { intros p. destruct (decide (p = ip + 1)) as [->|]; [|rewrite Hfr by done; apply Hd].
      rewrite H1. pose proof (Hd (ip + 1)). Z.to_euclidean_division_equations. lia. }
    rewrite !be32_value by done. rewrite H1, !Hfr by lia.
    pose proof (Hd ip) as B0. pose proof (Hd (ip + 1)) as B1.
    pose proof (Hd (ip + 2)) as B2. pose proof (Hd (ip + 3)) as B3.
    change 3 with (2 ^ 2 - 1) at 2. change 63 with (2 ^ 6 - 1).
    rewrite !land_ones_mod, !Z.shiftr_div_pow2 by lia. clear - B0 B1 B2 B3 Hfr.
    split; [Z.to_euclidean_division_equations; lia|].
    split; [Z.to_euclidean_division_equations; lia|]. intros p Hp _. by apply Hfr.
Qed.

(** A concrete instance of the VPP functions: the mark without its checksum
    update (which the laws leave open), and stand-ins for the hash, the header
    length field, the flow label and the generator. *)
#[export] Instance sample_vpp : Vpp := {|
  clib_xxhash := λ k, k * 11400714785074694791;
  ip4_header_bytes := λ d o, Z.land (d o) 15 * 4;
  ip6_flow_label_network_order := λ d o, Z.land (clib_net_to_host_u32 (ld32 d o)) 1048575;
  ip4_header_set_ecn_w_chksum := λ d o e,
    <[o + 1 := Z.lor (Z.land (d (o + 1)) 252) e]> d;
  random_u32 := λ s, (u32 (s * 1664525 + 1013904223), u32 (s * 1664525 + 1013904223))
|}.

#[export] Instance sample_vpp_laws : VppLaws.
Proof.
  split; simpl.
  - intros d o e _ _. by rewrite fn_lookup_insert.
  - intros d o e p H _ _. by rewrite fn_lookup_insert_ne by congruence.
Qed.

Definition sample_packet (l : list Z) : vlib_buffer_t :=
  mkBuffer (λ o, u8 (nth (Z.to_nat o) l 0)) 0 (Some 0) 0 false 7 1500 0.

Lemma ecn_mark_exact_witness :
  let b := sample_packet [96; 32; 17; 34; 0; 40; 6; 64] in
  bytes (bf_data b) /\ snd (cake_ecn_mark b) = true /\
  ecn_field (bf_data (fst (cake_ecn_mark b))) 0 = 3.
Proof.
  intros b. assert (bytes (bf_data b)) as Hb by (intros o; apply Z.mod_pos_bound; reflexivity).
  pose proof (ecn_mark_exact b Hb) as H. cbn zeta in H.
  destruct (cake_ecn_mark b) as [b' ok]. destruct H as (Hok & _ & H).
  assert (ok = true) as Ht by (rewrite Hok; vm_compute; reflexivity).
  split; [exact Hb|]. split; [exact Ht|]. apply (H Ht).
Defined.

(** * Sharing between hosts and tins *)

Lemma quantum_div_bounds h : 1 <= h → h * cake_quantum_div h <= 65535 < h * cake_quantum_div h + h.
Proof.
  intros Hh. unfold cake_quantum_div. destruct (Z.eqb_spec h 0); [lia|].
  Z.to_euclidean_division_equations. lia.
Qed.

(** Flow quanta divide the tin's quantum among the bulk flows of a host: with
    [h] of them, each gets its [h]-th part to within two bytes, together they get
    no more than the whole, and no flow's quantum is ever zero. *)
Theorem host_quanta_share tin f :
  0 < tn_quantum tin <= 65536 →
  let h := Z.max 1 (Z.min CAKE_QUEUES (ho_bulk_flow_count (host_at tin (fl_dst_host_idx f)))) in
  let q := cake_quantum_for_flow tin f in
  fl_dst_host_idx f < CAKE_HOSTS →
  1 <= q /\ (q = 1 \/ h * q <= tn_quantum tin) /\ tn_quantum tin < h * (q + 2).
Proof.
  intros HQ h q Hidx. subst q. unfold cake_quantum_for_flow.
  destruct (Z.ltb_spec (fl_dst_host_idx f) CAKE_HOSTS) as [_|]; [|lia].
  set (n := ho_bulk_flow_count _) in *.
  assert ((if 1 <? (if CAKE_QUEUES <? n then CAKE_QUEUES else n)
           then (if CAKE_QUEUES <? n then CAKE_QUEUES else n) else 1) = h) as ->
    by (subst h; unfold CAKE_QUEUES; zcases; lia).
  assert (1 <= h <= 1024) as Hh by (subst h; unfold CAKE_QUEUES; lia).
  clearbody h. pose proof (quantum_div_bounds h ltac:(lia)) as Hd.
  set (D := cake_quantum_div h) in *. set (Q := tn_quantum tin) in *.
  assert (0 <= D <= 65535) as HD by nia.
  rewrite u32_small by (unfold is_u32; nia). rewrite Z.shiftr_div_pow2 by lia.
  pose proof (Z.mul_div_le (Q * D) (2 ^ 16) ltac:(lia)) as Hq1.
  pose proof (Z.mul_succ_div_gt (Q * D) (2 ^ 16) ltac:(lia)) as Hq2.
  set (q := Q * D / 2 ^ 16) in *. change (2 ^ 16) with 65536 in *.
  assert (0 <= q) by nia.
  assert (Q < h * (q + 2)) as Hlow by nia.
  assert (h * q <= Q) as Hup by nia.
  destruct (Z.eqb_spec q 0) as [E|E]; split; lia || (split; [|nia]; auto).
Qed.

Definition shared_tin : cake_tin_t :=
  sample_tin⟪tn_hosts := {[ 9 := mkHost 777 10 ]}⟫.

Lemma host_quanta_share_witness :
  let f := flow_zero⟪fl_dst_host_idx := 9⟫ in
  1514 < 10 * (cake_quantum_for_flow shared_tin f + 2) /\
  10 * cake_quantum_for_flow shared_tin f <= 1514.
Proof.
  intros f. destruct (host_quanta_share shared_tin f) as (_ & [H1|H1] & H2);
    [split; reflexivity || (vm_compute; congruence)|vm_compute; reflexivity
    |vm_compute in H1; congruence|].
  split; [exact H2|exact H1].
Defined.

(** Every code point of every DiffServ mode selects a tin the mode has, so
    the fall-back to tin 0 in the enqueue node is never taken. *)
Theorem dscp_selects_existing_tin mode dscp :
  0 <= dscp < 64 →
  exists t, cake_dscp_tables mode !! Z.to_nat dscp = Some t /\ 0 <= t < cake_tin_counts mode.
Proof.
  intros Hd.
  assert (length (cake_dscp_tables mode) = 64%nat /\
          Forall (λ t, 0 <= t < cake_tin_counts mode) (cake_dscp_tables mode)) as [Hlen Hall]
    by (destruct mode; split; try reflexivity; apply (bool_decide_unpack _); vm_compute; exact I).
  destruct (lookup_lt_is_Some_2 (cake_dscp_tables mode) (Z.to_nat dscp)) as [t Ht]; [lia|].
  exists t. split; [done|]. rewrite Forall_lookup in Hall. by eapply Hall.
Qed.

Lemma dscp_selects_existing_tin_witness :
  exists t, cake_dscp_tables CAKE_TIN_MODE_DIFFSERV8 !! 46%nat = Some t /\ 0 <= t < 8.
Proof. exact (dscp_selects_existing_tin CAKE_TIN_MODE_DIFFSERV8 46 ltac:(lia)). Defined.
