(* ===== verification/CakeHier.v ===== *)
(** The shaping hierarchy: aggregates above schedulers, from
    [osvbng_qos_sched.h].  An aggregate (port, or S-VLAN under a port) carries a
    buffer counter, a rate gate and the weight of its active children; these are
    the operations the packet path runs on the chain above a scheduler.  The
    store of aggregates is [cm->aggregates]; each atomic of the code is one
    update of it. *)

From S2P Require Import Prelude Drr Shaper CakeTypes CakeFlow.

Notation aggs_t := (gmap Z cake_aggregate_t).

Definition add64 (d n : Z) : Z := u64 (n + d).
Definition sub64 (d n : Z) : Z := u64 (n - d).

(** [vec_elt_at_index (agg->stats, thread)], updated. *)
Definition on_stats (thread : Z) (g : cake_agg_stats_t → cake_agg_stats_t)
    (a : cake_aggregate_t) : cake_aggregate_t :=
  a⟪ag_stats ::= alter g (Z.to_nat thread)⟫.

(** ** Buffer accounting *)

(** The parent walk of [cake_agg_discharge].  A chain without repetition is no
    longer than the store; [None] is running out of fuel, which only a cycle of parents can do. *)
Fixpoint discharge_from (fuel : nat) (idx : option Z) (pkt_len : Z) (aggs : aggs_t) : option aggs_t :=
  match idx with
  | None => Some aggs
  | Some i =>
      match fuel with
      | O => None
      | S fuel =>
          match aggs !! i with
          | None => Some aggs
          | Some agg =>
              let aggs := <[i := agg⟪ag_buffer_usage ::= λ u, Shaper.cake_agg_release u pkt_len⟫]> aggs in
              discharge_from fuel (ag_parent_index agg) pkt_len aggs
          end
      end
  end.

Definition cake_agg_discharge (aggs : aggs_t) (cs : cake_sched_t) (pkt_len : Z) : option aggs_t :=
  discharge_from (S (size aggs)) (cs_aggregate_index cs) pkt_len aggs.

(** One tier's filter and admission: the new usage if it is admitted. *)
Definition tier_admit (agg : cake_aggregate_t) (pkt_len : Z) : option Z :=
  if ag_buffer_limit agg <? ag_buffer_usage agg then None
  else
    let '(usage, ok) := Shaper.cake_agg_admit (ag_buffer_usage agg) (ag_buffer_limit agg) pkt_len in
    if (ok : bool) then Some usage else None.

Definition count_backpressure (thread : Z) : cake_aggregate_t → cake_aggregate_t :=
  on_stats thread (λ st, st⟪as_backpressure_events ::= add64 1⟫).

Definition cake_agg_admit_chain (aggs : aggs_t) (cs : cake_sched_t) (pkt_len thread : Z)
    : aggs_t * bool :=
  match cs_aggregate_index cs with
  | None => (aggs, true)
  | Some ai =>
      match aggs !! ai with
      | None => (aggs, true)
      | Some agg =>
          match tier_admit agg pkt_len with
          | None => (<[ai := count_backpressure thread agg]> aggs, false)
          | Some usage =>
              let agg := agg⟪ag_buffer_usage := usage⟫ in
              match ag_parent_index agg with
              | None => (<[ai := agg]> aggs, true)
              | Some pi =>
                  match <[ai := agg]> aggs !! pi with
                  | None => (<[ai := agg]> aggs, true)
                  | Some parent =>
                      match tier_admit parent pkt_len with
                      | None =>
                          (<[pi := count_backpressure thread parent]>
                             (<[ai := agg⟪ag_buffer_usage ::=
                                         λ u, Shaper.cake_agg_release u pkt_len⟫]> aggs), false)
                      | Some pusage =>
                          (<[pi := parent⟪ag_buffer_usage := pusage⟫]> (<[ai := agg]> aggs), true)
                      end
                  end
              end
          end
      end
  end.

(** Everything after the release of a flow that is thrown away: the aggregates,
    the scheduler, the tin, the flow, and the buffers freed. *)
Definition cake_flow_discard (aggs : aggs_t) (cs : cake_sched_t) (tin : cake_tin_t)
    (f : cake_flow_t) : option (aggs_t * cake_sched_t * cake_tin_t * cake_flow_t * list Z) :=
  let queued := cake_flow_queue_len f in
  '(aggs, cs, tin, f) ←
    (if queued =? 0 then Some (aggs, cs, tin, f)
     else
       aggs ← cake_agg_discharge aggs cs (fl_backlog_bytes f);
       Some (aggs,
         cs⟪cs_buffer_usage ::= λ u, u32 (u - fl_backlog_bytes f)⟫
           ⟪cs_queued_buffers ::= λ q, u32 (q - queued)⟫
           ⟪cs_dropped_pkts ::= add64 queued⟫,
         tin⟪tn_drops ::= add64 queued⟫,
         f⟪fl_backlog_bytes := 0⟫));
  '(f, freed) ← cake_flow_ring_free f;
  Some (aggs, cs, tin, f, freed).

(** ** Shares *)

Definition cake_agg_effective_round_bytes (aggs : aggs_t) (agg : cake_aggregate_t) : Z :=
  match ag_parent_index agg ≫= λ pi, aggs !! pi with
  | None => ag_drr_round_bytes agg
  | Some parent =>
      let share := Drr.cake_drr_quantum (ag_drr_round_bytes parent) (agg_weight agg)
                     (ag_active_weight parent) in
      if share <? ag_drr_round_bytes agg then share else ag_drr_round_bytes agg
  end.

Definition cake_sched_drr_admit (aggs : aggs_t) (cs : cake_sched_t) (now_ns : Z)
    : cake_sched_t * Drr.cake_drr_admit_t :=
  match cs_aggregate_index cs ≫= λ ai, aggs !! ai with
  | None => (cs, Drr.CAKE_DRR_UNARBITRATED)
  | Some agg =>
      let round_bytes :=
        if Drr.round (cs_drr cs) =? Drr.cake_drr_round now_ns then 0
        else cake_agg_effective_round_bytes aggs agg in
      let idle_vt := ag_global_shaper_time_ns agg in
      let idle_vt :=
        match ag_parent_index agg ≫= λ pi, aggs !! pi with
        | None => idle_vt
        | Some parent =>
            if idle_vt <? ag_global_shaper_time_ns parent
            then ag_global_shaper_time_ns parent else idle_vt
        end in
      let '(child, r) := Drr.cake_drr_local_admit (cs_drr cs) round_bytes
                           (ag_active_weight agg) idle_vt now_ns in
      (cs⟪cs_drr := child⟫, r)
  end.

(** ** Active weight *)

Definition join (weight : Z) (a : cake_aggregate_t) : cake_aggregate_t :=
  let '(w, n, _) := Drr.cake_drr_parent_join (ag_active_weight a) (ag_n_active_children a) weight in
  a⟪ag_active_weight := w⟫⟪ag_n_active_children := n⟫.
Definition leave (weight : Z) (a : cake_aggregate_t) : cake_aggregate_t :=
  let '(w, n, _) := Drr.cake_drr_parent_leave (ag_active_weight a) (ag_n_active_children a) weight in
  a⟪ag_active_weight := w⟫⟪ag_n_active_children := n⟫.

Definition cake_agg_weight_add (aggs : aggs_t) (agg_index : option Z) (weight : Z) : aggs_t :=
  match agg_index with
  | None => aggs
  | Some ai =>
      match aggs !! ai with
      | None => aggs
      | Some agg =>
          let aggs := <[ai := join weight agg]> aggs in
          match ag_parent_index agg with
          | Some pi =>
              if ag_n_active_children agg =? 0
              then alter (join (agg_weight agg)) pi aggs else aggs
          | None => aggs
          end
      end
  end.

Definition cake_agg_weight_sub (aggs : aggs_t) (agg_index : option Z) (weight : Z) : aggs_t :=
  match agg_index with
  | None => aggs
  | Some ai =>
      match aggs !! ai with
      | None => aggs
      | Some agg =>
          let aggs := <[ai := leave weight agg]> aggs in
          match ag_parent_index agg with
          | Some pi =>
              if ag_n_active_children agg =? 1
              then alter (leave (agg_weight agg)) pi aggs else aggs
          | None => aggs
          end
      end
  end.

Definition cake_sched_drr_activate (aggs : aggs_t) (cs : cake_sched_t) : aggs_t * cake_sched_t :=
  if Drr.active (cs_drr cs) then (aggs, cs)
  else
    let '(child, moved) := Drr.cake_drr_child_activate (cs_drr cs) in
    let cs := cs⟪cs_drr := child⟫ in
    if negb moved then (aggs, cs)
    else (cake_agg_weight_add aggs (cs_aggregate_index cs) (Drr.effective_weight child), cs).

Definition cake_sched_drr_deactivate (aggs : aggs_t) (cs : cake_sched_t) : aggs_t * cake_sched_t :=
  let '(child, moved) := Drr.cake_drr_child_deactivate (cs_drr cs) in
  let cs := cs⟪cs_drr := child⟫ in
  if negb moved then (aggs, cs)
  else (cake_agg_weight_sub aggs (cs_aggregate_index cs) (Drr.effective_weight child), cs).

(** ** The gates of the parent chain *)

Inductive cake_parent_result_t :=
  | CAKE_PARENT_OK
  | CAKE_PARENT_GATE_CLOSED
  | CAKE_PARENT_DRR_BLOCKED.

#[export] Instance cake_parent_result_eq_dec : EqDecision cake_parent_result_t.
Proof. solve_decision. Defined.

(** [cake_shaper_gate_take] on an aggregate's clock. *)
Definition take_gate (cost_ns now_ns : Z) (a : cake_aggregate_t) : option cake_aggregate_t :=
  match Shaper.cake_shaper_gate_take cost_ns now_ns (ag_burst_ns a)
          (ag_global_shaper_time_ns a) with
  | (true, Some v) => Some (a⟪ag_global_shaper_time_ns := v⟫)
  | _ => None
  end.

Definition count_shaped (thread adj_len : Z) : cake_aggregate_t → cake_aggregate_t :=
  on_stats thread (λ st, st⟪as_shaped_pkts ::= add64 1⟫⟪as_shaped_bytes ::= add64 adj_len⟫).

Definition uncount_shaped (thread adj_len cost_ns : Z) (a : cake_aggregate_t) : cake_aggregate_t :=
  on_stats thread (λ st, st⟪as_shaped_pkts ::= sub64 1⟫⟪as_shaped_bytes ::= sub64 adj_len⟫)
    (a⟪ag_global_shaper_time_ns ::= sub64 cost_ns⟫).

(** [cake_drr_shared_reserve] on an aggregate's own share of its parent. *)
Definition reserve_on (adj_len now_ns : Z) (parent a : cake_aggregate_t)
    : Drr.cake_drr_admit_t * cake_aggregate_t :=
  let '(r, new) :=
    Drr.cake_drr_shared_reserve (agg_weight a) (ag_drr_round_bytes parent)
      (ag_active_weight parent) (ag_global_shaper_time_ns parent) adj_len now_ns
      (Drr.round_deficit (ag_drr a)) in
  (r, match new with
      | Some w => a⟪ag_drr ::= λ d, d⟪Drr.round_deficit := w⟫⟫
      | None => a
      end).

Definition refund_on (adj_len : Z) (a : cake_aggregate_t) : cake_aggregate_t :=
  a⟪ag_drr ::= λ d, d⟪Drr.round_deficit ::= Drr.cake_drr_shared_refund adj_len⟫⟫.

Definition cake_agg_dequeue_gate (aggs : aggs_t) (cs : cake_sched_t)
    (adj_len now_ns thread : Z) : aggs_t * cake_parent_result_t :=
  match cs_aggregate_index cs with
  | None => (aggs, CAKE_PARENT_OK)
  | Some ai =>
    match aggs !! ai with
    | None => (aggs, CAKE_PARENT_OK)
    | Some agg =>
      let cost_ns := Shaper.cake_cost_ns adj_len (ag_rate_ns_per_byte_scaled agg) in
      match take_gate cost_ns now_ns agg with
      | None =>
          (<[ai := on_stats thread (λ st, st⟪as_parent_blocked ::= add64 1⟫) agg]> aggs,
           CAKE_PARENT_GATE_CLOSED)
      | Some agg =>
        let agg := count_shaped thread adj_len agg in
        match ag_parent_index agg ≫= λ pi, (λ p, (pi, p)) <$> aggs !! pi with
        | None => (<[ai := agg]> aggs, CAKE_PARENT_OK)
        | Some (pi, parent) =>
          let '(reserved, agg) := reserve_on adj_len now_ns parent agg in
          if bool_decide (reserved = Drr.CAKE_DRR_BLOCKED) then
            let agg := uncount_shaped thread adj_len cost_ns agg in
            (<[ai := on_stats thread (λ st, st⟪as_drr_blocked ::= add64 1⟫) agg]> aggs,
             CAKE_PARENT_DRR_BLOCKED)
          else
            match take_gate (Shaper.cake_cost_ns adj_len (ag_rate_ns_per_byte_scaled parent))
                    now_ns parent with
            | None =>
                let agg :=
                  if bool_decide (reserved = Drr.CAKE_DRR_ADMIT) then refund_on adj_len agg
                  else agg in
                (<[pi := on_stats thread (λ st, st⟪as_parent_blocked ::= add64 1⟫) parent]>
                   (<[ai := uncount_shaped thread adj_len cost_ns agg]> aggs),
                 CAKE_PARENT_GATE_CLOSED)
            | Some parent =>
                (<[pi := count_shaped thread adj_len parent]> (<[ai := agg]> aggs),
                 CAKE_PARENT_OK)
            end
        end
      end
    end
  end.

(** The five totals, in the order of the out-parameters. *)
Definition cake_agg_stats_sum (agg : cake_aggregate_t) : cake_agg_stats_t :=
  foldl (λ acc st,
      acc⟪as_shaped_pkts ::= add64 (as_shaped_pkts st)⟫
         ⟪as_shaped_bytes ::= add64 (as_shaped_bytes st)⟫
         ⟪as_backpressure_events ::= add64 (as_backpressure_events st)⟫
         ⟪as_drr_blocked ::= add64 (as_drr_blocked st)⟫
         ⟪as_parent_blocked ::= add64 (as_parent_blocked st)⟫)
    (mkAggStats 0 0 0 0 0) (ag_stats agg).

(** * The tree *)

(** Two tiers: the parent of an aggregate exists and is a root. *)
Definition tree_ok (aggs : aggs_t) : Prop :=
  ∀ i a p, aggs !! i = Some a → ag_parent_index a = Some p →
    exists pa, aggs !! p = Some pa /\ ag_parent_index pa = None.

(** The aggregates above an attachment, nearest first. *)
Definition chain (aggs : aggs_t) (idx : option Z) : list Z :=
  match idx with
  | None => []
  | Some i =>
      match aggs !! i with
      | None => []
      | Some a => i :: match ag_parent_index a with Some p => [p] | None => [] end
      end
  end.

Lemma tree_parent_ne aggs i a p :
  tree_ok aggs → aggs !! i = Some a → ag_parent_index a = Some p → p ≠ i.
Proof.
  intros Ht Ha Hp ->. destruct (Ht i a i Ha Hp) as (pa & Hpa & Hn). congruence.
Qed.

(** What an update that keeps parents leaves of the tree. *)
Lemma tree_ok_same aggs aggs' :
  (∀ i, ag_parent_index <$> aggs' !! i = ag_parent_index <$> aggs !! i) →
  tree_ok aggs → tree_ok aggs'.
Proof.
  intros Hs Ht i a p Ha Hp. pose proof (Hs i) as Hi. rewrite Ha in Hi. simpl in Hi.
  destruct (aggs !! i) as [a0|] eqn:E; [|done]. simplify_eq/=.
  destruct (Ht i a0 p E ltac:(congruence)) as (pa & Hpa & Hn).
  pose proof (Hs p) as Hsp. rewrite Hpa in Hsp. simpl in Hsp.
  destruct (aggs' !! p) as [pa'|] eqn:E'; [|done]. exists pa'. simplify_eq/=.
  split; [done|]. congruence.
Qed.

(** The fields that place an aggregate: only configuration changes them. *)
Definition bones (a : cake_aggregate_t) :=
  (ag_parent_index a, ag_sw_if_index a, ag_svlan_id a, ag_svlan_id_end a, ag_svlan_map a).

Definition same_bones (aggs aggs' : aggs_t) : Prop :=
  ∀ i, bones <$> aggs' !! i = bones <$> aggs !! i.

#[export] Instance same_bones_equivalence : Equivalence same_bones.
Proof.
  split; [done| |].
  - intros a b H1 i. by rewrite H1.
  - intros a b c H1 H2 i. by rewrite H2.
Qed.

(** An aggregate after, and the one it was before. *)
Lemma same_bones_before aggs aggs' i a' :
  same_bones aggs aggs' → aggs' !! i = Some a' → exists a, aggs !! i = Some a /\ bones a = bones a'.
Proof.
  intros H Ha. specialize (H i). rewrite Ha in H. destruct (aggs !! i) as [a|]; [|done].
  exists a. split; [done|]. by apply (inj Some) in H.
Qed.

Lemma same_bones_insert aggs i a a' :
  aggs !! i = Some a → bones a' = bones a → same_bones aggs (<[i := a']> aggs).
Proof.
  intros Ha Hb j. destruct (decide (j = i)) as [->|].
  - rewrite lookup_insert_eq, Ha. simpl. by rewrite Hb.
  - by rewrite lookup_insert_ne by congruence.
Qed.

Lemma same_bones_alter aggs i g :
  (∀ a, bones (g a) = bones a) → same_bones aggs (alter g i aggs).
Proof.
  intros Hg j. destruct (decide (j = i)) as [->|].
  - rewrite lookup_alter_eq. destruct (aggs !! i); [|done]. simpl. by rewrite Hg.
  - by rewrite lookup_alter_ne by congruence.
Qed.

(** Two tiers touched in turn. *)
Lemma same_bones_insert2 aggs i a a' p pa pa' :
  aggs !! i = Some a → bones a' = bones a → <[i := a']> aggs !! p = Some pa →
  bones pa' = bones pa → same_bones aggs (<[p := pa']> (<[i := a']> aggs)).
Proof.
  intros Ha Hb Hp Hpb. transitivity (<[i := a']> aggs); [by eapply same_bones_insert|].
  by eapply same_bones_insert.
Qed.

Lemma same_bones_get {B} (h : _ → B) aggs aggs' i :
  same_bones aggs aggs' → (h ∘ bones) <$> aggs' !! i = (h ∘ bones) <$> aggs !! i.
Proof. intros H. rewrite !option_fmap_compose. by rewrite (H i). Qed.

Lemma same_bones_parent aggs aggs' i :
  same_bones aggs aggs' → ag_parent_index <$> aggs' !! i = ag_parent_index <$> aggs !! i.
Proof. intros H. exact (same_bones_get (λ b, b.1.1.1.1) _ _ i H). Qed.

Lemma same_bones_tree aggs aggs' : same_bones aggs aggs' → tree_ok aggs → tree_ok aggs'.
Proof. intros H. apply tree_ok_same. intros i. by apply same_bones_parent. Qed.

(** [aggs'] is [aggs] with [d] bytes more in the counters of [js]. *)
Definition usage_shift (d : Z) (js : list Z) (aggs aggs' : aggs_t) : Prop :=
  ∀ j, aggs' !! j =
    (if bool_decide (j ∈ js)
     then (λ a, a⟪ag_buffer_usage ::= λ u, u32 (u + d)⟫) <$> aggs !! j
     else aggs !! j).

Lemma usage_shift_nil aggs : usage_shift 0 [] aggs aggs.
Proof. intros j. rewrite bool_decide_eq_false_2; [done|set_solver]. Qed.

Lemma discharge_chain aggs cs len :
  tree_ok aggs →
  exists aggs', cake_agg_discharge aggs cs len = Some aggs' /\
    usage_shift (- len) (chain aggs (cs_aggregate_index cs)) aggs aggs'.
Proof.
  intros Ht. unfold cake_agg_discharge, chain.
  destruct (cs_aggregate_index cs) as [i|]; [|by exists aggs]. simpl.
  destruct (aggs !! i) as [a|] eqn:Ha; [|by exists aggs].
  assert (size aggs ≠ 0%nat) as Hsz.
  { intros Hz%map_size_empty_iff. subst. by rewrite lookup_empty in Ha. }
  destruct (size aggs) as [|n]; [done|]. simpl.
  destruct (ag_parent_index a) as [p|] eqn:Hp.
  - destruct (Ht i a p Ha Hp) as (pa & Hpa & Hn).
    pose proof (tree_parent_ne _ _ _ _ Ht Ha Hp) as Hne.
    rewrite lookup_insert_ne by done. rewrite Hpa, Hn.
    eexists. split; [by destruct n|]. intros j. destruct (decide (j = p)) as [->|].
    { rewrite lookup_insert_eq, bool_decide_eq_true_2, Hpa by set_solver. done. }
    rewrite lookup_insert_ne by done. destruct (decide (j = i)) as [->|].
    { rewrite lookup_insert_eq, bool_decide_eq_true_2, Ha by set_solver. done. }
    rewrite lookup_insert_ne, bool_decide_eq_false_2 by set_solver. done.
  - eexists. split; [by destruct n|]. intros j. destruct (decide (j = i)) as [->|].
    + rewrite lookup_insert_eq, bool_decide_eq_true_2, Ha by set_solver. done.
    + rewrite lookup_insert_ne, bool_decide_eq_false_2 by set_solver. done.
Qed.

(** ** Admission charges every tier or none *)

Definition tier_bounds (len : Z) (a : cake_aggregate_t) : Prop :=
  is_u32 (ag_buffer_usage a) /\ ag_buffer_limit a + len < 2 ^ 32.

Lemma tier_admit_spec a len :
  0 <= len → tier_bounds len a →
  tier_admit a len =
    if ag_buffer_usage a + len <=? ag_buffer_limit a
    then Some (u32 (ag_buffer_usage a + len)) else None.
Proof.
  intros Hl [Hu Hb]. unfold tier_admit, Shaper.cake_agg_admit, is_u32 in *.
  destruct (Z.ltb_spec (ag_buffer_limit a) (ag_buffer_usage a)).
  { zcases; [lia|done]. }
  rewrite u32_small by (unfold is_u32; lia). zcases; done || lia.
Qed.

Lemma count_backpressure_usage th a :
  ag_buffer_usage (count_backpressure th a) = ag_buffer_usage a.
Proof. done. Qed.

Definition same_usage (aggs aggs' : aggs_t) : Prop :=
  ∀ j, ag_buffer_usage <$> aggs' !! j = ag_buffer_usage <$> aggs !! j.

Lemma release_charge a len : is_u32 (ag_buffer_usage a) →
  Shaper.cake_agg_release (u32 (ag_buffer_usage a + len)) len = ag_buffer_usage a.
Proof. intros. unfold Shaper.cake_agg_release. ints. Qed.

Lemma admit_chain_spec aggs cs len th :
  tree_ok aggs → 0 <= len → map_Forall (λ _, tier_bounds len) aggs →
  let js := chain aggs (cs_aggregate_index cs) in
  let '(aggs', ok) := cake_agg_admit_chain aggs cs len th in
  (ok = true ↔ ∀ j a, j ∈ js → aggs !! j = Some a →
                      ag_buffer_usage a + len <= ag_buffer_limit a) /\
  (ok = true → usage_shift len js aggs aggs') /\
  (ok = false → same_usage aggs aggs').
Proof.
  intros Ht Hl Hb. cbn zeta. unfold cake_agg_admit_chain, chain.
  destruct (cs_aggregate_index cs) as [i|]; [|split; [set_solver|]; split; [done|done]].
  destruct (aggs !! i) as [a|] eqn:Ha; [|split; [set_solver|]; split; [done|done]].
  pose proof (Hb i a Ha) as Hba. rewrite tier_admit_spec by done.
  destruct (Z.leb_spec (ag_buffer_usage a + len) (ag_buffer_limit a)) as [Hle|Hgt].
  2:{ split; [|split; [done|]].
      - split; [done|]. intros H. specialize (H i a ltac:(set_solver) Ha). lia.
      - intros _ j. destruct (decide (j = i)) as [->|].
        + by rewrite lookup_insert_eq, Ha.
        + by rewrite lookup_insert_ne by done. }
  rproj. destruct (ag_parent_index a) as [p|] eqn:Hp.
  2:{ split; [|split; [|done]].
      - split; [|done]. intros _ j b Hj Hjb. assert (j = i) as -> by set_solver.
        rewrite Ha in Hjb. by simplify_eq.
      - intros _ j. destruct (decide (j = i)) as [->|].
        + by rewrite lookup_insert_eq, bool_decide_eq_true_2, Ha by set_solver.
        + by rewrite lookup_insert_ne, bool_decide_eq_false_2 by set_solver. }
  destruct (Ht i a p Ha Hp) as (pa & Hpa & Hn).
  pose proof (tree_parent_ne _ _ _ _ Ht Ha Hp) as Hne.
  rewrite lookup_insert_ne, Hpa by done. pose proof (Hb p pa Hpa) as Hbp.
  rewrite tier_admit_spec by done.
  destruct (Z.leb_spec (ag_buffer_usage pa + len) (ag_buffer_limit pa)) as [Hle'|Hgt'].
  - split; [|split; [|done]].
    + split; [|done]. intros _ j b Hj Hjb.
      assert (j = i \/ j = p) as [-> | ->] by set_solver; simplify_eq; done.
    + intros _ j. destruct (decide (j = p)) as [->|].
      { by rewrite lookup_insert_eq, bool_decide_eq_true_2, Hpa by set_solver. }
      rewrite lookup_insert_ne by done. destruct (decide (j = i)) as [->|].
      { by rewrite lookup_insert_eq, bool_decide_eq_true_2, Ha by set_solver. }
      by rewrite lookup_insert_ne, bool_decide_eq_false_2 by set_solver.
  - split; [|split; [done|]].
    + split; [done|]. intros H. specialize (H p pa ltac:(set_solver) Hpa). lia.
    + intros _ j. destruct (decide (j = p)) as [->|].
      { by rewrite lookup_insert_eq, Hpa. }
      rewrite lookup_insert_ne by done. destruct (decide (j = i)) as [->|].
      { rewrite lookup_insert_eq, Ha. rsimpl. f_equal. apply release_charge, Hba. }
      by rewrite lookup_insert_ne by done.
Qed.

Lemma usage_shift_parent d js aggs aggs' i :
  usage_shift d js aggs aggs' →
  ag_parent_index <$> aggs' !! i = ag_parent_index <$> aggs !! i.
Proof. intros H. rewrite H. case_bool_decide; [|done]. by destruct (aggs !! i). Qed.

Lemma chain_same aggs aggs' idx :
  (∀ i, ag_parent_index <$> aggs' !! i = ag_parent_index <$> aggs !! i) →
  chain aggs' idx = chain aggs idx.
Proof.
  intros Hs. unfold chain. destruct idx as [i|]; [|done].
  pose proof (Hs i) as Hi. destruct (aggs !! i), (aggs' !! i); simplify_eq/=; [|done..].
  by rewrite Hi.
Qed.

Lemma usage_shift_bones d js aggs aggs' : usage_shift d js aggs aggs' → same_bones aggs aggs'.
Proof. intros H i. rewrite H. case_bool_decide; [|done]. by destruct (aggs !! i). Qed.

(** No tier of the chain moves in the tree when a packet is admitted. *)
Lemma admit_chain_bones aggs cs len th :
  tree_ok aggs → same_bones aggs (fst (cake_agg_admit_chain aggs cs len th)).
Proof.
  intros Ht. unfold cake_agg_admit_chain.
  destruct (cs_aggregate_index cs) as [i|]; [|done].
  destruct (aggs !! i) as [a|] eqn:Ha; [|done].
  destruct (tier_admit a len) as [u|]; [|by eapply same_bones_insert].
  rproj. destruct (ag_parent_index a) as [p|] eqn:Hp; [|by eapply same_bones_insert].
  pose proof (tree_parent_ne _ _ _ _ Ht Ha Hp) as Hne. rewrite lookup_insert_ne by done.
  destruct (aggs !! p) as [pa|] eqn:Hpa; [|by eapply same_bones_insert].
  destruct (tier_admit pa len);
    (eapply same_bones_insert2; [exact Ha|done|by rewrite lookup_insert_ne|done]).
Qed.

Lemma discharge_bones aggs cs len :
  tree_ok aggs →
  exists aggs', cake_agg_discharge aggs cs len = Some aggs' /\ same_bones aggs aggs'.
Proof.
  intros Ht. destruct (discharge_chain aggs cs len Ht) as (aggs' & H & Hs).
  exists aggs'. split; [done|by eapply usage_shift_bones].
Qed.

Lemma usage_shift_undo d js aggs aggs' aggs'' :
  map_Forall (λ _ a, is_u32 (ag_buffer_usage a)) aggs →
  usage_shift d js aggs aggs' → usage_shift (- d) js aggs' aggs'' → aggs'' = aggs.
Proof.
  intros Hu H1 H2. apply map_eq. intros j. rewrite H2, H1. case_bool_decide; [|done].
  destruct (aggs !! j) as [a|] eqn:Ha; [|done]. simpl. f_equal.
  specialize (Hu j a Ha). rsimpl.
  replace (u32 (u32 (ag_buffer_usage a + d) + - d)) with (ag_buffer_usage a) by ints.
  by destruct a.
Qed.


(** A port with one S-VLAN, and a subscriber on the S-VLAN. *)
Definition sample_port : cake_aggregate_t :=
  mkAgg 12500000 5242880 12500 1 0 2000000 None 10000000 0 0 1 CAKE_AGG_LEVEL_PORT
    [mkAggStats 0 0 0 0 0] 500 1000 (Drr.mkShared 12500000 2147483648) 5000000 1 (Some {[100 := 1]}).
Definition sample_svlan : cake_aggregate_t :=
  mkAgg 5000000 13107200 5000 1 1 60000 (Some 0) 10000000 100 100 1 CAKE_AGG_LEVEL_SVLAN
    [mkAggStats 0 0 0 0 0] 500 1000 (Drr.mkShared 5000000 2147483648) 700 2 None.
Definition sample_aggs : aggs_t := {[0 := sample_port; 1 := sample_svlan]}.
Definition sample_member : cake_sched_t :=
  mkSched 12500000 5242880 0 7 3 (Some 0) 0 0 0 1 CAKE_TIN_MODE_BESTEFFORT 2000000 1000 1
    5000 100000 122 16777215 1048575 (repeat 0 64) [] 0 0 0 0 0 (Some 1) 1
    (Drr.mkChild 300 0 0 true) 0 0.

Lemma sample_tree : tree_ok sample_aggs.
Proof.
  intros i a p Ha Hp. unfold sample_aggs in Ha.
  apply lookup_insert_Some in Ha as [[<- <-]|[_ Ha]]; [done|].
  apply lookup_singleton_Some in Ha as [<- <-]. simplify_eq/=.
  eexists. split; reflexivity.
Qed.


(** * Active weight is a refcount *)

(** What a child aggregate contributes to the counters of [j]: itself, while it
    has an active child. *)
Definition agg_n (j : Z) (a : cake_aggregate_t) : Z :=
  if bool_decide (ag_parent_index a = Some j) && (0 <? ag_n_active_children a) then 1 else 0.
Definition agg_w (j : Z) (a : cake_aggregate_t) : Z :=
  if bool_decide (ag_parent_index a = Some j) && (0 <? ag_n_active_children a)
  then agg_weight a else 0.

(** Every aggregate's counters are the demand of the schedulers attached to it
    ([Dn] of them, of weight [Dw]) plus that of its active child aggregates. *)
Definition weights_ok (Dn Dw : Z → Z) (aggs : aggs_t) : Prop :=
  ∀ j a, aggs !! j = Some a →
    ag_n_active_children a = Dn j + msum (agg_n j) aggs /\
    ag_active_weight a = u64 (Dw j + msum (agg_w j) aggs).

Lemma weights_ok_ext Dn Dw Dn' Dw' aggs :
  (∀ j, Dn j = Dn' j) → (∀ j, Dw j = Dw' j) →
  weights_ok Dn Dw aggs → weights_ok Dn' Dw' aggs.
Proof. intros Hn Hw H j a Ha. rewrite <- Hn, <- Hw. by apply H. Qed.

Lemma agg_n_le j aggs : 0 <= msum (agg_n j) aggs <= 1 * Z.of_nat (size aggs).
Proof. apply msum_le. intros i x _. unfold agg_n. destruct (_ && _); lia. Qed.

(** The number of active children an aggregate can have. *)
Definition roomy (Dn : Z → Z) (aggs : aggs_t) : Prop :=
  ∀ j, 0 <= Dn j /\ Dn j + Z.of_nat (size aggs) < 2 ^ 32 - 1.

Lemma roomy_count Dn Dw aggs j a :
  roomy Dn aggs → weights_ok Dn Dw aggs → aggs !! j = Some a →
  0 <= ag_n_active_children a < 2 ^ 32 - 1.
Proof.
  intros Hr Hw Ha. destruct (Hw j a Ha) as [-> _].
  pose proof (agg_n_le j aggs). specialize (Hr j). lia.
Qed.

(** What changing the counters of [i] does to the sums of its parent. *)
Lemma msum_agg_counters aggs i a a' j :
  aggs !! i = Some a → ag_parent_index a' = ag_parent_index a →
  agg_weight a' = agg_weight a →
  let on := bool_decide (ag_parent_index a = Some j) in
  let d := (if 0 <? ag_n_active_children a' then 1 else 0)
           - (if 0 <? ag_n_active_children a then 1 else 0) in
  msum (agg_n j) (<[i := a']> aggs) = msum (agg_n j) aggs + (if on then d else 0) /\
  msum (agg_w j) (<[i := a']> aggs) =
    msum (agg_w j) aggs + (if on then d * agg_weight a else 0).
Proof.
  intros Ha Hp Hw on d. rewrite !(msum_insert _ _ _ _ _ Ha).
  unfold agg_n, agg_w. rewrite Hp, Hw. fold on. subst d.
  destruct on, (0 <? ag_n_active_children a'), (0 <? ag_n_active_children a); simpl; lia.
Qed.

Lemma u64_add_l x y : u64 (u64 x + y) = u64 (x + y).
Proof. unfold u64. by rewrite Zplus_mod_idemp_l. Qed.
Lemma u64_sub_l x y : u64 (u64 x - y) = u64 (x - y).
Proof. unfold u64. by rewrite Zminus_mod_idemp_l. Qed.

(** Demand that moved by [(n, w)] at aggregate [i]. *)
Definition moved (D : Z → Z) (i d : Z) : Z → Z := λ j, if j =? i then D j + d else D j.

(** [b] is [a] with [dn] children and [dw] of weight more. *)
Definition recount (dn dw : Z) (a b : cake_aggregate_t) : Prop :=
  ag_parent_index b = ag_parent_index a /\ agg_weight b = agg_weight a /\
  ag_n_active_children b = ag_n_active_children a + dn /\
  ag_active_weight b = u64 (ag_active_weight a + dw).

Lemma join_recount w a : 0 <= ag_n_active_children a < 2 ^ 32 - 1 → recount 1 w a (join w a).
Proof.
  intros. repeat split.
  change (u32 (ag_n_active_children a + 1) = ag_n_active_children a + 1). ints.
Qed.

Lemma leave_recount w a : 1 <= ag_n_active_children a < 2 ^ 32 - 1 →
  recount (-1) (- w) a (leave w a).
Proof.
  intros. repeat split.
  change (u32 (ag_n_active_children a - 1) = ag_n_active_children a + -1). ints.
Qed.

Definition is_on (a : cake_aggregate_t) : Z := if 0 <? ag_n_active_children a then 1 else 0.

(** Recounting an aggregate, with the transition carried to its parent. *)
Lemma recount_ok Dn Dw aggs i a a' dn dw g :
  tree_ok aggs → weights_ok Dn Dw aggs → aggs !! i = Some a → recount dn dw a a' →
  let e := is_on a' - is_on a in
  (∀ p pa, e ≠ 0 → aggs !! p = Some pa → ag_parent_index a = Some p →
           recount e (e * agg_weight a) pa (g pa)) →
  weights_ok (moved Dn i dn) (moved Dw i dw)
    (match ag_parent_index a with
     | Some p => if e =? 0 then <[i := a']> aggs else alter g p (<[i := a']> aggs)
     | None => <[i := a']> aggs
     end).
Proof.
  intros Ht Hw Ha (Jp & Jw & Jn & Ja) e Hg.
  assert (∀ j b, <[i := a']> aggs !! j = Some b →
     (ag_parent_index a = Some j → e = 0) →
     ag_n_active_children b = moved Dn i dn j + msum (agg_n j) (<[i := a']> aggs) /\
     ag_active_weight b = u64 (moved Dw i dw j + msum (agg_w j) (<[i := a']> aggs))) as Hj.
  { intros j b Hjb Hpe.
    destruct (msum_agg_counters aggs i a a' j Ha Jp Jw) as [-> ->].
    fold (is_on a) (is_on a'). fold e.
    assert ((if bool_decide (ag_parent_index a = Some j) then e else 0) = 0 /\
            (if bool_decide (ag_parent_index a = Some j) then e * agg_weight a else 0) = 0)
      as [-> ->] by (case_bool_decide as E; [rewrite (Hpe E)|]; lia).
    unfold moved. apply lookup_insert_Some in Hjb as [[<- <-]|[Hne Hjb]].
    - destruct (Hw i a Ha) as [Hn' Hw']. rewrite Z.eqb_refl, Jn, Ja, Hw', u64_add_l.
      split; [lia|f_equal; lia].
    - destruct (Hw j b Hjb) as [Hn' Hw']. destruct (Z.eqb_spec j i); [congruence|].
      split; [lia|rewrite Hw'; f_equal; lia]. }
  destruct (ag_parent_index a) as [p|] eqn:Hp; [|intros j b Hjb; by apply Hj].
  destruct (Z.eqb_spec e 0) as [Hz|Hz]; [intros j b Hjb; by apply Hj|].
  destruct (Ht i a p Ha Hp) as (pa & Hpa & Hpn).
  pose proof (tree_parent_ne _ _ _ _ Ht Ha Hp) as Hne.
  assert (<[i := a']> aggs !! p = Some pa) as Hpa1 by (by rewrite lookup_insert_ne).
  destruct (Hg p pa Hz Hpa eq_refl) as (Kp & Kw & Kn & Ka).
  rewrite (alter_insert_lookup g p _ pa Hpa1). intros j b Hjb.
  destruct (msum_agg_counters _ p pa (g pa) j Hpa1 Kp Kw) as [-> ->].
  rewrite Hpn, (bool_decide_eq_false_2 (None = Some j)) by done.
  apply lookup_insert_Some in Hjb as [[<- <-]|[Hnj Hjb]].
  - destruct (msum_agg_counters aggs i a a' p Ha ltac:(congruence) Jw) as [-> ->].
    fold (is_on a) (is_on a'). fold e.
    rewrite Hp, bool_decide_eq_true_2 by done.
    destruct (Hw p pa Hpa) as [Hn' Hw']. unfold moved. destruct (Z.eqb_spec p i); [congruence|].
    rewrite Kn, Ka, Hw', u64_add_l. split; [lia|f_equal; lia].
  - destruct (Hj j b Hjb) as [H1 H2]; [congruence|]. split; [lia|rewrite H2; f_equal; lia].
Qed.

Lemma weight_add_ok Dn Dw aggs i a w :
  tree_ok aggs → roomy Dn aggs → weights_ok Dn Dw aggs → aggs !! i = Some a →
  weights_ok (moved Dn i 1) (moved Dw i w) (cake_agg_weight_add aggs (Some i) w).
Proof.
  intros Ht Hr Hw Ha. pose proof (roomy_count _ _ _ _ _ Hr Hw Ha) as Hn.
  pose proof (join_recount w a Hn) as Hj. pose proof Hj as (_ & _ & Jn & _).
  pose proof (recount_ok Dn Dw aggs i a _ 1 w (join (agg_weight a)) Ht Hw Ha Hj) as H.
  cbn zeta in H. unfold cake_agg_weight_add. rewrite Ha.
  assert (is_on (join w a) - is_on a = if ag_n_active_children a =? 0 then 1 else 0) as E
    by (unfold is_on; rewrite Jn; zcases; lia).
  rewrite E in H. destruct (ag_n_active_children a =? 0); apply H; try done.
  intros p pa _ Hpa Hp. rewrite Z.mul_1_l. apply join_recount. by eapply roomy_count.
Qed.

Lemma weight_sub_ok Dn Dw aggs i a w :
  tree_ok aggs → roomy Dn aggs → weights_ok Dn Dw aggs → aggs !! i = Some a → 1 <= Dn i →
  weights_ok (moved Dn i (-1)) (moved Dw i (- w)) (cake_agg_weight_sub aggs (Some i) w).
Proof.
  intros Ht Hr Hw Ha HD. pose proof (roomy_count _ _ _ _ _ Hr Hw Ha) as Hn.
  assert (1 <= ag_n_active_children a) as Hn1.
  { destruct (Hw i a Ha) as [-> _]. pose proof (agg_n_le i aggs). lia. }
  pose proof (leave_recount w a ltac:(lia)) as Hj. pose proof Hj as (_ & _ & Jn & _).
  pose proof (recount_ok Dn Dw aggs i a _ (-1) (- w) (leave (agg_weight a)) Ht Hw Ha Hj) as H.
  cbn zeta in H. unfold cake_agg_weight_sub. rewrite Ha.
  assert (is_on (leave w a) - is_on a = if ag_n_active_children a =? 1 then -1 else 0) as E
    by (unfold is_on; rewrite Jn; zcases; lia).
  rewrite E in H. destruct (Z.eqb_spec (ag_n_active_children a) 1) as [E1|E1]; apply H; try done.
  intros p pa _ Hpa Hp. replace (-1 * agg_weight a) with (- agg_weight a) by lia.
  apply leave_recount. split; [|by eapply roomy_count].
  destruct (Hw p pa Hpa) as [-> _].
  assert (agg_n p a = 1) as Ha1.
  { unfold agg_n. rewrite bool_decide_eq_true_2 by done. zcases; lia. }
  rewrite (msum_delete _ _ _ _ Ha), Ha1.
  assert (0 <= msum (agg_n p) (delete i aggs)).
  { apply (msum_le _ _ 1). intros k x _. unfold agg_n. destruct (_ && _); lia. }
  destruct (Hr p). lia.
Qed.

(** ** Schedulers as children *)

Notation scheds_t := (gmap Z cake_sched_t).

Definition sched_n (j : Z) (cs : cake_sched_t) : Z :=
  if bool_decide (cs_aggregate_index cs = Some j) && Drr.active (cs_drr cs) then 1 else 0.
Definition sched_w (j : Z) (cs : cake_sched_t) : Z :=
  if bool_decide (cs_aggregate_index cs = Some j) && Drr.active (cs_drr cs)
  then Drr.effective_weight (cs_drr cs) else 0.

Definition attached (scheds : scheds_t) (aggs : aggs_t) : Prop :=
  ∀ s cs j, scheds !! s = Some cs → cs_aggregate_index cs = Some j → is_Some (aggs !! j).

(** The weight invariant of the whole hierarchy. *)
Definition weights_inv (scheds : scheds_t) (aggs : aggs_t) : Prop :=
  weights_ok (λ j, msum (sched_n j) scheds) (λ j, msum (sched_w j) scheds) aggs.

Definition hier_ok (scheds : scheds_t) (aggs : aggs_t) : Prop :=
  tree_ok aggs /\ attached scheds aggs /\
  Z.of_nat (size scheds) + Z.of_nat (size aggs) < 2 ^ 32 - 1 /\ weights_inv scheds aggs.

Lemma sched_n_le j scheds : 0 <= msum (sched_n j) scheds <= 1 * Z.of_nat (size scheds).
Proof. apply msum_le. intros i x _. unfold sched_n. destruct (_ && _); lia. Qed.

Lemma hier_roomy scheds aggs : hier_ok scheds aggs → roomy (λ j, msum (sched_n j) scheds) aggs.
Proof. intros (_ & _ & Hs & _) j. pose proof (sched_n_le j scheds). lia. Qed.

(** The operations on the counters touch neither the tree nor the key set. *)
Lemma on_counters_frame {B} (g : cake_aggregate_t → B) (f : Z → cake_aggregate_t → cake_aggregate_t)
    (aggs : aggs_t) (i w : Z) (p : option Z) (b : bool) (ai : Z) a :
  (∀ w a, g (f w a) = g a) → aggs !! ai = Some a →
  g <$> (match p with
         | Some pi => if b then alter (f (agg_weight a)) pi (<[ai := f w a]> aggs)
                      else <[ai := f w a]> aggs
         | None => <[ai := f w a]> aggs
         end) !! i = g <$> aggs !! i.
Proof.
  intros Hg Ha.
  assert (∀ k, g <$> <[ai := f w a]> aggs !! k = g <$> aggs !! k) as H1.
  { intros k. destruct (decide (k = ai)) as [->|].
    - rewrite lookup_insert_eq, Ha. simpl. by rewrite Hg.
    - by rewrite lookup_insert_ne by congruence. }
  destruct p as [p|]; [|done]. destruct b; [|done].
  rewrite <- H1. destruct (decide (i = p)) as [->|].
  - rewrite lookup_alter_eq. destruct (<[ai := f w a]> aggs !! p); [|done].
    simpl. by rewrite Hg.
  - by rewrite lookup_alter_ne by congruence.
Qed.

Lemma weight_add_frame {B} (g : cake_aggregate_t → B) aggs idx w i :
  (∀ w a, g (join w a) = g a) →
  g <$> cake_agg_weight_add aggs idx w !! i = g <$> aggs !! i.
Proof.
  intros Hg. unfold cake_agg_weight_add. destruct idx as [ai|]; [|done].
  destruct (aggs !! ai) as [a|] eqn:Ha; [|done]. by apply on_counters_frame.
Qed.

Lemma weight_sub_frame {B} (g : cake_aggregate_t → B) aggs idx w i :
  (∀ w a, g (leave w a) = g a) →
  g <$> cake_agg_weight_sub aggs idx w !! i = g <$> aggs !! i.
Proof.
  intros Hg. unfold cake_agg_weight_sub. destruct idx as [ai|]; [|done].
  destruct (aggs !! ai) as [a|] eqn:Ha; [|done]. by apply on_counters_frame.
Qed.

Lemma activate_bones aggs cs : same_bones aggs (fst (cake_sched_drr_activate aggs cs)).
Proof.
  unfold cake_sched_drr_activate. destruct (Drr.active _); [done|].
  destruct (Drr.cake_drr_child_activate _) as [child []]; [|done].
  intros i. by apply weight_add_frame.
Qed.

Lemma deactivate_bones aggs cs : same_bones aggs (fst (cake_sched_drr_deactivate aggs cs)).
Proof.
  unfold cake_sched_drr_deactivate.
  destruct (Drr.cake_drr_child_deactivate _) as [child []]; [|done].
  intros i. by apply weight_sub_frame.
Qed.

Lemma same_parent_dom (aggs aggs' : aggs_t) :
  (∀ i, ag_parent_index <$> aggs' !! i = ag_parent_index <$> aggs !! i) →
  size aggs' = size aggs /\ ∀ i, is_Some (aggs !! i) → is_Some (aggs' !! i).
Proof.
  intros H. split.
  - rewrite <- !size_dom. f_equal. apply set_eq. intros i.
    rewrite !elem_of_dom. specialize (H i).
    destruct (aggs !! i), (aggs' !! i); simplify_eq/=; split; intros [? ?]; eauto; done.
  - intros i [a Ha]. specialize (H i). rewrite Ha in H.
    destruct (aggs' !! i); [by eexists|done].
Qed.

(** Replacing one scheduler by one that differs in its activity. *)
Lemma sched_switch scheds s cs cs' j (dn dw : Z) :
  scheds !! s = Some cs →
  sched_n j cs' = sched_n j cs + dn → sched_w j cs' = sched_w j cs + dw →
  msum (sched_n j) (<[s := cs']> scheds) = msum (sched_n j) scheds + dn /\
  msum (sched_w j) (<[s := cs']> scheds) = msum (sched_w j) scheds + dw.
Proof. intros Hs Hn Hw. rewrite !(msum_insert _ _ _ _ _ Hs). lia. Qed.

Lemma hier_ok_update scheds aggs s cs cs' aggs' dn dw :
  hier_ok scheds aggs → scheds !! s = Some cs →
  cs_aggregate_index cs' = cs_aggregate_index cs →
  (∀ i, ag_parent_index <$> aggs' !! i = ag_parent_index <$> aggs !! i) →
  (∀ j, sched_n j cs' = sched_n j cs + dn j) →
  (∀ j, sched_w j cs' = sched_w j cs + dw j) →
  weights_ok (λ j, msum (sched_n j) scheds + dn j) (λ j, msum (sched_w j) scheds + dw j) aggs' →
  hier_ok (<[s := cs']> scheds) aggs'.
Proof.
  intros (Ht & Hat & Hsz & _) Hs Hidx Hfr Hn Hw Hok.
  destruct (same_parent_dom aggs aggs' Hfr) as [Hsz' Hdom].
  split; [by eapply tree_ok_same|]. split; [|split].
  - intros s' c j Hc Hj. apply Hdom.
    apply lookup_insert_Some in Hc as [[<- <-]|[_ Hc]]; [|by eapply Hat].
    eapply Hat; [exact Hs|congruence].
  - rewrite Hsz', map_size_insert_Some by (by eexists). done.
  - unfold weights_inv. eapply weights_ok_ext; [..|exact Hok]; intros j;
      destruct (sched_switch scheds s cs cs' j _ _ Hs (Hn j) (Hw j)) as [E1 E2];
      cbv beta; rewrite ?E1, ?E2; reflexivity.
Qed.

Lemma moved_delta D i d j : moved D i d j = D j + (if j =? i then d else 0).
Proof. unfold moved. destruct (j =? i); lia. Qed.

(** What a scheduler contributes, as a delta at its attachment. *)
Lemma sched_delta cs j :
  sched_n j cs = (if Drr.active (cs_drr cs)
                  then match cs_aggregate_index cs with Some i => if j =? i then 1 else 0
                       | None => 0 end else 0) /\
  sched_w j cs = (if Drr.active (cs_drr cs)
                  then match cs_aggregate_index cs with
                       | Some i => if j =? i then Drr.effective_weight (cs_drr cs) else 0
                       | None => 0 end else 0).
Proof.
  unfold sched_n, sched_w. destruct (Drr.active _); rewrite ?andb_false_r, ?andb_true_r;
    [|done]. destruct (cs_aggregate_index cs) as [i|].
  - destruct (Z.eqb_spec j i) as [->|].
    + by rewrite bool_decide_eq_true_2.
    + by rewrite bool_decide_eq_false_2 by congruence.
  - by rewrite bool_decide_eq_false_2.
Qed.

Lemma activate_ok scheds aggs s cs :
  hier_ok scheds aggs → scheds !! s = Some cs →
  let '(aggs', cs') := cake_sched_drr_activate aggs cs in
  hier_ok (<[s := cs']> scheds) aggs' /\ Drr.active (cs_drr cs') = true.
Proof.
  intros Hok Hs. pose proof Hok as (Ht & Hat & Hsz & Hw).
  unfold cake_sched_drr_activate, Drr.cake_drr_child_activate.
  destruct (Drr.active (cs_drr cs)) eqn:Ea.
  { by rewrite insert_id by done. }
  set (child := (if 0 <? _ then _ else _)⟪Drr.active := true⟫).
  assert (Drr.active child = true /\
          Drr.effective_weight child = Drr.effective_weight (cs_drr cs)) as [Hc1 Hc2]
    by (subst child; by destruct (0 <? _)).
  cbn [negb]. split; [|exact Hc1].
  set (w := Drr.effective_weight child).
  apply (hier_ok_update scheds aggs s cs _ _
    (λ j, match cs_aggregate_index cs with Some i => if j =? i then 1 else 0 | None => 0 end)
    (λ j, match cs_aggregate_index cs with Some i => if j =? i then w else 0 | None => 0 end));
    try done.
  - intros i. by apply weight_add_frame.
  - intros j. destruct (sched_delta cs j) as [-> _].
    destruct (sched_delta (cs⟪cs_drr := child⟫) j) as [-> _].
    change (cs_drr (cs⟪cs_drr := child⟫)) with child. rewrite Hc1, Ea.
    change (cs_aggregate_index (cs⟪cs_drr := child⟫)) with (cs_aggregate_index cs). lia.
  - intros j. destruct (sched_delta cs j) as [_ ->].
    destruct (sched_delta (cs⟪cs_drr := child⟫) j) as [_ ->].
    change (cs_drr (cs⟪cs_drr := child⟫)) with child. rewrite Hc1, Ea.
    change (cs_aggregate_index (cs⟪cs_drr := child⟫)) with (cs_aggregate_index cs).
    fold w. lia.
  - change (cs_aggregate_index (cs⟪cs_drr := child⟫)) with (cs_aggregate_index cs).
    destruct (cs_aggregate_index cs) as [i|] eqn:Ei.
    + destruct (Hat s cs i Hs Ei) as [a Ha].
      eapply weights_ok_ext; [..|apply (weight_add_ok _ _ _ i a w Ht (hier_roomy _ _ Hok) Hw Ha)];
        intros j; apply moved_delta.
    + eapply weights_ok_ext; [..|exact Hw]; intros j; simpl; lia.
Qed.

Lemma deactivate_ok scheds aggs s cs :
  hier_ok scheds aggs → scheds !! s = Some cs →
  let '(aggs', cs') := cake_sched_drr_deactivate aggs cs in
  hier_ok (<[s := cs']> scheds) aggs' /\ Drr.active (cs_drr cs') = false.
Proof.
  intros Hok Hs. pose proof Hok as (Ht & Hat & Hsz & Hw).
  unfold cake_sched_drr_deactivate, Drr.cake_drr_child_deactivate.
  destruct (Drr.active (cs_drr cs)) eqn:Ea.
  2:{ cbn [negb]. replace (cs⟪cs_drr := cs_drr cs⟫) with cs by (by destruct cs).
      by rewrite insert_id by done. }
  set (child := (cs_drr cs)⟪Drr.active := false⟫).
  cbn [negb]. split; [|done].
  set (w := Drr.effective_weight child).
  apply (hier_ok_update scheds aggs s cs _ _
    (λ j, match cs_aggregate_index cs with Some i => if j =? i then -1 else 0 | None => 0 end)
    (λ j, match cs_aggregate_index cs with Some i => if j =? i then - w else 0 | None => 0 end));
    try done.
  - intros i. by apply weight_sub_frame.
  - intros j. destruct (sched_delta cs j) as [-> _].
    destruct (sched_delta (cs⟪cs_drr := child⟫) j) as [-> _]. rewrite Ea. simpl.
    destruct (cs_aggregate_index cs); [|lia]. zcases; lia.
  - intros j. destruct (sched_delta cs j) as [_ ->].
    destruct (sched_delta (cs⟪cs_drr := child⟫) j) as [_ ->]. rewrite Ea. simpl.
    change (Drr.effective_weight (cs_drr cs)) with w.
    destruct (cs_aggregate_index cs); [|lia]. zcases; lia.
  - change (cs_aggregate_index (cs⟪cs_drr := child⟫)) with (cs_aggregate_index cs).
    destruct (cs_aggregate_index cs) as [i|] eqn:Ei.
    + destruct (Hat s cs i Hs Ei) as [a Ha].
      eapply weights_ok_ext;
        [..|apply (weight_sub_ok _ _ _ i a w Ht (hier_roomy _ _ Hok) Hw Ha)];
        try (intros j; apply moved_delta).
      rewrite (msum_delete _ _ _ _ Hs). destruct (sched_delta cs i) as [-> _].
      rewrite Ea, Ei, Z.eqb_refl.
      assert (0 <= msum (sched_n i) (delete s scheds)); [|lia].
      apply (msum_le _ _ 1). intros k x _. unfold sched_n. destruct (_ && _); lia.
    + eapply weights_ok_ext; [..|exact Hw]; intros j; simpl; lia.
Qed.

(** The active weight of every aggregate is always exactly the sum of its
    active children's weights, schedulers and child aggregates alike, where a
    child aggregate counts while it has an active child itself: activating or
    deactivating a scheduler re-establishes this through both tiers, whatever
    state the tiers are in. *)
Theorem activation_keeps_weights scheds aggs s cs :
  hier_ok scheds aggs → scheds !! s = Some cs →
  (let '(aggs', cs') := cake_sched_drr_activate aggs cs in
   hier_ok (<[s := cs']> scheds) aggs' /\ Drr.active (cs_drr cs') = true) /\
  (let '(aggs', cs') := cake_sched_drr_deactivate aggs cs in
   hier_ok (<[s := cs']> scheds) aggs' /\ Drr.active (cs_drr cs') = false).
Proof. intros Hok Hs. split; [by apply activate_ok|by apply deactivate_ok]. Qed.

Definition sample_scheds : scheds_t :=
  {[3 := sample_member; 4 := sample_member⟪cs_drr := Drr.mkChild 400 0 0 true⟫]}.

Lemma sample_hier_ok : hier_ok sample_scheds sample_aggs.
Proof.
  split; [exact sample_tree|]. split; [|split; [vm_compute; reflexivity|]].
  - intros s cs j Hs Hj. unfold sample_scheds in Hs.
    apply lookup_insert_Some in Hs as [[<- <-]|[_ Hs]];
      [|apply lookup_singleton_Some in Hs as [<- <-]]; simplify_eq/=; eexists; reflexivity.
  - intros j a Ha. unfold sample_aggs in Ha at 1.
    apply lookup_insert_Some in Ha as [[<- <-]|[_ Ha]];
      [|apply lookup_singleton_Some in Ha as [<- <-]]; vm_compute; split; reflexivity.
Qed.

Lemma activation_keeps_weights_witness :
  hier_ok sample_scheds sample_aggs /\
  let '(aggs', cs') := cake_sched_drr_deactivate sample_aggs sample_member in
  hier_ok (<[3 := cs']> sample_scheds) aggs' /\ Drr.active (cs_drr cs') = false.
Proof.
  split; [exact sample_hier_ok|].
  exact (proj2 (activation_keeps_weights sample_scheds sample_aggs 3 sample_member
    sample_hier_ok eq_refl)).
Defined.

(** * The gates of the chain *)

(** Ranges in which the clock arithmetic of a tier does not wrap. *)
Definition gate_ranges (adj_len now : Z) (a : cake_aggregate_t) : Prop :=
  0 <= ag_global_shaper_time_ns a < 2 ^ 63 /\ 0 <= now < 2 ^ 63 /\
  0 <= ag_burst_ns a < 2 ^ 32 /\
  0 <= Shaper.cake_cost_ns adj_len (ag_rate_ns_per_byte_scaled a) < 2 ^ 48 /\
  is_u64 (Drr.round_deficit (ag_drr a)).

(** The clock a send would be charged from: idle credit is capped at the burst. *)
Definition floored (now : Z) (a : cake_aggregate_t) : Z :=
  Z.max (ag_global_shaper_time_ns a) (now - ag_burst_ns a).

Lemma take_gate_spec adj_len now a :
  gate_ranges adj_len now a →
  let cost := Shaper.cake_cost_ns adj_len (ag_rate_ns_per_byte_scaled a) in
  take_gate cost now a =
    if now <? ag_global_shaper_time_ns a then None
    else Some (a⟪ag_global_shaper_time_ns := floored now a + cost⟫).
Proof.
  intros (Ht & Hn & Hb & Hc & _) cost. unfold take_gate.
  rewrite Shaper.gate_take_spec by done. by destruct (now <? _).
Qed.

(** A share word as the clock leaves it: where a new round is due, that round and the
    credit with the round's quantum on top, up to two quanta or a packet. *)
Definition topped_up (parent a : cake_aggregate_t) (w : Z) : Z :=
  let quantum := Drr.cake_drr_quantum (ag_drr_round_bytes parent) (agg_weight a)
                   (ag_active_weight parent) in
  u32 (Z.min (u64 (Drr.word_biased w + quantum))
         (u64 (Drr.CAKE_DRR_DEFICIT_BIAS +
               u64 (Z.max (i64 (2 * i64 quantum)) Drr.CAKE_MAX_PKT_BYTES)))).
Definition turned (now : Z) (parent a : cake_aggregate_t) : Z :=
  let w := Drr.round_deficit (ag_drr a) in
  if Drr.cake_drr_round_refill_due (Drr.cake_drr_round now) (Drr.word_round w)
  then Drr.word_of (Drr.cake_drr_round now) (topped_up parent a w)
  else w.

(** What a refused packet may leave behind at a tier: a clock raised to the burst
    floor, and the turn of its share's round; no time, credit or counter is spent. *)
Definition not_charged (now : Z) (parent : option cake_aggregate_t) (a a' : cake_aggregate_t) : Prop :=
  (ag_global_shaper_time_ns a' = ag_global_shaper_time_ns a \/
   ag_global_shaper_time_ns a <= now /\ ag_global_shaper_time_ns a' = floored now a) /\
  ag_buffer_usage a' = ag_buffer_usage a /\
  (ag_drr a' = ag_drr a \/
   exists pa, parent = Some pa /\ ag_drr a' = (ag_drr a)⟪Drr.round_deficit := turned now pa a⟫).

Lemma not_charged_refl now p a : not_charged now p a a.
Proof. by repeat split; try left. Qed.

Lemma on_stats_not_charged now p a a' th g :
  not_charged now p a a' → not_charged now p a (on_stats th g a').
Proof. done. Qed.

Lemma ltb_min a b : (if a <? b then a else b) = Z.min a b.
Proof. destruct (Z.ltb_spec a b); lia. Qed.
Lemma ltb_max a b : (if a <? b then b else a) = Z.max a b.
Proof. destruct (Z.ltb_spec a b); lia. Qed.

(** A reserve that is refused, or refunded, only turns the round. *)
Lemma reserve_refund adj_len now parent a :
  is_u64 (Drr.round_deficit (ag_drr a)) → 0 <= adj_len <= 2 ^ 16 →
  let '(r, a') := reserve_on adj_len now parent a in
  let d := (ag_drr a)⟪Drr.round_deficit := turned now parent a⟫ in
  (r = Drr.CAKE_DRR_BLOCKED → ag_drr a' = d) /\
  (r = Drr.CAKE_DRR_ADMIT → ag_drr (refund_on adj_len a') = d).
Proof.
  intros Hu Ha. unfold reserve_on, Drr.cake_drr_shared_reserve, turned.
  set (old := Drr.round_deficit (ag_drr a)) in *.
  set (due := Drr.cake_drr_round_refill_due _ _).
  pose proof (Drr.word_parts_range old) as [Hr Hb].
  set (biased := if due then u32 _ else Drr.word_biased old).
  set (round := if due then Drr.cake_drr_round now else Drr.word_round old).
  assert (is_u32 (Drr.cake_drr_round now)) as Hn by (unfold Drr.cake_drr_round; apply u32_range).
  assert (is_u32 biased) as Hb2 by (unfold biased; clearbody due; destruct due; [apply u32_range|done]).
  assert (is_u32 round) as Hr2 by (unfold round; clearbody due; by destruct due).
  assert ((if due then Drr.word_of (Drr.cake_drr_round now) (topped_up parent a old) else old) =
          Drr.word_of round biased) as ->.
  { subst round biased. destruct due; [|by rewrite Drr.word_of_parts].
    unfold topped_up. by rewrite <- ltb_min, <- ltb_max. }
  set (adm := _ || _).
  destruct adm eqn:E; subst adm; cbn [negb andb].
  - assert (adj_len <= biased) as Hge.
    { apply orb_prop in E as [E|E].
      - unfold Drr.CAKE_DRR_DEFICIT_BIAS in E. lia.
      - unfold Drr.cake_drr_escape_open, Drr.CAKE_DRR_DEFICIT_BIAS, Drr.CAKE_MAX_PKT_BYTES in E.
        apply andb_prop in E as [E _]. lia. }
    split; [done|]. intros _. unfold is_u32 in *. unfold refund_on. rsimpl.
    assert (Drr.cake_drr_shared_refund adj_len (Drr.word_of round (u32 (biased - adj_len))) =
            Drr.word_of round biased) as ->; [|done].
    unfold Drr.cake_drr_shared_refund. rewrite u32_small by (unfold is_u32; lia).
    rewrite !Drr.word_of_add by (unfold is_u32; lia).
    rewrite u64_small; [lia|]. unfold is_u64. lia.
  - destruct due; cbn [negb]; (split; [intros _|done]); [done|].
    subst round biased. rewrite Drr.word_of_parts by done. subst old. by destruct (ag_drr a).
Qed.

Lemma reserve_on_frame adj_len now parent a :
  let '(r, a') := reserve_on adj_len now parent a in
  ag_global_shaper_time_ns a' = ag_global_shaper_time_ns a /\
  ag_buffer_usage a' = ag_buffer_usage a /\ ag_burst_ns a' = ag_burst_ns a /\
  ag_parent_index a' = ag_parent_index a /\ r ≠ Drr.CAKE_DRR_UNARBITRATED.
Proof.
  unfold reserve_on.
  destruct (Drr.cake_drr_shared_reserve _ _ _ _ _ _ _) as [r w] eqn:E.
  assert (r ≠ Drr.CAKE_DRR_UNARBITRATED) as Hr.
  { unfold Drr.cake_drr_shared_reserve in E. revert E.
    match goal with |- context [if ?x || ?y then Drr.CAKE_DRR_ADMIT else _] =>
      destruct (x || y) end; destruct (negb _ && negb _); congruence. }
  by destruct w.
Qed.

Lemma take_gate_bones cost now a a' : take_gate cost now a = Some a' → bones a' = bones a.
Proof.
  unfold take_gate. destruct (Shaper.cake_shaper_gate_take _ _ _ _) as [[] [v|]];
    intros [=]; by subst a'.
Qed.

Lemma reserve_on_bones adj_len now parent a r a' :
  reserve_on adj_len now parent a = (r, a') → bones a' = bones a.
Proof.
  unfold reserve_on. destruct (Drr.cake_drr_shared_reserve _ _ _ _ _ _ _) as [r' [w|]];
    intros [= _ <-]; done.
Qed.

Lemma dequeue_gate_bones aggs cs adj_len now th :
  tree_ok aggs → same_bones aggs (fst (cake_agg_dequeue_gate aggs cs adj_len now th)).
Proof.
  intros Ht. unfold cake_agg_dequeue_gate.
  destruct (cs_aggregate_index cs) as [i|]; [|done].
  destruct (aggs !! i) as [a|] eqn:Ha; [|done].
  destruct (take_gate _ now a) as [a1|] eqn:Hg; [|by eapply same_bones_insert].
  pose proof (take_gate_bones _ _ _ _ Hg) as B1.
  assert (ag_parent_index (count_shaped th adj_len a1) = ag_parent_index a) as ->
    by exact (f_equal (λ b, b.1.1.1.1) B1).
  destruct (ag_parent_index a) as [p|] eqn:Hp; [|by eapply same_bones_insert].
  destruct (Ht i a p Ha Hp) as (pa & Hpa & _).
  pose proof (tree_parent_ne _ _ _ _ Ht Ha Hp) as Hne. simpl. rewrite Hpa. simpl.
  destruct (reserve_on adj_len now pa (count_shaped th adj_len a1)) as [r a2] eqn:Hr.
  pose proof (reserve_on_bones _ _ _ _ _ _ Hr) as B2.
  assert (bones a2 = bones a) as B3 by (etransitivity; [exact B2|exact B1]).
  case_bool_decide; [by eapply same_bones_insert|].
  destruct (take_gate _ now pa) as [pa'|] eqn:Hg'.
  - eapply same_bones_insert2; [exact Ha|exact B3|by rewrite lookup_insert_ne|].
    exact (take_gate_bones _ _ _ _ Hg').
  - eapply same_bones_insert2; [exact Ha| |by rewrite lookup_insert_ne|done].
    by case_bool_decide.
Qed.


