(* ===== verification/CakeConfig.v ===== *)
(** Configuration of the scheduler: [osvbng_qos_sched.c].

    Every call runs under the worker barrier, so each is one transition of
    [cake_main_t].  Pools and index vectors are finite maps; the slot a pool
    allocation returns and the table of VPP interfaces are arguments. *)

From S2P Require Import Prelude Drr Shaper CakeTypes Cobalt CakeFlow CakeHier.

(** ** What the plugin reads of VPP *)

Record sw_interface := mkSwIf {
  sw_sup : Z;                    (* sup_sw_if_index *)
  sw_outer_vlan : option Z;      (* outer_vlan_id of a one_tag sub-interface *)
  sw_mtu_ip4 : Z;                (* mtu[VNET_MTU_IP4] *)
  sw_api_valid : bool            (* vnet_sw_interface_is_api_valid *)
}.

(** Interfaces that exist, worker threads, and the clock in nanoseconds. *)
Record vnet := mkVnet {
  vn_sw_interfaces : gmap Z sw_interface;
  vn_n_threads : nat;
  vn_now : Z
}.

Inductive api_error :=
  | VNET_API_ERROR_INVALID_SW_IF_INDEX
  | VNET_API_ERROR_INVALID_VALUE
  | VNET_API_ERROR_NO_SUCH_ENTRY
  | VNET_API_ERROR_ENTRY_ALREADY_EXISTS
  | VNET_API_ERROR_INSTANCE_IN_USE.

(** [None] is the return value 0. *)
Notation api_result := (option api_error).

(** ** Attachment *)

(** The walk of [cake_sched_resolve_attachment]: the outermost single tag seen
    and the port aggregate found.  The chain of [sup_sw_if_index] is no longer
    than the interface table unless it is cyclic; [None] is running out of fuel. *)
Fixpoint attach_walk (fuel : nat) (vn : vnet) (by_sw : gmap Z Z) (walk : Z)
    (svlan_tag : option Z) : option (option Z * option Z) :=
  match vn_sw_interfaces vn !! walk with
  | None => Some (svlan_tag, None)
  | Some wi =>
      let svlan_tag := match sw_outer_vlan wi with Some t => Some t | None => svlan_tag end in
      let parent := sw_sup wi in
      if parent =? walk then Some (svlan_tag, None)
      else
        match by_sw !! parent with
        | Some port_index => Some (svlan_tag, Some port_index)
        | None =>
            match fuel with
            | O => None
            | S fuel => attach_walk fuel vn by_sw parent svlan_tag
            end
        end
  end.

Definition cake_sched_resolve_attachment (vn : vnet) (cm : cake_main_t) (cs : cake_sched_t)
    : option cake_sched_t :=
  '(svlan_tag, port_index) ←
    attach_walk (size (vn_sw_interfaces vn)) vn (cm_agg_index_by_sw_if_index cm)
      (cs_sw_if_index cs) None;
  match port_index with
  | None => Some (cs⟪cs_aggregate_index := None⟫)
  | Some port_index =>
      let port_map := cm_aggregates cm !! port_index ≫= ag_svlan_map in
      match port_map, svlan_tag with
      | Some svlan_map, Some tag =>
          if CAKE_SVLAN_MAX <=? tag then Some (cs⟪cs_aggregate_index := Some port_index⟫)
          else
            match svlan_map !! tag with
            | Some idx => Some (cs⟪cs_aggregate_index := Some idx⟫)
            | None => Some (cs⟪cs_aggregate_index := Some port_index⟫)
            end
      | _, _ => Some (cs⟪cs_aggregate_index := Some port_index⟫)
      end
  end.

Definition CAKE_AGG_MAX_DEPTH : nat := 4.

Fixpoint agg_chain_from (fuel : nat) (aggs : aggs_t) (idx : option Z) : list Z :=
  match fuel, idx with
  | S fuel, Some i =>
      i :: agg_chain_from fuel aggs (aggs !! i ≫= ag_parent_index)
  | _, _ => []
  end.

Definition cake_agg_chain (aggs : aggs_t) (idx : option Z) : list Z :=
  agg_chain_from CAKE_AGG_MAX_DEPTH aggs idx.

Definition cake_agg_chain_has (chain : list Z) (idx : Z) : bool :=
  existsb (Z.eqb idx) chain.

Definition add_usage (d : Z) (a : cake_aggregate_t) : cake_aggregate_t :=
  a⟪ag_buffer_usage ::= λ u, u32 (u + d)⟫.

(** One scheduler of [cake_agg_reparent_all]: the aggregates and the scheduler
    with its new attachment. *)
Definition reparent_one (vn : vnet) (cm : cake_main_t) (aggs : aggs_t) (cs : cake_sched_t)
    : option (aggs_t * cake_sched_t) :=
  let old_parent := cs_aggregate_index cs in
  let old_chain := cake_agg_chain aggs old_parent in
  cs ← cake_sched_resolve_attachment vn (cm⟪cm_aggregates := aggs⟫) cs;
  if bool_decide (cs_aggregate_index cs = old_parent) then Some (aggs, cs)
  else
    let new_chain := cake_agg_chain aggs (cs_aggregate_index cs) in
    let aggs :=
      if Drr.active (cs_drr cs) then
        cake_agg_weight_add
          (cake_agg_weight_sub aggs old_parent (Drr.effective_weight (cs_drr cs)))
          (cs_aggregate_index cs) (Drr.effective_weight (cs_drr cs))
      else aggs in
    if cs_buffer_usage cs =? 0 then Some (aggs, cs)
    else
      let aggs := foldl (λ aggs i, if cake_agg_chain_has old_chain i then aggs
                                   else alter (add_usage (cs_buffer_usage cs)) i aggs)
                        aggs new_chain in
      let aggs := foldl (λ aggs i, if cake_agg_chain_has new_chain i then aggs
                                   else alter (add_usage (- cs_buffer_usage cs)) i aggs)
                        aggs old_chain in
      Some (aggs, cs).

(** The indices [pool_foreach] visits, in its order. *)
Definition pool_indices {A} (m : gmap Z A) : list Z :=
  merge_sort Z.le (map fst (map_to_list m)).

(** One turn of the loop over the pool. *)
Definition reparent_turn (vn : vnet) (cm : cake_main_t) (s : Z) : option cake_main_t :=
  match cm_schedulers cm !! s with
  | None => Some cm
  | Some cs =>
      '(aggs, cs) ← reparent_one vn cm (cm_aggregates cm) cs;
      Some (cm⟪cm_aggregates := aggs⟫⟪cm_schedulers ::= insert s cs⟫)
  end.

(** The loop over the pool of schedulers. *)
Definition cake_agg_reparent_all (vn : vnet) (cm : cake_main_t) : option cake_main_t :=
  foldl_option (reparent_turn vn) cm (pool_indices (cm_schedulers cm)).

(** ** Aggregates *)

Definition bad_weight (weight : Z) : bool :=
  negb (weight =? 0) && ((weight <? CAKE_WEIGHT_MIN) || (CAKE_WEIGHT_MAX <? weight)).
Definition bad_burst (burst_ns : Z) : bool :=
  (burst_ns <? CAKE_AGG_BURST_NS_MIN) || (CAKE_AGG_BURST_NS_MAX <? burst_ns).

(** The buffer limit derived from a rate over [interval_us], one and a half
    intervals of it, with a floor and saturated at [u32]. *)
Definition derived_limit (rate_bytes_per_sec interval_us floor : Z) : Z :=
  let derived := u64 (u64 (rate_bytes_per_sec * interval_us) * 3) / (1000000 * 2) in
  let derived := if derived <? floor then floor else derived in
  if 2 ^ 32 - 1 <? derived then 2 ^ 32 - 1 else derived.

(** The fields both kinds of aggregate set alike. *)
Definition new_aggregate (vn : vnet) (sw_if_index agg_idx rate weight burst_ns buffer_limit : Z)
    (level : cake_agg_level) (parent : option Z) (svlan_id svlan_id_end : Z)
    (svlan_map : option (gmap Z Z)) : cake_aggregate_t :=
  let weight := if weight =? 0 then 1 else weight in
  let now := u64 (vn_now vn) in
  mkAgg rate (Shaper.cake_rate_scaled rate) (Drr.cake_drr_round_bytes rate) sw_if_index agg_idx
    (if buffer_limit =? 0 then derived_limit rate 100000 1048576 else buffer_limit)
    parent burst_ns svlan_id svlan_id_end (u16 weight) level
    (repeat (mkAggStats 0 0 0 0 0) (vn_n_threads vn)) now 0
    (Drr.cake_drr_shared_init (cake_effective_weight rate (u16 weight)) now) 0 0 svlan_map.

Definition svlan_range (first last : Z) : list Z := seqZ first (last - first + 1).

Definition map_tags (tags : list Z) (idx : Z) (m : gmap Z Z) : gmap Z Z :=
  foldl (λ m t, <[t := idx]> m) m tags.

Definition cake_svlan_aggregate_create (vn : vnet) (cm : cake_main_t) (new_idx sw_if_index
    svlan_id svlan_id_end rate_bytes_per_sec weight burst_ns buffer_limit : Z)
    : option (cake_main_t * api_result) :=
  if (svlan_id_end <? svlan_id) || (CAKE_SVLAN_MAX <=? svlan_id_end)
  then Some (cm, Some VNET_API_ERROR_INVALID_VALUE)
  else if bad_weight weight then Some (cm, Some VNET_API_ERROR_INVALID_VALUE)
  else
    let burst_ns := if burst_ns =? 0 then CAKE_AGG_BURST_NS else burst_ns in
    if bad_burst burst_ns then Some (cm, Some VNET_API_ERROR_INVALID_VALUE)
    else
      match cm_agg_index_by_sw_if_index cm !! sw_if_index ≫= λ pi, (λ p, (pi, p)) <$> cm_aggregates cm !! pi with
      | None => Some (cm, Some VNET_API_ERROR_NO_SUCH_ENTRY)
      | Some (port_idx, port) =>
          let svlan_map := default ∅ (ag_svlan_map port) in
          if ag_rate_bytes_per_sec port <? rate_bytes_per_sec
          then Some (cm, Some VNET_API_ERROR_INVALID_VALUE)
          else if existsb (λ t, bool_decide (is_Some (svlan_map !! t))) (svlan_range svlan_id svlan_id_end)
          then Some (cm, Some VNET_API_ERROR_ENTRY_ALREADY_EXISTS)
          else
            let agg := new_aggregate vn sw_if_index new_idx rate_bytes_per_sec weight burst_ns
                         buffer_limit CAKE_AGG_LEVEL_SVLAN (Some port_idx) svlan_id svlan_id_end None in
            let port := port⟪ag_svlan_map ::= fmap (map_tags (svlan_range svlan_id svlan_id_end) new_idx)⟫ in
            let cm := cm⟪cm_aggregates := <[port_idx := port]> (<[new_idx := agg]> (cm_aggregates cm))⟫ in
            cm ← cake_agg_reparent_all vn cm;
            Some (cm, None)
      end.

Definition unmap_tags (tags : list Z) (idx : Z) (m : gmap Z Z) : gmap Z Z :=
  foldl (λ m t, if bool_decide (m !! t = Some idx) then delete t m else m) m tags.

Definition cake_svlan_aggregate_delete (vn : vnet) (cm : cake_main_t) (sw_if_index svlan_id : Z)
    : option (cake_main_t * api_result) :=
  if CAKE_SVLAN_MAX <=? svlan_id then Some (cm, Some VNET_API_ERROR_INVALID_VALUE)
  else
    match cm_agg_index_by_sw_if_index cm !! sw_if_index ≫= λ pi, (λ p, (pi, p)) <$> cm_aggregates cm !! pi with
    | None => Some (cm, Some VNET_API_ERROR_NO_SUCH_ENTRY)
    | Some (port_idx, port) =>
        match ag_svlan_map port ≫= λ m, m !! svlan_id with
        | None => Some (cm, Some VNET_API_ERROR_NO_SUCH_ENTRY)
        | Some agg_idx =>
            match cm_aggregates cm !! agg_idx with
            | None => Some (cm, Some VNET_API_ERROR_NO_SUCH_ENTRY)
            | Some agg =>
                let tags := svlan_range (ag_svlan_id agg) (ag_svlan_id_end agg) in
                let port := port⟪ag_svlan_map ::= fmap (unmap_tags tags agg_idx)⟫ in
                cm ← cake_agg_reparent_all vn (cm⟪cm_aggregates ::= insert port_idx port⟫);
                Some (cm⟪cm_aggregates ::= delete agg_idx⟫, None)
            end
        end
    end.

Definition cake_aggregate_create (vn : vnet) (cm : cake_main_t) (new_idx sw_if_index
    rate_bytes_per_sec weight burst_ns buffer_limit : Z) : option (cake_main_t * api_result) :=
  if negb (default false (sw_api_valid <$> vn_sw_interfaces vn !! sw_if_index))
  then Some (cm, Some VNET_API_ERROR_INVALID_SW_IF_INDEX)
  else if bad_weight weight then Some (cm, Some VNET_API_ERROR_INVALID_VALUE)
  else
    let burst_ns := if burst_ns =? 0 then CAKE_AGG_BURST_NS else burst_ns in
    if bad_burst burst_ns then Some (cm, Some VNET_API_ERROR_INVALID_VALUE)
    else
      match cm_agg_index_by_sw_if_index cm !! sw_if_index with
      | Some _ => Some (cm, Some VNET_API_ERROR_ENTRY_ALREADY_EXISTS)
      | None =>
          let agg := new_aggregate vn sw_if_index new_idx rate_bytes_per_sec weight burst_ns
                       buffer_limit CAKE_AGG_LEVEL_PORT None 0 0 (Some ∅) in
          let cm := cm⟪cm_aggregates ::= insert new_idx agg⟫
                      ⟪cm_agg_index_by_sw_if_index ::= insert sw_if_index new_idx⟫ in
          cm ← cake_agg_reparent_all vn cm;
          Some (cm, None)
      end.

Definition has_child (aggs : aggs_t) (idx : Z) (p : cake_aggregate_t → bool) : bool :=
  existsb (λ '(_, child), bool_decide (ag_parent_index child = Some idx) && p child)
    (map_to_list aggs).

Definition cake_aggregate_delete (vn : vnet) (cm : cake_main_t) (sw_if_index : Z)
    : option (cake_main_t * api_result) :=
  match cm_agg_index_by_sw_if_index cm !! sw_if_index with
  | None => Some (cm, Some VNET_API_ERROR_NO_SUCH_ENTRY)
  | Some agg_idx =>
      if has_child (cm_aggregates cm) agg_idx (λ _, true)
      then Some (cm, Some VNET_API_ERROR_INSTANCE_IN_USE)
      else
        cm ← cake_agg_reparent_all vn (cm⟪cm_agg_index_by_sw_if_index ::= delete sw_if_index⟫);
        Some (cm⟪cm_aggregates ::= delete agg_idx⟫, None)
  end.

(** A change of rate, weight, burst or limit in place; zero keeps a field. *)
Definition apply_update (rate weight burst_ns buffer_limit : Z) (agg : cake_aggregate_t)
    : cake_aggregate_t :=
  let agg :=
    if rate =? 0 then agg
    else agg⟪ag_rate_bytes_per_sec := rate⟫
            ⟪ag_rate_ns_per_byte_scaled := Shaper.cake_rate_scaled rate⟫
            ⟪ag_drr_round_bytes := Drr.cake_drr_round_bytes rate⟫ in
  let agg := if weight =? 0 then agg else agg⟪ag_weight := u16 weight⟫ in
  let agg := if burst_ns =? 0 then agg else agg⟪ag_burst_ns := burst_ns⟫ in
  let agg := if buffer_limit =? 0 then agg else agg⟪ag_buffer_limit := buffer_limit⟫ in
  let new_weight := cake_effective_weight (ag_rate_bytes_per_sec agg) (ag_weight agg) in
  agg⟪ag_drr ::= λ d, d⟪Drr.sh_effective_weight := new_weight⟫⟫.

Definition cake_aggregate_update (cm : cake_main_t) (sw_if_index : Z) (level : cake_agg_level)
    (svlan_id rate_bytes_per_sec weight burst_ns buffer_limit : Z) : cake_main_t * api_result :=
  let is_svlan := match level with CAKE_AGG_LEVEL_SVLAN => true | CAKE_AGG_LEVEL_PORT => false end in
  if bad_weight weight then (cm, Some VNET_API_ERROR_INVALID_VALUE)
  else if negb (burst_ns =? 0) && bad_burst burst_ns then (cm, Some VNET_API_ERROR_INVALID_VALUE)
  else if is_svlan && (CAKE_SVLAN_MAX <=? svlan_id) then (cm, Some VNET_API_ERROR_INVALID_VALUE)
  else
    match cm_agg_index_by_sw_if_index cm !! sw_if_index with
    | None => (cm, Some VNET_API_ERROR_NO_SUCH_ENTRY)
    | Some port_idx =>
        let found :=
          if is_svlan then
            cm_aggregates cm !! port_idx ≫= λ port, ag_svlan_map port ≫= λ m, m !! svlan_id
          else Some port_idx in
        match found ≫= λ i, (λ a, (i, a)) <$> cm_aggregates cm !! i with
        | None => (cm, Some VNET_API_ERROR_NO_SUCH_ENTRY)
        | Some (agg_idx, agg) =>
            let parent := ag_parent_index agg ≫= λ p, cm_aggregates cm !! p in
            let above_port :=
              match parent with
              | Some p => ag_rate_bytes_per_sec p <? rate_bytes_per_sec
              | None => false
              end in
            let below_child :=
              bool_decide (ag_parent_index agg = None) &&
              has_child (cm_aggregates cm) agg_idx
                (λ child, rate_bytes_per_sec <? ag_rate_bytes_per_sec child) in
            if negb (rate_bytes_per_sec =? 0) && (above_port || below_child)
            then (cm, Some VNET_API_ERROR_INVALID_VALUE)
            else
              let old_weight := agg_weight agg in
              let agg := apply_update rate_bytes_per_sec weight burst_ns buffer_limit agg in
              let new_weight := agg_weight agg in
              let aggs := <[agg_idx := agg]> (cm_aggregates cm) in
              let aggs :=
                match ag_parent_index agg with
                | Some pi =>
                    if (0 <? ag_n_active_children agg) && negb (new_weight =? old_weight) then
                      alter (λ p, p⟪ag_active_weight ::=
                        if old_weight <? new_weight then add64 (new_weight - old_weight)
                        else sub64 (old_weight - new_weight)⟫) pi aggs
                    else aggs
                | None => aggs
                end in
              (cm⟪cm_aggregates := aggs⟫, None)
        end
    end.

(** ** Schedulers *)

(** Discarding every flow of a tin and freeing its tables. *)
Definition cake_tin_drain (aggs : aggs_t) (cs : cake_sched_t) (tin : cake_tin_t)
    : option (aggs_t * cake_sched_t * cake_tin_t * list Z) :=
  '(aggs, cs, tin, freed) ←
    foldl_option (λ '(aggs, cs, tin, freed) i,
        match tn_flows tin !! i with
        | None => Some (aggs, cs, tin, freed)
        | Some f =>
            '(aggs, cs, tin, f, fr) ← cake_flow_discard aggs cs tin f;
            Some (aggs, cs, set_flow i f tin, freed ++ fr)
        end)
      (aggs, cs, tin, []) (seqZ 0 CAKE_QUEUES);
  Some (aggs, cs, tin⟪tn_flows := ∅⟫⟪tn_flow_tags := ∅⟫, freed).

Definition drain_tins (aggs : aggs_t) (cs : cake_sched_t)
    : option (aggs_t * cake_sched_t * list Z) :=
  foldl_option (λ '(aggs, cs, freed) tin,
      '(aggs, cs, _, fr) ← cake_tin_drain aggs cs tin; Some (aggs, cs, freed ++ fr))
    (aggs, cs, []) (cs_tins cs).

Definition cake_worker_has_other_schedulers (cm : cake_main_t) (exclude : option Z)
    (owner_thread : Z) : bool :=
  existsb (λ '(i, cs), negb (bool_decide (Some i = exclude)) &&
                       bool_decide (cs_owner_thread cs = Some owner_thread))
    (map_to_list (cm_schedulers cm)).

(** A mode above the last one is best effort. *)
Definition tin_mode_of (m : Z) : cake_tin_mode :=
  if m =? 1 then CAKE_TIN_MODE_DIFFSERV3
  else if m =? 2 then CAKE_TIN_MODE_DIFFSERV4
  else if m =? 3 then CAKE_TIN_MODE_DIFFSERV8
  else CAKE_TIN_MODE_BESTEFFORT.

Record sched_args := mkArgs {
  ar_rate_bytes_per_sec : Z;
  ar_tin_mode : Z;
  ar_overhead_bytes : Z;
  ar_atm_mode : Z;
  ar_mpu : Z;
  ar_buffer_limit : Z;
  ar_target_us : Z;
  ar_interval_us : Z;
  ar_weight : Z
}.

(** The scheduler the enable branch builds, before it is attached. *)
Definition new_sched (vn : vnet) (sw_if_index pool_index : Z) (a : sched_args) : cake_sched_t :=
  let rate := ar_rate_bytes_per_sec a in
  let mode := tin_mode_of (ar_tin_mode a) in
  let n_tins := cake_tin_counts mode in
  let weight := if ar_weight a =? 0 then 1 else ar_weight a in
  let interval := if 0 <? ar_interval_us a then ar_interval_us a else 100000 in
  let now := u64 (vn_now vn) in
  let cs :=
    mkSched rate (Shaper.cake_rate_scaled rate) now sw_if_index pool_index None
      (ar_overhead_bytes a) (ar_atm_mode a) (ar_mpu a) n_tins mode
      (if ar_buffer_limit a =? 0 then derived_limit rate interval 65536 else ar_buffer_limit a)
      0 0
      (if 0 <? ar_target_us a then ar_target_us a else CAKE_TARGET_US_DEFAULT)
      (if 0 <? ar_interval_us a then ar_interval_us a else CAKE_INTERVAL_US_DEFAULT)
      0 ((2 ^ 32 - 1) / 256) ((2 ^ 32 - 1) / 4096) (cake_dscp_tables mode)
      (repeat ((cake_tin_init CAKE_QUANTUM_DEFAULT)⟪tn_tin_quantum := 65535 / n_tins⟫)
         (Z.to_nat n_tins))
      0 0 0 0 0 None weight
      (Drr.mkChild (cake_effective_weight rate weight) 0 (Drr.cake_drr_round now) false) 0 0 in
  let mtu :=
    match vn_sw_interfaces vn !! sw_if_index with
    | Some swif => if 0 <? sw_mtu_ip4 swif then u32 (sw_mtu_ip4 swif + 14) else 1514
    | None => 1514
    end in
  let wire_mtu := cake_overhead_adjust cs mtu in
  cs⟪cs_mtu_time_us := if 0 <? rate then u32 (u64 (wire_mtu * 1000000) / rate) else 0⟫.

(** Growing the per-thread vector and seeding the new generators. *)
Definition seed_threads (n : nat) (pts : list cake_per_thread_t) : list cake_per_thread_t :=
  imap (λ ti pt, if pt_random_seed pt =? 0
                 then pt⟪pt_random_seed := Z.lxor 3735928559 (Z.of_nat ti + 1)⟫ else pt)
    (pts ++ repeat (mkPerThread ∅ 0) (n - length pts)).

Definition cake_sched_enable (vn : vnet) (cm : cake_main_t) (new_idx sw_if_index : Z)
    (a : sched_args) : option (cake_main_t * api_result) :=
  if negb (default false (sw_api_valid <$> vn_sw_interfaces vn !! sw_if_index))
  then Some (cm, Some VNET_API_ERROR_INVALID_SW_IF_INDEX)
  else if bad_weight (ar_weight a) then Some (cm, Some VNET_API_ERROR_INVALID_VALUE)
  else
    match cm_sched_index_by_sw_if_index cm !! sw_if_index with
    | Some _ => Some (cm, Some VNET_API_ERROR_ENTRY_ALREADY_EXISTS)
    | None =>
        cs ← cake_sched_resolve_attachment vn cm (new_sched vn sw_if_index new_idx a);
        Some (cm⟪cm_schedulers ::= insert new_idx cs⟫
           ⟪cm_sched_index_by_sw_if_index ::= insert sw_if_index new_idx⟫
           ⟪cm_features ::= union {[sw_if_index]}⟫
           ⟪cm_n_schedulers ::= λ n, u32 (n + 1)⟫
           ⟪cm_per_thread ::= seed_threads (vn_n_threads vn)⟫, None)
    end.

(** The disable branch, and the buffers it frees. *)
Definition cake_sched_disable (vn : vnet) (cm : cake_main_t) (sw_if_index : Z)
    : option (cake_main_t * list Z * api_result) :=
  match vn_sw_interfaces vn !! sw_if_index with
  | None => Some (cm, [], Some VNET_API_ERROR_INVALID_SW_IF_INDEX)
  | Some _ =>
      match cm_sched_index_by_sw_if_index cm !! sw_if_index
              ≫= λ i, (λ cs, (i, cs)) <$> cm_schedulers cm !! i with
      | None => Some (cm, [], Some VNET_API_ERROR_NO_SUCH_ENTRY)
      | Some (pool_index, cs) =>
          let owner := cs_owner_thread cs in
          '(aggs, cs, freed) ← drain_tins (cm_aggregates cm) cs;
          let '(aggs, cs) := cake_sched_drr_deactivate aggs (cs⟪cs_tins := []⟫) in
          let cm := cm⟪cm_aggregates := aggs⟫
                      ⟪cm_features ::= λ s, s ∖ {[sw_if_index]}⟫
                      ⟪cm_per_thread ::= map (λ pt, pt⟪pt_active_bitmap ::= λ b, b ∖ {[pool_index]}⟫)⟫
                      ⟪cm_sched_index_by_sw_if_index ::= delete sw_if_index⟫
                      ⟪cm_schedulers ::= delete pool_index⟫
                      ⟪cm_n_schedulers ::= λ n, u32 (n - 1)⟫ in
          let cm :=
            match owner with
            | Some t => if cake_worker_has_other_schedulers cm None t then cm
                        else cm⟪cm_polling ::= λ s, s ∖ {[t]}⟫
            | None => cm
            end in
          Some (cm, freed, None)
      end
  end.

Definition cake_sched_enable_disable (vn : vnet) (cm : cake_main_t) (new_idx sw_if_index : Z)
    (is_enable : bool) (a : sched_args) : option (cake_main_t * list Z * api_result) :=
  if is_enable then
    '(cm, r) ← cake_sched_enable vn cm new_idx sw_if_index a; Some (cm, [], r)
  else if bad_weight (ar_weight a) && bool_decide (is_Some (vn_sw_interfaces vn !! sw_if_index))
  then Some (cm, [], Some VNET_API_ERROR_INVALID_VALUE)
  else cake_sched_disable vn cm sw_if_index.

Definition cake_sched_reset_stats (cm : cake_main_t) (sw_if_index : Z) : cake_main_t :=
  match cm_sched_index_by_sw_if_index cm !! sw_if_index with
  | None => cm
  | Some pool_index =>
      cm⟪cm_schedulers ::= alter (λ cs,
          cs⟪cs_enqueued_pkts := 0⟫⟪cs_enqueued_bytes := 0⟫
            ⟪cs_dequeued_pkts := 0⟫⟪cs_dequeued_bytes := 0⟫⟪cs_dropped_pkts := 0⟫
            ⟪cs_tins ::= map (λ tin, tin⟪tn_packets := 0⟫⟪tn_bytes := 0⟫
                                        ⟪tn_drops := 0⟫⟪tn_ecn_marks := 0⟫)⟫) pool_index⟫
  end.

(** ** Interface removal *)

Definition no_args : sched_args := mkArgs 0 0 0 0 0 0 0 0 0.

(** One tag per S-VLAN aggregate under the port, collected before any delete. *)
Definition child_tags (aggs : aggs_t) (idx : Z) : list Z :=
  omap (λ i, match aggs !! i with
             | Some child => if bool_decide (ag_parent_index child = Some idx)
                             then Some (ag_svlan_id child) else None
             | None => None
             end) (pool_indices aggs).

Definition cake_sw_interface_add_del (vn : vnet) (cm : cake_main_t) (sw_if_index : Z)
    (is_add : bool) : option (cake_main_t * list Z) :=
  if is_add then Some (cm, [])
  else
    '(cm, freed) ←
      match cm_sched_index_by_sw_if_index cm !! sw_if_index with
      | Some _ =>
          '(cm, freed, _) ← cake_sched_enable_disable vn cm 0 sw_if_index false no_args;
          Some (cm, freed)
      | None => Some (cm, [])
      end;
    match cm_agg_index_by_sw_if_index cm !! sw_if_index with
    | Some agg_idx =>
        cm ← foldl_option (λ cm tag, fst <$> cake_svlan_aggregate_delete vn cm sw_if_index tag)
               cm (child_tags (cm_aggregates cm) agg_idx);
        '(cm, _) ← cake_aggregate_delete vn cm sw_if_index;
        Some (cm, freed)
    | None => Some (cm, freed)
    end.

(** The state [osvbng_qos_sched_init] leaves, the tables apart. *)
Definition osvbng_qos_sched_init : cake_main_t := mkMain ∅ [] ∅ 0 ∅ ∅ ∅ ∅.

(** * Reparenting *)

(** The lookup structures point into the pool. *)
Definition index_ok (cm : cake_main_t) : Prop :=
  (∀ sw p, cm_agg_index_by_sw_if_index cm !! sw = Some p → is_Some (cm_aggregates cm !! p)) /\
  (∀ p port m t i, cm_aggregates cm !! p = Some port → ag_svlan_map port = Some m →
     m !! t = Some i → is_Some (cm_aggregates cm !! i)).

(** VPP's chain of super-interfaces ends: each step that is not at the top
    goes down in some rank. *)
Definition vnet_ok (vn : vnet) : Prop :=
  exists rank : Z → nat, ∀ i wi, vn_sw_interfaces vn !! i = Some wi →
    sw_sup wi ≠ i → (rank (sw_sup wi) < rank i)%nat.

(** The interfaces a walk that has reached rank [n] can still meet. *)
Definition below (rank : Z → nat) (n : nat) (m : gmap Z sw_interface) : gmap Z sw_interface :=
  filter (λ p, (rank p.1 <= n)%nat) m.

Lemma below_step rank m i n wi :
  m !! i = Some wi → (n < rank i)%nat →
  (size (below rank n m) < size (below rank (rank i) m))%nat.
Proof.
  intros Hi Hn. apply map_subset_size. split.
  - apply map_subseteq_spec. intros j x Hj.
    apply map_lookup_filter_Some in Hj as [Hj Hr]. apply map_lookup_filter_Some.
    split; [done|]. cbn in *. lia.
  - intros Hsub. assert (below rank (rank i) m !! i = Some wi) as H
      by (apply map_lookup_filter_Some; split; [done|]; cbn; lia).
    pose proof (lookup_weaken _ _ _ _ H Hsub) as H2.
    apply map_lookup_filter_Some in H2 as [_ H2]. cbn in H2. lia.
Qed.

(** The fuel of the walk is enough, and a port it finds is in the table. *)
Lemma attach_walk_ends vn rank by_sw fuel walk tag :
  (∀ i wi, vn_sw_interfaces vn !! i = Some wi →
     sw_sup wi ≠ i → (rank (sw_sup wi) < rank i)%nat) →
  (size (below rank (rank walk) (vn_sw_interfaces vn)) <= fuel)%nat →
  exists tag' port, attach_walk fuel vn by_sw walk tag = Some (tag', port) /\
    ∀ p, port = Some p → exists sw, by_sw !! sw = Some p.
Proof.
  intros Hr. revert walk tag. induction fuel as [|fuel IH]; intros walk tag Hf; cbn [attach_walk];
    (destruct (vn_sw_interfaces vn !! walk) as [wi|] eqn:Hw; [|by do 2 eexists]);
    (destruct (Z.eqb_spec (sw_sup wi) walk) as [E|E]; [by do 2 eexists|]);
    pose proof (below_step rank _ walk _ wi Hw (Hr walk wi Hw E)) as Hlt; [lia|].
  destruct (by_sw !! sw_sup wi) as [q|] eqn:Eq.
  - do 2 eexists. split; [done|]. intros p [= <-]. by exists (sw_sup wi).
  - apply IH. lia.
Qed.

Lemma resolve_frame vn cm cs :
  vnet_ok vn → index_ok cm →
  exists idx, cake_sched_resolve_attachment vn cm cs = Some (cs⟪cs_aggregate_index := idx⟫) /\
    ∀ j, idx = Some j → is_Some (cm_aggregates cm !! j).
Proof.
  intros [rank Hr] [H1 H2]. unfold cake_sched_resolve_attachment.
  destruct (attach_walk_ends vn rank (cm_agg_index_by_sw_if_index cm)
    (size (vn_sw_interfaces vn)) (cs_sw_if_index cs) None Hr) as (tag & port & -> & Hp).
  { apply map_subseteq_size, map_filter_subseteq. }
  cbn [mbind option_bind]. destruct port as [p|]; [|by eexists].
  destruct (Hp p eq_refl) as [sw Hsw]. pose proof (H1 sw p Hsw) as Hx.
  assert (∀ j, Some p = Some j → is_Some (cm_aggregates cm !! j)) as Hport by congruence.
  destruct (cm_aggregates cm !! p) as [port|] eqn:Ep; simpl; [|by eexists].
  destruct (ag_svlan_map port) as [m|] eqn:Em; [|by eexists].
  destruct tag as [t|]; [|by eexists]. destruct (_ <=? _); [by eexists|].
  destruct (m !! t) as [i|] eqn:Ei; [|by eexists].
  eexists. split; [reflexivity|]. intros j [= <-]. by eapply H2.
Qed.

Lemma agg_chain_eq aggs idx :
  tree_ok aggs → (∀ j, idx = Some j → is_Some (aggs !! j)) →
  cake_agg_chain aggs idx = chain aggs idx.
Proof.
  intros Ht Hex. unfold cake_agg_chain, chain. simpl.
  destruct idx as [i|]; [|done]. destruct (Hex i eq_refl) as [a Ha]. rewrite Ha. simpl.
  destruct (ag_parent_index a) as [p|] eqn:Hp; [|done].
  destruct (Ht i a p Ha Hp) as (pa & Hpa & Hn). rewrite Hpa. simpl. by rewrite Hn.
Qed.

Lemma chain_nodup aggs idx : tree_ok aggs → NoDup (chain aggs idx).
Proof.
  intros Ht. unfold chain. destruct idx as [i|]; [|constructor].
  destruct (aggs !! i) as [a|] eqn:Ha; [|constructor].
  destruct (ag_parent_index a) as [p|] eqn:Hp; [|apply NoDup_singleton].
  pose proof (tree_parent_ne _ _ _ _ Ht Ha Hp).
  constructor; [set_solver|]. apply NoDup_singleton.
Qed.

Lemma chain_has_elem l i : cake_agg_chain_has l i = bool_decide (i ∈ l).
Proof.
  unfold cake_agg_chain_has. induction l as [|j l IH]; simpl; [done|].
  rewrite IH. destruct (Z.eqb_spec i j) as [->|]; simpl.
  - symmetry. apply bool_decide_eq_true_2. set_solver.
  - apply bool_decide_ext. set_solver.
Qed.

Lemma elem_of_filter_not (j : Z) (other l : list Z) :
  bool_decide (j ∈ filter (.∉ other) l) =
    negb (bool_decide (j ∈ other)) && bool_decide (j ∈ l).
Proof.
  destruct (decide (j ∈ other)) as [H1|H1].
  - rewrite (bool_decide_eq_true_2 (j ∈ other)) by done. simpl.
    apply bool_decide_eq_false_2. rewrite list_elem_of_filter. tauto.
  - rewrite (bool_decide_eq_false_2 (j ∈ other)) by done. simpl.
    apply bool_decide_ext. rewrite list_elem_of_filter. tauto.
Qed.

(** Charging the tiers of one chain that another lacks. *)
Lemma fold_usage d other l aggs :
  NoDup l →
  usage_shift d (filter (.∉ other) l) aggs
    (foldl (λ aggs i, if cake_agg_chain_has other i then aggs
                      else alter (add_usage d) i aggs) aggs l).
Proof.
  intros Hnd. revert aggs. induction Hnd as [|i l Hi Hnd IH]; intros aggs j; simpl; [done|].
  rewrite (IH _ j), chain_has_elem, filter_cons.
  destruct (decide (i ∈ other)) as [Ho|Ho].
  { rewrite (bool_decide_eq_true_2 (i ∈ other)), decide_False by tauto. done. }
  rewrite (bool_decide_eq_false_2 (i ∈ other)), decide_True by done.
  destruct (decide (j = i)) as [->|Hne].
  - rewrite lookup_alter_eq. rewrite (bool_decide_eq_true_2 (i ∈ i :: _)) by set_solver.
    rewrite bool_decide_eq_false_2; [done|]. rewrite list_elem_of_filter. tauto.
  - rewrite lookup_alter_ne by congruence.
    rewrite (bool_decide_ext (j ∈ i :: filter (.∉ other) l) (j ∈ filter (.∉ other) l))
      by set_solver. done.
Qed.

(** ** The two invariants *)

Definition sched_usage (aggs : aggs_t) (j : Z) (cs : cake_sched_t) : Z :=
  if bool_decide (j ∈ chain aggs (cs_aggregate_index cs)) then cs_buffer_usage cs else 0.

(** Every tier is charged for exactly what the schedulers below it hold. *)
Definition usage_inv (scheds : scheds_t) (aggs : aggs_t) : Prop :=
  ∀ j a, aggs !! j = Some a → ag_buffer_usage a = u32 (msum (sched_usage aggs j) scheds).

Lemma u32_add_l x y : u32 (u32 x + y) = u32 (x + y).
Proof. unfold u32. by rewrite Zplus_mod_idemp_l. Qed.

Lemma usage_inv_same_tree scheds aggs aggs' :
  (∀ i, ag_parent_index <$> aggs' !! i = ag_parent_index <$> aggs !! i) →
  (∀ i, ag_buffer_usage <$> aggs' !! i = ag_buffer_usage <$> aggs !! i) →
  usage_inv scheds aggs → usage_inv scheds aggs'.
Proof.
  intros Hp Hu Hinv j a' Ha'. pose proof (Hu j) as Hj. rewrite Ha' in Hj.
  destruct (aggs !! j) as [a|] eqn:Ha; simplify_eq/=. rewrite Hj, (Hinv j a Ha). f_equal.
  apply msum_ext. intros k c _. unfold sched_usage. by rewrite (chain_same aggs aggs' _ Hp).
Qed.

Lemma reparent_usage scheds aggs s cs idx old_chain new_chain :
  let cs' := cs⟪cs_aggregate_index := idx⟫ in
  let u := cs_buffer_usage cs in
  tree_ok aggs → usage_inv scheds aggs → scheds !! s = Some cs →
  old_chain = chain aggs (cs_aggregate_index cs) → new_chain = chain aggs idx →
  let add aggs i := if cake_agg_chain_has old_chain i then aggs else alter (add_usage u) i aggs in
  let sub aggs i := if cake_agg_chain_has new_chain i then aggs else alter (add_usage (- u)) i aggs in
  let aggs' := foldl sub (foldl add aggs new_chain) old_chain in
  (∀ i, ag_parent_index <$> aggs' !! i = ag_parent_index <$> aggs !! i) /\
  (∀ {B} (g : cake_aggregate_t → B), (∀ d a, g (add_usage d a) = g a) →
     ∀ i, g <$> aggs' !! i = g <$> aggs !! i) /\
  usage_inv (<[s := cs']> scheds) aggs'.
Proof.
  intros cs' u Ht Hinv Hs Eo En add sub aggs'.
  pose proof (chain_nodup aggs (cs_aggregate_index cs) Ht) as Hno.
  pose proof (chain_nodup aggs idx Ht) as Hnn. rewrite <- Eo in Hno. rewrite <- En in Hnn.
  pose proof (fold_usage u old_chain new_chain aggs Hnn) as H1.
  pose proof (fold_usage (- u) new_chain old_chain (foldl add aggs new_chain) Hno) as H2.
  fold add in H1. fold sub in H2. fold aggs' in H2.
  assert (∀ {B} (g : cake_aggregate_t → B), (∀ d a, g (add_usage d a) = g a) →
     ∀ i, g <$> aggs' !! i = g <$> aggs !! i) as Hg.
  { intros B g Hg i. rewrite (H2 i), (H1 i). unfold add_usage in Hg.
    repeat case_bool_decide; destruct (aggs !! i); simpl; rewrite ?Hg; done. }
  pose proof (Hg _ ag_parent_index (λ _ _, eq_refl)) as Hpar.
  split; [done|]. split; [done|]. intros j a' Ha'.
  rewrite (msum_ext _ (sched_usage aggs j)).
  2:{ intros k c _. unfold sched_usage. by rewrite (chain_same aggs aggs' _ Hpar). }
  rewrite (msum_insert _ _ _ _ _ Hs). rewrite (H2 j), (H1 j) in Ha'.
  assert (sched_usage aggs j cs' = if bool_decide (j ∈ new_chain) then u else 0) as ->
    by (by rewrite En).
  assert (sched_usage aggs j cs = if bool_decide (j ∈ old_chain) then u else 0) as ->
    by (by rewrite Eo).
  destruct (aggs !! j) as [a|] eqn:Ha;
    [|exfalso; revert Ha'; clear; repeat case_bool_decide; done].
  specialize (Hinv j a Ha). set (M := msum (sched_usage aggs j) scheds) in *.
  rewrite !elem_of_filter_not in Ha'.
  destruct (bool_decide (j ∈ new_chain)), (bool_decide (j ∈ old_chain));
    simplify_eq/=; rsimpl; rewrite ?Hinv, ?u32_add_l; f_equal; lia.
Qed.

(** ** Weight under a move *)

Definition at_ (idx : option Z) (j : Z) : Z := if bool_decide (idx = Some j) then 1 else 0.

Lemma at_moved D i d j : moved D i d j = D j + at_ (Some i) j * d.
Proof.
  unfold moved, at_. destruct (Z.eqb_spec j i) as [->|].
  - rewrite bool_decide_eq_true_2 by done. lia.
  - rewrite bool_decide_eq_false_2 by congruence. lia.
Qed.

Lemma weight_add_at Dn Dw aggs idx w :
  tree_ok aggs → roomy Dn aggs → weights_ok Dn Dw aggs →
  (∀ i, idx = Some i → is_Some (aggs !! i)) →
  weights_ok (λ j, Dn j + at_ idx j) (λ j, Dw j + at_ idx j * w)
    (cake_agg_weight_add aggs idx w).
Proof.
  intros Ht Hr Hw Hex. destruct idx as [i|].
  - destruct (Hex i eq_refl) as [a Ha].
    eapply weights_ok_ext; [..|by apply (weight_add_ok Dn Dw aggs i a w)];
      intros j; rewrite at_moved; lia.
  - eapply weights_ok_ext; [..|exact Hw]; intros j; unfold at_;
      rewrite bool_decide_eq_false_2 by done; lia.
Qed.

Lemma weight_sub_at Dn Dw aggs idx w :
  tree_ok aggs → roomy Dn aggs → weights_ok Dn Dw aggs →
  (∀ i, idx = Some i → is_Some (aggs !! i) /\ 1 <= Dn i) →
  weights_ok (λ j, Dn j - at_ idx j) (λ j, Dw j - at_ idx j * w)
    (cake_agg_weight_sub aggs idx w).
Proof.
  intros Ht Hr Hw Hex. destruct idx as [i|].
  - destruct (Hex i eq_refl) as [[a Ha] Hi].
    eapply weights_ok_ext; [..|by apply (weight_sub_ok Dn Dw aggs i a w)];
      intros j; rewrite at_moved; lia.
  - eapply weights_ok_ext; [..|exact Hw]; intros j; unfold at_;
      rewrite bool_decide_eq_false_2 by done; lia.
Qed.

Lemma sched_at cs j :
  sched_n j cs = (if Drr.active (cs_drr cs) then at_ (cs_aggregate_index cs) j else 0) /\
  sched_w j cs = (if Drr.active (cs_drr cs)
                  then at_ (cs_aggregate_index cs) j * Drr.effective_weight (cs_drr cs) else 0).
Proof.
  unfold sched_n, sched_w, at_. destruct (Drr.active _), (bool_decide _); simpl; lia.
Qed.

Lemma roomy_ext Dn Dn' aggs aggs' :
  size aggs' = size aggs → (∀ j, 0 <= Dn' j <= Dn j) → roomy Dn aggs → roomy Dn' aggs'.
Proof. intros Hs Hd Hr j. specialize (Hr j). specialize (Hd j). rewrite Hs. lia. Qed.

Lemma reparent_weights scheds aggs s cs idx :
  let cs' := cs⟪cs_aggregate_index := idx⟫ in
  let w := Drr.effective_weight (cs_drr cs) in
  hier_ok scheds aggs → scheds !! s = Some cs →
  (∀ j, idx = Some j → is_Some (aggs !! j)) →
  let aggs' :=
    if Drr.active (cs_drr cs)
    then cake_agg_weight_add (cake_agg_weight_sub aggs (cs_aggregate_index cs) w) idx w
    else aggs in
  (∀ {B} (g : cake_aggregate_t → B), (∀ w a, g (join w a) = g a) →
     (∀ w a, g (leave w a) = g a) → ∀ i, g <$> aggs' !! i = g <$> aggs !! i) /\
  hier_ok (<[s := cs']> scheds) aggs'.
Proof.
  intros cs' w Hok Hs Hex aggs'. pose proof Hok as (Ht & Hat & Hsz & Hw).
  assert (∀ {B} (g : cake_aggregate_t → B), (∀ w a, g (join w a) = g a) →
     (∀ w a, g (leave w a) = g a) → ∀ i, g <$> aggs' !! i = g <$> aggs !! i) as Hg.
  { intros B g H1 H2 i. subst aggs'. destruct (Drr.active _); [|done].
    by rewrite weight_add_frame, weight_sub_frame. }
  split; [done|]. pose proof (Hg _ ag_parent_index (λ _ _, eq_refl) (λ _ _, eq_refl)) as Hpar.
  destruct (same_parent_dom aggs aggs' Hpar) as [Hsz' Hdom].
  split; [by eapply tree_ok_same|]. split; [|split].
  - intros s' c j Hc Hj. apply Hdom.
    apply lookup_insert_Some in Hc as [[<- <-]|[_ Hc]]; [by apply Hex|by eapply Hat].
  - rewrite Hsz', map_size_insert_Some by (by eexists). done.
  - set (old := cs_aggregate_index cs) in *.
    assert (∀ j, let d := if Drr.active (cs_drr cs) then at_ idx j - at_ old j else 0 in
      msum (sched_n j) (<[s := cs']> scheds) = msum (sched_n j) scheds + d /\
      msum (sched_w j) (<[s := cs']> scheds) = msum (sched_w j) scheds + d * w) as Hd.
    { intros j d. apply (sched_switch scheds s cs cs' j d (d * w) Hs);
        destruct (sched_at cs j) as [S1 S2], (sched_at cs' j) as [S3 S4];
        rewrite ?S1, ?S2, ?S3, ?S4; subst d; change (cs_drr cs') with (cs_drr cs);
        change (cs_aggregate_index cs') with idx; fold old w;
        destruct (Drr.active (cs_drr cs)); lia. }
    unfold weights_inv. subst aggs'. destruct (Drr.active (cs_drr cs)) eqn:Ea.
    2:{ eapply weights_ok_ext; [..|exact Hw]; intros j; destruct (Hd j) as [E1 E2];
          cbv beta; rewrite ?E1, ?E2; lia. }
    set (Dn := λ j, msum (sched_n j) scheds) in *.
    set (Dw := λ j, msum (sched_w j) scheds) in *.
    pose proof (hier_roomy _ _ Hok) as Hr. fold Dn in Hr.
    assert (∀ i, old = Some i → is_Some (aggs !! i) /\ 1 <= Dn i) as Hold.
    { intros i Hi. split; [by eapply Hat|]. subst Dn. cbv beta.
      rewrite (msum_delete _ _ _ _ Hs). destruct (sched_at cs i) as [-> _].
      fold old. rewrite Ea, Hi. unfold at_. rewrite bool_decide_eq_true_2 by done.
      assert (0 <= msum (sched_n i) (delete s scheds)); [|lia].
      apply (msum_le _ _ 1). intros k x _. unfold sched_n. destruct (_ && _); lia. }
    pose proof (weight_sub_at Dn Dw aggs old w Ht Hr Hw Hold) as H1.
    assert (∀ i, ag_parent_index <$> cake_agg_weight_sub aggs old w !! i
                 = ag_parent_index <$> aggs !! i) as Hf1
      by (intros; by apply weight_sub_frame).
    destruct (same_parent_dom _ _ Hf1) as [Hz1 Hd1].
    eapply weights_ok_ext; [| |apply (weight_add_at (λ j, Dn j - at_ old j)
      (λ j, Dw j - at_ old j * w) _ idx w); [..|exact H1|]].
    + intros j. destruct (Hd j) as [E1 _]. cbv beta. rewrite E1. subst Dn. cbv beta. lia.
    + intros j. destruct (Hd j) as [_ E2]. cbv beta. rewrite E2. subst Dw. cbv beta. lia.
    + by eapply tree_ok_same.
    + eapply roomy_ext; [exact Hz1| |exact Hr]. intros j. cbv beta.
      destruct (Hr j). unfold at_. case_bool_decide as E; [|lia]. destruct (Hold j E). lia.
    + intros i Hi. by apply Hd1, Hex.
Qed.

(** ** The whole of [cake_agg_reparent_all] *)

(** Weight, buffer charge and lookup structures are consistent. *)
Definition cm_ok (cm : cake_main_t) : Prop :=
  hier_ok (cm_schedulers cm) (cm_aggregates cm) /\
  usage_inv (cm_schedulers cm) (cm_aggregates cm) /\ index_ok cm.

Lemma index_ok_same cm cm' :
  cm_agg_index_by_sw_if_index cm' = cm_agg_index_by_sw_if_index cm →
  (∀ i, ag_svlan_map <$> cm_aggregates cm' !! i = ag_svlan_map <$> cm_aggregates cm !! i) →
  index_ok cm → index_ok cm'.
Proof.
  intros E Hs [H1 H2].
  assert (∀ i, is_Some (cm_aggregates cm !! i) → is_Some (cm_aggregates cm' !! i)) as Hd.
  { intros i [a Ha]. specialize (Hs i). rewrite Ha in Hs.
    destruct (cm_aggregates cm' !! i); [by eexists|done]. }
  split.
  - intros sw p Hp. apply Hd. rewrite E in Hp. by eapply H1.
  - intros p port m t i Hp Hm Ht. apply Hd. pose proof (Hs p) as Hsp. rewrite Hp in Hsp.
    destruct (cm_aggregates cm !! p) as [port0|] eqn:E0; simplify_eq/=.
    eapply H2; [exact E0| |exact Ht]. congruence.
Qed.

(** The fields the weight invariant reads. *)
Definition counters (a : cake_aggregate_t) :=
  (ag_n_active_children a, ag_active_weight a, ag_parent_index a, agg_weight a).

Lemma msum_counters (h : cake_aggregate_t → Z) aggs aggs' :
  (∀ x y, counters x = counters y → h x = h y) →
  (∀ i, counters <$> aggs' !! i = counters <$> aggs !! i) → msum h aggs' = msum h aggs.
Proof.
  intros Hh Hf. apply msum_same_keys. intros i. specialize (Hf i).
  destruct (aggs' !! i), (aggs !! i); try done. simpl in *. f_equal. apply Hh. congruence.
Qed.

Lemma hier_ok_same scheds aggs aggs' :
  hier_ok scheds aggs → (∀ i, counters <$> aggs' !! i = counters <$> aggs !! i) →
  hier_ok scheds aggs'.
Proof.
  intros (T & A & Z1 & W) Hf.
  assert (∀ i, ag_parent_index <$> aggs' !! i = ag_parent_index <$> aggs !! i) as Hp.
  { intros i. specialize (Hf i). destruct (aggs' !! i), (aggs !! i); simplify_eq/=; [|done..].
    by f_equal. }
  destruct (same_parent_dom _ _ Hp) as [Hs Hd].
  split; [by eapply tree_ok_same|]. split; [|split].
  - intros s c j H0 H1. by eapply Hd, A.
  - by rewrite Hs.
  - intros j a' Ha'. pose proof (Hf j) as Hj. rewrite Ha' in Hj.
    destruct (aggs !! j) as [a|] eqn:Ha; simplify_eq/=. destruct (W j a Ha) as [W1 W2].
    rewrite (msum_counters (agg_n j) aggs aggs'), (msum_counters (agg_w j) aggs aggs');
      [split; congruence| | |  |]; try done;
      intros x y [= E1 E2 E3 E4]; unfold agg_n, agg_w; by rewrite E1, E3, ?E4.
Qed.

Lemma reparent_one_ok vn cm s cs :
  vnet_ok vn → cm_ok cm → cm_schedulers cm !! s = Some cs →
  exists aggs cs', reparent_one vn cm (cm_aggregates cm) cs = Some (aggs, cs') /\
    cm_ok (cm⟪cm_aggregates := aggs⟫⟪cm_schedulers ::= insert s cs'⟫).
Proof.
  intros Hvn (Hh & Hu & Hi) Hs. unfold reparent_one.
  replace (cm⟪cm_aggregates := cm_aggregates cm⟫) with cm by (by destruct cm).
  destruct (resolve_frame vn cm cs Hvn Hi) as (idx & -> & Hex). cbn [mbind option_bind].
  set (cs' := cs⟪cs_aggregate_index := idx⟫).
  change (cs_aggregate_index cs') with idx. change (cs_drr cs') with (cs_drr cs).
  change (cs_buffer_usage cs') with (cs_buffer_usage cs).
  pose proof Hh as (Ht & Hat & Hsz & Hw).
  case_bool_decide as Hsame.
  { do 2 eexists. split; [reflexivity|].
    assert (cs' = cs) as -> by (subst cs' idx; by destruct cs).
    assert (cm⟪cm_aggregates := cm_aggregates cm⟫⟪cm_schedulers ::= insert s cs⟫ = cm) as ->;
      [|by split].
    destruct cm; unfold upd; simpl in *. by rewrite insert_id. }
  set (aggs := cm_aggregates cm) in *. set (old := cs_aggregate_index cs) in *.
  assert (∀ j, old = Some j → is_Some (aggs !! j)) as Hexo by (intros j Hj; by eapply Hat).
  rewrite !agg_chain_eq by done.
  destruct (reparent_weights (cm_schedulers cm) aggs s cs idx Hh Hs Hex) as [Hg1 Hok1].
  fold cs' in Hok1. set (aggs1 := if Drr.active (cs_drr cs) then _ else aggs) in *.
  fold old in aggs1.
  pose proof (Hg1 _ ag_parent_index (λ _ _, eq_refl) (λ _ _, eq_refl)) as P1.
  pose proof (Hg1 _ ag_buffer_usage (λ _ _, eq_refl) (λ _ _, eq_refl)) as U1.
  pose proof (Hg1 _ ag_svlan_map (λ _ _, eq_refl) (λ _ _, eq_refl)) as S1.
  pose proof (usage_inv_same_tree _ _ _ P1 U1 Hu) as Hu1.
  pose proof (chain_same _ _ old P1) as C1. pose proof (chain_same _ _ idx P1) as C2.
  destruct (reparent_usage (cm_schedulers cm) aggs1 s cs idx (chain aggs old) (chain aggs idx))
    as (P2 & Hg2 & Hu2); try done; [apply Hok1|].
  fold cs' in Hu2. set (aggs2 := foldl _ _ _) in *.
  assert (hier_ok (<[s := cs']> (cm_schedulers cm)) aggs2) as Hok2
    by exact (hier_ok_same _ _ _ Hok1 (Hg2 _ counters (λ _ _, eq_refl))).
  destruct (Z.eqb_spec (cs_buffer_usage cs) 0) as [Ez|Ez].
  - do 2 eexists. split; [reflexivity|]. split; [exact Hok1|]. split; [|by apply (index_ok_same cm)].
    intros j a Ha. rewrite (Hu1 j a Ha). f_equal. symmetry. simpl.
    rewrite (msum_insert _ _ _ _ _ Hs).
    assert (sched_usage aggs1 j cs' = 0 /\ sched_usage aggs1 j cs = 0) as [-> ->]; [|lia].
    unfold sched_usage. change (cs_buffer_usage cs') with (cs_buffer_usage cs).
    rewrite Ez. split; by case_bool_decide.
  - do 2 eexists. split; [reflexivity|]. split; [exact Hok2|]. split; [exact Hu2|].
    apply (index_ok_same cm); [done| |done]. intros i. simpl.
    rewrite <- S1. exact (Hg2 _ ag_svlan_map (λ _ _, eq_refl) i).
Qed.

Lemma reparent_turn_ok vn cm s :
  vnet_ok vn → cm_ok cm → exists cm', reparent_turn vn cm s = Some cm' /\ cm_ok cm'.
Proof.
  intros Hvn Hok. unfold reparent_turn.
  destruct (cm_schedulers cm !! s) as [cs|] eqn:Hs; [|by eexists].
  destruct (reparent_one_ok vn cm s cs Hvn Hok Hs) as (aggs & cs' & -> & H). by eexists.
Qed.

(** Re-resolving attachments after a topology change keeps the books: from
    any state in which active weights are the sums of the active children, buffer
    charges are what the schedulers below hold, and the lookup structures point
    into the pool, walking all schedulers to their new parents ends, in such a state
    again, whatever moved where. *)
Theorem reparent_keeps_accounting vn cm :
  vnet_ok vn → cm_ok cm → exists cm', cake_agg_reparent_all vn cm = Some cm' /\ cm_ok cm'.
Proof.
  intros Hvn Hok. unfold cake_agg_reparent_all.
  destruct (foldl_option_rel (λ a b, cm_ok a → cm_ok b) (reparent_turn vn)
    (pool_indices (cm_schedulers cm)) cm) as (cm' & H1 & H2); eauto.
  intros s cm1 _ H. destruct (reparent_turn_ok vn cm1 s Hvn (H Hok)) as (cm2 & -> & ?). eauto.
Qed.

(** Subscriber interface 7 on sub-interface 2 (tag 100) of port 1. *)
Definition sample_vnet : vnet :=
  mkVnet {[1 := mkSwIf 1 None 1500 true; 2 := mkSwIf 1 (Some 100) 1500 true;
           7 := mkSwIf 2 None 1500 true]} 2 5000000000.

(** The members sit on the port although the tag is mapped: the state between
    the map update and the reparenting of an S-VLAN creation. *)
Definition sample_main : cake_main_t :=
  mkMain {[3 := sample_member⟪cs_aggregate_index := Some 0⟫]} [mkPerThread {[3]} 1]
    {[7 := 3]} 1
    {[0 := sample_port⟪ag_n_active_children := 1⟫⟪ag_active_weight := 300⟫;
      1 := sample_svlan⟪ag_n_active_children := 0⟫⟪ag_active_weight := 0⟫
             ⟪ag_buffer_usage := 0⟫]}
    {[1 := 0]} {[0]} {[7]}.

Lemma sample_main_ok : cm_ok sample_main.
Proof.
  assert (∀ i a, cm_aggregates sample_main !! i = Some a →
    i = 0 /\ a = sample_port⟪ag_n_active_children := 1⟫⟪ag_active_weight := 300⟫ \/
    i = 1 /\ a = sample_svlan⟪ag_n_active_children := 0⟫⟪ag_active_weight := 0⟫
             ⟪ag_buffer_usage := 0⟫) as Ha.
  { intros i a H. simpl in H. apply lookup_insert_Some in H as [[<- <-]|[_ H]]; [by left|].
    apply lookup_singleton_Some in H as [<- <-]. by right. }
  split; [|split].
  - split; [|split; [|split; [vm_compute; reflexivity|]]].
    + intros i a p H Hp. destruct (Ha i a H) as [[-> ->]|[-> ->]]; simplify_eq/=.
      eexists. split; reflexivity.
    + intros s cs j Hs Hj. simpl in Hs. apply lookup_singleton_Some in Hs as [<- <-].
      simplify_eq/=. eexists. reflexivity.
    + intros j a H. destruct (Ha j a H) as [[-> ->]|[-> ->]]; vm_compute; split; reflexivity.
  - intros j a H. destruct (Ha j a H) as [[-> ->]|[-> ->]]; vm_compute; reflexivity.
  - split.
    + intros sw p Hp. simpl in Hp. apply lookup_singleton_Some in Hp as [<- <-].
      eexists. reflexivity.
    + intros p port m t i Hp Hm Ht. destruct (Ha p port Hp) as [[-> ->]|[-> ->]]; simplify_eq/=.
      apply lookup_singleton_Some in Ht as [<- <-]. eexists. reflexivity.
Qed.

Lemma sample_vnet_ok : vnet_ok sample_vnet.
Proof.
  exists (λ i, if i =? 7 then 2%nat else if i =? 2 then 1%nat else 0%nat). intros i wi H Hne.
  simpl in H. apply lookup_insert_Some in H as [[<- <-]|[_ H]]; [done|].
  apply lookup_insert_Some in H as [[<- <-]|[_ H]]; [simpl; lia|].
  apply lookup_singleton_Some in H as [<- <-]. simpl. lia.
Qed.

Lemma reparent_keeps_accounting_witness :
  vnet_ok sample_vnet /\ cm_ok sample_main /\
  exists cm', cake_agg_reparent_all sample_vnet sample_main = Some cm' /\ cm_ok cm' /\
    ag_buffer_usage <$> cm_aggregates cm' !! 1 = Some 1000.
Proof.
  split; [exact sample_vnet_ok|]. split; [exact sample_main_ok|].
  destruct (reparent_keeps_accounting sample_vnet sample_main sample_vnet_ok sample_main_ok)
    as (cm' & H & Hok).
  exists cm'. split; [exact H|]. split; [exact Hok|].
  assert (cake_agg_reparent_all sample_vnet sample_main ≫= (λ cm, ag_buffer_usage <$>
    cm_aggregates cm !! 1) = Some 1000) as E by (vm_compute; reflexivity).
  rewrite H in E. exact E.
Defined.
