(* ===== verification/CakeTopo.v ===== *)
(** The topology configuration keeps: ports, S-VLANs and the tables that find them.

    [topo] says that the tree has two tiers, that the port table names roots by their
    interface, and that a port's S-VLAN map names its own children by the tags of
    their ranges.  Every configuration call of [osvbng_qos_sched.c] keeps it, and
    returns: what its loops walk is then finite. *)

From S2P Require Import Prelude Drr Shaper CakeTypes CakeFlow CakeHier CakeConfig.

Record topo (aggs : aggs_t) (by_sw : gmap Z Z) : Prop := {
  to_tree : tree_ok aggs;
  to_port : ∀ sw p, by_sw !! sw = Some p → exists a, aggs !! p = Some a /\
    ag_parent_index a = None /\ ag_sw_if_index a = sw;
  to_svlan : ∀ p port m t i, aggs !! p = Some port → ag_svlan_map port = Some m →
    m !! t = Some i → exists a, aggs !! i = Some a /\ ag_parent_index a = Some p /\
    ag_svlan_id a <= t <= ag_svlan_id_end a
}.

Definition topo_ok (cm : cake_main_t) : Prop :=
  topo (cm_aggregates cm) (cm_agg_index_by_sw_if_index cm).

Lemma topo_index cm : topo_ok cm → index_ok cm.
Proof.
  intros [T1 T2 T3]. split.
  - intros sw p Hp. destruct (T2 sw p Hp) as (a & -> & _). by eexists.
  - intros p port m t i Hp Hm Ht. destruct (T3 p port m t i Hp Hm Ht) as (a & -> & _).
    by eexists.
Qed.

(** Fields outside the bones do not matter. *)
Lemma topo_same aggs aggs' by_sw : same_bones aggs aggs' → topo aggs by_sw → topo aggs' by_sw.
Proof.
  intros Hb [T1 T2 T3]. constructor.
  - by eapply same_bones_tree.
  - intros sw p Hp. destruct (T2 sw p Hp) as (a & Ha & Hn & Hs).
    destruct (same_bones_before aggs' aggs p a) as (a' & Ha' & [= E1 E2 E3 E4 E5]); [done..|].
    exists a'. split; [done|]. split; congruence.
  - intros p port' m t i Hp Hm Ht.
    destruct (same_bones_before _ _ _ _ Hb Hp) as (port & Hp0 & [= E1 E2 E3 E4 E5]).
    destruct (T3 p port m t i Hp0 ltac:(congruence) Ht) as (a & Ha & Hpa & Hr).
    destruct (same_bones_before aggs' aggs i a) as (a' & Ha' & [= F1 F2 F3 F4 F5]); [done..|].
    exists a'. split; [done|]. split; [congruence|lia].
Qed.

(** Nothing points at aggregate [x]. *)
Definition unused (aggs : aggs_t) (by_sw : gmap Z Z) (x : Z) : Prop :=
  (∀ i a, aggs !! i = Some a → ag_parent_index a ≠ Some x) /\
  (∀ sw, by_sw !! sw ≠ Some x) /\
  (∀ p port m t, aggs !! p = Some port → ag_svlan_map port = Some m → m !! t ≠ Some x).

Lemma unused_same aggs aggs' by_sw x :
  same_bones aggs aggs' → unused aggs by_sw x → unused aggs' by_sw x.
Proof.
  intros Hb (U1 & U2 & U3). split; [|split; [done|]].
  - intros i a' Ha. destruct (same_bones_before _ _ _ _ Hb Ha) as (a & Ha0 & [= E1 _ _ _ _]).
    rewrite <- E1. by eapply U1.
  - intros p a' m t Ha Hm.
    destruct (same_bones_before _ _ _ _ Hb Ha) as (a & Ha0 & [= _ _ _ _ E5]).
    eapply U3; [exact Ha0|congruence].
Qed.

Lemma topo_delete aggs by_sw x : topo aggs by_sw → unused aggs by_sw x → topo (delete x aggs) by_sw.
Proof.
  intros [T1 T2 T3] (U1 & U2 & U3). constructor.
  - intros i a p Ha Hp. apply lookup_delete_Some in Ha as [_ Ha].
    destruct (T1 i a p Ha Hp) as (pa & Hpa & Hn). exists pa. split; [|done].
    apply lookup_delete_Some. split; [|done]. intros <-. by apply (U1 i a Ha).
  - intros sw p Hp. destruct (T2 sw p Hp) as (a & Ha & H1). exists a. split; [|done].
    apply lookup_delete_Some. split; [|done]. intros <-. by apply (U2 sw).
  - intros p port m t i Hp Hm Ht. apply lookup_delete_Some in Hp as [_ Hp].
    destruct (T3 p port m t i Hp Hm Ht) as (a & Ha & H1). exists a. split; [|done].
    apply lookup_delete_Some. split; [|done]. intros <-. by apply (U3 p port m t Hp Hm).
Qed.

(** A free slot filled by an aggregate whose parent is a root. *)
Lemma tree_insert aggs i agg :
  aggs !! i = None → tree_ok aggs →
  (∀ p, ag_parent_index agg = Some p → exists pa, aggs !! p = Some pa /\ ag_parent_index pa = None) →
  tree_ok (<[i := agg]> aggs).
Proof.
  intros Hi Ht Hp j a p Ha Hpar.
  assert (exists pa, aggs !! p = Some pa /\ ag_parent_index pa = None) as (pa & Hpa & Hn).
  { apply lookup_insert_Some in Ha as [[<- <-]|[_ Ha]]; [by apply Hp|by eapply Ht]. }
  exists pa. split; [|done]. by rewrite lookup_insert_ne by congruence.
Qed.

Lemma topo_insert aggs by_sw i agg :
  aggs !! i = None → topo aggs by_sw →
  (∀ p, ag_parent_index agg = Some p → exists pa, aggs !! p = Some pa /\ ag_parent_index pa = None) →
  (∀ m t, ag_svlan_map agg = Some m → m !! t = None) →
  topo (<[i := agg]> aggs) by_sw.
Proof.
  intros Hi [T1 T2 T3] Hp Hm. constructor; [by apply tree_insert| |].
  - intros sw p Hsw. destruct (T2 sw p Hsw) as (a & Ha & H1). exists a. split; [|done].
    by rewrite lookup_insert_ne by congruence.
  - intros p port m t j Hpo Hmap Ht. apply lookup_insert_Some in Hpo as [[<- <-]|[_ Hpo]].
    { by rewrite (Hm m t Hmap) in Ht. }
    destruct (T3 p port m t j Hpo Hmap Ht) as (a & Ha & H1). exists a. split; [|done].
    by rewrite lookup_insert_ne by congruence.
Qed.

Lemma topo_new_port aggs by_sw i sw agg :
  aggs !! i = None → topo aggs by_sw → ag_parent_index agg = None → ag_sw_if_index agg = sw →
  ag_svlan_map agg = Some ∅ → topo (<[i := agg]> aggs) (<[sw := i]> by_sw).
Proof.
  intros Hi Ht Hn Hs Hm.
  destruct (topo_insert aggs by_sw i agg Hi Ht) as [T1 T2 T3]; [congruence| |].
  { intros m t. rewrite Hm. intros [= <-]. apply lookup_empty. }
  constructor; [done| |done]. intros sw' p Hp.
  apply lookup_insert_Some in Hp as [[<- <-]|[_ Hp]]; [|by apply T2].
  exists agg. by rewrite lookup_insert_eq.
Qed.

(** A port whose S-VLAN map changes to one that names its children. *)
Lemma topo_remap aggs by_sw p port g :
  topo aggs by_sw → aggs !! p = Some port →
  (∀ m t i, ag_svlan_map port = Some m → g m !! t = Some i →
     exists a, aggs !! i = Some a /\ ag_parent_index a = Some p /\
       ag_svlan_id a <= t <= ag_svlan_id_end a) →
  topo (<[p := port⟪ag_svlan_map ::= fmap g⟫]> aggs) by_sw.
Proof.
  intros [T1 T2 T3] Hp Hg.
  assert (∀ i a, aggs !! i = Some a → exists a', <[p := port⟪ag_svlan_map ::= fmap g⟫]> aggs !! i
    = Some a' /\ ag_parent_index a' = ag_parent_index a /\ ag_sw_if_index a' = ag_sw_if_index a /\
    ag_svlan_id a' = ag_svlan_id a /\ ag_svlan_id_end a' = ag_svlan_id_end a) as Hl.
  { intros i a Ha. destruct (decide (i = p)) as [->|Hne].
    - rewrite lookup_insert_eq. rewrite Hp in Ha. injection Ha as <-. by eexists.
    - rewrite lookup_insert_ne by done. by exists a. }
  constructor.
  - apply (tree_ok_same aggs); [|done]. intros i. destruct (decide (i = p)) as [->|Hne].
    + by rewrite lookup_insert_eq, Hp.
    + by rewrite lookup_insert_ne by done.
  - intros sw q Hq. destruct (T2 sw q Hq) as (a & Ha & H1 & H2).
    destruct (Hl q a Ha) as (a' & Ha' & E1 & E2 & _). exists a'. split; [done|].
    split; congruence.
  - intros q qport m t i Hq Hm Ht.
    assert (exists a, aggs !! i = Some a /\ ag_parent_index a = Some q /\
      ag_svlan_id a <= t <= ag_svlan_id_end a) as (a & Ha & H1 & H2).
    { apply lookup_insert_Some in Hq as [[<- <-]|[_ Hq]]; [|by eapply T3].
      change (g <$> ag_svlan_map port = Some m) in Hm.
      destruct (ag_svlan_map port) as [m0|] eqn:E; [|done]. injection Hm as <-.
      by apply (Hg m0). }
    destruct (Hl i a Ha) as (a' & Ha' & E1 & _ & E3 & E4). exists a'. split; [done|].
    split; [congruence|lia].
Qed.

(** ** Tags of a range *)

Lemma map_tags_lookup l idx m t i :
  map_tags l idx m !! t = Some i → t ∈ l /\ i = idx \/ m !! t = Some i.
Proof.
  unfold map_tags. revert m. induction l as [|x l IH]; intros m; cbn [foldl]; [by right|].
  intros [[H1 H2]|H]%IH; [left; set_solver|].
  apply lookup_insert_Some in H as [[<- <-]|[_ H]]; [left; set_solver|by right].
Qed.

Lemma unmap_tags_lookup l idx m t i :
  unmap_tags l idx m !! t = Some i → m !! t = Some i /\ ~ (t ∈ l /\ i = idx).
Proof.
  unfold unmap_tags. revert m. induction l as [|x l IH]; intros m; cbn [foldl].
  - intros H. split; [done|]. intros [Hx _]. by apply not_elem_of_nil in Hx.
  - intros [H Hn]%IH. case_bool_decide as E.
    + apply lookup_delete_Some in H as [Hne H]. split; [done|]. set_solver.
    + split; [done|]. intros [Hx ->]. apply elem_of_cons in Hx as [->|Hx]; [done|tauto].
Qed.

Lemma svlan_range_elem a e t : t ∈ svlan_range a e <-> a <= t <= e.
Proof. unfold svlan_range. rewrite elem_of_seqZ. lia. Qed.

(** ** Reparenting returns and moves no aggregate *)

Lemma add_usage_fold_bones (c : list Z) d l aggs :
  same_bones aggs (foldl (λ aggs i, if cake_agg_chain_has c i then aggs
                                    else alter (add_usage d) i aggs) aggs l).
Proof.
  revert aggs. induction l as [|i l IH]; intros aggs; cbn [foldl]; [done|].
  etransitivity; [|apply IH]. destruct (cake_agg_chain_has c i); [done|].
  by apply same_bones_alter.
Qed.

Lemma reparent_one_total vn cm cs :
  vnet_ok vn → index_ok cm →
  exists aggs cs', reparent_one vn cm (cm_aggregates cm) cs = Some (aggs, cs') /\
    same_bones (cm_aggregates cm) aggs.
Proof.
  intros Hvn Hi. unfold reparent_one.
  replace (cm⟪cm_aggregates := cm_aggregates cm⟫) with cm by (by destruct cm).
  destruct (resolve_frame vn cm cs Hvn Hi) as (idx & -> & _). cbn [mbind option_bind].
  case_bool_decide; [by do 2 eexists|].
  set (aggs1 := if Drr.active _ then _ else _).
  assert (same_bones (cm_aggregates cm) aggs1) as H1.
  { subst aggs1. destruct (Drr.active _); [|done]. intros i.
    by rewrite weight_add_frame, weight_sub_frame. }
  destruct (_ =? 0); do 2 eexists; (split; [reflexivity|]); [done|].
  etransitivity; [exact H1|]. etransitivity; apply add_usage_fold_bones.
Qed.

(** A step of configuration that moves no aggregate. *)
Definition still (cm cm' : cake_main_t) : Prop :=
  same_bones (cm_aggregates cm) (cm_aggregates cm') /\
  cm_agg_index_by_sw_if_index cm' = cm_agg_index_by_sw_if_index cm.

Lemma still_refl cm : still cm cm.
Proof. by split. Qed.

Lemma still_trans cm1 cm2 cm3 : still cm1 cm2 → still cm2 cm3 → still cm1 cm3.
Proof. intros [A1 A2] [B1 B2]. split; [by etransitivity|congruence]. Qed.

Lemma still_topo cm cm' : still cm cm' → topo_ok cm → topo_ok cm'.
Proof. intros [A1 A2] Ht. unfold topo_ok. rewrite A2. by eapply topo_same. Qed.

Lemma reparent_turn_total vn cm s :
  vnet_ok vn → topo_ok cm → exists cm', reparent_turn vn cm s = Some cm' /\ still cm cm'.
Proof.
  intros Hvn Ht. unfold reparent_turn.
  destruct (cm_schedulers cm !! s) as [cs|]; [|by exists cm].
  destruct (reparent_one_total vn cm cs Hvn (topo_index _ Ht)) as (aggs & cs' & -> & Hb).
  by eexists.
Qed.

Lemma reparent_all_total vn cm :
  vnet_ok vn → topo_ok cm → exists cm', cake_agg_reparent_all vn cm = Some cm' /\ still cm cm'.
Proof.
  intros Hvn Ht. unfold cake_agg_reparent_all.
  apply (foldl_option_rel still); [apply still_refl|apply still_trans|].
  intros s cm1 _ H1. by apply reparent_turn_total, (still_topo cm).
Qed.

(** ** The calls *)

Lemma aggregate_create_topo vn cm i sw rate weight burst limit :
  vnet_ok vn → topo_ok cm → cm_aggregates cm !! i = None →
  exists cm' r, cake_aggregate_create vn cm i sw rate weight burst limit = Some (cm', r) /\
    topo_ok cm'.
Proof.
  intros Hvn Ht Hi. unfold cake_aggregate_create. destruct (negb _); [by do 2 eexists|].
  destruct (bad_weight _); [by do 2 eexists|]. destruct (bad_burst _); [by do 2 eexists|].
  destruct (cm_agg_index_by_sw_if_index cm !! sw) as [p|] eqn:Hp; [by do 2 eexists|].
  match goal with |- context [cake_agg_reparent_all vn ?c] => set (cm1 := c) end.
  assert (topo_ok cm1) as Ht1 by (by apply topo_new_port).
  destruct (reparent_all_total vn cm1 Hvn Ht1) as (cm2 & -> & Hs).
  do 2 eexists. split; [reflexivity|]. by eapply still_topo.
Qed.

Lemma aggregate_delete_topo vn cm sw :
  vnet_ok vn → topo_ok cm →
  exists cm' r, cake_aggregate_delete vn cm sw = Some (cm', r) /\ topo_ok cm'.
Proof.
  intros Hvn Ht. unfold cake_aggregate_delete.
  destruct (cm_agg_index_by_sw_if_index cm !! sw) as [p|] eqn:Hp; [|by do 2 eexists].
  destruct (has_child _ _ _) eqn:Hch; [by do 2 eexists|].
  set (cm1 := cm⟪cm_agg_index_by_sw_if_index ::= delete sw⟫).
  pose proof Ht as [T1 T2 T3].
  assert (topo_ok cm1) as Ht1.
  { constructor; [done| |done]. intros sw' q Hq.
    change (delete sw (cm_agg_index_by_sw_if_index cm) !! sw' = Some q) in Hq.
    apply lookup_delete_Some in Hq as [_ Hq]. by apply T2. }
  assert (unused (cm_aggregates cm1) (cm_agg_index_by_sw_if_index cm1) p) as Hun.
  { destruct (T2 sw p Hp) as (a & Ha & Hn & Hs). split; [|split].
    - intros i b Hb Hpb. unfold has_child in Hch.
      assert (existsb (λ '(_, child), bool_decide (ag_parent_index child = Some p) && true)
        (map_to_list (cm_aggregates cm)) = true) as E; [|congruence].
      apply existsb_exists. exists (i, b). split.
      + by apply list_elem_of_In, elem_of_map_to_list.
      + by rewrite bool_decide_eq_true_2.
    - intros sw' Hsw.
      change (delete sw (cm_agg_index_by_sw_if_index cm) !! sw' = Some p) in Hsw.
      apply lookup_delete_Some in Hsw as [Hne Hsw].
      destruct (T2 sw' p Hsw) as (a' & Ha' & _ & Hs'). congruence.
    - intros q port m t Hq Hm Hmt. destruct (T3 q port m t p Hq Hm Hmt) as (a' & Ha' & Hpa & _).
      congruence. }
  destruct (reparent_all_total vn cm1 Hvn Ht1) as (cm2 & -> & Hs).
  do 2 eexists. split; [reflexivity|]. destruct Hs as [S1 S2].
  apply (topo_delete (cm_aggregates cm2) (cm_agg_index_by_sw_if_index cm2));
    [by apply (still_topo cm1)|]. rewrite S2. by eapply unused_same.
Qed.

Lemma svlan_create_topo vn cm i sw first last rate weight burst limit :
  vnet_ok vn → topo_ok cm → cm_aggregates cm !! i = None →
  exists cm' r,
    cake_svlan_aggregate_create vn cm i sw first last rate weight burst limit = Some (cm', r) /\
    topo_ok cm'.
Proof.
  intros Hvn Ht Hi. unfold cake_svlan_aggregate_create. destruct (_ || _); [by do 2 eexists|].
  destruct (bad_weight _); [by do 2 eexists|]. destruct (bad_burst _); [by do 2 eexists|].
  destruct (cm_agg_index_by_sw_if_index cm !! sw) as [p|] eqn:Hp; cbn [mbind option_bind];
    [|by do 2 eexists].
  destruct (cm_aggregates cm !! p) as [port|] eqn:Hport; cbn [fmap option_fmap option_map];
    [|by do 2 eexists].
  destruct (_ <? rate); [by do 2 eexists|]. destruct (existsb _ _); [by do 2 eexists|].
  match goal with |- context [<[i := ?a]> (cm_aggregates cm)] => set (agg := a) end.
  match goal with |- context [cake_agg_reparent_all vn ?c] => set (cm1 := c) end.
  pose proof Ht as [T1 T2 T3]. destruct (T2 sw p Hp) as (port0 & E0 & Hn & _).
  assert (port0 = port) as -> by congruence.
  assert (topo (<[i := agg]> (cm_aggregates cm)) (cm_agg_index_by_sw_if_index cm)) as Ht0.
  { apply topo_insert; [done|done| |done]. intros q [= <-]. by exists port. }
  assert (topo_ok cm1) as Ht1.
  { apply topo_remap; [done|by rewrite lookup_insert_ne by congruence|].
    intros m t j Hm [[Hx ->]|Hj]%map_tags_lookup.
    - exists agg. rewrite lookup_insert_eq. split; [done|]. split; [done|].
      by apply svlan_range_elem in Hx.
    - eapply (to_svlan _ _ Ht0 p port m); [by rewrite lookup_insert_ne by congruence|done|done]. }
  destruct (reparent_all_total vn cm1 Hvn Ht1) as (cm2 & -> & Hs).
  do 2 eexists. split; [reflexivity|]. by eapply still_topo.
Qed.

Lemma svlan_delete_topo vn cm sw tag :
  vnet_ok vn → topo_ok cm →
  exists cm' r, cake_svlan_aggregate_delete vn cm sw tag = Some (cm', r) /\ topo_ok cm'.
Proof.
  intros Hvn Ht. unfold cake_svlan_aggregate_delete. destruct (_ <=? tag); [by do 2 eexists|].
  destruct (cm_agg_index_by_sw_if_index cm !! sw) as [p|] eqn:Hp; cbn [mbind option_bind];
    [|by do 2 eexists].
  destruct (cm_aggregates cm !! p) as [port|] eqn:Hport; cbn [fmap option_fmap option_map];
    [|by do 2 eexists].
  destruct (ag_svlan_map port) as [m|] eqn:Hm; cbn [mbind option_bind]; [|by do 2 eexists].
  destruct (m !! tag) as [x|] eqn:Hx; [|by do 2 eexists].
  destruct (cm_aggregates cm !! x) as [agg|] eqn:Hagg; [|by do 2 eexists].
  set (port' := port⟪ag_svlan_map ::= _⟫). set (cm1 := cm⟪cm_aggregates ::= insert p port'⟫).
  assert (cm_aggregates cm1 = <[p := port']> (cm_aggregates cm)) as Ea by done.
  pose proof Ht as [T1 T2 T3].
  destruct (T3 p port m tag x Hport Hm Hx) as (agg0 & E0 & Hpar & _).
  assert (agg0 = agg) as -> by congruence.
  assert (topo_ok cm1) as Ht1.
  { apply topo_remap; [done|done|]. intros m' t j Hm' [Hj _]%unmap_tags_lookup. by eapply T3. }
  assert (unused (cm_aggregates cm1) (cm_agg_index_by_sw_if_index cm1) x) as Hun.
  { assert (∀ q qport m' t, cm_aggregates cm !! q = Some qport → ag_svlan_map qport = Some m' →
      m' !! t = Some x → q = p /\ ag_svlan_id agg <= t <= ag_svlan_id_end agg) as Hin.
    { intros q qport m' t Hq Hm' Ht'. destruct (T3 q qport m' t x Hq Hm' Ht') as (a & Ha & H1 & H2).
      assert (a = agg) as -> by congruence. split; [congruence|done]. }
    split; [|split].
    - intros i a Ha Hpa. destruct (to_tree _ _ Ht1 i a x Ha Hpa) as (pa & Hpx & Hn).
      rewrite Ea in Hpx. apply lookup_insert_Some in Hpx as [[-> <-]|[_ Hpx]]; [|congruence].
      assert (port = agg) as -> by congruence.
      change (ag_parent_index agg = None) in Hn. congruence.
    - intros sw' Hsw. destruct (T2 sw' x Hsw) as (a & Ha & Hn & _). congruence.
    - intros q qport m' t Hq Hm' Hmt. rewrite Ea in Hq.
      apply lookup_insert_Some in Hq as [[<- <-]|[Hne Hq]].
      + change (unmap_tags (svlan_range (ag_svlan_id agg) (ag_svlan_id_end agg)) x
          <$> ag_svlan_map port = Some m') in Hm'.
        rewrite Hm in Hm'. injection Hm' as <-.
        apply unmap_tags_lookup in Hmt as [Hmt Hno]. apply Hno.
        destruct (Hin p port m t Hport Hm Hmt) as [_ Hr]. split; [|done].
        by apply svlan_range_elem.
      + destruct (Hin q qport m' t Hq Hm' Hmt) as [-> _]. done. }
  destruct (reparent_all_total vn cm1 Hvn Ht1) as (cm2 & -> & Hs).
  do 2 eexists. split; [reflexivity|]. destruct Hs as [S1 S2].
  apply (topo_delete (cm_aggregates cm2) (cm_agg_index_by_sw_if_index cm2));
    [by apply (still_topo cm1)|]. rewrite S2. by eapply unused_same.
Qed.

Lemma apply_update_bones rate weight burst limit a :
  bones (apply_update rate weight burst limit a) = bones a.
Proof. unfold apply_update. by repeat case_match. Qed.

Lemma aggregate_update_still cm sw lv tag rate weight burst limit :
  still cm (cake_aggregate_update cm sw lv tag rate weight burst limit).1.
Proof.
  unfold cake_aggregate_update. destruct (bad_weight _); [done|]. destruct (_ && _); [done|].
  destruct (_ && _); [done|]. destruct (cm_agg_index_by_sw_if_index cm !! sw) as [p|]; [|done].
  match goal with |- context [?o ≫= _] => destruct o as [x|] end; [|done]. cbn [mbind option_bind].
  destruct (cm_aggregates cm !! x) as [agg|] eqn:Ha; [|done]. cbn [fmap option_fmap option_map].
  destruct (_ && _); [done|]. split; [|done].
  pose proof (apply_update_bones rate weight burst limit agg) as Hb.
  set (agg' := apply_update _ _ _ _ _) in *. cbv zeta.
  assert (same_bones (cm_aggregates cm) (<[x := agg']> (cm_aggregates cm))) as H1
    by (by eapply same_bones_insert).
  destruct (ag_parent_index agg') as [q|]; [|exact H1]. destruct (_ && _); [|exact H1].
  etransitivity; [exact H1|]. by apply same_bones_alter.
Qed.
