(* ===== verification/CakeEnqueue.v ===== *)
(** The enqueue node: [cake_enqueue.c], with the handoff node of
    [cake_handoff.c].

    A scheduler owns its tins and a tin its flows, so the packet step takes the
    scheduler and the store of aggregates apart and puts the tin back when it is
    done.  Tracing and prefetching are not modelled. *)

From S2P Require Import Prelude Dll Drr Shaper CakeTypes Cobalt CakeFlow CakeHier.

(** ** Flow and host updates in a tin *)

Definition upd_flow (idx : Z) (g : cake_flow_t → cake_flow_t) (tin : cake_tin_t) : cake_tin_t :=
  tin⟪tn_flows ::= alter g idx⟫.

(** [hosts[idx].bulk_flow_count--], guarded as every caller guards it. *)
Definition host_bulk_dec (idx : Z) (tin : cake_tin_t) : cake_tin_t :=
  if (idx <? CAKE_HOSTS) && (0 <? ho_bulk_flow_count (host_at tin idx))
  then set_host idx ((host_at tin idx)⟪ho_bulk_flow_count ::= λ n, u16 (n - 1)⟫) tin
  else tin.
Definition host_bulk_inc (idx : Z) (tin : cake_tin_t) : cake_tin_t :=
  if idx <? CAKE_HOSTS
  then set_host idx ((host_at tin idx)⟪ho_bulk_flow_count ::= λ n, u16 (n + 1)⟫) tin
  else tin.

Definition dec32 (n : Z) : Z := u32 (n - 1).
Definition inc32 (n : Z) : Z := u32 (n + 1).

(** ** Eviction *)

(** Taking a flow off the list its state puts it on, with its counts. *)
Definition unlist_flow (slot : Z) (ef : cake_flow_t) (tin : cake_tin_t) : cake_tin_t :=
  let tin :=
    match fl_flow_state ef with
    | CAKE_FLOW_SPARSE => (new_remove slot tin)⟪tn_sparse_flow_count ::= dec32⟫
    | CAKE_FLOW_BULK =>
        host_bulk_dec (fl_dst_host_idx ef) ((old_remove slot tin)⟪tn_bulk_flow_count ::= dec32⟫)
    | CAKE_FLOW_DECAYING => decaying_remove slot tin
    | CAKE_FLOW_NONE => tin
    end in
  if bool_decide (fl_flow_state ef = CAKE_FLOW_NONE) then tin
  else tin⟪tn_flow_count ::= dec32⟫.

Definition cake_flow_evict (aggs : aggs_t) (cs : cake_sched_t) (tin : cake_tin_t) (slot : Z)
    : option (aggs_t * cake_sched_t * cake_tin_t * list Z) :=
  '(aggs, cs, tin, ef, freed) ← cake_flow_discard aggs cs tin (flow_at tin slot);
  let tin := unlist_flow slot ef (set_flow slot ef tin) in
  Some (aggs, cs, set_flow slot flow_zero tin, freed).

(** ** One packet on its owner thread *)

Inductive enq_outcome :=
  | ENQ_QUEUED
  | ENQ_DROPPED             (* buffer limit, or ring full *)
  | ENQ_BACKPRESSURE.       (* refused by an aggregate *)

#[export] Instance enq_outcome_eq_dec : EqDecision enq_outcome.
Proof. solve_decision. Defined.

Record enq_result := mkEnq {
  eq_aggs : aggs_t;
  eq_cs : cake_sched_t;
  eq_buf : vlib_buffer_t;
  eq_freed : list Z;
  eq_evicted : bool;
  eq_outcome : enq_outcome
}.

Section Enqueue.

Context `{Vpp}.

(** The slot for a tag: found, taken over, or evicted for. *)
Definition claim_slot (aggs : aggs_t) (cs : cake_sched_t) (tin : cake_tin_t) (tag : Z)
    : option (aggs_t * cake_sched_t * cake_tin_t * Z * list Z * bool) :=
  let set_base := set_base_of tag in
  let '(tin, found, evict_slot) := cake_flow_lookup tin tag set_base in
  match found with
  | Some flow_idx => Some (aggs, cs, tin, flow_idx, [], false)
  | None =>
      (* [~0] would index out of the table; the lookup names a victim *)
      let slot := default NONE evict_slot in
      '(aggs, cs, tin, freed) ← cake_flow_evict aggs cs tin slot;
      Some (aggs, cs, tin⟪tn_flow_tags ::= insert slot tag⟫, slot, freed, true)
  end.

(** The drop paths: the flow's AQM is told, the packet is counted. *)
Definition drop_at_enqueue (flow_idx now_us : Z) (cs : cake_sched_t) (tin : cake_tin_t)
    : cake_sched_t * cake_tin_t :=
  (cs⟪cs_dropped_pkts ::= add64 1⟫,
   (upd_flow flow_idx (λ f, cobalt_queue_full f (cs_target_us cs) (cs_p_inc cs) now_us) tin)
     ⟪tn_drops ::= add64 1⟫).

(** A flow in state NONE becomes a sparse flow at the head of the new list. *)
Definition open_flow (flow_idx set_base dst_hash : Z) (tin : cake_tin_t) : cake_tin_t :=
  if bool_decide (fl_flow_state (flow_at tin flow_idx) = CAKE_FLOW_NONE) then
    let tin := upd_flow flow_idx (λ f,
        (cake_flow_ring_alloc f)⟪fl_flow_state := CAKE_FLOW_SPARSE⟫
          ⟪fl_set_index := u8 (set_base / CAKE_SET_WAYS)⟫) tin in
    let '(tin, host) := cake_host_lookup tin dst_hash in
    let tin := upd_flow flow_idx (λ f, f⟪fl_dst_host_idx := host⟫) tin in
    let q := cake_quantum_for_flow tin (flow_at tin flow_idx) in
    let tin := upd_flow flow_idx (λ f, f⟪fl_deficit := i32 q⟫) tin in
    (new_prepend flow_idx tin)⟪tn_flow_count ::= inc32⟫⟪tn_sparse_flow_count ::= inc32⟫
  else tin.

(** The packet goes into the ring, and every counter of it. *)
Definition store_packet (flow_idx bi pkt_len : Z) (cs : cake_sched_t) (tin : cake_tin_t)
    : cake_sched_t * cake_tin_t :=
  (cs⟪cs_buffer_usage ::= λ u, u32 (u + pkt_len)⟫⟪cs_queued_buffers ::= inc32⟫
     ⟪cs_enqueued_pkts ::= add64 1⟫⟪cs_enqueued_bytes ::= add64 pkt_len⟫,
   (upd_flow flow_idx (λ f, (ring_push f bi)⟪fl_backlog_bytes ::= λ u, u32 (u + pkt_len)⟫) tin)
     ⟪tn_packets ::= add64 1⟫⟪tn_bytes ::= add64 pkt_len⟫).

(** A sparse flow with a second packet, or a decaying flow with a first one,
    becomes bulk. *)
Definition promote_flow (flow_idx : Z) (tin : cake_tin_t) : cake_tin_t :=
  let flow := flow_at tin flow_idx in
  let bulk tin := upd_flow flow_idx (λ f, f⟪fl_flow_state := CAKE_FLOW_BULK⟫) tin in
  match fl_flow_state flow with
  | CAKE_FLOW_SPARSE =>
      if 1 <? cake_flow_queue_len flow then
        host_bulk_inc (fl_dst_host_idx flow)
          ((old_append flow_idx (new_remove flow_idx (bulk tin)))
             ⟪tn_sparse_flow_count ::= dec32⟫⟪tn_bulk_flow_count ::= inc32⟫)
      else tin
  | CAKE_FLOW_DECAYING =>
      host_bulk_inc (fl_dst_host_idx flow)
        ((old_append flow_idx (decaying_remove flow_idx (bulk tin)))
           ⟪tn_bulk_flow_count ::= inc32⟫)
  | _ => tin
  end.

(** From [enqueue_local] to the end of the turn. *)
Definition enqueue_local (is_ip4 : bool) (thread now_us : Z) (aggs : aggs_t)
    (cs : cake_sched_t) (bi : Z) (b : vlib_buffer_t) : option enq_result :=
  let dscp := cake_dscp_from_buffer b is_ip4 in
  let tin_idx := nth (Z.to_nat dscp) (cs_dscp_to_tin cs) 0 in
  let tin_idx := Z.to_nat (if cs_n_tins cs <=? tin_idx then 0 else tin_idx) in
  let tin := nth tin_idx (cs_tins cs) (cake_tin_init 0) in
  let put tin cs := cs⟪cs_tins ::= <[tin_idx := tin]>⟫ in
  let pkt_len := bf_length_in_chain b in
  let tag := cake_hash_flow b is_ip4 in
  '(aggs, cs, tin, flow_idx, freed, evicted) ← claim_slot aggs cs tin tag;
  if cs_buffer_limit cs <? u32 (cs_buffer_usage cs + pkt_len) then
    let '(cs, tin) := drop_at_enqueue flow_idx now_us cs tin in
    Some (mkEnq aggs (put tin cs) b (freed ++ [bi]) evicted ENQ_DROPPED)
  else
    let '(aggs, admitted) := cake_agg_admit_chain aggs cs pkt_len thread in
    if negb admitted then
      let '(cs, tin) := drop_at_enqueue flow_idx now_us cs tin in
      Some (mkEnq aggs (put tin cs) b (freed ++ [bi]) evicted ENQ_BACKPRESSURE)
    else
      let tin := open_flow flow_idx (set_base_of tag) (cake_dst_host_hash b is_ip4) tin in
      if CAKE_FLOW_RING_SIZE <=? cake_flow_queue_len (flow_at tin flow_idx) then
        aggs ← cake_agg_discharge aggs cs pkt_len;
        let '(cs, tin) := drop_at_enqueue flow_idx now_us cs tin in
        Some (mkEnq aggs (put tin cs) b (freed ++ [bi]) evicted ENQ_DROPPED)
      else
        let b := b⟪bf_enqueue_time := now_us⟫ in
        let '(cs, tin) := store_packet flow_idx bi pkt_len cs tin in
        let tin := promote_flow flow_idx tin in
        let '(aggs, cs) := cake_sched_drr_activate aggs (put tin cs) in
        Some (mkEnq aggs cs b freed evicted ENQ_QUEUED).

(** ** The node *)

(** What a dispatch of the node changes and hands on. *)
Record enq_frame := mkEnqFrame {
  ef_cm : cake_main_t;
  ef_bufs : gmap Z vlib_buffer_t;
  ef_pass : list Z;           (* to the next feature *)
  ef_handoff : list Z;        (* to the handoff node *)
  ef_freed : list Z;
  ef_n_enqueued : Z;
  ef_n_dropped : Z;
  ef_n_backpressure : Z;
  ef_n_evicted : Z
}.
#[export] Instance eta_enq_frame : Eta enq_frame := λ s,
  mkEnqFrame (ef_cm s) (ef_bufs s) (ef_pass s) (ef_handoff s) (ef_freed s)
    (ef_n_enqueued s) (ef_n_dropped s) (ef_n_backpressure s) (ef_n_evicted s).

Definition put_sched (si : Z) (cs : cake_sched_t) (aggs : aggs_t) (cm : cake_main_t)
    : cake_main_t := cm⟪cm_aggregates := aggs⟫⟪cm_schedulers ::= insert si cs⟫.

(** The owner check: the scheduler to run on, owned by this thread, or [None]
    when another thread owns it. *)
Definition claim_owner (thread : Z) (cm : cake_main_t) (cs : cake_sched_t)
    : option (cake_main_t * cake_sched_t) :=
  match cs_owner_thread cs with
  | Some t => if t =? thread then Some (cm, cs) else None
  | None => Some (cm⟪cm_polling ::= union {[thread]}⟫, cs⟪cs_owner_thread := Some thread⟫)
  end.

Definition enqueue_one (is_ip4 : bool) (thread now_us : Z) (s : enq_frame) (bi : Z) : option enq_frame :=
  match ef_bufs s !! bi with
  | None => Some s
  | Some b =>
      if bf_scheduled b then
        Some (s⟪ef_bufs ::= insert bi (b⟪bf_scheduled := false⟫)⟫⟪ef_pass ::= λ l, l ++ [bi]⟫)
      else
        match cm_sched_index_by_sw_if_index (ef_cm s) !! bf_sw_if_index_tx b
                ≫= λ si, (λ cs, (si, cs)) <$> cm_schedulers (ef_cm s) !! si with
        | None => Some (s⟪ef_pass ::= λ l, l ++ [bi]⟫)
        | Some (si, cs) =>
            match claim_owner thread (ef_cm s) cs with
            | None => Some (s⟪ef_handoff ::= λ l, l ++ [bi]⟫)
            | Some (cm, cs) =>
                r ← enqueue_local is_ip4 thread now_us (cm_aggregates cm) cs bi b;
                let cm := put_sched si (eq_cs r) (eq_aggs r) cm in
                let cm :=
                  if bool_decide (eq_outcome r = ENQ_QUEUED)
                  then cm⟪cm_per_thread ::= alter (λ pt,
                            pt⟪pt_active_bitmap ::= union {[cs_sched_index (eq_cs r)]}⟫)
                            (Z.to_nat thread)⟫
                  else cm in
                Some (s⟪ef_cm := cm⟫⟪ef_bufs ::= insert bi (eq_buf r)⟫
                 ⟪ef_freed ::= λ l, l ++ eq_freed r⟫
                 ⟪ef_n_enqueued ::= λ n, if bool_decide (eq_outcome r = ENQ_QUEUED) then n + 1 else n⟫
                 ⟪ef_n_dropped ::= λ n, if bool_decide (eq_outcome r = ENQ_QUEUED) then n else n + 1⟫
                 ⟪ef_n_backpressure ::= λ n, if bool_decide (eq_outcome r = ENQ_BACKPRESSURE) then n + 1 else n⟫
                 ⟪ef_n_evicted ::= λ n, if eq_evicted r then n + 1 else n⟫)
            end
        end
  end.

Definition cake_enqueue_inline (is_ip4 : bool) (thread now_us : Z) (cm : cake_main_t)
    (bufs : gmap Z vlib_buffer_t) (from : list Z) : option enq_frame :=
  foldl_option (enqueue_one is_ip4 thread now_us) (mkEnqFrame cm bufs [] [] [] 0 0 0 0) from.

(** ** Handoff: the thread each buffer is sent to *)

Definition cake_handoff_inline (thread : Z) (cm : cake_main_t) (bufs : gmap Z vlib_buffer_t)
    (from : list Z) : list Z :=
  map (λ bi,
      match bufs !! bi ≫= λ b, cm_sched_index_by_sw_if_index cm !! bf_sw_if_index_tx b with
      | Some si =>
          match cm_schedulers cm !! si with
          | Some cs => u16 (default NONE (cs_owner_thread cs))
          | None => thread
          end
      | None => thread
      end) from.

End Enqueue.
