(* ===== verification/CakeDequeue.v ===== *)
(** The dequeue node: [cake_dequeue.c].

    One dispatch walks the active schedulers of a thread; within a scheduler it
    serves the highest non-empty tin, sparse flows first, then bulk flows by
    deficit round robin, until the budget, the shaper or the parent chain stops
    it.  The two loops take fuel and answer [None] when it runs out, as every loop below
    them does. *)

From S2P Require Import Prelude Dll Drr Shaper CakeTypes Cobalt CakeFlow CakeHier CakeEnqueue.

Inductive cake_deq_result_t :=
  | CAKE_DEQ_EMPTY
  | CAKE_DEQ_SENT
  | CAKE_DEQ_DROPPED
  | CAKE_DEQ_GATE_CLOSED
  | CAKE_DEQ_DRR_BLOCKED.

#[export] Instance cake_deq_result_eq_dec : EqDecision cake_deq_result_t.
Proof. solve_decision. Defined.

Inductive cake_dequeue_next_t :=
  | CAKE_DEQUEUE_NEXT_REINJECT_IP4
  | CAKE_DEQUEUE_NEXT_REINJECT_IP6.

(** What a dispatch carries while it serves one scheduler. *)
Record deq := mkDeq {
  dq_aggs : aggs_t;
  dq_cs : cake_sched_t;
  dq_bufs : gmap Z vlib_buffer_t;
  dq_seed : Z;
  dq_budget : Z;
  dq_out : list (Z * cake_dequeue_next_t);   (* out_bi, out_nexts *)
  dq_freed : list Z;
  dq_n_aqm_drops : Z;
  dq_n_ecn_marks : Z;
  dq_n_drr_blocked : Z;
  dq_n_parent_blocked : Z
}.
#[export] Instance eta_deq : Eta deq := λ d,
  mkDeq (dq_aggs d) (dq_cs d) (dq_bufs d) (dq_seed d) (dq_budget d) (dq_out d) (dq_freed d)
    (dq_n_aqm_drops d) (dq_n_ecn_marks d) (dq_n_drr_blocked d) (dq_n_parent_blocked d).

Definition tin_of (t : nat) (d : deq) : cake_tin_t := nth t (cs_tins (dq_cs d)) (cake_tin_init 0).
Definition on_tin (t : nat) (g : cake_tin_t → cake_tin_t) (d : deq) : deq :=
  d⟪dq_cs ::= λ cs, cs⟪cs_tins ::= alter g t⟫⟫.
Definition flow_of (t : nat) (idx : Z) (d : deq) : cake_flow_t := flow_at (tin_of t d) idx.
Definition on_flow (t : nat) (idx : Z) (g : cake_flow_t → cake_flow_t) : deq → deq :=
  on_tin t (upd_flow idx g).

(** ** Reclaiming a flow *)

(** [list_remove] is the list the caller names. *)
Definition cake_flow_reclaim (list_remove : Z → cake_tin_t → cake_tin_t) (cs : cake_sched_t)
    (flow_idx now_us : Z) (tin : cake_tin_t) : option (cake_tin_t * list Z) :=
  let tin := upd_flow flow_idx (λ f, cobalt_queue_empty f (cs_target_us cs) (cs_p_dec cs)
                                       (cs_interval_us cs) now_us) tin in
  let tin := list_remove flow_idx tin in
  '(f, freed) ← cake_flow_ring_free (flow_at tin flow_idx);
  let tin :=
    match fl_flow_state f with
    | CAKE_FLOW_SPARSE => tin⟪tn_sparse_flow_count ::= dec32⟫
    | CAKE_FLOW_BULK => host_bulk_dec (fl_dst_host_idx f) (tin⟪tn_bulk_flow_count ::= dec32⟫)
    | _ => tin
    end in
  Some ((set_flow flow_idx flow_zero (tin⟪tn_flow_tags ::= insert flow_idx 0⟫))
     ⟪tn_flow_count ::= dec32⟫, freed).

Definition reclaim_in (list_remove : Z → cake_tin_t → cake_tin_t) (t : nat)
    (flow_idx now_us : Z) (d : deq) : option deq :=
  '(tin, freed) ← cake_flow_reclaim list_remove (dq_cs d) flow_idx now_us (tin_of t d);
  Some ((on_tin t (λ _, tin) d)⟪dq_freed ::= λ l, l ++ freed⟫).

Section Dequeue.

Context `{Vpp}.

(** ** One packet *)

Definition ecn_capable_of (b : vlib_buffer_t) : bool :=
  let ip := cake_l3_header b in
  if Z.shiftr (bf_data b ip) 4 =? 4
  then negb (Z.land (bf_data b (ip + 1)) IP_PACKET_TC_FIELD_ECN_MASK =? IP_ECN_NON_ECN)
  else negb (Z.land (Z.shiftr (clib_net_to_host_u32 (ld32 (bf_data b) ip)) 20) 3 =? 0).

(** The packet leaves the flow's and the scheduler's occupancy. *)
Definition uncharge (t : nat) (flow_idx pkt_len : Z) (d : deq) : option deq :=
  aggs ← cake_agg_discharge (dq_aggs d) (dq_cs d) pkt_len;
  Some ((on_flow t flow_idx (λ f, f⟪fl_backlog_bytes ::= λ u, u32 (u - pkt_len)⟫) d)
    ⟪dq_cs ::= λ cs, cs⟪cs_buffer_usage ::= λ u, u32 (u - pkt_len)⟫⟪cs_queued_buffers ::= dec32⟫⟫
    ⟪dq_aggs := aggs⟫).

(** Charging the scheduler's own shaper for a send. *)
Definition charge_shaper (adj_len now_ns : Z) (cs : cake_sched_t) : cake_sched_t :=
  let t := u64 (cs_global_shaper_time_ns cs +
                Shaper.cake_cost_ns adj_len (cs_rate_ns_per_byte_scaled cs)) in
  let max_shaper := u64 (now_ns + 150000000) in
  cs⟪cs_global_shaper_time_ns := if max_shaper <? t then max_shaper else t⟫.

(** After the gates: the packet is sent. *)
Definition send_packet (t : nat) (flow_idx bi pkt_len adj_len now_ns : Z)
    (drr : Drr.cake_drr_admit_t) (b : vlib_buffer_t) (d : deq) : option deq :=
  let d := d⟪dq_cs ::= charge_shaper adj_len now_ns⟫ in
  d ← uncharge t flow_idx pkt_len d;
  let d := on_flow t flow_idx (λ f, f⟪fl_deficit ::= λ x, i32 (x - i32 adj_len)⟫) d in
  let d := d⟪dq_cs ::= λ cs, cs⟪cs_dequeued_pkts ::= add64 1⟫⟪cs_dequeued_bytes ::= add64 pkt_len⟫⟫ in
  let d := if bool_decide (drr = Drr.CAKE_DRR_ADMIT)
           then d⟪dq_cs ::= λ cs, cs⟪cs_drr ::= λ c, Drr.cake_drr_local_charge c adj_len⟫⟫ else d in
  let is_v4 := Z.shiftr (bf_data b (cake_l3_header b)) 4 =? 4 in
  Some (d⟪dq_bufs ::= insert bi (b⟪bf_scheduled := true⟫)⟫
         ⟪dq_out ::= λ l, l ++ [(bi, if is_v4 then CAKE_DEQUEUE_NEXT_REINJECT_IP4
                                     else CAKE_DEQUEUE_NEXT_REINJECT_IP6)]⟫).

(** The parent chain after the queue management decided to send. *)
Definition gate_and_send (t : nat) (flow_idx thread now_ns bi pkt_len adj_len : Z)
    (drr : Drr.cake_drr_admit_t) (b : vlib_buffer_t) (d : deq) : option (deq * cake_deq_result_t) :=
  let '(aggs, pr) := cake_agg_dequeue_gate (dq_aggs d) (dq_cs d) adj_len now_ns thread in
  let d := d⟪dq_aggs := aggs⟫ in
  match pr with
  | CAKE_PARENT_OK =>
      d ← send_packet t flow_idx bi pkt_len adj_len now_ns drr b d;
      Some (d, CAKE_DEQ_SENT)
  | CAKE_PARENT_DRR_BLOCKED =>
      Some ((on_flow t flow_idx (λ f, f⟪fl_head ::= dec32⟫) d)
         ⟪dq_cs ::= λ cs, cs⟪cs_drr_blocked ::= add64 1⟫⟫, CAKE_DEQ_DRR_BLOCKED)
  | CAKE_PARENT_GATE_CLOSED =>
      Some ((on_flow t flow_idx (λ f, f⟪fl_head ::= dec32⟫) d)
         ⟪dq_cs ::= λ cs, cs⟪cs_parent_blocked ::= add64 1⟫⟫, CAKE_DEQ_GATE_CLOSED)
  end.

Definition cake_dequeue_one (t : nat) (flow_idx thread now_us now_ns : Z) (d : deq)
    : option (deq * cake_deq_result_t) :=
  let flow := flow_of t flow_idx d in
  if cake_flow_queue_len flow =? 0 then Some (d, CAKE_DEQ_EMPTY)
  else
    let bi := ring_at flow (fl_head flow) in
    match dq_bufs d !! bi with
    | None => None   (* not a buffer *)
    | Some b =>
        let pkt_len := bf_length_in_chain b in
        let adj_len := cake_overhead_adjust (dq_cs d) pkt_len in
        let '(cs, drr) := cake_sched_drr_admit (dq_aggs d) (dq_cs d) now_ns in
        let d := d⟪dq_cs := cs⟫ in
        if bool_decide (drr = Drr.CAKE_DRR_BLOCKED) then
          Some (d⟪dq_cs ::= λ cs, cs⟪cs_drr_blocked ::= add64 1⟫⟫, CAKE_DEQ_DRR_BLOCKED)
        else
          let d := on_flow t flow_idx (λ f, f⟪fl_head ::= inc32⟫) d in
          let sojourn_us := u32 (now_us - bf_enqueue_time b) in
          let bulk := tn_bulk_flow_count (tin_of t d) in
          r ← cobalt_should_drop random_u32 (flow_of t flow_idx d) (dq_cs d) sojourn_us now_us
                (if 0 <? bulk then bulk else 1) (ecn_capable_of b) (dq_seed d);
          let d := (on_flow t flow_idx (λ _, dr_flow r) d)⟪dq_seed := dr_seed r⟫ in
          if dr_drop r then
            d ← uncharge t flow_idx pkt_len d;
            let d := on_tin t (λ tin, tin⟪tn_drops ::= add64 1⟫) d in
            Some (d⟪dq_cs ::= λ cs, cs⟪cs_dropped_pkts ::= add64 1⟫⟫
                   ⟪dq_n_aqm_drops ::= λ n, n + 1⟫⟪dq_freed ::= λ l, l ++ [bi]⟫, CAKE_DEQ_DROPPED)
          else
            let '(b, d) :=
              if dr_ecn_marked r then
                let b := fst (cake_ecn_mark b) in
                (b, (on_tin t (λ tin, tin⟪tn_ecn_marks ::= add64 1⟫) d)
                      ⟪dq_n_ecn_marks ::= λ n, n + 1⟫⟪dq_bufs ::= insert bi b⟫)
              else (b, d) in
            gate_and_send t flow_idx thread now_ns bi pkt_len adj_len drr b d
    end.

(** ** One turn of the scheduler's loop *)

Inductive turn :=
  | Continue
  | Break (deactivate : bool).

Definition tin_active (tin : cake_tin_t) : bool :=
  (0 <? u32 (tn_sparse_flow_count tin + tn_bulk_flow_count tin)) ||
  bool_decide (tn_decaying_flow_head tin ≠ None).

(** The highest tin with a flow: the loop from [n_tins - 1] down. *)
Fixpoint pick_tin (n : nat) (tins : list cake_tin_t) : option nat :=
  match n with
  | O => None
  | S t => if tin_active (nth t tins (cake_tin_init 0)) then Some t else pick_tin t tins
  end.

(** A send is counted; the out-parameters were written. *)
Definition count_sent (r : cake_deq_result_t) (d : deq) : deq :=
  if bool_decide (r = CAKE_DEQ_SENT) then d⟪dq_budget ::= λ n, n - 1⟫ else d.

(** A closed gate or spent share ends the dispatch's visit. *)
Definition count_blocked (r : cake_deq_result_t) (d : deq) : deq :=
  match r with
  | CAKE_DEQ_GATE_CLOSED => d⟪dq_n_parent_blocked ::= λ n, n + 1⟫
  | CAKE_DEQ_DRR_BLOCKED => d⟪dq_n_drr_blocked ::= λ n, n + 1⟫
  | _ => d
  end.
Definition blocked (r : cake_deq_result_t) : bool :=
  match r with CAKE_DEQ_GATE_CLOSED | CAKE_DEQ_DRR_BLOCKED => true | _ => false end.

Definition shaper_closed (now_ns : Z) (d : deq) : bool :=
  now_ns <? cs_global_shaper_time_ns (dq_cs d).

Definition serve_sparse (t : nat) (flow_idx thread now_us now_ns : Z) (d : deq) : option (deq * turn) :=
  if cake_flow_queue_len (flow_of t flow_idx d) =? 0
  then d ← reclaim_in new_remove t flow_idx now_us d; Some (d, Continue)
  else
    '(d, r) ← cake_dequeue_one t flow_idx thread now_us now_ns d;
    let d := count_sent r d in
    d ← (if cake_flow_queue_len (flow_of t flow_idx d) =? 0
         then reclaim_in new_remove t flow_idx now_us d else Some d);
    let d := count_blocked r d in
    if blocked r then Some (d, Break false)
    else if shaper_closed now_ns d then Some (d, Break false)
    else Some (d, Continue).

(** An empty flow steps down: bulk to decaying, decaying to reclaimed. *)
Definition step_down (t : nat) (flow_idx now_us : Z) (d : deq) : option deq :=
  match fl_flow_state (flow_of t flow_idx d) with
  | CAKE_FLOW_BULK =>
      Some (on_tin t (λ tin,
        let tin := host_bulk_dec (fl_dst_host_idx (flow_at tin flow_idx)) tin in
        let tin := upd_flow flow_idx (λ f, f⟪fl_flow_state := CAKE_FLOW_DECAYING⟫) tin in
        (decaying_append flow_idx (old_remove flow_idx tin))⟪tn_bulk_flow_count ::= dec32⟫) d)
  | CAKE_FLOW_DECAYING => reclaim_in decaying_remove t flow_idx now_us d
  | _ => Some d
  end.

(** The loop that spends a flow's deficit; the flag is [goto shaper_exhausted]. *)
Fixpoint spend_deficit (fuel : nat) (t : nat) (flow_idx thread now_us now_ns : Z) (d : deq)
    : option (deq * bool) :=
  if (0 <? fl_deficit (flow_of t flow_idx d)) && (0 <? dq_budget d) then
    match fuel with
    | O => None
    | S fuel =>
        if cake_flow_queue_len (flow_of t flow_idx d) =? 0
        then d ← step_down t flow_idx now_us d; Some (d, false)
        else
          '(d, r) ← cake_dequeue_one t flow_idx thread now_us now_ns d;
          let d := count_blocked r (count_sent r d) in
          if blocked r then Some (d, true)
          else if shaper_closed now_ns d then Some (d, true)
          else spend_deficit fuel t flow_idx thread now_us now_ns d
    end
  else Some (d, false).

(** A bulk flow that overspent with packets left goes to the tail. *)
Definition rotate_flow (t : nat) (flow_idx : Z) (d : deq) : deq :=
  let flow := flow_of t flow_idx d in
  if (fl_deficit flow <=? 0) && bool_decide (fl_flow_state flow = CAKE_FLOW_BULK) &&
     (0 <? cake_flow_queue_len flow)
  then on_flow t flow_idx (λ f, f⟪fl_deficit := 0⟫)
         (on_tin t (λ tin, old_append flow_idx (old_remove flow_idx tin)) d)
  else d.

Definition serve_bulk (fuel : nat) (t : nat) (flow_idx thread now_us now_ns : Z) (d : deq)
    : option (deq * turn) :=
  let d :=
    if fl_deficit (flow_of t flow_idx d) <=? 0
    then on_tin t (λ tin,
           let q := cake_quantum_for_flow tin (flow_at tin flow_idx) in
           upd_flow flow_idx (λ f, f⟪fl_deficit ::= λ x, i32 (x + i32 q)⟫) tin) d
    else d in
  match spend_deficit fuel t flow_idx thread now_us now_ns d with
  | None => None
  | Some (d, true) => Some (d, Break false)
  | Some (d, false) => Some (rotate_flow t flow_idx d, Continue)
  end.

Definition idle_out (d : deq) : deq :=
  let '(aggs, cs) := cake_sched_drr_deactivate (dq_aggs d) (dq_cs d) in
  d⟪dq_aggs := aggs⟫⟪dq_cs := cs⟫.

Definition sched_turn (fuel : nat) (thread now_us now_ns : Z) (d : deq) : option (deq * turn) :=
  match pick_tin (Z.to_nat (cs_n_tins (dq_cs d))) (cs_tins (dq_cs d)) with
  | None => Some (idle_out d, Break true)
  | Some t =>
      match cake_select_flow (tin_of t d) with
      | None => Some (idle_out d, Break true)
      | Some flow_idx =>
          if bool_decide (fl_flow_state (flow_of t flow_idx d) = CAKE_FLOW_SPARSE)
          then serve_sparse t flow_idx thread now_us now_ns d
          else serve_bulk fuel t flow_idx thread now_us now_ns d
      end
  end.

(** [while (budget > 0)]: the state, and whether the scheduler went idle. *)
Fixpoint sched_loop (fuel : nat) (thread now_us now_ns : Z) (d : deq) : option (deq * bool) :=
  if 0 <? dq_budget d then
    match fuel with
    | O => None
    | S fuel' =>
        '(d, r) ← sched_turn fuel thread now_us now_ns d;
        match r with
        | Break deactivate => Some (d, deactivate)
        | Continue => sched_loop fuel' thread now_us now_ns d
        end
    end
  else Some (d, false).

(** ** One dispatch *)

Record deq_frame := mkDeqFrame {
  df_cm : cake_main_t;
  df_bufs : gmap Z vlib_buffer_t;
  df_budget : Z;
  df_out : list (Z * cake_dequeue_next_t);
  df_freed : list Z;
  df_deactivate : list Z;
  df_n_aqm_drops : Z;
  df_n_ecn_marks : Z;
  df_n_drr_blocked : Z;
  df_n_parent_blocked : Z;
  df_n_agg_shaped : Z
}.
#[export] Instance eta_deq_frame : Eta deq_frame := λ s,
  mkDeqFrame (df_cm s) (df_bufs s) (df_budget s) (df_out s) (df_freed s) (df_deactivate s)
    (df_n_aqm_drops s) (df_n_ecn_marks s) (df_n_drr_blocked s) (df_n_parent_blocked s)
    (df_n_agg_shaped s).

(** The body of the walk over the active bitmap. *)
Definition serve_sched (fuel : nat) (thread now_us now_ns seed : Z) (s : deq_frame) (si : Z)
    : option (deq_frame * Z) :=
  match cm_schedulers (df_cm s) !! si with
  | None => Some (s⟪df_deactivate ::= λ l, l ++ [si]⟫, seed)
  | Some cs =>
      if negb (bool_decide (cs_owner_thread cs = Some thread))
      then Some (s⟪df_deactivate ::= λ l, l ++ [si]⟫, seed)
      else if now_ns <? cs_global_shaper_time_ns cs then Some (s, seed)
      else
        let d := mkDeq (cm_aggregates (df_cm s)) cs (df_bufs s) seed (df_budget s) [] []
                   0 0 0 0 in
        '(d, idle) ← sched_loop fuel thread now_us now_ns d;
        Some (mkDeqFrame (put_sched si (dq_cs d) (dq_aggs d) (df_cm s)) (dq_bufs d)
                (dq_budget d) (df_out s ++ dq_out d) (df_freed s ++ dq_freed d)
                (if (idle : bool) then df_deactivate s ++ [si] else df_deactivate s)
                (df_n_aqm_drops s + dq_n_aqm_drops d) (df_n_ecn_marks s + dq_n_ecn_marks d)
                (df_n_drr_blocked s + dq_n_drr_blocked d)
                (df_n_parent_blocked s + dq_n_parent_blocked d)
                (if bool_decide (cs_aggregate_index (dq_cs d) = None) then df_n_agg_shaped s
                 else df_n_agg_shaped s + (df_budget s - dq_budget d)),
              dq_seed d)
  end.

Fixpoint walk_active (fuel : nat) (thread now_us now_ns seed : Z) (s : deq_frame) (l : list Z)
    : option (deq_frame * Z) :=
  match l with
  | [] => Some (s, seed)
  | si :: l =>
      if (df_budget s =? 0) || (VLIB_FRAME_SIZE - 1 <=? Z.of_nat (length (df_deactivate s)))
      then Some (s, seed)
      else
        '(s, seed) ← serve_sched fuel thread now_us now_ns seed s si;
        walk_active fuel thread now_us now_ns seed s l
  end.

(** [now_ns] is the clock; [now_us] its microseconds, truncated to 32 bits. *)
Definition cake_dequeue_node (fuel : nat) (thread now_ns : Z) (cm : cake_main_t)
    (bufs : gmap Z vlib_buffer_t) : option deq_frame :=
  let s := mkDeqFrame cm bufs VLIB_FRAME_SIZE [] [] [] 0 0 0 0 0 in
  match cm_per_thread cm !! Z.to_nat thread with
  | None => Some s
  | Some pt =>
      '(s, seed) ← walk_active fuel thread (u32 (now_ns / 1000)) (u64 now_ns)
                     (pt_random_seed pt) s
                     (merge_sort Z.le (elements (pt_active_bitmap pt)));
      Some (s⟪df_cm ::= λ cm, cm⟪cm_per_thread ::= alter (λ pt,
                pt⟪pt_random_seed := seed⟫
                  ⟪pt_active_bitmap ::= λ b, b ∖ list_to_set (df_deactivate s)⟫)
                (Z.to_nat thread)⟫⟫)
  end.

End Dequeue.
