(* ===== verification/CakeTin.v ===== *)
(** The invariant of a tin.

    A tin's flows are threaded on three lists, one per state of a flow; its counters
    are their lengths; a flow's ring, backlog and deficit are in range.  [tin_ok] says
    so, and the lemmas show that every move the two nodes make keeps it: a change
    inside a flow, a flow moved between lists, opened or closed. *)

From S2P Require Import Prelude Dll CakeTypes Cobalt CakeFlow CakeEnqueue CakeDequeue.

(** ** A flow without its links *)

Definition body (f : cake_flow_t) : cake_flow_t := f⟪fl_next := None⟫⟪fl_prev := None⟫.

Definition bodies (tin : cake_tin_t) : gmap Z cake_flow_t := body <$> tn_flows tin.

(** The rest of a tin: what no list operation writes. *)
Definition rest (tin : cake_tin_t) : cake_tin_t :=
  tin⟪tn_flows := ∅⟫⟪tn_new_flow_head := None⟫⟪tn_new_flow_tail := None⟫
     ⟪tn_old_flow_head := None⟫⟪tn_old_flow_tail := None⟫
     ⟪tn_decaying_flow_head := None⟫⟪tn_decaying_flow_tail := None⟫.

(** ** The three lists *)

Definition threads (tin : cake_tin_t) (n o d : list Z) : Prop :=
  dll (tn_flows tin) (tn_new_flow_head tin) (tn_new_flow_tail tin) n /\
  dll (tn_flows tin) (tn_old_flow_head tin) (tn_old_flow_tail tin) o /\
  dll (tn_flows tin) (tn_decaying_flow_head tin) (tn_decaying_flow_tail tin) d /\
  NoDup (n ++ o ++ d).

Lemma nodup3 (n o d : list Z) :
  NoDup (n ++ o ++ d) <->
  NoDup n /\ NoDup o /\ NoDup d /\ (∀ i, i ∈ n → i ∉ o /\ i ∉ d) /\ (∀ i, i ∈ o → i ∉ d).
Proof. rewrite !NoDup_app. set_solver. Qed.

(** One list operation on a tin: the lists it leaves, the flows' bodies, the rest. *)
Definition relinked (tin tin' : cake_tin_t) (n o d : list Z) : Prop :=
  threads tin' n o d /\ bodies tin' = bodies tin /\ rest tin' = rest tin.

Lemma relinked_trans t1 t2 t3 n2 o2 d2 n3 o3 d3 :
  relinked t1 t2 n2 o2 d2 → relinked t2 t3 n3 o3 d3 → relinked t1 t3 n3 o3 d3.
Proof. intros (_ & B1 & R1) (T & B2 & R2). split; [done|]. split; congruence. Qed.

(** A store changed only at some indices keeps the lists away from them. *)
Lemma dll_away (m m' : gmap Z cake_flow_t) h t (l touched : list Z) :
  dll m h t l → (∀ j, j ∉ touched → m' !! j = m !! j) →
  (∀ i, i ∈ l → i ∉ touched) → dll m' h t l.
Proof. intros Hd Hm Hdis. eapply dll_frame; [|exact Hd]. auto. Qed.

Ltac away touched := eapply (dll_away _ _ _ _ _ touched); [eassumption| |]; set_solver.

Section ListOps.

Context (tin : cake_tin_t) (n o d : list Z).
Hypothesis Hth : threads tin n o d.

Lemma new_prepend_ok i :
  i ∉ n ++ o ++ d → is_Some (tn_flows tin !! i) →
  relinked tin (new_prepend i tin) (i :: n) o d.
Proof.
  intros Hi Hs. assert (i ∉ n /\ i ∉ o /\ i ∉ d) as (I1 & I2 & I3) by set_solver.
  destruct Hth as (Hn & Ho & Hd & Hnd). apply nodup3 in Hnd as (N1 & N2 & N3 & X & Y).
  unfold new_prepend, cake_flow_list_prepend.
  destruct (dll_prepend _ _ _ i) as [[h' t'] m'] eqn:Hop.
  pose proof (dll_prepend_payload body (λ _ _, eq_refl) (λ _ _, eq_refl) _ _ _ _ _ _ _ Hop) as Hb.
  destruct (dll_prepend_spec _ _ _ _ _ _ _ _ Hn I1 Hs Hop) as [Hn' Hfr].
  split; [|done]. split; [exact Hn'|]. split; [away (i :: n)|]. split; [away (i :: n)|].
  rewrite nodup3. split; [by constructor; set_solver|]. set_solver.
Qed.

Lemma old_append_ok i :
  i ∉ n ++ o ++ d → is_Some (tn_flows tin !! i) →
  relinked tin (old_append i tin) n (o ++ [i]) d.
Proof.
  intros Hi Hs. assert (i ∉ n /\ i ∉ o /\ i ∉ d) as (I1 & I2 & I3) by set_solver.
  destruct Hth as (Hn & Ho & Hd & Hnd). apply nodup3 in Hnd as (N1 & N2 & N3 & X & Y).
  unfold old_append, cake_flow_list_append_tail.
  destruct (dll_append_tail _ _ _ i) as [[h' t'] m'] eqn:Hop.
  pose proof (dll_append_tail_payload body (λ _ _, eq_refl) (λ _ _, eq_refl) _ _ _ _ _ _ _ Hop) as Hb.
  destruct (dll_append_tail_spec _ _ _ _ _ _ _ _ Ho I2 Hs Hop) as [Ho' Hfr].
  split; [|done]. split; [away (i :: o)|]. split; [exact Ho'|]. split; [away (i :: o)|].
  destruct Ho' as [? _]. rewrite nodup3. set_solver.
Qed.

Lemma decaying_append_ok i :
  i ∉ n ++ o ++ d → is_Some (tn_flows tin !! i) →
  relinked tin (decaying_append i tin) n o (d ++ [i]).
Proof.
  intros Hi Hs. assert (i ∉ n /\ i ∉ o /\ i ∉ d) as (I1 & I2 & I3) by set_solver.
  destruct Hth as (Hn & Ho & Hd & Hnd). apply nodup3 in Hnd as (N1 & N2 & N3 & X & Y).
  unfold decaying_append, cake_flow_list_append_tail.
  destruct (dll_append_tail _ _ _ i) as [[h' t'] m'] eqn:Hop.
  pose proof (dll_append_tail_payload body (λ _ _, eq_refl) (λ _ _, eq_refl) _ _ _ _ _ _ _ Hop) as Hb.
  destruct (dll_append_tail_spec _ _ _ _ _ _ _ _ Hd I3 Hs Hop) as [Hd' Hfr].
  split; [|done]. split; [away (i :: d)|]. split; [away (i :: d)|]. split; [exact Hd'|].
  destruct Hd' as [? _]. rewrite nodup3. set_solver.
Qed.

End ListOps.

(** Removal: the index is where it is in its list. *)
Section Removal.

Context (tin : cake_tin_t).

Lemma new_remove_ok n1 i n2 o d :
  threads tin (n1 ++ i :: n2) o d → relinked tin (new_remove i tin) (n1 ++ n2) o d.
Proof.
  intros (Hn & Ho & Hd & Hnd). apply nodup3 in Hnd as (N1 & N2 & N3 & X & Y).
  unfold new_remove, cake_flow_list_remove.
  destruct (dll_remove _ _ _ i) as [[h' t'] m'] eqn:Hop.
  pose proof (dll_remove_payload body (λ _ _, eq_refl) (λ _ _, eq_refl) _ _ _ _ _ _ _ Hop) as Hb.
  destruct (dll_remove_spec _ _ _ _ _ _ _ _ _ Hn Hop) as (Hn' & Hfr & _).
  split; [|done]. split; [exact Hn'|]. split; [away (n1 ++ i :: n2)|].
  split; [away (n1 ++ i :: n2)|]. destruct Hn' as [? _]. rewrite nodup3. set_solver.
Qed.

Lemma old_remove_ok n o1 i o2 d :
  threads tin n (o1 ++ i :: o2) d → relinked tin (old_remove i tin) n (o1 ++ o2) d.
Proof.
  intros (Hn & Ho & Hd & Hnd). apply nodup3 in Hnd as (N1 & N2 & N3 & X & Y).
  unfold old_remove, cake_flow_list_remove.
  destruct (dll_remove _ _ _ i) as [[h' t'] m'] eqn:Hop.
  pose proof (dll_remove_payload body (λ _ _, eq_refl) (λ _ _, eq_refl) _ _ _ _ _ _ _ Hop) as Hb.
  destruct (dll_remove_spec _ _ _ _ _ _ _ _ _ Ho Hop) as (Ho' & Hfr & _).
  split; [|done]. split; [away (o1 ++ i :: o2)|]. split; [exact Ho'|].
  split; [away (o1 ++ i :: o2)|]. destruct Ho' as [? _]. rewrite nodup3. set_solver.
Qed.

Lemma decaying_remove_ok n o d1 i d2 :
  threads tin n o (d1 ++ i :: d2) → relinked tin (decaying_remove i tin) n o (d1 ++ d2).
Proof.
  intros (Hn & Ho & Hd & Hnd). apply nodup3 in Hnd as (N1 & N2 & N3 & X & Y).
  unfold decaying_remove, cake_flow_list_remove.
  destruct (dll_remove _ _ _ i) as [[h' t'] m'] eqn:Hop.
  pose proof (dll_remove_payload body (λ _ _, eq_refl) (λ _ _, eq_refl) _ _ _ _ _ _ _ Hop) as Hb.
  destruct (dll_remove_spec _ _ _ _ _ _ _ _ _ Hd Hop) as (Hd' & Hfr & _).
  split; [|done]. split; [away (d1 ++ i :: d2)|]. split; [away (d1 ++ i :: d2)|].
  split; [exact Hd'|]. destruct Hd' as [? _]. rewrite nodup3. set_solver.
Qed.

End Removal.

(** ** Flows and tins in range *)

(** The length of a buffer, and what a queued one must have. *)
Definition len_in (lens : gmap Z Z) (bi : Z) : Z := default 0 (lens !! bi).
Definition len_ok (lens : gmap Z Z) (bi : Z) : Prop :=
  exists l, lens !! bi = Some l /\ 0 <= l < 2 ^ 16.

(** A sum over the buffers a flow holds, and over those of a tin. *)
Definition qsum (h : Z → Z) (f : cake_flow_t) : Z := zsum (map h (queue f)).
Definition tsum (h : Z → Z) (tin : cake_tin_t) : Z := msum (qsum h) (tn_flows tin).

(** Most one packet can overspend, and most a flow can be topped up to. *)
Definition DEFICIT_MIN : Z := - 2 ^ 20.
Definition DEFICIT_MAX : Z := 65535.

Record flow_ok (lens : gmap Z Z) (f : cake_flow_t) : Prop := {
  fo_ring : ring_ok f;
  fo_aqm : cobalt_ok f;
  fo_deficit : DEFICIT_MIN < fl_deficit f <= DEFICIT_MAX;
  fo_state : match fl_flow_state f with
             | CAKE_FLOW_NONE => fl_ring f = None /\ cake_flow_queue_len f = 0
             | _ => is_Some (fl_ring f)
             end;
  fo_bufs : Forall (len_ok lens) (queue f);
  fo_backlog : fl_backlog_bytes f = u32 (qsum (len_in lens) f)
}.

(** A tin whose three lists are [n], [o] and [d]. *)
Record tin_at (lens : gmap Z Z) (n o d : list Z) (tin : cake_tin_t) : Prop := {
  ta_threads : threads tin n o d;
  ta_state : ∀ i f, tn_flows tin !! i = Some f →
    (i ∈ n <-> fl_flow_state f = CAKE_FLOW_SPARSE) /\
    (i ∈ o <-> fl_flow_state f = CAKE_FLOW_BULK) /\
    (i ∈ d <-> fl_flow_state f = CAKE_FLOW_DECAYING);
  ta_flows : ∀ i f, tn_flows tin !! i = Some f → flow_ok lens f;
  ta_table : ∀ i, is_Some (tn_flows tin !! i) <-> 0 <= i < CAKE_QUEUES;
  ta_sparse : tn_sparse_flow_count tin = Z.of_nat (length n);
  ta_bulk : tn_bulk_flow_count tin = Z.of_nat (length o);
  ta_count : tn_flow_count tin = Z.of_nat (length n + length o + length d)
}.

Definition tin_ok (lens : gmap Z Z) (tin : cake_tin_t) : Prop :=
  exists n o d, tin_at lens n o d tin.

(** One flow changed, its links apart; the others are as they were. *)
Definition moved (i : Z) (f' : cake_flow_t) (tin tin' : cake_tin_t) : Prop :=
  bodies tin' = <[i := body f']> (bodies tin).

Lemma body_same f f' : body f = body f' →
  fl_flow_state f = fl_flow_state f' /\ (∀ lens, flow_ok lens f' → flow_ok lens f) /\
  (∀ h, qsum h f = qsum h f') /\ cake_flow_queue_len f = cake_flow_queue_len f' /\
  fl_deficit f = fl_deficit f'.
Proof.
  destruct f, f'. unfold body. rsimpl. intros [= -> -> -> -> -> -> -> -> -> -> -> -> -> ->].
  split; [done|]. split; [|done]. intros lens [? ? ? ? ? ?]. by constructor.
Qed.

Lemma body_queue f f' : body f = body f' → queue f = queue f'.
Proof. destruct f, f'. unfold body. rsimpl. by intros [= -> -> -> -> -> -> -> -> -> -> -> -> -> ->]. Qed.

Lemma bodies_lookup tin i f : tn_flows tin !! i = Some f → bodies tin !! i = Some (body f).
Proof. intros Hf. unfold bodies. by rewrite lookup_fmap, Hf. Qed.

Lemma bodies_lookup_inv tin i b :
  bodies tin !! i = Some b → exists f, tn_flows tin !! i = Some f /\ body f = b.
Proof.
  unfold bodies. rewrite lookup_fmap. destruct (tn_flows tin !! i); simpl; [|done].
  intros [= <-]. eauto.
Qed.

Lemma moved_at i f' tin tin' :
  moved i f' tin tin' → exists f1, tn_flows tin' !! i = Some f1 /\ body f1 = body f'.
Proof. intros H. apply bodies_lookup_inv. rewrite H. apply lookup_insert_eq. Qed.

Lemma moved_other i f' tin tin' j f1 :
  moved i f' tin tin' → j ≠ i → tn_flows tin' !! j = Some f1 →
  exists f, tn_flows tin !! j = Some f /\ body f1 = body f.
Proof.
  intros H Hj Hf. apply bodies_lookup in Hf. rewrite H, lookup_insert_ne in Hf by done.
  destruct (bodies_lookup_inv _ _ _ Hf) as (f & ? & ?). eauto.
Qed.

Lemma moved_trans i f1 f2 t t1 t2 : moved i f1 t t1 → moved i f2 t1 t2 → moved i f2 t t2.
Proof. unfold moved. intros H1 H2. by rewrite H2, H1, insert_insert_eq. Qed.

Lemma moved_relinked i f1 t t1 t2 n o d :
  moved i f1 t t1 → relinked t1 t2 n o d → moved i f1 t t2.
Proof. unfold moved. intros H1 (_ & H2 & _). by rewrite H2. Qed.

Lemma moved_body i f1 f2 t t' : moved i f1 t t' → body f1 = body f2 → moved i f2 t t'.
Proof. unfold moved. congruence. Qed.

(** A sum over the flows that does not look at links. *)
Definition link_free (g : cake_flow_t → Z) : Prop := ∀ f, g (body f) = g f.

Lemma fsum_bodies g tin : link_free g → msum g (tn_flows tin) = msum g (bodies tin).
Proof.
  intros Hg. apply msum_same_keys. intros i. unfold bodies. rewrite lookup_fmap.
  destruct (tn_flows tin !! i); simpl; [by rewrite Hg|done].
Qed.

Lemma fsum_moved g i f f' tin tin' :
  link_free g → tn_flows tin !! i = Some f → moved i f' tin tin' →
  msum g (tn_flows tin') = msum g (tn_flows tin) - g f + g f'.
Proof.
  intros Hg Hf Hm. rewrite !fsum_bodies, Hm by done.
  rewrite (msum_insert g _ i (body f)) by (by apply bodies_lookup). by rewrite !Hg.
Qed.

Lemma qsum_link_free h : link_free (qsum h).
Proof. intros f. by apply body_same. Qed.

(** ** The lists of a tin hold its open flows, each once *)

Section Counting.

Context (lens : gmap Z Z) (n o d : list Z) (tin : cake_tin_t).
Hypothesis Hok : tin_at lens n o d tin.

Lemma listed_in_table i : i ∈ n ++ o ++ d → 0 <= i < CAKE_QUEUES.
Proof.
  intros Hi. apply (ta_table _ _ _ _ _ Hok). destruct (ta_threads _ _ _ _ _ Hok) as (Hn & Ho & Hd & _).
  rewrite !elem_of_app in Hi.
  destruct Hi as [Hi|[Hi|Hi]]; [exact (dll_lookup _ _ _ _ _ Hn Hi)|exact (dll_lookup _ _ _ _ _ Ho Hi)
                               |exact (dll_lookup _ _ _ _ _ Hd Hi)].
Qed.

Lemma lists_bound : (length n + length o + length d <= 1024)%nat.
Proof.
  destruct (ta_threads _ _ _ _ _ Hok) as (_ & _ & _ & Hnd).
  assert (n ++ o ++ d ⊆+ seqZ 0 CAKE_QUEUES) as Hs.
  { apply NoDup_submseteq; [done|]. intros i Hi%listed_in_table. by apply elem_of_seqZ. }
  apply submseteq_length in Hs. rewrite !length_app, length_seqZ in Hs.
  change (Z.to_nat CAKE_QUEUES) with 1024%nat in Hs. lia.
Qed.

Lemma unlisted i f :
  tn_flows tin !! i = Some f → fl_flow_state f = CAKE_FLOW_NONE → i ∉ n ++ o ++ d.
Proof.
  intros Hf Hs. destruct (ta_state _ _ _ _ _ Hok i f Hf) as (A & B & C).
  rewrite !elem_of_app, A, B, C, Hs. intuition congruence.
Qed.

End Counting.

(** Everything of a tin the invariant looks at. *)
Definition links (tin : cake_tin_t) :=
  (tn_flows tin, (tn_new_flow_head tin, tn_new_flow_tail tin),
   (tn_old_flow_head tin, tn_old_flow_tail tin),
   (tn_decaying_flow_head tin, tn_decaying_flow_tail tin),
   (tn_sparse_flow_count tin, tn_bulk_flow_count tin, tn_flow_count tin)).

Lemma tin_at_links lens n o d tin tin' :
  links tin' = links tin → tin_at lens n o d tin → tin_at lens n o d tin'.
Proof.
  intros [= E1 E2 E3 E4 E5 E6 E7 E8 E9 E10] [H1 H2 H3 H4 H5 H6 H7].
  constructor; rewrite ?E1, ?E8, ?E9, ?E10; try done.
  unfold threads in *. by rewrite E1, E2, E3, E4, E5, E6, E7.
Qed.

(** One flow changes and moves between lists. *)
Lemma tin_at_update lens n o d tin tin' n' o' d' i f f' :
  tin_at lens n o d tin → tn_flows tin !! i = Some f →
  threads tin' n' o' d' → moved i f' tin tin' → flow_ok lens f' →
  (∀ j, j ≠ i → (j ∈ n' <-> j ∈ n) /\ (j ∈ o' <-> j ∈ o) /\ (j ∈ d' <-> j ∈ d)) →
  ((i ∈ n' <-> fl_flow_state f' = CAKE_FLOW_SPARSE) /\
   (i ∈ o' <-> fl_flow_state f' = CAKE_FLOW_BULK) /\
   (i ∈ d' <-> fl_flow_state f' = CAKE_FLOW_DECAYING)) →
  tn_sparse_flow_count tin' = Z.of_nat (length n') →
  tn_bulk_flow_count tin' = Z.of_nat (length o') →
  tn_flow_count tin' = Z.of_nat (length n' + length o' + length d') →
  tin_at lens n' o' d' tin'.
Proof.
  intros Hok Hf Hth Hm Hf' Hj Hi Hc1 Hc2 Hc3. constructor; try done.
  - intros j g Hg. destruct (decide (j = i)) as [->|Hne].
    + destruct (moved_at _ _ _ _ Hm) as (f1 & Hf1 & Hb).
      rewrite Hf1 in Hg. apply (inj Some) in Hg as <-.
      destruct (body_same _ _ Hb) as (-> & _). done.
    + destruct (moved_other _ _ _ _ _ _ Hm Hne Hg) as (g0 & Hg0 & Hb).
      destruct (body_same _ _ Hb) as (-> & _). destruct (Hj j Hne) as (-> & -> & ->).
      by apply (ta_state _ _ _ _ _ Hok).
  - intros j g Hg. destruct (decide (j = i)) as [->|Hne].
    + destruct (moved_at _ _ _ _ Hm) as (f1 & Hf1 & Hb).
      rewrite Hf1 in Hg. apply (inj Some) in Hg as <-. by apply (body_same _ _ Hb).
    + destruct (moved_other _ _ _ _ _ _ Hm Hne Hg) as (g0 & Hg0 & Hb).
      apply (body_same _ _ Hb). by eapply (ta_flows _ _ _ _ _ Hok).
  - intros j. rewrite <- (ta_table _ _ _ _ _ Hok j). apply (f_equal (lookup j)) in Hm.
    unfold bodies in Hm. destruct (decide (j = i)) as [->|Hne].
    + rewrite lookup_insert_eq, lookup_fmap in Hm. rewrite Hf.
      destruct (tn_flows tin' !! i); [|done]. split; eauto.
    + rewrite lookup_insert_ne, !lookup_fmap in Hm by done.
      destruct (tn_flows tin' !! j), (tn_flows tin !! j); simplify_eq/=; split; eauto.
Qed.
