(* ===== verification/CakeMoves.v ===== *)
(** The moves the nodes make on a tin keep its invariant.

    A flow is changed where it stands, opened as sparse, promoted to bulk, rotated,
    let decay, reclaimed or evicted.  Each lemma gives the tin's lists afterwards and
    the one flow that changed. *)

From S2P Require Import Prelude Dll CakeTypes Cobalt CakeFlow CakeHier CakeEnqueue CakeDequeue CakeTin.

(** ** A move in progress *)

Definition counts (tin : cake_tin_t) : Z * Z * Z :=
  (tn_sparse_flow_count tin, tn_bulk_flow_count tin, tn_flow_count tin).

(** [tin1] is [tin] with flow [i] changed to [f1] and the lists as given. *)
Record mid (tin : cake_tin_t) (i : Z) (f1 : cake_flow_t) (tin1 : cake_tin_t) (n o d : list Z)
    : Prop := {
  md_threads : threads tin1 n o d;
  md_moved : moved i f1 tin tin1;
  md_at : tn_flows tin1 !! i = Some f1;
  md_counts : counts tin1 = counts tin
}.

Lemma mid_start lens n o d tin i f :
  tin_at lens n o d tin → tn_flows tin !! i = Some f → mid tin i f tin n o d.
Proof.
  intros Hok Hf. constructor; try done; [apply Hok|]. unfold moved.
  by rewrite insert_id by (by apply bodies_lookup).
Qed.

Lemma threads_links tin m' n o d :
  (∀ i f, tn_flows tin !! i = Some f →
     exists f', m' !! i = Some f' /\ fl_next f' = fl_next f /\ fl_prev f' = fl_prev f) →
  threads tin n o d → threads (tin⟪tn_flows := m'⟫) n o d.
Proof.
  intros Hm (Hn & Ho & Hd & Hnd). split; [|split; [|split; [|done]]];
    (eapply dll_links; [|eassumption]); intros j x _ Hx; by apply Hm.
Qed.

Lemma mid_upd tin i f1 tin1 n o d g :
  mid tin i f1 tin1 n o d → fl_next (g f1) = fl_next f1 → fl_prev (g f1) = fl_prev f1 →
  mid tin i (g f1) (upd_flow i g tin1) n o d.
Proof.
  intros [H1 H2 H3 H4] Hn Hp. constructor; [| | |done].
  - apply threads_links; [|done]. intros j f Hf. destruct (decide (j = i)) as [->|Hne].
    + rewrite lookup_alter_eq, Hf. simplify_eq. by exists (g f1).
    + rewrite lookup_alter_ne by congruence. eauto.
  - unfold moved, bodies, upd_flow in *. rsimpl. rewrite (alter_insert_lookup g i _ f1 H3).
    by rewrite fmap_insert, H2, insert_insert_eq.
  - unfold upd_flow. rsimpl. by rewrite lookup_alter_eq, H3.
Qed.

Lemma mid_relink tin i f1 tin1 tin2 n o d n' o' d' :
  mid tin i f1 tin1 n o d → relinked tin1 tin2 n' o' d' →
  exists f2, body f2 = body f1 /\ mid tin i f2 tin2 n' o' d'.
Proof.
  intros [H1 H2 H3 H4] (Ht & Hb & Hr).
  destruct (bodies_lookup_inv tin2 i (body f1)) as (f2 & Hf2 & E).
  { rewrite Hb. by apply bodies_lookup. }
  exists f2. split; [done|]. constructor; try done.
  - unfold moved. by rewrite Hb, H2, E.
  - rewrite <- H4. unfold counts.
    rewrite (f_equal tn_sparse_flow_count Hr : tn_sparse_flow_count tin2 = _).
    rewrite (f_equal tn_bulk_flow_count Hr : tn_bulk_flow_count tin2 = _).
    by rewrite (f_equal tn_flow_count Hr : tn_flow_count tin2 = _).
Qed.

(** The fields the lists do not use may change at any time. *)
Definition heads (tin : cake_tin_t) :=
  (tn_flows tin, (tn_new_flow_head tin, tn_new_flow_tail tin),
   (tn_old_flow_head tin, tn_old_flow_tail tin),
   (tn_decaying_flow_head tin, tn_decaying_flow_tail tin)).

Lemma mid_heads tin i f1 tin1 tin2 n o d :
  heads tin2 = heads tin1 → counts tin2 = counts tin1 →
  mid tin i f1 tin1 n o d → mid tin i f1 tin2 n o d.
Proof.
  intros [= E1 E2 E3 E4 E5 E6 E7] Hc [H1 H2 H3 H4]. constructor; try congruence.
  - unfold threads in *. by rewrite E1, E2, E3, E4, E5, E6, E7.
  - unfold moved, bodies in *. by rewrite E1.
Qed.

Lemma heads_set i f t1 t2 : heads t1 = heads t2 → heads (set_flow i f t1) = heads (set_flow i f t2).
Proof. intros [= E1 E2 E3 E4 E5 E6 E7]. unfold heads, set_flow. rsimpl. congruence. Qed.

Lemma host_dec_heads idx tin : heads (host_bulk_dec idx tin) = heads tin /\
  counts (host_bulk_dec idx tin) = counts tin.
Proof. unfold host_bulk_dec. by destruct (_ && _). Qed.

Lemma host_inc_heads idx tin : heads (host_bulk_inc idx tin) = heads tin /\
  counts (host_bulk_inc idx tin) = counts tin.
Proof. unfold host_bulk_inc. by destruct (_ <? _). Qed.

(** The end of a move: the counts are those of the new lists. *)
Lemma mid_finish lens n o d tin i f f1 tin1 tin2 n' o' d' :
  tin_at lens n o d tin → tn_flows tin !! i = Some f →
  mid tin i f1 tin1 n' o' d' → heads tin2 = heads tin1 → flow_ok lens f1 →
  (∀ j, j ≠ i → (j ∈ n' <-> j ∈ n) /\ (j ∈ o' <-> j ∈ o) /\ (j ∈ d' <-> j ∈ d)) →
  ((i ∈ n' <-> fl_flow_state f1 = CAKE_FLOW_SPARSE) /\
   (i ∈ o' <-> fl_flow_state f1 = CAKE_FLOW_BULK) /\
   (i ∈ d' <-> fl_flow_state f1 = CAKE_FLOW_DECAYING)) →
  counts tin2 = (Z.of_nat (length n'), Z.of_nat (length o'),
                 Z.of_nat (length n' + length o' + length d')) →
  tin_at lens n' o' d' tin2 /\ moved i f1 tin tin2 /\ tn_flows tin2 !! i = Some f1.
Proof.
  intros Hok Hf [H1 H2 H3 _] [= E1 E2 E3 E4 E5 E6 E7] Hf1 Hj Hi [= C1 C2 C3].
  assert (moved i f1 tin tin2) as Hm by (unfold moved, bodies in *; by rewrite E1).
  split; [|split; [done|by rewrite E1]].
  eapply tin_at_update; eauto. unfold threads in *. by rewrite E1, E2, E3, E4, E5, E6, E7.
Qed.

(** ** A change inside a flow *)

Lemma upd_within lens n o d tin i f g :
  tin_at lens n o d tin → tn_flows tin !! i = Some f →
  fl_next (g f) = fl_next f → fl_prev (g f) = fl_prev f →
  fl_flow_state (g f) = fl_flow_state f → flow_ok lens (g f) →
  tin_at lens n o d (upd_flow i g tin) /\ moved i (g f) tin (upd_flow i g tin) /\
  tn_flows (upd_flow i g tin) !! i = Some (g f).
Proof.
  intros Hok Hf Hn Hp Hs Hg. eapply mid_finish; try done.
  - apply mid_upd; [by eapply mid_start|done|done].
  - rewrite Hs. by apply (ta_state _ _ _ _ _ Hok).
  - destruct Hok. unfold counts, upd_flow. rsimpl. congruence.
Qed.

(** ** Where a flow is listed *)

Lemma elem_of_cons_ne (i j : Z) l : j ≠ i → (j ∈ i :: l <-> j ∈ l).
Proof. set_solver. Qed.

Lemma elem_of_snoc_ne (i j : Z) l : j ≠ i → (j ∈ l ++ [i] <-> j ∈ l).
Proof. set_solver. Qed.

Lemma elem_of_removed (i j : Z) l1 l2 : j ≠ i → (j ∈ l1 ++ l2 <-> j ∈ l1 ++ i :: l2).
Proof. set_solver. Qed.


Lemma listed_split (i : Z) (l : list Z) : NoDup l → i ∈ l →
  exists l1 l2, l = l1 ++ i :: l2 /\ i ∉ l1 /\ i ∉ l2.
Proof.
  intros Hnd Hi. apply list_elem_of_split in Hi as (l1 & l2 & ->). exists l1, l2.
  apply NoDup_app in Hnd as (_ & Hd & Hn). apply NoDup_cons in Hn as [? _].
  split; [done|]. split; [|done]. intros Hi1. apply (Hd i Hi1). set_solver.
Qed.

Lemma flow_at_eq tin i f : tn_flows tin !! i = Some f → flow_at tin i = f.
Proof. intros Hf. unfold flow_at. by rewrite Hf. Qed.

Lemma mid_set tin i f1 f2 tin1 n o d :
  mid tin i f1 tin1 n o d → fl_next f2 = fl_next f1 → fl_prev f2 = fl_prev f1 →
  mid tin i f2 (set_flow i f2 tin1) n o d.
Proof.
  intros Hm Hn Hp. pose proof (mid_upd _ _ _ _ _ _ _ (λ _, f2) Hm Hn Hp) as H.
  unfold upd_flow in H. unfold upd in *.
  rewrite (alter_insert_lookup _ i _ f1 (md_at _ _ _ _ _ _ _ Hm)) in H. exact H.
Qed.

Lemma mid_set_unlisted tin i f1 f2 tin1 n o d :
  mid tin i f1 tin1 n o d → i ∉ n ++ o ++ d → mid tin i f2 (set_flow i f2 tin1) n o d.
Proof.
  intros [(Hn & Ho & Hd & Hnd) H2 H3 H4] Hi. constructor; [| | |done].
  - unfold set_flow. split; [|split; [|split; [|exact Hnd]]];
      (eapply dll_frame; [|eassumption]); intros j Hj; rsimpl;
      (rewrite lookup_insert_ne; [done|]); intros <-; set_solver.
  - unfold moved, bodies, set_flow in *. rsimpl. by rewrite fmap_insert, H2, insert_insert_eq.
  - unfold set_flow. rsimpl. apply lookup_insert_eq.
Qed.

(** ** Facts about one flow *)

Lemma qlen_range f : 0 <= cake_flow_queue_len f < 2 ^ 32.
Proof. apply u32_range. Qed.

Lemma queue_nil f : cake_flow_queue_len f = 0 → queue f = [].
Proof. intros H. apply length_zero_iff_nil. pose proof (queue_length f). lia. Qed.

Lemma quantum_range tin f : 1 <= cake_quantum_for_flow tin f <= DEFICIT_MAX.
Proof.
  unfold cake_quantum_for_flow, DEFICIT_MAX. cbv zeta.
  match goal with |- context [Z.shiftr (u32 ?x) 16] => pose proof (u32_range x) as Hr;
    assert (0 <= Z.shiftr (u32 x) 16 <= 65535); [|destruct (Z.eqb_spec (Z.shiftr (u32 x) 16) 0); lia];
    set (v := u32 x) in * end.
  unfold is_u32 in Hr. rewrite Z.shiftr_div_pow2 by lia. Z.to_euclidean_division_equations. lia.
Qed.

(** What the queue management never touches. *)
Definition outer (f : cake_flow_t) :=
  (fl_ring f, (fl_head f, fl_tail f), fl_deficit f, (fl_next f, fl_prev f), fl_backlog_bytes f,
   fl_flow_state f, (fl_set_index f, fl_dst_host_idx f)).

Lemma outer_invsqrt f : outer (cobalt_invsqrt f) = outer f.
Proof. unfold cobalt_invsqrt. by destruct (_ <? _). Qed.

Lemma outer_queue_full f target p_inc now : outer (cobalt_queue_full f target p_inc now) = outer f.
Proof. unfold cobalt_queue_full. by destruct (_ <? _); destruct (_ =? 0). Qed.

Lemma outer_queue_empty f target p_dec interval now :
  outer (cobalt_queue_empty f target p_dec interval now) = outer f.
Proof.
  unfold cobalt_queue_empty.
  set (g := if negb (fl_p_drop f =? 0) && _ then _ else f).
  assert (outer g = outer f) as Hg by (subst g; by destruct (_ && _)). clearbody g.
  cbv zeta. destruct (_ && _); [|done]. rewrite <- Hg.
  match goal with |- outer (upd _ _ ?g) = _ => transitivity (outer g); [done|] end.
  by rewrite outer_invsqrt.
Qed.

Lemma outer_drain fuel interval now due f s f' s' :
  drain_due fuel interval now due f s = Some (f', s') → outer f' = outer f.
Proof.
  revert due f s. induction fuel as [|fuel IH]; intros due f s; simpl; destruct due;
    try congruence. cbv zeta. intros H%IH. rewrite H.
  match goal with |- outer (upd _ _ ?g) = _ => transitivity (outer g); [done|] end.
  by rewrite outer_invsqrt.
Qed.

Lemma outer_should_drop rnd f cs sojourn now bulk ecn seed r :
  cobalt_should_drop rnd f cs sojourn now bulk ecn seed = Some r → outer (dr_flow r) = outer f.
Proof.
  unfold cobalt_should_drop. set (g := codel_state f cs _ now).
  assert (outer g = outer f) as Hg.
  { subst g. unfold codel_state. cbv zeta. repeat (case_match; try done). }
  cbv zeta. set (s0 := i32 _). set (due := next_due_of f s0). clearbody g s0 due.
  assert (∀ x, (if due && fl_dropping g
    then Some (negb ecn, ecn, s0, codel_escalate g cs)
    else '(f0, schedule) ← drain_due (Z.to_nat (fl_codel_count g)) (cs_interval_us cs) now due g s0;
         Some (false, false, schedule, f0)) = Some x → outer x.2 = outer f) as Hx.
  { intros x. destruct (due && fl_dropping g).
    - intros [= <-]. rewrite <- Hg. simpl. unfold codel_escalate.
      match goal with |- outer (upd _ _ (cobalt_invsqrt ?g)) = _ =>
        transitivity (outer (cobalt_invsqrt g)); [done|rewrite outer_invsqrt] end.
      by destruct (_ =? 0).
    - destruct (drain_due _ _ _ _ _ _) as [[f' s']|] eqn:E; simpl; [|done].
      intros [= <-]. simpl. rewrite <- Hg. by eapply outer_drain. }
  match goal with |- (r0 ← ?e; _) = _ → _ => destruct e as [[[[drop marked] s] f']|] eqn:E end;
    simpl; [|done].
  specialize (Hx _ eq_refl). simpl in Hx. destruct (if negb (fl_p_drop f' =? 0) then _ else _).
  intros [= <-]. simpl. rewrite <- Hx. by repeat (case_match; try done).
Qed.

Lemma outer_queue f f' : outer f' = outer f →
  queue f' = queue f /\ cake_flow_queue_len f' = cake_flow_queue_len f /\
  fl_flow_state f' = fl_flow_state f.
Proof.
  destruct f, f'. unfold outer. simpl. intros [= -> -> -> -> -> -> -> -> -> ->]. done.
Qed.

Lemma flow_ok_outer lens f f' : outer f' = outer f → cobalt_ok f' → flow_ok lens f → flow_ok lens f'.
Proof.
  intros Ho Hc [H1 H2 H3 H4 H5 H6]. destruct (outer_queue f f' Ho) as (Hq & Hl & Hs).
  destruct f, f'. unfold outer in Ho. simpl in Ho. simplify_eq.
  constructor; try done.
Qed.

(** Freeing a flow's ring gives back exactly the queued buffers. *)
Lemma ring_free_spec f : ring_ok f → (fl_ring f = None → cake_flow_queue_len f = 0) →
  exists f', cake_flow_ring_free f = Some (f', queue f) /\
    (fl_flow_state f', fl_next f', fl_prev f', fl_dst_host_idx f') =
    (fl_flow_state f, fl_next f, fl_prev f, fl_dst_host_idx f).
Proof.
  intros H1 H4. unfold cake_flow_ring_free. destruct (fl_ring f) as [r|] eqn:Er.
  - rewrite (ring_drain_spec (Z.to_nat (cake_flow_queue_len f)) f H1
      ltac:(pose proof (qlen_range f); lia)). cbn [mbind option_bind].
    eexists. split; [done|]. done.
  - exists f. split; [|done]. by rewrite queue_nil by auto.
Qed.

Lemma no_ring_empty lens f : flow_ok lens f → fl_ring f = None → cake_flow_queue_len f = 0.
Proof.
  intros Hf Er. pose proof (fo_state _ _ Hf) as Hs. rewrite Er in Hs.
  destruct (fl_flow_state f); [apply Hs| | |]; by destruct Hs.
Qed.

Lemma ring_free_ok lens f : flow_ok lens f →
  exists f', cake_flow_ring_free f = Some (f', queue f) /\
    (fl_flow_state f', fl_next f', fl_prev f', fl_dst_host_idx f') =
    (fl_flow_state f, fl_next f, fl_prev f, fl_dst_host_idx f).
Proof.
  intros Hf. apply ring_free_spec; [apply (fo_ring _ _ Hf)|by apply (no_ring_empty lens)].
Qed.

(** A flow that holds nothing and is not open. *)
Lemma flow_zero_ok lens : flow_ok lens flow_zero.
Proof.
  constructor; try done; repeat split; try (vm_compute; congruence).
Qed.

(** ** Moves between lists *)

Lemma old_append_counts i t : counts (old_append i t) = counts t.
Proof. unfold old_append. by destruct (cake_flow_list_append_tail _ _ _ _) as [[? ?] ?]. Qed.

(** The counters of the lists, stepped with their lengths. *)
Ltac count_lists :=
  unfold inc32, dec32; simpl; rewrite ?length_app; simpl;
  rewrite ?u32_small by (unfold is_u32; lia);
  repeat match goal with |- (_, _) = (_, _) => f_equal end; lia.

Section Moves.

Context (lens : gmap Z Z) (n o d : list Z) (tin : cake_tin_t) (i : Z) (f : cake_flow_t).
Hypothesis Hok : tin_at lens n o d tin.
Hypothesis Hf : tn_flows tin !! i = Some f.

Let Hflow : flow_ok lens f.
Proof. exact (ta_flows _ _ _ _ _ Hok _ _ Hf). Qed.

Let Hstate : (i ∈ n <-> fl_flow_state f = CAKE_FLOW_SPARSE) /\
  (i ∈ o <-> fl_flow_state f = CAKE_FLOW_BULK) /\ (i ∈ d <-> fl_flow_state f = CAKE_FLOW_DECAYING).
Proof. exact (ta_state _ _ _ _ _ Hok _ _ Hf). Qed.

Let Hbound : (length n + length o + length d <= 1024)%nat.
Proof. exact (lists_bound _ _ _ _ _ Hok). Qed.

Let Hcounts : counts tin = (Z.of_nat (length n), Z.of_nat (length o),
                            Z.of_nat (length n + length o + length d)).
Proof. unfold counts. by rewrite (ta_sparse _ _ _ _ _ Hok), (ta_bulk _ _ _ _ _ Hok), (ta_count _ _ _ _ _ Hok). Qed.

Lemma flow_distinct : NoDup n /\ NoDup o /\ NoDup d /\
  (∀ j, j ∈ n → j ∉ o /\ j ∉ d) /\ (∀ j, j ∈ o → j ∉ d).
Proof. apply nodup3. apply Hok. Qed.

(** What a finished move leaves of flow [i]. *)
Definition flow_left (f' : cake_flow_t) (tin' : cake_tin_t) : Prop :=
  tin_ok lens tin' /\ moved i f' tin tin' /\ tn_flows tin' !! i = Some f'.

Lemma left_intro n' o' d' f' tin' :
  tin_at lens n' o' d' tin' /\ moved i f' tin tin' /\ tn_flows tin' !! i = Some f' →
  flow_left f' tin'.
Proof. intros (H1 & H2). split; [by exists n', o', d'|done]. Qed.

Lemma open_flow_ok base hash :
  fl_flow_state f = CAKE_FLOW_NONE →
  exists f', flow_left f' (open_flow i base hash tin) /\
    fl_flow_state f' = CAKE_FLOW_SPARSE /\ queue f' = [] /\ cake_flow_queue_len f' = 0 /\
    0 < fl_deficit f'.
Proof.
  intros Hs. unfold open_flow. rewrite (flow_at_eq _ _ _ Hf), Hs. simpl.
  set (g1 := λ f, (cake_flow_ring_alloc f)⟪fl_flow_state := CAKE_FLOW_SPARSE⟫
                    ⟪fl_set_index := u8 (base / CAKE_SET_WAYS)⟫).
  set (t1 := upd_flow i g1 tin).
  pose proof (mid_upd _ _ _ _ _ _ _ g1 (mid_start _ _ _ _ _ _ _ Hok Hf) eq_refl eq_refl) as M1.
  fold t1 in M1. destruct (cake_host_lookup t1 hash) as [t2 host] eqn:Eh.
  assert (heads t2 = heads t1 /\ counts t2 = counts t1) as [Eh1 Eh2].
  { revert Eh. unfold cake_host_lookup. generalize (Z.land hash CAKE_HOSTS_MASK) as idx.
    intros idx. assert (∀ k j tin r, host_probe k j idx hash tin = Some r →
      heads r.1 = heads tin /\ counts r.1 = counts tin) as Hp.
    { induction k as [|k IH]; simpl; intros j tin0 r; [done|].
      destruct (_ =? _); [by intros [= <-]|]. destruct (_ =? 0); [by intros [= <-]|]. apply IH. }
    destruct (host_probe 4 0 idx hash t1) as [r|] eqn:E; [|by intros [= <- _]].
    intros ->. apply (Hp _ _ _ _ E). }
  apply (mid_heads _ _ _ _ t2) in M1; [|done|done].
  set (g2 := λ f, f⟪fl_dst_host_idx := host⟫).
  pose proof (mid_upd _ _ _ _ _ _ _ g2 M1 eq_refl eq_refl) as M2.
  pose proof (quantum_range (upd_flow i g2 t2) (flow_at (upd_flow i g2 t2) i)) as Hq.
  set (q := cake_quantum_for_flow _ _) in Hq.
  pose proof (mid_upd _ _ _ _ _ _ _ (λ f, f⟪fl_deficit := i32 q⟫) M2 ltac:(done) ltac:(done)) as M3.
  pose proof (unlisted _ _ _ _ _ Hok i f Hf Hs) as Hni.
  destruct (mid_relink _ _ _ _ _ _ _ _ _ _ _ M3
    (new_prepend_ok _ _ _ _ (md_threads _ _ _ _ _ _ _ M3) i Hni (mk_is_Some _ _ (md_at _ _ _ _ _ _ _ M3))))
    as (f' & Hb & M4).
  destruct (body_same _ _ Hb) as (B1 & B2 & B3 & B4 & B5).
  assert (fl_backlog_bytes f = 0) as Hbl.
  { destruct Hflow as [_ _ _ H4 _ H6]. rewrite Hs in H4. rewrite H6.
    unfold qsum. by rewrite (queue_nil f) by apply H4. }
  assert (flow_ok lens f') as Hf'.
  { apply B2. destruct Hflow as [R1 R2 R3 R4 R5 R6]. subst g1 g2. constructor; simpl.
    - repeat split; vm_compute; congruence.
    - done.
    - unfold DEFICIT_MIN, DEFICIT_MAX in *. simpl in *. rewrite i32_small by lia. lia.
    - eauto.
    - constructor.
    - exact Hbl. }
  assert (cake_flow_queue_len f' = 0) as Hl by (rewrite B4; done).
  assert (0 < fl_deficit f') as Hd.
  { rewrite B5. simpl. unfold DEFICIT_MAX in Hq. rewrite i32_small; lia. }
  exists f'. split; [|split; [by rewrite B1|split; [by apply queue_nil|done]]].
  apply (left_intro (i :: n) o d). eapply (mid_finish _ _ _ _ _ _ _ _ _ _ _ _ _ Hok Hf M4);
    [done|done|intros j Hj; by rewrite elem_of_cons_ne| |].
  - rewrite B1. simpl. rewrite !elem_of_app in Hni. clear - Hni. set_solver.
  - transitivity (inc32 (counts tin).1.1, (counts tin).1.2, inc32 (counts tin).2).
    { by rewrite <- (md_counts _ _ _ _ _ _ _ M4). }
    rewrite Hcounts. count_lists.
Qed.

Let Hstart : mid tin i f tin n o d.
Proof. exact (mid_start _ _ _ _ _ _ _ Hok Hf). Qed.

(** Flow [i] with its state changed among the open ones. *)
Definition restated (st : cake_flow_state) (f' : cake_flow_t) (tin' : cake_tin_t) : Prop :=
  flow_left f' tin' /\ body f' = body (f⟪fl_flow_state := st⟫).

Lemma restate_ok st : fl_flow_state f ≠ CAKE_FLOW_NONE → st ≠ CAKE_FLOW_NONE →
  flow_ok lens (f⟪fl_flow_state := st⟫).
Proof.
  intros Hs Hst. destruct Hflow as [H1 H2 H3 H4 H5 H6]. constructor; try done. simpl.
  destruct (fl_flow_state f), st; done.
Qed.

Ltac appended_counts M :=
  match goal with
  | |- context [old_append i ?t] =>
      assert (counts (old_append i t) = counts tin) as <-
        by (rewrite old_append_counts; exact (md_counts _ _ _ _ _ _ _ M));
      reflexivity
  end.

(** Flow [i], taken off its list and marked bulk, goes to the tail of the old one. *)
Lemma join_bulk n' d' tin2 f2 tin3 :
  mid tin i f2 tin2 n' o d' → body f2 = body (f⟪fl_flow_state := CAKE_FLOW_BULK⟫) →
  fl_flow_state f ≠ CAKE_FLOW_NONE → i ∉ n' → i ∉ o → i ∉ d' →
  (∀ j, j ≠ i → (j ∈ n' <-> j ∈ n) /\ (j ∈ d' <-> j ∈ d)) →
  heads tin3 = heads (old_append i tin2) →
  counts tin3 = (Z.of_nat (length n'), Z.of_nat (length o + 1),
                 Z.of_nat (length n' + (length o + 1) + length d')) →
  exists f', restated CAKE_FLOW_BULK f' tin3.
Proof.
  intros M2 B2 Hs H1 H2 H3 Hj Hh Hc.
  assert (i ∉ n' ++ o ++ d') as Hni by (clear - H1 H2 H3; set_solver).
  destruct (mid_relink _ _ _ _ _ _ _ _ _ _ _ M2
    (old_append_ok _ _ _ _ (md_threads _ _ _ _ _ _ _ M2) i Hni
       (mk_is_Some _ _ (md_at _ _ _ _ _ _ _ M2)))) as (f3 & B3 & M3).
  rewrite B2 in B3. destruct (body_same _ _ B3) as (S1 & S2 & _).
  exists f3. split; [|done]. apply (left_intro n' (o ++ [i]) d').
  eapply (mid_finish _ _ _ _ _ _ _ _ _ _ _ _ _ Hok Hf M3); [done|by apply S2, restate_ok| | |].
  - intros j Hne. destruct (Hj j Hne) as [-> ->]. by rewrite elem_of_snoc_ne.
  - rewrite S1. simpl. clear - H1 H2 H3. set_solver.
  - rewrite Hc, !length_app. done.
Qed.

(** A flow left sparse was, and holds at most one packet. *)
Definition still_sparse (st : cake_flow_state) : Prop :=
  st = CAKE_FLOW_SPARSE → fl_flow_state f = CAKE_FLOW_SPARSE /\ cake_flow_queue_len f <= 1.

Lemma bulk_goal tin' : (exists f', restated CAKE_FLOW_BULK f' tin') →
  exists st f', restated st f' tin' /\ st ≠ CAKE_FLOW_NONE /\ still_sparse st.
Proof. intros [f' H]. by exists CAKE_FLOW_BULK, f'. Qed.

Lemma promote_flow_ok :
  fl_flow_state f ≠ CAKE_FLOW_NONE →
  exists st f', restated st f' (promote_flow i tin) /\ st ≠ CAKE_FLOW_NONE /\ still_sparse st.
Proof.
  intros Hs. destruct flow_distinct as (N1 & N2 & N3 & X & Y).
  unfold promote_flow. rewrite (flow_at_eq _ _ _ Hf).
  assert (restated (fl_flow_state f) f tin) as Hsame.
  { split; [|by destruct f]. split; [by exists n, o, d|]. split; [|done]. apply Hstart. }
  pose proof (mid_upd _ _ _ _ _ _ _ (λ f, f⟪fl_flow_state := CAKE_FLOW_BULK⟫) Hstart
    ltac:(done) ltac:(done)) as M1.
  pose proof (md_threads _ _ _ _ _ _ _ M1) as Ht.
  destruct (fl_flow_state f) eqn:Es in |- *; [done| |by exists CAKE_FLOW_BULK, f; split; [rewrite <- Es|]|].
  - destruct (Z.ltb_spec 1 (cake_flow_queue_len f)); 
      [|by exists CAKE_FLOW_SPARSE, f; split; [rewrite <- Es|]].
    assert (i ∈ n) as Hi by (by apply Hstate). destruct (X i Hi) as [Xo Xd].
    destruct (listed_split i n N1 Hi) as (n1 & n2 & En & Hi1 & Hi2).
    rewrite En in Ht.
    destruct (mid_relink _ _ _ _ _ _ _ _ _ _ _ M1 (new_remove_ok _ _ _ _ _ _ Ht)) as (f2 & B2 & M2).
    apply bulk_goal. eapply (join_bulk _ _ _ _ _ M2 B2).
    + done.
    + clear - Hi1 Hi2. set_solver.
    + done.
    + done.
    + intros j Hj. by rewrite En, elem_of_removed.
    + by rewrite (proj1 (host_inc_heads _ _)).
    + rewrite (proj2 (host_inc_heads _ _)).
      transitivity (dec32 (counts tin).1.1, inc32 (counts tin).1.2, (counts tin).2).
      { appended_counts M2. }
      rewrite Hcounts. revert Hbound. rewrite En, !length_app. simpl. intros. count_lists.
  - assert (i ∈ d) as Hi by (by apply Hstate).
    destruct (listed_split i d N3 Hi) as (d1 & d2 & Ed & Hi1 & Hi2).
    rewrite Ed in Ht.
    destruct (mid_relink _ _ _ _ _ _ _ _ _ _ _ M1 (decaying_remove_ok _ _ _ _ _ _ Ht)) as (f2 & B2 & M2).
    apply bulk_goal. eapply (join_bulk _ _ _ _ _ M2 B2).
    + done.
    + intros Hx. by apply (X i Hx).
    + intros Hx. by apply (Y i Hx).
    + clear - Hi1 Hi2. set_solver.
    + intros j Hj. by rewrite Ed, elem_of_removed.
    + by rewrite (proj1 (host_inc_heads _ _)).
    + rewrite (proj2 (host_inc_heads _ _)).
      transitivity ((counts tin).1.1, inc32 (counts tin).1.2, (counts tin).2).
      { appended_counts M2. }
      rewrite Hcounts. revert Hbound. rewrite Ed, !length_app. simpl. intros. count_lists.
Qed.

(** The end of a restatement. *)
Lemma restated_intro n' o' d' st f1 tin1 tin2 :
  mid tin i f1 tin1 n' o' d' → body f1 = body (f⟪fl_flow_state := st⟫) →
  fl_flow_state f ≠ CAKE_FLOW_NONE → st ≠ CAKE_FLOW_NONE →
  heads tin2 = heads tin1 →
  (∀ j, j ≠ i → (j ∈ n' <-> j ∈ n) /\ (j ∈ o' <-> j ∈ o) /\ (j ∈ d' <-> j ∈ d)) →
  ((i ∈ n' <-> st = CAKE_FLOW_SPARSE) /\ (i ∈ o' <-> st = CAKE_FLOW_BULK) /\
   (i ∈ d' <-> st = CAKE_FLOW_DECAYING)) →
  counts tin2 = (Z.of_nat (length n'), Z.of_nat (length o'),
                 Z.of_nat (length n' + length o' + length d')) →
  restated st f1 tin2.
Proof.
  intros M B Hs Hst Hh Hj Hi Hc. destruct (body_same _ _ B) as (S1 & S2 & _).
  split; [|done]. apply (left_intro n' o' d').
  eapply (mid_finish _ _ _ _ _ _ _ _ _ _ _ _ _ Hok Hf M);
    [done|by apply S2, restate_ok|done|by rewrite S1|done].
Qed.

(** What the dequeue loop does to a bulk flow that ran empty. *)
Definition decay (tin : cake_tin_t) : cake_tin_t :=
  let tin := host_bulk_dec (fl_dst_host_idx (flow_at tin i)) tin in
  let tin := upd_flow i (λ f, f⟪fl_flow_state := CAKE_FLOW_DECAYING⟫) tin in
  (decaying_append i (old_remove i tin))⟪tn_bulk_flow_count ::= dec32⟫.

Lemma decay_ok :
  fl_flow_state f = CAKE_FLOW_BULK → exists f', restated CAKE_FLOW_DECAYING f' (decay tin).
Proof.
  intros Hs. destruct flow_distinct as (N1 & N2 & N3 & X & Y). unfold decay.
  destruct (host_dec_heads (fl_dst_host_idx (flow_at tin i)) tin) as [Hh Hc].
  set (t0 := host_bulk_dec _ _) in *.
  pose proof (mid_heads _ _ _ _ _ _ _ _ Hh Hc Hstart) as M0.
  pose proof (mid_upd _ _ _ _ _ _ _ (λ f, f⟪fl_flow_state := CAKE_FLOW_DECAYING⟫) M0
    ltac:(done) ltac:(done)) as M1.
  assert (i ∈ o) as Hi by (by apply Hstate).
  destruct (listed_split i o N2 Hi) as (o1 & o2 & Eo & Hi1 & Hi2).
  pose proof (md_threads _ _ _ _ _ _ _ M1) as Ht. rewrite Eo in Ht.
  destruct (mid_relink _ _ _ _ _ _ _ _ _ _ _ M1 (old_remove_ok _ _ _ _ _ _ Ht)) as (f2 & B2 & M2).
  assert (i ∉ n) as Hin by (intros Hx; by destruct (X i Hx)).
  pose proof (Y i Hi) as Hid.
  assert (i ∉ n ++ (o1 ++ o2) ++ d) as Hni by (clear - Hin Hi1 Hi2 Hid; set_solver).
  destruct (mid_relink _ _ _ _ _ _ _ _ _ _ _ M2
    (decaying_append_ok _ _ _ _ (md_threads _ _ _ _ _ _ _ M2) i Hni
       (mk_is_Some _ _ (md_at _ _ _ _ _ _ _ M2)))) as (f3 & B3 & M3).
  exists f3. eapply (restated_intro _ _ _ _ _ _ _ M3); try done; try congruence.
  - intros j Hj. by rewrite Eo, elem_of_removed, elem_of_snoc_ne.
  - clear - Hin Hi1 Hi2. set_solver.
  - transitivity ((counts tin).1.1, dec32 (counts tin).1.2, (counts tin).2).
    { rewrite <- (md_counts _ _ _ _ _ _ _ M3). reflexivity. }
    rewrite Hcounts. revert Hbound. rewrite Eo, !length_app. simpl. intros. count_lists.
Qed.

(** To the tail of the old list. *)
Lemma rotate_ok :
  fl_flow_state f = CAKE_FLOW_BULK →
  exists f', restated CAKE_FLOW_BULK f' (old_append i (old_remove i tin)).
Proof.
  intros Hs. destruct flow_distinct as (N1 & N2 & N3 & X & Y).
  assert (i ∈ o) as Hi by (by apply Hstate).
  destruct (listed_split i o N2 Hi) as (o1 & o2 & Eo & Hi1 & Hi2).
  pose proof (md_threads _ _ _ _ _ _ _ Hstart) as Ht. rewrite Eo in Ht.
  destruct (mid_relink _ _ _ _ _ _ _ _ _ _ _ Hstart (old_remove_ok _ _ _ _ _ _ Ht)) as (f2 & B2 & M2).
  assert (i ∉ n) as Hin by (intros Hx; by destruct (X i Hx)).
  pose proof (Y i Hi) as Hid.
  assert (i ∉ n ++ (o1 ++ o2) ++ d) as Hni by (clear - Hin Hi1 Hi2 Hid; set_solver).
  destruct (mid_relink _ _ _ _ _ _ _ _ _ _ _ M2
    (old_append_ok _ _ _ _ (md_threads _ _ _ _ _ _ _ M2) i Hni
       (mk_is_Some _ _ (md_at _ _ _ _ _ _ _ M2)))) as (f3 & B3 & M3).
  exists f3. eapply (restated_intro _ _ _ _ _ _ _ M3); try done; try congruence.
  - rewrite B3, B2. rewrite <- Hs. by destruct f.
  - intros j Hj. by rewrite Eo, elem_of_snoc_ne, elem_of_removed.
  - clear - Hin Hi1 Hi2 Hid. set_solver.
  - rewrite (md_counts _ _ _ _ _ _ _ M3), Hcounts. rewrite Eo, !length_app. simpl. count_lists.
Qed.

(** ** Closing a flow *)

(** The lists without flow [i]. *)
Definition without (l l' : list Z) : Prop := i ∉ l' /\ ∀ j, j ≠ i → (j ∈ l' <-> j ∈ l).

Lemma close_ok n' o' d' f1 tin1 tin2 :
  mid tin i f1 tin1 n' o' d' → without n n' → without o o' → without d d' →
  heads tin2 = heads (set_flow i flow_zero tin1) →
  counts tin2 = (Z.of_nat (length n'), Z.of_nat (length o'),
                 Z.of_nat (length n' + length o' + length d')) →
  flow_left flow_zero tin2.
Proof.
  intros M [N1 N2] [O1 O2] [D1 D2] Hh Hc. apply (left_intro n' o' d').
  pose proof (mid_set_unlisted _ _ _ flow_zero _ _ _ _ M ltac:(clear - N1 O1 D1; set_solver)) as M'.
  eapply (mid_finish _ _ _ _ _ _ _ _ _ _ _ _ _ Hok Hf M');
    [done|apply flow_zero_ok| | |done].
  - intros j Hj. by rewrite (N2 j Hj), (O2 j Hj), (D2 j Hj).
  - by repeat split.
Qed.

Lemma without_remove l l1 l2 : l = l1 ++ i :: l2 → i ∉ l1 → i ∉ l2 → without l (l1 ++ l2).
Proof. intros -> H1 H2. split; [set_solver|]. intros j Hj. set_solver. Qed.

Lemma without_same l : i ∉ l → without l l.
Proof. by split. Qed.

(** An empty flow of the new or of the decaying list is given back. *)
Lemma reclaim_ok (cs : cake_sched_t) now rm :
  (fl_flow_state f = CAKE_FLOW_SPARSE /\ rm = new_remove \/
   fl_flow_state f = CAKE_FLOW_DECAYING /\ rm = decaying_remove) →
  cake_flow_queue_len f = 0 →
  exists tin', cake_flow_reclaim rm cs i now tin = Some (tin', []) /\ flow_left flow_zero tin'.
Proof.
  intros Hrm Hl. destruct flow_distinct as (N1 & N2 & N3 & X & Y).
  unfold cake_flow_reclaim.
  set (g := λ f, cobalt_queue_empty f _ _ _ now).
  assert (outer (g f) = outer f) as Hg by apply outer_queue_empty.
  assert (flow_ok lens (g f)) as Hgf
    by (eapply flow_ok_outer; [exact Hg|apply queue_empty_ok; apply Hflow|exact Hflow]).
  pose proof (f_equal (λ o, o.1.1.1.2) Hg) as Hlk. simpl in Hlk. injection Hlk as Hnx Hpv.
  pose proof (mid_upd _ _ _ _ _ _ _ g Hstart Hnx Hpv) as M1.
  pose proof (md_threads _ _ _ _ _ _ _ M1) as Ht.
  destruct (outer_queue _ _ Hg) as (Q1 & Q2 & Q3).
  destruct Hrm as [[Hs ->]|[Hs ->]].
  - assert (i ∈ n) as Hi by (by apply Hstate). destruct (X i Hi) as [Xo Xd].
    destruct (listed_split i n N1 Hi) as (n1 & n2 & En & Hi1 & Hi2). rewrite En in Ht.
    destruct (mid_relink _ _ _ _ _ _ _ _ _ _ _ M1 (new_remove_ok _ _ _ _ _ _ Ht)) as (f2 & B2 & M2).
    destruct (body_same _ _ B2) as (S1 & S2 & _ & S4 & _).
    rewrite (flow_at_eq _ _ _ (md_at _ _ _ _ _ _ _ M2)).
    destruct (ring_free_ok lens f2 (S2 _ Hgf)) as (f3 & -> & [= E1 _ _ _]).
    cbn [mbind option_bind].
    rewrite (queue_nil f2) by congruence. rewrite E1, S1, Q3, Hs.
    eexists. split; [reflexivity|].
    eapply (close_ok _ _ _ _ _ _ M2);
      [by eapply without_remove|by apply without_same|by apply without_same|done|].
    transitivity (dec32 (counts tin).1.1, (counts tin).1.2, dec32 (counts tin).2).
    { by rewrite <- (md_counts _ _ _ _ _ _ _ M2). }
    rewrite Hcounts. revert Hbound. rewrite En, !length_app. simpl. intros. count_lists.
  - assert (i ∈ d) as Hi by (by apply Hstate).
    destruct (listed_split i d N3 Hi) as (d1 & d2 & Ed & Hi1 & Hi2). rewrite Ed in Ht.
    destruct (mid_relink _ _ _ _ _ _ _ _ _ _ _ M1 (decaying_remove_ok _ _ _ _ _ _ Ht)) as (f2 & B2 & M2).
    destruct (body_same _ _ B2) as (S1 & S2 & _ & S4 & _).
    rewrite (flow_at_eq _ _ _ (md_at _ _ _ _ _ _ _ M2)).
    destruct (ring_free_ok lens f2 (S2 _ Hgf)) as (f3 & -> & [= E1 _ _ _]).
    cbn [mbind option_bind].
    rewrite (queue_nil f2) by congruence. rewrite E1, S1, Q3, Hs.
    eexists. split; [reflexivity|].
    eapply (close_ok _ _ _ _ _ _ M2);
      [apply without_same; intros Hx; by destruct (X i Hx)
      |apply without_same; intros Hx; by apply (Y i Hx)|by eapply without_remove|done|].
    transitivity ((counts tin).1.1, (counts tin).1.2, dec32 (counts tin).2).
    { by rewrite <- (md_counts _ _ _ _ _ _ _ M2). }
    rewrite Hcounts. revert Hbound. rewrite Ed, !length_app. simpl. intros. count_lists.
Qed.

(** Taking a flow off its list with its counts, and zeroing it. *)
Lemma unlist_ok ef tin0 :
  mid tin i ef tin0 n o d → fl_flow_state ef = fl_flow_state f →
  flow_left flow_zero (set_flow i flow_zero (unlist_flow i ef tin0)).
Proof.
  intros M Hst. destruct flow_distinct as (N1 & N2 & N3 & X & Y). unfold unlist_flow. rewrite Hst.
  pose proof (md_threads _ _ _ _ _ _ _ M) as Ht.
  destruct (fl_flow_state f) eqn:Es in |- *; cbn [bool_decide decide_rel]; simpl.
  - pose proof (unlisted _ _ _ _ _ Hok i f Hf Es) as Hni. rewrite !elem_of_app in Hni.
    eapply (close_ok _ _ _ _ _ _ M); [apply without_same..|done|]; try tauto.
    by rewrite <- Hcounts, <- (md_counts _ _ _ _ _ _ _ M).
  - assert (i ∈ n) as Hi by (by apply Hstate). destruct (X i Hi) as [Xo Xd].
    destruct (listed_split i n N1 Hi) as (n1 & n2 & En & Hi1 & Hi2). rewrite En in Ht.
    destruct (mid_relink _ _ _ _ _ _ _ _ _ _ _ M (new_remove_ok _ _ _ _ _ _ Ht)) as (f2 & B2 & M2).
    eapply (close_ok _ _ _ _ _ _ M2);
      [by eapply without_remove|by apply without_same|by apply without_same|done|].
    transitivity (dec32 (counts tin).1.1, (counts tin).1.2, dec32 (counts tin).2).
    { by rewrite <- (md_counts _ _ _ _ _ _ _ M2). }
    rewrite Hcounts. revert Hbound. rewrite En, !length_app. simpl. intros. count_lists.
  - assert (i ∈ o) as Hi by (by apply Hstate).
    destruct (listed_split i o N2 Hi) as (o1 & o2 & Eo & Hi1 & Hi2). rewrite Eo in Ht.
    destruct (mid_relink _ _ _ _ _ _ _ _ _ _ _ M (old_remove_ok _ _ _ _ _ _ Ht)) as (f2 & B2 & M2).
    set (t1 := (old_remove i tin0)⟪tn_bulk_flow_count ::= dec32⟫).
    destruct (host_dec_heads (fl_dst_host_idx ef) t1) as [Hh Hc].
    eapply (close_ok _ _ _ _ _ _ M2);
      [apply without_same; intros Hx; by destruct (X i Hx)|by eapply without_remove
      |apply without_same; by apply Y| |].
    + transitivity (heads (set_flow i flow_zero t1)); [|done]. exact (heads_set i flow_zero _ _ Hh).
    + transitivity ((counts t1).1.1, (counts t1).1.2, dec32 (counts t1).2); [by rewrite <- Hc|].
      transitivity ((counts tin).1.1, dec32 (counts tin).1.2, dec32 (counts tin).2).
      { by rewrite <- (md_counts _ _ _ _ _ _ _ M2). }
      rewrite Hcounts. revert Hbound. rewrite Eo, !length_app. simpl. intros. count_lists.
  - assert (i ∈ d) as Hi by (by apply Hstate).
    destruct (listed_split i d N3 Hi) as (d1 & d2 & Ed & Hi1 & Hi2). rewrite Ed in Ht.
    destruct (mid_relink _ _ _ _ _ _ _ _ _ _ _ M (decaying_remove_ok _ _ _ _ _ _ Ht)) as (f2 & B2 & M2).
    eapply (close_ok _ _ _ _ _ _ M2);
      [apply without_same; intros Hx; by destruct (X i Hx)
      |apply without_same; intros Hx; by apply (Y i Hx)|by eapply without_remove|done|].
    transitivity ((counts tin).1.1, (counts tin).1.2, dec32 (counts tin).2).
    { by rewrite <- (md_counts _ _ _ _ _ _ _ M2). }
    rewrite Hcounts. revert Hbound. rewrite Ed, !length_app. simpl. intros. count_lists.
Qed.

(** Discarding a flow gives up exactly what it holds: its buffers are freed, and the
    scheduler's occupancy loses their number and bytes. *)
Lemma evict_ok aggs cs :
  tree_ok aggs →
  exists aggs' cs' tin' u q dr,
    cake_flow_evict aggs cs tin i = Some (aggs', cs', tin', queue f) /\
    same_bones aggs aggs' /\ flow_left flow_zero tin' /\
    cs' = cs⟪cs_buffer_usage := u⟫⟪cs_queued_buffers := q⟫⟪cs_dropped_pkts := dr⟫ /\
    (cake_flow_queue_len f = 0 /\ u = cs_buffer_usage cs /\ q = cs_queued_buffers cs \/
     u = u32 (cs_buffer_usage cs - fl_backlog_bytes f) /\
     q = u32 (cs_queued_buffers cs - cake_flow_queue_len f)).
Proof.
  intros Ht. unfold cake_flow_evict, cake_flow_discard. rewrite (flow_at_eq _ _ _ Hf).
  destruct (Z.eqb_spec (cake_flow_queue_len f) 0) as [E|E].
  - destruct (ring_free_ok lens f Hflow) as (f' & Hfree & [= S1 S2 S3 S4]).
    cbn [mbind option_bind]. rewrite Hfree. cbn [mbind option_bind].
    pose proof (mid_set _ _ _ f' _ _ _ _ Hstart S2 S3) as M.
    eexists aggs, cs, _, (cs_buffer_usage cs), (cs_queued_buffers cs), (cs_dropped_pkts cs).
    split; [reflexivity|]. split; [done|]. split; [by apply unlist_ok|].
    split; [|by left]. by destruct cs.
  - destruct (discharge_bones aggs cs (fl_backlog_bytes f) Ht) as (aggs' & -> & Hb).
    cbn [mbind option_bind]. set (f0 := f⟪fl_backlog_bytes := 0⟫).
    destruct (ring_free_spec f0 (fo_ring _ _ Hflow) (no_ring_empty _ _ Hflow))
      as (f' & Hfree & [= S1 S2 S3 S4]). rewrite Hfree. cbn [mbind option_bind].
    set (tin0 := tin⟪tn_drops ::= add64 (cake_flow_queue_len f)⟫).
    assert (mid tin i f tin0 n o d) as M0 by (by apply (mid_heads _ _ _ tin)).
    pose proof (mid_set _ _ _ f' _ _ _ _ M0 S2 S3) as M.
    do 6 eexists. split; [reflexivity|]. split; [exact Hb|].
    split; [apply (unlist_ok f' (set_flow i f' tin0)); [exact M|exact S1]|].
    split; [reflexivity|]. by right.
Qed.

End Moves.
