(* ===== verification/CakeSched.v ===== *)
(** The invariant of a scheduler, and what the enqueue node does to it.

    [sched_ok] says that every tin is well formed and that the scheduler's two
    occupancy counters are the number and the bytes of the packets its flows hold,
    modulo their 32 bits.  [held h] is the sum of [h] over the queued buffers: an
    equation on it for every [h] is one on the multiset of the queued buffers. *)

From S2P Require Import Prelude Dll Drr CakeTypes Cobalt CakeFlow CakeHier CakeEnqueue CakeDequeue.
From S2P Require Import CakeTin CakeMoves.

Definition ssum (g : cake_flow_t → Z) (cs : cake_sched_t) : Z :=
  zsum (map (λ tin, msum g (tn_flows tin)) (cs_tins cs)).

(** The sum of [h] over the buffers a scheduler holds. *)
Definition held (h : Z → Z) (cs : cake_sched_t) : Z := ssum (qsum h) cs.
Definition total (h : Z → Z) (l : list Z) : Z := zsum (map h l).

Definition lens_of (bufs : gmap Z vlib_buffer_t) : gmap Z Z := bf_length_in_chain <$> bufs.

(** The configuration the packet path reads and never writes. *)
Definition shape (cs : cake_sched_t) :=
  (cs_n_tins cs, cs_overhead_bytes cs, cs_mpu cs, cs_owner_thread cs, cs_sched_index cs).

Record sched_ok (lens : gmap Z Z) (cs : cake_sched_t) : Prop := {
  sk_tins : ∀ t tin, cs_tins cs !! t = Some tin → tin_ok lens tin;
  sk_n_tins : cs_n_tins cs = Z.of_nat (length (cs_tins cs)) /\ 1 <= cs_n_tins cs <= 8;
  sk_usage : cs_buffer_usage cs = u32 (held (len_in lens) cs);
  sk_queued : cs_queued_buffers cs = u32 (ssum cake_flow_queue_len cs);
  sk_link : - 2 ^ 15 <= cs_overhead_bytes cs < 2 ^ 15 /\ 0 <= cs_mpu cs < 2 ^ 8
}.

Lemma qlen_link_free : link_free cake_flow_queue_len.
Proof. done. Qed.

Lemma ssum_step g cs cs' t tin tin' i f f' :
  link_free g → cs_tins cs !! t = Some tin → cs_tins cs' = <[t := tin']> (cs_tins cs) →
  tn_flows tin !! i = Some f → moved i f' tin tin' →
  ssum g cs' = ssum g cs - g f + g f'.
Proof.
  intros Hg Ht Ht' Hf Hm. unfold ssum. rewrite Ht'.
  rewrite (zsum_insert _ _ _ _ _ Ht), (fsum_moved g i f f' tin tin' Hg Hf Hm). lia.
Qed.

(** One flow of one tin changes, and the counters with it. *)
Lemma sched_step lens cs cs' t tin tin' i f f' :
  sched_ok lens cs → cs_tins cs !! t = Some tin → cs_tins cs' = <[t := tin']> (cs_tins cs) →
  tn_flows tin !! i = Some f → tin_ok lens tin' → moved i f' tin tin' →
  shape cs' = shape cs →
  cs_buffer_usage cs' = u32 (cs_buffer_usage cs - qsum (len_in lens) f + qsum (len_in lens) f') →
  cs_queued_buffers cs' =
    u32 (cs_queued_buffers cs - cake_flow_queue_len f + cake_flow_queue_len f') →
  sched_ok lens cs' /\ ∀ h, held h cs' = held h cs - qsum h f + qsum h f'.
Proof.
  intros Hok Ht Ht' Hf Htin Hm [= Hs1 Hs2 Hs3 _ _] Hu Hq.
  assert (∀ h, held h cs' = held h cs - qsum h f + qsum h f') as Hh
    by (intros h; eapply ssum_step; eauto using qsum_link_free).
  split; [|done]. destruct Hok as [K1 K2 K3 K4 K5]. constructor.
  - intros t0 tin0. rewrite Ht'. destruct (decide (t0 = t)) as [->|Hne].
    + rewrite list_lookup_insert_eq by (by eapply lookup_lt_Some). by intros [= <-].
    + rewrite list_lookup_insert_ne by done. apply K1.
  - by rewrite Hs1, Ht', length_insert.
  - rewrite Hu, Hh, K3. apply u32_cong3.
  - rewrite Hq, K4, (ssum_step _ _ _ _ _ _ _ _ _ qlen_link_free Ht Ht' Hf Hm). apply u32_cong3.
  - by rewrite Hs2, Hs3.
Qed.

(** Nothing the invariant looks at. *)
Lemma sched_same lens cs cs' :
  sched_ok lens cs → cs_tins cs' = cs_tins cs → shape cs' = shape cs →
  cs_buffer_usage cs' = cs_buffer_usage cs → cs_queued_buffers cs' = cs_queued_buffers cs →
  sched_ok lens cs' /\ ∀ h, held h cs' = held h cs.
Proof.
  intros [K1 K2 K3 K4 K5] Ht [= Hs1 Hs2 Hs3 _ _] Hu Hq.
  assert (∀ g, ssum g cs' = ssum g cs) as E by (intros; unfold ssum; by rewrite Ht).
  split; [|intros h; apply E]. constructor; rewrite ?Ht, ?Hs1, ?Hs2, ?Hs3, ?Hu, ?Hq; try done.
  - rewrite K3. unfold held. by rewrite E.
  - by rewrite K4, E.
Qed.

(** A tin whose flows are as they were. *)
Lemma sched_tin_same lens cs cs' t tin tin' :
  sched_ok lens cs → cs_tins cs !! t = Some tin → cs_tins cs' = <[t := tin']> (cs_tins cs) →
  links tin' = links tin → shape cs' = shape cs →
  cs_buffer_usage cs' = cs_buffer_usage cs → cs_queued_buffers cs' = cs_queued_buffers cs →
  sched_ok lens cs' /\ ∀ h, held h cs' = held h cs.
Proof.
  intros [K1 K2 K3 K4 K5] Ht Ht' Hl [= Hs1 Hs2 Hs3 _ _] Hu Hq.
  assert (∀ g, ssum g cs' = ssum g cs) as E.
  { intros g. unfold ssum. rewrite Ht', (zsum_insert _ _ _ _ _ Ht).
    injection Hl as -> _ _ _ _ _ _ _ _ _. lia. }
  split; [|intros h; apply E]. constructor; rewrite ?Hs1, ?Hs2, ?Hs3, ?Hu, ?Hq; try done.
  - intros t0 tin0. rewrite Ht'. destruct (decide (t0 = t)) as [->|Hne].
    + rewrite list_lookup_insert_eq by (by eapply lookup_lt_Some). intros [= <-].
      destruct (K1 _ _ Ht) as (n & o & d & Hat). exists n, o, d. by eapply tin_at_links.
    + rewrite list_lookup_insert_ne by done. apply K1.
  - by rewrite Ht', length_insert.
  - rewrite K3. unfold held. by rewrite E.
  - by rewrite K4, E.
Qed.

(** ** Sparse flows are fresh *)

(** A sparse flow holds at most one packet and has credit: it is served once. *)
Definition fresh_flow (f : cake_flow_t) : Prop :=
  fl_flow_state f = CAKE_FLOW_SPARSE → cake_flow_queue_len f <= 1 /\ 0 < fl_deficit f.

Definition fresh (cs : cake_sched_t) : Prop :=
  ∀ t tin i f, cs_tins cs !! t = Some tin → tn_flows tin !! i = Some f → fresh_flow f.

Lemma fresh_body f f' : body f = body f' → fresh_flow f' → fresh_flow f.
Proof.
  intros B Hf. destruct (body_same _ _ B) as (S1 & _ & _ & S4 & S5).
  unfold fresh_flow. by rewrite S1, S4, S5.
Qed.

Lemma fresh_outer f f' : outer f' = outer f → fresh_flow f → fresh_flow f'.
Proof.
  intros Ho Hf. destruct (outer_queue f f' Ho) as (_ & Hl & Hs).
  pose proof (f_equal (λ o, o.1.1.1.1.2) Ho) as Hd. simpl in Hd.
  unfold fresh_flow. by rewrite Hl, Hs, Hd.
Qed.

(** Every flow but one. *)
Definition fresh_but (t : nat) (i : Z) (cs : cake_sched_t) : Prop :=
  ∀ t' tin j f, cs_tins cs !! t' = Some tin → tn_flows tin !! j = Some f →
    ~ (t' = t /\ j = i) → fresh_flow f.

Lemma fresh_fresh_but t i cs : fresh cs → fresh_but t i cs.
Proof. intros Hfr t' tin j f Ht Hf _. by eapply Hfr. Qed.

Lemma fresh_but_step cs cs' t tin tin' i f' :
  fresh_but t i cs → cs_tins cs !! t = Some tin → cs_tins cs' = <[t := tin']> (cs_tins cs) →
  moved i f' tin tin' → fresh_but t i cs'.
Proof.
  intros Hfr Ht Ht' Hm t0 tin0 j g. rewrite Ht'. destruct (decide (t0 = t)) as [->|Hne].
  - rewrite list_lookup_insert_eq by (by eapply lookup_lt_Some). intros [= <-] Hg Hj.
    destruct (moved_other _ _ _ _ _ _ Hm ltac:(intros E; by apply Hj) Hg) as (g0 & Hg0 & Hb).
    eapply fresh_body; [exact Hb|]. by eapply Hfr.
  - rewrite list_lookup_insert_ne by done. apply Hfr.
Qed.

Lemma fresh_but_fresh t i cs tin f :
  fresh_but t i cs → cs_tins cs !! t = Some tin → tn_flows tin !! i = Some f → fresh_flow f →
  fresh cs.
Proof.
  intros Hfr Ht Hf Hff t' tin' j g Ht' Hg. destruct (decide (t' = t /\ j = i)) as [[E1 E2]|Hne].
  - subst t' j. rewrite Ht in Ht'. by simplify_eq.
  - by eapply Hfr.
Qed.

Lemma fresh_step cs cs' t tin tin' i f' :
  fresh_but t i cs → cs_tins cs !! t = Some tin → cs_tins cs' = <[t := tin']> (cs_tins cs) →
  moved i f' tin tin' → fresh_flow f' → fresh cs'.
Proof.
  intros Hfr Ht Ht' Hm Hf'. destruct (moved_at _ _ _ _ Hm) as (f1 & Hf1 & Hb).
  eapply fresh_but_fresh; [by eapply fresh_but_step| |exact Hf1|by eapply fresh_body].
  rewrite Ht'. apply list_lookup_insert_eq. by eapply lookup_lt_Some.
Qed.

Lemma fresh_same cs cs' t tin tin' :
  fresh cs → cs_tins cs !! t = Some tin → cs_tins cs' = <[t := tin']> (cs_tins cs) →
  tn_flows tin' = tn_flows tin → fresh cs'.
Proof.
  intros Hfr Ht Ht' Hm t0 tin0 j g. rewrite Ht'. destruct (decide (t0 = t)) as [->|Hne].
  - rewrite list_lookup_insert_eq by (by eapply lookup_lt_Some). intros [= <-]. rewrite Hm.
    by apply (Hfr t).
  - rewrite list_lookup_insert_ne by done. apply Hfr.
Qed.

(** ** A tin taken out of its scheduler *)

Definition with_tin (t : nat) (tin : cake_tin_t) (cs : cake_sched_t) : cake_sched_t :=
  cs⟪cs_tins ::= <[t := tin]>⟫.

Lemma with_tin_id t tin cs : cs_tins cs !! t = Some tin → with_tin t tin cs = cs.
Proof. intros H. unfold with_tin, upd. rewrite list_insert_id by done. by destruct cs. Qed.

Lemma with_tin_at t tin cs : (t < length (cs_tins cs))%nat →
  cs_tins (with_tin t tin cs) !! t = Some tin.
Proof. intros H. unfold with_tin. rsimpl. by rewrite list_lookup_insert_eq. Qed.

Lemma with_tin_tins t tin tin' cs cs' : cs_tins cs' = cs_tins cs →
  cs_tins (with_tin t tin' cs') = <[t := tin']> (cs_tins (with_tin t tin cs)).
Proof. intros H. unfold with_tin. rsimpl. by rewrite H, list_insert_insert_eq. Qed.

(** [holds lens t tin cs q]: the scheduler with [tin] put back is well formed and
    holds what [q] says. *)
Definition holds (lens : gmap Z Z) (t : nat) (tin : cake_tin_t) (cs : cake_sched_t)
    (q : (Z → Z) → Z) : Prop :=
  (sched_ok lens (with_tin t tin cs) /\ fresh (with_tin t tin cs)) /\
  (t < length (cs_tins cs))%nat /\ ∀ h, held h (with_tin t tin cs) = q h.

Section Holds.

Context (lens : gmap Z Z) (t : nat) (tin : cake_tin_t) (cs : cake_sched_t) (q : (Z → Z) → Z).
Hypothesis Hh : holds lens t tin cs q.

Lemma holds_tin : tin_ok lens tin.
Proof.
  destruct Hh as ((Hok & _) & Hlt & _). apply (sk_tins _ _ Hok t). by apply with_tin_at.
Qed.

Lemma holds_step cs' tin' i f f' :
  tn_flows tin !! i = Some f → tin_ok lens tin' → moved i f' tin tin' →
  cs_tins cs' = cs_tins cs → shape cs' = shape cs →
  cs_buffer_usage cs' = u32 (cs_buffer_usage cs - qsum (len_in lens) f + qsum (len_in lens) f') →
  cs_queued_buffers cs' =
    u32 (cs_queued_buffers cs - cake_flow_queue_len f + cake_flow_queue_len f') →
  fresh_flow f' →
  holds lens t tin' cs' (λ h, q h - qsum h f + qsum h f').
Proof.
  intros Hf Htin Hm Ht Hs Hu Hq Hfr'. destruct Hh as ((Hok & Hfr) & Hlt & Hq0).
  destruct (sched_step lens (with_tin t tin cs) (with_tin t tin' cs') t tin tin' i f f')
    as [H1 H2]; try done; [by apply with_tin_at|by apply with_tin_tins|].
  split; [split; [done|]|split; [by rewrite Ht|intros h; by rewrite H2, Hq0]].
  eapply fresh_step; [by apply fresh_fresh_but|by apply with_tin_at|by apply with_tin_tins|done|done].
Qed.

(** A flow changed without its queue. *)
Lemma holds_quiet cs' tin' i f f' :
  tn_flows tin !! i = Some f → tin_ok lens tin' → moved i f' tin tin' →
  queue f' = queue f → cake_flow_queue_len f' = cake_flow_queue_len f →
  cs_tins cs' = cs_tins cs → shape cs' = shape cs →
  cs_buffer_usage cs' = cs_buffer_usage cs → cs_queued_buffers cs' = cs_queued_buffers cs →
  fresh_flow f' → holds lens t tin' cs' q.
Proof.
  intros Hf Htin Hm Hqu Hql Ht Hs Hu Hq Hfr. destruct Hh as ((Hok & _) & _ & _).
  assert (∀ h, qsum h f' = qsum h f) as E by (intros; unfold qsum; by rewrite Hqu).
  pose proof (sk_usage _ _ Hok) as U. pose proof (sk_queued _ _ Hok) as Q.
  change (cs_buffer_usage (with_tin t tin cs)) with (cs_buffer_usage cs) in U.
  change (cs_queued_buffers (with_tin t tin cs)) with (cs_queued_buffers cs) in Q.
  destruct (holds_step cs' tin' i f f') as (H1 & H2 & H3); try done.
  - rewrite Hu, E, Z.sub_add, U. symmetry. apply u32_small, u32_range.
  - rewrite Hq, Hql, Z.sub_add, Q. symmetry. apply u32_small, u32_range.
  - split; [done|]. split; [done|]. intros h. rewrite H3, E. lia.
Qed.

Lemma holds_same cs' tin' :
  links tin' = links tin → cs_tins cs' = cs_tins cs → shape cs' = shape cs →
  cs_buffer_usage cs' = cs_buffer_usage cs → cs_queued_buffers cs' = cs_queued_buffers cs →
  holds lens t tin' cs' q.
Proof.
  intros Hl Ht Hs Hu Hq. destruct Hh as ((Hok & Hfr) & Hlt & Hq0).
  destruct (sched_tin_same lens (with_tin t tin cs) (with_tin t tin' cs') t tin tin') as [H1 H2];
    try done; [by apply with_tin_at|by apply with_tin_tins|].
  split; [split; [done|]|split; [by rewrite Ht|intros h; by rewrite H2]].
  eapply fresh_same; [exact Hfr|by apply with_tin_at|by apply with_tin_tins|].
  by injection Hl.
Qed.

End Holds.

Lemma holds_fresh lens t tin cs q i f :
  holds lens t tin cs q → tn_flows tin !! i = Some f → fresh_flow f.
Proof. intros ((_ & Hfr) & Hlt & _) Hf. eapply Hfr; [by apply with_tin_at|done]. Qed.

(** ** The flow table *)

Lemma backlog_bound lens f : flow_ok lens f → 0 <= fl_backlog_bytes f < 2 ^ 32 - 1.
Proof.
  intros [H1 _ _ _ H5 H6]. rewrite H6.
  assert (0 <= qsum (len_in lens) f <= 65535 * Z.of_nat (length (queue f))) as Hb.
  { unfold qsum. induction H5 as [|bi l (x & Hx & Hr) _ IH]; [done|].
    change (zsum (map (len_in lens) (bi :: l))) with (len_in lens bi + zsum (map (len_in lens) l)).
    assert (len_in lens bi = x) as -> by (unfold len_in; by rewrite Hx).
    rewrite length_cons. lia. }
  rewrite queue_length in Hb. destruct H1 as (_ & _ & H1). unfold CAKE_FLOW_RING_SIZE in H1.
  rewrite u32_small by (unfold is_u32; lia). lia.
Qed.

Lemma set_base_range tag : 0 <= set_base_of tag /\ set_base_of tag + CAKE_SET_WAYS <= CAKE_QUEUES.
Proof.
  unfold set_base_of. change CAKE_SET_COUNT with 128. change CAKE_QUEUES with 1024.
  change CAKE_SET_WAYS with 8. pose proof (Z.mod_pos_bound tag 128). lia.
Qed.

(** Claiming a slot for a tag gives one of the table, and frees what it evicts. *)
Lemma claim_ok lens t tin cs q aggs tag :
  tree_ok aggs → holds lens t tin cs q → tag ≠ 0 →
  exists aggs' cs' tin' i freed ev,
    claim_slot aggs cs tin tag = Some (aggs', cs', tin', i, freed, ev) /\
    same_bones aggs aggs' /\
    holds lens t tin' cs' (λ h, q h - total h freed) /\ 0 <= i < CAKE_QUEUES /\
    cs_tins cs' = cs_tins cs /\ shape cs' = shape cs /\ cs_drr cs' = cs_drr cs.
Proof.
  intros Htr Hh Htag. destruct (holds_tin _ _ _ _ _ Hh) as (n & o & d & Hok).
  unfold claim_slot. pose proof (set_base_range tag) as Hb.
  assert (∀ j, 0 <= backlog_at tin j < 2 ^ 32 - 1) as Hbl.
  { intros j. unfold backlog_at, flow_at. destruct (tn_flows tin !! j) as [f|] eqn:Hf; [|done].
    eapply backlog_bound, (ta_flows _ _ _ _ _ Hok _ _ Hf). }
  pose proof (flow_lookup_spec tin tag (set_base_of tag) Htag Hbl) as Hl. cbv zeta in Hl.
  destruct (cake_flow_lookup tin tag (set_base_of tag)) as [[tin1 found] evict] eqn:E.
  destruct Hl as [Hsame Hl].
  assert (links tin1 = links tin) as Hlk by (rewrite <- Hsame; done).
  destruct found as [i|].
  - destruct Hl as (Hi & _). do 6 eexists. split; [reflexivity|].
    split; [done|]. split; [|split; [lia|done]].
    destruct (holds_same _ _ _ _ _ Hh cs tin1 Hlk) as (H1 & H2 & H3); try done.
    split; [done|]. split; [done|]. intros h. rewrite H3. unfold total. simpl. lia.
  - destruct Hl as (-> & _ & e & -> & He & _). simpl.
    assert (0 <= e < CAKE_QUEUES) as Her by lia.
    destruct (proj2 (ta_table _ _ _ _ _ Hok e) Her) as [f Hf].
    destruct (evict_ok lens n o d tin e f Hok Hf aggs cs Htr)
      as (aggs' & cs' & tin' & u & qb & dr & -> & Hbo & (Hleft & Hm & Hat) & Hcs & Hc).
    pose proof (ta_flows _ _ _ _ _ Hok _ _ Hf) as Hfo.
    assert (u = u32 (cs_buffer_usage cs - qsum (len_in lens) f) /\
            qb = u32 (cs_queued_buffers cs - cake_flow_queue_len f)) as [-> ->].
    { destruct Hc as [(E1 & -> & ->)|[-> ->]].
      - unfold qsum. rewrite (queue_nil f E1), E1. change (zsum (map _ [])) with 0.
        rewrite !Z.sub_0_r. destruct Hh as ((Hs & _) & _).
        pose proof (sk_usage _ _ Hs) as U. pose proof (sk_queued _ _ Hs) as Q.
        change (cs_buffer_usage (with_tin t tin cs)) with (cs_buffer_usage cs) in U.
        change (cs_queued_buffers (with_tin t tin cs)) with (cs_queued_buffers cs) in Q.
        rewrite U, Q. split; symmetry; apply u32_small, u32_range.
      - split; [|done]. rewrite (fo_backlog _ _ Hfo). ints. }
    do 6 eexists. split; [reflexivity|]. split; [exact Hbo|].
    destruct (holds_step _ _ _ _ _ Hh cs' tin' e f flow_zero) as (H1 & H2 & H3);
      try done; try (by rewrite Hcs).
    + rewrite Hcs. rsimpl. change (qsum (len_in lens) flow_zero) with 0. by rewrite Z.add_0_r.
    + rewrite Hcs. rsimpl. change (cake_flow_queue_len flow_zero) with 0. by rewrite Z.add_0_r.
    + split; [|split; [lia|by rewrite Hcs]].
      apply (holds_same _ _ tin' cs' _); [|done..].
      split; [done|]. split; [done|]. intros h. rewrite H3. unfold total.
      change (qsum h flow_zero) with 0. unfold qsum. lia.
Qed.

(** ** One packet enqueued *)

Lemma push_ok lens f bi l :
  flow_ok lens f → fl_flow_state f ≠ CAKE_FLOW_NONE →
  cake_flow_queue_len f < CAKE_FLOW_RING_SIZE → lens !! bi = Some l → 0 <= l < 2 ^ 16 →
  let f' := (ring_push f bi)⟪fl_backlog_bytes ::= λ u, u32 (u + l)⟫ in
  flow_ok lens f' /\ (∀ h, qsum h f' = qsum h f + h bi) /\
  cake_flow_queue_len f' = cake_flow_queue_len f + 1.
Proof.
  intros Hf Hs Hlt Hl Hr f'. pose proof Hf as [H1 H2 H3 H4 H5 H6].
  assert (is_Some (fl_ring f)) as Hring by (by destruct (fl_flow_state f)).
  assert (queue f' = queue f ++ [bi]) as Hq by (exact (queue_push f bi H1 Hring Hlt)).
  assert (∀ h, qsum h f' = qsum h f + h bi) as Hsum.
  { intros h. unfold qsum. rewrite Hq, map_app, zsum_app. unfold zsum. simpl. lia. }
  split; [|split; [done|exact (queue_len_push f bi H1 Hlt)]]. constructor; try done.
  - exact (ring_push_ok f bi H1 Hlt).
  - change (match fl_flow_state f with
            | CAKE_FLOW_NONE => fl_ring f' = None /\ cake_flow_queue_len f' = 0
            | _ => is_Some (fl_ring f') end).
    destruct Hring as [r Hr']. assert (is_Some (fl_ring f')) as Hr2
      by (subst f'; unfold ring_push; rsimpl; rewrite Hr'; eauto).
    by destruct (fl_flow_state f).
  - rewrite Hq. apply Forall_app. split; [done|]. constructor; [|constructor]. by exists l.
  - rewrite Hsum. assert (len_in lens bi = l) as -> by (unfold len_in; by rewrite Hl).
    subst f'. unfold ring_push. rsimpl. rewrite H6. ints.
Qed.

(** The drop paths tell the flow's queue management and count. *)
Lemma drop_ok lens t tin cs q i now : holds lens t tin cs q → 0 <= i < CAKE_QUEUES →
  let '(cs', tin') := drop_at_enqueue i now cs tin in
  holds lens t tin' cs' q /\ cs_tins cs' = cs_tins cs /\ shape cs' = shape cs /\
  cs_drr cs' = cs_drr cs.
Proof.
  intros Hh Hi. destruct (holds_tin _ _ _ _ _ Hh) as (n & o & d & Hok).
  destruct (proj2 (ta_table _ _ _ _ _ Hok i) Hi) as [f Hf]. unfold drop_at_enqueue.
  split; [|done]. set (g := λ f, cobalt_queue_full f _ _ now).
  assert (outer (g f) = outer f) as Hg by apply outer_queue_full.
  pose proof (f_equal (λ o, o.1.1.1.2) Hg) as Hlk. simpl in Hlk. injection Hlk as Hnx Hpv.
  destruct (outer_queue _ _ Hg) as (Q1 & Q2 & Q3).
  pose proof (ta_flows _ _ _ _ _ Hok _ _ Hf) as Hfo.
  assert (flow_ok lens (g f)) as Hgf
    by (eapply flow_ok_outer; [exact Hg|apply queue_full_ok; apply Hfo|exact Hfo]).
  destruct (upd_within lens n o d tin i f g Hok Hf Hnx Hpv Q3 Hgf) as (H1 & H2 & H3).
  apply (holds_same _ _ (upd_flow i g tin) (cs⟪cs_dropped_pkts ::= add64 1⟫) _); [|done..].
  eapply (holds_quiet _ _ _ _ _ Hh _ _ i f (g f)); try done; [by exists n, o, d|].
  eapply fresh_outer; [exact Hg|]. by eapply holds_fresh.
Qed.

(** A flow is open after [open_flow], whatever it was. *)
Lemma open_ok lens t tin cs q i base hash : holds lens t tin cs q → 0 <= i < CAKE_QUEUES →
  let tin' := open_flow i base hash tin in
  holds lens t tin' cs q /\
  exists f, tn_flows tin' !! i = Some f /\ fl_flow_state f ≠ CAKE_FLOW_NONE.
Proof.
  intros Hh Hi tin'. destruct (holds_tin _ _ _ _ _ Hh) as (n & o & d & Hok).
  destruct (proj2 (ta_table _ _ _ _ _ Hok i) Hi) as [f Hf].
  destruct (decide (fl_flow_state f = CAKE_FLOW_NONE)) as [Hs|Hs].
  - destruct (open_flow_ok _ _ _ _ _ _ _ Hok Hf base hash Hs)
      as (f' & (H1 & H2 & H3) & S1 & S2 & S3 & S4).
    pose proof (ta_flows _ _ _ _ _ Hok _ _ Hf) as [_ _ _ Hst _ _]. rewrite Hs in Hst.
    split; [|exists f'; split; [done|congruence]].
    eapply (holds_quiet _ _ _ _ _ Hh cs tin' i f f'); try done.
    + by rewrite S2, queue_nil by apply Hst.
    + rewrite S3. symmetry. apply Hst.
    + intros _. rewrite S3. lia.
  - assert (tin' = tin) as ->; [|by split; [|exists f]].
    subst tin'. unfold open_flow. rewrite (flow_at_eq _ _ _ Hf). by rewrite bool_decide_eq_false_2.
Qed.

(** The packet goes into its ring. *)
Lemma store_ok lens t tin cs q i f bi l : holds lens t tin cs q →
  tn_flows tin !! i = Some f → fl_flow_state f ≠ CAKE_FLOW_NONE →
  cake_flow_queue_len f < CAKE_FLOW_RING_SIZE → lens !! bi = Some l → 0 <= l < 2 ^ 16 →
  let '(cs', tin1) := store_packet i bi l cs tin in
  let tin' := promote_flow i tin1 in
  holds lens t tin' cs' (λ h, q h + h bi) /\ cs_tins cs' = cs_tins cs /\ shape cs' = shape cs /\
  cs_drr cs' = cs_drr cs.
Proof.
  intros Hh Hf Hs Hlt Hl Hr. destruct (holds_tin _ _ _ _ _ Hh) as (n & o & d & Hok).
  unfold store_packet. split; [|done].
  set (g := λ f, (ring_push f bi)⟪fl_backlog_bytes ::= λ u, u32 (u + l)⟫).
  destruct (push_ok lens f bi l (ta_flows _ _ _ _ _ Hok _ _ Hf) Hs Hlt Hl Hr) as (P1 & P2 & P3).
  change ((ring_push f bi)⟪fl_backlog_bytes ::= λ u, u32 (u + l)⟫) with (g f) in *.
  destruct (upd_within lens n o d tin i f g Hok Hf ltac:(done) ltac:(done) ltac:(done) P1)
    as (A1 & A2 & A3).
  set (cs1 := cs⟪cs_buffer_usage ::= _⟫⟪cs_queued_buffers ::= inc32⟫
     ⟪cs_enqueued_pkts ::= add64 1⟫⟪cs_enqueued_bytes ::= add64 l⟫).
  assert (len_in lens bi = l) as El by (unfold len_in; by rewrite Hl).
  set (tin1 := (upd_flow i g tin)⟪tn_packets ::= add64 1⟫⟪tn_bytes ::= add64 l⟫).
  assert (tin_at lens n o d tin1) as A4 by (by eapply tin_at_links; [|exact A1]).
  destruct (promote_flow_ok lens n o d tin1 i (g f) A4 A3 Hs)
    as (st & f' & ((C1 & C2 & C3) & C4) & _ & C5).
  destruct (body_same _ _ C4) as (D1 & _ & D3 & D4 & D5).
  assert (moved i f' tin (promote_flow i tin1)) as Hm by (eapply moved_trans; [exact A2|exact C2]).
  assert (∀ h, qsum h f' = qsum h f + h bi) as E1 by (intros h; rewrite D3; apply P2).
  assert (cake_flow_queue_len f' = cake_flow_queue_len f + 1) as E2 by (rewrite D4; apply P3).
  destruct (holds_step _ _ _ _ _ Hh cs1 (promote_flow i tin1) i f f') as (B1 & B2 & B3); try done.
  - rewrite E1, El. subst cs1. rsimpl. f_equal. lia.
  - rewrite E2. subst cs1. unfold inc32. rsimpl. f_equal. lia.
  - intros Hsp. rewrite D1 in Hsp. destruct (C5 Hsp) as [S1 S2]. rewrite E2, D5.
    change (fl_deficit ((g f)⟪fl_flow_state := st⟫)) with (fl_deficit f).
    destruct (holds_fresh _ _ _ _ _ _ _ Hh Hf S1). lia.
  - split; [done|]. split; [done|]. intros h. rewrite B3, E1. lia.
Qed.

Lemma activate_frame aggs cs :
  let '(_, cs') := cake_sched_drr_activate aggs cs in
  exists c, cs' = cs⟪cs_drr := c⟫ /\ Drr.active c = true.
Proof.
  unfold cake_sched_drr_activate. destruct (Drr.active (cs_drr cs)) eqn:E.
  - exists (cs_drr cs). by destruct cs.
  - destruct (Drr.cake_drr_child_activate (cs_drr cs)) as [c m] eqn:Ec.
    assert (Drr.active c = true) as Hc.
    { revert Ec. unfold Drr.cake_drr_child_activate. rewrite E. by intros [= <- _]. }
    destruct m; simpl; by exists c.
Qed.

Section Packet.

Context `{Vpp}.

Lemma hash_nonzero b v4 : cake_hash_flow b v4 ≠ 0.
Proof.
  unfold cake_hash_flow. destruct (if v4 then _ else _) as [k0 k1]. intros E%Z.lor_eq_0_iff.
  by destruct E.
Qed.

(** What a packet does to its scheduler: it is queued or freed, evicted packets are
    freed, nothing else comes or goes. *)
Record enq_ok (lens : gmap Z Z) (aggs : aggs_t) (cs : cake_sched_t) (bi : Z) (b : vlib_buffer_t)
    (r : enq_result) : Prop := {
  en_bones : same_bones aggs (eq_aggs r);
  en_sched : sched_ok lens (eq_cs r);
  en_fresh : fresh (eq_cs r);
  en_shape : shape (eq_cs r) = shape cs;
  en_buf : bf_length_in_chain (eq_buf r) = bf_length_in_chain b;
  en_held : ∀ h, held h (eq_cs r) + total h (eq_freed r) = held h cs + h bi;
  en_queued : if bool_decide (eq_outcome r = ENQ_QUEUED) then Drr.active (cs_drr (eq_cs r)) = true
              else bi ∈ eq_freed r /\ cs_drr (eq_cs r) = cs_drr cs
}.

Lemma enq_drop lens t tin1 aggs cs cs1 q i now ag bi b ev out freed :
  same_bones aggs ag → holds lens t tin1 cs1 q → (∀ h, q h = held h cs - total h freed) → 0 <= i < CAKE_QUEUES →
  shape cs1 = shape cs → cs_drr cs1 = cs_drr cs → out ≠ ENQ_QUEUED →
  let '(cs2, tin2) := drop_at_enqueue i now cs1 tin1 in
  enq_ok lens aggs cs bi b (mkEnq ag (with_tin t tin2 cs2) b (freed ++ [bi]) ev out).
Proof.
  intros Hb Hh Hq Hi Hs Hdr Ho. pose proof (drop_ok _ _ _ _ _ i now Hh Hi) as Hd.
  destruct (drop_at_enqueue i now cs1 tin1) as [cs2 tin2].
  destruct Hd as (((K1 & Kf) & _ & K3) & _ & Hs2 & Hdr2). constructor; simpl; try done.
  - change (shape (with_tin t tin2 cs2)) with (shape cs2). congruence.
  - intros h. rewrite K3, Hq. unfold total. rewrite map_app, zsum_app.
    change (zsum (map h [bi])) with (h bi + 0). lia.
  - rewrite bool_decide_eq_false_2 by done. split; [set_solver|].
    change (cs_drr (with_tin t tin2 cs2)) with (cs_drr cs2). congruence.
Qed.

Lemma enqueue_local_ok lens v4 thread now aggs cs bi b :
  tree_ok aggs → sched_ok lens cs → fresh cs → lens !! bi = Some (bf_length_in_chain b) →
  0 <= bf_length_in_chain b < 2 ^ 16 →
  exists r, enqueue_local v4 thread now aggs cs bi b = Some r /\ enq_ok lens aggs cs bi b r.
Proof.
  intros Htr Hok Hfr Hl Hr. unfold enqueue_local.
  set (ti := nth _ (cs_dscp_to_tin cs) 0). set (t := Z.to_nat _).
  assert (t < length (cs_tins cs))%nat as Ht.
  { destruct (sk_n_tins _ _ Hok) as [E ?]. subst t. destruct (Z.leb_spec (cs_n_tins cs) ti); lia. }
  destruct (lookup_lt_is_Some_2 _ _ Ht) as [tin Htin].
  rewrite (nth_lookup_Some _ _ _ _ Htin).
  assert (holds lens t tin cs (λ h, held h cs)) as H0.
  { split; [by rewrite with_tin_id|]. split; [done|]. intros h. by rewrite with_tin_id. }
  destruct (claim_ok _ _ _ _ _ aggs _ Htr H0 (hash_nonzero b v4))
    as (aggs1 & cs1 & tin1 & i & freed & ev & -> & B1 & H1 & Hi & T1 & S1 & D1).
  cbn [mbind option_bind]. pose proof (same_bones_tree _ _ B1 Htr) as Htr1.
  destruct (cs_buffer_limit cs1 <? _).
  { pose proof (enq_drop _ _ _ aggs _ _ _ i now aggs1 bi b ev ENQ_DROPPED freed B1 H1
      ltac:(done) Hi S1 D1 ltac:(done)) as Hd. destruct (drop_at_enqueue i now cs1 tin1).
    by eexists. }
  pose proof (admit_chain_bones aggs1 cs1 (bf_length_in_chain b) thread Htr1) as B2.
  destruct (cake_agg_admit_chain aggs1 cs1 _ thread) as [aggs2 [|]]; cbn [negb];
    cbn [fst] in B2; assert (same_bones aggs aggs2) as B3 by (by etransitivity).
  2: { pose proof (enq_drop _ _ _ aggs _ _ _ i now aggs2 bi b ev ENQ_BACKPRESSURE freed B3 H1
      ltac:(done) Hi S1 D1 ltac:(done)) as Hd. destruct (drop_at_enqueue i now cs1 tin1).
    by eexists. }
  destruct (open_ok _ _ _ _ _ i (set_base_of (cake_hash_flow b v4)) (cake_dst_host_hash b v4) H1 Hi)
    as (H2 & f & Hf & Hst).
  set (tin2 := open_flow i _ _ tin1) in *. rewrite (flow_at_eq _ _ _ Hf).
  destruct (Z.leb_spec CAKE_FLOW_RING_SIZE (cake_flow_queue_len f)) as [|Hlt].
  { destruct (discharge_bones aggs2 cs1 (bf_length_in_chain b) (same_bones_tree _ _ B3 Htr))
      as (aggs3 & -> & B4). cbn [mbind option_bind].
    pose proof (enq_drop _ _ _ aggs _ _ _ i now aggs3 bi b ev ENQ_DROPPED freed
      ltac:(by etransitivity) H2 ltac:(done) Hi S1 D1 ltac:(done)) as Hd.
    destruct (drop_at_enqueue i now cs1 tin2). by eexists. }
  pose proof (store_ok _ _ _ _ _ i f bi _ H2 Hf Hst Hlt Hl Hr) as Hs.
  destruct (store_packet i bi (bf_length_in_chain b) cs1 tin2) as [cs3 tin3].
  cbv zeta in Hs. destruct Hs as (((K1 & Kf) & K2 & K3) & T3 & S3 & D3).
  set (cs4 := cs3⟪cs_tins ::= _⟫). change (with_tin t (promote_flow i tin3) cs3) with cs4 in *.
  pose proof (activate_frame aggs2 cs4) as Ha.
  pose proof (activate_bones aggs2 cs4) as B4.
  destruct (cake_sched_drr_activate aggs2 cs4) as [aggs3 cs5]. destruct Ha as (c & -> & Hc).
  destruct (sched_same lens cs4 (cs4⟪cs_drr := c⟫) K1) as [L1 L2]; try done.
  eexists. split; [reflexivity|]. constructor; simpl; try done.
  - by etransitivity.
  - transitivity (shape cs3); [done|congruence].
  - intros h. rewrite L2, K3. unfold total. lia.
Qed.

End Packet.
