(* ===== verification/CakeServe.v ===== *)
(** What the dequeue node does to one packet and to one flow.

    [served] relates the node's state before and after part of a dispatch: the
    scheduler stays well formed, and every buffer that left its queues was sent or
    freed.  [weight] bounds the work left: each turn of the node's loops that does not
    end them lowers it. *)

From S2P Require Import Prelude Dll Drr Shaper CakeTypes Cobalt CakeFlow CakeHier CakeEnqueue.
From S2P Require Import CakeDequeue CakeTin CakeMoves CakeSched.

(** ** The work left *)

Definition PACKET_WEIGHT : Z := 2 ^ 22.

Definition rank (st : cake_flow_state) : Z :=
  match st with
  | CAKE_FLOW_NONE => 0
  | CAKE_FLOW_DECAYING => 1
  | CAKE_FLOW_BULK => 2
  | CAKE_FLOW_SPARSE => 3
  end.

(** Turns a flow may need before its deficit is positive. *)
Definition debt (f : cake_flow_t) : Z :=
  if bool_decide (fl_flow_state f = CAKE_FLOW_NONE) then 0 else Z.max 0 (1 - fl_deficit f).

Definition weight (f : cake_flow_t) : Z :=
  PACKET_WEIGHT * cake_flow_queue_len f + rank (fl_flow_state f) + debt f.

Definition work (cs : cake_sched_t) : Z := ssum weight cs.

Lemma weight_link_free : link_free weight.
Proof. done. Qed.

Lemma weight_nonneg f : 0 <= weight f.
Proof.
  unfold weight, debt, rank, PACKET_WEIGHT. pose proof (qlen_range f).
  destruct (fl_flow_state f); simpl; lia.
Qed.

(** A bound that no scheduler's work exceeds. *)
Definition WORK_MAX : Z := 8 * (CAKE_QUEUES * (PACKET_WEIGHT * 129 + 2 ^ 21)).

Lemma weight_bound lens f : flow_ok lens f → weight f <= PACKET_WEIGHT * 129 + 2 ^ 21.
Proof.
  intros [H1 _ H3 _ _ _]. destruct H1 as (_ & _ & H1).
  unfold weight, debt, rank, PACKET_WEIGHT, CAKE_FLOW_RING_SIZE, DEFICIT_MIN in *.
  destruct (fl_flow_state f); simpl; lia.
Qed.

Lemma tin_size lens tin : tin_ok lens tin → (size (tn_flows tin) <= 1024)%nat.
Proof.
  intros (n & o & d & Hok). rewrite <- size_dom.
  assert (dom (tn_flows tin) ⊆ list_to_set (seqZ 0 CAKE_QUEUES)) as Hs.
  { intros i Hi. apply elem_of_dom, (ta_table _ _ _ _ _ Hok) in Hi.
    apply elem_of_list_to_set, elem_of_seqZ. lia. }
  apply subseteq_size in Hs. rewrite size_list_to_set in Hs by apply NoDup_seqZ.
  by rewrite length_seqZ in Hs.
Qed.

Lemma work_bound lens cs : sched_ok lens cs → 0 <= work cs <= WORK_MAX.
Proof.
  intros Hok. destruct (sk_n_tins _ _ Hok) as [Hn Hb]. unfold work, ssum.
  assert (∀ l : list cake_tin_t, (∀ tin, tin ∈ l → tin_ok lens tin) →
    0 <= zsum (map (λ tin, msum weight (tn_flows tin)) l)
      <= Z.of_nat (length l) * (CAKE_QUEUES * (PACKET_WEIGHT * 129 + 2 ^ 21))) as H.
  { induction l as [|tin l IH]; intros Hl; [done|].
    specialize (IH ltac:(intros; apply Hl; set_solver)).
    pose proof (Hl tin ltac:(set_solver)) as Ht. pose proof (tin_size _ _ Ht) as Hsz.
    destruct Ht as (n & o & d & Ht).
    pose proof (msum_le weight (tn_flows tin) (PACKET_WEIGHT * 129 + 2 ^ 21)) as Hm.
    assert (0 <= msum weight (tn_flows tin) <= (PACKET_WEIGHT * 129 + 2 ^ 21) * Z.of_nat (size (tn_flows tin)))
      as Hm'.
    { apply Hm. intros i f Hf. split; [apply weight_nonneg|].
      eapply weight_bound, (ta_flows _ _ _ _ _ Ht _ _ Hf). }
    cbn [map length]. change (zsum (?a :: ?b)) with (a + zsum b).
    unfold PACKET_WEIGHT, CAKE_QUEUES in *. nia. }
  specialize (H (cs_tins cs)). unfold WORK_MAX. rewrite <- Hn in H.
  assert (∀ tin, tin ∈ cs_tins cs → tin_ok lens tin) as Hl.
  { intros tin Hin. apply list_elem_of_lookup in Hin as [t Ht]. by eapply (sk_tins _ _ Hok). }
  specialize (H Hl). unfold PACKET_WEIGHT, CAKE_QUEUES in *. nia.
Qed.

(** ** A dispatch in progress on one flow *)

(** Tin [t] of the scheduler is [tin0] with flow [i] changed to [f1]. *)
Definition stage (tins : list cake_tin_t) (t : nat) (tin0 : cake_tin_t) (i : Z) (f1 : cake_flow_t)
    (n o d : list Z) (s : deq) : Prop :=
  exists tin1, cs_tins (dq_cs s) = <[t := tin1]> tins /\ mid tin0 i f1 tin1 n o d.

Section Stage.

Context (tins : list cake_tin_t) (t : nat) (tin0 : cake_tin_t) (i : Z) (n o d : list Z).
Hypothesis Ht : tins !! t = Some tin0.

Lemma stage_start lens f s :
  cs_tins (dq_cs s) = tins → tin_at lens n o d tin0 → tn_flows tin0 !! i = Some f →
  stage tins t tin0 i f n o d s.
Proof.
  intros <- Hok Hf. exists tin0. split; [by rewrite list_insert_id|]. by eapply mid_start.
Qed.

Lemma stage_tin f1 s : stage tins t tin0 i f1 n o d s →
  exists tin1, tin_of t s = tin1 /\ cs_tins (dq_cs s) = <[t := tin1]> tins /\
    mid tin0 i f1 tin1 n o d.
Proof.
  intros (tin1 & E & M). exists tin1. split; [|done]. unfold tin_of. rewrite E.
  apply nth_lookup_Some. rewrite list_lookup_insert_eq; [done|]. by eapply lookup_lt_Some.
Qed.

Lemma stage_flow_of f1 s : stage tins t tin0 i f1 n o d s → flow_of t i s = f1.
Proof.
  intros Hs. destruct (stage_tin f1 s Hs) as (tin1 & <- & _ & M).
  exact (flow_at_eq _ _ _ (md_at _ _ _ _ _ _ _ M)).
Qed.

Lemma stage_on_tin g f1 f2 s :
  stage tins t tin0 i f1 n o d s →
  (∀ tin1, mid tin0 i f1 tin1 n o d → mid tin0 i f2 (g tin1) n o d) →
  stage tins t tin0 i f2 n o d (on_tin t g s).
Proof.
  intros (tin1 & E & M) Hg. exists (g tin1). split; [|by apply Hg].
  unfold on_tin. rsimpl. rewrite E. apply list_eq. intros j.
  destruct (decide (j = t)) as [->|Hj].
  - assert (t < length tins)%nat by (by eapply lookup_lt_Some).
    by rewrite list_lookup_alter_eq, !list_lookup_insert_eq.
  - by rewrite list_lookup_alter_ne, !list_lookup_insert_ne.
Qed.

Lemma stage_on_flow g f1 s :
  stage tins t tin0 i f1 n o d s → fl_next (g f1) = fl_next f1 → fl_prev (g f1) = fl_prev f1 →
  stage tins t tin0 i (g f1) n o d (on_flow t i g s).
Proof. intros Hs Hn Hp. eapply stage_on_tin; [exact Hs|]. intros tin1 M. by apply mid_upd. Qed.

Lemma stage_same f1 s s' :
  stage tins t tin0 i f1 n o d s → cs_tins (dq_cs s') = cs_tins (dq_cs s) →
  stage tins t tin0 i f1 n o d s'.
Proof. intros (tin1 & E & M) Hs. exists tin1. by rewrite Hs. Qed.

End Stage.

(** ** What part of a dispatch leaves *)

(** How often a gate or a spent share stopped the dispatch. *)
Definition blocks (s : deq) : Z := dq_n_drr_blocked s + dq_n_parent_blocked s.
Definition ledger (s : deq) : Z * Z := (dq_budget s, blocks s).

Definition out_of (s : deq) : list Z := map fst (dq_out s).

Record served (lens : gmap Z Z) (s s' : deq) : Prop := {
  sv_sched : sched_ok lens (dq_cs s');
  sv_lens : lens_of (dq_bufs s') = lens_of (dq_bufs s);
  sv_shape : shape (dq_cs s') = shape (dq_cs s);
  sv_active : Drr.active (cs_drr (dq_cs s')) = Drr.active (cs_drr (dq_cs s));
  sv_held : ∀ h, held h (dq_cs s') + total h (out_of s') + total h (dq_freed s') =
                 held h (dq_cs s) + total h (out_of s) + total h (dq_freed s);
  sv_budget : dq_budget s' + Z.of_nat (length (dq_out s')) =
              dq_budget s + Z.of_nat (length (dq_out s));
  sv_out : exists l, dq_out s' = dq_out s ++ l;
  sv_blocks : blocks s <= blocks s';
  sv_floor : 0 <= dq_budget s' \/ dq_budget s' = dq_budget s;
  sv_bones : same_bones (dq_aggs s) (dq_aggs s')
}.

Lemma served_refl lens s : sched_ok lens (dq_cs s) → served lens s s.
Proof. intros Hs. constructor; try done; [exists []; by rewrite app_nil_r|by right]. Qed.

Lemma served_trans lens s1 s2 s3 : served lens s1 s2 → served lens s2 s3 → served lens s1 s3.
Proof.
  intros [A1 A2 A3 A4 A5 A6 (l & A7) A8 A9 A10] [B1 B2 B3 B4 B5 B6 (k & B7) B8 B9 B10].
  constructor; [done|congruence|congruence|congruence|intros h; by rewrite B5|congruence| |lia|lia|
    by etransitivity].
  exists (l ++ k). by rewrite B7, A7, app_assoc.
Qed.

(** The counters of a dispatch do not matter. *)
Lemma served_counters lens s s1 s2 :
  served lens s s1 → blocks s1 <= blocks s2 →
  (dq_aggs s2, dq_cs s2, dq_bufs s2, dq_budget s2, dq_out s2, dq_freed s2) =
  (dq_aggs s1, dq_cs s1, dq_bufs s1, dq_budget s1, dq_out s1, dq_freed s1) → served lens s s2.
Proof.
  intros [A1 A2 A3 A4 A5 A6 A7 A8 A9 A10] Hb [= E0 E1 E2 E3 E4 E5]. unfold out_of in *.
  constructor; unfold out_of; rewrite ?E0, ?E1, ?E2, ?E3, ?E4, ?E5; done || lia.
Qed.

(** The end of a change to flow [i] whose lists stay as they are. *)
Section Finish.

Context (lens : gmap Z Z) (s s' : deq) (t : nat) (tin : cake_tin_t) (i : Z)
  (f f' : cake_flow_t) (n o d : list Z).
Hypothesis Hok : sched_ok lens (dq_cs s).
Hypothesis Ht : cs_tins (dq_cs s) !! t = Some tin.
Hypothesis Hat : tin_at lens n o d tin.
Hypothesis Hf : tn_flows tin !! i = Some f.
Hypothesis Hst : stage (cs_tins (dq_cs s)) t tin i f' n o d s'.
Hypothesis Hs : fl_flow_state f' = fl_flow_state f.
Hypothesis Hf' : flow_ok lens f'.
Hypothesis Hshape : shape (dq_cs s') = shape (dq_cs s).
Hypothesis Husage : cs_buffer_usage (dq_cs s') =
  u32 (cs_buffer_usage (dq_cs s) - qsum (len_in lens) f + qsum (len_in lens) f').
Hypothesis Hqueued : cs_queued_buffers (dq_cs s') =
  u32 (cs_queued_buffers (dq_cs s) - cake_flow_queue_len f + cake_flow_queue_len f').

Lemma stage_finish :
  exists tin', cs_tins (dq_cs s') = <[t := tin']> (cs_tins (dq_cs s)) /\
    tin_at lens n o d tin' /\ moved i f' tin tin' /\ tn_flows tin' !! i = Some f' /\
    sched_ok lens (dq_cs s') /\
    (∀ h, held h (dq_cs s') = held h (dq_cs s) - qsum h f + qsum h f') /\
    work (dq_cs s') = work (dq_cs s) - weight f + weight f'.
Proof.
  destruct Hst as (tin' & E & M).
  destruct (mid_finish lens n o d tin i f f' tin' tin' n o d Hat Hf M eq_refl Hf')
    as (A1 & A2 & A3).
  - done.
  - rewrite Hs. exact (ta_state _ _ _ _ _ Hat _ _ Hf).
  - rewrite (md_counts _ _ _ _ _ _ _ M). destruct Hat. unfold counts. congruence.
  - exists tin'. split; [done|]. split; [done|]. split; [done|]. split; [done|].
    destruct (sched_step lens (dq_cs s) (dq_cs s') t tin tin' i f f') as [B1 B2]; try done.
    { by exists n, o, d. }
    split; [done|]. split; [done|]. eapply ssum_step; eauto using weight_link_free.
Qed.

End Finish.

(** ** Facts about the head packet *)

Lemma adjust_range cs l : - 2 ^ 15 <= cs_overhead_bytes cs < 2 ^ 15 → 0 <= cs_mpu cs < 2 ^ 8 →
  0 <= l < 2 ^ 16 → 0 <= cake_overhead_adjust cs l < 2 ^ 18.
Proof.
  intros Ho Hm Hl. unfold cake_overhead_adjust.
  rewrite (i32_small l), (i32_small (l + _)) by lia.
  set (w := if _ <? cs_mpu cs then _ else _).
  assert (0 <= w < 2 ^ 17) as Hw by (subst w; zcases; lia). clearbody w.
  destruct (cs_atm_mode cs =? 1).
  - rewrite (i32_small (w + 47)), Z.quot_div_nonneg by lia.
    assert (0 <= (w + 47) / 48 * 53 < 2 ^ 18) by (Z.to_euclidean_division_equations; lia).
    rewrite i32_small, u32_small by (unfold is_u32; lia). lia.
  - rewrite u32_small by (unfold is_u32; lia). lia.
Qed.

(** The queue without its head, the backlog without its bytes. *)
Definition popped (l x : Z) (f : cake_flow_t) : cake_flow_t :=
  f⟪fl_head ::= inc32⟫⟪fl_backlog_bytes ::= λ u, u32 (u - l)⟫⟪fl_deficit := x⟫.

Lemma pop_ok lens f l x :
  flow_ok lens f → cake_flow_queue_len f ≠ 0 → fl_flow_state f ≠ CAKE_FLOW_NONE →
  lens !! ring_at f (fl_head f) = Some l → DEFICIT_MIN < x <= DEFICIT_MAX →
  flow_ok lens (popped l x f) /\
  (∀ h, qsum h (popped l x f) = qsum h f - h (ring_at f (fl_head f))) /\
  cake_flow_queue_len (popped l x f) = cake_flow_queue_len f - 1.
Proof.
  intros [H1 H2 H3 H4 H5 H6] Hne Hs Hl Hx.
  destruct (queue_pop f H1 Hne) as (Q1 & Q2 & Q3).
  set (f1 := f⟪fl_head ::= λ h, u32 (h + 1)⟫) in *.
  assert (queue (popped l x f) = queue f1) as Q by done.
  assert (∀ h, qsum h (popped l x f) = qsum h f - h (ring_at f (fl_head f))) as Hsum.
  { intros h. unfold qsum. rewrite Q, Q1.
    change (zsum (map h (?a :: ?b))) with (h a + zsum (map h b)). lia. }
  split; [|done]. constructor; try done.
  - change (match fl_flow_state f with
            | CAKE_FLOW_NONE => fl_ring f = None /\ cake_flow_queue_len (popped l x f) = 0
            | _ => is_Some (fl_ring f) end). by destruct (fl_flow_state f).
  - rewrite Q. rewrite Q1 in H5. by inversion H5.
  - rewrite Hsum. unfold len_in. rewrite Hl. unfold popped. rsimpl. rewrite H6.
    unfold len_in. simpl. ints.
Qed.

Lemma head_len lens f : flow_ok lens f → cake_flow_queue_len f ≠ 0 →
  exists l, lens !! ring_at f (fl_head f) = Some l /\ 0 <= l < 2 ^ 16.
Proof.
  intros [H1 _ _ _ H5 _] Hne. destruct (queue_pop f H1 Hne) as (Q1 & _). rewrite Q1 in H5.
  by inversion H5.
Qed.

Lemma lens_lookup lens bufs bi l : lens_of bufs = lens → lens !! bi = Some l →
  exists b, bufs !! bi = Some b /\ bf_length_in_chain b = l.
Proof.
  intros <-. unfold lens_of. rewrite lookup_fmap. destruct (bufs !! bi) as [b|]; simpl; [|done].
  intros [= <-]. eauto.
Qed.

Lemma lens_insert lens bufs bi b b' : lens_of bufs = lens → bufs !! bi = Some b →
  bf_length_in_chain b' = bf_length_in_chain b → lens_of (<[bi := b']> bufs) = lens.
Proof.
  intros <- Hb He. unfold lens_of. rewrite fmap_insert, He. apply insert_id.
  by rewrite lookup_fmap, Hb.
Qed.

Lemma admit_frame aggs cs now :
  let '(cs', _) := cake_sched_drr_admit aggs cs now in
  exists c, cs' = cs⟪cs_drr := c⟫ /\ Drr.active c = Drr.active (cs_drr cs).
Proof.
  unfold cake_sched_drr_admit. destruct (_ ≫= _) as [agg|].
  - destruct (Drr.cake_drr_local_admit _ _ _ _ _) as [c r] eqn:E. exists c. split; [done|].
    revert E. unfold Drr.cake_drr_local_admit. cbv zeta.
    destruct (Drr.cake_drr_round_refill_due _ _);
      repeat (case_match; try done); by intros [= <- _].
  - exists (cs_drr cs). by destruct cs.
Qed.

Lemma mark_length `{Vpp} b : bf_length_in_chain (fst (cake_ecn_mark b)) = bf_length_in_chain b.
Proof. unfold cake_ecn_mark. repeat (case_match; try done). Qed.

(** ** What the steps of a send write *)

Definition occupancy (cs : cake_sched_t) : Z * Z := (cs_buffer_usage cs, cs_queued_buffers cs).

(** What a step leaves: buffers, budget, output, freed; then shape and activity. *)
Definition kept (s s' : deq) : Prop :=
  (dq_bufs s', ledger s', dq_out s', dq_freed s') =
  (dq_bufs s, ledger s, dq_out s, dq_freed s) /\
  shape (dq_cs s') = shape (dq_cs s) /\
  Drr.active (cs_drr (dq_cs s')) = Drr.active (cs_drr (dq_cs s)) /\
  same_bones (dq_aggs s) (dq_aggs s').

Lemma on_tin_kept t g s : kept s (on_tin t g s) /\
  occupancy (dq_cs (on_tin t g s)) = occupancy (dq_cs s).
Proof. done. Qed.

(** [uncharge], with the aggregates the discharge returned. *)
Definition uncharged (aggs : aggs_t) (t : nat) (i l : Z) (s : deq) : deq :=
  (on_flow t i (λ f, f⟪fl_backlog_bytes ::= λ u, u32 (u - l)⟫) s)
    ⟪dq_cs ::= λ cs, cs⟪cs_buffer_usage ::= λ u, u32 (u - l)⟫⟪cs_queued_buffers ::= dec32⟫⟫
    ⟪dq_aggs := aggs⟫.

Lemma uncharge_ok t i l s : tree_ok (dq_aggs s) →
  exists aggs, uncharge t i l s = Some (uncharged aggs t i l s) /\ same_bones (dq_aggs s) aggs.
Proof.
  intros Ht. destruct (discharge_bones (dq_aggs s) (dq_cs s) l Ht) as (aggs & E & Hb).
  exists aggs. split; [|done]. unfold uncharge. by rewrite E.
Qed.

Lemma uncharge_kept aggs t i l s : same_bones (dq_aggs s) aggs →
  kept s (uncharged aggs t i l s) /\
  occupancy (dq_cs (uncharged aggs t i l s)) =
    (u32 (cs_buffer_usage (dq_cs s) - l), dec32 (cs_queued_buffers (dq_cs s))) /\
  cs_tins (dq_cs (uncharged aggs t i l s)) =
    cs_tins (dq_cs (on_flow t i (λ f, f⟪fl_backlog_bytes ::= λ u, u32 (u - l)⟫) s)).
Proof.
  unfold uncharged. generalize (λ f, f⟪fl_backlog_bytes ::= λ u, u32 (u - l)⟫).
  by repeat split.
Qed.

(** A change of the scheduler that is not of its tins. *)
Lemma on_cs_kept (g : cake_sched_t → cake_sched_t) s :
  shape (g (dq_cs s)) = shape (dq_cs s) →
  Drr.active (cs_drr (g (dq_cs s))) = Drr.active (cs_drr (dq_cs s)) →
  kept s (s⟪dq_cs ::= g⟫).
Proof. done. Qed.

(** The last part of a send: counters, share, buffer and output. *)
Definition emit_sent (l adj bi : Z) (drr : Drr.cake_drr_admit_t) (b : vlib_buffer_t)
    (nx : cake_dequeue_next_t) (d : deq) : deq :=
  let d := d⟪dq_cs ::= λ cs, cs⟪cs_dequeued_pkts ::= add64 1⟫⟪cs_dequeued_bytes ::= add64 l⟫⟫ in
  let d := if bool_decide (drr = Drr.CAKE_DRR_ADMIT)
           then d⟪dq_cs ::= λ cs, cs⟪cs_drr ::= λ c, Drr.cake_drr_local_charge c adj⟫⟫ else d in
  d⟪dq_bufs ::= insert bi (b⟪bf_scheduled := true⟫)⟫⟪dq_out ::= λ l, l ++ [(bi, nx)]⟫.

Lemma emit_sent_fields l adj bi drr b nx d :
  let d' := emit_sent l adj bi drr b nx d in
  cs_tins (dq_cs d') = cs_tins (dq_cs d) /\ occupancy (dq_cs d') = occupancy (dq_cs d) /\
  shape (dq_cs d') = shape (dq_cs d) /\
  Drr.active (cs_drr (dq_cs d')) = Drr.active (cs_drr (dq_cs d)) /\
  dq_bufs d' = <[bi := b⟪bf_scheduled := true⟫]> (dq_bufs d) /\
  ledger d' = ledger d /\ dq_out d' = dq_out d ++ [(bi, nx)] /\ dq_freed d' = dq_freed d /\
  dq_aggs d' = dq_aggs d.
Proof. destruct d as [? cs]. unfold emit_sent. destruct drr; destruct cs; done. Qed.

(** ** One packet *)

Section One.

Context `{Vpp} (lens : gmap Z Z) (s : deq) (t : nat) (tin : cake_tin_t) (i : Z)
  (f : cake_flow_t) (n o d : list Z).
Hypothesis Hok : sched_ok lens (dq_cs s).
Hypothesis Htree : tree_ok (dq_aggs s).
Hypothesis Hlens : lens_of (dq_bufs s) = lens.
Hypothesis Ht : cs_tins (dq_cs s) !! t = Some tin.
Hypothesis Hat : tin_at lens n o d tin.
Hypothesis Hf : tn_flows tin !! i = Some f.
Hypothesis Hbudget : 0 < dq_budget s.

Definition after_one (r : cake_deq_result_t) (f f' : cake_flow_t) : Prop :=
  match r with
  | CAKE_DEQ_SENT =>
      cake_flow_queue_len f' = cake_flow_queue_len f - 1 /\
      fl_deficit f - 2 ^ 18 < fl_deficit f'
  | CAKE_DEQ_DROPPED =>
      cake_flow_queue_len f' = cake_flow_queue_len f - 1 /\ fl_deficit f' = fl_deficit f
  | CAKE_DEQ_EMPTY => False
  | _ => cake_flow_queue_len f' = cake_flow_queue_len f /\ fl_deficit f' = fl_deficit f
  end.

(** Flow [i] of the tin changed to [f'], in place. *)
Definition flow_became (f' : cake_flow_t) (s' : deq) : Prop :=
  exists tin', cs_tins (dq_cs s') = <[t := tin']> (cs_tins (dq_cs s)) /\
    tin_at lens n o d tin' /\ moved i f' tin tin' /\ tn_flows tin' !! i = Some f' /\
    work (dq_cs s') = work (dq_cs s) - weight f + weight f'.

Definition one_done (s' : deq) (r : cake_deq_result_t) : Prop :=
  served lens s (count_sent r s') /\
  exists f', flow_became f' s' /\ fl_flow_state f' = fl_flow_state f /\ after_one r f f'.

(** The end of every path: what left the flow's queue was sent or freed. *)
Lemma one_close f' outs frees s' r :
  stage (cs_tins (dq_cs s)) t tin i f' n o d s' → fl_flow_state f' = fl_flow_state f →
  flow_ok lens f' → after_one r f f' →
  (∀ h, qsum h f' + total h (map fst outs) + total h frees = qsum h f) →
  shape (dq_cs s') = shape (dq_cs s) →
  Drr.active (cs_drr (dq_cs s')) = Drr.active (cs_drr (dq_cs s)) →
  cs_buffer_usage (dq_cs s') = u32 (cs_buffer_usage (dq_cs s) - total (len_in lens) (map fst outs ++ frees)) →
  cs_queued_buffers (dq_cs s') = u32 (cs_queued_buffers (dq_cs s) - Z.of_nat (length (outs) + length frees)) →
  lens_of (dq_bufs s') = lens → ledger s' = ledger s →
  dq_out s' = dq_out s ++ outs → dq_freed s' = dq_freed s ++ frees →
  length outs = (if bool_decide (r = CAKE_DEQ_SENT) then 1 else 0)%nat →
  cake_flow_queue_len f' = cake_flow_queue_len f - Z.of_nat (length outs + length frees) →
  same_bones (dq_aggs s) (dq_aggs s') →
  one_done s' r.
Proof.
  intros Hst Hs Hf' Hr Hq Hsh Hac Hu Hqu Hl Hb Hout Hfr Hn Hql Hbo.
  destruct (stage_finish lens s s' t tin i f f' n o d) as (tin' & A1 & A2 & A3 & A4 & A5 & A6 & A7);
    try done.
  - rewrite Hu. f_equal. specialize (Hq (len_in lens)). unfold total in *.
    rewrite map_app, zsum_app. lia.
  - rewrite Hqu, Hql. f_equal. lia.
  - assert (dq_cs (count_sent r s') = dq_cs s') as Ec by (unfold count_sent; by destruct (bool_decide _)).
    assert (dq_out (count_sent r s') = dq_out s') as Eo by (unfold count_sent; by destruct (bool_decide _)).
    assert (dq_freed (count_sent r s') = dq_freed s') as Ef by (unfold count_sent; by destruct (bool_decide _)).
    assert (dq_bufs (count_sent r s') = dq_bufs s') as Eb by (unfold count_sent; by destruct (bool_decide _)).
    split; [constructor|by exists f'; split; [exists tin'|]].
    + by rewrite Ec.
    + by rewrite Eb, Hl.
    + by rewrite Ec.
    + by rewrite Ec.
    + intros h. unfold out_of. rewrite Ec, Eo, Ef, A6, Hout, Hfr. unfold total in *.
      rewrite !map_app, !zsum_app. specialize (Hq h). lia.
    + rewrite Eo, Hout, length_app, Hn. unfold count_sent.
      injection Hb as Hb _. destruct (bool_decide _); rsimpl; rewrite Hb; lia.
    + rewrite Eo. by exists outs.
    + injection Hb as _ Hb. unfold count_sent. destruct (bool_decide _); unfold blocks in *; simpl; lia.
    + left. injection Hb as Hb _. unfold count_sent. destruct (bool_decide _); rsimpl; lia.
    + unfold count_sent. by destruct (bool_decide _).
Qed.

(** The packet at the head: its buffer, its length, the bytes it costs. *)
Hypothesis Hopen : fl_flow_state f ≠ CAKE_FLOW_NONE.
Hypothesis Hqueue : cake_flow_queue_len f ≠ 0.
Hypothesis Hcredit : 0 < fl_deficit f.

Let Hflow : flow_ok lens f.
Proof. exact (ta_flows _ _ _ _ _ Hat _ _ Hf). Qed.

Let Hstage : stage (cs_tins (dq_cs s)) t tin i f n o d s.
Proof. by eapply stage_start. Qed.

Let bi : Z := ring_at f (fl_head f).

(** The flow the queue management returns, popped. *)
Lemma popped_ok l x f' :
  lens !! bi = Some l → DEFICIT_MIN < x <= DEFICIT_MAX →
  outer f' = outer (popped l x f) → cobalt_ok f' →
  flow_ok lens f' /\ (∀ h, qsum h f' = qsum h f - h bi) /\
  cake_flow_queue_len f' = cake_flow_queue_len f - 1 /\ fl_flow_state f' = fl_flow_state f.
Proof.
  intros Hl Hx Ho Hc. destruct (pop_ok lens f l x Hflow Hqueue Hopen Hl Hx) as (P1 & P2 & P3).
  destruct (outer_queue _ _ Ho) as (Q1 & Q2 & Q3).
  split; [by eapply flow_ok_outer|]. split; [|split; [by rewrite Q2|done]].
  intros h. rewrite <- P2. unfold qsum. by rewrite Q1.
Qed.

(** The fields a stage of the packet leaves alone. *)
Definition frame (s' : deq) : Prop :=
  shape (dq_cs s') = shape (dq_cs s) /\
  Drr.active (cs_drr (dq_cs s')) = Drr.active (cs_drr (dq_cs s)) /\
  cs_buffer_usage (dq_cs s') = cs_buffer_usage (dq_cs s) /\
  cs_queued_buffers (dq_cs s') = cs_queued_buffers (dq_cs s) /\
  lens_of (dq_bufs s') = lens /\ ledger s' = ledger s /\
  dq_out s' = dq_out s /\ dq_freed s' = dq_freed s /\ same_bones (dq_aggs s) (dq_aggs s').

Lemma usage_small : u32 (cs_buffer_usage (dq_cs s) - 0) = cs_buffer_usage (dq_cs s) /\
  u32 (cs_queued_buffers (dq_cs s) - 0) = cs_queued_buffers (dq_cs s).
Proof.
  rewrite !Z.sub_0_r, (sk_usage _ _ Hok), (sk_queued _ _ Hok).
  split; apply u32_small, u32_range.
Qed.

(** A refused packet leaves the flow as it was, the AQM state apart. *)
Lemma one_blocked f' s' r :
  stage (cs_tins (dq_cs s)) t tin i f' n o d s' → outer f' = outer f → cobalt_ok f' →
  blocked r = true → frame s' → one_done s' r.
Proof.
  intros Hst Ho Hc Hr (F1 & F2 & F3 & F4 & F5 & F6 & F7 & F8 & F9).
  destruct (outer_queue _ _ Ho) as (Q1 & Q2 & Q3). destruct usage_small as [U1 U2].
  pose proof (f_equal (λ o, o.1.1.1.1.2) Ho) as Hd. simpl in Hd.
  eapply (one_close f' [] []); try done.
  - by eapply flow_ok_outer.
  - by destruct r.
  - intros h. unfold qsum, total. rewrite Q1. simpl. lia.
  - by rewrite F3.
  - by rewrite F4.
  - by rewrite F7, app_nil_r.
  - by rewrite F8, app_nil_r.
  - by destruct r.
  - simpl. lia.
Qed.

(** What the queue management returned, its head already taken. *)
Definition taken (g : cake_flow_t) : Prop :=
  outer g = outer (f⟪fl_head ::= inc32⟫) /\ cobalt_ok g.

Lemma taken_outer g l x : taken g →
  outer (g⟪fl_backlog_bytes ::= λ u, u32 (u - l)⟫⟪fl_deficit := x⟫) = outer (popped l x f).
Proof.
  intros [Ho _]. destruct g, f. unfold outer, popped in *. rsimpl. rsimpl in Ho.
  injection Ho as -> -> -> -> -> -> -> -> -> ->. done.
Qed.

Lemma taken_same g : taken g → outer (g⟪fl_head ::= dec32⟫) = outer f.
Proof.
  intros [Ho _]. destruct Hflow as [(Hh & _) _ _ _ _ _]. clear Hqueue Hcredit Hopen.
  destruct g, f. unfold outer in *. rsimpl. rsimpl in Ho.
  injection Ho as -> -> -> -> -> -> -> -> -> ->.
  assert (dec32 (inc32 fl_head0) = fl_head0) as ->; [|done]. unfold dec32, inc32. simpl in Hh. ints.
Qed.

Lemma one_sent g l adj now_ns drr b s1 :
  stage (cs_tins (dq_cs s)) t tin i g n o d s1 → taken g → frame s1 →
  lens !! bi = Some l → 0 <= l < 2 ^ 16 → 0 <= adj < 2 ^ 18 →
  dq_bufs s1 !! bi = Some b → bf_length_in_chain b = l →
  exists s2, send_packet t i bi l adj now_ns drr b s1 = Some s2 /\ one_done s2 CAKE_DEQ_SENT.
Proof.
  intros Hst Hg (F1 & F2 & F3 & F4 & F5 & F6 & F7 & F8 & F9) Hl Hlr Ha Hb Hbl.
  set (x := i32 (fl_deficit g - i32 adj)).
  assert (fl_deficit g = fl_deficit f) as Hgd.
  { destruct Hg as [Ho _]. apply (f_equal (λ o, o.1.1.1.1.2)) in Ho. exact Ho. }
  pose proof (fo_deficit _ _ Hflow) as Hdf. unfold DEFICIT_MIN, DEFICIT_MAX in Hdf.
  assert (x = fl_deficit f - adj) as Hx.
  { subst x. rewrite Hgd, (i32_small adj), i32_small; lia. }
  set (f' := g⟪fl_backlog_bytes ::= λ u, u32 (u - l)⟫⟪fl_deficit := x⟫).
  destruct (popped_ok l x f' Hl ltac:(unfold DEFICIT_MIN, DEFICIT_MAX; lia)
    (taken_outer g l x Hg) ltac:(apply (cobalt_ok_same g); [done|done|apply Hg])) as (P1 & P2 & P3 & P4).
  set (nx := if Z.shiftr (bf_data b (cake_l3_header b)) 4 =? 4 then CAKE_DEQUEUE_NEXT_REINJECT_IP4
             else CAKE_DEQUEUE_NEXT_REINJECT_IP6).
  set (sa := s1⟪dq_cs ::= charge_shaper adj now_ns⟫).
  destruct (uncharge_ok t i l sa (same_bones_tree _ _ F9 Htree)) as (aggs & Eun & Hun).
  set (sb := uncharged aggs t i l sa) in *.
  set (sc := on_flow t i (λ f, f⟪fl_deficit ::= λ x, i32 (x - i32 adj)⟫) sb).
  exists (emit_sent l adj bi drr b nx sc). split.
  { unfold send_packet. fold sa. rewrite Eun. reflexivity. }
  destruct (emit_sent_fields l adj bi drr b nx sc) as (E1 & E2 & E3 & E4 & E5 & E6 & E7 & E8 & E9).
  set (s2 := emit_sent l adj bi drr b nx sc) in *.
  destruct (uncharge_kept aggs t i l sa Hun) as ((U1 & U2 & U3 & U6) & U4 & U5).
  fold sb in U1, U2, U3, U4, U5, U6.
  assert (kept s1 sa) as (A1 & A2 & A3 & A4) by (by apply on_cs_kept).
  destruct (on_tin_kept t (upd_flow i (λ f, f⟪fl_deficit ::= λ x, i32 (x - i32 adj)⟫)) sb)
    as ((C1 & C2 & C3 & C5) & C4).
  fold (on_flow t i (λ f, f⟪fl_deficit ::= λ x, i32 (x - i32 adj)⟫) sb) in C1, C2, C3, C4, C5.
  fold sc in C1, C2, C3, C4, C5.
  assert (same_bones (dq_aggs s) (dq_aggs s2)) as Hb2.
  { rewrite E9. etransitivity; [exact F9|]. etransitivity; [exact A4|].
    etransitivity; [exact U6|exact C5]. }
  assert (stage (cs_tins (dq_cs s)) t tin i f' n o d s2) as Hst'.
  { assert (stage (cs_tins (dq_cs s)) t tin i g n o d sa) as S1
      by (by apply (stage_same _ _ _ _ _ _ _ _ s1)).
    pose proof (stage_on_flow _ _ _ _ _ _ _ Ht (λ f, f⟪fl_backlog_bytes ::= λ u, u32 (u - l)⟫) g
      sa S1 ltac:(done) ltac:(done)) as S2. cbv beta in S2.
    pose proof (stage_same _ _ _ _ _ _ _ _ _ sb S2 U5) as S3.
    pose proof (stage_on_flow _ _ _ _ _ _ _ Ht (λ f, f⟪fl_deficit ::= λ x, i32 (x - i32 adj)⟫) _
      _ S3 ltac:(done) ltac:(done)) as S4.
    exact (stage_same _ _ _ _ _ _ _ _ _ s2 S4 E1). }
  assert (len_in lens bi = l) as Hlen by (unfold len_in; by rewrite Hl).
  assert ((dq_bufs sc, ledger sc, dq_out sc, dq_freed sc) =
          (dq_bufs s1, ledger s1, dq_out s1, dq_freed s1)) as K by (by rewrite C1, U1, A1).
  assert (dq_bufs sc = dq_bufs s1) as K1 by exact (f_equal (λ x, x.1.1.1) K).
  assert (ledger sc = ledger s1) as K2 by exact (f_equal (λ x, x.1.1.2) K).
  assert (dq_out sc = dq_out s1) as K3 by exact (f_equal (λ x, x.1.2) K).
  assert (dq_freed sc = dq_freed s1) as K4 by exact (f_equal (λ x, x.2) K).
  rewrite C4, U4 in E2.
  assert (cs_buffer_usage (dq_cs s2) = u32 (cs_buffer_usage (dq_cs sa) - l)) as E2a
    by exact (f_equal fst E2).
  assert (cs_queued_buffers (dq_cs s2) = dec32 (cs_queued_buffers (dq_cs sa))) as E2b
    by exact (f_equal snd E2).
  clearbody s2.
  eapply (one_close f' [(bi, nx)] []).
  - exact Hst'.
  - exact P4.
  - exact P1.
  - split; [exact P3|]. change (fl_deficit f') with x. lia.
  - intros h. rewrite P2. unfold total, zsum. simpl. lia.
  - congruence.
  - congruence.
  - rewrite E2a. change (cs_buffer_usage (dq_cs sa)) with (cs_buffer_usage (dq_cs s1)).
    rewrite F3. unfold total, zsum. simpl. rewrite Hlen. f_equal. lia.
  - rewrite E2b. change (cs_queued_buffers (dq_cs sa)) with (cs_queued_buffers (dq_cs s1)).
    by rewrite F4.
  - rewrite E5, K1. by eapply lens_insert.
  - congruence.
  - congruence.
  - rewrite app_nil_r. congruence.
  - done.
  - exact P3.
  - exact Hb2.
Qed.

Lemma one_dropped g l s1 aggs s2 :
  same_bones (dq_aggs s1) aggs →
  stage (cs_tins (dq_cs s)) t tin i g n o d s1 → taken g → frame s1 →
  lens !! bi = Some l → 0 <= l < 2 ^ 16 →
  s2 = (on_tin t (λ tin, tin⟪tn_drops ::= add64 1⟫) (uncharged aggs t i l s1))
         ⟪dq_cs ::= λ cs, cs⟪cs_dropped_pkts ::= add64 1⟫⟫
         ⟪dq_n_aqm_drops ::= λ n, n + 1⟫⟪dq_freed ::= λ l, l ++ [bi]⟫ →
  one_done s2 CAKE_DEQ_DROPPED.
Proof.
  intros Hun Hst Hg (F1 & F2 & F3 & F4 & F5 & F6 & F7 & F8 & F9) Hl Hlr Es2.
  assert (fl_deficit g = fl_deficit f) as Hgd.
  { destruct Hg as [Ho _]. apply (f_equal (λ o, o.1.1.1.1.2)) in Ho. exact Ho. }
  set (f' := g⟪fl_backlog_bytes ::= λ u, u32 (u - l)⟫).
  assert (outer f' = outer (popped l (fl_deficit f) f)) as Ho.
  { rewrite <- (taken_outer g l (fl_deficit f) Hg), <- Hgd. by destruct g. }
  destruct (popped_ok l (fl_deficit f) f' Hl (fo_deficit _ _ Hflow) Ho
    ltac:(apply (cobalt_ok_same g); [done|done|apply Hg])) as (P1 & P2 & P3 & P4).
  set (sb := uncharged aggs t i l s1) in *.
  destruct (uncharge_kept aggs t i l s1 Hun) as ((U1 & U2 & U3 & U6) & U4 & U5).
  fold sb in U1, U2, U3, U4, U5, U6.
  set (sc := on_tin t (λ tin, tin⟪tn_drops ::= add64 1⟫) sb) in *.
  assert (stage (cs_tins (dq_cs s)) t tin i f' n o d sc) as S3.
  { pose proof (stage_on_flow _ _ _ _ _ _ _ Ht (λ f, f⟪fl_backlog_bytes ::= λ u, u32 (u - l)⟫) g
      s1 Hst ltac:(done) ltac:(done)) as S2.
    pose proof (stage_same _ _ _ _ _ _ _ _ _ sb S2 U5) as S3.
    eapply stage_on_tin; [exact Ht|exact S3|]. intros tin1. by apply mid_heads. }
  destruct (on_tin_kept t (λ tin, tin⟪tn_drops ::= add64 1⟫) sb) as ((C1 & C2 & C3 & C5) & C4).
  fold sc in C1, C2, C3, C4, C5. clearbody sc.
  assert (same_bones (dq_aggs s) (dq_aggs sc)) as Hb2.
  { etransitivity; [exact F9|]. etransitivity; [exact U6|exact C5]. }
  assert ((dq_bufs sc, ledger sc, dq_out sc, dq_freed sc) =
          (dq_bufs s1, ledger s1, dq_out s1, dq_freed s1)) as K by (by rewrite C1, U1).
  assert (dq_bufs sc = dq_bufs s1) as K1 by exact (f_equal (λ x, x.1.1.1) K).
  assert (ledger sc = ledger s1) as K2 by exact (f_equal (λ x, x.1.1.2) K).
  assert (dq_out sc = dq_out s1) as K3 by exact (f_equal (λ x, x.1.2) K).
  assert (dq_freed sc = dq_freed s1) as K4 by exact (f_equal (λ x, x.2) K). rewrite U4 in C4. injection C4 as C4a C4b. clearbody sb.
  assert (len_in lens bi = l) as Hlen by (unfold len_in; by rewrite Hl).
  rewrite Es2. eapply (one_close f' [] [bi]); try done.
  - intros h. rewrite P2. unfold total, zsum. simpl. lia.
  - transitivity (shape (dq_cs sc)); [done|congruence].
  - transitivity (Drr.active (cs_drr (dq_cs sc))); [done|congruence].
  - transitivity (cs_buffer_usage (dq_cs sc)); [done|].
    rewrite C4a, F3. unfold total, zsum. simpl. rewrite Hlen. f_equal. lia.
  - transitivity (cs_queued_buffers (dq_cs sc)); [done|]. by rewrite C4b, F4.
  - transitivity (lens_of (dq_bufs sc)); [done|congruence].
  - transitivity (ledger sc); [done|congruence].
  - rewrite app_nil_r. transitivity (dq_out sc); [done|congruence].
  - transitivity (dq_freed sc ++ [bi]); [done|congruence].
Qed.

(** The parent chain decides last. *)
Lemma one_gated g l adj now_ns thread drr b s1 :
  stage (cs_tins (dq_cs s)) t tin i g n o d s1 → taken g → frame s1 →
  lens !! bi = Some l → 0 <= l < 2 ^ 16 → 0 <= adj < 2 ^ 18 →
  dq_bufs s1 !! bi = Some b → bf_length_in_chain b = l →
  exists s2 r, gate_and_send t i thread now_ns bi l adj drr b s1 = Some (s2, r) /\ one_done s2 r.
Proof.
  intros Hst Hg Hfr Hl Hlr Ha Hb Hbl. unfold gate_and_send.
  pose proof Hfr as (_ & _ & _ & _ & _ & _ & _ & _ & F9).
  pose proof (dequeue_gate_bones (dq_aggs s1) (dq_cs s1) adj now_ns thread
    (same_bones_tree _ _ F9 Htree)) as Hgb.
  destruct (cake_agg_dequeue_gate _ _ _ _ _) as [aggs pr]. cbn [fst] in Hgb.
  set (s1' := s1⟪dq_aggs := aggs⟫).
  assert (stage (cs_tins (dq_cs s)) t tin i g n o d s1') as Hst' by done.
  assert (frame s1') as Hfr'.
  { destruct Hfr as (F1 & F2 & F3 & F4 & F5 & F6 & F7 & F8 & _).
    repeat (split; [done|]). by etransitivity. }
  set (s1b := on_flow t i (λ f, f⟪fl_head ::= dec32⟫) s1').
  assert (stage (cs_tins (dq_cs s)) t tin i (g⟪fl_head ::= dec32⟫) n o d s1b) as Hback
    by exact (stage_on_flow _ _ _ _ _ _ _ Ht (λ f, f⟪fl_head ::= dec32⟫) g s1' Hst'
      ltac:(done) ltac:(done)).
  assert (frame s1b) as Hfb by done. clearbody s1b.
  assert (cobalt_ok (g⟪fl_head ::= dec32⟫)) as Hc
    by (apply (cobalt_ok_same g); [done|done|apply Hg]).
  destruct pr.
  - destruct (one_sent g l adj now_ns drr b s1' Hst' Hg Hfr' Hl Hlr Ha Hb Hbl) as (s2 & -> & H2).
    by exists s2, CAKE_DEQ_SENT.
  - do 2 eexists. split; [reflexivity|]. apply (one_blocked (g⟪fl_head ::= dec32⟫)); [|by apply taken_same|done|done|done].
    exact (stage_same _ _ _ _ _ _ _ _ s1b _ Hback ltac:(done)).
  - do 2 eexists. split; [reflexivity|]. apply (one_blocked (g⟪fl_head ::= dec32⟫)); [|by apply taken_same|done|done|done].
    exact (stage_same _ _ _ _ _ _ _ _ s1b _ Hback ltac:(done)).
Qed.

(** [cake_dequeue_one] on a flow with packets and credit. *)
Lemma one_ok thread now_us now_ns :
  exists s2 r, cake_dequeue_one t i thread now_us now_ns s = Some (s2, r) /\ one_done s2 r.
Proof.
  unfold cake_dequeue_one. rewrite (stage_flow_of _ _ _ _ _ _ _ Ht f s Hstage).
  destruct (Z.eqb_spec (cake_flow_queue_len f) 0); [done|]. fold bi.
  destruct (head_len lens f Hflow Hqueue) as (l & Hl & Hlr). fold bi in Hl.
  destruct (lens_lookup _ _ _ _ Hlens Hl) as (b & Hb & Hbl). rewrite Hb, Hbl.
  destruct (sk_link _ _ Hok) as [Ho Hm].
  pose proof (adjust_range (dq_cs s) l Ho Hm Hlr) as Ha. set (adj := cake_overhead_adjust _ l) in *.
  pose proof (admit_frame (dq_aggs s) (dq_cs s) now_ns) as Had.
  destruct (cake_sched_drr_admit (dq_aggs s) (dq_cs s) now_ns) as [cs drr].
  destruct Had as (c & -> & Hc). set (s1 := s⟪dq_cs := (dq_cs s)⟪cs_drr := c⟫⟫).
  assert (stage (cs_tins (dq_cs s)) t tin i f n o d s1) as St1
    by exact (stage_same _ _ _ _ _ _ _ _ s s1 Hstage ltac:(done)).
  assert (frame s1) as F1 by (by repeat split).
  assert (dq_bufs s1 !! bi = Some b) as Hb1 by done. clearbody s1.
  case_bool_decide as Hd.
  { do 2 eexists. split; [reflexivity|]. apply (one_blocked f); [|done|apply Hflow|done|done].
    exact (stage_same _ _ _ _ _ _ _ _ s1 _ St1 ltac:(done)). }
  set (s2' := on_flow t i (λ f, f⟪fl_head ::= inc32⟫) s1).
  pose proof (stage_on_flow _ _ _ _ _ _ _ Ht (λ f, f⟪fl_head ::= inc32⟫) f s1 St1
    ltac:(done) ltac:(done)) as St2. cbv beta in St2. fold s2' in St2.
  assert (frame s2') as F2 by done. assert (dq_bufs s2' !! bi = Some b) as Hb2 by done. clearbody s2'.
  rewrite (stage_flow_of _ _ _ _ _ _ _ Ht _ s2' St2).
  set (f1 := f⟪fl_head ::= inc32⟫). set (bulk := if 0 <? _ then _ else 1).
  destruct (should_drop_spec random_u32 f1 (dq_cs s2') (u32 (now_us - bf_enqueue_time b)) now_us bulk
    (ecn_capable_of b) (dq_seed s2')) as (dr & Edr & Hg & _); [exact (fo_aqm _ _ Hflow)|].
  rewrite Edr. cbn [mbind option_bind]. pose proof (outer_should_drop _ _ _ _ _ _ _ _ _ Edr) as Hout.
  assert (taken (dr_flow dr)) as Htk by done.
  assert (fl_next (dr_flow dr) = fl_next f1 /\ fl_prev (dr_flow dr) = fl_prev f1) as [Hn Hp].
  { pose proof (f_equal (λ o, o.1.1.1.2) Hout) as Hlk. simpl in Hlk. by injection Hlk. }
  pose proof (stage_on_flow _ _ _ _ _ _ _ Ht (λ _, dr_flow dr) f1 s2' St2 Hn Hp) as St3.
  cbv beta in St3. set (s3 := (on_flow t i (λ _, dr_flow dr) s2')⟪dq_seed := dr_seed dr⟫).
  assert (stage (cs_tins (dq_cs s)) t tin i (dr_flow dr) n o d s3) as St4 by done.
  assert (frame s3) as F3 by done. assert (dq_bufs s3 !! bi = Some b) as Hb3 by done. clearbody s3.
  destruct (dr_drop dr).
  { pose proof F3 as (_ & _ & _ & _ & _ & _ & _ & _ & F9).
    destruct (uncharge_ok t i l s3 (same_bones_tree _ _ F9 Htree)) as (aggs & -> & Hun).
    cbn [mbind option_bind]. do 2 eexists. split; [reflexivity|]. by eapply one_dropped. }
  destruct (dr_ecn_marked dr); [|by eapply one_gated].
  set (b' := fst (cake_ecn_mark b)).
  set (s4 := (on_tin t _ s3)⟪dq_n_ecn_marks ::= _⟫⟪dq_bufs ::= _⟫).
  assert (bf_length_in_chain b' = l) as Hbl' by (subst b'; by rewrite mark_length).
  assert (stage (cs_tins (dq_cs s)) t tin i (dr_flow dr) n o d s4) as St5.
  { apply (stage_same _ _ _ _ _ _ _ _ (on_tin t (λ tin, tin⟪tn_ecn_marks ::= add64 1⟫) s3));
      [|done]. eapply stage_on_tin; [exact Ht|exact St4|]. intros tin1. by apply mid_heads. }
  assert (frame s4) as F4.
  { destruct F3 as (? & ? & ? & ? & F5 & ?). repeat split; try tauto.
    change (dq_bufs s4) with (<[bi := b']> (dq_bufs s3)). eapply lens_insert; [done|done|congruence]. }
  assert (dq_bufs s4 !! bi = Some b') as Hb4 by apply lookup_insert_eq. clearbody s4.
  by eapply one_gated.
Qed.

End One.

Lemma progress r f f' : after_one r f f' → blocked r = false → fl_flow_state f' = fl_flow_state f →
  0 < fl_deficit f → weight f' < weight f.
Proof.
  unfold after_one, weight, debt, PACKET_WEIGHT. intros Ha Hb Hs Hd. rewrite Hs.
  destruct r; try done; destruct Ha as [E1 E2]; rewrite E1;
    destruct (bool_decide (fl_flow_state f = CAKE_FLOW_NONE)); lia.
Qed.

(** ** Moves that send nothing *)

Section Move.

Context (lens : gmap Z Z) (s : deq) (t : nat) (tin : cake_tin_t) (i : Z) (f : cake_flow_t).
Hypothesis Hok : sched_ok lens (dq_cs s).
Hypothesis Hfr : fresh_but t i (dq_cs s).
Hypothesis Ht : cs_tins (dq_cs s) !! t = Some tin.
Hypothesis Hf : tn_flows tin !! i = Some f.

(** Flow [i] of tin [t] is now [f'], wherever it is listed. *)
Definition turned (f' : cake_flow_t) (s' : deq) : Prop :=
  exists tin', cs_tins (dq_cs s') !! t = Some tin' /\ tn_flows tin' !! i = Some f'.

Lemma tin_of_eq : tin_of t s = tin.
Proof. unfold tin_of. by apply nth_lookup_Some. Qed.

Lemma flow_of_eq : flow_of t i s = f.
Proof. unfold flow_of. rewrite tin_of_eq. exact (flow_at_eq _ _ _ Hf). Qed.

Lemma on_tin_tins g : cs_tins (dq_cs (on_tin t g s)) = <[t := g tin]> (cs_tins (dq_cs s)).
Proof.
  unfold on_tin. rsimpl. apply list_eq. intros j.
  assert (t < length (cs_tins (dq_cs s)))%nat by (by eapply lookup_lt_Some).
  destruct (decide (j = t)) as [->|Hj].
  - by rewrite list_lookup_alter_eq, list_lookup_insert_eq, Ht.
  - by rewrite list_lookup_alter_ne, list_lookup_insert_ne.
Qed.

(** A flow of the same packets, in a well-formed tin. *)
Lemma move_ok f' tin' s' :
  cs_tins (dq_cs s') = <[t := tin']> (cs_tins (dq_cs s)) →
  tin_ok lens tin' → moved i f' tin tin' → tn_flows tin' !! i = Some f' →
  queue f' = queue f → cake_flow_queue_len f' = cake_flow_queue_len f → fresh_flow f' →
  kept s s' → occupancy (dq_cs s') = occupancy (dq_cs s) →
  served lens s s' /\ fresh (dq_cs s') /\ turned f' s' /\
  work (dq_cs s') = work (dq_cs s) - weight f + weight f'.
Proof.
  intros E Htin Hm Hat Hq Hl Hff (K1 & K2 & K3 & K4) [= O1 O2].
  assert (∀ h, qsum h f' = qsum h f) as Hqs by (intros; unfold qsum; by rewrite Hq).
  destruct (sched_step lens (dq_cs s) (dq_cs s') t tin tin' i f f') as [B1 B2]; try done.
  - rewrite O1, Hqs, Z.sub_add, (sk_usage _ _ Hok). symmetry. apply u32_small, u32_range.
  - rewrite O2, Hl, Z.sub_add, (sk_queued _ _ Hok). symmetry. apply u32_small, u32_range.
  - injection K1 as K1a K1b K1e K1c K1d. split; [|split; [|split]].
    + constructor; try done; unfold out_of; rewrite ?K1a, ?K1b, ?K1c, ?K1d; try done.
      * intros h. rewrite B2, Hqs. lia.
      * exists []. by rewrite app_nil_r.
      * unfold blocks in *. lia.
      * by right.
    + by eapply fresh_step.
    + exists tin'. split; [|done]. rewrite E. apply list_lookup_insert_eq. by eapply lookup_lt_Some.
    + eapply ssum_step; eauto using weight_link_free.
Qed.

(** An empty flow given back. *)
Lemma reclaim_in_ok rm now :
  (fl_flow_state f = CAKE_FLOW_SPARSE /\ rm = new_remove \/
   fl_flow_state f = CAKE_FLOW_DECAYING /\ rm = decaying_remove) →
  cake_flow_queue_len f = 0 →
  exists s', reclaim_in rm t i now s = Some s' /\
    served lens s s' /\ fresh (dq_cs s') /\ turned flow_zero s' /\
    work (dq_cs s') = work (dq_cs s) - weight f.
Proof.
  intros Hrm Hl. destruct (sk_tins _ _ Hok _ _ Ht) as (n & o & d & Hat).
  destruct (reclaim_ok lens n o d tin i f Hat Hf (dq_cs s) now rm Hrm Hl)
    as (tin' & Er & (R1 & R2 & R3)).
  exists (on_tin t (λ _, tin') s). split.
  { unfold reclaim_in. rewrite tin_of_eq, Er. cbn [mbind option_bind]. f_equal.
    unfold upd. rewrite app_nil_r. by destruct (on_tin t (λ _, tin') s). }
  destruct (move_ok flow_zero tin' (on_tin t (λ _, tin') s)) as (A & B & C & D); try done.
  - apply on_tin_tins.
  - by rewrite (queue_nil f Hl).
  - split; [done|]. split; [done|]. split; [done|]. rewrite D.
    change (weight flow_zero) with 0. lia.
Qed.

End Move.

(** ** A turn on a sparse flow *)

(** A visit ends early only where a gate or a share refused, or the shaper closed. *)
Definition stopped (now_ns : Z) (s s' : deq) : Prop :=
  blocks s < blocks s' \/ shaper_closed now_ns s' = true.

Definition turn_ok (lens : gmap Z Z) (now_ns : Z) (s s' : deq) (r : turn) : Prop :=
  served lens s s' /\ fresh (dq_cs s') /\
  match r with
  | Continue => work (dq_cs s') < work (dq_cs s)
  | Break idle => if idle then False else stopped now_ns s s'
  end.

Lemma fresh_became lens s s' t tin i f n o d f' :
  fresh_but t i (dq_cs s) → cs_tins (dq_cs s) !! t = Some tin →
  flow_became lens s t tin i f n o d f' s' →
  fresh_but t i (dq_cs s') /\ (fresh_flow f' → fresh (dq_cs s')).
Proof.
  intros Hfr Ht (tin' & E & _ & Hm & _). split; [by eapply fresh_but_step|].
  intros Hf. by eapply fresh_step.
Qed.

Lemma blocked_blocks r s : blocked r = true → blocks (count_blocked r s) = blocks s + 1.
Proof. unfold blocks. destruct r; try done; intros _; simpl; lia. Qed.

Lemma unblocked_same r s : blocked r = false → count_blocked r s = s.
Proof. by destruct r. Qed.

Section Turns.

Context `{Vpp} (lens : gmap Z Z) (t : nat) (i thread now_us now_ns : Z).

(** What serving a packet leaves, counted. *)
Lemma one_counted s tin f n o d :
  sched_ok lens (dq_cs s) → tree_ok (dq_aggs s) → lens_of (dq_bufs s) = lens →
  cs_tins (dq_cs s) !! t = Some tin → tin_at lens n o d tin → tn_flows tin !! i = Some f →
  0 < dq_budget s →
  fl_flow_state f ≠ CAKE_FLOW_NONE → cake_flow_queue_len f ≠ 0 → 0 < fl_deficit f →
  exists s2 r, cake_dequeue_one t i thread now_us now_ns s = Some (s2, r) /\
  let s3 := count_sent r s2 in
  served lens s s3 /\ dq_cs s3 = dq_cs s2 /\
  exists f', flow_became lens s t tin i f n o d f' s3 /\
    fl_flow_state f' = fl_flow_state f /\ after_one r f f'.
Proof.
  intros Hok Htr Hl Ht Hat Hf Hbu Hst Hq Hd.
  destruct (one_ok lens s t tin i f n o d Hok Htr Hl Ht Hat Hf Hbu Hst Hq Hd thread now_us now_ns)
    as (s2 & r & He & Hsv & f' & Hb & Hs & Ha).
  exists s2, r. split; [exact He|]. intros s3.
  assert (dq_cs s3 = dq_cs s2) as Ec by (subst s3; unfold count_sent; by destruct (bool_decide _)).
  split; [done|]. split; [done|]. exists f'. split; [|done]. unfold flow_became in *. by rewrite Ec.
Qed.

Lemma serve_sparse_ok s tin f :
  sched_ok lens (dq_cs s) → tree_ok (dq_aggs s) → fresh (dq_cs s) → lens_of (dq_bufs s) = lens →
  cs_tins (dq_cs s) !! t = Some tin → tn_flows tin !! i = Some f →
  fl_flow_state f = CAKE_FLOW_SPARSE → 0 < dq_budget s →
  exists s' r, serve_sparse t i thread now_us now_ns s = Some (s', r) /\
    turn_ok lens now_ns s s' r.
Proof.
  intros Hok Htr Hfr Hl Ht Hf Hst Hbu. unfold serve_sparse. rewrite (flow_of_eq s t tin i f Ht Hf).
  assert (0 < weight f) as Hw.
  { unfold weight, debt, PACKET_WEIGHT. rewrite Hst. pose proof (qlen_range f). simpl. lia. }
  destruct (Z.eqb_spec (cake_flow_queue_len f) 0) as [Eq|Eq].
  { destruct (reclaim_in_ok lens s t tin i f Hok (fresh_fresh_but t i _ Hfr) Ht Hf new_remove now_us
      ltac:(left; by split) Eq) as (s' & -> & A & B & _ & D).
    exists s', Continue. split; [done|]. split; [done|]. split; [done|]. lia. }
  destruct (Hfr _ _ _ _ Ht Hf Hst) as [Hq1 Hd].
  destruct (sk_tins _ _ Hok _ _ Ht) as (n & o & d & Hat).
  destruct (one_counted s tin f n o d Hok Htr Hl Ht Hat Hf Hbu ltac:(congruence) Eq Hd)
    as (s2 & r & -> & Hsv & Ec & f' & Hb & Hs & Ha). cbn [mbind option_bind].
  set (s3 := count_sent r s2) in *. clearbody s3.
  destruct (fresh_became _ _ _ _ _ _ _ _ _ _ _ (fresh_fresh_but t i _ Hfr) Ht Hb) as [Hfb Hfs].
  destruct Hb as (tin' & T1 & T2 & T3 & T4 & T5).
  assert (cs_tins (dq_cs s3) !! t = Some tin') as Ht3
    by (rewrite T1; apply list_lookup_insert_eq; by eapply lookup_lt_Some).
  rewrite (flow_of_eq s3 t tin' i f' Ht3 T4).
  destruct (blocked r) eqn:Er.
  - assert (cake_flow_queue_len f' = cake_flow_queue_len f /\ fl_deficit f' = fl_deficit f)
      as [Eq' Ed'] by (by destruct r).
    destruct (Z.eqb_spec (cake_flow_queue_len f') 0); [congruence|].
    cbn [mbind option_bind]. do 2 eexists. split; [reflexivity|]. split; [|split].
    + eapply served_counters; [exact Hsv|rewrite blocked_blocks by done; lia|by destruct r].
    + assert (dq_cs (count_blocked r s3) = dq_cs s3) as -> by (by destruct r).
      apply Hfs. intros _. lia.
    + left. rewrite blocked_blocks by done. pose proof (sv_blocks _ _ _ Hsv). lia.
  - pose proof (qlen_range f).
    assert (cake_flow_queue_len f' = 0) as Eq' by (destruct r; try done; simpl in Ha; lia).
    rewrite Eq', Z.eqb_refl.
    pose proof (progress r f f' Ha Er Hs Hd) as Hp.
    destruct (reclaim_in_ok lens s3 t tin' i f' (sv_sched _ _ _ Hsv) Hfb Ht3 T4 new_remove now_us
      ltac:(left; split; congruence) Eq') as (s4 & -> & A & B & _ & D).
    cbn [mbind option_bind]. rewrite unblocked_same by done.
    assert (served lens s s4) as Hsv4 by (by eapply served_trans).
    pose proof (weight_nonneg f').
    destruct (shaper_closed now_ns s4) eqn:Esh; do 2 eexists; (split; [reflexivity|]);
      split; [done| |done|]; split; try done; [by right|lia].
Qed.

(** ** A turn on a bulk or decaying flow *)

Definition backlogged (f : cake_flow_t) : Prop :=
  fl_flow_state f = CAKE_FLOW_BULK \/ fl_flow_state f = CAKE_FLOW_DECAYING.

Lemma backlogged_fresh f : backlogged f → fresh_flow f.
Proof. intros [H0|H0] H1; congruence. Qed.

(** The state of the dispatch, with the flow it is serving. *)
Record serving (s : deq) (tin : cake_tin_t) (f : cake_flow_t) : Prop := {
  sg_ok : sched_ok lens (dq_cs s);
  sg_tree : tree_ok (dq_aggs s);
  sg_fresh : fresh (dq_cs s);
  sg_lens : lens_of (dq_bufs s) = lens;
  sg_tin : cs_tins (dq_cs s) !! t = Some tin;
  sg_flow : tn_flows tin !! i = Some f
}.

Lemma serving_after s tin f s' f' :
  serving s tin f → served lens s s' → fresh (dq_cs s') → turned t i f' s' →
  exists tin', serving s' tin' f'.
Proof.
  intros Hg Hsv Hfr (tin' & H1 & H2). exists tin'. constructor; try done; [apply Hsv| |].
  - exact (same_bones_tree _ _ (sv_bones _ _ _ Hsv) (sg_tree _ _ _ Hg)).
  - rewrite (sv_lens _ _ _ Hsv). apply Hg.
Qed.

Lemma step_down_ok s tin f :
  serving s tin f → backlogged f → cake_flow_queue_len f = 0 →
  exists s' f', step_down t i now_us s = Some s' /\
  served lens s s' /\ fresh (dq_cs s') /\ turned t i f' s' /\
  work (dq_cs s') < work (dq_cs s).
Proof.
  intros [Hok Htr Hfr Hl Ht Hf] Hb Eq. unfold step_down. rewrite (flow_of_eq s t tin i f Ht Hf).
  destruct (sk_tins _ _ Hok _ _ Ht) as (n & o & d & Hat). destruct Hb as [Hs|Hs]; rewrite Hs.
  - destruct (decay_ok lens n o d tin i f Hat Hf Hs) as (f' & (D1 & D2 & D3) & D4).
    destruct (body_same _ _ D4) as (B1 & _ & B3 & B4 & B5).
    exists (on_tin t (decay i) s), f'. split; [reflexivity|].
    destruct (move_ok lens s t tin i f Hok (fresh_fresh_but t i _ Hfr) Ht Hf f'
      (decay i tin) (on_tin t (decay i) s)) as (A & B & C & D); try done.
    + by apply on_tin_tins.
    + exact (body_queue _ _ D4).
    + intros Hx. rewrite B1 in Hx. done.
    + split; [done|]. split; [done|]. split; [done|].
      rewrite D. unfold weight, debt. rewrite B1, B4, B5, Hs, Eq. simpl.
      change (cake_flow_queue_len (f⟪fl_flow_state := CAKE_FLOW_DECAYING⟫))
        with (cake_flow_queue_len f). rewrite Eq. lia.
  - destruct (reclaim_in_ok lens s t tin i f Hok (fresh_fresh_but t i _ Hfr) Ht Hf decaying_remove
      now_us ltac:(right; by split) Eq) as (s' & E & A & B & C & D).
    exists s', flow_zero. split; [done|]. split; [done|]. split; [done|]. split; [done|]. rewrite D.
    unfold weight, debt. rewrite Hs, Eq. simpl. lia.
Qed.

Lemma spend_ok fuel s tin f :
  serving s tin f → backlogged f → (Z.to_nat (work (dq_cs s)) < fuel)%nat →
  exists s' stop f', spend_deficit fuel t i thread now_us now_ns s = Some (s', stop) /\
    served lens s s' /\ fresh (dq_cs s') /\ turned t i f' s' /\
    work (dq_cs s') <= work (dq_cs s) /\
    (if stop : bool then stopped now_ns s s'
     else 0 < fl_deficit f → 0 < dq_budget s → work (dq_cs s') < work (dq_cs s)).
Proof.
  revert s tin f. induction fuel as [|fuel IH]; intros s tin f Hg Hb Hw; [lia|].
  pose proof Hg as [Hok Htr Hfr Hl Ht Hf]. cbn [spend_deficit].
  rewrite (flow_of_eq s t tin i f Ht Hf).
  destruct (Z.ltb_spec 0 (fl_deficit f)) as [Hd|Hd]; simpl.
  2: { exists s, false, f. split; [done|]. split; [by apply served_refl|]. split; [done|].
       split; [by exists tin|]. split; lia. }
  destruct (Z.ltb_spec 0 (dq_budget s)) as [Hbu|Hbu].
  2: { exists s, false, f. split; [done|]. split; [by apply served_refl|]. split; [done|].
       split; [by exists tin|]. split; lia. }
  destruct (Z.eqb_spec (cake_flow_queue_len f) 0) as [Eq|Eq].
  { destruct (step_down_ok s tin f Hg Hb Eq) as (s' & f' & -> & A & B & C & D).
    exists s', false, f'. split; [done|]. split; [done|]. split; [done|].
    split; [done|]. split; [lia|done]. }
  destruct (sk_tins _ _ Hok _ _ Ht) as (n & o & d & Hat).
  assert (fl_flow_state f ≠ CAKE_FLOW_NONE) as Hne by (destruct Hb; congruence).
  destruct (one_counted s tin f n o d Hok Htr Hl Ht Hat Hf Hbu Hne Eq Hd)
    as (s2 & r & -> & Hsv & Ec & f' & Hbe & Hs & Ha). cbn [mbind option_bind].
  set (s3 := count_sent r s2) in *. clearbody s3.
  assert (backlogged f') as Hb' by (unfold backlogged; by rewrite Hs).
  destruct (fresh_became _ _ _ _ _ _ _ _ _ _ _ (fresh_fresh_but t i _ Hfr) Ht Hbe) as [_ Hfs].
  specialize (Hfs (backlogged_fresh f' Hb')).
  destruct Hbe as (tin' & T1 & T2 & T3 & T4 & T5).
  assert (cs_tins (dq_cs s3) !! t = Some tin') as Ht3
    by (rewrite T1; apply list_lookup_insert_eq; by eapply lookup_lt_Some).
  destruct (blocked r) eqn:Er.
  - assert (dq_cs (count_blocked r s3) = dq_cs s3) as Ec3 by (by destruct r).
    exists (count_blocked r s3), true, f'. split; [done|].
    split; [eapply served_counters; [exact Hsv|rewrite blocked_blocks by done; lia|by destruct r]|].
    split; [by rewrite Ec3|]. split; [exists tin'; by rewrite Ec3|]. rewrite Ec3.
    split; [|left; rewrite blocked_blocks by done; pose proof (sv_blocks _ _ _ Hsv); lia].
    assert (cake_flow_queue_len f' = cake_flow_queue_len f /\ fl_deficit f' = fl_deficit f)
      as [Eq' Ed'] by (by destruct r).
    rewrite T5. unfold weight, debt. rewrite Eq', Ed', Hs. lia.
  - rewrite unblocked_same by done. pose proof (progress r f f' Ha Er Hs Hd) as Hp.
    destruct (shaper_closed now_ns s3) eqn:Esh.
    { exists s3, true, f'. split; [done|]. split; [done|]. split; [done|]. split; [by exists tin'|].
      split; [lia|by right]. }
    assert (serving s3 tin' f') as Hg3.
    { constructor; try done; [apply Hsv| |by rewrite (sv_lens _ _ _ Hsv)].
      exact (same_bones_tree _ _ (sv_bones _ _ _ Hsv) Htr). }
    destruct (work_bound _ _ Hok) as [W1 _]. destruct (work_bound _ _ (sg_ok _ _ _ Hg3)) as [W2 _].
    destruct (IH s3 tin' f' Hg3 Hb' ltac:(lia)) as (s4 & stop & f4 & E4 & A & B & C & D & E).
    exists s4, stop, f4. split; [done|]. split; [by eapply served_trans|]. split; [done|].
    split; [done|]. split; [lia|]. destruct stop; [|lia].
    destruct E as [E|E]; [left|by right]. pose proof (sv_blocks _ _ _ Hsv). lia.
Qed.

(** The quantum a flow without credit gets lowers its debt. *)
Lemma top_up_ok s tin f :
  serving s tin f → backlogged f → fl_deficit f <= 0 →
  let s' := on_tin t (λ tin,
      let q := cake_quantum_for_flow tin (flow_at tin i) in
      upd_flow i (λ f, f⟪fl_deficit ::= λ x, i32 (x + i32 q)⟫) tin) s in
  exists f', served lens s s' /\ fresh (dq_cs s') /\ turned t i f' s' /\ backlogged f' /\
    dq_budget s' = dq_budget s /\ work (dq_cs s') < work (dq_cs s).
Proof.
  intros [Hok Htr Hfr Hl Ht Hf] Hb Hd s'.
  destruct (sk_tins _ _ Hok _ _ Ht) as (n & o & d & Hat).
  pose proof (quantum_range tin (flow_at tin i)) as Hq. set (q := cake_quantum_for_flow _ _) in Hq.
  pose proof (ta_flows _ _ _ _ _ Hat _ _ Hf) as Hfo.
  pose proof (fo_deficit _ _ Hfo) as Hdr. unfold DEFICIT_MIN, DEFICIT_MAX in *.
  set (g := λ f, f⟪fl_deficit ::= λ x, i32 (x + i32 q)⟫).
  assert (fl_deficit (g f) = fl_deficit f + q) as Egd
    by (unfold g; rsimpl; rewrite (i32_small q), i32_small; lia).
  assert (flow_ok lens (g f)) as Hg.
  { destruct Hfo as [F1 F2 F3 F4 F5 F6]. constructor; try done.
    rewrite Egd. unfold DEFICIT_MIN, DEFICIT_MAX. lia. }
  destruct (upd_within lens n o d tin i f g Hat Hf ltac:(done) ltac:(done) ltac:(done) Hg)
    as (U1 & U2 & U3).
  exists (g f). destruct (move_ok lens s t tin i f Hok (fresh_fresh_but t i _ Hfr) Ht Hf (g f)
    (upd_flow i g tin) s') as (A & B & C & D); try done.
  - exact (on_tin_tins s t tin Ht _).
  - by exists n, o, d.
  - by apply backlogged_fresh.
  - split; [done|]. split; [done|]. split; [done|]. split; [done|]. split; [done|].
    rewrite D. unfold weight, debt. change (fl_flow_state (g f)) with (fl_flow_state f).
    change (cake_flow_queue_len (g f)) with (cake_flow_queue_len f). rewrite Egd.
    assert (fl_flow_state f ≠ CAKE_FLOW_NONE) as Hne by (destruct Hb; congruence).
    rewrite bool_decide_eq_false_2 by done. lia.
Qed.

Lemma rotate_flow_ok s tin f : serving s tin f →
  let s' := rotate_flow t i s in
  served lens s s' /\ fresh (dq_cs s') /\ work (dq_cs s') <= work (dq_cs s).
Proof.
  intros [Hok Htr Hfr Hl Ht Hf] s'. subst s'. unfold rotate_flow. rewrite (flow_of_eq s t tin i f Ht Hf).
  destruct ((fl_deficit f <=? 0) && bool_decide (fl_flow_state f = CAKE_FLOW_BULK) &&
    (0 <? cake_flow_queue_len f)) eqn:E; [|split; [by apply served_refl|split; [done|lia]]].
  rewrite !andb_true_iff, bool_decide_eq_true, Z.leb_le, Z.ltb_lt in E. destruct E as [[Ed Es] Eq].
  destruct (sk_tins _ _ Hok _ _ Ht) as (n & o & d & Hat).
  destruct (rotate_ok lens n o d tin i f Hat Hf Es) as (f1 & ((n1 & o1 & d1 & R1) & R2 & R3) & R4).
  destruct (body_same _ _ R4) as (B1 & _ & B3 & B4 & B5).
  set (g := λ f, f⟪fl_deficit := 0⟫).
  assert (flow_ok lens (g f1)) as Hg.
  { destruct (ta_flows _ _ _ _ _ R1 _ _ R3) as [F1 F2 F3 F4 F5 F6]. by constructor. }
  destruct (upd_within lens n1 o1 d1 _ i f1 g R1 R3 ltac:(done) ltac:(done) ltac:(done) Hg)
    as (U1 & U2 & U3).
  set (s1 := on_tin t (λ tin, old_append i (old_remove i tin)) s).
  assert (cs_tins (dq_cs s1) = <[t := old_append i (old_remove i tin)]> (cs_tins (dq_cs s))) as T1
    by exact (on_tin_tins s t tin Ht _).
  assert (cs_tins (dq_cs s1) !! t = Some (old_append i (old_remove i tin))) as Ht1
    by (rewrite T1; apply list_lookup_insert_eq; by eapply lookup_lt_Some).
  destruct (move_ok lens s t tin i f Hok (fresh_fresh_but t i _ Hfr) Ht Hf (g f1)
    (upd_flow i g (old_append i (old_remove i tin))) (on_flow t i g s1)) as (A & B & C & D); try done.
  - unfold on_flow. rewrite (on_tin_tins s1 t _ Ht1), T1. by rewrite list_insert_insert_eq.
  - by exists n1, o1, d1.
  - by eapply moved_trans.
  - exact (body_queue _ _ R4).
  - intros Hx. change (fl_flow_state (g f1)) with (fl_flow_state f1) in Hx. by rewrite B1 in Hx.
  - split; [done|]. split; [done|]. rewrite D. unfold weight, debt.
    change (fl_flow_state (g f1)) with (fl_flow_state f1).
    change (cake_flow_queue_len (g f1)) with (cake_flow_queue_len f1).
    change (fl_deficit (g f1)) with 0. rewrite B1, B4, Es. simpl.
    change (cake_flow_queue_len (f⟪fl_flow_state := CAKE_FLOW_BULK⟫)) with (cake_flow_queue_len f).
    lia.
Qed.

Lemma serve_bulk_ok fuel s tin f :
  serving s tin f → backlogged f → 0 < dq_budget s → (Z.to_nat (work (dq_cs s)) < fuel)%nat →
  exists s' r, serve_bulk fuel t i thread now_us now_ns s = Some (s', r) /\
    turn_ok lens now_ns s s' r.
Proof.
  intros Hg Hb Hbu Hw. unfold serve_bulk.
  rewrite (flow_of_eq s t tin i f (sg_tin _ _ _ Hg) (sg_flow _ _ _ Hg)).
  assert (∀ s1 f1, served lens s s1 → fresh (dq_cs s1) → turned t i f1 s1 → backlogged f1 →
    dq_budget s1 = dq_budget s → work (dq_cs s1) <= work (dq_cs s) →
    (work (dq_cs s1) < work (dq_cs s) \/ 0 < fl_deficit f1) →
    exists s' r, match spend_deficit fuel t i thread now_us now_ns s1 with
      | None => None
      | Some (d, true) => Some (d, Break false)
      | Some (d, false) => Some (rotate_flow t i d, Continue)
      end = Some (s', r) /\ turn_ok lens now_ns s s' r) as Hmain.
  { intros s1 f1 Hsv Hfr Htu Hb1 Hbu1 Hw1 Hor.
    destruct (serving_after _ _ _ _ _ Hg Hsv Hfr Htu) as (tin1 & Hg1).
    destruct (work_bound _ _ (sg_ok _ _ _ Hg1)) as [W _].
    destruct (spend_ok fuel s1 tin1 f1 Hg1 Hb1 ltac:(lia)) as (s2 & stop & f2 & -> & A & B & C & D & E).
    assert (served lens s s2) as Hsv2 by (by eapply served_trans).
    destruct stop; do 2 eexists; (split; [reflexivity|]).
    - split; [done|]. split; [done|]. destruct E as [E|E]; [left|by right].
      pose proof (sv_blocks _ _ _ Hsv). lia.
    - destruct (serving_after _ _ _ _ _ Hg1 A B C) as (tin2 & Hg2).
      destruct (rotate_flow_ok s2 tin2 f2 Hg2) as (R1 & R2 & R3).
      split; [by eapply served_trans|]. split; [done|]. rewrite Hbu1 in E.
      destruct Hor as [Hor|Hor]; [lia|]. specialize (E Hor Hbu). lia. }
  destruct (Z.leb_spec (fl_deficit f) 0) as [Hd|Hd].
  - destruct (top_up_ok s tin f Hg Hb Hd) as (f1 & A & B & C & D & E & F).
    eapply (Hmain _ f1); try done; [|by left]. cbv zeta in F. lia.
  - eapply (Hmain s f); try done; [apply served_refl, Hg|apply Hg| |by right].
    exists tin. split; apply Hg.
Qed.

End Turns.
