(* ===== verification/CakeDispatch.v ===== *)
(** One dispatch of the dequeue node, scheduler by scheduler.

    The loop over one scheduler ends before its [work] does and in one of three ways
    ([visit_end]): nothing is left, the budget is spent, or a gate, a share or the
    shaper stopped it.  The walk over the bitmap then keeps [main_ok] and the sum of what
    is held, sent and freed ([walked]). *)

From S2P Require Import Prelude Dll Drr Shaper CakeTypes Cobalt CakeFlow CakeHier CakeEnqueue.
From S2P Require Import CakeDequeue CakeTin CakeMoves CakeSched CakeServe.

(** ** Which flow a turn serves *)

(** A scheduler whose flows are all closed. *)
Definition empty_sched (cs : cake_sched_t) : Prop :=
  ∀ t tin i f, cs_tins cs !! t = Some tin → tn_flows tin !! i = Some f →
    cake_flow_queue_len f = 0.

Lemma empty_held lens cs h : sched_ok lens cs → empty_sched cs → held h cs = 0.
Proof.
  intros Hok He. unfold held, ssum.
  assert (∀ l, (∀ tin, tin ∈ l → msum (qsum h) (tn_flows tin) = 0) →
    zsum (map (λ tin, msum (qsum h) (tn_flows tin)) l) = 0) as H.
  { induction l as [|tin l IH]; intros Hl; [done|]. cbn [map].
    change (zsum (?a :: ?b)) with (a + zsum b).
    rewrite (Hl tin) by set_solver. rewrite IH; [done|]. intros; apply Hl; set_solver. }
  apply H. intros tin Hin. apply list_elem_of_lookup in Hin as [t Ht]. apply msum_zero.
  intros i f Hf. unfold qsum. by rewrite (queue_nil f (He _ _ _ _ Ht Hf)).
Qed.

Lemma qsum_one f : qsum (λ _, 1) f = cake_flow_queue_len f.
Proof.
  rewrite <- queue_length. unfold qsum. induction (queue f) as [|x l IH]; [done|].
  change (zsum (map (λ _, 1) (x :: l))) with (1 + zsum (map (λ _, 1) l)). simpl length. lia.
Qed.

(** Nothing held, no flow open. *)
Lemma held_empty cs : held (λ _, 1) cs <= 0 → empty_sched cs.
Proof.
  intros Hz t tin i f Ht Hf. pose proof (qlen_range f) as Hq.
  assert (∀ f, 0 <= qsum (λ _, 1) f) as Hnn by (intros g; rewrite qsum_one; apply qlen_range).
  pose proof (msum_elem_le _ _ _ _ Hnn Hf) as Hm. rewrite qsum_one in Hm.
  assert (msum (qsum (λ _, 1)) (tn_flows tin) <= held (λ _, 1) cs) as Hs; [|lia].
  unfold held, ssum. apply zsum_elem_le.
  - apply Forall_forall. intros x Hx. apply list_elem_of_fmap in Hx as (tin0 & -> & _).
    by apply msum_nonneg.
  - apply list_elem_of_fmap. exists tin. split; [done|]. by eapply list_elem_of_lookup_2.
Qed.

(** A tin the selection passes over holds nothing. *)
Lemma inactive_empty lens tin i f :
  tin_ok lens tin → tin_active tin = false → tn_flows tin !! i = Some f →
  cake_flow_queue_len f = 0.
Proof.
  intros (n & o & d & Hok) Ha Hf. unfold tin_active in Ha.
  apply orb_false_iff in Ha as [Hc Hd]. apply Z.ltb_ge in Hc. apply bool_decide_eq_false in Hd.
  pose proof (lists_bound _ _ _ _ _ Hok) as Hb.
  rewrite (ta_sparse _ _ _ _ _ Hok), (ta_bulk _ _ _ _ _ Hok) in Hc.
  rewrite u32_small in Hc by (unfold is_u32; lia).
  assert (n = []) as -> by (destruct n; [done|simpl in Hc; lia]).
  assert (o = []) as -> by (destruct o; [done|simpl in Hc; lia]).
  destruct (ta_threads _ _ _ _ _ Hok) as (_ & _ & Hdd & _).
  assert (tn_decaying_flow_head tin = None) as E by (by apply dec_stable).
  rewrite E in Hdd. apply dll_head_nil in Hdd as ->.
  destruct (ta_state _ _ _ _ _ Hok i f Hf) as (S1 & S2 & S3).
  pose proof (fo_state _ _ (ta_flows _ _ _ _ _ Hok i f Hf)) as Hs.
  assert (~ i ∈ ([] : list Z)) as Hno by apply not_elem_of_nil.
  destruct (fl_flow_state f) eqn:Es; [apply Hs| | |]; exfalso; apply Hno; tauto.
Qed.

Lemma pick_tin_spec k tins :
  match pick_tin k tins with
  | Some t => (t < k)%nat /\ tin_active (nth t tins (cake_tin_init 0)) = true
  | None => ∀ t, (t < k)%nat → tin_active (nth t tins (cake_tin_init 0)) = false
  end.
Proof.
  induction k as [|k IH]; simpl; [intros; lia|].
  destruct (tin_active (nth k tins (cake_tin_init 0))) eqn:E; [split; [lia|done]|].
  destruct (pick_tin k tins); [split; [lia|apply IH]|].
  intros t Ht. destruct (decide (t = k)) as [->|]; [done|]. apply IH. lia.
Qed.

(** The head of the first list with a flow, in the state of that list. *)
Lemma select_flow_ok lens tin :
  tin_ok lens tin →
  match cake_select_flow tin with
  | Some i => exists f, tn_flows tin !! i = Some f /\
      (fl_flow_state f = CAKE_FLOW_SPARSE \/ backlogged f)
  | None => tin_active tin = false
  end.
Proof.
  intros (n & o & d & Hok). destruct (ta_threads _ _ _ _ _ Hok) as (Hn & Ho & Hd & _).
  unfold cake_select_flow.
  assert (∀ i, i ∈ n ++ o ++ d → exists f, tn_flows tin !! i = Some f /\
    (i ∈ n → fl_flow_state f = CAKE_FLOW_SPARSE) /\ (i ∈ o → fl_flow_state f = CAKE_FLOW_BULK) /\
    (i ∈ d → fl_flow_state f = CAKE_FLOW_DECAYING)) as Hl.
  { intros i Hi. destruct (proj2 (ta_table _ _ _ _ _ Hok i) (listed_in_table _ _ _ _ _ Hok i Hi))
      as [f Hf]. exists f. split; [done|].
    destruct (ta_state _ _ _ _ _ Hok i f Hf) as (S1 & S2 & S3). tauto. }
  destruct (tn_new_flow_head tin) as [i|] eqn:En.
  { destruct (dll_head_in _ _ _ _ i Hn eq_refl) as [l ->].
    destruct (Hl i ltac:(set_solver)) as (f & Hf & S & _). exists f. split; [done|]. left. set_solver. }
  destruct (tn_old_flow_head tin) as [i|] eqn:Eo.
  { destruct (dll_head_in _ _ _ _ i Ho eq_refl) as [l ->].
    destruct (Hl i ltac:(set_solver)) as (f & Hf & _ & S & _). exists f. split; [done|].
    right. left. set_solver. }
  destruct (tn_decaying_flow_head tin) as [i|] eqn:Ed.
  { destruct (dll_head_in _ _ _ _ i Hd eq_refl) as [l ->].
    destruct (Hl i ltac:(set_solver)) as (f & Hf & _ & _ & S). exists f. split; [done|].
    right. right. set_solver. }
  apply dll_head_nil in Hn as ->. apply dll_head_nil in Ho as ->.
  unfold tin_active. rewrite (ta_sparse _ _ _ _ _ Hok), (ta_bulk _ _ _ _ _ Hok), Ed. done.
Qed.

(** ** The loop over one scheduler *)

Section Loop.

Context `{Vpp} (lens : gmap Z Z) (thread now_us now_ns : Z).

(** The state between two turns. *)
Record ready (s : deq) : Prop := {
  rd_ok : sched_ok lens (dq_cs s);
  rd_tree : tree_ok (dq_aggs s);
  rd_fresh : fresh (dq_cs s);
  rd_lens : lens_of (dq_bufs s) = lens
}.

Lemma sched_turn_ok fuel s :
  ready s → 0 < dq_budget s → (Z.to_nat (work (dq_cs s)) < fuel)%nat →
  exists s' r, sched_turn fuel thread now_us now_ns s = Some (s', r) /\
    match r with
    | Break true => s' = idle_out s /\ empty_sched (dq_cs s)
    | _ => turn_ok lens now_ns s s' r
    end.
Proof.
  intros [Hok Htr Hfr Hl] Hbu Hw. unfold sched_turn.
  destruct (sk_n_tins _ _ Hok) as [Hn Hn1].
  pose proof (pick_tin_spec (Z.to_nat (cs_n_tins (dq_cs s))) (cs_tins (dq_cs s))) as Hp.
  destruct (pick_tin _ _) as [t|].
  - destruct Hp as [Ht Ha].
    assert (t < length (cs_tins (dq_cs s)))%nat as Hlt by lia.
    destruct (lookup_lt_is_Some_2 _ _ Hlt) as [tin Htin].
    rewrite (nth_lookup_Some _ _ _ _ Htin) in Ha.
    rewrite (tin_of_eq s t tin Htin).
    pose proof (select_flow_ok lens tin (sk_tins _ _ Hok _ _ Htin)) as Hsel.
    destruct (cake_select_flow tin) as [i|]; [|congruence].
    destruct Hsel as (f & Hf & Hst). rewrite (flow_of_eq s t tin i f Htin Hf).
    case_bool_decide as Hsp.
    + destruct (serve_sparse_ok lens t i thread now_us now_ns s tin f Hok Htr Hfr Hl Htin Hf Hsp Hbu)
        as (s' & r & -> & H1). exists s', r. split; [done|].
      destruct r as [|[]]; [done| |done]. by destruct H1 as (_ & _ & []).
    + destruct Hst as [?|Hb]; [done|].
      destruct (serve_bulk_ok lens t i thread now_us now_ns fuel s tin f
        ltac:(by constructor) Hb Hbu Hw) as (s' & r & -> & H1).
      exists s', r. split; [done|]. destruct r as [|[]]; [done| |done]. by destruct H1 as (_ & _ & []).
  - exists (idle_out s), (Break true). split; [done|]. split; [done|]. intros t tin i f Htin Hf.
    assert (t < length (cs_tins (dq_cs s)))%nat by (by eapply lookup_lt_Some).
    specialize (Hp t ltac:(lia)). rewrite (nth_lookup_Some _ _ _ _ Htin) in Hp.
    eapply inactive_empty; [by eapply (sk_tins _ _ Hok)|done|done].
Qed.

(** How the visit of a scheduler ends: idle with nothing queued; out of budget; or
    stopped by a gate, a share or the shaper. *)
Definition visit_end (s s' : deq) (idle : bool) : Prop :=
  exists s1, served lens s s1 /\ fresh (dq_cs s1) /\
    (if idle then s' = idle_out s1 /\ empty_sched (dq_cs s1)
     else s' = s1 /\ (dq_budget s1 <= 0 \/ stopped now_ns s s1)).

Lemma sched_loop_ok fuel s :
  ready s → (Z.to_nat (work (dq_cs s)) < fuel)%nat →
  exists s' idle, sched_loop fuel thread now_us now_ns s = Some (s', idle) /\ visit_end s s' idle.
Proof.
  revert s. induction fuel as [|fuel IH]; intros s Hr Hw; [lia|]. pose proof Hr as [Hok Htr Hfr Hl].
  cbn [sched_loop]. destruct (Z.ltb_spec 0 (dq_budget s)) as [Hbu|Hbu].
  2: { exists s, false. split; [done|]. exists s. split; [by apply served_refl|]. split; [done|]. split; [done|by left]. }
  destruct (sched_turn_ok (S fuel) s Hr Hbu Hw) as (s1 & r & -> & Hturn). simpl.
  destruct r as [|[]].
  - destruct Hturn as (Hsv & Hfr1 & Hc). destruct (work_bound _ _ Hok) as [W1 _]. destruct (work_bound _ _ (sv_sched _ _ _ Hsv)) as [W2 _].
    assert (ready s1) as Hr1 by (constructor; [apply Hsv|exact (same_bones_tree _ _ (sv_bones _ _ _ Hsv) Htr)|done|
      by rewrite (sv_lens _ _ _ Hsv)]).
    destruct (IH s1 Hr1 ltac:(lia)) as (s2 & idle & E & s3 & V1 & V2 & V3).
    exists s2, idle. split; [exact E|]. exists s3. split; [by eapply served_trans|]. split; [done|].
    destruct idle; [done|]. destruct V3 as [V3 [V4|[V4|V4]]]; (split; [done|]); [by left|right; left|right; by right].
    pose proof (sv_blocks _ _ _ Hsv). lia.
  - destruct Hturn as [-> He]. exists (idle_out s), true. split; [done|].
    exists s. split; [by apply served_refl|]. done.
  - destruct Hturn as (Hsv & Hfr1 & Hc). exists s1, false. split; [done|]. exists s1. split; [done|].
    split; [done|]. split; [done|]. by right.
Qed.

End Loop.

(** ** Going idle *)

Lemma deactivate_frame aggs cs :
  let '(_, cs') := cake_sched_drr_deactivate aggs cs in exists c, cs' = cs⟪cs_drr := c⟫.
Proof.
  unfold cake_sched_drr_deactivate. destruct (Drr.cake_drr_child_deactivate _) as [c m].
  destruct m; by exists c.
Qed.

(** Leaving the parents' weight changes nothing but the share. *)
Lemma idle_out_frame s : exists aggs c,
  idle_out s = s⟪dq_aggs := aggs⟫⟪dq_cs := (dq_cs s)⟪cs_drr := c⟫⟫ /\
  same_bones (dq_aggs s) aggs.
Proof.
  unfold idle_out. pose proof (deactivate_frame (dq_aggs s) (dq_cs s)) as Hd.
  pose proof (deactivate_bones (dq_aggs s) (dq_cs s)) as Hb.
  destruct (cake_sched_drr_deactivate _ _) as [aggs cs]. destruct Hd as [c ->]. by exists aggs, c.
Qed.

(** ** All the schedulers *)

(** The sum of [h] over the buffers every scheduler holds. *)
Definition cm_held (h : Z → Z) (cm : cake_main_t) : Z := msum (held h) (cm_schedulers cm).

(** A scheduler is served by the thread that owns it, and takes part in its parents'
    rounds. *)
Definition listed (cm : cake_main_t) (si : Z) (cs : cake_sched_t) : Prop :=
  exists t pt, cs_owner_thread cs = Some t /\ 0 <= t /\
    cm_per_thread cm !! Z.to_nat t = Some pt /\ si ∈ pt_active_bitmap pt /\
    Drr.active (cs_drr cs) = true.

Record main_ok (lens : gmap Z Z) (cm : cake_main_t) : Prop := {
  mo_sched : ∀ si cs, cm_schedulers cm !! si = Some cs →
    sched_ok lens cs /\ fresh cs /\ cs_sched_index cs = si;
  mo_listed : ∀ si cs, cm_schedulers cm !! si = Some cs → empty_sched cs \/ listed cm si cs
}.

Lemma held_put h si cs cs' aggs cm :
  cm_schedulers cm !! si = Some cs →
  cm_held h (put_sched si cs' aggs cm) = cm_held h cm - held h cs + held h cs'.
Proof. intros Hs. unfold cm_held, put_sched. rsimpl. by apply msum_insert. Qed.

(** One scheduler replaced by another with its place. *)
Lemma put_ok lens si cs cs' aggs cm :
  main_ok lens cm → cm_schedulers cm !! si = Some cs →
  sched_ok lens cs' → fresh cs' → cs_sched_index cs' = si →
  (empty_sched cs' \/ listed cm si cs') → main_ok lens (put_sched si cs' aggs cm).
Proof.
  intros [M1 M2] Hs H1 H2 H3 H4. unfold put_sched. constructor; rsimpl; intros sj cj.
  - rewrite lookup_insert_Some. intros [[<- <-]|[_ Hj]]; [done|by apply M1].
  - rewrite lookup_insert_Some. intros [[<- <-]|[_ Hj]]; [exact H4|exact (M2 _ _ Hj)].
Qed.

Section Dispatch.

Context `{Vpp} (lens : gmap Z Z) (thread now_us now_ns : Z) (fuel : nat).
Hypothesis Hfuel : (Z.to_nat WORK_MAX < fuel)%nat.

Definition frame_out (s : deq_frame) : list Z := map fst (df_out s).
Definition frame_blocks (s : deq_frame) : Z := df_n_drr_blocked s + df_n_parent_blocked s.

Record walked (s s' : deq_frame) : Prop := {
  wk_main : main_ok lens (df_cm s');
  wk_lens : lens_of (df_bufs s') = lens_of (df_bufs s);
  wk_held : ∀ h, cm_held h (df_cm s') + total h (frame_out s') + total h (df_freed s') =
                 cm_held h (df_cm s) + total h (frame_out s) + total h (df_freed s);
  wk_budget : df_budget s' + Z.of_nat (length (df_out s')) =
              df_budget s + Z.of_nat (length (df_out s));
  wk_floor : 0 <= df_budget s';
  wk_less : df_budget s' <= df_budget s;
  wk_blocks : frame_blocks s <= frame_blocks s';
  wk_threads : cm_per_thread (df_cm s') = cm_per_thread (df_cm s);
  wk_count : (length (df_deactivate s) <= length (df_deactivate s'))%nat;
  wk_keys : ∀ si, is_Some (cm_schedulers (df_cm s') !! si) → is_Some (cm_schedulers (df_cm s) !! si);
  wk_bones : same_bones (cm_aggregates (df_cm s)) (cm_aggregates (df_cm s'));
  wk_ports : cm_agg_index_by_sw_if_index (df_cm s') = cm_agg_index_by_sw_if_index (df_cm s)
}.

Lemma walked_refl s : main_ok lens (df_cm s) → 0 <= df_budget s → walked s s.
Proof. intros. by constructor. Qed.

Lemma walked_trans s1 s2 s3 : walked s1 s2 → walked s2 s3 → walked s1 s3.
Proof.
  intros [A1 A2 A3 A4 A5 A6 A7 A8 A9 A10 A11 A12] [B1 B2 B3 B4 B5 B6 B7 B8 B9 B10 B11 B12].
  constructor; [done|congruence|intros h; by rewrite B3|lia|lia|lia|lia|congruence|lia|auto|
    by etransitivity|congruence].
Qed.

(** Nothing this thread has to serve. *)
Definition gone (cm : cake_main_t) (si : Z) : Prop :=
  ∀ cs, cm_schedulers cm !! si = Some cs → cs_owner_thread cs ≠ Some thread \/ empty_sched cs.

(** The scheduler has been served as far as its own shaper lets it. *)
Definition drained (cm : cake_main_t) (si : Z) : Prop :=
  ∀ cs, cm_schedulers cm !! si = Some cs →
    cs_owner_thread cs ≠ Some thread \/ empty_sched cs \/ now_ns < cs_global_shaper_time_ns cs.

Definition others_same (l : list Z) (s s' : deq_frame) : Prop :=
  ∀ j, j ∉ l → cm_schedulers (df_cm s') !! j = cm_schedulers (df_cm s) !! j.

(** What a visit leaves behind. *)
Record visited (s s' : deq_frame) (si : Z) : Prop := {
  vs_walked : walked s s';
  vs_others : others_same [si] s s';
  vs_deact : df_deactivate s' = df_deactivate s \/
             (df_deactivate s' = df_deactivate s ++ [si] /\ gone (df_cm s') si);
  vs_drained : 0 < df_budget s' → frame_blocks s' = frame_blocks s → drained (df_cm s') si
}.

Lemma total_app h l k : total h (l ++ k) = total h l + total h k.
Proof. unfold total. by rewrite map_app, zsum_app. Qed.

Lemma empty_same cs cs' : cs_tins cs' = cs_tins cs → empty_sched cs → empty_sched cs'.
Proof. intros E He t tin i f. rewrite E. apply He. Qed.

Lemma listed_after cm cm' si cs cs' :
  listed cm si cs → cm_per_thread cm' = cm_per_thread cm → shape cs' = shape cs →
  Drr.active (cs_drr cs') = Drr.active (cs_drr cs) → listed cm' si cs'.
Proof.
  intros (t & pt & L1 & L2 & L3 & L4 & L5) Hp [= _ _ _ Ho _] Ha.
  exists t, pt. rewrite Ho, Hp, Ha. done.
Qed.

(** The frame after the loop over scheduler [si]. *)
Definition after_loop (si : Z) (cs : cake_sched_t) (s : deq_frame) (d : deq) (idle : bool)
    : deq_frame :=
  mkDeqFrame (put_sched si (dq_cs d) (dq_aggs d) (df_cm s)) (dq_bufs d)
    (dq_budget d) (df_out s ++ dq_out d) (df_freed s ++ dq_freed d)
    (if idle then df_deactivate s ++ [si] else df_deactivate s)
    (df_n_aqm_drops s + dq_n_aqm_drops d) (df_n_ecn_marks s + dq_n_ecn_marks d)
    (df_n_drr_blocked s + dq_n_drr_blocked d) (df_n_parent_blocked s + dq_n_parent_blocked d)
    (if bool_decide (cs_aggregate_index (dq_cs d) = None) then df_n_agg_shaped s
     else df_n_agg_shaped s + (df_budget s - dq_budget d)).

Definition deq_of (s : deq_frame) (cs : cake_sched_t) (seed : Z) : deq :=
  mkDeq (cm_aggregates (df_cm s)) cs (df_bufs s) seed (df_budget s) [] [] 0 0 0 0.

Lemma after_loop_ok si cs s seed d idle :
  main_ok lens (df_cm s) → lens_of (df_bufs s) = lens → 0 <= df_budget s →
  cm_schedulers (df_cm s) !! si = Some cs →
  visit_end lens now_ns (deq_of s cs seed) d idle →
  visited s (after_loop si cs s d idle) si.
Proof.
  intros Hm Hl Hb Hs (s1 & Hsv & Hfr & Hend). pose proof Hsv as [V1 V2 V3 V4 V5 V6 V7 V8 V9 V10].
  destruct (mo_sched _ _ Hm _ _ Hs) as (K1 & K2 & K3).
  assert (exists aggs c, d = s1⟪dq_aggs := aggs⟫⟪dq_cs := (dq_cs s1)⟪cs_drr := c⟫⟫ /\
    (idle = false → d = s1) /\ same_bones (dq_aggs s1) aggs) as (aggs & c & Ed & Eni & Hbi).
  { destruct idle; [|destruct Hend as [-> _]; exists (dq_aggs s1), (cs_drr (dq_cs s1))].
    - destruct Hend as [-> _]. destruct (idle_out_frame s1) as (aggs & c & -> & ?). by exists aggs, c.
    - split; [|done]. destruct s1 as [? []]; done. }
  assert (dq_cs d = (dq_cs s1)⟪cs_drr := c⟫) as Ecs by (by rewrite Ed).
  destruct (sched_same lens (dq_cs s1) (dq_cs d) V1) as [S1 S2]; try (by rewrite Ecs).
  assert (fresh (dq_cs d)) as Hfd by (rewrite Ecs; exact Hfr).
  assert (shape (dq_cs d) = shape cs) as Hsh by (rewrite Ecs; exact V3).
  assert (cs_tins (dq_cs d) = cs_tins (dq_cs s1)) as Et by (by rewrite Ecs).
  assert (idle = true → empty_sched (dq_cs d)) as Hemp.
  { intros ->. destruct Hend as [_ He]. by eapply empty_same. }
  assert (dq_bufs d = dq_bufs s1 /\ dq_budget d = dq_budget s1 /\ dq_out d = dq_out s1 /\
    dq_freed d = dq_freed s1 /\ blocks d = blocks s1) as (Eb & Ebu & Eo & Ef & Ebl)
    by (by rewrite Ed).
  simpl in V2, V4, V5, V6, V8, V9. unfold blocks in V8. simpl in V8.
  unfold after_loop. constructor.
  - constructor; simpl; try done.
    + assert (cs_sched_index (dq_cs d) = si) as Hi by (by rewrite <- K3; injection Hsh).
      eapply put_ok; try done.
      destruct idle; [left; by apply Hemp|].
      destruct (mo_listed _ _ Hm _ _ Hs) as [He|Hli].
      * left. apply held_empty. rewrite S2. specialize (V5 (λ _, 1)).
        rewrite (empty_held lens cs _ K1 He) in V5. unfold out_of in V5. simpl in V5.
        change (total (λ _, 1) []) with 0 in V5.
        assert (∀ l, 0 <= total (λ _, 1) l) as Hnn by (intros l; by apply zsum_map_nonneg).
        pose proof (Hnn (map fst (dq_out s1))). pose proof (Hnn (dq_freed s1)). lia.
      * right. eapply listed_after; [exact Hli|done|exact Hsh|]. rewrite Eni by done. exact V4.
    + by rewrite Eb, V2.
    + intros h. rewrite (held_put h si cs _ _ _ Hs), S2. unfold frame_out. simpl.
      rewrite map_app, !total_app, Eo, Ef. specialize (V5 h). unfold out_of, total in *. simpl in V5. lia.
    + rewrite length_app, Ebu, Eo. simpl in V6. lia.
    + rewrite Ebu. lia.
    + rewrite Ebu. lia.
    + unfold frame_blocks. simpl. unfold blocks in Ebl. lia.
    + destruct idle; rewrite ?length_app; lia.
    + intros sj. unfold put_sched. rsimpl. destruct (decide (sj = si)) as [->|Hne]; [by rewrite Hs|].
      by rewrite lookup_insert_ne.
    + change (same_bones (cm_aggregates (df_cm s)) (dq_aggs d)). rewrite Ed.
      etransitivity; [exact V10|exact Hbi].
  - intros j Hj. simpl. unfold put_sched. rsimpl. rewrite lookup_insert_ne; [done|set_solver].
  - simpl. destruct idle; [right|by left]. split; [done|]. intros cs'. unfold put_sched. rsimpl.
    rewrite lookup_insert_eq. intros [= <-]. right. by apply Hemp.
  - simpl. unfold frame_blocks. simpl. intros Hbu Hbl cs'. unfold put_sched. rsimpl.
    rewrite lookup_insert_eq. intros [= <-]. destruct idle; [right; left; by apply Hemp|].
    destruct Hend as [-> [He|[He|He]]]; [lia|unfold blocks in He; simpl in He; lia|].
    right. right. by apply Z.ltb_lt.
Qed.

Lemma visited_none s si :
  main_ok lens (df_cm s) → 0 <= df_budget s → gone (df_cm s) si →
  visited s (s⟪df_deactivate ::= λ l, l ++ [si]⟫) si.
Proof.
  intros Hm Hb Hg. constructor.
  - constructor; try done; simpl; try lia. rewrite length_app. lia.
  - done.
  - by right.
  - intros _ _ cs Hs. destruct (Hg cs Hs); [by left|by right; left].
Qed.

(** One scheduler of the bitmap. *)
Lemma serve_sched_ok seed s si :
  main_ok lens (df_cm s) → tree_ok (cm_aggregates (df_cm s)) → lens_of (df_bufs s) = lens → 0 <= df_budget s →
  exists s' seed', serve_sched fuel thread now_us now_ns seed s si = Some (s', seed') /\
    visited s s' si.
Proof.
  intros Hm Htr Hl Hb. unfold serve_sched.
  destruct (cm_schedulers (df_cm s) !! si) as [cs|] eqn:Hs.
  2: { do 2 eexists. split; [reflexivity|]. apply visited_none; [done..|]. intros cs. by rewrite Hs. }
  destruct (bool_decide_reflect (cs_owner_thread cs = Some thread)) as [Ho|Ho]; cbn [negb].
  2: { do 2 eexists. split; [reflexivity|]. apply visited_none; [done..|].
       intros cs'. rewrite Hs. intros [= <-]. by left. }
  destruct (Z.ltb_spec now_ns (cs_global_shaper_time_ns cs)) as [Hsh|Hsh].
  { do 2 eexists. split; [reflexivity|]. constructor; [by apply walked_refl|done|by left|].
    intros _ _ cs'. rewrite Hs. intros [= <-]. by right; right. }
  destruct (mo_sched _ _ Hm _ _ Hs) as (K1 & K2 & K3).
  destruct (work_bound _ _ K1) as [_ Hw].
  destruct (sched_loop_ok lens thread now_us now_ns fuel (deq_of s cs seed)) as (d & idle & E & Hv).
  { by constructor. }
  { simpl. lia. }
  change (sched_loop fuel thread now_us now_ns (mkDeq _ _ _ _ _ _ _ _ _ _ _))
    with (sched_loop fuel thread now_us now_ns (deq_of s cs seed)).
  rewrite E. simpl. do 2 eexists. split; [reflexivity|]. exact (after_loop_ok si cs s seed d idle Hm Hl Hb Hs Hv).
Qed.

(** ** The walk over the bitmap *)

Record dispatched (s s' : deq_frame) (l : list Z) : Prop := {
  dp_walked : walked s s';
  dp_others : others_same l s s';
  dp_gone : Forall (gone (df_cm s')) (df_deactivate s');
  dp_drained : 0 < df_budget s' → frame_blocks s' = frame_blocks s →
    (length (df_deactivate s') < 255)%nat → Forall (drained (df_cm s')) l
}.

Lemma same_Forall (P : cake_main_t → Z → Prop) l k s s' :
  (∀ si cm cm', cm_schedulers cm' !! si = cm_schedulers cm !! si → P cm si → P cm' si) →
  others_same k s s' → (∀ x, x ∈ l → x ∉ k) → Forall (P (df_cm s)) l → Forall (P (df_cm s')) l.
Proof.
  intros HP Ho Hd Hl. rewrite Forall_forall in *. intros x Hx.
  eapply HP; [by apply Ho, Hd|]. by apply Hl.
Qed.

Lemma gone_same si cm cm' :
  cm_schedulers cm' !! si = cm_schedulers cm !! si → gone cm si → gone cm' si.
Proof. intros E Hg cs. rewrite E. apply Hg. Qed.

Lemma drained_same si cm cm' :
  cm_schedulers cm' !! si = cm_schedulers cm !! si → drained cm si → drained cm' si.
Proof. intros E Hg cs. rewrite E. apply Hg. Qed.

Lemma walk_active_ok l : ∀ seed s,
  main_ok lens (df_cm s) → tree_ok (cm_aggregates (df_cm s)) → lens_of (df_bufs s) = lens → 0 <= df_budget s →
  NoDup l → (∀ x, x ∈ df_deactivate s → x ∉ l) → Forall (gone (df_cm s)) (df_deactivate s) →
  exists s' seed', walk_active fuel thread now_us now_ns seed s l = Some (s', seed') /\
    dispatched s s' l.
Proof.
  induction l as [|si l IH]; intros seed s Hm Htr Hl Hb Hnd Hdj Hg; cbn [walk_active].
  { exists s, seed. split; [done|]. constructor; try done; by apply walked_refl. }
  apply NoDup_cons in Hnd as [Hsi Hnd].
  destruct ((df_budget s =? 0) || (VLIB_FRAME_SIZE - 1 <=? Z.of_nat (length (df_deactivate s)))) eqn:Estop.
  { exists s, seed. split; [done|]. constructor; [by apply walked_refl|done|done|].
    intros Hbu _ Hlen. exfalso. apply orb_true_iff in Estop.
    rewrite Z.eqb_eq, Z.leb_le in Estop. unfold VLIB_FRAME_SIZE in Estop. lia. }
  destruct (serve_sched_ok seed s si Hm Htr Hl Hb) as (s1 & seed1 & -> & [V1 V2 V3 V4]). simpl.
  destruct (IH seed1 s1) as (s2 & seed2 & -> & [D1 D2 D3 D4]); try done; try apply V1.
  - exact (same_bones_tree _ _ (wk_bones _ _ V1) Htr).
  - by rewrite (wk_lens _ _ V1).
  - intros x Hx. destruct V3 as [E|[E _]]; rewrite E in Hx; [set_solver|].
    apply elem_of_app in Hx as [Hx|Hx]; [set_solver|].
    apply list_elem_of_singleton in Hx. by subst.
  - assert (Forall (gone (df_cm s1)) (df_deactivate s)) as Hg1.
    { eapply same_Forall; [exact gone_same|exact V2| |exact Hg]. set_solver. }
    destruct V3 as [->|[-> Hs]]; [done|]. apply Forall_app. split; [exact Hg1|].
    by apply Forall_singleton.
  - exists s2, seed2. split; [done|]. constructor.
    + by eapply walked_trans.
    + intros j Hj. rewrite (D2 j), (V2 j); [done|set_solver..].
    + done.
    + intros Hbu Hbl Hlen. pose proof (wk_blocks _ _ V1). pose proof (wk_blocks _ _ D1).
      pose proof (wk_less _ _ D1). constructor; [|by apply D4; [|lia|]].
      eapply drained_same; [apply D2; done|]. apply V4; lia.
Qed.

End Dispatch.
