(* ===== verification/CakePlugin.v ===== *)
(** The plugin's operations on all of its schedulers.

    [main_ok] of a state says that every scheduler is well formed and that none that
    holds packets has left the bitmap of the thread that serves it.  Each operation of
    the plugin keeps it: a dispatch of either node, and every configuration call.
    Each comes with what happens to the packets: [cm_held h] before and after. *)

From S2P Require Import Prelude Dll Drr Shaper CakeTypes Cobalt CakeFlow CakeHier CakeConfig CakeTopo.
From S2P Require Import CakeEnqueue CakeDequeue CakeTin CakeMoves CakeSched CakeServe CakeDispatch.

(** ** Operations that leave the queues alone *)

(** Two schedulers alike but for rates, parents and statistics. *)
Record alike (cs cs' : cake_sched_t) : Prop := {
  al_tins : map links (cs_tins cs') = map links (cs_tins cs);
  al_shape : shape cs' = shape cs;
  al_usage : cs_buffer_usage cs' = cs_buffer_usage cs;
  al_queued : cs_queued_buffers cs' = cs_queued_buffers cs;
  al_active : Drr.active (cs_drr cs') = Drr.active (cs_drr cs)
}.

#[export] Instance alike_equivalence : Equivalence alike.
Proof.
  split.
  - intros c. by constructor.
  - intros c c' [A1 A2 A3 A4 A5]. by constructor.
  - intros c1 c2 c3 [A1 A2 A3 A4 A5] [B1 B2 B3 B4 B5]. constructor; congruence.
Qed.

Section Alike.

Context (cs cs' : cake_sched_t).
Hypothesis Ha : alike cs cs'.

Lemma alike_tin t tin' : cs_tins cs' !! t = Some tin' →
  exists tin, cs_tins cs !! t = Some tin /\ links tin' = links tin.
Proof.
  intros Ht. pose proof (f_equal (λ l, l !! t) (al_tins _ _ Ha)) as E.
  change (map links) with (fmap (M := list) links) in E.
  rewrite !list_lookup_fmap, Ht in E. simpl in E.
  destruct (cs_tins cs !! t) as [tin|]; [|done]. exists tin. split; [done|].
  by apply (inj Some) in E.
Qed.

Lemma alike_flows : map tn_flows (cs_tins cs') = map tn_flows (cs_tins cs).
Proof.
  pose proof (f_equal (map (λ l, l.1.1.1.1)) (al_tins _ _ Ha)) as E. by rewrite !map_map in E.
Qed.

Lemma alike_ssum g : ssum g cs' = ssum g cs.
Proof.
  unfold ssum. pose proof (f_equal (map (msum g)) alike_flows) as E. rewrite !map_map in E.
  by rewrite E.
Qed.

Lemma alike_held h : held h cs' = held h cs.
Proof. apply alike_ssum. Qed.

Lemma alike_sched lens : sched_ok lens cs → sched_ok lens cs'.
Proof.
  intros [K1 K2 K3 K4 K5]. destruct Ha as [A1 A2 A3 A4 A5]. injection A2 as S1 S2 S3 S4 S5.
  constructor.
  - intros t tin' Ht. destruct (alike_tin t tin' Ht) as (tin & Ht0 & Hl).
    destruct (K1 t tin Ht0) as (n & o & d & Hat). exists n, o, d. by eapply tin_at_links.
  - rewrite S1. apply (f_equal length) in A1. rewrite !length_map in A1. by rewrite A1.
  - rewrite A3, K3. f_equal. symmetry. apply alike_held.
  - rewrite A4, K4. f_equal. symmetry. apply alike_ssum.
  - by rewrite S2, S3.
Qed.

Lemma alike_fresh : fresh cs → fresh cs'.
Proof.
  intros Hf t tin' i f Ht Hi. destruct (alike_tin t tin' Ht) as (tin & Ht0 & Hl).
  injection Hl as E _ _ _ _ _ _ _ _ _. rewrite E in Hi. by eapply Hf.
Qed.

Lemma alike_empty : empty_sched cs → empty_sched cs'.
Proof.
  intros Hf t tin' i f Ht Hi. destruct (alike_tin t tin' Ht) as (tin & Ht0 & Hl).
  injection Hl as E _ _ _ _ _ _ _ _ _. rewrite E in Hi. by eapply Hf.
Qed.

End Alike.

(** No bit is cleared, and no thread forgotten. *)
Definition bitmaps_kept (l l' : list cake_per_thread_t) : Prop :=
  ∀ t pt, l !! t = Some pt → exists pt', l' !! t = Some pt' /\ pt_active_bitmap pt ⊆ pt_active_bitmap pt'.

Definition all_alike (cm cm' : cake_main_t) : Prop :=
  ∀ si, match cm_schedulers cm !! si, cm_schedulers cm' !! si with
        | Some cs, Some cs' => alike cs cs'
        | None, None => True
        | _, _ => False
        end.

Lemma all_alike_refl cm cm' : cm_schedulers cm' = cm_schedulers cm → all_alike cm cm'.
Proof. intros E si. rewrite E. by destruct (cm_schedulers cm !! si). Qed.

Lemma all_alike_trans cm1 cm2 cm3 : all_alike cm1 cm2 → all_alike cm2 cm3 → all_alike cm1 cm3.
Proof.
  intros A B si. specialize (A si). specialize (B si).
  destruct (cm_schedulers cm1 !! si), (cm_schedulers cm2 !! si), (cm_schedulers cm3 !! si); try done.
  by etransitivity.
Qed.

Lemma listed_kept cm cm' si cs cs' :
  bitmaps_kept (cm_per_thread cm) (cm_per_thread cm') →
  shape cs' = shape cs → Drr.active (cs_drr cs') = Drr.active (cs_drr cs) →
  listed cm si cs → listed cm' si cs'.
Proof.
  intros Hb [= _ _ _ Ho _] Ha (t & pt & L1 & L2 & L3 & L4 & L5).
  destruct (Hb _ _ L3) as (pt' & E1 & E2). exists t, pt'. rewrite Ho, Ha. set_solver.
Qed.

Lemma all_alike_ok lens cm cm' :
  main_ok lens cm → all_alike cm cm' → bitmaps_kept (cm_per_thread cm) (cm_per_thread cm') →
  main_ok lens cm' /\ ∀ h, cm_held h cm' = cm_held h cm.
Proof.
  intros [M1 M2] Ha Hb. split; [constructor|].
  - intros si cs' Hs. specialize (Ha si). rewrite Hs in Ha.
    destruct (cm_schedulers cm !! si) as [cs|] eqn:E; [|done].
    destruct (M1 si cs E) as (K1 & K2 & K3). split; [by eapply alike_sched|].
    split; [by eapply alike_fresh|]. rewrite <- K3. pose proof (al_shape _ _ Ha) as S. by injection S.
  - intros si cs' Hs. specialize (Ha si). rewrite Hs in Ha.
    destruct (cm_schedulers cm !! si) as [cs|] eqn:E; [|done].
    destruct (M2 si cs E) as [He|Hl]; [left; by eapply alike_empty|right].
    eapply listed_kept; [done|apply Ha|apply Ha|done].
  - intros h. apply msum_same_keys. intros si. specialize (Ha si).
    destruct (cm_schedulers cm !! si), (cm_schedulers cm' !! si); try done. simpl. f_equal.
    by apply alike_held.
Qed.

Lemma bitmaps_kept_refl l : bitmaps_kept l l.
Proof. intros t pt H. eauto. Qed.

(** ** Aggregates, attachment and statistics *)

Lemma resolve_alike vn cm cs cs' :
  cake_sched_resolve_attachment vn cm cs = Some cs' → alike cs cs'.
Proof.
  unfold cake_sched_resolve_attachment.
  destruct (attach_walk _ _ _ _ _) as [[tag [p|]]|]; cbn [mbind option_bind]; [|by intros [= <-]|done].
  destruct (cm_aggregates cm !! p ≫= ag_svlan_map) as [m|]; [|by intros [= <-]].
  destruct tag as [t|]; [|by intros [= <-]]. destruct (_ <=? _); [by intros [= <-]|].
  destruct (m !! t); by intros [= <-].
Qed.

Lemma reparent_one_alike vn cm aggs cs aggs' cs' :
  reparent_one vn cm aggs cs = Some (aggs', cs') → alike cs cs'.
Proof.
  unfold reparent_one. destruct (cake_sched_resolve_attachment vn _ cs) as [c|] eqn:E; [|done].
  apply resolve_alike in E. cbn [mbind option_bind].
  case_bool_decide; [by intros [= _ <-]|]. destruct (_ =? 0); by intros [= _ <-].
Qed.

(** A state changed in what neither the schedulers nor the bitmaps are. *)
Definition quiet (cm cm' : cake_main_t) : Prop :=
  all_alike cm cm' /\ cm_per_thread cm' = cm_per_thread cm.

Lemma quiet_trans cm1 cm2 cm3 : quiet cm1 cm2 → quiet cm2 cm3 → quiet cm1 cm3.
Proof. intros [A1 A2] [B1 B2]. split; [by eapply all_alike_trans|congruence]. Qed.

Lemma quiet_same cm cm' :
  cm_schedulers cm' = cm_schedulers cm → cm_per_thread cm' = cm_per_thread cm → quiet cm cm'.
Proof. intros H1 H2. split; [by apply all_alike_refl|done]. Qed.

Lemma reparent_turn_quiet vn s cm cm' : reparent_turn vn cm s = Some cm' → quiet cm cm'.
Proof.
  unfold reparent_turn.
  destruct (cm_schedulers cm !! s) as [cs|] eqn:E; [|intros [= <-]; by apply quiet_same].
  destruct (reparent_one vn cm (cm_aggregates cm) cs) as [[aggs cs']|] eqn:Er; [|done].
  apply reparent_one_alike in Er. intros [= <-]. split; [|done].
  intros si. rsimpl. destruct (decide (si = s)) as [->|Hne].
  - by rewrite lookup_insert_eq, E.
  - rewrite lookup_insert_ne by done. by destruct (cm_schedulers cm !! si).
Qed.

Lemma reparent_all_quiet vn cm cm' : cake_agg_reparent_all vn cm = Some cm' → quiet cm cm'.
Proof.
  apply foldl_option_inv; [intros; by apply quiet_same|apply quiet_trans|apply reparent_turn_quiet].
Qed.

(** Every branch either changes the aggregates only or reparents. *)
Ltac quietly :=
  repeat match goal with
  | |- (if ?b then _ else _) = _ → _ => destruct b
  | |- match ?o with Some _ => _ | None => _ end = _ → _ => destruct o
  | p : _ * _ |- _ => destruct p
  | |- (cake_agg_reparent_all ?vn ?c ≫= _) = _ → _ =>
      let E := fresh "E" in destruct (cake_agg_reparent_all vn c) eqn:E; cbn [mbind option_bind]
  end; try done; intros [= <- _];
  try match goal with E : cake_agg_reparent_all _ _ = Some _ |- _ =>
    apply reparent_all_quiet in E;
    eapply quiet_trans; [|first [exact E|eapply quiet_trans; [exact E|]]] end;
  apply quiet_same; reflexivity.

Lemma aggregate_create_quiet vn cm i sw r w b l cm' e :
  cake_aggregate_create vn cm i sw r w b l = Some (cm', e) → quiet cm cm'.
Proof. unfold cake_aggregate_create. quietly. Qed.

Lemma aggregate_delete_quiet vn cm sw cm' e :
  cake_aggregate_delete vn cm sw = Some (cm', e) → quiet cm cm'.
Proof. unfold cake_aggregate_delete. quietly. Qed.

Lemma svlan_create_quiet vn cm i sw a e r w b l cm' x :
  cake_svlan_aggregate_create vn cm i sw a e r w b l = Some (cm', x) → quiet cm cm'.
Proof. unfold cake_svlan_aggregate_create. quietly. Qed.

Lemma svlan_delete_quiet vn cm sw t cm' e :
  cake_svlan_aggregate_delete vn cm sw t = Some (cm', e) → quiet cm cm'.
Proof. unfold cake_svlan_aggregate_delete. quietly. Qed.

Lemma aggregate_update_quiet cm sw lv t r w b l :
  quiet cm (cake_aggregate_update cm sw lv t r w b l).1.
Proof.
  unfold cake_aggregate_update.
  repeat match goal with
  | |- context [if ?b then _ else _] => destruct b
  | |- context [match ?o with Some _ => _ | None => _ end] => destruct o
  | p : _ * _ |- _ => destruct p
  end; by apply quiet_same.
Qed.

Lemma alter_quiet cm p g : (∀ cs, alike cs (g cs)) → quiet cm (cm⟪cm_schedulers ::= alter g p⟫).
Proof.
  intros Hg. split; [|done]. intros si. rsimpl. destruct (decide (si = p)) as [->|Hne].
  - rewrite lookup_alter_eq. destruct (cm_schedulers cm !! p) as [cs|]; [|done]. apply Hg.
  - rewrite lookup_alter_ne by done. by destruct (cm_schedulers cm !! si).
Qed.

Lemma reset_stats_quiet cm sw : quiet cm (cake_sched_reset_stats cm sw).
Proof.
  unfold cake_sched_reset_stats. destruct (cm_sched_index_by_sw_if_index cm !! sw) as [p|];
    [|by apply quiet_same].
  apply alter_quiet. intros cs. destruct cs. constructor; [|reflexivity..].
  transitivity (map links (map (λ tin, tin⟪tn_packets := 0⟫⟪tn_bytes := 0⟫⟪tn_drops := 0⟫
    ⟪tn_ecn_marks := 0⟫) cs_tins)); [reflexivity|].
  rewrite map_map. apply map_ext. intros tin. by destruct tin.
Qed.

(** ** Enabling a scheduler *)

Lemma zero_table i : (list_to_map (map (λ i, (i, flow_zero)) (seqZ 0 CAKE_QUEUES)) : gmap Z cake_flow_t)
  !! i = if bool_decide (0 <= i < CAKE_QUEUES) then Some flow_zero else None.
Proof.
  assert (∀ l : list Z, NoDup l →
    (list_to_map (map (λ i, (i, flow_zero)) l) : gmap Z cake_flow_t) !! i =
    if bool_decide (i ∈ l) then Some flow_zero else None) as H.
  { induction 1 as [|j l Hj Hnd IH]; [done|]. simpl. destruct (decide (i = j)) as [->|Hne].
    - rewrite lookup_insert_eq, bool_decide_eq_true_2 by set_solver. done.
    - rewrite lookup_insert_ne, IH by done.
      rewrite (bool_decide_ext (i ∈ l) (i ∈ j :: l)); [done|set_solver]. }
  rewrite H by apply NoDup_seqZ.
  rewrite (bool_decide_ext (i ∈ seqZ 0 CAKE_QUEUES) (0 <= i < CAKE_QUEUES)); [done|].
  rewrite elem_of_seqZ. lia.
Qed.

(** A fresh tin: no flow open. *)
Lemma tin_init_at lens quantum : tin_at lens [] [] [] (cake_tin_init quantum).
Proof.
  unfold cake_tin_init. pose proof zero_table as Hz.
  set (F := list_to_map _ : gmap Z cake_flow_t) in *. clearbody F.
  assert (∀ i f, F !! i = Some f → f = flow_zero) as Hf0.
  { intros i f. rewrite Hz. case_bool_decide; [|done]. by intros [= <-]. }
  constructor; cbn [tn_flows]; try reflexivity.
  - repeat split; try done; constructor.
  - intros i f Hf. rewrite (Hf0 i f Hf).
    repeat split; intros Hx; try done; by apply not_elem_of_nil in Hx.
  - intros i f Hf. rewrite (Hf0 i f Hf). apply flow_zero_ok.
  - intros i. rewrite Hz. case_bool_decide; [by split; eauto|]. split; [intros [? ?]; done|done].
Qed.

Lemma tin_init_flow quantum i f : tn_flows (cake_tin_init quantum) !! i = Some f → f = flow_zero.
Proof.
  unfold cake_tin_init. cbn [tn_flows]. rewrite zero_table. case_bool_decide; [|done].
  by intros [= <-].
Qed.

(** The strict-priority weight of a tin plays no part. *)
Lemma links_tin_quantum tin q : links (tin⟪tn_tin_quantum := q⟫) = links tin.
Proof. reflexivity. Qed.

Lemma flows_tin_quantum tin q : tn_flows (tin⟪tn_tin_quantum := q⟫) = tn_flows tin.
Proof. reflexivity. Qed.

Section NewSched.

Context (lens : gmap Z Z) (vn : vnet) (sw p : Z) (a : sched_args).
Hypothesis Hoverhead : - 2 ^ 15 <= ar_overhead_bytes a < 2 ^ 15.
Hypothesis Hmpu : 0 <= ar_mpu a < 2 ^ 8.

Let cs := new_sched vn sw p a.
Let tin0 := (cake_tin_init CAKE_QUANTUM_DEFAULT)
  ⟪tn_tin_quantum := 65535 / cake_tin_counts (tin_mode_of (ar_tin_mode a))⟫.

Lemma new_tins : cs_tins cs =
  repeat tin0 (Z.to_nat (cake_tin_counts (tin_mode_of (ar_tin_mode a)))).
Proof. reflexivity. Qed.

Lemma new_tin t tin : cs_tins cs !! t = Some tin → tin = tin0.
Proof.
  rewrite new_tins. intros Ht. apply list_elem_of_lookup_2, list_elem_of_In in Ht.
  by apply repeat_spec in Ht.
Qed.

Lemma new_flow t tin i f : cs_tins cs !! t = Some tin → tn_flows tin !! i = Some f → f = flow_zero.
Proof.
  intros Ht Hf. rewrite (new_tin t tin Ht) in Hf. unfold tin0 in Hf. rewrite flows_tin_quantum in Hf.
  exact (tin_init_flow _ _ _ Hf).
Qed.

Lemma new_empty : empty_sched cs.
Proof. intros t tin i f Ht Hf. rewrite (new_flow t tin i f Ht Hf). reflexivity. Qed.

Lemma new_ssum g : g flow_zero = 0 → ssum g cs = 0.
Proof.
  intros Hg. unfold ssum.
  assert (∀ l, (∀ tin, tin ∈ l → msum g (tn_flows tin) = 0) →
    zsum (map (λ tin, msum g (tn_flows tin)) l) = 0) as H.
  { induction l as [|tin l IH]; intros Hl; [done|]. cbn [map].
    change (zsum (?a :: ?b)) with (a + zsum b).
    rewrite (Hl tin) by set_solver. rewrite IH; [done|]. intros; apply Hl; set_solver. }
  apply H. intros tin Hin. apply list_elem_of_lookup in Hin as [t Ht].
  apply msum_zero. intros i f Hf. rewrite (new_flow t tin i f Ht Hf). exact Hg.
Qed.

Lemma new_sched_ok : sched_ok lens cs /\ fresh cs /\ cs_sched_index cs = p.
Proof.
  split; [|split; [|reflexivity]].
  - constructor.
    + intros t tin Ht. rewrite (new_tin t tin Ht). exists [], [], [].
      eapply tin_at_links; [apply links_tin_quantum|apply tin_init_at].
    + rewrite new_tins, repeat_length. change (cs_n_tins cs) with (cake_tin_counts (tin_mode_of (ar_tin_mode a))).
      destruct (tin_mode_of _); simpl; lia.
    + unfold held. rewrite new_ssum by reflexivity. reflexivity.
    + rewrite new_ssum by reflexivity. reflexivity.
    + split; [exact Hoverhead|exact Hmpu].
  - intros t tin i f Ht Hf. rewrite (new_flow t tin i f Ht Hf). intros Hs. discriminate Hs.
Qed.

End NewSched.

Lemma seed_threads_kept n l : bitmaps_kept l (seed_threads n l).
Proof.
  intros t pt Ht. unfold seed_threads. rewrite list_lookup_imap.
  rewrite lookup_app_l by (by eapply lookup_lt_Some). rewrite Ht. simpl.
  destruct (_ =? 0); eauto.
Qed.

(** The slot is free: [pool_get] returns one that is. *)
Lemma enable_ok lens vn cm p sw a :
  main_ok lens cm → vnet_ok vn → topo_ok cm → cm_schedulers cm !! p = None →
  - 2 ^ 15 <= ar_overhead_bytes a < 2 ^ 15 → 0 <= ar_mpu a < 2 ^ 8 →
  exists cm' r, cake_sched_enable vn cm p sw a = Some (cm', r) /\
    main_ok lens cm' /\ still cm cm' /\ (∀ h, cm_held h cm' = cm_held h cm) /\
    (∀ si, is_Some (cm_schedulers cm' !! si) → is_Some (cm_schedulers cm !! si) \/
       (vn_n_threads vn <= length (cm_per_thread cm'))%nat) /\
    (length (cm_per_thread cm) <= length (cm_per_thread cm'))%nat.
Proof.
  intros Hok Hvn Hto Hp Ho Hm. unfold cake_sched_enable.
  assert (∀ e : api_result, exists cm' r, Some (cm, e) = Some (cm', r) /\ main_ok lens cm' /\
    still cm cm' /\ (∀ h, cm_held h cm' = cm_held h cm) /\
    (∀ si, is_Some (cm_schedulers cm' !! si) → is_Some (cm_schedulers cm !! si) \/
       (vn_n_threads vn <= length (cm_per_thread cm'))%nat) /\
    (length (cm_per_thread cm) <= length (cm_per_thread cm'))%nat) as Hsame.
  { intros e. do 2 eexists. split; [reflexivity|]. split; [done|]. split; [apply still_refl|].
    split; [done|]. split; [by left|done]. }
  destruct (negb _); [by apply Hsame|]. destruct (bad_weight _); [by apply Hsame|].
  destruct (cm_sched_index_by_sw_if_index cm !! sw); [by apply Hsame|]. clear Hsame.
  destruct (resolve_frame vn cm (new_sched vn sw p a) Hvn (topo_index _ Hto)) as (idx & Hres & _).
  pose proof (resolve_alike _ _ _ _ Hres) as Hal. rewrite Hres. cbn [mbind option_bind].
  destruct (new_sched_ok lens vn sw p a Ho Hm) as (N1 & N2 & N3).
  pose proof (new_empty vn sw p a) as N4.
  set (cs := (new_sched vn sw p a)⟪cs_aggregate_index := idx⟫) in *. clearbody cs. clear Hres.
  pose proof (alike_empty _ _ Hal N4) as He. pose proof (alike_sched _ _ Hal _ N1) as Hs.
  do 2 eexists. split; [reflexivity|]. split; [|split; [by split|split; [|split]]].
  - constructor; rsimpl; intros si c.
    + rewrite lookup_insert_Some. intros [[<- <-]|[_ Hc]]; [|by apply Hok].
      split; [done|]. split; [by eapply alike_fresh|].
      rewrite <- N3. pose proof (al_shape _ _ Hal) as S. by injection S.
    + rewrite lookup_insert_Some. intros [[<- <-]|[_ Hc]]; [by left|].
      destruct (mo_listed _ _ Hok _ _ Hc) as [E|L]; [by left|right].
      eapply listed_kept; [apply seed_threads_kept|done|done|exact L].
  - intros h. unfold cm_held. rsimpl. rewrite msum_insert_new by done.
    rewrite (empty_held _ _ h Hs He). lia.
  - intros si _. right. unfold seed_threads. rsimpl.
    rewrite length_imap, length_app, repeat_length. lia.
  - unfold seed_threads. rsimpl. rewrite length_imap, length_app. lia.
Qed.

(** ** Disabling a scheduler *)

(** A sum over a map is the sum over its keys in any order. *)
Lemma msum_keys {A} (g : A → Z) (l : list Z) : ∀ m : gmap Z A,
  NoDup l → (∀ i, is_Some (m !! i) → i ∈ l) →
  zsum (map (λ i, default 0 (g <$> m !! i)) l) = msum g m.
Proof.
  induction l as [|i l IH]; intros m Hnd Hl.
  - assert (m = ∅) as ->; [|by rewrite msum_empty]. apply map_empty. intros i.
    destruct (m !! i) eqn:E; [|done]. exfalso. apply (not_elem_of_nil i), Hl. by rewrite E.
  - apply NoDup_cons in Hnd as [Hi Hnd]. cbn [map]. change (zsum (?a :: ?b)) with (a + zsum b).
    assert (zsum (map (λ i, default 0 (g <$> m !! i)) l) = msum g (delete i m)) as ->.
    { rewrite <- (IH (delete i m)); [|done|].
      - f_equal. apply map_ext_in. intros j Hj%list_elem_of_In.
        by rewrite lookup_delete_ne by (by intros ->).
      - intros j Hj. assert (j ≠ i) as Hne by (intros ->; rewrite lookup_delete_eq in Hj; by destruct Hj).
        rewrite lookup_delete_ne in Hj by done. specialize (Hl j Hj). set_solver. }
    destruct (m !! i) as [x|] eqn:E; simpl; [by rewrite (msum_delete g m i x E)|].
    by rewrite delete_id by done.
Qed.

Lemma discard_freed lens aggs cs tin f : tree_ok aggs → flow_ok lens f →
  exists aggs' cs' tin' f', cake_flow_discard aggs cs tin f = Some (aggs', cs', tin', f', queue f) /\
    same_bones aggs aggs' /\ tn_flows tin' = tn_flows tin.
Proof.
  intros Ht Hf. unfold cake_flow_discard. destruct (Z.eqb_spec (cake_flow_queue_len f) 0) as [E|E].
  - destruct (ring_free_ok lens f Hf) as (f' & Hfree & _). cbn [mbind option_bind].
    rewrite Hfree. by do 4 eexists.
  - destruct (discharge_bones aggs cs (fl_backlog_bytes f) Ht) as (aggs' & -> & Hb).
    cbn [mbind option_bind]. set (f0 := f⟪fl_backlog_bytes := 0⟫).
    destruct (ring_free_spec f0 (fo_ring _ _ Hf) (no_ring_empty _ _ Hf)) as (f' & Hfree & _).
    rewrite Hfree. by do 4 eexists.
Qed.

(** The flow's part of [cake_tin_drain]. *)
Lemma drain_fold lens l : ∀ aggs cs tin tin0 freed,
  tree_ok aggs → NoDup l → (∀ i, i ∈ l → tn_flows tin !! i = tn_flows tin0 !! i) →
  (∀ i f, tn_flows tin0 !! i = Some f → flow_ok lens f) →
  exists aggs' cs' tin' freed', foldl_option (λ '(aggs, cs, tin, freed) i,
        match tn_flows tin !! i with
        | None => Some (aggs, cs, tin, freed)
        | Some f =>
            '(aggs, cs, tin, f, fr) ← cake_flow_discard aggs cs tin f;
            Some (aggs, cs, set_flow i f tin, freed ++ fr)
        end) (aggs, cs, tin, freed) l = Some (aggs', cs', tin', freed') /\ same_bones aggs aggs' /\
    ∀ h, total h freed' =
      total h freed + zsum (map (λ i, default 0 (qsum h <$> tn_flows tin0 !! i)) l).
Proof.
  induction l as [|i l IH]; intros aggs cs tin tin0 freed Ht Hnd Hsame Hok; cbn [foldl_option map].
  { do 4 eexists. split; [reflexivity|]. split; [done|]. intros h. change (zsum []) with 0. lia. }
  apply NoDup_cons in Hnd as [Hi Hnd].
  rewrite (Hsame i) by set_solver. destruct (tn_flows tin0 !! i) as [f|] eqn:E.
  - destruct (discard_freed lens aggs cs tin f Ht (Hok i f E))
      as (aggs1 & cs1 & tin1 & f1 & -> & Hb & Hfl). cbn [mbind option_bind].
    destruct (IH aggs1 cs1 (set_flow i f1 tin1) tin0 (freed ++ queue f))
      as (aggs2 & cs2 & tin2 & fr2 & -> & Hb2 & H2); try done.
    + by eapply same_bones_tree.
    + intros j Hj. unfold set_flow. rsimpl. rewrite Hfl, lookup_insert_ne by (by intros ->).
      apply Hsame. set_solver.
    + do 4 eexists. split; [reflexivity|]. split; [by etransitivity|]. intros h.
      change (zsum (?a :: ?b)) with (a + zsum b). rewrite H2, total_app. simpl.
      unfold qsum, total. lia.
  - cbn [mbind option_bind].
    destruct (IH aggs cs tin tin0 freed) as (aggs2 & cs2 & tin2 & fr2 & -> & Hb2 & H2); try done.
    { intros j Hj. apply Hsame. set_solver. }
    do 4 eexists. split; [reflexivity|]. split; [done|]. intros h.
    change (zsum (?a :: ?b)) with (a + zsum b). rewrite H2. simpl. lia.
Qed.

Lemma tin_drain_freed lens aggs cs tin : tree_ok aggs → tin_ok lens tin →
  exists aggs' cs' tin' freed, cake_tin_drain aggs cs tin = Some (aggs', cs', tin', freed) /\
    same_bones aggs aggs' /\ ∀ h, total h freed = msum (qsum h) (tn_flows tin).
Proof.
  intros Ht (n & o & d & Hok).
  destruct (drain_fold lens (seqZ 0 CAKE_QUEUES) aggs cs tin tin [] Ht (NoDup_seqZ _ _)
    ltac:(done) (ta_flows _ _ _ _ _ Hok)) as (aggs1 & cs1 & tin1 & fr & E & Hb & Hf).
  unfold cake_tin_drain. rewrite E. cbn [mbind option_bind].
  do 4 eexists. split; [reflexivity|]. split; [done|]. intros h.
  rewrite Hf, msum_keys; [done|apply NoDup_seqZ|].
  intros i Hi. apply elem_of_seqZ. apply (ta_table _ _ _ _ _ Hok) in Hi. lia.
Qed.

(** Draining frees every packet once, whatever the accounting says. *)
Lemma drain_freed lens aggs cs : tree_ok aggs → sched_ok lens cs →
  exists aggs' cs' freed, drain_tins aggs cs = Some (aggs', cs', freed) /\
    same_bones aggs aggs' /\ ∀ h, total h freed = held h cs.
Proof.
  intros Ht Hok. unfold drain_tins, held, ssum.
  assert (∀ l aggs cs freed, tree_ok aggs → (∀ tin, tin ∈ l → tin_ok lens tin) →
    exists aggs' cs' freed', foldl_option (λ '(aggs, cs, freed) tin,
      '(aggs, cs, _, fr) ← cake_tin_drain aggs cs tin; Some (aggs, cs, freed ++ fr))
      (aggs, cs, freed) l = Some (aggs', cs', freed') /\ same_bones aggs aggs' /\
    ∀ h, total h freed' = total h freed + zsum (map (λ tin, msum (qsum h) (tn_flows tin)) l)) as H.
  { intros l. induction l as [|tin l IH]; intros aggs1 cs1 freed Ht1 Hl; cbn [foldl_option map].
    { do 3 eexists. split; [reflexivity|]. split; [done|]. intros h. change (zsum []) with 0. lia. }
    destruct (tin_drain_freed lens aggs1 cs1 tin Ht1 (Hl tin ltac:(constructor)))
      as (aggs2 & cs2 & tin2 & fr & -> & Hb & Hd). cbn [mbind option_bind].
    destruct (IH aggs2 cs2 (freed ++ fr)) as (aggs3 & cs3 & fr3 & -> & Hb3 & H3).
    { by eapply same_bones_tree. }
    { intros tin' Hin. apply Hl. by constructor. }
    do 3 eexists. split; [reflexivity|]. split; [by etransitivity|]. intros h.
    change (zsum (?a :: ?b)) with (a + zsum b). rewrite H3, total_app, Hd. lia. }
  destruct (H (cs_tins cs) aggs cs [] Ht) as (aggs' & cs' & fr & E & Hb & Hf).
  { intros tin Hin. apply list_elem_of_lookup in Hin as [t Ht']. by eapply (sk_tins _ _ Hok). }
  do 3 eexists. split; [exact E|]. split; [done|]. intros h. rewrite Hf.
  change (total h []) with 0. lia.
Qed.

(** The per-thread vector has an entry for each of [n] threads as soon as there is a
    scheduler. *)
Definition threads_ok (n : nat) (cm : cake_main_t) : Prop :=
  ∀ si, is_Some (cm_schedulers cm !! si) → (n <= length (cm_per_thread cm))%nat.

(** What a configuration call does to the packets. *)
Definition settled (lens : gmap Z Z) (n : nat) (cm cm' : cake_main_t) (freed : list Z) : Prop :=
  main_ok lens cm' /\ (threads_ok n cm → threads_ok n cm') /\
  ∀ h, cm_held h cm' + total h freed = cm_held h cm.

Lemma settled_refl lens n cm : main_ok lens cm → settled lens n cm cm [].
Proof. intros H. split; [done|]. split; [done|]. intros h. unfold total, zsum. simpl. lia. Qed.

Lemma settled_quiet lens n cm cm1 cm2 freed :
  settled lens n cm cm1 freed → quiet cm1 cm2 → settled lens n cm cm2 freed.
Proof.
  intros (H1 & H2 & H3) [A1 A2]. destruct (all_alike_ok lens cm1 cm2 H1 A1) as [B1 B2].
  { rewrite A2. apply bitmaps_kept_refl. }
  split; [done|]. split; [|intros h; by rewrite B2].
  intros Hn si Hsi. rewrite A2. apply (H2 Hn si). specialize (A1 si).
  destruct Hsi as [c Hc]. rewrite Hc in A1. by destruct (cm_schedulers cm1 !! si).
Qed.

Lemma sched_delete_ok lens cm cm' p cs :
  main_ok lens cm → cm_schedulers cm !! p = Some cs →
  cm_schedulers cm' = delete p (cm_schedulers cm) →
  cm_per_thread cm' = map (λ pt, pt⟪pt_active_bitmap ::= λ b, b ∖ {[p]}⟫) (cm_per_thread cm) →
  main_ok lens cm' /\ ∀ h, cm_held h cm' + held h cs = cm_held h cm.
Proof.
  intros Hok Hp Hs Ht. split; [constructor|].
  - intros si c. rewrite Hs, lookup_delete_Some. intros [_ Hc]. by apply Hok.
  - intros si c. rewrite Hs, lookup_delete_Some. intros [Hne Hc].
    destruct (mo_listed _ _ Hok _ _ Hc) as [E|(t & pt & L1 & L2 & L3 & L4 & L5)]; [by left|right].
    exists t, (pt⟪pt_active_bitmap ::= λ b, b ∖ {[p]}⟫). split; [done|]. split; [done|].
    rewrite Ht. change (map ?g) with (fmap (M := list) g). rewrite list_lookup_fmap, L3.
    split; [done|]. split; [|done]. rsimpl. set_solver.
  - intros h. unfold cm_held. rewrite Hs, (msum_delete (held h) _ _ _ Hp). lia.
Qed.

Lemma disable_ok lens n vn cm sw :
  main_ok lens cm → topo_ok cm →
  exists cm' freed r, cake_sched_disable vn cm sw = Some (cm', freed, r) /\
    settled lens n cm cm' freed /\ still cm cm'.
Proof.
  intros Hok Hto. unfold cake_sched_disable.
  assert (∀ e : api_result, exists cm' freed r, Some (cm, [], e) = Some (cm', freed, r) /\
    settled lens n cm cm' freed /\ still cm cm') as Hsame.
  { intros e. do 3 eexists. split; [reflexivity|]. split; [by apply settled_refl|apply still_refl]. }
  destruct (vn_sw_interfaces vn !! sw); [|by apply Hsame].
  destruct (cm_sched_index_by_sw_if_index cm !! sw) as [p|]; simpl; [|by apply Hsame].
  destruct (cm_schedulers cm !! p) as [cs|] eqn:Hp; simpl; [|by apply Hsame]. clear Hsame.
  destruct (drain_freed lens (cm_aggregates cm) cs (to_tree _ _ Hto)
    (proj1 (mo_sched _ _ Hok _ _ Hp))) as (aggs1 & cs1 & freed & -> & Hb1 & Hd).
  cbn [mbind option_bind]. pose proof (deactivate_bones aggs1 (cs1⟪cs_tins := []⟫)) as Hb2.
  destruct (cake_sched_drr_deactivate aggs1 _) as [aggs2 cs2]. cbn [fst] in Hb2.
  set (cm1 := cm⟪cm_aggregates := aggs2⟫⟪cm_features ::= _⟫⟪cm_per_thread ::= _⟫
    ⟪cm_sched_index_by_sw_if_index ::= _⟫⟪cm_schedulers ::= delete p⟫⟪cm_n_schedulers ::= _⟫).
  destruct (sched_delete_ok lens cm cm1 p cs Hok Hp eq_refl eq_refl) as [D1 D2].
  assert (settled lens n cm cm1 freed) as H1.
  { split; [done|]. split; [|intros h; rewrite Hd; apply D2]. intros Hn si Hsi.
    change (cm_per_thread cm1) with (map (λ pt, pt⟪pt_active_bitmap ::= λ b, b ∖ {[p]}⟫) (cm_per_thread cm)).
    rewrite length_map. apply (Hn si). change (cm_schedulers cm1) with (delete p (cm_schedulers cm)) in Hsi.
    destruct Hsi as [c Hc]. apply lookup_delete_Some in Hc as [_ Hc]. eauto. }
  assert (still cm cm1) as S1 by (split; [|done]; by etransitivity).
  do 3 eexists. split; [reflexivity|]. clearbody cm1.
  destruct (cs_owner_thread cs); [|done].
  destruct (cake_worker_has_other_schedulers cm1 None z); [done|]. split; [|exact S1].
  eapply settled_quiet; [exact H1|by apply quiet_same].
Qed.

Lemma enable_disable_ok lens n vn cm p sw is_enable a :
  main_ok lens cm → topo_ok cm →
  (is_enable = true → vnet_ok vn /\ cm_schedulers cm !! p = None /\ (n <= vn_n_threads vn)%nat /\
    - 2 ^ 15 <= ar_overhead_bytes a < 2 ^ 15 /\ 0 <= ar_mpu a < 2 ^ 8) →
  exists cm' freed r, cake_sched_enable_disable vn cm p sw is_enable a = Some (cm', freed, r) /\
    settled lens n cm cm' freed /\ still cm cm'.
Proof.
  intros Hok Hto He. unfold cake_sched_enable_disable. destruct is_enable.
  - destruct He as (Hvn & H1 & Hn & H2 & H3); [done|].
    destruct (enable_ok lens vn cm p sw a Hok Hvn Hto H1 H2 H3)
      as (cm' & r & -> & A & B & C & D & E).
    do 3 eexists. split; [reflexivity|]. split; [|exact B]. split; [done|]. split.
    + intros Ht si Hsi. destruct (D si Hsi) as [Hs|]; [specialize (Ht si Hs)|]; lia.
    + intros h. rewrite C. change (total h []) with 0. lia.
  - destruct (_ && _); [|by apply disable_ok].
    do 3 eexists. split; [reflexivity|]. split; [by apply settled_refl|apply still_refl].
Qed.

Lemma svlan_deletes_ok vn sw tags cm :
  vnet_ok vn → topo_ok cm →
  exists cm', foldl_option (λ cm tag, fst <$> cake_svlan_aggregate_delete vn cm sw tag) cm tags
    = Some cm' /\ quiet cm cm' /\ topo_ok cm'.
Proof.
  intros Hvn Ht.
  destruct (foldl_option_rel (λ a b, topo_ok a → quiet a b /\ topo_ok b)
    (λ cm tag, fst <$> cake_svlan_aggregate_delete vn cm sw tag) tags cm) as (cm' & E & H).
  - intros b Hb. split; [by apply quiet_same|done].
  - intros a b c H1 H2 Ha. destruct (H1 Ha) as [Q1 T1]. destruct (H2 T1) as [Q2 T2].
    split; [by eapply quiet_trans|done].
  - intros tag cm1 _ H1. destruct (H1 Ht) as [_ T1].
    destruct (svlan_delete_topo vn cm1 sw tag Hvn T1) as (cm2 & r & E & T2).
    exists cm2. rewrite E. split; [done|]. intros _.
    split; [by eapply svlan_delete_quiet|done].
  - exists cm'. split; [exact E|by apply H].
Qed.

Lemma sw_interface_ok lens n vn cm sw is_add :
  main_ok lens cm → vnet_ok vn → topo_ok cm →
  exists cm' freed, cake_sw_interface_add_del vn cm sw is_add = Some (cm', freed) /\
    settled lens n cm cm' freed /\ topo_ok cm'.
Proof.
  intros Hok Hvn Hto. unfold cake_sw_interface_add_del. destruct is_add.
  { do 2 eexists. split; [reflexivity|]. split; [by apply settled_refl|done]. }
  assert (exists cm1 freed, (match cm_sched_index_by_sw_if_index cm !! sw with
      | Some _ =>
          '(cm, freed, _) ← cake_sched_enable_disable vn cm 0 sw false no_args; Some (cm, freed)
      | None => Some (cm, [])
      end) = Some (cm1, freed) /\ settled lens n cm cm1 freed /\ still cm cm1)
    as (cm1 & freed & -> & H1 & S1).
  { destruct (cm_sched_index_by_sw_if_index cm !! sw).
    - destruct (enable_disable_ok lens n vn cm 0 sw false no_args Hok Hto ltac:(done))
        as (cm1 & freed & r & -> & H1 & S1). by do 2 eexists.
    - do 2 eexists. split; [reflexivity|]. split; [by apply settled_refl|apply still_refl]. }
  cbn [mbind option_bind]. pose proof (still_topo _ _ S1 Hto) as T1.
  destruct (cm_agg_index_by_sw_if_index cm1 !! sw) as [x|]; [|by do 2 eexists].
  destruct (svlan_deletes_ok vn sw (child_tags (cm_aggregates cm1) x) cm1 Hvn T1)
    as (cm2 & -> & Q2 & T2). cbn [mbind option_bind].
  destruct (aggregate_delete_topo vn cm2 sw Hvn T2) as (cm3 & r & E & T3). rewrite E.
  do 2 eexists. split; [reflexivity|]. split; [|done].
  eapply settled_quiet; [exact H1|]. eapply quiet_trans; [exact Q2|].
  by eapply aggregate_delete_quiet.
Qed.
