(* ===== verification/CakeSystem.v ===== *)
(** The scheduler plugin as a transition system.

    A state is the plugin's main structure and the buffers of the process; a step is
    one configuration call, one dispatch of the enqueue or the dequeue node on a
    thread, or the rest of the graph rewriting buffers the plugin does not hold.
    The theorems are about every state that a run reaches from start-up: no loop runs
    out of fuel, the invariant holds, packets are neither lost nor duplicated, none
    is left where no thread looks, and a dispatch that stops early has a reason. *)

From S2P Require Import Prelude Dll Drr Shaper CakeTypes Cobalt CakeFlow CakeHier CakeConfig.
From S2P Require Import CakeEnqueue CakeDequeue CakeTin CakeMoves CakeSched CakeServe.
From S2P Require Import CakeTopo CakeDispatch CakePlugin.

(** ** A dispatch of the enqueue node *)

(** Buffer chains are under 64 KiB. *)
Definition lens_ok (lens : gmap Z Z) : Prop := ∀ bi l, lens !! bi = Some l → 0 <= l < 2 ^ 16.

Lemma owner_sched lens cs o : sched_ok lens cs → sched_ok lens (cs⟪cs_owner_thread := o⟫).
Proof. intros [K1 K2 K3 K4 K5]. by constructor. Qed.

Section Enqueue.

Context `{Vpp} (lens : gmap Z Z) (v4 : bool) (n : nat) (thread now_us : Z).
Hypothesis Hlens : lens_ok lens.
Hypothesis Hthread : 0 <= thread < Z.of_nat n.

(** The buffers that left the plugin's hands in the dispatch. *)
Definition enq_gone (s : enq_frame) : list Z := ef_pass s ++ ef_handoff s ++ ef_freed s.

Record enq_inv (s : enq_frame) : Prop := {
  ei_main : main_ok lens (ef_cm s);
  ei_lens : lens_of (ef_bufs s) = lens;
  ei_threads : threads_ok n (ef_cm s);
  ei_topo : topo_ok (ef_cm s)
}.

Lemma gone_total h s :
  total h (enq_gone s) = total h (ef_pass s) + total h (ef_handoff s) + total h (ef_freed s).
Proof. unfold enq_gone. rewrite !total_app. lia. Qed.

Lemma claim_owner_spec cm cs cm' cs' :
  claim_owner thread cm cs = Some (cm', cs') →
  cs' = cs⟪cs_owner_thread := Some thread⟫ /\ cm_schedulers cm' = cm_schedulers cm /\
  cm_per_thread cm' = cm_per_thread cm /\ still cm cm'.
Proof.
  unfold claim_owner. destruct (cs_owner_thread cs) as [t|] eqn:E.
  - destruct (Z.eqb_spec t thread) as [->|]; [|done]. intros [= <- <-]. split; [|done].
    destruct cs. simpl in E. by subst.
  - by intros [= <- <-].
Qed.

(** The state with one scheduler back in its place, listed if it took the packet. *)
Definition put_listed (q : bool) (si sched_index : Z) (cs : cake_sched_t) (aggs : aggs_t)
    (cm : cake_main_t) : cake_main_t :=
  let cm := put_sched si cs aggs cm in
  if q then cm⟪cm_per_thread ::= alter (λ pt, pt⟪pt_active_bitmap ::= union {[sched_index]}⟫)
                 (Z.to_nat thread)⟫
  else cm.

Lemma put_listed_bitmaps q si j cs aggs cm :
  bitmaps_kept (cm_per_thread cm) (cm_per_thread (put_listed q si j cs aggs cm)).
Proof.
  unfold put_listed. destruct q; [|apply bitmaps_kept_refl]. intros t pt Ht. rsimpl.
  destruct (decide (t = Z.to_nat thread)) as [->|Hne].
  - rewrite list_lookup_alter_eq, Ht. eexists. split; [reflexivity|]. rsimpl. set_solver.
  - rewrite list_lookup_alter_ne by done. eauto.
Qed.

Lemma put_listed_ok (q : bool) si cs cs' aggs cm :
  main_ok lens cm → threads_ok n cm → cm_schedulers cm !! si = Some cs →
  sched_ok lens cs' → fresh cs' → cs_sched_index cs' = si →
  cs_owner_thread cs' = Some thread →
  (if q then Drr.active (cs_drr cs') = true
   else Drr.active (cs_drr cs') = Drr.active (cs_drr cs) /\ (empty_sched cs → empty_sched cs')) →
  (cs_owner_thread cs = Some thread \/ cs_owner_thread cs = None) →
  main_ok lens (put_listed q si (cs_sched_index cs') cs' aggs cm).
Proof.
  intros Hok Hth Hs H1 H2 H3 H4 Hq Ho.
  pose proof (put_listed_bitmaps q si (cs_sched_index cs') cs' aggs cm) as Hb.
  assert (cm_schedulers (put_listed q si (cs_sched_index cs') cs' aggs cm) =
          <[si := cs']> (cm_schedulers cm)) as Es by (unfold put_listed; by destruct q).
  constructor; intros sj cj; rewrite Es, lookup_insert_Some.
  - intros [[<- <-]|[_ Hj]]; [done|by apply Hok].
  - intros [[<- <-]|[_ Hj]].
    2:{ destruct (mo_listed _ _ Hok _ _ Hj) as [E|L]; [by left|right]. by eapply listed_kept. }
    destruct q.
    + right. destruct (lookup_lt_is_Some_2 (cm_per_thread cm) (Z.to_nat thread)) as [pt Hpt].
      { specialize (Hth si ltac:(by rewrite Hs)). lia. }
      exists thread, (pt⟪pt_active_bitmap ::= union {[cs_sched_index cs']}⟫).
      split; [done|]. split; [lia|]. unfold put_listed. rsimpl.
      rewrite list_lookup_alter_eq, Hpt. split; [done|]. split; [rsimpl; set_solver|done].
    + destruct Hq as [Hd He].
      destruct (mo_listed _ _ Hok _ _ Hs) as [E|(t & pt & L1 & L2 & L3 & L4 & L5)]; [left; by apply He|].
      destruct Ho as [Ho|Ho]; [|congruence].
      right. exists t, pt. rewrite H4, Hd. split; [congruence|]. done.
Qed.

(** One packet: the invariant, and where the packet and the evicted ones went. *)
Definition enq_step (bi : Z) (s s' : enq_frame) : Prop :=
  enq_inv s' /\ ∀ h, cm_held h (ef_cm s') + total h (enq_gone s') =
                     cm_held h (ef_cm s) + total h (enq_gone s) + h bi.

Lemma total_one h x : total h [x] = h x.
Proof. unfold total, zsum. simpl. lia. Qed.

Lemma enqueue_passes s b bi : enq_inv s → ef_bufs s !! bi = Some b →
  enq_step bi s (s⟪ef_bufs ::= insert bi (b⟪bf_scheduled := false⟫)⟫⟪ef_pass ::= λ l, l ++ [bi]⟫).
Proof.
  intros [I1 I2 I3 I4] Hb. split.
  - constructor; [exact I1| |exact I3|exact I4]. by apply (lens_insert lens (ef_bufs s) bi b).
  - intros h. rewrite !gone_total. rsimpl. rewrite total_app, total_one. lia.
Qed.

Lemma enqueue_dropped_empty cs cs' bi freed :
  sched_ok lens cs → (∀ h, held h cs' + total h freed = held h cs + h bi) → bi ∈ freed →
  empty_sched cs → empty_sched cs'.
Proof.
  intros Hok Hh Hbi He. apply held_empty. specialize (Hh (λ _, 1)).
  rewrite (empty_held lens cs _ Hok He) in Hh.
  assert (1 <= total (λ _, 1) freed) as Hf; [|lia].
  apply (zsum_elem_le 1).
  - apply Forall_forall. intros x Hx. apply list_elem_of_fmap in Hx as (y & -> & _). lia.
  - apply list_elem_of_fmap. by exists bi.
Qed.

(** What is left once the scheduler of the packet is settled. *)
Lemma enqueue_settles s s' bi b b' freed si cs cs' aggs cm (q : bool) :
  enq_inv s → ef_bufs s !! bi = Some b →
  ef_cm s' = put_listed q si (cs_sched_index cs') cs' aggs cm →
  ef_bufs s' = <[bi := b']> (ef_bufs s) → ef_pass s' = ef_pass s → ef_handoff s' = ef_handoff s →
  ef_freed s' = ef_freed s ++ freed →
  bf_length_in_chain b' = bf_length_in_chain b →
  cm_schedulers cm = cm_schedulers (ef_cm s) → threads_ok n cm → topo_ok cm →
  same_bones (cm_aggregates cm) aggs →
  cm_schedulers (ef_cm s) !! si = Some cs →
  main_ok lens (put_listed q si (cs_sched_index cs') cs' aggs cm) →
  (∀ h, held h cs' + total h freed = held h cs + h bi) →
  enq_step bi s s'.
Proof.
  intros [I1 I2 I3 I4] Hb W1 W2 W3 W4 W5 Hlen E2 Ht Hto Hbo Hs Hm Hh. split.
  - constructor; rewrite ?W1, ?W2; [exact Hm|by apply (lens_insert lens (ef_bufs s) bi b)| |].
    2:{ apply (still_topo cm); [|exact Hto]. split; by destruct q. }
    intros sj Hj. specialize (Ht sj).
    assert (is_Some (cm_schedulers cm !! sj)) as Hj'.
    { unfold put_listed in Hj. destruct (decide (sj = si)) as [->|Hne]; [by rewrite E2, Hs|].
      destruct q; revert Hj; unfold put_sched; rsimpl; by rewrite lookup_insert_ne. }
    specialize (Ht Hj'). unfold put_listed. destruct q; rsimpl; [by rewrite length_alter|done].
  - intros h. rewrite !gone_total, W1, W3, W4, W5, total_app.
    assert (cm_held h (put_listed q si (cs_sched_index cs') cs' aggs cm) =
      cm_held h (ef_cm s) - held h cs + held h cs') as ->.
    { transitivity (cm_held h (put_sched si cs' aggs cm)); [by destruct q|].
      rewrite (held_put h si cs) by (by rewrite E2). unfold cm_held. by rewrite E2. }
    specialize (Hh h). lia.
Qed.

(** The frame after a packet of one of this thread's schedulers. *)
Definition enq_here (s : enq_frame) (bi : Z) (b : vlib_buffer_t) (si : Z) (cm : cake_main_t)
    (r : enq_result) : enq_frame :=
  let q := bool_decide (eq_outcome r = ENQ_QUEUED) in
  s⟪ef_cm := put_listed q si (cs_sched_index (eq_cs r)) (eq_cs r) (eq_aggs r) cm⟫
   ⟪ef_bufs ::= insert bi (eq_buf r)⟫⟪ef_freed ::= λ l, l ++ eq_freed r⟫
   ⟪ef_n_enqueued ::= λ n, if q then n + 1 else n⟫
   ⟪ef_n_dropped ::= λ n, if q then n else n + 1⟫
   ⟪ef_n_backpressure ::= λ n, if bool_decide (eq_outcome r = ENQ_BACKPRESSURE) then n + 1 else n⟫
   ⟪ef_n_evicted ::= λ n, if eq_evicted r then n + 1 else n⟫.

Lemma enqueue_one_cases s b bi :
  ef_bufs s !! bi = Some b →
  enqueue_one v4 thread now_us s bi = Some (s⟪ef_pass ::= λ l, l ++ [bi]⟫) \/
  enqueue_one v4 thread now_us s bi =
    Some (s⟪ef_bufs ::= insert bi (b⟪bf_scheduled := false⟫)⟫⟪ef_pass ::= λ l, l ++ [bi]⟫) \/
  enqueue_one v4 thread now_us s bi = Some (s⟪ef_handoff ::= λ l, l ++ [bi]⟫) \/
  exists si cs cm cs1, cm_schedulers (ef_cm s) !! si = Some cs /\
    claim_owner thread (ef_cm s) cs = Some (cm, cs1) /\
    enqueue_one v4 thread now_us s bi =
      enq_here s bi b si cm <$> enqueue_local v4 thread now_us (cm_aggregates cm) cs1 bi b.
Proof.
  intros Hb. unfold enqueue_one. rewrite Hb. destruct (bf_scheduled b); [by right; left|].
  destruct (cm_sched_index_by_sw_if_index (ef_cm s) !! bf_sw_if_index_tx b) as [si|]; [|by left].
  cbn [mbind option_bind]. destruct (cm_schedulers (ef_cm s) !! si) as [cs|] eqn:Hs; [|by left].
  cbn [fmap option_fmap option_map].
  destruct (claim_owner thread (ef_cm s) cs) as [[cm cs1]|] eqn:Ec; [|by right; right; left].
  right. right. right. exists si, cs, cm, cs1. split; [exact Hs|]. split; [exact Ec|].
  destruct (enqueue_local v4 thread now_us (cm_aggregates cm) cs1 bi b) as [r|]; [|reflexivity].
  unfold enq_here, put_listed. cbv zeta. reflexivity.
Qed.

Lemma enqueue_here_ok s b bi si cs cm cs1 :
  enq_inv s → ef_bufs s !! bi = Some b → cm_schedulers (ef_cm s) !! si = Some cs →
  claim_owner thread (ef_cm s) cs = Some (cm, cs1) →
  exists r, enqueue_local v4 thread now_us (cm_aggregates cm) cs1 bi b = Some r /\
    enq_step bi s (enq_here s bi b si cm r).
Proof.
  intros Hi Hb Hs Ec. pose proof Hi as [I1 I2 I3 I4].
  destruct (claim_owner_spec _ _ _ _ Ec) as (E1 & E2 & E3 & E4).
  destruct (mo_sched _ _ I1 _ _ Hs) as (K1 & K2 & K3).
  assert (lens !! bi = Some (bf_length_in_chain b)) as Hl.
  { rewrite <- I2. unfold lens_of. by rewrite lookup_fmap, Hb. }
  assert (sched_ok lens cs1 /\ fresh cs1 /\ cs_sched_index cs1 = si /\
    cs_owner_thread cs1 = Some thread /\ cs_drr cs1 = cs_drr cs /\
    cs_tins cs1 = cs_tins cs) as (F1 & F2 & F3 & F4 & F5 & F6)
    by (rewrite E1; split; [by apply owner_sched|done]).
  pose proof (still_topo _ _ E4 I4) as Hto.
  destruct (enqueue_local_ok lens v4 thread now_us (cm_aggregates cm) cs1 bi b
    (to_tree _ _ Hto) F1 F2 Hl (Hlens _ _ Hl)) as (r & Er & [Q0 Q1 Q2 Q3 Q4 Q5 Q6]).
  exists r. split; [exact Er|]. clear Er.
  assert (main_ok lens cm) as Hcm.
  { apply (all_alike_ok lens (ef_cm s)); [done|by apply all_alike_refl|].
    rewrite E3. apply bitmaps_kept_refl. }
  assert (cs_owner_thread cs = Some thread \/ cs_owner_thread cs = None) as Ho.
  { clear -Ec. unfold claim_owner in Ec. destruct (cs_owner_thread cs) as [t|]; [|by right].
    destruct (Z.eqb_spec t thread) as [E|]; [left; by rewrite E|done]. }
  injection Q3 as S1 S2 S3 S4 S5.
  assert (threads_ok n cm) as Ht by (unfold threads_ok; rewrite E2, E3; exact I3).
  apply (enqueue_settles s _ bi b (eq_buf r) (eq_freed r) si cs (eq_cs r) (eq_aggs r) cm
    (bool_decide (eq_outcome r = ENQ_QUEUED)));
    [exact Hi|exact Hb|reflexivity..|exact Q4|exact E2|exact Ht|exact Hto|exact Q0|exact Hs| |].
  - apply (put_listed_ok _ si cs); try done; [by rewrite E2|congruence..|].
    revert Q6. case_bool_decide; [done|]. intros [Q6 Q7]. split; [congruence|]. intros He.
    eapply enqueue_dropped_empty; [exact F1|exact Q5|exact Q6|].
    intros t tin i f. rewrite F6. apply He.
  - intros h. rewrite Q5. f_equal. unfold held, ssum. by rewrite F6.
Qed.

Lemma enqueue_one_ok s bi : enq_inv s → is_Some (ef_bufs s !! bi) →
  exists s', enqueue_one v4 thread now_us s bi = Some s' /\ enq_step bi s s'.
Proof.
  intros Hi [b Hb]. pose proof Hi as [I1 I2 I3 I4].
  destruct (enqueue_one_cases s b bi Hb) as [->|[->|[->|(si & cs & cm & cs1 & Hs & Ec & ->)]]].
  - eexists. split; [reflexivity|]. split; [by constructor|]. intros h. rewrite !gone_total.
    rsimpl. rewrite total_app, total_one. lia.
  - eexists. split; [reflexivity|]. by apply enqueue_passes.
  - eexists. split; [reflexivity|]. split; [by constructor|]. intros h. rewrite !gone_total.
    rsimpl. rewrite total_app, total_one. lia.
  - destruct (enqueue_here_ok s b bi si cs cm cs1 Hi Hb Hs Ec) as (r & -> & Hr).
    eexists. split; [reflexivity|exact Hr].
Qed.

(** The dispatch: every buffer of the frame is queued, passed on, handed off or freed. *)
Lemma enqueue_inline_ok cm bufs from :
  main_ok lens cm → lens_of bufs = lens → threads_ok n cm → topo_ok cm →
  Forall (λ bi, is_Some (bufs !! bi)) from →
  exists s, cake_enqueue_inline v4 thread now_us cm bufs from = Some s /\
  enq_inv s /\ ∀ h, cm_held h (ef_cm s) + total h (enq_gone s) = cm_held h cm + total h from.
Proof.
  intros H1 H2 H3 H4 Hf. unfold cake_enqueue_inline.
  assert (∀ s, enq_inv s → Forall (λ bi, is_Some (lens !! bi)) from →
    exists s', foldl_option (enqueue_one v4 thread now_us) s from = Some s' /\
    enq_inv s' /\ ∀ h, cm_held h (ef_cm s') + total h (enq_gone s') =
      cm_held h (ef_cm s) + total h (enq_gone s) + total h from) as Hfold.
  { clear Hf. induction from as [|bi l IH]; intros s Hs Hl; cbn [foldl_option].
    - exists s. split; [done|]. split; [done|]. intros h. unfold total. simpl. lia.
    - apply Forall_cons in Hl as [Hb Hl].
      destruct (enqueue_one_ok s bi Hs) as (s1 & -> & S1 & S2).
      { rewrite <- (ei_lens _ Hs) in Hb. unfold lens_of in Hb. rewrite lookup_fmap in Hb.
        by apply fmap_is_Some in Hb. }
      cbn [mbind option_bind]. destruct (IH _ S1 Hl) as (s2 & -> & T1 & T2).
      exists s2. split; [done|]. split; [done|]. intros h. rewrite T2, S2.
      unfold total, zsum. simpl. lia. }
  destruct (Hfold (mkEnqFrame cm bufs [] [] [] 0 0 0 0)) as (s & E & T1 & T2);
    [by constructor| |].
  - eapply Forall_impl; [exact Hf|]. intros bi Hb. rewrite <- H2. unfold lens_of.
    rewrite lookup_fmap. by apply fmap_is_Some.
  - exists s. split; [exact E|]. split; [done|]. intros h. rewrite T2.
    unfold enq_gone, total. simpl. unfold zsum. simpl. lia.
Qed.

End Enqueue.

(** ** A dispatch of the dequeue node *)

(** Turns that are enough for every scheduler. *)
Definition DISPATCH_FUEL : nat := S (Z.to_nat WORK_MAX).

Lemma dispatch_fuel : (Z.to_nat WORK_MAX < DISPATCH_FUEL)%nat.
Proof. unfold DISPATCH_FUEL. apply Nat.lt_succ_diag_r. Qed.

Opaque DISPATCH_FUEL.

(** The bitmap's schedulers in the order of the walk. *)
Definition active_list (pt : cake_per_thread_t) : list Z :=
  merge_sort Z.le (elements (pt_active_bitmap pt)).

Lemma active_list_nodup pt : NoDup (active_list pt).
Proof. unfold active_list. rewrite merge_sort_Permutation. apply NoDup_elements. Qed.

Lemma elem_of_active_list pt si : si ∈ active_list pt <-> si ∈ pt_active_bitmap pt.
Proof. unfold active_list. rewrite merge_sort_Permutation. apply elem_of_elements. Qed.

(** The end of the dispatch: the seed is kept, idle schedulers leave the bitmap. *)
Definition end_dispatch (thread seed : Z) (s : deq_frame) : deq_frame :=
  s⟪df_cm ::= λ cm, cm⟪cm_per_thread ::= alter (λ pt,
      pt⟪pt_random_seed := seed⟫⟪pt_active_bitmap ::= λ b, b ∖ list_to_set (df_deactivate s)⟫)
      (Z.to_nat thread)⟫⟫.

Lemma end_dispatch_ok lens thread seed s :
  0 <= thread → main_ok lens (df_cm s) → Forall (gone thread (df_cm s)) (df_deactivate s) →
  main_ok lens (df_cm (end_dispatch thread seed s)).
Proof.
  intros Hth Hok Hg. constructor; [apply Hok|]. intros si cs Hs.
  destruct (mo_listed _ _ Hok _ _ Hs) as [E|(t & pt & L1 & L2 & L3 & L4 & L5)]; [by left|].
  unfold end_dispatch. destruct (decide (t = thread)) as [->|Hne].
  - destruct (decide (si ∈ df_deactivate s)) as [Hd|Hd].
    { rewrite Forall_forall in Hg. destruct (Hg si Hd cs Hs); [done|by left]. }
    right. exists thread, (pt⟪pt_random_seed := seed⟫
      ⟪pt_active_bitmap ::= λ b, b ∖ list_to_set (df_deactivate s)⟫).
    split; [done|]. split; [done|]. rsimpl. rewrite list_lookup_alter_eq, L3.
    split; [done|]. split; [rsimpl; apply elem_of_difference; split; [done|]|done].
    by rewrite elem_of_list_to_set.
  - right. exists t, pt. split; [done|]. split; [done|]. rsimpl.
    rewrite list_lookup_alter_ne by lia. done.
Qed.

Section Dequeue.

Context `{Vpp} (lens : gmap Z Z) (thread now_ns : Z).
Hypothesis Hthread : 0 <= thread.

Definition start_frame (cm : cake_main_t) (bufs : gmap Z vlib_buffer_t) : deq_frame :=
  mkDeqFrame cm bufs VLIB_FRAME_SIZE [] [] [] 0 0 0 0 0.

(** What a dispatch of the node is. *)
Record dispatch_ok (cm : cake_main_t) (bufs : gmap Z vlib_buffer_t) (s : deq_frame) : Prop := {
  do_main : main_ok lens (df_cm s);
  do_lens : lens_of (df_bufs s) = lens;
  do_threads : ∀ n, threads_ok n cm → threads_ok n (df_cm s);
  do_held : ∀ h, cm_held h (df_cm s) + total h (frame_out s) + total h (df_freed s) = cm_held h cm;
  do_sent : Z.of_nat (length (df_out s)) = VLIB_FRAME_SIZE - df_budget s;
  do_budget : 0 <= df_budget s;
  do_still : still cm (df_cm s);
  do_drained : ∀ pt, cm_per_thread cm !! Z.to_nat thread = Some pt →
    0 < df_budget s → df_n_drr_blocked s = 0 → df_n_parent_blocked s = 0 →
    (length (df_deactivate s) < 255)%nat →
    ∀ si, si ∈ pt_active_bitmap pt → drained thread now_ns (df_cm s) si
}.

Lemma dequeue_node_ok cm bufs :
  main_ok lens cm → tree_ok (cm_aggregates cm) → lens_of bufs = lens → 0 <= now_ns < 2 ^ 64 →
  exists s, cake_dequeue_node DISPATCH_FUEL thread now_ns cm bufs = Some s /\ dispatch_ok cm bufs s.
Proof.
  intros Hok Htr Hl Hnow. unfold cake_dequeue_node. fold (start_frame cm bufs).
  destruct (cm_per_thread cm !! Z.to_nat thread) as [pt|] eqn:Hpt.
  2:{ eexists. split; [reflexivity|]. constructor; try done.
       - intros h. unfold frame_out, total, zsum. simpl. lia.
       - intros pt. by rewrite Hpt. }
  rewrite (u64_small now_ns) by (unfold is_u64; lia).
  destruct (walk_active_ok lens thread (u32 (now_ns / 1000)) now_ns DISPATCH_FUEL dispatch_fuel
    (active_list pt) (pt_random_seed pt) (start_frame cm bufs))
    as (s & seed & E & [D1 D2 D3 D4]); try done.
  { apply active_list_nodup. }
  { intros x Hx. by apply not_elem_of_nil in Hx. }
  unfold active_list in E. rewrite E. cbn [mbind option_bind].
  exists (end_dispatch thread seed s). split; [reflexivity|].
  pose proof D1 as [W1 W2 W3 W4 W5 W6 W7 W8 W9 W10 W11 W12].
  constructor.
  - by apply end_dispatch_ok.
  - exact (eq_trans W2 Hl).
  - intros n Hn si Hsi. unfold end_dispatch. rsimpl. rewrite length_alter, W8.
    apply (Hn si), W10. exact Hsi.
  - intros h. change (cm_held h (df_cm (end_dispatch thread seed s))) with (cm_held h (df_cm s)).
    specialize (W3 h). change (frame_out (start_frame cm bufs)) with ([] : list Z) in W3.
    change (total h (df_freed (start_frame cm bufs))) with 0 in W3.
    change (total h []) with 0 in W3.
    change (frame_out (end_dispatch thread seed s)) with (frame_out s).
    change (df_freed (end_dispatch thread seed s)) with (df_freed s).
    change (df_cm (start_frame cm bufs)) with cm in W3. lia.
  - simpl in *. lia.
  - exact W5.
  - by split.
  - intros pt' Hpt' Hb H1 H2 Hd si Hsi. rewrite Hpt' in Hpt. apply (inj Some) in Hpt as <-.
    rewrite Forall_forall in D4. apply (D4 Hb); [|exact Hd|by apply elem_of_active_list].
    unfold frame_blocks. simpl in *. lia.
Qed.

End Dequeue.

(** ** Buffers the plugin does not hold *)

Definition held_buffer (cm : cake_main_t) (bi : Z) : Prop :=
  exists si cs t tin i f, cm_schedulers cm !! si = Some cs /\ cs_tins cs !! t = Some tin /\
    tn_flows tin !! i = Some f /\ bi ∈ queue f.

Lemma qsum_ext h g f : (∀ bi, bi ∈ queue f → h bi = g bi) → qsum h f = qsum g f.
Proof.
  intros E. unfold qsum. f_equal. apply map_ext_in. intros bi Hbi%list_elem_of_In. by apply E.
Qed.

Section Lens.

Context (lens lens' : gmap Z Z).

Lemma flow_lens f : (∀ bi, bi ∈ queue f → lens' !! bi = lens !! bi) →
  flow_ok lens f → flow_ok lens' f.
Proof.
  intros E [H1 H2 H3 H4 H5 H6]. constructor; try done.
  - rewrite Forall_forall in *. intros bi Hbi. destruct (H5 bi Hbi) as (l & Hl & Hr).
    exists l. by rewrite E.
  - rewrite H6. f_equal. apply qsum_ext. intros bi Hbi. unfold len_in. by rewrite E.
Qed.

Lemma sched_lens cs :
  (∀ t tin i f bi, cs_tins cs !! t = Some tin → tn_flows tin !! i = Some f → bi ∈ queue f →
    lens' !! bi = lens !! bi) →
  sched_ok lens cs → sched_ok lens' cs.
Proof.
  intros E [K1 K2 K3 K4 K5]. constructor; try done.
  - intros t tin Ht. destruct (K1 t tin Ht) as (n & o & d & [A1 A2 A3 A4 A5 A6 A7]).
    exists n, o, d. constructor; try done. intros i f Hf. apply flow_lens; [|by eapply A3].
    intros bi. by eapply E.
  - rewrite K3. f_equal. unfold held, ssum. f_equal.
    change (map ?g) with (fmap (M := list) g). apply list_fmap_ext. intros t tin Ht.
    apply msum_ext. intros i f Hf. apply qsum_ext. intros bi Hbi. unfold len_in.
    by rewrite (E t tin i f bi).
Qed.

Lemma main_lens cm :
  (∀ bi, held_buffer cm bi → lens' !! bi = lens !! bi) → main_ok lens cm → main_ok lens' cm.
Proof.
  intros E [M1 M2]. constructor; [|done]. intros si cs Hs. destruct (M1 si cs Hs) as (K1 & K2 & K3).
  split; [|done]. eapply sched_lens; [|exact K1]. intros t tin i f bi Ht Hf Hbi. apply E.
  by exists si, cs, t, tin, i, f.
Qed.

End Lens.

(** ** Runs of the plugin *)

Record qos_state := mkQos {
  qs_cm : cake_main_t;
  qs_bufs : gmap Z vlib_buffer_t
}.

Inductive qos_op :=
  | QosEnableDisable (vn : vnet) (new_idx sw_if_index : Z) (is_enable : bool) (a : sched_args)
  | QosInterfaceAddDel (vn : vnet) (sw_if_index : Z) (is_add : bool)
  | QosAggregateCreate (vn : vnet) (new_idx sw_if_index rate weight burst_ns limit : Z)
  | QosAggregateDelete (vn : vnet) (sw_if_index : Z)
  | QosSvlanCreate (vn : vnet) (new_idx sw_if_index first last rate weight burst_ns limit : Z)
  | QosSvlanDelete (vn : vnet) (sw_if_index svlan_id : Z)
  | QosAggregateUpdate (sw_if_index : Z) (level : cake_agg_level)
      (svlan_id rate weight burst_ns limit : Z)
  | QosResetStats (sw_if_index : Z)
  | QosEnqueue (is_ip4 : bool) (thread now_us : Z) (from : list Z)
  | QosDequeue (thread now_ns : Z)
  | QosBuffers (bufs : gmap Z vlib_buffer_t).

(** The buffers an operation hands to the plugin. *)
Definition op_in (op : qos_op) : list Z :=
  match op with QosEnqueue _ _ _ from => from | _ => [] end.

Section System.

Context `{Vpp} (n : nat).

(** One operation: the state after it, and the buffers that left the plugin. *)
Definition qos_exec (st : qos_state) (op : qos_op) : option (qos_state * list Z) :=
  let cm := qs_cm st in
  let config cm' freed := Some (mkQos cm' (qs_bufs st), freed) in
  match op with
  | QosEnableDisable vn new_idx sw is_enable a =>
      '(cm, freed, _) ← cake_sched_enable_disable vn cm new_idx sw is_enable a; config cm freed
  | QosInterfaceAddDel vn sw is_add =>
      '(cm, freed) ← cake_sw_interface_add_del vn cm sw is_add; config cm freed
  | QosAggregateCreate vn new_idx sw rate weight burst limit =>
      '(cm, _) ← cake_aggregate_create vn cm new_idx sw rate weight burst limit; config cm []
  | QosAggregateDelete vn sw => '(cm, _) ← cake_aggregate_delete vn cm sw; config cm []
  | QosSvlanCreate vn new_idx sw first last rate weight burst limit =>
      '(cm, _) ← cake_svlan_aggregate_create vn cm new_idx sw first last rate weight burst limit;
      config cm []
  | QosSvlanDelete vn sw tag => '(cm, _) ← cake_svlan_aggregate_delete vn cm sw tag; config cm []
  | QosAggregateUpdate sw level tag rate weight burst limit =>
      config (cake_aggregate_update cm sw level tag rate weight burst limit).1 []
  | QosResetStats sw => config (cake_sched_reset_stats cm sw) []
  | QosEnqueue v4 thread now_us from =>
      s ← cake_enqueue_inline v4 thread now_us cm (qs_bufs st) from;
      Some (mkQos (ef_cm s) (ef_bufs s), enq_gone s)
  | QosDequeue thread now_ns =>
      s ← cake_dequeue_node DISPATCH_FUEL thread now_ns cm (qs_bufs st);
      Some (mkQos (df_cm s) (df_bufs s), frame_out s ++ df_freed s)
  | QosBuffers bufs => Some (mkQos cm bufs, [])
  end.

(** What VPP promises of a call: [pool_get] returns a free slot, an interface's chain of
    [sup_sw_if_index] ends, arguments are of their C types, frames hold valid buffer
    indices, thread indices are below the number of threads, no one rewrites a
    buffer's length while the plugin holds it. *)
Definition op_ok (st : qos_state) (op : qos_op) : Prop :=
  match op with
  | QosEnableDisable vn new_idx _ is_enable a => is_enable = true →
      vnet_ok vn /\ cm_schedulers (qs_cm st) !! new_idx = None /\ (n <= vn_n_threads vn)%nat /\
      - 2 ^ 15 <= ar_overhead_bytes a < 2 ^ 15 /\ 0 <= ar_mpu a < 2 ^ 8
  | QosAggregateCreate vn new_idx _ _ _ _ _ | QosSvlanCreate vn new_idx _ _ _ _ _ _ _ =>
      vnet_ok vn /\ cm_aggregates (qs_cm st) !! new_idx = None
  | QosInterfaceAddDel vn _ _ | QosAggregateDelete vn _ | QosSvlanDelete vn _ _ => vnet_ok vn
  | QosEnqueue _ thread _ from =>
      0 <= thread < Z.of_nat n /\ Forall (λ bi, is_Some (qs_bufs st !! bi)) from
  | QosDequeue thread now_ns => 0 <= thread < Z.of_nat n /\ 0 <= now_ns < 2 ^ 64
  | QosBuffers bufs => lens_ok (lens_of bufs) /\
      ∀ bi, held_buffer (qs_cm st) bi → lens_of bufs !! bi = lens_of (qs_bufs st) !! bi
  | _ => True
  end.

Definition qos_init : qos_state := mkQos osvbng_qos_sched_init ∅.

(** [qos_run st come gone]: a run reaches [st]; [come] is every buffer handed to the
    plugin, [gone] every buffer that left it. *)
Inductive qos_run : qos_state → list Z → list Z → Prop :=
  | qos_start : qos_run qos_init [] []
  | qos_step st come gone op st' out :
      qos_run st come gone → op_ok st op → qos_exec st op = Some (st', out) →
      qos_run st' (come ++ op_in op) (gone ++ out).

Record qos_ok (st : qos_state) : Prop := {
  qo_main : main_ok (lens_of (qs_bufs st)) (qs_cm st);
  qo_lens : lens_ok (lens_of (qs_bufs st));
  qo_threads : threads_ok n (qs_cm st);
  qo_topo : topo_ok (qs_cm st)
}.

Definition settles (st : qos_state) (op : qos_op) (st' : qos_state) (out : list Z) : Prop :=
  qos_ok st' /\ ∀ h, cm_held h (qs_cm st') + total h out = cm_held h (qs_cm st) + total h (op_in op).

Lemma config_settles st op cm freed :
  qos_ok st → op_in op = [] → settled (lens_of (qs_bufs st)) n (qs_cm st) cm freed →
  topo_ok cm → settles st op (mkQos cm (qs_bufs st)) freed.
Proof.
  intros [Q1 Q2 Q3 Q4] Hop (S1 & S2 & S3) Ht.
  split; [constructor; [done|done|by apply S2|done]|].
  intros h. simpl. rewrite S3, Hop. unfold total, zsum. simpl. lia.
Qed.

Lemma quiet_settles st op cm :
  qos_ok st → op_in op = [] → quiet (qs_cm st) cm → topo_ok cm →
  settles st op (mkQos cm (qs_bufs st)) [].
Proof.
  intros Hok Hop Hq Ht. apply config_settles; [done|done| |done].
  eapply settled_quiet; [by apply settled_refl, Hok|exact Hq].
Qed.

(** A call that changes aggregates only. *)
Lemma aggregate_call_ok st op (call : option (cake_main_t * api_result)) :
  qos_ok st → op_in op = [] →
  qos_exec st op = ('(cm, _) ← call; Some (mkQos cm (qs_bufs st), [])) →
  (exists cm r, call = Some (cm, r) /\ topo_ok cm) →
  (∀ cm r, call = Some (cm, r) → quiet (qs_cm st) cm) →
  exists st' out, qos_exec st op = Some (st', out) /\ settles st op st' out.
Proof.
  intros Hq Hop -> (cm & r & E & Ht) Hqu. rewrite E. cbn [mbind option_bind].
  do 2 eexists. split; [reflexivity|]. apply quiet_settles; [done|done|by eapply Hqu|done].
Qed.

Lemma enqueue_settles_op st v4 thread now_us from :
  qos_ok st → op_ok st (QosEnqueue v4 thread now_us from) →
  exists st' out, qos_exec st (QosEnqueue v4 thread now_us from) = Some (st', out) /\
    settles st (QosEnqueue v4 thread now_us from) st' out.
Proof.
  intros [Q1 Q2 Q3 Q4] [H1 H2].
  destruct (enqueue_inline_ok (lens_of (qs_bufs st)) v4 n thread now_us Q2 H1 (qs_cm st)
    (qs_bufs st) from Q1 eq_refl Q3 Q4 H2) as (s & E & [I1 I2 I3 I4] & Hh).
  unfold qos_exec. rewrite E. cbn [mbind option_bind]. do 2 eexists. split; [reflexivity|].
  split; [|exact Hh]. constructor; simpl; [by rewrite I2|by rewrite I2|done|done].
Qed.

Lemma dequeue_settles st thread now_ns :
  qos_ok st → op_ok st (QosDequeue thread now_ns) →
  exists st' out, qos_exec st (QosDequeue thread now_ns) = Some (st', out) /\
    settles st (QosDequeue thread now_ns) st' out.
Proof.
  intros [Q1 Q2 Q3 Q4] [[H1 _] H2].
  destruct (dequeue_node_ok (lens_of (qs_bufs st)) thread now_ns H1 (qs_cm st) (qs_bufs st) Q1
    (to_tree _ _ Q4) eq_refl H2) as (s & E & [D1 D2 D3 D4 D5 D6 D7 D8]).
  unfold qos_exec. rewrite E. cbn [mbind option_bind]. do 2 eexists. split; [reflexivity|]. split.
  - constructor; simpl; [by rewrite D2|by rewrite D2|by apply D3|by eapply still_topo].
  - intros h. simpl. rewrite total_app. specialize (D4 h). unfold total at 3, zsum. simpl. lia.
Qed.

Lemma qos_exec_ok st op : qos_ok st → op_ok st op →
  exists st' out, qos_exec st op = Some (st', out) /\ settles st op st' out.
Proof.
  intros Hq Hop. pose proof Hq as [Q1 Q2 Q3 Q4]. destruct op; cbn [op_ok] in Hop.
  - destruct (enable_disable_ok (lens_of (qs_bufs st)) n vn (qs_cm st) new_idx sw_if_index
      is_enable a Q1 Q4 Hop) as (cm & freed & r & E & Hs & St).
    unfold qos_exec. rewrite E. do 2 eexists. split; [reflexivity|].
    apply config_settles; [done|done|done|by eapply still_topo].
  - destruct (sw_interface_ok (lens_of (qs_bufs st)) n vn (qs_cm st) sw_if_index is_add
      Q1 Hop Q4) as (cm & freed & E & Hs & Ht).
    unfold qos_exec. rewrite E. do 2 eexists. split; [reflexivity|]. by apply config_settles.
  - destruct Hop as [Hvn Hi]. eapply aggregate_call_ok; [done|done|reflexivity|
      by apply aggregate_create_topo|intros cm r; apply aggregate_create_quiet].
  - eapply aggregate_call_ok; [done|done|reflexivity|
      by apply aggregate_delete_topo|intros cm r; apply aggregate_delete_quiet].
  - destruct Hop as [Hvn Hi]. eapply aggregate_call_ok; [done|done|reflexivity|
      by apply svlan_create_topo|intros cm r; apply svlan_create_quiet].
  - eapply aggregate_call_ok; [done|done|reflexivity|
      by apply svlan_delete_topo|intros cm r; apply svlan_delete_quiet].
  - do 2 eexists. split; [reflexivity|]. apply quiet_settles; [done|done|apply aggregate_update_quiet|].
    eapply still_topo; [apply aggregate_update_still|done].
  - do 2 eexists. split; [reflexivity|]. apply quiet_settles; [done|done|apply reset_stats_quiet|].
    unfold cake_sched_reset_stats.
    by destruct (cm_sched_index_by_sw_if_index (qs_cm st) !! sw_if_index).
  - by apply enqueue_settles_op.
  - by apply dequeue_settles.
  - destruct Hop as [H1 H2]. do 2 eexists. split; [reflexivity|].
    split; [constructor; [|done|done|done]|done]. by eapply main_lens.
Qed.

Lemma init_qos_ok : qos_ok qos_init.
Proof.
  constructor.
  - constructor; intros si cs Hs; simpl in Hs; by rewrite lookup_empty in Hs.
  - intros bi l Hl. simpl in Hl. unfold lens_of in Hl. by rewrite fmap_empty, lookup_empty in Hl.
  - intros si Hs. simpl in Hs. rewrite lookup_empty in Hs. by destruct Hs.
  - constructor; [intros i a p Hx|intros sw p Hx|intros p port m t i Hx]; simpl in Hx;
      by rewrite lookup_empty in Hx.
Qed.

Lemma run_ok st come gone : qos_run st come gone →
  qos_ok st /\ ∀ h, cm_held h (qs_cm st) + total h gone = total h come.
Proof.
  induction 1 as [|st come gone op st' out Hrun [IH1 IH2] Hop Hex].
  - split; [apply init_qos_ok|]. intros h. unfold cm_held. simpl. by rewrite msum_empty.
  - destruct (qos_exec_ok st op IH1 Hop) as (st1 & out1 & E & S1 & S2).
    rewrite Hex in E. apply (inj Some) in E. injection E as <- <-.
    split; [done|]. intros h. rewrite !total_app, <- IH2. specialize (S2 h). lia.
Qed.

(** The run of an operation, as functions of the state. *)
Definition after (st : qos_state) (op : qos_op) : qos_state :=
  default st (fst <$> qos_exec st op).
Definition left_by (st : qos_state) (op : qos_op) : list Z := default [] (snd <$> qos_exec st op).

Lemma run_after st come gone op : qos_run st come gone → op_ok st op →
  qos_run (after st op) (come ++ op_in op) (gone ++ left_by st op).
Proof.
  intros Hr Hop. destruct (qos_exec_ok st op (proj1 (run_ok _ _ _ Hr)) Hop) as (st' & out & E & _).
  unfold after, left_by. rewrite E. by eapply qos_step.
Qed.

End System.

(** ** More fuel changes nothing *)

Section Fuel.

Context `{Vpp} (thread now_us now_ns : Z).

Lemma spend_fuel t i f : ∀ f' d r, (f <= f')%nat →
  spend_deficit f t i thread now_us now_ns d = Some r →
  spend_deficit f' t i thread now_us now_ns d = Some r.
Proof.
  induction f as [|f IH]; intros f' d r Hf; cbn [spend_deficit].
  - destruct f'; cbn [spend_deficit]; by destruct (_ && _).
  - destruct f' as [|f']; [lia|]. cbn [spend_deficit].
    destruct (_ && _); [|done]. destruct (_ =? 0); [done|].
    destruct (cake_dequeue_one t i thread now_us now_ns d) as [[d1 r1]|]; [|done].
    cbn [mbind option_bind]. destruct (blocked r1); [done|]. destruct (shaper_closed now_ns _); [done|]. apply IH. lia.
Qed.

Lemma turn_fuel f f' d r : (f <= f')%nat →
  sched_turn f thread now_us now_ns d = Some r → sched_turn f' thread now_us now_ns d = Some r.
Proof.
  intros Hf. unfold sched_turn. destruct (pick_tin _ _) as [t|]; [|done].
  destruct (cake_select_flow _) as [i|]; [|done]. destruct (bool_decide _); [done|].
  unfold serve_bulk.
  match goal with |- context [spend_deficit f t i thread now_us now_ns ?d0] => set (d1 := d0) end.
  destruct (spend_deficit f t i thread now_us now_ns d1) as [r1|] eqn:E; [|done].
  by rewrite (spend_fuel t i f f' d1 r1 Hf E).
Qed.

Lemma loop_fuel f : ∀ f' d r, (f <= f')%nat →
  sched_loop f thread now_us now_ns d = Some r → sched_loop f' thread now_us now_ns d = Some r.
Proof.
  induction f as [|f IH]; intros f' d r Hf; cbn [sched_loop].
  - destruct f'; cbn [sched_loop]; by destruct (_ <? _).
  - destruct f' as [|f']; [lia|]. cbn [sched_loop]. destruct (_ <? _); [|done].
    destruct (sched_turn (S f) thread now_us now_ns d) as [[d1 r1]|] eqn:E; [|done].
    rewrite (turn_fuel (S f) (S f') d _ Hf E). cbn [mbind option_bind].
    destruct r1; [|done]. apply IH. lia.
Qed.

Lemma walk_fuel f f' l : (f <= f')%nat → ∀ seed s r,
  walk_active f thread now_us now_ns seed s l = Some r →
  walk_active f' thread now_us now_ns seed s l = Some r.
Proof.
  intros Hf. induction l as [|si l IH]; intros seed s r; cbn [walk_active]; [done|].
  destruct (_ || _); [done|].
  assert (∀ r1, serve_sched f thread now_us now_ns seed s si = Some r1 →
    serve_sched f' thread now_us now_ns seed s si = Some r1) as Hs.
  { intros r1. unfold serve_sched. destruct (cm_schedulers (df_cm s) !! si) as [cs|]; [|done].
    destruct (negb _); [done|]. destruct (now_ns <? _); [done|].
    match goal with |- context [sched_loop f thread now_us now_ns ?d0] => set (d1 := d0) end.
    destruct (sched_loop f thread now_us now_ns d1) as [r2|] eqn:E; [|done].
    by rewrite (loop_fuel f f' d1 r2 Hf E). }
  destruct (serve_sched f thread now_us now_ns seed s si) as [[s1 seed1]|]; [|done].
  rewrite (Hs _ eq_refl). cbn [mbind option_bind]. apply IH.
Qed.

End Fuel.

Lemma node_fuel `{Vpp} f f' thread now_ns cm bufs s : (f <= f')%nat →
  cake_dequeue_node f thread now_ns cm bufs = Some s →
  cake_dequeue_node f' thread now_ns cm bufs = Some s.
Proof.
  intros Hf. unfold cake_dequeue_node. destruct (cm_per_thread cm !! Z.to_nat thread) as [pt|]; [|done].
  match goal with |- context [walk_active f thread ?a ?b ?c ?d ?e] =>
    destruct (walk_active f thread a b c d e) as [[s1 seed]|] eqn:E; [|done];
    rewrite (walk_fuel thread a b f f' e Hf c d _ E); done end.
Qed.

(** ** What holds of every run *)

(** C1. Packets are conserved: in every state the scheduler plugin can reach, through
    any sequence of configuration calls and dispatches of its nodes on any thread, the
    buffers its flows hold together with those that left it (sent, passed on, handed
    off, dropped or freed) are exactly those handed to it.  The equation holds for
    every weight [h] on buffers, so it is one between multisets. *)
Theorem qos_conserves_packets `{Vpp} n st come gone :
  qos_run n st come gone → ∀ h, cm_held h (qs_cm st) + total h gone = total h come.
Proof. intros Hr. by apply run_ok in Hr as [_ Hh]. Qed.


(** C3. No packet is stranded: in every reachable state a scheduler that holds a packet
    has an owner thread, is in that thread's active bitmap, and takes part in its
    parents' deficit rounds. *)
Theorem qos_no_packet_stranded `{Vpp} n st come gone si cs t tin i f :
  qos_run n st come gone → cm_schedulers (qs_cm st) !! si = Some cs →
  cs_tins cs !! t = Some tin → tn_flows tin !! i = Some f → cake_flow_queue_len f ≠ 0 →
  exists thread pt, cs_owner_thread cs = Some thread /\
    cm_per_thread (qs_cm st) !! Z.to_nat thread = Some pt /\ si ∈ pt_active_bitmap pt /\
    Drr.active (cs_drr cs) = true.
Proof.
  intros Hr Hs Ht Hf Hq. apply run_ok in Hr as [[Hm _ _ _] _].
  destruct (mo_listed _ _ Hm _ _ Hs) as [He|(th & pt & L1 & _ & L2 & L3 & L4)].
  - by destruct (Hq (He _ _ _ _ Ht Hf)).
  - by exists th, pt.
Qed.

(** C7. The scheduler's own books are right in every reachable state: each tin's three
    lists thread exactly the sparse, bulk and decaying flows of its table, once each, and
    its counters are their lengths; no ring holds more than 128 packets; every backlog
    and occupancy counter is what the queues hold, modulo 2^32; a sparse flow holds at
    most one packet and has credit for it. *)
Theorem qos_schedulers_well_formed `{Vpp} n st come gone si cs :
  qos_run n st come gone → cm_schedulers (qs_cm st) !! si = Some cs →
  sched_ok (lens_of (qs_bufs st)) cs /\ fresh cs /\ cs_sched_index cs = si.
Proof. intros Hr. apply run_ok in Hr as [[Hm _ _ _] _]. apply (mo_sched _ _ Hm). Qed.

(** C4. The dequeue node is work conserving: a dispatch sends at most 256 packets, and if
    it ends with budget left, no gate or share refused a packet and it found fewer than 255
    schedulers to deactivate, every scheduler of its bitmap that it owns is empty or over its
    shaper's rate.  (At 255 schedulers to deactivate the walk over the bitmap stops, and
    those it has not come to may be left with packets for the next dispatch.) *)
Theorem dispatch_work_conserving `{Vpp} n st come gone thread now_ns s pt :
  qos_run n st come gone → op_ok n st (QosDequeue thread now_ns) →
  cm_per_thread (qs_cm st) !! Z.to_nat thread = Some pt →
  cake_dequeue_node DISPATCH_FUEL thread now_ns (qs_cm st) (qs_bufs st) = Some s →
  (length (df_out s) <= 256)%nat /\
  (0 < df_budget s → df_n_drr_blocked s = 0 → df_n_parent_blocked s = 0 →
   (length (df_deactivate s) < 255)%nat →
   ∀ si cs, si ∈ pt_active_bitmap pt → cm_schedulers (df_cm s) !! si = Some cs →
     cs_owner_thread cs = Some thread →
     empty_sched cs \/ now_ns < cs_global_shaper_time_ns cs).
Proof.
  intros Hr [[H1 _] H2] Hpt E. apply run_ok in Hr as [[Q1 Q2 Q3 Q4] _].
  destruct (dequeue_node_ok (lens_of (qs_bufs st)) thread now_ns H1 (qs_cm st) (qs_bufs st) Q1
    (to_tree _ _ Q4) eq_refl H2) as (s' & E' & [D1 D2 D3 D4 D5 D6 _ D7]).
  rewrite E in E'. apply (inj Some) in E' as <-. split; [unfold VLIB_FRAME_SIZE in *; lia|].
  intros B1 B2 B3 B4 si cs Hsi Hs Ho.
  destruct (D7 pt Hpt B1 B2 B3 B4 si Hsi cs Hs) as [Hne|[He|Hsh]]; [done|by left|by right].
Qed.

(** ** A run: one subscriber, one packet *)

Definition sample_vnet1 : vnet := mkVnet {[7 := mkSwIf 7 None 1500 true]} 1 1000000000.
Definition sample_args : sched_args := mkArgs 12500000 1 14 0 64 0 0 0 1.

(** An IPv4 header to 10.0.0.2. *)
Definition sample_buf : vlib_buffer_t :=
  sample_packet [69; 0; 0; 40; 0; 1; 64; 0; 64; 17; 0; 0; 10; 0; 0; 1; 10; 0; 0; 2].

Definition sample_bufs : gmap Z vlib_buffer_t := {[5 := sample_buf]}.
Definition op_enable : qos_op := QosEnableDisable sample_vnet1 3 7 true sample_args.
Definition op_packet : qos_op := QosEnqueue true 0 1000 [5].
Definition sample_enabled : cake_main_t * list Z * api_result :=
  default (osvbng_qos_sched_init, [], None)
    (cake_sched_enable_disable sample_vnet1 osvbng_qos_sched_init 3 7 true sample_args).
Definition sample_frame : enq_frame :=
  default (mkEnqFrame osvbng_qos_sched_init ∅ [] [] [] 0 0 0 0)
    (cake_enqueue_inline true 0 1000 sample_enabled.1.1 sample_bufs [5]).
Definition st_buffers : qos_state := mkQos osvbng_qos_sched_init sample_bufs.
Definition st_enabled : qos_state := mkQos sample_enabled.1.1 sample_bufs.
Definition st_queued : qos_state := mkQos (ef_cm sample_frame) (ef_bufs sample_frame).
Definition sample_gone : list Z := sample_enabled.1.2 ++ enq_gone sample_frame.

Lemma sample_vnet1_ok : vnet_ok sample_vnet1.
Proof.
  exists (λ _, 0%nat). intros i wi H Hne. simpl in H.
  by apply lookup_singleton_Some in H as [<- <-].
Qed.

Lemma sample_run : qos_run 1 st_queued [5] sample_gone.
Proof.
  assert (qos_run 1 st_buffers [] []) as R1.
  { apply (qos_step 1 _ _ _ (QosBuffers sample_bufs) _ [] (qos_start 1)); [|reflexivity]. split.
    - intros bi l. unfold lens_of, sample_bufs. rewrite map_fmap_singleton.
      rewrite lookup_singleton_Some. intros [_ <-]. vm_compute. split; congruence.
    - intros bi (si & cs & t & tin & i & f & Hs & _). simpl in Hs. by rewrite lookup_empty in Hs. }
  assert (op_ok 1 st_buffers op_enable) as O1.
  { intros _. split; [exact sample_vnet1_ok|]. split; [apply lookup_empty|].
    split; [reflexivity|]. simpl. lia. }
  assert (qos_run 1 st_enabled [] sample_enabled.1.2) as R2.
  { apply (qos_step 1 _ _ _ op_enable _ sample_enabled.1.2 R1 O1).
    destruct (qos_exec_ok 1 st_buffers op_enable (proj1 (run_ok 1 _ _ _ R1)) O1)
      as (st & out & E & _). revert E. unfold st_enabled, sample_enabled, qos_exec.
    cbn [op_enable st_buffers qs_cm qs_bufs].
    by destruct (cake_sched_enable_disable _ _ _ _ _ _) as [[[cm freed] r]|]. }
  assert (op_ok 1 st_enabled op_packet) as O2.
  { split; [lia|]. apply Forall_singleton. eexists. apply lookup_singleton_eq. }
  apply (qos_step 1 _ _ _ op_packet _ (enq_gone sample_frame) R2 O2).
  destruct (qos_exec_ok 1 st_enabled op_packet (proj1 (run_ok 1 _ _ _ R2)) O2)
    as (st & out & E & _). revert E. unfold st_queued, sample_frame, qos_exec.
  cbn [op_packet st_enabled qs_cm qs_bufs].
  by destruct (cake_enqueue_inline _ _ _ _ _ _) as [s|].
Qed.

Lemma sample_dispatch : exists s,
  cake_dequeue_node 50 0 1000000000 (qs_cm st_queued) (qs_bufs st_queued) = Some s /\
  df_out s = [(5, CAKE_DEQUEUE_NEXT_REINJECT_IP4)] /\ df_budget s = 255 /\
  df_n_drr_blocked s = 0 /\ df_n_parent_blocked s = 0 /\ df_deactivate s = [].
Proof.
  assert (match cake_dequeue_node 50 0 1000000000 (qs_cm st_queued) (qs_bufs st_queued) with
    | Some s => (df_out s, df_budget s, df_n_drr_blocked s, df_n_parent_blocked s, df_deactivate s)
    | None => ([], 0, 1, 1, [])
    end = ([(5, CAKE_DEQUEUE_NEXT_REINJECT_IP4)], 255, 0, 0, [])) as E by (vm_compute; reflexivity).
  destruct (cake_dequeue_node 50 0 1000000000 (qs_cm st_queued) (qs_bufs st_queued)) as [s|].
  - exists s. split; [reflexivity|]. by injection E.
  - discriminate E.
Qed.

Lemma sample_fuel : (50 <= DISPATCH_FUEL)%nat.
Proof.
  etransitivity; [|apply Nat.lt_le_incl, dispatch_fuel].
  apply (Z2Nat.inj_le 50 WORK_MAX); vm_compute; congruence.
Qed.

(** The queued packet: tin 1, flow 568. *)
Lemma sample_flow : exists cs tin f,
  cm_schedulers (qs_cm st_queued) !! 3 = Some cs /\ cs_tins cs !! 1%nat = Some tin /\
  tn_flows tin !! 568 = Some f /\ cake_flow_queue_len f = 1.
Proof.
  assert (match cm_schedulers (qs_cm st_queued) !! 3 with
    | Some cs => match cs_tins cs !! 1%nat with
        | Some tin => match tn_flows tin !! 568 with Some f => cake_flow_queue_len f | _ => 0 end
        | _ => 0 end
    | _ => 0 end = 1) as E by (vm_compute; reflexivity).
  destruct (cm_schedulers (qs_cm st_queued) !! 3) as [cs|]; [|done].
  destruct (cs_tins cs !! 1%nat) as [tin|] eqn:Et; [|done].
  destruct (tn_flows tin !! 568) as [f|] eqn:Ef; [|done]. eauto 10.
Qed.

Lemma qos_conserves_packets_witness :
  cm_held (λ _, 1) (qs_cm st_queued) + total (λ _, 1) sample_gone = 1.
Proof. exact (qos_conserves_packets 1 st_queued _ _ sample_run (λ _, 1)). Defined.


Lemma qos_no_packet_stranded_witness : exists cs thread pt,
  cm_schedulers (qs_cm st_queued) !! 3 = Some cs /\ cs_owner_thread cs = Some thread /\
  cm_per_thread (qs_cm st_queued) !! Z.to_nat thread = Some pt /\ 3 ∈ pt_active_bitmap pt.
Proof.
  destruct sample_flow as (cs & tin & f & Hs & Ht & Hf & Hq).
  destruct (qos_no_packet_stranded 1 st_queued _ _ 3 cs 1 tin 568 f sample_run Hs Ht Hf
    ltac:(lia)) as (th & pt & H1 & H2 & H3 & _).
  exists cs, th, pt. split; [exact Hs|]. split; [exact H1|]. split; [exact H2|exact H3].
Defined.

Lemma qos_schedulers_well_formed_witness : exists cs,
  cm_schedulers (qs_cm st_queued) !! 3 = Some cs /\
  cs_buffer_usage cs = u32 (held (len_in (lens_of (qs_bufs st_queued))) cs).
Proof.
  destruct sample_flow as (cs & tin & f & Hs & _). exists cs. split; [exact Hs|].
  exact (sk_usage _ _ (proj1 (qos_schedulers_well_formed 1 st_queued _ _ 3 cs sample_run Hs))).
Defined.

Lemma dispatch_work_conserving_witness : exists s pt,
  cake_dequeue_node DISPATCH_FUEL 0 1000000000 (qs_cm st_queued) (qs_bufs st_queued) = Some s /\
  cm_per_thread (qs_cm st_queued) !! 0%nat = Some pt /\ length (df_out s) = 1%nat /\
  ∀ si cs, si ∈ pt_active_bitmap pt → cm_schedulers (df_cm s) !! si = Some cs →
    cs_owner_thread cs = Some 0 → empty_sched cs \/ 1000000000 < cs_global_shaper_time_ns cs.
Proof.
  destruct sample_dispatch as (s & E & H1 & H2 & H3 & H4 & H5).
  apply (node_fuel 50 DISPATCH_FUEL _ _ _ _ _ sample_fuel) in E.
  assert (is_Some (cm_per_thread (qs_cm st_queued) !! 0%nat)) as [pt Hpt]
    by (apply lookup_lt_is_Some; vm_compute; lia).
  destruct (dispatch_work_conserving 1 st_queued _ _ 0 1000000000 s pt sample_run
    ltac:(split; lia) Hpt E) as [_ Hw].
  exists s, pt. split; [exact E|]. split; [exact Hpt|]. split; [by rewrite H1|].
  intros si cs. apply Hw; [lia|exact H3|exact H4|rewrite H5; simpl; lia].
Defined.
