(* ===== verification/CgnatTypes.v ===== *)
(** Data of the NAT and its inline helpers: [plugins/osvbng_cgnat/osvbng_cgnat.h].

    Addresses and ports are kept as the code keeps them, in network byte order, as
    the number a load of the header gives; host order is [clib_net_to_host].  Hash
    tables and pools are finite maps.  Times are integers in nanoseconds.  The
    session's [alg_flags], which nothing sets, and the spin locks are left out. *)

From S2P Require Import Prelude Dll.

(** ** Constants *)

Definition IP_PROTOCOL_ICMP : Z := 1.
Definition IP_PROTOCOL_TCP : Z := 6.
Definition IP_PROTOCOL_UDP : Z := 17.

Definition CGNAT_PROTO_TCP_ESTAB : Z := 0.
Definition CGNAT_PROTO_TCP_TRANS : Z := 1.
Definition CGNAT_PROTO_UDP : Z := 2.
Definition CGNAT_PROTO_ICMP : Z := 3.
Definition CGNAT_PROTO_OTHER : Z := 4.
Definition CGNAT_N_PROTOS : Z := 5.
Definition CGNAT_PROTO_TCP : Z := CGNAT_PROTO_TCP_ESTAB.

Definition CGNAT_MAX_SESSIONS : Z := Z.shiftl 1 19.
Definition CGNAT_MAX_FRAG_REWRITES : Z := Z.shiftl 1 16.

Definition TCP_FLAG_FIN : Z := 1.
Definition TCP_FLAG_SYN : Z := 2.
Definition TCP_FLAG_RST : Z := 4.
Definition TCP_FLAG_ACK : Z := 16.

Definition ICMP4_echo_reply : Z := 0.
Definition ICMP4_destination_unreachable : Z := 3.
Definition ICMP4_source_quench : Z := 4.
Definition ICMP4_redirect : Z := 5.
Definition ICMP4_alternate_host_address : Z := 6.
Definition ICMP4_echo_request : Z := 8.
Definition ICMP4_time_exceeded : Z := 11.
Definition ICMP4_parameter_problem : Z := 12.

(** Seconds on the model's clock. *)
Definition sec (n : Z) : Z := n * 1000000000.

Inductive cgnat_tcp_state_e :=
  | CGNAT_TCP_STATE_CLOSED
  | CGNAT_TCP_STATE_ESTABLISHED
  | CGNAT_TCP_STATE_CLOSING.

#[export] Instance cgnat_tcp_state_eq_dec : EqDecision cgnat_tcp_state_e.
Proof. solve_decision. Defined.

(** The two directions a packet can have. *)
Inductive cgnat_dir := CGNAT_TCP_DIR_I2O | CGNAT_TCP_DIR_O2I.

#[export] Instance cgnat_dir_eq_dec : EqDecision cgnat_dir.
Proof. solve_decision. Defined.

Inductive cgnat_pool_mode_t := CGNAT_POOL_MODE_PBA | CGNAT_POOL_MODE_DETERMINISTIC.
Inductive cgnat_address_pooling_t :=
  CGNAT_ADDRESS_POOLING_PAIRED | CGNAT_ADDRESS_POOLING_ARBITRARY.
Inductive cgnat_filtering_t :=
  CGNAT_FILTERING_ENDPOINT_INDEPENDENT | CGNAT_FILTERING_ENDPOINT_DEPENDENT.

#[export] Instance cgnat_pool_mode_eq_dec : EqDecision cgnat_pool_mode_t.
Proof. solve_decision. Defined.
#[export] Instance cgnat_address_pooling_eq_dec : EqDecision cgnat_address_pooling_t.
Proof. solve_decision. Defined.
#[export] Instance cgnat_filtering_eq_dec : EqDecision cgnat_filtering_t.
Proof. solve_decision. Defined.

(** The error counters a packet can be dropped on. *)
Inductive cgnat_error_t :=
  | CGNAT_ERROR_NO_MAPPING
  | CGNAT_ERROR_NO_POOL
  | CGNAT_ERROR_PORT_EXHAUSTED
  | CGNAT_ERROR_SESSION_LIMIT
  | CGNAT_ERROR_NO_SESSION
  | CGNAT_ERROR_NO_REASS_METADATA
  | CGNAT_ERROR_FRAGMENT_DROP
  | CGNAT_ERROR_BAD_ICMP_TYPE
  | CGNAT_ERROR_TRUNCATED.

#[export] Instance cgnat_error_eq_dec : EqDecision cgnat_error_t.
Proof. solve_decision. Defined.

(** ** Flows and sessions *)

Record cgnat_flow_t := mkNatFlow {
  nf_l3_csum_delta : Z;      (* u64 *)
  nf_l4_csum_delta : Z;      (* u64 *)
  nf_saddr : Z;              (* u32 *)
  nf_daddr : Z;              (* u32 *)
  nf_rewrite_saddr : Z;      (* u32 *)
  nf_rewrite_daddr : Z;      (* u32 *)
  nf_fib_index : Z;          (* u32 *)
  nf_rewrite_fib_index : Z;  (* u32 *)
  nf_sport : Z;              (* u16 *)
  nf_dport : Z;              (* u16 *)
  nf_rewrite_sport : Z;      (* u16 *)
  nf_rewrite_dport : Z;      (* u16 *)
  nf_proto : Z               (* u8 *)
}.
#[export] Instance eta_nat_flow : Eta cgnat_flow_t := λ f,
  mkNatFlow (nf_l3_csum_delta f) (nf_l4_csum_delta f) (nf_saddr f) (nf_daddr f)
    (nf_rewrite_saddr f) (nf_rewrite_daddr f) (nf_fib_index f) (nf_rewrite_fib_index f)
    (nf_sport f) (nf_dport f) (nf_rewrite_sport f) (nf_rewrite_dport f) (nf_proto f).

Record cgnat_session_t := mkSession {
  ss_i2o : cgnat_flow_t;
  ss_tcp_state : cgnat_tcp_state_e;
  ss_o2i : cgnat_flow_t;
  ss_mapping_index : Z;
  ss_pool_index : Z;
  ss_last_active : Z;
  ss_total_pkts : Z;         (* u64 *)
  ss_total_bytes : Z;        (* u64 *)
  ss_timeout : Z;
  ss_frag_rewrite_index : Z;
  ss_mapping_next : option Z;
  ss_mapping_prev : option Z;
  ss_tcp_flags_i2o : Z;      (* u8 *)
  ss_tcp_flags_o2i : Z       (* u8 *)
}.
#[export] Instance eta_session : Eta cgnat_session_t := λ s,
  mkSession (ss_i2o s) (ss_tcp_state s) (ss_o2i s) (ss_mapping_index s) (ss_pool_index s)
    (ss_last_active s) (ss_total_pkts s) (ss_total_bytes s) (ss_timeout s)
    (ss_frag_rewrite_index s) (ss_mapping_next s) (ss_mapping_prev s)
    (ss_tcp_flags_i2o s) (ss_tcp_flags_o2i s).

#[export] Instance session_node : DllNode cgnat_session_t := {|
  nd_next := ss_mapping_next;
  nd_prev := ss_mapping_prev;
  nd_set_next := λ v s, s⟪ss_mapping_next := v⟫;
  nd_set_prev := λ v s, s⟪ss_mapping_prev := v⟫
|}.

#[export] Instance session_node_laws : DllNodeLaws cgnat_session_t.
Proof. by split. Qed.

Definition cgnat_session_inside_ip (s : cgnat_session_t) : Z := nf_saddr (ss_i2o s).
Definition cgnat_session_outside_ip (s : cgnat_session_t) : Z := nf_rewrite_saddr (ss_i2o s).
Definition cgnat_session_remote_ip (s : cgnat_session_t) : Z := nf_daddr (ss_i2o s).
Definition cgnat_session_inside_port (s : cgnat_session_t) : Z := nf_sport (ss_i2o s).
Definition cgnat_session_outside_port (s : cgnat_session_t) : Z := nf_rewrite_sport (ss_i2o s).
Definition cgnat_session_remote_port (s : cgnat_session_t) : Z := nf_dport (ss_i2o s).
Definition cgnat_session_proto (s : cgnat_session_t) : Z := nf_proto (ss_i2o s).
Definition cgnat_session_inside_fib (s : cgnat_session_t) : Z := nf_fib_index (ss_i2o s).
Definition cgnat_session_outside_fib (s : cgnat_session_t) : Z := nf_rewrite_fib_index (ss_i2o s).

Record cgnat_frag_rewrite_t := mkFragRewrite {
  fr_l3_csum_delta_i2o : Z;
  fr_l3_csum_delta_o2i : Z;
  fr_inside_ip : Z;
  fr_outside_ip : Z;
  fr_inside_fib_index : Z;
  fr_outside_fib_index : Z;
  fr_refcount : Z            (* u32 *)
}.
#[export] Instance eta_frag_rewrite : Eta cgnat_frag_rewrite_t := λ r,
  mkFragRewrite (fr_l3_csum_delta_i2o r) (fr_l3_csum_delta_o2i r) (fr_inside_ip r)
    (fr_outside_ip r) (fr_inside_fib_index r) (fr_outside_fib_index r) (fr_refcount r).

(** src_ip, dst_ip, src_port, dst_port, proto and the low 16 bits of the fib. *)
Definition cgnat_session_key_t : Type := Z * Z * Z * Z * Z * Z.

(** ip and fib_index. *)
Definition cgnat_inside_key_t : Type := Z * Z.

(** ** Mappings and pools *)

Record cgnat_mapping_t := mkMapping {
  mp_inside_ip : Z;
  mp_outside_ip : Z;
  mp_inside_vrf_id : Z;
  mp_inside_fib_index : Z;
  mp_port_block_start : Z;           (* u16 *)
  mp_port_block_end : Z;             (* u16 *)
  mp_pool_index : Z;
  mp_sw_if_index : Z;
  mp_next_port : Z;                  (* u16 *)
  mp_session_count : Z;              (* u32 *)
  mp_sessions_head : option Z;
  mp_port_reuse_timestamps : list Z  (* 0: never released *)
}.
#[export] Instance eta_mapping : Eta cgnat_mapping_t := λ m,
  mkMapping (mp_inside_ip m) (mp_outside_ip m) (mp_inside_vrf_id m) (mp_inside_fib_index m)
    (mp_port_block_start m) (mp_port_block_end m) (mp_pool_index m) (mp_sw_if_index m)
    (mp_next_port m) (mp_session_count m) (mp_sessions_head m) (mp_port_reuse_timestamps m).

(** The IPv4 part of VPP's [fib_prefix_t]. *)
Record fib_prefix_t := mkPrefix { fp_len : Z; fp_addr : Z }.
#[export] Instance fib_prefix_eq_dec : EqDecision fib_prefix_t.
Proof. solve_decision. Defined.

Record cgnat_bypass_entry_t := mkBypass { be_prefix : fib_prefix_t; be_fib_index : Z }.

Record cgnat_det_params_t := mkDetParams {
  dp_inside_base : Z;
  dp_inside_count : Z;
  dp_outside_base : Z;
  dp_outside_count : Z;
  dp_sharing_ratio : Z;
  dp_ports_per_host : Z;
  dp_port_range_start : Z;
  dp_port_range_end : Z
}.
#[export] Instance eta_det_params : Eta cgnat_det_params_t := λ d,
  mkDetParams (dp_inside_base d) (dp_inside_count d) (dp_outside_base d) (dp_outside_count d)
    (dp_sharing_ratio d) (dp_ports_per_host d) (dp_port_range_start d) (dp_port_range_end d).

Record cgnat_inside_prefix_entry_t := mkInsidePrefix {
  ip_prefix : fib_prefix_t;
  ip_vrf_id : Z;
  ip_fib_index : Z
}.

(** [pl_outside_fib_entries] says for each outside prefix whether its FIB entry is
    installed, [pl_dpo_valid] whether the pool's DPO is set. *)
Record cgnat_pool_t := mkPool {
  pl_pool_id : Z;
  pl_mode : cgnat_pool_mode_t;
  pl_address_pooling : cgnat_address_pooling_t;
  pl_filtering : cgnat_filtering_t;
  pl_block_size : Z;
  pl_max_blocks_per_sub : Z;
  pl_max_sessions_per_sub : Z;
  pl_port_range_start : Z;
  pl_port_range_end : Z;
  pl_port_reuse_timeout : Z;
  pl_alg_bitmask : Z;
  pl_timeouts : list Z;
  pl_outside_vrf_table_id : Z;
  pl_outside_fib_index : Z;
  pl_outside_fib_valid : bool;
  pl_outside_prefixes : list fib_prefix_t;
  pl_outside_fib_entries : list bool;
  pl_dpo_valid : bool;
  pl_outside_sw_if_indexes : list Z;
  pl_inside_prefixes : list cgnat_inside_prefix_entry_t;
  pl_det_params : list cgnat_det_params_t
}.
#[export] Instance eta_pool : Eta cgnat_pool_t := λ p,
  mkPool (pl_pool_id p) (pl_mode p) (pl_address_pooling p) (pl_filtering p) (pl_block_size p)
    (pl_max_blocks_per_sub p) (pl_max_sessions_per_sub p) (pl_port_range_start p)
    (pl_port_range_end p) (pl_port_reuse_timeout p) (pl_alg_bitmask p) (pl_timeouts p)
    (pl_outside_vrf_table_id p) (pl_outside_fib_index p) (pl_outside_fib_valid p)
    (pl_outside_prefixes p) (pl_outside_fib_entries p) (pl_dpo_valid p)
    (pl_outside_sw_if_indexes p) (pl_inside_prefixes p) (pl_det_params p).

(** Calls into VPP that change its state, in the order they are made. *)
Inductive nat_effect :=
  | ReassEnable (sw_if_index : Z) (enable : bool)     (* ip4_sv_reass_..._with_refcnt *)
  | FeatureEnable (sw_if_index : Z) (enable : bool)   (* cgnat-in2out on ip4-unicast *)
  | OutsideAdd (fib_index : Z) (prefix : fib_prefix_t)
  | OutsideRemove (fib_index : Z) (prefix : fib_prefix_t)
  | BypassAdd (fib_index : Z) (prefix : fib_prefix_t)
  | BypassRemove (fib_index : Z) (prefix : fib_prefix_t).

Record cgnat_main_t := mkCgnat {
  cg_pools : gmap Z cgnat_pool_t;
  cg_pool_by_id : gmap Z Z;
  cg_mappings : gmap Z cgnat_mapping_t;
  cg_inside_lookup : gmap cgnat_inside_key_t Z;
  cg_sessions : gmap Z cgnat_session_t;
  cg_session_table_in2out : gmap cgnat_session_key_t Z;
  cg_session_table_out2in : gmap cgnat_session_key_t Z;
  cg_frag_rewrite_pool : gmap Z cgnat_frag_rewrite_t;
  cg_frag_aux : gmap cgnat_session_key_t Z;
  cg_bypass_entries : gmap Z cgnat_bypass_entry_t;
  cg_bypass_entry_count : Z;
  cg_effects : list nat_effect
}.
#[export] Instance eta_cgnat : Eta cgnat_main_t := λ c,
  mkCgnat (cg_pools c) (cg_pool_by_id c) (cg_mappings c) (cg_inside_lookup c) (cg_sessions c)
    (cg_session_table_in2out c) (cg_session_table_out2in c) (cg_frag_rewrite_pool c)
    (cg_frag_aux c) (cg_bypass_entries c) (cg_bypass_entry_count c) (cg_effects c).

(** ** What the NAT calls in VPP *)

(** Header and checksum functions of VPP and its FIB, which the plugin calls and
    does not define.  Header functions take a buffer's bytes and an offset. *)
Class NatVpp := {
  ip4_header_bytes : (Z → Z) → Z → Z;
  ip4_next_header : (Z → Z) → Z → Z;
  ip4_get_fragment_offset : (Z → Z) → Z → Z;
  ip_csum_add_even : Z → Z → Z;
  ip_csum_sub_even : Z → Z → Z;
  ip_csum_fold : Z → Z;
  ip_csum_update : Z → Z → Z → Z;
  ip_incremental_checksum_buffer : (Z → Z) → Z → Z → Z;
  (* bucket 0 of the forwarding entry of an address is a receive DPO *)
  receive_dpo : Z → Z → bool;
  (* [fib_table_lookup] of the /32, and [fib_entry_is_sourced] by the bypass source *)
  fib_table_lookup : Z → Z → option Z;
  fib_entry_is_sourced : Z → bool;
  fib_table_find : Z → option Z;
  fib_index_by_sw_if_index : Z → Z;
  (* return value of enabling shallow virtual reassembly on an interface *)
  sv_reass_rv : Z → Z
}.

(** Header lengths are those of RFC 791.  Checksum arithmetic is one's complement,
    so modulo 65535: adding and subtracting are opposite, in whichever sign VPP
    stores its sums, folding keeps the class, and an update replaces a word. *)
Class NatVppLaws `{NatVpp} : Prop := {
  header_bytes_ihl d o : ip4_header_bytes d o = 4 * (d o mod 16);
  next_header_eq d o : ip4_next_header d o = o + ip4_header_bytes d o;
  fragment_offset_eq d o : ip4_get_fragment_offset d o = d (o + 6) mod 32 * 256 + d (o + 7);
  csum_even : exists s, (s = 1 \/ s = -1) /\ ∀ c x,
    ip_csum_add_even c x mod 65535 = (c + s * x) mod 65535 /\
    ip_csum_sub_even c x mod 65535 = (c - s * x) mod 65535;
  csum_fold c : is_u16 (ip_csum_fold c) /\ ip_csum_fold c mod 65535 = c mod 65535;
  csum_update c old new :
    ip_csum_update c old new mod 65535 = (c + old - new) mod 65535
}.

Section Helpers.

Context `{NatVpp}.

Definition cgnat_mapping_lookup (cm : cgnat_main_t) (inside_ip fib_index : Z)
    : option (Z * cgnat_mapping_t) :=
  mi ← cg_inside_lookup cm !! (inside_ip, fib_index);
  m ← cg_mappings cm !! mi;
  Some (mi, m).

Definition cgnat_is_local_receive (fib_index dst : Z) : bool := receive_dpo fib_index dst.

Definition cgnat_bypass_check (cm : cgnat_main_t) (inside_ip fib_index : Z) : bool :=
  if cg_bypass_entry_count cm =? 0 then false
  else match fib_table_lookup fib_index inside_ip with
       | None => false
       | Some fei => fib_entry_is_sourced fei
       end.

Definition cgnat_proto_from_ip (ip_proto : Z) : Z :=
  if ip_proto =? IP_PROTOCOL_TCP then CGNAT_PROTO_TCP
  else if ip_proto =? IP_PROTOCOL_UDP then CGNAT_PROTO_UDP
  else if ip_proto =? IP_PROTOCOL_ICMP then CGNAT_PROTO_ICMP
  else CGNAT_PROTO_OTHER.

Definition timeout_at (pool : cgnat_pool_t) (slot : Z) : Z :=
  sec (nth (Z.to_nat slot) (pl_timeouts pool) 0).

Definition cgnat_session_timeout (pool : cgnat_pool_t) (proto : Z) : Z :=
  if proto <? CGNAT_N_PROTOS then timeout_at pool proto else timeout_at pool CGNAT_PROTO_UDP.

Definition cgnat_session_timeout_for_tcp (pool : cgnat_pool_t) (st : cgnat_tcp_state_e) : Z :=
  match st with
  | CGNAT_TCP_STATE_ESTABLISHED => timeout_at pool CGNAT_PROTO_TCP_ESTAB
  | _ => timeout_at pool CGNAT_PROTO_TCP_TRANS
  end.

Definition TCP_MASK : Z :=
  Z.lor (Z.lor (Z.lor TCP_FLAG_FIN TCP_FLAG_SYN) TCP_FLAG_RST) TCP_FLAG_ACK.

Definition tcp_flags_of (s : cgnat_session_t) (dir : cgnat_dir) : Z :=
  match dir with
  | CGNAT_TCP_DIR_I2O => ss_tcp_flags_i2o s
  | CGNAT_TCP_DIR_O2I => ss_tcp_flags_o2i s
  end.
Definition set_tcp_flags (dir : cgnat_dir) (v : Z) (s : cgnat_session_t) : cgnat_session_t :=
  match dir with
  | CGNAT_TCP_DIR_I2O => s⟪ss_tcp_flags_i2o := v⟫
  | CGNAT_TCP_DIR_O2I => s⟪ss_tcp_flags_o2i := v⟫
  end.

(** Both directions have sent SYN and ACK, and nothing else of the mask. *)
Definition syn_ack_both (s : cgnat_session_t) : bool :=
  Z.land (ss_tcp_flags_i2o s) (ss_tcp_flags_o2i s) =? Z.lor TCP_FLAG_SYN TCP_FLAG_ACK.

(** The transition of the state machine, once a new flag was recorded. *)
Definition tcp_transition (s : cgnat_session_t) (dir : cgnat_dir) (now : Z) : cgnat_session_t :=
  match ss_tcp_state s with
  | CGNAT_TCP_STATE_CLOSED =>
      if syn_ack_both s then s⟪ss_tcp_state := CGNAT_TCP_STATE_ESTABLISHED⟫ else s
  | CGNAT_TCP_STATE_ESTABLISHED =>
      if negb (Z.land (tcp_flags_of s dir) (Z.lor TCP_FLAG_FIN TCP_FLAG_RST) =? 0)
      then s⟪ss_tcp_state := CGNAT_TCP_STATE_CLOSING⟫⟪ss_tcp_flags_i2o := 0⟫
            ⟪ss_tcp_flags_o2i := 0⟫⟪ss_last_active := now⟫
      else s
  | CGNAT_TCP_STATE_CLOSING =>
      if syn_ack_both s then s⟪ss_tcp_state := CGNAT_TCP_STATE_ESTABLISHED⟫ else s
  end.

Definition cgnat_set_tcp_session_state (s : cgnat_session_t) (pool : cgnat_pool_t)
    (tcp_flags : Z) (dir : cgnat_dir) (now : Z) : cgnat_session_t :=
  let old := tcp_flags_of s dir in
  let s := set_tcp_flags dir (Z.lor old (Z.land tcp_flags TCP_MASK)) s in
  if old =? tcp_flags_of s dir then s
  else
    let old_state := ss_tcp_state s in
    let s := tcp_transition s dir now in
    if bool_decide (old_state = ss_tcp_state s) then s
    else s⟪ss_timeout := cgnat_session_timeout_for_tcp pool (ss_tcp_state s)⟫.

Definition cgnat_is_unk_proto (proto : Z) : bool :=
  negb ((proto =? IP_PROTOCOL_TCP) || (proto =? IP_PROTOCOL_UDP) || (proto =? IP_PROTOCOL_ICMP)).

Definition icmp_type_is_error_message (icmp_type : Z) : bool :=
  existsb (Z.eqb icmp_type)
    [ICMP4_destination_unreachable; ICMP4_source_quench; ICMP4_redirect;
     ICMP4_alternate_host_address; ICMP4_time_exceeded; ICMP4_parameter_problem].

(** The UDP header at [udp]: its checksum is the word at offset 6. *)
Definition cgnat_udp_csum_update (d : Z → Z) (udp delta : Z) : Z → Z :=
  let checksum := ld16 d (udp + 6) in
  if checksum =? 0 then d
  else
    let checksum := ip_csum_fold (ip_csum_add_even checksum delta) in
    st16 d (udp + 6) (if checksum =? 0 then 65535 else checksum).

End Helpers.

(** ** An instance *)

(** One's complement arithmetic in 64 bits, where adding subtracts as in VPP; FIB 1
    is the subscribers', interface 1 is in it. *)
#[export] Instance sample_nat_vpp : NatVpp := {|
  ip4_header_bytes d o := 4 * (d o mod 16);
  ip4_next_header d o := o + 4 * (d o mod 16);
  ip4_get_fragment_offset d o := d (o + 6) mod 32 * 256 + d (o + 7);
  ip_csum_add_even c x := (c - x) mod (2 ^ 64 - 1);
  ip_csum_sub_even c x := (c + x) mod (2 ^ 64 - 1);
  ip_csum_fold c := if c =? 0 then 0 else (c - 1) mod 65535 + 1;
  ip_csum_update c old new := (c + old - new) mod (2 ^ 64 - 1);
  ip_incremental_checksum_buffer d o n :=
    foldr (λ i acc, ld16 d (o + 2 * Z.of_nat i) + acc) 0 (seq 0 (Z.to_nat (n / 2)));
  receive_dpo _ _ := false;
  fib_table_lookup _ _ := None;
  fib_entry_is_sourced _ := false;
  fib_table_find vrf := if (vrf =? 0) || (vrf =? 1) then Some vrf else None;
  fib_index_by_sw_if_index sw := if sw =? 1 then 1 else 0;
  sv_reass_rv _ := 0
|}.

Lemma mod_csum x : x mod (2 ^ 64 - 1) mod 65535 = x mod 65535.
Proof.
  symmetry. apply Znumtheory.Zmod_div_mod; [lia..|]. by exists 281479271743489.
Qed.

#[export] Instance sample_nat_laws : NatVppLaws.
Proof.
  split; try done.
  - exists (-1). split; [by right|]. intros c x. simpl. rewrite !mod_csum.
    split; f_equal; lia.
  - intros c. simpl. destruct (Z.eqb_spec c 0) as [->|Hc]; [done|].
    pose proof (Z.mod_pos_bound (c - 1) 65535 ltac:(lia)). split; [unfold is_u16; lia|].
    rewrite Zplus_mod_idemp_l. f_equal. lia.
  - intros c old new. simpl. apply mod_csum.
Qed.
