(* ===== verification/CgnatTcp.v ===== *)
(** The TCP state machine of a session: [cgnat_set_tcp_session_state].

    The flags each direction has carried are recorded; the state follows them.  The
    theorems are about whole packet sequences: what opens a session, and what keeps a
    closing one from opening again. *)

From S2P Require Import Prelude Dll CgnatTypes.

(** A TCP packet: its flags, its direction and when it came. *)
Definition tcp_packet : Type := Z * cgnat_dir * Z.

Definition tcp_step (pool : cgnat_pool_t) (s : cgnat_session_t) (p : tcp_packet)
    : cgnat_session_t :=
  let '(flags, dir, now) := p in cgnat_set_tcp_session_state s pool flags dir now.

Definition tcp_run (pool : cgnat_pool_t) (s : cgnat_session_t) (l : list tcp_packet)
    : cgnat_session_t := foldl (tcp_step pool) s l.

(** Whether a direction has carried a flag. *)
Definition seen (dir : cgnat_dir) (bit : Z) (l : list tcp_packet) : bool :=
  existsb (λ '(flags, d, _), bool_decide (d = dir) && Z.testbit flags bit) l.

Definition SYN_BIT : Z := 1.
Definition ACK_BIT : Z := 4.

(** The handshake is done: SYN and ACK both ways. *)
Definition handshake (l : list tcp_packet) : bool :=
  seen CGNAT_TCP_DIR_I2O SYN_BIT l && seen CGNAT_TCP_DIR_I2O ACK_BIT l &&
  seen CGNAT_TCP_DIR_O2I SYN_BIT l && seen CGNAT_TCP_DIR_O2I ACK_BIT l.

Definition no_fin_rst (p : tcp_packet) : Prop :=
  Z.land (fst (fst p)) (Z.lor TCP_FLAG_FIN TCP_FLAG_RST) = 0.

(** ** Flags as bits *)

Definition flags_of (syn ack : bool) : Z := (if syn then 2 else 0) + (if ack then 16 else 0).

Lemma small_mask f m : 0 <= m < 32 → Z.land f m = Z.land (f mod 32) m.
Proof.
  intros Hm. change 32 with (2 ^ 5). rewrite <- Z.land_ones by lia.
  rewrite <- Z.land_assoc. f_equal. rewrite Z.land_comm, Z.land_ones by lia.
  symmetry. apply Z.mod_small. exact Hm.
Qed.

Lemma masked_flags f :
  Z.land f (Z.lor TCP_FLAG_FIN TCP_FLAG_RST) = 0 →
  Z.land f TCP_MASK = flags_of (Z.testbit f SYN_BIT) (Z.testbit f ACK_BIT).
Proof.
  change (Z.lor TCP_FLAG_FIN TCP_FLAG_RST) with 5. change TCP_MASK with 23.
  rewrite !(small_mask f) by lia.
  assert (∀ n, 0 <= n < 5 → Z.testbit f n = Z.testbit (f mod 32) n) as Hb.
  { intros n Hn. change 32 with (2 ^ 5). rewrite Z.mod_pow2_bits_low; [done|lia]. }
  unfold SYN_BIT, ACK_BIT. rewrite !Hb by lia.
  pose proof (Z.mod_pos_bound f 32 ltac:(lia)) as Hr. revert Hr. generalize (f mod 32) as g.
  intros g Hg. assert (Forall (λ g, Z.land g 5 = 0 → Z.land g 23 =
    flags_of (Z.testbit g 1) (Z.testbit g 4)) (map Z.of_nat (seq 0 32))) as Hall.
  { repeat constructor; vm_compute; intros; (discriminate || reflexivity). }
  rewrite Forall_forall in Hall. apply Hall. apply list_elem_of_fmap.
  exists (Z.to_nat g). split; [lia|]. apply elem_of_seq. lia.
Qed.

Lemma lor_flags a b c d : Z.lor (flags_of a b) (flags_of c d) = flags_of (a || c) (b || d).
Proof. by destruct a, b, c, d. Qed.

Lemma flags_of_inj a b c d : flags_of a b = flags_of c d → a = c /\ b = d.
Proof. by destruct a, b, c, d. Qed.

Lemma both_flags a b c d :
  (Z.land (flags_of a b) (flags_of c d) =? Z.lor TCP_FLAG_SYN TCP_FLAG_ACK) = a && b && c && d.
Proof. by destruct a, b, c, d. Qed.

(** ** Opening *)

(** A session that has seen [is1]/[ia1] one way and [os1]/[oa1] the other, and no FIN
    or RST. *)
Record opening (pool : cgnat_pool_t) (is1 ia1 os1 oa1 : bool) (s : cgnat_session_t) : Prop := {
  op_i2o : ss_tcp_flags_i2o s = flags_of is1 ia1;
  op_o2i : ss_tcp_flags_o2i s = flags_of os1 oa1;
  op_state : ss_tcp_state s =
    if is1 && ia1 && os1 && oa1 then CGNAT_TCP_STATE_ESTABLISHED else CGNAT_TCP_STATE_CLOSED;
  op_timeout : ss_timeout s = cgnat_session_timeout_for_tcp pool (ss_tcp_state s)
}.

Lemma no_close_flags a b : Z.land (flags_of a b) (Z.lor TCP_FLAG_FIN TCP_FLAG_RST) = 0.
Proof. by destruct a, b. Qed.

Lemma opening_step pool is1 ia1 os1 oa1 s flags dir now :
  opening pool is1 ia1 os1 oa1 s → no_fin_rst (flags, dir, now) →
  opening pool
    (is1 || bool_decide (dir = CGNAT_TCP_DIR_I2O) && Z.testbit flags SYN_BIT)
    (ia1 || bool_decide (dir = CGNAT_TCP_DIR_I2O) && Z.testbit flags ACK_BIT)
    (os1 || bool_decide (dir = CGNAT_TCP_DIR_O2I) && Z.testbit flags SYN_BIT)
    (oa1 || bool_decide (dir = CGNAT_TCP_DIR_O2I) && Z.testbit flags ACK_BIT)
    (cgnat_set_tcp_session_state s pool flags dir now).
Proof.
  intros [Hi Ho Hst Hto] Hf. unfold no_fin_rst in Hf. simpl in Hf.
  unfold cgnat_set_tcp_session_state. rewrite (masked_flags _ Hf).
  generalize (Z.testbit flags SYN_BIT) (Z.testbit flags ACK_BIT). intros fs fa.
  destruct s. simpl in Hi, Ho, Hst, Hto. subst.
  destruct dir, is1, ia1, os1, oa1, fs, fa; split; reflexivity.
Qed.

Lemma seen_cons dir bit flags d now l :
  seen dir bit ((flags, d, now) :: l) =
  (bool_decide (d = dir) && Z.testbit flags bit) || seen dir bit l.
Proof. done. Qed.

Lemma opening_run pool is1 ia1 os1 oa1 s l :
  opening pool is1 ia1 os1 oa1 s → Forall no_fin_rst l →
  opening pool (is1 || seen CGNAT_TCP_DIR_I2O SYN_BIT l) (ia1 || seen CGNAT_TCP_DIR_I2O ACK_BIT l)
    (os1 || seen CGNAT_TCP_DIR_O2I SYN_BIT l) (oa1 || seen CGNAT_TCP_DIR_O2I ACK_BIT l)
    (tcp_run pool s l).
Proof.
  revert is1 ia1 os1 oa1 s. induction l as [|[[flags d] now] l IH]; intros is1 ia1 os1 oa1 s Ho Hl.
  - simpl. by rewrite !orb_false_r.
  - apply Forall_cons in Hl as [Hp Hl]. rewrite !seen_cons, !orb_assoc.
    apply (IH _ _ _ _ (tcp_step pool s (flags, d, now))); [|done]. by apply opening_step.
Qed.

(** A TCP session is established exactly when both directions have carried a
    SYN and an ACK: over any sequence of packets without FIN and RST, in any order
    and interleaving, a new session's state and expiry bucket say whether the
    handshake is done.  A SYN flood, or one side alone, never leaves the short
    bucket. *)
Theorem tcp_established_iff_handshake pool s l :
  ss_tcp_state s = CGNAT_TCP_STATE_CLOSED → ss_tcp_flags_i2o s = 0 → ss_tcp_flags_o2i s = 0 →
  ss_timeout s = cgnat_session_timeout_for_tcp pool CGNAT_TCP_STATE_CLOSED →
  Forall no_fin_rst l →
  ss_tcp_state (tcp_run pool s l) =
    (if handshake l then CGNAT_TCP_STATE_ESTABLISHED else CGNAT_TCP_STATE_CLOSED) /\
  ss_timeout (tcp_run pool s l) =
    timeout_at pool (if handshake l then CGNAT_PROTO_TCP_ESTAB else CGNAT_PROTO_TCP_TRANS).
Proof.
  intros Hst Hi Ho Hto Hl.
  assert (opening pool false false false false s) as Hop by (split; [exact Hi|exact Ho|exact Hst|by rewrite Hst]).
  destruct (opening_run _ _ _ _ _ _ _ Hop Hl) as [_ _ Hs Ht]. simpl in Hs.
  fold (handshake l) in Hs. split; [done|]. rewrite Ht, Hs. by destruct (handshake l).
Qed.

(** ** Closing *)

(** Both directions have a FIN or RST bit on record. *)
Definition closed_both (s : cgnat_session_t) : Prop :=
  Z.testbit (Z.land (ss_tcp_flags_i2o s) (ss_tcp_flags_o2i s)) 0 = true.

Lemma closed_both_stuck s : closed_both s → syn_ack_both s = false.
Proof.
  unfold closed_both, syn_ack_both. intros Hc. apply Z.eqb_neq. intros He. by rewrite He in Hc.
Qed.

Lemma closing_step pool s p :
  ss_tcp_state s = CGNAT_TCP_STATE_CLOSING → closed_both s →
  ss_tcp_state (tcp_step pool s p) = CGNAT_TCP_STATE_CLOSING /\
  closed_both (tcp_step pool s p) /\ ss_timeout (tcp_step pool s p) = ss_timeout s.
Proof.
  destruct p as [[flags dir] now]. intros Hst Hc. unfold tcp_step, cgnat_set_tcp_session_state.
  set (s1 := set_tcp_flags _ _ _).
  assert (ss_tcp_state s1 = CGNAT_TCP_STATE_CLOSING /\ closed_both s1 /\
          ss_timeout s1 = ss_timeout s) as (H1 & H2 & H3).
  { unfold closed_both in *. rewrite Z.land_spec, andb_true_iff in Hc. destruct Hc as [Hc1 Hc2].
    unfold s1. destruct dir; unfold set_tcp_flags, tcp_flags_of; rproj;
      (split; [done|]; split; [|done]);
      rewrite Z.land_spec, Z.lor_spec, Hc1, Hc2; by rewrite ?orb_true_r. }
  clearbody s1. destruct (_ =? _); [done|].
  unfold tcp_transition. rewrite H1, (closed_both_stuck s1 H2), H1.
  by rewrite bool_decide_eq_true_2.
Qed.

(** A closing session that has recorded a FIN from both sides cannot open
    again: whatever packets follow, a complete new handshake among them, the state
    and the short bucket stay. *)
Theorem tcp_closing_is_final pool s l :
  ss_tcp_state s = CGNAT_TCP_STATE_CLOSING → closed_both s →
  ss_tcp_state (tcp_run pool s l) = CGNAT_TCP_STATE_CLOSING /\
  ss_timeout (tcp_run pool s l) = ss_timeout s.
Proof.
  revert s. induction l as [|p l IH]; intros s Hst Hc; [done|].
  destruct (closing_step pool s p Hst Hc) as (H1 & H2 & H3).
  destruct (IH (tcp_step pool s p) H1 H2) as [H4 H5]. split; [done|]. by rewrite <- H3.
Qed.

(** ** Samples *)

Definition sample_tcp_pool : cgnat_pool_t :=
  mkPool 7 CGNAT_POOL_MODE_PBA CGNAT_ADDRESS_POOLING_PAIRED CGNAT_FILTERING_ENDPOINT_DEPENDENT
    64 1 100 1024 65535 120 0 [7440; 240; 300; 60; 60] 0 NONE false [] [] false [] [] [].

Definition sample_flow : cgnat_flow_t := mkNatFlow 0 0 1 2 3 2 1 0 10 20 30 20 6.
Definition sample_tcp_session : cgnat_session_t :=
  mkSession sample_flow CGNAT_TCP_STATE_CLOSED sample_flow 0 0 0 0 0 (sec 240) 0 None None 0 0.

Definition I2O : cgnat_dir := CGNAT_TCP_DIR_I2O.
Definition O2I : cgnat_dir := CGNAT_TCP_DIR_O2I.

(** SYN, SYN ACK, ACK; then FIN, its retransmission, and the peer's FIN. *)
Definition sample_handshake : list tcp_packet := [(2, I2O, 0); (18, O2I, 0); (16, I2O, 0)].
Definition sample_close : list tcp_packet := [(17, I2O, 1); (17, I2O, 2); (17, O2I, 3)].

Lemma tcp_established_iff_handshake_witness :
  ss_tcp_state (tcp_run sample_tcp_pool sample_tcp_session sample_handshake) =
    (if handshake sample_handshake then CGNAT_TCP_STATE_ESTABLISHED else CGNAT_TCP_STATE_CLOSED) /\
  ss_timeout (tcp_run sample_tcp_pool sample_tcp_session sample_handshake) =
    timeout_at sample_tcp_pool
      (if handshake sample_handshake then CGNAT_PROTO_TCP_ESTAB else CGNAT_PROTO_TCP_TRANS).
Proof.
  apply tcp_established_iff_handshake; try reflexivity.
  repeat constructor.
Defined.

Lemma tcp_closing_is_final_witness :
  let s := tcp_run sample_tcp_pool sample_tcp_session (sample_handshake ++ sample_close) in
  ss_tcp_state (tcp_run sample_tcp_pool s sample_handshake) = CGNAT_TCP_STATE_CLOSING /\
  ss_timeout (tcp_run sample_tcp_pool s sample_handshake) = ss_timeout s.
Proof. apply tcp_closing_is_final; vm_compute; reflexivity. Defined.

(** Without the retransmission a new handshake does open the session. *)
Example closing_reopens :
  ss_tcp_state (tcp_run sample_tcp_pool sample_tcp_session
    (sample_handshake ++ [(17, I2O, 1); (17, O2I, 3); (16, I2O, 3)] ++ sample_handshake)) =
  CGNAT_TCP_STATE_ESTABLISHED.
Proof. vm_compute. reflexivity. Qed.

(** But the peer's old FIN is still on record: its next FIN does not close it. *)
Example reopened_ignores_fin :
  ss_tcp_state (tcp_run sample_tcp_pool sample_tcp_session
    (sample_handshake ++ [(17, I2O, 1); (17, O2I, 3); (16, I2O, 3)] ++ sample_handshake ++
     [(17, O2I, 9)])) =
  CGNAT_TCP_STATE_ESTABLISHED.
Proof. vm_compute. reflexivity. Qed.
