(* ===== verification/CgnatDet.v ===== *)
(** Deterministic mappings: the algorithm of RFC 7422 in [osvbng_cgnat.h], and the
    two API handlers of [osvbng_cgnat_api.c] that compute its parameters.

    The parameters split the port range of an outside address evenly among
    [sharing_ratio] inside hosts.  A division by zero, which stops the process, is
    the outcome [DetTrap]. *)

From S2P Require Import Prelude CgnatTypes.

(** ** Lookup, forward and reverse *)

Inductive det_result (A : Type) :=
  | DetOk (a : A)
  | DetMiss             (* return value -1 *)
  | DetTrap.            (* division by zero *)
Arguments DetOk {A} a.
Arguments DetMiss {A}.
Arguments DetTrap {A}.

(** [ip_h < base_h + inside_count] is a [u32] sum. *)
Definition det_covers (dp : cgnat_det_params_t) (inside_ip : Z) : bool :=
  let ip_h := clib_net_to_host_u32 inside_ip in
  let base_h := clib_net_to_host_u32 (dp_inside_base dp) in
  (base_h <=? ip_h) && (ip_h <? u32 (base_h + dp_inside_count dp)).

Definition cgnat_det_lookup_params_inside (pool : cgnat_pool_t) (inside_ip : Z)
    : option cgnat_det_params_t :=
  List.find (λ dp, det_covers dp inside_ip) (pl_det_params pool).

(** The outside address and the first and last port. *)
Definition cgnat_det_forward (dp : cgnat_det_params_t) (inside_ip : Z)
    : det_result (Z * Z * Z) :=
  let host_offset :=
    u32 (clib_net_to_host_u32 inside_ip - clib_net_to_host_u32 (dp_inside_base dp)) in
  if dp_inside_count dp <=? host_offset then DetMiss
  else if dp_sharing_ratio dp =? 0 then DetTrap
  else
    let outside_offset := host_offset / dp_sharing_ratio dp in
    let port_index := host_offset mod dp_sharing_ratio dp in
    let outside_ip :=
      clib_net_to_host_u32 (u32 (clib_net_to_host_u32 (dp_outside_base dp) + outside_offset)) in
    let port_start := u16 (u32 (dp_port_range_start dp + u32 (dp_ports_per_host dp * port_index))) in
    let port_end := u16 (u32 (port_start + dp_ports_per_host dp - 1)) in
    DetOk (outside_ip, port_start, port_end).

Definition cgnat_det_reverse (dp : cgnat_det_params_t) (outside_ip port : Z) : det_result Z :=
  let outside_offset :=
    u32 (clib_net_to_host_u32 outside_ip - clib_net_to_host_u32 (dp_outside_base dp)) in
  if dp_outside_count dp <=? outside_offset then DetMiss
  else if (port <? dp_port_range_start dp) || (dp_port_range_end dp <? port) then DetMiss
  else if dp_ports_per_host dp =? 0 then DetTrap
  else
    let port_offset := (port - dp_port_range_start dp) / dp_ports_per_host dp in
    let host_offset := u32 (outside_offset * dp_sharing_ratio dp + port_offset) in
    if dp_inside_count dp <=? host_offset then DetMiss
    else DetOk (clib_net_to_host_u32
                  (u32 (clib_net_to_host_u32 (dp_inside_base dp) + host_offset))).

(** The first deterministic pool, in pool order, with an entry that covers the
    outside address. *)
Definition covers_outside (dp : cgnat_det_params_t) (outside_ip : Z) : bool :=
  u32 (clib_net_to_host_u32 outside_ip - clib_net_to_host_u32 (dp_outside_base dp))
    <? dp_outside_count dp.

Definition cgnat_pool_for_outside_ip (cm : cgnat_main_t) (outside_ip : Z) : option Z :=
  List.find (λ i,
    match cg_pools cm !! i with
    | Some pool =>
        bool_decide (pl_mode pool = CGNAT_POOL_MODE_DETERMINISTIC) &&
        existsb (λ dp, covers_outside dp outside_ip) (pl_det_params pool)
    | None => false
    end) (merge_sort Z.le (map fst (map_to_list (cg_pools cm)))).

(** ** Parameters from the API *)

(** What adding an inside prefix appends. *)
Definition det_inside_params (pool : cgnat_pool_t) (base len : Z) : cgnat_det_params_t :=
  mkDetParams base (u32 (Z.shiftl 1 (32 - len))) 0 0 0 0
    (pl_port_range_start pool) (pl_port_range_end pool).

(** What adding an outside address makes of the last entry. *)
Definition det_outside_params (dp : cgnat_det_params_t) (base len : Z) : cgnat_det_params_t :=
  let outside_count := u32 (Z.shiftl 1 (32 - len)) in
  let ratio := dp_inside_count dp / outside_count in
  let ratio := if ratio =? 0 then 1 else ratio in
  let usable_ports := u32 (dp_port_range_end dp - dp_port_range_start dp + 1) in
  dp⟪dp_outside_base := base⟫⟪dp_outside_count := outside_count⟫
    ⟪dp_sharing_ratio := ratio⟫⟪dp_ports_per_host := usable_ports / ratio⟫.

(** * Theorems *)

(** The parameters divide: every inside host has an outside address and a block. *)
Record det_ok (dp : cgnat_det_params_t) : Prop := {
  det_inside : 0 < dp_inside_count dp;
  det_inside_fits :
    clib_net_to_host_u32 (dp_inside_base dp) + dp_inside_count dp <= 2 ^ 32;
  det_outside_fits :
    clib_net_to_host_u32 (dp_outside_base dp) + dp_outside_count dp <= 2 ^ 32;
  det_ratio : 0 < dp_sharing_ratio dp;
  det_hosts : dp_inside_count dp <= dp_outside_count dp * dp_sharing_ratio dp;
  det_ports : 0 < dp_ports_per_host dp;
  det_range : 0 <= dp_port_range_start dp;
  det_blocks : dp_port_range_start dp + dp_ports_per_host dp * dp_sharing_ratio dp
               <= dp_port_range_end dp + 1;
  det_range_end : is_u16 (dp_port_range_end dp)
}.

Lemma shift_count len : 1 <= len <= 32 → u32 (Z.shiftl 1 (32 - len)) = 2 ^ (32 - len).
Proof.
  intros Hl. rewrite Z.shiftl_1_l. apply Z.mod_small. split; [apply Z.pow_nonneg; lia|].
  apply Z.pow_lt_mono_r; lia.
Qed.

(** An outside prefix as large as the inside one gives one host per address. *)
Lemma ratio_covers a b : 0 <= a → 0 <= b →
  let r := if 2 ^ a / 2 ^ b =? 0 then 1 else 2 ^ a / 2 ^ b in
  0 < r /\ 2 ^ a <= 2 ^ b * r.
Proof.
  intros Ha Hb r. pose proof (Z.pow_pos_nonneg 2 a ltac:(lia) Ha).
  pose proof (Z.pow_pos_nonneg 2 b ltac:(lia) Hb). subst r.
  destruct (Z.le_gt_cases b a) as [Hle|Hgt].
  - rewrite <- Z.pow_sub_r by lia. pose proof (Z.pow_pos_nonneg 2 (a - b) ltac:(lia) ltac:(lia)).
    destruct (Z.eqb_spec (2 ^ (a - b)) 0); [lia|]. split; [lia|].
    rewrite <- Z.pow_add_r by lia. replace (b + (a - b)) with a by lia. lia.
  - pose proof (Z.pow_lt_mono_r 2 a b ltac:(lia) ltac:(lia) ltac:(lia)).
    rewrite Z.div_small by lia. simpl. lia.
Qed.

Lemma configured_det_ok pool ibase ilen obase olen :
  1 <= ilen <= 32 → 1 <= olen <= 32 →
  clib_net_to_host_u32 ibase + 2 ^ (32 - ilen) <= 2 ^ 32 →
  clib_net_to_host_u32 obase + 2 ^ (32 - olen) <= 2 ^ 32 →
  0 <= pl_port_range_start pool <= pl_port_range_end pool → is_u16 (pl_port_range_end pool) →
  let dp := det_outside_params (det_inside_params pool ibase ilen) obase olen in
  dp_sharing_ratio dp <= pl_port_range_end pool - pl_port_range_start pool + 1 →
  det_ok dp.
Proof.
  intros Hi Ho Hib Hob Hr Hr2 dp Hratio.
  pose proof (ratio_covers (32 - ilen) (32 - olen) ltac:(lia) ltac:(lia)) as [Hr0 Hcov].
  subst dp. unfold det_outside_params, det_inside_params in *. rsimpl. rsimpl in Hratio.
  rewrite !shift_count in * by lia.
  set (r := if _ =? 0 then 1 else _) in *.
  assert (u32 (pl_port_range_end pool - pl_port_range_start pool + 1) =
          pl_port_range_end pool - pl_port_range_start pool + 1) as Hu by ints.
  pose proof (Z.pow_pos_nonneg 2 (32 - ilen) ltac:(lia) ltac:(lia)).
  rewrite Hu. set (n := pl_port_range_end pool - pl_port_range_start pool + 1) in *.
  assert (0 < n / r) by (apply Z.div_str_pos; lia).
  pose proof (Z.mul_div_le n r ltac:(lia)).
  split; simpl; try done; lia.
Qed.

Lemma forward_eq dp ip :
  det_ok dp → is_u32 ip →
  let off := clib_net_to_host_u32 ip - clib_net_to_host_u32 (dp_inside_base dp) in
  0 <= off < dp_inside_count dp →
  let r := dp_sharing_ratio dp in
  let start := dp_port_range_start dp + dp_ports_per_host dp * (off mod r) in
  cgnat_det_forward dp ip =
    DetOk (clib_net_to_host_u32 (clib_net_to_host_u32 (dp_outside_base dp) + off / r),
           start, start + dp_ports_per_host dp - 1) /\
  dp_port_range_start dp <= start /\ start + dp_ports_per_host dp - 1 <= dp_port_range_end dp /\
  0 <= off / r < dp_outside_count dp.
Proof.
  intros Hok Hip off Hoff r start. destruct Hok.
  pose proof (swap32_range (dp_outside_base dp)) as Hob.
  pose proof (swap32_range (dp_inside_base dp)) as Hib.
  pose proof (Z.mod_pos_bound off r ltac:(lia)) as Hm.
  assert (0 <= off / r) by (apply Z.div_pos; lia).
  assert (off / r < dp_outside_count dp) by (apply Z.div_lt_upper_bound; lia).
  assert (0 <= dp_ports_per_host dp * (off mod r)) by nia.
  assert (dp_ports_per_host dp * (off mod r) + dp_ports_per_host dp
          <= dp_ports_per_host dp * r) by nia.
  unfold cgnat_det_forward. fold off r. unfold is_u32, is_u16 in *.
  assert (u32 off = off) as -> by (apply u32_small; unfold is_u32; lia).
  destruct (Z.leb_spec (dp_inside_count dp) off); [lia|].
  destruct (Z.eqb_spec r 0); [lia|].
  split; [|lia]. f_equal. f_equal; [f_equal|].
  - f_equal. apply u32_small. unfold is_u32. lia.
  - unfold start. clear start. set (b := dp_ports_per_host dp * (off mod r)) in *. clearbody b.
    unfold u16. rewrite !u32_small, Z.mod_small by (unfold is_u32; rewrite ?u32_small; unfold is_u32; lia).
    done.
  - unfold start. clear start. set (b := dp_ports_per_host dp * (off mod r)) in *. clearbody b.
    ints.
Qed.

(** A deterministic mapping can be traced back: once an inside prefix and an
    outside prefix are configured, every inside host of the prefix gets a block of
    [ports_per_host] ports inside the configured range, on an outside address of
    the prefix, and the reverse lookup of any port of the block names that host and
    no other, so no port of an address belongs to two hosts. *)
Theorem det_mapping_reversible pool ibase ilen obase olen ip :
  1 <= ilen <= 32 → 1 <= olen <= 32 →
  clib_net_to_host_u32 ibase + 2 ^ (32 - ilen) <= 2 ^ 32 →
  clib_net_to_host_u32 obase + 2 ^ (32 - olen) <= 2 ^ 32 →
  0 <= pl_port_range_start pool <= pl_port_range_end pool → is_u16 (pl_port_range_end pool) →
  let dp := det_outside_params (det_inside_params pool ibase ilen) obase olen in
  dp_sharing_ratio dp <= pl_port_range_end pool - pl_port_range_start pool + 1 →
  is_u32 ip →
  0 <= clib_net_to_host_u32 ip - clib_net_to_host_u32 ibase < 2 ^ (32 - ilen) →
  exists outside first last,
    cgnat_det_forward dp ip = DetOk (outside, first, last) /\
    last = first + dp_ports_per_host dp - 1 /\ first <= last /\
    pl_port_range_start pool <= first /\ last <= pl_port_range_end pool /\
    covers_outside dp outside = true /\
    ∀ port, first <= port <= last → cgnat_det_reverse dp outside port = DetOk ip.
Proof.
  intros Hi Ho Hib Hob Hr Hr2 dp Hratio Hip Hoff.
  assert (det_ok dp) as Hok by (by apply configured_det_ok).
  assert (dp_inside_base dp = ibase /\ dp_inside_count dp = 2 ^ (32 - ilen) /\
          dp_port_range_start dp = pl_port_range_start pool /\
          dp_port_range_end dp = pl_port_range_end pool) as (Eb & Ec & Es & Ee).
  { repeat split. by apply shift_count. }
  clearbody dp. rewrite <- Eb, <- Ec in Hoff. rewrite <- Es, <- Ee in *.
  destruct (forward_eq dp ip Hok Hip Hoff) as (-> & Hs & He & Hq).
  set (off := clib_net_to_host_u32 ip - _) in *. set (r := dp_sharing_ratio dp) in *.
  pose proof (swap32_range (dp_outside_base dp)) as Hor.
  pose proof (swap32_range (dp_inside_base dp)) as Hir. destruct Hok.
  eexists _, _, _. split; [reflexivity|]. unfold is_u32 in *.
  assert (clib_net_to_host_u32
            (clib_net_to_host_u32 (clib_net_to_host_u32 (dp_outside_base dp) + off / r)) -
          clib_net_to_host_u32 (dp_outside_base dp) = off / r) as Eo.
  { rewrite swap32_involutive by (unfold is_u32; lia). lia. }
  split_and!; try lia.
  { unfold covers_outside. rewrite Eo, u32_small by (unfold is_u32; lia). lia. }
  intros port Hp. unfold cgnat_det_reverse. rewrite Eo, u32_small by (unfold is_u32; lia).
  destruct (Z.leb_spec (dp_outside_count dp) (off / r)); [lia|].
  destruct (Z.ltb_spec port (dp_port_range_start dp)); [lia|].
  destruct (Z.ltb_spec (dp_port_range_end dp) port); [lia|]. simpl.
  destruct (Z.eqb_spec (dp_ports_per_host dp) 0); [lia|].
  assert ((port - dp_port_range_start dp) / dp_ports_per_host dp = off mod r) as ->.
  { symmetry. eapply Z.div_unique_pos; [|]; cycle 1.
    - instantiate (1 := port - dp_port_range_start dp - dp_ports_per_host dp * (off mod r)). lia.
    - lia. }
  fold r. replace (off / r * r + off mod r) with off by (pose proof (Z.div_mod off r ltac:(lia)); lia).
  rewrite (u32_small off) by (unfold is_u32; lia).
  destruct (Z.leb_spec (dp_inside_count dp) off); [lia|].
  replace (clib_net_to_host_u32 (dp_inside_base dp) + off) with (clib_net_to_host_u32 ip)
    by (unfold off; lia).
  rewrite u32_small by (apply swap32_range). by rewrite swap32_involutive.
Qed.

(** A pool of ports 1024-65535: 10.0.0.0/18 behind 192.0.2.0/29, 2048 hosts an
    address, 31 ports a host. *)
Definition sample_det_pool : cgnat_pool_t :=
  mkPool 1 CGNAT_POOL_MODE_DETERMINISTIC CGNAT_ADDRESS_POOLING_PAIRED
    CGNAT_FILTERING_ENDPOINT_INDEPENDENT 512 1 1000 1024 65535 120 0 [7200; 240; 300; 60; 120]
    0 0 true [] [] false [] [] [].
Definition sample_inside : Z := 10.
Definition sample_outside : Z := 192 + 2 * 65536.
Definition sample_dp : cgnat_det_params_t :=
  det_outside_params (det_inside_params sample_det_pool sample_inside 18) sample_outside 29.

Lemma det_mapping_reversible_witness :
  exists outside first last,
    cgnat_det_forward sample_dp (sample_inside + 256 * 256 * 256 * 7) =
      DetOk (outside, first, last) /\
    last = first + dp_ports_per_host sample_dp - 1 /\ first <= last /\
    pl_port_range_start sample_det_pool <= first /\ last <= pl_port_range_end sample_det_pool /\
    covers_outside sample_dp outside = true /\
    ∀ port, first <= port <= last →
      cgnat_det_reverse sample_dp outside port = DetOk (sample_inside + 256 * 256 * 256 * 7).
Proof.
  apply (det_mapping_reversible sample_det_pool sample_inside 18 sample_outside 29);
    vm_compute; repeat split; discriminate.
Defined.

(** Parameters are unusable until the outside address is configured: between
    adding an inside prefix and adding an outside address the sharing ratio is 0,
    and mapping any host of the prefix divides by it. *)
Theorem det_forward_traps_without_outside pool base len ip :
  1 <= len <= 32 →
  0 <= clib_net_to_host_u32 ip - clib_net_to_host_u32 base < 2 ^ (32 - len) →
  cgnat_det_forward (det_inside_params pool base len) ip = DetTrap.
Proof.
  intros Hl Hoff. unfold cgnat_det_forward, det_inside_params. simpl.
  rewrite shift_count by done.
  pose proof (swap32_range ip). pose proof (swap32_range base). unfold is_u32 in *.
  rewrite u32_small by (unfold is_u32; lia).
  destruct (Z.leb_spec (2 ^ (32 - len)) (clib_net_to_host_u32 ip - clib_net_to_host_u32 base));
    [lia|done].
Qed.

Lemma det_forward_traps_without_outside_witness :
  cgnat_det_forward (det_inside_params sample_det_pool sample_inside 18)
    (sample_inside + 256 * 256 * 256 * 7) = DetTrap.
Proof.
  apply det_forward_traps_without_outside; vm_compute; repeat split; discriminate.
Defined.

(** The ports left over by the division are not refused by the reverse lookup: they
    name a host of the next outside address. *)
Lemma det_reverse_spills :
  cgnat_det_reverse sample_dp sample_outside (1024 + 31 * 2048) =
  cgnat_det_reverse sample_dp (sample_outside + 256 * 256 * 256) 1024.
Proof. vm_compute. reflexivity. Qed.
