(* ===== verification/CgnatSession.v ===== *)
(** The session table: [osvbng_cgnat_session.c].

    A session is named by its pool index.  The index a pool allocation returns is an
    argument.  [None] at the outside of a result means the code would touch a pool
    entry that is not there; the theorems show it does not happen.  Locks are left
    out: each operation is one step. *)

From S2P Require Import Prelude Dll CgnatTypes.

Section Session.

Context `{NatVpp}.

(** ** Keys and lookups *)

Definition cgnat_session_make_key (src_ip dst_ip src_port dst_port proto fib_index : Z)
    : cgnat_session_key_t := (src_ip, dst_ip, src_port, dst_port, proto, u16 fib_index).

Definition cgnat_frag_make_key (saddr daddr proto fib_index : Z) : cgnat_session_key_t :=
  (saddr, daddr, 0, 0, proto, u16 fib_index).

(** The key a flow record is installed under. *)
Definition flow_key (f : cgnat_flow_t) : cgnat_session_key_t :=
  cgnat_session_make_key (nf_saddr f) (nf_daddr f) (nf_sport f) (nf_dport f) (nf_proto f)
    (nf_fib_index f).

Definition cgnat_frag_rewrite_lookup (cm : cgnat_main_t) (saddr daddr proto fib_index : Z)
    : option (Z * cgnat_frag_rewrite_t) :=
  fi ← cg_frag_aux cm !! cgnat_frag_make_key saddr daddr proto fib_index;
  r ← cg_frag_rewrite_pool cm !! fi;
  Some (fi, r).

Definition cgnat_session_lookup_in2out (cm : cgnat_main_t)
    (src_ip dst_ip src_port dst_port proto fib_index : Z) : option (Z * cgnat_session_t) :=
  si ← cg_session_table_in2out cm !!
         cgnat_session_make_key src_ip dst_ip src_port dst_port proto fib_index;
  s ← cg_sessions cm !! si;
  Some (si, s).

Definition cgnat_session_lookup_out2in (cm : cgnat_main_t)
    (dst_ip src_ip dst_port src_port proto fib_index : Z) : option (Z * cgnat_session_t) :=
  si ← cg_session_table_out2in cm !!
         cgnat_session_make_key dst_ip src_ip dst_port src_port proto fib_index;
  s ← cg_sessions cm !! si;
  Some (si, s).

(** ** Fragment rewrite records *)

(** The two keys a record is installed under. *)
Definition frag_key_in (r : cgnat_frag_rewrite_t) (remote_ip proto : Z) : cgnat_session_key_t :=
  cgnat_frag_make_key (fr_inside_ip r) remote_ip proto (fr_inside_fib_index r).
Definition frag_key_out (r : cgnat_frag_rewrite_t) (remote_ip proto : Z) : cgnat_session_key_t :=
  cgnat_frag_make_key remote_ip (fr_outside_ip r) proto (fr_outside_fib_index r).

(** [old - new], in the sign VPP applies with [ip_csum_add_even]. *)
Definition addr_delta (old new : Z) : Z := ip_csum_add_even (ip_csum_sub_even 0 new) old.

(** [fi] is the slot [pool_get_zero] returns.  The pool is of fixed size and the call
    is not guarded: in a full pool it is a fault. *)
Definition cgnat_frag_rewrite_acquire (cm : cgnat_main_t) (fi inside_ip outside_ip remote_ip
    proto inside_fib outside_fib : Z) : option (cgnat_main_t * Z) :=
  match cgnat_frag_rewrite_lookup cm inside_ip remote_ip proto inside_fib with
  | Some (i, _) =>
      Some (cm⟪cg_frag_rewrite_pool ::= alter (λ r, r⟪fr_refcount ::= λ n, u32 (n + 1)⟫) i⟫, i)
  | None =>
      if CGNAT_MAX_FRAG_REWRITES <=? Z.of_nat (size (cg_frag_rewrite_pool cm)) then None
      else
        let r := mkFragRewrite (addr_delta inside_ip outside_ip) (addr_delta outside_ip inside_ip)
                   inside_ip outside_ip inside_fib outside_fib 1 in
        Some (cm⟪cg_frag_rewrite_pool ::= insert fi r⟫
                ⟪cg_frag_aux ::= λ t, <[frag_key_out r remote_ip proto := fi]>
                                        (<[frag_key_in r remote_ip proto := fi]> t)⟫, fi)
  end.

Definition cgnat_frag_rewrite_release (cm : cgnat_main_t) (fi remote_ip proto : Z)
    : cgnat_main_t :=
  match cg_frag_rewrite_pool cm !! fi with
  | None => cm
  | Some r =>
      if 1 <? fr_refcount r
      then cm⟪cg_frag_rewrite_pool ::= insert fi (r⟪fr_refcount ::= λ n, u32 (n - 1)⟫)⟫
      else
        cm⟪cg_frag_aux ::= λ t, delete (frag_key_out r remote_ip proto)
                                  (delete (frag_key_in r remote_ip proto) t)⟫
          ⟪cg_frag_rewrite_pool ::= delete fi⟫
  end.

(** ** Ports *)

(** Two minutes of cooldown, whatever the pool's [port_reuse_timeout] is. *)
Definition PORT_COOLDOWN : Z := sec 120.

Definition port_cooling (m : cgnat_mapping_t) (port now : Z) : bool :=
  match mp_port_reuse_timestamps m !! Z.to_nat (u32 (port - mp_port_block_start m)) with
  | Some ts => (0 <? ts) && (now - ts <? PORT_COOLDOWN)
  | None => false
  end.

(** The successor of a port in the block, computed in 32 bits. *)
Definition advance_port (m : cgnat_mapping_t) : Z :=
  let next := u32 (mp_next_port m + 1) in
  u16 (if mp_port_block_end m <? next then mp_port_block_start m else next).

Fixpoint port_scan (attempts : nat) (m : cgnat_mapping_t) (now : Z) : cgnat_mapping_t * Z :=
  match attempts with
  | O => (m, 0)
  | S attempts =>
      let port := mp_next_port m in
      let m := m⟪mp_next_port := advance_port m⟫ in
      if port_cooling m port now then port_scan attempts m now else (m, port)
  end.

Definition block_size (m : cgnat_mapping_t) : Z :=
  u32 (mp_port_block_end m - mp_port_block_start m + 1).

(** The mapping and the port, 0 when every port is cooling down. *)
Definition cgnat_port_alloc (m : cgnat_mapping_t) (now : Z) : cgnat_mapping_t * Z :=
  port_scan (Z.to_nat (block_size m)) m now.

(** The write is dropped when the offset is beyond the vector, as [<[_:=_]>] does. *)
Definition cgnat_port_free (m : cgnat_mapping_t) (port now : Z) : cgnat_mapping_t :=
  m⟪mp_port_reuse_timestamps ::=
      <[Z.to_nat (u32 (port - mp_port_block_start m)) := now]>⟫.

(** ** Creating a session *)

Definition cgnat_flow_csum_calc (old_addr new_addr old_port new_port : Z) (is_l4_pseudohdr : bool)
    (f : cgnat_flow_t) : cgnat_flow_t :=
  let l3 := ip_csum_add_even (ip_csum_sub_even 0 new_addr) old_addr in
  let l4 := if is_l4_pseudohdr then l3 else 0 in
  let l4 := ip_csum_add_even (ip_csum_sub_even l4 new_port) old_port in
  f⟪nf_l3_csum_delta := l3⟫⟪nf_l4_csum_delta := l4⟫.

(** The two flow records of a session, before it is linked anywhere. *)
Definition i2o_flow (m : cgnat_mapping_t) (remote_ip remote_port proto outside_port_n inside_port
    out_fib : Z) (is_pseudo : bool) : cgnat_flow_t :=
  let dport := if proto =? IP_PROTOCOL_ICMP then inside_port else remote_port in
  cgnat_flow_csum_calc (mp_inside_ip m) (mp_outside_ip m) inside_port outside_port_n is_pseudo
    (mkNatFlow 0 0 (mp_inside_ip m) remote_ip (mp_outside_ip m) remote_ip
       (mp_inside_fib_index m) out_fib inside_port dport outside_port_n dport proto).

Definition o2i_flow (m : cgnat_mapping_t) (remote_ip remote_port proto outside_port_n inside_port
    out_fib : Z) (is_pseudo : bool) : cgnat_flow_t :=
  let dport := if proto =? IP_PROTOCOL_ICMP then outside_port_n else remote_port in
  cgnat_flow_csum_calc (mp_outside_ip m) (mp_inside_ip m) outside_port_n inside_port is_pseudo
    (mkNatFlow 0 0 (mp_outside_ip m) remote_ip (mp_outside_ip m) (mp_inside_ip m)
       out_fib (mp_inside_fib_index m) outside_port_n dport outside_port_n inside_port proto).

(** Installing a session: both tables, and the head of its mapping's list. *)
Definition install_session (si mi : Z) (m : cgnat_mapping_t) (s : cgnat_session_t)
    (cm : cgnat_main_t) : cgnat_main_t :=
  let s := s⟪ss_mapping_prev := None⟫⟪ss_mapping_next := mp_sessions_head m⟫ in
  let sessions := <[si := s]> (cg_sessions cm) in
  let sessions :=
    match mp_sessions_head m with
    | Some j => alter (λ x, x⟪ss_mapping_prev := Some si⟫) j sessions
    | None => sessions
    end in
  cm⟪cg_session_table_in2out ::= insert (flow_key (ss_i2o s)) si⟫
    ⟪cg_session_table_out2in ::= insert (flow_key (ss_o2i s)) si⟫
    ⟪cg_sessions := sessions⟫
    ⟪cg_mappings ::= insert mi (m⟪mp_sessions_head := Some si⟫)⟫.

(** [si] and [fi] are the slots the two pools return.  The inner [None] is the NULL
    return: the subscriber's limit, or the table's. *)
Definition cgnat_session_create (cm : cgnat_main_t) (si fi mi remote_ip remote_port proto
    outside_port inside_port now : Z) : option (cgnat_main_t * option Z) :=
  m ← cg_mappings cm !! mi;
  pool ← cg_pools cm !! mp_pool_index m;
  if pl_max_sessions_per_sub pool <=? mp_session_count m then Some (cm, None)
  else if CGNAT_MAX_SESSIONS <=? Z.of_nat (size (cg_sessions cm)) then
    (* the reserved slot of the subscriber is given back *)
    Some (cm, None)
  else
    let m := m⟪mp_session_count ::= λ n, u32 (n + 1)⟫ in
    let outside_port_n := clib_net_to_host_u16 outside_port in
    let out_fib := if pl_outside_fib_valid pool then pl_outside_fib_index pool else 0 in
    let is_pseudo := (proto =? IP_PROTOCOL_TCP) || (proto =? IP_PROTOCOL_UDP) in
    let timeout :=
      if proto =? IP_PROTOCOL_TCP
      then cgnat_session_timeout_for_tcp pool CGNAT_TCP_STATE_CLOSED
      else cgnat_session_timeout pool (cgnat_proto_from_ip proto) in
    '(cm, frag) ←
      cgnat_frag_rewrite_acquire cm fi (mp_inside_ip m) (mp_outside_ip m) remote_ip proto
        (mp_inside_fib_index m) out_fib;
    let s :=
      mkSession
        (i2o_flow m remote_ip remote_port proto outside_port_n inside_port out_fib is_pseudo)
        CGNAT_TCP_STATE_CLOSED
        (o2i_flow m remote_ip remote_port proto outside_port_n inside_port out_fib is_pseudo)
        mi (mp_pool_index m) now 0 0 timeout frag None None 0 0 in
    Some (install_session si mi m s cm, Some si).

(** ** Deleting a session *)

(** Taking a session off its mapping's list and freeing its slot. *)
Definition unlink_session (si mi : Z) (m : cgnat_mapping_t) (s : cgnat_session_t)
    (cm : cgnat_main_t) : cgnat_main_t :=
  let '(sessions, m) :=
    match ss_mapping_prev s with
    | Some p => (alter (λ x, x⟪ss_mapping_next := ss_mapping_next s⟫) p (cg_sessions cm), m)
    | None => (cg_sessions cm, m⟪mp_sessions_head := ss_mapping_next s⟫)
    end in
  let sessions :=
    match ss_mapping_next s with
    | Some n => alter (λ x, x⟪ss_mapping_prev := ss_mapping_prev s⟫) n sessions
    | None => sessions
    end in
  cm⟪cg_sessions := delete si sessions⟫⟪cg_mappings ::= insert mi m⟫.

(** [now] is [vlib_time_now]. *)
Definition cgnat_session_delete (cm : cgnat_main_t) (si now : Z) : option cgnat_main_t :=
  s ← cg_sessions cm !! si;
  m ← cg_mappings cm !! ss_mapping_index s;
  let cm := cm⟪cg_session_table_in2out ::= delete (flow_key (ss_i2o s))⟫
              ⟪cg_session_table_out2in ::= delete (flow_key (ss_o2i s))⟫ in
  let m := if cgnat_is_unk_proto (nf_proto (ss_i2o s)) then m
           else cgnat_port_free m (clib_net_to_host_u16 (nf_rewrite_sport (ss_i2o s))) now in
  let cm := cgnat_frag_rewrite_release cm (ss_frag_rewrite_index s) (nf_daddr (ss_i2o s))
              (nf_proto (ss_i2o s)) in
  let m := if 0 <? mp_session_count m then m⟪mp_session_count ::= λ n, u32 (n - 1)⟫ else m in
  Some (unlink_session si (ss_mapping_index s) m s cm).

(** ** Expiry *)

Definition session_expired (now : Z) (s : cgnat_session_t) : bool :=
  ss_timeout s <? now - ss_last_active s.

(** The walk over the in2out table: the sessions to reap. *)
Definition cgnat_expire_walk_cb (cm : cgnat_main_t) (now : Z) (si : Z) : bool :=
  match cg_sessions cm !! si with
  | None => false
  | Some s => session_expired now s
  end.

Definition expired_sessions (cm : cgnat_main_t) (now : Z) : list Z :=
  filter (λ si, cgnat_expire_walk_cb cm now si = true)
    (map snd (map_to_list (cg_session_table_in2out cm))).

Definition reap (now : Z) (cm : cgnat_main_t) (si : Z) : option cgnat_main_t :=
  match cg_sessions cm !! si with
  | None => Some cm
  | Some _ => cgnat_session_delete cm si now
  end.

(** Deleting a list of sessions in turn, skipping the ones already gone. *)
Fixpoint reap_all (now : Z) (cm : cgnat_main_t) (l : list Z) : option cgnat_main_t :=
  match l with
  | [] => Some cm
  | si :: l => cm ← reap now cm si; reap_all now cm l
  end.

Definition cgnat_session_expire_walk (cm : cgnat_main_t) (now : Z) : option cgnat_main_t :=
  reap_all now cm (expired_sessions cm now).

End Session.

(** * Ports of a mapping *)

(** A port block is a range, its cursor is in it, and every port has a timestamp. *)
Record mapping_ok (m : cgnat_mapping_t) : Prop := {
  mo_start : 0 <= mp_port_block_start m;
  mo_next : mp_port_block_start m <= mp_next_port m <= mp_port_block_end m;
  mo_end : mp_port_block_end m < 2 ^ 16;
  mo_stamps : Z.of_nat (length (mp_port_reuse_timestamps m)) =
              mp_port_block_end m - mp_port_block_start m + 1
}.

(** What of a mapping its sessions and the tables depend on. *)
Definition mapping_id (m : cgnat_mapping_t) :=
  (mp_inside_ip m, mp_outside_ip m, mp_inside_fib_index m, mp_port_block_start m,
   mp_port_block_end m, mp_pool_index m, mp_sw_if_index m).

(** The [k]-th port the scan looks at: the cursor, then onwards round the block. *)
Definition nth_port (m : cgnat_mapping_t) (k : Z) : Z :=
  mp_port_block_start m + (mp_next_port m - mp_port_block_start m + k) mod block_size m.

Lemma block_size_eq m :
  mapping_ok m → block_size m = mp_port_block_end m - mp_port_block_start m + 1.
Proof. intros []. unfold block_size. apply u32_small. unfold is_u32. lia. Qed.

Lemma nth_port_0 m : mapping_ok m → nth_port m 0 = mp_next_port m.
Proof.
  intros Hok. unfold nth_port. rewrite block_size_eq by done. destruct Hok.
  rewrite Z.mod_small; lia.
Qed.

Lemma nth_port_block m k :
  mapping_ok m → mp_port_block_start m <= nth_port m k <= mp_port_block_end m.
Proof.
  intros Hok. unfold nth_port. rewrite block_size_eq by done. destruct Hok.
  pose proof (Z.mod_pos_bound (mp_next_port m - mp_port_block_start m + k)
    (mp_port_block_end m - mp_port_block_start m + 1)). lia.
Qed.

Lemma nth_port_surj m q :
  mapping_ok m → mp_port_block_start m <= q <= mp_port_block_end m →
  exists k, 0 <= k < block_size m /\ nth_port m k = q.
Proof.
  intros Hok Hq. exists ((q - mp_next_port m) mod block_size m).
  unfold nth_port. rewrite block_size_eq by done. destruct Hok.
  split; [apply Z.mod_pos_bound; lia|]. rewrite Zplus_mod_idemp_r, Z.mod_small; lia.
Qed.

Lemma advance_ok m :
  mapping_ok m →
  let m' := m⟪mp_next_port := advance_port m⟫ in
  mapping_ok m' /\ ∀ k, nth_port m' k = nth_port m (k + 1).
Proof.
  intros Hok m'. pose proof (block_size_eq m Hok) as Hb. destruct Hok.
  assert (u32 (mp_next_port m + 1) = mp_next_port m + 1) as Hu
    by (apply u32_small; unfold is_u32; lia).
  assert (advance_port m = if mp_port_block_end m <? mp_next_port m + 1
                           then mp_port_block_start m else mp_next_port m + 1) as Ha.
  { unfold advance_port. rewrite Hu. unfold u16. zcases; apply Z.mod_small; lia. }
  subst m'. split.
  - split; rsimpl; try done. rewrite Ha. zcases; lia.
  - intros k. unfold nth_port. rproj. change (block_size _) with (block_size m) at 1. f_equal.
    rewrite Ha, Hb. destruct (Z.ltb_spec (mp_port_block_end m) (mp_next_port m + 1)).
    + replace (mp_next_port m) with (mp_port_block_end m) by lia.
      set (n := mp_port_block_end m - mp_port_block_start m + 1).
      replace (mp_port_block_end m - mp_port_block_start m + (k + 1)) with (k + 1 * n) by lia.
      rewrite Z.mod_add by lia. f_equal. lia.
    + f_equal. lia.
Qed.

(** The scan stops at the first port that is not cooling down. *)
Lemma port_scan_spec n m now m' p :
  mapping_ok m → port_scan n m now = (m', p) →
  exists k, 0 <= k <= Z.of_nat n /\
    (∀ j, 0 <= j < k → port_cooling m (nth_port m j) now = true) /\
    ((k = Z.of_nat n /\ p = 0) \/
     (k < Z.of_nat n /\ p = nth_port m k /\ port_cooling m p now = false)) /\
    (exists q, m' = m⟪mp_next_port := q⟫) /\ mapping_ok m'.
Proof.
  revert m. induction n as [|n IH]; intros m Hok; cbn [port_scan].
  - intros [= <- <-]. exists 0. split; [lia|]. split; [lia|]. split; [by left|].
    split; [|done]. exists (mp_next_port m). by destruct m.
  - destruct (advance_ok m Hok) as [Hok1 Hn]. set (m1 := m⟪mp_next_port := advance_port m⟫) in *.
    assert (∀ q, port_cooling m1 q now = port_cooling m q now) as Hc by done.
    rewrite Hc, <- (nth_port_0 m Hok).
    destruct (port_cooling m (nth_port m 0) now) eqn:E.
    + intros Hs. destruct (IH m1 Hok1 Hs) as (k & Hk & Hall & Hp & (q & ->) & Hok').
      exists (k + 1). split; [lia|]. split.
      { intros j Hj. destruct (decide (j = 0)) as [->|]; [done|].
        replace j with ((j - 1) + 1) by lia. rewrite <- Hn, <- Hc. apply Hall. lia. }
      split; [|split; [by exists q|done]].
      destruct Hp as [[-> ->]|(Hlt & -> & Hf)]; [left; lia|right].
      rewrite <- Hn. split; [lia|]. by rewrite <- Hc.
    + intros [= <- <-]. exists 0. split; [lia|]. split; [lia|].
      split; [right; split; [lia|done]|]. split; [by exists (advance_port m)|done].
Qed.

Lemma port_alloc_mapping m now m' p :
  mapping_ok m → cgnat_port_alloc m now = (m', p) →
  mapping_ok m' /\ mapping_id m' = mapping_id m /\ mp_sessions_head m' = mp_sessions_head m /\
  mp_session_count m' = mp_session_count m /\
  (p = 0 \/ mp_port_block_start m <= p <= mp_port_block_end m).
Proof.
  intros Hok Ha. destruct (port_scan_spec _ _ _ _ _ Hok Ha)
    as (k & _ & _ & Hp & (q & ->) & Hok'). split_and!; try done.
  destruct Hp as [[_ ->]|(_ & -> & _)]; [by left|right]. by apply nth_port_block.
Qed.

(** Port allocation: the port is the first one of the mapping's block, in
    cyclic order from the cursor, that was not released in the last two minutes;
    it fails only when every port of the block was.  The cursor stays in the block,
    also when the block ends at 65535. *)
Theorem port_alloc_first_free m now m' p :
  mapping_ok m → cgnat_port_alloc m now = (m', p) →
  mp_port_block_start m <= mp_next_port m' <= mp_port_block_end m /\
  ((p = 0 /\ ∀ q, mp_port_block_start m <= q <= mp_port_block_end m →
                  port_cooling m q now = true) \/
   (exists k, 0 <= k < block_size m /\ p = nth_port m k /\
      mp_port_block_start m <= p <= mp_port_block_end m /\ port_cooling m p now = false /\
      ∀ j, 0 <= j < k → port_cooling m (nth_port m j) now = true)).
Proof.
  intros Hok Ha. pose proof (block_size_eq m Hok) as Hb.
  destruct (port_scan_spec _ _ _ _ _ Hok Ha) as (k & Hk & Hall & Hp & (q & ->) & Hok').
  split; [by destruct Hok'|]. assert (0 <= block_size m) by (destruct Hok; lia).
  rewrite Z2Nat.id in * by done. destruct Hp as [[-> ->]|(Hlt & -> & Hf)].
  - left. split; [done|]. intros r Hr. destruct (nth_port_surj m r Hok Hr) as (j & Hj & <-).
    by apply Hall.
  - right. exists k. split_and!; try done; [lia|by apply nth_port_block..].
Qed.

(** A block of four ports at the top of the range, two of them cooling down. *)
Definition sample_block : cgnat_mapping_t :=
  mkMapping 10 20 0 1 65532 65535 0 3 65535 0 None [sec 95; 0; 0; sec 90].

Lemma port_alloc_first_free_witness :
  mp_port_block_start sample_block <= mp_next_port (fst (cgnat_port_alloc sample_block (sec 100)))
    <= mp_port_block_end sample_block /\
  ((65533 = 0 /\ ∀ q, mp_port_block_start sample_block <= q <= mp_port_block_end sample_block →
                     port_cooling sample_block q (sec 100) = true) \/
   (exists k, 0 <= k < block_size sample_block /\ 65533 = nth_port sample_block k /\
      mp_port_block_start sample_block <= 65533 <= mp_port_block_end sample_block /\
      port_cooling sample_block 65533 (sec 100) = false /\
      ∀ j, 0 <= j < k → port_cooling sample_block (nth_port sample_block j) (sec 100) = true)).
Proof.
  apply (port_alloc_first_free sample_block (sec 100) _ 65533).
  - split; vm_compute; repeat split; discriminate.
  - vm_compute. reflexivity.
Defined.
