(* ===== verification/CgnatInv.v ===== *)
(** The invariant of the session table and its preservation.

    The tables, the per-mapping lists, the counts and the fragment records must stay
    consistent, or a later delete touches freed entries.  [nat_ok] says so; creating
    and deleting a session keep it, and so does everything built of them. *)

From S2P Require Import Prelude Dll CgnatTypes CgnatSession.

(** ** Sessions without their links *)

Definition erase (s : cgnat_session_t) : cgnat_session_t :=
  s⟪ss_mapping_next := None⟫⟪ss_mapping_prev := None⟫.

Definition esess (cm : cgnat_main_t) : gmap Z cgnat_session_t := erase <$> cg_sessions cm.

Lemma erase_set_next v s : erase (nd_set_next v s) = erase s.
Proof. done. Qed.

Lemma erase_set_prev v s : erase (nd_set_prev v s) = erase s.
Proof. done. Qed.

Lemma fmap_alter_erase (f : cgnat_session_t → cgnat_session_t) i (m : gmap Z cgnat_session_t) :
  (∀ s, erase (f s) = erase s) → erase <$> alter f i m = erase <$> m.
Proof.
  intros Hf. apply map_eq. intros k. rewrite !lookup_fmap.
  destruct (decide (i = k)) as [->|].
  - rewrite lookup_alter_eq. destruct (m !! k) as [s|]; simpl; [|done]. by rewrite Hf.
  - by rewrite lookup_alter_ne.
Qed.

Lemma erase_index s s' : erase s = erase s' → ss_mapping_index s = ss_mapping_index s'.
Proof. intros He. exact (f_equal ss_mapping_index He). Qed.

Lemma erase_lookup (a b : option cgnat_session_t) s :
  erase <$> a = erase <$> b → a = Some s →
  exists s', b = Some s' /\ ss_mapping_index s' = ss_mapping_index s.
Proof.
  intros He ->. destruct b as [s'|]; [|done]. apply (inj Some) in He.
  exists s'. split; [done|]. symmetry. by apply erase_index.
Qed.

Lemma size_esess cm : size (esess cm) = size (cg_sessions cm).
Proof. apply map_size_fmap. Qed.

Lemma esess_lookup cm si s :
  cg_sessions cm !! si = Some s → esess cm !! si = Some (erase s).
Proof. intros Hs. unfold esess. by rewrite lookup_fmap, Hs. Qed.

Lemma esess_lookup_inv cm si e :
  esess cm !! si = Some e → exists s, cg_sessions cm !! si = Some s /\ e = erase s.
Proof.
  unfold esess. rewrite lookup_fmap. destruct (cg_sessions cm !! si) as [s|]; simpl; [|done].
  intros [= <-]. eauto.
Qed.

(** ** The two session tables *)

Section Tables.

Implicit Types (E : gmap Z cgnat_session_t) (T : gmap cgnat_session_key_t Z).

(** The in2out table is exactly the keys of the sessions; the out2in table, where a
    shared outside port can hide a session, only never points elsewhere. *)
Definition in2out_ok E T : Prop :=
  ∀ k si, T !! k = Some si <-> exists s, E !! si = Some s /\ flow_key (ss_i2o s) = k.
Definition out2in_ok E T : Prop :=
  ∀ k si, T !! k = Some si → exists s, E !! si = Some s /\ flow_key (ss_o2i s) = k.

Lemma in2out_insert E T si s :
  in2out_ok E T → E !! si = None → T !! flow_key (ss_i2o s) = None →
  in2out_ok (<[si := s]> E) (<[flow_key (ss_i2o s) := si]> T).
Proof.
  intros Hok Hsi Hk k sj. destruct (decide (k = flow_key (ss_i2o s))) as [->|Hne].
  - rewrite lookup_insert_eq. split.
    + intros [= <-]. exists s. by rewrite lookup_insert_eq.
    + intros (s' & Hs' & He). destruct (decide (sj = si)) as [->|]; [done|].
      rewrite lookup_insert_ne in Hs' by done.
      assert (T !! flow_key (ss_i2o s) = Some sj) by (apply Hok; eauto). congruence.
  - rewrite lookup_insert_ne by done. rewrite (Hok k sj).
    split; intros (s' & Hs' & He); exists s'.
    + rewrite lookup_insert_ne by congruence. done.
    + destruct (decide (sj = si)) as [->|]; [|by rewrite lookup_insert_ne in Hs'].
      rewrite lookup_insert_eq in Hs'. by simplify_eq.
Qed.

Lemma in2out_delete E T si s :
  in2out_ok E T → E !! si = Some s →
  in2out_ok (delete si E) (delete (flow_key (ss_i2o s)) T).
Proof.
  intros Hok Hs k sj.
  assert (T !! flow_key (ss_i2o s) = Some si) as Hk by (apply Hok; eauto).
  destruct (decide (k = flow_key (ss_i2o s))) as [->|Hne].
  - rewrite lookup_delete_eq. split; [done|]. intros (s' & Hs' & He).
    apply lookup_delete_Some in Hs' as [Hne Hs'].
    assert (T !! flow_key (ss_i2o s) = Some sj) by (apply Hok; eauto). congruence.
  - rewrite lookup_delete_ne by done. rewrite (Hok k sj).
    split; intros (s' & Hs' & He); exists s'.
    + rewrite lookup_delete_ne; [done|]. intros ->. congruence.
    + apply lookup_delete_Some in Hs' as [_ Hs']. done.
Qed.

Lemma out2in_insert E T si s :
  out2in_ok E T → E !! si = None →
  out2in_ok (<[si := s]> E) (<[flow_key (ss_o2i s) := si]> T).
Proof.
  intros Hok Hsi k sj [[<- <-]|[Hne Hk]]%lookup_insert_Some.
  - exists s. by rewrite lookup_insert_eq.
  - destruct (Hok k sj Hk) as (s' & Hs' & He). exists s'.
    rewrite lookup_insert_ne by congruence. done.
Qed.

Lemma out2in_delete E T si s :
  out2in_ok E T → E !! si = Some s →
  out2in_ok (delete si E) (delete (flow_key (ss_o2i s)) T).
Proof.
  intros Hok Hs k sj [Hne Hk]%lookup_delete_Some.
  destruct (Hok k sj Hk) as (s' & Hs' & He). exists s'.
  rewrite lookup_delete_ne; [done|]. intros ->. congruence.
Qed.

End Tables.

(** ** Fragment records *)

Section Frag.

Context `{NatVpp}.
(** The low halves of the FIB indices subscribers are in; the outside FIBs are
    others.  Fragment keys do not say which side they are for, so a deployment that
    puts both sides in one FIB is outside the invariant. *)
Context (I : gset Z).
Implicit Types (E : gmap Z cgnat_session_t).

Definition uses (fi : Z) (s : cgnat_session_t) : Z :=
  if ss_frag_rewrite_index s =? fi then 1 else 0.

(** A record is shared by the sessions of one (remote, protocol) pair and counts
    them; no key leads to a record that is gone, or that it does not belong to. *)
Record record_ok E (cm : cgnat_main_t) (fi : Z) (r : cgnat_frag_rewrite_t)
    (remote proto : Z) : Prop := {
  rec_count : fr_refcount r = msum (uses fi) E;
  rec_used : 0 < fr_refcount r;
  rec_peers : ∀ si s, E !! si = Some s → ss_frag_rewrite_index s = fi →
    nf_daddr (ss_i2o s) = remote /\ nf_proto (ss_i2o s) = proto;
  rec_keys : ∀ k, cg_frag_aux cm !! k = Some fi →
    k = frag_key_in r remote proto \/ k = frag_key_out r remote proto;
  rec_inside : u16 (fr_inside_fib_index r) ∈ I;
  rec_outside : u16 (fr_outside_fib_index r) ∉ I
}.

Record frag_ok E (cm : cgnat_main_t) : Prop := {
  frag_records : ∀ fi r, cg_frag_rewrite_pool cm !! fi = Some r →
    exists remote proto, record_ok E cm fi r remote proto;
  frag_live : ∀ si s, E !! si = Some s →
    is_Some (cg_frag_rewrite_pool cm !! ss_frag_rewrite_index s);
  frag_aux_live : ∀ k fi, cg_frag_aux cm !! k = Some fi →
    is_Some (cg_frag_rewrite_pool cm !! fi)
}.

Lemma uses_bound fi E : 0 <= msum (uses fi) E <= Z.of_nat (size E).
Proof.
  replace (Z.of_nat (size E)) with (1 * Z.of_nat (size E)) by lia.
  apply msum_le. intros i s _. unfold uses. zcases; lia.
Qed.

Lemma unused_record fi E :
  (∀ si s, E !! si = Some s → ss_frag_rewrite_index s ≠ fi) → msum (uses fi) E = 0.
Proof.
  intros Hn. apply msum_zero. intros si s Hs. unfold uses.
  destruct (Z.eqb_spec (ss_frag_rewrite_index s) fi); [|done]. by destruct (Hn si s).
Qed.

(** A record keeps its invariant when sessions of other records come and go and
    keys of other records are added and removed. *)
Lemma record_frame E E' cm cm' fi r remote proto :
  record_ok E cm fi r remote proto →
  msum (uses fi) E' = msum (uses fi) E →
  (∀ si s, E' !! si = Some s → ss_frag_rewrite_index s = fi → E !! si = Some s) →
  (∀ k, cg_frag_aux cm' !! k = Some fi → cg_frag_aux cm !! k = Some fi) →
  record_ok E' cm' fi r remote proto.
Proof. intros [] Hn Hs Hk. split; try done; [congruence| |]; eauto. Qed.

Lemma insert_uses_ne fi E si s :
  E !! si = None → ss_frag_rewrite_index s ≠ fi →
  msum (uses fi) (<[si := s]> E) = msum (uses fi) E.
Proof.
  intros Hsi Hne. rewrite msum_insert_new by done. unfold uses at 1.
  destruct (Z.eqb_spec (ss_frag_rewrite_index s) fi); lia.
Qed.

Lemma delete_uses_ne fi E si s :
  E !! si = Some s → ss_frag_rewrite_index s ≠ fi →
  msum (uses fi) (delete si E) = msum (uses fi) E.
Proof.
  intros Hsi Hne. rewrite (msum_delete _ E si s Hsi). unfold uses at 2.
  destruct (Z.eqb_spec (ss_frag_rewrite_index s) fi); lia.
Qed.

(** Taking a reference for a new session. *)
Lemma acquire_ok E cm fi si inside_ip outside_ip remote proto inside_fib outside_fib cm' i s :
  frag_ok E cm → E !! si = None → cg_frag_rewrite_pool cm !! fi = None →
  Z.of_nat (size E) < 2 ^ 32 - 1 → u16 inside_fib ∈ I → u16 outside_fib ∉ I →
  cgnat_frag_rewrite_acquire cm fi inside_ip outside_ip remote proto inside_fib outside_fib
    = Some (cm', i) →
  ss_frag_rewrite_index s = i → nf_daddr (ss_i2o s) = remote → nf_proto (ss_i2o s) = proto →
  frag_ok (<[si := s]> E) cm'.
Proof.
  intros [Hrec Hlive Haux] Hsi Hfi Hsz Hin Hout Hacq Hs1 Hs2 Hs3.
  unfold cgnat_frag_rewrite_acquire, cgnat_frag_rewrite_lookup in Hacq.
  assert (∀ j, j ≠ i → ∀ sj s', <[si := s]> E !! sj = Some s' →
            ss_frag_rewrite_index s' = j → E !! sj = Some s') as Hother.
  { intros j Hj sj s' [[<- <-]|[Hne Hs']]%lookup_insert_Some; [congruence|done]. }
  destruct (cg_frag_aux cm !! cgnat_frag_make_key inside_ip remote proto inside_fib)
    as [j|] eqn:Ek; simpl in Hacq.
  - destruct (Haux _ _ Ek) as [r Hr]. rewrite Hr in Hacq. simpl in Hacq.
    injection Hacq as <- <-. destruct (Hrec j r Hr) as (rem & pr & Hok).
    assert (rem = remote /\ pr = proto) as [-> ->].
    { destruct (rec_keys _ _ _ _ _ _ Hok _ Ek) as [Hk|Hk];
        unfold frag_key_in, frag_key_out, cgnat_frag_make_key in Hk; injection Hk as;
        subst; [done|]. pose proof (rec_outside _ _ _ _ _ _ Hok). congruence. }
    split; rsimpl.
    + intros fj rj. destruct (decide (fj = j)) as [->|Hne].
      * rewrite lookup_alter_eq, Hr. intros [= <-]. exists remote, proto. destruct Hok.
        pose proof (uses_bound j E).
        split; rsimpl; try done.
        -- rewrite msum_insert_new, <- rec_count0 by done. unfold uses.
           rewrite Hs1, Z.eqb_refl. rewrite u32_small; [lia|]. unfold is_u32. lia.
        -- rewrite u32_small; [lia|]. unfold is_u32. lia.
        -- intros sj s' [[<- <-]|[Hnj Hs']]%lookup_insert_Some; [done|]. eauto.
      * rewrite lookup_alter_ne by done. intros Hrj. destruct (Hrec fj rj Hrj) as (rm & p & Hokj).
        exists rm, p. apply (record_frame E _ cm); try done; [|by apply Hother].
        apply insert_uses_ne; [done|congruence].
    + intros sj s' [[<- <-]|[Hne Hs']]%lookup_insert_Some.
      * rewrite Hs1, lookup_alter_eq, Hr. by eexists.
      * apply lookup_alter_is_Some. eauto.
    + intros k fj Hk. apply lookup_alter_is_Some. eauto.
  - destruct (_ <=? _); [done|]. injection Hacq as <- <-. split; rsimpl.
    + intros fj rj [[<- <-]|[Hne Hrj]]%lookup_insert_Some.
      * exists remote, proto. split; rsimpl; try done.
        -- rewrite msum_insert_new, unused_record by (done || (intros sj s' Hs' He;
             destruct (Hlive sj s' Hs'); congruence)).
           unfold uses. rewrite Hs1, Z.eqb_refl. done.
        -- intros sj s' [[<- <-]|[Hnj Hs']]%lookup_insert_Some; [done|].
           intros He. destruct (Hlive sj s' Hs'). congruence.
        -- intros k [[<- _]|[Hk1 [[<- _]|[Hk2 Hk]]%lookup_insert_Some]]%lookup_insert_Some;
             [by right|by left|]. destruct (Haux _ _ Hk). congruence.
      * destruct (Hrec fj rj Hrj) as (rm & p & Hokj). exists rm, p.
        apply (record_frame E _ cm); rsimpl; try done.
        -- apply insert_uses_ne; [done|congruence].
        -- by apply Hother.
        -- intros k [[_ ?]|[Hk1 [[_ ?]|[Hk2 Hk]]%lookup_insert_Some]]%lookup_insert_Some; done.
    + intros sj s' [[<- <-]|[Hne Hs']]%lookup_insert_Some.
      * rewrite Hs1, lookup_insert_eq. by eexists.
      * apply lookup_insert_is_Some. destruct (decide (fi = ss_frag_rewrite_index s')); eauto.
    + intros k fj Hk. apply lookup_insert_is_Some.
      destruct (decide (fi = fj)) as [|Hne]; [by left|right]. split; [done|].
      apply lookup_insert_Some in Hk as [[_ ?]|[_ [[_ ?]|[_ Hk]]%lookup_insert_Some]]; try done.
      eauto.
Qed.

(** Giving a deleted session's reference back. *)
Lemma release_ok E cm si s :
  frag_ok E cm → E !! si = Some s → Z.of_nat (size E) < 2 ^ 32 →
  frag_ok (delete si E)
    (cgnat_frag_rewrite_release cm (ss_frag_rewrite_index s) (nf_daddr (ss_i2o s))
       (nf_proto (ss_i2o s))).
Proof.
  intros [Hrec Hlive Haux] Hs Hsz. set (fi := ss_frag_rewrite_index s).
  destruct (Hlive si s Hs) as [r Hr]. fold fi in Hr.
  destruct (Hrec fi r Hr) as (rem & pr & Hok).
  destruct (rec_peers _ _ _ _ _ _ Hok si s Hs eq_refl) as [<- <-].
  assert (∀ j, ∀ sj s', delete si E !! sj = Some s' →
            ss_frag_rewrite_index s' = j → E !! sj = Some s') as Hback.
  { intros j sj s' [_ Hs']%lookup_delete_Some _. done. }
  assert (fr_refcount r = 1 + msum (uses fi) (delete si E)) as Hcount.
  { rewrite (rec_count _ _ _ _ _ _ Hok), (msum_delete _ E si s Hs). unfold uses at 1.
    unfold fi. by rewrite Z.eqb_refl. }
  pose proof (uses_bound fi (delete si E)). pose proof (uses_bound fi E).
  pose proof (rec_count _ _ _ _ _ _ Hok).
  unfold cgnat_frag_rewrite_release. rewrite Hr. destruct (Z.ltb_spec 1 (fr_refcount r)).
  - split; rsimpl.
    + intros fj rj [[<- <-]|[Hne Hrj]]%lookup_insert_Some.
      * exists (nf_daddr (ss_i2o s)), (nf_proto (ss_i2o s)). destruct Hok.
        split; rsimpl; try done; rewrite ?u32_small by (unfold is_u32; lia); try lia.
        intros sj s' Hs' He. eapply rec_peers0; [|done]. by eapply Hback.
      * destruct (Hrec fj rj Hrj) as (rm & p & Hokj). exists rm, p.
        apply (record_frame E _ cm); try done; [|by apply Hback].
        by apply (delete_uses_ne _ _ _ s).
    + intros sj s' [_ Hs']%lookup_delete_Some. apply lookup_insert_is_Some.
      destruct (decide (fi = ss_frag_rewrite_index s')); eauto.
    + intros k fj Hk. apply lookup_insert_is_Some. destruct (decide (fi = fj)); eauto.
  - (* the last reference *)
    assert (∀ sj s', delete si E !! sj = Some s' → ss_frag_rewrite_index s' ≠ fi) as Hnone.
    { intros sj s' Hs' He. pose proof (msum_delete (uses fi) (delete si E) sj s' Hs') as Hd.
      unfold uses at 2 in Hd. rewrite He, Z.eqb_refl in Hd.
      pose proof (uses_bound fi (delete sj (delete si E))). lia. }
    assert (∀ k fj, delete (frag_key_out r (nf_daddr (ss_i2o s)) (nf_proto (ss_i2o s)))
       (delete (frag_key_in r (nf_daddr (ss_i2o s)) (nf_proto (ss_i2o s))) (cg_frag_aux cm))
         !! k = Some fj → cg_frag_aux cm !! k = Some fj /\ fj ≠ fi) as Hk.
    { intros k fj [Ho [Hi Hk]%lookup_delete_Some]%lookup_delete_Some. split; [done|].
      intros ->. destruct (rec_keys _ _ _ _ _ _ Hok k Hk); congruence. }
    split; rsimpl.
    + intros fj rj [Hne Hrj]%lookup_delete_Some. destruct (Hrec fj rj Hrj) as (rm & p & Hokj).
      exists rm, p. apply (record_frame E _ cm); rsimpl; try done.
      * by apply (delete_uses_ne _ _ _ s).
      * by apply Hback.
      * intros k Hkj. by apply Hk in Hkj as [? _].
    + intros sj s' Hs'. pose proof (Hnone sj s' Hs').
      apply lookup_delete_Some in Hs' as [_ Hs']. rewrite lookup_delete_ne by done. eauto.
    + intros k fj [Hk' Hne]%Hk. rewrite lookup_delete_ne by done. eauto.
Qed.

End Frag.

(** ** The session list of a mapping *)

(** [l] is the list threaded from the mapping's head: all its sessions, once. *)
Record sess_list (S : gmap Z cgnat_session_t) (mi : Z) (m : cgnat_mapping_t) (l : list Z)
    : Prop := {
  sl_dll : dll S (mp_sessions_head m) (final l None) l;
  sl_members : ∀ si, si ∈ l <-> exists s, S !! si = Some s /\ ss_mapping_index s = mi;
  sl_count : mp_session_count m = Z.of_nat (length l)
}.

Definition lists_ok (S : gmap Z cgnat_session_t) (M : gmap Z cgnat_mapping_t) : Prop :=
  ∀ mi m, M !! mi = Some m → exists l, sess_list S mi m l.

Lemma sess_list_size S mi m l : sess_list S mi m l → Z.of_nat (length l) <= Z.of_nat (size S).
Proof.
  intros [[Hnd _] Hmem _].
  rewrite <- (size_list_to_set (C := gset Z)) by done. rewrite <- size_dom.
  apply Nat2Z.inj_le, subseteq_size. intros si Hsi%elem_of_list_to_set.
  apply Hmem in Hsi as (s & Hs & _). by apply elem_of_dom.
Qed.

(** Another mapping's list does not see a change of this mapping's sessions. *)
Lemma sess_list_frame S S' mj m l mi :
  mi ≠ mj → sess_list S mj m l →
  (∀ sj s, S !! sj = Some s → ss_mapping_index s = mj → S' !! sj = S !! sj) →
  (∀ sj s, S' !! sj = Some s → ss_mapping_index s = mj → S' !! sj = S !! sj) →
  sess_list S' mj m l.
Proof.
  intros Hne [Hd Hm Hc] H1 H2. split; [| |done].
  - eapply dll_frame; [|exact Hd]. intros sj Hj. apply Hm in Hj as (s & Hs & He). eauto.
  - intros sj. rewrite Hm. split; intros (s & Hs & He); exists s; (split; [|done]).
    + by rewrite (H1 sj s).
    + rewrite (H2 sj s) in Hs; done.
Qed.

Lemma install_store t si mi m s cm :
  dll_prepend (mp_sessions_head m) t (<[si := s]> (cg_sessions cm)) si =
  (Some si,
   match mp_sessions_head m with Some _ => t | None => Some si end,
   cg_sessions (install_session si mi m s cm)).
Proof.
  unfold dll_prepend.
  rewrite (alter_insert_lookup _ si _ s) by apply lookup_insert_eq.
  rewrite insert_insert_eq. unfold install_session.
  by destruct (mp_sessions_head m).
Qed.

Lemma install_lists cm si mi m s :
  lists_ok (cg_sessions cm) (cg_mappings cm) → cg_sessions cm !! si = None →
  ss_mapping_index s = mi → (∃ m0, cg_mappings cm !! mi = Some m0 /\
    mp_sessions_head m = mp_sessions_head m0 /\ mp_session_count m = mp_session_count m0 + 1) →
  let cm' := install_session si mi m s cm in
  lists_ok (cg_sessions cm') (cg_mappings cm').
Proof.
  intros Hok Hsi Hmi (m0 & Hm0 & Hh & Hc) cm'.
  destruct (Hok mi m0 Hm0) as (l & [Hd Hmem Hlen]). rewrite <- Hh in Hd.
  pose proof (install_store (final l None) si mi m s cm) as Hst.
  assert (si ∉ l) as Hnl by (intros (s' & Hs' & _)%Hmem; congruence).
  assert (dll (<[si := s]> (cg_sessions cm)) (mp_sessions_head m) (final l None) l) as Hd1.
  { eapply dll_frame; [|exact Hd]. intros j Hj. rewrite lookup_insert_ne; [done|]. by intros ->. }
  destruct (dll_prepend_spec _ _ _ _ si _ _ _ Hd1 Hnl
              ltac:(rewrite lookup_insert_eq; by eexists) Hst) as [Hd2 Hfr].
  fold cm' in Hd2, Hfr.
  assert (∀ sj, erase <$> cg_sessions cm' !! sj = erase <$> (<[si:=s]> (cg_sessions cm)) !! sj)
    as Her.
  { intros sj. unfold cm', install_session. rsimpl. rewrite <- !lookup_fmap.
    destruct (mp_sessions_head m); rewrite ?fmap_alter_erase, !fmap_insert by done; done. }
  assert (∀ sj s', cg_sessions cm' !! sj = Some s' → sj ≠ si →
            exists s0, cg_sessions cm !! sj = Some s0 /\ ss_mapping_index s0 = ss_mapping_index s')
    as Hold.
  { intros sj s' Hs' Hne. destruct (erase_lookup _ _ _ (Her sj) Hs') as (s0 & Hs0 & He).
    rewrite lookup_insert_ne in Hs0 by done. eauto. }
  assert (∀ sj s', (<[si:=s]> (cg_sessions cm)) !! sj = Some s' →
            exists s0, cg_sessions cm' !! sj = Some s0 /\ ss_mapping_index s0 = ss_mapping_index s')
    as Hnew by (intros sj s' Hs'; exact (erase_lookup _ _ _ (eq_sym (Her sj)) Hs')).
  assert (∀ s', cg_sessions cm' !! si = Some s' → ss_mapping_index s' = mi) as Hself.
  { intros s' Hs'. destruct (erase_lookup _ _ _ (Her si) Hs') as (s0 & Hs0 & He).
    rewrite lookup_insert_eq in Hs0. congruence. }
  assert (cg_mappings cm' = <[mi := m⟪mp_sessions_head := Some si⟫]> (cg_mappings cm)) as HM
    by done.
  clearbody cm'. intros mj mm Hmj. rewrite HM in Hmj.
  apply lookup_insert_Some in Hmj as [[<- <-]|[Hne Hmj]].
  - exists (si :: l). split; rsimpl.
    + by eapply dll_final.
    + intros sj. rewrite elem_of_cons. split.
      * intros [->|Hj].
        -- destruct (Hnew si s (lookup_insert_eq _ _ _)) as (s0 & Hs0 & He). exists s0. split; congruence.
        -- assert (sj ≠ si) by (by intros ->). apply Hmem in Hj as (s0 & Hs0 & He).
           destruct (Hnew sj s0) as (s1 & Hs1 & He1); [by rewrite lookup_insert_ne|].
           exists s1. split; congruence.
      * intros (s' & Hs' & He). destruct (decide (sj = si)) as [|Hne]; [by left|right].
        destruct (Hold sj s' Hs' Hne) as (s0 & Hs0 & He0). apply Hmem. exists s0.
        split; congruence.
    + rewrite Hc, Hlen. simpl. lia.
  - destruct (Hok mj mm Hmj) as (l' & Hl'). exists l'.
    apply (sess_list_frame (cg_sessions cm) _ _ _ _ mi); [done|done| |].
    + intros sj s' Hs' He. rewrite Hfr.
      * rewrite lookup_insert_ne; [done|]. intros ->. congruence.
      * intros ->. congruence.
      * intros (s0 & Hs0 & He0)%Hmem. congruence.
    + intros sj s' Hs' He. destruct (decide (sj = si)) as [->|Hns].
      { destruct Hne. rewrite <- He. symmetry. by apply Hself. }
      destruct (Hold sj s' Hs' Hns) as (s0 & Hs0 & He0). rewrite Hfr; [|done|].
      * by rewrite lookup_insert_ne.
      * intros (s1 & Hs1 & He1)%Hmem. congruence.
Qed.

Lemma unlink_store t si mi m s cm h' t' S' :
  cg_sessions cm !! si = Some s →
  dll_remove (mp_sessions_head m) t (cg_sessions cm) si = (h', t', S') →
  cg_sessions (unlink_session si mi m s cm) = delete si S' /\
  cg_mappings (unlink_session si mi m s cm) =
    <[mi := m⟪mp_sessions_head := h'⟫]> (cg_mappings cm).
Proof.
  intros Hs. unfold dll_remove, unlink_session. rewrite Hs.
  change (nd_prev s) with (ss_mapping_prev s). change (nd_next s) with (ss_mapping_next s).
  assert (∀ m : cgnat_mapping_t, m⟪mp_sessions_head := mp_sessions_head m⟫ = m) as Hm by by intros [].
  destruct (ss_mapping_prev s), (ss_mapping_next s); intros [= <- <- <-]; rsimpl;
    rewrite (delete_alter_eq (M := gmap Z)); (split; [done|]);
    try change (mkMapping _ _ _ _ _ _ _ _ _ _ _ _) with (m⟪mp_sessions_head := mp_sessions_head m⟫);
    by rewrite ?Hm.
Qed.

Lemma esess_unlink cm si mi m s :
  cg_sessions cm !! si = Some s →
  esess (unlink_session si mi m s cm) = delete si (esess cm).
Proof.
  intros Hs. unfold esess, unlink_session.
  destruct (ss_mapping_prev s), (ss_mapping_next s); rsimpl;
    rewrite fmap_delete, ?fmap_alter_erase by done; done.
Qed.

Lemma esess_install cm si mi m s :
  esess (install_session si mi m s cm) = <[si := erase s]> (esess cm).
Proof.
  unfold esess, install_session. rsimpl.
  destruct (mp_sessions_head m); rewrite ?fmap_alter_erase, fmap_insert by done; done.
Qed.

(** Sessions of two stores agree but for their links. *)
Lemma esess_index cm cm' sj s s' :
  esess cm !! sj = esess cm' !! sj → cg_sessions cm !! sj = Some s →
  cg_sessions cm' !! sj = Some s' → ss_mapping_index s' = ss_mapping_index s.
Proof.
  unfold esess. rewrite !lookup_fmap. intros He Hs Hs'.
  destruct (erase_lookup _ _ _ He Hs) as (s0 & Hs0 & Hi). congruence.
Qed.

Lemma unlink_lists cm si m s :
  lists_ok (cg_sessions cm) (cg_mappings cm) → cg_sessions cm !! si = Some s →
  (∃ m0, cg_mappings cm !! ss_mapping_index s = Some m0 /\
    mp_sessions_head m = mp_sessions_head m0 /\ mp_session_count m = mp_session_count m0 - 1) →
  let cm' := unlink_session si (ss_mapping_index s) m s cm in
  lists_ok (cg_sessions cm') (cg_mappings cm').
Proof.
  intros Hok Hs (m0 & Hm0 & Hh & Hc) cm'. set (mi := ss_mapping_index s) in *.
  destruct (Hok mi m0 Hm0) as (l & [Hd Hmem Hlen]). rewrite <- Hh in Hd.
  assert (si ∈ l) as (l1 & l2 & ->)%list_elem_of_split by (apply Hmem; eauto).
  destruct (dll_remove (mp_sessions_head m) (final (l1 ++ si :: l2) None) (cg_sessions cm) si)
    as [[h' t'] S'] eqn:Hrm.
  destruct (dll_remove_spec _ _ _ _ _ _ _ _ _ Hd Hrm) as (Hd2 & Hfr & _).
  destruct (unlink_store _ si mi m s cm _ _ _ Hs Hrm) as [HS HM].
  pose proof (esess_unlink cm si mi m s Hs) as HE.
  fold cm' in HS, HM, HE. clearbody cm'.
  assert (si ∉ l1 ++ l2) as Hni.
  { destruct Hd as [Hnd _]. apply NoDup_app in Hnd as (Hnd1 & Hdis & Hnd2).
    apply NoDup_cons in Hnd2 as [Hn2 _]. rewrite elem_of_app. intros [H1|H2]; [|done].
    apply (Hdis si H1). set_solver. }
  assert (∀ sj, sj ≠ si → esess cm' !! sj = esess cm !! sj) as Hsame
    by (intros sj Hne; by rewrite HE, lookup_delete_ne).
  assert (∀ sj s', sj ≠ si → cg_sessions cm !! sj = Some s' → exists s0,
            cg_sessions cm' !! sj = Some s0 /\ ss_mapping_index s0 = ss_mapping_index s') as Hnew.
  { intros sj s' Hne Hs'. specialize (Hsame sj Hne). unfold esess in Hsame.
    rewrite !lookup_fmap in Hsame. exact (erase_lookup _ _ _ (eq_sym Hsame) Hs'). }
  assert (∀ sj s', cg_sessions cm' !! sj = Some s' → sj ≠ si /\ exists s0,
            cg_sessions cm !! sj = Some s0 /\ ss_mapping_index s0 = ss_mapping_index s') as Hold.
  { intros sj s' Hs'. assert (sj ≠ si) as Hne.
    { intros ->. rewrite HS, lookup_delete_eq in Hs'. done. }
    split; [done|]. specialize (Hsame sj Hne). unfold esess in Hsame.
    rewrite !lookup_fmap in Hsame. exact (erase_lookup _ _ _ Hsame Hs'). }
  assert (∀ sj, sj ∉ l1 ++ si :: l2 → cg_sessions cm' !! sj = cg_sessions cm !! sj) as Hfr'.
  { intros sj Hj. rewrite HS, lookup_delete_ne by set_solver. auto. }
  intros mj mm Hmj. rewrite HM in Hmj. apply lookup_insert_Some in Hmj as [[<- <-]|[Hne Hmj]].
  - exists (l1 ++ l2). split; rsimpl.
    + rewrite HS. eapply dll_final, dll_frame; [|exact Hd2].
      intros j Hj. rewrite lookup_delete_ne; [done|]. by intros ->.
    + intros sj. split.
      * intros Hj. assert (sj ≠ si) as Hne by (by intros ->).
        assert (sj ∈ l1 ++ si :: l2) as (s0 & Hs0 & He0)%Hmem by set_solver.
        destruct (Hnew sj s0 Hne Hs0) as (s1 & Hs1 & He1). exists s1. split; congruence.
      * intros (s' & Hs' & He'). destruct (Hold sj s' Hs') as (Hne & s0 & Hs0 & He0).
        assert (sj ∈ l1 ++ si :: l2) by (apply Hmem; exists s0; split; congruence). set_solver.
    + rewrite Hc, Hlen, !length_app. simpl. lia.
  - destruct (Hok mj mm Hmj) as (l' & Hl'). exists l'.
    apply (sess_list_frame (cg_sessions cm) _ _ _ _ mi); [done|done| |].
    + intros sj s' Hs' He. apply Hfr'. intros (s0 & Hs0 & He0)%Hmem. congruence.
    + intros sj s' Hs' He. destruct (Hold sj s' Hs') as (_ & s0 & Hs0 & He0).
      apply Hfr'. intros (s1 & Hs1 & He1)%Hmem. congruence.
Qed.

(** ** Mappings and their sessions *)

(** Protocols whose checksum covers the addresses. *)
Definition has_pseudo (proto : Z) : bool :=
  (proto =? IP_PROTOCOL_TCP) || (proto =? IP_PROTOCOL_UDP).

Section Owner.

Context `{NatVpp}.

(** A session rewrites between its subscriber's inside address and the outside
    address and port block of the mapping, in both directions, with the checksum
    deltas that go with it. *)
Record session_of (m : cgnat_mapping_t) (s : cgnat_session_t) : Prop := {
  so_pool : ss_pool_index s = mp_pool_index m;
  so_i2o_saddr : nf_saddr (ss_i2o s) = mp_inside_ip m;
  so_i2o_fib : nf_fib_index (ss_i2o s) = mp_inside_fib_index m;
  so_i2o_rewrite : nf_rewrite_saddr (ss_i2o s) = mp_outside_ip m;
  so_o2i_saddr : nf_saddr (ss_o2i s) = mp_outside_ip m;
  so_o2i_rewrite : nf_rewrite_daddr (ss_o2i s) = mp_inside_ip m;
  so_o2i_fib : nf_rewrite_fib_index (ss_o2i s) = mp_inside_fib_index m;
  so_remote : nf_daddr (ss_o2i s) = nf_daddr (ss_i2o s);
  so_proto : nf_proto (ss_o2i s) = nf_proto (ss_i2o s);
  so_outside_port : nf_sport (ss_o2i s) = nf_rewrite_sport (ss_i2o s);
  so_inside_port : nf_rewrite_dport (ss_o2i s) = nf_sport (ss_i2o s);
  so_port : cgnat_is_unk_proto (nf_proto (ss_i2o s)) = true \/
            mp_port_block_start m <= clib_net_to_host_u16 (nf_rewrite_sport (ss_i2o s))
              <= mp_port_block_end m;
  so_rewrite_u16 : is_u16 (nf_rewrite_sport (ss_i2o s));
  so_i2o_csum : cgnat_flow_csum_calc (mp_inside_ip m) (mp_outside_ip m) (nf_sport (ss_i2o s))
    (nf_rewrite_sport (ss_i2o s)) (has_pseudo (nf_proto (ss_i2o s))) (ss_i2o s) = ss_i2o s;
  so_o2i_csum : cgnat_flow_csum_calc (mp_outside_ip m) (mp_inside_ip m) (nf_sport (ss_o2i s))
    (nf_rewrite_dport (ss_o2i s)) (has_pseudo (nf_proto (ss_o2i s))) (ss_o2i s) = ss_o2i s
}.

Lemma session_of_id m m' s : mapping_id m' = mapping_id m → session_of m s → session_of m' s.
Proof. unfold mapping_id. intros [= H1 H2 H3 H4 H5 H6 _] []. split; congruence || lia. Qed.

Lemma session_of_erase m s s' : erase s' = erase s → session_of m s → session_of m s'.
Proof.
  intros He. assert (ss_i2o s' = ss_i2o s /\ ss_o2i s' = ss_o2i s /\
                     ss_pool_index s' = ss_pool_index s) as (E1 & E2 & E3).
  { split_and!; [exact (f_equal ss_i2o He)|exact (f_equal ss_o2i He)|
      exact (f_equal ss_pool_index He)]. }
  intros []. split; rewrite ?E1, ?E2, ?E3; done.
Qed.

End Owner.

(** ** The whole state *)

Section Nat.

Context `{NatVpp} (I : gset Z).

Record nat_ok (cm : cgnat_main_t) : Prop := {
  nat_lists : lists_ok (cg_sessions cm) (cg_mappings cm);
  nat_owner : ∀ si s, esess cm !! si = Some s → exists m,
    cg_mappings cm !! ss_mapping_index s = Some m /\ session_of m s;
  nat_in2out : in2out_ok (esess cm) (cg_session_table_in2out cm);
  nat_out2in : out2in_ok (esess cm) (cg_session_table_out2in cm);
  nat_frags : frag_ok I (esess cm) cm;
  nat_size : Z.of_nat (size (cg_sessions cm)) <= CGNAT_MAX_SESSIONS;
  nat_mappings : ∀ mi m, cg_mappings cm !! mi = Some m →
    mapping_ok m /\ is_Some (cg_pools cm !! mp_pool_index m) /\ u16 (mp_inside_fib_index m) ∈ I;
  nat_inside : ∀ k mi, cg_inside_lookup cm !! k = Some mi <-> exists m,
    cg_mappings cm !! mi = Some m /\ (mp_inside_ip m, mp_inside_fib_index m) = k;
  nat_outside : ∀ p pool, cg_pools cm !! p = Some pool → pl_outside_fib_valid pool = true →
    u16 (pl_outside_fib_index pool) ∉ I;
  nat_ids : ∀ id p, cg_pool_by_id cm !! id = Some p → exists pool,
    cg_pools cm !! p = Some pool /\ pl_pool_id pool = id
}.

Lemma frag_ok_frame E cm cm' :
  cg_frag_rewrite_pool cm' = cg_frag_rewrite_pool cm → cg_frag_aux cm' = cg_frag_aux cm →
  frag_ok I E cm → frag_ok I E cm'.
Proof.
  intros Hp Ha [Hr Hl Hx]. split; rewrite ?Hp, ?Ha; try done.
  intros fi r Hfi. destruct (Hr fi r Hfi) as (rm & p & []). exists rm, p. split; rewrite ?Ha; done.
Qed.

(** A change of one mapping that leaves its identity, its list and count alone. *)
Lemma nat_ok_mapping cm mi m m' :
  nat_ok cm → cg_mappings cm !! mi = Some m → mapping_id m' = mapping_id m → mapping_ok m' →
  mp_sessions_head m' = mp_sessions_head m → mp_session_count m' = mp_session_count m →
  nat_ok (cm⟪cg_mappings ::= insert mi m'⟫).
Proof.
  intros [Hl Ho Hi Hout Hf Hs Hm Hin Hp Hby] Hmi Hid Hok Hh Hc. split; rsimpl; try done.
  - intros mj mm [[<- <-]|[Hne Hmj]]%lookup_insert_Some; [|by apply Hl].
    destruct (Hl mi m Hmi) as (l & [Hd Hmem Hlen]). exists l. split; [by rewrite Hh|done|by rewrite Hc].
  - intros si s Hsi. destruct (Ho si s Hsi) as (m0 & Hm0 & Hso).
    destruct (decide (mi = ss_mapping_index s)) as [->|Hne].
    + exists m'. rewrite lookup_insert_eq. split; [done|].
      apply (session_of_id m0); [congruence|done].
    + exists m0. by rewrite lookup_insert_ne.
  - by apply (frag_ok_frame _ cm).
  - unfold mapping_id in Hid. injection Hid as H1 H2 H3 H4 H5 H6 H7.
    intros mj mm [[<- <-]|[Hne Hmj]]%lookup_insert_Some; [|by apply (Hm mj)].
    destruct (Hm mi m Hmi) as (_ & Hpl & Hfib). rewrite H6, H3. done.
  - unfold mapping_id in Hid. injection Hid as H1 H2 H3 H4 H5 H6 H7.
    intros k mj. rewrite (Hin k mj). split; intros (mm & Hmm & Hk).
    + destruct (decide (mi = mj)) as [<-|Hne].
      * exists m'. rewrite lookup_insert_eq. split; [done|]. congruence.
      * exists mm. by rewrite lookup_insert_ne.
    + apply lookup_insert_Some in Hmm as [[<- <-]|[Hne Hmm]]; [|by eexists].
      exists m. split; [done|]. congruence.
Qed.

Lemma acquire_frame cm fi a b c d e f cm' i :
  cgnat_frag_rewrite_acquire cm fi a b c d e f = Some (cm', i) →
  esess cm' = esess cm /\ cg_sessions cm' = cg_sessions cm /\ cg_mappings cm' = cg_mappings cm /\
  cg_pools cm' = cg_pools cm /\ cg_inside_lookup cm' = cg_inside_lookup cm /\
  cg_session_table_in2out cm' = cg_session_table_in2out cm /\
  cg_session_table_out2in cm' = cg_session_table_out2in cm /\
  cg_pool_by_id cm' = cg_pool_by_id cm.
Proof.
  unfold cgnat_frag_rewrite_acquire. destruct (cgnat_frag_rewrite_lookup _ _ _ _ _) as [[j r]|];
    [by intros [= <- <-]|]. destruct (_ <=? _); [done|]. by intros [= <- <-].
Qed.

(** A record can be had: another one fits the fixed pool. *)
Definition frag_room (cm : cgnat_main_t) : Prop :=
  Z.of_nat (size (cg_frag_rewrite_pool cm)) < CGNAT_MAX_FRAG_REWRITES.

Lemma acquire_room cm fi a b c d e f :
  frag_room cm → exists r, cgnat_frag_rewrite_acquire cm fi a b c d e f = Some r.
Proof.
  intros Hr. unfold cgnat_frag_rewrite_acquire.
  destruct (cgnat_frag_rewrite_lookup _ _ _ _ _) as [[j r]|]; [by eexists|].
  unfold frag_room in Hr. destruct (Z.leb_spec CGNAT_MAX_FRAG_REWRITES
    (Z.of_nat (size (cg_frag_rewrite_pool cm)))); [lia|by eexists].
Qed.

(** The session a successful create installs. *)
Lemma create_session_of m remote rport proto oport iport out_fib mi now tmo frag :
  is_u16 oport →
  (cgnat_is_unk_proto proto = true \/ mp_port_block_start m <= oport <= mp_port_block_end m) →
  session_of m (mkSession
    (i2o_flow m remote rport proto (clib_net_to_host_u16 oport) iport out_fib
       (has_pseudo proto))
    CGNAT_TCP_STATE_CLOSED
    (o2i_flow m remote rport proto (clib_net_to_host_u16 oport) iport out_fib
       (has_pseudo proto))
    mi (mp_pool_index m) now 0 0 tmo frag None None 0 0).
Proof.
  intros Ho Hp. split; unfold i2o_flow, o2i_flow, cgnat_flow_csum_calc; rsimpl; try done.
  - by rewrite swap16_involutive.
  - apply swap16_range.
Qed.

Definition session_key (m : cgnat_mapping_t) (remote rport proto iport : Z)
    : cgnat_session_key_t :=
  cgnat_session_make_key (mp_inside_ip m) remote iport
    (if proto =? IP_PROTOCOL_ICMP then iport else rport) proto (mp_inside_fib_index m).

Lemma install_ok cm cm1 fi mi m remote rport proto oport iport now pool frag s si out_fib tmo :
  nat_ok cm → cg_mappings cm !! mi = Some m → cg_pools cm !! mp_pool_index m = Some pool →
  pl_outside_fib_valid pool = true → out_fib = pl_outside_fib_index pool →
  cg_sessions cm !! si = None → cg_frag_rewrite_pool cm !! fi = None → is_u16 oport →
  (cgnat_is_unk_proto proto = true \/ mp_port_block_start m <= oport <= mp_port_block_end m) →
  cg_session_table_in2out cm !! session_key m remote rport proto iport = None →
  Z.of_nat (size (cg_sessions cm)) < CGNAT_MAX_SESSIONS →
  cgnat_frag_rewrite_acquire cm fi (mp_inside_ip m) (mp_outside_ip m) remote proto
    (mp_inside_fib_index m) out_fib = Some (cm1, frag) →
  s = mkSession (i2o_flow m remote rport proto (clib_net_to_host_u16 oport) iport out_fib
       (has_pseudo proto))
        CGNAT_TCP_STATE_CLOSED
        (o2i_flow m remote rport proto (clib_net_to_host_u16 oport) iport out_fib
       (has_pseudo proto))
        mi (mp_pool_index m) now 0 0 tmo frag None None 0 0 →
  nat_ok (install_session si mi (m⟪mp_session_count ::= λ n, u32 (n + 1)⟫) s cm1).
Proof.
  intros [Hl Ho Hi Hout Hf Hs Hm Hin Hp Hby] Hmi Hpl Hv -> Hsi Hfi Hport Hblk Hkey Hsz Hacq Hse.
  destruct (acquire_frame _ _ _ _ _ _ _ _ _ _ Hacq) as (FE & FS & FM & FP & FL & FI & FO & FB).
  destruct (Hm mi m Hmi) as (Hmok & Hpok & Hfib).
  assert (session_of m s) as Hso by (subst s; by apply create_session_of).
  assert (esess cm !! si = None) as Hei by (unfold esess; by rewrite lookup_fmap, Hsi).
  assert (Z.of_nat (size (esess cm)) < 2 ^ 32 - 1) as Hsz2.
  { rewrite size_esess. unfold CGNAT_MAX_SESSIONS in Hsz. change (Z.shiftl 1 19) with 524288 in Hsz. lia. }
  assert (erase s = s) as Hes by (by subst s).
  assert (flow_key (ss_i2o s) = session_key m remote rport proto iport) as Hk by (by subst s).
  assert (frag_ok I (<[si := s]> (esess cm)) cm1) as Hf1.
  { eapply acquire_ok; try done; [eauto|by subst s|by subst s|by subst s]. }
  destruct (Hl mi m Hmi) as (l & Hsl). pose proof (sess_list_size _ _ _ _ Hsl) as Hls.
  set (m' := m⟪mp_session_count ::= λ n, u32 (n + 1)⟫).
  assert (mp_session_count m' = mp_session_count m + 1) as Hc'.
  { unfold m'. rsimpl. rewrite (sl_count _ _ _ _ Hsl). apply u32_small.
    unfold is_u32. rewrite size_esess in Hsz2. lia. }
  assert (mapping_id (m'⟪mp_sessions_head := Some si⟫) = mapping_id m) as Hid by done.
  pose proof (install_lists cm1 si mi m' s) as Hlist. rewrite FS, FM in Hlist.
  specialize (Hlist Hl Hsi ltac:(by subst s) ltac:(exists m; by split)).
  set (cm' := install_session si mi m' s cm1) in *.
  assert (esess cm' = <[si := s]> (esess cm)) as HE.
  { unfold cm'. by rewrite esess_install, Hes, FE. }
  assert (cg_mappings cm' = <[mi := m'⟪mp_sessions_head := Some si⟫]> (cg_mappings cm)) as HM.
  { unfold cm', install_session. rproj. by rewrite FM. }
  split; rewrite ?HE; try done.
  - intros sj s' [[<- <-]|[Hne Hs']]%lookup_insert_Some.
    + exists (m'⟪mp_sessions_head := Some si⟫). rewrite HM. subst s. rewrite lookup_insert_eq.
      split; [done|]. by eapply session_of_id.
    + destruct (Ho sj s' Hs') as (m0 & Hm0 & Hso0). rewrite HM.
      destruct (decide (mi = ss_mapping_index s')) as [->|Hnm].
      * eexists. rewrite lookup_insert_eq. split; [done|]. eapply session_of_id; [|exact Hso0].
        rewrite Hid. congruence.
      * exists m0. by rewrite lookup_insert_ne.
  - unfold cm', install_session. rproj. rewrite FI. apply in2out_insert; [done|done|congruence].
  - unfold cm', install_session. rproj. rewrite FO. by apply out2in_insert.
  - by apply (frag_ok_frame _ cm1).
  - rewrite <- size_esess, HE, map_size_insert_None, size_esess by done. lia.
  - intros mj mm. rewrite HM. intros [[<- <-]|[Hne Hmj]]%lookup_insert_Some.
    + unfold cm', install_session. rproj. rewrite FP. split_and!; [|done|done]. by destruct Hmok.
    + unfold cm', install_session. rproj. rewrite FP. eauto.
  - intros k mj. rewrite HM. unfold cm', install_session. rproj. rewrite FL, (Hin k mj).
    split; intros (mm & Hmm & Hkk).
    + destruct (decide (mi = mj)) as [<-|Hne].
      * eexists. rewrite lookup_insert_eq. split; [done|]. rewrite Hmi in Hmm. by injection Hmm as <-.
      * exists mm. by rewrite lookup_insert_ne.
    + apply lookup_insert_Some in Hmm as [[<- <-]|[Hne Hmm]]; [|by eexists].
      exists m. by split.
  - unfold cm', install_session. rproj. by rewrite FP.
  - unfold cm', install_session. rproj. by rewrite FB, FP.
Qed.

(** Creating a session either refuses, leaving the state alone, or installs one. *)
Lemma create_ok cm si fi mi m pool remote rport proto oport iport now :
  nat_ok cm → cg_mappings cm !! mi = Some m → cg_pools cm !! mp_pool_index m = Some pool →
  pl_outside_fib_valid pool = true →
  cg_sessions cm !! si = None → cg_frag_rewrite_pool cm !! fi = None → frag_room cm →
  is_u16 oport →
  (cgnat_is_unk_proto proto = true \/ mp_port_block_start m <= oport <= mp_port_block_end m) →
  cg_session_table_in2out cm !! session_key m remote rport proto iport = None →
  exists cm' r,
    cgnat_session_create cm si fi mi remote rport proto oport iport now = Some (cm', r) /\
    nat_ok cm' /\
    match r with
    | None => cm' = cm
    | Some sj => sj = si /\ exists s, cg_sessions cm' !! si = Some s /\ session_of m s /\
        flow_key (ss_i2o s) = session_key m remote rport proto iport /\
        clib_net_to_host_u16 (nf_rewrite_sport (ss_i2o s)) = oport
    end.
Proof.
  intros Hok Hmi Hpl Hv Hsi Hfi Hroom Hport Hblk Hkey. unfold cgnat_session_create.
  rewrite Hmi. simpl. rewrite Hpl. simpl.
  destruct (_ <=? mp_session_count m); [by exists cm, None|].
  destruct (Z.leb_spec CGNAT_MAX_SESSIONS (Z.of_nat (size (cg_sessions cm)))); [by exists cm, None|].
  match goal with |- context [cgnat_frag_rewrite_acquire ?x1 ?x2 ?x3 ?x4 ?x5 ?x6 ?x7 ?x8] =>
    destruct (acquire_room x1 x2 x3 x4 x5 x6 x7 x8 Hroom) as [[cm1 frag] Hacq] end.
  rewrite Hacq. cbn [mbind option_bind]. rewrite Hv in Hacq |- *.
  eexists _, _. split; [reflexivity|]. split; [by eapply install_ok|]. split; [done|].
  match goal with
  | |- context [install_session si mi ?m' ?s cm1] =>
      pose proof (esess_install cm1 si mi m' s) as HE; set (s1 := s) in *
  end.
  assert (esess (install_session si mi (m⟪mp_session_count ::= λ n, u32 (n + 1)⟫) s1 cm1) !! si
          = Some (erase s1)) as Hs1 by (by rewrite HE, lookup_insert_eq).
  apply esess_lookup_inv in Hs1 as (s2 & Hs2 & He). exists s2. split; [exact Hs2|].
  assert (session_of m s1) as Hso.
  { set (mc := m⟪mp_session_count ::= λ n, u32 (n + 1)⟫) in s1.
    apply (session_of_id mc m); [done|]. by apply (create_session_of mc). }
  split; [by eapply session_of_erase|].
  assert (ss_i2o s2 = ss_i2o s1) as -> by exact (f_equal ss_i2o (eq_sym He)).
  split; [done|]. simpl. by apply swap16_involutive.
Qed.

Lemma release_frame cm fi a b :
  let cm' := cgnat_frag_rewrite_release cm fi a b in
  esess cm' = esess cm /\ cg_sessions cm' = cg_sessions cm /\ cg_mappings cm' = cg_mappings cm /\
  cg_pools cm' = cg_pools cm /\ cg_inside_lookup cm' = cg_inside_lookup cm /\
  cg_session_table_in2out cm' = cg_session_table_in2out cm /\
  cg_session_table_out2in cm' = cg_session_table_out2in cm /\
  cg_pool_by_id cm' = cg_pool_by_id cm.
Proof.
  unfold cgnat_frag_rewrite_release. destruct (cg_frag_rewrite_pool cm !! fi) as [r|]; [|done].
  by destruct (1 <? fr_refcount r).
Qed.

Lemma port_free_ok m port now :
  mapping_ok m → mapping_ok (cgnat_port_free m port now) /\
  mapping_id (cgnat_port_free m port now) = mapping_id m.
Proof.
  intros []. split; [|done]. split; unfold cgnat_port_free; rsimpl; try done.
  by rewrite length_insert.
Qed.

(** The mapping of a deleted session, with its port freed and its count lowered. *)
Definition after_delete (m : cgnat_mapping_t) (s : cgnat_session_t) (now : Z) : cgnat_mapping_t :=
  let m := if cgnat_is_unk_proto (nf_proto (ss_i2o s)) then m
           else cgnat_port_free m (clib_net_to_host_u16 (nf_rewrite_sport (ss_i2o s))) now in
  if 0 <? mp_session_count m then m⟪mp_session_count ::= λ n, u32 (n - 1)⟫ else m.

Lemma after_delete_ok m s now :
  mapping_ok m → 0 < mp_session_count m < 2 ^ 32 →
  let m' := after_delete m s now in
  mapping_ok m' /\ mapping_id m' = mapping_id m /\ mp_sessions_head m' = mp_sessions_head m /\
  mp_session_count m' = mp_session_count m - 1.
Proof.
  intros Hok Hc m'. subst m'. unfold after_delete.
  set (m1 := if cgnat_is_unk_proto _ then m else _).
  assert (mapping_ok m1 /\ mapping_id m1 = mapping_id m /\
          mp_sessions_head m1 = mp_sessions_head m /\
          mp_session_count m1 = mp_session_count m) as (H1 & H2 & H3 & H4).
  { unfold m1. destruct (cgnat_is_unk_proto _); [done|].
    destruct (port_free_ok m (clib_net_to_host_u16 (nf_rewrite_sport (ss_i2o s))) now Hok).
    by split_and!. }
  clearbody m1. rewrite H4. destruct (Z.ltb_spec 0 (mp_session_count m)); [|lia].
  split_and!; [by destruct H1|done|done|]. rproj. rewrite H4, u32_small; [done|].
  unfold is_u32. lia.
Qed.

Lemma unlink_frame si mi m s cm :
  let cm' := unlink_session si mi m s cm in
  cg_pools cm' = cg_pools cm /\ cg_inside_lookup cm' = cg_inside_lookup cm /\
  cg_session_table_in2out cm' = cg_session_table_in2out cm /\
  cg_session_table_out2in cm' = cg_session_table_out2in cm /\
  cg_frag_aux cm' = cg_frag_aux cm /\ cg_frag_rewrite_pool cm' = cg_frag_rewrite_pool cm /\
  cg_pool_by_id cm' = cg_pool_by_id cm /\
  exists h, cg_mappings cm' = <[mi := m⟪mp_sessions_head := h⟫]> (cg_mappings cm).
Proof.
  unfold unlink_session.
  destruct (ss_mapping_prev s), (ss_mapping_next s); split_and!; try done;
    [exists (mp_sessions_head m)..| |]; try (by destruct m); by eexists.
Qed.

(** What a delete leaves: the fields of the new state in terms of the old one. *)
Lemma delete_shape cm si s m now :
  nat_ok cm → cg_sessions cm !! si = Some s →
  cg_mappings cm !! ss_mapping_index s = Some m →
  exists cm' m', cgnat_session_delete cm si now = Some cm' /\
    esess cm' = delete si (esess cm) /\
    cg_mappings cm' = <[ss_mapping_index s := m']> (cg_mappings cm) /\
    mapping_ok m' /\ mapping_id m' = mapping_id m /\
    lists_ok (cg_sessions cm') (cg_mappings cm') /\
    frag_ok I (delete si (esess cm)) cm' /\
    cg_pools cm' = cg_pools cm /\ cg_inside_lookup cm' = cg_inside_lookup cm /\
    cg_session_table_in2out cm' = delete (flow_key (ss_i2o s)) (cg_session_table_in2out cm) /\
    cg_session_table_out2in cm' = delete (flow_key (ss_o2i s)) (cg_session_table_out2in cm) /\
    cg_pool_by_id cm' = cg_pool_by_id cm.
Proof.
  intros Hok Hsi Hmi. unfold cgnat_session_delete. rewrite Hsi. simpl. rewrite Hmi. simpl.
  fold (after_delete m s now).
  destruct (nat_mappings _ Hok _ m Hmi) as (Hmok & Hpok & Hfib).
  destruct (nat_lists _ Hok _ m Hmi) as (l & Hsl).
  pose proof (sess_list_size _ _ _ _ Hsl) as Hls. pose proof (nat_size _ Hok) as Hs.
  unfold CGNAT_MAX_SESSIONS in Hs. change (Z.shiftl 1 19) with 524288 in Hs.
  assert (0 < mp_session_count m < 2 ^ 32) as Hc.
  { assert (si ∈ l) by (apply (sl_members _ _ _ _ Hsl); eauto).
    rewrite (sl_count _ _ _ _ Hsl). destruct l as [|x l]; [set_solver|]. simpl in *. lia. }
  destruct (after_delete_ok m s now Hmok Hc) as (Hm1 & Hm2 & Hm3 & Hm4).
  set (m' := after_delete m s now) in *. clearbody m'.
  set (cm0 := cm⟪cg_session_table_in2out ::= _⟫⟪cg_session_table_out2in ::= _⟫).
  destruct (release_frame cm0 (ss_frag_rewrite_index s) (nf_daddr (ss_i2o s))
              (nf_proto (ss_i2o s))) as (FE & FS & FM & FP & FL & FI & FO & FB).
  pose proof (release_ok I (esess cm) cm0 si (erase s)
                ltac:(by apply (frag_ok_frame _ cm), nat_frags) (esess_lookup _ _ _ Hsi)
                ltac:(rewrite size_esess; lia)) as Hfr.
  change (ss_frag_rewrite_index (erase s)) with (ss_frag_rewrite_index s) in Hfr.
  change (ss_i2o (erase s)) with (ss_i2o s) in Hfr.
  set (cm1 := cgnat_frag_rewrite_release cm0 _ _ _) in *.
  pose proof (unlink_lists cm1 si m' s) as Hlist. rewrite FS, FM in Hlist.
  specialize (Hlist (nat_lists _ Hok) Hsi ltac:(exists m; by split)).
  pose proof (esess_unlink cm1 si (ss_mapping_index s) m' s ltac:(by rewrite FS)) as HE.
  destruct (unlink_frame si (ss_mapping_index s) m' s cm1)
    as (GP & GL & GI & GO & GA & GF & GB & h & GM).
  eexists _, (m'⟪mp_sessions_head := h⟫). split; [reflexivity|].
  rewrite HE, FE, GM, FM, GP, FP, GL, FL, GI, FI, GO, FO, GB, FB.
  split_and!; try done; [by destruct Hm1|by rewrite <- FM, <- GM|].
  by apply (frag_ok_frame _ cm1).
Qed.

(** Deleting a session: it is gone, and nothing else changes but links. *)
Lemma delete_ok cm si s now :
  nat_ok cm → cg_sessions cm !! si = Some s →
  exists cm', cgnat_session_delete cm si now = Some cm' /\ nat_ok cm' /\
    esess cm' = delete si (esess cm) /\
    (∀ mi, mapping_id <$> cg_mappings cm' !! mi = mapping_id <$> cg_mappings cm !! mi) /\
    cg_pools cm' = cg_pools cm /\ cg_pool_by_id cm' = cg_pool_by_id cm.
Proof.
  intros Hok Hsi. pose proof (esess_lookup _ _ _ Hsi) as Hei.
  destruct (nat_owner _ Hok si _ Hei) as (m & Hmi & _).
  change (ss_mapping_index (erase s)) with (ss_mapping_index s) in Hmi.
  destruct (delete_shape cm si s m now Hok Hsi Hmi)
    as (cm' & m' & Hdel & HE & HM & Hmok & Hid & Hlist & Hfr & GP & GL & GI & GO & GB).
  destruct (nat_mappings _ Hok _ m Hmi) as (_ & Hpok & Hfib).
  assert (∀ mi, mapping_id <$> cg_mappings cm' !! mi = mapping_id <$> cg_mappings cm !! mi) as Hids.
  { intros mi. rewrite HM. destruct (decide (mi = ss_mapping_index s)) as [->|Hne].
    - by rewrite lookup_insert_eq, Hmi; simpl; rewrite Hid.
    - by rewrite lookup_insert_ne. }
  exists cm'. split; [done|]. split; [|by split_and!]. destruct Hok as [Hl Ho Hi Hout Hf Hs Hm Hin Hp Hby].
  split; rewrite ?HE, ?GP, ?GL, ?GI, ?GO, ?GB; try done.
  - intros sj s' [Hne Hs']%lookup_delete_Some. destruct (Ho sj s' Hs') as (m0 & Hm0 & Hso).
    specialize (Hids (ss_mapping_index s')). rewrite Hm0 in Hids.
    destruct (cg_mappings cm' !! ss_mapping_index s') as [m1|]; [|done]. apply (inj Some) in Hids.
    exists m1. split; [done|]. by eapply session_of_id.
  - by apply (in2out_delete _ _ si (erase s)).
  - by apply (out2in_delete _ _ si (erase s)).
  - rewrite <- size_esess, HE. rewrite <- size_esess in Hs.
    pose proof (map_size_delete si (esess cm)) as Hsz. rewrite Hei in Hsz. lia.
  - unfold mapping_id in Hid. injection Hid as H1 H2 H3 H4 H5 H6 H7.
    intros mj mm. rewrite HM. intros [[<- <-]|[Hne Hmj]]%lookup_insert_Some; [|eauto].
    rewrite H6, H3. done.
  - unfold mapping_id in Hid. injection Hid as H1 H2 H3 H4 H5 H6 H7.
    intros k mj. rewrite HM, (Hin k mj). split; intros (mm & Hmm & Hkk).
    + destruct (decide (ss_mapping_index s = mj)) as [<-|Hne].
      * exists m'. rewrite lookup_insert_eq. split; [done|]. congruence.
      * exists mm. by rewrite lookup_insert_ne.
    + apply lookup_insert_Some in Hmm as [[<- <-]|[Hne Hmm]]; [|by eexists].
      exists m. split; [done|]. congruence.
Qed.

End Nat.
