(* ===== verification/CgnatConfig.v ===== *)
(** Configuration of the NAT: [osvbng_cgnat.c] and the two handlers of
    [osvbng_cgnat_api.c] that do more than call it.

    An operation returns the new state and a result; calls that change VPP are
    appended to [cg_effects] in the order they are made.  New pool slots and the
    clock are arguments.  The outer [None] is an access to a freed pool entry. *)

From S2P Require Import Prelude Dll CgnatTypes CgnatDet CgnatSession.

Inductive cgnat_rv :=
  | RvOk
  | VNET_API_ERROR_NO_SUCH_ENTRY
  | VNET_API_ERROR_NO_SUCH_FIB
  | VNET_API_ERROR_INSTANCE_IN_USE
  | VNET_API_ERROR_ENTRY_NEEDS_REFRESH
  | RvReass (rv : Z).                    (* the reassembly call's own error *)

#[export] Instance cgnat_rv_eq_dec : EqDecision cgnat_rv.
Proof. solve_decision. Defined.

Definition emit (e : list nat_effect) (cm : cgnat_main_t) : cgnat_main_t :=
  cm⟪cg_effects ::= λ l, l ++ e⟫.
Definition upd_pool (p : Z) (g : cgnat_pool_t → cgnat_pool_t) (cm : cgnat_main_t) : cgnat_main_t :=
  cm⟪cg_pools ::= alter g p⟫.

(** [vec_del1]: the last element takes the place of the deleted one. *)
Definition vec_del1 {A} (l : list A) (i : nat) : list A :=
  match last l with
  | None => l
  | Some x => take (length l - 1) (<[i := x]> l)
  end.

Definition find_index {A} (p : A → bool) (l : list A) : option nat :=
  fst <$> list_find (λ x, p x = true) l.

(** [pool_foreach]: the indices in use, in order. *)
Definition pool_indices {A} (m : gmap Z A) : list Z :=
  merge_sort Z.le (map fst (map_to_list m)).

Section Config.

Context `{NatVpp}.

(** ** Pools *)

Definition cgnat_pool_hard_drift (cur cfg : cgnat_pool_t) : bool :=
  negb (bool_decide (pl_mode cur = pl_mode cfg)) ||
  negb (bool_decide (pl_address_pooling cur = pl_address_pooling cfg)) ||
  negb (bool_decide (pl_filtering cur = pl_filtering cfg)) ||
  negb (pl_block_size cur =? pl_block_size cfg) ||
  negb (pl_port_range_start cur =? pl_port_range_start cfg) ||
  negb (pl_port_range_end cur =? pl_port_range_end cfg).

Definition cgnat_pool_soft_update (cfg cur : cgnat_pool_t) : cgnat_pool_t :=
  cur⟪pl_max_blocks_per_sub := pl_max_blocks_per_sub cfg⟫
     ⟪pl_max_sessions_per_sub := pl_max_sessions_per_sub cfg⟫
     ⟪pl_port_reuse_timeout := pl_port_reuse_timeout cfg⟫
     ⟪pl_alg_bitmask := pl_alg_bitmask cfg⟫
     ⟪pl_timeouts := pl_timeouts cfg⟫.

(** The mappings of a pool go, with their lookup entries. *)
Definition drop_mapping (cm : cgnat_main_t) (mi : Z) : cgnat_main_t :=
  match cg_mappings cm !! mi with
  | None => cm
  | Some m => cm⟪cg_inside_lookup ::= delete (mp_inside_ip m, mp_inside_fib_index m)⟫
                ⟪cg_mappings ::= delete mi⟫
  end.

Definition pool_sessions (cm : cgnat_main_t) (p : Z) : list Z :=
  filter (λ si, (ss_pool_index <$> cg_sessions cm !! si) = Some p) (pool_indices (cg_sessions cm)).
Definition pool_mappings (cm : cgnat_main_t) (p : Z) : list Z :=
  filter (λ mi, (mp_pool_index <$> cg_mappings cm !! mi) = Some p) (pool_indices (cg_mappings cm)).

Definition cgnat_pool_cascade_delete (cm : cgnat_main_t) (pool_index now : Z)
    : option cgnat_main_t :=
  cm ← reap_all now cm (pool_sessions cm pool_index);
  Some (foldl drop_mapping cm (pool_mappings cm pool_index)).

(** The prefixes of a pool that are in the FIB. *)
Definition installed_prefixes (pool : cgnat_pool_t) : list fib_prefix_t :=
  omap (λ '(pfx, fei), if (fei : bool) then Some pfx else None)
    (zip (pl_outside_prefixes pool) (pl_outside_fib_entries pool)).

Definition new_pool (cfg : cgnat_pool_t) : cgnat_pool_t :=
  mkPool (pl_pool_id cfg) (pl_mode cfg) (pl_address_pooling cfg) (pl_filtering cfg)
    (pl_block_size cfg) (pl_max_blocks_per_sub cfg) (pl_max_sessions_per_sub cfg)
    (pl_port_range_start cfg) (pl_port_range_end cfg) (pl_port_reuse_timeout cfg)
    (pl_alg_bitmask cfg) (pl_timeouts cfg) 0 NONE false [] [] false [] [] (pl_det_params cfg).

Definition cgnat_pool_add_del (cm : cgnat_main_t) (new_idx now : Z) (cfg : cgnat_pool_t)
    (is_add : bool) : option (cgnat_main_t * cgnat_rv) :=
  match cg_pool_by_id cm !! pl_pool_id cfg with
  | Some p =>
      pool ← cg_pools cm !! p;
      if is_add then
        if cgnat_pool_hard_drift pool cfg then Some (cm, VNET_API_ERROR_ENTRY_NEEDS_REFRESH)
        else Some (upd_pool p (cgnat_pool_soft_update cfg) cm, RvOk)
      else
        cm ← cgnat_pool_cascade_delete cm p now;
        let removes :=
          if pl_outside_fib_valid pool
          then map (OutsideRemove (pl_outside_fib_index pool)) (installed_prefixes pool) else [] in
        let cm := emit (removes ++ map (λ sw, ReassEnable sw false) (pl_outside_sw_if_indexes pool)) cm in
        Some (cm⟪cg_pool_by_id ::= delete (pl_pool_id pool)⟫⟪cg_pools ::= delete p⟫, RvOk)
  | None =>
      if is_add then
        Some (cm⟪cg_pools ::= insert new_idx (new_pool cfg)⟫
                ⟪cg_pool_by_id ::= insert (pl_pool_id cfg) new_idx⟫, RvOk)
      else Some (cm, VNET_API_ERROR_NO_SUCH_ENTRY)
  end.

Definition cgnat_set_outside_fib (cm : cgnat_main_t) (pool_id vrf_id : Z)
    : option (cgnat_main_t * cgnat_rv) :=
  match cg_pool_by_id cm !! pool_id with
  | None => Some (cm, VNET_API_ERROR_NO_SUCH_ENTRY)
  | Some p =>
      match fib_table_find vrf_id with
      | None => Some (cm, VNET_API_ERROR_NO_SUCH_FIB)
      | Some fib_index =>
          pool ← cg_pools cm !! p;
          if pl_outside_fib_valid pool && (0 <? Z.of_nat (size (cg_sessions cm)))
          then Some (cm, VNET_API_ERROR_INSTANCE_IN_USE)
          else
            let removes :=
              if pl_outside_fib_valid pool
              then map (OutsideRemove (pl_outside_fib_index pool)) (installed_prefixes pool)
              else [] in
            let adds := map (OutsideAdd fib_index) (pl_outside_prefixes pool) in
            let pool :=
              pool⟪pl_outside_vrf_table_id := vrf_id⟫⟪pl_outside_fib_index := fib_index⟫
                  ⟪pl_outside_fib_valid := true⟫⟪pl_dpo_valid := true⟫
                  ⟪pl_outside_fib_entries := map (λ _, true) (pl_outside_prefixes pool)⟫ in
            Some (emit (removes ++ adds) (cm⟪cg_pools ::= insert p pool⟫), RvOk)
      end
  end.

Definition cgnat_pool_update (cm : cgnat_main_t) (pool_id max_sessions alg_bitmask : Z)
    (timeouts : option (list Z)) : option (cgnat_main_t * cgnat_rv) :=
  match cg_pool_by_id cm !! pool_id with
  | None => Some (cm, VNET_API_ERROR_NO_SUCH_ENTRY)
  | Some p =>
      pool ← cg_pools cm !! p;
      let pool := pool⟪pl_max_sessions_per_sub := max_sessions⟫⟪pl_alg_bitmask := alg_bitmask⟫ in
      let pool := match timeouts with Some t => pool⟪pl_timeouts := t⟫ | None => pool end in
      Some (cm⟪cg_pools ::= insert p pool⟫, RvOk)
  end.

(** ** Subscriber mappings *)

(** The deterministic override of the operator's choice: [inr] carries the outside
    address and port block to use, [inl] the error. *)
Definition mapping_target (pool : cgnat_pool_t) (inside_ip outside_ip port_start port_end : Z)
    (is_add : bool) : option (cgnat_rv + Z * Z * Z) :=
  if is_add && bool_decide (pl_mode pool = CGNAT_POOL_MODE_DETERMINISTIC) then
    match cgnat_det_lookup_params_inside pool inside_ip with
    | None => Some (inl VNET_API_ERROR_NO_SUCH_ENTRY)
    | Some dp =>
        match cgnat_det_forward dp inside_ip with
        | DetMiss => Some (inl VNET_API_ERROR_NO_SUCH_ENTRY)
        | DetTrap => None
        | DetOk t => Some (inr t)
        end
    end
  else Some (inr (outside_ip, port_start, port_end)).

Definition new_mapping (inside_ip outside_ip inside_vrf_id fib_index port_start port_end
    pool_index sw_if_index : Z) : cgnat_mapping_t :=
  mkMapping inside_ip outside_ip inside_vrf_id fib_index port_start port_end pool_index
    sw_if_index port_start 0 None
    (repeat 0 (Z.to_nat (u32 (u32 (port_end - port_start + 1) - 1) + 1))).

(** A duplicate add: a no-op when nothing drifted. *)
Definition same_mapping (m : cgnat_mapping_t) (outside_ip port_start port_end pool_index
    sw_if_index : Z) : bool :=
  (mp_outside_ip m =? outside_ip) && (mp_port_block_start m =? port_start) &&
  (mp_port_block_end m =? port_end) && (mp_pool_index m =? pool_index) &&
  (mp_sw_if_index m =? sw_if_index).

(** The loop that reaps a mapping's sessions through the head of their list. *)
Fixpoint reap_mapping (fuel : nat) (cm : cgnat_main_t) (mi now : Z) : option cgnat_main_t :=
  m ← cg_mappings cm !! mi;
  match mp_sessions_head m with
  | None => Some cm
  | Some si =>
      match fuel with
      | O => None
      | S fuel => cm ← cgnat_session_delete cm si now; reap_mapping fuel cm mi now
      end
  end.

Definition mapping_add (cm : cgnat_main_t) (mi pool_index sw_if_index inside_ip inside_vrf_id
    fib_index outside_ip port_start port_end : Z) (enable_feature : bool)
    : option (cgnat_main_t * cgnat_rv) :=
  match cg_inside_lookup cm !! (inside_ip, fib_index) with
  | Some i =>
      existing ← cg_mappings cm !! i;
      if same_mapping existing outside_ip port_start port_end pool_index sw_if_index
      then Some (cm, RvOk) else Some (cm, VNET_API_ERROR_ENTRY_NEEDS_REFRESH)
  | None =>
      let m := new_mapping inside_ip outside_ip inside_vrf_id fib_index port_start port_end
                 pool_index sw_if_index in
      let added := cm⟪cg_mappings ::= insert mi m⟫
                     ⟪cg_inside_lookup ::= insert (inside_ip, fib_index) mi⟫ in
      if enable_feature then
        let rv := sv_reass_rv sw_if_index in
        if rv =? 0
        then Some (emit [ReassEnable sw_if_index true; FeatureEnable sw_if_index true] added, RvOk)
        else (* rolled back *) Some (emit [ReassEnable sw_if_index true] cm, RvReass rv)
      else Some (added, RvOk)
  end.

Definition mapping_del (cm : cgnat_main_t) (now inside_ip fib_index : Z) (enable_feature : bool)
    : option (cgnat_main_t * cgnat_rv) :=
  match cg_inside_lookup cm !! (inside_ip, fib_index) with
  | None => Some (cm, RvOk)
  | Some mi =>
      m ← cg_mappings cm !! mi;
      let cm :=
        if enable_feature || negb (mp_sw_if_index m =? NONE)
        then emit [FeatureEnable (mp_sw_if_index m) false; ReassEnable (mp_sw_if_index m) false] cm
        else cm in
      cm ← reap_mapping (size (cg_sessions cm)) cm mi now;
      Some (cm⟪cg_inside_lookup ::= delete (inside_ip, fib_index)⟫
              ⟪cg_mappings ::= delete mi⟫, RvOk)
  end.

Definition cgnat_add_del_subscriber_mapping (cm : cgnat_main_t) (new_idx now pool_id sw_if_index
    inside_ip inside_vrf_id outside_ip port_start port_end : Z) (enable_feature is_add : bool)
    : option (cgnat_main_t * cgnat_rv) :=
  match cg_pool_by_id cm !! pool_id with
  | None => Some (cm, VNET_API_ERROR_NO_SUCH_ENTRY)
  | Some pool_index =>
      pool ← cg_pools cm !! pool_index;
      match fib_table_find inside_vrf_id with
      | None => Some (cm, VNET_API_ERROR_NO_SUCH_FIB)
      | Some fib_index =>
          target ← mapping_target pool inside_ip outside_ip port_start port_end is_add;
          match target with
          | inl rv => Some (cm, rv)
          | inr (outside_ip, port_start, port_end) =>
              if is_add
              then mapping_add cm new_idx pool_index sw_if_index inside_ip inside_vrf_id
                     fib_index outside_ip port_start port_end enable_feature
              else mapping_del cm now inside_ip fib_index enable_feature
          end
      end
  end.

(** ** Interfaces *)

Definition cgnat_enable_on_session (cm : cgnat_main_t) (pool_id sw_if_index : Z)
    (is_enable : bool) : cgnat_main_t * cgnat_rv :=
  match cg_pool_by_id cm !! pool_id with
  | None => (cm, VNET_API_ERROR_NO_SUCH_ENTRY)
  | Some _ =>
      if is_enable then
        let rv := sv_reass_rv sw_if_index in
        if rv =? 0 then (emit [ReassEnable sw_if_index true; FeatureEnable sw_if_index true] cm, RvOk)
        else (emit [ReassEnable sw_if_index true] cm, RvReass rv)
      else (emit [FeatureEnable sw_if_index false; ReassEnable sw_if_index false] cm, RvOk)
  end.

Definition cgnat_pool_outside_interface_add_del (cm : cgnat_main_t) (pool_id sw_if_index : Z)
    (is_add : bool) : option (cgnat_main_t * cgnat_rv) :=
  match cg_pool_by_id cm !! pool_id with
  | None => Some (cm, VNET_API_ERROR_NO_SUCH_ENTRY)
  | Some p =>
      pool ← cg_pools cm !! p;
      let found := find_index (Z.eqb sw_if_index) (pl_outside_sw_if_indexes pool) in
      match is_add, found with
      | true, Some _ => Some (cm, RvOk)
      | true, None =>
          let rv := sv_reass_rv sw_if_index in
          let cm := emit [ReassEnable sw_if_index true] cm in
          if rv =? 0
          then Some (upd_pool p (λ pool, pool⟪pl_outside_sw_if_indexes ::= λ l, l ++ [sw_if_index]⟫) cm,
                     RvOk)
          else Some (cm, RvReass rv)
      | false, Some i =>
          Some (upd_pool p (λ pool, pool⟪pl_outside_sw_if_indexes ::= λ l, vec_del1 l i⟫)
                  (emit [ReassEnable sw_if_index false] cm), RvOk)
      | false, None => Some (cm, VNET_API_ERROR_NO_SUCH_ENTRY)
      end
  end.

(** ** Prefixes *)

Definition cgnat_pool_add_outside_prefix (cm : cgnat_main_t) (pool_id : Z) (prefix : fib_prefix_t)
    : option (cgnat_main_t * cgnat_rv) :=
  match cg_pool_by_id cm !! pool_id with
  | None => Some (cm, VNET_API_ERROR_NO_SUCH_ENTRY)
  | Some p =>
      pool ← cg_pools cm !! p;
      if bool_decide (prefix ∈ pl_outside_prefixes pool) then Some (cm, RvOk)
      else
        let valid := pl_outside_fib_valid pool in
        let cm := upd_pool p (λ pool,
            pool⟪pl_outside_prefixes ::= λ l, l ++ [prefix]⟫
                ⟪pl_outside_fib_entries ::= λ l, l ++ [valid]⟫
                ⟪pl_dpo_valid ::= λ v, v || valid⟫) cm in
        Some (if valid then emit [OutsideAdd (pl_outside_fib_index pool) prefix] cm else cm, RvOk)
  end.

Definition cgnat_pool_del_outside_prefix (cm : cgnat_main_t) (pool_id : Z) (prefix : fib_prefix_t)
    : option (cgnat_main_t * cgnat_rv) :=
  match cg_pool_by_id cm !! pool_id with
  | None => Some (cm, VNET_API_ERROR_NO_SUCH_ENTRY)
  | Some p =>
      pool ← cg_pools cm !! p;
      match find_index (λ q, bool_decide (q = prefix)) (pl_outside_prefixes pool) with
      | None => Some (cm, VNET_API_ERROR_NO_SUCH_ENTRY)
      | Some i =>
          let installed := pl_outside_fib_valid pool && nth i (pl_outside_fib_entries pool) false in
          let cm := if installed then emit [OutsideRemove (pl_outside_fib_index pool) prefix] cm
                    else cm in
          Some (upd_pool p (λ pool,
            pool⟪pl_outside_prefixes ::= λ l, vec_del1 l i⟫
                ⟪pl_outside_fib_entries ::= λ l, vec_del1 l i⟫) cm, RvOk)
      end
  end.

Definition same_inside (prefix : fib_prefix_t) (vrf_id : Z) (e : cgnat_inside_prefix_entry_t) : bool :=
  bool_decide (ip_prefix e = prefix) && (ip_vrf_id e =? vrf_id).

Definition cgnat_pool_inside_prefix_add_del (cm : cgnat_main_t) (pool_id : Z)
    (prefix : fib_prefix_t) (vrf_id : Z) (is_add : bool) : option (cgnat_main_t * cgnat_rv) :=
  match cg_pool_by_id cm !! pool_id with
  | None => Some (cm, VNET_API_ERROR_NO_SUCH_ENTRY)
  | Some p =>
      pool ← cg_pools cm !! p;
      match fib_table_find vrf_id with
      | None => Some (cm, VNET_API_ERROR_NO_SUCH_FIB)
      | Some fib_index =>
          match find_index (same_inside prefix vrf_id) (pl_inside_prefixes pool), is_add with
          | Some _, true => Some (cm, RvOk)
          | Some i, false =>
              Some (upd_pool p (λ pool, pool⟪pl_inside_prefixes ::= λ l, vec_del1 l i⟫) cm, RvOk)
          | None, false => Some (cm, RvOk)
          | None, true =>
              Some (upd_pool p (λ pool, pool⟪pl_inside_prefixes ::= λ l,
                      l ++ [mkInsidePrefix prefix vrf_id fib_index]⟫) cm, RvOk)
          end
      end
  end.

Definition cgnat_add_del_bypass (cm : cgnat_main_t) (new_idx : Z) (prefix : fib_prefix_t)
    (vrf_id : Z) (is_add : bool) : cgnat_main_t * cgnat_rv :=
  match fib_table_find vrf_id with
  | None => (cm, VNET_API_ERROR_NO_SUCH_FIB)
  | Some fib_index =>
      if is_add then
        (emit [BypassAdd fib_index prefix]
           (cm⟪cg_bypass_entries ::= insert new_idx (mkBypass prefix fib_index)⟫
              ⟪cg_bypass_entry_count ::= λ n, u32 (n + 1)⟫), RvOk)
      else
        match List.find (λ i, match cg_bypass_entries cm !! i with
                              | Some be => (be_fib_index be =? fib_index) &&
                                           bool_decide (be_prefix be = prefix)
                              | None => false
                              end) (pool_indices (cg_bypass_entries cm)) with
        | None => (cm, RvOk)
        | Some i =>
            (emit [BypassRemove fib_index prefix]
               (cm⟪cg_bypass_entries ::= delete i⟫
                  ⟪cg_bypass_entry_count ::= λ n, u32 (n - 1)⟫), RvOk)
        end
  end.

(** ** The API handlers that compute deterministic parameters *)

(** Adding an inside prefix to a deterministic pool appends its parameters, a
    duplicate add too; removing one leaves them. *)
Definition add_del_inside_prefix_handler (cm : cgnat_main_t) (pool_id base len vrf_id : Z)
    (is_add : bool) : option (cgnat_main_t * cgnat_rv) :=
  match cg_pool_by_id cm !! pool_id with
  | None => Some (cm, VNET_API_ERROR_NO_SUCH_ENTRY)
  | Some p =>
      '(cm, rv) ← cgnat_pool_inside_prefix_add_del cm pool_id (mkPrefix len base) vrf_id is_add;
      if negb (bool_decide (rv = RvOk)) then Some (cm, rv)
      else
        pool ← cg_pools cm !! p;
        if is_add && bool_decide (pl_mode pool = CGNAT_POOL_MODE_DETERMINISTIC)
        then Some (upd_pool p (λ pool, pool⟪pl_det_params ::= λ l, l ++ [det_inside_params pool base len]⟫) cm, RvOk)
        else Some (cm, RvOk)
  end.

(** Adding an outside address completes the last parameters. *)
Definition add_del_outside_address_handler (cm : cgnat_main_t) (pool_id base len : Z)
    (is_add : bool) : option (cgnat_main_t * cgnat_rv) :=
  match cg_pool_by_id cm !! pool_id with
  | None => Some (cm, VNET_API_ERROR_NO_SUCH_ENTRY)
  | Some p =>
      pool ← cg_pools cm !! p;
      let cm :=
        if is_add && bool_decide (pl_mode pool = CGNAT_POOL_MODE_DETERMINISTIC)
        then upd_pool p (λ pool, pool⟪pl_det_params ::= λ l,
               alter (λ dp, det_outside_params dp base len) (length l - 1)%nat l⟫) cm
        else cm in
      if is_add then cgnat_pool_add_outside_prefix cm pool_id (mkPrefix len base)
      else cgnat_pool_del_outside_prefix cm pool_id (mkPrefix len base)
  end.

End Config.
