(* ===== verification/CgnatNodes.v ===== *)
(** The four nodes: [osvbng_cgnat_in2out.c] and [osvbng_cgnat_out2in.c].

    A packet is the bytes of its buffer with the offset of its IPv4 header; fields
    are loads at the offsets of RFC 791, 793, 768 and 792.  A node's step takes the
    state and one packet to the state, the packet and where it goes.  Counters and
    traces are left out.  [None] is an access to a freed pool entry. *)

From S2P Require Import Prelude Dll CgnatTypes CgnatSession.

(** ** Packets *)

(** [rs_] fields are the metadata of shallow virtual reassembly. *)
Record nat_buffer := mkNatBuffer {
  nb_data : Z → Z;
  nb_ip : Z;                          (* vlib_buffer_get_current *)
  nb_sw_if_index_rx : Z;
  nb_sw_if_index_tx : Z;              (* carries a FIB index after translation *)
  nb_length_in_chain : Z;
  rs_ip_proto : Z;
  rs_l4_hdr_truncated : bool;
  rs_is_non_first_fragment : bool;
  rs_l4_src_port : Z;
  rs_l4_dst_port : Z;
  rs_icmp_type_or_tcp_flags : Z
}.
#[export] Instance eta_nat_buffer : Eta nat_buffer := λ b,
  mkNatBuffer (nb_data b) (nb_ip b) (nb_sw_if_index_rx b) (nb_sw_if_index_tx b)
    (nb_length_in_chain b) (rs_ip_proto b) (rs_l4_hdr_truncated b)
    (rs_is_non_first_fragment b) (rs_l4_src_port b) (rs_l4_dst_port b)
    (rs_icmp_type_or_tcp_flags b).

Definition ip4_length (d : Z → Z) (ip : Z) : Z := clib_net_to_host_u16 (ld16 d (ip + 2)).
Definition ip4_protocol (d : Z → Z) (ip : Z) : Z := d (ip + 9).
Definition ip4_checksum (d : Z → Z) (ip : Z) : Z := ld16 d (ip + 10).
Definition ip4_src (d : Z → Z) (ip : Z) : Z := ld32 d (ip + 12).
Definition ip4_dst (d : Z → Z) (ip : Z) : Z := ld32 d (ip + 16).

Definition SIZEOF_IP4 : Z := 20.
Definition SIZEOF_UDP : Z := 8.
Definition SIZEOF_ICMP : Z := 4.
Definition SIZEOF_ICMP_ECHO : Z := 4.

Inductive nat_next :=
  | NextDrop (e : cgnat_error_t)
  | NextSlowpath
  | NextFeature              (* stays on the ip4-unicast arc *)
  | NextLookup.              (* ip4-lookup *)

(** A step's result. *)
Definition nat_step_result : Type := cgnat_main_t * nat_buffer * nat_next.

Section Nodes.

Context `{NatVpp}.

Definition is_echo (icmp_type : Z) : bool :=
  (icmp_type =? ICMP4_echo_request) || (icmp_type =? ICMP4_echo_reply).

(** ** Translation *)

(** The new checksum of a header whose sum changes by [delta]. *)
Definition csum_apply (checksum delta : Z) : Z := ip_csum_fold (ip_csum_add_even checksum delta).

(** Rewriting the transport header at [l4]: the port at [port_off], the checksum. *)
Definition rewrite_l4 (proto port_off new_port delta l4 : Z) (d : Z → Z) : Z → Z :=
  if proto =? IP_PROTOCOL_TCP then
    let d := st16 d (l4 + port_off) new_port in
    st16 d (l4 + 16) (csum_apply (ld16 d (l4 + 16)) delta)
  else if proto =? IP_PROTOCOL_UDP then
    let old_checksum := ld16 d (l4 + 6) in
    let d := st16 d (l4 + port_off) new_port in
    if old_checksum =? 0 then d
    else
      let c := csum_apply old_checksum delta in
      st16 d (l4 + 6) (if c =? 0 then 65535 else c)
  else if proto =? IP_PROTOCOL_ICMP then
    if is_echo (d l4) then
      let d := st16 d (l4 + 4) new_port in
      st16 d (l4 + 2) (csum_apply (ld16 d (l4 + 2)) delta)
    else d
  else d.

(** Rewriting the IPv4 header's address at [addr_off], then what follows it. *)
Definition rewrite_packet (proto addr_off port_off new_addr new_port l3 l4 ip : Z) (d : Z → Z)
    : Z → Z :=
  let d := st32 d (ip + addr_off) new_addr in
  let d := st16 d (ip + 10) (csum_apply (ip4_checksum d ip) l3) in
  rewrite_l4 proto port_off new_port l4 (ip + ip4_header_bytes d ip) d.

(** The session's bookkeeping for one packet. *)
Definition touch_session (now len : Z) (s : cgnat_session_t) : cgnat_session_t :=
  s⟪ss_last_active := now⟫⟪ss_total_pkts ::= λ n, u64 (n + 1)⟫
   ⟪ss_total_bytes ::= λ n, u64 (n + len)⟫.

(** The TCP state machine, for a TCP packet whose header is at [l4]. *)
Definition track_tcp (cm : cgnat_main_t) (proto : Z) (d : Z → Z) (l4 : Z) (dir : cgnat_dir)
    (now : Z) (s : cgnat_session_t) : option cgnat_session_t :=
  if proto =? IP_PROTOCOL_TCP then
    pool ← cg_pools cm !! ss_pool_index s;
    Some (cgnat_set_tcp_session_state s pool (d (l4 + 13)) dir now)
  else Some s.

Definition put_session (si : Z) (s : cgnat_session_t) (cm : cgnat_main_t) : cgnat_main_t :=
  cm⟪cg_sessions ::= insert si s⟫.

Definition cgnat_in2out_translate (cm : cgnat_main_t) (b : nat_buffer) (si : Z)
    (s : cgnat_session_t) (proto now : Z) : option (cgnat_main_t * nat_buffer) :=
  let f := ss_i2o s in
  let s := touch_session now (nb_length_in_chain b) s in
  let d := rewrite_packet proto 12 0 (nf_rewrite_saddr f) (nf_rewrite_sport f)
             (nf_l3_csum_delta f) (nf_l4_csum_delta f) (nb_ip b) (nb_data b) in
  s ← track_tcp cm proto d (nb_ip b + ip4_header_bytes d (nb_ip b)) CGNAT_TCP_DIR_I2O now s;
  Some (put_session si s cm, b⟪nb_data := d⟫).

Definition cgnat_out2in_translate (cm : cgnat_main_t) (b : nat_buffer) (si : Z)
    (s : cgnat_session_t) (proto now : Z) : option (cgnat_main_t * nat_buffer) :=
  let f := ss_o2i s in
  let s := touch_session now (nb_length_in_chain b) s in
  let d := rewrite_packet proto 16 2 (nf_rewrite_daddr f) (nf_rewrite_dport f)
             (nf_l3_csum_delta f) (nf_l4_csum_delta f) (nb_ip b) (nb_data b) in
  s ← track_tcp cm proto d (nb_ip b + ip4_header_bytes d (nb_ip b)) CGNAT_TCP_DIR_O2I now s;
  Some (put_session si s cm, b⟪nb_data := d⟫).

(** ** Classification *)

Definition cgnat_in2out_ports_from_reass (b : nat_buffer) (proto : Z)
    : cgnat_error_t + Z * Z :=
  if negb (rs_ip_proto b =? proto) then inl CGNAT_ERROR_NO_REASS_METADATA
  else if rs_l4_hdr_truncated b then inl CGNAT_ERROR_NO_REASS_METADATA
  else if rs_is_non_first_fragment b then inl CGNAT_ERROR_FRAGMENT_DROP
  else if (proto =? IP_PROTOCOL_TCP) || (proto =? IP_PROTOCOL_UDP) then
    inr (rs_l4_src_port b, rs_l4_dst_port b)
  else if proto =? IP_PROTOCOL_ICMP then
    let icmp_type := rs_icmp_type_or_tcp_flags b in
    if is_echo icmp_type then inr (rs_l4_src_port b, rs_l4_src_port b)
    else if negb (icmp_type_is_error_message icmp_type) then inl CGNAT_ERROR_BAD_ICMP_TYPE
    else inr (0, 0)
  else inr (0, 0).

Definition cgnat_out2in_classify (d : Z → Z) (ip proto : Z) : cgnat_error_t + Z * Z :=
  let ip_len := ip4_length d ip in
  let hdr_len := ip4_header_bytes d ip in
  let l4 := ip + hdr_len in
  if negb (ip4_get_fragment_offset d ip =? 0) then inl CGNAT_ERROR_FRAGMENT_DROP
  else if (proto =? IP_PROTOCOL_TCP) || (proto =? IP_PROTOCOL_UDP) then
    if ip_len <? hdr_len + SIZEOF_UDP then inl CGNAT_ERROR_TRUNCATED
    else inr (ld16 d l4, ld16 d (l4 + 2))
  else if proto =? IP_PROTOCOL_ICMP then
    if ip_len <? hdr_len + SIZEOF_ICMP + SIZEOF_ICMP_ECHO then inl CGNAT_ERROR_TRUNCATED
    else if is_echo (d l4) then inr (ld16 d (l4 + 4), ld16 d (l4 + 4))
    else if negb (icmp_type_is_error_message (d l4)) then inl CGNAT_ERROR_BAD_ICMP_TYPE
    else inr (0, 0)
  else inr (0, 0).

(** ** cgnat-in2out *)

Definition cgnat_in2out_node (cm : cgnat_main_t) (b : nat_buffer) (now : Z)
    : option nat_step_result :=
  let d := nb_data b in
  let ip := nb_ip b in
  let proto := ip4_protocol d ip in
  match cgnat_in2out_ports_from_reass b proto with
  | inl CGNAT_ERROR_FRAGMENT_DROP => Some (cm, b, NextSlowpath)
  | inl e => Some (cm, b, NextDrop e)
  | inr (src_port, dst_port) =>
      let fib_index := fib_index_by_sw_if_index (nb_sw_if_index_rx b) in
      if cgnat_bypass_check cm (ip4_src d ip) fib_index then Some (cm, b, NextFeature)
      else if cgnat_is_local_receive fib_index (ip4_dst d ip) then Some (cm, b, NextFeature)
      else
        match cgnat_mapping_lookup cm (ip4_src d ip) fib_index with
        | None => Some (cm, b, NextDrop CGNAT_ERROR_NO_MAPPING)
        | Some (_, m) =>
            pool ← cg_pools cm !! mp_pool_index m;
            if negb (pl_outside_fib_valid pool)
            then Some (cm, b, NextDrop CGNAT_ERROR_NO_POOL)
            else
              match cgnat_session_lookup_in2out cm (ip4_src d ip) (ip4_dst d ip) src_port
                      dst_port proto fib_index with
              | None => Some (cm, b, NextSlowpath)
              | Some (si, s) =>
                  '(cm, b) ← cgnat_in2out_translate cm b si s proto now;
                  Some (cm, b⟪nb_sw_if_index_tx := pl_outside_fib_index pool⟫, NextFeature)
              end
        end
  end.

(** ** Quoted packets of ICMP errors *)

(** The tuple of the quoted packet at [inner]: its own source and destination port,
    or the echo identifier twice. *)
Definition inner_ports (d : Z → Z) (inner : Z) : option (Z * Z) :=
  let proto := ip4_protocol d inner in
  let l4 := ip4_next_header d inner in
  if (proto =? IP_PROTOCOL_TCP) || (proto =? IP_PROTOCOL_UDP)
  then Some (ld16 d l4, ld16 d (l4 + 2))
  else if proto =? IP_PROTOCOL_ICMP then Some (ld16 d (l4 + 4), ld16 d (l4 + 4))
  else None.

Definition inner_truncated (d : Z → Z) (ip inner : Z) : bool :=
  let ip_len := ip4_length d ip in
  let inner_off := u16 (inner - ip) in
  (ip_len <? inner_off + SIZEOF_IP4) || (ip_len <? inner_off + ip4_header_bytes d inner + 8).

(** Rewriting the quoted transport header: the port at [port_off]. *)
Definition rewrite_inner_l4 (proto port_off new_port delta l4 : Z) (d : Z → Z) : Z → Z :=
  if (proto =? IP_PROTOCOL_TCP) || (proto =? IP_PROTOCOL_UDP) then
    let d := st16 d (l4 + port_off) new_port in
    if proto =? IP_PROTOCOL_UDP then cgnat_udp_csum_update d l4 delta else d
  else if proto =? IP_PROTOCOL_ICMP then
    let old_id := ld16 d (l4 + 4) in
    if old_id =? new_port then d
    else
      let d := st16 d (l4 + 2)
                 (ip_csum_fold (ip_csum_update (ld16 d (l4 + 2)) old_id new_port)) in
      st16 d (l4 + 4) new_port
  else d.

(** Rewriting an ICMP error: the outer address at [addr_off], the quoted address at
    [inner_addr_off], the quoted transport header, and the ICMP checksum anew. *)
Definition rewrite_icmp_error (addr_off inner_addr_off port_off new_addr new_port l3 l4 ip icmp
    inner : Z) (d : Z → Z) : Z → Z :=
  let proto := ip4_protocol d inner in
  let inner_l4 := ip4_next_header d inner in
  let d := st32 d (ip + addr_off) new_addr in
  let d := st16 d (ip + 10) (csum_apply (ip4_checksum d ip) l3) in
  let d := st32 d (inner + inner_addr_off) new_addr in
  let d := st16 d (inner + 10) (csum_apply (ip4_checksum d inner) l3) in
  let d := rewrite_inner_l4 proto port_off new_port l4 inner_l4 d in
  let d := st16 d (icmp + 2) 0 in
  let sum := ip_incremental_checksum_buffer d icmp (ip4_length d ip - ip4_header_bytes d ip) in
  st16 d (icmp + 2) (u16 (Z.lnot (ip_csum_fold sum))).

(** An error about a query does not refresh the query's session. *)
Definition touch_error (now len inner_proto : Z) (s : cgnat_session_t) : cgnat_session_t :=
  let s := if inner_proto =? IP_PROTOCOL_ICMP then s else s⟪ss_last_active := now⟫ in
  s⟪ss_total_pkts ::= λ n, u64 (n + 1)⟫⟪ss_total_bytes ::= λ n, u64 (n + len)⟫.

Definition in2out_icmp_error (cm : cgnat_main_t) (b : nat_buffer) (fib_index now : Z)
    : option nat_step_result :=
  let d := nb_data b in
  let ip := nb_ip b in
  let icmp := ip4_next_header d ip in
  let inner := icmp + SIZEOF_ICMP + SIZEOF_ICMP_ECHO in
  if inner_truncated d ip inner then Some (cm, b, NextDrop CGNAT_ERROR_TRUNCATED)
  else
    let inner_proto := ip4_protocol d inner in
    match inner_ports d inner with
    | None => Some (cm, b, NextDrop CGNAT_ERROR_NO_SESSION)
    | Some (inner_sport, inner_dport) =>
        match cgnat_session_lookup_in2out cm (ip4_dst d inner) (ip4_src d inner) inner_dport
                inner_sport inner_proto fib_index with
        | None => Some (cm, b, NextDrop CGNAT_ERROR_NO_SESSION)
        | Some (si, s) =>
            let f := ss_i2o s in
            let d := rewrite_icmp_error 12 16 2 (nf_rewrite_saddr f) (nf_rewrite_sport f)
                       (nf_l3_csum_delta f) (nf_l4_csum_delta f) ip icmp inner d in
            Some (put_session si (touch_error now (nb_length_in_chain b) inner_proto s) cm,
                  b⟪nb_data := d⟫⟪nb_sw_if_index_tx := nf_rewrite_fib_index f⟫, NextFeature)
        end
    end.

(** A non-first fragment: only the address and the IPv4 checksum. *)
Definition rewrite_fragment (addr_off new_addr l3 ip : Z) (d : Z → Z) : Z → Z :=
  let d := st32 d (ip + addr_off) new_addr in
  st16 d (ip + 10) (csum_apply (ip4_checksum d ip) l3).

(** A new flow: a port where the protocol has ports, and a session.  On failure the
    allocated port is given back; [release_now] is the clock of that call. *)
Definition in2out_new_session (cm : cgnat_main_t) (si fi mi : Z) (m : cgnat_mapping_t)
    (remote_ip src_port dst_port proto now release_now : Z)
    : option (cgnat_main_t * (cgnat_error_t + Z)) :=
  let needs_port := negb (cgnat_is_unk_proto proto) in
  let '(m, outside_port) := if needs_port then cgnat_port_alloc m now else (m, 0) in
  let cm := cm⟪cg_mappings ::= insert mi m⟫ in
  if needs_port && (outside_port =? 0) then Some (cm, inl CGNAT_ERROR_PORT_EXHAUSTED)
  else
    '(cm, r) ← cgnat_session_create cm si fi mi remote_ip dst_port proto outside_port src_port now;
    match r with
    | Some si => Some (cm, inr si)
    | None =>
        let cm := if needs_port
                  then cm⟪cg_mappings ::= alter (λ m, cgnat_port_free m outside_port release_now) mi⟫
                  else cm in
        Some (cm, inl CGNAT_ERROR_SESSION_LIMIT)
    end.

(** ** cgnat-in2out-slowpath *)

Definition in2out_slow_flow (cm : cgnat_main_t) (b : nat_buffer) (si fi fib_index now : Z)
    : option nat_step_result :=
  let d := nb_data b in
  let ip := nb_ip b in
  let proto := ip4_protocol d ip in
  match cgnat_in2out_ports_from_reass b proto with
  | inl e => Some (cm, b, NextDrop e)
  | inr (src_port, dst_port) =>
      match cgnat_mapping_lookup cm (ip4_src d ip) fib_index with
      | None => Some (cm, b, NextDrop CGNAT_ERROR_NO_MAPPING)
      | Some (mi, m) =>
          pool ← cg_pools cm !! mp_pool_index m;
          if negb (pl_outside_fib_valid pool)
          then Some (cm, b, NextDrop CGNAT_ERROR_NO_POOL)
          else
            '(cm, r) ←
              match cgnat_session_lookup_in2out cm (ip4_src d ip) (ip4_dst d ip) src_port dst_port
                      proto fib_index with
              | Some (sj, _) => Some (cm, inr sj)
              | None => in2out_new_session cm si fi mi m (ip4_dst d ip) src_port dst_port proto
                          now now
              end;
            match r with
            | inl e => Some (cm, b, NextDrop e)
            | inr sj =>
                s ← cg_sessions cm !! sj;
                '(cm, b) ← cgnat_in2out_translate cm b sj s proto now;
                Some (cm, b⟪nb_sw_if_index_tx := pl_outside_fib_index pool⟫, NextFeature)
            end
      end
  end.

Definition cgnat_in2out_slowpath_node (cm : cgnat_main_t) (b : nat_buffer) (si fi now : Z)
    : option nat_step_result :=
  let d := nb_data b in
  let ip := nb_ip b in
  let proto := ip4_protocol d ip in
  let fib_index := fib_index_by_sw_if_index (nb_sw_if_index_rx b) in
  if rs_is_non_first_fragment b then
    match cgnat_frag_rewrite_lookup cm (ip4_src d ip) (ip4_dst d ip) proto fib_index with
    | None => Some (cm, b, NextDrop CGNAT_ERROR_FRAGMENT_DROP)
    | Some (_, fr) =>
        Some (cm, b⟪nb_data ::= rewrite_fragment 12 (fr_outside_ip fr) (fr_l3_csum_delta_i2o fr) ip⟫
                   ⟪nb_sw_if_index_tx := fr_outside_fib_index fr⟫, NextFeature)
    end
  else if (proto =? IP_PROTOCOL_ICMP) &&
          icmp_type_is_error_message (rs_icmp_type_or_tcp_flags b)
  then in2out_icmp_error cm b fib_index now
  else in2out_slow_flow cm b si fi fib_index now.

(** ** cgnat-out2in *)

Definition cgnat_out2in_node (cm : cgnat_main_t) (b : nat_buffer) (now : Z)
    : option nat_step_result :=
  let d := nb_data b in
  let ip := nb_ip b in
  let proto := ip4_protocol d ip in
  match cgnat_out2in_classify d ip proto with
  | inl CGNAT_ERROR_FRAGMENT_DROP => Some (cm, b, NextSlowpath)
  | inl e => Some (cm, b, NextDrop e)
  | inr (src_port, dst_port) =>
      let fib_index := fib_index_by_sw_if_index (nb_sw_if_index_rx b) in
      match cgnat_session_lookup_out2in cm (ip4_dst d ip) (ip4_src d ip) dst_port src_port proto
              fib_index with
      | None => Some (cm, b, NextSlowpath)
      | Some (si, s) =>
          '(cm, b) ← cgnat_out2in_translate cm b si s proto now;
          Some (cm, b⟪nb_sw_if_index_tx := nf_rewrite_fib_index (ss_o2i s)⟫, NextLookup)
      end
  end.

(** ** cgnat-out2in-slowpath *)

Definition out2in_icmp_error (cm : cgnat_main_t) (b : nat_buffer) (fib_index now : Z)
    : option nat_step_result :=
  let d := nb_data b in
  let ip := nb_ip b in
  let icmp := ip4_next_header d ip in
  let inner := icmp + SIZEOF_ICMP + SIZEOF_ICMP_ECHO in
  if inner_truncated d ip inner then Some (cm, b, NextDrop CGNAT_ERROR_TRUNCATED)
  else
    let inner_proto := ip4_protocol d inner in
    match inner_ports d inner with
    | None => Some (cm, b, NextDrop CGNAT_ERROR_NO_SESSION)
    | Some (inner_sport, inner_dport) =>
        match cgnat_session_lookup_out2in cm (ip4_src d inner) (ip4_dst d inner) inner_sport
                inner_dport inner_proto fib_index with
        | None => Some (cm, b, NextDrop CGNAT_ERROR_NO_SESSION)
        | Some (si, s) =>
            let f := ss_o2i s in
            let d := rewrite_icmp_error 16 12 0 (nf_rewrite_daddr f) (nf_rewrite_dport f)
                       (nf_l3_csum_delta f) (nf_l4_csum_delta f) ip icmp inner d in
            Some (put_session si (touch_error now (nb_length_in_chain b) inner_proto s) cm,
                  b⟪nb_data := d⟫⟪nb_sw_if_index_tx := nf_rewrite_fib_index f⟫, NextLookup)
        end
    end.

Definition cgnat_out2in_slowpath_node (cm : cgnat_main_t) (b : nat_buffer) (now : Z)
    : option nat_step_result :=
  let d := nb_data b in
  let ip := nb_ip b in
  let proto := ip4_protocol d ip in
  let fib_index := fib_index_by_sw_if_index (nb_sw_if_index_rx b) in
  if negb (ip4_get_fragment_offset d ip =? 0) then
    match cgnat_frag_rewrite_lookup cm (ip4_src d ip) (ip4_dst d ip) proto fib_index with
    | None => Some (cm, b, NextDrop CGNAT_ERROR_FRAGMENT_DROP)
    | Some (_, fr) =>
        Some (cm, b⟪nb_data ::= rewrite_fragment 16 (fr_inside_ip fr) (fr_l3_csum_delta_o2i fr) ip⟫
                   ⟪nb_sw_if_index_tx := fr_inside_fib_index fr⟫, NextLookup)
    end
  else if (proto =? IP_PROTOCOL_ICMP) && icmp_type_is_error_message (d (ip4_next_header d ip))
  then out2in_icmp_error cm b fib_index now
  else Some (cm, b, NextDrop CGNAT_ERROR_NO_SESSION).

End Nodes.
