(* ===== verification/CgnatSafety.v ===== *)
(** Every operation of the NAT keeps the invariant of [CgnatInv].

    Packets through the four nodes: none touches a freed entry, and each leaves a state
    in which the next cannot either.  Expiry and configuration are in [CgnatRun] and
    [CgnatSystem]. *)

From S2P Require Import Prelude Dll CgnatTypes CgnatDet CgnatSession CgnatInv.
From S2P Require Import CgnatConfig CgnatNodes.

Section Safety.

Context `{NatVpp} (I : gset Z).
Notation nat_ok := (nat_ok I).

(** ** A session's bookkeeping *)

(** What the invariant reads of a session. *)
Definition session_id (s : cgnat_session_t) :=
  (ss_i2o s, ss_o2i s, ss_mapping_index s, ss_pool_index s, ss_frag_rewrite_index s,
   ss_mapping_next s, ss_mapping_prev s).

Lemma in2out_ok_views E E' T :
  (∀ si, (λ s, flow_key (ss_i2o s)) <$> E' !! si = (λ s, flow_key (ss_i2o s)) <$> E !! si) →
  in2out_ok E T → in2out_ok E' T.
Proof.
  intros Hv Hok k si. rewrite (Hok k si). specialize (Hv si).
  destruct (E !! si) as [s|], (E' !! si) as [s'|]; try done.
  apply (inj Some) in Hv. cbv beta in Hv.
  split; intros (s0 & [= <-] & <-); eexists; (split; [done|]); congruence.
Qed.

Lemma out2in_ok_views E E' T :
  (∀ si, (λ s, flow_key (ss_o2i s)) <$> E' !! si = (λ s, flow_key (ss_o2i s)) <$> E !! si) →
  out2in_ok E T → out2in_ok E' T.
Proof.
  intros Hv Hok k si Hk. destruct (Hok k si Hk) as (s & Hs & He). specialize (Hv si).
  rewrite Hs in Hv. destruct (E' !! si) as [s'|]; [|done]. apply (inj Some) in Hv.
  exists s'. split; [done|]. rewrite <- He. exact Hv.
Qed.

Lemma frag_ok_insert E si s s' cm :
  E !! si = Some s → ss_frag_rewrite_index s' = ss_frag_rewrite_index s → ss_i2o s' = ss_i2o s →
  frag_ok I E cm → frag_ok I (<[si := s']> E) cm.
Proof.
  intros Hs Hf Hi [Hr Hl Ha]. split; [| |done].
  - intros fi r Hfi. destruct (Hr fi r Hfi) as (rm & p & []). exists rm, p. split; try done.
    + rewrite rec_count, (msum_insert _ E si s s' Hs). unfold uses. rewrite Hf. lia.
    + intros sj x [[<- <-]|[Hne Hx]]%lookup_insert_Some; [|eauto].
      rewrite Hi, Hf. by apply (rec_peers si).
  - intros sj x [[<- <-]|[Hne Hx]]%lookup_insert_Some; [|eauto]. rewrite Hf. eauto.
Qed.

Lemma put_session_ok cm si s s' :
  nat_ok cm → cg_sessions cm !! si = Some s → session_id s' = session_id s →
  nat_ok (put_session si s' cm).
Proof.
  intros [Hl Ho Hi Hout Hf Hs Hm Hin Hp Hby] Hsi Hid.
  unfold session_id in Hid. injection Hid as E1 E2 E3 E4 E5 E6 E7.
  assert (esess (put_session si s' cm) = <[si := erase s']> (esess cm)) as HE.
  { unfold esess, put_session. rproj. apply fmap_insert. }
  pose proof (esess_lookup _ _ _ Hsi) as Hei.
  assert (∀ {A} (f : cgnat_session_t → A), f (erase s') = f (erase s) → ∀ sj,
            f <$> (<[si := erase s']> (esess cm)) !! sj = f <$> esess cm !! sj) as Hv.
  { intros A f Hfe sj. destruct (decide (si = sj)) as [<-|].
    - rewrite lookup_insert_eq, Hei. simpl. by rewrite Hfe.
    - by rewrite lookup_insert_ne. }
  split; rewrite ?HE; unfold put_session; rproj; try done.
  - intros mi m Hmi. destruct (Hl mi m Hmi) as (l & [Hd Hmem Hc]). exists l. split; [| |done].
    + eapply dll_links; [|exact Hd]. intros i x Hil Hx.
      destruct (decide (si = i)) as [<-|]; [|rewrite lookup_insert_ne by done; by exists x].
      exists s'. rewrite lookup_insert_eq. split; [done|]. simplify_eq. by split.
    + intros sj. rewrite Hmem. destruct (decide (si = sj)) as [<-|].
      * rewrite lookup_insert_eq. split; intros (x & Hx & He); eexists; (split; [done|]); congruence.
      * by rewrite lookup_insert_ne.
  - intros sj x [[<- <-]|[Hne Hx]]%lookup_insert_Some; [|eauto].
    destruct (Ho si _ Hei) as (m & Hm1 & Hso). exists m.
    change (ss_mapping_index (erase s')) with (ss_mapping_index s'). rewrite E3. split; [done|].
    destruct Hso. split; change (ss_i2o (erase s')) with (ss_i2o s');
      change (ss_o2i (erase s')) with (ss_o2i s');
      change (ss_pool_index (erase s')) with (ss_pool_index s'); rewrite ?E1, ?E2, ?E4; done.
  - eapply in2out_ok_views; [|exact Hi]. apply Hv.
    change (ss_i2o (erase s')) with (ss_i2o s'). by rewrite E1.
  - eapply out2in_ok_views; [|exact Hout]. apply Hv.
    change (ss_o2i (erase s')) with (ss_o2i s'). by rewrite E2.
  - apply (frag_ok_frame I _ cm); [done|done|]. by apply (frag_ok_insert _ _ (erase s)).
  - rewrite map_size_insert_Some by eauto. done.
Qed.

Lemma touch_id now len s : session_id (touch_session now len s) = session_id s.
Proof. done. Qed.

Lemma touch_error_id now len p s : session_id (touch_error now len p s) = session_id s.
Proof. unfold touch_error. by destruct (p =? IP_PROTOCOL_ICMP). Qed.

Lemma tcp_transition_id s dir now : session_id (tcp_transition s dir now) = session_id s.
Proof. unfold tcp_transition. by destruct (ss_tcp_state s); case_match. Qed.

Lemma tcp_state_id s pool flags dir now :
  session_id (cgnat_set_tcp_session_state s pool flags dir now) = session_id s.
Proof.
  unfold cgnat_set_tcp_session_state.
  set (s1 := set_tcp_flags _ _ _). assert (session_id s1 = session_id s) as H1 by by destruct dir.
  rewrite <- H1, <- (tcp_transition_id s1 dir now). clearbody s1.
  destruct (_ =? tcp_flags_of s1 dir); [by rewrite tcp_transition_id|].
  by case_bool_decide.
Qed.

(** ** Lookups find what is there *)

Lemma lookup_in2out_live cm a b c d e f si s :
  cgnat_session_lookup_in2out cm a b c d e f = Some (si, s) → cg_sessions cm !! si = Some s.
Proof.
  unfold cgnat_session_lookup_in2out. destruct (cg_session_table_in2out cm !! _) as [j|]; simpl; [|done].
  destruct (cg_sessions cm !! j) as [x|] eqn:E; simpl; [|done]. by intros [= <- <-].
Qed.

Lemma lookup_out2in_live cm a b c d e f si s :
  cgnat_session_lookup_out2in cm a b c d e f = Some (si, s) → cg_sessions cm !! si = Some s.
Proof.
  unfold cgnat_session_lookup_out2in. destruct (cg_session_table_out2in cm !! _) as [j|]; simpl; [|done].
  destruct (cg_sessions cm !! j) as [x|] eqn:E; simpl; [|done]. by intros [= <- <-].
Qed.

(** A miss is a miss of the table. *)
Lemma lookup_in2out_miss cm a b c d e f :
  nat_ok cm → cgnat_session_lookup_in2out cm a b c d e f = None →
  cg_session_table_in2out cm !! cgnat_session_make_key a b c d e f = None.
Proof.
  intros Hok. unfold cgnat_session_lookup_in2out.
  destruct (cg_session_table_in2out cm !! _) as [j|] eqn:Ek; simpl; [|done].
  apply (nat_in2out _ _ Hok) in Ek as (s & Hs & _).
  apply esess_lookup_inv in Hs as (s' & -> & _). done.
Qed.

Lemma mapping_lookup_spec cm ip fib mi m :
  nat_ok cm → cgnat_mapping_lookup cm ip fib = Some (mi, m) →
  cg_mappings cm !! mi = Some m /\ mp_inside_ip m = ip /\ mp_inside_fib_index m = fib.
Proof.
  intros Hok. unfold cgnat_mapping_lookup.
  destruct (cg_inside_lookup cm !! _) as [j|] eqn:Ek; simpl; [|done].
  apply (nat_inside _ _ Hok) in Ek as (m0 & Hm0 & [= <- <-]). rewrite Hm0. simpl.
  by intros [= <- <-].
Qed.

Lemma session_pool cm si s :
  nat_ok cm → cg_sessions cm !! si = Some s → is_Some (cg_pools cm !! ss_pool_index s).
Proof.
  intros Hok Hs. destruct (nat_owner _ _ Hok si _ (esess_lookup _ _ _ Hs)) as (m & Hm & Hso).
  change (ss_pool_index s) with (ss_pool_index (erase s)).
  rewrite (so_pool _ _ Hso). by apply (nat_mappings _ _ Hok _ m Hm).
Qed.

(** ** Packets *)

(** A step that completes, and keeps the invariant. *)
Definition safe_step (r : option nat_step_result) : Prop :=
  exists cm b next, r = Some (cm, b, next) /\ nat_ok cm.

Lemma safe_same cm b next : nat_ok cm → safe_step (Some (cm, b, next)).
Proof. intros Hok. by exists cm, b, next. Qed.

Lemma track_tcp_ok cm proto d l4 dir now s :
  is_Some (cg_pools cm !! ss_pool_index s) →
  exists s', track_tcp cm proto d l4 dir now s = Some s' /\ session_id s' = session_id s.
Proof.
  intros [pool Hp]. unfold track_tcp. destruct (proto =? IP_PROTOCOL_TCP); [|by exists s].
  rewrite Hp. simpl. eexists. split; [done|]. apply tcp_state_id.
Qed.

Lemma in2out_translate_ok cm b si s proto now :
  nat_ok cm → cg_sessions cm !! si = Some s →
  exists cm' b', cgnat_in2out_translate cm b si s proto now = Some (cm', b') /\ nat_ok cm'.
Proof.
  intros Hok Hs. unfold cgnat_in2out_translate.
  edestruct (track_tcp_ok cm) as (s' & -> & Hid); [by eapply (session_pool cm si s)|].
  simpl. eexists _, _. split; [reflexivity|]. by apply (put_session_ok cm si s).
Qed.

Lemma out2in_translate_ok cm b si s proto now :
  nat_ok cm → cg_sessions cm !! si = Some s →
  exists cm' b', cgnat_out2in_translate cm b si s proto now = Some (cm', b') /\ nat_ok cm'.
Proof.
  intros Hok Hs. unfold cgnat_out2in_translate.
  edestruct (track_tcp_ok cm) as (s' & -> & Hid); [by eapply (session_pool cm si s)|].
  simpl. eexists _, _. split; [reflexivity|]. by apply (put_session_ok cm si s).
Qed.

Lemma in2out_node_ok cm b now : nat_ok cm → safe_step (cgnat_in2out_node cm b now).
Proof.
  intros Hok. unfold cgnat_in2out_node.
  destruct (cgnat_in2out_ports_from_reass b _) as [[]|[sp dp]]; try by apply safe_same.
  destruct (cgnat_bypass_check _ _ _); [by apply safe_same|].
  destruct (cgnat_is_local_receive _ _); [by apply safe_same|].
  destruct (cgnat_mapping_lookup _ _ _) as [[mi m]|] eqn:Em; [|by apply safe_same].
  destruct (mapping_lookup_spec _ _ _ _ _ Hok Em) as (Hm & _ & _).
  destruct (nat_mappings _ _ Hok _ m Hm) as (_ & [pool Hp] & _). rewrite Hp. simpl.
  destruct (negb _); [by apply safe_same|].
  destruct (cgnat_session_lookup_in2out _ _ _ _ _ _ _) as [[si s]|] eqn:Es; [|by apply safe_same].
  apply lookup_in2out_live in Es.
  destruct (in2out_translate_ok cm b si s (ip4_protocol (nb_data b) (nb_ip b)) now Hok Es)
    as (cm' & b' & -> & Hok'). simpl. by apply safe_same.
Qed.

Lemma out2in_node_ok cm b now : nat_ok cm → safe_step (cgnat_out2in_node cm b now).
Proof.
  intros Hok. unfold cgnat_out2in_node.
  destruct (cgnat_out2in_classify _ _ _) as [[]|[sp dp]]; try by apply safe_same.
  destruct (cgnat_session_lookup_out2in _ _ _ _ _ _ _) as [[si s]|] eqn:Es; [|by apply safe_same].
  apply lookup_out2in_live in Es.
  destruct (out2in_translate_ok cm b si s (ip4_protocol (nb_data b) (nb_ip b)) now Hok Es)
    as (cm' & b' & -> & Hok'). simpl. by apply safe_same.
Qed.

Lemma in2out_icmp_error_ok cm b fib now : nat_ok cm → safe_step (in2out_icmp_error cm b fib now).
Proof.
  intros Hok. unfold in2out_icmp_error.
  destruct (inner_truncated _ _ _); [by apply safe_same|].
  destruct (inner_ports _ _) as [[sp dp]|]; [|by apply safe_same].
  destruct (cgnat_session_lookup_in2out _ _ _ _ _ _ _) as [[si s]|] eqn:Es; [|by apply safe_same].
  apply lookup_in2out_live in Es. apply safe_same, (put_session_ok cm si s); [done|done|].
  apply touch_error_id.
Qed.

Lemma out2in_icmp_error_ok cm b fib now : nat_ok cm → safe_step (out2in_icmp_error cm b fib now).
Proof.
  intros Hok. unfold out2in_icmp_error.
  destruct (inner_truncated _ _ _); [by apply safe_same|].
  destruct (inner_ports _ _) as [[sp dp]|]; [|by apply safe_same].
  destruct (cgnat_session_lookup_out2in _ _ _ _ _ _ _) as [[si s]|] eqn:Es; [|by apply safe_same].
  apply lookup_out2in_live in Es. apply safe_same, (put_session_ok cm si s); [done|done|].
  apply touch_error_id.
Qed.

Lemma out2in_slowpath_ok cm b now : nat_ok cm → safe_step (cgnat_out2in_slowpath_node cm b now).
Proof.
  intros Hok. unfold cgnat_out2in_slowpath_node.
  destruct (negb _).
  { destruct (cgnat_frag_rewrite_lookup _ _ _ _ _) as [[fi r]|]; by apply safe_same. }
  destruct (_ && _); [by apply out2in_icmp_error_ok|by apply safe_same].
Qed.

(** The ports of a new flow: for ICMP both are the echo identifier, or zero. *)
Lemma reass_icmp_ports b proto sp dp :
  cgnat_in2out_ports_from_reass b proto = inr (sp, dp) → proto = IP_PROTOCOL_ICMP → dp = sp.
Proof.
  intros Hr ->. unfold cgnat_in2out_ports_from_reass in Hr.
  repeat case_match; simplify_eq; done.
Qed.

Lemma new_session_ok cm si fi mi m pool remote sp dp proto now rnow :
  nat_ok cm → cg_mappings cm !! mi = Some m → cg_pools cm !! mp_pool_index m = Some pool →
  pl_outside_fib_valid pool = true →
  cg_sessions cm !! si = None → cg_frag_rewrite_pool cm !! fi = None → frag_room cm →
  cg_session_table_in2out cm !! session_key m remote dp proto sp = None →
  exists cm' r,
    in2out_new_session cm si fi mi m remote sp dp proto now rnow = Some (cm', r) /\ nat_ok cm' /\
    match r with
    | inl _ => True
    | inr sj => exists s, cg_sessions cm' !! sj = Some s
    end.
Proof.
  intros Hok Hm Hp Hv Hsi Hfi Hroom Hk. unfold in2out_new_session.
  destruct (nat_mappings _ _ Hok _ m Hm) as (Hmok & _ & _).
  set (alloc := if negb (cgnat_is_unk_proto proto) then cgnat_port_alloc m now else (m, 0)).
  assert (exists m' p, alloc = (m', p) /\ mapping_ok m' /\ mapping_id m' = mapping_id m /\
            mp_sessions_head m' = mp_sessions_head m /\
            mp_session_count m' = mp_session_count m /\
            (p = 0 \/ mp_port_block_start m <= p <= mp_port_block_end m))
    as (m' & p & -> & Hmok' & Hid & Hh & Hc & Hpb).
  { unfold alloc. destruct (negb _).
    - destruct (cgnat_port_alloc m now) as [m' p] eqn:Ea. exists m', p. split; [done|].
      by apply port_alloc_mapping in Ea.
    - exists m, 0. by split_and!; try left. }
  set (cm1 := cm⟪cg_mappings ::= insert mi m'⟫).
  assert (nat_ok cm1) as Hok1 by (by apply (nat_ok_mapping I cm mi m)).
  assert (cg_mappings cm1 !! mi = Some m') as Hm1 by apply lookup_insert_eq.
  pose proof Hid as Hid'. unfold mapping_id in Hid'.
  injection Hid' as E1 E2 E3 E4 E5 E6 E7.
  destruct (negb (cgnat_is_unk_proto proto) && (p =? 0)) eqn:Edrop.
  { eexists _, _. split; [reflexivity|]. by split_and!. }
  destruct (create_ok I cm1 si fi mi m' pool remote dp proto p sp now)
    as (cm2 & r & Hcr & Hok2 & Hr); try done.
  { by rewrite E6. }
  { destruct Hmok'. unfold is_u16. lia. }
  { destruct (cgnat_is_unk_proto proto); [by left|right]. simpl in Edrop.
    destruct (Z.eqb_spec p 0); [done|]. rewrite E4, E5. destruct Hpb; [lia|done]. }
  { unfold session_key in *. by rewrite E1, E3. }
  rewrite Hcr. simpl. destruct r as [sj|].
  - destruct Hr as (-> & s & Hs & _). eexists _, _. split; [reflexivity|].
    split; [done|by exists s].
  - subst cm2. eexists _, _. split; [reflexivity|].
    destruct (negb (cgnat_is_unk_proto proto)); [|done]. split; [|done].
    assert (cm1⟪cg_mappings ::= alter (λ m0, cgnat_port_free m0 p rnow) mi⟫ =
            cm1⟪cg_mappings ::= insert mi (cgnat_port_free m' p rnow)⟫) as ->.
    { unfold upd at 1 2. by rewrite (alter_insert_lookup _ _ _ m'). }
    destruct (port_free_ok m' p rnow Hmok') as [Hf1 Hf2].
    apply (nat_ok_mapping I cm1 mi m'); try done.
Qed.

Lemma in2out_slow_flow_ok cm b si fi fib now :
  nat_ok cm → cg_sessions cm !! si = None → cg_frag_rewrite_pool cm !! fi = None → frag_room cm →
  safe_step (in2out_slow_flow cm b si fi fib now).
Proof.
  intros Hok Hsi Hfi Hroom. unfold in2out_slow_flow.
  destruct (cgnat_in2out_ports_from_reass b _) as [e|[sp dp]] eqn:Er; [by apply safe_same|].
  destruct (cgnat_mapping_lookup _ _ _) as [[mi m]|] eqn:Em; [|by apply safe_same].
  destruct (mapping_lookup_spec _ _ _ _ _ Hok Em) as (Hm & Hip & Hfib).
  destruct (nat_mappings _ _ Hok _ m Hm) as (_ & [pool Hp] & _). rewrite Hp. simpl.
  destruct (pl_outside_fib_valid pool) eqn:Hv; simpl; [|by apply safe_same].
  destruct (cgnat_session_lookup_in2out _ _ _ _ _ _ _) as [[sj s]|] eqn:Es; simpl.
  - apply lookup_in2out_live in Es. rewrite Es. simpl.
    destruct (in2out_translate_ok cm b sj s (ip4_protocol (nb_data b) (nb_ip b)) now Hok Es)
      as (cm' & b' & -> & Hok'). simpl. by apply safe_same.
  - apply (lookup_in2out_miss _ _ _ _ _ _ _ Hok) in Es.
    destruct (new_session_ok cm si fi mi m pool (ip4_dst (nb_data b) (nb_ip b)) sp dp
                (ip4_protocol (nb_data b) (nb_ip b)) now now)
      as (cm' & r & -> & Hok' & Hr); try done.
    { unfold session_key. rewrite Hip, Hfib. destruct (Z.eqb_spec (ip4_protocol (nb_data b) (nb_ip b))
        IP_PROTOCOL_ICMP) as [He|]; [|done]. by rewrite (reass_icmp_ports _ _ _ _ Er He) in Es. }
    simpl. destruct r as [e|sj]; [by apply safe_same|]. destruct Hr as [s Hs]. rewrite Hs. simpl.
    destruct (in2out_translate_ok cm' b sj s (ip4_protocol (nb_data b) (nb_ip b)) now Hok' Hs)
      as (cm'' & b' & -> & Hok''). simpl. by apply safe_same.
Qed.

Lemma in2out_slowpath_ok cm b si fi now :
  nat_ok cm → cg_sessions cm !! si = None → cg_frag_rewrite_pool cm !! fi = None → frag_room cm →
  safe_step (cgnat_in2out_slowpath_node cm b si fi now).
Proof.
  intros Hok Hsi Hfi Hroom. unfold cgnat_in2out_slowpath_node.
  destruct (rs_is_non_first_fragment b).
  { destruct (cgnat_frag_rewrite_lookup _ _ _ _ _) as [[fj r]|]; by apply safe_same. }
  destruct (_ && _); [by apply in2out_icmp_error_ok|by apply in2out_slow_flow_ok].
Qed.

End Safety.
