(* ===== verification/CgnatRun.v ===== *)
(** Runs of the NAT: packets, expiry and configuration in any order. *)

From S2P Require Import Prelude Dll CgnatTypes CgnatDet CgnatSession CgnatInv.
From S2P Require Import CgnatConfig CgnatNodes CgnatSafety.

Section Run.

Context `{NatVpp} (I : gset Z).
Notation nat_ok := (nat_ok I).

(** ** Reaping *)

Definition same_ids (cm cm' : cgnat_main_t) : Prop :=
  (∀ mi, mapping_id <$> cg_mappings cm' !! mi = mapping_id <$> cg_mappings cm !! mi) /\
  cg_pools cm' = cg_pools cm /\ cg_pool_by_id cm' = cg_pool_by_id cm.

Lemma reap_all_ok cm l now :
  nat_ok cm →
  exists cm', reap_all now cm l = Some cm' /\ nat_ok cm' /\ same_ids cm cm' /\
    ∀ si, esess cm' !! si = if bool_decide (si ∈ l) then None else esess cm !! si.
Proof.
  revert cm. induction l as [|si l IH]; intros cm Hok; simpl.
  { exists cm. split_and!; try done. }
  assert (exists cm1, reap now cm si = Some cm1 /\ nat_ok cm1 /\ same_ids cm cm1 /\
            esess cm1 = delete si (esess cm)) as (cm1 & -> & Hok1 & (Hs1 & Hp1 & Hb1) & He1).
  { unfold reap. destruct (cg_sessions cm !! si) as [s|] eqn:Es.
    - destruct (delete_ok I cm si s now Hok Es) as (cm1 & Hd & Hok1 & He & Hm & Hp & Hb).
      exists cm1. by split_and!.
    - exists cm. split_and!; try done. rewrite delete_id; [done|].
      unfold esess. by rewrite lookup_fmap, Es. }
  simpl. destruct (IH cm1 Hok1) as (cm' & -> & Hok' & (Hs & Hp & Hb) & He).
  exists cm'. split; [done|]. split; [done|]. split.
  { split_and!; [intros mi; by rewrite Hs|congruence..]. }
  intros sj. rewrite He, He1. destruct (decide (sj = si)) as [->|Hne].
  - rewrite lookup_delete_eq. rewrite (bool_decide_eq_true_2 (si ∈ si :: l)) by set_solver.
    by destruct (bool_decide _).
  - rewrite lookup_delete_ne by done.
    rewrite (bool_decide_ext (sj ∈ si :: l) (sj ∈ l)) by set_solver. done.
Qed.

(** ** Deleting a mapping *)

Lemma count_size S mi m l : sess_list S mi m l → (length l <= size S)%nat.
Proof. intros Hl. pose proof (sess_list_size _ _ _ _ Hl). lia. Qed.

(** The reaping loop of a mapping ends, with none of its sessions left. *)
Lemma reap_mapping_ok fuel cm mi m l now :
  nat_ok cm → cg_mappings cm !! mi = Some m → sess_list (cg_sessions cm) mi m l →
  (length l <= fuel)%nat →
  exists cm' m', reap_mapping fuel cm mi now = Some cm' /\ nat_ok cm' /\ same_ids cm cm' /\
    cg_mappings cm' !! mi = Some m' /\
    (∀ si s, esess cm' !! si = Some s → esess cm !! si = Some s /\ ss_mapping_index s ≠ mi) /\
    (∀ si s, esess cm !! si = Some s → ss_mapping_index s ≠ mi → esess cm' !! si = Some s).
Proof.
  revert cm m l. induction fuel as [|fuel IH]; intros cm m l Hok Hm Hl Hlen;
    unfold reap_mapping; fold reap_mapping; rewrite Hm; simpl.
  - destruct l; [|simpl in Hlen; lia]. destruct Hl as [(_ & -> & _) Hmem _].
    exists cm, m. split_and!; try done. intros si s Hs. split; [done|]. intros He.
    apply esess_lookup_inv in Hs as (s' & Hs' & ->).
    assert (si ∈ []) by (apply Hmem; eauto). set_solver.
  - destruct (mp_sessions_head m) as [si|] eqn:Eh.
    + pose proof (sl_dll _ _ _ _ Hl) as Hd.
      destruct (dll_head_in _ _ _ _ si Hd Eh) as [l' ->].
      assert (exists s, cg_sessions cm !! si = Some s /\ ss_mapping_index s = mi) as (s & Hs & Hi)
        by (apply (sl_members _ _ _ _ Hl); set_solver).
      destruct (delete_ok I cm si s now Hok Hs) as (cm1 & -> & Hok1 & He1 & Hids & Hp1 & Hb1).
      simpl. pose proof (Hids mi) as Hm1. rewrite Hm in Hm1.
      destruct (cg_mappings cm1 !! mi) as [m1|] eqn:Em1; [|done].
      destruct (nat_lists _ _ Hok1 mi m1 Em1) as (l1 & Hl1).
      assert (length l1 <= fuel)%nat as Hlen1.
      { simpl in Hlen. destruct Hl as [(Hnd & _) Hmem _]. destruct Hl1 as [(Hnd1 & _) Hmem1 _].
        assert (si ∉ l1 /\ ∀ sj, sj ∈ l1 → sj ∈ si :: l') as [Hn1 Hsub].
        { assert (∀ sj, sj ∈ l1 → sj ≠ si /\ sj ∈ si :: l') as Hx.
          { intros sj (s1 & Hs1 & Hi1)%Hmem1. pose proof (esess_lookup _ _ _ Hs1) as Hx.
            rewrite He1 in Hx. apply lookup_delete_Some in Hx as [Hne Hx]. split; [done|].
            apply esess_lookup_inv in Hx as (s0 & Hs0 & He). apply Hmem. exists s0.
            split; [done|]. rewrite <- Hi1. symmetry. by apply erase_index. }
          split; [|intros sj Hj; by apply Hx]. intros Hin. by apply Hx in Hin as [? _]. }
        apply NoDup_cons in Hnd as [_ Hnd].
        assert (length l1 <= length l')%nat; [|lia].
        apply submseteq_length, NoDup_submseteq; [done|]. intros sj Hj.
        specialize (Hsub sj Hj). apply elem_of_cons in Hsub as [->|]; done. }
      destruct (IH cm1 m1 l1 Hok1 Em1 Hl1 Hlen1)
        as (cm' & m' & -> & Hok' & (Hs' & Hp' & Hb') & Hm' & H1 & H2).
      exists cm', m'. split; [done|]. split; [done|].
      split; [split_and!; [intros mj; by rewrite Hs'|congruence..]|]. split; [done|]. split.
      * intros sj x Hx. destruct (H1 sj x Hx) as [Hx1 Hne]. rewrite He1 in Hx1.
        by apply lookup_delete_Some in Hx1 as [_ ?].
      * intros sj x Hx Hne. apply H2; [|done]. rewrite He1, lookup_delete_ne; [done|].
        intros ->. apply esess_lookup_inv in Hx as (x' & Hx' & ->). by simplify_eq.
    + assert (l = []) as -> by (eapply dll_head_nil; rewrite <- Eh; apply Hl).
      exists cm, m. split_and!; try done. intros si s Hs. split; [done|]. intros He.
      apply esess_lookup_inv in Hs as (s' & Hs' & ->).
      assert (si ∈ []) by (apply (sl_members _ _ _ _ Hl); eauto). set_solver.
Qed.

(** Forgetting a mapping without sessions. *)
Lemma drop_mapping_ok cm mi m :
  nat_ok cm → cg_mappings cm !! mi = Some m →
  (∀ si s, esess cm !! si = Some s → ss_mapping_index s ≠ mi) →
  nat_ok (drop_mapping cm mi).
Proof.
  intros Hok Hm Hnone. unfold drop_mapping. rewrite Hm.
  destruct Hok as [Hl Ho Hi Hout Hf Hs Hmm Hin Hp Hby]. split; rsimpl; try done.
  - intros mj mm [_ Hmj]%lookup_delete_Some. by apply Hl.
  - intros si s Hsi. destruct (Ho si s Hsi) as (m0 & Hm0 & Hso). exists m0. split; [|done].
    rewrite lookup_delete_ne; [done|]. intros He. by destruct (Hnone si s Hsi).
  - by apply (frag_ok_frame I _ cm).
  - intros mj mm [_ Hmj]%lookup_delete_Some. eauto.
  - intros k mj. rewrite lookup_delete_Some, Hin.
    split.
    + intros (Hne & mm & Hmj & <-). exists mm. split; [|done].
      rewrite lookup_delete_ne; [done|]. intros ->. by simplify_eq.
    + intros (mm & [Hne Hmj]%lookup_delete_Some & <-). split; [|by exists mm].
      intros Hk. assert (cg_inside_lookup cm !! (mp_inside_ip m, mp_inside_fib_index m) = Some mi)
        as E1 by (apply Hin; eauto).
      assert (cg_inside_lookup cm !! (mp_inside_ip mm, mp_inside_fib_index mm) = Some mj)
        as E2 by (apply Hin; eauto). congruence.
Qed.

Lemma emit_ok e cm : nat_ok cm → nat_ok (emit e cm).
Proof.
  intros [Hl Ho Hi Hout Hf Hs Hm Hin Hp Hby]. split; try done. by apply (frag_ok_frame I _ cm).
Qed.

(** Deleting a mapping that is there: it goes, with its sessions and only them. *)
Lemma mapping_del_spec cm now ip fib en mi :
  nat_ok cm → cg_inside_lookup cm !! (ip, fib) = Some mi →
  exists cm', mapping_del cm now ip fib en = Some (cm', RvOk) /\ nat_ok cm' /\
    cg_inside_lookup cm' !! (ip, fib) = None /\ cg_mappings cm' !! mi = None /\
    (∀ mj, mj ≠ mi → mapping_id <$> cg_mappings cm' !! mj = mapping_id <$> cg_mappings cm !! mj) /\
    (∀ si s, esess cm' !! si = Some s <-> esess cm !! si = Some s /\ ss_mapping_index s ≠ mi).
Proof.
  intros Hok Ek. unfold mapping_del. rewrite Ek.
  apply (nat_inside _ _ Hok) in Ek as (m & Hm & Hk). rewrite Hm. simpl.
  set (cm0 := if _ : bool then _ else cm).
  assert (nat_ok cm0) as Hok0 by (unfold cm0; destruct (_ || _); [by apply emit_ok|done]).
  assert (cg_mappings cm0 = cg_mappings cm /\ esess cm0 = esess cm) as [Hm0 He0]
    by (unfold cm0; by destruct (_ || _)).
  rewrite <- Hm0 in Hm |- *. destruct (nat_lists _ _ Hok0 mi m Hm) as (l & Hl).
  destruct (reap_mapping_ok _ cm0 mi m l now Hok0 Hm Hl (count_size _ _ _ _ Hl))
    as (cm' & m' & -> & Hok' & (Hids & _) & Hm' & Hgone & Hkept).
  simpl. eexists. split; [reflexivity|]. pose proof (Hids mi) as Hid.
  rewrite Hm', Hm in Hid. apply (inj Some) in Hid.
  unfold mapping_id in Hid. injection Hid as E1 E2 E3 E4 E5 E6 E7.
  pose proof (drop_mapping_ok cm' mi m' Hok' Hm' ltac:(intros si s Hs; by apply Hgone in Hs as [_ ?]))
    as Hd. unfold drop_mapping in Hd. rewrite Hm', E1, E3, Hk in Hd.
  split; [exact Hd|]. rproj. split; [apply lookup_delete_eq|]. split; [apply lookup_delete_eq|].
  split; [intros mj Hne; by rewrite lookup_delete_ne|].
  intros si s. rewrite <- He0. split; [apply Hgone|]. intros []. by apply Hkept.
Qed.

Lemma mapping_del_ok cm now ip fib en :
  nat_ok cm → exists cm' rv, mapping_del cm now ip fib en = Some (cm', rv) /\ nat_ok cm'.
Proof.
  intros Hok. destruct (cg_inside_lookup cm !! (ip, fib)) as [mi|] eqn:Ek.
  - destruct (mapping_del_spec cm now ip fib en mi Hok Ek) as (cm' & -> & Hok' & _). eauto.
  - unfold mapping_del. rewrite Ek. eauto.
Qed.

(** ** Adding a mapping *)

Lemma new_mapping_ok ip oip vrf fib st en p sw :
  0 <= st <= en → en < 2 ^ 16 → mapping_ok (new_mapping ip oip vrf fib st en p sw).
Proof.
  intros H1 H2. unfold new_mapping.
  split; cbn [mp_port_block_start mp_port_block_end mp_next_port mp_port_reuse_timestamps]; try lia.
  rewrite repeat_length.
  rewrite (u32_small (en - st + 1)), (u32_small (_ - 1)) by (unfold is_u32; lia). lia.
Qed.

Lemma insert_mapping_ok cm mi m :
  nat_ok cm → cg_mappings cm !! mi = None → mapping_ok m →
  mp_session_count m = 0 → mp_sessions_head m = None →
  is_Some (cg_pools cm !! mp_pool_index m) → u16 (mp_inside_fib_index m) ∈ I →
  cg_inside_lookup cm !! (mp_inside_ip m, mp_inside_fib_index m) = None →
  nat_ok (cm⟪cg_mappings ::= insert mi m⟫
            ⟪cg_inside_lookup ::= insert (mp_inside_ip m, mp_inside_fib_index m) mi⟫).
Proof.
  intros Hok Hmi Hm Hc Hh Hp HI Hk.
  assert (∀ si s, cg_sessions cm !! si = Some s → ss_mapping_index s ≠ mi) as Hnone.
  { intros si s Hs He. destruct (nat_owner _ _ Hok si _ (esess_lookup _ _ _ Hs)) as (m0 & Hm0 & _).
    change (ss_mapping_index (erase s)) with (ss_mapping_index s) in Hm0. congruence. }
  destruct Hok as [Hl Ho Hi Hout Hf Hs Hmm Hin Hpp Hby]. split; rproj; try done.
  - intros mj mm [[<- <-]|[Hne Hmj]]%lookup_insert_Some; [|by apply Hl].
    exists []. split; [rewrite Hh; split; [constructor|done]| |by rewrite Hc]. intros si. split; [set_solver|].
    intros (s & Hsi & He). by destruct (Hnone si s).
  - intros si s Hsi. destruct (Ho si s Hsi) as (m0 & Hm0 & Hso). exists m0. split; [|done].
    rewrite lookup_insert_ne; [done|]. congruence.
  - by apply (frag_ok_frame I _ cm).
  - intros mj mm [[<- <-]|[Hne Hmj]]%lookup_insert_Some; [done|eauto].
  - intros k mj. rewrite lookup_insert_Some, Hin. split.
    + intros [[<- <-]|[Hne (mm & Hmj & <-)]].
      * exists m. by rewrite lookup_insert_eq.
      * exists mm. rewrite lookup_insert_ne by congruence. done.
    + intros (mm & [[<- <-]|[Hne Hmj]]%lookup_insert_Some & <-); [by left|right].
      split; [|by exists mm]. intros He. rewrite He in Hk.
      assert (cg_inside_lookup cm !! (mp_inside_ip mm, mp_inside_fib_index mm) = Some mj)
        by (apply Hin; eauto). congruence.
Qed.

Lemma mapping_add_ok cm mi p sw ip vrf fib oip st en ef :
  nat_ok cm → cg_mappings cm !! mi = None → is_Some (cg_pools cm !! p) → u16 fib ∈ I →
  0 <= st <= en → en < 2 ^ 16 →
  exists cm' rv, mapping_add cm mi p sw ip vrf fib oip st en ef = Some (cm', rv) /\ nat_ok cm'.
Proof.
  intros Hok Hmi Hp HI H1 H2. unfold mapping_add.
  destruct (cg_inside_lookup cm !! (ip, fib)) as [mj|] eqn:Ek.
  - apply (nat_inside _ _ Hok) in Ek as (m & Hm & _). rewrite Hm. simpl.
    destruct (same_mapping _ _ _ _ _ _); by eexists _, _.
  - pose proof (insert_mapping_ok cm mi (new_mapping ip oip vrf fib st en p sw) Hok Hmi
      (new_mapping_ok ip oip vrf fib st en p sw H1 H2) eq_refl eq_refl Hp HI Ek) as Hins.
    destruct ef; [|by eexists _, _].
    destruct (sv_reass_rv sw =? 0); eexists _, _; (split; [reflexivity|]); by apply emit_ok.
Qed.

(** ** Pools *)

(** A change of the pools that keeps the ones in use, their ids and the rule on
    outside FIBs. *)
Lemma nat_ok_pools cm P :
  nat_ok cm → (∀ p, is_Some (cg_pools cm !! p) → is_Some (P !! p)) →
  (∀ p pool, P !! p = Some pool → pl_outside_fib_valid pool = true →
     u16 (pl_outside_fib_index pool) ∉ I) →
  (∀ id p, cg_pool_by_id cm !! id = Some p → exists pool, P !! p = Some pool /\
     pl_pool_id pool = id) →
  nat_ok (cm⟪cg_pools := P⟫).
Proof.
  intros [Hl Ho Hi Hout Hf Hs Hm Hin Hp Hby] HP Hfib Hid. split; rproj; try done.
  - by apply (frag_ok_frame I _ cm).
  - intros mi m Hmi. destruct (Hm mi m Hmi) as (? & ? & ?). eauto.
Qed.

Lemma upd_pool_ok cm p g :
  nat_ok cm →
  (∀ pool, pl_pool_id (g pool) = pl_pool_id pool /\
     pl_outside_fib_valid (g pool) = pl_outside_fib_valid pool /\
     pl_outside_fib_index (g pool) = pl_outside_fib_index pool) →
  nat_ok (upd_pool p g cm).
Proof.
  intros Hok Hg. unfold upd_pool. apply (nat_ok_pools cm (alter g p (cg_pools cm)) Hok).
  - intros q Hq. by apply lookup_alter_is_Some.
  - intros q pool [(<- & pool0 & Hq & ->)|[Hne Hq]]%lookup_alter_Some;
      [|by apply (nat_outside _ _ Hok q)].
    destruct (Hg pool0) as (_ & -> & ->). by apply (nat_outside _ _ Hok p).
  - intros id q Hq. destruct (nat_ids _ _ Hok id q Hq) as (pool & Hpool & <-).
    destruct (decide (p = q)) as [<-|Hne].
    + exists (g pool). rewrite lookup_alter_eq, Hpool. split; [done|]. by apply Hg.
    + exists pool. by rewrite lookup_alter_ne.
Qed.

Lemma drop_mappings_ok cm l :
  nat_ok cm →
  (∀ si s, esess cm !! si = Some s → ss_mapping_index s ∉ l) →
  nat_ok (foldl drop_mapping cm l) /\
  cg_mappings (foldl drop_mapping cm l) = filter (λ x, x.1 ∉ l) (cg_mappings cm) /\
  esess (foldl drop_mapping cm l) = esess cm /\
  cg_pools (foldl drop_mapping cm l) = cg_pools cm /\
  cg_pool_by_id (foldl drop_mapping cm l) = cg_pool_by_id cm.
Proof.
  revert cm. induction l as [|mi l IH]; intros cm Hok Hn; simpl.
  { split_and!; try done. symmetry. apply map_filter_id. intros; simpl. set_solver. }
  assert (nat_ok (drop_mapping cm mi) /\ esess (drop_mapping cm mi) = esess cm /\
          cg_mappings (drop_mapping cm mi) = delete mi (cg_mappings cm) /\
          cg_pools (drop_mapping cm mi) = cg_pools cm /\
          cg_pool_by_id (drop_mapping cm mi) = cg_pool_by_id cm) as (H1 & H2 & H3 & H4 & H5).
  { destruct (cg_mappings cm !! mi) as [m|] eqn:Em.
    - split; [apply (drop_mapping_ok cm mi m Hok Em); intros si s Hs He;
              apply (Hn si s Hs); set_solver|].
      unfold drop_mapping. by rewrite Em.
    - unfold drop_mapping. rewrite Em. split_and!; try done. by rewrite delete_id. }
  destruct (IH (drop_mapping cm mi) H1) as (G1 & G2 & G3 & G4 & G5).
  { intros si s. rewrite H2. intros Hs. specialize (Hn si s Hs). set_solver. }
  split_and!; try done; try congruence. rewrite G2, H3. apply map_eq. intros mj.
  apply option_eq. intros m. rewrite !map_lookup_filter_Some, lookup_delete_Some. simpl.
  set_solver.
Qed.

Lemma elem_of_pool_indices {A} (m : gmap Z A) i : i ∈ pool_indices m <-> is_Some (m !! i).
Proof.
  unfold pool_indices. rewrite (merge_sort_Permutation Z.le), list_elem_of_fmap.
  split.
  - intros ([j a] & -> & Hj). apply elem_of_map_to_list in Hj. by exists a.
  - intros [a Ha]. exists (i, a). split; [done|]. by apply elem_of_map_to_list.
Qed.

(** What the cascade leaves: nothing of the pool, everything else. *)
Lemma cascade_ok cm p now :
  nat_ok cm →
  exists cm', cgnat_pool_cascade_delete cm p now = Some cm' /\ nat_ok cm' /\
    cg_pools cm' = cg_pools cm /\ cg_pool_by_id cm' = cg_pool_by_id cm /\
    (∀ mi m, cg_mappings cm' !! mi = Some m → mp_pool_index m ≠ p) /\
    (∀ si s, esess cm' !! si = Some s <-> esess cm !! si = Some s /\ ss_pool_index s ≠ p).
Proof.
  intros Hok. unfold cgnat_pool_cascade_delete.
  destruct (reap_all_ok cm (pool_sessions cm p) now Hok)
    as (cm1 & -> & Hok1 & (Hids & Hp1 & Hb1) & He1). simpl.
  assert (∀ si s, esess cm1 !! si = Some s <-> esess cm !! si = Some s /\ ss_pool_index s ≠ p)
    as Hsess.
  { intros si s. rewrite He1.
    assert (si ∈ pool_sessions cm p <-> exists s, esess cm !! si = Some s /\ ss_pool_index s = p)
      as Hin.
    { unfold pool_sessions. rewrite list_elem_of_filter, elem_of_pool_indices. split.
      - intros [Hs _]. destruct (cg_sessions cm !! si) as [x|] eqn:Ex; [|done].
        apply (inj Some) in Hs. exists (erase x). split; [by apply esess_lookup|done].
      - intros (x & Hx & Hpx). apply esess_lookup_inv in Hx as (x' & -> & ->). simpl.
        split; [by f_equal|done]. }
    destruct (bool_decide_reflect (si ∈ pool_sessions cm p)) as [Hs|Hs].
    - apply Hin in Hs as (x & Hx & Hpx). split; [done|]. intros [Hy Hny]. congruence.
    - split; [|by intros []]. intros Hx. split; [done|]. intros He. apply Hs, Hin. eauto. }
  assert (∀ si s, esess cm1 !! si = Some s → ss_mapping_index s ∉ pool_mappings cm1 p) as Hn.
  { intros si s Hs. destruct (nat_owner _ _ Hok1 si s Hs) as (m & Hm & Hso).
    apply Hsess in Hs as [_ Hne]. unfold pool_mappings. rewrite list_elem_of_filter, Hm.
    intros [Hx _]. apply (inj Some) in Hx. cbv beta in Hx. by rewrite (so_pool _ _ Hso) in Hne. }
  destruct (drop_mappings_ok cm1 _ Hok1 Hn) as (G1 & G2 & G3 & G4 & G5).
  eexists. split; [reflexivity|]. split; [done|]. split; [congruence|]. split; [congruence|].
  split; [|intros si s; by rewrite G3].
  intros mi m. rewrite G2, map_lookup_filter_Some. simpl. intros [Hm Hni] He. apply Hni.
  unfold pool_mappings. rewrite list_elem_of_filter, elem_of_pool_indices, Hm. subst p.
  split; [done|by eexists].
Qed.

End Run.
