(* ===== verification/CgnatSystem.v ===== *)
(** The NAT as a whole: runs of packets, expiry and configuration in any order.

    Each operation keeps [nat_ok]; [nat_reachable] is the states a run reaches from
    the empty one.  [op_ok] is what a run assumes: slots are fresh, the fixed
    pool of fragment records has room for a slow-path packet, subscribers are in the FIBs
    of [I] and outside FIBs are not, and port blocks are not empty. *)

From S2P Require Import Prelude Dll CgnatTypes CgnatDet CgnatSession CgnatInv.
From S2P Require Import CgnatConfig CgnatNodes CgnatSafety CgnatRun.

(** ** Runs *)

Inductive nat_op :=
  | OpIn2out (b : nat_buffer) (now : Z)
  | OpIn2outSlow (b : nat_buffer) (si fi now : Z)
  | OpOut2in (b : nat_buffer) (now : Z)
  | OpOut2inSlow (b : nat_buffer) (now : Z)
  | OpExpire (now : Z)
  | OpPool (new_idx now : Z) (cfg : cgnat_pool_t) (is_add : bool)
  | OpPoolUpdate (pool_id max_sessions alg_bitmask : Z) (timeouts : option (list Z))
  | OpOutsideFib (pool_id vrf_id : Z)
  | OpMapping (new_idx now pool_id sw_if_index inside_ip inside_vrf_id outside_ip port_start
      port_end : Z) (enable_feature is_add : bool)
  | OpEnableOnSession (pool_id sw_if_index : Z) (is_enable : bool)
  | OpOutsideInterface (pool_id sw_if_index : Z) (is_add : bool)
  | OpOutsideAddress (pool_id base len : Z) (is_add : bool)
  | OpInsidePrefix (pool_id base len vrf_id : Z) (is_add : bool)
  | OpBypass (new_idx : Z) (prefix : fib_prefix_t) (vrf_id : Z) (is_add : bool).

Section System.

Context `{NatVpp} (I : gset Z).
Notation nat_ok := (nat_ok I).

Definition state_of (r : nat_step_result) : cgnat_main_t := fst (fst r).

Definition nat_exec (cm : cgnat_main_t) (op : nat_op) : option cgnat_main_t :=
  match op with
  | OpIn2out b now => state_of <$> cgnat_in2out_node cm b now
  | OpIn2outSlow b si fi now => state_of <$> cgnat_in2out_slowpath_node cm b si fi now
  | OpOut2in b now => state_of <$> cgnat_out2in_node cm b now
  | OpOut2inSlow b now => state_of <$> cgnat_out2in_slowpath_node cm b now
  | OpExpire now => cgnat_session_expire_walk cm now
  | OpPool idx now cfg is_add => fst <$> cgnat_pool_add_del cm idx now cfg is_add
  | OpPoolUpdate id ms alg t => fst <$> cgnat_pool_update cm id ms alg t
  | OpOutsideFib id vrf => fst <$> cgnat_set_outside_fib cm id vrf
  | OpMapping idx now id sw ip vrf oip st en ef is_add =>
      fst <$> cgnat_add_del_subscriber_mapping cm idx now id sw ip vrf oip st en ef is_add
  | OpEnableOnSession id sw en => Some (fst (cgnat_enable_on_session cm id sw en))
  | OpOutsideInterface id sw is_add =>
      fst <$> cgnat_pool_outside_interface_add_del cm id sw is_add
  | OpOutsideAddress id base len is_add =>
      fst <$> add_del_outside_address_handler cm id base len is_add
  | OpInsidePrefix id base len vrf is_add =>
      fst <$> add_del_inside_prefix_handler cm id base len vrf is_add
  | OpBypass idx pfx vrf is_add => Some (fst (cgnat_add_del_bypass cm idx pfx vrf is_add))
  end.

(** The port block a mapping add would get: not the deterministic division by zero,
    and not an empty block. *)
Definition target_ok (t : option (cgnat_rv + Z * Z * Z)) : Prop :=
  match t with
  | None => False
  | Some (inl _) => True
  | Some (inr (_, st, en)) => 0 <= st <= en /\ en < 2 ^ 16
  end.

Definition op_ok (cm : cgnat_main_t) (op : nat_op) : Prop :=
  match op with
  | OpIn2outSlow _ si fi _ =>
      cg_sessions cm !! si = None /\ cg_frag_rewrite_pool cm !! fi = None /\ frag_room cm
  | OpPool idx _ _ true => cg_pools cm !! idx = None
  | OpOutsideFib _ vrf => ∀ fib, fib_table_find vrf = Some fib → u16 fib ∉ I
  | OpMapping idx _ id _ ip vrf oip st en _ true =>
      cg_mappings cm !! idx = None /\
      (∀ fib, fib_table_find vrf = Some fib → u16 fib ∈ I) /\
      (∀ p pool, cg_pool_by_id cm !! id = Some p → cg_pools cm !! p = Some pool →
         target_ok (mapping_target pool ip oip st en true))
  | _ => True
  end.

Definition nat_init : cgnat_main_t := mkCgnat ∅ ∅ ∅ ∅ ∅ ∅ ∅ ∅ ∅ ∅ 0 [].

Inductive nat_reachable : cgnat_main_t → Prop :=
  | reach_init : nat_reachable nat_init
  | reach_step cm op cm' :
      nat_reachable cm → op_ok cm op → nat_exec cm op = Some cm' → nat_reachable cm'.

(** ** Configuration keeps the invariant *)

(** A configuration call that completes, and keeps the invariant. *)
Definition safe_config (r : option (cgnat_main_t * cgnat_rv)) : Prop :=
  exists cm rv, r = Some (cm, rv) /\ nat_ok cm.

Lemma safe_config_intro cm rv : nat_ok cm → safe_config (Some (cm, rv)).
Proof. intros Hok. by exists cm, rv. Qed.

Lemma known_pool cm id p :
  nat_ok cm → cg_pool_by_id cm !! id = Some p →
  exists pool, cg_pools cm !! p = Some pool /\ pl_pool_id pool = id.
Proof. intros Hok. apply (nat_ids _ _ Hok). Qed.

(** Opens the pool an operation names: unknown, or present. *)
Ltac name_pool cm id Hok pool Hpool :=
  let p := fresh "p" in
  destruct (cg_pool_by_id cm !! id) as [p|] eqn:Eid;
    [destruct (known_pool cm id p Hok Eid) as (pool & Hpool & Hid); rewrite ?Hpool; simpl
    |by apply safe_config_intro].

Lemma insert_as_alter (P : gmap Z cgnat_pool_t) p pool g :
  P !! p = Some pool → insert p (g pool) P = alter g p P.
Proof.
  intros Hp. apply map_eq. intros q. destruct (decide (p = q)) as [<-|].
  - by rewrite lookup_insert_eq, lookup_alter_eq, Hp.
  - by rewrite lookup_insert_ne, lookup_alter_ne.
Qed.

Lemma forget_pool_ok cm p id pool :
  nat_ok cm → cg_pools cm !! p = Some pool → pl_pool_id pool = id →
  (∀ mi m, cg_mappings cm !! mi = Some m → mp_pool_index m ≠ p) →
  nat_ok (cm⟪cg_pool_by_id ::= delete id⟫⟪cg_pools ::= delete p⟫).
Proof.
  intros [Hl Ho Hi Hout Hf Hs Hm Hin Hp Hby] Hpool Hid Hn. split; rproj; try done.
  - by apply (frag_ok_frame I _ cm).
  - intros mi m Hmi. destruct (Hm mi m Hmi) as (? & ? & ?). split_and!; try done.
    rewrite lookup_delete_ne; [done|]. intros He. by apply (Hn mi m Hmi).
  - intros q x [_ Hq]%lookup_delete_Some. by apply (Hp q).
  - intros i q [Hne Hq]%lookup_delete_Some. destruct (Hby i q Hq) as (x & Hx & Hix).
    exists x. split; [|done]. rewrite lookup_delete_ne; [done|]. intros ->. congruence.
Qed.

Lemma pool_add_del_ok cm idx now cfg is_add :
  nat_ok cm → (is_add = true → cg_pools cm !! idx = None) →
  safe_config (cgnat_pool_add_del cm idx now cfg is_add).
Proof.
  intros Hok Hidx. unfold cgnat_pool_add_del.
  destruct (cg_pool_by_id cm !! pl_pool_id cfg) as [p|] eqn:Eid.
  - destruct (known_pool cm _ p Hok Eid) as (pool & Hpool & Hid). rewrite Hpool. simpl.
    destruct is_add.
    + destruct (cgnat_pool_hard_drift pool cfg); [by apply safe_config_intro|].
      apply safe_config_intro, upd_pool_ok; [done|]. by intros [].
    + destruct (cascade_ok I cm p now Hok) as (cm1 & -> & Hok1 & Hp1 & _ & Hn & _). simpl.
      apply safe_config_intro.
      apply (forget_pool_ok _ p _ pool); try done; [by apply emit_ok|]. change (cg_pools cm1 !! p = Some pool); by rewrite Hp1.
  - destruct is_add; apply safe_config_intro; [|done]. specialize (Hidx eq_refl).
    pose proof (nat_ok_pools I cm (<[idx := new_pool cfg]> (cg_pools cm)) Hok) as Hx.
    destruct Hx as [Hl Ho Hi Hout Hf Hs Hm Hin Hp Hby]; rproj.
    + intros p Hp. apply lookup_insert_is_Some. destruct (decide (idx = p)); eauto.
    + intros p pool [[<- <-]|[Hne Hp]]%lookup_insert_Some; [done|].
      by apply (nat_outside _ _ Hok p).
    + intros id p Hp. destruct (nat_ids _ _ Hok id p Hp) as (pool & Hpool & Hid).
      exists pool. rewrite lookup_insert_ne by congruence. done.
    + split; rproj; try done; [by apply (frag_ok_frame I _ (cm⟪cg_pools := <[idx := new_pool cfg]> (cg_pools cm)⟫))|].
      intros id p [[<- <-]|[Hne Hp']]%lookup_insert_Some.
      * exists (new_pool cfg). by rewrite lookup_insert_eq.
      * by apply Hby.
Qed.

Lemma pool_update_ok cm id ms alg t : nat_ok cm → safe_config (cgnat_pool_update cm id ms alg t).
Proof.
  intros Hok. unfold cgnat_pool_update. name_pool cm id Hok pool Hpool.
  apply safe_config_intro. set (g := λ pool : cgnat_pool_t,
    match t with
    | Some t => pool⟪pl_max_sessions_per_sub := ms⟫⟪pl_alg_bitmask := alg⟫⟪pl_timeouts := t⟫
    | None => pool⟪pl_max_sessions_per_sub := ms⟫⟪pl_alg_bitmask := alg⟫
    end).
  pose proof (upd_pool_ok I cm p g Hok) as Hx. unfold upd_pool, upd in Hx.
  rewrite <- (insert_as_alter (cg_pools cm) p pool g Hpool) in Hx. subst g. destruct t; apply Hx; by intros [].
Qed.

Lemma set_outside_fib_ok cm id vrf :
  nat_ok cm → (∀ fib, fib_table_find vrf = Some fib → u16 fib ∉ I) →
  safe_config (cgnat_set_outside_fib cm id vrf).
Proof.
  intros Hok Hfib. unfold cgnat_set_outside_fib. name_pool cm id Hok pool Hpool.
  destruct (fib_table_find vrf) as [fib|] eqn:Ef; [|by apply safe_config_intro]. simpl.
  destruct (_ && _); [by apply safe_config_intro|].
  apply safe_config_intro, emit_ok.
  apply (nat_ok_pools I cm (<[p := _]> (cg_pools cm)) Hok).
  - intros q Hq. apply lookup_insert_is_Some. destruct (decide (p = q)); eauto.
  - intros q x [[<- <-]|[Hne Hq]]%lookup_insert_Some; [intros _; by apply Hfib|].
    by apply (nat_outside _ _ Hok q).
  - intros i q Hq. destruct (nat_ids _ _ Hok i q Hq) as (x & Hx & Hi).
    destruct (decide (p = q)) as [<-|Hne].
    + eexists. rewrite lookup_insert_eq. split; [reflexivity|]. simplify_eq. done.
    + exists x. by rewrite lookup_insert_ne.
Qed.

Lemma subscriber_mapping_ok cm idx now id sw ip vrf oip st en ef is_add :
  nat_ok cm → op_ok cm (OpMapping idx now id sw ip vrf oip st en ef is_add) →
  safe_config
    (cgnat_add_del_subscriber_mapping cm idx now id sw ip vrf oip st en ef is_add).
Proof.
  intros Hok Hop. unfold cgnat_add_del_subscriber_mapping. name_pool cm id Hok pool Hpool.
  destruct (fib_table_find vrf) as [fib|] eqn:Ef; [|by apply safe_config_intro].
  destruct is_add.
  - destruct Hop as (Hidx & HI & Ht). specialize (Ht p pool Eid Hpool).
    destruct (mapping_target _ _ _ _ _ _) as [[rv|[[o a] e]]|]; simpl; [by apply safe_config_intro| |done].
    destruct Ht as [H1 H2].
    destruct (mapping_add_ok I cm idx p sw ip vrf fib o a e ef) as (cm' & rv & -> & Hok'); eauto.
    by apply safe_config_intro.
  - simpl. destruct (mapping_del_ok I cm now ip fib ef Hok) as (cm' & rv & -> & Hok').
    by apply safe_config_intro.
Qed.

Lemma enable_on_session_ok cm id sw en :
  nat_ok cm → nat_ok (fst (cgnat_enable_on_session cm id sw en)).
Proof.
  intros Hok. unfold cgnat_enable_on_session.
  destruct (cg_pool_by_id cm !! id); [|done]. destruct en; [|by apply emit_ok].
  destruct (sv_reass_rv sw =? 0); by apply emit_ok.
Qed.

Lemma outside_interface_ok cm id sw is_add :
  nat_ok cm → safe_config (cgnat_pool_outside_interface_add_del cm id sw is_add).
Proof.
  intros Hok. unfold cgnat_pool_outside_interface_add_del. name_pool cm id Hok pool Hpool.
  destruct is_add, (find_index _ _); try by apply safe_config_intro.
  - destruct (sv_reass_rv sw =? 0); apply safe_config_intro; [|by apply emit_ok].
    apply upd_pool_ok; [by apply emit_ok|]. by intros [].
  - apply safe_config_intro, upd_pool_ok; [by apply emit_ok|]. by intros [].
Qed.

Lemma add_outside_prefix_ok cm id pfx :
  nat_ok cm → safe_config (cgnat_pool_add_outside_prefix cm id pfx).
Proof.
  intros Hok. unfold cgnat_pool_add_outside_prefix. name_pool cm id Hok pool Hpool.
  case_bool_decide; [by apply safe_config_intro|]. apply safe_config_intro.
  destruct (pl_outside_fib_valid pool); [apply emit_ok|]; (apply upd_pool_ok; [done|]; by intros []).
Qed.

Lemma del_outside_prefix_ok cm id pfx :
  nat_ok cm → safe_config (cgnat_pool_del_outside_prefix cm id pfx).
Proof.
  intros Hok. unfold cgnat_pool_del_outside_prefix. name_pool cm id Hok pool Hpool.
  destruct (find_index _ _); [|by apply safe_config_intro]. apply safe_config_intro.
  apply upd_pool_ok; [|by intros []]. by destruct (_ && _); [apply emit_ok|].
Qed.

Lemma outside_address_ok cm id base len is_add :
  nat_ok cm → safe_config (add_del_outside_address_handler cm id base len is_add).
Proof.
  intros Hok. unfold add_del_outside_address_handler. name_pool cm id Hok pool Hpool.
  set (cm1 := if _ : bool then _ else cm). assert (nat_ok cm1) as Hok1.
  { unfold cm1. destruct (_ && _); [|done]. apply upd_pool_ok; [done|]. by intros []. }
  destruct is_add; [by apply add_outside_prefix_ok|by apply del_outside_prefix_ok].
Qed.

Lemma inside_prefix_ok cm id base len vrf is_add :
  nat_ok cm → safe_config (add_del_inside_prefix_handler cm id base len vrf is_add).
Proof.
  intros Hok. unfold add_del_inside_prefix_handler. name_pool cm id Hok pool Hpool.
  assert (exists cm1 rv, cgnat_pool_inside_prefix_add_del cm id (mkPrefix len base) vrf is_add
            = Some (cm1, rv) /\ nat_ok cm1 /\ is_Some (cg_pools cm1 !! p))
    as (cm1 & rv & -> & Hok1 & [pool1 Hp1]).
  { unfold cgnat_pool_inside_prefix_add_del. rewrite Eid, Hpool. simpl.
    assert (∀ g : cgnat_pool_t → cgnat_pool_t, is_Some (cg_pools (upd_pool p g cm) !! p)) as Hg.
    { intros g. apply lookup_alter_is_Some. eauto. }
    assert (∀ v : list cgnat_inside_prefix_entry_t → list cgnat_inside_prefix_entry_t,
              nat_ok (upd_pool p (λ pool, pool⟪pl_inside_prefixes ::= v⟫) cm)) as Hv.
    { intros v. apply upd_pool_ok; [done|]. by intros []. }
    destruct (fib_table_find vrf); [|by eexists _, _].
    destruct (find_index _ _), is_add; eexists _, _; (split; [reflexivity|]); split; try done;
      try apply Hv; apply Hg. }
  simpl. case_bool_decide; simpl; [|by apply safe_config_intro]. rewrite Hp1. simpl.
  destruct (_ && _); apply safe_config_intro; [|done]. apply upd_pool_ok; [done|]. by intros [].
Qed.

Lemma bypass_ok cm idx pfx vrf is_add :
  nat_ok cm → nat_ok (fst (cgnat_add_del_bypass cm idx pfx vrf is_add)).
Proof.
  intros Hok. unfold cgnat_add_del_bypass.
  assert (∀ B n, nat_ok (cm⟪cg_bypass_entries ::= B⟫⟪cg_bypass_entry_count ::= n⟫)) as Hb.
  { intros B n. destruct Hok as [Hl Ho Hi Hout Hf Hs Hm Hin Hp Hby]. split; try done.
    by apply (frag_ok_frame I _ cm). }
  destruct (fib_table_find vrf); [|done]. destruct is_add; [by apply emit_ok, Hb|].
  destruct (List.find _ _); [|done]. by apply emit_ok, Hb.
Qed.

(** ** Every step *)

Lemma exec_config r : safe_config r → exists cm', fst <$> r = Some cm' /\ nat_ok cm'.
Proof. intros (cm & rv & -> & Hok). by exists cm. Qed.

Lemma exec_packet r : safe_step I r → exists cm', state_of <$> r = Some cm' /\ nat_ok cm'.
Proof. intros (cm & b & n & -> & Hok). by exists cm. Qed.

Lemma exec_ok cm op :
  nat_ok cm → op_ok cm op → exists cm', nat_exec cm op = Some cm' /\ nat_ok cm'.
Proof.
  intros Hok Hop. destruct op; simpl in *.
  - by apply exec_packet, in2out_node_ok.
  - destruct Hop as (? & ? & ?). by apply exec_packet, in2out_slowpath_ok.
  - by apply exec_packet, out2in_node_ok.
  - by apply exec_packet, out2in_slowpath_ok.
  - unfold cgnat_session_expire_walk.
    destruct (reap_all_ok I cm (expired_sessions cm now) now Hok) as (cm' & -> & Hok' & _). eauto.
  - apply exec_config, pool_add_del_ok; [done|]. by intros ->.
  - by apply exec_config, pool_update_ok.
  - by apply exec_config, set_outside_fib_ok.
  - by apply exec_config, subscriber_mapping_ok.
  - eexists. split; [reflexivity|]. by apply enable_on_session_ok.
  - by apply exec_config, outside_interface_ok.
  - by apply exec_config, outside_address_ok.
  - by apply exec_config, inside_prefix_ok.
  - eexists. split; [reflexivity|]. by apply bypass_ok.
Qed.

Lemma init_ok : nat_ok nat_init.
Proof.
  split; try done.
  - intros k si. split; [done|]. by intros (s & Hs & _).
  - intros k mi. split; [done|]. by intros (m & Hm & _).
Qed.

Lemma reachable_ok cm : nat_reachable cm → nat_ok cm.
Proof.
  induction 1 as [|cm op cm' _ IH Hop Hex]; [exact init_ok|].
  destruct (exec_ok cm op IH Hop) as (cm1 & Hex1 & Hok1). congruence.
Qed.

(** C5. No run of the NAT that [op_ok] allows touches a freed pool entry: whatever
    packets, expiry walks and configuration calls led to a state, its tables, lists,
    counts and fragment records are consistent, and the next operation completes, if
    [op_ok] allows it too.  Of a packet of the inside slow path it asks that the pools hand out
    free slots and that the fixed pool of 65536 fragment records is not full, where the
    code's unguarded [pool_get] is a fault; of a mapping to add, that subscribers
    are in FIBs no pool uses outside, and that its port block is not empty and not the
    result of a division by zero, which the deterministic mode does when the pool has an
    inside prefix and no outside address yet; of an outside FIB, that no subscriber
    is in it. *)
Theorem nat_never_faults cm op :
  nat_reachable cm → op_ok cm op →
  nat_ok cm /\ exists cm', nat_exec cm op = Some cm' /\ nat_ok cm'.
Proof.
  intros Hr Hop. pose proof (reachable_ok cm Hr) as Hok. split; [done|]. by apply exec_ok.
Qed.

(** Expiry is exact and safe: from a consistent state the walk completes
    without touching a freed entry, leaves a consistent state, and the sessions
    that remain are exactly those that were idle for no longer than their timeout,
    unchanged but for their list links. *)
Theorem expire_walk_exact cm now :
  nat_ok cm →
  exists cm', cgnat_session_expire_walk cm now = Some cm' /\ nat_ok cm' /\
    ∀ si, esess cm' !! si =
      match esess cm !! si with
      | Some s => if session_expired now s then None else Some s
      | None => None
      end.
Proof.
  intros Hok. unfold cgnat_session_expire_walk.
  destruct (reap_all_ok I cm (expired_sessions cm now) now Hok) as (cm' & -> & Hok' & _ & He).
  exists cm'. split; [done|]. split; [done|]. intros si. rewrite He.
  assert (si ∈ expired_sessions cm now <->
          exists s, esess cm !! si = Some s /\ session_expired now s = true) as Hin.
  { unfold expired_sessions. rewrite list_elem_of_filter. unfold cgnat_expire_walk_cb. split.
    - intros [Hx Hl]. destruct (cg_sessions cm !! si) as [s|] eqn:Es; [|done].
      exists (erase s). split; [by apply esess_lookup|done].
    - intros (s & Hs & Hx). pose proof Hs as Hs'.
      apply esess_lookup_inv in Hs' as (s' & Es & ->). rewrite Es. split; [done|].
      assert (cg_session_table_in2out cm !! flow_key (ss_i2o s') = Some si) as Hk
        by (apply (nat_in2out _ _ Hok); by exists (erase s')).
      apply list_elem_of_fmap. exists (flow_key (ss_i2o s'), si). split; [done|].
      by apply elem_of_map_to_list. }
  destruct (bool_decide_reflect (si ∈ expired_sessions cm now)) as [Hx|Hx].
  - apply Hin in Hx as (s & -> & ->). done.
  - destruct (esess cm !! si) as [s|] eqn:Es; [|done].
    destruct (session_expired now s) eqn:Ex; [|done]. destruct Hx. apply Hin. eauto.
Qed.

(** A run of operations. *)
Fixpoint nat_run (cm : cgnat_main_t) (ops : list nat_op) : option cgnat_main_t :=
  match ops with
  | [] => Some cm
  | op :: ops => cm ← nat_exec cm op; nat_run cm ops
  end.

Lemma nat_run_app cm l1 l2 : nat_run cm (l1 ++ l2) = cm' ← nat_run cm l1; nat_run cm' l2.
Proof.
  revert cm. induction l1 as [|op l1 IH]; intros cm; simpl; [done|].
  destruct (nat_exec cm op); simpl; [apply IH|done].
Qed.

(** The state after the first [n] operations of a run. *)
Definition state_at (ops : list nat_op) (n : nat) : cgnat_main_t :=
  default nat_init (nat_run nat_init (take n ops)).

(** A run allowed at every step goes through. *)
Lemma run_reachable ops n :
  (∀ k op, ops !! k = Some op → op_ok (state_at ops k) op) →
  (n <= length ops)%nat →
  nat_run nat_init (take n ops) = Some (state_at ops n) /\ nat_reachable (state_at ops n).
Proof.
  intros Hall. induction n as [|n IH]; intros Hn; [split; [done|constructor]|].
  destruct IH as [Hrun Hr]; [lia|].
  destruct (lookup_lt_is_Some_2 ops n) as [op Hop]; [lia|].
  destruct (exec_ok _ op (reachable_ok _ Hr) (Hall n op Hop)) as (cm' & Hx & _).
  assert (nat_run nat_init (take (S n) ops) = Some cm') as Hs.
  { rewrite (take_S_r _ _ _ Hop), nat_run_app, Hrun. simpl. by rewrite Hx. }
  assert (state_at ops (S n) = cm') as -> by (unfold state_at; by rewrite Hs).
  split; [done|]. by eapply reach_step; [exact Hr|exact (Hall n op Hop)|].
Qed.

End System.

(** ** A sample run *)

(** 10.0.0.1 in FIB 1 behind 203.0.113.1, talking to 198.51.100.7. *)
Definition sample_inside : Z := 16777226.
Definition sample_outside : Z := 24182987.
Definition sample_remote : Z := 124007366.

Definition bytes_at (l : list Z) (i : Z) : Z := nth (Z.to_nat i) l 0.

(** A SYN of the subscriber, and the peer's SYN ACK to outside port 1024. *)
Definition sample_syn : nat_buffer :=
  mkNatBuffer (bytes_at
    [69; 0; 0; 40; 0; 1; 64; 0; 64; 6; 6; 148; 10; 0; 0; 1; 198; 51; 100; 7;
     48; 57; 0; 80; 0; 0; 0; 1; 0; 0; 0; 0; 80; 2; 255; 255; 75; 29; 0; 0])
    0 1 NONE 40 6 false false 14640 20480 2.
Definition sample_syn_ack : nat_buffer :=
  mkNatBuffer (bytes_at
    [69; 0; 0; 40; 0; 1; 64; 0; 64; 6; 212; 146; 198; 51; 100; 7; 203; 0; 113; 1;
     0; 80; 4; 0; 0; 0; 0; 1; 0; 0; 0; 2; 80; 18; 255; 255; 69; 67; 0; 0])
    0 2 NONE 40 6 false false 20480 4 18.

Definition sample_pool_cfg : cgnat_pool_t :=
  mkPool 7 CGNAT_POOL_MODE_PBA CGNAT_ADDRESS_POOLING_PAIRED CGNAT_FILTERING_ENDPOINT_DEPENDENT
    64 1 100 1024 65535 120 0 [7440; 240; 300; 60; 60] 0 NONE false [] [] false [] [] [].

Definition sample_ops : list nat_op :=
  [OpPool 0 0 sample_pool_cfg true; OpOutsideFib 7 0; OpOutsideAddress 7 sample_outside 32 true;
   OpMapping 0 0 7 1 sample_inside 1 sample_outside 1024 1087 true true;
   OpIn2out sample_syn (sec 10); OpIn2outSlow sample_syn 0 0 (sec 10);
   OpOut2in sample_syn_ack (sec 11)].

Definition sample_state : cgnat_main_t := state_at sample_ops 7.

(** The session is there, half open: both sides have sent SYN, only one ACK. *)
Example sample_state_session :
  (λ s, (cgnat_session_inside_port s, clib_net_to_host_u16 (cgnat_session_outside_port s),
         ss_tcp_state s, ss_total_pkts s, ss_last_active s)) <$> cg_sessions sample_state !! 0 =
  Some (14640, 1024, CGNAT_TCP_STATE_CLOSED, 2, sec 11).
Proof. vm_compute. reflexivity. Qed.

(** Each step of a concrete run is allowed, by evaluation. *)
Ltac step_allowed :=
  match goal with
  | |- op_ok _ _ (OpMapping _ _ _ _ _ _ _ _ _ _ true) =>
      split; [vm_compute; reflexivity|split];
        [let fib := fresh in let Hf := fresh in intros fib Hf; vm_compute in Hf;
           injection Hf as <-; vm_compute; done
        |let p := fresh in let pool := fresh in let Hp := fresh in let Hpool := fresh in
           intros p pool Hp Hpool; vm_compute in Hp; injection Hp as <-;
           vm_compute in Hpool; injection Hpool as <-; vm_compute; split; [split|]; done]
  | |- op_ok _ _ (OpOutsideFib _ _) =>
      let fib := fresh in let Hf := fresh in intros fib Hf; vm_compute in Hf;
        injection Hf as <-; vm_compute; done
  | |- op_ok _ _ (OpIn2outSlow _ _ _ _) => split; [|split]; vm_compute; reflexivity
  | |- op_ok _ _ (OpPool _ _ _ true) => vm_compute; reflexivity
  | |- op_ok _ _ _ => exact Logic.I
  end.

Ltac run_allowed :=
  apply run_reachable; [|simpl; lia];
  let k := fresh in let op := fresh in let Hop := fresh in
  intros k op Hop;
  repeat (destruct k as [|k]; [injection Hop as <-; step_allowed|simpl in Hop]);
  try discriminate Hop.

Lemma sample_reachable : nat_reachable {[1]} sample_state.
Proof. run_allowed. Qed.

Lemma nat_never_faults_witness :
  nat_ok {[1]} sample_state /\
  exists cm', nat_exec sample_state (OpIn2outSlow sample_syn 1 1 (sec 12)) = Some cm' /\
    nat_ok {[1]} cm'.
Proof.
  apply (nat_never_faults {[1]} sample_state (OpIn2outSlow sample_syn 1 1 (sec 12))).
  - exact sample_reachable.
  - split; [|split]; vm_compute; reflexivity.
Defined.

(** Its half-open session goes four minutes after its last packet. *)
Lemma expire_walk_exact_witness :
  exists cm', cgnat_session_expire_walk sample_state (sec 300) = Some cm' /\ nat_ok {[1]} cm' /\
    ∀ si, esess cm' !! si =
      match esess sample_state !! si with
      | Some s => if session_expired (sec 300) s then None else Some s
      | None => None
      end.
Proof.
  apply (expire_walk_exact {[1]} sample_state (sec 300)). exact (reachable_ok _ _ sample_reachable).
Defined.
