(* ===== verification/Packet.v ===== *)
(** Packets as the plugins of the access side see them: VPP's buffers, byte strings
    in memory, and the headers they put in front of a payload.

    A buffer is the bytes around [b->data], the offset of the current byte, and the
    metadata the plugins use.  What VPP does to a buffer is a class; its laws say what
    its documentation says. *)

From S2P Require Import Prelude.

(** * Sums of words *)

Lemma csum_cong x y : x mod 65535 = y mod 65535 <-> exists k, x = y + k * 65535.
Proof.
  split.
  - intros He. exists (x / 65535 - y / 65535).
    pose proof (Z.div_mod x 65535). pose proof (Z.div_mod y 65535). lia.
  - intros [k ->]. by rewrite Z.mod_add.
Qed.

(** The sum of the [n] words at [o]. *)
Fixpoint wsum (d : Z → Z) (o : Z) (n : nat) : Z :=
  match n with
  | O => 0
  | S n => ld16 d o + wsum d (o + 2) n
  end.

Lemma wsum_frame d d' o n :
  (∀ p, o <= p < o + 2 * Z.of_nat n → d' p = d p) → wsum d' o n = wsum d o n.
Proof.
  revert o. induction n as [|n IH]; intros o Hd; simpl; [done|].
  unfold ld16. rewrite !Hd by lia. f_equal. apply IH. intros p Hp. apply Hd. lia.
Qed.

Lemma wsum_st16 d o n k v :
  0 <= k < Z.of_nat n → is_u16 v →
  wsum (st16 d (o + 2 * k) v) o n = wsum d o n - ld16 d (o + 2 * k) + v.
Proof.
  revert o k. induction n as [|n IH]; intros o k Hk Hv; [lia|]. cbn [wsum].
  destruct (decide (k = 0)) as [->|Hne].
  - replace (o + 2 * 0) with o by lia. rewrite ld16_st16 by done.
    rewrite (wsum_frame d) by (intros; apply st16_other; lia). lia.
  - assert (ld16 (st16 d (o + 2 * k) v) o = ld16 d o) as ->
      by (unfold ld16; rewrite !st16_other by lia; done).
    replace (o + 2 * k) with ((o + 2) + 2 * (k - 1)) by lia. rewrite IH by (done || lia). lia.
Qed.

(** A 32-bit store counts as its value, since [2^16 = 1] modulo 65535. *)
Lemma wsum_st32 d o n k v :
  0 <= k → k + 1 < Z.of_nat n → is_u32 v →
  wsum (st32 d (o + 2 * k) v) o n mod 65535 =
  (wsum d o n - ld32 d (o + 2 * k) + v) mod 65535.
Proof.
  intros Hk Hn Hv. set (p := o + 2 * k).
  assert (u16 v + 65536 * Z.shiftr v 16 = v /\ is_u16 (Z.shiftr v 16)) as [Hd Hh].
  { rewrite Z.shiftr_div_pow2 by lia. unfold u16. ints. }
  assert (∀ d q, st16 d p v q = st16 d p (u16 v) q) as Hlow.
  { intros. unfold st16, u8, u16. rewrite !Z.shiftr_div_pow2 by lia.
    assert (v mod 256 = v mod 65536 mod 256 /\ v / 256 mod 256 = v mod 65536 / 256 mod 256)
      as [E1 E2] by ints. change (2 ^ 16) with 65536. change (2 ^ 8) with 256.
    by rewrite <- E1, <- E2. }
  rewrite (wsum_frame (st16 (st16 d (o + 2 * (k + 1)) (Z.shiftr v 16)) p (u16 v))).
  2: { intros q _. rewrite st32_st16, Hlow. unfold p. do 2 f_equal. lia. }
  unfold p. rewrite wsum_st16, wsum_st16 by (done || lia || apply u16_range).
  assert (ld16 (st16 d (o + 2 * (k + 1)) (Z.shiftr v 16)) (o + 2 * k) = ld16 d (o + 2 * k)) as ->
    by (unfold ld16; rewrite !st16_other by lia; done).
  unfold ld32. rewrite Z.shiftl_mul_pow2 by lia.
  replace (o + 2 * k + 2) with (o + 2 * (k + 1)) by lia.
  set (a := ld16 d (o + 2 * k)). set (b := ld16 d (o + 2 * (k + 1))).
  revert Hd. generalize (u16 v) (Z.shiftr v 16) (wsum d o n). intros lo hi w Hd.
  rewrite <- (Z.mod_add (w - b + hi - a + lo) (hi - b) 65535) by lia. f_equal.
  change (2 ^ 16) with 65536. lia.
Qed.

(** * Buffers *)

Record vlib_buffer_t := mkBuffer {
  b_data : Z → Z;               (* offset 0 is [b->data], the headroom is below *)
  b_current_data : Z;           (* i16 *)
  b_current_length : Z;         (* u16 *)
  b_rest_length : Z;            (* bytes in the other buffers of the chain *)
  b_opaque2_0 : Z;              (* u32 *)
  b_opaque2_1 : Z;              (* u32 *)
  b_rx : Z;                     (* sw_if_index[VLIB_RX] *)
  b_tx : Z;                     (* sw_if_index[VLIB_TX] *)
  b_vlan_1_deep : bool;         (* VNET_BUFFER_F_VLAN_1_DEEP *)
  b_vlan_2_deep : bool;
  b_l2_hdr_offset : option Z    (* None: VNET_BUFFER_F_L2_HDR_OFFSET_VALID is clear *)
}.
#[export] Instance eta_vlib_buffer : Eta vlib_buffer_t := λ b,
  mkBuffer (b_data b) (b_current_data b) (b_current_length b) (b_rest_length b) (b_opaque2_0 b)
    (b_opaque2_1 b) (b_rx b) (b_tx b) (b_vlan_1_deep b) (b_vlan_2_deep b) (b_l2_hdr_offset b).

Definition SIZEOF_ETHERNET : Z := 14.
Definition SIZEOF_VLAN : Z := 4.
Definition ETHERNET_TYPE_IP4 : Z := 2048.              (* 0x0800 *)
Definition ETHERNET_TYPE_IP6 : Z := 34525.             (* 0x86dd *)
Definition ETHERNET_TYPE_VLAN : Z := 33024.            (* 0x8100 *)
Definition ETHERNET_TYPE_DOT1AD : Z := 34984.          (* 0x88a8 *)
Definition ETHERNET_TYPE_PPPOE_SESSION : Z := 34916.   (* 0x8864 *)
Definition SIZEOF_IP4_HEADER : Z := 20.
Definition SIZEOF_UDP_HEADER : Z := 8.

Class VlibVpp := {
  VLIB_BUFFER_PRE_DATA_SIZE : Z;
  vlib_buffer_advance : Z → vlib_buffer_t → vlib_buffer_t;
  vlib_buffer_reset : vlib_buffer_t → vlib_buffer_t;
  vlib_buffer_length_in_chain : vlib_buffer_t → Z;
  ethernet_buffer_get_header : vlib_buffer_t → Z;
  ip4_header_checksum : (Z → Z) → Z → Z
}.

(** [advance] moves the current byte within the buffer, [reset] goes back to the start
    of its data, the Ethernet header is where the offset says, and the checksum of a header of 20 bytes completes its sum. *)
Class VlibVppLaws `{VlibVpp} : Prop := {
  pre_data_size : 0 <= VLIB_BUFFER_PRE_DATA_SIZE <= 2 ^ 14;
  advance_eq l b :
    - 2 ^ 15 <= b_current_data b + l < 2 ^ 15 → 0 <= b_current_length b - l < 2 ^ 16 →
    vlib_buffer_advance l b = b⟪b_current_data ::= λ o, o + l⟫⟪b_current_length ::= λ n, n - l⟫;
  reset_eq b :
    0 <= b_current_data b →
    vlib_buffer_reset b =
    b⟪b_current_length ::= λ n, n + b_current_data b⟫⟪b_current_data := 0⟫;
  get_header_eq b o : b_l2_hdr_offset b = Some o → ethernet_buffer_get_header b = o;
  length_in_chain_eq b : vlib_buffer_length_in_chain b = b_current_length b + b_rest_length b;
  checksum_ok d o :
    (∀ p, 0 <= d p < 256) → d o = 69 →
    is_u16 (ip4_header_checksum d o) /\
    wsum (st16 d (o + 10) (ip4_header_checksum d o)) o 10 mod 65535 = 0;
  checksum_local d d' o :
    d o = 69 → (∀ p, o <= p < o + 20 → d p = d' p) →
    ip4_header_checksum d o = ip4_header_checksum d' o
}.

(** * Byte strings *)

(** The [n] bytes at [o], and a string written at [o]. *)
Definition bytes (d : Z → Z) (o : Z) (n : nat) : list Z := map (λ k, d (o + Z.of_nat k)) (seq 0 n).
Definition put (d : Z → Z) (o : Z) (l : list Z) : Z → Z := λ p,
  if (o <=? p) && (p <? o + Z.of_nat (length l)) then nth (Z.to_nat (p - o)) l 0 else d p.

(** Network order, and the order in memory of what a load gives. *)
Definition be16 (v : Z) : list Z := [u8 (Z.shiftr v 8); u8 v].
Definition le16 (v : Z) : list Z := [u8 v; u8 (Z.shiftr v 8)].
Definition le32 (v : Z) : list Z :=
  [u8 v; u8 (Z.shiftr v 8); u8 (Z.shiftr v 16); u8 (Z.shiftr v 24)].

(** What a buffer holds from its current byte on. *)
Definition contents (b : vlib_buffer_t) : list Z :=
  bytes (b_data b) (b_current_data b) (Z.to_nat (b_current_length b)).

Lemma bytes_length d o n : length (bytes d o n) = n.
Proof. unfold bytes. by rewrite length_map, length_seq. Qed.

Lemma bytes_nth d o n k : (k < n)%nat → nth k (bytes d o n) 0 = d (o + Z.of_nat k).
Proof.
  intros Hk. unfold bytes. rewrite (nth_indep _ 0 (d (o + Z.of_nat 0))).
  - rewrite (map_nth (λ k, d (o + Z.of_nat k))), seq_nth by done. done.
  - by rewrite length_map, length_seq.
Qed.

Lemma bytes_ext d d' o n :
  (∀ p, o <= p < o + Z.of_nat n → d p = d' p) → bytes d o n = bytes d' o n.
Proof.
  intros Hd. unfold bytes. apply map_ext_in. intros k Hk%in_seq. apply Hd. lia.
Qed.

Lemma bytes_app d o n m : bytes d o (n + m) = bytes d o n ++ bytes d (o + Z.of_nat n) m.
Proof.
  apply (nth_ext _ _ 0 0); [by rewrite length_app, !bytes_length|].
  intros k Hk. rewrite bytes_length in Hk. rewrite bytes_nth by done.
  destruct (decide (k < n)%nat).
  - rewrite app_nth1 by (rewrite bytes_length; lia). by rewrite bytes_nth.
  - rewrite app_nth2 by (rewrite bytes_length; lia). rewrite bytes_length, bytes_nth by lia.
    f_equal. lia.
Qed.

Lemma put_in d o l k :
  (k < length l)%nat → put d o l (o + Z.of_nat k) = nth k l 0.
Proof.
  intros Hk. unfold put. rewrite (proj2 (Z.leb_le _ _)), (proj2 (Z.ltb_lt _ _)) by lia.
  cbn. f_equal. lia.
Qed.

Lemma put_out d o l p : p < o \/ o + Z.of_nat (length l) <= p → put d o l p = d p.
Proof. intros Hp. unfold put. zcases; (done || lia). Qed.

Lemma bytes_put d o l : bytes (put d o l) o (length l) = l.
Proof.
  apply (nth_ext _ _ 0 0); rewrite bytes_length; [done|].
  intros k Hk. by rewrite bytes_nth, put_in.
Qed.

Lemma bytes_put_out d o l o' n :
  o' + Z.of_nat n <= o \/ o + Z.of_nat (length l) <= o' → bytes (put d o l) o' n = bytes d o' n.
Proof. intros Ho. apply bytes_ext. intros p Hp. apply put_out. lia. Qed.

(** ** Bytes as a number *)

Definition byte (x : Z) : Prop := 0 <= x < 256.

(** The number whose bytes in memory are [l]. *)
Definition le_value (l : list Z) : Z := foldr (λ x v, x + 256 * v) 0 l.

(** A hardware address. *)
Definition mac_ok (mac : list Z) : Prop := length mac = 6%nat /\ Forall byte mac.

Lemma le_value_range l : Forall byte l → 0 <= le_value l < 256 ^ Z.of_nat (length l).
Proof.
  induction 1 as [|x l Hx _ IH]; [done|]. cbn [le_value foldr length]. fold (le_value l).
  rewrite Nat2Z.inj_succ, Z.pow_succ_r by lia. unfold byte in Hx. lia.
Qed.

Lemma le_value_inj l l' :
  Forall byte l → Forall byte l' → length l = length l' → le_value l = le_value l' → l = l'.
Proof.
  intros Hl. revert l'. induction Hl as [|x l Hx Hl IH]; intros [|y l'] Hl' Hlen; try done.
  inversion Hl' as [|? ? Hy Hl'']; subst. injection Hlen as Hlen. cbn [le_value foldr].
  fold (le_value l) (le_value l'). unfold byte in *. intros Hv.
  assert (x = y /\ le_value l = le_value l') as [-> Hv'] by lia. f_equal. by apply IH.
Qed.

Lemma bytes_byte d o n : (∀ p, byte (d p)) → Forall byte (bytes d o n).
Proof.
  intros Hd. unfold bytes. apply List.Forall_map, List.Forall_forall. intros x _. apply Hd.
Qed.

(** A load of eight bytes. *)
Lemma ld64_value d o : ld64 d o = le_value (bytes d o 8).
Proof.
  unfold ld64, ld32, ld16, le_value, bytes. simpl. rewrite !Z.shiftl_mul_pow2 by lia.
  replace (o + 4 + 2 + 1) with (o + 7) by lia. replace (o + 4 + 2) with (o + 6) by lia.
  replace (o + 4 + 1) with (o + 5) by lia. replace (o + 2 + 1) with (o + 3) by lia.
  change (Z.of_nat 1) with 1. change (Z.of_nat 2) with 2. change (Z.of_nat 3) with 3.
  change (Z.of_nat 4) with 4. change (Z.of_nat 5) with 5. change (Z.of_nat 6) with 6.
  change (Z.of_nat 7) with 7. rewrite !Z.add_0_r. lia.
Qed.

(** [lies d o l]: the string [l] is at [o]. *)
Definition lies (d : Z → Z) (o : Z) (l : list Z) : Prop := bytes d o (length l) = l.

Lemma lies_nth d o l : lies d o l <-> ∀ k, (k < length l)%nat → d (o + Z.of_nat k) = nth k l 0.
Proof.
  split.
  - intros Hl k Hk. by rewrite <- bytes_nth with (n := length l), Hl.
  - intros Hd. apply (nth_ext _ _ 0 0); rewrite bytes_length; [done|].
    intros k Hk. rewrite bytes_nth by done. auto.
Qed.

Lemma lies_at d o o' l : lies d o l → o = o' → lies d o' l.
Proof. by intros ? <-. Qed.

Lemma lies_app d o l l' : lies d o (l ++ l') <-> lies d o l /\ lies d (o + Z.of_nat (length l)) l'.
Proof.
  unfold lies. rewrite length_app, bytes_app. split; [|by intros [-> ->]].
  intros He. apply app_inj_1 in He; [done|]. by rewrite bytes_length.
Qed.

Lemma lies_nil d o : lies d o [].
Proof. done. Qed.

Lemma lies_cons d o x l : lies d o (x :: l) <-> d o = x /\ lies d (o + 1) l.
Proof.
  change (x :: l) with ([x] ++ l). rewrite lies_app. simpl.
  replace (lies d o [x]) with ([d (o + 0)] = [x]) by done. rewrite Z.add_0_r.
  split; [by intros [[= ->] ?]|by intros [-> ?]].
Qed.

Lemma lies_put d o l : lies (put d o l) o l.
Proof. apply bytes_put. Qed.

Lemma lies_put_out d o l o' l' :
  o' + Z.of_nat (length l') <= o \/ o + Z.of_nat (length l) <= o' →
  lies (put d o l) o' l' <-> lies d o' l'.
Proof. intros Ho. unfold lies. by rewrite bytes_put_out. Qed.

Lemma put_app d o l l' p :
  put d o (l ++ l') p = put (put d o l) (o + Z.of_nat (length l)) l' p.
Proof.
  unfold put. rewrite length_app. zcases; try lia; try done.
  - by rewrite app_nth1 by lia.
  - rewrite app_nth2 by lia. f_equal. lia.
Qed.

Lemma be16_length v : length (be16 v) = 2%nat.
Proof. done. Qed.

Lemma le32_length v : length (le32 v) = 4%nat.
Proof. done. Qed.

Lemma load_be16 d o v : lies d o (be16 v) → is_u16 v → clib_net_to_host_u16 (ld16 d o) = v.
Proof.
  unfold be16. rewrite !lies_cons. intros (E1 & E2 & _) Hv. unfold ld16. rewrite E1, E2.
  rewrite swap16_eq, Z.shiftl_mul_pow2, Z.shiftr_div_pow2 by lia. unfold u8. ints.
Qed.

Lemma load_be16_at d o o' v :
  lies d o' (be16 v) → o = o' → is_u16 v → clib_net_to_host_u16 (ld16 d o) = v.
Proof. intros ? -> ?. by apply load_be16. Qed.

Lemma load_le32 d o v : lies d o (le32 v) → is_u32 v → ld32 d o = v.
Proof.
  unfold le32. rewrite !lies_cons. intros (E1 & E2 & E3 & E4 & _) Hv.
  replace (o + 1 + 1) with (o + 2) in E3, E4 by lia. unfold ld32, ld16. rewrite E1, E2, E3, E4.
  rewrite !Z.shiftl_mul_pow2, !Z.shiftr_div_pow2 by lia. unfold u8. ints.
Qed.

Lemma le_bytes_inj w v mac w' v' mac' :
  le32 w ++ le16 v ++ mac = le32 w' ++ le16 v' ++ mac' →
  is_u32 w → is_u32 w' → is_u16 v → is_u16 v' → w = w' /\ v = v' /\ mac = mac'.
Proof.
  intros He Hw Hw' Hv Hv'. apply app_inj_1 in He as [E1 He]; [|done].
  apply app_inj_1 in He as [E2 ->]; [|done]. split_and!; [| |done].
  - rewrite <- (load_le32 (put (λ _, 0) 0 (le32 w)) 0 w), E1; [|apply lies_put|done].
    apply load_le32; [apply lies_put|done].
  - injection E2 as A B. unfold u8 in *. rewrite !Z.shiftr_div_pow2 in B by lia.
    unfold is_u16 in *. ints.
Qed.

(** A store in network order writes the string. *)
Lemma st16_be16 d o v p :
  st16 d o (clib_net_to_host_u16 v) p = put d o (be16 v) p.
Proof.
  unfold st16, put, be16. cbn [length].
  assert (u8 (clib_net_to_host_u16 v) = u8 (Z.shiftr v 8) /\
          u8 (Z.shiftr (clib_net_to_host_u16 v) 8) = u8 v) as [-> ->].
  { rewrite swap16_eq, !Z.shiftr_div_pow2 by lia. unfold u8. split; ints. }
  destruct (decide (p = o)) as [->|]; [|destruct (decide (p = o + 1)) as [->|]].
  - rewrite fn_lookup_insert. zcases; try lia. by rewrite Z.sub_diag.
  - rewrite fn_lookup_insert_ne, fn_lookup_insert by lia. zcases; try lia.
    by replace (o + 1 - o) with 1 by lia.
  - rewrite !fn_lookup_insert_ne by congruence. zcases; (done || lia).
Qed.

(** A store in memory order. *)
Lemma st16_put d o v p : st16 d o v p = put d o [u8 v; u8 (Z.shiftr v 8)] p.
Proof.
  unfold st16, put. cbn [length].
  destruct (decide (p = o)) as [->|]; [|destruct (decide (p = o + 1)) as [->|]].
  - rewrite fn_lookup_insert. zcases; try lia. by rewrite Z.sub_diag.
  - rewrite fn_lookup_insert_ne, fn_lookup_insert by lia. zcases; try lia.
    by replace (o + 1 - o) with 1 by lia.
  - rewrite !fn_lookup_insert_ne by congruence. zcases; (done || lia).
Qed.

Lemma lies_ext d d' o l :
  (∀ p, o <= p < o + Z.of_nat (length l) → d p = d' p) → lies d o l <-> lies d' o l.
Proof. intros Hd. unfold lies. by rewrite (bytes_ext d d'). Qed.

(** * Buffers as strings *)

(** A buffer of bytes; [room n b]: [n] more can be put in front, and all can be counted
    in 16 bits. *)
Definition buf_ok (b : vlib_buffer_t) : Prop :=
  (∀ p, 0 <= b_data b p < 256) /\ 0 <= b_current_length b < 2 ^ 16 /\
  - 2 ^ 15 <= b_current_data b < 2 ^ 15.

Lemma contents_length b : 0 <= b_current_length b → Z.of_nat (length (contents b)) = b_current_length b.
Proof. intros. unfold contents. rewrite bytes_length. lia. Qed.

Lemma contents_lies b l :
  0 <= b_current_length b →
  contents b = l <->
  b_current_length b = Z.of_nat (length l) /\ lies (b_data b) (b_current_data b) l.
Proof.
  intros Hn. unfold contents, lies. split.
  - intros <-. rewrite bytes_length, Z2Nat.id by done. done.
  - intros [-> Hl]. by rewrite Nat2Z.id.
Qed.

Lemma put_bytes d o l :
  (∀ p, 0 <= d p < 256) → Forall (λ x, 0 <= x < 256) l → ∀ p, 0 <= put d o l p < 256.
Proof.
  intros Hd Hl p. unfold put. zcases; auto.
  rewrite List.Forall_forall in Hl. apply Hl, nth_In. lia.
Qed.

Lemma be16_bytes v : Forall (λ x, 0 <= x < 256) (be16 v).
Proof. repeat constructor; unfold u8; ints. Qed.

Lemma le32_bytes v : Forall (λ x, 0 <= x < 256) (le32 v).
Proof. repeat constructor; unfold u8; ints. Qed.

Section Advance.

Context `{VlibVppLaws}.

(** Stepping over bytes drops them. *)
Lemma contents_advance b n :
  0 <= n <= b_current_length b → b_current_length b < 2 ^ 16 →
  - 2 ^ 15 <= b_current_data b → b_current_data b + n < 2 ^ 15 →
  contents (vlib_buffer_advance n b) = drop (Z.to_nat n) (contents b).
Proof.
  intros Hn Hl Hc1 Hc2. rewrite advance_eq by lia. unfold contents. rproj.
  rewrite <- (Z2Nat.id n) at 1 by lia.
  replace (Z.to_nat (b_current_length b)) with
    (Z.to_nat n + Z.to_nat (b_current_length b - n))%nat by lia.
  rewrite bytes_app, drop_app_length'; [done|]. by rewrite bytes_length.
Qed.

(** Stepping over the string that is there. *)
Lemma contents_skip b k l r :
  0 <= b_current_length b < 2 ^ 16 → - 2 ^ 15 <= b_current_data b →
  b_current_data b + b_current_length b < 2 ^ 15 →
  contents b = l ++ r → k = Z.of_nat (length l) → contents (vlib_buffer_advance k b) = r.
Proof.
  intros Hl Hc He Hlr ->. assert (Z.of_nat (length l) <= b_current_length b).
  { apply (f_equal length) in Hlr. unfold contents in Hlr.
    rewrite bytes_length, length_app in Hlr. lia. }
  rewrite contents_advance by lia. rewrite Hlr, Nat2Z.id. by rewrite drop_app_length.
Qed.

(** Making room and writing a string there puts it in front. *)
Lemma contents_prepend b l :
  0 <= b_current_length b → b_current_length b + Z.of_nat (length l) < 2 ^ 16 →
  - 2 ^ 15 <= b_current_data b - Z.of_nat (length l) → b_current_data b < 2 ^ 15 →
  let b' := vlib_buffer_advance (- Z.of_nat (length l)) b in
  contents (b'⟪b_data ::= λ d, put d (b_current_data b') l⟫) = l ++ contents b.
Proof.
  intros H1 H2 H3 H4. cbv zeta. rewrite advance_eq by lia. unfold contents. rproj.
  replace (Z.to_nat (b_current_length b - - Z.of_nat (length l))) with
    (length l + Z.to_nat (b_current_length b))%nat by lia.
  rewrite bytes_app, bytes_put, bytes_put_out by lia. do 2 f_equal. lia.
Qed.

(** The rewrite of a session's interface in front of a packet, as VPP puts it there. *)
Definition with_rewrite (rw : list Z) (b : vlib_buffer_t) : vlib_buffer_t :=
  let b' := vlib_buffer_advance (- Z.of_nat (length rw)) b in
  b'⟪b_data ::= λ d, put d (b_current_data b') rw⟫.

Lemma with_rewrite_ok rw b :
  buf_ok b → Forall (λ x, 0 <= x < 256) rw → - 2 ^ 15 <= b_current_data b - Z.of_nat (length rw) →
  b_current_length b + Z.of_nat (length rw) < 2 ^ 16 →
  contents (with_rewrite rw b) = rw ++ contents b /\ buf_ok (with_rewrite rw b) /\
  b_current_data (with_rewrite rw b) = b_current_data b - Z.of_nat (length rw) /\
  b_current_length (with_rewrite rw b) = b_current_length b + Z.of_nat (length rw) /\
  b_rest_length (with_rewrite rw b) = b_rest_length b.
Proof.
  intros (Hb & Hl & Hc) Hrw Hroom Hlen. split; [apply contents_prepend; lia|].
  unfold with_rewrite. rewrite advance_eq by lia. split_and!; rproj; try lia.
  unfold buf_ok. rproj. split_and!; try lia. by apply put_bytes.
Qed.

End Advance.

(** * An instance *)

#[export] Instance sample_vlib : VlibVpp := {|
  VLIB_BUFFER_PRE_DATA_SIZE := 128;
  vlib_buffer_advance l b := b⟪b_current_data ::= λ o, o + l⟫⟪b_current_length ::= λ n, n - l⟫;
  vlib_buffer_reset b :=
    b⟪b_current_length ::= λ n, n + Z.max (b_current_data b) 0⟫⟪b_current_data := 0⟫;
  vlib_buffer_length_in_chain b := b_current_length b + b_rest_length b;
  ethernet_buffer_get_header b := default 0 (b_l2_hdr_offset b);
  ip4_header_checksum d o := (- (wsum d o 10 - ld16 d (o + 10))) mod 65535
|}.

#[export] Instance sample_vlib_laws : VlibVppLaws.
Proof.
  split.
  - simpl. lia.
  - done.
  - intros b Hb. simpl. by rewrite Z.max_l by lia.
  - intros b o Ho. simpl. by rewrite Ho.
  - done.
  - intros d o _ _. cbn [ip4_header_checksum sample_vlib].
    split; [unfold is_u16; ints|]. replace (o + 10) with (o + 2 * 5) by lia. rewrite wsum_st16 by (lia || (unfold is_u16; ints)).
    rewrite Z.add_mod_idemp_r by done. by replace (_ + _) with 0 by lia.
  - intros d d' o _ Hd. cbn [ip4_header_checksum sample_vlib]. rewrite (wsum_frame d' d) by (intros; rewrite Hd by lia; done).
    unfold ld16. by rewrite !Hd by lia.
Qed.

(** The buffer of a string: [headroom] is where its first byte is. *)
Definition sample_buffer (headroom : Z) (l : list Z) (opaque : Z) : vlib_buffer_t :=
  mkBuffer (put (λ _, 0) headroom l) headroom (Z.of_nat (length l)) 0 opaque 0 0 0 false false None.

(** Values as a message has them, byte strings, hardware addresses. *)
Definition host16 (v : Z) : Z := clib_net_to_host_u16 v.
Definition host32 (v : Z) : Z := clib_net_to_host_u32 v.

Lemma sample_bytes l : forallb (λ x, (0 <=? x) && (x <? 256)) l = true →
  Forall (λ x, 0 <= x < 256) l.
Proof.
  intros Hl. apply List.Forall_forall. intros x Hx. rewrite forallb_forall in Hl.
  specialize (Hl x Hx). apply andb_true_iff in Hl. lia.
Qed.

Definition sample_mac (k : Z) : list Z := [2; 0; 0; 0; 0; k].

Lemma sample_mac_ok k : byte k → mac_ok (sample_mac k).
Proof.
  intros Hk. split; [done|]. unfold sample_mac. rewrite !Forall_cons. unfold byte in *.
  split_and!; (lia || apply Forall_nil_2).
Qed.
