(* ===== verification/CgnatPackets.v ===== *)
(** What translation does to a packet: addresses, ports and checksums.

    One's complement sums are sums of words modulo 65535, whatever their byte order.
    A header is intact when its words, checksum included, sum to a multiple of
    65535; the theorems say that translation changes no such sum. *)

From S2P Require Import Prelude Packet Dll CgnatTypes CgnatSession CgnatInv CgnatNodes.
From S2P Require Import CgnatSafety CgnatSystem.

Section Packets.

Context `{NatVppLaws}.

(** ** Checksum deltas *)

(** [delta] replaces [old] by [new] when it is applied to a checksum. *)
Definition csum_delta (delta old new : Z) : Prop :=
  ∀ c, csum_apply c delta mod 65535 = (c + old - new) mod 65535.

Lemma csum_apply_range c delta : is_u16 (csum_apply c delta).
Proof. unfold csum_apply. apply csum_fold. Qed.

(** Adding a difference to a delta, in whichever sign VPP stores it. *)
Lemma delta_compose base old0 new0 old new :
  (∀ s, (s = 1 \/ s = -1) → (∀ c x,
     ip_csum_add_even c x mod 65535 = (c + s * x) mod 65535 /\
     ip_csum_sub_even c x mod 65535 = (c - s * x) mod 65535) →
   base mod 65535 = (s * (old0 - new0)) mod 65535) →
  csum_delta (ip_csum_add_even (ip_csum_sub_even base new) old) (old0 + old) (new0 + new).
Proof.
  intros Hb c. destruct csum_even as (s & Hs & Heven). specialize (Hb s Hs Heven).
  unfold csum_apply. rewrite (proj2 (csum_fold _)).
  destruct (Heven c (ip_csum_add_even (ip_csum_sub_even base new) old)) as [E0 _].
  destruct (Heven (ip_csum_sub_even base new) old) as [E1 _].
  destruct (Heven base new) as [_ E2]. rewrite csum_cong in *.
  destruct Hb as [k Hb], E0 as [k0 ->], E1 as [k1 ->], E2 as [k2 ->].
  destruct Hs as [-> | ->]; [exists (k0 + k1 + k2 + k)|exists (k0 - k1 - k2 - k)]; lia.
Qed.

(** The deltas of a flow record. *)
Lemma flow_csum_deltas oa na op np ps f :
  let f' := cgnat_flow_csum_calc oa na op np ps f in
  csum_delta (nf_l3_csum_delta f') oa na /\
  csum_delta (nf_l4_csum_delta f') ((if ps then oa else 0) + op) ((if ps then na else 0) + np).
Proof.
  simpl. split.
  - pose proof (delta_compose 0 0 0 oa na) as Hd. rewrite !Z.add_0_l in Hd. apply Hd.
    intros s _ _. f_equal. lia.
  - apply delta_compose. intros s Hs Heven. destruct ps; [|f_equal; lia].
    destruct (Heven (ip_csum_sub_even 0 na) oa) as [E1 _].
    destruct (Heven 0 na) as [_ E2]. rewrite csum_cong in *.
    destruct E1 as [k1 ->], E2 as [k2 ->]. exists (k1 + k2). lia.
Qed.

(** ** Rewriting a packet *)

(** A buffer of bytes with a whole IPv4 header at [ip]. *)
Definition ip4_wf (d : Z → Z) (ip : Z) : Prop := (∀ p, 0 <= d p < 256) /\ 5 <= d ip mod 16.

Definition header_words (d : Z → Z) (ip : Z) : nat := Z.to_nat (2 * (d ip mod 16)).

Lemma st16_bytes d o v : (∀ p, 0 <= d p < 256) → ∀ p, 0 <= st16 d o v p < 256.
Proof.
  intros Hd p. unfold st16. destruct (decide (p = o)) as [->|].
  - rewrite fn_lookup_insert. unfold u8. ints.
  - rewrite fn_lookup_insert_ne by done. destruct (decide (p = o + 1)) as [->|].
    + rewrite fn_lookup_insert. unfold u8. ints.
    + by rewrite fn_lookup_insert_ne.
Qed.

(** The words of the header, with the address in them, sum to what they did. *)
Lemma rewrite_fragment_sum k new l3 ip d n :
  6 <= k <= 8 → is_u32 new → csum_delta l3 (ld32 d (ip + 2 * k)) new → (10 <= n)%nat →
  wsum (rewrite_fragment (2 * k) new l3 ip d) ip n mod 65535 = wsum d ip n mod 65535.
Proof.
  intros Hk Hnew Hd Hn. unfold rewrite_fragment.
  replace (ip + 10) with (ip + 2 * 5) by lia.
  rewrite wsum_st16 by (lia || apply csum_apply_range).
  assert (ip4_checksum (st32 d (ip + 2 * k) new) ip = ld16 d (ip + 10)) as ->.
  { unfold ip4_checksum, ld16. rewrite !st32_other by lia. done. }
  assert (ld16 (st32 d (ip + 2 * k) new) (ip + 2 * 5) = ld16 d (ip + 10)) as ->.
  { unfold ld16. rewrite !st32_other by lia. done. }
  pose proof (wsum_st32 d ip n k new ltac:(lia) ltac:(lia) Hnew) as Hs.
  specialize (Hd (ld16 d (ip + 10))). rewrite csum_cong in *.
  destruct Hs as [k1 ->], Hd as [k2 ->]. exists (k1 + k2). lia.
Qed.

(** The same for the two addresses alone, which pseudo headers sum. *)
Lemma rewrite_fragment_addrs k new l3 ip d :
  k = 6 \/ k = 8 → is_u32 new →
  wsum (rewrite_fragment (2 * k) new l3 ip d) (ip + 12) 4 mod 65535 =
  (wsum d (ip + 12) 4 - ld32 d (ip + 2 * k) + new) mod 65535.
Proof.
  intros Hk Hnew. unfold rewrite_fragment.
  rewrite (wsum_frame (st32 d (ip + 2 * k) new)) by (intros; apply st16_other; lia).
  replace (ip + 2 * k) with ((ip + 12) + 2 * (k - 6)) by lia.
  apply wsum_st32; [lia..|done].
Qed.

Lemma rewrite_fragment_other k new l3 ip d p :
  6 <= k <= 8 → p < ip + 10 \/ ip + 20 <= p → rewrite_fragment (2 * k) new l3 ip d p = d p.
Proof. intros Hk Hp. unfold rewrite_fragment. rewrite st16_other, st32_other by lia. done. Qed.

(** A field and a checksum stored together. *)
Lemma store_csum_sum d o m j c np v a b :
  0 <= j < Z.of_nat m → 0 <= c < Z.of_nat m → j ≠ c → is_u16 np → is_u16 v →
  v mod 65535 = (ld16 d (o + 2 * c) + (a + ld16 d (o + 2 * j)) - (b + np)) mod 65535 →
  wsum (st16 (st16 d (o + 2 * j) np) (o + 2 * c) v) o m mod 65535 =
  (wsum d o m + a - b) mod 65535.
Proof.
  intros Hj Hc Hne Hnp Hv Hcs. rewrite !wsum_st16 by (done || lia).
  assert (ld16 (st16 d (o + 2 * j) np) (o + 2 * c) = ld16 d (o + 2 * c)) as ->
    by (unfold ld16; rewrite !st16_other by lia; done).
  rewrite csum_cong in *. destruct Hcs as [k ->]. exists k. lia.
Qed.

(** The word of a transport checksum, and of a port or echo identifier. *)
Definition l4_csum_word (proto : Z) : Z :=
  if proto =? IP_PROTOCOL_TCP then 8 else if proto =? IP_PROTOCOL_UDP then 3 else 1.
Definition l4_port_word (proto port : Z) : Z := if proto =? IP_PROTOCOL_ICMP then 2 else port.

Lemma l4_port_word_range proto port :
  port = 0 \/ port = 1 → 0 <= l4_port_word proto port <= 2.
Proof. unfold l4_port_word. destruct (_ =? _); lia. Qed.

(** Transport headers with a port or identifier to rewrite, and those of them with a
    checksum: UDP's zero means there is none. *)
Definition l4_ported (proto : Z) (d : Z → Z) (l4 : Z) : bool :=
  has_pseudo proto || ((proto =? IP_PROTOCOL_ICMP) && is_echo (d l4)).
Definition l4_checked (proto : Z) (d : Z → Z) (l4 : Z) : bool :=
  (proto =? IP_PROTOCOL_TCP) || ((proto =? IP_PROTOCOL_UDP) && negb (ld16 d (l4 + 6) =? 0)) ||
  ((proto =? IP_PROTOCOL_ICMP) && is_echo (d l4)).

Lemma checked_ported proto d l4 : l4_checked proto d l4 = true → l4_ported proto d l4 = true.
Proof.
  unfold l4_checked, l4_ported, has_pseudo. rewrite !orb_true_iff, !andb_true_iff. tauto.
Qed.

Lemma rewrite_l4_low proto port_off np delta l4 d p :
  0 <= port_off → p < l4 → rewrite_l4 proto port_off np delta l4 d p = d p.
Proof.
  intros Ho Hp. unfold rewrite_l4. repeat case_match; rewrite ?st16_other by lia; done.
Qed.

Lemma ld16_below d o v p : p + 1 < o → ld16 (st16 d o v) p = ld16 d p.
Proof. intros. unfold ld16. by rewrite !st16_other by lia. Qed.
Lemma ld16_above d o v p : o + 1 < p → ld16 (st16 d o v) p = ld16 d p.
Proof. intros. unfold ld16. by rewrite !st16_other by lia. Qed.

Lemma rewrite_l4_sum proto port np delta l4 d m oa na :
  port = 0 \/ port = 1 → is_u16 np → l4_checked proto d l4 = true →
  csum_delta delta ((if has_pseudo proto then oa else 0) + ld16 d (l4 + 2 * l4_port_word proto port))
    ((if has_pseudo proto then na else 0) + np) →
  l4_csum_word proto < Z.of_nat m → 2 < Z.of_nat m →
  wsum (rewrite_l4 proto (2 * port) np delta l4 d) l4 m mod 65535 =
  (wsum d l4 m + (if has_pseudo proto then oa else 0) - (if has_pseudo proto then na else 0))
    mod 65535.
Proof.
  intros Hport Hnp. unfold l4_checked, has_pseudo, l4_csum_word, l4_port_word, rewrite_l4.
  destruct (Z.eqb_spec proto IP_PROTOCOL_TCP) as [->|]; simpl.
  { intros _ Hd Hm _. change (l4 + 16) with (l4 + 2 * 8).
    rewrite ld16_above by lia. apply store_csum_sum; first [lia|done|apply csum_apply_range|apply Hd]. }
  destruct (Z.eqb_spec proto IP_PROTOCOL_UDP) as [->|]; simpl.
  { rewrite orb_false_r. intros Hc Hd Hm _. apply negb_true_iff in Hc. rewrite Hc.
    change (l4 + 6) with (l4 + 2 * 3). apply store_csum_sum; try (lia || done).
    - destruct (csum_apply _ _ =? 0); [done|apply csum_apply_range].
    - rewrite <- Hd. destruct (Z.eqb_spec (csum_apply (ld16 d (l4 + 2 * 3)) delta) 0) as [->|]; done. }
  destruct (Z.eqb_spec proto IP_PROTOCOL_ICMP) as [->|]; simpl; [|done].
  intros -> Hd Hm Hm2. change (l4 + 4) with (l4 + 2 * 2). change (l4 + 2) with (l4 + 2 * 1).
  rewrite ld16_below by lia. apply store_csum_sum; first [lia|done|apply csum_apply_range|apply Hd].
Qed.

(** ** Translation of a packet *)

(** The packet is at most [m] words of transport past its header. *)
Record rewrite_spec (proto : Z) (k port na np : Z) (d d' : Z → Z) (ip : Z) : Prop := {
  rw_header : wsum d' ip (header_words d ip) mod 65535 = wsum d ip (header_words d ip) mod 65535;
  rw_addr : ld32 d' (ip + 2 * k) = na;
  rw_before : ∀ p, p < ip + 10 → d' p = d p;
  rw_l4 : ∀ m, l4_checked proto d (ip + 4 * (d ip mod 16)) = true →
    l4_csum_word proto < Z.of_nat m → 2 < Z.of_nat m →
    ((if has_pseudo proto then wsum d' (ip + 12) 4 else 0) +
     wsum d' (ip + 4 * (d ip mod 16)) m) mod 65535 =
    ((if has_pseudo proto then wsum d (ip + 12) 4 else 0) +
     wsum d (ip + 4 * (d ip mod 16)) m) mod 65535;
  rw_port : l4_ported proto d (ip + 4 * (d ip mod 16)) = true →
    ld16 d' (ip + 4 * (d ip mod 16) + 2 * l4_port_word proto port) = np
}.

Lemma rewrite_l4_port proto port np delta l4 d :
  port = 0 \/ port = 1 → is_u16 np → l4_ported proto d l4 = true →
  ld16 (rewrite_l4 proto (2 * port) np delta l4 d) (l4 + 2 * l4_port_word proto port) = np.
Proof.
  intros Hport Hnp. unfold l4_ported, has_pseudo, l4_port_word, rewrite_l4.
  destruct (Z.eqb_spec proto IP_PROTOCOL_TCP) as [->|]; simpl.
  { intros _. rewrite ld16_below by lia. by apply ld16_st16. }
  destruct (Z.eqb_spec proto IP_PROTOCOL_UDP) as [->|]; simpl.
  { intros _. destruct (_ =? 0); rewrite ?ld16_below by lia; by apply ld16_st16. }
  destruct (Z.eqb_spec proto IP_PROTOCOL_ICMP) as [->|]; simpl; [|done].
  intros ->. rewrite ld16_above by lia. by apply ld16_st16.
Qed.

Lemma l4_ported_frame proto d d' l4 :
  (∀ p, l4 <= p → d' p = d p) → l4_ported proto d' l4 = l4_ported proto d l4.
Proof. intros Hd. unfold l4_ported. by rewrite Hd by lia. Qed.

Lemma l4_checked_frame proto d d' l4 :
  (∀ p, l4 <= p → d' p = d p) → l4_checked proto d' l4 = l4_checked proto d l4.
Proof. intros Hd. unfold l4_checked, ld16. rewrite !Hd by lia. done. Qed.

Lemma rewrite_packet_spec proto k port na np l3 l4 ip d :
  ip4_wf d ip → k = 6 \/ k = 8 → port = 0 \/ port = 1 → is_u32 na → is_u16 np →
  csum_delta l3 (ld32 d (ip + 2 * k)) na →
  (l4_ported proto d (ip + 4 * (d ip mod 16)) = true →
   csum_delta l4
    ((if has_pseudo proto then ld32 d (ip + 2 * k) else 0) +
     ld16 d (ip + 4 * (d ip mod 16) + 2 * l4_port_word proto port))
    ((if has_pseudo proto then na else 0) + np)) →
  rewrite_spec proto k port na np d
    (rewrite_packet proto (2 * k) (2 * port) na np l3 l4 ip d) ip.
Proof.
  intros [Hb Hhl] Hk Hport Hna Hnp H3 H4.
  change (rewrite_packet proto (2 * k) (2 * port) na np l3 l4 ip d) with
    (let d1 := rewrite_fragment (2 * k) na l3 ip d in
     rewrite_l4 proto (2 * port) np l4 (ip + ip4_header_bytes d1 ip) d1).
  cbv zeta. set (d1 := rewrite_fragment (2 * k) na l3 ip d).
  set (o := ip + 4 * (d ip mod 16)).
  assert (d1 ip = d ip) as Hip by (apply rewrite_fragment_other; lia).
  assert (ip + ip4_header_bytes d1 ip = o) as -> by (unfold o; by rewrite header_bytes_ihl, Hip).
  assert (∀ p, o <= p → d1 p = d p) as Hhigh
    by (intros p Hp; apply rewrite_fragment_other; unfold o in Hp; lia).
  assert (∀ p, p < o → rewrite_l4 proto (2 * port) np l4 o d1 p = d1 p) as Hlow
    by (intros p Hp; apply rewrite_l4_low; lia).
  assert (l4_checked proto d1 o = l4_checked proto d o) as Hck by by apply l4_checked_frame.
  split; fold o.
  - rewrite (wsum_frame d1).
    + apply rewrite_fragment_sum; try done; [lia|]. unfold header_words. lia.
    + intros p Hp. apply Hlow. unfold header_words in Hp. unfold o. lia.
  - unfold ld32, ld16. rewrite !Hlow by (unfold o; lia).
    change (ld32 d1 (ip + 2 * k) = na). unfold d1, rewrite_fragment.
    rewrite <- (ld32_st32 d (ip + 2 * k) na Hna) at 3. unfold ld32, ld16.
    rewrite !(st16_other (st32 _ _ _)) by lia. done.
  - intros p Hp. rewrite Hlow by (unfold o; lia). apply rewrite_fragment_other; lia.
  - intros m Hc Hm Hm2.
    pose proof (rewrite_l4_sum proto port np l4 o d1 m (ld32 d (ip + 2 * k)) na Hport Hnp) as Hs.
    rewrite Hck in Hs. specialize (Hs Hc).
    rewrite (wsum_frame d d1 o) in Hs by (intros p Hp; apply Hhigh; lia).
    assert (ld16 d1 (o + 2 * l4_port_word proto port) = ld16 d (o + 2 * l4_port_word proto port))
      as E by (pose proof (l4_port_word_range proto port Hport); unfold ld16;
               rewrite !Hhigh by lia; done).
    rewrite E in Hs. specialize (Hs (H4 (checked_ported _ _ _ Hc)) Hm Hm2).
    pose proof (rewrite_fragment_addrs k na l3 ip d Hk Hna) as Ha. fold d1 in Ha.
    rewrite (wsum_frame d1 _ (ip + 12)) by (intros p Hp; apply Hlow; unfold o; lia).
    rewrite csum_cong in *. destruct Hs as [k1 ->], Ha as [k2 ->].
    destruct (has_pseudo proto); [exists (k1 + k2)|exists k1]; lia.
  - intros Hc. apply rewrite_l4_port; [done|done|]. rewrite (l4_ported_frame _ d); done.
Qed.

(** ** The nodes *)

Context (I : gset Z).
Notation nat_ok := (nat_ok I).

(** A packet whose reassembly metadata is that of its transport header. *)
Record packet_ok (b : nat_buffer) : Prop := {
  pk_wf : ip4_wf (nb_data b) (nb_ip b);
  pk_type : ip4_protocol (nb_data b) (nb_ip b) = IP_PROTOCOL_ICMP →
    rs_icmp_type_or_tcp_flags b = nb_data b (nb_ip b + 4 * (nb_data b (nb_ip b) mod 16));
  pk_port : l4_ported (ip4_protocol (nb_data b) (nb_ip b)) (nb_data b)
      (nb_ip b + 4 * (nb_data b (nb_ip b) mod 16)) = true →
    rs_l4_src_port b = ld16 (nb_data b) (nb_ip b + 4 * (nb_data b (nb_ip b) mod 16) +
      2 * l4_port_word (ip4_protocol (nb_data b) (nb_ip b)) 0)
}.

(** Addresses and ports of their widths. *)
Definition mapping_widths (m : cgnat_mapping_t) : Prop :=
  is_u32 (mp_inside_ip m) /\ is_u32 (mp_outside_ip m).
Definition widths_ok (cm : cgnat_main_t) : Prop :=
  map_Forall (λ _, mapping_widths) (cg_mappings cm) /\
  map_Forall (λ _ s, is_u16 (nf_rewrite_dport (ss_o2i s))) (cg_sessions cm).

Lemma in2out_found cm a b c d e f si s :
  nat_ok cm → cgnat_session_lookup_in2out cm a b c d e f = Some (si, s) →
  cg_sessions cm !! si = Some s /\ flow_key (ss_i2o s) = cgnat_session_make_key a b c d e f /\
  exists m, cg_mappings cm !! ss_mapping_index s = Some m /\ session_of m s.
Proof.
  intros Hok Hl. pose proof (lookup_in2out_live _ _ _ _ _ _ _ _ _ Hl) as Hs.
  split; [done|]. split.
  - unfold cgnat_session_lookup_in2out in Hl.
    destruct (cg_session_table_in2out cm !! _) as [j|] eqn:Ek; simpl in Hl; [|done].
    destruct (cg_sessions cm !! j) as [x|] eqn:Ex; simpl in Hl; [|done]. injection Hl as -> ->.
    apply (nat_in2out _ _ Hok) in Ek as (s' & Hs' & Hk).
    apply esess_lookup_inv in Hs' as (s0 & Hs0 & ->). simplify_eq. exact Hk.
  - destruct (nat_owner _ _ Hok si _ (esess_lookup _ _ _ Hs)) as (m & Hm & Hso).
    exists m. split; [exact Hm|]. by apply (session_of_erase m (erase s)).
Qed.

Lemma out2in_found cm a b c d e f si s :
  nat_ok cm → cgnat_session_lookup_out2in cm a b c d e f = Some (si, s) →
  cg_sessions cm !! si = Some s /\ flow_key (ss_o2i s) = cgnat_session_make_key a b c d e f /\
  exists m, cg_mappings cm !! ss_mapping_index s = Some m /\ session_of m s.
Proof.
  intros Hok Hl. pose proof (lookup_out2in_live _ _ _ _ _ _ _ _ _ Hl) as Hs.
  split; [done|]. split.
  - unfold cgnat_session_lookup_out2in in Hl.
    destruct (cg_session_table_out2in cm !! _) as [j|] eqn:Ek; simpl in Hl; [|done].
    destruct (cg_sessions cm !! j) as [x|] eqn:Ex; simpl in Hl; [|done]. injection Hl as -> ->.
    apply (nat_out2in _ _ Hok) in Ek as (s' & Hs' & Hk).
    apply esess_lookup_inv in Hs' as (s0 & Hs0 & ->). simplify_eq. exact Hk.
  - destruct (nat_owner _ _ Hok si _ (esess_lookup _ _ _ Hs)) as (m & Hm & Hso).
    exists m. split; [exact Hm|]. by apply (session_of_erase m (erase s)).
Qed.

(** The deltas of a mapping's session. *)
Lemma i2o_deltas m s :
  session_of m s →
  csum_delta (nf_l3_csum_delta (ss_i2o s)) (mp_inside_ip m) (mp_outside_ip m) /\
  csum_delta (nf_l4_csum_delta (ss_i2o s))
    ((if has_pseudo (nf_proto (ss_i2o s)) then mp_inside_ip m else 0) + nf_sport (ss_i2o s))
    ((if has_pseudo (nf_proto (ss_i2o s)) then mp_outside_ip m else 0) + nf_rewrite_sport (ss_i2o s)).
Proof.
  intros Hso. pose proof (flow_csum_deltas (mp_inside_ip m) (mp_outside_ip m)
    (nf_sport (ss_i2o s)) (nf_rewrite_sport (ss_i2o s)) (has_pseudo (nf_proto (ss_i2o s)))
    (ss_i2o s)) as Hd. by rewrite (so_i2o_csum _ _ Hso) in Hd.
Qed.

Lemma o2i_deltas m s :
  session_of m s →
  csum_delta (nf_l3_csum_delta (ss_o2i s)) (mp_outside_ip m) (mp_inside_ip m) /\
  csum_delta (nf_l4_csum_delta (ss_o2i s))
    ((if has_pseudo (nf_proto (ss_o2i s)) then mp_outside_ip m else 0) + nf_sport (ss_o2i s))
    ((if has_pseudo (nf_proto (ss_o2i s)) then mp_inside_ip m else 0) + nf_rewrite_dport (ss_o2i s)).
Proof.
  intros Hso. pose proof (flow_csum_deltas (mp_outside_ip m) (mp_inside_ip m)
    (nf_sport (ss_o2i s)) (nf_rewrite_dport (ss_o2i s)) (has_pseudo (nf_proto (ss_o2i s)))
    (ss_o2i s)) as Hd. by rewrite (so_o2i_csum _ _ Hso) in Hd.
Qed.

Lemma translate_in2out_data cm b si s proto now cm' b' :
  cgnat_in2out_translate cm b si s proto now = Some (cm', b') →
  nb_data b' = rewrite_packet proto 12 0 (nf_rewrite_saddr (ss_i2o s)) (nf_rewrite_sport (ss_i2o s))
    (nf_l3_csum_delta (ss_i2o s)) (nf_l4_csum_delta (ss_i2o s)) (nb_ip b) (nb_data b).
Proof.
  unfold cgnat_in2out_translate. destruct (track_tcp _ _ _ _ _ _ _); simpl; [|done].
  by intros [= <- <-].
Qed.

Lemma translate_out2in_data cm b si s proto now cm' b' :
  cgnat_out2in_translate cm b si s proto now = Some (cm', b') →
  nb_data b' = rewrite_packet proto 16 2 (nf_rewrite_daddr (ss_o2i s)) (nf_rewrite_dport (ss_o2i s))
    (nf_l3_csum_delta (ss_o2i s)) (nf_l4_csum_delta (ss_o2i s)) (nb_ip b) (nb_data b).
Proof.
  unfold cgnat_out2in_translate. destruct (track_tcp _ _ _ _ _ _ _); simpl; [|done].
  by intros [= <- <-].
Qed.

(** The source port the metadata gives is the one in the packet. *)
Lemma reass_port b sp dp :
  packet_ok b →
  cgnat_in2out_ports_from_reass b (ip4_protocol (nb_data b) (nb_ip b)) = inr (sp, dp) →
  l4_ported (ip4_protocol (nb_data b) (nb_ip b)) (nb_data b)
      (nb_ip b + 4 * (nb_data b (nb_ip b) mod 16)) = true →
  sp = ld16 (nb_data b) (nb_ip b + 4 * (nb_data b (nb_ip b) mod 16) +
      2 * l4_port_word (ip4_protocol (nb_data b) (nb_ip b)) 0).
Proof.
  intros Hb Hr Hp. rewrite <- (pk_port b Hb Hp). revert Hr Hp.
  pose proof (pk_type b Hb) as Ht.
  unfold cgnat_in2out_ports_from_reass, l4_ported, has_pseudo.
  destruct (negb _); [done|]. destruct (rs_l4_hdr_truncated b); [done|].
  destruct (rs_is_non_first_fragment b); [done|].
  destruct (_ || _); simpl; [by intros [= <- <-]|].
  destruct (Z.eqb_spec (ip4_protocol (nb_data b) (nb_ip b)) IP_PROTOCOL_ICMP) as [He|]; simpl; [|done].
  rewrite (Ht He). intros Hr Hecho. rewrite Hecho in Hr. by injection Hr as <- <-.
Qed.

(** C8. Translation towards the outside: a packet the fast node forwards is either
    untouched (bypassed, or for the router itself) or belongs to a session of the
    mapping that owns its source address.  Then its source is the mapping's outside
    address and a port of the mapping's block, bytes before the checksum are the
    same, and the IPv4 sum and the TCP, UDP or ICMP sum (with the addresses where
    the protocol covers them) are what they were modulo 65535. *)
Theorem in2out_translates cm b now cm' b' :
  nat_ok cm → widths_ok cm → packet_ok b →
  cgnat_in2out_node cm b now = Some (cm', b', NextFeature) →
  (b' = b /\ cm' = cm) \/
  exists si s m, cg_sessions cm !! si = Some s /\ cg_mappings cm !! ss_mapping_index s = Some m /\
    mp_inside_ip m = ip4_src (nb_data b) (nb_ip b) /\
    (cgnat_is_unk_proto (ip4_protocol (nb_data b) (nb_ip b)) = true \/
     mp_port_block_start m <= clib_net_to_host_u16 (nf_rewrite_sport (ss_i2o s))
       <= mp_port_block_end m) /\
    rewrite_spec (ip4_protocol (nb_data b) (nb_ip b)) 6 0 (mp_outside_ip m)
      (nf_rewrite_sport (ss_i2o s)) (nb_data b) (nb_data b') (nb_ip b).
Proof.
  intros Hok [Hwm _] Hb. unfold cgnat_in2out_node.
  destruct (cgnat_in2out_ports_from_reass b _) as [e|[sp dp]] eqn:Hr; [by destruct e|].
  destruct (cgnat_bypass_check _ _ _); [intros [= <- <-]; by left|].
  destruct (cgnat_is_local_receive _ _); [intros [= <- <-]; by left|].
  destruct (cgnat_mapping_lookup _ _ _) as [[mi m0]|]; [|done].
  destruct (cg_pools cm !! mp_pool_index m0) as [pool|]; simpl; [|done].
  destruct (negb _); [done|].
  destruct (cgnat_session_lookup_in2out _ _ _ _ _ _ _) as [[si s]|] eqn:Hl; [|done].
  destruct (in2out_found _ _ _ _ _ _ _ _ _ Hok Hl) as (Hs & Hk & m & Hm & Hso).
  destruct (cgnat_in2out_translate _ _ _ _ _ _) as [[cm1 b1]|] eqn:Ht; simpl; [|done].
  intros [= <- <-]. right. exists si, s, m. apply translate_in2out_data in Ht.
  unfold flow_key, cgnat_session_make_key in Hk. injection Hk as K1 K2 K3 K4 K5 K6.
  destruct (i2o_deltas m s Hso) as [D3 D4]. rewrite K3, K5 in D4.
  split_and!; try done; [by rewrite <- K1, (so_i2o_saddr _ _ Hso)|rewrite <- K5; by apply Hso|].
  change (nb_data (b1⟪nb_sw_if_index_tx := _⟫)) with (nb_data b1). rewrite Ht.
  rewrite (so_i2o_rewrite _ _ Hso).
  assert (mp_inside_ip m = ld32 (nb_data b) (nb_ip b + 2 * 6)) as Hip
    by (by rewrite <- (so_i2o_saddr _ _ Hso)).
  rewrite Hip in D3, D4.
  apply (rewrite_packet_spec _ 6 0); try done; [apply Hb|by left|by left|by apply (Hwm _ m Hm)|by apply Hso|].
  intros Hported. by rewrite (reass_port b sp dp Hb Hr Hported) in D4.
Qed.

(** The destination port the classifier reads. *)
Lemma classify_port d ip proto sp dp :
  cgnat_out2in_classify d ip proto = inr (sp, dp) →
  l4_ported proto d (ip + 4 * (d ip mod 16)) = true →
  dp = ld16 d (ip + 4 * (d ip mod 16) + 2 * l4_port_word proto 1).
Proof.
  unfold cgnat_out2in_classify, l4_ported, has_pseudo, l4_port_word. rewrite header_bytes_ihl.
  destruct (negb _); [done|].
  destruct (Z.eqb_spec proto IP_PROTOCOL_ICMP) as [->|]; simpl.
  - destruct (_ <? _); [done|]. intros Hr Hecho. rewrite Hecho in Hr. by injection Hr as <- <-.
  - rewrite orb_false_r. intros Hr Hp. rewrite Hp in Hr. destruct (_ <? _); [done|].
    by injection Hr as <- <-.
Qed.

(** C9. Translation towards the subscriber: a packet the fast node accepts is for
    the outside address and a live session of a mapping; it leaves with the
    subscriber's own address and port as destination, for the subscriber's FIB, and
    with the same sums modulo 65535. *)
Theorem out2in_translates cm b now cm' b' :
  nat_ok cm → widths_ok cm → ip4_wf (nb_data b) (nb_ip b) →
  cgnat_out2in_node cm b now = Some (cm', b', NextLookup) →
  exists si s m, cg_sessions cm !! si = Some s /\ cg_mappings cm !! ss_mapping_index s = Some m /\
    mp_outside_ip m = ip4_dst (nb_data b) (nb_ip b) /\
    nf_daddr (ss_i2o s) = ip4_src (nb_data b) (nb_ip b) /\
    nb_sw_if_index_tx b' = mp_inside_fib_index m /\
    rewrite_spec (ip4_protocol (nb_data b) (nb_ip b)) 8 1 (mp_inside_ip m)
      (nf_sport (ss_i2o s)) (nb_data b) (nb_data b') (nb_ip b).
Proof.
  intros Hok [Hwm Hws] Hb. unfold cgnat_out2in_node.
  destruct (cgnat_out2in_classify _ _ _) as [e|[sp dp]] eqn:Hr; [by destruct e|].
  destruct (cgnat_session_lookup_out2in _ _ _ _ _ _ _) as [[si s]|] eqn:Hl; [|done].
  destruct (out2in_found _ _ _ _ _ _ _ _ _ Hok Hl) as (Hs & Hk & m & Hm & Hso).
  destruct (cgnat_out2in_translate _ _ _ _ _ _) as [[cm1 b1]|] eqn:Ht; simpl; [|done].
  intros [= <- <-]. exists si, s, m. apply translate_out2in_data in Ht.
  unfold flow_key, cgnat_session_make_key in Hk. injection Hk as K1 K2 K3 K4 K5 K6.
  destruct (o2i_deltas m s Hso) as [D3 D4]. rewrite K3, K5 in D4.
  split_and!; try done; [by rewrite <- K1, (so_o2i_saddr _ _ Hso)|
    by rewrite <- K2, (so_remote _ _ Hso)|apply (so_o2i_fib _ _ Hso)|].
  change (nb_data (b1⟪nb_sw_if_index_tx := _⟫)) with (nb_data b1). rewrite Ht.
  pose proof (Hws si s Hs) as Hw. simpl in Hw.
  rewrite (so_o2i_rewrite _ _ Hso). rewrite (so_inside_port _ _ Hso) in Hw, D4 |- *.
  assert (mp_outside_ip m = ld32 (nb_data b) (nb_ip b + 2 * 8)) as Hip
    by (by rewrite <- (so_o2i_saddr _ _ Hso)).
  rewrite Hip in D3, D4.
  apply (rewrite_packet_spec _ 8 1); try done; [by right|by right|by apply (Hwm _ m Hm)|].
  intros Hported. by rewrite (classify_port _ _ _ sp dp Hr Hported) in D4.
Qed.

End Packets.

(** ** The sample run's packets *)

Lemma sample_widths : widths_ok sample_state.
Proof. split; apply (bool_decide_unpack _); vm_compute; exact Logic.I. Qed.

Lemma bytes_range l : Forall (λ b, 0 <= b < 256) l → ∀ p, 0 <= bytes_at l p < 256.
Proof.
  intros Hl p. unfold bytes_at. destruct (nth_in_or_default (Z.to_nat p) l 0) as [Hin| ->]; [|lia].
  rewrite Forall_forall in Hl. apply Hl. by apply list_elem_of_In.
Qed.

Lemma sample_syn_ok : packet_ok sample_syn.
Proof.
  split; [split| |]; try done.
  apply bytes_range, (bool_decide_unpack _). vm_compute. exact Logic.I.
Qed.

Lemma sample_syn_ack_wf : ip4_wf (nb_data sample_syn_ack) (nb_ip sample_syn_ack).
Proof. split; [apply bytes_range, (bool_decide_unpack _); vm_compute; exact Logic.I|done]. Qed.

Lemma in2out_translates_witness :
  exists cm' b', cgnat_in2out_node sample_state sample_syn (sec 12) = Some (cm', b', NextFeature) /\
  ((b' = sample_syn /\ cm' = sample_state) \/
   exists si s m, cg_sessions sample_state !! si = Some s /\
    cg_mappings sample_state !! ss_mapping_index s = Some m /\
    mp_inside_ip m = ip4_src (nb_data sample_syn) 0 /\
    (cgnat_is_unk_proto 6 = true \/
     mp_port_block_start m <= clib_net_to_host_u16 (nf_rewrite_sport (ss_i2o s))
       <= mp_port_block_end m) /\
    rewrite_spec 6 6 0 (mp_outside_ip m) (nf_rewrite_sport (ss_i2o s)) (nb_data sample_syn)
      (nb_data b') 0).
Proof.
  assert (snd <$> cgnat_in2out_node sample_state sample_syn (sec 12) = Some NextFeature) as Hn
    by (vm_compute; reflexivity).
  destruct (cgnat_in2out_node sample_state sample_syn (sec 12)) as [[[cm' b'] n]|] eqn:E; [|done].
  injection Hn as ->. exists cm', b'. split; [done|].
  exact (in2out_translates {[1]} sample_state sample_syn (sec 12) cm' b'
    (reachable_ok _ _ sample_reachable) sample_widths sample_syn_ok E).
Defined.

Lemma out2in_translates_witness :
  exists cm' b', cgnat_out2in_node sample_state sample_syn_ack (sec 12) = Some (cm', b', NextLookup) /\
  exists si s m, cg_sessions sample_state !! si = Some s /\
    cg_mappings sample_state !! ss_mapping_index s = Some m /\
    mp_outside_ip m = ip4_dst (nb_data sample_syn_ack) 0 /\
    nf_daddr (ss_i2o s) = ip4_src (nb_data sample_syn_ack) 0 /\
    nb_sw_if_index_tx b' = mp_inside_fib_index m /\
    rewrite_spec 6 8 1 (mp_inside_ip m) (nf_sport (ss_i2o s)) (nb_data sample_syn_ack)
      (nb_data b') 0.
Proof.
  assert (snd <$> cgnat_out2in_node sample_state sample_syn_ack (sec 12) = Some NextLookup) as Hn
    by (vm_compute; reflexivity).
  destruct (cgnat_out2in_node sample_state sample_syn_ack (sec 12)) as [[[cm' b'] n]|] eqn:E;
    [|done].
  injection Hn as ->. exists cm', b'. split; [done|].
  exact (out2in_translates {[1]} sample_state sample_syn_ack (sec 12) cm' b'
    (reachable_ok _ _ sample_reachable) sample_widths sample_syn_ack_wf E).
Defined.
