(* ===== verification/CgnatSubscriber.v ===== *)
(** What a subscriber is promised: its mapping, its sessions and its port block.

    Properties of the calls an operator and the packet nodes make, on top of the
    invariant; and two runs that show what the code does not prevent. *)

From S2P Require Import Prelude Dll CgnatTypes CgnatDet CgnatSession CgnatInv.
From S2P Require Import CgnatConfig CgnatNodes CgnatSafety CgnatRun CgnatSystem.

Section Subscriber.

Context `{NatVpp} (I : gset Z).

(** Removing a subscriber's mapping removes exactly its sessions: the loop
    over its list ends, its lookup entry and its slot are gone, every other mapping
    is as it was, and the sessions left are those of the other mappings, unchanged
    but for their list links. *)
Theorem mapping_delete_exact cm idx now id sw ip vrf oip st en ef p fib mi :
  nat_ok I cm → cg_pool_by_id cm !! id = Some p → fib_table_find vrf = Some fib →
  cg_inside_lookup cm !! (ip, fib) = Some mi →
  exists cm',
    cgnat_add_del_subscriber_mapping cm idx now id sw ip vrf oip st en ef false = Some (cm', RvOk) /\
    nat_ok I cm' /\ cgnat_mapping_lookup cm' ip fib = None /\ cg_mappings cm' !! mi = None /\
    (∀ mj, mj ≠ mi → mapping_id <$> cg_mappings cm' !! mj = mapping_id <$> cg_mappings cm !! mj) /\
    (∀ si s, esess cm' !! si = Some s <-> esess cm !! si = Some s /\ ss_mapping_index s ≠ mi).
Proof.
  intros Hok Hid Hfib Hk. unfold cgnat_add_del_subscriber_mapping.
  destruct (known_pool I cm id p Hok Hid) as (pool & Hpool & _). rewrite Hid, Hpool. simpl.
  rewrite Hfib. simpl.
  destruct (mapping_del_spec I cm now ip fib ef mi Hok Hk) as (cm' & -> & H1 & H2 & H3 & H4 & H5).
  exists cm'. split_and!; try done. unfold cgnat_mapping_lookup. by rewrite H2.
Qed.

Lemma mapping_add_same cm idx idx' p sw ip vrf fib oip st en ef ef' cm' :
  mapping_add cm idx p sw ip vrf fib oip st en ef = Some (cm', RvOk) →
  mapping_add cm' idx' p sw ip vrf fib oip st en ef' = Some (cm', RvOk).
Proof.
  unfold mapping_add at 1. destruct (cg_inside_lookup cm !! (ip, fib)) as [i|] eqn:Ek.
  - destruct (cg_mappings cm !! i) as [m|] eqn:Em; simpl; [|done].
    destruct (same_mapping m oip st en p sw) eqn:Es; [|done]. intros [= <-].
    unfold mapping_add. rewrite Ek, Em. simpl. by rewrite Es.
  - set (m := new_mapping ip oip vrf fib st en p sw).
    set (added := cm⟪cg_mappings ::= insert idx m⟫⟪cg_inside_lookup ::= insert (ip, fib) idx⟫).
    assert (∀ e, mapping_add (emit e added) idx' p sw ip vrf fib oip st en ef' =
                 Some (emit e added, RvOk)) as Hagain.
    { intros e. unfold mapping_add, emit, added. rproj. rewrite !lookup_insert_eq. simpl.
      assert (same_mapping m oip st en p sw = true) as ->; [|done].
      unfold same_mapping, m, new_mapping. simpl. by rewrite !Z.eqb_refl. }
    destruct ef.
    + destruct (sv_reass_rv sw =? 0); [|done]. intros [= <-]. apply Hagain.
    + intros [= <-]. specialize (Hagain []).
      assert (emit [] added = added) as He; [|by rewrite He in Hagain].
      unfold emit. destruct added. rsimpl. by rewrite app_nil_r.
Qed.

Lemma mapping_add_pools cm idx p sw ip vrf fib oip st en ef cm' rv :
  mapping_add cm idx p sw ip vrf fib oip st en ef = Some (cm', rv) →
  cg_pools cm' = cg_pools cm /\ cg_pool_by_id cm' = cg_pool_by_id cm.
Proof.
  unfold mapping_add. destruct (cg_inside_lookup cm !! (ip, fib)) as [i|].
  - destruct (cg_mappings cm !! i); simpl; [|done].
    destruct (same_mapping _ _ _ _ _ _); by intros [= <- <-].
  - destruct ef; [destruct (sv_reass_rv sw =? 0)|]; by intros [= <- <-].
Qed.

(** Adding a mapping is idempotent: replaying a successful add, at any later
    slot and with or without the feature flag, succeeds and changes nothing, in PBA
    and in deterministic pools. *)
Theorem mapping_add_idempotent cm idx now idx' now' id sw ip vrf oip st en ef ef' cm' :
  cgnat_add_del_subscriber_mapping cm idx now id sw ip vrf oip st en ef true = Some (cm', RvOk) →
  cgnat_add_del_subscriber_mapping cm' idx' now' id sw ip vrf oip st en ef' true = Some (cm', RvOk).
Proof.
  unfold cgnat_add_del_subscriber_mapping at 1.
  destruct (cg_pool_by_id cm !! id) as [p|] eqn:Eid; [|done].
  destruct (cg_pools cm !! p) as [pool|] eqn:Ep; simpl; [|done].
  destruct (fib_table_find vrf) as [fib|] eqn:Ef; [|done].
  destruct (mapping_target pool ip oip st en true) as [[rv|[[o a] e]]|] eqn:Et; simpl; try done.
  { intros [= <- ->]. unfold cgnat_add_del_subscriber_mapping.
    rewrite Eid, Ep, Ef. simpl. by rewrite Et. }
  intros Ha. destruct (mapping_add_pools _ _ _ _ _ _ _ _ _ _ _ _ _ Ha) as [Hp Hb].
  unfold cgnat_add_del_subscriber_mapping. rewrite Hb, Eid, Hp, Ep, Ef. simpl. rewrite Et. simpl.
  by eapply mapping_add_same.
Qed.

(** ** A new session *)

(** What a successful create leaves in the tables. *)
Lemma create_lookup cm si fi mi remote rport proto oport iport now cm' sj :
  cgnat_session_create cm si fi mi remote rport proto oport iport now = Some (cm', Some sj) →
  exists m pool s, cg_mappings cm !! mi = Some m /\ cg_pools cm !! mp_pool_index m = Some pool /\
    sj = si /\ cg_sessions cm' !! si = Some s /\
    let out_fib := if pl_outside_fib_valid pool then pl_outside_fib_index pool else 0 in
    ss_i2o s = i2o_flow m remote rport proto (clib_net_to_host_u16 oport) iport out_fib
                 (has_pseudo proto) /\
    ss_o2i s = o2i_flow m remote rport proto (clib_net_to_host_u16 oport) iport out_fib
                 (has_pseudo proto) /\
    cg_session_table_in2out cm' !! flow_key (ss_i2o s) = Some si /\
    cg_session_table_out2in cm' !! flow_key (ss_o2i s) = Some si.
Proof.
  unfold cgnat_session_create. destruct (cg_mappings cm !! mi) as [m|] eqn:Em; simpl; [|done].
  destruct (cg_pools cm !! mp_pool_index m) as [pool|] eqn:Ep; simpl; [|done].
  destruct (_ <=? mp_session_count m); [done|]. destruct (CGNAT_MAX_SESSIONS <=? _); [done|].
  destruct (cgnat_frag_rewrite_acquire _ _ _ _ _ _ _ _) as [[cm1 frag]|]; cbn [mbind option_bind];
    [|done].
  match goal with |- context [install_session si mi ?m0 ?s0 cm1] => set (m' := m0); set (s1 := s0) end.
  intros [= <- <-]. exists m, pool.
  assert (esess (install_session si mi m' s1 cm1) !! si = Some (erase s1)) as Hs
    by (by rewrite esess_install, lookup_insert_eq).
  apply esess_lookup_inv in Hs as (s2 & Hs2 & He). exists s2.
  assert (ss_i2o s2 = ss_i2o s1) as E1 by exact (f_equal ss_i2o (eq_sym He)).
  assert (ss_o2i s2 = ss_o2i s1) as E2 by exact (f_equal ss_o2i (eq_sym He)).
  rewrite E1, E2. split_and!; try done; unfold install_session; rproj; apply lookup_insert_eq.
Qed.


End Subscriber.

(** ** Witnesses on the sample run *)

Lemma mapping_delete_exact_witness :
  exists cm',
    cgnat_add_del_subscriber_mapping sample_state 0 (sec 20) 7 1 sample_inside 1 0 0 0 true false =
      Some (cm', RvOk) /\
    nat_ok {[1]} cm' /\ cgnat_mapping_lookup cm' sample_inside 1 = None /\
    cg_mappings cm' !! 0 = None /\
    (∀ mj, mj ≠ 0 → mapping_id <$> cg_mappings cm' !! mj =
                    mapping_id <$> cg_mappings sample_state !! mj) /\
    (∀ si s, esess cm' !! si = Some s <->
             esess sample_state !! si = Some s /\ ss_mapping_index s ≠ 0).
Proof.
  apply (mapping_delete_exact {[1]} sample_state 0 (sec 20) 7 1 sample_inside 1 0 0 0 true 0 1 0).
  - exact (reachable_ok _ _ sample_reachable).
  - vm_compute. reflexivity.
  - reflexivity.
  - vm_compute. reflexivity.
Defined.

(** The sample's mapping, replayed without the flag that enables the feature. *)
Lemma mapping_add_idempotent_witness :
  exists cm',
    cgnat_add_del_subscriber_mapping (state_at sample_ops 3) 0 (sec 9) 7 1 sample_inside 1
      sample_outside 1024 1087 true true = Some (cm', RvOk) /\
    cgnat_add_del_subscriber_mapping cm' 5 (sec 21) 7 1 sample_inside 1 sample_outside 1024 1087
      false true = Some (cm', RvOk).
Proof.
  assert (snd <$> cgnat_add_del_subscriber_mapping (state_at sample_ops 3) 0 (sec 9) 7 1
            sample_inside 1 sample_outside 1024 1087 true true = Some RvOk) as Hn
    by (vm_compute; reflexivity).
  destruct (cgnat_add_del_subscriber_mapping (state_at sample_ops 3) 0 (sec 9) 7 1
            sample_inside 1 sample_outside 1024 1087 true true) as [[cm' r]|] eqn:E; [|done].
  injection Hn as ->. exists cm'. split; [done|].
  exact (mapping_add_idempotent (state_at sample_ops 3) 0 (sec 9) 5 (sec 21) 7 1 sample_inside 1
           sample_outside 1024 1087 true false cm' E).
Defined.


(** ** Two runs the code allows *)

(** A subscriber with one port opens two flows to one peer. *)
Definition shared_port_ops : list nat_op :=
  [OpPool 0 0 sample_pool_cfg true; OpOutsideFib 7 0;
   OpMapping 0 0 7 1 sample_inside 1 sample_outside 1024 1024 true true;
   OpIn2outSlow sample_syn 0 0 (sec 10);
   OpIn2outSlow (sample_syn⟪rs_l4_src_port := 14641⟫) 1 1 (sec 11)].

(** Allocation looks at released ports only, not at ports in use: there is a
    run after which two live sessions have one outside tuple, so that what the peer
    answers to the first flow goes to the second. *)
Theorem live_sessions_share_port :
  exists cm s0 s1, nat_reachable {[1]} cm /\
    cg_sessions cm !! 0 = Some s0 /\ cg_sessions cm !! 1 = Some s1 /\
    nf_sport (ss_i2o s0) ≠ nf_sport (ss_i2o s1) /\
    flow_key (ss_o2i s0) = flow_key (ss_o2i s1) /\
    cg_session_table_out2in cm !! flow_key (ss_o2i s0) = Some 1.
Proof.
  assert (nat_reachable {[1]} (state_at shared_port_ops 5)) as Hr by run_allowed.
  set (cm := state_at shared_port_ops 5) in *.
  assert ((λ s, (nf_sport (ss_i2o s), flow_key (ss_o2i s))) <$> cg_sessions cm !! 0 =
          Some (14640, (sample_outside, sample_remote, 4, 20480, 6, 0))) as H0
    by (vm_compute; reflexivity).
  assert ((λ s, (nf_sport (ss_i2o s), flow_key (ss_o2i s))) <$> cg_sessions cm !! 1 =
          Some (14641, (sample_outside, sample_remote, 4, 20480, 6, 0))) as H1
    by (vm_compute; reflexivity).
  assert (cg_session_table_out2in cm !! (sample_outside, sample_remote, 4, 20480, 6, 0) = Some 1)
    as Hk by (vm_compute; reflexivity).
  clearbody cm. apply fmap_Some_1 in H0 as (s0 & E0 & V0), H1 as (s1 & E1 & V1).
  apply pair_eq in V0 as [A0 K0], V1 as [A1 K1].
  exists cm, s0, s1. rewrite <- K0, <- K1, <- A0, <- A1. by split_and!.
Qed.

(** Two subscribers behind one outside address talk to one peer; the second leaves. *)
Definition sample_inside2 : Z := 33554442.
Definition sample_syn2 : nat_buffer :=
  sample_syn⟪nb_data := bytes_at
    [69; 0; 0; 40; 0; 1; 64; 0; 64; 6; 6; 147; 10; 0; 0; 2; 198; 51; 100; 7;
     48; 57; 0; 80; 0; 0; 0; 1; 0; 0; 0; 0; 80; 2; 255; 255; 75; 28; 0; 0]⟫.
Definition sibling_ops : list nat_op :=
  [OpPool 0 0 sample_pool_cfg true; OpOutsideFib 7 0;
   OpMapping 0 0 7 1 sample_inside 1 sample_outside 1024 1087 true true;
   OpMapping 1 0 7 1 sample_inside2 1 sample_outside 1088 1151 true true;
   OpIn2outSlow sample_syn 0 0 (sec 10); OpIn2outSlow sample_syn2 1 1 (sec 11);
   OpMapping 0 (sec 12) 7 1 sample_inside2 1 0 0 0 true false].

(** The outside fragment key does not tell subscribers apart: there is a run
    after which a live session's fragments from its peer find no record, because
    another subscriber of the same outside address talked to that peer and left. *)
Theorem fragment_record_lost :
  exists cm s r, nat_reachable {[1]} cm /\ cg_sessions cm !! 0 = Some s /\
    cg_frag_rewrite_pool cm !! ss_frag_rewrite_index s = Some r /\
    fr_outside_ip r = cgnat_session_outside_ip s /\
    cgnat_frag_rewrite_lookup cm (cgnat_session_remote_ip s) (fr_outside_ip r)
      (cgnat_session_proto s) (fr_outside_fib_index r) = None.
Proof.
  assert (nat_reachable {[1]} (state_at sibling_ops 7)) as Hr by run_allowed.
  set (cm := state_at sibling_ops 7) in *.
  assert ((λ s, (ss_frag_rewrite_index s, cgnat_session_outside_ip s, cgnat_session_remote_ip s,
                 cgnat_session_proto s)) <$> cg_sessions cm !! 0 =
          Some (0, sample_outside, sample_remote, 6)) as Hs by (vm_compute; reflexivity).
  assert ((λ r, (fr_outside_ip r, fr_outside_fib_index r)) <$> cg_frag_rewrite_pool cm !! 0 =
          Some (sample_outside, 0)) as Hf by (vm_compute; reflexivity).
  assert (cgnat_frag_rewrite_lookup cm sample_remote sample_outside 6 0 = None) as Hk
    by (vm_compute; reflexivity).
  clearbody cm. apply fmap_Some_1 in Hs as (s & Es & Vs), Hf as (r & Er & Vr).
  apply pair_eq in Vs as [Vs H4]. apply pair_eq in Vs as [Vs H3]. apply pair_eq in Vs as [H1 H2].
  apply pair_eq in Vr as [H5 H6].
  exists cm, s, r. rewrite <- H1, <- H2, <- H3, <- H4, <- H5, <- H6. by split_and!.
Qed.
