(* ===== verification/Access.v ===== *)
(** What the subscriber session plugins share: the calls they make into VPP's
    forwarding tables and interfaces, and the life of a session's interface.

    The L2TP and PPPoE plugins never delete an interface: when its session ends it is
    hidden and its index kept in a free list for the next session.  The IPoE plugin
    deletes it.  [iface_ok] is what all keep true of their tables; [routes], [visible]
    and [registered] are what a list of calls leaves behind in VPP. *)

From S2P Require Import Prelude.
From stdpp Require Import strings.

#[local] Open Scope Z_scope.

(** * Calls *)

(** A path of a FIB entry: a prefix in a table, towards an interface. *)
Record fib_route := mkRoute {
  rt_ip6 : bool;
  rt_fib_index : Z;
  rt_addr : Z;
  rt_len : Z;
  rt_next_hop : option Z;
  rt_sw_if_index : Z
}.
#[export] Instance fib_route_eq_dec : EqDecision fib_route.
Proof. solve_decision. Defined.
#[export] Instance fib_route_countable : Countable fib_route.
Proof.
  apply (inj_countable'
    (λ r, (rt_ip6 r, rt_fib_index r, rt_addr r, rt_len r, rt_next_hop r, rt_sw_if_index r))
    (λ '(a, b, c, e, f, g), mkRoute a b c e f g)).
  by intros [].
Defined.

Inductive vnet_call :=
  | PathAdd (r : fib_route)                       (* fib_table_entry_path_add *)
  | PathRemove (r : fib_route)
  | SetAdminUp (sw_if_index : Z) (up : bool)      (* vnet_sw_interface_set_flags *)
  | SetHidden (sw_if_index : Z) (hidden : bool)   (* VNET_SW_INTERFACE_FLAG_HIDDEN *)
  | SetL3Output (sw_if_index : Z)                 (* to tunnel-output *)
  | ResetL3Output (sw_if_index : Z)
  | SetInstance (hw_if_index instance : Z)        (* dev_instance and hw_instance *)
  | ZeroCounters (sw_if_index : Z)
  | TableBind (ip6 : bool) (sw_if_index table_id : Z)
  | SetSup (sw_if_index sup : Z)                  (* sup_sw_if_index *)
  | RegisterHw (hw_if_index instance : Z)         (* vnet_register_interface *)
  | SetLinkUp (hw_if_index : Z)                   (* vnet_hw_interface_set_flags *)
  | DeleteHw (hw_if_index : Z)                    (* vnet_delete_hw_interface *)
  | RegisterInput (ethertype : Z).                (* ethernet_register_input_type *)

(** The error codes of the plugins' calls. *)
Inductive vnet_rv :=
  | RV_OK
  | RV_TUNNEL_EXIST
  | RV_NO_SUCH_ENTRY
  | RV_INSTANCE_IN_USE
  | RV_NO_SUCH_FIB
  | RV_NO_SUCH_INNER_FIB
  | RV_NO_SUCH_NODE
  | RV_INVALID_VALUE
  | RV_INVALID_SW_IF_INDEX
  | RV_ENTRY_NEEDS_REFRESH
  | RV_ENTRY_ALREADY_EXISTS.
#[export] Instance vnet_rv_eq_dec : EqDecision vnet_rv.
Proof. solve_decision. Defined.

(** Tables and interfaces of VPP that the plugins look at.  The first argument of a
    FIB function is the family, true for IPv6. *)
Class AccessVpp := {
  vlib_get_node_by_name : string → option Z;
  vlib_node_add_next : Z → Z → Z;
  fib_table_find : bool → Z → option Z;
  fib_table_get_table_id : bool → Z → Z;
  ip4_fib_index_by_table_id : Z → option Z;
  fib_index_is_free : bool → Z → bool;
  sw_interface_is_free : Z → bool;
  sw_interface_is_api_valid : Z → bool;
  sw_interface_dot1ad_sub : Z → bool;
  hw_sw_if_index : Z → Z
}.

(** Hardware interfaces have interfaces of their own. *)
Class AccessVppLaws `{AccessVpp} : Prop := {
  hw_sw_inj :: Inj (=) (=) hw_sw_if_index
}.

(** [vec_dec_len] after reading the last element: the interface a new session gets,
    [fresh] being the one that would be registered. *)
Definition take_hw (free : list Z) (fresh : Z) : list Z * Z :=
  match last free with
  | Some hw => (removelast free, hw)
  | None => (free, fresh)
  end.

(** PPP protocol numbers. *)
Definition PPP_PROTOCOL_IP4 : Z := 33.
Definition PPP_PROTOCOL_IP6 : Z := 87.

(** The link types and the kinds of adjacency VPP asks an interface to complete, and what the session's
    midchain is stacked on. *)
Inductive vnet_link_t := VNET_LINK_IP4 | VNET_LINK_IP6 | VNET_LINK_OTHER.
Inductive adj_kind := AdjNeighbour | AdjMcast | AdjOther.
Inductive adj_stack :=
  | StackInterfaceTx (sw_if_index : Z)
  | StackFibEntry (fei : Z)
  | Unstacked.

(** * What calls leave behind *)

Definition route_call (c : vnet_call) (rs : gset fib_route) : gset fib_route :=
  match c with
  | PathAdd r => {[r]} ∪ rs
  | PathRemove r => rs ∖ {[r]}
  | _ => rs
  end.
Definition routes (cs : list vnet_call) : gset fib_route := foldl (λ s c, route_call c s) ∅ cs.

(** Whether an interface has been shown last, and not hidden. *)
Definition shown_call (c : vnet_call) (ws : gset Z) : gset Z :=
  match c with
  | SetHidden w h => if (h : bool) then ws ∖ {[w]} else {[w]} ∪ ws
  | _ => ws
  end.
Definition visible (cs : list vnet_call) : gset Z := foldl (λ s c, shown_call c s) ∅ cs.

(** The interfaces that have been registered and not deleted. *)
Definition registered_call (c : vnet_call) (hs : gset Z) : gset Z :=
  match c with
  | RegisterHw h _ => {[h]} ∪ hs
  | DeleteHw h => hs ∖ {[h]}
  | _ => hs
  end.
Definition registered (cs : list vnet_call) : gset Z := foldl (λ s c, registered_call c s) ∅ cs.

Lemma registered_app cs cs' :
  registered (cs ++ cs') = foldl (λ s c, registered_call c s) (registered cs) cs'.
Proof. unfold registered. by rewrite foldl_app. Qed.

Lemma routes_app cs cs' : routes (cs ++ cs') = foldl (λ s c, route_call c s) (routes cs) cs'.
Proof. unfold routes. by rewrite foldl_app. Qed.

Lemma visible_app cs cs' : visible (cs ++ cs') = foldl (λ s c, shown_call c s) (visible cs) cs'.
Proof. unfold visible. by rewrite foldl_app. Qed.

Lemma elem_of_routes_add cs r r' :
  r ∈ routes (cs ++ [PathAdd r']) <-> r = r' \/ r ∈ routes cs.
Proof. rewrite routes_app. simpl. set_solver. Qed.

Lemma elem_of_routes_remove cs r r' :
  r ∈ routes (cs ++ [PathRemove r']) <-> r ≠ r' /\ r ∈ routes cs.
Proof. rewrite routes_app. simpl. set_solver. Qed.

Definition is_path (c : vnet_call) : bool :=
  match c with PathAdd _ | PathRemove _ => true | _ => false end.

Lemma visible_paths cs cs' : Forall (λ c, is_path c = true) cs' → visible (cs ++ cs') = visible cs.
Proof.
  intros Hp. rewrite visible_app. revert Hp. generalize (visible cs).
  induction cs' as [|c cs' IH]; intros ws Hp; [done|]. inversion Hp; subst.
  destruct c; try done; simpl; by apply IH.
Qed.

Lemma routes_no_paths cs cs' : Forall (λ c, is_path c = false) cs' → routes (cs ++ cs') = routes cs.
Proof.
  intros Hp. rewrite routes_app. revert Hp. generalize (routes cs).
  induction cs' as [|c cs' IH]; intros rs Hp; [done|]. inversion Hp; subst.
  destruct c; try done; simpl; by apply IH.
Qed.

Lemma registered_paths cs cs' :
  Forall (λ c, is_path c = true) cs' → registered (cs ++ cs') = registered cs.
Proof.
  intros Hp. rewrite registered_app. revert Hp. generalize (registered cs).
  induction cs' as [|c cs' IH]; intros hs Hp; [done|]. inversion Hp; subst.
  destruct c; try done; simpl; by apply IH.
Qed.

(** * The interfaces of a plugin's sessions *)

(** [owns] gives for a session its interface and hardware interface. *)
Record iface_ok `{AccessVpp} (free : list Z) (by_sw : gmap Z Z) (owns : gmap Z (Z * Z)) : Prop := {
  if_owned si w hw : owns !! si = Some (w, hw) → by_sw !! w = Some si /\ hw_sw_if_index hw = w;
  if_owner w si : by_sw !! w = Some si → exists hw, owns !! si = Some (w, hw);
  if_free_nodup : NoDup free;
  if_free_idle hw : hw ∈ free → by_sw !! hw_sw_if_index hw = None
}.

Section Iface.

Context `{AccessVppLaws}.

(** An interface not in use and not in the list. *)
Definition hw_fresh (by_sw : gmap Z Z) (free : list Z) (hw : Z) : Prop :=
  by_sw !! hw_sw_if_index hw = None /\ hw ∉ free.

Lemma iface_start free by_sw owns new_hw si free' hw :
  iface_ok free by_sw owns → owns !! si = None →
  hw_fresh by_sw free new_hw → take_hw free new_hw = (free', hw) →
  by_sw !! hw_sw_if_index hw = None /\
  iface_ok free' (<[hw_sw_if_index hw := si]> by_sw) (<[si := (hw_sw_if_index hw, hw)]> owns).
Proof.
  intros [O1 O2 F1 F2] Hsi Hfresh Htake.
  assert (by_sw !! hw_sw_if_index hw = None /\ NoDup free' /\ hw ∉ free' /\
          (∀ h, h ∈ free' → h ∈ free)) as (Hidle & Hnd & Hnin & Hsub).
  { unfold take_hw in Htake. destruct (last free) as [h|] eqn:El.
    - apply last_Some in El as [l ->]. rewrite removelast_app in Htake by done. simpl in Htake.
      rewrite app_nil_r in Htake. injection Htake as <- <-. apply NoDup_app in F1 as (Hl & Hd & _).
      split_and!; [apply F2; set_solver|done|set_solver|set_solver].
    - injection Htake as <- <-. destruct Hfresh. done. }
  split; [done|]. split.
  - intros sj w h. destruct (decide (sj = si)) as [->|Hne].
    + rewrite lookup_insert_eq. intros [= <- <-]. by rewrite lookup_insert_eq.
    + rewrite lookup_insert_ne by done. intros Ho. destruct (O1 _ _ _ Ho) as [Hw <-].
      rewrite lookup_insert_ne; [done|]. congruence.
  - intros w sj. destruct (decide (w = hw_sw_if_index hw)) as [->|Hne].
    + rewrite lookup_insert_eq. intros [= <-]. exists hw. by rewrite lookup_insert_eq.
    + rewrite lookup_insert_ne by done. intros Hw. destruct (O2 _ _ Hw) as [h Ho].
      exists h. rewrite lookup_insert_ne; [done|]. congruence.
  - done.
  - intros h Hh. rewrite lookup_insert_ne; [by apply F2, Hsub|]. intros He%(inj _). by subst.
Qed.

Lemma iface_park free by_sw owns si w hw :
  iface_ok free by_sw owns → owns !! si = Some (w, hw) →
  iface_ok (free ++ [hw]) (delete w by_sw) (delete si owns).
Proof.
  intros [O1 O2 F1 F2] Ho. destruct (O1 _ _ _ Ho) as [Hw <-]. split.
  - intros sj w' h. intros [Hne Hj]%lookup_delete_Some. destruct (O1 _ _ _ Hj) as [Hw' <-].
    rewrite lookup_delete_ne; [done|]. congruence.
  - intros w' sj [Hne Hj]%lookup_delete_Some. destruct (O2 _ _ Hj) as [h Ho'].
    exists h. rewrite lookup_delete_ne; [done|]. congruence.
  - apply NoDup_app. split_and!; [done| |by apply NoDup_singleton].
    intros h Hh ->%list_elem_of_singleton. apply F2 in Hh. congruence.
  - intros h [Hh | ->%list_elem_of_singleton]%elem_of_app.
    + apply lookup_delete_None. auto.
    + apply lookup_delete_eq.
Qed.

(** An interface that is deleted and not parked. *)
Lemma iface_forget by_sw owns si w hw :
  iface_ok [] by_sw owns → owns !! si = Some (w, hw) →
  iface_ok [] (delete w by_sw) (delete si owns).
Proof.
  intros Hok Ho. destruct (iface_park [] by_sw owns si w hw Hok Ho) as [O1 O2 _ _].
  split; [done..|apply NoDup_nil_2|set_solver].
Qed.

End Iface.

(** * Bindings

    [bound B m r]: some session of [m] has the binding [r]; [B] lists a session's. *)
Definition bound {S} (B : S → list fib_route) (m : gmap Z S) (r : fib_route) : Prop :=
  exists i s, m !! i = Some s /\ r ∈ B s.

Section Bound.

Context {S : Type} (B : S → list fib_route).

Lemma bound_insert m i s r :
  bound B (<[i := s]> m) r <-> r ∈ B s \/ bound B (delete i m) r.
Proof.
  unfold bound. split.
  - intros (j & s' & Hj & Hr). destruct (decide (j = i)) as [->|].
    + rewrite lookup_insert_eq in Hj. injection Hj as <-. by left.
    + rewrite lookup_insert_ne in Hj by done. right. exists j, s'.
      by rewrite lookup_delete_ne.
  - intros [Hr|(j & s' & [Hne Hj]%lookup_delete_Some & Hr)].
    + exists i, s. by rewrite lookup_insert_eq.
    + exists j, s'. by rewrite lookup_insert_ne.
Qed.

Lemma bound_split m i s r : m !! i = Some s → bound B m r <-> r ∈ B s \/ bound B (delete i m) r.
Proof. intros Hi. rewrite <- bound_insert. by rewrite insert_id. Qed.

(** A call that changes one binding of the session [i]. *)
Lemma bound_step m i s s' cs c :
  m !! i = Some s → (∀ r, r ∈ routes cs <-> bound B m r) →
  match c with
  | PathAdd r' => ∀ r, r ∈ B s' <-> r = r' \/ r ∈ B s
  | PathRemove r' => ~ bound B (delete i m) r' /\ ∀ r, r ∈ B s' <-> r ≠ r' /\ r ∈ B s
  | _ => False
  end →
  ∀ r, r ∈ routes (cs ++ [c]) <-> bound B (<[i := s']> m) r.
Proof.
  intros Hs Hr Hb r. rewrite bound_insert. specialize (Hr r).
  rewrite (bound_split _ _ s) in Hr by done. destruct c; try done.
  - rewrite elem_of_routes_add, Hr, (Hb r). tauto.
  - destruct Hb as [Hw Hb]. rewrite elem_of_routes_remove, Hr, (Hb r).
    split; [tauto|]. intros [?|Ho]; [tauto|]. split; [|tauto]. by intros ->.
Qed.

End Bound.

(** * An instance *)

#[export] Instance sample_access : AccessVpp := {|
  vlib_get_node_by_name name := if name is EmptyString then None else Some 7;
  vlib_node_add_next from to := from + to;
  fib_table_find ip6 id := if id <? 10 then Some id else None;
  fib_table_get_table_id ip6 i := i;
  ip4_fib_index_by_table_id id := if id <? 10 then Some id else None;
  fib_index_is_free ip6 i := 10 <=? i;
  sw_interface_is_free w := 1000 <=? w;
  sw_interface_is_api_valid w := w <? 1000;
  sw_interface_dot1ad_sub w := w =? 5;
  hw_sw_if_index hw := hw + 100
|}.

#[export] Instance sample_access_laws : AccessVppLaws.
Proof. split. intros x y. simpl. lia. Qed.
