(* ===== verification/L2tpSession.v ===== *)
(** L2TPv2 tunnels and sessions: [plugins/l2tpv2/l2tpv2.h], [l2tpv2_session.c], the
    handlers of [l2tpv2_api.c], and the start-up of [l2tpv2.c].

    Addresses are as a load of the header gives them, identifiers and ports in host
    order.  Slots of new tunnels and sessions and the hardware index of a newly
    registered interface are arguments.  The tunnel's fields for FIB tracking, which
    nothing reads, are left out.  [None] is an access to a freed pool entry. *)

From S2P Require Import Prelude Access.
From stdpp Require Import strings.

#[local] Open Scope Z_scope.

(** * Data *)

Definition L2TPV2_UDP_PORT : Z := 1701.
Definition L2TPV2_DECAP_IP : Z := 0.
Definition L2TPV2_DECAP_RAW : Z := 1.

Record l2tpv2_tunnel_t := mkTunnel {
  tn_local_ip : Z;
  tn_peer_ip : Z;
  tn_local_tunnel_id : Z;       (* u16 *)
  tn_peer_tunnel_id : Z;        (* u16 *)
  tn_local_udp_port : Z;        (* u16 *)
  tn_peer_udp_port : Z;         (* u16 *)
  tn_df_bit : Z;                (* u8 *)
  tn_encap_fib_index : Z;
  tn_ref_count : Z              (* u32 *)
}.
#[export] Instance eta_tunnel : Eta l2tpv2_tunnel_t := λ t,
  mkTunnel (tn_local_ip t) (tn_peer_ip t) (tn_local_tunnel_id t) (tn_peer_tunnel_id t)
    (tn_local_udp_port t) (tn_peer_udp_port t) (tn_df_bit t) (tn_encap_fib_index t)
    (tn_ref_count t).

Record l2tpv2_session_t := mkL2tpSession {
  ls_tunnel_index : Z;
  ls_local_session_id : Z;      (* u16 *)
  ls_peer_session_id : Z;       (* u16 *)
  ls_decap_mode : Z;            (* u8 *)
  ls_raw_next_node_index : option Z;
  ls_raw_next_arc : option Z;
  ls_raw_opaque : Z;            (* u32 *)
  ls_sw_if_index : option Z;
  ls_hw_if_index : option Z;
  ls_decap_fib_index : Z;
  ls_decap_fib_index_ip6 : Z;
  ls_encap_if_index : option Z;
  ls_ppp_hdr_skip : Z;          (* 0 or 2 *)
  ls_client_ipv4 : Z;
  ls_ipv4_bound : bool;
  ls_client_ipv6 : Z;
  ls_ipv6_bound : bool;
  ls_delegated_prefix : Z;
  ls_delegated_prefix_len : Z;  (* u8 *)
  ls_pd_next_hop : Z
}.
#[export] Instance eta_l2tp_session : Eta l2tpv2_session_t := λ s,
  mkL2tpSession (ls_tunnel_index s) (ls_local_session_id s) (ls_peer_session_id s)
    (ls_decap_mode s) (ls_raw_next_node_index s) (ls_raw_next_arc s) (ls_raw_opaque s)
    (ls_sw_if_index s) (ls_hw_if_index s) (ls_decap_fib_index s) (ls_decap_fib_index_ip6 s)
    (ls_encap_if_index s) (ls_ppp_hdr_skip s) (ls_client_ipv4 s) (ls_ipv4_bound s)
    (ls_client_ipv6 s) (ls_ipv6_bound s) (ls_delegated_prefix s) (ls_delegated_prefix_len s)
    (ls_pd_next_hop s).

(** local_ip, peer_ip, local_tunnel_id, local_session_id. *)
Definition l2tpv2_session_key_t : Type := Z * Z * Z * Z.
(** local_ip, peer_ip, local_tunnel_id. *)
Definition l2tpv2_tunnel_key_t : Type := Z * Z * Z.

(** The vector [session_index_by_sw_if_index] is a map: an index past its end and an
    entry [~0] are both absent. *)
Record l2tpv2_main_t := mkL2tp {
  lm_tunnels : gmap Z l2tpv2_tunnel_t;
  lm_sessions : gmap Z l2tpv2_session_t;
  lm_session_table : gmap l2tpv2_session_key_t Z;
  lm_tunnel_table : gmap l2tpv2_tunnel_key_t Z;
  lm_free_session_hw_if_indices : list Z;
  lm_session_index_by_sw_if_index : gmap Z Z;
  lm_punt_shm_tx_next_arc : option Z;
  lm_calls : list vnet_call            (* into VPP, in order *)
}.
#[export] Instance eta_l2tp : Eta l2tpv2_main_t := λ m,
  mkL2tp (lm_tunnels m) (lm_sessions m) (lm_session_table m) (lm_tunnel_table m)
    (lm_free_session_hw_if_indices m) (lm_session_index_by_sw_if_index m)
    (lm_punt_shm_tx_next_arc m) (lm_calls m).

Definition l2tpv2_session_key (local_ip peer_ip local_tunnel_id local_session_id : Z)
    : l2tpv2_session_key_t := (local_ip, peer_ip, local_tunnel_id, local_session_id).
Definition l2tpv2_tunnel_key (local_ip peer_ip local_tunnel_id : Z) : l2tpv2_tunnel_key_t :=
  (local_ip, peer_ip, local_tunnel_id).

Record vnet_l2tpv2_add_del_tunnel_args_t := mkTunnelArgs {
  ta_is_add : bool;
  ta_local_ip : Z;
  ta_peer_ip : Z;
  ta_local_tunnel_id : Z;
  ta_peer_tunnel_id : Z;
  ta_local_udp_port : Z;
  ta_peer_udp_port : Z;
  ta_df_bit : Z
}.

(** The empty name stands for a null pointer too. *)
Record vnet_l2tpv2_add_del_session_args_t := mkSessionArgs {
  sa_is_add : bool;
  sa_local_ip : Z;
  sa_peer_ip : Z;
  sa_local_tunnel_id : Z;
  sa_local_session_id : Z;
  sa_peer_session_id : Z;
  sa_decap_mode : Z;
  sa_raw_next_node_name : string;
  sa_raw_opaque : Z;
  sa_decap_vrf_id : Z;
  sa_encap_if_index : option Z;
  sa_ppp_hdr_skip : Z
}.

Definition l2tp_call (cs : list vnet_call) (m : l2tpv2_main_t) : l2tpv2_main_t :=
  m⟪lm_calls ::= λ l, l ++ cs⟫.
Definition upd_l2tp_session (si : Z) (g : l2tpv2_session_t → l2tpv2_session_t)
    (m : l2tpv2_main_t) : l2tpv2_main_t :=
  m⟪lm_sessions ::= alter g si⟫.

(** * Tunnels *)

Definition new_tunnel (a : vnet_l2tpv2_add_del_tunnel_args_t) : l2tpv2_tunnel_t :=
  mkTunnel (ta_local_ip a) (ta_peer_ip a) (ta_local_tunnel_id a) (ta_peer_tunnel_id a)
    (if ta_local_udp_port a =? 0 then L2TPV2_UDP_PORT else ta_local_udp_port a)
    (if ta_peer_udp_port a =? 0 then L2TPV2_UDP_PORT else ta_peer_udp_port a)
    (ta_df_bit a) 0 0.

(** The last component is [*tunnel_indexp], when it is written. *)
Definition vnet_l2tpv2_add_del_tunnel (m : l2tpv2_main_t) (new_idx : Z)
    (a : vnet_l2tpv2_add_del_tunnel_args_t)
    : option (l2tpv2_main_t * vnet_rv * option (option Z)) :=
  let key := l2tpv2_tunnel_key (ta_local_ip a) (ta_peer_ip a) (ta_local_tunnel_id a) in
  match ta_is_add a, lm_tunnel_table m !! key with
  | true, Some _ => Some (m, RV_TUNNEL_EXIST, None)
  | true, None =>
      Some (m⟪lm_tunnels ::= insert new_idx (new_tunnel a)⟫
             ⟪lm_tunnel_table ::= insert key new_idx⟫, RV_OK, Some (Some new_idx))
  | false, None => Some (m, RV_NO_SUCH_ENTRY, None)
  | false, Some ti =>
      t ← lm_tunnels m !! ti;
      if tn_ref_count t =? 0 then
        Some (m⟪lm_tunnel_table ::= delete key⟫⟪lm_tunnels ::= delete ti⟫, RV_OK, Some None)
      else Some (m, RV_INSTANCE_IN_USE, None)
  end.

Section L2tp.

Context `{AccessVpp}.

(** * Bindings *)

(** The outer option is a freed entry, the inner one the null pointer. *)
Definition l2tpv2_session_by_sw_if_index (m : l2tpv2_main_t) (sw_if_index : Z)
    : option (option (Z * l2tpv2_session_t)) :=
  match lm_session_index_by_sw_if_index m !! sw_if_index with
  | None => Some None
  | Some idx => s ← lm_sessions m !! idx; Some (Some (idx, s))
  end.

(** The head of the three binding calls: they act on a session in IP mode. *)
Definition with_ip_session (m : l2tpv2_main_t) (sw_if_index : Z)
    (f : Z → l2tpv2_session_t → l2tpv2_main_t) : option (l2tpv2_main_t * vnet_rv) :=
  r ← l2tpv2_session_by_sw_if_index m sw_if_index;
  match r with
  | None => Some (m, RV_INVALID_SW_IF_INDEX)
  | Some (si, s) =>
      if ls_decap_mode s =? L2TPV2_DECAP_IP then Some (f si s, RV_OK)
      else Some (m, RV_INVALID_VALUE)
  end.

Definition l2tp_route (ip6 : bool) (s : l2tpv2_session_t) (sw_if_index addr len : Z) : fib_route :=
  mkRoute ip6 (if ip6 then ls_decap_fib_index_ip6 s else ls_decap_fib_index s)
    addr len None sw_if_index.

(** The branch [is_add = 0]. *)
Definition clear_ipv4 (m : l2tpv2_main_t) (sw_if_index addr si : Z) (s : l2tpv2_session_t)
    : l2tpv2_main_t :=
  if negb (ls_ipv4_bound s) then m
  else upd_l2tp_session si (λ s, s⟪ls_client_ipv4 := 0⟫⟪ls_ipv4_bound := false⟫)
         (l2tp_call [PathRemove (l2tp_route false s sw_if_index addr 32)] m).

Definition vnet_l2tpv2_set_session_ipv4 (m : l2tpv2_main_t) (sw_if_index addr : Z)
    (is_add : bool) : option (l2tpv2_main_t * vnet_rv) :=
  with_ip_session m sw_if_index (λ si s,
    if is_add then
      if ls_ipv4_bound s && (ls_client_ipv4 s =? addr) then m
      else
        let m := if ls_ipv4_bound s then clear_ipv4 m sw_if_index (ls_client_ipv4 s) si s else m in
        upd_l2tp_session si (λ s, s⟪ls_client_ipv4 := addr⟫⟪ls_ipv4_bound := true⟫)
          (l2tp_call [PathAdd (l2tp_route false s sw_if_index addr 32)] m)
    else clear_ipv4 m sw_if_index addr si s).

Definition clear_ipv6 (m : l2tpv2_main_t) (sw_if_index addr si : Z) (s : l2tpv2_session_t)
    : l2tpv2_main_t :=
  if negb (ls_ipv6_bound s) then m
  else upd_l2tp_session si (λ s, s⟪ls_client_ipv6 := 0⟫⟪ls_ipv6_bound := false⟫)
         (l2tp_call [PathRemove (l2tp_route true s sw_if_index addr 128)] m).

Definition vnet_l2tpv2_set_session_ipv6 (m : l2tpv2_main_t) (sw_if_index addr : Z)
    (is_add : bool) : option (l2tpv2_main_t * vnet_rv) :=
  with_ip_session m sw_if_index (λ si s,
    if is_add then
      if ls_ipv6_bound s && (ls_client_ipv6 s =? addr) then m
      else
        let m := if ls_ipv6_bound s then clear_ipv6 m sw_if_index (ls_client_ipv6 s) si s else m in
        upd_l2tp_session si (λ s, s⟪ls_client_ipv6 := addr⟫⟪ls_ipv6_bound := true⟫)
          (l2tp_call [PathAdd (l2tp_route true s sw_if_index addr 128)] m)
    else clear_ipv6 m sw_if_index addr si s).

Definition clear_prefix (m : l2tpv2_main_t) (sw_if_index prefix prefix_len si : Z)
    (s : l2tpv2_session_t) : l2tpv2_main_t :=
  if ls_delegated_prefix_len s =? 0 then m
  else upd_l2tp_session si
         (λ s, s⟪ls_delegated_prefix := 0⟫⟪ls_delegated_prefix_len := 0⟫⟪ls_pd_next_hop := 0⟫)
         (l2tp_call [PathRemove (l2tp_route true s sw_if_index prefix prefix_len)] m).

Definition vnet_l2tpv2_set_delegated_prefix (m : l2tpv2_main_t)
    (sw_if_index prefix prefix_len next_hop : Z) (is_add : bool)
    : option (l2tpv2_main_t * vnet_rv) :=
  with_ip_session m sw_if_index (λ si s,
    if is_add then
      if (ls_delegated_prefix_len s =? prefix_len) && (ls_delegated_prefix s =? prefix) then m
      else
        let m := if ls_delegated_prefix_len s =? 0 then m
                 else clear_prefix m sw_if_index (ls_delegated_prefix s)
                        (ls_delegated_prefix_len s) si s in
        upd_l2tp_session si
          (λ s, s⟪ls_delegated_prefix := prefix⟫⟪ls_delegated_prefix_len := prefix_len⟫
                 ⟪ls_pd_next_hop := next_hop⟫)
          (l2tp_call [PathAdd (l2tp_route true s sw_if_index prefix prefix_len)] m)
    else clear_prefix m sw_if_index prefix prefix_len si s).

(** * Sessions *)

Definition l2tpv2_resolve_decap_fib (decap_vrf_id : Z) : vnet_rv + Z :=
  match fib_table_find false decap_vrf_id with
  | None => inl RV_NO_SUCH_FIB
  | Some fib_index => inr fib_index
  end.
Definition l2tpv2_resolve_decap_fib_ip6 (decap_vrf_id : Z) : vnet_rv + Z :=
  match fib_table_find true decap_vrf_id with
  | None => inl RV_NO_SUCH_FIB
  | Some fib_index => inr fib_index
  end.

(** A session before its mode is looked at. *)
Definition new_l2tp_session (a : vnet_l2tpv2_add_del_session_args_t) (tunnel_index : Z)
    : l2tpv2_session_t :=
  mkL2tpSession tunnel_index (sa_local_session_id a) (sa_peer_session_id a) (sa_decap_mode a)
    None None 0 None None 0 0 (sa_encap_if_index a)
    (if sa_ppp_hdr_skip a =? 0 then 0 else 2) 0 false 0 false 0 0 0.

(** DECAP_RAW: the next node.  [input_node] is the index of l2tpv2-input. *)
Definition setup_raw (a : vnet_l2tpv2_add_del_session_args_t) (input_node : Z)
    (s : l2tpv2_session_t) : vnet_rv + l2tpv2_session_t :=
  match sa_raw_next_node_name a with
  | EmptyString => inl RV_INVALID_VALUE
  | name =>
      match vlib_get_node_by_name name with
      | None => inl RV_NO_SUCH_NODE
      | Some node =>
          inr (s⟪ls_raw_next_node_index := Some node⟫
                ⟪ls_raw_next_arc := Some (vlib_node_add_next input_node node)⟫
                ⟪ls_raw_opaque := sa_raw_opaque a⟫)
      end
  end.

(** DECAP_IP: the tables. *)
Definition setup_fibs (a : vnet_l2tpv2_add_del_session_args_t) (s : l2tpv2_session_t)
    : vnet_rv + l2tpv2_session_t :=
  match l2tpv2_resolve_decap_fib (sa_decap_vrf_id a) with
  | inl rv => inl rv
  | inr f4 =>
      match l2tpv2_resolve_decap_fib_ip6 (sa_decap_vrf_id a) with
      | inl rv => inl rv
      | inr f6 => inr (s⟪ls_decap_fib_index := f4⟫⟪ls_decap_fib_index_ip6 := f6⟫)
      end
  end.

(** DECAP_IP: the interface, an idle one or [new_hw]. *)
Definition setup_interface (m : l2tpv2_main_t) (si new_hw : Z) (s : l2tpv2_session_t)
    : l2tpv2_main_t * l2tpv2_session_t :=
  let '(free, hw) := take_hw (lm_free_session_hw_if_indices m) new_hw in
  let reused := if lm_free_session_hw_if_indices m is [] then [RegisterHw hw si]
                else [SetInstance hw si] in
  let sw := hw_sw_if_index hw in
  (l2tp_call (reused ++ [SetHidden sw false; SetAdminUp sw true; SetL3Output sw])
     (m⟪lm_free_session_hw_if_indices := free⟫⟪lm_session_index_by_sw_if_index ::= insert sw si⟫),
   s⟪ls_hw_if_index := Some hw⟫⟪ls_sw_if_index := Some sw⟫).

(** Both modes end with the table and the tunnel's count. *)
Definition finish_add (m : l2tpv2_main_t) (key : l2tpv2_session_key_t) (ti si : Z)
    (s : l2tpv2_session_t) : l2tpv2_main_t :=
  m⟪lm_sessions ::= insert si s⟫⟪lm_session_table ::= insert key si⟫
   ⟪lm_tunnels ::= alter (λ t, t⟪tn_ref_count ::= λ n, u32 (n + 1)⟫) ti⟫.

Definition add_session (m : l2tpv2_main_t) (new_idx new_hw input_node ti : Z)
    (a : vnet_l2tpv2_add_del_session_args_t) (key : l2tpv2_session_key_t)
    : l2tpv2_main_t * vnet_rv * option Z :=
  let s := new_l2tp_session a ti in
  match lm_session_table m !! key with
  | Some _ => (m, RV_TUNNEL_EXIST, None)
  | None =>
      if sa_decap_mode a =? L2TPV2_DECAP_RAW then
        match setup_raw a input_node s with
        | inl rv => (m, rv, None)
        | inr s => (finish_add m key ti new_idx s, RV_OK, Some new_idx)
        end
      else if sa_decap_mode a =? L2TPV2_DECAP_IP then
        match setup_fibs a s with
        | inl rv => (m, rv, None)
        | inr s =>
            let '(m, s) := setup_interface m new_idx new_hw s in
            (finish_add m key ti new_idx s, RV_OK, ls_sw_if_index s)
        end
      else (m, RV_INVALID_VALUE, None)
  end.

(** Deletion clears the bindings first: three calls that find the session by its
    interface. *)
Definition clear_bindings (m : l2tpv2_main_t) (sw : Z) (s : l2tpv2_session_t)
    : option l2tpv2_main_t :=
  '(m, _) ← if ls_ipv4_bound s
            then vnet_l2tpv2_set_session_ipv4 m sw (ls_client_ipv4 s) false else Some (m, RV_OK);
  '(m, _) ← if ls_ipv6_bound s
            then vnet_l2tpv2_set_session_ipv6 m sw (ls_client_ipv6 s) false else Some (m, RV_OK);
  '(m, _) ← if negb (ls_delegated_prefix_len s =? 0)
            then vnet_l2tpv2_set_delegated_prefix m sw (ls_delegated_prefix s)
                   (ls_delegated_prefix_len s) (ls_pd_next_hop s) false else Some (m, RV_OK);
  Some m.

Definition park_interface (m : l2tpv2_main_t) (sw : Z) (hw : option Z) : l2tpv2_main_t :=
  l2tp_call [ResetL3Output sw; SetAdminUp sw false; SetHidden sw true] m
    ⟪lm_free_session_hw_if_indices ::= λ l, l ++ from_option (λ h, [h]) [] hw⟫
    ⟪lm_session_index_by_sw_if_index ::= delete sw⟫.

(** The last component is [*sw_if_indexp]. *)
Definition del_session (m : l2tpv2_main_t) (ti si : Z) (key : l2tpv2_session_key_t)
    : option (l2tpv2_main_t * vnet_rv * option Z) :=
  s ← lm_sessions m !! si;
  '(m, sw) ← match (if ls_decap_mode s =? L2TPV2_DECAP_IP then ls_sw_if_index s else None) with
             | None => Some (m, None)
             | Some sw =>
                 m ← clear_bindings m sw s;
                 Some (park_interface m sw (ls_hw_if_index s), Some sw)
             end;
  Some (m⟪lm_session_table ::= delete key⟫
         ⟪lm_tunnels ::= alter (λ t, if 0 <? tn_ref_count t then t⟪tn_ref_count ::= λ n, n - 1⟫ else t) ti⟫
         ⟪lm_sessions ::= delete si⟫, RV_OK, sw).

Definition vnet_l2tpv2_add_del_session (m : l2tpv2_main_t) (new_idx new_hw input_node : Z)
    (a : vnet_l2tpv2_add_del_session_args_t) : option (l2tpv2_main_t * vnet_rv * option Z) :=
  match lm_tunnel_table m !! l2tpv2_tunnel_key (sa_local_ip a) (sa_peer_ip a)
                               (sa_local_tunnel_id a) with
  | None => Some (m, RV_NO_SUCH_ENTRY, None)
  | Some ti =>
      _ ← lm_tunnels m !! ti;
      let key := l2tpv2_session_key (sa_local_ip a) (sa_peer_ip a) (sa_local_tunnel_id a)
                   (sa_local_session_id a) in
      if sa_is_add a then Some (add_session m new_idx new_hw input_node ti a key)
      else
        match lm_session_table m !! key with
        | None => Some (m, RV_NO_SUCH_ENTRY, None)
        | Some si => del_session m ti si key
        end
  end.

(** * The API *)

(** An address of the API: its family, and its IPv4 bits. *)
Record api_address := mkApiAddress { ad_is_ip4 : bool; ad_ip4 : Z }.

(** [a] are the other arguments, decoded. *)
Definition vl_api_l2tpv2_add_del_tunnel_t_handler (m : l2tpv2_main_t) (new_idx : Z)
    (local_ip peer_ip : api_address) (a : vnet_l2tpv2_add_del_tunnel_args_t)
    : option (l2tpv2_main_t * vnet_rv * option Z) :=
  if negb (ad_is_ip4 local_ip) || negb (ad_is_ip4 peer_ip) then Some (m, RV_INVALID_VALUE, None)
  else
    '(m, rv, idx) ← vnet_l2tpv2_add_del_tunnel m new_idx
      (mkTunnelArgs (ta_is_add a) (ad_ip4 local_ip) (ad_ip4 peer_ip)
         (clib_net_to_host_u16 (ta_local_tunnel_id a)) (clib_net_to_host_u16 (ta_peer_tunnel_id a))
         (clib_net_to_host_u16 (ta_local_udp_port a)) (clib_net_to_host_u16 (ta_peer_udp_port a))
         (ta_df_bit a));
    Some (m, rv, default None idx).

Definition vl_api_l2tpv2_add_del_session_t_handler (m : l2tpv2_main_t)
    (new_idx new_hw input_node : Z) (local_ip peer_ip : api_address)
    (a : vnet_l2tpv2_add_del_session_args_t) : option (l2tpv2_main_t * vnet_rv * option Z) :=
  if negb (ad_is_ip4 local_ip) || negb (ad_is_ip4 peer_ip) then Some (m, RV_INVALID_VALUE, None)
  else
    vnet_l2tpv2_add_del_session m new_idx new_hw input_node
      (mkSessionArgs (sa_is_add a) (ad_ip4 local_ip) (ad_ip4 peer_ip)
         (clib_net_to_host_u16 (sa_local_tunnel_id a)) (clib_net_to_host_u16 (sa_local_session_id a))
         (clib_net_to_host_u16 (sa_peer_session_id a)) (sa_decap_mode a) (sa_raw_next_node_name a)
         (clib_net_to_host_u32 (sa_raw_opaque a)) (clib_net_to_host_u32 (sa_decap_vrf_id a))
         (sa_encap_if_index a) (sa_ppp_hdr_skip a)).

Definition vl_api_l2tpv2_set_session_ipv4_t_handler (m : l2tpv2_main_t) (sw_if_index client_ip : Z)
    (is_add : bool) : option (l2tpv2_main_t * vnet_rv) :=
  vnet_l2tpv2_set_session_ipv4 m (clib_net_to_host_u32 sw_if_index) client_ip is_add.

Definition vl_api_l2tpv2_set_session_ipv6_t_handler (m : l2tpv2_main_t) (sw_if_index client_ip : Z)
    (is_add : bool) : option (l2tpv2_main_t * vnet_rv) :=
  vnet_l2tpv2_set_session_ipv6 m (clib_net_to_host_u32 sw_if_index) client_ip is_add.

Definition vl_api_l2tpv2_set_delegated_prefix_t_handler (m : l2tpv2_main_t)
    (sw_if_index prefix prefix_len next_hop : Z) (is_add : bool)
    : option (l2tpv2_main_t * vnet_rv) :=
  vnet_l2tpv2_set_delegated_prefix m (clib_net_to_host_u32 sw_if_index) prefix prefix_len
    next_hop is_add.

(** Which tunnels a dump reports: all, or the one asked for. *)
Definition vl_api_l2tpv2_tunnel_dump_t_handler (m : l2tpv2_main_t) (want : option Z)
    : list (Z * l2tpv2_tunnel_t) :=
  match want with
  | None => map_to_list (lm_tunnels m)
  | Some i => match lm_tunnels m !! i with None => [] | Some t => [(i, t)] end
  end.

(** A session is reported with its tunnel. *)
Definition send_l2tpv2_session_details (m : l2tpv2_main_t) (s : l2tpv2_session_t)
    : option (l2tpv2_session_t * l2tpv2_tunnel_t) :=
  t ← lm_tunnels m !! ls_tunnel_index s; Some (s, t).

Definition vl_api_l2tpv2_session_dump_t_handler (m : l2tpv2_main_t) (sw_if_index : option Z)
    : option (list (l2tpv2_session_t * l2tpv2_tunnel_t)) :=
  match sw_if_index with
  | None => mapM (send_l2tpv2_session_details m) (map_to_list (lm_sessions m)).*2
  | Some w =>
      match lm_session_index_by_sw_if_index m !! w with
      | None => Some []
      | Some si => s ← lm_sessions m !! si; d ← send_l2tpv2_session_details m s; Some [d]
      end
  end.

(** * Start-up *)

Definition l2tpv2_init (input_node : Z) (punt_shm_tx : string) : l2tpv2_main_t :=
  mkL2tp ∅ ∅ ∅ ∅ [] ∅ (vlib_node_add_next input_node <$> vlib_get_node_by_name punt_shm_tx) [].

End L2tp.
