(* ===== verification/L2tpInv.v ===== *)
(** What the L2TPv2 plugin keeps true of its pools, tables and interfaces.

    [tables_ok]: both tables are exact, each session belongs to a tunnel that is there,
    and a tunnel's reference count is the number of its sessions.  [ifaces_ok]: the
    sessions in IP mode, and no others, have an interface of their own, and those
    interfaces are the visible ones.  [routes_ok]: the routes in VPP are the bindings
    of the live sessions. *)

From S2P Require Import Prelude Access L2tpSession.
From stdpp Require Import strings.

#[local] Open Scope Z_scope.

Definition tkey (t : l2tpv2_tunnel_t) : l2tpv2_tunnel_key_t :=
  l2tpv2_tunnel_key (tn_local_ip t) (tn_peer_ip t) (tn_local_tunnel_id t).
Definition skey (t : l2tpv2_tunnel_t) (s : l2tpv2_session_t) : l2tpv2_session_key_t :=
  l2tpv2_session_key (tn_local_ip t) (tn_peer_ip t) (tn_local_tunnel_id t)
    (ls_local_session_id s).

Definition in_tunnel (ti : Z) (s : l2tpv2_session_t) : Z :=
  if ls_tunnel_index s =? ti then 1 else 0.

Definition owned (s : l2tpv2_session_t) : option (Z * Z) :=
  sw ← ls_sw_if_index s; hw ← ls_hw_if_index s; Some (sw, hw).

(** The routes a session's bindings stand for. *)
Definition bindings (s : l2tpv2_session_t) : list fib_route :=
  match ls_sw_if_index s with
  | None => []
  | Some w =>
      (if ls_ipv4_bound s then [l2tp_route false s w (ls_client_ipv4 s) 32] else []) ++
      (if ls_ipv6_bound s then [l2tp_route true s w (ls_client_ipv6 s) 128] else []) ++
      (if ls_delegated_prefix_len s =? 0 then []
       else [l2tp_route true s w (ls_delegated_prefix s) (ls_delegated_prefix_len s)])
  end.

(** * Tables *)

Record tables_ok (T : gmap Z l2tpv2_tunnel_t) (S : gmap Z l2tpv2_session_t)
    (tt : gmap l2tpv2_tunnel_key_t Z) (st : gmap l2tpv2_session_key_t Z) : Prop := {
  tb_tunnel k ti : tt !! k = Some ti → exists t, T !! ti = Some t /\ tkey t = k;
  tb_tunnel_keyed ti t : T !! ti = Some t → tt !! tkey t = Some ti;
  tb_session k si :
    st !! k = Some si →
    exists s t, S !! si = Some s /\ T !! ls_tunnel_index s = Some t /\ skey t s = k;
  tb_session_keyed si s :
    S !! si = Some s → exists t, T !! ls_tunnel_index s = Some t /\ st !! skey t s = Some si;
  tb_count ti t : T !! ti = Some t → tn_ref_count t = msum (in_tunnel ti) S;
  tb_ids si s : S !! si = Some s → is_u16 (ls_local_session_id s)
}.

Lemma in_tunnel_range ti s : 0 <= in_tunnel ti s <= 1.
Proof. unfold in_tunnel. zcases; lia. Qed.

(** A tunnel has at most one session per identifier. *)
Lemma tunnel_sessions_bound T S tt st ti : tables_ok T S tt st → msum (in_tunnel ti) S <= 2 ^ 16.
Proof.
  intros Hok. apply (msum_keys_bound _ (λ _, ls_local_session_id)); [lia| |].
  - intros si s Hs. unfold in_tunnel. zcases; [right|by left].
    split; [done|]. apply (tb_ids _ _ _ _ Hok si s Hs).
  - intros i j x y Hx Hy. unfold in_tunnel. zcases; [|done..]. intros _ _ Hid.
    destruct (tb_session_keyed _ _ _ _ Hok i x Hx) as (t & Ht & Hi).
    destruct (tb_session_keyed _ _ _ _ Hok j y Hy) as (t' & Ht' & Hj).
    assert (t' = t) as -> by congruence. unfold skey in *. congruence.
Qed.

(** A session update that keeps what the tables depend on. *)
Definition ids (s : l2tpv2_session_t) : Z * Z := (ls_tunnel_index s, ls_local_session_id s).

Lemma tables_same_ids T S S' tt st :
  tables_ok T S tt st → (∀ i, ids <$> S' !! i = ids <$> S !! i) → tables_ok T S' tt st.
Proof.
  intros [H1 H2 H3 H4 H5 H6] Hids.
  assert (∀ i s, S' !! i = Some s → exists s0, S !! i = Some s0 /\ ids s0 = ids s) as Hback.
  { intros i s Hi. specialize (Hids i). rewrite Hi in Hids.
    destruct (S !! i) as [s0|]; [|done]. exists s0. split; [done|]. simpl in Hids. congruence. }
  split; try done.
  - intros k si Hk. destruct (H3 k si Hk) as (s & t & Hs & Ht & Hkey). specialize (Hids si).
    rewrite Hs in Hids. destruct (S' !! si) as [s'|]; [|done]. injection Hids as E1 E2.
    exists s', t. rewrite E1. split_and!; [done|done|]. unfold skey. by rewrite E2.
  - intros si s Hs. destruct (Hback si s Hs) as (s0 & Hs0 & [= E1 E2]).
    destruct (H4 si s0 Hs0) as (t & Ht & Hk). exists t. rewrite <- E1. split; [done|].
    unfold skey in *. by rewrite <- E2.
  - intros ti t Ht. rewrite (H5 ti t Ht). apply msum_same_keys. intros i. specialize (Hids i).
    unfold in_tunnel. destruct (S !! i), (S' !! i); simpl in *; try done.
    injection Hids as E _. by rewrite E.
  - intros si s Hs. destruct (Hback si s Hs) as (s0 & Hs0 & [= _ E2]). rewrite <- E2. eauto.
Qed.

(** Adding to a tunnel's count changes no key. *)
Lemma alter_count_lookup (g : Z → Z) (T : gmap Z l2tpv2_tunnel_t) ti tj t' :
  alter (λ t, t⟪tn_ref_count ::= g⟫) ti T !! tj = Some t' →
  exists t, T !! tj = Some t /\ tkey t' = tkey t /\
    tn_ref_count t' = if decide (tj = ti) then g (tn_ref_count t) else tn_ref_count t.
Proof.
  destruct (decide (tj = ti)) as [->|Hne].
  - rewrite lookup_alter_eq. destruct (T !! ti) as [t|]; [|done]. intros [= <-]. by exists t.
  - rewrite lookup_alter_ne by done. intros Ht. by exists t'.
Qed.

Lemma alter_count_some (g : Z → Z) (T : gmap Z l2tpv2_tunnel_t) ti tj t :
  T !! tj = Some t →
  exists t', alter (λ t, t⟪tn_ref_count ::= g⟫) ti T !! tj = Some t' /\ tkey t' = tkey t.
Proof.
  destruct (decide (tj = ti)) as [->|Hne]; intros Ht.
  - rewrite lookup_alter_eq, Ht. by eexists.
  - rewrite lookup_alter_ne by done. by exists t.
Qed.

Lemma skey_tkey t t' s : tkey t' = tkey t → skey t' s = skey t s.
Proof. unfold tkey, skey, l2tpv2_tunnel_key, l2tpv2_session_key. by intros [= -> -> ->]. Qed.

Section Tables.

Context {T : gmap Z l2tpv2_tunnel_t} {S : gmap Z l2tpv2_session_t}.
Context {tt : gmap l2tpv2_tunnel_key_t Z} {st : gmap l2tpv2_session_key_t Z}.
Context (Hok : tables_ok T S tt st).

Lemma tables_add_tunnel ti t :
  T !! ti = None → tt !! tkey t = None → tn_ref_count t = 0 →
  tables_ok (<[ti := t]> T) S (<[tkey t := ti]> tt) st.
Proof.
  intros Hti Hkey Hcount. pose proof Hok as [H1 H2 H3 H4 H5 H6].
  assert (∀ si s, S !! si = Some s → ls_tunnel_index s ≠ ti) as Hne.
  { intros si s Hs He. destruct (H4 si s Hs) as (t' & Ht' & _). congruence. }
  split; try done.
  - intros k tj. destruct (decide (k = tkey t)) as [->|].
    + rewrite lookup_insert_eq. intros [= <-]. exists t. by rewrite lookup_insert_eq.
    + rewrite lookup_insert_ne by done. intros Hk. destruct (H1 k tj Hk) as (t' & Ht' & ?).
      exists t'. rewrite lookup_insert_ne by congruence. done.
  - intros tj t'. destruct (decide (tj = ti)) as [->|].
    + rewrite lookup_insert_eq. intros [= <-]. by rewrite lookup_insert_eq.
    + rewrite lookup_insert_ne by done. intros Ht'.
      rewrite lookup_insert_ne; [by apply H2|]. specialize (H2 tj t' Ht'). congruence.
  - intros k si Hk. destruct (H3 k si Hk) as (s & t' & Hs & Ht' & ?). exists s, t'.
    rewrite lookup_insert_ne; [done|]. specialize (Hne si s Hs). congruence.
  - intros si s Hs. destruct (H4 si s Hs) as (t' & Ht' & ?). exists t'.
    rewrite lookup_insert_ne; [done|]. specialize (Hne si s Hs). congruence.
  - intros tj t'. destruct (decide (tj = ti)) as [->|].
    + rewrite lookup_insert_eq. intros [= <-]. rewrite Hcount. symmetry. apply msum_zero.
      intros si s Hs. specialize (Hne si s Hs). unfold in_tunnel. zcases; (done || lia).
    + rewrite lookup_insert_ne by done. apply H5.
Qed.

Lemma tables_del_tunnel ti t :
  T !! ti = Some t → tn_ref_count t = 0 →
  tables_ok (delete ti T) S (delete (tkey t) tt) st.
Proof.
  intros Hti Hcount. pose proof Hok as [H1 H2 H3 H4 H5 H6].
  assert (∀ si s, S !! si = Some s → ls_tunnel_index s ≠ ti) as Hne.
  { intros si s Hs He.
    pose proof (msum_elem_le (in_tunnel ti) S si s (λ s, proj1 (in_tunnel_range ti s)) Hs) as Hle.
    rewrite <- (H5 ti t Hti), Hcount in Hle. unfold in_tunnel in Hle. rewrite He, Z.eqb_refl in Hle.
    lia. }
  split; try done.
  - intros k tj [Hk Htt]%lookup_delete_Some. destruct (H1 k tj Htt) as (t' & Ht' & <-).
    exists t'. rewrite lookup_delete_ne; [done|]. congruence.
  - intros tj t' [Hj Ht']%lookup_delete_Some.
    rewrite lookup_delete_ne; [by apply H2|]. intros He.
    pose proof (H2 ti t Hti) as E1. rewrite He, (H2 tj t' Ht') in E1. congruence.
  - intros k si Hk. destruct (H3 k si Hk) as (s & t' & Hs & Ht' & ?). exists s, t'.
    rewrite lookup_delete_ne; [done|]. specialize (Hne si s Hs). congruence.
  - intros si s Hs. destruct (H4 si s Hs) as (t' & Ht' & ?). exists t'.
    rewrite lookup_delete_ne; [done|]. specialize (Hne si s Hs). congruence.
  - intros tj t' [Hj Ht']%lookup_delete_Some. by apply H5.
Qed.

Lemma tables_add_session ti t si s :
  T !! ti = Some t → S !! si = None → ls_tunnel_index s = ti →
  is_u16 (ls_local_session_id s) → st !! skey t s = None →
  tables_ok (alter (λ t, t⟪tn_ref_count ::= λ n, u32 (n + 1)⟫) ti T) (<[si := s]> S) tt
    (<[skey t s := si]> st).
Proof.
  intros Hti Hsi Hs Hid Hkey. pose proof Hok as [H1 H2 H3 H4 H5 H6].
  set (g := λ n, u32 (n + 1)).
  split.
  - intros k tj Hk. destruct (H1 k tj Hk) as (t' & Ht' & <-).
    destruct (alter_count_some g T ti tj t' Ht') as (t'' & ? & ?). by exists t''.
  - intros tj t' Ht'. destruct (alter_count_lookup g T ti tj t' Ht') as (t0 & Ht0 & -> & _).
    by apply H2.
  - intros k sj. destruct (decide (k = skey t s)) as [->|Hk].
    + rewrite lookup_insert_eq. intros [= <-].
      destruct (alter_count_some g T ti ti t Hti) as (t' & Ht' & Hkk).
      exists s, t'. rewrite lookup_insert_eq, Hs. split_and!; [done..|]. by apply skey_tkey.
    + rewrite lookup_insert_ne by done. intros Hst. destruct (H3 k sj Hst) as (s0 & t0 & Hs0 & Ht0 & <-).
      destruct (alter_count_some g T ti _ t0 Ht0) as (t' & Ht' & Hkk). exists s0, t'.
      rewrite lookup_insert_ne by congruence. split_and!; [done..|]. by apply skey_tkey.
  - intros sj s'. destruct (decide (sj = si)) as [->|].
    + rewrite lookup_insert_eq. intros [= <-].
      destruct (alter_count_some g T ti ti t Hti) as (t' & Ht' & Hkk).
      exists t'. rewrite Hs. split; [done|]. by rewrite (skey_tkey t t'), lookup_insert_eq.
    + rewrite lookup_insert_ne by done. intros Hs'. destruct (H4 sj s' Hs') as (t0 & Ht0 & Hst).
      destruct (alter_count_some g T ti _ t0 Ht0) as (t' & Ht' & Hkk). exists t'.
      split; [done|]. rewrite (skey_tkey t0 t') by done. rewrite lookup_insert_ne; [done|]. congruence.
  - intros tj t' Ht'. destruct (alter_count_lookup g T ti tj t' Ht') as (t0 & Ht0 & _ & ->).
    rewrite msum_insert_new by done. unfold in_tunnel at 1. rewrite Hs, <- (H5 tj t0 Ht0).
    destruct (decide (tj = ti)) as [->|]; [|zcases; (lia || congruence)].
    rewrite Z.eqb_refl. unfold g. rewrite u32_small; [lia|].
    pose proof (tunnel_sessions_bound _ _ _ _ ti Hok). pose proof (H5 ti t0 Ht0).
    pose proof (msum_nonneg (in_tunnel ti) S (λ s, proj1 (in_tunnel_range ti s))).
    unfold is_u32. lia.
  - intros sj s'. destruct (decide (sj = si)) as [->|].
    + rewrite lookup_insert_eq. by intros [= <-].
    + rewrite lookup_insert_ne by done. apply H6.
Qed.

Lemma tables_del_session ti t si s :
  T !! ti = Some t → S !! si = Some s → ls_tunnel_index s = ti →
  tables_ok
    (alter (λ t, if 0 <? tn_ref_count t then t⟪tn_ref_count ::= λ n, n - 1⟫ else t) ti T)
    (delete si S) tt (delete (skey t s) st).
Proof.
  intros Hti Hsi Hs. pose proof Hok as [H1 H2 H3 H4 H5 H6].
  assert (alter (λ t, if 0 <? tn_ref_count t then t⟪tn_ref_count ::= λ n, n - 1⟫ else t) ti T =
          alter (λ t, t⟪tn_ref_count ::= λ n, n - 1⟫) ti T) as ->.
  { apply map_eq. intros tj. destruct (decide (tj = ti)) as [->|];
      [rewrite !lookup_alter_eq, Hti|by rewrite !lookup_alter_ne].
    simpl. pose proof (msum_elem_le (in_tunnel ti) S si s (λ s, proj1 (in_tunnel_range ti s)) Hsi)
      as Hle. unfold in_tunnel in Hle at 1. rewrite Hs, Z.eqb_refl, <- (H5 ti t Hti) in Hle.
    rewrite (proj2 (Z.ltb_lt _ _)) by lia. done. }
  set (g := λ n, n - 1).
  assert (st !! skey t s = Some si) as Hst.
  { destruct (H4 si s Hsi) as (t0 & Ht0 & ?). congruence. }
  split.
  - intros k tj Hk. destruct (H1 k tj Hk) as (t' & Ht' & <-).
    destruct (alter_count_some g T ti tj t' Ht') as (t'' & ? & ?). by exists t''.
  - intros tj t' Ht'. destruct (alter_count_lookup g T ti tj t' Ht') as (t0 & Ht0 & -> & _).
    by apply H2.
  - intros k sj [Hk Hsj]%lookup_delete_Some. destruct (H3 k sj Hsj) as (s0 & t0 & Hs0 & Ht0 & <-).
    destruct (alter_count_some g T ti _ t0 Ht0) as (t' & Ht' & Hkk). exists s0, t'.
    rewrite lookup_delete_ne by (intros ->; congruence).
    split_and!; [done..|]. by apply skey_tkey.
  - intros sj s' [Hne Hs']%lookup_delete_Some. destruct (H4 sj s' Hs') as (t0 & Ht0 & Hst').
    destruct (alter_count_some g T ti _ t0 Ht0) as (t' & Ht' & Hkk). exists t'.
    split; [done|]. rewrite (skey_tkey t0 t') by done. rewrite lookup_delete_ne; [done|]. congruence.
  - intros tj t' Ht'. destruct (alter_count_lookup g T ti tj t' Ht') as (t0 & Ht0 & _ & ->).
    pose proof (msum_delete (in_tunnel tj) S si s Hsi) as Hm. unfold in_tunnel at 2 in Hm.
    rewrite <- (H5 tj t0 Ht0), Hs in Hm. unfold g.
    destruct (decide (tj = ti)) as [->|]; [rewrite Z.eqb_refl in Hm; lia|].
    revert Hm. zcases; (lia || congruence).
  - intros sj s' [_ Hs']%lookup_delete_Some. eauto.
Qed.

End Tables.

(** * The whole state *)

Definition skip_ok (s : l2tpv2_session_t) : Prop := ls_ppp_hdr_skip s = 0 \/ ls_ppp_hdr_skip s = 2.

Definition mode_ok (s : l2tpv2_session_t) : Prop :=
  skip_ok s /\
  (ls_decap_mode s = L2TPV2_DECAP_IP /\ is_Some (owned s) \/
   ls_decap_mode s = L2TPV2_DECAP_RAW /\ ls_sw_if_index s = None /\ is_Some (ls_raw_next_arc s)).

Record l2tp_ok `{AccessVpp} (m : l2tpv2_main_t) : Prop := {
  lo_tables :
    tables_ok (lm_tunnels m) (lm_sessions m) (lm_tunnel_table m) (lm_session_table m);
  lo_mode si s : lm_sessions m !! si = Some s → mode_ok s;
  lo_ifaces :
    iface_ok (lm_free_session_hw_if_indices m) (lm_session_index_by_sw_if_index m)
      (omap owned (lm_sessions m));
  lo_visible w : w ∈ visible (lm_calls m) <-> is_Some (lm_session_index_by_sw_if_index m !! w)
}.

Record routes_ok (m : l2tpv2_main_t) : Prop := {
  ro_exact r : r ∈ routes (lm_calls m) <-> bound bindings (lm_sessions m) r;
  ro_prefix si s : lm_sessions m !! si = Some s → ls_delegated_prefix_len s ≠ 128
}.

Lemma elem_of_bindings s w r :
  ls_sw_if_index s = Some w →
  r ∈ bindings s <->
    ls_ipv4_bound s = true /\ r = l2tp_route false s w (ls_client_ipv4 s) 32 \/
    ls_ipv6_bound s = true /\ r = l2tp_route true s w (ls_client_ipv6 s) 128 \/
    ls_delegated_prefix_len s ≠ 0 /\
      r = l2tp_route true s w (ls_delegated_prefix s) (ls_delegated_prefix_len s).
Proof.
  intros Hw. unfold bindings. rewrite Hw, !elem_of_app.
  destruct (ls_ipv4_bound s), (ls_ipv6_bound s), (Z.eqb_spec (ls_delegated_prefix_len s) 0);
    rewrite ?list_elem_of_singleton, ?elem_of_nil; intuition congruence.
Qed.

Lemma bindings_iface s r : r ∈ bindings s → ls_sw_if_index s = Some (rt_sw_if_index r).
Proof.
  destruct (ls_sw_if_index s) as [w|] eqn:Hw.
  - rewrite (elem_of_bindings s w) by done. by intros [[_ ->]|[[_ ->]|[_ ->]]].
  - unfold bindings. rewrite Hw. by intros ?%elem_of_nil.
Qed.

(** What an update of the bindings leaves alone. *)
Definition shape (s : l2tpv2_session_t) :=
  (ids s, ls_decap_mode s, ls_raw_next_arc s, ls_sw_if_index s, ls_hw_if_index s,
   (ls_decap_fib_index s, ls_decap_fib_index_ip6 s), ls_ppp_hdr_skip s).

(** [m'] is [m] with other bindings for the session [si]. *)
Record rebound (si : Z) (s : l2tpv2_session_t) (m : l2tpv2_main_t)
    (s' : l2tpv2_session_t) (m' : l2tpv2_main_t) : Prop := {
  rb_same :
    (lm_tunnels m', lm_tunnel_table m', lm_session_table m', lm_free_session_hw_if_indices m',
     lm_session_index_by_sw_if_index m', lm_punt_shm_tx_next_arc m') =
    (lm_tunnels m, lm_tunnel_table m, lm_session_table m, lm_free_session_hw_if_indices m,
     lm_session_index_by_sw_if_index m, lm_punt_shm_tx_next_arc m);
  rb_sessions : lm_sessions m' = <[si := s']> (lm_sessions m);
  rb_shape : shape s' = shape s;
  rb_visible : visible (lm_calls m') = visible (lm_calls m)
}.

Section Inv.

Context `{AccessVpp}.

Lemma rebound_refl si s m : lm_sessions m !! si = Some s → rebound si s m s m.
Proof. intros Hs. split; try done. by rewrite insert_id. Qed.

Lemma rebound_trans si s m s1 m1 s2 m2 :
  rebound si s m s1 m1 → rebound si s1 m1 s2 m2 → rebound si s m s2 m2.
Proof.
  intros [A1 A2 A3 A4] [B1 B2 B3 B4]. split; try congruence.
  by rewrite B2, A2, insert_insert_eq.
Qed.

Lemma rebound_ok si s m s' m' :
  lm_sessions m !! si = Some s → rebound si s m s' m' → l2tp_ok m → l2tp_ok m'.
Proof.
  intros Hs [Hsame HS Hsh Hv] [H1 H2 H3 H4]. injection Hsame as E1 E2 E3 E4 E5 E6.
  injection Hsh as Et Ei Em Ea Ew Eh Ef Ef6 Ek.
  assert (owned s' = owned s) as Eo by (unfold owned; by rewrite Ew, Eh).
  split.
  - rewrite E1, E2, E3. apply (tables_same_ids _ (lm_sessions m)); [done|].
    intros i. rewrite HS. destruct (decide (i = si)) as [->|].
    + rewrite lookup_insert_eq, Hs. simpl. unfold ids. by rewrite Et, Ei.
    + by rewrite lookup_insert_ne.
  - intros sj s0. rewrite HS. destruct (decide (sj = si)) as [->|].
    + rewrite lookup_insert_eq. intros [= <-]. specialize (H2 si s Hs). unfold mode_ok, skip_ok in *.
      by rewrite Em, Eo, Ew, Ea, Ek.
    + rewrite lookup_insert_ne by done. apply H2.
  - rewrite E4, E5, HS. replace (omap owned (<[si:=s']> (lm_sessions m))) with
      (omap owned (lm_sessions m)); [done|].
    apply map_eq. intros i. rewrite !lookup_omap. destruct (decide (i = si)) as [->|].
    + by rewrite lookup_insert_eq, Hs.
    + by rewrite lookup_insert_ne.
  - intros w. by rewrite Hv, E5.
Qed.

(** Interfaces keep the routes of different sessions apart. *)
Lemma other_iface m si s r :
  l2tp_ok m → lm_sessions m !! si = Some s → bound bindings (delete si (lm_sessions m)) r →
  ls_sw_if_index s ≠ Some (rt_sw_if_index r).
Proof.
  intros Hok Hs (sj & s' & [Hne Hs']%lookup_delete_Some & Hr) Hw.
  pose proof (bindings_iface s' r Hr) as Hw'.
  assert (∀ i x, lm_sessions m !! i = Some x → ls_sw_if_index x = Some (rt_sw_if_index r) →
            lm_session_index_by_sw_if_index m !! rt_sw_if_index r = Some i) as Hu.
  { intros i x Hx Hi. destruct (lo_mode m Hok i x Hx) as [_ [[_ [[w hw] Ho]]|(_ & E & _)]]; [|congruence].
    destruct (if_owned _ _ _ (lo_ifaces m Hok) i w hw) as [Hb _].
    - rewrite lookup_omap, Hx. done.
    - unfold owned in Ho. rewrite Hi in Ho. simpl in Ho. destruct (ls_hw_if_index x); [|done].
      by injection Ho as <- _. }
  pose proof (Hu si s Hs Hw). pose proof (Hu sj s' Hs' Hw'). congruence.
Qed.

(** A binding more, a binding less. *)
Lemma routes_rebound si s m s' m' c :
  l2tp_ok m → lm_sessions m !! si = Some s → rebound si s m s' m' →
  lm_calls m' = lm_calls m ++ [c] → ls_delegated_prefix_len s' ≠ 128 →
  match c with
  | PathAdd r' => ∀ r, r ∈ bindings s' <-> r = r' \/ r ∈ bindings s
  | PathRemove r' =>
      ls_sw_if_index s = Some (rt_sw_if_index r') /\
      ∀ r, r ∈ bindings s' <-> r ≠ r' /\ r ∈ bindings s
  | _ => False
  end →
  routes_ok m → routes_ok m'.
Proof.
  intros Hok Hs Hrb Hc Hlen Hb [Hr Hp]. split.
  - rewrite Hc, (rb_sessions _ _ _ _ _ Hrb). apply (bound_step _ _ si s); [done..|].
    destruct c as [|r'| | | | | | | | | | | |]; try done. destruct Hb as [Hw Hb]. split; [|done].
    intros Ho. by apply (other_iface m si s r' Hok Hs Ho).
  - intros sj s0. rewrite (rb_sessions _ _ _ _ _ Hrb). destruct (decide (sj = si)) as [->|].
    + rewrite lookup_insert_eq. by intros [= <-].
    + rewrite lookup_insert_ne by done. apply Hp.
Qed.

(** ** The binding calls *)

Definition unbind4 (s : l2tpv2_session_t) : l2tpv2_session_t :=
  if ls_ipv4_bound s then s⟪ls_client_ipv4 := 0⟫⟪ls_ipv4_bound := false⟫ else s.
Definition unbind6 (s : l2tpv2_session_t) : l2tpv2_session_t :=
  if ls_ipv6_bound s then s⟪ls_client_ipv6 := 0⟫⟪ls_ipv6_bound := false⟫ else s.
Definition unbindp (s : l2tpv2_session_t) : l2tpv2_session_t :=
  if ls_delegated_prefix_len s =? 0 then s
  else s⟪ls_delegated_prefix := 0⟫⟪ls_delegated_prefix_len := 0⟫⟪ls_pd_next_hop := 0⟫.

(** One call and one update of the session. *)
Lemma rebound_step si s m c g :
  lm_sessions m !! si = Some s → is_path c = true → shape (g s) = shape s →
  rebound si s m (g s) (upd_l2tp_session si g (l2tp_call [c] m)) /\
  lm_calls (upd_l2tp_session si g (l2tp_call [c] m)) = lm_calls m ++ [c].
Proof.
  intros Hs Hc Hg. split; [|done]. split; try done.
  - unfold upd_l2tp_session, l2tp_call. rproj. by apply alter_insert_lookup.
  - unfold upd_l2tp_session, l2tp_call. rproj. apply visible_paths. by repeat constructor.
Qed.

Section Unbind.

Context (m : l2tpv2_main_t) (si w : Z) (s : l2tpv2_session_t).
Context (Hs : lm_sessions m !! si = Some s) (Hw : ls_sw_if_index s = Some w).

Lemma clear_ipv4_ok addr :
  rebound si s m (unbind4 s) (clear_ipv4 m w addr si s) /\
  (l2tp_ok m → (ls_ipv4_bound s = true → ls_client_ipv4 s = addr) → routes_ok m →
   routes_ok (clear_ipv4 m w addr si s)).
Proof.
  unfold clear_ipv4, unbind4. destruct (ls_ipv4_bound s) eqn:Eb; cbn [negb].
  2: { split; [by apply rebound_refl|done]. }
  destruct (rebound_step si s m (PathRemove (l2tp_route false s w addr 32))
    (λ s, s⟪ls_client_ipv4 := 0⟫⟪ls_ipv4_bound := false⟫) Hs) as [Hrb Hc]; [done|done|].
  split; [exact Hrb|]. intros Hok Ha Hr. specialize (Ha eq_refl). subst addr.
  eapply routes_rebound; [exact Hok|exact Hs|exact Hrb|exact Hc|exact (ro_prefix m Hr si s Hs)| |done].
  split; [done|]. intros r. rewrite !(elem_of_bindings _ w) by done. rproj. rewrite Eb.
  assert (∀ a l, l2tp_route true s w a l ≠ l2tp_route false s w (ls_client_ipv4 s) 32) as Hne by done.
  unfold l2tp_route in *. rproj. naive_solver.
Qed.

Lemma clear_ipv6_ok addr :
  rebound si s m (unbind6 s) (clear_ipv6 m w addr si s) /\
  (l2tp_ok m → (ls_ipv6_bound s = true → ls_client_ipv6 s = addr) → routes_ok m →
   routes_ok (clear_ipv6 m w addr si s)).
Proof.
  unfold clear_ipv6, unbind6. destruct (ls_ipv6_bound s) eqn:Eb; cbn [negb].
  2: { split; [by apply rebound_refl|done]. }
  destruct (rebound_step si s m (PathRemove (l2tp_route true s w addr 128))
    (λ s, s⟪ls_client_ipv6 := 0⟫⟪ls_ipv6_bound := false⟫) Hs) as [Hrb Hc]; [done|done|].
  split; [exact Hrb|]. intros Hok Ha Hr. specialize (Ha eq_refl). subst addr.
  pose proof (ro_prefix m Hr si s Hs) as Hlen.
  eapply routes_rebound; [exact Hok|exact Hs|exact Hrb|exact Hc|exact Hlen| |done].
  split; [done|]. intros r. rewrite !(elem_of_bindings _ w) by done. rproj. rewrite Eb.
  unfold l2tp_route in *. rproj. naive_solver.
Qed.

Lemma clear_prefix_ok prefix len :
  rebound si s m (unbindp s) (clear_prefix m w prefix len si s) /\
  (l2tp_ok m →
   (ls_delegated_prefix_len s ≠ 0 → ls_delegated_prefix s = prefix /\ ls_delegated_prefix_len s = len) →
   routes_ok m → routes_ok (clear_prefix m w prefix len si s)).
Proof.
  unfold clear_prefix, unbindp. destruct (Z.eqb_spec (ls_delegated_prefix_len s) 0) as [E|E].
  { split; [by apply rebound_refl|done]. }
  destruct (rebound_step si s m (PathRemove (l2tp_route true s w prefix len))
    (λ s, s⟪ls_delegated_prefix := 0⟫⟪ls_delegated_prefix_len := 0⟫⟪ls_pd_next_hop := 0⟫)
    Hs) as [Hrb Hc]; [done|done|].
  split; [exact Hrb|]. intros Hok Ha Hr. destruct (Ha E) as [<- <-].
  pose proof (ro_prefix m Hr si s Hs) as Hlen.
  eapply routes_rebound; [exact Hok|exact Hs|exact Hrb|exact Hc|done| |done].
  split; [done|]. intros r. rewrite !(elem_of_bindings _ w) by done. rproj.
  unfold l2tp_route in *. rproj. naive_solver.
Qed.

End Unbind.

Lemma session_of_iface m w si :
  l2tp_ok m → lm_session_index_by_sw_if_index m !! w = Some si →
  exists s, lm_sessions m !! si = Some s /\ ls_sw_if_index s = Some w /\
    ls_decap_mode s = L2TPV2_DECAP_IP.
Proof.
  intros Hok Hi. destruct (if_owner _ _ _ (lo_ifaces m Hok) w si Hi) as [hw Ho].
  rewrite lookup_omap in Ho. destruct (lm_sessions m !! si) as [s|] eqn:Es; [|done].
  exists s. split; [done|]. simpl in Ho.
  destruct (lo_mode m Hok si s Es) as [_ [[Hm _]|(_ & E & _)]]; unfold owned in Ho.
  - destruct (ls_sw_if_index s); [|done]. simpl in Ho. destruct (ls_hw_if_index s); [|done].
    by injection Ho as <- _.
  - by rewrite E in Ho.
Qed.

Lemma with_ip_session_cases m w f :
  l2tp_ok m →
  with_ip_session m w f = Some (m, RV_INVALID_SW_IF_INDEX) /\
    lm_session_index_by_sw_if_index m !! w = None \/
  exists si s, lm_session_index_by_sw_if_index m !! w = Some si /\ lm_sessions m !! si = Some s /\
    ls_sw_if_index s = Some w /\ with_ip_session m w f = Some (f si s, RV_OK).
Proof.
  intros Hok. unfold with_ip_session, l2tpv2_session_by_sw_if_index.
  destruct (lm_session_index_by_sw_if_index m !! w) as [si|] eqn:Ei; [right|by left].
  destruct (session_of_iface m w si Hok Ei) as (s & Hs & Hw & Hm). exists si, s. rewrite Hs. simpl.
  by rewrite Hm.
Qed.

(** What a binding call does, given what its action does to a session. *)
Lemma with_ip_session_ok m w f (P : l2tpv2_session_t → Prop) :
  l2tp_ok m →
  (∀ si s, lm_sessions m !! si = Some s → ls_sw_if_index s = Some w →
     exists s', rebound si s m s' (f si s) /\ (P s → routes_ok m → routes_ok (f si s))) →
  exists m' rv, with_ip_session m w f = Some (m', rv) /\ l2tp_ok m' /\
    ((∀ si s, lm_session_index_by_sw_if_index m !! w = Some si → lm_sessions m !! si = Some s → P s) →
     routes_ok m → routes_ok m').
Proof.
  intros Hok Hf. destruct (with_ip_session_cases m w f Hok) as [[-> _]|(si & s & Hi & Hs & Hw & ->)].
  - by exists m, RV_INVALID_SW_IF_INDEX.
  - destruct (Hf si s Hs Hw) as (s' & Hrb & Hr). exists (f si s), RV_OK. split; [done|].
    split; [by apply (rebound_ok si s m s')|]. intros HP. apply Hr. eauto.
Qed.

(** A binding replaces an earlier one. *)
Lemma rebind_ok si s m w s1 m1 c g :
  lm_sessions m !! si = Some s → ls_sw_if_index s = Some w →
  rebound si s m s1 m1 → shape (g s1) = shape s1 → is_path (PathAdd c) = true →
  let m2 := upd_l2tp_session si g (l2tp_call [PathAdd c] m1) in
  rebound si s m (g s1) m2 /\
  (l2tp_ok m → routes_ok m1 → ls_delegated_prefix_len (g s1) ≠ 128 →
   (∀ r, r ∈ bindings (g s1) <-> r = c \/ r ∈ bindings s1) → routes_ok m2).
Proof.
  intros Hs Hw Hrb Hg Hc. cbv zeta.
  assert (lm_sessions m1 !! si = Some s1) as Hs1.
  { by rewrite (rb_sessions _ _ _ _ _ Hrb), lookup_insert_eq. }
  destruct (rebound_step si s1 m1 (PathAdd c) g Hs1 Hc Hg) as [Hrb2 Hc2].
  split; [by apply (rebound_trans si s m s1 m1)|]. intros Hok Hr Hlen Hb.
  apply (routes_rebound si s1 m1 (g s1) _ (PathAdd c)); try done. by apply (rebound_ok si s m s1).
Qed.

Lemma set_ipv4_ok m w addr is_add :
  l2tp_ok m →
  exists m' rv, vnet_l2tpv2_set_session_ipv4 m w addr is_add = Some (m', rv) /\ l2tp_ok m' /\
    ((∀ si s, lm_session_index_by_sw_if_index m !! w = Some si → lm_sessions m !! si = Some s →
        is_add = false → ls_ipv4_bound s = true → ls_client_ipv4 s = addr) →
     routes_ok m → routes_ok m').
Proof.
  intros Hok. apply with_ip_session_ok; [done|]. intros si s Hs Hw.
  destruct is_add.
  2: { destruct (clear_ipv4_ok m si w s Hs Hw addr) as [Hrb Hr]. eexists. split; [exact Hrb|].
       intros HP. apply Hr; auto. }
  destruct (ls_ipv4_bound s && (ls_client_ipv4 s =? addr)); [exists s; split; [by apply rebound_refl|done]|].
  destruct (clear_ipv4_ok m si w s Hs Hw (ls_client_ipv4 s)) as [Hrb1 Hr1].
  assert ((if ls_ipv4_bound s then clear_ipv4 m w (ls_client_ipv4 s) si s else m) =
          clear_ipv4 m w (ls_client_ipv4 s) si s) as ->.
  { unfold clear_ipv4. by destruct (ls_ipv4_bound s). }
  destruct (rebind_ok si s m w _ _ (l2tp_route false s w addr 32)
    (λ s, s⟪ls_client_ipv4 := addr⟫⟪ls_ipv4_bound := true⟫) Hs Hw Hrb1) as [Hrb Hr]; [done|done|].
  eexists. split; [exact Hrb|]. intros _ Hro. apply (Hr Hok); [auto| |].
  - unfold unbind4. pose proof (ro_prefix m Hro si s Hs). by destruct (ls_ipv4_bound s).
  - intros r. assert (ls_sw_if_index (unbind4 s) = Some w) as Hw'
      by (unfold unbind4; by destruct (ls_ipv4_bound s)).
    rewrite !(elem_of_bindings _ w) by done. unfold unbind4, l2tp_route.
    destruct (ls_ipv4_bound s) eqn:E; rproj; rewrite ?E; naive_solver.
Qed.

Lemma set_ipv6_ok m w addr is_add :
  l2tp_ok m →
  exists m' rv, vnet_l2tpv2_set_session_ipv6 m w addr is_add = Some (m', rv) /\ l2tp_ok m' /\
    ((∀ si s, lm_session_index_by_sw_if_index m !! w = Some si → lm_sessions m !! si = Some s →
        is_add = false → ls_ipv6_bound s = true → ls_client_ipv6 s = addr) →
     routes_ok m → routes_ok m').
Proof.
  intros Hok. apply with_ip_session_ok; [done|]. intros si s Hs Hw.
  destruct is_add.
  2: { destruct (clear_ipv6_ok m si w s Hs Hw addr) as [Hrb Hr]. eexists. split; [exact Hrb|].
       intros HP. apply Hr; auto. }
  destruct (ls_ipv6_bound s && (ls_client_ipv6 s =? addr)); [exists s; split; [by apply rebound_refl|done]|].
  destruct (clear_ipv6_ok m si w s Hs Hw (ls_client_ipv6 s)) as [Hrb1 Hr1].
  assert ((if ls_ipv6_bound s then clear_ipv6 m w (ls_client_ipv6 s) si s else m) =
          clear_ipv6 m w (ls_client_ipv6 s) si s) as ->.
  { unfold clear_ipv6. by destruct (ls_ipv6_bound s). }
  destruct (rebind_ok si s m w _ _ (l2tp_route true s w addr 128)
    (λ s, s⟪ls_client_ipv6 := addr⟫⟪ls_ipv6_bound := true⟫) Hs Hw Hrb1) as [Hrb Hr]; [done|done|].
  eexists. split; [exact Hrb|]. intros _ Hro. apply (Hr Hok); [auto| |].
  - unfold unbind6. pose proof (ro_prefix m Hro si s Hs). by destruct (ls_ipv6_bound s).
  - intros r. assert (ls_sw_if_index (unbind6 s) = Some w) as Hw'
      by (unfold unbind6; by destruct (ls_ipv6_bound s)).
    rewrite !(elem_of_bindings _ w) by done. unfold unbind6, l2tp_route.
    destruct (ls_ipv6_bound s) eqn:E; rproj; rewrite ?E; naive_solver.
Qed.

Lemma set_prefix_ok m w prefix len next_hop is_add :
  l2tp_ok m →
  exists m' rv, vnet_l2tpv2_set_delegated_prefix m w prefix len next_hop is_add = Some (m', rv) /\
    l2tp_ok m' /\
    ((∀ si s, lm_session_index_by_sw_if_index m !! w = Some si → lm_sessions m !! si = Some s →
        if is_add then len ≠ 0 /\ len ≠ 128
        else ls_delegated_prefix_len s ≠ 0 →
             ls_delegated_prefix s = prefix /\ ls_delegated_prefix_len s = len) →
     routes_ok m → routes_ok m').
Proof.
  intros Hok. apply with_ip_session_ok; [done|]. intros si s Hs Hw.
  destruct is_add.
  2: { destruct (clear_prefix_ok m si w s Hs Hw prefix len) as [Hrb Hr]. eexists.
       split; [exact Hrb|]. auto. }
  destruct (_ && _); [exists s; split; [by apply rebound_refl|done]|].
  destruct (clear_prefix_ok m si w s Hs Hw (ls_delegated_prefix s) (ls_delegated_prefix_len s))
    as [Hrb1 Hr1].
  assert ((if ls_delegated_prefix_len s =? 0 then m else
             clear_prefix m w (ls_delegated_prefix s) (ls_delegated_prefix_len s) si s) =
          clear_prefix m w (ls_delegated_prefix s) (ls_delegated_prefix_len s) si s) as ->.
  { unfold clear_prefix. by destruct (_ =? 0). }
  destruct (rebind_ok si s m w _ _ (l2tp_route true s w prefix len)
    (λ s, s⟪ls_delegated_prefix := prefix⟫⟪ls_delegated_prefix_len := len⟫
           ⟪ls_pd_next_hop := next_hop⟫) Hs Hw Hrb1) as [Hrb Hr]; [done|done|].
  eexists. split; [exact Hrb|]. intros [Hlen0 Hlen] Hro. apply (Hr Hok); [auto|done|].
  intros r. assert (ls_sw_if_index (unbindp s) = Some w) as Hw'
    by (unfold unbindp; by destruct (_ =? 0)).
  rewrite !(elem_of_bindings _ w) by done. unfold unbindp, l2tp_route.
  destruct (Z.eqb_spec (ls_delegated_prefix_len s) 0) as [E|E]; rproj; rewrite ?E; intuition congruence.
Qed.

End Inv.
