(* ===== verification/L2tpRun.v ===== *)
(** Runs of the L2TPv2 plugin's API: every call keeps the invariants.

    A run starts at [l2tpv2_init] and makes calls in any order with any arguments; the
    slots and interfaces VPP hands out are unused ones.  No call of a run touches a
    freed entry; the routes stay exact as long as a binding is removed by the value it
    was set to. *)

From S2P Require Import Prelude Access L2tpSession L2tpInv.
From stdpp Require Import strings.

#[local] Open Scope Z_scope.

Section Run.

Context `{AccessVppLaws}.

(** * Sessions *)

Lemma ip_session_call m w si s f :
  lm_session_index_by_sw_if_index m !! w = Some si → lm_sessions m !! si = Some s →
  ls_decap_mode s = L2TPV2_DECAP_IP → with_ip_session m w f = Some (f si s, RV_OK).
Proof.
  intros Hi Hs Hm. unfold with_ip_session, l2tpv2_session_by_sw_if_index. rewrite Hi, Hs. simpl.
  by rewrite Hm.
Qed.

(** Deleting a session first takes all its routes away. *)
Lemma clear_bindings_ok m si s w :
  l2tp_ok m → lm_session_index_by_sw_if_index m !! w = Some si →
  lm_sessions m !! si = Some s →
  exists m', clear_bindings m w s = Some m' /\ l2tp_ok m' /\
    rebound si s m (unbindp (unbind6 (unbind4 s))) m' /\ (routes_ok m → routes_ok m').
Proof.
  intros Hok Hi Hs.
  destruct (session_of_iface m w si Hok Hi) as (s0 & Hs0 & Hw & Hm).
  rewrite Hs in Hs0. injection Hs0 as <-.
  set (s1 := unbind4 s). set (s2 := unbind6 s1).
  assert (ls_sw_if_index s1 = Some w /\ ls_decap_mode s1 = L2TPV2_DECAP_IP /\
    ls_ipv6_bound s1 = ls_ipv6_bound s /\ ls_client_ipv6 s1 = ls_client_ipv6 s /\
    ls_delegated_prefix s1 = ls_delegated_prefix s /\
    ls_delegated_prefix_len s1 = ls_delegated_prefix_len s) as (Hw1 & Hm1 & E1 & E2 & E3 & E4).
  { unfold s1, unbind4. by destruct (ls_ipv4_bound s). }
  assert (ls_sw_if_index s2 = Some w /\ ls_decap_mode s2 = L2TPV2_DECAP_IP /\
    ls_delegated_prefix s2 = ls_delegated_prefix s /\
    ls_delegated_prefix_len s2 = ls_delegated_prefix_len s) as (Hw2 & Hm2 & E5 & E6).
  { unfold s2, unbind6. by destruct (ls_ipv6_bound s1). }
  (* IPv4 *)
  destruct (clear_ipv4_ok m si w s Hs Hw (ls_client_ipv4 s)) as [Hrb1 Hr1].
  set (m1 := clear_ipv4 m w (ls_client_ipv4 s) si s) in *.
  pose proof (rebound_ok si s m s1 m1 Hs Hrb1 Hok) as Hok1.
  assert (lm_sessions m1 !! si = Some s1) as Hs1
    by (by rewrite (rb_sessions _ _ _ _ _ Hrb1), lookup_insert_eq).
  assert (lm_session_index_by_sw_if_index m1 !! w = Some si) as Hi1.
  { pose proof (rb_same _ _ _ _ _ Hrb1) as E. by injection E as _ _ _ _ -> _. }
  (* IPv6 *)
  destruct (clear_ipv6_ok m1 si w s1 Hs1 Hw1 (ls_client_ipv6 s)) as [Hrb2 Hr2].
  set (m2 := clear_ipv6 m1 w (ls_client_ipv6 s) si s1) in *.
  pose proof (rebound_ok si s1 m1 s2 m2 Hs1 Hrb2 Hok1) as Hok2.
  assert (lm_sessions m2 !! si = Some s2) as Hs2
    by (by rewrite (rb_sessions _ _ _ _ _ Hrb2), lookup_insert_eq).
  assert (lm_session_index_by_sw_if_index m2 !! w = Some si) as Hi2.
  { pose proof (rb_same _ _ _ _ _ Hrb2) as E. by injection E as _ _ _ _ -> _. }
  (* the prefix *)
  destruct (clear_prefix_ok m2 si w s2 Hs2 Hw2 (ls_delegated_prefix s) (ls_delegated_prefix_len s))
    as [Hrb3 Hr3].
  eexists. split_and!; [| | |].
  - unfold clear_bindings.
    assert ((if ls_ipv4_bound s then vnet_l2tpv2_set_session_ipv4 m w (ls_client_ipv4 s) false
             else Some (m, RV_OK)) = Some (m1, RV_OK)) as ->.
    { unfold vnet_l2tpv2_set_session_ipv4. rewrite (ip_session_call m w si s) by done.
      unfold m1, clear_ipv4. by destruct (ls_ipv4_bound s). }
    cbn [mbind option_bind].
    assert ((if ls_ipv6_bound s then vnet_l2tpv2_set_session_ipv6 m1 w (ls_client_ipv6 s) false
             else Some (m1, RV_OK)) = Some (m2, RV_OK)) as ->.
    { unfold vnet_l2tpv2_set_session_ipv6. rewrite (ip_session_call m1 w si s1) by done.
      unfold m2, clear_ipv6. rewrite E1. by destruct (ls_ipv6_bound s). }
    cbn [mbind option_bind]. unfold vnet_l2tpv2_set_delegated_prefix.
    rewrite (ip_session_call m2 w si s2) by done.
    instantiate (1 := clear_prefix m2 w (ls_delegated_prefix s) (ls_delegated_prefix_len s) si s2).
    unfold clear_prefix. rewrite E6. by destruct (_ =? 0).
  - by apply (rebound_ok si s2 m2 (unbindp s2)).
  - apply (rebound_trans si s m s2 m2); [|done]. by apply (rebound_trans si s m s1 m1).
  - intros Hr. apply Hr3; [done|intros _; by rewrite E5, E6|].
    apply Hr2; [done|by rewrite E2|]. by apply Hr1.
Qed.

(** A new session, once its mode is set up: [m1] is [m] with its interface. *)
Lemma finish_add_ok m m1 ti t si s :
  l2tp_ok m →
  (lm_tunnels m1, lm_sessions m1, lm_tunnel_table m1, lm_session_table m1) =
    (lm_tunnels m, lm_sessions m, lm_tunnel_table m, lm_session_table m) →
  lm_tunnels m !! ti = Some t → lm_sessions m !! si = None →
  lm_session_table m !! skey t s = None →
  ls_tunnel_index s = ti → is_u16 (ls_local_session_id s) → mode_ok s → bindings s = [] →
  ls_delegated_prefix_len s = 0 →
  iface_ok (lm_free_session_hw_if_indices m1) (lm_session_index_by_sw_if_index m1)
    (omap owned (<[si := s]> (lm_sessions m))) →
  (∀ w, w ∈ visible (lm_calls m1) <-> is_Some (lm_session_index_by_sw_if_index m1 !! w)) →
  routes (lm_calls m1) = routes (lm_calls m) →
  l2tp_ok (finish_add m1 (skey t s) ti si s) /\
  (routes_ok m → routes_ok (finish_add m1 (skey t s) ti si s)).
Proof.
  intros Hok Hsame Ht Hsi Hk Hti Hid Hmode Hb Hlen Hif Hv Hr.
  injection Hsame as E1 E2 E3 E4. unfold finish_add. split; [split|intros [R1 R2]; split]; rproj.
  - rewrite E1, E2, E3, E4. by apply tables_add_session; [apply lo_tables| | | | |].
  - intros sj s'. rewrite E2. destruct (decide (sj = si)) as [->|].
    + rewrite lookup_insert_eq. by intros [= <-].
    + rewrite lookup_insert_ne by done. apply lo_mode, Hok.
  - by rewrite E2.
  - done.
  - intros r. rewrite Hr, R1, E2, bound_insert, Hb, elem_of_nil, delete_id by done. tauto.
  - intros sj s'. rewrite E2. destruct (decide (sj = si)) as [->|].
    + rewrite lookup_insert_eq. intros [= <-]. rewrite Hlen. lia.
    + rewrite lookup_insert_ne by done. apply R2.
Qed.

Lemma omap_owned_insert (S : gmap Z l2tpv2_session_t) si s :
  S !! si = None →
  omap owned (<[si := s]> S) = match owned s with
                               | Some o => <[si := o]> (omap owned S)
                               | None => omap owned S
                               end.
Proof.
  intros Hsi. apply map_eq. intros j. rewrite lookup_omap. destruct (decide (j = si)) as [->|].
  - rewrite lookup_insert_eq. simpl. destruct (owned s).
    + by rewrite lookup_insert_eq.
    + by rewrite lookup_omap, Hsi.
  - rewrite lookup_insert_ne by done. destruct (owned s).
    + by rewrite lookup_insert_ne, lookup_omap.
    + by rewrite lookup_omap.
Qed.

Lemma setup_raw_spec a node s s' :
  setup_raw a node s = inr s' →
  exists n, s' = s⟪ls_raw_next_node_index := Some n⟫
                  ⟪ls_raw_next_arc := Some (vlib_node_add_next node n)⟫
                  ⟪ls_raw_opaque := sa_raw_opaque a⟫.
Proof.
  unfold setup_raw. destruct (sa_raw_next_node_name a) as [|c n]; [done|].
  destruct (vlib_get_node_by_name _) as [i|]; [|done]. intros [= <-]. by exists i.
Qed.

Lemma setup_fibs_spec a s s' :
  setup_fibs a s = inr s' →
  exists f4 f6, s' = s⟪ls_decap_fib_index := f4⟫⟪ls_decap_fib_index_ip6 := f6⟫.
Proof.
  unfold setup_fibs. destruct (l2tpv2_resolve_decap_fib _) as [|f4]; [done|].
  destruct (l2tpv2_resolve_decap_fib_ip6 _) as [|f6]; [done|]. intros [= <-]. by exists f4, f6.
Qed.

(** The interface of a new session. *)
Lemma setup_interface_ok m si new_hw s m1 s1 :
  l2tp_ok m → lm_sessions m !! si = None →
  hw_fresh (lm_session_index_by_sw_if_index m) (lm_free_session_hw_if_indices m) new_hw →
  setup_interface m si new_hw s = (m1, s1) →
  (exists w hw, s1 = s⟪ls_hw_if_index := Some hw⟫⟪ls_sw_if_index := Some w⟫) /\
  (lm_tunnels m1, lm_sessions m1, lm_tunnel_table m1, lm_session_table m1) =
    (lm_tunnels m, lm_sessions m, lm_tunnel_table m, lm_session_table m) /\
  iface_ok (lm_free_session_hw_if_indices m1) (lm_session_index_by_sw_if_index m1)
    (omap owned (<[si := s1]> (lm_sessions m))) /\
  (∀ w, w ∈ visible (lm_calls m1) <-> is_Some (lm_session_index_by_sw_if_index m1 !! w)) /\
  routes (lm_calls m1) = routes (lm_calls m).
Proof.
  intros Hok Hsi Hfresh. unfold setup_interface.
  destruct (take_hw (lm_free_session_hw_if_indices m) new_hw) as [free hw] eqn:Et.
  set (reused := match lm_free_session_hw_if_indices m with [] => [RegisterHw hw si] | _ => [SetInstance hw si] end).
  intros [= <- <-]. split; [by eexists _, _|]. split; [done|].
  destruct (iface_start _ _ (omap owned (lm_sessions m)) new_hw si free hw (lo_ifaces m Hok))
    as [Hidle Hif]; [by rewrite lookup_omap, Hsi|done|done|].
  split_and!.
  - rewrite omap_owned_insert by done. exact Hif.
  - unfold l2tp_call. rproj. intros w.
    assert (visible (lm_calls m ++ (reused ++ [SetHidden (hw_sw_if_index hw) false;
              SetAdminUp (hw_sw_if_index hw) true; SetL3Output (hw_sw_if_index hw)])) =
            {[hw_sw_if_index hw]} ∪ visible (lm_calls m)) as ->.
    { rewrite visible_app. unfold reused. by destruct (lm_free_session_hw_if_indices m). }
    rewrite elem_of_union, elem_of_singleton, (lo_visible m Hok).
    destruct (decide (w = hw_sw_if_index hw)) as [->|].
    + rewrite lookup_insert_eq. naive_solver.
    + rewrite lookup_insert_ne by done. naive_solver.
  - unfold l2tp_call. rproj. apply routes_no_paths. unfold reused.
    destruct (lm_free_session_hw_if_indices m); repeat constructor.
Qed.

Lemma new_session_skip a ti s :
  ls_ppp_hdr_skip s = ls_ppp_hdr_skip (new_l2tp_session a ti) → skip_ok s.
Proof. unfold skip_ok. intros ->. simpl. destruct (_ =? _); auto. Qed.

Lemma add_session_ok m si new_hw node ti t a key m' rv sw :
  l2tp_ok m → lm_sessions m !! si = None →
  hw_fresh (lm_session_index_by_sw_if_index m) (lm_free_session_hw_if_indices m) new_hw →
  lm_tunnels m !! ti = Some t → is_u16 (sa_local_session_id a) →
  (∀ s, ls_local_session_id s = sa_local_session_id a → skey t s = key) →
  add_session m si new_hw node ti a key = (m', rv, sw) →
  l2tp_ok m' /\ (routes_ok m → routes_ok m').
Proof.
  intros Hok Hsi Hfresh Ht Hid Hkey. unfold add_session.
  destruct (lm_session_table m !! key) eqn:Ek; [by intros [= <- _ _]|].
  destruct (Z.eqb_spec (sa_decap_mode a) L2TPV2_DECAP_RAW) as [Em|_].
  { destruct (setup_raw a node _) as [e|s] eqn:Es; [by intros [= <- _ _]|]. intros [= <- _ _].
    apply setup_raw_spec in Es as [n ->].
    match goal with |- context [finish_add _ key ti si ?s] => destruct (Hkey s eq_refl) end.
    apply (finish_add_ok m m); try done.
    - split; [by apply (new_session_skip a ti)|]. right. split_and!; [exact Em|done|by eexists].
    - rewrite omap_owned_insert by done. apply (lo_ifaces m Hok).
    - apply (lo_visible m Hok). }
  destruct (Z.eqb_spec (sa_decap_mode a) L2TPV2_DECAP_IP) as [Em|_]; [|by intros [= <- _ _]].
  destruct (setup_fibs a _) as [e|s] eqn:Es; [by intros [= <- _ _]|].
  apply setup_fibs_spec in Es as (f4 & f6 & ->).
  destruct (setup_interface m si new_hw _) as [m1 s1] eqn:Ei. intros [= <- _ _].
  destruct (setup_interface_ok m si new_hw _ m1 s1 Hok Hsi Hfresh Ei)
    as ((w & hw & ->) & Hsame & Hif & Hv & Hr).
  match goal with |- context [finish_add _ key ti si ?s] => destruct (Hkey s eq_refl) end.
  apply (finish_add_ok m m1); try done.
  split; [by apply (new_session_skip a ti)|]. left. split; [exact Em|by eexists].
Qed.

(** Removing a session whose interface, if any, has been parked. *)
Lemma drop_session_ok m m1 ti t si s :
  l2tp_ok m →
  (lm_tunnels m1, lm_sessions m1, lm_tunnel_table m1, lm_session_table m1) =
    (lm_tunnels m, lm_sessions m, lm_tunnel_table m, lm_session_table m) →
  lm_tunnels m !! ti = Some t → lm_sessions m !! si = Some s → ls_tunnel_index s = ti →
  bindings s = [] →
  iface_ok (lm_free_session_hw_if_indices m1) (lm_session_index_by_sw_if_index m1)
    (delete si (omap owned (lm_sessions m))) →
  (∀ w, w ∈ visible (lm_calls m1) <-> is_Some (lm_session_index_by_sw_if_index m1 !! w)) →
  routes (lm_calls m1) = routes (lm_calls m) →
  let m' := m1⟪lm_session_table ::= delete (skey t s)⟫
      ⟪lm_tunnels ::= alter (λ t, if 0 <? tn_ref_count t then t⟪tn_ref_count ::= λ n, n - 1⟫ else t) ti⟫
      ⟪lm_sessions ::= delete si⟫ in
  l2tp_ok m' /\ (routes_ok m → routes_ok m').
Proof.
  intros Hok Hsame Ht Hs Hti Hb Hif Hv Hr. injection Hsame as E1 E2 E3 E4. cbv zeta.
  split; [split|intros [R1 R2]; split]; rproj.
  - rewrite E1, E2, E3, E4. by apply tables_del_session; [apply lo_tables| | |].
  - intros sj s'. rewrite E2. intros [_ Hj]%lookup_delete_Some. by apply (lo_mode m Hok sj).
  - by rewrite E2, omap_delete.
  - done.
  - intros r. rewrite Hr, R1, E2. rewrite (bound_split _ _ si s) by done.
    rewrite Hb, elem_of_nil. tauto.
  - intros sj s'. rewrite E2. intros [_ Hj]%lookup_delete_Some. by apply (R2 sj).
Qed.

Lemma unbound_bindings s : bindings (unbindp (unbind6 (unbind4 s))) = [].
Proof.
  assert (ls_ipv4_bound (unbind4 s) = false) as E4.
  { unfold unbind4. by destruct (ls_ipv4_bound s) eqn:E. }
  revert E4. generalize (unbind4 s). clear s. intros s E4.
  assert (ls_ipv6_bound (unbind6 s) = false /\ ls_ipv4_bound (unbind6 s) = false) as [E6 E4'].
  { unfold unbind6. by destruct (ls_ipv6_bound s) eqn:E. }
  revert E6 E4'. generalize (unbind6 s). clear s E4. intros s E6 E4.
  assert (ls_delegated_prefix_len (unbindp s) = 0 /\ ls_ipv6_bound (unbindp s) = false /\
    ls_ipv4_bound (unbindp s) = false) as (Ep & E6' & E4').
  { unfold unbindp. by destruct (Z.eqb_spec (ls_delegated_prefix_len s) 0). }
  unfold bindings. rewrite Ep, E6', E4'. by destruct (ls_sw_if_index (unbindp s)).
Qed.

Lemma park_interface_ok m si s w hw :
  l2tp_ok m → lm_sessions m !! si = Some s → owned s = Some (w, hw) →
  let m1 := park_interface m w (Some hw) in
  iface_ok (lm_free_session_hw_if_indices m1) (lm_session_index_by_sw_if_index m1)
    (delete si (omap owned (lm_sessions m))) /\
  (∀ w', w' ∈ visible (lm_calls m1) <-> is_Some (lm_session_index_by_sw_if_index m1 !! w')) /\
  routes (lm_calls m1) = routes (lm_calls m).
Proof.
  intros Hok Hs Ho. unfold park_interface, l2tp_call. cbv zeta. rproj. split_and!.
  - apply iface_park; [apply (lo_ifaces m Hok)|]. by rewrite lookup_omap, Hs.
  - intros w'. rewrite visible_app. simpl.
    rewrite elem_of_difference, elem_of_singleton, (lo_visible m Hok).
    destruct (decide (w' = w)) as [->|].
    + rewrite lookup_delete_eq. split; [tauto|by intros [? ?]].
    + rewrite lookup_delete_ne by done. tauto.
  - apply routes_no_paths. repeat constructor.
Qed.

Lemma del_session_ok m ti t si s :
  l2tp_ok m → lm_tunnels m !! ti = Some t → lm_sessions m !! si = Some s → ls_tunnel_index s = ti →
  exists m' sw, del_session m ti si (skey t s) = Some (m', RV_OK, sw) /\ l2tp_ok m' /\
    (routes_ok m → routes_ok m') /\ lm_sessions m' = delete si (lm_sessions m) /\
    lm_session_table m' = delete (skey t s) (lm_session_table m).
Proof.
  intros Hok Ht Hs Hti. unfold del_session. rewrite Hs. cbn [mbind option_bind].
  destruct (lo_mode m Hok si s Hs) as [_ [[Hm [[w hw] Ho]]|(Hm & Hw & _)]]; rewrite Hm; cbn [Z.eqb].
  - assert (ls_sw_if_index s = Some w /\ ls_hw_if_index s = Some hw) as [Hw Hhw].
    { unfold owned in Ho. destruct (ls_sw_if_index s); [|done]. simpl in Ho.
      destruct (ls_hw_if_index s); [|done]. by injection Ho as -> ->. }
    destruct (if_owned _ _ _ (lo_ifaces m Hok) si w hw) as [Hi _]; [by rewrite lookup_omap, Hs|].
    destruct (clear_bindings_ok m si s w Hok Hi Hs) as (m1 & Hc & Hok1 & Hrb & Hr1).
    set (s1 := unbindp (unbind6 (unbind4 s))) in *.
    change (L2TPV2_DECAP_IP =? L2TPV2_DECAP_IP) with true. cbv iota.
    rewrite Hw. cbn [mbind option_bind]. rewrite Hc, Hhw. cbn [mbind option_bind].
    destruct Hrb as [Hsame HS Hsh _]. injection Hsame as E1 E2 E3 _ _ _.
    assert (lm_sessions m1 !! si = Some s1) as Hs1 by (by rewrite HS, lookup_insert_eq).
    injection Hsh as Et Ei _ _ Ew Eh _ _ _.
    assert (skey t s = skey t s1) as -> by (unfold skey; by rewrite Ei).
    destruct (park_interface_ok m1 si s1 w hw Hok1 Hs1) as (Hif & Hv & Hr).
    { unfold owned. by rewrite Ew, Eh, Hw, Hhw. }
    destruct (drop_session_ok m1 (park_interface m1 w (Some hw)) ti t si s1) as [Hok2 Hr2];
      try done; [by rewrite E1|congruence|apply unbound_bindings|].
    eexists _, _. split; [reflexivity|]. split; [exact Hok2|]. split; [auto|].
    unfold park_interface, l2tp_call. rproj. rewrite HS, E3. split; [|done].
    by rewrite delete_insert_eq.
  - change (L2TPV2_DECAP_RAW =? L2TPV2_DECAP_IP) with false. cbv iota. cbn [mbind option_bind].
    assert (owned s = None) as Ho by (unfold owned; by rewrite Hw).
    destruct (drop_session_ok m m ti t si s) as [Hok2 Hr2]; try done.
    + unfold bindings. by rewrite Hw.
    + rewrite delete_id; [apply (lo_ifaces m Hok)|]. by rewrite lookup_omap, Hs.
    + apply (lo_visible m Hok).
    + eexists _, _. split; [reflexivity|]. done.
Qed.

(** The entry a key has in the session table is of the tunnel its first part names. *)
Lemma session_tunnel m lip pip tid sid ti si :
  l2tp_ok m → lm_tunnel_table m !! l2tpv2_tunnel_key lip pip tid = Some ti →
  lm_session_table m !! l2tpv2_session_key lip pip tid sid = Some si →
  exists s t, lm_sessions m !! si = Some s /\ lm_tunnels m !! ti = Some t /\
    ls_tunnel_index s = ti /\ skey t s = l2tpv2_session_key lip pip tid sid.
Proof.
  intros Hok Ht Hs. destruct (tb_session _ _ _ _ (lo_tables m Hok) _ si Hs) as (s & t & Hs' & Ht' & Hk).
  exists s, t. assert (ls_tunnel_index s = ti) as <-; [|done].
  pose proof (tb_tunnel_keyed _ _ _ _ (lo_tables m Hok) _ t Ht') as Htt.
  unfold skey, l2tpv2_session_key in Hk. injection Hk as E1 E2 E3 _. unfold tkey in Htt.
  rewrite E1, E2, E3 in Htt. congruence.
Qed.

Lemma add_del_session_ok m si new_hw node a :
  l2tp_ok m → lm_sessions m !! si = None →
  hw_fresh (lm_session_index_by_sw_if_index m) (lm_free_session_hw_if_indices m) new_hw →
  is_u16 (sa_local_session_id a) →
  exists m' rv sw, vnet_l2tpv2_add_del_session m si new_hw node a = Some (m', rv, sw) /\
    l2tp_ok m' /\ (routes_ok m → routes_ok m').
Proof.
  intros Hok Hsi Hfresh Hid. unfold vnet_l2tpv2_add_del_session.
  destruct (lm_tunnel_table m !! _) as [ti|] eqn:Et; [|by eexists _, _, _].
  destruct (tb_tunnel _ _ _ _ (lo_tables m Hok) _ ti Et) as (t & Ht & Hk).
  rewrite Ht. cbn [mbind option_bind]. destruct (sa_is_add a).
  - destruct (add_session m si new_hw node ti a _) as [[m' rv] sw] eqn:Ea.
    exists m', rv, sw. split; [done|]. eapply add_session_ok; try done.
    intros s Hs. unfold tkey, l2tpv2_tunnel_key in Hk. injection Hk as E1 E2 E3.
    unfold skey. by rewrite E1, E2, E3, Hs.
  - destruct (lm_session_table m !! _) as [sj|] eqn:Es; [|by eexists _, _, _].
    destruct (session_tunnel m _ _ _ _ ti sj Hok Et Es) as (s & t' & Hs & Ht' & Hti & Hsk).
    rewrite <- Hsk. destruct (del_session_ok m ti t' sj s Hok Ht' Hs Hti) as (m' & sw & E & ? & ? & _).
    by exists m', RV_OK, sw.
Qed.

(** * Tunnels *)

Lemma add_del_tunnel_ok m ti a :
  l2tp_ok m → lm_tunnels m !! ti = None →
  exists m' rv idx, vnet_l2tpv2_add_del_tunnel m ti a = Some (m', rv, idx) /\
    l2tp_ok m' /\ (routes_ok m → routes_ok m').
Proof.
  intros Hok Hti. unfold vnet_l2tpv2_add_del_tunnel. pose proof (lo_tables m Hok) as Htb.
  destruct (ta_is_add a), (lm_tunnel_table m !! _) as [tj|] eqn:Et; try by eexists _, _, _.
  - eexists _, _, _. split; [done|]. split; [|intros [R1 R2]; by split].
    split; rproj; [|apply Hok..]. by apply (tables_add_tunnel Htb ti (new_tunnel a)).
  - destruct (tb_tunnel _ _ _ _ Htb _ tj Et) as (t & Ht & Hk). rewrite Ht. cbn [mbind option_bind].
    destruct (Z.eqb_spec (tn_ref_count t) 0) as [E|E]; [|by eexists _, _, _].
    eexists _, _, _. split; [done|]. split; [|intros [R1 R2]; by split].
    split; rproj; [|apply Hok..]. rewrite <- Hk. by apply (tables_del_tunnel Htb).
Qed.

(** * Runs *)

Inductive l2tp_op :=
  | OpTunnel (new_idx : Z) (local_ip peer_ip : api_address) (a : vnet_l2tpv2_add_del_tunnel_args_t)
  | OpSession (new_idx new_hw : Z) (local_ip peer_ip : api_address)
      (a : vnet_l2tpv2_add_del_session_args_t)
  | OpIpv4 (sw_if_index addr : Z) (is_add : bool)
  | OpIpv6 (sw_if_index addr : Z) (is_add : bool)
  | OpPrefix (sw_if_index prefix len next_hop : Z) (is_add : bool).

Definition l2tp_exec (node : Z) (m : l2tpv2_main_t) (op : l2tp_op)
    : option (l2tpv2_main_t * vnet_rv) :=
  match op with
  | OpTunnel i l p a => fst <$> vl_api_l2tpv2_add_del_tunnel_t_handler m i l p a
  | OpSession i hw l p a => fst <$> vl_api_l2tpv2_add_del_session_t_handler m i hw node l p a
  | OpIpv4 sw addr is_add => vl_api_l2tpv2_set_session_ipv4_t_handler m sw addr is_add
  | OpIpv6 sw addr is_add => vl_api_l2tpv2_set_session_ipv6_t_handler m sw addr is_add
  | OpPrefix sw p len nh is_add =>
      vl_api_l2tpv2_set_delegated_prefix_t_handler m sw p len nh is_add
  end.

(** What VPP hands out is not in use. *)
Definition op_fresh (m : l2tpv2_main_t) (op : l2tp_op) : Prop :=
  match op with
  | OpTunnel i _ _ _ => lm_tunnels m !! i = None
  | OpSession i hw _ _ _ =>
      lm_sessions m !! i = None /\
      hw_fresh (lm_session_index_by_sw_if_index m) (lm_free_session_hw_if_indices m) hw
  | _ => True
  end.

(** A binding is removed by its own value; a delegated prefix is neither everything nor
    a single address. *)
Definition op_faithful (m : l2tpv2_main_t) (op : l2tp_op) : Prop :=
  match op with
  | OpTunnel _ _ _ _ | OpSession _ _ _ _ _ => True
  | OpIpv4 sw addr is_add =>
      ∀ si s, lm_session_index_by_sw_if_index m !! clib_net_to_host_u32 sw = Some si →
        lm_sessions m !! si = Some s →
        is_add = false → ls_ipv4_bound s = true → ls_client_ipv4 s = addr
  | OpIpv6 sw addr is_add =>
      ∀ si s, lm_session_index_by_sw_if_index m !! clib_net_to_host_u32 sw = Some si →
        lm_sessions m !! si = Some s →
        is_add = false → ls_ipv6_bound s = true → ls_client_ipv6 s = addr
  | OpPrefix sw prefix len _ is_add =>
      ∀ si s, lm_session_index_by_sw_if_index m !! clib_net_to_host_u32 sw = Some si →
        lm_sessions m !! si = Some s →
        if is_add then len ≠ 0 /\ len ≠ 128
        else ls_delegated_prefix_len s ≠ 0 →
             ls_delegated_prefix s = prefix /\ ls_delegated_prefix_len s = len
  end.

Lemma l2tp_exec_ok node m op :
  l2tp_ok m → op_fresh m op →
  exists m' rv, l2tp_exec node m op = Some (m', rv) /\ l2tp_ok m' /\
    (op_faithful m op → routes_ok m → routes_ok m').
Proof.
  intros Hok Hf. destruct op; simpl in *.
  - unfold vl_api_l2tpv2_add_del_tunnel_t_handler. destruct (_ || _); [by eexists _, _|].
    edestruct (add_del_tunnel_ok m) as (m' & rv & idx & -> & ? & ?); [done|exact Hf|].
    eexists _, _. split; [reflexivity|]. auto.
  - unfold vl_api_l2tpv2_add_del_session_t_handler. destruct (_ || _); [by eexists _, _|].
    edestruct (add_del_session_ok m) as (m' & rv & sw & -> & ? & ?);
      [done|apply Hf|apply Hf|apply swap16_range|]. eexists _, _. split; [reflexivity|]. auto.
  - apply set_ipv4_ok, Hok.
  - apply set_ipv6_ok, Hok.
  - apply set_prefix_ok, Hok.
Qed.

(** The runs of the plugin; [true] when every call was faithful. *)
Inductive l2tp_run (node : Z) (m0 : l2tpv2_main_t) : bool → l2tpv2_main_t → Prop :=
  | run_init : l2tp_run node m0 true m0
  | run_op f m op m' rv (g : bool) :
      l2tp_run node m0 f m → op_fresh m op → (g = true → op_faithful m op) →
      l2tp_exec node m op = Some (m', rv) → l2tp_run node m0 (f && g) m'.

Lemma l2tp_init_ok node name :
  l2tp_ok (l2tpv2_init node name) /\ routes_ok (l2tpv2_init node name).
Proof.
  split; split; unfold l2tpv2_init; simpl; try done.
  - split; simpl; try done. apply NoDup_nil_2.
  - intros w. rewrite lookup_empty. split; [set_solver|by intros []].
  - intros r. split; [set_solver|]. by intros (i & s & Hi & _).
Qed.

Lemma l2tp_run_ok node name f m :
  l2tp_run node (l2tpv2_init node name) f m → l2tp_ok m /\ (f = true → routes_ok m).
Proof.
  destruct (l2tp_init_ok node name) as [Hi Hr].
  induction 1 as [|f m op m' rv g _ [Hok Hro] Hf Hg Hex]; [done|].
  destruct (l2tp_exec_ok node m op Hok Hf) as (m1 & rv1 & E & Hok1 & Hr1).
  rewrite Hex in E. injection E as <- <-. split; [done|].
  intros [-> ->]%andb_true_iff. auto.
Qed.

End Run.
