(* ===== verification/L2tpNodes.v ===== *)
(** The L2TPv2 packet path: [plugins/l2tpv2/l2tpv2_input.c], [l2tpv2_output.c],
    [l2tpv2_encap_raw.c] and the adjacency update of [l2tpv2.c].

    A node's step takes the tables, which it only reads, and one buffer to the buffer,
    where it goes and the error it is counted under.  [None] is an access to a freed
    pool entry. *)

From S2P Require Import Prelude Packet Access L2tpSession.

#[local] Open Scope Z_scope.

Definition L2TP_FLAG_BYTE_T : Z := Z.shiftl 1 7.
Definition L2TP_FLAG_BYTE_L : Z := Z.shiftl 1 6.
Definition L2TP_FLAG_BYTE_S : Z := Z.shiftl 1 3.
Definition L2TP_FLAG_BYTE_O : Z := Z.shiftl 1 1.
Definition OSVBNG_PUNT_PROTO_L2TP_LOCAL : Z := 6.
Definition L2TPV2_FLAGS_VER_DATA : Z := 2.
Definition SIZEOF_L2TPV2_DATA_HEADER : Z := 6.
Definition IP_PROTOCOL_UDP : Z := 17.

Inductive l2tpv2_error_t :=
  | L2TPV2_ERROR_DECAPSULATED
  | L2TPV2_ERROR_NO_SUCH_SESSION
  | L2TPV2_ERROR_NO_SUCH_TUNNEL
  | L2TPV2_ERROR_BAD_VER_FLAGS
  | L2TPV2_ERROR_CONTROL_PKT_AT_INPUT
  | L2TPV2_ERROR_TRUNCATED
  | L2TPV2_ERROR_UNKNOWN_PROTOCOL.

(** [NextArc] is an arc added at run time, by its number. *)
Inductive l2tpv2_input_next_t :=
  | L2TPV2_INPUT_NEXT_DROP
  | L2TPV2_INPUT_NEXT_IP4_INPUT
  | L2TPV2_INPUT_NEXT_IP6_INPUT
  | L2TPV2_INPUT_NEXT_PUNT
  | NextArc (arc : Z).

Inductive l2tpv2_encap_raw_next_t :=
  | L2TPV2_ENCAP_RAW_NEXT_DROP
  | L2TPV2_ENCAP_RAW_NEXT_IP4_LOOKUP.

Definition has_flag (byte flag : Z) : bool := negb (Z.land byte flag =? 0).

Definition l2tpv2_header_len (d : Z → Z) (p : Z) : Z :=
  let len := 6 in
  let flags := d p in
  let len := if has_flag flags L2TP_FLAG_BYTE_L then len + 2 else len in
  let len := if has_flag flags L2TP_FLAG_BYTE_S then len + 4 else len in
  if has_flag flags L2TP_FLAG_BYTE_O
  then len + 2 + clib_net_to_host_u16 (ld16 d (p + len)) else len.

(** * Headers *)

(** Struct [ip4_header_t] as both encapsulations fill it, but for the checksum. *)
Definition ip4_header (t : l2tpv2_tunnel_t) (length : Z) : list Z :=
  [69; 0] ++ be16 length ++ be16 0 ++ be16 (if tn_df_bit t =? 0 then 0 else 16384) ++
  [64; IP_PROTOCOL_UDP] ++ be16 0 ++ le32 (tn_local_ip t) ++ le32 (tn_peer_ip t).
Definition udp_header (t : l2tpv2_tunnel_t) (length : Z) : list Z :=
  be16 (tn_local_udp_port t) ++ be16 (tn_peer_udp_port t) ++ be16 length ++ be16 0.
Definition l2tpv2_data_header (t : l2tpv2_tunnel_t) (s : l2tpv2_session_t) : list Z :=
  be16 L2TPV2_FLAGS_VER_DATA ++ be16 (tn_peer_tunnel_id t) ++ be16 (ls_peer_session_id s).
(** The PPP address and control bytes. *)
Definition ppp_prefix (s : l2tpv2_session_t) : list Z :=
  if ls_ppp_hdr_skip s =? 2 then [255; 3] else [].

Section Nodes.

Context `{VlibVpp}.

(** * Input *)

(** The frame goes back to its Ethernet header and to the control plane. *)
Definition punt_frame (m : l2tpv2_main_t) (b : vlib_buffer_t)
    : vlib_buffer_t * l2tpv2_input_next_t :=
  let rewind := SIZEOF_UDP_HEADER + SIZEOF_IP4_HEADER + SIZEOF_ETHERNET +
    (if b_vlan_2_deep b then 2 * SIZEOF_VLAN
     else if b_vlan_1_deep b then SIZEOF_VLAN else 0) in
  let b := vlib_buffer_advance (- rewind) b in
  match lm_punt_shm_tx_next_arc m with
  | None => (b, L2TPV2_INPUT_NEXT_DROP)
  | Some arc => (b⟪b_opaque2_1 := OSVBNG_PUNT_PROTO_L2TP_LOCAL⟫, NextArc arc)
  end.

(** The key of a data packet: its identifiers, whose place only the L bit moves, and the
    addresses of the IPv4 header behind. *)
Definition packet_key (d : Z → Z) (hdr : Z) : l2tpv2_session_key_t :=
  let idoff := 2 + (if has_flag (d hdr) L2TP_FLAG_BYTE_L then 2 else 0) in
  let ip4 := hdr - (SIZEOF_UDP_HEADER + SIZEOF_IP4_HEADER) in
  l2tpv2_session_key (ld32 d (ip4 + 16)) (ld32 d (ip4 + 12))
    (clib_net_to_host_u16 (ld16 d (hdr + idoff)))
    (clib_net_to_host_u16 (ld16 d (hdr + idoff + 2))).

(** The packet of a session: [l2tp_len] is the header's length, checked. *)
Definition session_input (m : l2tpv2_main_t) (b : vlib_buffer_t) (l2tp_len : Z)
    (s : l2tpv2_session_t) : vlib_buffer_t * l2tpv2_input_next_t * option l2tpv2_error_t :=
  let ppp_off := l2tp_len + ls_ppp_hdr_skip s in
  if b_current_length b <? ppp_off + 2
  then (b, L2TPV2_INPUT_NEXT_DROP, Some L2TPV2_ERROR_TRUNCATED)
  else
    let ppp_proto := clib_net_to_host_u16 (ld16 (b_data b) (b_current_data b + ppp_off)) in
    if ls_decap_mode s =? L2TPV2_DECAP_IP then
      let deliver := (vlib_buffer_advance (ppp_off + 2) b)⟪b_rx := default NONE (ls_sw_if_index s)⟫ in
      if ppp_proto =? PPP_PROTOCOL_IP4 then (deliver, L2TPV2_INPUT_NEXT_IP4_INPUT, None)
      else if ppp_proto =? PPP_PROTOCOL_IP6 then (deliver, L2TPV2_INPUT_NEXT_IP6_INPUT, None)
      else (punt_frame m b, None)
    else
      let b := (vlib_buffer_advance l2tp_len b)⟪b_opaque2_0 := ls_raw_opaque s⟫ in
      match ls_raw_next_arc s with
      | None => (b, L2TPV2_INPUT_NEXT_DROP, Some L2TPV2_ERROR_NO_SUCH_SESSION)
      | Some arc => (b, NextArc arc, None)
      end.

Definition l2tpv2_input_node (m : l2tpv2_main_t) (b : vlib_buffer_t)
    : option (vlib_buffer_t * l2tpv2_input_next_t * option l2tpv2_error_t) :=
  let drop e := Some (b, L2TPV2_INPUT_NEXT_DROP, Some e) in
  let d := b_data b in
  let hdr := b_current_data b in
  if b_current_length b <? 6 then drop L2TPV2_ERROR_TRUNCATED
  else if has_flag (d hdr) L2TP_FLAG_BYTE_T then Some (punt_frame m b, None)
  else if negb (Z.land (d (hdr + 1)) 15 =? 2) then drop L2TPV2_ERROR_UNKNOWN_PROTOCOL
  else
    let l2tp_len := l2tpv2_header_len d hdr in
    if b_current_length b <? l2tp_len + 2 then drop L2TPV2_ERROR_TRUNCATED
    else
      match lm_session_table m !! packet_key d hdr with
      | None => drop L2TPV2_ERROR_NO_SUCH_SESSION
      | Some session_index =>
          s ← lm_sessions m !! session_index;
          Some (session_input m b l2tp_len s)
      end.

(** * Output *)

(** The midchain rewrite of a session's interface; [ip6] is the link type.  The inner
    [None] is the null pointer. *)
Definition l2tpv2_build_rewrite (m : l2tpv2_main_t) (sw_if_index : Z) (ip6 : bool)
    : option (option (list Z)) :=
  match lm_session_index_by_sw_if_index m !! sw_if_index with
  | None => Some None
  | Some sess_index =>
      s ← lm_sessions m !! sess_index;
      t ← lm_tunnels m !! ls_tunnel_index s;
      let ppp_proto := if ip6 then PPP_PROTOCOL_IP6 else PPP_PROTOCOL_IP4 in
      Some (Some (ip4_header t 0 ++ udp_header t 0 ++ l2tpv2_data_header t s ++ ppp_prefix s ++
                  be16 ppp_proto))
  end.

(** After the rewrite has been put in front of a packet: lengths and checksum. *)
Definition l2tpv2_fixup (b : vlib_buffer_t) : vlib_buffer_t :=
  let packet_len := u16 (vlib_buffer_length_in_chain b) in
  let ip0 := b_current_data b in
  let d := put (b_data b) (ip0 + 2) (be16 packet_len) in
  let d := st16 d (ip0 + 10) (ip4_header_checksum d ip0) in
  b⟪b_data := put d (ip0 + SIZEOF_IP4_HEADER + 4) (be16 (u16 (packet_len - SIZEOF_IP4_HEADER)))⟫.

(** All that encap-raw writes, from the IPv4 header at [ip] on. *)
Definition write_encap (d : Z → Z) (ip : Z) (t : l2tpv2_tunnel_t) (s : l2tpv2_session_t)
    (packet_len : Z) : Z → Z :=
  let udp := ip + SIZEOF_IP4_HEADER in
  let l2tp := udp + SIZEOF_UDP_HEADER in
  let d := put d (l2tp + SIZEOF_L2TPV2_DATA_HEADER) (ppp_prefix s) in
  let d := put d ip (ip4_header t packet_len) in
  let d := st16 d (ip + 10) (ip4_header_checksum d ip) in
  let d := put d udp (udp_header t (u16 (packet_len - SIZEOF_IP4_HEADER))) in
  put d l2tp (l2tpv2_data_header t s).

Definition l2tpv2_encap_raw_node (m : l2tpv2_main_t) (b : vlib_buffer_t)
    : option (vlib_buffer_t * l2tpv2_encap_raw_next_t * option l2tpv2_error_t) :=
  let session_index := b_opaque2_0 b in
  let drop e := Some (b, L2TPV2_ENCAP_RAW_NEXT_DROP, Some e) in
  if session_index =? NONE then drop L2TPV2_ERROR_NO_SUCH_SESSION
  else
    match lm_sessions m !! session_index with
    | None => drop L2TPV2_ERROR_NO_SUCH_SESSION
    | Some s =>
        t ← lm_tunnels m !! ls_tunnel_index s;
        let encap_len := SIZEOF_IP4_HEADER + SIZEOF_UDP_HEADER + SIZEOF_L2TPV2_DATA_HEADER +
                         ls_ppp_hdr_skip s in
        if b_current_data b - encap_len <? - VLIB_BUFFER_PRE_DATA_SIZE
        then drop L2TPV2_ERROR_TRUNCATED
        else
          let b := vlib_buffer_advance (- encap_len) b in
          let packet_len := u16 (vlib_buffer_length_in_chain b) in
          let d := write_encap (b_data b) (b_current_data b) t s packet_len in
          Some (b⟪b_data := d⟫⟪b_tx := tn_encap_fib_index t⟫,
                L2TPV2_ENCAP_RAW_NEXT_IP4_LOOKUP, None)
    end.

(** * Adjacencies *)

(** [lookup] finds the FIB entry of a peer in a table.  The first part of the result is
    the rewrite that is installed, when one is. *)
Definition l2tpv2_update_adj (lookup : Z → Z → option Z) (m : l2tpv2_main_t) (sw_if_index : Z)
    (ip6 : bool) (kind : adj_kind) : option (option (option (list Z)) * adj_stack) :=
  session_index ← lm_session_index_by_sw_if_index m !! sw_if_index;
  sess ← lm_sessions m !! session_index;
  tunnel ← lm_tunnels m !! ls_tunnel_index sess;
  rewrite ← match kind with
            | AdjNeighbour | AdjMcast => Some <$> l2tpv2_build_rewrite m sw_if_index ip6
            | AdjOther => Some None
            end;
  Some (rewrite,
        match ls_encap_if_index sess with
        | Some w => StackInterfaceTx w
        | None =>
            match lookup (tn_encap_fib_index tunnel) (tn_peer_ip tunnel) with
            | None => Unstacked
            | Some fei => StackFibEntry fei
            end
        end).

End Nodes.
