(* ===== verification/L2tpPackets.v ===== *)
(** What the L2TPv2 packet path does to a packet.

    [l2tp_wire] is the data header of RFC 2661 with its optional fields; the input node
    finds in any such packet its session and its payload, and looks at no byte that is
    not the packet's.  Both encapsulations write the same headers, which are valid, and
    the other end's input node undoes them. *)

From S2P Require Import Prelude Packet Access L2tpSession L2tpInv L2tpNodes.

#[local] Open Scope Z_scope.

(** * The header on the wire *)

(** [dh_off] is the padding an Offset Size announces. *)
Record l2tp_data := mkData {
  dh_length : option Z;
  dh_sequence : option (Z * Z);
  dh_offset : option (list Z);
  dh_priority : bool;
  dh_reserved : Z;
  dh_tunnel_id : Z;
  dh_session_id : Z
}.

Definition dh_flags (h : l2tp_data) : Z :=
  (if dh_length h then 64 else 0) + (if dh_sequence h then 8 else 0) +
  (if dh_offset h then 2 else 0) + (if dh_priority h then 1 else 0).

Definition l2tp_wire (h : l2tp_data) : list Z :=
  [dh_flags h; dh_reserved h * 16 + 2] ++
  from_option be16 [] (dh_length h) ++
  (be16 (dh_tunnel_id h) ++ be16 (dh_session_id h)) ++
  from_option (λ '(ns, nr), be16 ns ++ be16 nr) [] (dh_sequence h) ++
  from_option (λ pad, be16 (Z.of_nat (length pad)) ++ pad) [] (dh_offset h).

Definition dh_wf (h : l2tp_data) : Prop :=
  is_u16 (dh_tunnel_id h) /\ is_u16 (dh_session_id h) /\ 0 <= dh_reserved h < 16 /\
  match dh_offset h with Some pad => Z.of_nat (length pad) < 2 ^ 16 | None => True end.

Lemma wire_flags h :
  has_flag (dh_flags h) L2TP_FLAG_BYTE_T = false /\
  has_flag (dh_flags h) L2TP_FLAG_BYTE_L = (if dh_length h then true else false) /\
  has_flag (dh_flags h) L2TP_FLAG_BYTE_S = (if dh_sequence h then true else false) /\
  has_flag (dh_flags h) L2TP_FLAG_BYTE_O = (if dh_offset h then true else false).
Proof.
  unfold dh_flags.
  destruct (dh_length h), (dh_sequence h), (dh_offset h), (dh_priority h); by vm_compute.
Qed.

Lemma wire_header_len d p h :
  dh_wf h → lies d p (l2tp_wire h) → l2tpv2_header_len d p = Z.of_nat (length (l2tp_wire h)).
Proof.
  intros (_ & _ & _ & Hpad) Hw. destruct (wire_flags h) as (_ & HL & HS & HO).
  unfold l2tp_wire in Hw. cbn [app] in Hw. rewrite lies_cons in Hw. destruct Hw as [Hf Hw].
  rewrite lies_cons in Hw. destruct Hw as [_ Hw]. rewrite !lies_app in Hw.
  destruct Hw as (_ & _ & _ & Ho).
  unfold l2tpv2_header_len. rewrite Hf, HL, HS, HO. clear HL HS HO Hf.
  unfold l2tp_wire. rewrite !length_app. cbn [length be16].
  destruct (dh_offset h) as [pad|]; cbn [from_option] in *.
  - rewrite lies_app in Ho. destruct Ho as [Ho _].
    rewrite length_app, be16_length.
    destruct (dh_length h), (dh_sequence h) as [[ns nr]|];
      (rewrite (load_be16_at _ _ _ _ Ho); [simpl; lia|simpl; lia|unfold is_u16; lia]).
  - destruct (dh_length h), (dh_sequence h) as [[ns nr]|]; done.
Qed.

Lemma wire_key d p h local peer :
  dh_wf h → lies d p (l2tp_wire h) → is_u32 local → is_u32 peer →
  lies d (p - 16) (le32 peer) → lies d (p - 12) (le32 local) →
  packet_key d p = l2tpv2_session_key local peer (dh_tunnel_id h) (dh_session_id h).
Proof.
  intros (Ht & Hs & _ & _) Hw Hl Hp Hpeer Hlocal. destruct (wire_flags h) as (_ & HL & _ & _).
  unfold l2tp_wire in Hw. cbn [app] in Hw. rewrite lies_cons in Hw. destruct Hw as [Hf Hw].
  rewrite lies_cons in Hw. destruct Hw as [_ Hw]. rewrite lies_app in Hw. destruct Hw as [_ Hw].
  rewrite lies_app, lies_app in Hw. destruct Hw as [[Htid Hsid] _].
  unfold packet_key, SIZEOF_UDP_HEADER, SIZEOF_IP4_HEADER. cbv zeta. rewrite Hf, HL.
  replace (p - (8 + 20) + 16) with (p - 12) by lia.
  replace (p - (8 + 20) + 12) with (p - 16) by lia.
  rewrite (load_le32 _ _ _ Hlocal Hl), (load_le32 _ _ _ Hpeer Hp).
  unfold l2tpv2_session_key. f_equal; [f_equal|].
  - apply (load_be16_at _ _ _ _ Htid); [|done]. destruct (dh_length h); simpl; lia.
  - apply (load_be16_at _ _ _ _ Hsid); [|done]. destruct (dh_length h); simpl; lia.
Qed.

(** * Input *)

(** A data packet as UDP hands it over: the buffer is at the L2TP header, which [frame]
    follows, and the addresses are behind. *)
Record on_wire (b : vlib_buffer_t) (local peer : Z) (h : l2tp_data) (frame : list Z) : Prop := {
  ow_buf : buf_ok b;
  ow_end : b_current_data b + b_current_length b < 2 ^ 15;
  ow_header : dh_wf h;
  ow_ips : is_u32 local /\ is_u32 peer;
  ow_peer : lies (b_data b) (b_current_data b - 16) (le32 peer);
  ow_local : lies (b_data b) (b_current_data b - 12) (le32 local);
  ow_contents : contents b = l2tp_wire h ++ frame
}.

Lemma wire_length h : (6 <= length (l2tp_wire h))%nat.
Proof. unfold l2tp_wire. rewrite !length_app. simpl. lia. Qed.

Lemma on_wire_lies b local peer h frame :
  on_wire b local peer h frame →
  b_current_length b = Z.of_nat (length (l2tp_wire h)) + Z.of_nat (length frame) /\
  lies (b_data b) (b_current_data b) (l2tp_wire h) /\
  lies (b_data b) (b_current_data b + Z.of_nat (length (l2tp_wire h))) frame.
Proof.
  intros Hw. destruct (ow_buf _ _ _ _ _ Hw) as (_ & Hl & _).
  pose proof (ow_contents _ _ _ _ _ Hw) as Hc.
  apply contents_lies in Hc as [Hlen Hc]; [|lia]. rewrite length_app in Hlen.
  apply lies_app in Hc as [? ?]. split; [lia|done].
Qed.

(** The length of the header and the key are found, whatever fields it has. *)
Lemma input_on_wire `{VlibVpp} m b local peer h frame :
  on_wire b local peer h frame → (2 <= length frame)%nat →
  l2tpv2_input_node m b =
  match lm_session_table m !! l2tpv2_session_key local peer (dh_tunnel_id h) (dh_session_id h) with
  | None => Some (b, L2TPV2_INPUT_NEXT_DROP, Some L2TPV2_ERROR_NO_SUCH_SESSION)
  | Some si =>
      s ← lm_sessions m !! si; Some (session_input m b (Z.of_nat (length (l2tp_wire h))) s)
  end.
Proof.
  intros Hw Hfr. destruct (on_wire_lies _ _ _ _ _ Hw) as (Hlen & Hh & _).
  pose proof (wire_length h) as H6. unfold l2tpv2_input_node. cbv zeta.
  rewrite (wire_header_len _ _ h (ow_header _ _ _ _ _ Hw) Hh).
  rewrite (wire_key _ _ h local peer (ow_header _ _ _ _ _ Hw) Hh (proj1 (ow_ips _ _ _ _ _ Hw))
    (proj2 (ow_ips _ _ _ _ _ Hw)) (ow_peer _ _ _ _ _ Hw) (ow_local _ _ _ _ _ Hw)).
  rewrite (proj2 (Z.ltb_ge _ _)) by lia.
  unfold l2tp_wire in Hh. cbn [app] in Hh. rewrite lies_cons, lies_cons in Hh.
  destruct Hh as (-> & -> & _). rewrite (proj1 (wire_flags h)).
  assert (Z.land (dh_reserved h * 16 + 2) 15 = 2) as ->.
  { change 15 with (2 ^ 4 - 1). rewrite land_ones_mod by lia.
    rewrite Z.add_comm, Z.mod_add by lia. done. }
  cbn [negb Z.eqb Pos.eqb]. by rewrite (proj2 (Z.ltb_ge _ _)) by lia.
Qed.

Section Input.

Context `{VlibVppLaws}.

(** What [session_input] does with a frame: an optional PPP prefix, the protocol, the
    payload. *)
Lemma session_input_on_wire m b local peer h pre proto payload s :
  on_wire b local peer h (pre ++ be16 proto ++ payload) → is_u16 proto →
  ls_ppp_hdr_skip s = Z.of_nat (length pre) →
  let n := Z.of_nat (length (l2tp_wire h)) in
  let '(b', next, err) := session_input m b n s in
  if ls_decap_mode s =? L2TPV2_DECAP_IP then
    err = None /\
    if (proto =? PPP_PROTOCOL_IP4) || (proto =? PPP_PROTOCOL_IP6) then
      next = (if proto =? PPP_PROTOCOL_IP4 then L2TPV2_INPUT_NEXT_IP4_INPUT
              else L2TPV2_INPUT_NEXT_IP6_INPUT) /\
      contents b' = payload /\ b_rx b' = default NONE (ls_sw_if_index s)
    else (b', next) = punt_frame m b
  else
    contents b' = pre ++ be16 proto ++ payload /\ b_opaque2_0 b' = ls_raw_opaque s /\
    match ls_raw_next_arc s with
    | Some arc => next = NextArc arc /\ err = None
    | None => next = L2TPV2_INPUT_NEXT_DROP
    end.
Proof.
  intros Hw Hproto Hskip. cbv zeta. destruct (on_wire_lies _ _ _ _ _ Hw) as (Hlen & _ & Hf).
  destruct (ow_buf _ _ _ _ _ Hw) as (_ & Hl & Hc). pose proof (ow_end _ _ _ _ _ Hw) as Hend.
  pose proof (ow_contents _ _ _ _ _ Hw) as Hcont.
  rewrite !length_app, be16_length in Hlen. rewrite lies_app, lies_app in Hf.
  destruct Hf as (_ & Hp & _).
  assert (∀ k l r, contents b = l ++ r → k = Z.of_nat (length l) →
    contents (vlib_buffer_advance k b) = r) as Hadv.
  { intros k l r. apply contents_skip; lia. }
  unfold session_input. rewrite Hskip. rewrite (proj2 (Z.ltb_ge _ _)) by lia.
  rewrite (load_be16_at _ _ _ proto Hp) by (done || lia).
  destruct (ls_decap_mode s =? L2TPV2_DECAP_IP).
  - assert (contents (vlib_buffer_advance
      (Z.of_nat (length (l2tp_wire h)) + Z.of_nat (length pre) + 2) b) = payload) as Hpay.
    { apply (Hadv _ (l2tp_wire h ++ pre ++ be16 proto)); [by rewrite Hcont, <- !app_assoc|].
      rewrite !length_app, be16_length. lia. }
    destruct (proto =? PPP_PROTOCOL_IP4); [done|]. destruct (proto =? PPP_PROTOCOL_IP6); [done|].
    by destruct (punt_frame m b).
  - assert (contents (vlib_buffer_advance (Z.of_nat (length (l2tp_wire h))) b) =
      pre ++ be16 proto ++ payload) as Hfr by by apply (Hadv _ (l2tp_wire h)).
    by destruct (ls_raw_next_arc s).
Qed.

End Input.

(** * Output *)

(** An IPv4 header with checksum [c], and all that goes in front of a PPP frame. *)
Definition ip4_header_sum (t : l2tpv2_tunnel_t) (len c : Z) : list Z :=
  take 10 (ip4_header t len) ++ [u8 c; u8 (Z.shiftr c 8)] ++ drop 12 (ip4_header t len).
Definition encap_string (t : l2tpv2_tunnel_t) (s : l2tpv2_session_t) (len c : Z) : list Z :=
  ip4_header_sum t len c ++ udp_header t (len - 20) ++ l2tpv2_data_header t s ++ ppp_prefix s.

(** The prefix configured is the prefix written. *)
Lemma ppp_prefix_length s : skip_ok s → Z.of_nat (length (ppp_prefix s)) = ls_ppp_hdr_skip s.
Proof. unfold ppp_prefix. by intros [-> | ->]. Qed.

Lemma ip4_header_bytes t len : Forall (λ x, 0 <= x < 256) (ip4_header t len).
Proof.
  unfold ip4_header. repeat apply Forall_app_2; auto using be16_bytes, le32_bytes;
    by repeat constructor.
Qed.

Lemma udp_header_bytes t len : Forall (λ x, 0 <= x < 256) (udp_header t len).
Proof. unfold udp_header. repeat apply Forall_app_2; apply be16_bytes. Qed.

Lemma data_header_bytes t s : Forall (λ x, 0 <= x < 256) (l2tpv2_data_header t s).
Proof. unfold l2tpv2_data_header. repeat apply Forall_app_2; apply be16_bytes. Qed.

Lemma ppp_prefix_bytes s : Forall (λ x, 0 <= x < 256) (ppp_prefix s).
Proof. unfold ppp_prefix. destruct (_ =? _); by repeat constructor. Qed.

#[local] Hint Resolve be16_bytes ip4_header_bytes udp_header_bytes data_header_bytes
  ppp_prefix_bytes : bng.

Lemma lies_st16_out d o v o' l :
  o' + Z.of_nat (length l) <= o \/ o + 2 <= o' → lies (st16 d o v) o' l <-> lies d o' l.
Proof.
  intros Ho. rewrite (lies_ext _ (put d o [u8 v; u8 (Z.shiftr v 8)])).
  - apply lies_put_out. simpl. lia.
  - intros. apply st16_put.
Qed.

Lemma lies_st16 d o v : lies (st16 d o v) o [u8 v; u8 (Z.shiftr v 8)].
Proof.
  rewrite (lies_ext _ (put d o [u8 v; u8 (Z.shiftr v 8)])); [apply lies_put|].
  intros. apply st16_put.
Qed.

(** Writing the checksum into a header that is in memory. *)
Lemma lies_checksum d ip t len c :
  lies d ip (ip4_header t len) → lies (st16 d (ip + 10) c) ip (ip4_header_sum t len c).
Proof.
  intros Hd. unfold ip4_header_sum.
  rewrite <- (take_drop 12 (ip4_header t len)) in Hd.
  change (take 12 (ip4_header t len)) with (take 10 (ip4_header t len) ++ [0; 0]) in Hd.
  rewrite <- app_assoc in Hd. apply lies_app in Hd as [H1 H2]. apply lies_app in H2 as [_ H2].
  apply lies_app. split; [|apply lies_app; split].
  - apply lies_st16_out; [simpl; lia|exact H1].
  - apply lies_st16.
  - apply lies_st16_out; [simpl; lia|exact H2].
Qed.

Section Output.

Context `{VlibVppLaws}.

(** A checked header is what is written in place of the rewrite's. *)
Lemma checksum_header d ip t len :
  (∀ p, 0 <= d p < 256) → lies d ip (ip4_header t len) →
  wsum (st16 d (ip + 10) (ip4_header_checksum d ip)) ip 10 mod 65535 = 0.
Proof.
  intros Hb Hd. apply checksum_ok; [done|]. unfold ip4_header in Hd. cbn [app] in Hd.
  by apply lies_cons in Hd as [? _].
Qed.

(** The checksum of a header is that of its bytes. *)
Definition header_sum (ip : Z) (t : l2tpv2_tunnel_t) (len : Z) : Z :=
  ip4_header_checksum (put (λ _, 0) ip (ip4_header t len)) ip.

Lemma header_sum_eq d ip t len :
  lies d ip (ip4_header t len) → ip4_header_checksum d ip = header_sum ip t len.
Proof.
  intros Hd. unfold header_sum. apply checksum_local.
  - unfold ip4_header in Hd. cbn [app] in Hd. by apply lies_cons in Hd as [? _].
  - intros p Hp. pose proof (lies_put (λ _, 0) ip (ip4_header t len)) as Hp'.
    rewrite lies_nth in Hd, Hp'. replace p with (ip + Z.of_nat (Z.to_nat (p - ip))) by lia.
    assert (Z.to_nat (p - ip) < length (ip4_header t len))%nat by (change (length (ip4_header t len)) with 20%nat; lia).
    by rewrite Hd, Hp'.
Qed.

(** A buffer after encapsulation: headers, checksum and what has not changed. *)
Record encapsulated (t : l2tpv2_tunnel_t) (s : l2tpv2_session_t) (frame : list Z)
    (b b' : vlib_buffer_t) : Prop := {
  ec_contents :
    let len := b_current_length b' + b_rest_length b' in
    contents b' = encap_string t s len (header_sum (b_current_data b') t len) ++ frame;
  ec_checksum : wsum (b_data b') (b_current_data b') 10 mod 65535 = 0;
  ec_current : b_current_data b' + b_current_length b' = b_current_data b + b_current_length b;
  ec_rest : b_rest_length b' = b_rest_length b;
  ec_buf : buf_ok b'
}.

Definition encap_len (s : l2tpv2_session_t) : Z := 34 + ls_ppp_hdr_skip s.

(** The bytes and the checksum that are written. *)
Lemma write_encap_ok d ip t s len frame :
  (∀ p, 0 <= d p < 256) → skip_ok s → 20 <= len < 2 ^ 16 → lies d (ip + encap_len s) frame →
  let d' := write_encap d ip t s len in
  lies d' ip (encap_string t s len (header_sum ip t len) ++ frame) /\
  wsum d' ip 10 mod 65535 = 0 /\ (∀ p, 0 <= d' p < 256).
Proof.
  intros Hb Hskip Hlen Hf. pose proof (ppp_prefix_length s Hskip) as Hpl. unfold encap_len in Hf.
  unfold write_encap, SIZEOF_IP4_HEADER, SIZEOF_UDP_HEADER, SIZEOF_L2TPV2_DATA_HEADER. cbv zeta.
  replace (u16 (len - 20)) with (len - 20) by (unfold u16; ints).
  set (d1 := put d (ip + 20 + 8 + 6) (ppp_prefix s)).
  set (d2 := put d1 ip (ip4_header t len)).
  set (d3 := st16 d2 (ip + 10) (ip4_header_checksum d2 ip)).
  assert (lies d2 ip (ip4_header t len)) as Hd2 by apply lies_put.
  assert (∀ p, 0 <= d2 p < 256) as Hb2.
  { apply put_bytes; [apply put_bytes|]; auto with bng. }
  assert (length (ip4_header_sum t len (ip4_header_checksum d2 ip)) = 20%nat) as Hl1 by done.
  assert (length (udp_header t (len - 20)) = 8%nat) as Hl2 by done.
  assert (length (l2tpv2_data_header t s) = 6%nat) as Hl3 by done.
  split_and!.
  - rewrite <- (header_sum_eq d2) by done. unfold encap_string.
    rewrite <- !app_assoc, !lies_app, Hl1, Hl2, Hl3. split_and!.
    + rewrite !lies_put_out by lia. by apply lies_checksum.
    + rewrite lies_put_out by lia. apply lies_put.
    + replace (ip + Z.of_nat 20 + Z.of_nat 8) with (ip + 20 + 8) by lia. apply lies_put.
    + replace (ip + Z.of_nat 20 + Z.of_nat 8 + Z.of_nat 6) with (ip + 20 + 8 + 6) by lia.
      rewrite !lies_put_out by lia. unfold d3. rewrite lies_st16_out by lia.
      unfold d2. rewrite lies_put_out by (cbn; lia). apply lies_put.
    + rewrite !lies_put_out by lia. unfold d3. rewrite lies_st16_out by lia.
      unfold d2, d1. rewrite !lies_put_out by (cbn; lia).
      replace (ip + Z.of_nat 20 + Z.of_nat 8 + Z.of_nat 6 + Z.of_nat (length (ppp_prefix s)))
        with (ip + (34 + ls_ppp_hdr_skip s)) by lia. done.
  - rewrite (wsum_frame d3).
    + by apply (checksum_header d2 ip t len).
    + intros p Hp. by rewrite !put_out by lia.
  - apply put_bytes; [apply put_bytes|].
    + intros p. unfold d3. rewrite st16_put. revert p. apply put_bytes; [done|].
      repeat constructor; unfold u8; ints.
    + auto with bng.
    + auto with bng.
Qed.

Lemma encap_raw_ok m b s t :
  buf_ok b → b_opaque2_0 b ≠ NONE → lm_sessions m !! b_opaque2_0 b = Some s →
  lm_tunnels m !! ls_tunnel_index s = Some t → skip_ok s →
  - VLIB_BUFFER_PRE_DATA_SIZE <= b_current_data b - encap_len s →
  0 <= b_rest_length b → b_current_length b + b_rest_length b + encap_len s < 2 ^ 16 →
  exists b', l2tpv2_encap_raw_node m b = Some (b', L2TPV2_ENCAP_RAW_NEXT_IP4_LOOKUP, None) /\
    encapsulated t s (contents b) b b' /\ b_tx b' = tn_encap_fib_index t.
Proof.
  intros (Hb & Hl & Hc) Hn Hs Ht Hskip Hroom Hr Hlen. unfold encap_len in *.
  pose proof pre_data_size as Hpre. pose proof (ppp_prefix_length s Hskip) as Hpl.
  assert (0 <= ls_ppp_hdr_skip s <= 2) as Hs2 by (destruct Hskip as [-> | ->]; lia).
  unfold l2tpv2_encap_raw_node. cbv zeta. rewrite (proj2 (Z.eqb_neq _ _) Hn), Hs.
  cbn [mbind option_bind]. rewrite Ht. cbn [mbind option_bind].
  unfold SIZEOF_IP4_HEADER, SIZEOF_UDP_HEADER, SIZEOF_L2TPV2_DATA_HEADER.
  change (20 + 8 + 6) with 34. rewrite (proj2 (Z.ltb_ge _ _)) by lia.
  eexists. split; [reflexivity|]. split; [|done].
  rewrite advance_eq by lia. rewrite length_in_chain_eq. rproj.
  set (ip := b_current_data b + - (34 + ls_ppp_hdr_skip s)).
  set (n := b_current_length b - - (34 + ls_ppp_hdr_skip s)).
  replace (u16 (n + b_rest_length b)) with (n + b_rest_length b) by (unfold u16, n; ints).
  assert (lies (b_data b) (ip + encap_len s) (contents b)) as Hf.
  { replace (ip + encap_len s) with (b_current_data b) by (unfold ip, encap_len; lia).
    by apply (contents_lies b (contents b)); [lia|]. }
  destruct (write_encap_ok (b_data b) ip t s (n + b_rest_length b) (contents b) Hb Hskip)
    as (Hcont & Hsum & Hby); [unfold n; lia|exact Hf|].
  split; rproj; [|exact Hsum|unfold ip, n; lia|done|split_and!; rproj; [exact Hby|unfold n; lia..]].
  - cbv zeta. apply contents_lies; rproj; [unfold n; lia|]. split; [|exact Hcont].
    unfold encap_string. rewrite !length_app. unfold contents. rewrite bytes_length. cbn [length].
    rewrite !Nat2Z.inj_add, Hpl. unfold n. cbn. lia.
Qed.

End Output.

(** * The tunnel end to end *)

Definition tunnel_wf (t : l2tpv2_tunnel_t) (s : l2tpv2_session_t) : Prop :=
  is_u32 (tn_local_ip t) /\ is_u32 (tn_peer_ip t) /\
  is_u16 (tn_peer_tunnel_id t) /\ is_u16 (ls_peer_session_id s).

(** The plain header, as both encapsulations write it. *)
Definition plain_header (t : l2tpv2_tunnel_t) (s : l2tpv2_session_t) : l2tp_data :=
  mkData None None None false 0 (tn_peer_tunnel_id t) (ls_peer_session_id s).

(** * Bytes that are looked at *)

(** The length of a header that ends within [n] bytes depends on those bytes only. *)
Lemma header_len_local d d' p n :
  2 <= n → (∀ q, p <= q < p + n → d' q = d q) →
  l2tpv2_header_len d' p = l2tpv2_header_len d p \/
  n < l2tpv2_header_len d p /\ n < l2tpv2_header_len d' p.
Proof.
  intros Hn Hd. unfold l2tpv2_header_len. rewrite (Hd p) by lia.
  set (len := if has_flag (d p) L2TP_FLAG_BYTE_S then _ else _).
  assert (6 <= len) by (unfold len; repeat case_match; lia).
  destruct (has_flag (d p) L2TP_FLAG_BYTE_O); [|by left].
  destruct (Z.le_gt_cases (len + 2) n).
  - left. unfold ld16. by rewrite !Hd by lia.
  - right. pose proof (swap16_range (ld16 d (p + len))). pose proof (swap16_range (ld16 d' (p + len))).
    unfold is_u16 in *. lia.
Qed.

Lemma header_len_ge d p : 6 + (if has_flag (d p) L2TP_FLAG_BYTE_L then 2 else 0) <= l2tpv2_header_len d p.
Proof.
  unfold l2tpv2_header_len. cbv zeta. set (o := clib_net_to_host_u16 _).
  assert (0 <= o) by (unfold o; apply swap16_range). repeat case_match; lia.
Qed.

Lemma packet_key_local d d' p n :
  l2tpv2_header_len d p <= n → (∀ q, p - 28 <= q < p + n → d' q = d q) →
  packet_key d' p = packet_key d p.
Proof.
  intros Hn Hd. pose proof (header_len_ge d p) as Hge.
  assert (6 <= n) by (revert Hge; case_match; lia).
  unfold packet_key, SIZEOF_UDP_HEADER, SIZEOF_IP4_HEADER. cbv zeta. rewrite (Hd p) by lia.
  unfold ld32, ld16. destruct (has_flag (d p) L2TP_FLAG_BYTE_L); by rewrite !Hd by lia.
Qed.

Section Tunnel.

Context `{VlibVppLaws}.

(** What encapsulation sends is, past the IPv4 and UDP headers, a packet for the peer's
    input node. *)
Lemma encapsulated_on_wire t s frame b b' :
  encapsulated t s frame b b' → tunnel_wf t s → skip_ok s →
  b_current_data b' + b_current_length b' < 2 ^ 15 →
  on_wire (vlib_buffer_advance 28 b') (tn_peer_ip t) (tn_local_ip t) (plain_header t s)
    (ppp_prefix s ++ frame).
Proof.
  intros [Hc _ _ _ (Hb & Hl & Hd)] (Hlip & Hpip & Htid & Hsid) Hskip Hend.
  cbv zeta in Hc. revert Hc. generalize (header_sum (b_current_data b') t
    (b_current_length b' + b_rest_length b')). intros c Hc.
  apply contents_lies in Hc as [Hlen Hc]; [|lia].
  set (ip := b_current_data b') in *.
  assert (length (encap_string t s (b_current_length b' + b_rest_length b') c) =
    (34 + length (ppp_prefix s))%nat) as He by done.
  rewrite length_app, He in Hlen.
  unfold encap_string, ip4_header_sum in Hc. rewrite <- !app_assoc in Hc.
  change (drop 12 (ip4_header t (b_current_length b' + b_rest_length b')))
    with (le32 (tn_local_ip t) ++ le32 (tn_peer_ip t)) in Hc.
  rewrite <- !app_assoc in Hc. rewrite !lies_app in Hc.
  destruct Hc as (_ & _ & Hl1 & Hl2 & _ & HL & HP & HF).
  rewrite advance_eq by lia. split; rproj.
  - split_and!; rproj; [done|lia..].
  - lia.
  - split_and!; simpl; (done || lia).
  - done.
  - apply (lies_at _ _ _ _ Hl1). cbn. lia.
  - apply (lies_at _ _ _ _ Hl2). cbn. lia.
  - apply contents_lies; rproj; [lia|]. split.
    + rewrite length_app, length_app. simpl length. lia.
    + change (l2tp_wire (plain_header t s)) with
        ([0; 2] ++ [] ++ (be16 (tn_peer_tunnel_id t) ++ be16 (ls_peer_session_id s)) ++ [] ++ []).
      rewrite !app_nil_l, app_nil_r.
      change ([0; 2] ++ be16 (tn_peer_tunnel_id t) ++ be16 (ls_peer_session_id s))
        with (l2tpv2_data_header t s).
      rewrite !lies_app.
      split_and!; [apply (lies_at _ _ _ _ HL)|apply (lies_at _ _ _ _ HP)|apply (lies_at _ _ _ _ HF)];
        cbn; lia.
Qed.

(** C13. A data packet with any of the optional header fields reaches the session whose
    key it bears, and only that one.  A packet for no session is dropped unchanged.  In IP
    mode an IPv4 or IPv6 payload goes to its input node alone in the buffer, received on
    the session's interface, and any other protocol to the control plane; in raw mode
    the whole PPP frame goes to the session's node with the session's opaque value. *)
Theorem l2tp_input_delivers m b local peer h pre proto payload :
  on_wire b local peer h (pre ++ be16 proto ++ payload) → is_u16 proto →
  match lm_session_table m !! l2tpv2_session_key local peer (dh_tunnel_id h) (dh_session_id h) with
  | None =>
      l2tpv2_input_node m b =
        Some (b, L2TPV2_INPUT_NEXT_DROP, Some L2TPV2_ERROR_NO_SUCH_SESSION)
  | Some si => ∀ s,
      lm_sessions m !! si = Some s → ls_ppp_hdr_skip s = Z.of_nat (length pre) →
      exists b' next err, l2tpv2_input_node m b = Some (b', next, err) /\
      if ls_decap_mode s =? L2TPV2_DECAP_IP then
        err = None /\
        if (proto =? PPP_PROTOCOL_IP4) || (proto =? PPP_PROTOCOL_IP6) then
          next = (if proto =? PPP_PROTOCOL_IP4 then L2TPV2_INPUT_NEXT_IP4_INPUT
                  else L2TPV2_INPUT_NEXT_IP6_INPUT) /\
          contents b' = payload /\ b_rx b' = default NONE (ls_sw_if_index s)
        else (b', next) = punt_frame m b
      else
        contents b' = pre ++ be16 proto ++ payload /\ b_opaque2_0 b' = ls_raw_opaque s /\
        match ls_raw_next_arc s with
        | Some arc => next = NextArc arc /\ err = None
        | None => next = L2TPV2_INPUT_NEXT_DROP
        end
  end.
Proof.
  intros Hw Hproto. pose proof (input_on_wire m b local peer h _ Hw) as Hin.
  rewrite Hin by (rewrite !length_app, be16_length; lia).
  destruct (lm_session_table m !! _) as [si|]; [|done].
  intros s Hs Hskip. rewrite Hs. cbn [mbind option_bind].
  pose proof (session_input_on_wire m b local peer h pre proto payload s Hw Hproto Hskip) as Hspec.
  cbv zeta in Hspec. destruct (session_input m b _ s) as [[b' next] err]. by eexists _, _, _.
Qed.

(** C29. A PPP frame that enters the tunnel at one end leaves it at the other as it was,
    but for the address and control prefix both ends are configured with: the packet
    sent has a valid IPv4 header, and a raw session of the peer under the addresses and
    identifiers of the sender's hands the frame on with its own opaque value. *)
Theorem l2tp_encap_decap m b s t m' si' s' proto payload arc :
  buf_ok b → b_opaque2_0 b ≠ NONE → lm_sessions m !! b_opaque2_0 b = Some s →
  lm_tunnels m !! ls_tunnel_index s = Some t → skip_ok s → tunnel_wf t s →
  - VLIB_BUFFER_PRE_DATA_SIZE <= b_current_data b - encap_len s →
  0 <= b_rest_length b → b_current_length b + b_rest_length b + encap_len s < 2 ^ 16 →
  b_current_data b + b_current_length b < 2 ^ 15 →
  contents b = be16 proto ++ payload → is_u16 proto →
  lm_session_table m' !! l2tpv2_session_key (tn_peer_ip t) (tn_local_ip t)
                           (tn_peer_tunnel_id t) (ls_peer_session_id s) = Some si' →
  lm_sessions m' !! si' = Some s' → ls_decap_mode s' = L2TPV2_DECAP_RAW →
  ls_ppp_hdr_skip s' = ls_ppp_hdr_skip s → ls_raw_next_arc s' = Some arc →
  exists b1 b2,
    l2tpv2_encap_raw_node m b = Some (b1, L2TPV2_ENCAP_RAW_NEXT_IP4_LOOKUP, None) /\
    wsum (b_data b1) (b_current_data b1) 10 mod 65535 = 0 /\
    l2tpv2_input_node m' (vlib_buffer_advance 28 b1) = Some (b2, NextArc arc, None) /\
    contents b2 = ppp_prefix s ++ contents b /\ b_opaque2_0 b2 = ls_raw_opaque s'.
Proof.
  intros Hbuf Hn Hs Ht Hskip Hwf Hroom Hr Hlen Hend Hc Hproto Hkey Hs' Hmode Hsk Harc.
  destruct (encap_raw_ok m b s t Hbuf Hn Hs Ht Hskip Hroom Hr Hlen) as (b1 & Henc & Hec & _).
  assert (on_wire (vlib_buffer_advance 28 b1) (tn_peer_ip t) (tn_local_ip t) (plain_header t s)
    (ppp_prefix s ++ be16 proto ++ payload)) as Hw.
  { rewrite <- Hc. apply (encapsulated_on_wire t s _ b); [done..|].
    rewrite (ec_current _ _ _ _ _ Hec). lia. }
  pose proof (input_on_wire m' _ _ _ _ _ Hw) as Hin.
  rewrite !length_app, be16_length in Hin. specialize (Hin ltac:(lia)).
  cbn [dh_tunnel_id dh_session_id plain_header] in Hin. rewrite Hkey, Hs' in Hin.
  cbn [mbind option_bind] in Hin.
  pose proof (session_input_on_wire m' _ _ _ _ _ proto payload s' Hw Hproto) as Hspec.
  rewrite Hsk, <- ppp_prefix_length in Hspec by done. specialize (Hspec eq_refl). cbv zeta in Hspec.
  destruct (session_input m' _ _ s') as [[b2 next] err]. rewrite Hmode, Harc in Hspec.
  change (L2TPV2_DECAP_RAW =? L2TPV2_DECAP_IP) with false in Hspec. cbv iota in Hspec.
  destruct Hspec as (Hcb & Hop & -> & ->). exists b1, b2. rewrite Hc.
  split_and!; [exact Henc|apply Hec|exact Hin|exact Hcb|exact Hop].
Qed.

Lemma advance_data l b d' :
  - 2 ^ 15 <= b_current_data b + l < 2 ^ 15 → 0 <= b_current_length b - l < 2 ^ 16 →
  vlib_buffer_advance l (b⟪b_data := d'⟫) = (vlib_buffer_advance l b)⟪b_data := d'⟫.
Proof. intros. by rewrite !advance_eq by done. Qed.

Lemma punt_frame_data m b d' :
  - 2 ^ 14 <= b_current_data b → b_current_data b < 2 ^ 15 → 0 <= b_current_length b < 2 ^ 15 →
  punt_frame m (b⟪b_data := d'⟫) = ((punt_frame m b).1⟪b_data := d'⟫, (punt_frame m b).2).
Proof.
  intros. unfold punt_frame, SIZEOF_UDP_HEADER, SIZEOF_IP4_HEADER, SIZEOF_ETHERNET, SIZEOF_VLAN.
  rproj. rewrite advance_data by (repeat case_match; lia).
  by destruct (lm_punt_shm_tx_next_arc m).
Qed.

Lemma session_input_data m b n s d' :
  skip_ok s → 0 <= n → - 2 ^ 14 <= b_current_data b →
  b_current_data b + b_current_length b < 2 ^ 15 → 0 <= b_current_length b < 2 ^ 15 →
  (∀ p, b_current_data b <= p < b_current_data b + b_current_length b → d' p = b_data b p) →
  session_input m (b⟪b_data := d'⟫) n s =
    (λ '(b', next, err), (b'⟪b_data := d'⟫, next, err)) (session_input m b n s).
Proof.
  intros Hskip Hn Hc Hend Hlen Hd. unfold session_input. rproj.
  assert (0 <= ls_ppp_hdr_skip s) by (destruct Hskip as [-> | ->]; lia).
  destruct (Z.ltb_spec (b_current_length b) (n + ls_ppp_hdr_skip s + 2)); [done|].
  assert (ld16 d' (b_current_data b + (n + ls_ppp_hdr_skip s)) =
          ld16 (b_data b) (b_current_data b + (n + ls_ppp_hdr_skip s))) as ->.
  { unfold ld16. by rewrite !Hd by lia. }
  rewrite !advance_data by lia. rewrite punt_frame_data by lia.
  destruct (punt_frame m b). repeat case_match; done.
Qed.

(** The input node looks at no byte outside the packet and the IPv4 and UDP headers
    before it: with the same bytes there it does the same, whatever else is in memory,
    truncated packets and ones with absurd offsets included. *)
Theorem l2tp_input_local m b d' :
  (∀ si s, lm_sessions m !! si = Some s → skip_ok s) →
  - 2 ^ 14 <= b_current_data b → b_current_data b + b_current_length b < 2 ^ 15 →
  0 <= b_current_length b < 2 ^ 15 →
  (∀ p, b_current_data b - 28 <= p < b_current_data b + b_current_length b → d' p = b_data b p) →
  l2tpv2_input_node m (b⟪b_data := d'⟫) =
    (λ '(b', next, err), (b'⟪b_data := d'⟫, next, err)) <$> l2tpv2_input_node m b.
Proof.
  intros Hskip Hc Hend Hlen Hd. unfold l2tpv2_input_node. rproj.
  destruct (Z.ltb_spec (b_current_length b) 6); [done|]. rewrite (Hd (b_current_data b)) by lia.
  destruct (has_flag _ L2TP_FLAG_BYTE_T).
  { rewrite punt_frame_data by lia. by destruct (punt_frame m b). }
  rewrite (Hd (b_current_data b + 1)) by lia. destruct (negb _); [done|].
  destruct (header_len_local (b_data b) d' (b_current_data b) (b_current_length b)) as [E|[E1 E2]];
    [lia|intros; apply Hd; lia| |].
  - rewrite E. destruct (Z.ltb_spec (b_current_length b) (l2tpv2_header_len (b_data b) (b_current_data b) + 2));
      [done|].
    rewrite (packet_key_local (b_data b) d' _ (b_current_length b)) by (done || lia).
    destruct (lm_session_table m !! _) as [si|]; [|done].
    destruct (lm_sessions m !! si) as [s|] eqn:Es; [|done]. cbn [mbind option_bind fmap option_fmap option_map].
    pose proof (header_len_ge (b_data b) (b_current_data b)).
    rewrite session_input_data; try done; [by apply (Hskip si)|case_match; lia|].
    intros. apply Hd. lia.
  - by rewrite !(proj2 (Z.ltb_lt _ _)) by lia.
Qed.

(** The fixup completes the headers of the rewrite. *)
Lemma fixup_contents t b rest :
  let len := b_current_length b + b_rest_length b in
  buf_ok b → 20 <= len < 2 ^ 16 → contents b = ip4_header t 0 ++ udp_header t 0 ++ rest →
  contents (l2tpv2_fixup b) =
    ip4_header_sum t len (header_sum (b_current_data b) t len) ++ udp_header t (len - 20) ++ rest.
Proof.
  cbv zeta. intros (Hb & Hl & Hc) Hlen Hcont. apply contents_lies in Hcont as [Hn Hd]; [|lia].
  unfold l2tpv2_fixup. rewrite length_in_chain_eq. unfold SIZEOF_IP4_HEADER.
  set (len := b_current_length b + b_rest_length b) in *. set (ip := b_current_data b) in *.
  replace (u16 len) with len by (unfold u16; ints).
  replace (u16 (len - 20)) with (len - 20) by (unfold u16; ints).
  apply contents_lies; rproj; [lia|]. fold ip. split; [by rewrite Hn, !length_app|].
  set (d1 := put (b_data b) (ip + 2) (be16 len)).
  change (ip4_header t 0 ++ udp_header t 0 ++ rest) with
    ([69; 0] ++ [0; 0] ++ drop 4 (ip4_header t 0) ++
     (be16 (tn_local_udp_port t) ++ be16 (tn_peer_udp_port t)) ++ [0; 0] ++ [0; 0] ++ rest) in Hd.
  rewrite !lies_app in Hd. destruct Hd as (D1 & _ & D2 & [D3 D4] & _ & D5 & D6).
  cbn in D2, D3, D4, D5, D6.
  assert (lies d1 ip (ip4_header t len)) as Hd1.
  { change (ip4_header t len) with ([69; 0] ++ be16 len ++ drop 4 (ip4_header t 0)).
    rewrite !lies_app. unfold d1. split_and!.
    - rewrite lies_put_out; [exact D1|simpl; lia].
    - apply lies_put.
    - rewrite lies_put_out; [exact D2|simpl; lia]. }
  rewrite (header_sum_eq d1 _ t len) by done.
  change (udp_header t (len - 20)) with
    ((be16 (tn_local_udp_port t) ++ be16 (tn_peer_udp_port t)) ++ be16 (len - 20) ++ [0; 0]).
  set (d3 := put (st16 d1 (ip + 10) (header_sum ip t len)) (ip + 20 + 4) (be16 (len - 20))).
  assert (∀ o o' l, lies (b_data b) o l → o = o' → ip + 20 <= o →
    o + Z.of_nat (length l) <= ip + 24 \/ ip + 26 <= o → lies d3 o' l) as Hout.
  { intros o ? l Hl' <- Ho Hol. unfold d3. rewrite lies_put_out by (simpl; lia).
    rewrite lies_st16_out by lia. unfold d1. by rewrite lies_put_out by (simpl; lia). }
  rewrite <- !app_assoc, !lies_app. split_and!.
  - unfold d3. rewrite lies_put_out by (cbn; lia). by apply lies_checksum.
  - apply (Hout _ _ _ D3); cbn; lia.
  - apply (Hout _ _ _ D4); cbn; lia.
  - apply (lies_at _ (ip + 20 + 4)); [apply lies_put|cbn; lia].
  - apply (Hout _ _ _ D5); cbn; lia.
  - apply (Hout _ _ _ D6); cbn; lia.
Qed.

(** The two ways out agree: a packet sent through a session's interface, by the
    midchain rewrite and its fixup, is byte for byte the packet encap-raw makes of the
    same payload behind its PPP protocol field. *)
Theorem l2tp_midchain_is_encap_raw m b si s t w (ip6 : bool) :
  let proto := if ip6 then PPP_PROTOCOL_IP6 else PPP_PROTOCOL_IP4 in
  let frame := (with_rewrite (be16 proto) b)⟪b_opaque2_0 := si⟫ in
  buf_ok b → si ≠ NONE → lm_session_index_by_sw_if_index m !! w = Some si →
  lm_sessions m !! si = Some s → lm_tunnels m !! ls_tunnel_index s = Some t → skip_ok s →
  - VLIB_BUFFER_PRE_DATA_SIZE <= b_current_data b - (encap_len s + 2) →
  0 <= b_rest_length b → b_current_length b + b_rest_length b + (encap_len s + 2) < 2 ^ 16 →
  exists rw b', l2tpv2_build_rewrite m w ip6 = Some (Some rw) /\
    l2tpv2_encap_raw_node m frame = Some (b', L2TPV2_ENCAP_RAW_NEXT_IP4_LOOKUP, None) /\
    contents (l2tpv2_fixup (with_rewrite rw b)) = contents b' /\
    b_current_data (l2tpv2_fixup (with_rewrite rw b)) = b_current_data b'.
Proof.
  cbv zeta. intros Hbuf Hn Hi Hs Ht Hskip Hroom Hr Hlen.
  set (proto := if ip6 then PPP_PROTOCOL_IP6 else PPP_PROTOCOL_IP4).
  pose proof (ppp_prefix_length s Hskip) as Hpl. pose proof pre_data_size as Hpre.
  assert (0 <= ls_ppp_hdr_skip s) by (destruct Hskip as [-> | ->]; lia). unfold encap_len in *.
  pose proof Hbuf as (Hb & Hl & Hc).
  (* the rewrite *)
  set (rw := ip4_header t 0 ++ udp_header t 0 ++ l2tpv2_data_header t s ++ ppp_prefix s ++
             be16 proto).
  assert (Z.of_nat (length rw) = 36 + ls_ppp_hdr_skip s) as Hrl.
  { unfold rw. rewrite !length_app, <- Hpl, be16_length. cbn. lia. }
  destruct (with_rewrite_ok rw b) as (C1 & B1 & D1 & L1 & R1); [done| |lia|lia|].
  { unfold rw. auto 10 using Forall_app_2 with bng. }
  destruct (with_rewrite_ok (be16 proto) b) as (C2 & B2 & D2 & L2 & R2);
    [done|apply be16_bytes|rewrite be16_length; lia|rewrite be16_length; lia|].
  rewrite be16_length in *.
  (* encap-raw *)
  set (frame := (with_rewrite (be16 proto) b)⟪b_opaque2_0 := si⟫).
  destruct (encap_raw_ok m frame s t) as (b' & He & Hec & _); try done.
  { unfold frame. rproj. unfold encap_len. lia. }
  { unfold frame. rproj. lia. }
  { unfold frame. rproj. unfold encap_len. lia. }
  destruct Hec as [E1 _ E3 E4 E5]. cbv zeta in E1. change (contents frame) with
    (contents (with_rewrite (be16 proto) b)) in E1.
  assert (b_current_length b' = b_current_length b + (36 + ls_ppp_hdr_skip s)) as Hn'.
  { rewrite <- (contents_length b') by (destruct E5; lia). rewrite E1, C2, !length_app.
    change (length (encap_string t s _ _)) with (34 + length (ppp_prefix s))%nat.
    rewrite be16_length, <- (contents_length b) by lia. lia. }
  unfold frame in E3, E4. rproj in E3. rproj in E4.
  exists rw, b'. split_and!; [|exact He| |].
  - unfold l2tpv2_build_rewrite. rewrite Hi, Hs. cbn [mbind option_bind]. by rewrite Ht.
  - rewrite (fixup_contents t _ (l2tpv2_data_header t s ++ ppp_prefix s ++ be16 proto ++ contents b)).
    + rewrite E1, C2. unfold encap_string. rewrite <- !app_assoc. rewrite D1, L1, R1, E4, R2, Hn', Hrl.
      replace (b_current_data b') with (b_current_data b - (36 + ls_ppp_hdr_skip s)) by lia. done.
    + done.
    + lia.
    + rewrite C1. unfold rw. by rewrite <- !app_assoc.
  - unfold l2tpv2_fixup. rproj. lia.
Qed.

End Tunnel.
