(* ===== verification/L2tpSystem.v ===== *)
(** The L2TPv2 plugin as a whole: what holds in every state its API can reach, and runs
    on concrete tunnels and packets. *)

From S2P Require Import Prelude Packet Access L2tpSession L2tpInv L2tpRun L2tpNodes L2tpPackets.
From stdpp Require Import strings.

#[local] Open Scope Z_scope.

Section System.

Context `{AccessVppLaws}.

(** What a tunnel dump reports. *)
Lemma tunnel_dump_reports m want ti t :
  (ti, t) ∈ vl_api_l2tpv2_tunnel_dump_t_handler m want <->
  lm_tunnels m !! ti = Some t /\ (want = None \/ want = Some ti).
Proof.
  destruct want as [i|]; cbn [vl_api_l2tpv2_tunnel_dump_t_handler].
  - destruct (lm_tunnels m !! i) as [u|] eqn:Hu.
    + rewrite list_elem_of_singleton. naive_solver.
    + rewrite elem_of_nil. naive_solver.
  - rewrite elem_of_map_to_list. naive_solver.
Qed.

(** A live session is reported with its tunnel. *)
Lemma session_details m si s :
  l2tp_ok m → lm_sessions m !! si = Some s →
  exists t, lm_tunnels m !! ls_tunnel_index s = Some t /\ send_l2tpv2_session_details m s = Some (s, t).
Proof.
  intros Hok Hs. destruct (lo_tables m Hok) as [_ _ _ H4 _ _]. destruct (H4 si s Hs) as (t & Ht & _).
  exists t. unfold send_l2tpv2_session_details. by rewrite Ht.
Qed.

(** What a session dump reports. *)
Lemma session_dump_reports m sw :
  l2tp_ok m →
  exists ds, vl_api_l2tpv2_session_dump_t_handler m sw = Some ds /\
    ∀ s t, (s, t) ∈ ds <-> exists si, lm_sessions m !! si = Some s /\
      lm_tunnels m !! ls_tunnel_index s = Some t /\
      ∀ w, sw = Some w → lm_session_index_by_sw_if_index m !! w = Some si.
Proof.
  intros Hok. destruct sw as [w|]; cbn [vl_api_l2tpv2_session_dump_t_handler].
  - destruct (lm_session_index_by_sw_if_index m !! w) as [si|] eqn:Hw.
    2:{ exists []. split; [done|]. intros s t. rewrite elem_of_nil. naive_solver. }
    destruct (session_of_iface m w si Hok Hw) as (s0 & Hs0 & _). rewrite Hs0. cbn [mbind option_bind].
    destruct (session_details m si s0 Hok Hs0) as (t0 & Ht0 & ->). cbn [mbind option_bind].
    exists [(s0, t0)]. split; [done|]. intros s t. rewrite list_elem_of_singleton. naive_solver.
  - assert (is_Some (mapM (send_l2tpv2_session_details m) (map_to_list (lm_sessions m)).*2)) as [ds Hds].
    { apply mapM_is_Some, Forall_fmap, Forall_forall. intros [si s] Hs%elem_of_map_to_list.
      destruct (session_details m si s Hok Hs) as (t & _ & E). by exists (s, t). }
    exists ds. split; [done|]. intros s t. apply mapM_Some in Hds. split.
    + intros [j Hj]%list_elem_of_lookup_1. destruct (Forall2_lookup_r _ _ _ _ _ Hds Hj) as (s0 & Hs0 & E).
      apply list_elem_of_lookup_2, list_elem_of_fmap in Hs0 as ([si s1] & -> & Hs1%elem_of_map_to_list). exists si.
      unfold send_l2tpv2_session_details in E. cbn [snd] in E.
      destruct (lm_tunnels m !! _) eqn:Ht; [|done]. injection E as -> ->. done.
    + intros (si & Hs & Ht & _).
      assert (s ∈ (map_to_list (lm_sessions m)).*2) as Hin
        by (apply list_elem_of_fmap; exists (si, s); by rewrite elem_of_map_to_list).
      apply list_elem_of_lookup_1 in Hin as [j Hj].
      destruct (Forall2_lookup_l _ _ _ _ _ Hds Hj) as (d & Hd & E). apply list_elem_of_lookup_2 in Hd.
      unfold send_l2tpv2_session_details in E. rewrite Ht in E. injection E as <-. exact Hd.
Qed.

(** C26. No API call, with any arguments in any reachable state, touches a freed pool
    entry: the five calls that change state return, given a free pool slot and a fresh
    hardware interface from VPP, and so do the dumps.  The tunnel dump reports live tunnels;
    the session dump reports, for all sessions or for the one of an interface, live
    sessions, each with its own tunnel, which is live too: every session there is when it
    is asked for all, and the interface's one or none otherwise. *)
Theorem l2tp_never_faults node name f m :
  l2tp_run node (l2tpv2_init node name) f m →
  (∀ op, op_fresh m op → exists m' rv, l2tp_exec node m op = Some (m', rv)) /\
  (∀ want ti t, (ti, t) ∈ vl_api_l2tpv2_tunnel_dump_t_handler m want <->
     lm_tunnels m !! ti = Some t /\ (want = None \/ want = Some ti)) /\
  (∀ sw, exists ds, vl_api_l2tpv2_session_dump_t_handler m sw = Some ds /\
     ∀ s t, (s, t) ∈ ds <-> exists si, lm_sessions m !! si = Some s /\
       lm_tunnels m !! ls_tunnel_index s = Some t /\
       ∀ w, sw = Some w → lm_session_index_by_sw_if_index m !! w = Some si).
Proof.
  intros Hrun. destruct (l2tp_run_ok node name f m Hrun) as [Hok _]. split_and!.
  - intros op Hf. destruct (l2tp_exec_ok node m op Hok Hf) as (m' & rv & E & _). by exists m', rv.
  - apply tunnel_dump_reports.
  - intros sw. by apply session_dump_reports.
Qed.

(** C27. In every reachable state the tables say what is configured: a key leads to a
    tunnel or session exactly when one with these addresses and identifiers is there, a
    session's tunnel is there, and a tunnel counts its sessions, of which there are at
    most 65536. *)
Theorem l2tp_tables_exact node name f m :
  l2tp_run node (l2tpv2_init node name) f m →
  (∀ key ti, lm_tunnel_table m !! key = Some ti <->
     exists t, lm_tunnels m !! ti = Some t /\ tkey t = key) /\
  (∀ key si, lm_session_table m !! key = Some si <->
     exists s t, lm_sessions m !! si = Some s /\ lm_tunnels m !! ls_tunnel_index s = Some t /\
       skey t s = key) /\
  (∀ si s, lm_sessions m !! si = Some s → is_Some (lm_tunnels m !! ls_tunnel_index s)) /\
  (∀ ti t, lm_tunnels m !! ti = Some t →
     tn_ref_count t = msum (in_tunnel ti) (lm_sessions m) /\ tn_ref_count t <= 2 ^ 16).
Proof.
  intros Hrun. destruct (l2tp_run_ok node name f m Hrun) as [Hok _].
  pose proof (lo_tables m Hok) as Htb. pose proof Htb as [H1 H2 H3 H4 H5 _].
  split_and!.
  - intros key ti. split; [apply H1|]. intros (t & Ht & <-). by apply H2.
  - intros key si. split; [apply H3|]. intros (s & t & Hs & Ht & <-).
    destruct (H4 si s Hs) as (t' & Ht' & Hk). congruence.
  - intros si s Hs. destruct (H4 si s Hs) as (t & Ht & _). by exists t.
  - intros ti t Ht. rewrite (H5 ti t Ht). split; [done|]. by apply (tunnel_sessions_bound _ _ _ _ ti Htb).
Qed.

(** C28. As long as bindings are removed by the value they were set to, and no prefix
    delegated has length 0 or 128, the routes in VPP are exactly the bindings of the live
    sessions, whatever was bound, rebound, moved or deleted before, and the visible session
    interfaces are exactly those that a live session owns.  The lengths are excluded because
    the routes are not exact for them: a prefix of length 0 is installed as a default route,
    but counts as not set and is never removed (l2tpv2_session.c:438), and one of length 128
    may be the very route of the session's own address, which two bindings then share. *)
Theorem l2tp_routes_exact node name m :
  l2tp_run node (l2tpv2_init node name) true m →
  (∀ r, r ∈ routes (lm_calls m) <->
     exists si s, lm_sessions m !! si = Some s /\ r ∈ bindings s) /\
  (∀ w, w ∈ visible (lm_calls m) <->
     exists si s, lm_sessions m !! si = Some s /\ ls_sw_if_index s = Some w).
Proof.
  intros Hrun. destruct (l2tp_run_ok node name true m Hrun) as [Hok Hr].
  split; [apply (ro_exact m (Hr eq_refl))|]. intros w. rewrite (lo_visible m Hok). split.
  - intros [si Hi]. destruct (session_of_iface m w si Hok Hi) as (s & Hs & Hw & _). by exists si, s.
  - intros (si & s & Hs & Hw).
    destruct (lo_mode m Hok si s Hs) as [_ [[_ [[w' hw] Ho]]|(_ & E & _)]]; [|congruence].
    destruct (if_owned _ _ _ (lo_ifaces m Hok) si w' hw) as [Hb _]; [by rewrite lookup_omap, Hs|].
    unfold owned in Ho. rewrite Hw in Ho. simpl in Ho. destruct (ls_hw_if_index s); [|done].
    injection Ho as <- _. by exists si.
Qed.

(** Deleting a session deletes it and nothing else: its key and slot are gone, other
    sessions are as they were, and, when bindings were removed by value, no route is
    left through its interface. *)
Theorem l2tp_delete_session node name f m new_idx new_hw a si s :
  l2tp_run node (l2tpv2_init node name) f m → sa_is_add a = false →
  let key := l2tpv2_session_key (sa_local_ip a) (sa_peer_ip a) (sa_local_tunnel_id a)
               (sa_local_session_id a) in
  lm_session_table m !! key = Some si → lm_sessions m !! si = Some s →
  exists m' sw, vnet_l2tpv2_add_del_session m new_idx new_hw node a = Some (m', RV_OK, sw) /\
    lm_sessions m' = delete si (lm_sessions m) /\
    lm_session_table m' = delete key (lm_session_table m) /\
    (f = true → ∀ r, r ∈ routes (lm_calls m') → ls_sw_if_index s ≠ Some (rt_sw_if_index r)).
Proof.
  intros Hrun Hdel key Hk Hs. destruct (l2tp_run_ok node name f m Hrun) as [Hok Hr].
  destruct (tb_session _ _ _ _ (lo_tables m Hok) key si Hk) as (s' & t & Hs' & Ht & Hkey).
  assert (s' = s) as -> by congruence.
  destruct (del_session_ok m (ls_tunnel_index s) t si s Hok Ht Hs eq_refl)
    as (m' & sw & E & _ & Hr' & HS & Hst).
  exists m', sw. rewrite Hkey in E, Hst. split_and!; [|done|done|].
  - unfold vnet_l2tpv2_add_del_session.
    assert (lm_tunnel_table m !! l2tpv2_tunnel_key (sa_local_ip a) (sa_peer_ip a)
              (sa_local_tunnel_id a) = Some (ls_tunnel_index s)) as ->.
    { rewrite <- (tb_tunnel_keyed _ _ _ _ (lo_tables m Hok) _ t Ht). f_equal. symmetry.
      unfold skey, key, l2tpv2_session_key in Hkey. injection Hkey as E1 E2 E3 _. unfold tkey.
      by rewrite E1, E2, E3. }
    rewrite Ht. cbn [mbind option_bind]. rewrite Hdel. fold key. by rewrite Hk.
  - intros -> r Hin. apply (ro_exact m' (Hr' (Hr eq_refl))) in Hin. rewrite HS in Hin.
    by apply (other_iface m si s r Hok Hs).
Qed.

End System.

(** * A concrete plugin

    A tunnel between the addresses 1 and 2, whose ends call it 10 and 20, with a
    session in IP mode (11 and 21), which has an IPv4 address, and one in raw mode (12
    and 22); and the peer, with the other end of the raw session. *)

Definition node_name : string := "osvbng-pppoe-lac-tx"%string.
Definition input_node : Z := 3.


Definition sample_tunnel_op (l p tl tp : Z) : l2tp_op :=
  OpTunnel 0 (mkApiAddress true l) (mkApiAddress true p)
    (mkTunnelArgs true 0 0 (host16 tl) (host16 tp) 0 0 1).
Definition sample_session_op (i hw l p tl sl sp mode skip : Z) : l2tp_op :=
  OpSession i hw (mkApiAddress true l) (mkApiAddress true p)
    (mkSessionArgs true 0 0 (host16 tl) (host16 sl) (host16 sp) mode node_name (host32 77)
       (host32 0) None skip).

Definition l2tp_after (m : l2tpv2_main_t) (op : l2tp_op) : l2tpv2_main_t :=
  default m (fst <$> l2tp_exec input_node m op).

Definition sample_l2tp_0 : l2tpv2_main_t := l2tpv2_init input_node EmptyString.
Definition sample_l2tp_1 := l2tp_after sample_l2tp_0 (sample_tunnel_op 1 2 10 20).
Definition sample_l2tp_2 := l2tp_after sample_l2tp_1 (sample_session_op 0 1 1 2 10 11 21 0 2).
Definition sample_l2tp_3 := l2tp_after sample_l2tp_2 (OpIpv4 (host32 101) 5 true).
Definition sample_l2tp := l2tp_after sample_l2tp_3 (sample_session_op 1 2 1 2 10 12 22 1 2).

Definition sample_peer_1 := l2tp_after sample_l2tp_0 (sample_tunnel_op 2 1 20 10).
Definition sample_peer := l2tp_after sample_peer_1 (sample_session_op 0 1 2 1 20 22 12 1 2).

Lemma sample_step m op :
  l2tp_run input_node sample_l2tp_0 true m → op_fresh m op → op_faithful m op →
  is_Some (l2tp_exec input_node m op) →
  l2tp_run input_node sample_l2tp_0 true (l2tp_after m op).
Proof.
  intros Hr Hf Hg [[m' rv] He]. unfold l2tp_after. rewrite He.
  by apply (run_op input_node sample_l2tp_0 true m op m' rv true).
Qed.

Lemma sample_l2tp_run : l2tp_run input_node sample_l2tp_0 true sample_l2tp.
Proof.
  assert (∀ hw m, lm_free_session_hw_if_indices m = [] →
    lm_session_index_by_sw_if_index m !! (hw + 100) = None →
    hw_fresh (lm_session_index_by_sw_if_index m) (lm_free_session_hw_if_indices m) hw) as Hfresh.
  { intros hw m E1 E2. split; [done|]. rewrite E1. apply not_elem_of_nil. }
  apply sample_step; [|split; [by vm_compute|by apply Hfresh; vm_compute]|done|by vm_compute; eexists].
  apply sample_step; [|done|by intros ????|by vm_compute; eexists].
  apply sample_step; [|split; [by vm_compute|by apply Hfresh; vm_compute]|done|by vm_compute; eexists].
  apply sample_step; [apply run_init|by vm_compute|done|by vm_compute; eexists].
Qed.

Lemma l2tp_never_faults_witness :
  op_fresh sample_l2tp (OpIpv6 (host32 101) 6 true) /\
  exists m' rv, l2tp_exec input_node sample_l2tp (OpIpv6 (host32 101) 6 true) = Some (m', rv).
Proof.
  split; [done|].
  destruct (l2tp_never_faults input_node EmptyString true sample_l2tp sample_l2tp_run) as [H _].
  by apply H.
Defined.

Lemma l2tp_tables_exact_witness :
  lm_session_table sample_l2tp !! (1, 2, 10, 12) = Some 1 /\
  exists s t, lm_sessions sample_l2tp !! 1 = Some s /\
    lm_tunnels sample_l2tp !! ls_tunnel_index s = Some t /\ skey t s = (1, 2, 10, 12).
Proof.
  assert (lm_session_table sample_l2tp !! (1, 2, 10, 12) = Some 1) as E by by vm_compute.
  split; [exact E|].
  apply (l2tp_tables_exact input_node EmptyString true sample_l2tp sample_l2tp_run), E.
Defined.

Lemma l2tp_routes_exact_witness :
  mkRoute false 0 5 32 None 101 ∈ routes (lm_calls sample_l2tp) /\
  exists si s, lm_sessions sample_l2tp !! si = Some s /\ mkRoute false 0 5 32 None 101 ∈ bindings s.
Proof.
  assert (mkRoute false 0 5 32 None 101 ∈ routes (lm_calls sample_l2tp)) as E.
  { apply (bool_decide_unpack _). by vm_compute. }
  split; [exact E|].
  apply (proj1 (l2tp_routes_exact input_node EmptyString sample_l2tp sample_l2tp_run)), E.
Defined.

Definition sample_delete : vnet_l2tpv2_add_del_session_args_t :=
  mkSessionArgs false 1 2 10 11 0 0 EmptyString 0 0 None 0.

Lemma l2tp_delete_session_witness :
  exists s, lm_sessions sample_l2tp !! 0 = Some s /\ ls_sw_if_index s = Some 101 /\
  exists m' sw,
    vnet_l2tpv2_add_del_session sample_l2tp 9 9 input_node sample_delete = Some (m', RV_OK, sw) /\
    lm_sessions m' = delete 0 (lm_sessions sample_l2tp) /\
    ∀ r, r ∈ routes (lm_calls m') → rt_sw_if_index r ≠ 101.
Proof.
  eexists. split; [by vm_compute|]. split; [done|].
  destruct (l2tp_delete_session input_node EmptyString true sample_l2tp 9 9 sample_delete 0 _
    sample_l2tp_run eq_refl ltac:(by vm_compute) ltac:(by vm_compute)) as (m' & sw & E & HS & _ & Hr).
  exists m', sw. split_and!; [exact E|exact HS|]. intros r Hin He. apply (Hr eq_refl r Hin).
  by rewrite He.
Defined.

(** What the calls do not check: a binding removed by another address than the bound
    one.  The session is unbound, its route stays, also once the session is deleted. *)
Lemma l2tp_wrong_unbind_leaks :
  let m1 := l2tp_after sample_l2tp (OpIpv4 (host32 101) 6 false) in
  let m2 := default m1 (fst <$> (fst <$> vnet_l2tpv2_add_del_session m1 9 9 input_node sample_delete)) in
  ls_ipv4_bound <$> lm_sessions m1 !! 0 = Some false /\
  lm_sessions m2 !! 0 = None /\
  mkRoute false 0 5 32 None 101 ∈ routes (lm_calls m2).
Proof. cbv zeta. split_and!; [by vm_compute|by vm_compute|]. apply (bool_decide_unpack _). by vm_compute. Qed.

(** ** Packets *)

(** A packet of 1's to the session in IP mode, with every optional field. *)
Definition sample_header : l2tp_data := mkData (Some 24) (Some (1, 2)) (Some [0; 0; 0]) true 0 10 11.
Definition sample_payload : list Z := [69; 0; 0; 20].
Definition sample_packet : vlib_buffer_t :=
  (sample_buffer 128 (l2tp_wire sample_header ++ [255; 3] ++ be16 33 ++ sample_payload) 0)
    ⟪b_data ::= λ d, put d 100 (repeat 0 12 ++ le32 2 ++ le32 1 ++ repeat 0 8)⟫.

Lemma sample_packet_on_wire :
  on_wire sample_packet 1 2 sample_header ([255; 3] ++ be16 33 ++ sample_payload).
Proof.
  split; [|by vm_compute| |done|by vm_compute|by vm_compute|by vm_compute].
  - split; [|by vm_compute]. apply put_bytes; [|by apply sample_bytes; vm_compute].
    apply put_bytes; [done|]. by apply sample_bytes; vm_compute.
  - by vm_compute.
Qed.

Lemma l2tp_input_delivers_witness :
  is_u16 33 /\
  exists b', l2tpv2_input_node sample_l2tp sample_packet =
      Some (b', L2TPV2_INPUT_NEXT_IP4_INPUT, None) /\
    contents b' = sample_payload /\ b_rx b' = 101.
Proof.
  split; [done|].
  pose proof (l2tp_input_delivers sample_l2tp sample_packet 1 2 sample_header [255; 3] 33
    sample_payload sample_packet_on_wire ltac:(done)) as H.
  replace (lm_session_table sample_l2tp !! _) with (Some 0) in H by by vm_compute.
  destruct (lm_sessions sample_l2tp !! 0) as [s|] eqn:Es; [|by vm_compute in Es].
  assert (ls_ppp_hdr_skip s = 2 /\ ls_decap_mode s = 0 /\ ls_sw_if_index s = Some 101)
    as (E1 & E2 & E3) by by (vm_compute in Es; injection Es as <-).
  destruct (H s eq_refl E1) as (b' & next & err & Hb & Hspec). rewrite E2, E3 in Hspec.
  destruct Hspec as (-> & -> & Hc & Hrx). exists b'. split; [exact Hb|]. split; [exact Hc|exact Hrx].
Defined.

(** The raw session, its tunnel, and a frame for it. *)
Definition sample_raw (local peer : Z) : l2tpv2_session_t :=
  mkL2tpSession 0 local peer 1 (Some 7) (Some 10) 77 None None 0 0 None 2 0 false 0 false 0 0 0.
Definition sample_tunnel : l2tpv2_tunnel_t := mkTunnel 1 2 10 20 1701 1701 1 0 2.
Definition sample_frame : vlib_buffer_t := sample_buffer 64 (be16 49185 ++ [1; 2; 3; 4]) 1.

Lemma sample_frame_ok : buf_ok sample_frame.
Proof. split; [|by vm_compute]. apply put_bytes; [done|]. by apply sample_bytes; vm_compute. Qed.

Lemma l2tp_encap_decap_witness :
  b_opaque2_0 sample_frame ≠ NONE /\
  exists b1 b2,
    l2tpv2_encap_raw_node sample_l2tp sample_frame =
      Some (b1, L2TPV2_ENCAP_RAW_NEXT_IP4_LOOKUP, None) /\
    l2tpv2_input_node sample_peer (vlib_buffer_advance 28 b1) = Some (b2, NextArc 10, None) /\
    contents b2 = [255; 3] ++ contents sample_frame /\ b_opaque2_0 b2 = 77.
Proof.
  split; [done|].
  destruct (l2tp_encap_decap sample_l2tp sample_frame (sample_raw 12 22) sample_tunnel sample_peer 0
    (sample_raw 22 12) 49185 [1; 2; 3; 4] 10 sample_frame_ok) as (b1 & b2 & E1 & _ & E2 & E3 & E4);
    [by vm_compute|by vm_compute|by vm_compute|by right|by vm_compute..|].
  exists b1, b2. split; [exact E1|]. split; [exact E2|]. split; [exact E3|exact E4].
Defined.

Lemma l2tp_input_local_witness :
  l2tpv2_input_node sample_l2tp (sample_packet⟪b_data := λ p,
      if (100 <=? p) && (p <? 128 + b_current_length sample_packet) then b_data sample_packet p
      else 7⟫) =
    (λ '(b', next, err), (b'⟪b_data := λ p,
      if (100 <=? p) && (p <? 128 + b_current_length sample_packet) then b_data sample_packet p
      else 7⟫, next, err)) <$> l2tpv2_input_node sample_l2tp sample_packet.
Proof.
  apply l2tp_input_local; try by vm_compute.
  - destruct (l2tp_run_ok input_node EmptyString true sample_l2tp sample_l2tp_run) as [Hok _].
    intros si s Hs. apply (lo_mode _ Hok si s Hs).
  - intros p Hp. change (b_current_data sample_packet) with 128 in Hp.
    rewrite (proj2 (Z.leb_le _ _)), (proj2 (Z.ltb_lt _ _)) by lia. done.
Defined.

Lemma l2tp_midchain_is_encap_raw_witness :
  lm_session_index_by_sw_if_index sample_l2tp !! 101 = Some 0 /\
  exists rw b', l2tpv2_build_rewrite sample_l2tp 101 false = Some (Some rw) /\
    l2tpv2_encap_raw_node sample_l2tp
      ((with_rewrite (be16 PPP_PROTOCOL_IP4) sample_frame)⟪b_opaque2_0 := 0⟫) =
      Some (b', L2TPV2_ENCAP_RAW_NEXT_IP4_LOOKUP, None) /\
    contents (l2tpv2_fixup (with_rewrite rw sample_frame)) = contents b'.
Proof.
  assert (lm_session_index_by_sw_if_index sample_l2tp !! 101 = Some 0) as Hi by by vm_compute.
  split; [exact Hi|].
  destruct (lm_sessions sample_l2tp !! 0) as [s|] eqn:Es; [|by vm_compute in Es].
  destruct (lm_tunnels sample_l2tp !! ls_tunnel_index s) as [t|] eqn:Et;
    [|vm_compute in Es; injection Es as <-; by vm_compute in Et].
  assert (ls_ppp_hdr_skip s = 2) as E by by (vm_compute in Es; injection Es as <-).
  destruct (l2tp_midchain_is_encap_raw sample_l2tp sample_frame 0 s t 101 false sample_frame_ok)
    as (rw & b' & E1 & E2 & E3 & _);
    [done|exact Hi|exact Es|exact Et|by right|unfold encap_len; rewrite E; by vm_compute|done|
     unfold encap_len; rewrite E; by vm_compute|].
  exists rw, b'. split; [exact E1|]. split; [exact E2|exact E3].
Defined.
