(* ===== verification/PppoeSession.v ===== *)
(** PPPoE sessions: [plugins/osvbng_pppoe/osvbng_pppoe.h], the session functions of
    [osvbng_pppoe.c] and the handlers of [osvbng_pppoe_api.c].

    Session identifiers are in host order but in the lookup key, where they are as a
    load of the header gives them.  The slot of a new session and the hardware index of
    a newly registered interface are arguments.  [None] is an access to a freed pool
    entry. *)

From S2P Require Import Prelude Packet Access.
From stdpp Require Import strings.

#[local] Open Scope Z_scope.

(** * Data *)

(** [ip46_address_t]: two words of memory; an IPv4 address is in the last four bytes. *)
Record ip46_address_t := mkIp46 { as_u64_0 : Z; as_u64_1 : Z }.
#[export] Instance ip46_eq_dec : EqDecision ip46_address_t.
Proof. solve_decision. Defined.

Definition ip46_ip4 (a : ip46_address_t) : Z := Z.shiftr (as_u64_1 a) 32.
Definition ip46_ip6 (a : ip46_address_t) : Z := as_u64_0 a + Z.shiftl (as_u64_1 a) 64.

Record osvbng_pppoe_session_t := mkPppoeSession {
  ps_session_id : Z;               (* u16 *)
  ps_client_ip : ip46_address_t;
  ps_encap_if_index : Z;
  ps_decap_fib_index : Z;
  ps_local_mac : list Z;           (* six bytes *)
  ps_client_mac : list Z;
  ps_outer_vlan : Z;               (* u16, 0 if untagged *)
  ps_inner_vlan : Z;               (* u16, 0 if not Q-in-Q *)
  ps_outer_tpid : Z;               (* u16 *)
  ps_sw_if_index : Z;
  ps_hw_if_index : Z;
  ps_decap_fib_index_ip6 : Z;
  ps_client_ipv6 : Z;
  ps_ipv6_bound : bool;
  ps_delegated_prefix : Z;
  ps_delegated_prefix_len : Z;     (* u8 *)
  ps_pd_next_hop : Z;
  ps_is_lac_tunneled : bool;
  ps_lac_l2tp_session_index : Z    (* u32 *)
}.
#[export] Instance eta_pppoe_session : Eta osvbng_pppoe_session_t := λ s,
  mkPppoeSession (ps_session_id s) (ps_client_ip s) (ps_encap_if_index s) (ps_decap_fib_index s)
    (ps_local_mac s) (ps_client_mac s) (ps_outer_vlan s) (ps_inner_vlan s) (ps_outer_tpid s)
    (ps_sw_if_index s) (ps_hw_if_index s) (ps_decap_fib_index_ip6 s) (ps_client_ipv6 s)
    (ps_ipv6_bound s) (ps_delegated_prefix s) (ps_delegated_prefix_len s) (ps_pd_next_hop s)
    (ps_is_lac_tunneled s) (ps_lac_l2tp_session_index s).

(** sw_if_index and session_index of an entry. *)
Definition pppoe_entry_result_t : Type := Z * Z.
Definition NO_RESULT : pppoe_entry_result_t := (NONE, NONE).

Record osvbng_pppoe_main_t := mkPppoe {
  pm_sessions : gmap Z osvbng_pppoe_session_t;
  pm_session_table : gmap Z pppoe_entry_result_t;
  pm_free_pppoe_session_hw_if_indices : list Z;
  pm_session_index_by_sw_if_index : gmap Z Z;
  pm_lac_session_count : Z;                     (* u32 *)
  pm_l2tpv2_encap_raw_next_arc : option Z;
  pm_punt_shm_tx_next_arc : option Z;
  pm_calls : list vnet_call                     (* into VPP, in order *)
}.
#[export] Instance eta_pppoe : Eta osvbng_pppoe_main_t := λ m,
  mkPppoe (pm_sessions m) (pm_session_table m) (pm_free_pppoe_session_hw_if_indices m)
    (pm_session_index_by_sw_if_index m) (pm_lac_session_count m)
    (pm_l2tpv2_encap_raw_next_arc m) (pm_punt_shm_tx_next_arc m) (pm_calls m).

Record vnet_osvbng_pppoe_add_del_session_args_t := mkPppoeArgs {
  pa_is_add : bool;
  pa_is_ip6 : bool;
  pa_session_id : Z;
  pa_client_ip : ip46_address_t;
  pa_encap_if_index : Z;
  pa_decap_fib_index : Z;
  pa_local_mac : list Z;
  pa_client_mac : list Z;
  pa_outer_vlan : Z;
  pa_inner_vlan : Z
}.

Definition pppoe_call (cs : list vnet_call) (m : osvbng_pppoe_main_t) : osvbng_pppoe_main_t :=
  m⟪pm_calls ::= λ l, l ++ cs⟫.
Definition upd_pppoe_session (si : Z) (g : osvbng_pppoe_session_t → osvbng_pppoe_session_t)
    (m : osvbng_pppoe_main_t) : osvbng_pppoe_main_t :=
  m⟪pm_sessions ::= alter g si⟫.

(** * The lookup key *)

(** The little-endian branch: a load of eight bytes from the address on, of which the
    shift keeps six. *)
Definition pppoe_make_key (d : Z → Z) (mac_address session_id : Z) : Z :=
  let temp := u64 (Z.shiftl (ld64 d mac_address) 16) in
  Z.lor (Z.land temp (2 ^ 64 - 2 ^ 16)) session_id.

(** The key and result of the one-entry cache. *)
Definition pppoe_cache : Type := Z * pppoe_entry_result_t.
Definition EMPTY_CACHE : pppoe_cache := (2 ^ 64 - 1, NO_RESULT).

Definition pppoe_lookup_1 (table : gmap Z pppoe_entry_result_t) (cached : pppoe_cache)
    (d : Z → Z) (mac0 session_id0 : Z) : pppoe_entry_result_t * pppoe_cache :=
  let key0 := pppoe_make_key d mac0 session_id0 in
  if key0 =? fst cached then (snd cached, cached)
  else
    let result0 := default NO_RESULT (table !! key0) in
    (result0, (key0, result0)).

Definition pppoe_update_1 (table : gmap Z pppoe_entry_result_t) (d : Z → Z)
    (mac0 session_id0 : Z) (result0 : pppoe_entry_result_t) : gmap Z pppoe_entry_result_t :=
  <[pppoe_make_key d mac0 session_id0 := result0]> table.

Definition pppoe_delete_1 (table : gmap Z pppoe_entry_result_t) (d : Z → Z)
    (mac0 session_id0 : Z) : gmap Z pppoe_entry_result_t :=
  delete (pppoe_make_key d mac0 session_id0) table.

(** The arguments in memory from [client_mac] on. *)
Definition args_mac (a : vnet_osvbng_pppoe_add_del_session_args_t) : Z → Z := λ p,
  nth (Z.to_nat p)
    (pa_client_mac a ++ [u8 (pa_outer_vlan a); u8 (Z.shiftr (pa_outer_vlan a) 8)]) 0.

Section Pppoe.

Context `{AccessVpp}.

(** * Sessions *)

Definition pppoe_decap_fib_is_valid (is_ip6 : bool) (decap_fib_index : Z) : bool :=
  negb (fib_index_is_free is_ip6 decap_fib_index).

(** The reverse route of the client's address. *)
Definition client_route (a : vnet_osvbng_pppoe_add_del_session_args_t) (sw_if_index : Z) : fib_route :=
  let addr := if pa_is_ip6 a then ip46_ip6 (pa_client_ip a) else ip46_ip4 (pa_client_ip a) in
  mkRoute (pa_is_ip6 a) (pa_decap_fib_index a) addr (if pa_is_ip6 a then 128 else 32)
    (Some addr) sw_if_index.

(** An add for a session that is there: the same, or in need of a refresh. *)
Definition same_session (t : osvbng_pppoe_session_t)
    (a : vnet_osvbng_pppoe_add_del_session_args_t) : bool :=
  (ps_encap_if_index t =? pa_encap_if_index a) &&
  (ps_decap_fib_index t =? pa_decap_fib_index a) &&
  (ps_outer_vlan t =? pa_outer_vlan a) && (ps_inner_vlan t =? pa_inner_vlan a) &&
  bool_decide (ps_local_mac t = pa_local_mac a) &&
  (as_u64_0 (ps_client_ip t) =? as_u64_0 (pa_client_ip a)) &&
  (as_u64_1 (ps_client_ip t) =? as_u64_1 (pa_client_ip a)).

Definition new_pppoe_session (a : vnet_osvbng_pppoe_add_del_session_args_t)
    (sw_if_index hw_if_index table_id : Z) : osvbng_pppoe_session_t :=
  mkPppoeSession (pa_session_id a) (pa_client_ip a) (pa_encap_if_index a) (pa_decap_fib_index a)
    (pa_local_mac a) (pa_client_mac a) (pa_outer_vlan a) (pa_inner_vlan a)
    (if sw_interface_dot1ad_sub (pa_encap_if_index a)
     then ETHERNET_TYPE_DOT1AD else ETHERNET_TYPE_VLAN)
    sw_if_index hw_if_index (default NONE (fib_table_find true table_id))
    0 false 0 0 0 false 0.

Definition pppoe_add (m : osvbng_pppoe_main_t) (new_idx new_hw : Z)
    (a : vnet_osvbng_pppoe_add_del_session_args_t) (result : pppoe_entry_result_t)
    : osvbng_pppoe_main_t * Z :=
  let '(free, hw) := take_hw (pm_free_pppoe_session_hw_if_indices m) new_hw in
  let sw := hw_sw_if_index hw in
  let reused := if pm_free_pppoe_session_hw_if_indices m is [] then [RegisterHw hw new_idx]
                else [SetInstance hw new_idx; ZeroCounters sw] in
  let table_id :=
    if pa_decap_fib_index a =? 0 then 0 else fib_table_get_table_id false (pa_decap_fib_index a) in
  (pppoe_call
     (reused ++
      [SetHidden sw false; SetSup sw (pa_encap_if_index a); SetAdminUp sw true; SetL3Output sw;
       TableBind false sw table_id; TableBind true sw table_id; PathAdd (client_route a sw)])
     (m⟪pm_sessions ::= insert new_idx (new_pppoe_session a sw hw table_id)⟫
       ⟪pm_session_table := pppoe_update_1 (pm_session_table m) (args_mac a) 0
           (clib_net_to_host_u16 (pa_session_id a)) (fst result, new_idx)⟫
       ⟪pm_free_pppoe_session_hw_if_indices := free⟫
       ⟪pm_session_index_by_sw_if_index ::= insert sw new_idx⟫),
   sw).

Definition pppoe_del (m : osvbng_pppoe_main_t) (si : Z) (t : osvbng_pppoe_session_t)
    (a : vnet_osvbng_pppoe_add_del_session_args_t) : osvbng_pppoe_main_t :=
  let sw := ps_sw_if_index t in
  pppoe_call
    [PathRemove (client_route a sw); ResetL3Output sw; SetAdminUp sw false; SetHidden sw true;
     SetSup sw sw]
    (m⟪pm_lac_session_count ::= λ n, if ps_is_lac_tunneled t && (0 <? n) then n - 1 else n⟫
      ⟪pm_session_table := pppoe_delete_1 (pm_session_table m) (args_mac a) 0
          (clib_net_to_host_u16 (pa_session_id a))⟫
      ⟪pm_session_index_by_sw_if_index ::= delete sw⟫
      ⟪pm_free_pppoe_session_hw_if_indices ::= λ l, l ++ [ps_hw_if_index t]⟫
      ⟪pm_sessions ::= delete si⟫).

(** The last component is [*sw_if_indexp], when it is written. *)
Definition vnet_osvbng_pppoe_add_del_session (m : osvbng_pppoe_main_t) (new_idx new_hw : Z)
    (a : vnet_osvbng_pppoe_add_del_session_args_t)
    : option (osvbng_pppoe_main_t * vnet_rv * option Z) :=
  let '(result, _) := pppoe_lookup_1 (pm_session_table m) EMPTY_CACHE (args_mac a) 0
                        (clib_net_to_host_u16 (pa_session_id a)) in
  let session_index := snd result in
  if pa_is_add a then
    if negb (session_index =? NONE) then
      t ← pm_sessions m !! session_index;
      Some (m, if same_session t a then RV_OK else RV_ENTRY_NEEDS_REFRESH, Some (ps_sw_if_index t))
    else if sw_interface_is_free (pa_encap_if_index a) then Some (m, RV_INVALID_SW_IF_INDEX, None)
    else if negb (pppoe_decap_fib_is_valid (pa_is_ip6 a) (pa_decap_fib_index a))
    then Some (m, RV_NO_SUCH_FIB, None)
    else
      let '(m, sw) := pppoe_add m new_idx new_hw a result in
      Some (m, RV_OK, Some sw)
  else if session_index =? NONE then Some (m, RV_NO_SUCH_ENTRY, None)
  else
    t ← pm_sessions m !! session_index;
    Some (pppoe_del m session_index t a, RV_OK, Some (ps_sw_if_index t)).

(** * Bindings *)

Definition with_pppoe_session (m : osvbng_pppoe_main_t) (sw_if_index : Z)
    (f : Z → osvbng_pppoe_session_t → osvbng_pppoe_main_t)
    : option (osvbng_pppoe_main_t * vnet_rv) :=
  match pm_session_index_by_sw_if_index m !! sw_if_index with
  | None => Some (m, RV_INVALID_SW_IF_INDEX)
  | Some si => s ← pm_sessions m !! si; Some (f si s, RV_OK)
  end.

Definition pppoe_route (s : osvbng_pppoe_session_t) (sw_if_index addr len : Z) : fib_route :=
  mkRoute true (ps_decap_fib_index_ip6 s) addr len (Some addr) sw_if_index.

(** The branches [is_add = 0]. *)
Definition pppoe_clear_ipv6 (m : osvbng_pppoe_main_t) (sw_if_index addr si : Z)
    (s : osvbng_pppoe_session_t) : osvbng_pppoe_main_t :=
  if negb (ps_ipv6_bound s) then m
  else upd_pppoe_session si (λ s, s⟪ps_client_ipv6 := 0⟫⟪ps_ipv6_bound := false⟫)
         (pppoe_call [PathRemove (pppoe_route s sw_if_index addr 128)] m).

Definition pppoe_clear_prefix (m : osvbng_pppoe_main_t) (sw_if_index prefix prefix_len si : Z)
    (s : osvbng_pppoe_session_t) : osvbng_pppoe_main_t :=
  if ps_delegated_prefix_len s =? 0 then m
  else upd_pppoe_session si
         (λ s, s⟪ps_delegated_prefix := 0⟫⟪ps_delegated_prefix_len := 0⟫⟪ps_pd_next_hop := 0⟫)
         (pppoe_call [PathRemove (pppoe_route s sw_if_index prefix prefix_len)] m).

Definition vnet_pppoe_set_session_ipv6 (m : osvbng_pppoe_main_t) (sw_if_index addr : Z)
    (is_add : bool) : option (osvbng_pppoe_main_t * vnet_rv) :=
  with_pppoe_session m sw_if_index (λ si s,
    if is_add then
      if ps_ipv6_bound s && (ps_client_ipv6 s =? addr) then m
      else
        let m := if ps_ipv6_bound s
                 then pppoe_clear_ipv6 m sw_if_index (ps_client_ipv6 s) si s else m in
        upd_pppoe_session si (λ s, s⟪ps_client_ipv6 := addr⟫⟪ps_ipv6_bound := true⟫)
          (pppoe_call [PathAdd (pppoe_route s sw_if_index addr 128)] m)
    else pppoe_clear_ipv6 m sw_if_index addr si s).

Definition vnet_pppoe_set_delegated_prefix (m : osvbng_pppoe_main_t)
    (sw_if_index prefix prefix_len next_hop : Z) (is_add : bool)
    : option (osvbng_pppoe_main_t * vnet_rv) :=
  with_pppoe_session m sw_if_index (λ si s,
    if is_add then
      if (ps_delegated_prefix_len s =? prefix_len) && (ps_delegated_prefix s =? prefix) then m
      else
        let m := if ps_delegated_prefix_len s =? 0 then m
                 else pppoe_clear_prefix m sw_if_index (ps_delegated_prefix s)
                        (ps_delegated_prefix_len s) si s in
        upd_pppoe_session si
          (λ s, s⟪ps_delegated_prefix := prefix⟫⟪ps_delegated_prefix_len := prefix_len⟫
                 ⟪ps_pd_next_hop := next_hop⟫)
          (pppoe_call [PathAdd (pppoe_route s sw_if_index prefix prefix_len)] m)
    else pppoe_clear_prefix m sw_if_index prefix prefix_len si s).

(** * LAC mode *)

(** [false]: the call returns -1. *)
Definition osvbng_pppoe_set_lac_tunnel (m : osvbng_pppoe_main_t) (sw_if_index : Z)
    (is_lac_tunneled : bool) (lac_l2tp_session_index : Z) : option (osvbng_pppoe_main_t * bool) :=
  match pm_session_index_by_sw_if_index m !! sw_if_index with
  | None => Some (m, false)
  | Some idx =>
      t ← pm_sessions m !! idx;
      let index := if is_lac_tunneled then lac_l2tp_session_index else 0 in
      if eqb (ps_is_lac_tunneled t) is_lac_tunneled && (ps_lac_l2tp_session_index t =? index)
      then Some (m, true)
      else
        let count := pm_lac_session_count m in
        let count :=
          if ps_is_lac_tunneled t && negb is_lac_tunneled
          then if 0 <? count then count - 1 else count
          else if negb (ps_is_lac_tunneled t) && is_lac_tunneled then u32 (count + 1)
          else count in
        Some (upd_pppoe_session idx
                (λ t, t⟪ps_is_lac_tunneled := is_lac_tunneled⟫⟪ps_lac_l2tp_session_index := index⟫)
                (m⟪pm_lac_session_count := count⟫), true)
  end.

(** * The API *)

Definition vl_api_osvbng_pppoe_add_del_session_t_handler (m : osvbng_pppoe_main_t)
    (new_idx new_hw decap_vrf_id : Z) (a : vnet_osvbng_pppoe_add_del_session_args_t)
    : option (osvbng_pppoe_main_t * vnet_rv * option Z) :=
  match ip4_fib_index_by_table_id (clib_net_to_host_u32 decap_vrf_id) with
  | None => Some (m, RV_NO_SUCH_INNER_FIB, None)
  | Some decap_fib_index =>
      vnet_osvbng_pppoe_add_del_session m new_idx new_hw
        (mkPppoeArgs (pa_is_add a) false (clib_net_to_host_u16 (pa_session_id a)) (pa_client_ip a)
           (clib_net_to_host_u32 (pa_encap_if_index a)) decap_fib_index (pa_local_mac a)
           (pa_client_mac a) (clib_net_to_host_u16 (pa_outer_vlan a))
           (clib_net_to_host_u16 (pa_inner_vlan a)))
  end.

Definition vl_api_osvbng_pppoe_set_lac_tunnel_t_handler (m : osvbng_pppoe_main_t)
    (sw_if_index : Z) (is_lac_tunneled : bool) (lac_l2tp_session_index : Z)
    : option (osvbng_pppoe_main_t * vnet_rv) :=
  '(m, ok) ← osvbng_pppoe_set_lac_tunnel m (clib_net_to_host_u32 sw_if_index) is_lac_tunneled
               (clib_net_to_host_u32 lac_l2tp_session_index);
  Some (m, if (ok : bool) then RV_OK else RV_NO_SUCH_ENTRY).

Definition vl_api_osvbng_pppoe_set_session_ipv6_t_handler (m : osvbng_pppoe_main_t)
    (sw_if_index client_ip : Z) (is_add : bool) : option (osvbng_pppoe_main_t * vnet_rv) :=
  vnet_pppoe_set_session_ipv6 m (clib_net_to_host_u32 sw_if_index) client_ip is_add.

Definition vl_api_osvbng_pppoe_set_delegated_prefix_t_handler (m : osvbng_pppoe_main_t)
    (sw_if_index prefix prefix_len next_hop : Z) (is_add : bool)
    : option (osvbng_pppoe_main_t * vnet_rv) :=
  vnet_pppoe_set_delegated_prefix m (clib_net_to_host_u32 sw_if_index) prefix prefix_len
    next_hop is_add.

(** The sessions a dump reports. *)
Definition vl_api_osvbng_pppoe_session_dump_t_handler (m : osvbng_pppoe_main_t)
    (sw_if_index : option Z) : option (list osvbng_pppoe_session_t) :=
  match sw_if_index with
  | None => Some (map_to_list (pm_sessions m)).*2
  | Some w =>
      match pm_session_index_by_sw_if_index m !! w with
      | None => Some []
      | Some si => t ← pm_sessions m !! si; Some [t]
      end
  end.

(** * Start-up *)

Definition osvbng_pppoe_init (input_node : Z) (encap_raw punt_shm_tx : string)
    : osvbng_pppoe_main_t :=
  mkPppoe ∅ ∅ [] ∅ 0
    (vlib_node_add_next input_node <$> vlib_get_node_by_name encap_raw)
    (vlib_node_add_next input_node <$> vlib_get_node_by_name punt_shm_tx) [].

End Pppoe.
