(* ===== verification/PppoeNodes.v ===== *)
(** The PPPoE packet path: the input node of [plugins/osvbng_pppoe/osvbng_pppoe_decap.c],
    the rewrite, fixup and adjacency update of [osvbng_pppoe.c], and the LAC output node
    of [osvbng_pppoe_lac_tx.c].

    As for the tunnels, a node's step takes the tables, which it only reads, and one
    buffer to the buffer, where it goes and the error it is counted under.  The input
    node also passes on, from packet to packet of a frame, a one-entry cache of the
    session table and the batch of its counters. *)

From S2P Require Import Prelude Packet Access PppoeSession.

#[local] Open Scope Z_scope.

Definition PPPOE_VER_TYPE : Z := 17.
Definition SIZEOF_PPPOE : Z := 8.
Definition OSVBNG_PUNT_PROTO_PPPOE_SESSION : Z := 4.

Inductive pppoe_input_error_t :=
  | PPPOE_ERROR_DECAPSULATED
  | PPPOE_ERROR_NO_SUCH_SESSION
  | PPPOE_ERROR_BAD_VER_TYPE.

(** [NextArc] is an arc added at run time, by its number. *)
Inductive pppoe_input_next_t :=
  | PPPOE_INPUT_NEXT_DROP
  | PPPOE_INPUT_NEXT_IP4_INPUT
  | PPPOE_INPUT_NEXT_IP6_INPUT
  | NextArc (arc : Z).

Inductive osvbng_pppoe_lac_tx_error_t :=
  | OSVBNG_PPPOE_LAC_TX_ERROR_TXED
  | OSVBNG_PPPOE_LAC_TX_ERROR_NO_SUCH_SESSION
  | OSVBNG_PPPOE_LAC_TX_ERROR_TRUNCATED.

Inductive osvbng_pppoe_lac_tx_next_t :=
  | OSVBNG_PPPOE_LAC_TX_NEXT_DROP
  | OSVBNG_PPPOE_LAC_TX_NEXT_INTERFACE_OUTPUT.

(** The VLAN tags a session is configured with. *)
Definition vlan_bytes (s : osvbng_pppoe_session_t) : Z :=
  if negb (ps_outer_vlan s =? 0) && negb (ps_inner_vlan s =? 0) then 2 * SIZEOF_VLAN
  else if negb (ps_outer_vlan s =? 0) then SIZEOF_VLAN else 0.

Section Nodes.

Context `{VlibVpp}.

(** * Input *)

(** Back to the L2 header of the frame. *)
Definition rewind (b : vlib_buffer_t) : vlib_buffer_t :=
  match b_l2_hdr_offset b with
  | Some l2_hdr_offset => vlib_buffer_advance (l2_hdr_offset - b_current_data b) b
  | None => vlib_buffer_reset b
  end.

(** The PPPoE header behind one or two tags; [None]: the frame is not PPPoE's. *)
Definition walk_tags (d : Z → Z) (vlan0 : Z) : option Z :=
  let type0 := clib_net_to_host_u16 (ld16 d (vlan0 + 2)) in
  let '(type0, pppoe0) :=
    if type0 =? ETHERNET_TYPE_VLAN
    then (clib_net_to_host_u16 (ld16 d (vlan0 + SIZEOF_VLAN + 2)), vlan0 + SIZEOF_VLAN + SIZEOF_VLAN)
    else (type0, vlan0 + SIZEOF_VLAN) in
  if type0 =? ETHERNET_TYPE_PPPOE_SESSION then Some pppoe0 else None.

Definition find_pppoe (d : Z → Z) (h0 : Z) : option Z :=
  let type0 := clib_net_to_host_u16 (ld16 d (h0 + 12)) in
  if type0 =? ETHERNET_TYPE_VLAN then walk_tags d (h0 + SIZEOF_ETHERNET)
  else if type0 =? ETHERNET_TYPE_DOT1AD then walk_tags d (h0 + SIZEOF_ETHERNET)
  else Some (h0 + SIZEOF_ETHERNET).

Definition pppoe_outcome : Type := vlib_buffer_t * pppoe_input_next_t * option pppoe_input_error_t.

(** The frame goes to the control plane. *)
Definition pppoe_punt (m : osvbng_pppoe_main_t) (b : vlib_buffer_t) : pppoe_outcome :=
  match pm_punt_shm_tx_next_arc m with
  | None => (b, PPPOE_INPUT_NEXT_DROP, Some PPPOE_ERROR_BAD_VER_TYPE)
  | Some arc => (b⟪b_opaque2_1 := OSVBNG_PUNT_PROTO_PPPOE_SESSION⟫, NextArc arc, None)
  end.

(** A session bridged to a tunnel: the frame goes on from its PPP protocol field. *)
Definition lac_bridge (m : osvbng_pppoe_main_t) (t0 : osvbng_pppoe_session_t) (b : vlib_buffer_t)
    : pppoe_outcome :=
  match pm_l2tpv2_encap_raw_next_arc m with
  | None => (b, PPPOE_INPUT_NEXT_DROP, Some PPPOE_ERROR_NO_SUCH_SESSION)
  | Some arc =>
      let advance := SIZEOF_ETHERNET + SIZEOF_PPPOE - 2 + vlan_bytes t0 in
      ((vlib_buffer_advance advance b)⟪b_opaque2_0 := ps_lac_l2tp_session_index t0⟫,
       NextArc arc, None)
  end.

(** A frame of a session that ends here, or of none; [pppoe0] is its PPPoE header. *)
Definition pppoe_terminate (m : osvbng_pppoe_main_t) (t0 : option osvbng_pppoe_session_t)
    (pppoe0 : Z) (b : vlib_buffer_t) : pppoe_outcome :=
  let d := b_data b in
  let ppp_proto0 := clib_net_to_host_u16 (ld16 d (pppoe0 + 6)) in
  if negb ((ppp_proto0 =? PPP_PROTOCOL_IP4) || (ppp_proto0 =? PPP_PROTOCOL_IP6))
  then pppoe_punt m b
  else if (ppp_proto0 =? PPP_PROTOCOL_IP6) && (d (pppoe0 + SIZEOF_PPPOE + 24) =? 255)
  then pppoe_punt m b
  else
    match t0 with
    | None => (b, PPPOE_INPUT_NEXT_DROP, Some PPPOE_ERROR_NO_SUCH_SESSION)
    | Some t0 =>
        ((vlib_buffer_advance (SIZEOF_ETHERNET + SIZEOF_PPPOE + vlan_bytes t0) b)
           ⟪b_rx := ps_sw_if_index t0⟫,
         if ppp_proto0 =? PPP_PROTOCOL_IP4 then PPPOE_INPUT_NEXT_IP4_INPUT
         else PPPOE_INPUT_NEXT_IP6_INPUT, None)
    end.

Definition pppoe_input_step (m : osvbng_pppoe_main_t) (cached : pppoe_cache) (b : vlib_buffer_t)
    : option (pppoe_cache * pppoe_outcome) :=
  let b := rewind b in
  let d := b_data b in
  let h0 := b_current_data b in
  match find_pppoe d h0 with
  | None => Some (cached, (b, PPPOE_INPUT_NEXT_DROP, Some PPPOE_ERROR_BAD_VER_TYPE))
  | Some pppoe0 =>
      let '(result0, cached) :=
        pppoe_lookup_1 (pm_session_table m) cached d (h0 + 6) (ld16 d (pppoe0 + 2)) in
      if snd result0 =? NONE then Some (cached, pppoe_terminate m None pppoe0 b)
      else
        t0 ← pm_sessions m !! snd result0;
        Some (cached, if ps_is_lac_tunneled t0 then lac_bridge m t0 b
                      else pppoe_terminate m (Some t0) pppoe0 b)
  end.

(** The counters of a frame: the batch of the interface last seen, and what has been
    added to the interfaces' counters. *)
Record pppoe_stats := mkStats {
  st_sw_if_index : Z;
  st_n_packets : Z;                   (* u32 *)
  st_n_bytes : Z;                     (* u32 *)
  st_counted : list (Z * Z * Z);      (* interface, packets and bytes *)
  st_decapsulated : Z                 (* u32 *)
}.

(** A decapsulated packet of [len0] bytes on the interface [sw_if_index0]. *)
Definition count_packet (sw_if_index0 len0 : Z) (st : pppoe_stats) : pppoe_stats :=
  let n_packets := u32 (st_n_packets st + 1) in
  let n_bytes := u32 (st_n_bytes st + len0) in
  let decapsulated := u32 (st_decapsulated st + 1) in
  if sw_if_index0 =? st_sw_if_index st
  then mkStats (st_sw_if_index st) n_packets n_bytes (st_counted st) decapsulated
  else
    let n_packets := u32 (n_packets - 1) in
    let n_bytes := u32 (n_bytes - len0) in
    mkStats sw_if_index0 1 len0
      (if n_packets =? 0 then st_counted st
       else st_counted st ++ [(st_sw_if_index st, n_packets, n_bytes)])
      decapsulated.

Definition is_decapsulated (next : pppoe_input_next_t) : bool :=
  match next with
  | PPPOE_INPUT_NEXT_IP4_INPUT | PPPOE_INPUT_NEXT_IP6_INPUT => true
  | _ => false
  end.

Fixpoint pppoe_input_loop (m : osvbng_pppoe_main_t) (cached : pppoe_cache) (st : pppoe_stats)
    (frame : list vlib_buffer_t) : option (pppoe_stats * list pppoe_outcome) :=
  match frame with
  | [] => Some (st, [])
  | b0 :: frame =>
      '(cached, out) ← pppoe_input_step m cached b0;
      let '(b0, next0, _) := out in
      let st := if is_decapsulated next0
                then count_packet (b_rx b0) (u32 (vlib_buffer_length_in_chain b0)) st else st in
      '(st, outs) ← pppoe_input_loop m cached st frame;
      Some (st, out :: outs)
  end.

(** [stats_sw_if_index] is the node's runtime data; the result has its new value, what
    was added to the interfaces' counters, and the packets counted as decapsulated. *)
Definition osvbng_pppoe_input_node (m : osvbng_pppoe_main_t) (stats_sw_if_index : Z)
    (frame : list vlib_buffer_t) : option (Z * list (Z * Z * Z) * Z * list pppoe_outcome) :=
  '(st, outs) ← pppoe_input_loop m EMPTY_CACHE (mkStats stats_sw_if_index 0 0 [] 0) frame;
  Some
    (if st_n_packets st =? 0 then (stats_sw_if_index, st_counted st, st_decapsulated st, outs)
     else (st_sw_if_index st,
           st_counted st ++ [(st_sw_if_index st, st_n_packets st, st_n_bytes st)],
           st_decapsulated st, outs)).

(** * Output *)

(** The Ethernet header, with the session's tags. *)
Definition ethernet_tags (s : osvbng_pppoe_session_t) : list Z :=
  if negb (ps_outer_vlan s =? 0) && negb (ps_inner_vlan s =? 0) then
    be16 (ps_outer_tpid s) ++ be16 (ps_outer_vlan s) ++
    be16 ETHERNET_TYPE_VLAN ++ be16 (ps_inner_vlan s) ++ be16 ETHERNET_TYPE_PPPOE_SESSION
  else if negb (ps_outer_vlan s =? 0) then
    be16 (ps_outer_tpid s) ++ be16 (ps_outer_vlan s) ++ be16 ETHERNET_TYPE_PPPOE_SESSION
  else be16 ETHERNET_TYPE_PPPOE_SESSION.

Definition ethernet_header (s : osvbng_pppoe_session_t) : list Z :=
  ps_client_mac s ++ ps_local_mac s ++ ethernet_tags s.
Definition pppoe_header (s : osvbng_pppoe_session_t) (length ppp_proto : Z) : list Z :=
  [PPPOE_VER_TYPE; 0] ++ be16 (ps_session_id s) ++ be16 length ++ be16 ppp_proto.

Definition pppoe_build_rewrite (m : osvbng_pppoe_main_t) (sw_if_index : Z) (link_type : vnet_link_t)
    : option (list Z) :=
  session_id ← pm_session_index_by_sw_if_index m !! sw_if_index;
  t ← pm_sessions m !! session_id;
  let ppp_proto := match link_type with
                   | VNET_LINK_IP4 => PPP_PROTOCOL_IP4
                   | VNET_LINK_IP6 => PPP_PROTOCOL_IP6
                   | VNET_LINK_OTHER => 0
                   end in
  Some (ethernet_header t ++ pppoe_header t 0 ppp_proto).

(** [len] is the offset of the PPPoE header, which the adjacency keeps. *)
Definition pppoe_fixup (b : vlib_buffer_t) (len : Z) : vlib_buffer_t :=
  let pppoe0 := b_current_data b + len in
  b⟪b_data ::= λ d, put d (pppoe0 + 4)
      (be16 (u16 (vlib_buffer_length_in_chain b - SIZEOF_PPPOE + 2 - len)))⟫.

(** The rewrite that is installed with its offset, when one is, and what the adjacency
    is stacked on. *)
Definition pppoe_update_adj (m : osvbng_pppoe_main_t) (sw_if_index : Z) (link_type : vnet_link_t)
    (kind : adj_kind) : option (option (list Z * Z) * adj_stack) :=
  match t ← (session_id ← pm_session_index_by_sw_if_index m !! sw_if_index;
             pm_sessions m !! session_id); Some t with
  | None => Some (None, Unstacked)
  | Some t =>
      let len := SIZEOF_ETHERNET + vlan_bytes t in
      rewrite ← match kind with
                | AdjNeighbour | AdjMcast =>
                    rw ← pppoe_build_rewrite m sw_if_index link_type; Some (Some (rw, len))
                | AdjOther => Some None
                end;
      Some (rewrite, StackInterfaceTx (ps_encap_if_index t))
  end.

(** * From the tunnel to the subscriber *)

Definition lac_tx_encap (s : osvbng_pppoe_session_t) (b : vlib_buffer_t)
    : vlib_buffer_t * osvbng_pppoe_lac_tx_next_t * option osvbng_pppoe_lac_tx_error_t :=
  let drop b := (b, OSVBNG_PPPOE_LAC_TX_NEXT_DROP, Some OSVBNG_PPPOE_LAC_TX_ERROR_TRUNCATED) in
  if b_current_length b <? 2 then drop b
  else
    let b := if (b_data b (b_current_data b) =? 255) && (4 <=? b_current_length b)
             then vlib_buffer_advance 2 b else b in
    let ppp_proto := clib_net_to_host_u16 (ld16 (b_data b) (b_current_data b)) in
    let b := vlib_buffer_advance 2 b in
    let encap_len := SIZEOF_ETHERNET + vlan_bytes s + SIZEOF_PPPOE in
    if b_current_data b <? encap_len then drop b
    else
      let b := vlib_buffer_advance (- encap_len) b in
      let length := u16 (vlib_buffer_length_in_chain b -
                         (SIZEOF_ETHERNET + vlan_bytes s + SIZEOF_PPPOE - 2)) in
      (b⟪b_data ::= λ d, put d (b_current_data b)
           (ethernet_header s ++ pppoe_header s length ppp_proto)⟫
        ⟪b_tx := ps_encap_if_index s⟫,
       OSVBNG_PPPOE_LAC_TX_NEXT_INTERFACE_OUTPUT, None).

Definition osvbng_pppoe_lac_tx_node (m : osvbng_pppoe_main_t) (b : vlib_buffer_t)
    : option (vlib_buffer_t * osvbng_pppoe_lac_tx_next_t * option osvbng_pppoe_lac_tx_error_t) :=
  match pm_session_index_by_sw_if_index m !! b_opaque2_0 b with
  | None => Some (b, OSVBNG_PPPOE_LAC_TX_NEXT_DROP, Some OSVBNG_PPPOE_LAC_TX_ERROR_NO_SUCH_SESSION)
  | Some sess_index => s ← pm_sessions m !! sess_index; Some (lac_tx_encap s b)
  end.

End Nodes.
