(* ===== verification/PppoeInv.v ===== *)
(** What the PPPoE plugin keeps true of its pool, table and interfaces.

    The session table's key is a reversible packing of the client's MAC address and the
    session identifier.  [pppoe_ok]: the table is exactly the pool, every session has
    an interface of its own, those are the visible ones, and the LAC counter is the
    number of bridged sessions.  [pppoe_routes_ok]: the routes in VPP are the bindings
    of the live sessions. *)

From S2P Require Import Prelude Packet Access PppoeSession.
From stdpp Require Import strings.

#[local] Open Scope Z_scope.

(** * Keys *)

Definition mac_key (mac : list Z) (session_id : Z) : Z := session_id + 2 ^ 16 * le_value mac.

(** A key no session can have: that of the broadcast address and the identifier 0xffff. *)
Definition RESERVED_KEY : Z := 2 ^ 64 - 1.

Lemma mac_key_inj mac sid mac' sid' :
  Forall byte mac → Forall byte mac' → length mac = length mac' → is_u16 sid → is_u16 sid' →
  mac_key mac sid = mac_key mac' sid' → mac = mac' /\ sid = sid'.
Proof.
  intros Hm Hm' Hlen Hs Hs' Hk. unfold mac_key, is_u16 in *.
  assert (sid = sid' /\ le_value mac = le_value mac') as [-> Hv] by lia.
  split; [|done]. by apply le_value_inj.
Qed.

(** The key a packet or a call is looked up with. *)
Lemma make_key_eq d o sid :
  (∀ p, byte (d p)) → is_u16 sid → pppoe_make_key d o sid = mac_key (bytes d o 6) sid.
Proof.
  intros Hd Hs. unfold pppoe_make_key, mac_key.
  set (V := le_value (bytes d o 6)).
  assert (0 <= V < 2 ^ 48) as HV.
  { pose proof (le_value_range (bytes d o 6) (bytes_byte d o 6 Hd)) as Hr.
    rewrite bytes_length in Hr. exact Hr. }
  assert (u64 (Z.shiftl (ld64 d o) 16) = Z.shiftl V 16) as ->.
  { rewrite !Z.shiftl_mul_pow2 by lia.
    assert (exists q, ld64 d o = V + q * 2 ^ 48) as [q ->].
    { exists (d (o + 6) + 256 * d (o + 7)). unfold V, le_value, bytes, ld64, ld32, ld16. simpl.
      rewrite !Z.shiftl_mul_pow2 by lia.
      replace (o + 4 + 2 + 1) with (o + 7) by lia. replace (o + 4 + 2) with (o + 6) by lia.
      replace (o + 4 + 1) with (o + 5) by lia. replace (o + 2 + 1) with (o + 3) by lia.
      change (Z.of_nat 1) with 1. change (Z.of_nat 2) with 2. change (Z.of_nat 3) with 3.
      change (Z.of_nat 4) with 4. change (Z.of_nat 5) with 5. rewrite !Z.add_0_r. lia. }
    unfold u64. replace ((V + q * 2 ^ 48) * 2 ^ 16) with (V * 2 ^ 16 + q * 2 ^ 64) by lia.
    rewrite Z.mod_add by lia. apply Z.mod_small. lia. }
  change (2 ^ 64 - 2 ^ 16) with (Z.shiftl (2 ^ 48 - 1) 16).
  rewrite land_shiftl_r, Z.shiftr_shiftl_l, Z.shiftl_0_r, land_ones_mod by lia.
  rewrite Z.mod_small by lia. rewrite Z.lor_comm, lor_shiftl_add by done. lia.
Qed.

Lemma make_key_range d o sid :
  (∀ p, byte (d p)) → is_u16 sid → 0 <= pppoe_make_key d o sid <= RESERVED_KEY.
Proof.
  intros Hd Hs. rewrite make_key_eq by done. unfold mac_key, RESERVED_KEY.
  pose proof (le_value_range (bytes d o 6) (bytes_byte d o 6 Hd)) as Hr.
  rewrite bytes_length in Hr. change (256 ^ Z.of_nat 6) with (2 ^ 48) in Hr. unfold is_u16 in Hs. lia.
Qed.

(** * The invariant *)

Definition pkey (s : osvbng_pppoe_session_t) : Z :=
  mac_key (ps_client_mac s) (clib_net_to_host_u16 (ps_session_id s)).

Definition session_wf (s : osvbng_pppoe_session_t) : Prop :=
  mac_ok (ps_client_mac s) /\ mac_ok (ps_local_mac s) /\ is_u16 (ps_session_id s) /\
  pkey s ≠ RESERVED_KEY.

Definition powned (s : osvbng_pppoe_session_t) : Z * Z := (ps_sw_if_index s, ps_hw_if_index s).
Definition lac_one (s : osvbng_pppoe_session_t) : Z := if ps_is_lac_tunneled s then 1 else 0.

(** The entry of the session in slot [si]: its interface is not filled in. *)
Definition entry (si : Z) : pppoe_entry_result_t := (NONE, si).

Record pppoe_ok `{AccessVpp} (m : osvbng_pppoe_main_t) : Prop := {
  pk_table key r :
    pm_session_table m !! key = Some r →
    exists si s, r = entry si /\ pm_sessions m !! si = Some s /\ pkey s = key;
  pk_keyed si s : pm_sessions m !! si = Some s → pm_session_table m !! pkey s = Some (entry si);
  pk_session si s : pm_sessions m !! si = Some s → 0 <= si < NONE /\ session_wf s;
  pk_ifaces :
    iface_ok (pm_free_pppoe_session_hw_if_indices m) (pm_session_index_by_sw_if_index m)
      (powned <$> pm_sessions m);
  pk_visible w : w ∈ visible (pm_calls m) <-> is_Some (pm_session_index_by_sw_if_index m !! w);
  pk_count : pm_lac_session_count m = msum lac_one (pm_sessions m)
}.

(** The routes a session stands for. *)
Definition client4 (s : osvbng_pppoe_session_t) : fib_route :=
  mkRoute false (ps_decap_fib_index s) (ip46_ip4 (ps_client_ip s)) 32
    (Some (ip46_ip4 (ps_client_ip s))) (ps_sw_if_index s).
Definition pbindings (s : osvbng_pppoe_session_t) : list fib_route :=
  client4 s ::
  (if ps_ipv6_bound s then [pppoe_route s (ps_sw_if_index s) (ps_client_ipv6 s) 128] else []) ++
  (if ps_delegated_prefix_len s =? 0 then []
   else [pppoe_route s (ps_sw_if_index s) (ps_delegated_prefix s) (ps_delegated_prefix_len s)]).

Record pppoe_routes_ok (m : osvbng_pppoe_main_t) : Prop := {
  pr_exact r : r ∈ routes (pm_calls m) <-> bound pbindings (pm_sessions m) r;
  pr_prefix si s : pm_sessions m !! si = Some s → ps_delegated_prefix_len s ≠ 128
}.

Lemma elem_of_pbindings s r :
  r ∈ pbindings s <->
  r = client4 s \/
  ps_ipv6_bound s = true /\ r = pppoe_route s (ps_sw_if_index s) (ps_client_ipv6 s) 128 \/
  ps_delegated_prefix_len s ≠ 0 /\
    r = pppoe_route s (ps_sw_if_index s) (ps_delegated_prefix s) (ps_delegated_prefix_len s).
Proof.
  unfold pbindings. rewrite elem_of_cons, elem_of_app.
  destruct (ps_ipv6_bound s), (Z.eqb_spec (ps_delegated_prefix_len s) 0);
    rewrite ?list_elem_of_singleton, ?elem_of_nil; naive_solver.
Qed.

Lemma pbindings_iface s r : r ∈ pbindings s → rt_sw_if_index r = ps_sw_if_index s.
Proof. rewrite elem_of_pbindings. intros [->|[[_ ->]|[_ ->]]]; done. Qed.

Lemma lac_one_range s : 0 <= lac_one s <= 1.
Proof. unfold lac_one. by destruct (ps_is_lac_tunneled s). Qed.

(** What no update of a session changes. *)
Definition pshape (s : osvbng_pppoe_session_t) :=
  (ps_session_id s, ps_client_mac s, ps_local_mac s, ps_sw_if_index s, ps_hw_if_index s).

(** [m'] is [m] with an update of the session [si]. *)
Record updated (si : Z) (s : osvbng_pppoe_session_t) (m : osvbng_pppoe_main_t)
    (s' : osvbng_pppoe_session_t) (m' : osvbng_pppoe_main_t) : Prop := {
  up_same :
    (pm_session_table m', pm_free_pppoe_session_hw_if_indices m',
     pm_session_index_by_sw_if_index m') =
    (pm_session_table m, pm_free_pppoe_session_hw_if_indices m,
     pm_session_index_by_sw_if_index m);
  up_sessions : pm_sessions m' = <[si := s']> (pm_sessions m);
  up_shape : pshape s' = pshape s;
  up_count : pm_lac_session_count m' = pm_lac_session_count m - lac_one s + lac_one s';
  up_visible : visible (pm_calls m') = visible (pm_calls m)
}.

Section Inv.

Context `{AccessVpp}.

Lemma updated_refl si s m : pm_sessions m !! si = Some s → updated si s m s m.
Proof. intros Hs. split; try done; [by rewrite insert_id|lia]. Qed.

Lemma updated_trans si s m s1 m1 s2 m2 :
  updated si s m s1 m1 → updated si s1 m1 s2 m2 → updated si s m s2 m2.
Proof.
  intros [A1 A2 A3 A4 A5] [B1 B2 B3 B4 B5]. split; try congruence; [|lia].
  by rewrite B2, A2, insert_insert_eq.
Qed.

Lemma updated_ok si s m s' m' :
  pm_sessions m !! si = Some s → updated si s m s' m' → pppoe_ok m → pppoe_ok m'.
Proof.
  intros Hs [Hsame HS Hsh Hc Hv] [H1 H2 H3 H4 H5 H6]. injection Hsame as E1 E2 E3.
  injection Hsh as Ei Em El Ew Eh.
  assert (pkey s' = pkey s) as Ek by (unfold pkey; by rewrite Em, Ei).
  split.
  - intros key r. rewrite E1, HS. intros Hr. destruct (H1 key r Hr) as (sj & s0 & -> & Hj & <-).
    exists sj. destruct (decide (sj = si)) as [->|].
    + exists s'. rewrite lookup_insert_eq. split_and!; [done..|]. rewrite Ek. congruence.
    + exists s0. by rewrite lookup_insert_ne.
  - intros sj s0. rewrite E1, HS. destruct (decide (sj = si)) as [->|].
    + rewrite lookup_insert_eq. intros [= <-]. rewrite Ek. by apply H2.
    + rewrite lookup_insert_ne by done. apply H2.
  - intros sj s0. rewrite HS. destruct (decide (sj = si)) as [->|].
    + rewrite lookup_insert_eq. intros [= <-]. specialize (H3 si s Hs).
      unfold session_wf in *. by rewrite Ek, Em, El, Ei.
    + rewrite lookup_insert_ne by done. apply H3.
  - rewrite E2, E3, HS, fmap_insert.
    replace (powned s') with (powned s) by (unfold powned; by rewrite Ew, Eh).
    rewrite insert_id; [done|]. by rewrite lookup_fmap, Hs.
  - intros w. by rewrite Hv, E3.
  - rewrite Hc, H6, HS, (msum_insert _ _ _ _ _ Hs). lia.
Qed.

Lemma session_of_sw m w si :
  pppoe_ok m → pm_session_index_by_sw_if_index m !! w = Some si →
  exists s, pm_sessions m !! si = Some s /\ ps_sw_if_index s = w.
Proof.
  intros Hok Hi. destruct (if_owner _ _ _ (pk_ifaces m Hok) w si Hi) as [hw Ho].
  rewrite lookup_fmap in Ho. destruct (pm_sessions m !! si) as [s|] eqn:Es; [|done].
  exists s. split; [done|]. by injection Ho as <- _.
Qed.

Lemma sw_of_session m si s :
  pppoe_ok m → pm_sessions m !! si = Some s →
  pm_session_index_by_sw_if_index m !! ps_sw_if_index s = Some si.
Proof.
  intros Hok Hs. destruct (if_owned _ _ _ (pk_ifaces m Hok) si (ps_sw_if_index s) (ps_hw_if_index s))
    as [Hb _]; [by rewrite lookup_fmap, Hs|done].
Qed.

(** Interfaces keep the routes of different sessions apart. *)
Lemma pother_iface m si s r :
  pppoe_ok m → pm_sessions m !! si = Some s → bound pbindings (delete si (pm_sessions m)) r →
  rt_sw_if_index r ≠ ps_sw_if_index s.
Proof.
  intros Hok Hs (sj & s' & [Hne Hs']%lookup_delete_Some & Hr) Hw.
  rewrite (pbindings_iface s' r Hr) in Hw.
  pose proof (sw_of_session m si s Hok Hs). pose proof (sw_of_session m sj s' Hok Hs'). congruence.
Qed.

(** A binding more, a binding less. *)
Lemma routes_updated si s m s' m' c :
  pppoe_ok m → pm_sessions m !! si = Some s → updated si s m s' m' →
  pm_calls m' = pm_calls m ++ [c] → ps_delegated_prefix_len s' ≠ 128 →
  match c with
  | PathAdd r' => ∀ r, r ∈ pbindings s' <-> r = r' \/ r ∈ pbindings s
  | PathRemove r' =>
      rt_sw_if_index r' = ps_sw_if_index s /\ ∀ r, r ∈ pbindings s' <-> r ≠ r' /\ r ∈ pbindings s
  | _ => False
  end →
  pppoe_routes_ok m → pppoe_routes_ok m'.
Proof.
  intros Hok Hs Hrb Hc Hlen Hb [Hr Hp]. split.
  - rewrite Hc, (up_sessions _ _ _ _ _ Hrb). apply (bound_step _ _ si s); [done..|].
    destruct c as [|r'| | | | | | | | | | | |]; try done. destruct Hb as [Hw Hb]. split; [|done].
    intros Ho. by apply (pother_iface m si s r' Hok Hs Ho).
  - intros sj s0. rewrite (up_sessions _ _ _ _ _ Hrb). destruct (decide (sj = si)) as [->|].
    + rewrite lookup_insert_eq. by intros [= <-].
    + rewrite lookup_insert_ne by done. apply Hp.
Qed.

(** ** The binding calls *)

Definition punbind6 (s : osvbng_pppoe_session_t) : osvbng_pppoe_session_t :=
  if ps_ipv6_bound s then s⟪ps_client_ipv6 := 0⟫⟪ps_ipv6_bound := false⟫ else s.
Definition punbindp (s : osvbng_pppoe_session_t) : osvbng_pppoe_session_t :=
  if ps_delegated_prefix_len s =? 0 then s
  else s⟪ps_delegated_prefix := 0⟫⟪ps_delegated_prefix_len := 0⟫⟪ps_pd_next_hop := 0⟫.

(** One call and one update of the session. *)
Lemma updated_step si s m c g :
  pm_sessions m !! si = Some s → is_path c = true → pshape (g s) = pshape s →
  lac_one (g s) = lac_one s →
  updated si s m (g s) (upd_pppoe_session si g (pppoe_call [c] m)) /\
  pm_calls (upd_pppoe_session si g (pppoe_call [c] m)) = pm_calls m ++ [c].
Proof.
  intros Hs Hc Hg Hl. split; [|done]. split; try done.
  - unfold upd_pppoe_session, pppoe_call. rproj. by apply alter_insert_lookup.
  - unfold upd_pppoe_session, pppoe_call. rproj. lia.
  - unfold upd_pppoe_session, pppoe_call. rproj. apply visible_paths. by repeat constructor.
Qed.

Section Unbind.

Context (m : osvbng_pppoe_main_t) (si : Z) (s : osvbng_pppoe_session_t).
Context (Hs : pm_sessions m !! si = Some s).

Lemma pclear_ipv6_ok addr :
  let m' := pppoe_clear_ipv6 m (ps_sw_if_index s) addr si s in
  updated si s m (punbind6 s) m' /\
  (pppoe_ok m → (ps_ipv6_bound s = true → ps_client_ipv6 s = addr) → pppoe_routes_ok m →
   pppoe_routes_ok m').
Proof.
  cbv zeta. unfold pppoe_clear_ipv6, punbind6. destruct (ps_ipv6_bound s) eqn:Eb; cbn [negb].
  2: { split; [by apply updated_refl|done]. }
  destruct (updated_step si s m (PathRemove (pppoe_route s (ps_sw_if_index s) addr 128))
    (λ s, s⟪ps_client_ipv6 := 0⟫⟪ps_ipv6_bound := false⟫) Hs) as [Hrb Hc]; [done..|].
  split; [exact Hrb|]. intros Hok Ha Hr. specialize (Ha eq_refl). subst addr.
  pose proof (pr_prefix m Hr si s Hs) as Hlen.
  eapply routes_updated; [exact Hok|exact Hs|exact Hrb|exact Hc|exact Hlen| |done].
  split; [done|]. intros r. rewrite !elem_of_pbindings. rproj. rewrite Eb.
  unfold pppoe_route, client4 in *. rproj. naive_solver.
Qed.

Lemma pclear_prefix_ok prefix len :
  let m' := pppoe_clear_prefix m (ps_sw_if_index s) prefix len si s in
  updated si s m (punbindp s) m' /\
  (pppoe_ok m →
   (ps_delegated_prefix_len s ≠ 0 →
      ps_delegated_prefix s = prefix /\ ps_delegated_prefix_len s = len) →
   pppoe_routes_ok m → pppoe_routes_ok m').
Proof.
  cbv zeta. unfold pppoe_clear_prefix, punbindp.
  destruct (Z.eqb_spec (ps_delegated_prefix_len s) 0) as [E|E].
  { split; [by apply updated_refl|done]. }
  destruct (updated_step si s m (PathRemove (pppoe_route s (ps_sw_if_index s) prefix len))
    (λ s, s⟪ps_delegated_prefix := 0⟫⟪ps_delegated_prefix_len := 0⟫⟪ps_pd_next_hop := 0⟫)
    Hs) as [Hrb Hc]; [done..|].
  split; [exact Hrb|]. intros Hok Ha Hr. destruct (Ha E) as [<- <-].
  pose proof (pr_prefix m Hr si s Hs) as Hlen.
  eapply routes_updated; [exact Hok|exact Hs|exact Hrb|exact Hc|done| |done].
  split; [done|]. intros r. rewrite !elem_of_pbindings. rproj.
  unfold pppoe_route, client4 in *. rproj. naive_solver.
Qed.

(** A binding replaces an earlier one. *)
Lemma prebind_ok s1 m1 c g :
  updated si s m s1 m1 → pshape (g s1) = pshape s1 → lac_one (g s1) = lac_one s1 →
  let m2 := upd_pppoe_session si g (pppoe_call [PathAdd c] m1) in
  updated si s m (g s1) m2 /\
  (pppoe_ok m → pppoe_routes_ok m1 → ps_delegated_prefix_len (g s1) ≠ 128 →
   (∀ r, r ∈ pbindings (g s1) <-> r = c \/ r ∈ pbindings s1) → pppoe_routes_ok m2).
Proof.
  intros Hrb Hg Hl. cbv zeta.
  assert (pm_sessions m1 !! si = Some s1) as Hs1.
  { by rewrite (up_sessions _ _ _ _ _ Hrb), lookup_insert_eq. }
  destruct (updated_step si s1 m1 (PathAdd c) g Hs1 eq_refl Hg Hl) as [Hrb2 Hc2].
  split; [by apply (updated_trans si s m s1 m1)|]. intros Hok Hr Hlen Hb.
  apply (routes_updated si s1 m1 (g s1) _ (PathAdd c)); try done. by apply (updated_ok si s m s1).
Qed.

End Unbind.

(** What a binding call does, given what its action does to a session. *)
Lemma with_session_ok m w f (P : osvbng_pppoe_session_t → Prop) :
  pppoe_ok m →
  (∀ si s, pm_sessions m !! si = Some s → ps_sw_if_index s = w →
     exists s', updated si s m s' (f si s) /\ (P s → pppoe_routes_ok m → pppoe_routes_ok (f si s))) →
  exists m' rv, with_pppoe_session m w f = Some (m', rv) /\ pppoe_ok m' /\
    ((∀ si s, pm_session_index_by_sw_if_index m !! w = Some si → pm_sessions m !! si = Some s → P s) →
     pppoe_routes_ok m → pppoe_routes_ok m').
Proof.
  intros Hok Hf. unfold with_pppoe_session.
  destruct (pm_session_index_by_sw_if_index m !! w) as [si|] eqn:Ei;
    [|by exists m, RV_INVALID_SW_IF_INDEX].
  destruct (session_of_sw m w si Hok Ei) as (s & Hs & Hw). rewrite Hs. cbn [mbind option_bind].
  destruct (Hf si s Hs Hw) as (s' & Hrb & Hr). exists (f si s), RV_OK. split; [done|].
  split; [by apply (updated_ok si s m s')|]. intros HP. apply Hr. eauto.
Qed.

Lemma pset_ipv6_ok m w addr is_add :
  pppoe_ok m →
  exists m' rv, vnet_pppoe_set_session_ipv6 m w addr is_add = Some (m', rv) /\ pppoe_ok m' /\
    ((∀ si s, pm_session_index_by_sw_if_index m !! w = Some si → pm_sessions m !! si = Some s →
        is_add = false → ps_ipv6_bound s = true → ps_client_ipv6 s = addr) →
     pppoe_routes_ok m → pppoe_routes_ok m').
Proof.
  intros Hok. apply with_session_ok; [done|]. intros si s Hs <-.
  destruct is_add.
  2: { destruct (pclear_ipv6_ok m si s Hs addr) as [Hrb Hr]. eexists. split; [exact Hrb|].
       intros HP. apply Hr; auto. }
  destruct (ps_ipv6_bound s && (ps_client_ipv6 s =? addr));
    [exists s; split; [by apply updated_refl|done]|].
  destruct (pclear_ipv6_ok m si s Hs (ps_client_ipv6 s)) as [Hrb1 Hr1].
  assert ((if ps_ipv6_bound s then pppoe_clear_ipv6 m (ps_sw_if_index s) (ps_client_ipv6 s) si s else m) =
          pppoe_clear_ipv6 m (ps_sw_if_index s) (ps_client_ipv6 s) si s) as ->.
  { unfold pppoe_clear_ipv6. by destruct (ps_ipv6_bound s). }
  destruct (prebind_ok m si s Hs _ _ (pppoe_route s (ps_sw_if_index s) addr 128)
    (λ s, s⟪ps_client_ipv6 := addr⟫⟪ps_ipv6_bound := true⟫) Hrb1) as [Hrb Hr]; [done..|].
  eexists. split; [exact Hrb|]. intros _ Hro. apply (Hr Hok); [auto| |].
  - unfold punbind6. pose proof (pr_prefix m Hro si s Hs). by destruct (ps_ipv6_bound s).
  - intros r. rewrite !elem_of_pbindings. unfold punbind6, pppoe_route, client4.
    destruct (ps_ipv6_bound s) eqn:E; rproj; rewrite ?E; naive_solver.
Qed.

Lemma pset_prefix_ok m w prefix len next_hop is_add :
  pppoe_ok m →
  exists m' rv, vnet_pppoe_set_delegated_prefix m w prefix len next_hop is_add = Some (m', rv) /\
    pppoe_ok m' /\
    ((∀ si s, pm_session_index_by_sw_if_index m !! w = Some si → pm_sessions m !! si = Some s →
        if is_add then len ≠ 0 /\ len ≠ 128
        else ps_delegated_prefix_len s ≠ 0 →
             ps_delegated_prefix s = prefix /\ ps_delegated_prefix_len s = len) →
     pppoe_routes_ok m → pppoe_routes_ok m').
Proof.
  intros Hok. apply with_session_ok; [done|]. intros si s Hs <-.
  destruct is_add.
  2: { destruct (pclear_prefix_ok m si s Hs prefix len) as [Hrb Hr]. eexists.
       split; [exact Hrb|]. auto. }
  destruct (_ && _); [exists s; split; [by apply updated_refl|done]|].
  destruct (pclear_prefix_ok m si s Hs (ps_delegated_prefix s) (ps_delegated_prefix_len s))
    as [Hrb1 Hr1].
  assert ((if ps_delegated_prefix_len s =? 0 then m else
             pppoe_clear_prefix m (ps_sw_if_index s) (ps_delegated_prefix s)
               (ps_delegated_prefix_len s) si s) =
          pppoe_clear_prefix m (ps_sw_if_index s) (ps_delegated_prefix s)
            (ps_delegated_prefix_len s) si s) as ->.
  { unfold pppoe_clear_prefix. by destruct (_ =? 0). }
  destruct (prebind_ok m si s Hs _ _ (pppoe_route s (ps_sw_if_index s) prefix len)
    (λ s, s⟪ps_delegated_prefix := prefix⟫⟪ps_delegated_prefix_len := len⟫
           ⟪ps_pd_next_hop := next_hop⟫) Hrb1) as [Hrb Hr].
  1, 2: unfold punbindp; by destruct (_ =? 0).
  eexists. split; [exact Hrb|]. intros [Hlen0 Hlen] Hro. apply (Hr Hok); [auto|done|].
  intros r. rewrite !elem_of_pbindings. unfold punbindp, pppoe_route, client4.
  destruct (Z.eqb_spec (ps_delegated_prefix_len s) 0) as [E|E]; rproj; rewrite ?E;
    intuition congruence.
Qed.

End Inv.
