(* ===== verification/PppoeRun.v ===== *)
(** Runs of the PPPoE plugin's API: every call keeps the invariants.

    A run starts at [osvbng_pppoe_init] and makes calls in any order; the slots and
    interfaces VPP hands out are unused ones, MAC addresses are six bytes, and no
    session is asked for under the one reserved key.  No call of a run touches a freed
    entry; the routes stay exact as long as each is removed by what it was added with,
    and before its session is. *)

From S2P Require Import Prelude Packet Access PppoeSession PppoeInv.
From stdpp Require Import strings.

#[local] Open Scope Z_scope.

(** A request with byte strings for addresses, not for the reserved key. *)
Definition args_ok (a : vnet_osvbng_pppoe_add_del_session_args_t) : Prop :=
  mac_ok (pa_client_mac a) /\ mac_ok (pa_local_mac a) /\ is_u16 (pa_session_id a) /\
  mac_key (pa_client_mac a) (clib_net_to_host_u16 (pa_session_id a)) ≠ RESERVED_KEY.

Lemma args_mac_key a :
  mac_ok (pa_client_mac a) →
  pppoe_make_key (args_mac a) 0 (clib_net_to_host_u16 (pa_session_id a)) =
  mac_key (pa_client_mac a) (clib_net_to_host_u16 (pa_session_id a)).
Proof.
  intros [Hlen Hb]. rewrite make_key_eq; [|intros p|apply swap16_range].
  - f_equal. apply (nth_ext _ _ 0 0); rewrite bytes_length; [done|].
    intros k Hk. rewrite bytes_nth by done. unfold args_mac.
    rewrite app_nth1 by (rewrite Hlen; lia). f_equal. lia.
  - unfold args_mac. assert (Forall byte (pa_client_mac a ++ [u8 (pa_outer_vlan a);
      u8 (Z.shiftr (pa_outer_vlan a) 8)])) as Hf.
    { apply Forall_app. split; [done|]. repeat constructor; unfold u8; ints. }
    destruct (decide (Z.to_nat p < length (pa_client_mac a ++ [u8 (pa_outer_vlan a);
      u8 (Z.shiftr (pa_outer_vlan a) 8)]))%nat).
    + rewrite List.Forall_forall in Hf. by apply Hf, nth_In.
    + rewrite nth_overflow by lia. unfold byte. lia.
Qed.

(** The key of a request and what the table has for it. *)
Definition akey (a : vnet_osvbng_pppoe_add_del_session_args_t) : Z :=
  mac_key (pa_client_mac a) (clib_net_to_host_u16 (pa_session_id a)).

Lemma lookup_args T a :
  args_ok a →
  fst (pppoe_lookup_1 T EMPTY_CACHE (args_mac a) 0 (clib_net_to_host_u16 (pa_session_id a))) =
  default NO_RESULT (T !! akey a).
Proof.
  intros (Hm & _ & _ & Hk). unfold pppoe_lookup_1. rewrite args_mac_key by done. cbn [fst EMPTY_CACHE].
  unfold RESERVED_KEY in Hk. by rewrite (proj2 (Z.eqb_neq _ _)).
Qed.

Section Run.

Context `{AccessVppLaws}.

(** * Sessions *)

Lemma pppoe_add_ok m si new_hw a result m' sw :
  pppoe_ok m → pm_sessions m !! si = None → 0 <= si < NONE →
  hw_fresh (pm_session_index_by_sw_if_index m) (pm_free_pppoe_session_hw_if_indices m) new_hw →
  args_ok a → pm_session_table m !! akey a = None → fst result = NONE → pa_is_ip6 a = false →
  pppoe_add m si new_hw a result = (m', sw) →
  pppoe_ok m' /\ (pppoe_routes_ok m → pppoe_routes_ok m').
Proof.
  intros Hok Hsi Hslot Hfresh Ha Hk Hres H6. unfold pppoe_add, pppoe_update_1.
  rewrite args_mac_key by apply Ha. fold (akey a). rewrite Hres.
  destruct (take_hw (pm_free_pppoe_session_hw_if_indices m) new_hw) as [free hw] eqn:Et.
  set (w := hw_sw_if_index hw).
  set (tid := if pa_decap_fib_index a =? 0 then 0 else _).
  set (s := new_pppoe_session a w hw tid).
  set (reused := match pm_free_pppoe_session_hw_if_indices m with [] => _ | _ => _ end).
  set (pre := reused ++ [SetHidden w false; SetSup w (pa_encap_if_index a); SetAdminUp w true;
    SetL3Output w; TableBind false w tid; TableBind true w tid]).
  assert (reused ++ [SetHidden w false; SetSup w (pa_encap_if_index a); SetAdminUp w true;
    SetL3Output w; TableBind false w tid; TableBind true w tid; PathAdd (client_route a w)] =
    pre ++ [PathAdd (client4 s)]) as ->.
  { unfold pre. rewrite <- app_assoc. simpl. do 7 f_equal. unfold client_route, client4, s. simpl.
    by rewrite H6. }
  intros [= <- _].
  destruct (iface_start _ _ (powned <$> pm_sessions m) new_hw si free hw (pk_ifaces m Hok))
    as [Hidle Hif]; [by rewrite lookup_fmap, Hsi|done|done|].
  assert (pkey s = akey a) as Hks by done.
  assert (Forall (λ c, is_path c = false) pre) as Hpre.
  { unfold pre, reused. destruct (pm_free_pppoe_session_hw_if_indices m); repeat constructor. }
  unfold pppoe_call. split; [split|intros [Hr Hp]; split]; rproj.
  - intros key r. destruct (decide (key = akey a)) as [->|Hne].
    + rewrite lookup_insert_eq. intros [= <-]. exists si, s. by rewrite lookup_insert_eq.
    + rewrite lookup_insert_ne by done. intros Hr.
      destruct (pk_table m Hok key r Hr) as (sj & s0 & -> & Hj & <-). exists sj, s0.
      rewrite lookup_insert_ne; [done|]. congruence.
  - intros sj s0. destruct (decide (sj = si)) as [->|Hne].
    + rewrite lookup_insert_eq. intros [= <-]. by rewrite Hks, lookup_insert_eq.
    + rewrite lookup_insert_ne by done. intros Hj. pose proof (pk_keyed m Hok sj s0 Hj) as Hkj.
      rewrite lookup_insert_ne; [done|]. intros He. by rewrite <- He, Hk in Hkj.
  - intros sj s0. destruct (decide (sj = si)) as [->|Hne].
    + rewrite lookup_insert_eq. intros [= <-]. split; [done|]. exact Ha.
    + rewrite lookup_insert_ne by done. apply (pk_session m Hok).
  - rewrite fmap_insert. exact Hif.
  - intros w'. rewrite app_assoc, visible_paths by by repeat constructor.
    assert (visible (pm_calls m ++ pre) = {[w]} ∪ visible (pm_calls m)) as ->.
    { rewrite visible_app. unfold pre, reused. by destruct (pm_free_pppoe_session_hw_if_indices m). }
    rewrite elem_of_union, elem_of_singleton, (pk_visible m Hok).
    destruct (decide (w' = w)) as [->|].
    + rewrite lookup_insert_eq. naive_solver.
    + rewrite lookup_insert_ne by done. naive_solver.
  - rewrite msum_insert_new by done. apply (pk_count m Hok).
  - intros r. rewrite app_assoc, elem_of_routes_add, (routes_no_paths _ pre) by done.
    rewrite Hr, bound_insert, delete_id by done. rewrite elem_of_pbindings. simpl. naive_solver.
  - intros sj s0. destruct (decide (sj = si)) as [->|Hne].
    + rewrite lookup_insert_eq. intros [= <-]. simpl. lia.
    + rewrite lookup_insert_ne by done. apply Hp.
Qed.

Lemma pppoe_del_ok m si s a :
  pppoe_ok m → pm_sessions m !! si = Some s → args_ok a → pkey s = akey a →
  pppoe_ok (pppoe_del m si s a) /\
  (client_route a (ps_sw_if_index s) = client4 s → ps_ipv6_bound s = false →
   ps_delegated_prefix_len s = 0 → pppoe_routes_ok m → pppoe_routes_ok (pppoe_del m si s a)).
Proof.
  intros Hok Hs Ha Hk. unfold pppoe_del, pppoe_delete_1, pppoe_call. cbv zeta.
  rewrite args_mac_key by apply Ha. fold (akey a). rewrite <- Hk.
  set (w := ps_sw_if_index s). pose proof (sw_of_session m si s Hok Hs) as Hw.
  split; [split|intros Hc H6 Hpl [Hr Hp]; split]; rproj.
  - intros key r [Hne Hr]%lookup_delete_Some.
    destruct (pk_table m Hok key r Hr) as (sj & s0 & -> & Hj & <-). exists sj, s0.
    rewrite lookup_delete_ne; [done|]. congruence.
  - intros sj s0 [Hne Hj]%lookup_delete_Some. pose proof (pk_keyed m Hok sj s0 Hj) as Hkj.
    rewrite lookup_delete_ne; [done|]. intros He. rewrite <- He in Hkj.
    rewrite (pk_keyed m Hok si s Hs) in Hkj. apply Hne. by injection Hkj.
  - intros sj s0 [_ Hj]%lookup_delete_Some. by apply (pk_session m Hok).
  - rewrite fmap_delete. apply iface_park; [apply (pk_ifaces m Hok)|]. by rewrite lookup_fmap, Hs.
  - intros w'. rewrite visible_app. cbn [foldl shown_call].
    rewrite elem_of_difference, elem_of_singleton, (pk_visible m Hok).
    destruct (decide (w' = w)) as [->|].
    + rewrite lookup_delete_eq. split; [tauto|by intros [? ?]].
    + rewrite lookup_delete_ne by done. tauto.
  - rewrite (pk_count m Hok), (msum_delete _ _ _ _ Hs).
    pose proof (msum_nonneg lac_one (delete si (pm_sessions m)) (λ x, proj1 (lac_one_range x))).
    assert (lac_one s = if ps_is_lac_tunneled s then 1 else 0) as -> by done.
    destruct (ps_is_lac_tunneled s); cbn [andb]; [|lia].
    rewrite (proj2 (Z.ltb_lt _ _)) by lia. lia.
  - intros r. rewrite Hc.
    change [PathRemove (client4 s); ResetL3Output w; SetAdminUp w false; SetHidden w true; SetSup w w]
      with ([PathRemove (client4 s)] ++ [ResetL3Output w; SetAdminUp w false; SetHidden w true; SetSup w w]).
    rewrite app_assoc, routes_no_paths by repeat constructor.
    rewrite elem_of_routes_remove, Hr, (bound_split _ _ si s) by done.
    rewrite elem_of_pbindings, H6, Hpl.
    pose proof (pother_iface m si s r Hok Hs) as Ho.
    split; [naive_solver|]. intros Hb. split; [|by right]. intros ->. by apply Ho.
  - intros sj s0 [_ Hj]%lookup_delete_Some. by apply (Hp sj).
Qed.

(** What is asked of a deletion for the routes: the session's own route is named, and
    nothing else is bound. *)
Definition delete_faithful (m : osvbng_pppoe_main_t) (a : vnet_osvbng_pppoe_add_del_session_args_t)
    : Prop :=
  pa_is_add a = false →
  ∀ si s, pm_sessions m !! si = Some s → pkey s = akey a →
    client_route a (ps_sw_if_index s) = client4 s /\ ps_ipv6_bound s = false /\
    ps_delegated_prefix_len s = 0.

Lemma padd_del_session_ok m si new_hw a :
  pppoe_ok m → pm_sessions m !! si = None → 0 <= si < NONE →
  hw_fresh (pm_session_index_by_sw_if_index m) (pm_free_pppoe_session_hw_if_indices m) new_hw →
  args_ok a → pa_is_ip6 a = false →
  exists m' rv sw, vnet_osvbng_pppoe_add_del_session m si new_hw a = Some (m', rv, sw) /\
    pppoe_ok m' /\ (delete_faithful m a → pppoe_routes_ok m → pppoe_routes_ok m').
Proof.
  intros Hok Hsi Hslot Hfresh Ha H6. unfold vnet_osvbng_pppoe_add_del_session.
  pose proof (lookup_args (pm_session_table m) a Ha) as Hl.
  destruct (pppoe_lookup_1 _ _ _ _ _) as [result cached]. simpl in Hl. subst result.
  destruct (pm_session_table m !! akey a) as [r|] eqn:Ek.
  - destruct (pk_table m Hok _ r Ek) as (sj & s & -> & Hs & Hk). change (snd (default NO_RESULT (Some (entry sj)))) with sj.
    destruct (pk_session m Hok sj s Hs) as [Hj _].
    rewrite (proj2 (Z.eqb_neq sj NONE)) by lia. cbn [negb]. rewrite Hs. cbn [mbind option_bind].
    destruct (pa_is_add a) eqn:Eadd; [by eexists _, _, _|].
    destruct (pppoe_del_ok m sj s a Hok Hs Ha Hk) as [Hok' Hr'].
    eexists _, _, _. split; [done|]. split; [done|]. intros Hf.
    destruct (Hf Eadd sj s Hs Hk) as (? & ? & ?). by apply Hr'.
  - change (default NO_RESULT None) with NO_RESULT. change (snd NO_RESULT =? NONE) with true. cbn [negb].
    destruct (pa_is_add a); [|by eexists _, _, _].
    destruct (sw_interface_is_free _); [by eexists _, _, _|].
    destruct (negb (pppoe_decap_fib_is_valid _ _)); [by eexists _, _, _|].
    destruct (pppoe_add m si new_hw a NO_RESULT) as [m' sw] eqn:Eadd.
    destruct (pppoe_add_ok m si new_hw a NO_RESULT m' sw) as [? Hr']; try done.
    eexists _, _, _. split; [done|]. auto.
Qed.

(** * Bridging *)

Lemma lac_count_bound m : pppoe_ok m → 0 <= pm_lac_session_count m <= NONE.
Proof.
  intros Hok. rewrite (pk_count m Hok). split; [apply msum_nonneg; apply lac_one_range|].
  apply (msum_keys_bound _ (λ i _, i)); [by unfold NONE| |by intros].
  intros i s Hs. destruct (pk_session m Hok i s Hs). unfold lac_one.
  destruct (ps_is_lac_tunneled s); [by right|by left].
Qed.

Lemma set_lac_ok m w flag l2tp :
  pppoe_ok m →
  exists m' ok, osvbng_pppoe_set_lac_tunnel m w flag l2tp = Some (m', ok) /\ pppoe_ok m' /\
    (pppoe_routes_ok m → pppoe_routes_ok m').
Proof.
  intros Hok. unfold osvbng_pppoe_set_lac_tunnel.
  destruct (pm_session_index_by_sw_if_index m !! w) as [si|] eqn:Ei; [|by exists m, false].
  destruct (session_of_sw m w si Hok Ei) as (s & Hs & _). rewrite Hs. cbn [mbind option_bind].
  destruct (_ && _); [by exists m, true|].
  eexists _, _. split; [reflexivity|].
  set (g := λ t : osvbng_pppoe_session_t, t⟪ps_is_lac_tunneled := flag⟫
    ⟪ps_lac_l2tp_session_index := if flag then l2tp else 0⟫).
  set (c := if ps_is_lac_tunneled s && negb flag then _ else _).
  assert (c = pm_lac_session_count m - lac_one s + lac_one (g s)) as Hc.
  { pose proof (lac_count_bound m Hok) as [Hn Hb]. rewrite (pk_count m Hok) in *.
    rewrite (msum_delete _ _ _ _ Hs) in *.
    pose proof (msum_nonneg lac_one (delete si (pm_sessions m)) (λ x, proj1 (lac_one_range x))).
    assert (lac_one (g s) = if flag then 1 else 0) as -> by done.
    assert (msum lac_one (delete si (pm_sessions m)) < NONE) as Hlt.
    { assert (msum lac_one (<[si := s⟪ps_is_lac_tunneled := true⟫]> (pm_sessions m)) <= NONE) as Hle.
      - apply (msum_keys_bound _ (λ i _, i)); [by unfold NONE| |by intros].
        intros i t Hi. unfold lac_one. destruct (ps_is_lac_tunneled t); [right|by left].
        split; [done|]. destruct (decide (i = si)) as [->|]; [by apply (pk_session m Hok si s)|].
        rewrite lookup_insert_ne in Hi by done. by apply (pk_session m Hok i t).
      - rewrite (msum_insert _ _ _ _ _ Hs), (msum_delete _ _ _ _ Hs) in Hle.
        change (lac_one (s⟪ps_is_lac_tunneled := true⟫)) with 1 in Hle. lia. }
    unfold c. clear c. rewrite (pk_count m Hok), (msum_delete _ _ _ _ Hs).
    assert (lac_one s = if ps_is_lac_tunneled s then 1 else 0) as E by done. rewrite E in *.
    destruct (ps_is_lac_tunneled s), flag; cbn [andb negb]; zcases; try lia.
    rewrite u32_small by (unfold is_u32, NONE in *; lia). lia. }
  assert (updated si s m (g s) (upd_pppoe_session si g (m⟪pm_lac_session_count := c⟫))) as Hup.
  { split; try done. unfold upd_pppoe_session. rproj. by apply alter_insert_lookup. }
  split; [by apply (updated_ok si s m (g s))|]. intros [Hr Hp]. unfold upd_pppoe_session. split; rproj.
  - intros r. rewrite Hr. rewrite (alter_insert_lookup g si _ s Hs), bound_insert.
    rewrite (bound_split _ _ si s) by done. done.
  - intros sj s0. rewrite (alter_insert_lookup g si _ s Hs). destruct (decide (sj = si)) as [->|].
    + rewrite lookup_insert_eq. intros [= <-]. apply (Hp si s Hs).
    + rewrite lookup_insert_ne by done. apply Hp.
Qed.

(** * Runs *)

Inductive pppoe_op :=
  | OpSession (new_idx new_hw decap_vrf_id : Z) (a : vnet_osvbng_pppoe_add_del_session_args_t)
  | OpLac (sw_if_index : Z) (is_lac_tunneled : bool) (lac_l2tp_session_index : Z)
  | OpIpv6 (sw_if_index addr : Z) (is_add : bool)
  | OpPrefix (sw_if_index prefix len next_hop : Z) (is_add : bool).

Definition pppoe_exec (m : osvbng_pppoe_main_t) (op : pppoe_op)
    : option (osvbng_pppoe_main_t * vnet_rv) :=
  match op with
  | OpSession i hw vrf a => fst <$> vl_api_osvbng_pppoe_add_del_session_t_handler m i hw vrf a
  | OpLac sw flag l2tp => vl_api_osvbng_pppoe_set_lac_tunnel_t_handler m sw flag l2tp
  | OpIpv6 sw addr is_add => vl_api_osvbng_pppoe_set_session_ipv6_t_handler m sw addr is_add
  | OpPrefix sw p len nh is_add =>
      vl_api_osvbng_pppoe_set_delegated_prefix_t_handler m sw p len nh is_add
  end.

(** A message of the API: the identifier of the session is in network order. *)
Definition message_ok (a : vnet_osvbng_pppoe_add_del_session_args_t) : Prop :=
  mac_ok (pa_client_mac a) /\ mac_ok (pa_local_mac a) /\ is_u16 (pa_session_id a) /\
  mac_key (pa_client_mac a) (pa_session_id a) ≠ RESERVED_KEY.

(** What VPP hands out is not in use, and messages are well formed. *)
Definition pppoe_op_ok (m : osvbng_pppoe_main_t) (op : pppoe_op) : Prop :=
  match op with
  | OpSession i hw _ a =>
      pm_sessions m !! i = None /\ 0 <= i < NONE /\
      hw_fresh (pm_session_index_by_sw_if_index m) (pm_free_pppoe_session_hw_if_indices m) hw /\
      message_ok a
  | _ => True
  end.

(** A route is removed by what it was added with; a session is deleted once its IPv6
    bindings are; a delegated prefix is neither everything nor a single address. *)
Definition pppoe_op_faithful (m : osvbng_pppoe_main_t) (op : pppoe_op) : Prop :=
  match op with
  | OpSession _ _ vrf a =>
      pa_is_add a = false →
      ∀ si s, pm_sessions m !! si = Some s →
        ps_client_mac s = pa_client_mac a →
        ps_session_id s = clib_net_to_host_u16 (pa_session_id a) →
        ip4_fib_index_by_table_id (clib_net_to_host_u32 vrf) = Some (ps_decap_fib_index s) /\
        ip46_ip4 (pa_client_ip a) = ip46_ip4 (ps_client_ip s) /\
        ps_ipv6_bound s = false /\ ps_delegated_prefix_len s = 0
  | OpLac _ _ _ => True
  | OpIpv6 sw addr is_add =>
      ∀ si s, pm_session_index_by_sw_if_index m !! clib_net_to_host_u32 sw = Some si →
        pm_sessions m !! si = Some s →
        is_add = false → ps_ipv6_bound s = true → ps_client_ipv6 s = addr
  | OpPrefix sw prefix len _ is_add =>
      ∀ si s, pm_session_index_by_sw_if_index m !! clib_net_to_host_u32 sw = Some si →
        pm_sessions m !! si = Some s →
        if is_add then len ≠ 0 /\ len ≠ 128
        else ps_delegated_prefix_len s ≠ 0 →
             ps_delegated_prefix s = prefix /\ ps_delegated_prefix_len s = len
  end.

(** Sessions of one key have one address and identifier. *)
Lemma pkey_inj m si s mac sid :
  pppoe_ok m → pm_sessions m !! si = Some s → mac_ok mac → is_u16 sid →
  pkey s = mac_key mac (clib_net_to_host_u16 sid) → ps_client_mac s = mac /\ ps_session_id s = sid.
Proof.
  intros Hok Hs [Hl Hb] Hsid Hk. destruct (pk_session m Hok si s Hs) as [_ ([Hl' Hb'] & _ & Hsid' & _)].
  apply mac_key_inj in Hk as [-> He]; try done; [|congruence|apply swap16_range..].
  split; [done|]. by rewrite <- (swap16_involutive (ps_session_id s)), He, swap16_involutive.
Qed.

Lemma pppoe_exec_ok m op :
  pppoe_ok m → pppoe_op_ok m op →
  exists m' rv, pppoe_exec m op = Some (m', rv) /\ pppoe_ok m' /\
    (pppoe_op_faithful m op → pppoe_routes_ok m → pppoe_routes_ok m').
Proof.
  intros Hok Hf. destruct op as [i hw vrf a|w flag l2tp|w addr is_add|w p len nh is_add]; simpl in *.
  - unfold vl_api_osvbng_pppoe_add_del_session_t_handler. destruct Hf as (Hi & Hslot & Hhw & Ha).
    destruct (ip4_fib_index_by_table_id _) as [fib|] eqn:Ef; [|by eexists _, _].
    match goal with |- context [vnet_osvbng_pppoe_add_del_session m i hw ?a] => set (a' := a) end.
    destruct Ha as (Hm & Hl & Hsid & Hk).
    assert (akey a' = mac_key (pa_client_mac a) (pa_session_id a)) as Hka.
    { unfold akey, a'. cbn [pa_client_mac pa_session_id]. by rewrite swap16_involutive. }
    assert (args_ok a') as Ha'.
    { split_and!; [done|done|apply swap16_range|]. fold (akey a'). by rewrite Hka. }
    destruct (padd_del_session_ok m i hw a' Hok Hi Hslot Hhw Ha' eq_refl)
      as (m' & rv & sw & E & Hok' & Hr). rewrite E. eexists _, _. split; [reflexivity|].
    split; [done|]. intros Hff. apply Hr. intros Hdel si s Hs Hks.
    destruct (pkey_inj m si s (pa_client_mac a) (clib_net_to_host_u16 (pa_session_id a)) Hok Hs Hm)
      as [E1 E2]; [apply swap16_range|exact Hks|].
    destruct (Hff Hdel si s Hs E1 E2) as (F1 & F2 & F3 & F4). split; [|done].
    unfold client_route, client4, a'. cbn [pa_is_ip6 pa_decap_fib_index pa_client_ip]. congruence.
  - unfold vl_api_osvbng_pppoe_set_lac_tunnel_t_handler.
    destruct (set_lac_ok m (clib_net_to_host_u32 w) flag (clib_net_to_host_u32 l2tp) Hok)
      as (m' & ok & -> & ? & ?). eexists _, _. split; [reflexivity|]. auto.
  - apply pset_ipv6_ok, Hok.
  - apply pset_prefix_ok, Hok.
Qed.

(** The runs of the plugin; [true] when every call was faithful. *)
Inductive pppoe_run (m0 : osvbng_pppoe_main_t) : bool → osvbng_pppoe_main_t → Prop :=
  | prun_init : pppoe_run m0 true m0
  | prun_op f m op m' rv (g : bool) :
      pppoe_run m0 f m → pppoe_op_ok m op → (g = true → pppoe_op_faithful m op) →
      pppoe_exec m op = Some (m', rv) → pppoe_run m0 (f && g) m'.

Lemma pppoe_init_ok node e p :
  pppoe_ok (osvbng_pppoe_init node e p) /\ pppoe_routes_ok (osvbng_pppoe_init node e p).
Proof.
  split; split; unfold osvbng_pppoe_init; simpl; try done.
  - split; simpl; try done. apply NoDup_nil_2.
  - intros w. rewrite lookup_empty. split; [set_solver|by intros []].
  - intros r. split; [set_solver|]. by intros (i & s & Hi & _).
Qed.

Lemma pppoe_run_ok node e p f m :
  pppoe_run (osvbng_pppoe_init node e p) f m → pppoe_ok m /\ (f = true → pppoe_routes_ok m).
Proof.
  destruct (pppoe_init_ok node e p) as [Hi Hr].
  induction 1 as [|f m op m' rv g _ [Hok Hro] Hf Hg Hex]; [done|].
  destruct (pppoe_exec_ok m op Hok Hf) as (m1 & rv1 & E & Hok1 & Hr1).
  rewrite Hex in E. injection E as <- <-. split; [done|].
  intros [-> ->]%andb_true_iff. auto.
Qed.

End Run.
