(* ===== verification/PppoePackets.v ===== *)
(** What the PPPoE packet path does to a packet.

    [pppoe_wire] is an Ethernet frame with a PPPoE session packet in it, behind no, one
    or two tags.  The input node finds the header and the session of any such frame; its
    cache does not show, and its counters come out right.  Both ways to the subscriber
    make the same frame, and a bridged frame crosses a tunnel unchanged. *)

From S2P Require Import Prelude Packet Access L2tpSession L2tpInv L2tpNodes L2tpPackets PppoeSession PppoeInv PppoeRun PppoeNodes.

#[local] Open Scope Z_scope.

(** * Frames *)

(** A tag is a TPID and a TCI. *)
Definition tags_wire (tags : list (Z * Z)) : list Z :=
  concat (map (λ '(tpid, tci), be16 tpid ++ be16 tci) tags) ++ be16 ETHERNET_TYPE_PPPOE_SESSION.

Definition is_tpid (t : Z) : Prop := t = ETHERNET_TYPE_VLAN \/ t = ETHERNET_TYPE_DOT1AD.
Definition tags_wf (tags : list (Z * Z)) : Prop :=
  match tags with
  | [] => True
  | [(t, _)] => is_tpid t
  | [(t, _); (t', _)] => is_tpid t /\ t' = ETHERNET_TYPE_VLAN
  | _ => False
  end.

Definition pppoe_bytes (sid len proto : Z) (payload : list Z) : list Z :=
  [PPPOE_VER_TYPE; 0] ++ be16 sid ++ be16 len ++ be16 proto ++ payload.
Definition pppoe_wire (dst src : list Z) (tags : list (Z * Z)) (sid len proto : Z)
    (payload : list Z) : list Z :=
  dst ++ src ++ tags_wire tags ++ pppoe_bytes sid len proto payload.

(** Where the PPPoE header is. *)
Definition pppoe_offset (tags : list (Z * Z)) : Z := 14 + 4 * Z.of_nat (length tags).

Lemma tags_wire_nil : tags_wire [] = be16 ETHERNET_TYPE_PPPOE_SESSION.
Proof. done. Qed.

Lemma tags_wire_cons t c tags : tags_wire ((t, c) :: tags) = be16 t ++ be16 c ++ tags_wire tags.
Proof. unfold tags_wire. cbn [map concat]. by rewrite <- !app_assoc. Qed.

Lemma tags_wire_length tags :
  Z.of_nat (length (tags_wire tags)) = 2 + 4 * Z.of_nat (length tags).
Proof.
  unfold tags_wire. rewrite length_app, be16_length.
  induction tags as [|[t c] tags IH]; [done|]. simpl in *. lia.
Qed.

Lemma find_pppoe_wire d h tags :
  tags_wf tags → lies d (h + 12) (tags_wire tags) →
  find_pppoe d h = Some (h + pppoe_offset tags).
Proof.
  assert (is_u16 ETHERNET_TYPE_VLAN /\ is_u16 ETHERNET_TYPE_DOT1AD /\
    is_u16 ETHERNET_TYPE_PPPOE_SESSION) as (U1 & U2 & U3) by done.
  unfold find_pppoe, walk_tags, pppoe_offset, SIZEOF_ETHERNET, SIZEOF_VLAN. cbv zeta.
  intros Hwf Hl. destruct tags as [|[t c] [|[t' c'] [|]]]; try done;
    rewrite ?tags_wire_cons, ?tags_wire_nil, ?lies_app in Hl.
  - rewrite (load_be16_at _ _ _ _ Hl) by (done || lia). done.
  - destruct Hl as (H1 & _ & H3). rewrite (load_be16_at _ _ _ t H1) by (lia || by destruct Hwf as [-> | ->]).
    rewrite (load_be16_at _ _ _ _ H3) by (done || (cbn; lia)).
    destruct Hwf as [-> | ->]; cbn; f_equal; lia.
  - destruct Hl as (H1 & _ & H3 & _ & H5). destruct Hwf as [Ht ->].
    rewrite (load_be16_at _ _ _ t H1) by (lia || by destruct Ht as [-> | ->]).
    rewrite (load_be16_at _ _ _ _ H3) by (done || (cbn; lia)).
    change (ETHERNET_TYPE_VLAN =? ETHERNET_TYPE_VLAN) with true. cbv iota zeta.
    rewrite (load_be16_at _ _ _ _ H5) by (done || (cbn; lia)).
    destruct Ht as [-> | ->]; cbn; f_equal; lia.
Qed.

(** The tags of a session. *)
Definition tags_of (s : osvbng_pppoe_session_t) : list (Z * Z) :=
  if negb (ps_outer_vlan s =? 0) && negb (ps_inner_vlan s =? 0) then
    [(ps_outer_tpid s, ps_outer_vlan s); (ETHERNET_TYPE_VLAN, ps_inner_vlan s)]
  else if negb (ps_outer_vlan s =? 0) then [(ps_outer_tpid s, ps_outer_vlan s)]
  else [].

Lemma tags_of_wire s : ethernet_tags s = tags_wire (tags_of s).
Proof. unfold ethernet_tags, tags_of. by destruct (negb _), (negb _). Qed.

Lemma tags_of_bytes s : vlan_bytes s = 4 * Z.of_nat (length (tags_of s)).
Proof. unfold vlan_bytes, tags_of. by destruct (negb _), (negb _). Qed.

Lemma tags_of_wf s : is_tpid (ps_outer_tpid s) → tags_wf (tags_of s).
Proof. unfold tags_of. destruct (negb _), (negb _); simpl; tauto. Qed.

(** A received buffer: it holds [frame] from its L2 header on, and is somewhere past
    that header. *)
Record on_access (b : vlib_buffer_t) (frame : list Z) : Prop := {
  oa_bytes p : byte (b_data b p);
  oa_start : - 2 ^ 15 <= default 0 (b_l2_hdr_offset b) <= b_current_data b;
  oa_frame : lies (b_data b) (default 0 (b_l2_hdr_offset b)) frame;
  oa_here : 0 <= b_current_length b;
  oa_length :
    b_current_data b + b_current_length b =
    default 0 (b_l2_hdr_offset b) + Z.of_nat (length frame);
  oa_end : b_current_data b + b_current_length b < 2 ^ 15
}.

Section Frames.

Context `{VlibVppLaws}.

Lemma rewind_frame b frame :
  on_access b frame →
  rewind b = b⟪b_current_data := default 0 (b_l2_hdr_offset b)⟫
              ⟪b_current_length := Z.of_nat (length frame)⟫.
Proof.
  intros [_ Hs _ Hh Hl He]. unfold rewind. destruct (b_l2_hdr_offset b) as [o|] eqn:Eo; simpl in *.
  - rewrite advance_eq by lia. destruct b; unfold upd; simpl in *. f_equal; lia.
  - rewrite reset_eq by lia. destruct b; unfold upd; simpl in *. f_equal; lia.
Qed.

(** The buffer at the frame's Ethernet header. *)
Lemma rewind_ok b frame :
  on_access b frame →
  contents (rewind b) = frame /\ buf_ok (rewind b) /\
  b_data (rewind b) = b_data b /\ b_rest_length (rewind b) = b_rest_length b /\
  b_current_data (rewind b) = default 0 (b_l2_hdr_offset b) /\
  b_current_length (rewind b) = Z.of_nat (length frame) /\
  b_current_data (rewind b) + b_current_length (rewind b) < 2 ^ 15.
Proof.
  intros Ho. pose proof Ho as [Hb Hs Hf Hh Hl He].
  pose proof (oa_end _ _ Ho). rewrite (rewind_frame b frame Ho). rproj.
  split_and!; try done; try lia.
  - apply contents_lies; rproj; [lia|done].
  - unfold buf_ok. rproj. split_and!; try lia. exact Hb.
Qed.

End Frames.

(** * The cache *)

(** What the input node does to a packet, with the table itself. *)
Definition pppoe_direct `{VlibVpp} (m : osvbng_pppoe_main_t) (b : vlib_buffer_t)
    : option pppoe_outcome :=
  let b := rewind b in
  let d := b_data b in
  let h0 := b_current_data b in
  match find_pppoe d h0 with
  | None => Some (b, PPPOE_INPUT_NEXT_DROP, Some PPPOE_ERROR_BAD_VER_TYPE)
  | Some pppoe0 =>
      match pm_session_table m !! pppoe_make_key d (h0 + 6) (ld16 d (pppoe0 + 2)) with
      | None => Some (pppoe_terminate m None pppoe0 b)
      | Some result =>
          t0 ← pm_sessions m !! snd result;
          Some (if ps_is_lac_tunneled t0 then lac_bridge m t0 b
                else pppoe_terminate m (Some t0) pppoe0 b)
      end
  end.

Section Cache.

Context `{VlibVpp} `{AccessVpp}.

(** A cache that is right about its key. *)
Definition cache_ok (m : osvbng_pppoe_main_t) (c : pppoe_cache) : Prop :=
  snd c = default NO_RESULT (pm_session_table m !! fst c).

Lemma empty_cache_ok m : pppoe_ok m → cache_ok m EMPTY_CACHE.
Proof.
  intros Hok. unfold cache_ok. cbn [fst snd EMPTY_CACHE].
  destruct (pm_session_table m !! (2 ^ 64 - 1)) as [r|] eqn:E; [|done].
  destruct (pk_table m Hok _ r E) as (si & s & _ & Hs & Hk).
  destruct (pk_session m Hok si s Hs) as (_ & _ & _ & _ & Hne). by destruct Hne.
Qed.

Lemma lookup_cached m c d p sid :
  cache_ok m c →
  let '(r, c') := pppoe_lookup_1 (pm_session_table m) c d p sid in
  r = default NO_RESULT (pm_session_table m !! pppoe_make_key d p sid) /\ cache_ok m c'.
Proof.
  intros Hc. unfold pppoe_lookup_1. cbv zeta.
  destruct (Z.eqb_spec (pppoe_make_key d p sid) (fst c)) as [->|_]; [|done]. by rewrite <- Hc.
Qed.

Lemma step_direct m c b :
  pppoe_ok m → cache_ok m c →
  exists c' out, pppoe_input_step m c b = Some (c', out) /\ pppoe_direct m b = Some out /\
    cache_ok m c'.
Proof.
  intros Hok Hc. unfold pppoe_input_step, pppoe_direct. cbv zeta.
  destruct (find_pppoe _ _) as [pppoe0|]; [|by eexists _, _].
  pose proof (lookup_cached m c (b_data (rewind b)) (b_current_data (rewind b) + 6)
    (ld16 (b_data (rewind b)) (pppoe0 + 2)) Hc) as Hl.
  destruct (pppoe_lookup_1 _ _ _ _ _) as [r c']. destruct Hl as [-> Hc'].
  destruct (pm_session_table m !! _) as [r|] eqn:E.
  - destruct (pk_table m Hok _ r E) as (si & s & -> & Hs & _).
    destruct (pk_session m Hok si s Hs) as [Hsi _].
    change (snd (default NO_RESULT (Some (entry si)))) with si. cbn [entry snd].
    rewrite (proj2 (Z.eqb_neq si NONE)), Hs by lia. by eexists _, _.
  - change (snd (default NO_RESULT None) =? NONE) with true. by eexists _, _.
Qed.

Lemma loop_direct m c st frame :
  pppoe_ok m → cache_ok m c →
  exists st' outs, pppoe_input_loop m c st frame = Some (st', outs) /\
    mapM (pppoe_direct m) frame = Some outs.
Proof.
  intros Hok. revert c st. induction frame as [|b frame IH]; intros c st Hc; [by eexists _, _|].
  cbn [pppoe_input_loop]. destruct (step_direct m c b Hok Hc) as (c' & out & -> & Hd & Hc').
  cbn [mbind option_bind]. destruct out as [[b' next] err].
  match goal with |- context [pppoe_input_loop m c' ?st frame] =>
    destruct (IH c' st Hc') as (st' & outs & -> & Houts) end.
  cbn [mbind option_bind]. eexists _, _. split; [done|]. cbn [mapM]. rewrite Hd.
  cbn [mbind option_bind mret option_ret]. by rewrite Houts.
Qed.

End Cache.

(** * Counters *)

Definition bytes_of `{VlibVpp} (out : pppoe_outcome) : Z := u32 (vlib_buffer_length_in_chain out.1.1).

(** The packets of a frame that were decapsulated to an interface. *)
Definition on_iface (w : Z) (out : pppoe_outcome) : bool :=
  is_decapsulated out.1.2 && (b_rx out.1.1 =? w).
Definition tally (w : Z) (f : pppoe_outcome → Z) (outs : list pppoe_outcome) : Z :=
  zsum (map (λ out, if on_iface w out then f out else 0) outs).

(** What was added for an interface. *)
Definition added (w : Z) (f : Z * Z * Z → Z) (l : list (Z * Z * Z)) : Z :=
  zsum (map (λ c, if c.1.1 =? w then f c else 0) l).

Lemma added_app w f l l' : added w f (l ++ l') = added w f l + added w f l'.
Proof. unfold added. by rewrite map_app, zsum_app. Qed.

Lemma added_one w f c : added w f [c] = if c.1.1 =? w then f c else 0.
Proof. unfold added. simpl. lia. Qed.

(** A batch that has not wrapped. *)
Definition batch_ok (st : pppoe_stats) (packets n_bytes : Z) : Prop :=
  0 <= st_n_packets st <= packets /\ 0 <= st_n_bytes st <= n_bytes /\
  (st_n_packets st = 0 → st_n_bytes st = 0) /\ 0 <= st_decapsulated st <= packets.

Definition pending (w : Z) (st : pppoe_stats) (n : Z) : Z := if st_sw_if_index st =? w then n else 0.

Lemma count_packet_ok sw len st packets n_bytes w :
  batch_ok st packets n_bytes → packets + 1 < 2 ^ 32 → n_bytes + len < 2 ^ 32 → 0 <= len →
  let st' := count_packet sw len st in
  batch_ok st' (packets + 1) (n_bytes + len) /\
  added w (λ c, c.1.2) (st_counted st') + pending w st' (st_n_packets st') =
    added w (λ c, c.1.2) (st_counted st) + pending w st (st_n_packets st) +
    (if sw =? w then 1 else 0) /\
  added w snd (st_counted st') + pending w st' (st_n_bytes st') =
    added w snd (st_counted st) + pending w st (st_n_bytes st) + (if sw =? w then len else 0) /\
  st_decapsulated st' = st_decapsulated st + 1.
Proof.
  intros (Hp & Hb & Hz & Hd) Hn Hm Hl. cbv zeta. unfold count_packet. cbv zeta.
  assert (u32 (st_n_packets st + 1) = st_n_packets st + 1 /\
    u32 (st_n_bytes st + len) = st_n_bytes st + len /\
    u32 (st_decapsulated st + 1) = st_decapsulated st + 1 /\
    u32 (st_n_packets st + 1 - 1) = st_n_packets st /\
    u32 (st_n_bytes st + len - len) = st_n_bytes st) as (-> & -> & -> & E4 & E5).
  { split_and!; rewrite u32_small by (unfold is_u32; lia); lia. }
  rewrite E4, E5. unfold pending, batch_ok.
  destruct (Z.eqb_spec sw (st_sw_if_index st)) as [->|Hne];
    cbn [st_sw_if_index st_n_packets st_n_bytes st_counted st_decapsulated].
  - split; [split_and!; lia|]. split_and!; zcases; lia.
  - split; [split_and!; lia|].
    destruct (Z.eqb_spec (st_n_packets st) 0) as [E|E].
    + specialize (Hz E). rewrite E, Hz. split_and!; zcases; lia.
    + rewrite !added_app, !added_one. cbn [fst snd]. split_and!; zcases; lia.
Qed.

Section Counters.

Context `{VlibVpp}.

Lemma tally_cons w f out outs :
  tally w f (out :: outs) = (if on_iface w out then f out else 0) + tally w f outs.
Proof. done. Qed.

Definition decapsulated (outs : list pppoe_outcome) : list pppoe_outcome :=
  List.filter (λ out, is_decapsulated out.1.2) outs.

Lemma loop_counters m c st frame st' outs packets n_bytes w :
  pppoe_input_loop m c st frame = Some (st', outs) →
  batch_ok st packets n_bytes →
  packets + Z.of_nat (length (decapsulated outs)) < 2 ^ 32 →
  n_bytes + zsum (map bytes_of (decapsulated outs)) < 2 ^ 32 →
  batch_ok st' (2 ^ 32) (2 ^ 32) /\
  added w (λ c, c.1.2) (st_counted st') + pending w st' (st_n_packets st') =
    added w (λ c, c.1.2) (st_counted st) + pending w st (st_n_packets st) + tally w (λ _, 1) outs /\
  added w snd (st_counted st') + pending w st' (st_n_bytes st') =
    added w snd (st_counted st) + pending w st (st_n_bytes st) + tally w bytes_of outs /\
  st_decapsulated st' = st_decapsulated st + Z.of_nat (length (decapsulated outs)).
Proof.
  revert c st outs packets n_bytes. induction frame as [|b frame IH]; intros c st outs packets n_bytes.
  { simpl. intros [= <- <-] (? & ? & ? & ?) Hn Hm. simpl in *. unfold batch_ok.
    assert (∀ f, tally w f [] = 0) as Ht by done. rewrite !Ht. split_and!; lia. }
  cbn [pppoe_input_loop]. destruct (pppoe_input_step m c b) as [[c' out]|]; [|done].
  cbn [mbind option_bind]. destruct out as [[b' next] err].
  set (st1 := if is_decapsulated next then _ else st).
  destruct (pppoe_input_loop m c' st1 frame) as [[st2 outs2]|] eqn:El; [|done].
  cbn [mbind option_bind]. intros [= <- <-] Hb. cbn [decapsulated List.filter fst snd].
  fold (decapsulated outs2). rewrite !tally_cons. unfold on_iface at 1 2. cbn [fst snd].
  subst st1. destruct (is_decapsulated next); cbn [andb].
  - cbn [length map zsum foldr]. fold (zsum (map bytes_of (decapsulated outs2))).
    change (bytes_of (b', next, err)) with (u32 (vlib_buffer_length_in_chain b')).
    set (len := u32 (vlib_buffer_length_in_chain b')) in *. intros Hn Hm.
    assert (0 <= len) by apply u32_range.
    assert (0 <= zsum (map bytes_of (decapsulated outs2))) by
      (apply zsum_map_nonneg; intros; apply u32_range).
    destruct (count_packet_ok (b_rx b') len st packets n_bytes w Hb) as (Hb1 & E1 & E2 & E3); [lia..|].
    destruct (IH c' _ outs2 _ _ El Hb1) as (Hb2 & F1 & F2 & F3); [lia|lia|].
    split; [exact Hb2|]. rewrite F1, F2, F3, E1, E2, E3. split_and!; lia.
  - intros Hn Hm. destruct (IH c' _ outs2 _ _ El Hb Hn Hm) as (Hb2 & F1 & F2 & F3).
    split; [exact Hb2|]. rewrite F1, F2, F3. split_and!; lia.
Qed.

End Counters.

(** * Input *)

(** The session of an address and an identifier. *)
Definition session_for (m : osvbng_pppoe_main_t) (mac : list Z) (sid : Z)
    : option osvbng_pppoe_session_t :=
  r ← pm_session_table m !! mac_key mac (clib_net_to_host_u16 sid); pm_sessions m !! snd r.

(** What goes to the control plane whatever session it is of. *)
Definition is_control (proto : Z) (payload : list Z) : bool :=
  negb ((proto =? PPP_PROTOCOL_IP4) || (proto =? PPP_PROTOCOL_IP6)) ||
  ((proto =? PPP_PROTOCOL_IP6) && (nth 24 payload 0 =? 255)).

Section Input.

Context `{VlibVppLaws}.

(** The fields of a frame. *)
Lemma wire_fields d h dst src tags sid len proto payload :
  mac_ok src → length dst = 6%nat → (∀ p, byte (d p)) → is_u16 sid →
  lies d h (pppoe_wire dst src tags sid len proto payload) → tags_wf tags →
  let pppoe0 := h + pppoe_offset tags in
  find_pppoe d h = Some pppoe0 /\
  pppoe_make_key d (h + 6) (ld16 d (pppoe0 + 2)) = mac_key src (clib_net_to_host_u16 sid) /\
  lies d (pppoe0 + 6) (be16 proto) /\ lies d (pppoe0 + 8) payload.
Proof.
  intros [Hsl Hsb] Hdl Hd Hsid Hw Hwf. cbv zeta.
  unfold pppoe_wire, pppoe_bytes in Hw. rewrite !lies_app, Hdl, Hsl in Hw.
  destruct Hw as (_ & Hsrc & Htags & _ & Hsidl & _ & Hproto & Hpay).
  rewrite !be16_length, tags_wire_length in *. change (Z.of_nat (length [PPPOE_VER_TYPE; 0])) with 2 in *.
  unfold pppoe_offset. split_and!.
  - apply find_pppoe_wire; [done|]. apply (lies_at _ _ _ _ Htags). lia.
  - apply load_be16_at with (o := h + (14 + 4 * Z.of_nat (length tags)) + 2) in Hsidl;
      [|lia|done].
    rewrite make_key_eq by (done || by apply ld16_range).
    change (Z.of_nat 6) with 6 in Hsrc. unfold lies in Hsrc. rewrite Hsl in Hsrc. rewrite Hsrc.
    f_equal. rewrite <- Hsidl. rewrite swap16_involutive; [done|]. by apply ld16_range.
  - apply (lies_at _ _ _ _ Hproto). lia.
  - apply (lies_at _ _ _ _ Hpay). lia.
Qed.

(** The header of a frame, up to the PPP protocol field and up to the payload. *)
Lemma wire_split dst src tags sid len proto payload :
  length src = 6%nat → length dst = 6%nat →
  exists h, Z.of_nat (length h) = pppoe_offset tags + 6 /\
    pppoe_wire dst src tags sid len proto payload = h ++ be16 proto ++ payload.
Proof.
  intros Hs Hd. exists (dst ++ src ++ tags_wire tags ++ [PPPOE_VER_TYPE; 0] ++ be16 sid ++ be16 len).
  split.
  - rewrite !length_app, Hs, Hd, !be16_length. unfold pppoe_offset.
    pose proof (tags_wire_length tags). simpl. lia.
  - unfold pppoe_wire, pppoe_bytes. by rewrite <- !app_assoc.
Qed.

Lemma direct_on_access m b dst src tags sid len proto payload :
  on_access b (pppoe_wire dst src tags sid len proto payload) →
  mac_ok src → length dst = 6%nat → tags_wf tags → is_u16 sid → is_u16 proto →
  (proto = PPP_PROTOCOL_IP6 → (25 <= length payload)%nat) →
  let pppoe0 := b_current_data (rewind b) + pppoe_offset tags in
  pppoe_direct m b =
    match pm_session_table m !! mac_key src (clib_net_to_host_u16 sid) with
    | None => Some (pppoe_terminate m None pppoe0 (rewind b))
    | Some r =>
        t0 ← pm_sessions m !! snd r;
        Some (if ps_is_lac_tunneled t0 then lac_bridge m t0 (rewind b)
              else pppoe_terminate m (Some t0) pppoe0 (rewind b))
    end /\
  (∀ t0, pppoe_terminate m t0 pppoe0 (rewind b) =
    if is_control proto payload then pppoe_punt m (rewind b)
    else match t0 with
         | None => (rewind b, PPPOE_INPUT_NEXT_DROP, Some PPPOE_ERROR_NO_SUCH_SESSION)
         | Some t0 =>
             ((vlib_buffer_advance (SIZEOF_ETHERNET + SIZEOF_PPPOE + vlan_bytes t0) (rewind b))
                ⟪b_rx := ps_sw_if_index t0⟫,
              if proto =? PPP_PROTOCOL_IP4 then PPPOE_INPUT_NEXT_IP4_INPUT
              else PPPOE_INPUT_NEXT_IP6_INPUT, None)
         end).
Proof.
  intros Ho Hsrc Hdst Hwf Hsid Hproto H6. cbv zeta.
  destruct (rewind_ok b _ Ho) as (_ & _ & Ed & _ & Ec & _).
  destruct (wire_fields (b_data b) (b_current_data (rewind b)) dst src tags sid len proto payload)
    as (Hf & Hk & Hp & Hpay); [done..|apply (oa_bytes _ _ Ho)|done|rewrite Ec; apply (oa_frame _ _ Ho)|done|].
  split.
  - unfold pppoe_direct. cbv zeta. by rewrite Ed, Hf, Hk.
  - intros t0. unfold pppoe_terminate, is_control. cbv zeta.
    rewrite Ed, (load_be16 _ _ _ Hp Hproto).
    destruct (negb _) eqn:En; [done|]. cbn [orb].
    destruct (Z.eqb_spec proto PPP_PROTOCOL_IP6) as [E|E]; [|done]. specialize (H6 E).
    rewrite lies_nth in Hpay. specialize (Hpay 24%nat ltac:(lia)).
    unfold SIZEOF_PPPOE. change (Z.of_nat 24) with 24 in Hpay. rewrite Hpay.
    destruct (_ =? 255); [done|]. cbn [andb]. destruct (proto =? PPP_PROTOCOL_IP4); done.
Qed.

End Input.

(** * Output *)

Definition pppoe_encap_len (s : osvbng_pppoe_session_t) : Z := 22 + vlan_bytes s.

(** The frame a session's subscriber is sent. *)
Definition subscriber_frame (s : osvbng_pppoe_session_t) (len proto : Z) (payload : list Z) : list Z :=
  pppoe_wire (ps_client_mac s) (ps_local_mac s) (tags_of s) (ps_session_id s) len proto payload.

Lemma headers_wire s len proto payload :
  (ethernet_header s ++ pppoe_header s len proto) ++ payload = subscriber_frame s len proto payload.
Proof.
  unfold ethernet_header, pppoe_header, subscriber_frame, pppoe_wire, pppoe_bytes.
  rewrite tags_of_wire. by rewrite <- !app_assoc.
Qed.

Lemma headers_length s len proto :
  session_wf s → Z.of_nat (length (ethernet_header s ++ pppoe_header s len proto)) = pppoe_encap_len s.
Proof.
  intros ([Hc _] & [Hl _] & _). unfold ethernet_header, pppoe_header, pppoe_encap_len.
  rewrite tags_of_wire, !length_app, !be16_length, Hc, Hl, tags_of_bytes.
  pose proof (tags_wire_length (tags_of s)). simpl. lia.
Qed.

Section Output.

Context `{VlibVppLaws}.

Lemma lac_tx_ok s b pre proto payload :
  session_wf s → is_u16 proto → proto < 65280 → pre = [] \/ pre = [255; 3] →
  buf_ok b → b_current_data b + b_current_length b < 2 ^ 15 →
  contents b = pre ++ be16 proto ++ payload →
  0 <= b_rest_length b → b_current_length b + b_rest_length b + pppoe_encap_len s < 2 ^ 16 →
  pppoe_encap_len s <= b_current_data b + Z.of_nat (length pre) + 2 →
  exists b', lac_tx_encap s b = (b', OSVBNG_PPPOE_LAC_TX_NEXT_INTERFACE_OUTPUT, None) /\
    contents b' =
      subscriber_frame s (2 + Z.of_nat (length payload) + b_rest_length b) proto payload /\
    b_tx b' = ps_encap_if_index s /\
    b_current_data b' = b_current_data b + Z.of_nat (length pre) + 2 - pppoe_encap_len s.
Proof.
  intros Hwf Hproto Hsmall Hpre (Hb & Hl & Hc) Hend Hcont Hr Hlen Hroom.
  pose proof (headers_length s (2 + Z.of_nat (length payload) + b_rest_length b) proto Hwf) as Hhl.
  assert (0 <= pppoe_encap_len s) as Hel by lia.
  assert (b_current_length b = Z.of_nat (length pre) + 2 + Z.of_nat (length payload)) as Hn.
  { rewrite <- (contents_length b) by lia. rewrite Hcont, !length_app, be16_length. lia. }
  unfold lac_tx_encap. cbv zeta. rewrite (proj2 (Z.ltb_ge _ _)) by lia.
  (* past the prefix *)
  set (b1 := vlib_buffer_advance (Z.of_nat (length pre)) b).
  assert ((if (b_data b (b_current_data b) =? 255) && (4 <=? b_current_length b)
           then vlib_buffer_advance 2 b else b) = b1) as ->.
  { apply contents_lies in Hcont as [_ Hd]; [|lia]. destruct Hpre as [-> | ->].
    - cbn [app] in Hd. rewrite lies_app in Hd. destruct Hd as [Hd _].
      unfold be16 in Hd. rewrite lies_cons in Hd. destruct Hd as [-> _].
      rewrite (proj2 (Z.eqb_neq _ _)); [|rewrite Z.shiftr_div_pow2 by lia; unfold u8, is_u16 in *; ints].
      unfold b1. simpl. rewrite advance_eq by lia. destruct b; unfold upd; simpl. f_equal; lia.
    - cbn [app] in Hd. rewrite lies_cons in Hd. destruct Hd as [-> _]. simpl length in *.
      by rewrite (proj2 (Z.leb_le _ _)) by lia. }
  assert (contents b1 = be16 proto ++ payload) as Hc1 by (by apply (contents_skip b _ pre); [lia..| |]).
  assert (b1 = b⟪b_current_data ::= λ o, o + Z.of_nat (length pre)⟫
               ⟪b_current_length ::= λ n, n - Z.of_nat (length pre)⟫) as E1.
  { unfold b1. apply advance_eq; lia. }
  pose proof Hc1 as Hd1. apply contents_lies in Hd1 as [_ Hd1]; [|rewrite E1; rproj; lia].
  rewrite lies_app in Hd1. destruct Hd1 as [Hd1 _].
  rewrite (load_be16 _ _ _ Hd1 Hproto).
  set (b2 := vlib_buffer_advance 2 b1).
  assert (contents b2 = payload) as Hc2.
  { apply (contents_skip b1 _ (be16 proto)); rewrite ?E1; rproj; try lia; [|done]. by rewrite <- E1. }
  assert (b2 = b1⟪b_current_data ::= λ o, o + 2⟫⟪b_current_length ::= λ n, n - 2⟫) as E2.
  { unfold b2. rewrite E1. apply advance_eq; rproj; lia. }
  assert (b_current_data b2 = b_current_data b + Z.of_nat (length pre) + 2 /\
    b_current_length b2 = Z.of_nat (length payload) /\ b_rest_length b2 = b_rest_length b)
    as (D2 & L2 & R2) by (rewrite E2, E1; rproj; lia).
  clearbody b1 b2. clear E1 E2 Hc1 Hd1.
  (* the headers *)
  change (SIZEOF_ETHERNET + vlan_bytes s + SIZEOF_PPPOE) with (14 + vlan_bytes s + 8).
  replace (14 + vlan_bytes s + 8) with (pppoe_encap_len s) by (unfold pppoe_encap_len; lia).
  rewrite (proj2 (Z.ltb_ge _ _)) by lia. eexists. split; [reflexivity|].
  assert (vlib_buffer_length_in_chain (vlib_buffer_advance (- pppoe_encap_len s) b2) =
    pppoe_encap_len s + Z.of_nat (length payload) + b_rest_length b) as ->.
  { rewrite length_in_chain_eq, advance_eq by lia. rproj. lia. }
  replace (u16 _) with (2 + Z.of_nat (length payload) + b_rest_length b) by (unfold u16; ints).
  set (hdr := ethernet_header s ++ _) in *.
  pose proof (contents_prepend b2 hdr) as Hpp. cbv zeta in Hpp. rewrite Hhl, Hc2 in Hpp.
  split_and!; rproj.
  - unfold contents in *. rproj. rewrite <- headers_wire. fold hdr. rewrite <- Hpp by lia. rproj. done.
  - done.
  - rewrite advance_eq by lia. rproj. lia.
Qed.

(** A packet through the midchain of a session's interface. *)
Lemma midchain_ok m w si s b (link : vnet_link_t) rw :
  pm_session_index_by_sw_if_index m !! w = Some si → pm_sessions m !! si = Some s → session_wf s →
  pppoe_build_rewrite m w link = Some rw →
  buf_ok b → 0 <= b_rest_length b → - 2 ^ 15 <= b_current_data b - pppoe_encap_len s →
  b_current_length b + b_rest_length b + pppoe_encap_len s < 2 ^ 16 →
  let b' := pppoe_fixup (with_rewrite rw b) (SIZEOF_ETHERNET + vlan_bytes s) in
  contents b' =
    subscriber_frame s (2 + b_current_length b + b_rest_length b)
      (match link with
       | VNET_LINK_IP4 => PPP_PROTOCOL_IP4 | VNET_LINK_IP6 => PPP_PROTOCOL_IP6
       | VNET_LINK_OTHER => 0
       end) (contents b) /\
  b_current_data b' = b_current_data b - pppoe_encap_len s.
Proof.
  intros Hi Hs Hwf. unfold pppoe_build_rewrite. rewrite Hi. cbn [mbind option_bind]. rewrite Hs.
  cbn [mbind option_bind]. set (proto := match link with VNET_LINK_IP4 => _ | _ => _ end).
  intros [= <-] (Hb & Hl & Hc) Hr Hroom Hlen. cbv zeta.
  pose proof (headers_length s 0 proto Hwf) as Hhl.
  set (rw := ethernet_header s ++ pppoe_header s 0 proto) in *.
  assert (contents (with_rewrite rw b) = rw ++ contents b) as Hcw by (apply contents_prepend; lia).
  assert (b_current_data (with_rewrite rw b) = b_current_data b - pppoe_encap_len s /\
    b_current_length (with_rewrite rw b) = b_current_length b + pppoe_encap_len s /\
    b_rest_length (with_rewrite rw b) = b_rest_length b) as (D1 & L1 & R1).
  { unfold with_rewrite. rewrite Hhl, advance_eq by lia. rproj. lia. }
  revert Hcw D1 L1 R1. generalize (with_rewrite rw b). intros b1 Hcw D1 L1 R1.
  unfold pppoe_fixup, SIZEOF_ETHERNET, SIZEOF_PPPOE. rewrite length_in_chain_eq, L1, R1.
  assert (0 <= pppoe_encap_len s) by lia. pose proof (tags_of_bytes s).
  replace (u16 (b_current_length b + pppoe_encap_len s + b_rest_length b - 8 + 2 - (14 + vlan_bytes s)))
    with (2 + b_current_length b + b_rest_length b)
    by (unfold pppoe_encap_len, u16 in *; ints).
  set (len := 2 + b_current_length b + b_rest_length b). split; [|by rproj].
  assert (Z.of_nat (length (ethernet_header s)) = 14 + vlan_bytes s) as He.
  { unfold rw in Hhl. rewrite length_app in Hhl. unfold pppoe_encap_len in Hhl.
    change (length (pppoe_header s 0 proto)) with 8%nat in Hhl. lia. }
  apply contents_lies in Hcw as [Hn Hd]; [|lia].
  apply contents_lies; rproj; [lia|]. rewrite <- headers_wire. split.
  - rewrite L1. rewrite !length_app, Nat2Z.inj_add, <- length_app, (headers_length s len proto Hwf).
    rewrite contents_length by lia. lia.
  - unfold rw, pppoe_header in Hd. unfold pppoe_header. rewrite <- !app_assoc, !lies_app in Hd.
    destruct Hd as (D2 & D3 & D4 & _ & D5 & D6).
    rewrite He, !be16_length in *. change (Z.of_nat (length [PPPOE_VER_TYPE; 0])) with 2 in *.
    rewrite <- !app_assoc, !lies_app, He, !be16_length. change (Z.of_nat (length [PPPOE_VER_TYPE; 0])) with 2.
    split_and!; try (rewrite lies_put_out; [done|rewrite ?be16_length; simpl length; lia]).
    apply (lies_at _ (b_current_data b1 + (14 + vlan_bytes s) + 4)); [apply lies_put|lia].
Qed.

End Output.
