(* ===== verification/PppoeSystem.v ===== *)
(** The PPPoE plugin as a whole: what holds in every state its API can reach, what its
    nodes do to packets there, and a subscriber bridged through a tunnel to another
    access router. *)

From S2P Require Import Prelude Packet Access L2tpSession L2tpInv L2tpNodes L2tpPackets L2tpSystem PppoeSession PppoeInv PppoeRun PppoeNodes PppoePackets.
From stdpp Require Import strings.

#[local] Open Scope Z_scope.

Section System.

Context `{AccessVppLaws}.

(** C30. The plugin's state is well typed in every state that a run of its API can reach in
    which no session was asked for under the reserved key, the broadcast address with
    session identifier 0xffff, and the next such call completes without touching a freed
    session, given a free pool slot and a fresh hardware interface from VPP.  The session
    table has exactly one entry per live session, under the key of its address and
    identifier; keys, slots and identifiers are in range and addresses have six bytes; each
    session has an interface of its own, and only those are visible; the LAC counter is the
    number of bridged sessions and has not wrapped.  The reserved key is the empty cache's:
    a lookup of it never reaches the table, so that a session under it is stored but not
    found, and can be added twice (osvbng_pppoe_decap.c:99); the API does not refuse it. *)
Theorem pppoe_runs_sound node e p f m :
  pppoe_run (osvbng_pppoe_init node e p) f m →
  (∀ op, pppoe_op_ok m op → exists m' rv, pppoe_exec m op = Some (m', rv)) /\
  (∀ key si, pm_session_table m !! key = Some (NONE, si) <->
     exists s, pm_sessions m !! si = Some s /\ pkey s = key) /\
  (∀ si s, pm_sessions m !! si = Some s →
     0 <= si < NONE /\ session_wf s /\ pm_session_index_by_sw_if_index m !! ps_sw_if_index s = Some si) /\
  (∀ w, w ∈ visible (pm_calls m) <->
     exists si s, pm_sessions m !! si = Some s /\ ps_sw_if_index s = w) /\
  pm_lac_session_count m = msum lac_one (pm_sessions m) /\ is_u32 (pm_lac_session_count m).
Proof.
  intros Hrun. destruct (pppoe_run_ok node e p f m Hrun) as [Hok _]. split_and!.
  - intros op Hop. destruct (pppoe_exec_ok m op Hok Hop) as (m' & rv & E & _). by exists m', rv.
  - intros key si. split.
    + intros Ht. destruct (pk_table m Hok key _ Ht) as (sj & s & [= <-] & Hs & Hk). by exists s.
    + intros (s & Hs & <-). by apply (pk_keyed m Hok).
  - intros si s Hs. destruct (pk_session m Hok si s Hs) as [? ?]. split_and!; try done; try lia.
    by apply sw_of_session.
  - intros w. rewrite (pk_visible m Hok). split.
    + intros [si Hi]. destruct (session_of_sw m w si Hok Hi) as (s & Hs & Hw). by exists si, s.
    + intros (si & s & Hs & <-). exists si. by apply sw_of_session.
  - apply (pk_count m Hok).
  - pose proof (lac_count_bound m Hok). unfold is_u32, NONE in *. lia.
Qed.

(** C31. As long as each route is removed by what it was added with, a session's IPv6
    bindings are removed before the session, no prefix delegated has length 0 or 128, and no
    session has the reserved key (the broadcast address with identifier 0xffff), the
    plugin's routes in VPP are exactly those of the live sessions: the client's address, the
    IPv6 address bound, the prefix delegated.  A prefix of length 0 is installed as a default route, but counts as not set and is never
    removed; one of length 128 may be the very route of the session's IPv6 address, which two
    bindings then share; and bindings left on a deleted session stay routed
    (osvbng_pppoe.c:525). *)
Theorem pppoe_routes_exact node e p m :
  pppoe_run (osvbng_pppoe_init node e p) true m →
  ∀ r, r ∈ routes (pm_calls m) <->
    exists si s, pm_sessions m !! si = Some s /\ r ∈ pbindings s.
Proof.
  intros Hrun. destruct (pppoe_run_ok node e p true m Hrun) as [_ Hr]. apply (pr_exact m (Hr eq_refl)).
Qed.

(** Adding a session is idempotent, as its callers rely on: replaying a successful
    request, with whatever slot and interface VPP has next, succeeds, names the same
    interface and changes nothing. *)
Theorem pppoe_add_idempotent node e p f m i hw vrf a m' sw i' hw' :
  pppoe_run (osvbng_pppoe_init node e p) f m → pppoe_op_ok m (OpSession i hw vrf a) →
  pa_is_add a = true →
  vl_api_osvbng_pppoe_add_del_session_t_handler m i hw vrf a = Some (m', RV_OK, Some sw) →
  vl_api_osvbng_pppoe_add_del_session_t_handler m' i' hw' vrf a = Some (m', RV_OK, Some sw).
Proof.
  intros Hrun (Hi & Hslot & Hhw & Hm & Hl & Hsid & Hk) Hadd.
  destruct (pppoe_run_ok node e p f m Hrun) as [Hok _].
  unfold vl_api_osvbng_pppoe_add_del_session_t_handler.
  destruct (ip4_fib_index_by_table_id _) as [fib|]; [|done]. rewrite Hadd.
  match goal with |- vnet_osvbng_pppoe_add_del_session m i hw ?a = _ → _ => set (a' := a) end.
  assert (args_ok a') as Ha'.
  { split_and!; [done|done|apply swap16_range|]. unfold a'. cbn [pa_client_mac pa_session_id].
    by rewrite swap16_involutive. }
  unfold vnet_osvbng_pppoe_add_del_session. change (pa_is_add a') with true. cbv iota.
  pose proof (lookup_args (pm_session_table m) a' Ha') as El.
  pose proof (lookup_args (pm_session_table m') a' Ha') as El'.
  destruct (pppoe_lookup_1 (pm_session_table m) _ _ _ _) as [r c]. simpl in El. subst r.
  destruct (pppoe_lookup_1 (pm_session_table m') _ _ _ _) as [r' c']. simpl in El'. subst r'.
  destruct (pm_session_table m !! akey a') as [r|] eqn:Ek.
  - destruct (pk_table m Hok _ r Ek) as (sj & s & -> & Hs & _).
    destruct (pk_session m Hok sj s Hs) as [Hj _].
    change (snd (default NO_RESULT (Some (entry sj)))) with sj.
    rewrite (proj2 (Z.eqb_neq sj NONE)), Hs by lia. cbn [negb mbind option_bind].
    destruct (same_session s a') eqn:Esame; [|done]. intros [= <- <-]. rewrite Ek.
    change (snd (default NO_RESULT (Some (entry sj)))) with sj.
    rewrite (proj2 (Z.eqb_neq sj NONE)), Hs by lia. cbn [negb mbind option_bind]. by rewrite Esame.
  - change (snd (default NO_RESULT None) =? NONE) with true. cbn [negb].
    change (default NO_RESULT None) with NO_RESULT.
    destruct (sw_interface_is_free _); [done|]. destruct (negb _); [done|].
    destruct (pppoe_add m i hw a' NO_RESULT) as [m1 sw1] eqn:Ea. intros [= -> ->].
    unfold pppoe_add, pppoe_update_1 in Ea. rewrite args_mac_key in Ea by done.
    fold (akey a') in Ea.
    destruct (take_hw _ _) as [free h] in Ea. injection Ea as <- <-. unfold pppoe_call. rproj.
    rewrite lookup_insert_eq. cbn [default from_option id snd].
    rewrite (proj2 (Z.eqb_neq i NONE)) by lia. cbn [negb]. rewrite lookup_insert_eq.
    cbn [mbind option_bind].
    match goal with |- context [same_session ?s a'] => assert (same_session s a' = true) as -> end; [|done].
    unfold same_session. cbn. by rewrite !Z.eqb_refl, bool_decide_eq_true_2.
Qed.

End System.

Section Nodes.

Context `{VlibVppLaws} `{AccessVppLaws}.

(** The one-entry cache does not show: in every reachable state the input node takes
    any frame, whatever bytes and offsets its buffers have, without touching a freed
    session, and does to each packet what looking it up in the session table itself
    would have done. *)
Theorem pppoe_frame_is_packets node e p f m sw frame :
  pppoe_run (osvbng_pppoe_init node e p) f m →
  exists sw' counted n outs,
    osvbng_pppoe_input_node m sw frame = Some (sw', counted, n, outs) /\
    mapM (pppoe_direct m) frame = Some outs.
Proof.
  intros Hrun. destruct (pppoe_run_ok node e p f m Hrun) as [Hok _].
  destruct (loop_direct m EMPTY_CACHE (mkStats sw 0 0 [] 0) frame Hok (empty_cache_ok m Hok))
    as (st & outs & El & Hd).
  unfold osvbng_pppoe_input_node. rewrite El. cbn [mbind option_bind].
  destruct (st_n_packets st =? 0); by eexists _, _, _, _.
Qed.

(** Interface counters are exact in spite of being batched: over a frame, what is
    added for an interface is the number of the packets decapsulated to it and their
    bytes, and the node's own counter their total, whatever interface the previous
    frame ended with. *)
Theorem pppoe_counters_exact m sw frame sw' counted n outs w :
  osvbng_pppoe_input_node m sw frame = Some (sw', counted, n, outs) →
  Z.of_nat (length (decapsulated outs)) < 2 ^ 32 →
  zsum (map bytes_of (decapsulated outs)) < 2 ^ 32 →
  added w (λ c, c.1.2) counted = tally w (λ _, 1) outs /\
  added w snd counted = tally w bytes_of outs /\
  n = Z.of_nat (length (decapsulated outs)).
Proof.
  unfold osvbng_pppoe_input_node.
  destruct (pppoe_input_loop _ _ _ _) as [[st outs']|] eqn:El; [|done].
  cbn [mbind option_bind]. intros E Hn Hb.
  assert (outs' = outs) as -> by (destruct (st_n_packets st =? 0); by injection E).
  destruct (loop_counters m EMPTY_CACHE (mkStats sw 0 0 [] 0) frame st outs 0 0 w El)
    as ((Hp & _ & Hz & _) & E1 & E2 & E3); [split_and!; simpl; lia|lia|lia|].
  cbn in E1, E2, E3. unfold pending in E1, E2. cbn in E1, E2.
  destruct (Z.eqb_spec (st_n_packets st) 0) as [E0|E0]; injection E as _ <- <-.
  - specialize (Hz E0). rewrite E0 in E1. rewrite Hz in E2. destruct (st_sw_if_index st =? w), (sw =? w); lia.
  - rewrite !added_app, !added_one. cbn [fst snd].
    destruct (st_sw_if_index st =? w), (sw =? w); lia.
Qed.

(** C14. A frame with the tags of its session reaches it.  A bridged session's goes to the
    tunnel from its PPP protocol field on; a terminated one's IPv4 and IPv6 packets go
    to their input nodes alone in the buffer, received on the session's interface; all
    control traffic, IPv6 multicast included, goes to the control plane as the whole
    frame, whether there is a session or not, and other packets without one are
    dropped. *)
Theorem pppoe_input_delivers node e p f m w b dst src tags sid len proto payload :
  pppoe_run (osvbng_pppoe_init node e p) f m →
  on_access b (pppoe_wire dst src tags sid len proto payload) →
  mac_ok src → length dst = 6%nat → tags_wf tags → is_u16 sid → is_u16 proto →
  (proto = PPP_PROTOCOL_IP6 → (25 <= length payload)%nat) →
  (∀ s, session_for m src sid = Some s → length (tags_of s) = length tags) →
  exists w' counted n b' next err,
    osvbng_pppoe_input_node m w [b] = Some (w', counted, n, [(b', next, err)]) /\
    match session_for m src sid with
    | Some s =>
        if ps_is_lac_tunneled s then
          match pm_l2tpv2_encap_raw_next_arc m with
          | Some arc =>
              next = NextArc arc /\ contents b' = be16 proto ++ payload /\
              b_opaque2_0 b' = ps_lac_l2tp_session_index s
          | None => next = PPPOE_INPUT_NEXT_DROP
          end
        else if is_control proto payload then (b', next, err) = pppoe_punt m (rewind b)
        else
          next = (if proto =? PPP_PROTOCOL_IP4 then PPPOE_INPUT_NEXT_IP4_INPUT
                  else PPPOE_INPUT_NEXT_IP6_INPUT) /\
          contents b' = payload /\ b_rx b' = ps_sw_if_index s
    | None =>
        if is_control proto payload then (b', next, err) = pppoe_punt m (rewind b)
        else next = PPPOE_INPUT_NEXT_DROP /\ err = Some PPPOE_ERROR_NO_SUCH_SESSION
    end /\
    contents (rewind b) = pppoe_wire dst src tags sid len proto payload.
Proof.
  intros Hrun Ho Hsrc Hdst Hwf Hsid Hproto H6 Htags.
  destruct (pppoe_run_ok node e p f m Hrun) as [Hok _].
  destruct (loop_direct m EMPTY_CACHE (mkStats w 0 0 [] 0) [b] Hok (empty_cache_ok m Hok))
    as (st & outs & El & Hd).
  destruct (rewind_ok b _ Ho) as (Hc & (_ & Hl & Hcd) & _ & _ & _ & _ & Hend).
  destruct (direct_on_access m b dst src tags sid len proto payload Ho Hsrc Hdst Hwf Hsid Hproto H6)
    as [Hdir Hterm].
  cbn [mapM] in Hd. destruct (pppoe_direct m b) as [[[b' next] err]|] eqn:Edir; [|done].
  cbn [mbind option_bind mret option_ret] in Hd. injection Hd as <-.
  assert (exists w' counted n, osvbng_pppoe_input_node m w [b] =
    Some (w', counted, n, [(b', next, err)])) as (w' & counted & n & En).
  { unfold osvbng_pppoe_input_node. rewrite El. cbn [mbind option_bind].
    destruct (st_n_packets st =? 0); by eexists _, _, _. }
  exists w', counted, n, b', next, err. split; [exact En|]. split; [|exact Hc]. clear En El.
  destruct (wire_split dst src tags sid len proto payload (proj1 Hsrc) Hdst) as (h & Hh & Hsplit).
  rewrite Hsplit in Hc.
  unfold session_for in *. destruct (pm_session_table m !! _) as [r|] eqn:Er.
  - destruct (pk_table m Hok _ r Er) as (si & s & -> & Hs & _). cbn [entry snd mbind option_bind] in *.
    rewrite Hs in *. cbn [mbind option_bind] in Hdir. injection Hdir as Hdir.
    pose proof (tags_of_bytes s) as Hv. rewrite (Htags s eq_refl) in Hv.
    destruct (ps_is_lac_tunneled s).
    + unfold lac_bridge in Hdir. destruct (pm_l2tpv2_encap_raw_next_arc m) as [arc|].
      * injection Hdir as -> -> ->. split_and!; [done| |done].
        apply (contents_skip _ _ h _); [lia..|exact Hc|].
        unfold SIZEOF_ETHERNET, SIZEOF_PPPOE, pppoe_offset in *. lia.
      * by injection Hdir as _ -> _.
    + rewrite Hterm in Hdir. destruct (is_control proto payload); [done|].
      injection Hdir as -> -> ->. split_and!; [done| |done].
      apply (contents_skip _ _ (h ++ be16 proto) _); [lia..|by rewrite Hc, <- app_assoc|].
      rewrite length_app, be16_length. unfold SIZEOF_ETHERNET, SIZEOF_PPPOE, pppoe_offset in *. lia.
  - cbn [mbind option_bind] in *. injection Hdir as Hdir. rewrite Hterm in Hdir.
    destruct (is_control proto payload); [done|]. by injection Hdir as _ -> ->.
Qed.

(** Both ways to the subscriber make the same frame: a packet sent through a
    session's interface, by the rewrite the adjacency installs and its fixup, is byte
    for byte what the LAC output node makes of the packet behind its PPP protocol field. *)
Theorem pppoe_midchain_is_lac_tx m w si s b (ip6 : bool) :
  let link := if ip6 then VNET_LINK_IP6 else VNET_LINK_IP4 in
  let proto := if ip6 then PPP_PROTOCOL_IP6 else PPP_PROTOCOL_IP4 in
  pm_session_index_by_sw_if_index m !! w = Some si → pm_sessions m !! si = Some s → session_wf s →
  buf_ok b → 0 <= b_rest_length b → pppoe_encap_len s <= b_current_data b →
  b_current_data b + b_current_length b < 2 ^ 15 →
  b_current_length b + b_rest_length b + pppoe_encap_len s + 2 < 2 ^ 16 →
  exists rw off b',
    pppoe_update_adj m w link AdjNeighbour = Some (Some (rw, off), StackInterfaceTx (ps_encap_if_index s)) /\
    osvbng_pppoe_lac_tx_node m ((with_rewrite (be16 proto) b)⟪b_opaque2_0 := w⟫) =
      Some (b', OSVBNG_PPPOE_LAC_TX_NEXT_INTERFACE_OUTPUT, None) /\
    contents (pppoe_fixup (with_rewrite rw b) off) = contents b' /\
    b_current_data (pppoe_fixup (with_rewrite rw b) off) = b_current_data b' /\
    b_tx b' = ps_encap_if_index s.
Proof.
  cbv zeta. intros Hi Hs Hwf Hbuf Hr Hroom Hend Hlen.
  set (link := if ip6 then VNET_LINK_IP6 else VNET_LINK_IP4).
  set (proto := if ip6 then PPP_PROTOCOL_IP6 else PPP_PROTOCOL_IP4).
  pose proof (headers_length s 0 0 Hwf) as Hhl. pose proof Hbuf as (Hb & Hl & Hc).
  destruct (with_rewrite_ok (be16 proto) b) as (C1 & B1 & D1 & L1 & R1);
    [done|apply be16_bytes|rewrite be16_length; lia..|]. rewrite be16_length in *.
  destruct (pppoe_build_rewrite m w link) as [rw|] eqn:Erw.
  2: { unfold pppoe_build_rewrite in Erw. rewrite Hi in Erw. cbn [mbind option_bind] in Erw.
       by rewrite Hs in Erw. }
  destruct (midchain_ok m w si s b link rw Hi Hs Hwf Erw Hbuf Hr) as [Hc1 Hd1]; [lia..|].
  destruct (lac_tx_ok s ((with_rewrite (be16 proto) b)⟪b_opaque2_0 := w⟫) [] proto (contents b) Hwf)
    as (b' & Htx & Hcont & Htxi & Hcur); rproj; try (done || lia || by left).
  - by destruct ip6.
  - unfold proto. destruct ip6; done.
  - exists rw, (SIZEOF_ETHERNET + vlan_bytes s), b'. split_and!.
    + unfold pppoe_update_adj. rewrite Hi. cbn [mbind option_bind]. rewrite Hs.
      cbn [mbind option_bind]. by rewrite Erw.
    + unfold osvbng_pppoe_lac_tx_node. rproj. rewrite Hi, Hs. cbn [mbind option_bind]. by rewrite Htx.
    + rewrite Hc1, Hcont. rproj. rewrite R1, contents_length by lia.
      unfold link, proto. by destruct ip6.
    + rewrite Hd1, Hcur. rproj. simpl length. lia.
    + done.
Qed.

(** A bridged session [s] of [m], its tunnel session [ls] in the tunnel [t] of [l], the
    peer's end [ls'] of it in [l'], and the peer's subscriber [s2] of [m']. *)
Record lac_path (m : osvbng_pppoe_main_t) (l l' : l2tpv2_main_t) (m' : osvbng_pppoe_main_t)
    (src : list Z) (sid : Z) (s s2 : osvbng_pppoe_session_t) (ls ls' : l2tpv2_session_t)
    (t : l2tpv2_tunnel_t) (arc arc' : Z) : Prop := {
  lp_session : session_for m src sid = Some s;
  lp_tunneled : ps_is_lac_tunneled s = true;
  lp_arc : pm_l2tpv2_encap_raw_next_arc m = Some arc;
  lp_index : ps_lac_l2tp_session_index s ≠ NONE;
  lp_out : lm_sessions l !! ps_lac_l2tp_session_index s = Some ls;
  lp_tunnel : lm_tunnels l !! ls_tunnel_index ls = Some t;
  lp_skip : skip_ok ls;
  lp_wf : tunnel_wf t ls;
  lp_peer :
    (i ← lm_session_table l' !! l2tpv2_session_key (tn_peer_ip t) (tn_local_ip t)
                                  (tn_peer_tunnel_id t) (ls_peer_session_id ls);
     lm_sessions l' !! i) = Some ls';
  lp_raw : ls_decap_mode ls' = L2TPV2_DECAP_RAW;
  lp_same_skip : ls_ppp_hdr_skip ls' = ls_ppp_hdr_skip ls;
  lp_next : ls_raw_next_arc ls' = Some arc';
  lp_far :
    (i ← pm_session_index_by_sw_if_index m' !! ls_raw_opaque ls'; pm_sessions m' !! i) = Some s2;
  lp_far_wf : session_wf s2
}.

(** The buffer after the bridge's first step. *)
Lemma bridge_out m s b frame h rest arc :
  on_access b frame → frame = h ++ rest →
  Z.of_nat (length h) = 20 + vlan_bytes s → pm_l2tpv2_encap_raw_next_arc m = Some arc →
  exists b1, lac_bridge m s (rewind b) = (b1, NextArc arc, None) /\ contents b1 = rest /\ buf_ok b1 /\
    b_opaque2_0 b1 = ps_lac_l2tp_session_index s /\ b_rest_length b1 = b_rest_length b /\
    b_current_data b1 = default 0 (b_l2_hdr_offset b) + 20 + vlan_bytes s /\
    b_current_data b1 + b_current_length b1 < 2 ^ 15.
Proof.
  intros Ho Hf Hh Harc. unfold lac_bridge. rewrite Harc. eexists. split; [reflexivity|].
  destruct (rewind_ok b _ Ho) as (Hc & (Hb & Hl & Hcd) & _ & Hr & Hcur & Hlen & Hend).
  pose proof (tags_of_bytes s). unfold SIZEOF_ETHERNET, SIZEOF_PPPOE.
  assert (Z.of_nat (length h) <= b_current_length (rewind b)) as Hle.
  { rewrite Hlen, Hf, length_app. lia. }
  split; [apply (contents_skip _ _ h _); [lia..|by rewrite Hc, Hf|lia]|].
  pose proof (oa_start _ _ Ho). rewrite advance_eq by lia. unfold buf_ok. rproj.
  split_and!; try done; lia.
Qed.

(** The peer's input node on a packet of the tunnel. *)
Lemma bridge_in t ls frame b1 b2 l' ls' proto payload arc' :
  encapsulated t ls frame b1 b2 → tunnel_wf t ls → skip_ok ls → frame = be16 proto ++ payload →
  is_u16 proto → b_current_data b2 + b_current_length b2 < 2 ^ 15 →
  (i ← lm_session_table l' !! l2tpv2_session_key (tn_peer_ip t) (tn_local_ip t)
                                (tn_peer_tunnel_id t) (ls_peer_session_id ls);
   lm_sessions l' !! i) = Some ls' →
  ls_decap_mode ls' = L2TPV2_DECAP_RAW → ls_ppp_hdr_skip ls' = ls_ppp_hdr_skip ls →
  ls_raw_next_arc ls' = Some arc' →
  exists b3, l2tpv2_input_node l' (vlib_buffer_advance 28 b2) = Some (b3, L2tpNodes.NextArc arc', None) /\
    contents b3 = ppp_prefix ls ++ be16 proto ++ payload /\ b_opaque2_0 b3 = ls_raw_opaque ls' /\
    buf_ok b3 /\ b_rest_length b3 = b_rest_length b2 /\ b_current_data b3 = b_current_data b2 + 34 /\
    b_current_data b3 + b_current_length b3 < 2 ^ 15.
Proof.
  intros Hec Hwf Hskip -> Hproto Hend Hpeer Hraw Hsame Harc.
  pose proof (encapsulated_on_wire t ls _ b1 b2 Hec Hwf Hskip Hend) as Hw.
  pose proof (input_on_wire l' _ _ _ _ _ Hw) as Hin.
  rewrite !length_app, be16_length in Hin. specialize (Hin ltac:(lia)).
  cbn [dh_tunnel_id dh_session_id plain_header] in Hin.
  destruct (lm_session_table l' !! _) as [i|]; [|done]. cbn [mbind option_bind] in Hpeer.
  rewrite Hpeer in Hin. cbn [mbind option_bind] in Hin.
  pose proof (session_input_on_wire l' _ _ _ _ _ proto payload ls' Hw Hproto) as Hspec.
  rewrite Hsame, <- ppp_prefix_length in Hspec by done. specialize (Hspec eq_refl). cbv zeta in Hspec.
  destruct (on_wire_lies _ _ _ _ _ Hw) as (Hlen & _ & _). rewrite length_app, length_app in Hlen.
  rewrite be16_length in Hlen. change (length (l2tp_wire (plain_header t ls))) with 6%nat in *.
  destruct (ec_buf _ _ _ _ _ Hec) as (Hb & Hl & Hc).
  assert (28 <= b_current_length b2) as Hge.
  { pose proof (ec_contents _ _ _ _ _ Hec) as Hcont. cbv zeta in Hcont.
    apply (f_equal length) in Hcont. rewrite !length_app in Hcont.
    pose proof (contents_length b2 ltac:(lia)) as Hcl. rewrite Hcont in Hcl. cbn in Hcl. lia. }
  destruct (session_input l' _ _ ls') as [[b3 next] err] eqn:Es. rewrite Hraw, Harc in Hspec.
  change (L2TPV2_DECAP_RAW =? L2TPV2_DECAP_IP) with false in Hspec. cbv iota in Hspec.
  destruct Hspec as (Hcb & Hop & -> & ->). exists b3. split; [exact Hin|].
  rewrite advance_eq in Es, Hlen by lia. unfold session_input in Es. rproj. cbn in Hlen.
  revert Es. rproj. rewrite Hsame, <- ppp_prefix_length by done.
  rewrite (proj2 (Z.ltb_ge _ _)) by lia. rewrite Hraw, Harc.
  change (L2TPV2_DECAP_RAW =? L2TPV2_DECAP_IP) with false. cbv iota zeta. intros [= <-].
  split_and!; [exact Hcb|exact Hop|..].
  - rewrite advance_eq by (rproj; lia). unfold buf_ok. rproj. split_and!; (done || lia).
  - rewrite advance_eq by (rproj; lia). by rproj.
  - rewrite advance_eq by (rproj; lia). rproj. lia.
  - rewrite advance_eq by (rproj; lia). rproj. lia.
Qed.

(** C15. A bridged subscriber's packet crosses the tunnel unchanged: from the PPPoE input
    node through encap-raw, the peer's tunnel input and its LAC output node it comes
    out as a frame of the far session, for its own address, tags and identifier, with
    the PPP protocol and payload it was sent with and a PPPoE length that covers them,
    whether or not the tunnel carries the PPP address and control bytes. *)
Theorem lac_bridge_preserves node e p f m l l' m' w b dst src tags sid len proto payload
    s s2 ls ls' t arc arc' :
  pppoe_run (osvbng_pppoe_init node e p) f m →
  lac_path m l l' m' src sid s s2 ls ls' t arc arc' →
  on_access b (pppoe_wire dst src tags sid len proto payload) →
  mac_ok src → length dst = 6%nat → tags_wf tags → length (tags_of s) = length tags →
  is_u16 sid → is_u16 proto → proto < 65280 →
  (proto = PPP_PROTOCOL_IP6 → (25 <= length payload)%nat) →
  0 <= b_rest_length b →
  - VLIB_BUFFER_PRE_DATA_SIZE + encap_len ls <= default 0 (b_l2_hdr_offset b) + 20 + vlan_bytes s →
  vlan_bytes s2 <= default 0 (b_l2_hdr_offset b) + vlan_bytes s →
  Z.of_nat (length payload) + b_rest_length b + 60 < 2 ^ 16 →
  exists w' counted n b1 b2 b3 b4,
    osvbng_pppoe_input_node m w [b] = Some (w', counted, n, [(b1, NextArc arc, None)]) /\
    l2tpv2_encap_raw_node l b1 = Some (b2, L2TPV2_ENCAP_RAW_NEXT_IP4_LOOKUP, None) /\
    l2tpv2_input_node l' (vlib_buffer_advance 28 b2) = Some (b3, L2tpNodes.NextArc arc', None) /\
    osvbng_pppoe_lac_tx_node m' b3 = Some (b4, OSVBNG_PPPOE_LAC_TX_NEXT_INTERFACE_OUTPUT, None) /\
    contents b4 = subscriber_frame s2 (2 + Z.of_nat (length payload) + b_rest_length b) proto payload /\
    b_tx b4 = ps_encap_if_index s2.
Proof.
  intros Hrun [P1 P2 P3 P4 P5 P6 P7 P8 P9 P10 P11 P12 P13 P14] Ho Hsrc Hdst Hwf Htags Hsid Hproto
    Hsmall H6 Hrest Hroom Hv Hlen.
  destruct (pppoe_run_ok node e p f m Hrun) as [Hok _].
  destruct (loop_direct m EMPTY_CACHE (mkStats w 0 0 [] 0) [b] Hok (empty_cache_ok m Hok))
    as (st & outs & El & Hd).
  destruct (direct_on_access m b dst src tags sid len proto payload Ho Hsrc Hdst Hwf Hsid Hproto H6)
    as [Hdir _].
  destruct (wire_split dst src tags sid len proto payload (proj1 Hsrc) Hdst) as (h & Hh & Hsplit).
  pose proof (tags_of_bytes s) as Hvs. rewrite Htags in Hvs. pose proof (tags_of_bytes s2) as Hvs2.
  (* in *)
  destruct (bridge_out m s b _ h (be16 proto ++ payload) arc Ho Hsplit)
    as (b1 & Hb1 & C1 & B1 & O1 & R1 & D1 & E1); [unfold pppoe_offset in Hh; lia|done|].
  assert (exists w' counted n, osvbng_pppoe_input_node m w [b] =
    Some (w', counted, n, [(b1, NextArc arc, None)])) as (w' & counted & n & En).
  { unfold session_for in P1. destruct (pm_session_table m !! _) as [r|]; [|done].
    cbn [mbind option_bind] in P1, Hdir. rewrite P1 in Hdir. cbn [mbind option_bind] in Hdir.
    rewrite P2, Hb1 in Hdir. cbn [mapM] in Hd. rewrite Hdir in Hd. injection Hd as <-.
    unfold osvbng_pppoe_input_node. rewrite El. cbn [mbind option_bind].
    destruct (st_n_packets st =? 0); by eexists _, _, _. }
  pose proof (contents_length b1) as L1. rewrite C1, length_app, be16_length in L1.
  specialize (L1 ltac:(apply B1)).
  (* the tunnel *)
  destruct (encap_raw_ok l b1 ls t B1) as (b2 & Henc & Hec & _);
    [by rewrite O1|by rewrite O1|done|done|unfold encap_len in *; lia|lia| |].
  { unfold encap_len. assert (ls_ppp_hdr_skip ls <= 2) by (destruct P7 as [-> | ->]; lia). lia. }
  rewrite C1 in Hec. pose proof (ec_current _ _ _ _ _ Hec) as Hcur.
  destruct (bridge_in t ls _ b1 b2 l' ls' proto payload arc' Hec P8 P7 eq_refl Hproto)
    as (b3 & Hin & C3 & O3 & B3 & R3 & D3 & E3); try done; [lia|].
  rewrite (ec_rest _ _ _ _ _ Hec), R1 in R3.
  pose proof (contents_length b3) as L3. rewrite C3, !length_app, be16_length in L3.
  specialize (L3 ltac:(apply B3)).
  assert (b_current_data b3 = b_current_data b1 - ls_ppp_hdr_skip ls) as D3'.
  { pose proof (ec_contents _ _ _ _ _ Hec) as Hcont. cbv zeta in Hcont.
    pose proof (contents_length b2 ltac:(apply (ec_buf _ _ _ _ _ Hec))) as L2. rewrite Hcont in L2.
    rewrite !length_app, be16_length in L2. pose proof (ppp_prefix_length ls P7). cbn in L2. lia. }
  pose proof (ppp_prefix_length ls P7) as Hpl.
  (* out *)
  destruct (lac_tx_ok s2 b3 (ppp_prefix ls) proto payload P14 Hproto Hsmall)
    as (b4 & Htx & C4 & T4 & _); try done; [|lia| |unfold pppoe_encap_len; lia|].
  - unfold ppp_prefix. destruct (_ =? _); auto.
  - assert (ls_ppp_hdr_skip ls <= 2) by (destruct P7 as [-> | ->]; lia).
    assert (length (tags_of s2) <= 2)%nat by (unfold tags_of; destruct (negb _), (negb _); simpl; lia).
    unfold pppoe_encap_len. lia.
  - exists w', counted, n, b1, b2, b3, b4. split_and!; try done; [|by rewrite C4, R3].
    unfold osvbng_pppoe_lac_tx_node. rewrite O3.
    destruct (pm_session_index_by_sw_if_index m' !! _) as [i|]; [|done].
    cbn [mbind option_bind] in P13. rewrite P13. cbn [mbind option_bind]. by rewrite Htx.
Qed.

End Nodes.

(** * A concrete plugin

    Session 0 (address ..:1, identifier 5) has two tags and an IPv6 address; session 1
    (address ..:2, identifier 6) is untagged and bridged to the raw session 1 of
    [sample_l2tp]; the far side of that tunnel is bridged to a subscriber of [far_pppoe]. *)

Definition sample_pppoe_args (is_add : bool) (mac sid encap ip outer inner : Z)
    : vnet_osvbng_pppoe_add_del_session_args_t :=
  mkPppoeArgs is_add false (host16 sid) (mkIp46 0 (Z.shiftl ip 32)) (host32 encap) 0 (sample_mac 99)
    (sample_mac mac) (host16 outer) (host16 inner).

Definition pppoe_after (m : osvbng_pppoe_main_t) (op : pppoe_op) : osvbng_pppoe_main_t :=
  default m (fst <$> pppoe_exec m op).

Definition sample_pppoe_0 : osvbng_pppoe_main_t := osvbng_pppoe_init input_node "encap" "punt".
Definition sample_op_0 : pppoe_op := OpSession 0 1 (host32 0) (sample_pppoe_args true 1 5 5 11 100 200).
Definition sample_op_1 : pppoe_op := OpSession 1 2 (host32 0) (sample_pppoe_args true 2 6 6 12 0 0).
Definition sample_pppoe_1 := pppoe_after sample_pppoe_0 sample_op_0.
Definition sample_pppoe_2 := pppoe_after sample_pppoe_1 sample_op_1.
Definition sample_pppoe_3 := pppoe_after sample_pppoe_2 (OpIpv6 (host32 101) 13 true).
Definition sample_pppoe := pppoe_after sample_pppoe_3 (OpLac (host32 102) true (host32 1)).

Definition far_op : pppoe_op := OpSession 0 (-23) (host32 0) (sample_pppoe_args true 9 8 6 14 300 0).
Definition far_pppoe := pppoe_after sample_pppoe_0 far_op.

Lemma pppoe_sample_step m op :
  pppoe_run sample_pppoe_0 true m → pppoe_op_ok m op → pppoe_op_faithful m op →
  is_Some (pppoe_exec m op) → pppoe_run sample_pppoe_0 true (pppoe_after m op).
Proof.
  intros Hr Hf Hg [[m' rv] He]. unfold pppoe_after. rewrite He.
  by apply (prun_op sample_pppoe_0 true m op m' rv true).
Qed.

Lemma sample_session_ok m i hw mac sid encap ip outer inner :
  bool_decide (pm_sessions m !! i = None) = true → 0 <= i < NONE →
  bool_decide (pm_session_index_by_sw_if_index m !! (hw + 100) = None) = true →
  pm_free_pppoe_session_hw_if_indices m = [] → byte mac → is_u16 sid →
  mac_key (sample_mac mac) (host16 sid) ≠ RESERVED_KEY →
  pppoe_op_ok m (OpSession i hw (host32 0) (sample_pppoe_args true mac sid encap ip outer inner)).
Proof.
  intros E1 Hi E2 E3 Hm Hs Hk. apply bool_decide_eq_true in E1, E2.
  split; [exact E1|]. split; [exact Hi|]. split.
  - split; [exact E2|]. rewrite E3. apply not_elem_of_nil.
  - split; [by apply sample_mac_ok|]. split; [by apply sample_mac_ok|].
    split; [apply swap16_range|exact Hk].
Qed.

Lemma sample_pppoe_run : pppoe_run sample_pppoe_0 true sample_pppoe.
Proof.
  apply pppoe_sample_step; [|done|done|by vm_compute; eexists].
  apply pppoe_sample_step; [|done|by intros ????|by vm_compute; eexists].
  apply pppoe_sample_step; [|apply sample_session_ok; by vm_compute|done|by vm_compute; eexists].
  apply pppoe_sample_step; [|apply sample_session_ok; by vm_compute|done|by vm_compute; eexists].
  apply prun_init.
Qed.

Lemma far_pppoe_run : pppoe_run sample_pppoe_0 true far_pppoe.
Proof.
  apply pppoe_sample_step; [apply prun_init|apply sample_session_ok; by vm_compute|done|by vm_compute; eexists].
Qed.

Lemma pppoe_runs_sound_witness :
  pppoe_run sample_pppoe_0 true sample_pppoe /\
  pm_lac_session_count sample_pppoe = 1 /\
  pm_lac_session_count sample_pppoe = msum lac_one (pm_sessions sample_pppoe).
Proof.
  split; [exact sample_pppoe_run|]. split; [by vm_compute|].
  apply (pppoe_runs_sound input_node "encap" "punt" true sample_pppoe sample_pppoe_run).
Defined.

Lemma pppoe_routes_exact_witness :
  mkRoute true 0 13 128 (Some 13) 101 ∈ routes (pm_calls sample_pppoe) /\
  exists si s, pm_sessions sample_pppoe !! si = Some s /\
    mkRoute true 0 13 128 (Some 13) 101 ∈ pbindings s.
Proof.
  assert (mkRoute true 0 13 128 (Some 13) 101 ∈ routes (pm_calls sample_pppoe)) as E.
  { apply (bool_decide_unpack _). by vm_compute. }
  split; [exact E|].
  apply (pppoe_routes_exact input_node "encap" "punt" sample_pppoe sample_pppoe_run), E.
Defined.

Lemma pppoe_add_idempotent_witness :
  let a := sample_pppoe_args true 1 5 5 11 100 200 in
  vl_api_osvbng_pppoe_add_del_session_t_handler sample_pppoe_0 0 1 (host32 0) a =
    Some (sample_pppoe_1, RV_OK, Some 101) /\
  vl_api_osvbng_pppoe_add_del_session_t_handler sample_pppoe_1 8 9 (host32 0) a =
    Some (sample_pppoe_1, RV_OK, Some 101).
Proof.
  cbv zeta.
  assert (vl_api_osvbng_pppoe_add_del_session_t_handler sample_pppoe_0 0 1 (host32 0)
    (sample_pppoe_args true 1 5 5 11 100 200) = Some (sample_pppoe_1, RV_OK, Some 101)) as E
    by by vm_compute.
  split; [exact E|].
  apply (pppoe_add_idempotent input_node "encap" "punt" true sample_pppoe_0 0 1 (host32 0)
    (sample_pppoe_args true 1 5 5 11 100 200) sample_pppoe_1 101 8 9 (prun_init _)); [|done|exact E].
  apply sample_session_ok; vm_compute; (reflexivity || discriminate || by split).
Defined.

(** ** Packets *)

(** A frame received at an offset into the buffer, past its Ethernet header. *)
Definition sample_access (l : list Z) : vlib_buffer_t :=
  (sample_buffer 64 l 0)⟪b_l2_hdr_offset := Some 64⟫⟪b_current_data := 78⟫
    ⟪b_current_length := Z.of_nat (length l) - 14⟫.

Lemma sample_on_access l :
  forallb (λ x, (0 <=? x) && (x <? 256)) l = true → Nat.leb 14 (length l) && Nat.ltb (length l) 1000 = true →
  on_access (sample_access l) l.
Proof.
  intros Hl [Hn1%Nat.leb_le Hn2%Nat.ltb_lt]%andb_true_iff. unfold sample_access, sample_buffer. split; rproj; simpl; try lia.
  - intros p. unfold byte. revert p. apply put_bytes; [done|]. by apply sample_bytes.
  - apply lies_put.
Qed.

(** The session in a slot. *)
Definition the_session (m : osvbng_pppoe_main_t) (i : Z) : osvbng_pppoe_session_t :=
  default (mkPppoeSession 0 (mkIp46 0 0) 0 0 [] [] 0 0 0 0 0 0 0 false 0 0 0 false 0) (pm_sessions m !! i).

(** A part of a result that can be computed. *)
Lemma computed {A B} (f : A → B) X x y : X = Some x → f <$> X = Some y → f x = y.
Proof. intros ->. by intros [= ->]. Qed.

Definition sample_tags : list (Z * Z) := [(ETHERNET_TYPE_DOT1AD, 100); (ETHERNET_TYPE_VLAN, 200)].
Definition sample_ip4 : list Z :=
  pppoe_wire (sample_mac 99) (sample_mac 1) sample_tags 5 22 PPP_PROTOCOL_IP4 (69 :: repeat 7 19).
Definition sample_lcp : list Z :=
  pppoe_wire (sample_mac 99) (sample_mac 2) [] 6 6 49185 [9; 1; 0; 4].

Lemma pppoe_frame_is_packets_witness :
  pppoe_run sample_pppoe_0 true sample_pppoe /\
  exists sw' counted n outs,
    osvbng_pppoe_input_node sample_pppoe 0 [sample_access sample_ip4; sample_access sample_lcp] =
      Some (sw', counted, n, outs) /\
    mapM (pppoe_direct sample_pppoe) [sample_access sample_ip4; sample_access sample_lcp] = Some outs.
Proof.
  split; [exact sample_pppoe_run|].
  apply (pppoe_frame_is_packets input_node "encap" "punt" true), sample_pppoe_run.
Defined.

Lemma pppoe_counters_exact_witness :
  exists sw' counted n outs,
    osvbng_pppoe_input_node sample_pppoe 0 [sample_access sample_ip4; sample_access sample_ip4] =
      Some (sw', counted, n, outs) /\
    tally 101 bytes_of outs = 40 /\ added 101 snd counted = tally 101 bytes_of outs /\
    n = Z.of_nat (length (decapsulated outs)).
Proof.
  assert (bool_decide (is_Some (osvbng_pppoe_input_node sample_pppoe 0
    [sample_access sample_ip4; sample_access sample_ip4])) = true) as Hs by by vm_compute.
  apply bool_decide_eq_true in Hs as [[[[sw' counted] n] outs] E].
  assert (tally 101 bytes_of outs = 40) as E1
    by (refine (computed (λ r, tally 101 bytes_of r.2) _ _ _ E _); by vm_compute).
  assert (length (decapsulated outs) = 2%nat) as E2
    by (refine (computed (λ r, length (decapsulated r.2)) _ _ _ E _); by vm_compute).
  assert (zsum (map bytes_of (decapsulated outs)) = 40) as E3
    by (refine (computed (λ r, zsum (map bytes_of (decapsulated r.2))) _ _ _ E _); by vm_compute).
  exists sw', counted, n, outs. split; [done|]. split; [exact E1|].
  destruct (pppoe_counters_exact sample_pppoe 0 _ sw' counted n outs 101 E) as (_ & H1 & H2);
    [rewrite E2; lia|rewrite E3; lia|]. split; [exact H1|exact H2].
Defined.

Lemma pppoe_input_delivers_witness :
  is_u16 5 /\
  exists w' counted n b',
    osvbng_pppoe_input_node sample_pppoe 0 [sample_access sample_ip4] =
      Some (w', counted, n, [(b', PPPOE_INPUT_NEXT_IP4_INPUT, None)]) /\
    contents b' = 69 :: repeat 7 19 /\ b_rx b' = 101.
Proof.
  split; [done|].
  destruct (pppoe_input_delivers input_node "encap" "punt" true sample_pppoe 0 (sample_access sample_ip4)
    (sample_mac 99) (sample_mac 1) sample_tags 5 22 PPP_PROTOCOL_IP4 (69 :: repeat 7 19) sample_pppoe_run)
    as (w' & counted & n & b' & next & err & E & Hspec & _).
  - by apply sample_on_access; vm_compute.
  - split; [done|]. by apply sample_bytes.
  - done.
  - split; [by right|done].
  - done.
  - done.
  - done.
  - intros s Hs. vm_compute in Hs. by injection Hs as <-.
  - assert (session_for sample_pppoe (sample_mac 1) 5 = Some (the_session sample_pppoe 0)) as Es
      by reflexivity.
    rewrite Es in Hspec.
    change (ps_is_lac_tunneled (the_session sample_pppoe 0)) with false in Hspec.
    destruct Hspec as (-> & Hc & Hrx).
    assert (err = None) as ->.
    { assert (map snd [(b', PPPOE_INPUT_NEXT_IP4_INPUT, err)] = [None]) as Ee
        by (refine (computed (λ r, map snd r.2) _ _ _ E _); by vm_compute).
      cbn [snd map] in Ee. by injection Ee. }
    exists w', counted, n, b'. split; [exact E|]. split; [exact Hc|exact Hrx].
Defined.

Lemma pppoe_midchain_is_lac_tx_witness :
  exists rw off b',
    pppoe_update_adj sample_pppoe 101 VNET_LINK_IP4 AdjNeighbour = Some (Some (rw, off), StackInterfaceTx 5) /\
    osvbng_pppoe_lac_tx_node sample_pppoe
      ((with_rewrite (be16 PPP_PROTOCOL_IP4) sample_frame)⟪b_opaque2_0 := 101⟫) =
      Some (b', OSVBNG_PPPOE_LAC_TX_NEXT_INTERFACE_OUTPUT, None) /\
    contents (pppoe_fixup (with_rewrite rw sample_frame) off) = contents b'.
Proof.
  destruct (pm_sessions sample_pppoe !! 0) as [s|] eqn:Es; [|by vm_compute in Es].
  assert (pppoe_encap_len s = 30 /\ ps_encap_if_index s = 5) as [E1 E2]
    by (vm_compute in Es; by injection Es as <-).
  destruct (pppoe_run_ok input_node "encap" "punt" true sample_pppoe sample_pppoe_run) as [Hok _].
  destruct (pppoe_midchain_is_lac_tx sample_pppoe 101 0 s sample_frame false)
    as (rw & off & b' & A1 & A2 & A3 & _);
    [by vm_compute|exact Es|apply (pk_session _ Hok 0 s Es)|exact sample_frame_ok|by vm_compute|
     rewrite E1; by vm_compute|by vm_compute|rewrite E1; by vm_compute|].
  rewrite E2 in A1. exists rw, off, b'. split; [exact A1|]. split; [exact A2|exact A3].
Defined.

Lemma lac_bridge_preserves_witness :
  exists w' counted n b1 b2 b3 b4,
    osvbng_pppoe_input_node sample_pppoe 0 [sample_access sample_lcp] =
      Some (w', counted, n, [(b1, NextArc 10, None)]) /\
    l2tpv2_encap_raw_node sample_l2tp b1 = Some (b2, L2TPV2_ENCAP_RAW_NEXT_IP4_LOOKUP, None) /\
    l2tpv2_input_node sample_peer (vlib_buffer_advance 28 b2) = Some (b3, L2tpNodes.NextArc 10, None) /\
    osvbng_pppoe_lac_tx_node far_pppoe b3 =
      Some (b4, OSVBNG_PPPOE_LAC_TX_NEXT_INTERFACE_OUTPUT, None) /\
    contents b4 = pppoe_wire (sample_mac 9) (sample_mac 99) [(ETHERNET_TYPE_VLAN, 300)] 8 6 49185
                    [9; 1; 0; 4].
Proof.
  set (s := the_session sample_pppoe 1). set (s2 := the_session far_pppoe 0).
  destruct (pppoe_run_ok input_node "encap" "punt" true far_pppoe far_pppoe_run) as [Hok _].
  assert (lac_path sample_pppoe sample_l2tp sample_peer far_pppoe (sample_mac 2) 6 s s2 (sample_raw 12 22)
    (sample_raw 22 12) sample_tunnel 10 10) as Hp.
  { split; [vm_compute; reflexivity|vm_compute; reflexivity|vm_compute; reflexivity|
      vm_compute; discriminate|vm_compute; reflexivity|vm_compute; reflexivity|by right|
      by vm_compute|vm_compute; reflexivity|vm_compute; reflexivity|vm_compute; reflexivity|
      vm_compute; reflexivity|vm_compute; reflexivity|].
    apply (pk_session _ Hok 0). reflexivity. }
  destruct (lac_bridge_preserves input_node "encap" "punt" true sample_pppoe sample_l2tp sample_peer
    far_pppoe 0 (sample_access sample_lcp) (sample_mac 99) (sample_mac 2) [] 6 6 49185 [9; 1; 0; 4]
    s s2 _ _ _ _ _ sample_pppoe_run Hp) as (w' & counted & n & b1 & b2 & b3 & b4 & H1 & H2 & H3 & H4 & H5 & _).
  - by apply sample_on_access; vm_compute.
  - by apply sample_mac_ok.
  - done.
  - done.
  - reflexivity.
  - done.
  - done.
  - done.
  - done.
  - done.
  - by vm_compute.
  - by vm_compute.
  - by vm_compute.
  - exists w', counted, n, b1, b2, b3, b4. split; [exact H1|]. split; [exact H2|]. split; [exact H3|].
    split; [exact H4|exact H5].
Defined.

(** What the calls do not check.  A session deleted with its IPv6 address still bound
    leaves that route behind, on an interface the next session takes over. *)
Lemma pppoe_delete_leaks :
  let m1 := pppoe_after sample_pppoe
              (OpSession 8 9 (host32 0) (sample_pppoe_args false 1 5 5 11 100 200)) in
  let m2 := pppoe_after m1 (OpSession 0 9 (host32 0) (sample_pppoe_args true 3 7 6 15 0 0)) in
  pm_sessions m1 !! 0 = None /\
  ps_sw_if_index <$> pm_sessions m2 !! 0 = Some 101 /\
  mkRoute true 0 13 128 (Some 13) 101 ∈ routes (pm_calls m2).
Proof. cbv zeta. split_and!; [by vm_compute|by vm_compute|]. apply (bool_decide_unpack _). by vm_compute. Qed.
