(* ===== verification/IpoeSession.v ===== *)
(** IPoE sessions: [plugins/osvbng_ipoe/osvbng_ipoe.h], the session functions of
    [osvbng_ipoe.c] and the handlers of [osvbng_ipoe_api.c].

    The slot of a new session and the hardware index of its interface are arguments.
    Unlike the other session plugins this one deletes a session's interface with it, and
    clears its bindings first.  [None] is an access to a freed entry of a pool, the
    plugin's or VPP's. *)

From S2P Require Import Prelude Packet Access.
From stdpp Require Import strings.

#[local] Open Scope Z_scope.

(** * Data *)

Record ipoe_session_t := mkIpoeSession {
  ie_encap_if_index : Z;
  ie_client_mac : list Z;          (* six bytes *)
  ie_local_mac : list Z;
  ie_outer_vlan : Z;               (* u16, 0 if untagged *)
  ie_inner_vlan : Z;               (* u16, 0 if none *)
  ie_outer_tpid : Z;               (* u16 *)
  ie_client_ipv4 : Z;
  ie_ipv4_bound : bool;
  ie_client_ipv6 : Z;
  ie_ipv6_bound : bool;
  ie_delegated_prefix : Z;
  ie_delegated_prefix_len : Z;     (* u8, 0 if none *)
  ie_pd_next_hop : Z;
  ie_decap_fib_index : Z;
  ie_decap_fib_index_ip6 : Z;
  ie_sw_if_index : Z;
  ie_hw_if_index : Z
}.
#[export] Instance eta_ipoe_session : Eta ipoe_session_t := λ s,
  mkIpoeSession (ie_encap_if_index s) (ie_client_mac s) (ie_local_mac s) (ie_outer_vlan s)
    (ie_inner_vlan s) (ie_outer_tpid s) (ie_client_ipv4 s) (ie_ipv4_bound s) (ie_client_ipv6 s)
    (ie_ipv6_bound s) (ie_delegated_prefix s) (ie_delegated_prefix_len s) (ie_pd_next_hop s)
    (ie_decap_fib_index s) (ie_decap_fib_index_ip6 s) (ie_sw_if_index s) (ie_hw_if_index s).

(** The two words of a key. *)
Definition ipoe_entry_key_t : Type := Z * Z.
(** sw_if_index and session_index of an entry; all ones when there is none. *)
Definition ipoe_entry_result_t : Type := Z * Z.
Definition IPOE_NO_RESULT : ipoe_entry_result_t := (NONE, NONE).

(** The vector [session_index_by_sw_if_index] is a map, as for tunnels. *)
Record ipoe_main_t := mkIpoe {
  im_sessions : gmap Z ipoe_session_t;
  im_session_table : gmap ipoe_entry_key_t ipoe_entry_result_t;
  im_session_index_by_sw_if_index : gmap Z Z;
  im_enabled_by_sw_if_index : gset Z;
  im_ethertypes_registered : bool;
  im_calls : list vnet_call            (* into VPP, in order *)
}.
#[export] Instance eta_ipoe : Eta ipoe_main_t := λ m,
  mkIpoe (im_sessions m) (im_session_table m) (im_session_index_by_sw_if_index m)
    (im_enabled_by_sw_if_index m) (im_ethertypes_registered m) (im_calls m).

Record vnet_ipoe_add_del_session_args_t := mkIpoeArgs {
  ia_is_add : bool;
  ia_encap_if_index : Z;
  ia_client_mac : list Z;
  ia_local_mac : list Z;
  ia_outer_vlan : Z;
  ia_inner_vlan : Z;
  ia_decap_fib_index : Z
}.

Definition ipoe_call (cs : list vnet_call) (m : ipoe_main_t) : ipoe_main_t :=
  m⟪im_calls ::= λ l, l ++ cs⟫.
Definition upd_ipoe_session (si : Z) (g : ipoe_session_t → ipoe_session_t) (m : ipoe_main_t)
    : ipoe_main_t :=
  m⟪im_sessions ::= alter g si⟫.

(** * The lookup key *)

(** The fields in memory, over zeros. *)
Definition ipoe_make_key (sw_if_index inner_vlan : Z) (mac : list Z) : ipoe_entry_key_t :=
  let key := put (λ _, 0) 0 (le32 sw_if_index ++ le16 inner_vlan ++ mac) in
  (ld64 key 0, ld64 key 8).

(** The key and result of the one-entry cache, and its first contents. *)
Definition ipoe_cache : Type := ipoe_entry_key_t * ipoe_entry_result_t.
Definition IPOE_EMPTY_CACHE : ipoe_cache := ((2 ^ 64 - 1, 2 ^ 64 - 1), IPOE_NO_RESULT).

Definition ipoe_lookup_1 (table : gmap ipoe_entry_key_t ipoe_entry_result_t) (cached : ipoe_cache)
    (sw_if_index inner_vlan : Z) (mac : list Z) : ipoe_entry_result_t * ipoe_cache :=
  let key := ipoe_make_key sw_if_index inner_vlan mac in
  if (fst key =? fst (fst cached)) && (snd key =? snd (fst cached)) then (snd cached, cached)
  else
    let result := default IPOE_NO_RESULT (table !! key) in
    (result, (key, result)).

Definition ipoe_session_table_add (table : gmap ipoe_entry_key_t ipoe_entry_result_t)
    (sw_if_index inner_vlan : Z) (mac : list Z) (result : ipoe_entry_result_t)
    : gmap ipoe_entry_key_t ipoe_entry_result_t :=
  <[ipoe_make_key sw_if_index inner_vlan mac := result]> table.

Definition ipoe_session_table_del (table : gmap ipoe_entry_key_t ipoe_entry_result_t)
    (sw_if_index inner_vlan : Z) (mac : list Z) : gmap ipoe_entry_key_t ipoe_entry_result_t :=
  delete (ipoe_make_key sw_if_index inner_vlan mac) table.

Section Ipoe.

Context `{AccessVpp}.

(** * Bindings *)

(** The head of the three binding calls. *)
Definition with_ipoe_session (m : ipoe_main_t) (sw_if_index : Z)
    (f : Z → ipoe_session_t → ipoe_main_t) : option (ipoe_main_t * vnet_rv) :=
  match im_session_index_by_sw_if_index m !! sw_if_index with
  | None => Some (m, RV_INVALID_SW_IF_INDEX)
  | Some si => s ← im_sessions m !! si; Some (f si s, RV_OK)
  end.

Definition ipoe_route (ip6 : bool) (s : ipoe_session_t) (sw_if_index addr len : Z) : fib_route :=
  mkRoute ip6 (if ip6 then ie_decap_fib_index_ip6 s else ie_decap_fib_index s)
    addr len None sw_if_index.

(** The branches [is_add = 0]. *)
Definition ipoe_clear_ipv4 (m : ipoe_main_t) (sw_if_index addr si : Z) (s : ipoe_session_t)
    : ipoe_main_t :=
  if negb (ie_ipv4_bound s) then m
  else upd_ipoe_session si (λ s, s⟪ie_client_ipv4 := 0⟫⟪ie_ipv4_bound := false⟫)
         (ipoe_call [PathRemove (ipoe_route false s sw_if_index addr 32)] m).

Definition ipoe_clear_ipv6 (m : ipoe_main_t) (sw_if_index addr si : Z) (s : ipoe_session_t)
    : ipoe_main_t :=
  if negb (ie_ipv6_bound s) then m
  else upd_ipoe_session si (λ s, s⟪ie_client_ipv6 := 0⟫⟪ie_ipv6_bound := false⟫)
         (ipoe_call [PathRemove (ipoe_route true s sw_if_index addr 128)] m).

Definition ipoe_clear_prefix (m : ipoe_main_t) (sw_if_index prefix prefix_len si : Z)
    (s : ipoe_session_t) : ipoe_main_t :=
  if ie_delegated_prefix_len s =? 0 then m
  else upd_ipoe_session si
         (λ s, s⟪ie_delegated_prefix := 0⟫⟪ie_delegated_prefix_len := 0⟫⟪ie_pd_next_hop := 0⟫)
         (ipoe_call [PathRemove (ipoe_route true s sw_if_index prefix prefix_len)] m).

Definition vnet_ipoe_set_session_ipv4 (m : ipoe_main_t) (sw_if_index addr : Z) (is_add : bool)
    : option (ipoe_main_t * vnet_rv) :=
  with_ipoe_session m sw_if_index (λ si s,
    if is_add then
      if ie_ipv4_bound s && (ie_client_ipv4 s =? addr) then m
      else
        let m := if ie_ipv4_bound s
                 then ipoe_clear_ipv4 m sw_if_index (ie_client_ipv4 s) si s else m in
        upd_ipoe_session si (λ s, s⟪ie_client_ipv4 := addr⟫⟪ie_ipv4_bound := true⟫)
          (ipoe_call [PathAdd (ipoe_route false s sw_if_index addr 32)] m)
    else ipoe_clear_ipv4 m sw_if_index addr si s).

Definition vnet_ipoe_set_session_ipv6 (m : ipoe_main_t) (sw_if_index addr : Z) (is_add : bool)
    : option (ipoe_main_t * vnet_rv) :=
  with_ipoe_session m sw_if_index (λ si s,
    if is_add then
      if ie_ipv6_bound s && (ie_client_ipv6 s =? addr) then m
      else
        let m := if ie_ipv6_bound s
                 then ipoe_clear_ipv6 m sw_if_index (ie_client_ipv6 s) si s else m in
        upd_ipoe_session si (λ s, s⟪ie_client_ipv6 := addr⟫⟪ie_ipv6_bound := true⟫)
          (ipoe_call [PathAdd (ipoe_route true s sw_if_index addr 128)] m)
    else ipoe_clear_ipv6 m sw_if_index addr si s).

Definition vnet_ipoe_set_delegated_prefix (m : ipoe_main_t)
    (sw_if_index prefix prefix_len next_hop : Z) (is_add : bool) : option (ipoe_main_t * vnet_rv) :=
  with_ipoe_session m sw_if_index (λ si s,
    if is_add then
      if (ie_delegated_prefix_len s =? prefix_len) && (ie_delegated_prefix s =? prefix) then m
      else
        let m := if ie_delegated_prefix_len s =? 0 then m
                 else ipoe_clear_prefix m sw_if_index (ie_delegated_prefix s)
                        (ie_delegated_prefix_len s) si s in
        upd_ipoe_session si
          (λ s, s⟪ie_delegated_prefix := prefix⟫⟪ie_delegated_prefix_len := prefix_len⟫
                 ⟪ie_pd_next_hop := next_hop⟫)
          (ipoe_call [PathAdd (ipoe_route true s sw_if_index prefix prefix_len)] m)
    else ipoe_clear_prefix m sw_if_index prefix prefix_len si s).

(** * Sessions *)

(** Deletion: the bindings first, by calls that find the session by its interface, and
    the pool entry last. *)
Definition ipoe_del (m : ipoe_main_t) (si : Z) (s : ipoe_session_t)
    (a : vnet_ipoe_add_del_session_args_t) : option ipoe_main_t :=
  let sw := ie_sw_if_index s in
  let m := ipoe_call [ResetL3Output sw] m in
  '(m, _) ← if ie_ipv4_bound s
            then vnet_ipoe_set_session_ipv4 m sw (ie_client_ipv4 s) false else Some (m, RV_OK);
  '(m, _) ← if ie_ipv6_bound s
            then vnet_ipoe_set_session_ipv6 m sw (ie_client_ipv6 s) false else Some (m, RV_OK);
  '(m, _) ← if negb (ie_delegated_prefix_len s =? 0)
            then vnet_ipoe_set_delegated_prefix m sw (ie_delegated_prefix s)
                   (ie_delegated_prefix_len s) (ie_pd_next_hop s) false else Some (m, RV_OK);
  Some (ipoe_call [SetAdminUp sw false; DeleteHw (ie_hw_if_index s)]
    (m⟪im_session_table := ipoe_session_table_del (im_session_table m) (ia_encap_if_index a)
         (ia_inner_vlan a) (ia_client_mac a)⟫
      ⟪im_session_index_by_sw_if_index ::= delete sw⟫)⟪im_sessions ::= delete si⟫).

Definition new_ipoe_session (a : vnet_ipoe_add_del_session_args_t)
    (sw_if_index hw_if_index table_id : Z) : ipoe_session_t :=
  mkIpoeSession (ia_encap_if_index a) (ia_client_mac a) (ia_local_mac a) (ia_outer_vlan a)
    (ia_inner_vlan a)
    (if sw_interface_dot1ad_sub (ia_encap_if_index a)
     then ETHERNET_TYPE_DOT1AD else ETHERNET_TYPE_VLAN)
    0 false 0 false 0 0 0 (ia_decap_fib_index a) (default NONE (fib_table_find true table_id))
    sw_if_index hw_if_index.

(** The encap interface and the table are not looked at before they are used. *)
Definition ipoe_add (m : ipoe_main_t) (new_idx new_hw : Z) (a : vnet_ipoe_add_del_session_args_t)
    : option (ipoe_main_t * Z) :=
  if sw_interface_is_free (ia_encap_if_index a) then None
  else if negb (ia_decap_fib_index a =? 0) && fib_index_is_free false (ia_decap_fib_index a)
  then None
  else
    let sw := hw_sw_if_index new_hw in
    let table_id :=
      if ia_decap_fib_index a =? 0 then 0 else fib_table_get_table_id false (ia_decap_fib_index a) in
    Some (ipoe_call
       [RegisterHw new_hw new_idx; SetSup sw (ia_encap_if_index a); SetLinkUp new_hw;
        SetAdminUp sw true; SetL3Output sw; TableBind false sw table_id; TableBind true sw table_id]
       (m⟪im_sessions ::= insert new_idx (new_ipoe_session a sw new_hw table_id)⟫
         ⟪im_session_index_by_sw_if_index ::= insert sw new_idx⟫
         ⟪im_session_table := ipoe_session_table_add (im_session_table m) (ia_encap_if_index a)
             (ia_inner_vlan a) (ia_client_mac a) (sw, new_idx)⟫),
      sw).

(** The last component is [*sw_if_indexp], when it is written. *)
Definition vnet_ipoe_add_del_session (m : ipoe_main_t) (new_idx new_hw : Z)
    (a : vnet_ipoe_add_del_session_args_t) : option (ipoe_main_t * vnet_rv * option Z) :=
  match im_session_table m !!
          ipoe_make_key (ia_encap_if_index a) (ia_inner_vlan a) (ia_client_mac a) with
  | Some result =>
      s ← im_sessions m !! snd result;
      if ia_is_add a then Some (m, RV_ENTRY_ALREADY_EXISTS, Some (ie_sw_if_index s))
      else m' ← ipoe_del m (snd result) s a; Some (m', RV_OK, Some (ie_sw_if_index s))
  | None =>
      if negb (ia_is_add a) then Some (m, RV_NO_SUCH_ENTRY, None)
      else '(m, sw) ← ipoe_add m new_idx new_hw a; Some (m, RV_OK, Some sw)
  end.

Definition vnet_ipoe_enable_disable (m : ipoe_main_t) (sw_if_index : Z) (enable : bool)
    : ipoe_main_t * vnet_rv :=
  if negb (sw_interface_is_api_valid sw_if_index) then (m, RV_INVALID_SW_IF_INDEX)
  else
    let m := if enable && negb (im_ethertypes_registered m)
             then (ipoe_call [RegisterInput ETHERNET_TYPE_IP4; RegisterInput ETHERNET_TYPE_IP6] m)
                    ⟪im_ethertypes_registered := true⟫
             else m in
    (m⟪im_enabled_by_sw_if_index ::= λ e, if enable then {[sw_if_index]} ∪ e else e ∖ {[sw_if_index]}⟫,
     RV_OK).

(** * The API *)

Definition vl_api_osvbng_ipoe_add_del_session_t_handler (m : ipoe_main_t)
    (new_idx new_hw decap_vrf_id : Z) (a : vnet_ipoe_add_del_session_args_t)
    : option (ipoe_main_t * vnet_rv * option Z) :=
  vnet_ipoe_add_del_session m new_idx new_hw
    (mkIpoeArgs (ia_is_add a) (clib_net_to_host_u32 (ia_encap_if_index a)) (ia_client_mac a)
       (ia_local_mac a) (clib_net_to_host_u16 (ia_outer_vlan a))
       (clib_net_to_host_u16 (ia_inner_vlan a))
       (default NONE (fib_table_find false (clib_net_to_host_u32 decap_vrf_id)))).

Definition vl_api_osvbng_ipoe_set_session_ipv4_t_handler (m : ipoe_main_t)
    (sw_if_index client_ip : Z) (is_add : bool) : option (ipoe_main_t * vnet_rv) :=
  vnet_ipoe_set_session_ipv4 m (clib_net_to_host_u32 sw_if_index) client_ip is_add.

Definition vl_api_osvbng_ipoe_set_session_ipv6_t_handler (m : ipoe_main_t)
    (sw_if_index client_ip : Z) (is_add : bool) : option (ipoe_main_t * vnet_rv) :=
  vnet_ipoe_set_session_ipv6 m (clib_net_to_host_u32 sw_if_index) client_ip is_add.

Definition vl_api_osvbng_ipoe_set_delegated_prefix_t_handler (m : ipoe_main_t)
    (sw_if_index prefix prefix_len next_hop : Z) (is_add : bool) : option (ipoe_main_t * vnet_rv) :=
  vnet_ipoe_set_delegated_prefix m (clib_net_to_host_u32 sw_if_index) prefix prefix_len
    next_hop is_add.

Definition vl_api_osvbng_ipoe_enable_disable_t_handler (m : ipoe_main_t) (sw_if_index : Z)
    (enable : bool) : ipoe_main_t * vnet_rv :=
  vnet_ipoe_enable_disable m (clib_net_to_host_u32 sw_if_index) enable.

(** A session is reported with the table it is in. *)
Definition send_ipoe_session_details (s : ipoe_session_t) : ipoe_session_t * Z :=
  (s, fib_table_get_table_id false (ie_decap_fib_index s)).

Definition vl_api_osvbng_ipoe_session_dump_t_handler (m : ipoe_main_t) (sw_if_index : option Z)
    : option (list (ipoe_session_t * Z)) :=
  match sw_if_index with
  | None => Some (map send_ipoe_session_details (map_to_list (im_sessions m)).*2)
  | Some w =>
      match im_session_index_by_sw_if_index m !! w with
      | None => Some []
      | Some si => s ← im_sessions m !! si; Some [send_ipoe_session_details s]
      end
  end.

(** * Start-up *)

Definition ipoe_init : ipoe_main_t := mkIpoe ∅ ∅ ∅ ∅ false [].

End Ipoe.
