(* ===== verification/IpoeNodes.v ===== *)
(** The IPoE packet path: the input node of [plugins/osvbng_ipoe/osvbng_ipoe_input.c] and
    the rewrite and adjacency update of [osvbng_ipoe.c].

    As for PPPoE, the input node's step takes the tables and one buffer, and passes a
    one-entry cache on to the next packet of the frame.  The node never drops: a packet
    goes to its address family's input, on the session's interface when it has one. *)

From S2P Require Import Prelude Packet Access IpoeSession.

#[local] Open Scope Z_scope.

Inductive ipoe_input_next_t :=
  | IPOE_INPUT_NEXT_DROP
  | IPOE_INPUT_NEXT_ETHERNET_INPUT
  | IPOE_INPUT_NEXT_IP4_INPUT
  | IPOE_INPUT_NEXT_IP6_INPUT.
#[export] Instance ipoe_input_next_eq_dec : EqDecision ipoe_input_next_t.
Proof. solve_decision. Defined.

(** Under which counter a packet goes: none, [IPOE_ERROR_NO_SUCH_SESSION] or
    [IPOE_ERROR_DECAPSULATED]. *)
Inductive ipoe_count := IpoePass | IpoeNoSession | IpoeDecap.

(** The tag that identifies a session: the second one, or else the first. *)
Definition ipoe_recover_inner_vlan (d : Z → Z) (eth : Z) : Z :=
  let ethertype := clib_net_to_host_u16 (ld16 d (eth + 12)) in
  let p := eth + SIZEOF_ETHERNET in
  if (ethertype =? ETHERNET_TYPE_DOT1AD) || (ethertype =? ETHERNET_TYPE_VLAN) then
    let vlan1_id := Z.land (clib_net_to_host_u16 (ld16 d p)) 4095 in
    let ethertype := clib_net_to_host_u16 (ld16 d (p + 2)) in
    let p := p + SIZEOF_VLAN in
    if ethertype =? ETHERNET_TYPE_VLAN then Z.land (clib_net_to_host_u16 (ld16 d p)) 4095
    else vlan1_id
  else 0.

(** The VLAN tags a session is configured with, for output. *)
Definition ipoe_vlan_bytes (s : ipoe_session_t) : Z :=
  if negb (ie_outer_vlan s =? 0) && negb (ie_inner_vlan s =? 0) then 2 * SIZEOF_VLAN
  else if negb (ie_outer_vlan s =? 0) || negb (ie_inner_vlan s =? 0) then SIZEOF_VLAN else 0.

Section Nodes.

Context `{VlibVpp}.

(** * Input *)

Definition ipoe_outcome : Type := vlib_buffer_t * ipoe_input_next_t * ipoe_count.

(** Limited broadcast and IPv6 multicast are left to the parent interface. *)
Definition is_multicast (d : Z → Z) (ip0 : Z) (is_ip4 : bool) : bool :=
  if is_ip4 then ld32 d (ip0 + 16) =? NONE else d (ip0 + 24) =? 255.

Definition ipoe_input_step (m : ipoe_main_t) (cached : ipoe_cache) (b : vlib_buffer_t)
    : option (ipoe_cache * ipoe_outcome) :=
  let d := b_data b in
  let sw_if_index0 := b_rx b in
  let ip0 := b_current_data b in
  let is_ip4 := Z.shiftr (d ip0) 4 =? 4 in
  let next0 := if is_ip4 then IPOE_INPUT_NEXT_IP4_INPUT else IPOE_INPUT_NEXT_IP6_INPUT in
  if negb (bool_decide (sw_if_index0 ∈ im_enabled_by_sw_if_index m))
  then Some (cached, (b, next0, IpoePass))
  else
    let eth0 := ethernet_buffer_get_header b in
    let inner_vlan0 := ipoe_recover_inner_vlan d eth0 in
    let src_mac0 := bytes d (eth0 + 6) 6 in
    let '(result0, cached) :=
      ipoe_lookup_1 (im_session_table m) cached sw_if_index0 inner_vlan0 src_mac0 in
    if bool_decide (result0 = IPOE_NO_RESULT) then Some (cached, (b, next0, IpoeNoSession))
    else if is_multicast d ip0 is_ip4 then Some (cached, (b, next0, IpoePass))
    else
      s0 ← im_sessions m !! snd result0;
      Some (cached, (b⟪b_rx := ie_sw_if_index s0⟫, next0, IpoeDecap)).

(** The counters of a frame: the batch of the interface last seen, what has been added to
    the interfaces' counters, and the node's own. *)
Record ipoe_stats := mkIpoeStats {
  it_sw_if_index : Z;
  it_n_packets : Z;                   (* u32 *)
  it_n_bytes : Z;                     (* u32 *)
  it_counted : list (Z * Z * Z);      (* interface, packets and bytes *)
  it_processed : Z;                   (* u32 *)
  it_no_session : Z                   (* u32 *)
}.

Definition count_ipoe (out : ipoe_outcome) (st : ipoe_stats) : ipoe_stats :=
  let '(b0, _, c) := out in
  match c with
  | IpoePass => st
  | IpoeNoSession =>
      mkIpoeStats (it_sw_if_index st) (it_n_packets st) (it_n_bytes st) (it_counted st)
        (it_processed st) (u32 (it_no_session st + 1))
  | IpoeDecap =>
      let sw := b_rx b0 in
      let len0 := u32 (vlib_buffer_length_in_chain b0) in
      let processed := u32 (it_processed st + 1) in
      if sw =? it_sw_if_index st
      then mkIpoeStats sw (u32 (it_n_packets st + 1)) (u32 (it_n_bytes st + len0)) (it_counted st)
             processed (it_no_session st)
      else mkIpoeStats sw 1 len0
             (if it_n_packets st =? 0 then it_counted st
              else it_counted st ++ [(it_sw_if_index st, it_n_packets st, it_n_bytes st)])
             processed (it_no_session st)
  end.

Fixpoint ipoe_input_loop (m : ipoe_main_t) (cached : ipoe_cache) (st : ipoe_stats)
    (frame : list vlib_buffer_t) : option (ipoe_stats * list ipoe_outcome) :=
  match frame with
  | [] => Some (st, [])
  | b0 :: frame =>
      '(cached, out) ← ipoe_input_step m cached b0;
      '(st, outs) ← ipoe_input_loop m cached (count_ipoe out st) frame;
      Some (st, out :: outs)
  end.

(** The result has what was added to the interfaces' counters and the node's own two
    counters. *)
Definition ipoe_input_node (m : ipoe_main_t) (frame : list vlib_buffer_t)
    : option (list (Z * Z * Z) * Z * Z * list ipoe_outcome) :=
  '(st, outs) ← ipoe_input_loop m IPOE_EMPTY_CACHE (mkIpoeStats NONE 0 0 [] 0 0) frame;
  Some
    (if it_n_packets st =? 0 then it_counted st
     else it_counted st ++ [(it_sw_if_index st, it_n_packets st, it_n_bytes st)],
     it_processed st, it_no_session st, outs).

(** * Output *)

(** From the first type field on. *)
Definition ipoe_tags (s : ipoe_session_t) (ethertype : Z) : list Z :=
  let vid v := be16 (Z.land v 4095) in
  if negb (ie_outer_vlan s =? 0) && negb (ie_inner_vlan s =? 0) then
    be16 (ie_outer_tpid s) ++ vid (ie_outer_vlan s) ++
    be16 ETHERNET_TYPE_VLAN ++ vid (ie_inner_vlan s) ++ be16 ethertype
  else if negb (ie_outer_vlan s =? 0) then
    be16 (ie_outer_tpid s) ++ vid (ie_outer_vlan s) ++ be16 ethertype
  else if negb (ie_inner_vlan s =? 0) then
    be16 ETHERNET_TYPE_VLAN ++ vid (ie_inner_vlan s) ++ be16 ethertype
  else be16 ethertype.

(** The inner [None] is the null pointer. *)
Definition ipoe_build_rewrite (m : ipoe_main_t) (sw_if_index : Z) (link_type : vnet_link_t)
    : option (option (list Z)) :=
  match im_session_index_by_sw_if_index m !! sw_if_index with
  | None => Some None
  | Some session_index =>
      s ← im_sessions m !! session_index;
      let ethertype := match link_type with
                       | VNET_LINK_IP4 => ETHERNET_TYPE_IP4
                       | _ => ETHERNET_TYPE_IP6
                       end in
      Some (Some (ie_client_mac s ++ ie_local_mac s ++ ipoe_tags s ethertype))
  end.

(** The rewrite that is installed, when one is, and what the adjacency is stacked on. *)
Definition ipoe_update_adj (m : ipoe_main_t) (sw_if_index : Z) (link_type : vnet_link_t)
    : option (option (list Z) * adj_stack) :=
  match im_session_index_by_sw_if_index m !! sw_if_index with
  | None => Some (None, Unstacked)
  | Some session_index =>
      s ← im_sessions m !! session_index;
      rewrite ← ipoe_build_rewrite m sw_if_index link_type;
      Some (rewrite, StackInterfaceTx (ie_encap_if_index s))
  end.

End Nodes.
