(* ===== verification/IpoeInv.v ===== *)
(** What the IPoE plugin keeps true of its pool, table and interfaces, over every run of
    its API.

    A key packs the encap interface, the tag and the client's address reversibly.
    [ipoe_ok]: the table is exactly the pool, and the plugin's interfaces are those of
    the live sessions.  [ipoe_routes_ok]: the routes in VPP are the bindings of the live
    sessions.  The three bindings of a session are [slots], which are alike. *)

From S2P Require Import Prelude Packet Access IpoeSession.
From stdpp Require Import strings.

#[local] Open Scope Z_scope.

(** * Keys *)

Definition key_bytes (w v : Z) (mac : list Z) : Z → Z :=
  put (λ _, 0) 0 (le32 w ++ le16 v ++ mac).

Lemma key_bytes_byte w v mac p : mac_ok mac → byte (key_bytes w v mac p).
Proof.
  intros [_ Hm]. unfold key_bytes. apply put_bytes; [unfold byte; intros; lia|].
  rewrite !Forall_app. split_and!; [apply le32_bytes| |done].
  repeat constructor; unfold u8; ints.
Qed.

Lemma ipoe_key_inj w v mac w' v' mac' :
  is_u32 w → is_u32 w' → is_u16 v → is_u16 v' → mac_ok mac → mac_ok mac' →
  ipoe_make_key w v mac = ipoe_make_key w' v' mac' → w = w' /\ v = v' /\ mac = mac'.
Proof.
  intros Hw Hw' Hv Hv' Hm Hm'. unfold ipoe_make_key.
  fold (key_bytes w v mac) (key_bytes w' v' mac'). rewrite !ld64_value.
  intros [E1 E2]%pair_equal_spec.
  apply le_value_inj in E1; [|by apply bytes_byte; intros; apply key_bytes_byte..|done].
  apply le_value_inj in E2; [|by apply bytes_byte; intros; apply key_bytes_byte..|done].
  apply le_bytes_inj; try done.
  assert (∀ w v mac, mac_ok mac →
    le32 w ++ le16 v ++ mac = take 12 (bytes (key_bytes w v mac) 0 8 ++ bytes (key_bytes w v mac) 8 8)) as Hb.
  { clear. intros w v mac [Hl _]. change 8 with (0 + Z.of_nat 8). rewrite <- bytes_app.
    change (8 + 8)%nat with (12 + 4)%nat. rewrite bytes_app, take_app_length' by by rewrite bytes_length.
    replace 12%nat with (length (le32 w ++ le16 v ++ mac)) by (rewrite !length_app; simpl; lia).
    symmetry. apply (bytes_put _ 0 (le32 w ++ le16 v ++ mac)). }
  rewrite (Hb w v mac Hm), (Hb w' v' mac' Hm'). by rewrite E1, E2.
Qed.

(** No key is all ones: the last four bytes are zero. *)
Lemma ipoe_key_small w v mac : mac_ok mac → snd (ipoe_make_key w v mac) < 2 ^ 32.
Proof.
  intros Hm. unfold ipoe_make_key. fold (key_bytes w v mac). cbn [snd]. rewrite ld64_value.
  change 8%nat with (4 + 4)%nat. rewrite bytes_app.
  assert (bytes (key_bytes w v mac) (8 + Z.of_nat 4) 4 = [0; 0; 0; 0]) as ->.
  { destruct Hm as [Hl _]. assert (length (le32 w ++ le16 v ++ mac) = 12%nat) as Hlen
      by (rewrite !length_app; simpl; lia).
    assert (∀ p, 12 <= p → key_bytes w v mac p = 0) as Hz
      by (intros p Hp; apply put_out; rewrite Hlen; lia).
    unfold bytes. cbn [map seq]. by rewrite !Hz by lia. }
  pose proof (le_value_range (bytes (key_bytes w v mac) 8 4)
    (bytes_byte _ _ _ (λ p, key_bytes_byte w v mac p Hm))) as Hr.
  rewrite bytes_length in Hr. change (256 ^ Z.of_nat 4) with (2 ^ 32) in Hr.
  assert (∀ l, le_value (l ++ [0; 0; 0; 0]) = le_value l) as ->; [|lia].
  intros l. induction l as [|x l IH]; [done|]. cbn [le_value foldr app] in *. unfold le_value in IH.
  by rewrite IH.
Qed.

(** * The invariant *)

Definition ikey (s : ipoe_session_t) : ipoe_entry_key_t :=
  ipoe_make_key (ie_encap_if_index s) (ie_inner_vlan s) (ie_client_mac s).

Definition ipoe_wf (s : ipoe_session_t) : Prop :=
  is_u32 (ie_encap_if_index s) /\ is_u16 (ie_outer_vlan s) /\ is_u16 (ie_inner_vlan s) /\
  (ie_outer_tpid s = ETHERNET_TYPE_VLAN \/ ie_outer_tpid s = ETHERNET_TYPE_DOT1AD) /\
  mac_ok (ie_client_mac s) /\ mac_ok (ie_local_mac s).

Definition iowned (s : ipoe_session_t) : Z * Z := (ie_sw_if_index s, ie_hw_if_index s).

Record ipoe_ok `{AccessVpp} (m : ipoe_main_t) : Prop := {
  ik_table key r :
    im_session_table m !! key = Some r →
    exists si s, r = (ie_sw_if_index s, si) /\ im_sessions m !! si = Some s /\ ikey s = key;
  ik_keyed si s :
    im_sessions m !! si = Some s → im_session_table m !! ikey s = Some (ie_sw_if_index s, si);
  ik_session si s : im_sessions m !! si = Some s → 0 <= si < NONE /\ ipoe_wf s;
  ik_ifaces : iface_ok [] (im_session_index_by_sw_if_index m) (iowned <$> im_sessions m);
  ik_registered hw :
    hw ∈ registered (im_calls m) <->
    exists si s, im_sessions m !! si = Some s /\ ie_hw_if_index s = hw
}.

(** ** Bindings *)

(** What is bound in a slot, as a route, and how the slot is emptied. *)
Record slot := mkSlot {
  sl_route : ipoe_session_t → option fib_route;
  sl_clear : ipoe_session_t → ipoe_session_t
}.
Definition slot4 : slot := mkSlot
  (λ s, if ie_ipv4_bound s
        then Some (ipoe_route false s (ie_sw_if_index s) (ie_client_ipv4 s) 32) else None)
  (λ s, s⟪ie_client_ipv4 := 0⟫⟪ie_ipv4_bound := false⟫).
Definition slot6 : slot := mkSlot
  (λ s, if ie_ipv6_bound s
        then Some (ipoe_route true s (ie_sw_if_index s) (ie_client_ipv6 s) 128) else None)
  (λ s, s⟪ie_client_ipv6 := 0⟫⟪ie_ipv6_bound := false⟫).
Definition slotp : slot := mkSlot
  (λ s, if ie_delegated_prefix_len s =? 0 then None
        else Some (ipoe_route true s (ie_sw_if_index s) (ie_delegated_prefix s)
                     (ie_delegated_prefix_len s)))
  (λ s, s⟪ie_delegated_prefix := 0⟫⟪ie_delegated_prefix_len := 0⟫⟪ie_pd_next_hop := 0⟫).
Definition slots : list slot := [slot4; slot6; slotp].

(** The routes a session stands for. *)
Definition ibindings (s : ipoe_session_t) : list fib_route := omap (λ k, sl_route k s) slots.

Record ipoe_routes_ok (m : ipoe_main_t) : Prop := {
  ir_exact r : r ∈ routes (im_calls m) <-> bound ibindings (im_sessions m) r;
  ir_prefix si s : im_sessions m !! si = Some s → ie_delegated_prefix_len s ≠ 128
}.

Lemma elem_of_ibindings s r :
  r ∈ ibindings s <-> sl_route slot4 s = Some r \/ sl_route slot6 s = Some r \/ sl_route slotp s = Some r.
Proof.
  unfold ibindings, slots. rewrite list_elem_of_omap. split.
  - intros (k & Hk & Hr). rewrite !elem_of_cons, elem_of_nil in Hk. naive_solver.
  - intros [?|[?|?]]; [exists slot4|exists slot6|exists slotp]; split; try done; set_solver.
Qed.

Lemma ibindings_iface s r : r ∈ ibindings s → rt_sw_if_index r = ie_sw_if_index s.
Proof.
  rewrite elem_of_ibindings. unfold slot4, slot6, slotp. cbn [sl_route].
  destruct (ie_ipv4_bound s), (ie_ipv6_bound s), (_ =? 0); intros [?|[?|?]]; by simplify_eq.
Qed.

(** Emptying a slot takes its route away and no other. *)
Lemma slot_clear_ok k s r :
  k ∈ slots → ie_delegated_prefix_len s ≠ 128 → sl_route k s = Some r →
  ∀ r', r' ∈ ibindings (sl_clear k s) <-> r' ≠ r /\ r' ∈ ibindings s.
Proof.
  intros Hk Hlen Hr r'. rewrite !elem_of_ibindings. unfold slots in Hk.
  rewrite !elem_of_cons, elem_of_nil in Hk.
  destruct Hk as [->|[->|[->|[]]]]; unfold slot4, slot6, slotp, ipoe_route in *;
    cbn [sl_route sl_clear] in *; rproj.
  - destruct (ie_ipv4_bound s); [|done]. simplify_eq.
    destruct (ie_ipv6_bound s), (_ =? 0); naive_solver.
  - destruct (ie_ipv6_bound s); [|done]. simplify_eq.
    destruct (ie_ipv4_bound s), (_ =? 0); naive_solver.
  - destruct (_ =? 0); [done|]. simplify_eq.
    destruct (ie_ipv4_bound s), (ie_ipv6_bound s); naive_solver.
Qed.

(** What no update of a session changes. *)
Definition ishape (s : ipoe_session_t) :=
  (iowned s, ie_outer_vlan s, ie_outer_tpid s, ie_local_mac s, ie_encap_if_index s,
   ie_inner_vlan s, ie_client_mac s).

Lemma slot_clear_shape k s : k ∈ slots → ishape (sl_clear k s) = ishape s.
Proof. unfold slots. rewrite !elem_of_cons, elem_of_nil. by intros [->|[->|[->|[]]]]. Qed.

Lemma slot_clear_len k s :
  k ∈ slots → ie_delegated_prefix_len s ≠ 128 → ie_delegated_prefix_len (sl_clear k s) ≠ 128.
Proof. unfold slots. rewrite !elem_of_cons, elem_of_nil. by intros [->|[->|[->|[]]]]. Qed.

Lemma slot_clear_none k s : k ∈ slots → sl_route k (sl_clear k s) = None.
Proof. unfold slots. rewrite !elem_of_cons, elem_of_nil. by intros [->|[->|[->|[]]]]. Qed.

(** [m'] is [m] with an update of the session [si]. *)
Record iupdated (si : Z) (s : ipoe_session_t) (m : ipoe_main_t) (s' : ipoe_session_t)
    (m' : ipoe_main_t) : Prop := {
  iu_same :
    (im_session_table m', im_session_index_by_sw_if_index m') =
    (im_session_table m, im_session_index_by_sw_if_index m);
  iu_sessions : im_sessions m' = <[si := s']> (im_sessions m);
  iu_shape : ishape s' = ishape s;
  iu_registered : registered (im_calls m') = registered (im_calls m)
}.

Section Inv.

Context `{AccessVppLaws}.

Lemma iupdated_refl si s m : im_sessions m !! si = Some s → iupdated si s m s m.
Proof. intros Hs. split; try done. by rewrite insert_id. Qed.

Lemma iupdated_trans si s m s1 m1 s2 m2 :
  iupdated si s m s1 m1 → iupdated si s1 m1 s2 m2 → iupdated si s m s2 m2.
Proof.
  intros [A1 A2 A3 A4] [B1 B2 B3 B4]. split; try congruence.
  by rewrite B2, A2, insert_insert_eq.
Qed.

Lemma iupdated_at si s m s' m' : iupdated si s m s' m' → im_sessions m' !! si = Some s'.
Proof. intros Hu. by rewrite (iu_sessions _ _ _ _ _ Hu), lookup_insert_eq. Qed.

Lemma iupdated_ok si s m s' m' :
  im_sessions m !! si = Some s → iupdated si s m s' m' → ipoe_ok m → ipoe_ok m'.
Proof.
  intros Hs [Hsame HS Hsh Hreg] [H1 H2 H3 H4 H5]. injection Hsame as E1 E2.
  unfold ishape, iowned in Hsh. injection Hsh as Ew Eh Ev Et El Ee Ei Ec.
  assert (ikey s' = ikey s) as Ek by (unfold ikey; by rewrite Ee, Ei, Ec).
  split.
  - intros key r. rewrite E1, HS. intros Hr. destruct (H1 key r Hr) as (sj & s0 & -> & Hj & Hk).
    exists sj. destruct (decide (sj = si)) as [->|].
    + exists s'. rewrite lookup_insert_eq. assert (s0 = s) as -> by congruence.
      split_and!; [by rewrite Ew|done|by rewrite Ek].
    + exists s0. by rewrite lookup_insert_ne.
  - intros sj s0. rewrite E1, HS. destruct (decide (sj = si)) as [->|].
    + rewrite lookup_insert_eq. intros [= <-]. rewrite Ek, Ew. by apply H2.
    + rewrite lookup_insert_ne by done. apply H2.
  - intros sj s0. rewrite HS. destruct (decide (sj = si)) as [->|].
    + rewrite lookup_insert_eq. intros [= <-]. specialize (H3 si s Hs).
      unfold ipoe_wf in *. by rewrite Ee, Ev, Ei, Et, Ec, El.
    + rewrite lookup_insert_ne by done. apply H3.
  - rewrite E2, HS, fmap_insert. unfold iowned at 1. rewrite Ew, Eh.
    rewrite insert_id; [done|]. by rewrite lookup_fmap, Hs.
  - intros hw. rewrite Hreg, H5, HS. split; intros (sj & s0 & Hj & Hh).
    + destruct (decide (sj = si)) as [->|]; [exists si, s'; rewrite lookup_insert_eq|
        exists sj, s0; by rewrite lookup_insert_ne].
      simplify_eq. by rewrite Eh.
    + destruct (decide (sj = si)) as [->|].
      * rewrite lookup_insert_eq in Hj. injection Hj as <-. exists si, s. by rewrite <- Eh.
      * rewrite lookup_insert_ne in Hj by done. by exists sj, s0.
Qed.

Lemma isession_of_sw m w si :
  ipoe_ok m → im_session_index_by_sw_if_index m !! w = Some si →
  exists s, im_sessions m !! si = Some s /\ ie_sw_if_index s = w.
Proof.
  intros Hok Hi. destruct (if_owner _ _ _ (ik_ifaces m Hok) w si Hi) as [hw Ho].
  rewrite lookup_fmap in Ho. destruct (im_sessions m !! si) as [s|] eqn:Es; [|done].
  exists s. split; [done|]. by injection Ho as <- _.
Qed.

Lemma isw_of_session m si s :
  ipoe_ok m → im_sessions m !! si = Some s →
  im_session_index_by_sw_if_index m !! ie_sw_if_index s = Some si /\
  hw_sw_if_index (ie_hw_if_index s) = ie_sw_if_index s.
Proof.
  intros Hok Hs. apply (if_owned _ _ _ (ik_ifaces m Hok)). by rewrite lookup_fmap, Hs.
Qed.

(** Interfaces keep the routes of different sessions apart. *)
Lemma iother_iface m si s r :
  ipoe_ok m → im_sessions m !! si = Some s → bound ibindings (delete si (im_sessions m)) r →
  rt_sw_if_index r ≠ ie_sw_if_index s.
Proof.
  intros Hok Hs (sj & s' & [Hne Hs']%lookup_delete_Some & Hr) Hw.
  rewrite (ibindings_iface s' r Hr) in Hw.
  destruct (isw_of_session m si s Hok Hs), (isw_of_session m sj s' Hok Hs'). congruence.
Qed.

(** One call and one update of the session. *)
Lemma iupdated_step si s m c g :
  im_sessions m !! si = Some s → is_path c = true → ishape (g s) = ishape s →
  iupdated si s m (g s) (upd_ipoe_session si g (ipoe_call [c] m)).
Proof.
  intros Hs Hc Hg. split; try done; unfold upd_ipoe_session, ipoe_call; rproj.
  - by apply alter_insert_lookup.
  - apply registered_paths. by repeat constructor.
Qed.

(** A binding more, a binding less. *)
Lemma iroutes_step si s m c g :
  ipoe_ok m → im_sessions m !! si = Some s → ie_delegated_prefix_len (g s) ≠ 128 →
  match c with
  | PathAdd r' => ∀ r, r ∈ ibindings (g s) <-> r = r' \/ r ∈ ibindings s
  | PathRemove r' =>
      rt_sw_if_index r' = ie_sw_if_index s /\ ∀ r, r ∈ ibindings (g s) <-> r ≠ r' /\ r ∈ ibindings s
  | _ => False
  end →
  ipoe_routes_ok m → ipoe_routes_ok (upd_ipoe_session si g (ipoe_call [c] m)).
Proof.
  intros Hok Hs Hlen Hb [Hr Hp]. unfold upd_ipoe_session, ipoe_call. split; rproj;
    rewrite (alter_insert_lookup g si _ s Hs).
  - apply (bound_step _ _ si s); [done..|].
    destruct c as [|r'| | | | | | | | | | | |]; try done. destruct Hb as [Hw Hb]. split; [|done].
    intros Ho. by apply (iother_iface m si s r' Hok Hs Ho).
  - intros sj s0. destruct (decide (sj = si)) as [->|].
    + rewrite lookup_insert_eq. by intros [= <-].
    + rewrite lookup_insert_ne by done. apply Hp.
Qed.

(** ** The binding calls *)

(** Emptying the slot [k] by removing the route [r], and filling it again. *)
Definition gen_clear (k : slot) (m : ipoe_main_t) (si : Z) (s : ipoe_session_t) (r : fib_route)
    : ipoe_main_t :=
  match sl_route k s with
  | None => m
  | Some _ => upd_ipoe_session si (sl_clear k) (ipoe_call [PathRemove r] m)
  end.
Definition gen_set (k : slot) (m : ipoe_main_t) (si : Z) (s : ipoe_session_t) (r : fib_route)
    (g : ipoe_session_t → ipoe_session_t) : ipoe_main_t :=
  upd_ipoe_session si g (ipoe_call [PathAdd r] (gen_clear k m si s (default r (sl_route k s)))).

Definition unbind (k : slot) (s : ipoe_session_t) : ipoe_session_t :=
  if sl_route k s then sl_clear k s else s.

Section Slot.

Context (m : ipoe_main_t) (si : Z) (s : ipoe_session_t) (k : slot).
Context (Hs : im_sessions m !! si = Some s) (Hk : k ∈ slots).

Lemma gen_clear_ok r :
  iupdated si s m (unbind k s) (gen_clear k m si s r) /\
  (ipoe_ok m → (∀ r0, sl_route k s = Some r0 → r0 = r) → ipoe_routes_ok m →
   ipoe_routes_ok (gen_clear k m si s r)).
Proof.
  unfold gen_clear, unbind. destruct (sl_route k s) as [r0|] eqn:Er.
  2: { split; [by apply iupdated_refl|done]. }
  split; [apply iupdated_step; [done..|by apply slot_clear_shape]|].
  intros Hok Hr Hro. rewrite <- (Hr r0 eq_refl).
  pose proof (ir_prefix m Hro si s Hs) as Hlen.
  apply (iroutes_step si s); try done; [by apply slot_clear_len|].
  split; [|by apply slot_clear_ok]. apply ibindings_iface.
  unfold ibindings. apply list_elem_of_omap. by exists k.
Qed.

Lemma gen_set_ok r g :
  ishape (g (unbind k s)) = ishape (unbind k s) →
  iupdated si s m (g (unbind k s)) (gen_set k m si s r g) /\
  (ipoe_ok m → ipoe_routes_ok m → ie_delegated_prefix_len (g (unbind k s)) ≠ 128 →
   (∀ r', r' ∈ ibindings (g (unbind k s)) <-> r' = r \/ r' ∈ ibindings (unbind k s)) →
   ipoe_routes_ok (gen_set k m si s r g)).
Proof.
  intros Hg. unfold gen_set.
  destruct (gen_clear_ok (default r (sl_route k s))) as [Hu Hr].
  split; [eapply iupdated_trans; [exact Hu|]; apply iupdated_step; [by eapply iupdated_at|done..]|].
  intros Hok Hro Hlen Hb. apply (iroutes_step si (unbind k s)); try done.
  - by apply (iupdated_ok si s m (unbind k s)).
  - by eapply iupdated_at.
  - apply Hr; [done| |done]. intros r0 Hr0. by rewrite Hr0.
Qed.

End Slot.

(** What the C code's calls do, slot by slot. *)
Lemma clear_gen m si s :
  (∀ addr, ipoe_clear_ipv4 m (ie_sw_if_index s) addr si s =
     gen_clear slot4 m si s (ipoe_route false s (ie_sw_if_index s) addr 32)) /\
  (∀ addr, ipoe_clear_ipv6 m (ie_sw_if_index s) addr si s =
     gen_clear slot6 m si s (ipoe_route true s (ie_sw_if_index s) addr 128)) /\
  (∀ p len, ipoe_clear_prefix m (ie_sw_if_index s) p len si s =
     gen_clear slotp m si s (ipoe_route true s (ie_sw_if_index s) p len)).
Proof.
  unfold ipoe_clear_ipv4, ipoe_clear_ipv6, ipoe_clear_prefix, gen_clear, slot4, slot6, slotp.
  cbn [sl_route sl_clear].
  by destruct (ie_ipv4_bound s), (ie_ipv6_bound s), (ie_delegated_prefix_len s =? 0).
Qed.

End Inv.
