(* ===== verification/IpoeRun.v ===== *)
(** Runs of the IPoE plugin's API: every call keeps the invariants.

    A run starts at [ipoe_init] and makes calls in any order; the slots and interfaces
    VPP hands out are unused ones, addresses have six bytes, and a session is asked for
    on an interface and in a table that exist, which the code takes on trust. *)

From S2P Require Import Prelude Packet Access IpoeSession IpoeInv.
From stdpp Require Import strings.

#[local] Open Scope Z_scope.

Section Run.

Context `{AccessVppLaws}.

(** * Bindings *)

(** What a binding call does, given what its action does to a session. *)
Lemma with_ipoe_ok m w f (P : ipoe_session_t → Prop) :
  ipoe_ok m →
  (∀ si s, im_sessions m !! si = Some s → ie_sw_if_index s = w →
     exists s', iupdated si s m s' (f si s) /\ (P s → ipoe_routes_ok m → ipoe_routes_ok (f si s))) →
  exists m' rv, with_ipoe_session m w f = Some (m', rv) /\ ipoe_ok m' /\
    ((∀ si s, im_session_index_by_sw_if_index m !! w = Some si → im_sessions m !! si = Some s → P s) →
     ipoe_routes_ok m → ipoe_routes_ok m').
Proof.
  intros Hok Hf. unfold with_ipoe_session.
  destruct (im_session_index_by_sw_if_index m !! w) as [si|] eqn:Ei;
    [|by exists m, RV_INVALID_SW_IF_INDEX].
  destruct (isession_of_sw m w si Hok Ei) as (s & Hs & Hw). rewrite Hs. cbn [mbind option_bind].
  destruct (Hf si s Hs Hw) as (s' & Hu & Hr). exists (f si s), RV_OK. split; [done|].
  split; [by apply (iupdated_ok si s m s')|]. intros HP. apply Hr. eauto.
Qed.

(** The shape all three calls have. *)
Lemma slot_call_ok k m si s (is_add same : bool) r c g (P : Prop) :
  ipoe_ok m → im_sessions m !! si = Some s → k ∈ slots →
  ishape (g (unbind k s)) = ishape (unbind k s) →
  (P → if is_add
       then (ie_delegated_prefix_len s ≠ 128 → ie_delegated_prefix_len (g (unbind k s)) ≠ 128) /\
            ∀ r', r' ∈ ibindings (g (unbind k s)) <-> r' = r \/ r' ∈ ibindings (unbind k s)
       else ∀ r0, sl_route k s = Some r0 → r0 = c) →
  exists s',
    let m' := if is_add then if same then m else gen_set k m si s r g else gen_clear k m si s c in
    iupdated si s m s' m' /\ (P → ipoe_routes_ok m → ipoe_routes_ok m').
Proof.
  intros Hok Hs Hk Hg Hp. cbv zeta. destruct is_add; [destruct same|].
  - exists s. split; [by apply iupdated_refl|done].
  - destruct (gen_set_ok m si s k Hs Hk r g Hg) as [Hu Hr]. eexists. split; [exact Hu|].
    intros HP Hro. destruct (Hp HP) as [Hlen Hb]. apply Hr; try done.
    by apply Hlen, (ir_prefix m Hro si s).
  - destruct (gen_clear_ok m si s k Hs Hk c) as [Hu Hr]. eexists. split; [exact Hu|]. auto.
Qed.

Lemma iset_ipv4_ok m w addr is_add :
  ipoe_ok m →
  exists m' rv, vnet_ipoe_set_session_ipv4 m w addr is_add = Some (m', rv) /\ ipoe_ok m' /\
    ((∀ si s, im_session_index_by_sw_if_index m !! w = Some si → im_sessions m !! si = Some s →
        is_add = false → ie_ipv4_bound s = true → ie_client_ipv4 s = addr) →
     ipoe_routes_ok m → ipoe_routes_ok m').
Proof.
  intros Hok. apply with_ipoe_ok; [done|]. intros si s Hs <-.
  destruct (clear_gen m si s) as (Hc & _ & _).
  destruct (slot_call_ok slot4 m si s is_add (ie_ipv4_bound s && (ie_client_ipv4 s =? addr))
    (ipoe_route false s (ie_sw_if_index s) addr 32) (ipoe_route false s (ie_sw_if_index s) addr 32)
    (λ s, s⟪ie_client_ipv4 := addr⟫⟪ie_ipv4_bound := true⟫)
    (is_add = false → ie_ipv4_bound s = true → ie_client_ipv4 s = addr)) as (s' & Hu);
    [done..|by unfold slots; set_solver| | |exists s'; revert Hu; cbv zeta].
  - done.
  - intros HP. unfold unbind, slot4. cbn [sl_route sl_clear]. destruct is_add.
    + split; [by destruct (ie_ipv4_bound s)|]. intros r'. rewrite !elem_of_ibindings.
      unfold slot4, slot6, slotp, ipoe_route. cbn [sl_route].
      destruct (ie_ipv4_bound s) eqn:Eb; rproj; rewrite ?Eb; naive_solver.
    + intros r0. destruct (ie_ipv4_bound s); [|done]. intros [= <-]. by rewrite HP.
  - rewrite !Hc. destruct is_add; [|done]. destruct (_ && _); [done|]. unfold gen_set.
    by destruct (ie_ipv4_bound s) eqn:Eb; unfold gen_clear, slot4; cbn [sl_route]; rewrite Eb.
Qed.

Lemma iset_ipv6_ok m w addr is_add :
  ipoe_ok m →
  exists m' rv, vnet_ipoe_set_session_ipv6 m w addr is_add = Some (m', rv) /\ ipoe_ok m' /\
    ((∀ si s, im_session_index_by_sw_if_index m !! w = Some si → im_sessions m !! si = Some s →
        is_add = false → ie_ipv6_bound s = true → ie_client_ipv6 s = addr) →
     ipoe_routes_ok m → ipoe_routes_ok m').
Proof.
  intros Hok. apply with_ipoe_ok; [done|]. intros si s Hs <-.
  destruct (clear_gen m si s) as (_ & Hc & _).
  destruct (slot_call_ok slot6 m si s is_add (ie_ipv6_bound s && (ie_client_ipv6 s =? addr))
    (ipoe_route true s (ie_sw_if_index s) addr 128) (ipoe_route true s (ie_sw_if_index s) addr 128)
    (λ s, s⟪ie_client_ipv6 := addr⟫⟪ie_ipv6_bound := true⟫)
    (is_add = false → ie_ipv6_bound s = true → ie_client_ipv6 s = addr)) as (s' & Hu);
    [done..|by unfold slots; set_solver| | |exists s'; revert Hu; cbv zeta].
  - done.
  - intros HP. unfold unbind, slot6. cbn [sl_route sl_clear]. destruct is_add.
    + split; [by destruct (ie_ipv6_bound s)|]. intros r'. rewrite !elem_of_ibindings.
      unfold slot4, slot6, slotp, ipoe_route. cbn [sl_route].
      destruct (ie_ipv6_bound s) eqn:Eb; rproj; rewrite ?Eb; naive_solver.
    + intros r0. destruct (ie_ipv6_bound s); [|done]. intros [= <-]. by rewrite HP.
  - rewrite !Hc. destruct is_add; [|done]. destruct (_ && _); [done|]. unfold gen_set.
    by destruct (ie_ipv6_bound s) eqn:Eb; unfold gen_clear, slot6; cbn [sl_route]; rewrite Eb.
Qed.

Lemma iset_prefix_ok m w prefix len next_hop is_add :
  ipoe_ok m →
  exists m' rv, vnet_ipoe_set_delegated_prefix m w prefix len next_hop is_add = Some (m', rv) /\
    ipoe_ok m' /\
    ((∀ si s, im_session_index_by_sw_if_index m !! w = Some si → im_sessions m !! si = Some s →
        if is_add then len ≠ 0 /\ len ≠ 128
        else ie_delegated_prefix_len s ≠ 0 →
             ie_delegated_prefix s = prefix /\ ie_delegated_prefix_len s = len) →
     ipoe_routes_ok m → ipoe_routes_ok m').
Proof.
  intros Hok. apply with_ipoe_ok; [done|]. intros si s Hs <-.
  destruct (clear_gen m si s) as (_ & _ & Hc).
  destruct (slot_call_ok slotp m si s is_add
    ((ie_delegated_prefix_len s =? len) && (ie_delegated_prefix s =? prefix))
    (ipoe_route true s (ie_sw_if_index s) prefix len) (ipoe_route true s (ie_sw_if_index s) prefix len)
    (λ s, s⟪ie_delegated_prefix := prefix⟫⟪ie_delegated_prefix_len := len⟫⟪ie_pd_next_hop := next_hop⟫)
    (if is_add then len ≠ 0 /\ len ≠ 128
     else ie_delegated_prefix_len s ≠ 0 →
          ie_delegated_prefix s = prefix /\ ie_delegated_prefix_len s = len)) as (s' & Hu);
    [done..|by unfold slots; set_solver| | |exists s'; revert Hu; cbv zeta].
  - done.
  - intros HP. unfold unbind, slotp. cbn [sl_route sl_clear]. destruct is_add.
    + destruct HP as [Hl0 Hl]. split; [by destruct (_ =? 0)|]. intros r'.
      rewrite !elem_of_ibindings. unfold slot4, slot6, slotp, ipoe_route. cbn [sl_route].
      destruct (Z.eqb_spec (ie_delegated_prefix_len s) 0) as [E|E]; rproj;
        rewrite (proj2 (Z.eqb_neq len 0) Hl0), ?E; cbn [Z.eqb]; naive_solver.
    + intros r0. destruct (Z.eqb_spec (ie_delegated_prefix_len s) 0) as [E|E]; [done|].
      intros [= <-]. by destruct (HP E) as [-> ->].
  - rewrite !Hc. destruct is_add; [|done]. destruct (_ && _); [done|]. unfold gen_set.
    by destruct (ie_delegated_prefix_len s =? 0) eqn:Eb; unfold gen_clear, slotp; cbn [sl_route]; rewrite Eb.
Qed.

(** * Deletion *)

(** The calls that deletion makes empty the slots that are bound. *)
Lemma off_slots m si s :
  im_session_index_by_sw_if_index m !! ie_sw_if_index s = Some si → im_sessions m !! si = Some s →
  (if ie_ipv4_bound s
   then vnet_ipoe_set_session_ipv4 m (ie_sw_if_index s) (ie_client_ipv4 s) false
   else Some (m, RV_OK)) =
    Some (gen_clear slot4 m si s
            (ipoe_route false s (ie_sw_if_index s) (ie_client_ipv4 s) 32), RV_OK) /\
  (if ie_ipv6_bound s
   then vnet_ipoe_set_session_ipv6 m (ie_sw_if_index s) (ie_client_ipv6 s) false
   else Some (m, RV_OK)) =
    Some (gen_clear slot6 m si s
            (ipoe_route true s (ie_sw_if_index s) (ie_client_ipv6 s) 128), RV_OK) /\
  (if negb (ie_delegated_prefix_len s =? 0)
   then vnet_ipoe_set_delegated_prefix m (ie_sw_if_index s) (ie_delegated_prefix s)
          (ie_delegated_prefix_len s) (ie_pd_next_hop s) false
   else Some (m, RV_OK)) =
    Some (gen_clear slotp m si s
            (ipoe_route true s (ie_sw_if_index s) (ie_delegated_prefix s)
               (ie_delegated_prefix_len s)), RV_OK).
Proof.
  intros Hw Hs. destruct (clear_gen m si s) as (E4 & E6 & Ep).
  unfold vnet_ipoe_set_session_ipv4, vnet_ipoe_set_session_ipv6, vnet_ipoe_set_delegated_prefix,
    with_ipoe_session. rewrite Hw, Hs. cbn [mbind option_bind]. rewrite E4, E6, Ep.
  unfold gen_clear, slot4, slot6, slotp. cbn [sl_route sl_clear].
  by destruct (ie_ipv4_bound s), (ie_ipv6_bound s), (ie_delegated_prefix_len s =? 0).
Qed.

(** The session once its slots are empty. *)
Definition bare (s : ipoe_session_t) : ipoe_session_t := unbind slotp (unbind slot6 (unbind slot4 s)).

Lemma unbind_none k k' s :
  k ∈ slots → k' ∈ slots → k = k' \/ sl_route k' s = None → sl_route k' (unbind k s) = None.
Proof.
  intros Hk Hk' Hn. unfold unbind. destruct (sl_route k s) eqn:Er; [|by destruct Hn as [<-|]].
  destruct Hn as [<-|Hn]; [by apply slot_clear_none|]. unfold slots in *.
  rewrite !elem_of_cons, elem_of_nil in Hk, Hk'.
  destruct Hk as [->|[->|[->|[]]]], Hk' as [->|[->|[->|[]]]]; (exact Hn || done).
Qed.

Lemma bare_bindings s : ibindings (bare s) = [].
Proof.
  assert (slot4 ∈ slots /\ slot6 ∈ slots /\ slotp ∈ slots) as (K4 & K6 & Kp)
    by (unfold slots; set_solver).
  apply elem_of_nil_inv. intros r. rewrite elem_of_ibindings. unfold bare.
  rewrite (unbind_none slotp slotp), (unbind_none slotp slot6), (unbind_none slotp slot4); try done;
    [by intros [|[|]]|right; apply unbind_none; try done; right; apply unbind_none; tauto|
     right; apply unbind_none; tauto|tauto].
Qed.

(** Emptying one slot leaves what the next calls read. *)
Lemma unbind_reads s :
  (ie_sw_if_index (unbind slot4 s), ie_ipv6_bound (unbind slot4 s), ie_client_ipv6 (unbind slot4 s)) =
    (ie_sw_if_index s, ie_ipv6_bound s, ie_client_ipv6 s) /\
  ∀ k, k = slot4 \/ k = slot6 →
    (ie_sw_if_index (unbind k s), ie_delegated_prefix_len (unbind k s),
     ie_delegated_prefix (unbind k s), ie_pd_next_hop (unbind k s)) =
    (ie_sw_if_index s, ie_delegated_prefix_len s, ie_delegated_prefix s, ie_pd_next_hop s).
Proof.
  unfold unbind. split; [by destruct (sl_route slot4 s)|].
  intros k [->| ->]; [by destruct (sl_route slot4 s)|by destruct (sl_route slot6 s)].
Qed.

(** What deletion does: the bindings go, then the session. *)
Definition idrop_session (m : ipoe_main_t) (si : Z) (s : ipoe_session_t) : ipoe_main_t :=
  ipoe_call [SetAdminUp (ie_sw_if_index s) false; DeleteHw (ie_hw_if_index s)]
    (m⟪im_session_table ::= delete (ikey s)⟫
      ⟪im_session_index_by_sw_if_index ::= delete (ie_sw_if_index s)⟫)⟪im_sessions ::= delete si⟫.

Lemma unbind_shape k s : k ∈ slots → ishape (unbind k s) = ishape s.
Proof. intros Hk. unfold unbind. destruct (sl_route k s); [by apply slot_clear_shape|done]. Qed.

(** One of the three steps. *)
Lemma clear_step m si s k r :
  ipoe_ok m → im_sessions m !! si = Some s → k ∈ slots → sl_route k s = None \/ sl_route k s = Some r →
  let m' := gen_clear k m si s r in
  ipoe_ok m' /\ im_sessions m' !! si = Some (unbind k s) /\
  im_session_index_by_sw_if_index m' !! ie_sw_if_index (unbind k s) = Some si /\
  im_session_table m' = im_session_table m /\ ikey (unbind k s) = ikey s /\
  (ipoe_routes_ok m → ipoe_routes_ok m').
Proof.
  intros Hok Hs Hk Hr. cbv zeta. destruct (gen_clear_ok m si s k Hs Hk r) as [Hu Hro].
  pose proof (iupdated_ok _ _ _ _ _ Hs Hu Hok) as Hok'. pose proof (iupdated_at _ _ _ _ _ Hu) as Hs'.
  split_and!; try done.
  - by apply isw_of_session.
  - by injection (iu_same _ _ _ _ _ Hu).
  - unfold ikey. pose proof (iu_shape _ _ _ _ _ Hu) as Hsh. unfold ishape in Hsh.
    injection Hsh as _ _ _ _ _ E1 E2 E3. by rewrite E1, E2, E3.
  - apply Hro; [done|]. intros r0 Hr0. destruct Hr; congruence.
Qed.

Lemma ipoe_del_eq m si s a :
  ipoe_ok m → im_sessions m !! si = Some s →
  ipoe_make_key (ia_encap_if_index a) (ia_inner_vlan a) (ia_client_mac a) = ikey s →
  exists m', ipoe_del m si s a = Some (idrop_session m' si (bare s)) /\
    ipoe_ok m' /\ im_sessions m' !! si = Some (bare s) /\ (ipoe_routes_ok m → ipoe_routes_ok m').
Proof.
  intros Hok Hs Hkey. set (m0 := ipoe_call [ResetL3Output (ie_sw_if_index s)] m).
  assert (iupdated si s m s m0) as Hu0.
  { split; try done; unfold m0, ipoe_call; rproj; [by rewrite insert_id|].
    by rewrite registered_app. }
  assert (ipoe_routes_ok m → ipoe_routes_ok m0) as Hr0.
  { intros [Hr Hp]. split; [|exact Hp]. intros r. unfold m0, ipoe_call. rproj.
    by rewrite routes_no_paths by by repeat constructor. }
  pose proof (iupdated_ok _ _ _ _ _ Hs Hu0 Hok) as Hok0.
  pose proof (iupdated_at _ _ _ _ _ Hu0) as Hs0.
  destruct (isw_of_session m0 si s Hok0 Hs0) as [Hw0 _].
  destruct (off_slots m0 si s Hw0 Hs0) as (E4 & _ & _).
  destruct (clear_step m0 si s slot4 (ipoe_route false s (ie_sw_if_index s) (ie_client_ipv4 s) 32)
    Hok0 Hs0) as (Hok1 & Hs1 & Hw1 & Ht1 & Hk1 & Hr1);
    [unfold slots; set_solver|unfold slot4; cbn [sl_route]; destruct (ie_ipv4_bound s); auto|].
  set (m1 := gen_clear slot4 m0 si s _) in *. set (s1 := unbind slot4 s) in *.
  destruct (off_slots m1 si s1 Hw1 Hs1) as (_ & E6 & _).
  destruct (clear_step m1 si s1 slot6 (ipoe_route true s1 (ie_sw_if_index s1) (ie_client_ipv6 s1) 128)
    Hok1 Hs1) as (Hok2 & Hs2 & Hw2 & Ht2 & Hk2 & Hr2);
    [unfold slots; set_solver|unfold slot6; cbn [sl_route]; destruct (ie_ipv6_bound s1); auto|].
  set (m2 := gen_clear slot6 m1 si s1 _) in *. set (s2 := unbind slot6 s1) in *.
  destruct (off_slots m2 si s2 Hw2 Hs2) as (_ & _ & Ep).
  destruct (clear_step m2 si s2 slotp (ipoe_route true s2 (ie_sw_if_index s2) (ie_delegated_prefix s2)
    (ie_delegated_prefix_len s2)) Hok2 Hs2) as (Hok3 & Hs3 & Hw3 & Ht3 & Hk3 & Hr3);
    [unfold slots; set_solver|unfold slotp; cbn [sl_route]; destruct (_ =? 0); auto|].
  set (m3 := gen_clear slotp m2 si s2 _) in *. exists m3. split; [|split_and!; auto].
  destruct (unbind_reads s) as [R1 R2]. pose proof (R2 slot4 (or_introl eq_refl)) as R3.
  destruct (unbind_reads s1) as [_ R4]. pose proof (R4 slot6 (or_intror eq_refl)) as R5.
  fold s1 in R1, R3. fold s2 in R5. injection R1 as A1 A2 A3. injection R3 as _ B2 B3 B4.
  injection R5 as C1 C2 C3 C4.
  unfold ipoe_del. fold m0. rewrite E4. cbn [mbind option_bind].
  rewrite <- A1, <- A2, <- A3, E6. cbn [mbind option_bind].
  rewrite <- C1, <- B2, <- B3, <- B4, <- C2, <- C3, <- C4, Ep. cbn [mbind option_bind].
  unfold idrop_session, ipoe_session_table_del. change (bare s) with (unbind slotp s2).
  rewrite Hkey, Hk3, Hk2, Hk1.
  pose proof (unbind_shape slotp s2 ltac:(unfold slots; set_solver)) as Hsh3.
  pose proof (unbind_shape slot6 s1 ltac:(unfold slots; set_solver)) as Hsh2.
  pose proof (unbind_shape slot4 s ltac:(unfold slots; set_solver)) as Hsh1.
  fold s1 in Hsh1. fold s2 in Hsh2. unfold ishape, iowned in Hsh1, Hsh2, Hsh3.
  assert (ie_hw_if_index (unbind slotp s2) = ie_hw_if_index s) as -> by congruence.
  by assert (ie_sw_if_index (unbind slotp s2) = ie_sw_if_index s2) as -> by congruence.
Qed.

Lemma idrop_session_ok m si s :
  ipoe_ok m → im_sessions m !! si = Some s →
  ipoe_ok (idrop_session m si s) /\
  (ibindings s = [] → ipoe_routes_ok m → ipoe_routes_ok (idrop_session m si s)).
Proof.
  intros Hok Hs. destruct (isw_of_session m si s Hok Hs) as [Hw Hhw].
  unfold idrop_session, ipoe_call. split; [split|intros Hb [Hr Hp]; split]; rproj.
  - intros key r [Hne Hr]%lookup_delete_Some.
    destruct (ik_table m Hok key r Hr) as (sj & s0 & -> & Hj & Hk). exists sj, s0.
    rewrite lookup_delete_ne; [done|]. congruence.
  - intros sj s0 [Hne Hj]%lookup_delete_Some. pose proof (ik_keyed m Hok sj s0 Hj) as Hkj.
    rewrite lookup_delete_ne; [done|]. intros He. rewrite <- He in Hkj.
    rewrite (ik_keyed m Hok si s Hs) in Hkj. congruence.
  - intros sj s0 [_ Hj]%lookup_delete_Some. by apply (ik_session m Hok).
  - rewrite fmap_delete. apply (iface_forget _ _ _ _ (ie_hw_if_index s)); [apply (ik_ifaces m Hok)|].
    by rewrite lookup_fmap, Hs.
  - intros hw. rewrite registered_app. cbn [foldl registered_call].
    rewrite elem_of_difference, elem_of_singleton, (ik_registered m Hok). split.
    + intros [(sj & s0 & Hj & <-) Hne]. exists sj, s0. rewrite lookup_delete_ne; [done|].
      intros ->. congruence.
    + intros (sj & s0 & [Hne Hj]%lookup_delete_Some & <-). split; [by exists sj, s0|].
      intros He. destruct (isw_of_session m sj s0 Hok Hj). congruence.
  - intros r. rewrite routes_no_paths by repeat constructor.
    rewrite Hr, (bound_split _ _ si s), Hb by done. set_solver.
  - intros sj s0 [_ Hj]%lookup_delete_Some. by apply (Hp sj).
Qed.

(** * Addition *)

(** A request with byte strings for addresses. *)
Definition iargs_ok (a : vnet_ipoe_add_del_session_args_t) : Prop :=
  is_u32 (ia_encap_if_index a) /\ is_u16 (ia_outer_vlan a) /\ is_u16 (ia_inner_vlan a) /\
  mac_ok (ia_client_mac a) /\ mac_ok (ia_local_mac a).

(** What the code takes on trust: the interface and the table of a new session. *)
Definition iadd_trusted (a : vnet_ipoe_add_del_session_args_t) : Prop :=
  sw_interface_is_free (ia_encap_if_index a) = false /\
  fib_index_is_free false (ia_decap_fib_index a) = false.

Lemma ipoe_add_ok m si new_hw a :
  ipoe_ok m → im_sessions m !! si = None → 0 <= si < NONE →
  im_session_index_by_sw_if_index m !! hw_sw_if_index new_hw = None →
  iargs_ok a → iadd_trusted a →
  im_session_table m !! ipoe_make_key (ia_encap_if_index a) (ia_inner_vlan a) (ia_client_mac a) = None →
  exists m', ipoe_add m si new_hw a = Some (m', hw_sw_if_index new_hw) /\ ipoe_ok m' /\
    (ipoe_routes_ok m → ipoe_routes_ok m').
Proof.
  intros Hok Hsi Hslot Hfresh (He & Ho & Hi & Hm & Hl) [Hsw Hfib] Hk. unfold ipoe_add.
  rewrite Hsw, Hfib, andb_false_r. cbv zeta. set (w := hw_sw_if_index new_hw) in *.
  set (tid := if _ =? 0 then 0 else _). set (s := new_ipoe_session a w new_hw tid).
  eexists. split; [reflexivity|].
  destruct (iface_start [] _ (iowned <$> im_sessions m) new_hw si [] new_hw (ik_ifaces m Hok))
    as [_ Hif]; [by rewrite lookup_fmap, Hsi|split; [done|set_solver]|done|].
  assert (ikey s = ipoe_make_key (ia_encap_if_index a) (ia_inner_vlan a) (ia_client_mac a)) as Hks
    by done. rewrite <- Hks in Hk. unfold ipoe_session_table_add. rewrite <- Hks.
  unfold ipoe_call. split; [split|intros [Hr Hp]; split]; rproj.
  - intros key r. destruct (decide (key = ikey s)) as [->|Hne].
    + rewrite lookup_insert_eq. intros [= <-]. exists si, s. by rewrite lookup_insert_eq.
    + rewrite lookup_insert_ne by done. intros Hr.
      destruct (ik_table m Hok key r Hr) as (sj & s0 & -> & Hj & Hkj). exists sj, s0.
      rewrite lookup_insert_ne; [done|]. congruence.
  - intros sj s0. destruct (decide (sj = si)) as [->|Hne].
    + rewrite lookup_insert_eq. intros [= <-]. by rewrite lookup_insert_eq.
    + rewrite lookup_insert_ne by done. intros Hj. pose proof (ik_keyed m Hok sj s0 Hj) as Hkj.
      rewrite lookup_insert_ne; [done|]. intros E. rewrite <- E in Hkj.
      by pose proof (eq_trans (eq_sym Hkj) Hk).
  - intros sj s0. destruct (decide (sj = si)) as [->|Hne].
    + rewrite lookup_insert_eq. intros [= <-]. split; [done|]. unfold ipoe_wf, s. simpl.
      destruct (sw_interface_dot1ad_sub _); auto 10.
    + rewrite lookup_insert_ne by done. apply (ik_session m Hok).
  - rewrite fmap_insert. exact Hif.
  - intros hw. rewrite registered_app. cbn [foldl registered_call].
    rewrite elem_of_union, elem_of_singleton, (ik_registered m Hok). split.
    + intros [->|(sj & s0 & Hj & <-)]; [exists si, s; by rewrite lookup_insert_eq|].
      exists sj, s0. rewrite lookup_insert_ne; [done|]. congruence.
    + intros (sj & s0 & Hj & <-). destruct (decide (sj = si)) as [->|].
      * rewrite lookup_insert_eq in Hj. injection Hj as <-. by left.
      * rewrite lookup_insert_ne in Hj by done. right. by exists sj, s0.
  - intros r. rewrite routes_no_paths by repeat constructor.
    rewrite Hr, bound_insert, delete_id by done. unfold ibindings, s. simpl. set_solver.
  - intros sj s0. destruct (decide (sj = si)) as [->|Hne].
    + rewrite lookup_insert_eq. intros [= <-]. simpl. lia.
    + rewrite lookup_insert_ne by done. apply Hp.
Qed.

Lemma iadd_del_session_ok m si new_hw a :
  ipoe_ok m → im_sessions m !! si = None → 0 <= si < NONE →
  im_session_index_by_sw_if_index m !! hw_sw_if_index new_hw = None →
  iargs_ok a → (ia_is_add a = true → iadd_trusted a) →
  exists m' rv sw, vnet_ipoe_add_del_session m si new_hw a = Some (m', rv, sw) /\ ipoe_ok m' /\
    (ipoe_routes_ok m → ipoe_routes_ok m').
Proof.
  intros Hok Hsi Hslot Hfresh Ha Ht. unfold vnet_ipoe_add_del_session.
  destruct (im_session_table m !! _) as [r|] eqn:Ek.
  - destruct (ik_table m Hok _ r Ek) as (sj & s & -> & Hs & Hk). cbn [snd]. rewrite Hs.
    cbn [mbind option_bind]. destruct (ia_is_add a); [by eexists _, _, _|].
    destruct (ipoe_del_eq m sj s a Hok Hs (eq_sym Hk)) as (m' & -> & Hok' & Hs' & Hr').
    cbn [mbind option_bind]. destruct (idrop_session_ok m' sj (bare s) Hok' Hs') as [Hok'' Hr''].
    eexists _, _, _. split; [reflexivity|]. split; [done|]. intros Hr. apply Hr''; [|auto].
    apply bare_bindings.
  - destruct (ia_is_add a); cbn [negb]; [|by eexists _, _, _].
    destruct (ipoe_add_ok m si new_hw a Hok Hsi Hslot Hfresh Ha (Ht eq_refl) Ek) as (m' & -> & ? & ?).
    cbn [mbind option_bind]. by eexists _, _, _.
Qed.

(** * Runs *)

Inductive ipoe_op :=
  | IpoeOpSession (new_idx new_hw decap_vrf_id : Z) (a : vnet_ipoe_add_del_session_args_t)
  | IpoeOpIpv4 (sw_if_index addr : Z) (is_add : bool)
  | IpoeOpIpv6 (sw_if_index addr : Z) (is_add : bool)
  | IpoeOpPrefix (sw_if_index prefix len next_hop : Z) (is_add : bool)
  | IpoeOpEnable (sw_if_index : Z) (enable : bool).

Definition ipoe_exec (m : ipoe_main_t) (op : ipoe_op) : option (ipoe_main_t * vnet_rv) :=
  match op with
  | IpoeOpSession i hw vrf a => fst <$> vl_api_osvbng_ipoe_add_del_session_t_handler m i hw vrf a
  | IpoeOpIpv4 sw addr is_add => vl_api_osvbng_ipoe_set_session_ipv4_t_handler m sw addr is_add
  | IpoeOpIpv6 sw addr is_add => vl_api_osvbng_ipoe_set_session_ipv6_t_handler m sw addr is_add
  | IpoeOpPrefix sw p len nh is_add =>
      vl_api_osvbng_ipoe_set_delegated_prefix_t_handler m sw p len nh is_add
  | IpoeOpEnable sw enable => Some (vl_api_osvbng_ipoe_enable_disable_t_handler m sw enable)
  end.

(** What VPP hands out is not in use, messages are well formed, and a session is added on
    an interface and in a table that exist. *)
Definition ipoe_op_ok (m : ipoe_main_t) (op : ipoe_op) : Prop :=
  match op with
  | IpoeOpSession i hw vrf a =>
      im_sessions m !! i = None /\ 0 <= i < NONE /\
      im_session_index_by_sw_if_index m !! hw_sw_if_index hw = None /\
      mac_ok (ia_client_mac a) /\ mac_ok (ia_local_mac a) /\
      (ia_is_add a = true →
         sw_interface_is_free (clib_net_to_host_u32 (ia_encap_if_index a)) = false /\
         exists f, fib_table_find false (clib_net_to_host_u32 vrf) = Some f /\
           fib_index_is_free false f = false)
  | _ => True
  end.

(** A binding is removed by what it was set to; a delegated prefix is neither everything
    nor a single address. *)
Definition ipoe_op_faithful (m : ipoe_main_t) (op : ipoe_op) : Prop :=
  match op with
  | IpoeOpSession _ _ _ _ | IpoeOpEnable _ _ => True
  | IpoeOpIpv4 sw addr is_add =>
      ∀ si s, im_session_index_by_sw_if_index m !! clib_net_to_host_u32 sw = Some si →
        im_sessions m !! si = Some s →
        is_add = false → ie_ipv4_bound s = true → ie_client_ipv4 s = addr
  | IpoeOpIpv6 sw addr is_add =>
      ∀ si s, im_session_index_by_sw_if_index m !! clib_net_to_host_u32 sw = Some si →
        im_sessions m !! si = Some s →
        is_add = false → ie_ipv6_bound s = true → ie_client_ipv6 s = addr
  | IpoeOpPrefix sw prefix len _ is_add =>
      ∀ si s, im_session_index_by_sw_if_index m !! clib_net_to_host_u32 sw = Some si →
        im_sessions m !! si = Some s →
        if is_add then len ≠ 0 /\ len ≠ 128
        else ie_delegated_prefix_len s ≠ 0 →
             ie_delegated_prefix s = prefix /\ ie_delegated_prefix_len s = len
  end.

Lemma ienable_ok m w enable :
  ipoe_ok m →
  let m' := fst (vnet_ipoe_enable_disable m w enable) in
  ipoe_ok m' /\ (ipoe_routes_ok m → ipoe_routes_ok m').
Proof.
  intros Hok. cbv zeta. unfold vnet_ipoe_enable_disable.
  destruct (negb (sw_interface_is_api_valid w)); [done|]. cbn [fst].
  destruct Hok as [H1 H2 H3 H4 H5].
  destruct (enable && negb (im_ethertypes_registered m)); unfold ipoe_call.
  - split; [split|intros [Hr Hp]; split]; rproj; try done.
    + intros hw. by rewrite registered_app.
    + intros r. by rewrite routes_no_paths by by repeat constructor.
  - split; [by split|]. intros [Hr Hp]. by split.
Qed.

Lemma ipoe_exec_ok m op :
  ipoe_ok m → ipoe_op_ok m op →
  exists m' rv, ipoe_exec m op = Some (m', rv) /\ ipoe_ok m' /\
    (ipoe_op_faithful m op → ipoe_routes_ok m → ipoe_routes_ok m').
Proof.
  intros Hok Hf. destruct op as [i hw vrf a|w addr is_add|w addr is_add|w p len nh is_add|w enable];
    simpl in *.
  - destruct Hf as (Hi & Hslot & Hhw & Hm & Hl & Ht).
    unfold vl_api_osvbng_ipoe_add_del_session_t_handler.
    match goal with |- context [vnet_ipoe_add_del_session m i hw ?a] => set (a' := a) end.
    destruct (iadd_del_session_ok m i hw a' Hok Hi Hslot Hhw) as (m' & rv & sw & -> & ? & ?).
    + split_and!; [apply swap32_range|apply swap16_range..|done|done].
    + intros Hadd. destruct (Ht Hadd) as (H1 & f & Hfind & Hfree). split; [done|].
      unfold a'. cbn [ia_decap_fib_index]. by rewrite Hfind.
    + eexists _, _. split; [reflexivity|]. auto.
  - apply iset_ipv4_ok, Hok.
  - apply iset_ipv6_ok, Hok.
  - apply iset_prefix_ok, Hok.
  - destruct (ienable_ok m (clib_net_to_host_u32 w) enable Hok) as [? ?].
    unfold vl_api_osvbng_ipoe_enable_disable_t_handler.
    destruct (vnet_ipoe_enable_disable _ _ _) as [m' rv] eqn:E. eexists _, _. split; [done|]. auto.
Qed.

(** The runs of the plugin; [true] when every call was faithful. *)
Inductive ipoe_run : bool → ipoe_main_t → Prop :=
  | irun_init : ipoe_run true ipoe_init
  | irun_op f m op m' rv (g : bool) :
      ipoe_run f m → ipoe_op_ok m op → (g = true → ipoe_op_faithful m op) →
      ipoe_exec m op = Some (m', rv) → ipoe_run (f && g) m'.

Lemma ipoe_init_ok : ipoe_ok ipoe_init /\ ipoe_routes_ok ipoe_init.
Proof.
  split; split; unfold ipoe_init; simpl; try done.
  - split; simpl; try done. apply NoDup_nil_2.
  - intros hw. split; [set_solver|]. by intros (i & s & Hi & _).
  - intros r. split; [set_solver|]. by intros (i & s & Hi & _).
Qed.

Lemma ipoe_run_ok f m : ipoe_run f m → ipoe_ok m /\ (f = true → ipoe_routes_ok m).
Proof.
  destruct ipoe_init_ok as [Hi Hr].
  induction 1 as [|f m op m' rv g _ [Hok Hro] Hf Hg Hex]; [done|].
  destruct (ipoe_exec_ok m op Hok Hf) as (m1 & rv1 & E & Hok1 & Hr1).
  rewrite Hex in E. injection E as <- <-. split; [done|].
  intros [-> ->]%andb_true_iff. auto.
Qed.

End Run.
