(* ===== verification/IpoeSystem.v ===== *)
(** The IPoE plugin as a whole: what holds in every state its API can reach, what the
    input node does to a frame there, and which packets find their session again. *)

From S2P Require Import Prelude Packet Access IpoeSession IpoeInv IpoeRun IpoeNodes PppoeNodes PppoePackets.
From stdpp Require Import strings.

#[local] Open Scope Z_scope.

(** The session for an interface, a tag and an address. *)
Definition ipoe_session_for (m : ipoe_main_t) (w v : Z) (mac : list Z) : option ipoe_session_t :=
  r ← im_session_table m !! ipoe_make_key w v mac; im_sessions m !! snd r.

Section Sessions.

Context `{AccessVppLaws}.

Lemma session_for_iff f m w v mac s :
  ipoe_run f m → is_u32 w → is_u16 v → mac_ok mac →
  ipoe_session_for m w v mac = Some s <->
  exists si, im_sessions m !! si = Some s /\
    ie_encap_if_index s = w /\ ie_inner_vlan s = v /\ ie_client_mac s = mac.
Proof.
  intros Hrun Hw Hv Hm. destruct (ipoe_run_ok f m Hrun) as [Hok _]. unfold ipoe_session_for. split.
  - destruct (im_session_table m !! _) as [r|] eqn:E; [|done]. cbn [mbind option_bind].
    destruct (ik_table m Hok _ r E) as (si & s0 & -> & Hs & Hk). cbn [snd]. rewrite Hs.
    intros [= <-]. exists si. split; [done|].
    destruct (ik_session m Hok si s0 Hs) as (_ & W1 & _ & W3 & _ & W5 & _).
    destruct (ipoe_key_inj _ _ _ _ _ _ W1 Hw W3 Hv W5 Hm Hk) as (E1 & E2 & E3). auto.
  - intros (si & Hs & <- & <- & <-). fold (ikey s). by rewrite (ik_keyed m Hok si s Hs).
Qed.

(** C32. In every state a run of the API can reach, whatever the calls, the next call
    completes without touching a freed entry, as long as a session is added on an
    interface and in a table that exist.  No two sessions have the same encap interface,
    tag and address; the session table finds each, and nothing else; and the plugin's
    interfaces in VPP are exactly those of the live sessions, each found from its
    interface. *)
Theorem ipoe_runs_sound f m :
  ipoe_run f m →
  (∀ op, ipoe_op_ok m op → exists m' rv, ipoe_exec m op = Some (m', rv)) /\
  (∀ key w si, im_session_table m !! key = Some (w, si) <->
     exists s, im_sessions m !! si = Some s /\ ie_sw_if_index s = w /\ ikey s = key) /\
  (∀ si s, im_sessions m !! si = Some s →
     ipoe_wf s /\ im_session_index_by_sw_if_index m !! ie_sw_if_index s = Some si /\
     ipoe_session_for m (ie_encap_if_index s) (ie_inner_vlan s) (ie_client_mac s) = Some s) /\
  (∀ w v mac si s si' s',
     im_sessions m !! si = Some s → im_sessions m !! si' = Some s' →
     (ie_encap_if_index s, ie_inner_vlan s, ie_client_mac s) = (w, v, mac) →
     (ie_encap_if_index s', ie_inner_vlan s', ie_client_mac s') = (w, v, mac) → si = si') /\
  (∀ hw, hw ∈ registered (im_calls m) <->
     exists si s, im_sessions m !! si = Some s /\ ie_hw_if_index s = hw).
Proof.
  intros Hrun. destruct (ipoe_run_ok f m Hrun) as [Hok _]. split_and!.
  - intros op Hop. destruct (ipoe_exec_ok m op Hok Hop) as (m' & rv & E & _). by exists m', rv.
  - intros key w si. split.
    + intros Ht. destruct (ik_table m Hok key _ Ht) as (sj & s & [= -> <-] & Hs & Hk). by exists s.
    + intros (s & Hs & <- & <-). by apply (ik_keyed m Hok).
  - intros si s Hs. destruct (ik_session m Hok si s Hs) as [_ Hwf]. split_and!; [done| |].
    + by apply isw_of_session.
    + destruct Hwf as (? & _ & ? & _ & ? & _). apply (session_for_iff f); try done. by exists si.
  - intros w v mac si s si' s' Hs Hs' E E'.
    injection E as E1 E2 E3. injection E' as E1' E2' E3'.
    assert (ikey s' = ikey s) as Ek by (unfold ikey; by rewrite E1, E2, E3, E1', E2', E3').
    pose proof (ik_keyed m Hok si s Hs) as Hk. rewrite <- Ek, (ik_keyed m Hok si' s' Hs') in Hk.
    by injection Hk as _ ->.
  - apply (ik_registered m Hok).
Qed.

(** C33. As long as a binding is removed by what it was set to, no prefix delegated has length
    0 or 128, and sessions are added on an interface and in a table that exist, the plugin's
    routes in VPP are exactly the bindings of the live sessions: a session that is deleted
    leaves none, whatever else was bound.  The lengths are excluded because the routes are
    not exact for them: a prefix of length 0 is installed as a default route, but counts as
    not set, and neither its removal nor the deletion of the session takes the route away;
    one of length 128 may be the very route of the session's IPv6 address, which two bindings
    then share. *)
Theorem ipoe_routes_exact m :
  ipoe_run true m →
  ∀ r, r ∈ routes (im_calls m) <->
    exists si s, im_sessions m !! si = Some s /\ r ∈ ibindings s.
Proof.
  intros Hrun. destruct (ipoe_run_ok true m Hrun) as [_ Hr]. apply (ir_exact m (Hr eq_refl)).
Qed.

End Sessions.

(** * Packets *)

(** What a packet's own session makes of it. *)
Definition ipoe_spec `{VlibVpp} (m : ipoe_main_t) (b : vlib_buffer_t) : ipoe_outcome :=
  let d := b_data b in
  let is_ip4 := Z.shiftr (d (b_current_data b)) 4 =? 4 in
  let next := if is_ip4 then IPOE_INPUT_NEXT_IP4_INPUT else IPOE_INPUT_NEXT_IP6_INPUT in
  if negb (bool_decide (b_rx b ∈ im_enabled_by_sw_if_index m)) then (b, next, IpoePass)
  else
    let eth := ethernet_buffer_get_header b in
    match ipoe_session_for m (b_rx b) (ipoe_recover_inner_vlan d eth) (bytes d (eth + 6) 6) with
    | None => (b, next, IpoeNoSession)
    | Some s =>
        if is_multicast d (b_current_data b) is_ip4 then (b, next, IpoePass)
        else (b⟪b_rx := ie_sw_if_index s⟫, next, IpoeDecap)
    end.

Section Cache.

Context `{VlibVpp} `{AccessVppLaws}.

(** A cache that is right about its key. *)
Definition icache_ok (m : ipoe_main_t) (c : ipoe_cache) : Prop :=
  c = IPOE_EMPTY_CACHE \/ snd c = default IPOE_NO_RESULT (im_session_table m !! fst c).

Lemma ilookup_cached m c w v mac :
  icache_ok m c → mac_ok mac →
  let '(r, c') := ipoe_lookup_1 (im_session_table m) c w v mac in
  r = default IPOE_NO_RESULT (im_session_table m !! ipoe_make_key w v mac) /\ icache_ok m c'.
Proof.
  intros Hc Hm. unfold ipoe_lookup_1. cbv zeta. pose proof (ipoe_key_small w v mac Hm) as Hsmall.
  destruct (ipoe_make_key w v mac) as [k0 k1]. cbn [fst snd] in *.
  destruct c as [[c0 c1] r]. cbn [fst snd].
  destruct (Z.eqb_spec k0 c0) as [->|]; cbn [andb]; [|split; [done|by right]].
  destruct (Z.eqb_spec k1 c1) as [->|]; [|split; [done|by right]].
  split; [|done]. destruct Hc as [[= -> -> ->]|Hc]; [lia|done].
Qed.

Lemma istep_spec f m c b :
  ipoe_run f m → icache_ok m c → (∀ p, byte (b_data b p)) →
  exists c', ipoe_input_step m c b = Some (c', ipoe_spec m b) /\ icache_ok m c'.
Proof.
  intros Hrun Hc Hb. destruct (ipoe_run_ok f m Hrun) as [Hok _].
  unfold ipoe_input_step, ipoe_spec. cbv zeta.
  destruct (negb _); [by exists c|].
  set (v := ipoe_recover_inner_vlan _ _). set (mac := bytes _ _ _).
  assert (mac_ok mac) as Hm by (split; [apply bytes_length|by apply bytes_byte]).
  pose proof (ilookup_cached m c (b_rx b) v mac Hc Hm) as Hl.
  destruct (ipoe_lookup_1 _ _ _ _ _) as [r c']. destruct Hl as [-> Hc']. unfold ipoe_session_for.
  destruct (im_session_table m !! _) as [r|] eqn:E; [|by exists c'].
  destruct (ik_table m Hok _ r E) as (si & s & -> & Hs & _).
  destruct (ik_session m Hok si s Hs) as [Hsi _].
  cbn [default from_option id mbind option_bind snd]. rewrite Hs.
  rewrite bool_decide_eq_false_2; [|intros [= _ ->]; lia].
  destruct (is_multicast _ _ _); by exists c'.
Qed.

End Cache.

(** * Counters *)

(** The packets of a frame that were counted on an interface. *)
Definition on_ipoe (w : Z) (out : ipoe_outcome) : bool :=
  match snd out with IpoeDecap => b_rx out.1.1 =? w | _ => false end.
Definition itally (w : Z) (f : ipoe_outcome → Z) (outs : list ipoe_outcome) : Z :=
  zsum (map (λ out, if on_ipoe w out then f out else 0) outs).
Definition ibytes `{VlibVpp} (out : ipoe_outcome) : Z := u32 (vlib_buffer_length_in_chain out.1.1).
Definition counted_as (c c' : ipoe_count) : Z :=
  match c, c' with
  | IpoeDecap, IpoeDecap | IpoeNoSession, IpoeNoSession | IpoePass, IpoePass => 1
  | _, _ => 0
  end.
Definition count_of (c : ipoe_count) (outs : list ipoe_outcome) : Z :=
  zsum (map (λ out, counted_as c (snd out)) outs).

Section Counters.

Context `{VlibVpp}.

(** The batch is kept as PPPoE's is. *)
Definition batch_of (st : ipoe_stats) : pppoe_stats :=
  mkStats (it_sw_if_index st) (it_n_packets st) (it_n_bytes st) (it_counted st) (it_processed st).

Lemma count_ipoe_batch b next st :
  is_u32 (it_n_packets st) → is_u32 (it_n_bytes st) →
  batch_of (count_ipoe (b, next, IpoeDecap) st) =
  count_packet (b_rx b) (ibytes (b, next, IpoeDecap)) (batch_of st).
Proof.
  intros Hn Hb. unfold count_ipoe, count_packet, batch_of, ibytes. cbv zeta. cbn [fst].
  set (len := u32 (vlib_buffer_length_in_chain b)). assert (is_u32 len) by apply u32_range.
  cbn [st_sw_if_index st_n_packets st_n_bytes st_counted st_decapsulated].
  assert (u32 (u32 (it_n_packets st + 1) - 1) = it_n_packets st /\
    u32 (u32 (it_n_bytes st + len) - len) = it_n_bytes st) as [E1 E2] by (unfold is_u32 in *; ints).
  rewrite E1, E2. by destruct (Z.eqb_spec (b_rx b) (it_sw_if_index st)) as [->|].
Qed.

(** One packet. *)
Lemma count_ipoe_ok out st packets n_bytes w :
  batch_ok (batch_of st) packets n_bytes → 0 <= it_no_session st <= packets →
  packets + 1 < 2 ^ 32 → n_bytes + ibytes out < 2 ^ 32 →
  let st' := count_ipoe out st in
  batch_ok (batch_of st') (packets + 1) (n_bytes + ibytes out) /\
  0 <= it_no_session st' <= packets + 1 /\
  added w (λ c, c.1.2) (it_counted st') + pending w (batch_of st') (it_n_packets st') =
    added w (λ c, c.1.2) (it_counted st) + pending w (batch_of st) (it_n_packets st) +
    (if on_ipoe w out then 1 else 0) /\
  added w snd (it_counted st') + pending w (batch_of st') (it_n_bytes st') =
    added w snd (it_counted st) + pending w (batch_of st) (it_n_bytes st) +
    (if on_ipoe w out then ibytes out else 0) /\
  it_processed st' = it_processed st + counted_as IpoeDecap (snd out) /\
  it_no_session st' = it_no_session st + counted_as IpoeNoSession (snd out).
Proof.
  intros Hb Hk Hn Hm. assert (0 <= ibytes out) by apply u32_range.
  pose proof Hb as ((Hp1 & Hp2) & (Hb1 & Hb2) & Hz & Hd). cbn in Hp1, Hp2, Hb1, Hb2, Hz, Hd.
  destruct out as [[b next] k]. cbv zeta. cbn [snd]. destruct k; cbn [counted_as].
  - unfold on_ipoe. cbn [count_ipoe snd]. split_and!; try lia.
    unfold batch_ok in *. cbn in *. split_and!; lia.
  - unfold on_ipoe. cbn [snd].
    change (batch_of (count_ipoe (b, next, IpoeNoSession) st)) with (batch_of st).
    cbn [count_ipoe it_counted it_n_packets it_n_bytes it_processed it_no_session].
    rewrite u32_small by (unfold is_u32; lia). split_and!; try lia.
    unfold batch_ok in *. cbn in *. split_and!; lia.
  - destruct (count_packet_ok (b_rx b) (ibytes (b, next, IpoeDecap)) (batch_of st) packets n_bytes w Hb)
      as (F1 & F2 & F3 & F4); [lia..|].
    rewrite <- (count_ipoe_batch b next) in F1, F2, F3, F4 by (unfold is_u32; lia).
    assert (it_no_session (count_ipoe (b, next, IpoeDecap) st) = it_no_session st) as ->
      by (cbn [count_ipoe]; by destruct (b_rx b =? it_sw_if_index st)).
    cbn [snd]. split; [exact F1|]. split; [lia|]. split; [exact F2|]. split; [exact F3|].
    split; [exact F4|lia].
Qed.

Lemma iloop_counters m c st frame st' outs packets n_bytes w :
  ipoe_input_loop m c st frame = Some (st', outs) →
  batch_ok (batch_of st) packets n_bytes → 0 <= it_no_session st <= packets →
  packets + Z.of_nat (length outs) < 2 ^ 32 → n_bytes + zsum (map ibytes outs) < 2 ^ 32 →
  batch_ok (batch_of st') (2 ^ 32) (2 ^ 32) /\
  added w (λ c, c.1.2) (it_counted st') + pending w (batch_of st') (it_n_packets st') =
    added w (λ c, c.1.2) (it_counted st) + pending w (batch_of st) (it_n_packets st) +
    itally w (λ _, 1) outs /\
  added w snd (it_counted st') + pending w (batch_of st') (it_n_bytes st') =
    added w snd (it_counted st) + pending w (batch_of st) (it_n_bytes st) + itally w ibytes outs /\
  it_processed st' = it_processed st + count_of IpoeDecap outs /\
  it_no_session st' = it_no_session st + count_of IpoeNoSession outs.
Proof.
  revert c st outs packets n_bytes. induction frame as [|b frame IH]; intros c st outs packets n_bytes.
  { simpl. intros [= <- <-] (? & ? & ? & ?) Hk Hn Hm. simpl in *. unfold batch_ok.
    unfold itally, count_of. simpl. split_and!; lia. }
  cbn [ipoe_input_loop]. destruct (ipoe_input_step m c b) as [[c' out]|]; [|done].
  cbn [mbind option_bind].
  destruct (ipoe_input_loop m c' (count_ipoe out st) frame) as [[st2 outs2]|] eqn:El; [|done].
  cbn [mbind option_bind]. intros [= <- <-] Hb Hk. cbn [length map zsum foldr].
  fold (zsum (map ibytes outs2)). intros Hn Hm.
  assert (0 <= zsum (map ibytes outs2)) by (apply zsum_map_nonneg; intros; apply u32_range).
  destruct (count_ipoe_ok out st packets n_bytes w Hb Hk) as (G1 & G2 & G3 & G4 & G5 & G6); [lia..|].
  destruct (IH c' _ outs2 _ _ El G1 G2) as (I1 & I2 & I3 & I4 & I5); [lia..|].
  split; [exact I1|]. rewrite I2, I3, I4, I5, G3, G4, G5, G6.
  assert (∀ f, itally w f (out :: outs2) = (if on_ipoe w out then f out else 0) + itally w f outs2)
    as Ht by done. rewrite !Ht.
  assert (∀ c, count_of c (out :: outs2) = counted_as c (snd out) + count_of c outs2) as Hk'
    by done. rewrite !Hk'. split_and!; lia.
Qed.

End Counters.

Section Nodes.

Context `{VlibVppLaws} `{AccessVppLaws}.

(** The node takes any frame, packet by packet. *)
Lemma node_spec f m frame :
  ipoe_run f m → Forall (λ b, ∀ p, byte (b_data b p)) frame →
  exists st,
    ipoe_input_loop m IPOE_EMPTY_CACHE (mkIpoeStats NONE 0 0 [] 0 0) frame =
      Some (st, map (ipoe_spec m) frame).
Proof.
  intros Hrun. generalize (mkIpoeStats NONE 0 0 [] 0 0).
  assert (icache_ok m IPOE_EMPTY_CACHE) as Hc by by left. revert Hc. generalize IPOE_EMPTY_CACHE.
  induction frame as [|b frame IH]; intros c Hc st Hb; [by exists st|].
  inversion Hb as [|? ? Hb1 Hb2]; subst. cbn [ipoe_input_loop map].
  destruct (istep_spec f m c b Hrun Hc Hb1) as (c' & -> & Hc'). cbn [mbind option_bind].
  destruct (IH c' Hc' (count_ipoe (ipoe_spec m b) st) Hb2) as (st' & ->). by exists st'.
Qed.

(** The input node is its packets one by one.  In every reachable state it takes any frame,
    and does to each packet what the session of its interface, tag and address calls for,
    the cache notwithstanding; it drops none.  What it adds to an interface's counters is
    the number of the packets it put on that interface and their bytes, and its own
    counters are the packets with and without a session, as long as neither sum passes
    2^32. *)
Theorem ipoe_frame_exact f m frame :
  ipoe_run f m → Forall (λ b, ∀ p, byte (b_data b p)) frame →
  exists counted processed no_session,
    let outs := map (ipoe_spec m) frame in
    ipoe_input_node m frame = Some (counted, processed, no_session, outs) /\
    (Z.of_nat (length frame) < 2 ^ 32 → zsum (map ibytes outs) < 2 ^ 32 →
     (∀ w, added w (λ c, c.1.2) counted = itally w (λ _, 1) outs /\
           added w snd counted = itally w ibytes outs) /\
     processed = count_of IpoeDecap outs /\ no_session = count_of IpoeNoSession outs).
Proof.
  intros Hrun Hb. cbv zeta. set (st0 := mkIpoeStats NONE 0 0 [] 0 0).
  destruct (node_spec f m frame Hrun Hb) as (st & El). fold st0 in El.
  unfold ipoe_input_node. fold st0. rewrite El. cbn [mbind option_bind].
  eexists _, _, _. split; [reflexivity|]. intros Hn Hm.
  assert (batch_ok (batch_of st0) 0 0 /\ 0 <= it_no_session st0 <= 0) as [Hb0 Hk0]
    by (unfold batch_ok; cbn; lia).
  assert (0 + Z.of_nat (length (map (ipoe_spec m) frame)) < 2 ^ 32) as Hn' by (rewrite length_map; lia).
  pose proof (λ w, iloop_counters m _ st0 frame st _ 0 0 w El Hb0 Hk0 Hn' Hm) as Hc.
  split; [|destruct (Hc 0) as (_ & _ & _ & E3 & E4); by rewrite E3, E4]. intros w.
  destruct (Hc w) as (((Hp & _) & _ & Hz & _) & E1 & E2 & _). cbn in Hp, Hz, E1, E2.
  unfold pending in E1, E2. cbn in E1, E2.
  destruct (Z.eqb_spec (it_n_packets st) 0) as [E0|E0].
  - specialize (Hz E0). rewrite E0 in E1. rewrite Hz in E2.
    destruct (it_sw_if_index st =? w), (NONE =? w); lia.
  - rewrite !added_app, !added_one. cbn [fst snd].
    destruct (it_sw_if_index st =? w), (NONE =? w); lia.
Qed.

(** ** Frames of a session *)

Definition is_vid (v : Z) : Prop := 0 <= v < 4096.

(** What a tag carries as identifier, when the session's identifiers fit one. *)
Lemma vid_land v : is_vid v → Z.land v 4095 = v /\ is_u16 v.
Proof.
  unfold is_vid, is_u16. intros Hv. change 4095 with (2 ^ 12 - 1).
  rewrite land_ones_mod, Z.mod_small by lia. lia.
Qed.

(** The tag by which a frame with a session's tags is looked up. *)
Definition seen_vlan (s : ipoe_session_t) : Z :=
  if ie_inner_vlan s =? 0 then ie_outer_vlan s else ie_inner_vlan s.

Lemma recover_tags d o s ethertype :
  is_vid (ie_outer_vlan s) → is_vid (ie_inner_vlan s) →
  ie_outer_tpid s = ETHERNET_TYPE_VLAN \/ ie_outer_tpid s = ETHERNET_TYPE_DOT1AD →
  ethertype = ETHERNET_TYPE_IP4 \/ ethertype = ETHERNET_TYPE_IP6 →
  lies d (o + 12) (ipoe_tags s ethertype) → ipoe_recover_inner_vlan d o = seen_vlan s.
Proof.
  intros Ho Hi Ht He. destruct (vid_land _ Ho) as [Lo Uo], (vid_land _ Hi) as [Li Ui].
  assert (is_u16 (ie_outer_tpid s) /\ is_u16 ethertype /\ is_u16 ETHERNET_TYPE_VLAN) as (Ut & Ue & Uv)
    by (split_and!; [by destruct Ht as [-> | ->]|by destruct He as [-> | ->]|done]).
  unfold ipoe_tags, seen_vlan, ipoe_recover_inner_vlan, SIZEOF_ETHERNET, SIZEOF_VLAN.
  cbv zeta. rewrite Lo, Li. set (tp := ie_outer_tpid s) in *.
  assert (∀ t, t = ETHERNET_TYPE_VLAN \/ t = ETHERNET_TYPE_DOT1AD →
    (t =? ETHERNET_TYPE_DOT1AD) || (t =? ETHERNET_TYPE_VLAN) = true) as Hor by by intros t [-> | ->].
  assert ((ethertype =? ETHERNET_TYPE_DOT1AD) || (ethertype =? ETHERNET_TYPE_VLAN) = false /\
    (ethertype =? ETHERNET_TYPE_VLAN) = false) as [N1 N2] by by destruct He as [-> | ->].
  destruct (Z.eqb_spec (ie_outer_vlan s) 0) as [Eo|Eo], (Z.eqb_spec (ie_inner_vlan s) 0) as [Ei|Ei];
    cbn [negb andb]; intros Hl; rewrite ?lies_app, ?be16_length in Hl.
  - rewrite (load_be16_at _ _ _ _ Hl) by (done || lia). by rewrite N1.
  - destruct Hl as (L1 & L2 & L3).
    rewrite (load_be16_at _ _ _ _ L1) by (done || lia). rewrite (Hor _ (or_introl eq_refl)).
    rewrite (load_be16_at _ _ _ _ L3) by (done || lia). rewrite N2.
    rewrite (load_be16_at _ _ _ _ L2) by (done || lia). exact Li.
  - destruct Hl as (L1 & L2 & L3).
    rewrite (load_be16_at _ _ _ _ L1) by (done || lia). rewrite (Hor _ Ht).
    rewrite (load_be16_at _ _ _ _ L3) by (done || lia). rewrite N2.
    rewrite (load_be16_at _ _ _ _ L2) by (done || lia). exact Lo.
  - destruct Hl as (L1 & L2 & L3 & L4 & L5).
    rewrite (load_be16_at _ _ _ _ L1) by (done || lia). rewrite (Hor _ Ht).
    rewrite (load_be16_at _ _ _ _ L3) by (done || lia). rewrite Z.eqb_refl.
    rewrite (load_be16_at _ _ _ _ L4) by (done || lia). exact Li.
Qed.

(** A header with its addresses exchanged: what the subscriber answers with. *)
Definition turned (h : list Z) : list Z := take 6 (drop 6 h) ++ take 6 h ++ drop 12 h.

Lemma turned_app h h' l :
  length h = 6%nat → length h' = 6%nat → turned (h ++ h' ++ l) = h' ++ h ++ l.
Proof.
  intros E E'. unfold turned. rewrite drop_app_length', !take_app_length' by done.
  rewrite (app_assoc h h' l), drop_app_length' by (rewrite length_app; lia). done.
Qed.

Lemma ipoe_tags_length s ethertype :
  Z.of_nat (length (ipoe_tags s ethertype)) = 2 + ipoe_vlan_bytes s.
Proof.
  unfold ipoe_tags, ipoe_vlan_bytes. cbv zeta.
  by destruct (_ =? 0), (_ =? 0); cbn [negb andb orb]; rewrite ?length_app, !be16_length.
Qed.


End Nodes.

(** * A concrete plugin

    The interface 5 is enabled.  Session 0 (address ..:1, tags 100 and 200) has an IPv4
    address and a delegated prefix; session 1 (address ..:2) has the outer tag 300 only. *)

Definition sample_ipoe_args (is_add : bool) (mac outer inner : Z) : vnet_ipoe_add_del_session_args_t :=
  mkIpoeArgs is_add (host32 5) (sample_mac mac) (sample_mac 99) (host16 outer) (host16 inner) 0.

Definition ipoe_after (m : ipoe_main_t) (op : ipoe_op) : ipoe_main_t :=
  default m (fst <$> ipoe_exec m op).

Definition sample_ipoe_1 := ipoe_after ipoe_init (IpoeOpEnable (host32 5) true).
Definition sample_ipoe_2 :=
  ipoe_after sample_ipoe_1 (IpoeOpSession 0 1 (host32 0) (sample_ipoe_args true 1 100 200)).
Definition sample_ipoe_3 := ipoe_after sample_ipoe_2 (IpoeOpIpv4 (host32 101) 7 true).
Definition sample_ipoe_4 := ipoe_after sample_ipoe_3 (IpoeOpPrefix (host32 101) 9 56 3 true).
Definition sample_ipoe :=
  ipoe_after sample_ipoe_4 (IpoeOpSession 1 2 (host32 0) (sample_ipoe_args true 2 300 0)).

Lemma ipoe_sample_step m op :
  ipoe_run true m → ipoe_op_ok m op → ipoe_op_faithful m op → is_Some (ipoe_exec m op) →
  ipoe_run true (ipoe_after m op).
Proof.
  intros Hr Hf Hg [[m' rv] He]. unfold ipoe_after. rewrite He.
  by apply (irun_op true m op m' rv true).
Qed.

Lemma sample_ipoe_session m i hw mac outer inner :
  bool_decide (im_sessions m !! i = None) = true → 0 <= i < NONE →
  bool_decide (im_session_index_by_sw_if_index m !! (hw + 100) = None) = true → byte mac →
  ipoe_op_ok m (IpoeOpSession i hw (host32 0) (sample_ipoe_args true mac outer inner)).
Proof.
  intros E1 Hi E2 Hm. apply bool_decide_eq_true in E1, E2.
  split; [exact E1|]. split; [exact Hi|]. split; [exact E2|].
  split; [by apply sample_mac_ok|]. split; [by apply sample_mac_ok|]. intros _.
  split; [by vm_compute|]. exists 0. split; by vm_compute.
Qed.

Lemma sample_ipoe_run : ipoe_run true sample_ipoe.
Proof.
  apply ipoe_sample_step; [|apply sample_ipoe_session; by vm_compute|done|by vm_compute; eexists].
  apply ipoe_sample_step; [|done|by intros ????|by vm_compute; eexists].
  apply ipoe_sample_step; [|done|by intros ????|by vm_compute; eexists].
  apply ipoe_sample_step; [|apply sample_ipoe_session; by vm_compute|done|by vm_compute; eexists].
  apply ipoe_sample_step; [apply irun_init|done|done|by vm_compute; eexists].
Qed.

Lemma ipoe_runs_sound_witness :
  ipoe_run true sample_ipoe /\ 1 ∈ registered (im_calls sample_ipoe) /\
  exists si s, im_sessions sample_ipoe !! si = Some s /\ ie_hw_if_index s = 1.
Proof.
  split; [exact sample_ipoe_run|].
  assert (1 ∈ registered (im_calls sample_ipoe)) as E by (apply (bool_decide_unpack _); by vm_compute).
  split; [exact E|]. apply (ipoe_runs_sound true sample_ipoe sample_ipoe_run), E.
Defined.

(** The session that is deleted has both kinds of binding. *)
Definition sample_ipoe_5 :=
  ipoe_after sample_ipoe (IpoeOpSession 8 9 (host32 0) (sample_ipoe_args false 1 100 200)).

Lemma sample_ipoe_5_run : ipoe_run true sample_ipoe_5.
Proof.
  apply ipoe_sample_step; [exact sample_ipoe_run| |done|by vm_compute; eexists].
  split; [by vm_compute|]. split; [done|]. split; [by vm_compute|].
  split; [by apply sample_mac_ok|]. split; [by apply sample_mac_ok|done].
Qed.

Lemma ipoe_routes_exact_witness :
  let r := mkRoute true 0 9 56 None 101 in
  (r ∈ routes (im_calls sample_ipoe) /\ exists si s, im_sessions sample_ipoe !! si = Some s /\ r ∈ ibindings s) /\
  (r ∉ routes (im_calls sample_ipoe_5) /\
   ~ exists si s, im_sessions sample_ipoe_5 !! si = Some s /\ r ∈ ibindings s).
Proof.
  cbv zeta. set (r := mkRoute true 0 9 56 None 101).
  assert (r ∈ routes (im_calls sample_ipoe)) as E by (apply (bool_decide_unpack _); by vm_compute).
  assert (r ∉ routes (im_calls sample_ipoe_5)) as E' by (apply (bool_decide_unpack _); by vm_compute).
  split; (split; [assumption|]).
  - apply (ipoe_routes_exact sample_ipoe sample_ipoe_run), E.
  - intros Hb. apply E', (ipoe_routes_exact sample_ipoe_5 sample_ipoe_5_run), Hb.
Defined.

(** A packet of 20 bytes behind an Ethernet header at the start of the buffer. *)
Definition sample_ipoe_packet (header : list Z) : vlib_buffer_t :=
  (sample_buffer 0 (header ++ 69 :: repeat 7 19) 0)⟪b_l2_hdr_offset := Some 0⟫
    ⟪b_current_data := Z.of_nat (length header)⟫⟪b_current_length := 20⟫⟪b_rx := 5⟫.
Definition sample_ipoe_header : list Z :=
  sample_mac 1 ++ sample_mac 99 ++ be16 ETHERNET_TYPE_DOT1AD ++ be16 100 ++
  be16 ETHERNET_TYPE_VLAN ++ be16 200 ++ be16 ETHERNET_TYPE_IP4.
Definition sample_reply : vlib_buffer_t := sample_ipoe_packet (turned sample_ipoe_header).

Lemma sample_reply_bytes p : byte (b_data sample_reply p).
Proof. revert p. apply put_bytes; [done|]. by apply sample_bytes. Qed.

Lemma ipoe_frame_exact_witness :
  exists counted processed no_session,
    ipoe_input_node sample_ipoe [sample_reply; sample_reply] =
      Some (counted, processed, no_session, map (ipoe_spec sample_ipoe) [sample_reply; sample_reply]) /\
    processed = 2 /\ added 101 snd counted = 40.
Proof.
  destruct (ipoe_frame_exact true sample_ipoe [sample_reply; sample_reply] sample_ipoe_run)
    as (counted & n & k & E & Hc); [by repeat constructor; apply sample_reply_bytes|].
  destruct Hc as (Hw & E1 & E2); [by vm_compute|by vm_compute|].
  exists counted, n, k. split; [exact E|]. split; [rewrite E1; by vm_compute|].
  rewrite (proj2 (Hw 101)). by vm_compute.
Defined.

Definition the_ipoe_session (m : ipoe_main_t) (i : Z) : ipoe_session_t :=
  default (mkIpoeSession 0 [] [] 0 0 0 0 false 0 false 0 0 0 0 0 0 0) (im_sessions m !! i).


(** What the code does not check: the table of a new session.  A VRF that is not there gives
    the index [~0], which is then looked up. *)
Lemma ipoe_unknown_vrf_faults :
  vl_api_osvbng_ipoe_add_del_session_t_handler sample_ipoe 8 9 (host32 50) (sample_ipoe_args true 3 1 1) = None.
Proof. by vm_compute. Qed.
