(* ===== verification/TxFrames.v ===== *)
(** Frames on their way to output nodes.

    The punt plugin's egress node and the layer 2 gateway's input node both hand packets
    directly to the output node of an interface.  Each collects them in frames, one per
    output node and at most eight, hands a full frame over at once and the others at the
    end; a packet for a ninth node goes in a frame of its own.  Both write the same code
    ([plugins/osvbng_punt/osvbng_punt_egress.c], [plugins/osvbng_l2gw/osvbng_l2gw_node.c]). *)

From S2P Require Import Prelude.

#[local] Open Scope Z_scope.

Definition VLIB_FRAME_SIZE : Z := 256.

(** A frame being filled. *)
Record tx_pending_t := mkTxPending {
  tp_output_node_index : Z;
  tp_to_next : list Z                   (* [n_vectors] of them *)
}.

(** The frames handed over, in order, and those being filled. *)
Record tx_frames := mkTxFrames {
  tf_put : list (Z * list Z);
  tf_pending : list tx_pending_t
}.
#[export] Instance eta_tx_frames : Eta tx_frames := λ fs, mkTxFrames (tf_put fs) (tf_pending fs).

(** The position of an output node among the pending ones. *)
Fixpoint pending_find (out_node : Z) (l : list tx_pending_t) (i : nat) : option nat :=
  match l with
  | [] => None
  | p :: l => if tp_output_node_index p =? out_node then Some i else pending_find out_node l (S i)
  end.

(** [*p = pending[--n_pending]]. *)
Definition pending_drop (i : nat) (l : list tx_pending_t) : list tx_pending_t :=
  match last l with
  | Some p => removelast (<[i := p]> l)
  | None => l
  end.

(** The buffer [bi] to the output node, of which [max_pending] can have a frame. *)
Definition frames_enqueue (max_pending out_node bi : Z) (fs : tx_frames) : tx_frames :=
  let with_vector (i : nat) (l : list tx_pending_t) (fs : tx_frames) :=
    match l !! i with
    | None => fs
    | Some p =>
        let p := mkTxPending (tp_output_node_index p) (tp_to_next p ++ [bi]) in
        let l := <[i := p]> l in
        if VLIB_FRAME_SIZE <=? Z.of_nat (length (tp_to_next p))
        then fs⟪tf_put ::= λ x, x ++ [(tp_output_node_index p, tp_to_next p)]⟫
               ⟪tf_pending := pending_drop i l⟫
        else fs⟪tf_pending := l⟫
    end in
  match pending_find out_node (tf_pending fs) 0 with
  | Some i => with_vector i (tf_pending fs) fs
  | None =>
      if max_pending <=? Z.of_nat (length (tf_pending fs))
      then fs⟪tf_put ::= λ x, x ++ [(out_node, [bi])]⟫
      else with_vector (length (tf_pending fs)) (tf_pending fs ++ [mkTxPending out_node []]) fs
  end.

(** What is pending is handed over at the end. *)
Definition frames_flush (fs : tx_frames) : list (Z * list Z) :=
  tf_put fs ++ map (λ p, (tp_output_node_index p, tp_to_next p)) (tf_pending fs).

(** * What reaches an output node *)

(** What is handed to the node [x], in order. *)
Definition handed (x : Z) (puts : list (Z * list Z)) : list Z :=
  concat (map snd (filter (λ p, p.1 = x) puts)).

(** ** The pending frames *)

(** What is pending for the node [x]. *)
Definition pends (x : Z) (l : list tx_pending_t) : list Z :=
  handed x (map (λ p, (tp_output_node_index p, tp_to_next p)) l).
Definition pend_nodes (l : list tx_pending_t) : list Z := map tp_output_node_index l.

Lemma handed_app x l l' : handed x (l ++ l') = handed x l ++ handed x l'.
Proof. unfold handed. by rewrite filter_app, map_app, concat_app. Qed.

Lemma handed_one x n v : handed x [(n, v)] = if decide (n = x) then v else [].
Proof.
  unfold handed. rewrite filter_cons, filter_nil. simpl.
  destruct (decide (n = x)); simpl; by rewrite ?app_nil_r.
Qed.

Lemma pends_cons x p l :
  pends x (p :: l) = (if decide (tp_output_node_index p = x) then tp_to_next p else []) ++ pends x l.
Proof.
  unfold pends. change (map _ (p :: l)) with ([(tp_output_node_index p, tp_to_next p)] ++
    map (λ p, (tp_output_node_index p, tp_to_next p)) l). by rewrite handed_app, handed_one.
Qed.

Lemma pends_none x l : x ∉ pend_nodes l → pends x l = [].
Proof.
  induction l as [|p l IH]; [done|]. rewrite pends_cons. unfold pend_nodes. simpl.
  intros [? ?]%not_elem_of_cons. rewrite decide_False by congruence. by apply IH.
Qed.

Lemma pends_unique l p : NoDup (pend_nodes l) → p ∈ l → pends (tp_output_node_index p) l = tp_to_next p.
Proof.
  induction l as [|q l IH]; [by intros _ ?%not_elem_of_nil|]. unfold pend_nodes. simpl.
  intros [Hn Hnd]%NoDup_cons [->|Hp]%elem_of_cons; rewrite pends_cons.
  - rewrite decide_True, pends_none, app_nil_r by done. done.
  - rewrite decide_False; [by apply IH|]. intros He. apply Hn. rewrite He.
    apply list_elem_of_fmap. by exists p.
Qed.

(** The order of pending frames does not matter, as each node has one. *)
Lemma pends_perm x l l' : NoDup (pend_nodes l) → l ≡ₚ l' → pends x l = pends x l'.
Proof.
  intros Hnd Hp. assert (NoDup (pend_nodes l')) as Hnd' by (unfold pend_nodes in *; by rewrite <- Hp).
  destruct (decide (x ∈ pend_nodes l)) as [Hin|Hin].
  - unfold pend_nodes in Hin. apply list_elem_of_fmap in Hin as (p & -> & Hin).
    rewrite !pends_unique; [done|done|by rewrite <- Hp|done|done].
  - rewrite !pends_none; [done| |done]. unfold pend_nodes in *. by rewrite <- Hp.
Qed.

Lemma pending_drop_perm i l p : l !! i = Some p → p :: pending_drop i l ≡ₚ l.
Proof.
  intros Hi. unfold pending_drop. destruct (last l) as [z|] eqn:Hl.
  2: { apply last_None in Hl. by subst. }
  apply last_Some in Hl as [l0 ->]. destruct (decide (i < length l0)%nat) as [Hlt|Hge].
  - rewrite insert_app_l, removelast_last by done. rewrite lookup_app_l in Hi by done.
    rewrite insert_take_drop by done.
    rewrite <- (take_drop_middle l0 i p) at 3 by done.
    rewrite Permutation_middle. rewrite (Permutation_app_comm (take i l0 ++ p :: drop (S i) l0) [z]).
    simpl. rewrite <- !Permutation_middle. apply perm_swap.
  - assert (i = length l0) as -> by (apply lookup_lt_Some in Hi; rewrite length_app in Hi; simpl in Hi; lia).
    rewrite lookup_app_r, Nat.sub_diag in Hi by lia. injection Hi as ->.
    rewrite list_insert_id by (by rewrite lookup_app_r, Nat.sub_diag by lia).
    rewrite removelast_last. symmetry. apply Permutation_app_comm.
Qed.

Lemma pending_find_Some x l i j :
  pending_find x l i = Some j →
  exists p, (i <= j)%nat /\ l !! (j - i)%nat = Some p /\ tp_output_node_index p = x.
Proof.
  revert i. induction l as [|p l IH]; intros i; [done|]. cbn [pending_find].
  destruct (Z.eqb_spec (tp_output_node_index p) x) as [<-|Hne].
  - intros [= <-]. exists p. by rewrite Nat.sub_diag.
  - intros Hj. destruct (IH (S i) Hj) as (q & Hle & Hq & Hx). exists q. split_and!; [lia| |done].
    by replace (j - i)%nat with (S (j - S i)) by lia.
Qed.

Lemma pending_find_None x l i : pending_find x l i = None → x ∉ pend_nodes l.
Proof.
  revert i. induction l as [|p l IH]; intros i; [intros _; apply not_elem_of_nil|]. cbn [pending_find].
  destruct (Z.eqb_spec (tp_output_node_index p) x) as [|Hne]; [done|].
  intros Hn. unfold pend_nodes. simpl. apply not_elem_of_cons. split; [done|by apply (IH (S i))].
Qed.

(** A vector grows by [bi]. *)
Lemma pends_grow x l i p bi :
  NoDup (pend_nodes l) → l !! i = Some p →
  let l' := <[i := mkTxPending (tp_output_node_index p) (tp_to_next p ++ [bi])]> l in
  NoDup (pend_nodes l') /\
  pends x l' = pends x l ++ if decide (tp_output_node_index p = x) then [bi] else [].
Proof.
  intros Hnd Hi l'. set (p' := mkTxPending _ _) in *.
  assert (pend_nodes l' = pend_nodes l) as Hn.
  { unfold pend_nodes, l'. rewrite list_fmap_insert. apply list_insert_id.
    by rewrite list_lookup_fmap, Hi. }
  assert (NoDup (pend_nodes l')) as Hnd' by (by rewrite Hn). split; [done|].
  assert (p' ∈ l') as Hin.
  { apply (list_elem_of_lookup_2 _ i). apply list_lookup_insert_eq. by eapply lookup_lt_Some. }
  destruct (decide (tp_output_node_index p = x)) as [<-|Hne].
  - rewrite (pends_unique l p) by (done || by eapply list_elem_of_lookup_2).
    change (tp_output_node_index p) with (tp_output_node_index p'). by rewrite (pends_unique l' p').
  - rewrite app_nil_r. unfold l'. rewrite insert_take_drop by (by eapply lookup_lt_Some).
    rewrite <- (take_drop_middle l i p) at 3 by done. unfold pends. rewrite !map_app, !handed_app.
    f_equal. cbn [map]. change (?a :: ?b) with ([a] ++ b) at 1. rewrite handed_app.
    change (?a :: map ?f ?b) with ([a] ++ map f b). rewrite (handed_app x [_]).
    rewrite !handed_one. cbn. by rewrite !decide_False by done.
Qed.

Lemma flush_eq x fs : handed x (frames_flush fs) = handed x (tf_put fs) ++ pends x (tf_pending fs).
Proof. apply handed_app. Qed.

Lemma enqueue_ok max_pending out_node bi fs :
  NoDup (pend_nodes (tf_pending fs)) →
  let fs' := frames_enqueue max_pending out_node bi fs in
  NoDup (pend_nodes (tf_pending fs')) /\
  ∀ x, handed x (frames_flush fs') =
       handed x (frames_flush fs) ++ if decide (out_node = x) then [bi] else [].
Proof.
  intros Hnd. unfold frames_enqueue.
  assert (∀ i l p, NoDup (pend_nodes l) → l !! i = Some p → tp_output_node_index p = out_node →
    (∀ x, pends x l = pends x (tf_pending fs)) →
    let p' := mkTxPending out_node (tp_to_next p ++ [bi]) in
    let fs' := if VLIB_FRAME_SIZE <=? Z.of_nat (length (tp_to_next p'))
      then fs⟪tf_put ::= λ x, x ++ [(tp_output_node_index p', tp_to_next p')]⟫
             ⟪tf_pending := pending_drop i (<[i := p']> l)⟫
      else fs⟪tf_pending := <[i := p']> l⟫ in
    NoDup (pend_nodes (tf_pending fs')) /\
    ∀ x, handed x (frames_flush fs') =
         handed x (frames_flush fs) ++ if decide (out_node = x) then [bi] else []) as Hvec.
  { intros i l p Hl Hi Hp Hsame p' fs'. subst fs'.
    assert (∀ x, NoDup (pend_nodes (<[i := p']> l)) /\
      pends x (<[i := p']> l) = pends x l ++ if decide (out_node = x) then [bi] else []) as Hg.
    { intros x. unfold p'. rewrite <- Hp. by apply pends_grow. }
    destruct (Z.leb_spec VLIB_FRAME_SIZE (Z.of_nat (length (tp_to_next p')))).
    - assert (<[i := p']> l !! i = Some p') as Hi' by (apply list_lookup_insert_eq; by eapply lookup_lt_Some).
      pose proof (pending_drop_perm i _ p' Hi') as Hperm.
      assert (NoDup (pend_nodes (p' :: pending_drop i (<[i := p']> l)))) as Hnd2.
      { unfold pend_nodes. rewrite Hperm. apply (Hg 0). }
      split.
      + unfold pend_nodes in Hnd2. simpl in Hnd2. by apply NoDup_cons in Hnd2 as [_ ?].
      + intros x. rewrite !flush_eq. rproj. destruct (Hg x) as [_ Hx].
        rewrite <- (pends_perm x _ _ Hnd2 Hperm), pends_cons, Hsame in Hx.
        rewrite handed_app, handed_one, <- app_assoc, Hx. by rewrite app_assoc.
    - split; [rproj; apply (Hg 0)|]. intros x. rewrite !flush_eq. rproj.
      rewrite (proj2 (Hg x)), Hsame. by rewrite app_assoc. }
  destruct (pending_find out_node (tf_pending fs) 0) as [i|] eqn:Hf.
  - destruct (pending_find_Some _ _ _ _ Hf) as (p & _ & Hi & Hp). rewrite Nat.sub_0_r in Hi.
    cbv zeta. rewrite Hi. specialize (Hvec i _ p Hnd Hi Hp (λ _, eq_refl)). by rewrite Hp.
  - pose proof (pending_find_None _ _ _ Hf) as Hn.
    destruct (Z.leb_spec max_pending (Z.of_nat (length (tf_pending fs)))).
    + split; [done|]. intros x. rewrite !flush_eq. rproj.
      rewrite handed_app, handed_one, <- !app_assoc. f_equal.
      destruct (decide (out_node = x)) as [<-|]; [by rewrite pends_none|by rewrite app_nil_r].
    + cbv zeta. set (p := mkTxPending out_node []).
      assert ((tf_pending fs ++ [p]) !! length (tf_pending fs) = Some p) as Hi.
      { rewrite lookup_app_r, Nat.sub_diag by lia. done. }
      rewrite Hi. apply (Hvec _ _ p); try done.
      * unfold pend_nodes in *. rewrite map_app. simpl. apply NoDup_app.
        split_and!; [done|set_solver|apply NoDup_singleton].
      * intros x. unfold pends. rewrite map_app, handed_app. cbn [map].
        rewrite handed_one. destruct (decide _); by rewrite app_nil_r.
Qed.

