(* ===== verification/PuntShm.v ===== *)
(** The shared memory of the punt plugin: its layout, the rings, the policer, and the
    punt of one packet ([plugins/osvbng_punt/osvbng_punt_shared.h], [osvbng_punt.h],
    [osvbng_punt_shm.c]).

    Ring headers and descriptors are records; the bytes of the frames are a memory
    addressed by offsets from the start of the region, so that slots of different
    threads may overlap unless the layout keeps them apart.  [osvbng_punt_to_shm] is made
    of the steps other threads can see: [punt_reserve] ends with the loads of head and
    tail, [punt_fill] writes the slot, [punt_publish] stores head and [punt_signal]
    exchanges the interrupt flag.  A double is an IEEE binary64 number. *)

From Stdlib Require Import SpecFloat.
From S2P Require Import Prelude Packet.

#[local] Open Scope Z_scope.

(** * Doubles *)

Notation f64 := spec_float (only parsing).
Definition f64_of_Z (z : Z) : f64 := binary_normalize 53 1024 z 0 false.
Definition f64_add : f64 → f64 → f64 := SFadd 53 1024.
Definition f64_sub : f64 → f64 → f64 := SFsub 53 1024.
Definition f64_mul : f64 → f64 → f64 := SFmul 53 1024.
Definition f64_div : f64 → f64 → f64 := SFdiv 53 1024.

(** The conversion to a [u64], of a number it can represent. *)
Definition f64_to_u64 (x : f64) : Z :=
  match x with
  | S754_finite false m e => u64 (Z.shiftl (Zpos m) e)
  | _ => 0
  end.

(** * The region *)

Definition OSVBNG_SHM_MAGIC : Z := 0x4F53564E47424E47.
Definition OSVBNG_SHM_VERSION : Z := 2.
Definition OSVBNG_SHM_DEFAULT_PUNT_RING_SIZE : Z := 4096.
Definition OSVBNG_SHM_DEFAULT_EGRESS_RING_SIZE : Z := 4096.
Definition OSVBNG_SHM_DEFAULT_SLOT_SIZE : Z := 2048.

Record osvbng_shm_header_t := mkShmHeader {
  sh_magic : Z;                 (* u64 *)
  sh_version : Z;               (* u32, and the others *)
  sh_flags : Z;
  sh_n_punt_rings : Z;
  sh_punt_ring_size : Z;
  sh_punt_ring_stride : Z;
  sh_punt_ring_offset : Z;
  sh_egress_ring_offset : Z;
  sh_egress_ring_size : Z;
  sh_punt_data_offset : Z;
  sh_egress_data_offset : Z;
  sh_slot_size : Z
}.

Record osvbng_ring_header_t := mkRing {
  rg_head : Z;                  (* u64 *)
  rg_tail : Z;                  (* u64 *)
  rg_interrupt_pending : Z      (* u8 *)
}.
#[export] Instance eta_ring : Eta osvbng_ring_header_t := λ r,
  mkRing (rg_head r) (rg_tail r) (rg_interrupt_pending r).

Record osvbng_punt_desc_t := mkPuntDesc {
  pd_data_offset : Z;           (* u32 *)
  pd_sw_if_index : Z;           (* u32 *)
  pd_data_length : Z;           (* u16 *)
  pd_protocol : Z;              (* u8 *)
  pd_flags : Z;                 (* u8 *)
  pd_outer_vlan : Z;            (* u16 *)
  pd_inner_vlan : Z;            (* u16 *)
  pd_timestamp : Z              (* u64 *)
}.

Record osvbng_egress_desc_t := mkEgressDesc {
  ed_data_offset : Z;           (* u32 *)
  ed_sw_if_index : Z;           (* u32 *)
  ed_data_length : Z            (* u16 *)
}.

Definition SIZEOF_SHM_HEADER : Z := 64.
Definition SIZEOF_RING_HEADER : Z := 64.
Definition SIZEOF_PUNT_DESC : Z := 24.
Definition SIZEOF_EGRESS_DESC : Z := 12.

(** ** Rings *)

Definition OSVBNG_RING_MASK (size : Z) : Z := u32 (size - 1).

Definition osvbng_ring_has_space (ring : osvbng_ring_header_t) (ring_size n : Z) : bool :=
  u64 (rg_head ring - rg_tail ring + n) <=? ring_size.
Definition osvbng_ring_has_data (ring : osvbng_ring_header_t) (n : Z) : bool :=
  n <=? u64 (rg_head ring - rg_tail ring).
Definition osvbng_ring_count (ring : osvbng_ring_header_t) : Z := u64 (rg_head ring - rg_tail ring).

(** The size of a structure is a [size_t], and the results are cut to 32 bits. *)
Definition osvbng_punt_ring_stride (punt_ring_size : Z) : Z :=
  u32 (SIZEOF_RING_HEADER + punt_ring_size * SIZEOF_PUNT_DESC).

Definition osvbng_shm_calc_size (n_punt_rings punt_ring_size egress_ring_size slot_size : Z) : Z :=
  let size := SIZEOF_SHM_HEADER in
  let size := u32 (size + u32 (n_punt_rings * osvbng_punt_ring_stride punt_ring_size)) in
  let size := u32 (size + SIZEOF_RING_HEADER) in
  let size := u32 (size + egress_ring_size * SIZEOF_EGRESS_DESC) in
  let size := u32 (size + u32 (u32 (n_punt_rings * punt_ring_size) * slot_size)) in
  u32 (size + u32 (egress_ring_size * slot_size)).

(** * State *)

Definition OSVBNG_PUNT_PROTO_DHCPV4 : Z := 0.
Definition OSVBNG_PUNT_PROTO_DHCPV6 : Z := 1.
Definition OSVBNG_PUNT_PROTO_ARP : Z := 2.
Definition OSVBNG_PUNT_PROTO_PPPOE_DISCOVERY : Z := 3.
Definition OSVBNG_PUNT_PROTO_PPPOE_SESSION : Z := 4.
Definition OSVBNG_PUNT_PROTO_IPV6_ND : Z := 5.
Definition OSVBNG_PUNT_PROTO_L2TP : Z := 6.
Definition OSVBNG_PUNT_PROTO_L2GW_TRIGGER : Z := 7.
Definition OSVBNG_PUNT_N_PROTO : Z := 8.

(** [pt->ring] and [pt->descs] are what they point to, [pt->data] the offset from the
    start of the region. *)
Record osvbng_punt_per_thread_t := mkPerThread {
  pt_ring : osvbng_ring_header_t;
  pt_descs : list osvbng_punt_desc_t;
  pt_data : Z;
  pt_rate : list f64;
  pt_burst : list f64;
  pt_tokens : list f64;
  pt_last_update : list f64;
  pt_punted : list Z;           (* u64 *)
  pt_dropped : list Z;          (* u64 *)
  pt_policed : list Z;          (* u64 *)
  pt_ring_full : Z;             (* u64 *)
  pt_truncated : Z              (* u64 *)
}.
#[export] Instance eta_per_thread : Eta osvbng_punt_per_thread_t := λ p,
  mkPerThread (pt_ring p) (pt_descs p) (pt_data p) (pt_rate p) (pt_burst p) (pt_tokens p)
    (pt_last_update p) (pt_punted p) (pt_dropped p) (pt_policed p) (pt_ring_full p)
    (pt_truncated p).

(** File descriptors are [None] for -1.  [pm_punt_event] is what has been written to the
    punt eventfd and not been read. *)
Record osvbng_punt_main_t := mkPuntMain {
  pm_enabled_interfaces : list (gset Z);
  pm_dhcp_bcast_refs : gmap Z Z;
  pm_shm : option osvbng_shm_header_t;          (* None: no region is mapped *)
  pm_shm_data : Z → Z;
  pm_shm_fd : option Z;
  pm_shm_size : Z;                              (* u32 *)
  pm_shm_initialized : bool;
  pm_client_connected : bool;
  pm_punt_ring_size : Z;                        (* u32, and the next six *)
  pm_egress_ring_size : Z;
  pm_slot_size : Z;
  pm_n_punt_rings : Z;
  pm_punt_ring_stride : Z;
  pm_punt_data_offset : Z;
  pm_egress_data_offset : Z;
  pm_per_thread : list osvbng_punt_per_thread_t;
  pm_egress_ring : osvbng_ring_header_t;
  pm_egress_descs : list osvbng_egress_desc_t;
  pm_punt_eventfd : option Z;
  pm_egress_eventfd : option Z;
  pm_eventfd_listen_fd : option Z;
  pm_eventfd_listen_file_index : option Z;
  pm_egress_file_index : option Z;
  pm_egress_tail : Z;                           (* u64, and the next two *)
  pm_egress_transmitted : Z;
  pm_egress_alloc_fail : Z;
  pm_l2tpv2_input_next_arc : option Z;
  pm_policer_rate : list f64;
  pm_policer_burst : list Z;                    (* u32 *)
  pm_punt_event : Z
}.
#[export] Instance eta_punt_main : Eta osvbng_punt_main_t := λ p,
  mkPuntMain (pm_enabled_interfaces p) (pm_dhcp_bcast_refs p) (pm_shm p) (pm_shm_data p)
    (pm_shm_fd p) (pm_shm_size p) (pm_shm_initialized p) (pm_client_connected p)
    (pm_punt_ring_size p) (pm_egress_ring_size p) (pm_slot_size p) (pm_n_punt_rings p)
    (pm_punt_ring_stride p) (pm_punt_data_offset p) (pm_egress_data_offset p)
    (pm_per_thread p) (pm_egress_ring p) (pm_egress_descs p) (pm_punt_eventfd p)
    (pm_egress_eventfd p) (pm_eventfd_listen_fd p) (pm_eventfd_listen_file_index p)
    (pm_egress_file_index p) (pm_egress_tail p) (pm_egress_transmitted p)
    (pm_egress_alloc_fail p) (pm_l2tpv2_input_next_arc p) (pm_policer_rate p)
    (pm_policer_burst p) (pm_punt_event p).

(** ** Building the region *)

(** What the system calls of [osvbng_punt_shm_init] return: the descriptor or [None]
    for a failure. *)
Record shm_os := mkShmOs {
  os_open : option Z;
  os_ftruncate : bool;
  os_mmap : bool;
  os_punt_eventfd : option Z;
  os_egress_eventfd : option Z
}.

Definition punt_per_thread_init (punt_ring_size data : Z) : osvbng_punt_per_thread_t :=
  let z := replicate (Z.to_nat OSVBNG_PUNT_N_PROTO) (S754_zero false) in
  let c := replicate (Z.to_nat OSVBNG_PUNT_N_PROTO) 0 in
  mkPerThread (mkRing 0 0 0)
    (replicate (Z.to_nat punt_ring_size) (mkPuntDesc 0 0 0 0 0 0 0 0)) data z z z z c c c 0 0.

(** The header, and where the parts of the region begin. *)
Definition shm_header_init (n_punt_rings punt_ring_size egress_ring_size slot_size stride : Z)
    : osvbng_shm_header_t :=
  let offset := SIZEOF_SHM_HEADER in
  let punt_ring_offset := offset in
  let offset := u32 (offset + u32 (n_punt_rings * stride)) in
  let egress_ring_offset := offset in
  let offset := u32 (offset + SIZEOF_RING_HEADER) in
  let offset := u32 (offset + egress_ring_size * SIZEOF_EGRESS_DESC) in
  let punt_data_offset := offset in
  let offset := u32 (offset + u32 (u32 (n_punt_rings * punt_ring_size) * slot_size)) in
  mkShmHeader OSVBNG_SHM_MAGIC OSVBNG_SHM_VERSION 0 n_punt_rings punt_ring_size stride
    punt_ring_offset egress_ring_offset egress_ring_size punt_data_offset offset slot_size.

Definition osvbng_punt_shm_init (n_threads : Z) (os : shm_os) (pm : osvbng_punt_main_t)
    : osvbng_punt_main_t * bool :=
  let dflt v d := if v =? 0 then d else v in
  let prs := dflt (pm_punt_ring_size pm) OSVBNG_SHM_DEFAULT_PUNT_RING_SIZE in
  let ers := dflt (pm_egress_ring_size pm) OSVBNG_SHM_DEFAULT_EGRESS_RING_SIZE in
  let slot := dflt (pm_slot_size pm) OSVBNG_SHM_DEFAULT_SLOT_SIZE in
  let stride := osvbng_punt_ring_stride prs in
  let shm_size := osvbng_shm_calc_size n_threads prs ers slot in
  let pm := pm⟪pm_punt_ring_size := prs⟫⟪pm_egress_ring_size := ers⟫⟪pm_slot_size := slot⟫
              ⟪pm_n_punt_rings := n_threads⟫⟪pm_punt_ring_stride := stride⟫ in
  match os_open os with
  | None => (pm, false)
  | Some fd =>
      if negb (os_ftruncate os) then (pm, false)
      else if negb (os_mmap os) then (pm⟪pm_shm := None⟫, false)
      else
        let hdr := shm_header_init n_threads prs ers slot stride in
        let data t := sh_punt_data_offset hdr + t * prs * slot in
        let pm :=
          pm⟪pm_shm_fd := Some fd⟫⟪pm_shm_size := shm_size⟫
            ⟪pm_shm := Some hdr⟫⟪pm_shm_data := λ _, 0⟫
            ⟪pm_egress_ring := mkRing 0 0 0⟫
            ⟪pm_egress_descs := replicate (Z.to_nat ers) (mkEgressDesc 0 0 0)⟫
            ⟪pm_punt_data_offset := sh_punt_data_offset hdr⟫
            ⟪pm_egress_data_offset := sh_egress_data_offset hdr⟫
            ⟪pm_per_thread := map (λ t, punt_per_thread_init prs (data t)) (seqZ 0 n_threads)⟫ in
        match os_punt_eventfd os with
        | None => (pm⟪pm_punt_eventfd := None⟫, false)
        | Some pfd =>
            let pm := pm⟪pm_punt_eventfd := Some pfd⟫⟪pm_punt_event := 0⟫ in
            match os_egress_eventfd os with
            | None => (pm⟪pm_egress_eventfd := None⟫, false)
            | Some efd => (pm⟪pm_egress_eventfd := Some efd⟫⟪pm_shm_initialized := true⟫, true)
            end
        end
  end.

(** The two sockets' calls, [None] for a failure before [clib_file_add]. *)
Definition osvbng_punt_eventfd_socket_init (listen : option (Z * Z)) (pm : osvbng_punt_main_t)
    : osvbng_punt_main_t * bool :=
  if negb (pm_shm_initialized pm) then (pm, false)
  else
    match listen with
    | None => (pm, false)
    | Some (fd, file) =>
        (pm⟪pm_eventfd_listen_file_index := Some file⟫⟪pm_eventfd_listen_fd := Some fd⟫, true)
    end.

(** The daemon connects: both descriptors are sent unless [accept] or [sendmsg] fails. *)
Definition osvbng_punt_eventfd_connect_handler (accepted sent : bool) (pm : osvbng_punt_main_t)
    : osvbng_punt_main_t * option (option Z * option Z) :=
  if negb accepted || negb sent then (pm, None)
  else (pm⟪pm_client_connected := true⟫, Some (pm_punt_eventfd pm, pm_egress_eventfd pm)).

(** The egress ring is watched from now on; [file] is its place in the poller. *)
Definition osvbng_punt_egress_init (file : Z) (pm : osvbng_punt_main_t)
    : osvbng_punt_main_t * bool :=
  if negb (pm_shm_initialized pm) || bool_decide (pm_egress_eventfd pm = None) then (pm, false)
  else
    (pm⟪pm_egress_tail := 0⟫⟪pm_egress_transmitted := 0⟫⟪pm_egress_alloc_fail := 0⟫
       ⟪pm_egress_file_index := Some file⟫, true).

Definition osvbng_punt_shm_cleanup (pm : osvbng_punt_main_t) : osvbng_punt_main_t :=
  pm⟪pm_egress_file_index := None⟫⟪pm_eventfd_listen_file_index := None⟫
    ⟪pm_eventfd_listen_fd := None⟫⟪pm_punt_eventfd := None⟫⟪pm_egress_eventfd := None⟫
    ⟪pm_shm := None⟫⟪pm_shm_fd := None⟫⟪pm_shm_initialized := false⟫
    ⟪pm_client_connected := false⟫.

(** * The policer *)

(** One protocol's bucket; [None] for a number that is no protocol. *)
Definition osvbng_punt_policer_allow (pt : osvbng_punt_per_thread_t) (now : f64) (protocol : Z)
    : option (osvbng_punt_per_thread_t * bool) :=
  let p := Z.to_nat protocol in
  rate ← pt_rate pt !! p;
  if SFeqb rate (S754_zero false) then Some (pt, true)
  else
    last ← pt_last_update pt !! p;
    tokens ← pt_tokens pt !! p;
    burst ← pt_burst pt !! p;
    let elapsed := f64_sub now last in
    let tokens := f64_add tokens (f64_mul elapsed rate) in
    let tokens := if SFltb burst tokens then burst else tokens in
    let pt := pt⟪pt_last_update ::= <[p := now]>⟫ in
    if SFleb (f64_of_Z 1) tokens
    then Some (pt⟪pt_tokens ::= <[p := f64_sub tokens (f64_of_Z 1)]>⟫, true)
    else Some (pt⟪pt_tokens ::= <[p := tokens]>⟫
                 ⟪pt_policed ::= alter (λ c, u64 (c + 1)) p⟫, false).

(** * Punting a packet *)

Section Punt.

Variable thread_index : nat.

Definition set_pt (pm : osvbng_punt_main_t) (pt : osvbng_punt_per_thread_t) : osvbng_punt_main_t :=
  pm⟪pm_per_thread ::= <[thread_index := pt]>⟫.

(** The policer, then the loads: the head is returned when there is room. *)
Definition punt_reserve (now : f64) (protocol : Z) (pm : osvbng_punt_main_t)
    : option (osvbng_punt_main_t * option Z) :=
  pt ← pm_per_thread pm !! thread_index;
  '(pt, allowed) ← osvbng_punt_policer_allow pt now protocol;
  if negb allowed then Some (set_pt pm pt, None)
  else
    let head := rg_head (pt_ring pt) in
    let tail := rg_tail (pt_ring pt) in
    if pm_punt_ring_size pm <=? u64 (head - tail) then
      Some (set_pt pm
        (pt⟪pt_ring_full ::= λ c, u64 (c + 1)⟫
           ⟪pt_dropped ::= alter (λ c, u64 (c + 1)) (Z.to_nat protocol)⟫), None)
    else Some (set_pt pm pt, Some head).

(** The frame and its descriptor. *)
Definition punt_fill (now : f64) (b : vlib_buffer_t)
    (sw_if_index protocol outer_vlan inner_vlan head : Z) (pm : osvbng_punt_main_t)
    : option osvbng_punt_main_t :=
  pt ← pm_per_thread pm !! thread_index;
  let slot := u32 (Z.land head (OSVBNG_RING_MASK (pm_punt_ring_size pm))) in
  _ ← pt_descs pt !! Z.to_nat slot;
  let cut := pm_slot_size pm <? b_current_length b in
  let len := if cut then u16 (pm_slot_size pm) else b_current_length b in
  let offset := pt_data pt + slot * pm_slot_size pm in
  let desc := mkPuntDesc (u32 offset) sw_if_index len (u8 protocol) 0 outer_vlan inner_vlan
                (f64_to_u64 (f64_mul now (f64_of_Z 1000000000))) in
  let pt := if cut then pt⟪pt_truncated ::= λ c, u64 (c + 1)⟫ else pt in
  Some ((set_pt pm (pt⟪pt_descs ::= <[Z.to_nat slot := desc]>⟫))
          ⟪pm_shm_data ::= λ d, put d offset (bytes (b_data b) (b_current_data b) (Z.to_nat len))⟫).

Definition punt_publish (head : Z) (pm : osvbng_punt_main_t) : option osvbng_punt_main_t :=
  pt ← pm_per_thread pm !! thread_index;
  Some (set_pt pm (pt⟪pt_ring ::= λ r, r⟪rg_head := u64 (head + 1)⟫⟫)).

(** The exchange of the flag; the eventfd is written when it was clear. *)
Definition punt_signal (protocol : Z) (pm : osvbng_punt_main_t) : option osvbng_punt_main_t :=
  pt ← pm_per_thread pm !! thread_index;
  let was := rg_interrupt_pending (pt_ring pt) in
  Some ((set_pt pm (pt⟪pt_ring ::= λ r, r⟪rg_interrupt_pending := 1⟫⟫
                      ⟪pt_punted ::= alter (λ c, u64 (c + 1)) (Z.to_nat protocol)⟫))
          ⟪pm_punt_event ::= λ n, if was =? 0 then n + 1 else n⟫).

(** The result is whether the packet was punted, 0 in the code. *)
Definition osvbng_punt_to_shm (now : f64) (b : vlib_buffer_t)
    (sw_if_index protocol outer_vlan inner_vlan : Z) (pm : osvbng_punt_main_t)
    : option (osvbng_punt_main_t * bool) :=
  if negb (pm_shm_initialized pm) then Some (pm, false)
  else
    '(pm, reserved) ← punt_reserve now protocol pm;
    match reserved with
    | None => Some (pm, false)
    | Some head =>
        pm ← punt_fill now b sw_if_index protocol outer_vlan inner_vlan head pm;
        pm ← punt_publish head pm;
        pm ← punt_signal protocol pm;
        Some (pm, true)
    end.

Definition osvbng_punt_send_packet (now : f64) (b : vlib_buffer_t) (sw_if_index protocol : Z)
    (pm : osvbng_punt_main_t) : option (osvbng_punt_main_t * bool) :=
  osvbng_punt_to_shm now b sw_if_index protocol 0 0 pm.

End Punt.
