(* ===== verification/PuntConfig.v ===== *)
(** Configuration of the punt plugin: start-up, the policer's rates, and which interfaces
    a protocol is punted from ([plugins/osvbng_punt/osvbng_punt.c], [osvbng_punt_api.c],
    the enable and disable functions of the classifiers' files).

    What the plugin asks of VPP is a log of [punt_call]s. *)

From S2P Require Import Prelude Packet Access PuntShm.
From stdpp Require Import strings.

#[local] Open Scope Z_scope.

Inductive punt_call :=
  | SpecialAdd (fib_index : Z)                  (* fib_table_entry_special_add, of 255.255.255.255/32 *)
  | SpecialRemove (fib_index : Z)
  | UdpRegister (port : Z) (is_ip4 : bool)      (* udp_register_dst_port *)
  | UdpUnregister (port : Z) (is_ip4 : bool)
  | Icmp6Register (type : Z)                    (* icmp6_register_type *)
  | EthernetRegister (type : Z).                (* ethernet_register_input_type *)

Definition ETHERNET_TYPE_ARP : Z := 2054.               (* 0x0806 *)
Definition ETHERNET_TYPE_PPPOE_DISCOVERY : Z := 34915.  (* 0x8863 *)
Definition ICMP6_router_solicitation : Z := 133.
Definition ICMP6_neighbor_solicitation : Z := 135.

(** ** What the log leaves behind *)

Definition bcast_call (c : punt_call) (fs : gset Z) : gset Z :=
  match c with
  | SpecialAdd f => {[f]} ∪ fs
  | SpecialRemove f => fs ∖ {[f]}
  | _ => fs
  end.
(** The tables with a receive route for the broadcast address. *)
Definition bcast_fibs (cs : list punt_call) : gset Z := foldl (λ s c, bcast_call c s) ∅ cs.

Definition port_call (c : punt_call) (ps : gset (Z * bool)) : gset (Z * bool) :=
  match c with
  | UdpRegister p f => {[(p, f)]} ∪ ps
  | UdpUnregister p f => ps ∖ {[(p, f)]}
  | _ => ps
  end.
(** The UDP ports delivered to the plugin's nodes. *)
Definition udp_ports (cs : list punt_call) : gset (Z * bool) := foldl (λ s c, port_call c s) ∅ cs.

(** * Start-up *)

Definition default_rates : list f64 := map f64_of_Z [1000; 1000; 500; 1000; 1000; 500; 500; 1000].
Definition default_bursts : list Z := [100; 100; 50; 100; 100; 50; 50; 100].

Definition osvbng_punt_policer_init (pm : osvbng_punt_main_t) : osvbng_punt_main_t :=
  pm⟪pm_policer_rate := default_rates⟫⟪pm_policer_burst := default_bursts⟫.

Definition osvbng_punt_register_ethertypes : list punt_call :=
  [EthernetRegister ETHERNET_TYPE_ARP; EthernetRegister ETHERNET_TYPE_PPPOE_DISCOVERY;
   EthernetRegister ETHERNET_TYPE_PPPOE_SESSION].

(** [osvbng_punt_main] before, with all bytes zero. *)
Definition punt_main_zero : osvbng_punt_main_t :=
  mkPuntMain [] ∅ None (λ _, 0) (Some 0) 0 false false 0 0 0 0 0 0 0 [] (mkRing 0 0 0) []
    (Some 0) (Some 0) (Some 0) (Some 0) (Some 0) 0 0 0 (Some 0) [] [] 0.

Definition osvbng_punt_init (pm : osvbng_punt_main_t) : osvbng_punt_main_t * list punt_call :=
  (osvbng_punt_policer_init
    (pm⟪pm_shm := None⟫⟪pm_shm_fd := None⟫⟪pm_shm_initialized := false⟫
       ⟪pm_client_connected := false⟫⟪pm_punt_eventfd := None⟫⟪pm_egress_eventfd := None⟫
       ⟪pm_eventfd_listen_fd := None⟫⟪pm_eventfd_listen_file_index := None⟫
       ⟪pm_egress_file_index := None⟫
       ⟪pm_enabled_interfaces := replicate (Z.to_nat OSVBNG_PUNT_N_PROTO) ∅⟫
       ⟪pm_l2tpv2_input_next_arc := None⟫⟪pm_dhcp_bcast_refs := ∅⟫),
   osvbng_punt_register_ethertypes).

(** * Rates *)

Definition punt_policer_apply_1 (rates : list f64) (bursts : list Z) (n : Z) (now : f64)
    (pt : osvbng_punt_per_thread_t) : osvbng_punt_per_thread_t :=
  let one := f64_of_Z 1 in
  let burst := map (λ b, let f := f64_of_Z b in if SpecFloat.SFltb f one then one else f) bursts in
  pt⟪pt_rate := map (λ r, f64_div r (f64_of_Z n)) rates⟫⟪pt_burst := burst⟫⟪pt_tokens := burst⟫
    ⟪pt_last_update := map (λ _, now) rates⟫.

Definition osvbng_punt_policer_apply (now : f64) (pm : osvbng_punt_main_t) : osvbng_punt_main_t :=
  let n := Z.of_nat (length (pm_per_thread pm)) in
  pm⟪pm_per_thread ::=
      map (punt_policer_apply_1 (pm_policer_rate pm) (pm_policer_burst pm) n now)⟫.

(** The result is whether the configuration was accepted; a [burst] of 0 keeps the old one. *)
Definition osvbng_punt_policer_configure (now : f64) (protocol : Z) (rate : f64) (burst : Z)
    (pm : osvbng_punt_main_t) : osvbng_punt_main_t * bool :=
  if OSVBNG_PUNT_N_PROTO <=? protocol then (pm, false)
  else
    let p := Z.to_nat protocol in
    let pm := pm⟪pm_policer_rate ::= <[p := rate]>⟫ in
    let pm := if 0 <? burst then pm⟪pm_policer_burst ::= <[p := burst]>⟫ else pm in
    (osvbng_punt_policer_apply now pm, true).

(** Entry of the main loop, when the threads exist. *)
Definition osvbng_punt_main_loop_enter (n_threads : Z) (os : shm_os) (listen : option (Z * Z))
    (file : Z) (now : f64) (pm : osvbng_punt_main_t) : osvbng_punt_main_t * bool :=
  let '(pm, ok) := osvbng_punt_shm_init n_threads os pm in
  if negb ok then (pm, false)
  else
    let '(pm, ok) := osvbng_punt_eventfd_socket_init listen pm in
    if negb ok then (pm, false)
    else
      let '(pm, ok) := osvbng_punt_egress_init file pm in
      if negb ok then (pm, false) else (osvbng_punt_policer_apply now pm, true).

(** * Interfaces *)

Definition punt_enabled (pm : osvbng_punt_main_t) (protocol sw_if_index : Z) : bool :=
  bool_decide (sw_if_index ∈ default ∅ (pm_enabled_interfaces pm !! Z.to_nat protocol)).

Definition enable_set (protocol sw_if_index : Z) (pm : osvbng_punt_main_t) : osvbng_punt_main_t :=
  pm⟪pm_enabled_interfaces ::= alter (λ s, {[sw_if_index]} ∪ s) (Z.to_nat protocol)⟫.
Definition enable_unset (protocol sw_if_index : Z) (pm : osvbng_punt_main_t) : osvbng_punt_main_t :=
  pm⟪pm_enabled_interfaces ::= alter (λ s, s ∖ {[sw_if_index]}) (Z.to_nat protocol)⟫.
Definition enable_elts (protocol : Z) (pm : osvbng_punt_main_t) : nat :=
  size (default ∅ (pm_enabled_interfaces pm !! Z.to_nat protocol)).

Section Enable.

Context `{AccessVpp}.

(** [ip4_fib_table_get_index_for_sw_if_index]: which table an interface is in. *)
Variable ip4_fib_index_of : Z → Z.

Definition osvbng_punt_dhcp_bcast_route (sw_if_index : Z) (enable : bool)
    (pm : osvbng_punt_main_t) : osvbng_punt_main_t * list punt_call :=
  let fib_index := ip4_fib_index_of sw_if_index in
  let count := pm_dhcp_bcast_refs pm !! fib_index in
  if enable then
    match count with
    | None => (pm⟪pm_dhcp_bcast_refs ::= <[fib_index := 1]>⟫, [SpecialAdd fib_index])
    | Some c => (pm⟪pm_dhcp_bcast_refs ::= <[fib_index := u64 (c + 1)]>⟫, [])
    end
  else
    match count with
    | None => (pm, [])
    | Some c =>
        if c <=? 1
        then (pm⟪pm_dhcp_bcast_refs ::= delete fib_index⟫, [SpecialRemove fib_index])
        else (pm⟪pm_dhcp_bcast_refs ::= <[fib_index := c - 1]>⟫, [])
    end.

Definition osvbng_punt_enable_dhcpv4 (sw_if_index : Z) (pm : osvbng_punt_main_t)
    : osvbng_punt_main_t * list punt_call :=
  let pm := enable_set OSVBNG_PUNT_PROTO_DHCPV4 sw_if_index pm in
  let '(pm, cs) := osvbng_punt_dhcp_bcast_route sw_if_index true pm in
  (pm, [UdpRegister 67 true; UdpRegister 68 true] ++ cs).

Definition osvbng_punt_disable_dhcpv4 (sw_if_index : Z) (pm : osvbng_punt_main_t)
    : osvbng_punt_main_t * list punt_call :=
  let pm := enable_unset OSVBNG_PUNT_PROTO_DHCPV4 sw_if_index pm in
  let '(pm, cs) := osvbng_punt_dhcp_bcast_route sw_if_index false pm in
  (pm, cs ++ if (enable_elts OSVBNG_PUNT_PROTO_DHCPV4 pm =? 0)%nat
             then [UdpUnregister 67 true; UdpUnregister 68 true] else []).

Definition osvbng_punt_enable_dhcpv6 (sw_if_index : Z) (pm : osvbng_punt_main_t)
    : osvbng_punt_main_t * list punt_call :=
  (enable_set OSVBNG_PUNT_PROTO_DHCPV6 sw_if_index pm,
   [UdpRegister 546 false; UdpRegister 547 false]).

Definition osvbng_punt_disable_dhcpv6 (sw_if_index : Z) (pm : osvbng_punt_main_t)
    : osvbng_punt_main_t * list punt_call :=
  let pm := enable_unset OSVBNG_PUNT_PROTO_DHCPV6 sw_if_index pm in
  (pm, if (enable_elts OSVBNG_PUNT_PROTO_DHCPV6 pm =? 0)%nat
       then [UdpUnregister 546 false; UdpUnregister 547 false] else []).

(** [punt_node] is the index of the node itself. *)
Definition osvbng_punt_l2tp_resolve_next_arc (punt_node : Z) (pm : osvbng_punt_main_t)
    : osvbng_punt_main_t :=
  match pm_l2tpv2_input_next_arc pm with
  | Some _ => pm
  | None =>
      match vlib_get_node_by_name "l2tpv2-input" with
      | Some n => pm⟪pm_l2tpv2_input_next_arc := Some (vlib_node_add_next punt_node n)⟫
      | None => pm
      end
  end.

Definition osvbng_punt_enable_l2tp (punt_node sw_if_index : Z) (pm : osvbng_punt_main_t)
    : osvbng_punt_main_t * list punt_call :=
  (enable_set OSVBNG_PUNT_PROTO_L2TP sw_if_index (osvbng_punt_l2tp_resolve_next_arc punt_node pm),
   [UdpRegister 1701 true]).

Definition osvbng_punt_disable_l2tp (sw_if_index : Z) (pm : osvbng_punt_main_t)
    : osvbng_punt_main_t * list punt_call :=
  let pm := enable_unset OSVBNG_PUNT_PROTO_L2TP sw_if_index pm in
  (pm, if (enable_elts OSVBNG_PUNT_PROTO_L2TP pm =? 0)%nat then [UdpUnregister 1701 true] else []).

Definition osvbng_punt_enable_ipv6_nd (sw_if_index : Z) (pm : osvbng_punt_main_t)
    : osvbng_punt_main_t * list punt_call :=
  (enable_set OSVBNG_PUNT_PROTO_IPV6_ND sw_if_index pm,
   [Icmp6Register ICMP6_router_solicitation; Icmp6Register ICMP6_neighbor_solicitation]).

Definition osvbng_punt_disable_ipv6_nd (sw_if_index : Z) (pm : osvbng_punt_main_t)
    : osvbng_punt_main_t * list punt_call :=
  (enable_unset OSVBNG_PUNT_PROTO_IPV6_ND sw_if_index pm, []).

Inductive punt_rv := PUNT_OK | PUNT_INVALID_VALUE | PUNT_INVALID_SW_IF_INDEX | PUNT_INIT_FAILED.

(** For the protocols that need no registration, and all of the command line. *)
Definition osvbng_punt_enable_disable (sw_if_index protocol : Z) (enable_disable : bool)
    (pm : osvbng_punt_main_t) : osvbng_punt_main_t * punt_rv :=
  if OSVBNG_PUNT_N_PROTO <=? protocol then (pm, PUNT_INVALID_VALUE)
  else if sw_interface_is_free sw_if_index then (pm, PUNT_INVALID_SW_IF_INDEX)
  else if negb (pm_shm_initialized pm) then (pm, PUNT_INIT_FAILED)
  else if enable_disable then (enable_set protocol sw_if_index pm, PUNT_OK)
  else (enable_unset protocol sw_if_index pm, PUNT_OK).

Definition vl_api_osvbng_punt_enable_disable (punt_node sw_if_index protocol : Z) (enable : bool)
    (pm : osvbng_punt_main_t) : osvbng_punt_main_t * list punt_call * punt_rv :=
  if negb (sw_interface_is_api_valid sw_if_index) then (pm, [], PUNT_INVALID_SW_IF_INDEX)
  else if protocol =? OSVBNG_PUNT_PROTO_DHCPV4 then
    ((if enable then osvbng_punt_enable_dhcpv4 sw_if_index pm
      else osvbng_punt_disable_dhcpv4 sw_if_index pm), PUNT_OK)
  else if protocol =? OSVBNG_PUNT_PROTO_DHCPV6 then
    ((if enable then osvbng_punt_enable_dhcpv6 sw_if_index pm
      else osvbng_punt_disable_dhcpv6 sw_if_index pm), PUNT_OK)
  else if protocol =? OSVBNG_PUNT_PROTO_L2TP then
    ((if enable then osvbng_punt_enable_l2tp punt_node sw_if_index pm
      else osvbng_punt_disable_l2tp sw_if_index pm), PUNT_OK)
  else if protocol =? OSVBNG_PUNT_PROTO_IPV6_ND then
    ((if enable then osvbng_punt_enable_ipv6_nd sw_if_index pm
      else osvbng_punt_disable_ipv6_nd sw_if_index pm), PUNT_OK)
  else
    let '(pm, rv) := osvbng_punt_enable_disable sw_if_index protocol enable pm in (pm, [], rv).

Definition vl_api_osvbng_punt_policer_configure (now : f64) (protocol : Z) (rate : f64) (burst : Z)
    (pm : osvbng_punt_main_t) : osvbng_punt_main_t * punt_rv :=
  if OSVBNG_PUNT_N_PROTO <=? protocol then (pm, PUNT_INVALID_VALUE)
  else
    let '(pm, ok) := osvbng_punt_policer_configure now protocol rate (clib_net_to_host_u32 burst) pm in
    (pm, PUNT_OK).

(** What the dumps report: the sums of a protocol's counters over the threads, and the
    interfaces it is punted from. *)
Definition sum_u64 (l : list Z) : Z := foldl (λ a x, u64 (a + x)) 0 l.
Definition punt_stats (pm : osvbng_punt_main_t) (protocol : nat) : Z * Z * Z :=
  let total (f : osvbng_punt_per_thread_t → list Z) :=
    sum_u64 (map (λ pt, default 0 (f pt !! protocol)) (pm_per_thread pm)) in
  (total pt_punted, total pt_dropped, total pt_policed).

(** A line of the statistics, in the dump and on the command line: the protocol, its sums,
    its rate and its burst. *)
Definition vl_api_osvbng_punt_stats_dump (pm : osvbng_punt_main_t)
    : list (nat * (Z * Z * Z) * option f64 * option Z) :=
  map (λ i, (i, punt_stats pm i, pm_policer_rate pm !! i, pm_policer_burst pm !! i))
    (seq 0 (Z.to_nat OSVBNG_PUNT_N_PROTO)).

(** The interfaces of each protocol; the request's [sw_if_index] is not looked at. *)
Definition vl_api_osvbng_punt_registration_dump (pm : osvbng_punt_main_t) : list (Z * nat) :=
  concat (map (λ proto, map (λ sw, (sw, proto)) (elements (default ∅ (pm_enabled_interfaces pm !! proto))))
    (seq 0 (Z.to_nat OSVBNG_PUNT_N_PROTO))).

Record punt_capabilities := mkPuntCapabilities {
  pca_shm_version : Z; pca_supported_protocols : Z; pca_punt_ring_size : Z;
  pca_egress_ring_size : Z; pca_slot_size : Z
}.
(** The fields in network byte order, as the reply carries them. *)
Definition vl_api_osvbng_punt_capabilities_get (pm : osvbng_punt_main_t) : punt_capabilities :=
  let supported := foldl (λ s i, Z.lor s (Z.shiftl 1 i)) 0 (seqZ 0 OSVBNG_PUNT_N_PROTO) in
  mkPuntCapabilities (clib_net_to_host_u32 OSVBNG_SHM_VERSION) (clib_net_to_host_u32 supported)
    (clib_net_to_host_u32 (pm_punt_ring_size pm)) (clib_net_to_host_u32 (pm_egress_ring_size pm))
    (clib_net_to_host_u32 (pm_slot_size pm)).

(** * The command line

    A command's words, as [unformat] finds them. *)

Inductive punt_word :=
  | WDisable | WEnable
  | WProtocol (p : Z)                   (* "protocol dhcpv4" and so on *)
  | WInterface (sw_if_index : Z)
  | WRate (r : f64) | WBurst (b : Z)
  | WOther.

Inductive punt_cli_error := CliNoInterface | CliNoProtocol | CliNoRate | CliFailed (rv : punt_rv).

(** [osvbng punt]: the first word that is none of its own ends the parsing, and so does a
    second interface. *)
Fixpoint punt_parse (words : list punt_word) (enable : bool) (protocol : Z) (sw_if_index : option Z)
    : bool * Z * option Z :=
  match words with
  | WDisable :: words => punt_parse words false protocol sw_if_index
  | WEnable :: words => punt_parse words true protocol sw_if_index
  | WProtocol p :: words => punt_parse words enable p sw_if_index
  | WInterface sw :: words =>
      match sw_if_index with
      | None => punt_parse words enable protocol (Some sw)
      | Some _ => (enable, protocol, sw_if_index)
      end
  | _ => (enable, protocol, sw_if_index)
  end.

Definition osvbng_punt_enable_disable_command_fn (words : list punt_word) (pm : osvbng_punt_main_t)
    : osvbng_punt_main_t * option punt_cli_error :=
  let '(enable, protocol, sw_if_index) := punt_parse words true OSVBNG_PUNT_N_PROTO None in
  match sw_if_index with
  | None => (pm, Some CliNoInterface)
  | Some sw =>
      if protocol =? OSVBNG_PUNT_N_PROTO then (pm, Some CliNoProtocol)
      else
        let '(pm, rv) := osvbng_punt_enable_disable sw protocol enable pm in
        (pm, match rv with PUNT_OK => None | _ => Some (CliFailed rv) end)
  end.

(** [osvbng punt policer]. *)
Fixpoint policer_parse (words : list punt_word) (protocol : Z) (rate : f64) (burst : Z) : Z * f64 * Z :=
  match words with
  | WProtocol p :: words => policer_parse words p rate burst
  | WRate r :: words => policer_parse words protocol r burst
  | WBurst b :: words => policer_parse words protocol rate b
  | _ => (protocol, rate, burst)
  end.

Definition osvbng_punt_policer_command_fn (now : f64) (words : list punt_word) (pm : osvbng_punt_main_t)
    : osvbng_punt_main_t * option punt_cli_error :=
  let zero := f64_of_Z 0 in
  let '(protocol, rate, burst) := policer_parse words OSVBNG_PUNT_N_PROTO zero 0 in
  if protocol =? OSVBNG_PUNT_N_PROTO then (pm, Some CliNoProtocol)
  else if SpecFloat.SFeqb rate zero && (burst =? 0) then (pm, Some CliNoRate)
  else
    let rate := if SpecFloat.SFeqb rate zero
                then default zero (pm_policer_rate pm !! Z.to_nat protocol) else rate in
    (fst (osvbng_punt_policer_configure now protocol rate burst pm), None).

End Enable.
