(* ===== verification/PuntLayout.v ===== *)
(** Where things are in the shared memory, and what [osvbng_punt_shm_init] leaves there. *)

From S2P Require Import Prelude Packet PuntShm PuntConfig.

#[local] Open Scope Z_scope.

(** The size the region needs, without the wraps. *)
Definition shm_total (n prs ers slot : Z) : Z :=
  SIZEOF_SHM_HEADER + n * (SIZEOF_RING_HEADER + prs * SIZEOF_PUNT_DESC) + SIZEOF_RING_HEADER +
  ers * SIZEOF_EGRESS_DESC + n * prs * slot + ers * slot.

(** Sizes the code can work with: rings are powers of two, a slot's length fits a
    descriptor, and the region can be addressed. *)
Record sizes_ok (n prs ers slot : Z) : Prop := {
  so_threads : 0 < n;
  so_punt : exists k, 0 <= k /\ prs = 2 ^ k;
  so_egress : exists k, 0 <= k /\ ers = 2 ^ k;
  so_slot : 0 < slot < 2 ^ 16;
  so_total : shm_total n prs ers slot < 2 ^ 32
}.

Inductive shm_part :=
  | PartHeader
  | PartPuntRing (t : Z)
  | PartPuntDesc (t k : Z)
  | PartEgressRing
  | PartEgressDesc (k : Z)
  | PartPuntSlot (t k : Z)
  | PartEgressSlot (k : Z).

(** As the two sides compute it from the header. *)
Definition part_offset (h : osvbng_shm_header_t) (p : shm_part) : Z :=
  match p with
  | PartHeader => 0
  | PartPuntRing t => sh_punt_ring_offset h + t * sh_punt_ring_stride h
  | PartPuntDesc t k =>
      sh_punt_ring_offset h + t * sh_punt_ring_stride h + SIZEOF_RING_HEADER + k * SIZEOF_PUNT_DESC
  | PartEgressRing => sh_egress_ring_offset h
  | PartEgressDesc k => sh_egress_ring_offset h + SIZEOF_RING_HEADER + k * SIZEOF_EGRESS_DESC
  | PartPuntSlot t k =>
      sh_punt_data_offset h + t * sh_punt_ring_size h * sh_slot_size h + k * sh_slot_size h
  | PartEgressSlot k => sh_egress_data_offset h + k * sh_slot_size h
  end.

Definition part_size (h : osvbng_shm_header_t) (p : shm_part) : Z :=
  match p with
  | PartHeader => SIZEOF_SHM_HEADER
  | PartPuntRing _ | PartEgressRing => SIZEOF_RING_HEADER
  | PartPuntDesc _ _ => SIZEOF_PUNT_DESC
  | PartEgressDesc _ => SIZEOF_EGRESS_DESC
  | PartPuntSlot _ _ | PartEgressSlot _ => sh_slot_size h
  end.

Definition part_exists (h : osvbng_shm_header_t) (p : shm_part) : Prop :=
  match p with
  | PartHeader | PartEgressRing => True
  | PartPuntRing t => 0 <= t < sh_n_punt_rings h
  | PartPuntDesc t k | PartPuntSlot t k =>
      0 <= t < sh_n_punt_rings h /\ 0 <= k < sh_punt_ring_size h
  | PartEgressDesc k | PartEgressSlot k => 0 <= k < sh_egress_ring_size h
  end.

Section Layout.

Context (n prs ers slot : Z) (Hok : sizes_ok n prs ers slot).

Lemma sizes_pos : 0 < prs /\ 0 < ers.
Proof. destruct Hok as [_ (k & ? & ->) (j & ? & ->) _ _]. split; apply Z.pow_pos_nonneg; lia. Qed.

Lemma stride_eq : osvbng_punt_ring_stride prs = 64 + prs * 24.
Proof using Hok.
  pose proof sizes_pos. destruct Hok as [? _ _ ? Ht].
  unfold osvbng_punt_ring_stride, shm_total, SIZEOF_SHM_HEADER, SIZEOF_RING_HEADER,
    SIZEOF_PUNT_DESC, SIZEOF_EGRESS_DESC in *. apply u32_small. unfold is_u32. nia.
Qed.

(** The sums never wrap. *)
Lemma header_eq :
  let h := shm_header_init n prs ers slot (osvbng_punt_ring_stride prs) in
  h = mkShmHeader OSVBNG_SHM_MAGIC OSVBNG_SHM_VERSION 0 n prs (64 + prs * 24) 64
        (64 + n * (64 + prs * 24)) ers (64 + n * (64 + prs * 24) + 64 + ers * 12)
        (64 + n * (64 + prs * 24) + 64 + ers * 12 + n * prs * slot) slot /\
  osvbng_shm_calc_size n prs ers slot = shm_total n prs ers slot.
Proof using Hok.
  pose proof sizes_pos as [Hp He]. pose proof Hok as [Hn _ _ Hs Ht].
  unfold shm_header_init, osvbng_shm_calc_size. rewrite stride_eq.
  unfold shm_total, SIZEOF_SHM_HEADER, SIZEOF_RING_HEADER,
    SIZEOF_PUNT_DESC, SIZEOF_EGRESS_DESC in *.
  assert (0 <= n * (64 + prs * 24) /\ 0 <= n * prs /\ 0 <= n * prs * slot /\ 0 <= ers * slot /\
    n * prs <= n * prs * slot) as (A & B & C & D & E) by nia.
  rewrite (u32_small (n * (64 + prs * 24))), (u32_small (n * prs)), (u32_small (n * prs * slot)),
    (u32_small (ers * slot)) by (unfold is_u32; lia).
  set (r := n * (64 + prs * 24)) in *. set (q := n * prs * slot) in *.
  rewrite (u32_small (64 + r)), (u32_small (64 + r + 64)), (u32_small (64 + r + 64 + ers * 12)),
    (u32_small (64 + r + 64 + ers * 12 + q)), (u32_small (64 + r + 64 + ers * 12 + q + ers * slot))
    by (unfold is_u32; lia).
  split; [done|lia].
Qed.

(** Blocks of the same size in a row. *)
Lemma blocks_disjoint s i j : 0 <= s → i ≠ j → i * s + s <= j * s \/ j * s + s <= i * s.
Proof. intros ? ?. assert (i < j \/ j < i) as [?|?] by lia; [left|right]; nia. Qed.

Lemma block_in s i m : 0 <= s → 0 <= i < m → 0 <= i * s /\ i * s + s <= m * s.
Proof. intros ? ?. split; nia. Qed.

Lemma pair_index_inj t k t' k' : 0 <= k < prs → 0 <= k' < prs → t * prs + k = t' * prs + k' → t = t' /\ k = k'.
Proof. intros. assert (t = t') by nia. split; [done|lia]. Qed.

(** Where a part is, when it exists: the code's sums without wraps. *)
Notation hdr := (shm_header_init n prs ers slot (osvbng_punt_ring_stride prs)).

Lemma part_bounds p :
  part_exists hdr p →
  match p with
  | PartHeader => part_offset hdr p = 0
  | PartPuntRing t => part_offset hdr p = 64 + t * (64 + prs * 24)
  | PartPuntDesc t k => part_offset hdr p = 64 + t * (64 + prs * 24) + 64 + k * 24
  | PartEgressRing => part_offset hdr p = 64 + n * (64 + prs * 24)
  | PartEgressDesc k => part_offset hdr p = 64 + n * (64 + prs * 24) + 64 + k * 12
  | PartPuntSlot t k =>
      part_offset hdr p =
      64 + n * (64 + prs * 24) + 64 + ers * 12 + (t * prs + k) * slot
  | PartEgressSlot k =>
      part_offset hdr p =
      64 + n * (64 + prs * 24) + 64 + ers * 12 + n * prs * slot + k * slot
  end.
Proof using Hok.
  rewrite (proj1 header_eq). intros _. destruct p; cbn; unfold SIZEOF_RING_HEADER,
    SIZEOF_PUNT_DESC, SIZEOF_EGRESS_DESC; ring.
Qed.

(** The parts come in six zones, one after the other. *)
Definition zone (p : shm_part) : nat :=
  match p with
  | PartHeader => 0
  | PartPuntRing _ | PartPuntDesc _ _ => 1
  | PartEgressRing => 2
  | PartEgressDesc _ => 3
  | PartPuntSlot _ _ => 4
  | PartEgressSlot _ => 5
  end.

Definition zone_sizes : list Z :=
  [64; n * (64 + prs * 24); 64; ers * 12; n * prs * slot; ers * slot].
Definition zone_start (z : nat) : Z := zsum (take z zone_sizes).

Lemma zone_start_mono z z' : (z <= z')%nat → zone_start z <= zone_start z'.
Proof using Hok.
  intros Hz. unfold zone_start. rewrite <- (take_drop z (take z' zone_sizes)).
  rewrite take_take, Nat.min_l by done. rewrite zsum_app.
  assert (0 <= zsum (drop z (take z' zone_sizes))); [|lia].
  apply zsum_nonneg, Forall_drop, Forall_take.
  destruct Hok, sizes_pos. unfold zone_sizes. repeat constructor; nia.
Qed.

Lemma part_in_zone p :
  part_exists hdr p →
  zone_start (zone p) <= part_offset hdr p /\
  part_offset hdr p + part_size hdr p <= zone_start (S (zone p)).
Proof using Hok.
  intros Hp. pose proof (part_bounds p Hp) as Ho. revert Hp Ho.
  rewrite (proj1 header_eq). destruct sizes_pos, Hok.
  unfold zone_start, zone_sizes, zsum.
  destruct p; cbn -[Z.mul Z.add part_offset]; intros Hp ->;
    unfold SIZEOF_SHM_HEADER, SIZEOF_RING_HEADER, SIZEOF_PUNT_DESC, SIZEOF_EGRESS_DESC.
  - lia.
  - pose proof (block_in (64 + prs * 24) t n). lia.
  - pose proof (block_in (64 + prs * 24) t n). lia.
  - lia.
  - lia.
  - pose proof (block_in slot (t * prs + k) (n * prs)).
    pose proof (block_in prs t n). nia.
  - pose proof (block_in slot k ers). lia.
Qed.

Lemma same_zone_disjoint p q :
  part_exists hdr p → part_exists hdr q → p ≠ q → zone p = zone q →
  part_offset hdr p + part_size hdr p <= part_offset hdr q \/
  part_offset hdr q + part_size hdr q <= part_offset hdr p.
Proof using Hok.
  intros Hp Hq Hne Hz. pose proof (part_bounds p Hp) as Hop. pose proof (part_bounds q Hq) as Hoq.
  revert Hp Hq Hop Hoq. rewrite (proj1 header_eq). destruct sizes_pos, Hok.
  destruct p, q; try done; cbn -[Z.mul Z.add part_offset]; intros Hp Hq -> ->;
    unfold SIZEOF_SHM_HEADER, SIZEOF_RING_HEADER, SIZEOF_PUNT_DESC, SIZEOF_EGRESS_DESC.
  - pose proof (blocks_disjoint (64 + prs * 24) t t0). assert (t ≠ t0) by congruence. lia.
  - destruct (decide (t = t0)) as [->|]; [lia|]. pose proof (blocks_disjoint (64 + prs * 24) t t0). lia.
  - destruct (decide (t = t0)) as [->|]; [lia|]. pose proof (blocks_disjoint (64 + prs * 24) t t0). lia.
  - destruct (decide (t = t0)) as [->|].
    + assert (k ≠ k0) by congruence. lia.
    + pose proof (blocks_disjoint (64 + prs * 24) t t0). lia.
  - assert (k ≠ k0) by congruence. lia.
  - assert (t * prs + k ≠ t0 * prs + k0).
    { intros He. apply Hne. destruct (pair_index_inj t k t0 k0) as [-> ->]; (done || lia). }
    pose proof (blocks_disjoint slot (t * prs + k) (t0 * prs + k0)). lia.
  - assert (k ≠ k0) by congruence. pose proof (blocks_disjoint slot k k0). lia.
Qed.

Lemma parts_disjoint p q :
  part_exists hdr p → part_exists hdr q → p ≠ q →
  part_offset hdr p + part_size hdr p <= part_offset hdr q \/
  part_offset hdr q + part_size hdr q <= part_offset hdr p.
Proof using Hok.
  intros Hp Hq Hne. destruct (part_in_zone p Hp), (part_in_zone q Hq).
  assert (zone p = zone q \/ (S (zone p) <= zone q)%nat \/ (S (zone q) <= zone p)%nat)
    as [Hz|[Hz|Hz]] by lia.
  - by apply same_zone_disjoint.
  - left. pose proof (zone_start_mono _ _ Hz). lia.
  - right. pose proof (zone_start_mono _ _ Hz). lia.
Qed.

Lemma part_in_region p :
  part_exists hdr p →
  0 <= part_offset hdr p /\
  part_offset hdr p + part_size hdr p <= osvbng_shm_calc_size n prs ers slot.
Proof using Hok.
  intros Hp. destruct (part_in_zone p Hp) as [H1 H2]. rewrite (proj2 header_eq).
  assert (0 <= zone p /\ S (zone p) <= 6)%nat as [Hz1 Hz2] by (destruct p; simpl; lia).
  pose proof (zone_start_mono _ _ Hz1) as H3. pose proof (zone_start_mono _ _ Hz2) as H4.
  change (zone_start 0) with 0 in H3.
  assert (zone_start 6 = shm_total n prs ers slot) as H5; [|lia].
  unfold zone_start, zone_sizes, zsum, shm_total, SIZEOF_SHM_HEADER, SIZEOF_RING_HEADER,
    SIZEOF_PUNT_DESC, SIZEOF_EGRESS_DESC. cbn -[Z.mul Z.add]. lia.
Qed.

End Layout.

(** * After start-up *)

Definition pm_header (pm : osvbng_punt_main_t) : osvbng_shm_header_t :=
  shm_header_init (pm_n_punt_rings pm) (pm_punt_ring_size pm) (pm_egress_ring_size pm)
    (pm_slot_size pm) (osvbng_punt_ring_stride (pm_punt_ring_size pm)).

Definition pm_sizes_ok (pm : osvbng_punt_main_t) : Prop :=
  sizes_ok (pm_n_punt_rings pm) (pm_punt_ring_size pm) (pm_egress_ring_size pm) (pm_slot_size pm).

(** A thread's buckets and counters, one per protocol. *)
Definition buckets_ok (pt : osvbng_punt_per_thread_t) : Prop :=
  Forall (λ n, n = 8%nat)
    [length (pt_rate pt); length (pt_burst pt); length (pt_tokens pt); length (pt_last_update pt)].

(** A thread's part of the region. *)
Record thread_ok (pm : osvbng_punt_main_t) (t : nat) (pt : osvbng_punt_per_thread_t) : Prop := {
  to_data : pt_data pt = part_offset (pm_header pm) (PartPuntSlot (Z.of_nat t) 0);
  to_descs : length (pt_descs pt) = Z.to_nat (pm_punt_ring_size pm);
  to_buckets : buckets_ok pt
}.

Record region_ok (pm : osvbng_punt_main_t) : Prop := {
  ro_init : pm_shm_initialized pm = true;
  ro_sizes : pm_sizes_ok pm;
  ro_shm : pm_shm pm = Some (pm_header pm);
  ro_threads : Z.of_nat (length (pm_per_thread pm)) = pm_n_punt_rings pm;
  ro_thread t pt : pm_per_thread pm !! t = Some pt → thread_ok pm t pt;
  ro_egress : length (pm_egress_descs pm) = Z.to_nat (pm_egress_ring_size pm)
}.

(** Rates and bursts are configured for every protocol. *)
Definition rates_ok (pm : osvbng_punt_main_t) : Prop :=
  length (pm_policer_rate pm) = 8%nat /\ length (pm_policer_burst pm) = 8%nat.

Lemma default_sizes_ok n : 0 < n <= 504 →
  sizes_ok n OSVBNG_SHM_DEFAULT_PUNT_RING_SIZE OSVBNG_SHM_DEFAULT_EGRESS_RING_SIZE
    OSVBNG_SHM_DEFAULT_SLOT_SIZE.
Proof.
  intros Hn. split; [lia|by exists 12|by exists 12|done|].
  unfold shm_total, SIZEOF_SHM_HEADER, SIZEOF_RING_HEADER, SIZEOF_PUNT_DESC, SIZEOF_EGRESS_DESC,
    OSVBNG_SHM_DEFAULT_PUNT_RING_SIZE, OSVBNG_SHM_DEFAULT_EGRESS_RING_SIZE,
    OSVBNG_SHM_DEFAULT_SLOT_SIZE. lia.
Qed.

Section Boot.

Context (n : Z) (os : shm_os).

(** What [osvbng_punt_shm_init] sets when it succeeds, from the sizes it settles on. *)
Lemma shm_init_ok pm pm' :
  osvbng_punt_shm_init n os pm = (pm', true) →
  pm_sizes_ok pm' →
  pm_n_punt_rings pm' = n /\ pm_shm_initialized pm' = true /\ pm_shm pm' = Some (pm_header pm') /\
  pm_shm_size pm' = osvbng_shm_calc_size n (pm_punt_ring_size pm') (pm_egress_ring_size pm')
                      (pm_slot_size pm') /\
  pm_per_thread pm' =
    map (λ t, punt_per_thread_init (pm_punt_ring_size pm')
                (part_offset (pm_header pm') (PartPuntSlot t 0))) (seqZ 0 n) /\
  pm_egress_descs pm' = replicate (Z.to_nat (pm_egress_ring_size pm')) (mkEgressDesc 0 0 0) /\
  pm_egress_ring pm' = mkRing 0 0 0 /\
  pm_policer_rate pm' = pm_policer_rate pm /\ pm_policer_burst pm' = pm_policer_burst pm /\
  pm_punt_event pm' = 0.
Proof.
  unfold osvbng_punt_shm_init. destruct os as [[fd|] [] [] [pfd|] [efd|]]; try by intros [= _].
  cbn [os_open os_ftruncate os_mmap os_punt_eventfd os_egress_eventfd negb].
  cbv zeta.
  generalize (if pm_punt_ring_size pm =? 0 then OSVBNG_SHM_DEFAULT_PUNT_RING_SIZE
              else pm_punt_ring_size pm) as prs.
  generalize (if pm_egress_ring_size pm =? 0 then OSVBNG_SHM_DEFAULT_EGRESS_RING_SIZE
              else pm_egress_ring_size pm) as ers.
  generalize (if pm_slot_size pm =? 0 then OSVBNG_SHM_DEFAULT_SLOT_SIZE
              else pm_slot_size pm) as slot.
  intros slot ers prs [= <-] _. set (hdr := shm_header_init n prs ers slot (osvbng_punt_ring_stride prs)).
  split_and!; try reflexivity. apply map_ext. intros t.
  change (punt_per_thread_init prs (sh_punt_data_offset hdr + t * prs * slot) =
          punt_per_thread_init prs (part_offset hdr (PartPuntSlot t 0))).
  f_equal. unfold part_offset, hdr. cbn. ring.
Qed.

Lemma policer_apply_1_ok rates bursts m now pt :
  length rates = 8%nat → length bursts = 8%nat →
  buckets_ok (punt_policer_apply_1 rates bursts m now pt).
Proof.
  intros Hr Hb. unfold buckets_ok, punt_policer_apply_1. rproj. rewrite !length_map, Hr, Hb.
  by repeat constructor.
Qed.

(** What the steps after [osvbng_punt_shm_init] leave alone. *)
Definition shm_facts (pm : osvbng_punt_main_t) :=
  (pm_n_punt_rings pm, pm_punt_ring_size pm, pm_egress_ring_size pm, pm_slot_size pm,
   pm_shm_initialized pm, pm_shm pm, pm_shm_size pm, pm_egress_descs pm, pm_egress_ring pm).

Lemma loop_enter_inv listen file now pm pm' :
  osvbng_punt_main_loop_enter n os listen file now pm = (pm', true) →
  exists pm1, osvbng_punt_shm_init n os pm = (pm1, true) /\ shm_facts pm' = shm_facts pm1 /\
    pm_per_thread pm' =
      map (punt_policer_apply_1 (pm_policer_rate pm1) (pm_policer_burst pm1)
             (Z.of_nat (length (pm_per_thread pm1))) now) (pm_per_thread pm1) /\
    pm_egress_tail pm' = 0.
Proof.
  unfold osvbng_punt_main_loop_enter.
  destruct (osvbng_punt_shm_init n os pm) as [pm1 []]; [|by intros [= _]]. cbn [negb].
  unfold osvbng_punt_eventfd_socket_init. destruct (pm_shm_initialized pm1); [|by intros [= _]].
  destruct listen as [[lfd lfile]|]; [|by intros [= _]]. cbn [negb].
  unfold osvbng_punt_egress_init. destruct (_ || _); [by intros [= _]|]. cbn [negb].
  intros [= <-]. exists pm1. split_and!; reflexivity.
Qed.

(** Start-up leaves a good region with empty rings. *)
Lemma loop_enter_ok listen file now pm pm' :
  osvbng_punt_main_loop_enter n os listen file now pm = (pm', true) →
  rates_ok pm → pm_sizes_ok pm' →
  region_ok pm' /\ Forall (λ pt, pt_ring pt = mkRing 0 0 0) (pm_per_thread pm') /\
  pm_egress_ring pm' = mkRing 0 0 0 /\ pm_egress_tail pm' = 0 /\
  pm_shm_size pm' = shm_total n (pm_punt_ring_size pm') (pm_egress_ring_size pm') (pm_slot_size pm') /\
  pm_n_punt_rings pm' = n.
Proof.
  intros (pm1 & E1 & Hf & Ht' & Htail)%loop_enter_inv [Hr Hb] Hs.
  unfold shm_facts in Hf. injection Hf as F1 F2 F3 F4 F5 F6 F7 F8 F9.
  assert (pm_sizes_ok pm1) as Hs1 by (unfold pm_sizes_ok in *; congruence).
  assert (pm_header pm' = pm_header pm1) as Hhdr by (unfold pm_header; congruence).
  destruct (shm_init_ok pm pm1 E1 Hs1) as (Hn & Hi & Hh & Hsz & Ht & He & Hring & Hrate & Hburst & _).
  rewrite Ht, map_map in Ht'. split_and!; try congruence.
  - split; try congruence.
    + rewrite Ht', length_map, length_seqZ. pose proof (so_threads _ _ _ _ Hs1). lia.
    + intros t pt. rewrite Ht'. intros (i & -> & [-> Hi']%lookup_seqZ)%list_lookup_fmap_Some.
      split.
      * by rewrite Hhdr.
      * unfold punt_policer_apply_1, punt_per_thread_init. rproj. cbn [pt_descs].
        rewrite length_replicate. congruence.
      * apply policer_apply_1_ok; congruence.
    + rewrite F8, He, length_replicate. congruence.
  - rewrite Ht'. apply List.Forall_map, List.Forall_forall. intros t _. reflexivity.
  - unfold pm_sizes_ok in Hs. rewrite F1, Hn in Hs. rewrite F7, Hsz, F2, F3, F4.
    rewrite F2, F3, F4 in Hs. by apply header_eq.
Qed.

End Boot.

(** C38. The layout of the shared memory: after start-up the header, every thread's ring
    header and descriptors, the egress ring and its descriptors, and every data slot of
    both directions lie inside the mapped region and no two of them overlap; a thread's
    data pointer is where the header says its slots are. *)
Theorem shm_parts_disjoint n os listen file now pm pm' :
  osvbng_punt_main_loop_enter n os listen file now pm = (pm', true) →
  rates_ok pm → pm_sizes_ok pm' →
  exists h, pm_shm pm' = Some h /\
    (∀ p, part_exists h p →
       0 <= part_offset h p /\ part_offset h p + part_size h p <= pm_shm_size pm') /\
    (∀ p q, part_exists h p → part_exists h q → p ≠ q →
       part_offset h p + part_size h p <= part_offset h q \/
       part_offset h q + part_size h q <= part_offset h p) /\
    (∀ t pt k, pm_per_thread pm' !! t = Some pt → 0 <= k < pm_punt_ring_size pm' →
       part_exists h (PartPuntSlot (Z.of_nat t) k) /\
       pt_data pt + k * pm_slot_size pm' = part_offset h (PartPuntSlot (Z.of_nat t) k)).
Proof.
  intros Hb Hr Hs. destruct (loop_enter_ok _ _ _ _ _ _ _ Hb Hr Hs) as (Hok & _ & _ & _ & Hsz & Hn).
  exists (pm_header pm'). split_and!.
  - apply Hok.
  - intros p Hp. destruct (part_in_region _ _ _ _ Hs p Hp) as [? Hle]. split; [done|].
    rewrite Hsz, <- Hn, <- (proj2 (header_eq _ _ _ _ Hs)). exact Hle.
  - intros p q. by apply parts_disjoint.
  - intros t pt k Ht Hk. destruct (ro_thread _ Hok _ _ Ht) as [Hd _ _].
    apply lookup_lt_Some in Ht. rewrite Hd. pose proof (ro_threads _ Hok).
    unfold pm_header. rewrite (proj1 (header_eq _ _ _ _ Hs)). unfold part_exists, part_offset.
    cbn -[Z.mul Z.add]. split_and!; (lia || ring).
Qed.

(** The plugin as it starts with two workers. *)
Definition sample_os : shm_os := mkShmOs (Some 3) true true (Some 4) (Some 5).
Definition sample_boot (n : Z) : osvbng_punt_main_t :=
  fst (osvbng_punt_main_loop_enter n sample_os (Some (6, 0)) 1 (f64_of_Z 0)
    (fst (osvbng_punt_init punt_main_zero))).

Lemma succeeds {A} (x : A * bool) : snd x = true → x = (fst x, true).
Proof. destruct x as [y b]. simpl. by intros ->. Qed.

Lemma sample_boot_eq :
  osvbng_punt_main_loop_enter 3 sample_os (Some (6, 0)) 1 (f64_of_Z 0)
    (fst (osvbng_punt_init punt_main_zero)) = (sample_boot 3, true).
Proof. unfold sample_boot. apply (succeeds (osvbng_punt_main_loop_enter _ _ _ _ _ _)). by vm_compute. Qed.

Lemma sample_boot_sizes : pm_sizes_ok (sample_boot 3).
Proof.
  unfold pm_sizes_ok.
  assert (pm_n_punt_rings (sample_boot 3) = 3) as -> by (vm_compute; reflexivity).
  assert (pm_punt_ring_size (sample_boot 3) = OSVBNG_SHM_DEFAULT_PUNT_RING_SIZE) as ->
    by (vm_compute; reflexivity).
  assert (pm_egress_ring_size (sample_boot 3) = OSVBNG_SHM_DEFAULT_EGRESS_RING_SIZE) as ->
    by (vm_compute; reflexivity).
  assert (pm_slot_size (sample_boot 3) = OSVBNG_SHM_DEFAULT_SLOT_SIZE) as ->
    by (vm_compute; reflexivity).
  apply default_sizes_ok. lia.
Qed.

Lemma shm_parts_disjoint_witness :
  exists h, pm_shm (sample_boot 3) = Some h /\
    (∀ p, part_exists h p →
       0 <= part_offset h p /\ part_offset h p + part_size h p <= pm_shm_size (sample_boot 3)) /\
    (∀ p q, part_exists h p → part_exists h q → p ≠ q →
       part_offset h p + part_size h p <= part_offset h q \/
       part_offset h q + part_size h q <= part_offset h p) /\
    (∀ t pt k, pm_per_thread (sample_boot 3) !! t = Some pt →
       0 <= k < pm_punt_ring_size (sample_boot 3) →
       part_exists h (PartPuntSlot (Z.of_nat t) k) /\
       pt_data pt + k * pm_slot_size (sample_boot 3) = part_offset h (PartPuntSlot (Z.of_nat t) k)).
Proof.
  apply (shm_parts_disjoint 3 sample_os (Some (6, 0)) 1 (f64_of_Z 0)
           (fst (osvbng_punt_init punt_main_zero))).
  - exact sample_boot_eq.
  - by split.
  - exact sample_boot_sizes.
Defined.
