(* ===== verification/PuntRing.v ===== *)
(** The punt rings as a concurrent system: every VPP thread punts into its own ring, step
    by step as [osvbng_punt_to_shm] does, while the daemon reads all of them.

    An operation is one step of a thread's call or of the daemon, so that a list of
    operations is an interleaving.  The daemon keeps a cursor for each ring: it reads the
    entry there, and stores the cursor as the new tail some time later, as the ring's
    protocol allows it to.  The rings refine a queue per thread: what a thread's calls
    have accepted is what the daemon has read, followed by what the ring holds. *)

From S2P Require Import Prelude Packet PuntShm PuntConfig PuntLayout.

#[local] Open Scope Z_scope.

(** * The system *)

(** A punted packet, as the daemon is to see it. *)
Record punt_entry := mkPuntEntry {
  pe_sw_if_index : Z;
  pe_protocol : Z;
  pe_outer_vlan : Z;
  pe_inner_vlan : Z;
  pe_timestamp : Z;
  pe_frame : list Z
}.

(** A call of [osvbng_punt_to_shm]. *)
Record punt_job := mkJob {
  jb_now : f64;
  jb_buffer : vlib_buffer_t;
  jb_sw_if_index : Z;
  jb_protocol : Z;
  jb_outer_vlan : Z;
  jb_inner_vlan : Z
}.

(** The packet's bytes, cut to the size of a slot. *)
Definition job_frame (slot_size : Z) (j : punt_job) : list Z :=
  let b := jb_buffer j in
  bytes (b_data b) (b_current_data b) (Z.to_nat (Z.min (b_current_length b) slot_size)).
Definition job_entry (slot_size : Z) (j : punt_job) : punt_entry :=
  mkPuntEntry (jb_sw_if_index j) (jb_protocol j) (jb_outer_vlan j) (jb_inner_vlan j)
    (f64_to_u64 (f64_mul (jb_now j) (f64_of_Z 1000000000))) (job_frame slot_size j).

(** What a descriptor says is in the memory. *)
Definition read_entry (mem : Z → Z) (d : osvbng_punt_desc_t) : punt_entry :=
  mkPuntEntry (pd_sw_if_index d) (pd_protocol d) (pd_outer_vlan d) (pd_inner_vlan d)
    (pd_timestamp d) (bytes mem (pd_data_offset d) (Z.to_nat (pd_data_length d))).

(** Where a thread is in its call. *)
Inductive punt_pc :=
  | PuntIdle
  | PuntReserved (j : punt_job) (head : Z)
  | PuntFilled (j : punt_job) (head : Z)
  | PuntPublished (j : punt_job).

Record punt_sys := mkPuntSys {
  ps_main : osvbng_punt_main_t;
  ps_pc : list punt_pc;
  ps_cursor : list Z
}.

Inductive punt_op :=
  | OpCall (t : nat) (j : punt_job)   (* an idle thread's call, up to the loads *)
  | OpStep (t : nat)                  (* the thread's next step *)
  | OpRead (t : nat)                  (* the daemon reads the entry at its cursor *)
  | OpRelease (t : nat)               (* the daemon stores the tail *)
  | OpClear (t : nat).                (* the daemon clears the interrupt flag *)

Inductive punt_event :=
  | Accepted (t : nat) (e : punt_entry)
  | Delivered (t : nat) (e : punt_entry).

Definition punt_start (pm : osvbng_punt_main_t) : punt_sys :=
  let n := length (pm_per_thread pm) in mkPuntSys pm (replicate n PuntIdle) (replicate n 0).

Definition set_pc (t : nat) (pc : punt_pc) (pm : osvbng_punt_main_t) (s : punt_sys) : punt_sys :=
  mkPuntSys pm (<[t := pc]> (ps_pc s)) (ps_cursor s).

Definition daemon_ring (t : nat) (f : osvbng_ring_header_t → osvbng_ring_header_t)
    (pm : osvbng_punt_main_t) : option osvbng_punt_main_t :=
  pt ← pm_per_thread pm !! t;
  Some (set_pt t pm (pt⟪pt_ring ::= f⟫)).

(** [None]: the step touches memory outside of the ring it works on. *)
Definition punt_step (op : punt_op) (s : punt_sys) : option (punt_sys * list punt_event) :=
  let pm := ps_main s in
  match op with
  | OpCall t j =>
      pc ← ps_pc s !! t;
      match pc with
      | PuntIdle =>
          if negb (pm_shm_initialized pm) then Some (s, [])
          else
            '(pm, reserved) ← punt_reserve t (jb_now j) (jb_protocol j) pm;
            Some (set_pc t (match reserved with
                            | Some head => PuntReserved j head
                            | None => PuntIdle
                            end) pm s, [])
      | _ => Some (s, [])
      end
  | OpStep t =>
      pc ← ps_pc s !! t;
      match pc with
      | PuntIdle => Some (s, [])
      | PuntReserved j head =>
          pm ← punt_fill t (jb_now j) (jb_buffer j) (jb_sw_if_index j) (jb_protocol j)
                 (jb_outer_vlan j) (jb_inner_vlan j) head pm;
          Some (set_pc t (PuntFilled j head) pm s, [])
      | PuntFilled j head =>
          pm ← punt_publish t head pm;
          Some (set_pc t (PuntPublished j) pm s,
                [Accepted t (job_entry (pm_slot_size pm) j)])
      | PuntPublished j =>
          pm ← punt_signal t (jb_protocol j) pm;
          Some (set_pc t PuntIdle pm s, [])
      end
  | OpRead t =>
      pt ← pm_per_thread pm !! t;
      c ← ps_cursor s !! t;
      if c =? rg_head (pt_ring pt) then Some (s, [])
      else
        d ← pt_descs pt !! Z.to_nat (Z.land c (OSVBNG_RING_MASK (pm_punt_ring_size pm)));
        Some (mkPuntSys pm (ps_pc s) (<[t := u64 (c + 1)]> (ps_cursor s)),
              [Delivered t (read_entry (pm_shm_data pm) d)])
  | OpRelease t =>
      c ← ps_cursor s !! t;
      pm ← daemon_ring t (λ r, r⟪rg_tail := c⟫) pm;
      Some (mkPuntSys pm (ps_pc s) (ps_cursor s), [])
  | OpClear t =>
      pm ← daemon_ring t (λ r, r⟪rg_interrupt_pending := 0⟫) pm;
      Some (mkPuntSys pm (ps_pc s) (ps_cursor s), [])
  end.

Fixpoint punt_run (ops : list punt_op) (s : punt_sys) : option (punt_sys * list punt_event) :=
  match ops with
  | [] => Some (s, [])
  | op :: ops =>
      '(s, evs) ← punt_step op s;
      '(s, evs') ← punt_run ops s;
      Some (s, evs ++ evs')
  end.

(** ** What to observe *)

Definition accepted (t : nat) (evs : list punt_event) : list punt_entry :=
  omap (λ ev, match ev with Accepted t' e => if decide (t' = t) then Some e else None | _ => None end) evs.
Definition delivered (t : nat) (evs : list punt_event) : list punt_entry :=
  omap (λ ev, match ev with Delivered t' e => if decide (t' = t) then Some e else None | _ => None end) evs.

(** The entries a ring holds from the daemon's cursor on. *)
Definition ring_contents (s : punt_sys) (t : nat) : option (list punt_entry) :=
  pt ← pm_per_thread (ps_main s) !! t;
  c ← ps_cursor s !! t;
  mapM (λ k, read_entry (pm_shm_data (ps_main s)) <$>
             pt_descs pt !! Z.to_nat (Z.land (u64 (c + k))
                                        (OSVBNG_RING_MASK (pm_punt_ring_size (ps_main s)))))
    (seqZ 0 (u64 (rg_head (pt_ring pt) - c))).

(** Operations of threads that exist, on protocols and packets that exist. *)
Definition job_ok (j : punt_job) : Prop :=
  0 <= jb_protocol j < OSVBNG_PUNT_N_PROTO /\ is_u16 (b_current_length (jb_buffer j)).
Definition op_ok (n : Z) (op : punt_op) : Prop :=
  match op with
  | OpCall t j => Z.of_nat t < n /\ job_ok j
  | OpStep t | OpRead t | OpRelease t | OpClear t => Z.of_nat t < n
  end.

(** * Counting modulo 2^64 *)

Lemma u64_diff a b : 0 <= a - b < 2 ^ 64 → u64 (u64 a - u64 b) = a - b.
Proof. intros. ints. Qed.

Lemma u64_same a b : 0 <= a - b < 2 ^ 64 → u64 a = u64 b → a = b.
Proof. intros. ints. Qed.

Lemma u64_succ a : u64 (u64 a + 1) = u64 (a + 1).
Proof. ints. Qed.

(** The index a counter stands for, also after the counter has wrapped. *)
Lemma ring_index a k :
  0 <= k <= 32 → Z.land (u64 a) (OSVBNG_RING_MASK (2 ^ k)) = a mod 2 ^ k.
Proof.
  intros Hk. unfold OSVBNG_RING_MASK.
  assert (0 < 2 ^ k <= 2 ^ 32) by (split; [lia|apply Z.pow_le_mono_r; lia]).
  rewrite u32_small, land_ones_mod by (unfold is_u32; lia). unfold u64.
  replace 64 with (k + (64 - k)) by lia. rewrite Z.pow_add_r by lia.
  symmetry. apply Znumtheory.Zmod_div_mod; [lia| |by exists (2 ^ (64 - k)); ring].
  apply Z.mul_pos_pos; [lia|]. apply Z.pow_pos_nonneg; lia.
Qed.

(** Entries less than a ring's size apart are in different slots. *)
Lemma index_neq size a b : a < b < a + size → a mod size ≠ b mod size.
Proof.
  intros Hab He. assert (0 < size) by lia.
  pose proof (Z.div_mod a size). pose proof (Z.div_mod b size).
  assert (b - a = size * (b / size - a / size)) by lia.
  assert (0 < b / size - a / size < 1) by nia. lia.
Qed.

(** * A thread's ring *)

(** [pt] agrees with [pt'] on the ring. *)
Definition same_ring (pt pt' : osvbng_punt_per_thread_t) : Prop :=
  pt_ring pt = pt_ring pt' /\ pt_descs pt = pt_descs pt' /\ pt_data pt = pt_data pt'.

(** Entry number [k] is in its slot. *)
Definition slot_holds (prs slot : Z) (mem : Z → Z) (pt : osvbng_punt_per_thread_t) (k : Z)
    (e : punt_entry) : Prop :=
  exists d, pt_descs pt !! Z.to_nat (k mod prs) = Some d /\
    pd_data_offset d = pt_data pt + k mod prs * slot /\ 0 <= pd_data_length d <= slot /\
    read_entry mem d = e.

(** A ring whose calls have accepted [acc], of which the daemon has read [nd] and given
    back [nt]. *)
Record ring_inv (prs slot : Z) (mem : Z → Z) (pt : osvbng_punt_per_thread_t) (pc : punt_pc)
    (c : Z) (acc : list punt_entry) (nd nt : Z) : Prop := {
  ri_head : rg_head (pt_ring pt) = u64 (Z.of_nat (length acc));
  ri_tail : rg_tail (pt_ring pt) = u64 nt;
  ri_cursor : c = u64 nd;
  ri_order : 0 <= nt <= nd /\ nd <= Z.of_nat (length acc) <= nt + prs;
  ri_holds k e : nt <= k → acc !! Z.to_nat k = Some e → slot_holds prs slot mem pt k e;
  ri_pc : match pc with
          | PuntIdle | PuntPublished _ => True
          | PuntReserved j head =>
              job_ok j /\ head = rg_head (pt_ring pt) /\ Z.of_nat (length acc) < nt + prs
          | PuntFilled j head =>
              job_ok j /\ head = rg_head (pt_ring pt) /\ Z.of_nat (length acc) < nt + prs /\
              slot_holds prs slot mem pt (Z.of_nat (length acc)) (job_entry slot j)
          end
}.

Lemma slot_holds_frame prs slot mem mem' pt pt' k e :
  0 < prs → same_ring pt pt' →
  (∀ p, pt_data pt + k mod prs * slot <= p < pt_data pt + k mod prs * slot + slot → mem' p = mem p) →
  slot_holds prs slot mem pt k e → slot_holds prs slot mem' pt' k e.
Proof.
  intros Hp (_ & Hd & Ha) Hm (d & Hk & Ho & Hl & <-). exists d. rewrite <- Hd, <- Ha.
  split_and!; try done; try lia. unfold read_entry. f_equal. apply bytes_ext.
  intros p Hpp. apply Hm. lia.
Qed.

(** Within a thread's area. *)
Lemma slot_in_area prs slot k : 0 < prs → 0 <= slot →
  0 <= k mod prs * slot /\ k mod prs * slot + slot <= prs * slot.
Proof. intros Hp Hs. pose proof (Z.mod_pos_bound k prs Hp). nia. Qed.

Lemma ring_inv_frame prs slot mem mem' pt pt' pc c acc nd nt :
  0 < prs → 0 <= slot → same_ring pt pt' →
  (∀ p, pt_data pt <= p < pt_data pt + prs * slot → mem' p = mem p) →
  ring_inv prs slot mem pt pc c acc nd nt → ring_inv prs slot mem' pt' pc c acc nd nt.
Proof.
  intros Hp Hs Hr Hm [R1 R2 R3 R4 R5 R6].
  assert (∀ k e, slot_holds prs slot mem pt k e → slot_holds prs slot mem' pt' k e) as Hh.
  { intros k e. apply slot_holds_frame; [done..|]. intros p Hpp. apply Hm.
    pose proof (slot_in_area prs slot k Hp Hs). lia. }
  destruct Hr as (Hr & _ & _). split; rewrite <- ?Hr; auto. destruct pc; auto.
  destruct R6 as (? & ? & ? & ?). auto.
Qed.

(** * The policer *)

Lemma buckets_lookup pt p :
  buckets_ok pt → 0 <= p < 8 →
  exists r b k l, pt_rate pt !! Z.to_nat p = Some r /\ pt_burst pt !! Z.to_nat p = Some b /\
    pt_tokens pt !! Z.to_nat p = Some k /\ pt_last_update pt !! Z.to_nat p = Some l.
Proof.
  unfold buckets_ok. rewrite !Forall_cons. intros (H1 & H2 & H3 & H4 & _) Hp.
  destruct (lookup_lt_is_Some_2 (pt_rate pt) (Z.to_nat p)) as [r ?]; [lia|].
  destruct (lookup_lt_is_Some_2 (pt_burst pt) (Z.to_nat p)) as [b ?]; [lia|].
  destruct (lookup_lt_is_Some_2 (pt_tokens pt) (Z.to_nat p)) as [k ?]; [lia|].
  destruct (lookup_lt_is_Some_2 (pt_last_update pt) (Z.to_nat p)) as [l ?]; [lia|].
  by exists r, b, k, l.
Qed.

Lemma policer_allow_ok pt now p :
  buckets_ok pt → 0 <= p < 8 →
  exists pt' ok, osvbng_punt_policer_allow pt now p = Some (pt', ok) /\ same_ring pt pt' /\
    buckets_ok pt'.
Proof.
  intros Hb Hp. destruct (buckets_lookup pt p Hb Hp) as (r & b & k & l & Hr & Hbu & Hk & Hl).
  unfold osvbng_punt_policer_allow. cbv zeta. rewrite Hr, Hbu, Hk, Hl. cbn [mbind option_bind].
  destruct (SpecFloat.SFeqb _ _); [by eexists _, _|]. destruct (SpecFloat.SFleb _ _).
  all: eexists _, _; split; [reflexivity|]; split; [done|].
  all: unfold buckets_ok in *; rproj; rewrite !length_insert; exact Hb.
Qed.

(** * The system's invariant *)

Record sys_inv (s : punt_sys) (evs : list punt_event) : Prop := {
  si_region : region_ok (ps_main s);
  si_pcs : length (ps_pc s) = length (pm_per_thread (ps_main s));
  si_cursors : length (ps_cursor s) = length (pm_per_thread (ps_main s));
  si_ring t pt pc c :
    pm_per_thread (ps_main s) !! t = Some pt → ps_pc s !! t = Some pc → ps_cursor s !! t = Some c →
    exists nd nt,
      delivered t evs = take (Z.to_nat nd) (accepted t evs) /\
      ring_inv (pm_punt_ring_size (ps_main s)) (pm_slot_size (ps_main s))
        (pm_shm_data (ps_main s)) pt pc c (accepted t evs) nd nt
}.

(** What no step of a punt or of the daemon changes. *)
Definition geometry (pm : osvbng_punt_main_t) :=
  (pm_n_punt_rings pm, pm_punt_ring_size pm, pm_egress_ring_size pm, pm_slot_size pm,
   pm_shm_initialized pm, pm_shm pm, pm_egress_descs pm).

Lemma accepted_app t evs evs' : accepted t (evs ++ evs') = accepted t evs ++ accepted t evs'.
Proof. apply omap_app. Qed.
Lemma delivered_app t evs evs' : delivered t (evs ++ evs') = delivered t evs ++ delivered t evs'.
Proof. apply omap_app. Qed.

(** The thread an event is of. *)
Definition event_thread (ev : punt_event) : nat :=
  match ev with Accepted t _ | Delivered t _ => t end.

Lemma other_events t t' evs :
  Forall (λ ev, event_thread ev = t) evs → t' ≠ t → accepted t' evs = [] /\ delivered t' evs = [].
Proof.
  intros H Hne. induction H as [|ev evs Hev _ [IH1 IH2]]; [done|].
  destruct ev as [u e|u e]; simpl in Hev |- *; subst u; rewrite decide_False by congruence; done.
Qed.

(** The areas of two threads do not meet. *)
Definition own_area (pm : osvbng_punt_main_t) (pt : osvbng_punt_per_thread_t) (p : Z) : Prop :=
  pt_data pt <= p < pt_data pt + pm_punt_ring_size pm * pm_slot_size pm.

Lemma region_positive pm : region_ok pm →
  (exists k, 0 <= k <= 32 /\ pm_punt_ring_size pm = 2 ^ k) /\
  0 < pm_punt_ring_size pm < 2 ^ 32 /\ 0 < pm_slot_size pm < 2 ^ 16.
Proof.
  intros [_ Hs _ _ _ _]. pose proof (sizes_pos _ _ _ _ Hs) as [Hp He].
  destruct Hs as [Hn (k & Hk & Hkp) _ Hsl Ht].
  unfold shm_total, SIZEOF_SHM_HEADER, SIZEOF_RING_HEADER, SIZEOF_PUNT_DESC, SIZEOF_EGRESS_DESC in Ht.
  assert (pm_punt_ring_size pm < 2 ^ 32) by nia. split_and!; try lia.
  exists k. split; [|done]. split; [done|]. destruct (decide (k <= 32)); [done|].
  assert (2 ^ 32 < 2 ^ k) by (apply Z.pow_lt_mono_r; lia). lia.
Qed.

Lemma areas_disjoint pm t t' pt pt' p :
  region_ok pm → pm_per_thread pm !! t = Some pt → pm_per_thread pm !! t' = Some pt' → t ≠ t' →
  own_area pm pt p → own_area pm pt' p → False.
Proof.
  intros Hok Ht Ht' Hne. pose proof (region_positive pm Hok) as (_ & Hp & Hs).
  destruct (ro_thread _ Hok _ _ Ht) as [Hd _ _]. destruct (ro_thread _ Hok _ _ Ht') as [Hd' _ _].
  unfold own_area, part_offset in *. rewrite Hd, Hd'. cbn -[Z.mul Z.add].
  set (prs := pm_punt_ring_size pm) in *. set (slot := pm_slot_size pm) in *.
  pose proof (blocks_disjoint (prs * slot) (Z.of_nat t) (Z.of_nat t')).
  rewrite <- !Z.mul_assoc. lia.
Qed.

(** A thread's area is addressed by 32 bits. *)
Lemma area_range pm t pt : region_ok pm → pm_per_thread pm !! t = Some pt →
  0 <= pt_data pt /\ pt_data pt + pm_punt_ring_size pm * pm_slot_size pm < 2 ^ 32.
Proof.
  intros Hok Ht. destruct (ro_thread _ Hok _ _ Ht) as [Hd _ _].
  pose proof (ro_sizes _ Hok) as Hs. pose proof (ro_threads _ Hok) as Hn.
  apply lookup_lt_Some in Ht. pose proof (sizes_pos _ _ _ _ Hs) as [Hp He].
  assert (so := so_total _ _ _ _ Hs). destruct (so_slot _ _ _ _ Hs).
  rewrite Hd. unfold pm_header. rewrite (proj1 (header_eq _ _ _ _ Hs)). unfold part_offset.
  cbn -[Z.mul Z.add]. unfold shm_total, SIZEOF_SHM_HEADER, SIZEOF_RING_HEADER, SIZEOF_PUNT_DESC,
    SIZEOF_EGRESS_DESC in so.
  set (prs := pm_punt_ring_size pm) in *. set (slot := pm_slot_size pm) in *.
  pose proof (block_in (prs * slot) (Z.of_nat t) (pm_n_punt_rings pm)) as Hb.
  rewrite <- !Z.mul_assoc in *. nia.
Qed.

(** A step of the thread [t], or of the daemon at its ring. *)
Lemma sys_inv_update s evs t pt pc c pm' pt' pc' c' evs' :
  sys_inv s evs →
  pm_per_thread (ps_main s) !! t = Some pt → ps_pc s !! t = Some pc → ps_cursor s !! t = Some c →
  geometry pm' = geometry (ps_main s) →
  pm_per_thread pm' = <[t := pt']> (pm_per_thread (ps_main s)) →
  pt_data pt' = pt_data pt → length (pt_descs pt') = length (pt_descs pt) → buckets_ok pt' →
  (∀ p, ~ own_area (ps_main s) pt p → pm_shm_data pm' p = pm_shm_data (ps_main s) p) →
  Forall (λ ev, event_thread ev = t) evs' →
  (exists nd nt, delivered t (evs ++ evs') = take (Z.to_nat nd) (accepted t (evs ++ evs')) /\
     ring_inv (pm_punt_ring_size (ps_main s)) (pm_slot_size (ps_main s))
       (pm_shm_data pm') pt' pc' c' (accepted t (evs ++ evs')) nd nt) →
  sys_inv (mkPuntSys pm' (<[t := pc']> (ps_pc s)) (<[t := c']> (ps_cursor s))) (evs ++ evs').
Proof.
  intros [Hok Hpcs Hcs Hrings] Ht Hpc Hc Hg Hthreads Hdata Hlen Hbuckets Hmem Hev Hnew.
  pose proof (region_positive _ Hok) as (_ & Hp & Hs).
  unfold geometry in Hg. injection Hg as G1 G2 G3 G4 G5 G6 G7.
  assert (pm_header pm' = pm_header (ps_main s)) as Hh by (unfold pm_header; congruence).
  split; cbn [ps_main ps_pc ps_cursor].
  - destruct Hok as [O1 O2 O3 O4 O5 O6]. split; try congruence.
    + unfold pm_sizes_ok in *. congruence.
    + rewrite Hthreads, length_insert. congruence.
    + intros u pu. rewrite Hthreads. intros [(<- & <- & _)|[Hne Hu]]%list_lookup_insert_Some.
      * destruct (O5 _ _ Ht). split; congruence.
      * destruct (O5 _ _ Hu). split; congruence.
  - by rewrite Hthreads, !length_insert.
  - by rewrite Hthreads, !length_insert.
  - intros u pu pcu cu. rewrite Hthreads, G2, G4.
    destruct (decide (u = t)) as [->|Hne].
    + rewrite !list_lookup_insert_eq by (eapply lookup_lt_Some; done). by intros [= <-] [= <-] [= <-].
    + rewrite !list_lookup_insert_ne by congruence. intros Hu Hpcu Hcu.
      destruct (Hrings _ _ _ _ Hu Hpcu Hcu) as (nd & nt & Hd & Hr). exists nd, nt.
      destruct (other_events t u evs' Hev Hne) as [Ha1 Hd1].
      rewrite accepted_app, delivered_app, Ha1, Hd1, !app_nil_r. split; [done|].
      revert Hr. apply ring_inv_frame; [lia|lia|done|].
      intros p Hpp. apply Hmem. intros Hown. by apply (areas_disjoint _ t u pt pu p Hok).
Qed.

(** * The steps *)

Section Steps.

Context (pm : osvbng_punt_main_t) (Hok : region_ok pm).
Context (t : nat) (pt : osvbng_punt_per_thread_t) (Ht : pm_per_thread pm !! t = Some pt).
Notation prs := (pm_punt_ring_size pm).
Notation slot := (pm_slot_size pm).
Notation mem := (pm_shm_data pm).

(** [pm'] is [pm] with another [pt]. *)
Definition only_thread (pm' : osvbng_punt_main_t) (pt' : osvbng_punt_per_thread_t) : Prop :=
  geometry pm' = geometry pm /\ pm_per_thread pm' = <[t := pt']> (pm_per_thread pm) /\
  pt_data pt' = pt_data pt /\ length (pt_descs pt') = length (pt_descs pt) /\ buckets_ok pt'.

Lemma ring_reserve_ok j c acc nd nt :
  job_ok j → ring_inv prs slot mem pt PuntIdle c acc nd nt →
  exists pm' pt' r, punt_reserve t (jb_now j) (jb_protocol j) pm = Some (pm', r) /\
    only_thread pm' pt' /\ pm_shm_data pm' = mem /\ same_ring pt pt' /\
    match r with
    | Some head => head = rg_head (pt_ring pt) /\ Z.of_nat (length acc) < nt + prs
    | None => True
    end.
Proof using Hok Ht.
  intros Hj [R1 R2 _ R4 _ _]. pose proof Hj as [Hp _].
  destruct (ro_thread _ Hok _ _ Ht) as [_ _ Hb].
  destruct (policer_allow_ok pt (jb_now j) (jb_protocol j) Hb Hp) as (pt1 & ok & He & Hr & Hb1).
  pose proof Hr as (Hr1 & Hr2 & Hr3). unfold punt_reserve. rewrite Ht. cbn [mbind option_bind].
  rewrite He. cbn [mbind option_bind]. rewrite <- Hr1, R1, R2.
  pose proof (region_positive pm Hok) as (_ & Hpos & _).
  rewrite u64_diff by lia. destruct ok; cbn [negb].
  - destruct (Z.leb_spec prs (Z.of_nat (length acc) - nt)).
    + eexists _, (pt1⟪pt_ring_full ::= _⟫⟪pt_dropped ::= _⟫), None. split; [reflexivity|].
      split_and!; [split_and!|..]; try done. rproj. congruence.
    + eexists _, pt1, _. split; [reflexivity|]. split_and!; [split_and!|..]; try done; (congruence || lia).
  - eexists _, pt1, None. split; [reflexivity|]. split_and!; [split_and!|..]; try done. congruence.
Qed.

(** The length that is copied. *)
Lemma cut_length j : job_ok j →
  (if slot <? b_current_length (jb_buffer j) then u16 slot else b_current_length (jb_buffer j)) =
  Z.min (b_current_length (jb_buffer j)) slot.
Proof using Hok.
  intros [_ Hl]. pose proof (region_positive pm Hok) as (_ & _ & Hs).
  destruct (Z.ltb_spec slot (b_current_length (jb_buffer j))); [|lia].
  unfold u16. rewrite Z.mod_small by lia. lia.
Qed.

(** The descriptor written for a call, and what it describes. *)
Definition job_desc (off : Z) (j : punt_job) : osvbng_punt_desc_t :=
  mkPuntDesc (u32 off) (jb_sw_if_index j) (Z.min (b_current_length (jb_buffer j)) slot)
    (u8 (jb_protocol j)) 0 (jb_outer_vlan j) (jb_inner_vlan j)
    (f64_to_u64 (f64_mul (jb_now j) (f64_of_Z 1000000000))).

Lemma job_frame_length j : job_ok j →
  Z.of_nat (length (job_frame slot j)) = Z.min (b_current_length (jb_buffer j)) slot.
Proof using Hok.
  intros [_ Hl]. pose proof (region_positive pm Hok) as (_ & _ & Hs).
  unfold job_frame. rewrite bytes_length. unfold is_u16 in Hl. lia.
Qed.

Lemma job_desc_read off j m : job_ok j → is_u32 off →
  read_entry (put m off (job_frame slot j)) (job_desc off j) = job_entry slot j.
Proof using Hok.
  intros Hj Ho. pose proof (job_frame_length j Hj) as Hl. destruct Hj as [Hp _].
  unfold read_entry, job_desc, job_entry. cbn. rewrite u32_small by done. f_equal.
  - unfold u8. apply Z.mod_small. unfold OSVBNG_PUNT_N_PROTO in Hp. lia.
  - by rewrite <- Hl, Nat2Z.id, bytes_put.
Qed.

Lemma ring_fill_ok j head c acc nd nt :
  ring_inv prs slot mem pt (PuntReserved j head) c acc nd nt →
  exists pm' pt', punt_fill t (jb_now j) (jb_buffer j) (jb_sw_if_index j) (jb_protocol j)
      (jb_outer_vlan j) (jb_inner_vlan j) head pm = Some pm' /\
    only_thread pm' pt' /\ (∀ p, ~ own_area pm pt p → pm_shm_data pm' p = mem p) /\
    ring_inv prs slot (pm_shm_data pm') pt' (PuntFilled j head) c acc nd nt.
Proof using Hok Ht.
  intros [R1 R2 R3 R4 R5 (Hj & -> & Hroom)]. destruct (ro_thread _ Hok _ _ Ht) as [Hda Hde Hb].
  pose proof (region_positive pm Hok) as ((k & Hk & Hpk) & Hpos & Hs).
  pose proof (area_range pm t pt Hok Ht) as [Ha1 Ha2].
  set (i := Z.of_nat (length acc) mod prs).
  assert (0 <= i < prs) as Hi by (apply Z.mod_pos_bound; lia).
  pose proof (slot_in_area prs slot (Z.of_nat (length acc)) ltac:(lia) ltac:(lia)) as [Hi1 Hi2].
  fold i in Hi1, Hi2.
  assert (u32 (Z.land (rg_head (pt_ring pt)) (OSVBNG_RING_MASK prs)) = i) as Hidx.
  { rewrite R1, Hpk, ring_index, <- Hpk by done. fold i. apply u32_small. unfold is_u32. lia. }
  destruct (lookup_lt_is_Some_2 (pt_descs pt) (Z.to_nat i)) as [d0 Hd0]; [lia|].
  unfold punt_fill. rewrite Ht. cbn [mbind option_bind]. rewrite Hidx, Hd0.
  cbn [mbind option_bind]. rewrite cut_length by done.
  fold (job_frame slot j) (job_desc (pt_data pt + i * slot) j).
  pose proof (job_frame_length j Hj) as Hlen.
  set (off := pt_data pt + i * slot) in *. set (frame := job_frame slot j) in *.
  assert (∀ p, ~ (off <= p < off + slot) → put mem off frame p = mem p) as Hput
    by (intros p Hp; apply put_out; lia).
  set (pt1 := (if slot <? _ then _ else pt)).
  assert (pt_ring pt1 = pt_ring pt /\ pt_descs pt1 = pt_descs pt /\ pt_data pt1 = pt_data pt /\
          buckets_ok pt1) as (F1 & F2 & F3 & F4) by (unfold pt1; destruct (_ <? _); done).
  clearbody pt1. set (desc := job_desc off j).
  eexists _, (pt1⟪pt_descs ::= <[Z.to_nat i := desc]>⟫). split; [reflexivity|].
  split_and!.
  - unfold only_thread. split_and!; try done. rproj. by rewrite F2, length_insert.
  - intros p Hp. apply Hput. intros Hp'. apply Hp. unfold own_area, off in *. lia.
  - assert (is_u32 off) as Hoff by (unfold is_u32, off; lia).
    assert (slot_holds prs slot (put mem off frame)
      (pt1⟪pt_descs ::= <[Z.to_nat i := desc]>⟫) (Z.of_nat (length acc)) (job_entry slot j)) as Hnew.
    { exists desc. fold i. rproj. rewrite F2, F3, list_lookup_insert_eq by lia.
      split_and!; try done; [by apply u32_small| | |by apply job_desc_read].
      - cbn. destruct Hj as [_ Hl]. unfold is_u16 in Hl. lia.
      - cbn. lia. }
    split; rproj; rewrite ?F1; auto.
    intros m e Hm Hacc. destruct (R5 m e Hm Hacc) as (d & Hd & Ho & Hl & He).
    assert (m mod prs ≠ i) as Hne.
    { apply lookup_lt_Some in Hacc. apply index_neq. lia. }
    exists d. rproj. rewrite F2, F3, list_lookup_insert_ne.
    2: { pose proof (Z.mod_pos_bound m prs). lia. }
    split_and!; [done|done|lia|lia|]. change (read_entry (put mem off frame) d = e).
    rewrite <- He. unfold read_entry. f_equal. apply bytes_ext.
    intros p Hp. apply Hput. unfold off. pose proof (blocks_disjoint slot (m mod prs) i). lia.
Qed.

Lemma ring_publish_ok j head c acc nd nt :
  ring_inv prs slot mem pt (PuntFilled j head) c acc nd nt →
  exists pm' pt', punt_publish t head pm = Some pm' /\ only_thread pm' pt' /\
    pm_shm_data pm' = mem /\
    ring_inv prs slot mem pt' (PuntPublished j) c (acc ++ [job_entry slot j]) nd nt.
Proof using Hok Ht.
  intros [R1 R2 R3 R4 R5 (Hj & -> & Hroom & Hh)]. destruct (ro_thread _ Hok _ _ Ht) as [_ _ Hb].
  unfold punt_publish. rewrite Ht. cbn [mbind option_bind].
  eexists _, _. split; [reflexivity|]. split_and!; [by split_and!|done|].
  split; rproj; auto.
  - rewrite R1, u64_succ, length_app. simpl. f_equal. lia.
  - rewrite length_app. simpl. lia.
  - intros k e Hk [Hl|[Hl He]]%lookup_app_Some; [by destruct (R5 k e Hk Hl) as (d & ?); exists d|].
    apply list_lookup_singleton_Some in He as [He <-].
    replace k with (Z.of_nat (length acc)) by lia. by destruct Hh as (d & ?); exists d.
Qed.

Lemma ring_signal_ok j c acc nd nt :
  ring_inv prs slot mem pt (PuntPublished j) c acc nd nt →
  exists pm' pt', punt_signal t (jb_protocol j) pm = Some pm' /\ only_thread pm' pt' /\
    pm_shm_data pm' = mem /\ ring_inv prs slot mem pt' PuntIdle c acc nd nt.
Proof using Hok Ht.
  intros [R1 R2 R3 R4 R5 _]. destruct (ro_thread _ Hok _ _ Ht) as [_ _ Hb].
  unfold punt_signal. rewrite Ht. cbn [mbind option_bind].
  eexists _, _. split; [reflexivity|]. split_and!; [by split_and!|done|]. by split; rproj; auto.
Qed.

(** The daemon stores its cursor as the tail. *)
Lemma ring_release_ok pc c acc nd nt :
  ring_inv prs slot mem pt pc c acc nd nt →
  exists pm' pt', daemon_ring t (λ r, r⟪rg_tail := c⟫) pm = Some pm' /\ only_thread pm' pt' /\
    pm_shm_data pm' = mem /\ ring_inv prs slot mem pt' pc c acc nd nd.
Proof using Hok Ht.
  intros [R1 R2 R3 R4 R5 R6]. destruct (ro_thread _ Hok _ _ Ht) as [_ _ Hb].
  unfold daemon_ring. rewrite Ht. cbn [mbind option_bind].
  eexists _, _. split; [reflexivity|]. split_and!; [by split_and!|done|].
  split; rproj; auto; try lia.
  - intros k e Hk He. destruct (R5 k e ltac:(lia) He) as (d & ?). by exists d.
  - destruct pc; auto.
    + destruct R6 as (? & ? & ?). split_and!; auto; lia.
    + destruct R6 as (? & ? & ? & (d & ?)). split_and!; auto; [lia|by exists d].
Qed.

Lemma ring_clear_ok pc c acc nd nt :
  ring_inv prs slot mem pt pc c acc nd nt →
  exists pm' pt', daemon_ring t (λ r, r⟪rg_interrupt_pending := 0⟫) pm = Some pm' /\
    only_thread pm' pt' /\ pm_shm_data pm' = mem /\ ring_inv prs slot mem pt' pc c acc nd nt.
Proof using Hok Ht.
  intros [R1 R2 R3 R4 R5 R6]. destruct (ro_thread _ Hok _ _ Ht) as [_ _ Hb].
  unfold daemon_ring. rewrite Ht. cbn [mbind option_bind].
  eexists _, _. split; [reflexivity|]. split_and!; [by split_and!|done|]. by split; rproj; auto.
Qed.

(** The entry [n] positions after the daemon's cursor. *)
Lemma entry_at pc c acc nd nt n :
  ring_inv prs slot mem pt pc c acc nd nt → 0 <= n → nd + n < Z.of_nat (length acc) →
  exists d e, acc !! Z.to_nat (nd + n) = Some e /\
    pt_descs pt !! Z.to_nat (Z.land (u64 (c + n)) (OSVBNG_RING_MASK prs)) = Some d /\
    read_entry mem d = e.
Proof using Hok.
  intros [R1 R2 R3 R4 R5 R6] Hn1 Hn2.
  destruct (lookup_lt_is_Some_2 acc (Z.to_nat (nd + n))) as [e He]; [lia|].
  destruct (R5 (nd + n) e ltac:(lia) He) as (d & Hd & _ & _ & Hr). exists d, e.
  pose proof (region_positive pm Hok) as ((k & Hk & Hpk) & Hpos & _).
  assert (u64 (c + n) = u64 (nd + n)) as -> by (rewrite R3; ints).
  by rewrite Hpk, ring_index, <- Hpk.
Qed.

Lemma cursor_at_head pc c acc nd nt :
  ring_inv prs slot mem pt pc c acc nd nt →
  u64 (rg_head (pt_ring pt) - c) = Z.of_nat (length acc) - nd /\
  (c = rg_head (pt_ring pt) <-> nd = Z.of_nat (length acc)).
Proof using Hok.
  intros [R1 R2 R3 R4 _ _]. pose proof (region_positive pm Hok) as (_ & Hpos & _).
  rewrite R1, R3. split; [apply u64_diff; lia|]. split; [|by intros ->].
  intros He. symmetry in He. apply u64_same in He; lia.
Qed.

End Steps.

(** * Runs *)

Lemma sys_thread s evs t n :
  sys_inv s evs → n = pm_n_punt_rings (ps_main s) → Z.of_nat t < n →
  exists pt pc c, pm_per_thread (ps_main s) !! t = Some pt /\ ps_pc s !! t = Some pc /\
    ps_cursor s !! t = Some c.
Proof.
  intros [Hok Hp Hc _] -> Ht. pose proof (ro_threads _ Hok).
  destruct (lookup_lt_is_Some_2 (pm_per_thread (ps_main s)) t) as [pt ?]; [lia|].
  destruct (lookup_lt_is_Some_2 (ps_pc s) t) as [pc ?]; [lia|].
  destruct (lookup_lt_is_Some_2 (ps_cursor s) t) as [c ?]; [lia|]. by exists pt, pc, c.
Qed.

(** Steps without an event that leave the cursor. *)
Lemma quiet_step s evs t pt pc c pm' pt' pc' nd nt :
  sys_inv s evs →
  pm_per_thread (ps_main s) !! t = Some pt → ps_pc s !! t = Some pc → ps_cursor s !! t = Some c →
  only_thread (ps_main s) t pt pm' pt' →
  (∀ p, ~ own_area (ps_main s) pt p → pm_shm_data pm' p = pm_shm_data (ps_main s) p) →
  delivered t evs = take (Z.to_nat nd) (accepted t evs) →
  ring_inv (pm_punt_ring_size (ps_main s)) (pm_slot_size (ps_main s))
    (pm_shm_data pm') pt' pc' c (accepted t evs) nd nt →
  sys_inv (set_pc t pc' pm' s) (evs ++ []).
Proof.
  intros Hs Ht Hpc Hc (Hg & Hth & Hda & Hle & Hbu) Hmem Hd Hr.
  unfold set_pc. rewrite <- (list_insert_id (ps_cursor s) t c) by done.
  eapply (sys_inv_update s evs t pt pc c); try done. exists nd, nt. by rewrite !app_nil_r.
Qed.

(** The daemon's steps do not move the thread. *)
Lemma same_pc s t pc pm' :
  ps_pc s !! t = Some pc → mkPuntSys pm' (ps_pc s) (ps_cursor s) = set_pc t pc pm' s.
Proof. intros Hpc. unfold set_pc. by rewrite list_insert_id. Qed.

Section OneStep.

Context (s : punt_sys) (evs : list punt_event) (Hs : sys_inv s evs).
Context (t : nat) (Hn : Z.of_nat t < pm_n_punt_rings (ps_main s)).

(** The step can be taken and keeps the invariant. *)
Definition steps (op : punt_op) : Prop :=
  exists s' evs', punt_step op s = Some (s', evs') /\ sys_inv s' (evs ++ evs') /\
    geometry (ps_main s') = geometry (ps_main s).

(** [thread_facts] names what is known of the thread. *)
Ltac thread_facts :=
  pose proof (si_region _ _ Hs) as Hok;
  destruct (sys_thread s evs t _ Hs eq_refl Hn) as (pt & pc & c & Ht & Hpc & Hc);
  destruct (si_ring _ _ Hs t pt pc c Ht Hpc Hc) as (nd & nt & Hd & Hr);
  unfold steps, punt_step.

Lemma call_steps j : job_ok j → steps (OpCall t j).
Proof using Hs Hn.
  intros Hj. thread_facts. rewrite Hpc. cbn [mbind option_bind].
  destruct pc; try (exists s, []; by rewrite app_nil_r).
  rewrite (ro_init _ Hok). cbn [negb].
  destruct (ring_reserve_ok _ Hok t pt Ht j c _ nd nt Hj Hr) as (pm' & pt' & r & He & Ho & Hm & Hsr & Hrr).
  rewrite He. cbn [mbind option_bind]. eexists _, _. split; [reflexivity|]. split; [|apply Ho].
  apply (quiet_step s evs t pt PuntIdle c pm' pt' _ nd nt); try done; [by intros; rewrite Hm|].
  rewrite Hm. pose proof (region_positive _ Hok) as (_ & ? & ?).
  apply (ring_inv_frame _ _ (pm_shm_data (ps_main s)) _ pt); [lia|lia|done|done|].
  destruct Hr as [R1 R2 R3 R4 R5 _]. by split; try done; destruct r.
Qed.

Lemma thread_steps : steps (OpStep t).
Proof using Hs Hn.
  thread_facts. rewrite Hpc. cbn [mbind option_bind].
  destruct pc as [|j head|j head|j]; [exists s, []; by rewrite app_nil_r|..].
  - destruct (ring_fill_ok _ Hok t pt Ht j head c _ nd nt Hr) as (pm' & pt' & He & Ho & Hm & Hr').
    rewrite He. cbn [mbind option_bind]. eexists _, _. split; [reflexivity|]. split; [|apply Ho].
    by apply (quiet_step s evs t pt (PuntReserved j head) c pm' pt' _ nd nt).
  - destruct (ring_publish_ok _ Hok t pt Ht j head c _ nd nt Hr) as (pm' & pt' & He & Ho & Hm & Hr').
    rewrite He. cbn [mbind option_bind]. eexists _, _. split; [reflexivity|]. split; [|apply Ho].
    destruct Ho as (Hg & Hth & Hda & Hle & Hbu). unfold set_pc.
    rewrite <- (list_insert_id (ps_cursor s) t c) by done.
    eapply (sys_inv_update s evs t pt (PuntFilled j head) c); try done.
    + intros p _. by rewrite Hm.
    + by constructor.
    + exists nd, nt. unfold geometry in Hg. injection Hg as _ _ _ G _ _ _.
      rewrite delivered_app, accepted_app. simpl. rewrite decide_True, app_nil_r, G, Hm by done.
      split; [|done]. destruct Hr as [_ _ _ R4 _ _]. rewrite take_app_le by lia. done.
  - destruct (ring_signal_ok _ Hok t pt Ht j c _ nd nt Hr) as (pm' & pt' & He & Ho & Hm & Hr').
    rewrite He. cbn [mbind option_bind]. eexists _, _. split; [reflexivity|]. split; [|apply Ho].
    apply (quiet_step s evs t pt (PuntPublished j) c pm' pt' _ nd nt); try done;
      [by intros; rewrite Hm|by rewrite Hm].
Qed.

Lemma read_steps : steps (OpRead t).
Proof using Hs Hn.
  thread_facts. rewrite Ht. cbn [mbind option_bind]. rewrite Hc. cbn [mbind option_bind].
  destruct (cursor_at_head _ Hok pt pc c _ nd nt Hr) as [_ Hhead].
  destruct (Z.eqb_spec c (rg_head (pt_ring pt))) as [He|Hne]; [exists s, []; by rewrite app_nil_r|].
  assert (nd < Z.of_nat (length (accepted t evs))) as Hlt.
  { pose proof (ri_order _ _ _ _ _ _ _ _ _ Hr). assert (nd ≠ Z.of_nat (length (accepted t evs))) by tauto. lia. }
  destruct (entry_at _ Hok pt pc c _ nd nt 0 Hr) as (d & e & Ha & Hdd & Hre); [lia|lia|].
  rewrite !Z.add_0_r in *. rewrite (u64_small c) in Hdd.
  2: { rewrite (ri_cursor _ _ _ _ _ _ _ _ _ Hr). apply u64_range. }
  rewrite Hdd. cbn [mbind option_bind]. eexists _, _. split; [reflexivity|]. split; [|done].
  rewrite <- (list_insert_id (ps_pc s) t pc) by done.
  destruct (ro_thread _ Hok _ _ Ht) as [_ _ Hb].
  eapply (sys_inv_update s evs t pt pc c); try done.
  - by rewrite list_insert_id.
  - by constructor.
  - exists (nd + 1), nt. rewrite delivered_app, accepted_app. simpl.
    rewrite decide_True, app_nil_r by done. split.
    + rewrite Hd, Hre. destruct Hr as [_ _ _ R4 _ _].
      rewrite Z2Nat.inj_add by lia. change (Z.to_nat 1) with 1%nat.
      rewrite Nat.add_1_r. by rewrite (take_S_r _ _ e).
    + destruct Hr as [R1 R2 R3 R4 R5 R6]. split; try done; try lia. rewrite R3. apply u64_succ.
Qed.

Lemma release_steps : steps (OpRelease t).
Proof using Hs Hn.
  thread_facts. rewrite Hc. cbn [mbind option_bind].
  destruct (ring_release_ok _ Hok t pt Ht pc c _ nd nt Hr) as (pm' & pt' & He & Ho & Hm & Hr').
  rewrite He. cbn [mbind option_bind]. eexists _, _. split; [reflexivity|]. split; [|apply Ho].
  rewrite (same_pc s t pc) by done.
  apply (quiet_step s evs t pt pc c pm' pt' _ nd nd); try done; [by intros; rewrite Hm|by rewrite Hm].
Qed.

Lemma clear_steps : steps (OpClear t).
Proof using Hs Hn.
  thread_facts.
  destruct (ring_clear_ok _ Hok t pt Ht pc c _ nd nt Hr) as (pm' & pt' & He & Ho & Hm & Hr').
  rewrite He. cbn [mbind option_bind]. eexists _, _. split; [reflexivity|]. split; [|apply Ho].
  rewrite (same_pc s t pc) by done.
  apply (quiet_step s evs t pt pc c pm' pt' _ nd nt); try done; [by intros; rewrite Hm|by rewrite Hm].
Qed.

End OneStep.

Lemma op_steps s evs op :
  sys_inv s evs → op_ok (pm_n_punt_rings (ps_main s)) op → steps s evs op.
Proof.
  intros Hs Hop. destruct op as [t j|t|t|t|t]; cbn [op_ok] in Hop.
  - apply call_steps; tauto.
  - by apply thread_steps.
  - by apply read_steps.
  - by apply release_steps.
  - by apply clear_steps.
Qed.

Lemma punt_run_ok ops s evs :
  sys_inv s evs → Forall (op_ok (pm_n_punt_rings (ps_main s))) ops →
  exists s' evs', punt_run ops s = Some (s', evs') /\ sys_inv s' (evs ++ evs') /\
    geometry (ps_main s') = geometry (ps_main s).
Proof.
  revert s evs. induction ops as [|op ops IH]; intros s evs Hs Hops.
  { exists s, []. by rewrite app_nil_r. }
  inversion Hops as [|? ? Hop Hops']; subst. cbn [punt_run].
  destruct (op_steps s evs op Hs Hop) as (s1 & evs1 & He & Hs1 & Hg). rewrite He.
  cbn [mbind option_bind]. assert (pm_n_punt_rings (ps_main s1) = pm_n_punt_rings (ps_main s)) as Hn.
  { unfold geometry in Hg. by injection Hg. }
  destruct (IH s1 (evs ++ evs1) Hs1) as (s2 & evs2 & He2 & Hs2 & Hg2); [by rewrite Hn|].
  rewrite He2. cbn [mbind option_bind]. exists s2, (evs1 ++ evs2).
  split_and!; [done|by rewrite app_assoc|congruence].
Qed.

(** What is in a ring, for a thread that exists. *)
Lemma contents_ok s evs t :
  sys_inv s evs → Z.of_nat t < pm_n_punt_rings (ps_main s) →
  exists q, ring_contents s t = Some q /\ accepted t evs = delivered t evs ++ q /\
    Z.of_nat (length q) <= pm_punt_ring_size (ps_main s).
Proof.
  intros Hs Hn. pose proof (si_region _ _ Hs) as Hok.
  destruct (sys_thread s evs t _ Hs eq_refl Hn) as (pt & pc & c & Ht & Hpc & Hc).
  destruct (si_ring _ _ Hs t pt pc c Ht Hpc Hc) as (nd & nt & Hd & Hr).
  pose proof (ri_order _ _ _ _ _ _ _ _ _ Hr) as Ho.
  exists (drop (Z.to_nat nd) (accepted t evs)). split_and!.
  - unfold ring_contents. rewrite Ht. cbn [mbind option_bind]. rewrite Hc. cbn [mbind option_bind].
    rewrite (proj1 (cursor_at_head _ Hok pt pc c _ nd nt Hr)). apply mapM_Some_2.
    apply Forall2_same_length_lookup_2.
    { rewrite length_seqZ, length_drop. lia. }
    intros i n e [-> Hi]%lookup_seqZ. rewrite lookup_drop. intros He. rewrite Z.add_0_l.
    destruct (entry_at _ Hok pt pc c _ nd nt (Z.of_nat i) Hr) as (d & e' & Ha & Hdd & Hre); [lia|lia|].
    rewrite Hdd. simpl. f_equal. replace (Z.to_nat (nd + Z.of_nat i)) with (Z.to_nat nd + i)%nat in Ha by lia.
    congruence.
  - by rewrite Hd, take_drop.
  - rewrite length_drop. lia.
Qed.

Lemma start_ok pm :
  region_ok pm → Forall (λ pt, pt_ring pt = mkRing 0 0 0) (pm_per_thread pm) →
  sys_inv (punt_start pm) [].
Proof.
  intros Hok Hr. pose proof (region_positive _ Hok) as (_ & ? & ?).
  split; cbn [punt_start ps_main ps_pc ps_cursor]; [done|apply length_replicate..|].
  intros t pt pc c Ht [-> _]%lookup_replicate [-> _]%lookup_replicate.
  rewrite Forall_forall in Hr. exists 0, 0. split; [done|].
  assert (pt_ring pt = mkRing 0 0 0) as E by (apply Hr; by eapply list_elem_of_lookup_2).
  by split; rewrite ?E; simpl; try done; try lia.
Qed.

(** ** A call is its steps *)

Lemma run_cons op ops s s1 ev1 :
  punt_step op s = Some (s1, ev1) →
  punt_run (op :: ops) s = '(s', evs) ← punt_run ops s1; Some (s', ev1 ++ evs).
Proof. intros He. cbn [punt_run]. by rewrite He. Qed.

Lemma idle_steps n t s :
  ps_pc s !! t = Some PuntIdle → punt_run (replicate n (OpStep t)) s = Some (s, []).
Proof.
  intros Hi. induction n as [|n IH]; [done|]. cbn [replicate].
  rewrite (run_cons _ _ _ s []); [by rewrite IH|]. cbn [punt_step]. by rewrite Hi.
Qed.

(** The steps at a given place. *)
Lemma step_at t s pc :
  ps_pc s !! t = Some pc →
  punt_step (OpStep t) s =
  match pc with
  | PuntIdle => Some (s, [])
  | PuntReserved j head =>
      pm ← punt_fill t (jb_now j) (jb_buffer j) (jb_sw_if_index j) (jb_protocol j)
             (jb_outer_vlan j) (jb_inner_vlan j) head (ps_main s);
      Some (set_pc t (PuntFilled j head) pm s, [])
  | PuntFilled j head =>
      pm ← punt_publish t head (ps_main s);
      Some (set_pc t (PuntPublished j) pm s, [Accepted t (job_entry (pm_slot_size pm) j)])
  | PuntPublished j =>
      pm ← punt_signal t (jb_protocol j) (ps_main s);
      Some (set_pc t PuntIdle pm s, [])
  end.
Proof. intros Hi. cbn [punt_step]. by rewrite Hi. Qed.

Lemma set_pc_at t pc pm s : (t < length (ps_pc s))%nat → ps_pc (set_pc t pc pm s) !! t = Some pc.
Proof. intros. by apply list_lookup_insert_eq. Qed.

Lemma to_shm_steps pm pcs cs t j :
  pcs !! t = Some PuntIdle →
  punt_run [OpCall t j; OpStep t; OpStep t; OpStep t] (mkPuntSys pm pcs cs) =
  match osvbng_punt_to_shm t (jb_now j) (jb_buffer j) (jb_sw_if_index j) (jb_protocol j)
          (jb_outer_vlan j) (jb_inner_vlan j) pm with
  | Some (pm', ok) =>
      Some (mkPuntSys pm' pcs cs,
            if ok then [Accepted t (job_entry (pm_slot_size pm') j)] else [])
  | None => None
  end.
Proof.
  intros Hpc. assert (t < length pcs)%nat as Hlt by (by eapply lookup_lt_Some).
  unfold osvbng_punt_to_shm. change [OpStep t; OpStep t; OpStep t] with (replicate 3 (OpStep t)).
  destruct (pm_shm_initialized pm) eqn:Hi; cbn [negb].
  2: { rewrite (run_cons _ _ _ (mkPuntSys pm pcs cs) []).
       - by rewrite idle_steps.
       - cbn [punt_step ps_pc ps_main]. rewrite Hpc. cbn [mbind option_bind]. by rewrite Hi. }
  assert (punt_step (OpCall t j) (mkPuntSys pm pcs cs) =
    match punt_reserve t (jb_now j) (jb_protocol j) pm with
    | Some (pm1, r) =>
        Some (set_pc t (match r with Some head => PuntReserved j head | None => PuntIdle end) pm1
                (mkPuntSys pm pcs cs), [])
    | None => None
    end) as Hcall.
  { cbn [punt_step ps_pc ps_main]. rewrite Hpc. cbn [mbind option_bind]. by rewrite Hi. }
  cbn [punt_run]. rewrite Hcall.
  destruct (punt_reserve _ _ _ pm) as [[pm1 [head|]]|]; [| |done]; cbn [mbind option_bind].
  2: { rewrite idle_steps by (by apply set_pc_at). cbn.
       unfold set_pc. cbn. by rewrite list_insert_id. }
  cbn [replicate punt_run].
  rewrite (step_at t _ (PuntReserved j head)) by (by apply set_pc_at). cbn [ps_main set_pc].
  destruct (punt_fill _ _ _ _ _ _ _ _ pm1) as [pm2|]; [|done]. cbn [mbind option_bind].
  rewrite (step_at t _ (PuntFilled j head)) by (apply set_pc_at; cbn; by rewrite length_insert).
  cbn [ps_main set_pc].
  destruct (punt_publish _ _ pm2) as [pm3|]; [|done]. cbn [mbind option_bind].
  rewrite (step_at t _ (PuntPublished j)) by (apply set_pc_at; cbn; by rewrite !length_insert).
  cbn [ps_main set_pc].
  destruct (punt_signal _ _ pm3) as [pm4|] eqn:E4; [|done].
  cbn [mbind option_bind app]. unfold set_pc. cbn [ps_pc ps_cursor].
  rewrite !list_insert_insert_eq, list_insert_id by done. do 4 f_equal.
  unfold punt_signal in E4. destruct (pm_per_thread pm3 !! t); [|done]. by injection E4 as <-.
Qed.

(** A whole call keeps the invariant, and accepts its packet or nothing. *)
Lemma to_shm_ok s evs t j :
  sys_inv s evs → ps_pc s !! t = Some PuntIdle → job_ok j →
  exists pm' ok,
    osvbng_punt_to_shm t (jb_now j) (jb_buffer j) (jb_sw_if_index j) (jb_protocol j)
      (jb_outer_vlan j) (jb_inner_vlan j) (ps_main s) = Some (pm', ok) /\
    sys_inv (mkPuntSys pm' (ps_pc s) (ps_cursor s))
      (evs ++ if ok then [Accepted t (job_entry (pm_slot_size pm') j)] else []) /\
    geometry pm' = geometry (ps_main s).
Proof.
  intros Hs Hpc Hj. destruct s as [pm pcs cs]. cbn [ps_pc ps_main ps_cursor] in *.
  assert (Z.of_nat t < pm_n_punt_rings pm) as Hn.
  { apply lookup_lt_Some in Hpc. pose proof (si_pcs _ _ Hs) as Hl. cbn in Hl.
    pose proof (ro_threads _ (si_region _ _ Hs)) as Ht. cbn in Ht. lia. }
  destruct (punt_run_ok [OpCall t j; OpStep t; OpStep t; OpStep t] (mkPuntSys pm pcs cs) evs Hs)
    as (s' & evs' & He & Hs' & Hg).
  { rewrite !Forall_cons. by cbn. }
  rewrite to_shm_steps in He by done.
  destruct (osvbng_punt_to_shm _ _ _ _ _ _ _ _) as [[pm' ok]|]; [|done].
  injection He as <- <-. by exists pm', ok.
Qed.

(** * Properties *)

(** C6. The punt rings are queues.  Whatever the interleaving of the threads' calls, step
    by step, and of the daemon's reads, no step touches memory outside its ring; and for
    every thread, what its calls have accepted is, in order and byte for byte, what the
    daemon has read, followed by what the daemon can still read from the ring, which is no
    more than the ring's size: nothing is lost, repeated, overwritten before it is read,
    or mixed with another thread's packets. *)
Theorem punt_rings_are_queues n os listen file now pm0 pm ops :
  osvbng_punt_main_loop_enter n os listen file now pm0 = (pm, true) →
  rates_ok pm0 → pm_sizes_ok pm → Forall (op_ok n) ops →
  exists s evs, punt_run ops (punt_start pm) = Some (s, evs) /\
    ∀ t, Z.of_nat t < n →
      exists q, ring_contents s t = Some q /\ accepted t evs = delivered t evs ++ q /\
        Z.of_nat (length q) <= pm_punt_ring_size pm.
Proof.
  intros Hb Hr Hs Hops. destruct (loop_enter_ok _ _ _ _ _ _ _ Hb Hr Hs) as (Hok & H0 & _ & _ & _ & Hn).
  destruct (punt_run_ok ops (punt_start pm) [] (start_ok pm Hok H0)) as (s & evs & He & Hi & Hg).
  { cbn [punt_start ps_main]. by rewrite Hn. }
  exists s, evs. split; [done|]. intros t Ht. unfold geometry in Hg.
  injection Hg as Hn' Hp' _ _ _ _ _. cbn [punt_start ps_main] in Hn', Hp'. cbn [app] in Hi.
  rewrite <- Hp'. apply contents_ok; [done|]. by rewrite Hn', Hn.
Qed.

(** Two threads punt at the same time while the daemon reads. *)
Definition sample_job (proto : Z) (l : list Z) : punt_job :=
  mkJob (f64_of_Z 1) (sample_buffer 0 l 0) 10 proto 0 0.
Definition sample_ops : list punt_op :=
  [OpCall 0 (sample_job 0 [1; 2; 3]); OpCall 1 (sample_job 2 [4; 5]); OpStep 1; OpStep 0; OpStep 1;
   OpRead 1; OpStep 0; OpRead 0; OpStep 0; OpCall 0 (sample_job 6 [6]); OpStep 0; OpRelease 1;
   OpRead 0; OpStep 0; OpStep 0; OpClear 0].

Lemma punt_rings_are_queues_witness :
  exists s evs, punt_run sample_ops (punt_start (sample_boot 3)) = Some (s, evs) /\
    ∀ t, Z.of_nat t < 3 →
      exists q, ring_contents s t = Some q /\ accepted t evs = delivered t evs ++ q /\
        Z.of_nat (length q) <= pm_punt_ring_size (sample_boot 3).
Proof.
  apply (punt_rings_are_queues 3 sample_os (Some (6, 0)) 1 (f64_of_Z 0)
           (fst (osvbng_punt_init punt_main_zero))).
  - exact sample_boot_eq.
  - by split.
  - exact sample_boot_sizes.
  - unfold sample_ops. rewrite !Forall_cons. cbn. unfold job_ok, is_u16, OSVBNG_PUNT_N_PROTO. cbn.
    split_and!; (lia || apply Forall_nil_2).
Defined.
