(* ===== verification/PuntNodes.v ===== *)
(** The punt plugin's graph nodes: which packets go to the daemon, and as which bytes
    ([plugins/osvbng_punt/osvbng_punt_arp.c], [..._dhcp.c], [..._dhcp6.c], [..._ipv6_nd.c],
    [..._l2tp.c], [..._pppoe_disc.c], [..._pppoe_sess.c], [..._shm_tx.c]).

    A node's step takes the plugin's state and one packet.  The daemon parses Ethernet
    frames, and the nodes see a packet wherever its protocol is dispatched, so each moves
    the buffer back to the Ethernet header first: to where the header is recorded, or
    over the headers it counts on. *)

From S2P Require Import Prelude Packet PuntShm PuntConfig.

#[local] Open Scope Z_scope.

(** Where a node sends a packet, and under which of its counters. *)
Inductive punt_next_t :=
  | PUNT_NEXT_DROP                    (* error-drop: the packet is done with *)
  | PUNT_NEXT_ARP_INPUT
  | PUNT_NEXT_PASSTHROUGH_RS
  | PUNT_NEXT_PASSTHROUGH_NS
  | PUNT_NEXT_L2TPV2 (arc : Z)
  | PUNT_NEXT_PPPOE_INPUT.
Inductive punt_error_t := PUNT_ERROR_NONE | PUNT_ERROR_PUNTED | PUNT_ERROR_DROPPED | PUNT_ERROR_NOT_ENABLED | PUNT_ERROR_FORWARDED.

Definition punt_outcome : Type := vlib_buffer_t * punt_next_t * punt_error_t.

Definition SIZEOF_IP6_HEADER : Z := 40.

Definition L2TPV2_FLAG_T_MASK : Z := 0x80.

(** The tags ethernet-input has stepped over. *)
Definition vlan_bytes (b : vlib_buffer_t) : Z :=
  if b_vlan_2_deep b then 2 * SIZEOF_VLAN else if b_vlan_1_deep b then SIZEOF_VLAN else 0.

Section Nodes.

Context `{VlibVpp}.

(** What is punted from here: the thread, its clock. *)
Variables (thread_index : nat) (now : f64).

(** To the Ethernet header of the current frame. *)
Definition rewind_to_l2 (b : vlib_buffer_t) : vlib_buffer_t :=
  match b_l2_hdr_offset b with
  | Some o => vlib_buffer_advance (o - b_current_data b) b
  | None => vlib_buffer_reset b
  end.

Definition osvbng_punt_arp_1 (pm : osvbng_punt_main_t) (b0 : vlib_buffer_t)
    : option (osvbng_punt_main_t * punt_outcome) :=
  let sw_if_index0 := b_rx b0 in
  if punt_enabled pm OSVBNG_PUNT_PROTO_ARP sw_if_index0 then
    let b0 := rewind_to_l2 b0 in
    '(pm, ok) ← osvbng_punt_send_packet thread_index now b0 sw_if_index0 OSVBNG_PUNT_PROTO_ARP pm;
    Some (pm, (b0, PUNT_NEXT_DROP, if (ok : bool) then PUNT_ERROR_PUNTED else PUNT_ERROR_DROPPED))
  else Some (pm, (b0, PUNT_NEXT_ARP_INPUT, PUNT_ERROR_NOT_ENABLED)).

Definition osvbng_punt_pppoe_disc_1 (pm : osvbng_punt_main_t) (b0 : vlib_buffer_t)
    : option (osvbng_punt_main_t * punt_outcome) :=
  let sw_if_index0 := b_rx b0 in
  if punt_enabled pm OSVBNG_PUNT_PROTO_PPPOE_DISCOVERY sw_if_index0 then
    let b0 := rewind_to_l2 b0 in
    '(pm, ok) ← osvbng_punt_send_packet thread_index now b0 sw_if_index0
                  OSVBNG_PUNT_PROTO_PPPOE_DISCOVERY pm;
    Some (pm, (b0, PUNT_NEXT_DROP, if (ok : bool) then PUNT_ERROR_PUNTED else PUNT_ERROR_DROPPED))
  else Some (pm, (b0, PUNT_NEXT_DROP, PUNT_ERROR_NOT_ENABLED)).

(** A session's interface stands for the one it is on: [sup_of] is
    [vnet_get_sw_interface_or_null] and [sup_sw_if_index]. *)
Variable sup_of : Z → option Z.

Definition punt_enabled_sup (pm : osvbng_punt_main_t) (protocol sw_if_index0 : Z) : bool :=
  punt_enabled pm protocol sw_if_index0 ||
  match sup_of sw_if_index0 with
  | None => false
  | Some sup => negb (sup =? sw_if_index0) && punt_enabled pm protocol sup
  end.

(** The result of the punt is not looked at. *)
Definition osvbng_punt_dhcp_1 (pm : osvbng_punt_main_t) (b0 : vlib_buffer_t)
    : option (osvbng_punt_main_t * punt_outcome) :=
  let sw_if_index0 := b_rx b0 in
  if negb (punt_enabled_sup pm OSVBNG_PUNT_PROTO_DHCPV4 sw_if_index0)
  then Some (pm, (b0, PUNT_NEXT_DROP, PUNT_ERROR_NOT_ENABLED))
  else
    let rewind := SIZEOF_UDP_HEADER + SIZEOF_IP4_HEADER + SIZEOF_ETHERNET + vlan_bytes b0 in
    let b0 := vlib_buffer_advance (- rewind) b0 in
    '(pm, _) ← osvbng_punt_send_packet thread_index now b0 sw_if_index0 OSVBNG_PUNT_PROTO_DHCPV4 pm;
    Some (pm, (b0, PUNT_NEXT_DROP, PUNT_ERROR_PUNTED)).

Definition osvbng_punt_dhcp6_1 (pm : osvbng_punt_main_t) (b0 : vlib_buffer_t)
    : option (osvbng_punt_main_t * punt_outcome) :=
  let sw_if_index0 := b_rx b0 in
  if negb (punt_enabled_sup pm OSVBNG_PUNT_PROTO_DHCPV6 sw_if_index0)
  then Some (pm, (b0, PUNT_NEXT_DROP, PUNT_ERROR_NONE))
  else
    let rewind := SIZEOF_UDP_HEADER + SIZEOF_IP6_HEADER + SIZEOF_ETHERNET + vlan_bytes b0 in
    let b0 := vlib_buffer_advance (- rewind) b0 in
    '(pm, _) ← osvbng_punt_send_packet thread_index now b0 sw_if_index0 OSVBNG_PUNT_PROTO_DHCPV6 pm;
    Some (pm, (b0, PUNT_NEXT_DROP, PUNT_ERROR_NONE)).

(** The buffer is at the IPv6 header, and the ICMPv6 header follows it. *)
Definition osvbng_punt_ipv6_nd_1 (pm : osvbng_punt_main_t) (b0 : vlib_buffer_t)
    : option (osvbng_punt_main_t * punt_outcome) :=
  let sw_if_index0 := b_rx b0 in
  if punt_enabled pm OSVBNG_PUNT_PROTO_IPV6_ND sw_if_index0 then
    let rewind := SIZEOF_ETHERNET + vlan_bytes b0 in
    let b0 := vlib_buffer_advance (- rewind) b0 in
    '(pm, ok) ← osvbng_punt_send_packet thread_index now b0 sw_if_index0 OSVBNG_PUNT_PROTO_IPV6_ND pm;
    Some (pm, (b0, PUNT_NEXT_DROP, if (ok : bool) then PUNT_ERROR_PUNTED else PUNT_ERROR_DROPPED))
  else
    let type := b_data b0 (b_current_data b0 + SIZEOF_IP6_HEADER) in
    Some (pm, (b0, (if type =? ICMP6_neighbor_solicitation
                    then PUNT_NEXT_PASSTHROUGH_NS else PUNT_NEXT_PASSTHROUGH_RS),
               PUNT_ERROR_NOT_ENABLED)).

(** The buffer is at the L2TP header; [l2tpv2_next] is read once for the frame. *)
Definition osvbng_punt_l2tp_1 (l2tpv2_next : option Z) (pm : osvbng_punt_main_t)
    (b0 : vlib_buffer_t) : option (osvbng_punt_main_t * punt_outcome) :=
  let sw_if_index0 := b_rx b0 in
  let is_control := negb (Z.land (b_data b0 (b_current_data b0)) L2TPV2_FLAG_T_MASK =? 0) in
  if is_control && negb (punt_enabled pm OSVBNG_PUNT_PROTO_L2TP sw_if_index0)
  then Some (pm, (b0, PUNT_NEXT_DROP, PUNT_ERROR_NONE))
  else if is_control then
    let rewind := SIZEOF_UDP_HEADER + SIZEOF_IP4_HEADER + SIZEOF_ETHERNET + vlan_bytes b0 in
    let b0 := vlib_buffer_advance (- rewind) b0 in
    '(pm, _) ← osvbng_punt_send_packet thread_index now b0 sw_if_index0 OSVBNG_PUNT_PROTO_L2TP pm;
    Some (pm, (b0, PUNT_NEXT_DROP, PUNT_ERROR_NONE))
  else
    Some (pm, (b0, match l2tpv2_next with Some arc => PUNT_NEXT_L2TPV2 arc | None => PUNT_NEXT_DROP end,
               PUNT_ERROR_NONE)).

(** The frame is complete and its protocol is in the buffer. *)
Definition osvbng_punt_shm_tx_1 (pm : osvbng_punt_main_t) (b0 : vlib_buffer_t)
    : option (osvbng_punt_main_t * punt_outcome) :=
  '(pm, _) ← osvbng_punt_send_packet thread_index now b0 (b_rx b0) (b_opaque2_1 b0) pm;
  Some (pm, (b0, PUNT_NEXT_DROP, PUNT_ERROR_NONE)).

Definition osvbng_punt_pppoe_sess_1 (pm : osvbng_punt_main_t) (b0 : vlib_buffer_t)
    : option (osvbng_punt_main_t * punt_outcome) :=
  Some (pm, (b0, PUNT_NEXT_PPPOE_INPUT, PUNT_ERROR_FORWARDED)).

End Nodes.

(** * Frames

    A frame's packets with the clock at each, and the node's counters: punted, dropped
    and not enabled (or forwarded). *)

Record punt_counts := mkPuntCounts { pc_punted : Z; pc_dropped : Z; pc_other : Z }.   (* u32 *)

Definition count_punt (e : punt_error_t) (c : punt_counts) : punt_counts :=
  match e with
  | PUNT_ERROR_PUNTED => mkPuntCounts (u32 (pc_punted c + 1)) (pc_dropped c) (pc_other c)
  | PUNT_ERROR_DROPPED => mkPuntCounts (pc_punted c) (u32 (pc_dropped c + 1)) (pc_other c)
  | PUNT_ERROR_NOT_ENABLED | PUNT_ERROR_FORWARDED =>
      mkPuntCounts (pc_punted c) (pc_dropped c) (u32 (pc_other c + 1))
  | PUNT_ERROR_NONE => c
  end.

Section Frames.

Variable step : f64 → osvbng_punt_main_t → vlib_buffer_t → option (osvbng_punt_main_t * punt_outcome).

Fixpoint punt_node_loop (pm : osvbng_punt_main_t) (c : punt_counts) (frame : list (f64 * vlib_buffer_t))
    : option (osvbng_punt_main_t * punt_counts * list punt_outcome) :=
  match frame with
  | [] => Some (pm, c, [])
  | (now, b0) :: frame =>
      '(pm, out) ← step now pm b0;
      '(pm, c, outs) ← punt_node_loop pm (count_punt (snd out) c) frame;
      Some (pm, c, out :: outs)
  end.

Definition punt_node (pm : osvbng_punt_main_t) (frame : list (f64 * vlib_buffer_t))
    : option (osvbng_punt_main_t * punt_counts * list punt_outcome) :=
  punt_node_loop pm (mkPuntCounts 0 0 0) frame.

End Frames.

(** ** The discovery node's loops

    It takes two packets at a time while four are left and the next frame has room for
    two.  [rooms] is what [vlib_get_next_frame] leaves room for, time after time. *)

Section Disc.

Context `{VlibVpp}.
Variable thread_index : nat.

Notation disc_1 now := (osvbng_punt_pppoe_disc_1 thread_index now).

(** The interfaces are looked up for both packets first, and traced last; the punts and
    the counters come in the packets' order. *)
Definition osvbng_punt_pppoe_disc_2 (now0 now1 : f64) (pm : osvbng_punt_main_t)
    (c : punt_counts) (b0 b1 : vlib_buffer_t)
    : option (osvbng_punt_main_t * punt_counts * punt_outcome * punt_outcome) :=
  let sw_if_index0 := b_rx b0 in
  let sw_if_index1 := b_rx b1 in
  let p0 := punt_enabled pm OSVBNG_PUNT_PROTO_PPPOE_DISCOVERY sw_if_index0 in
  let p1 := punt_enabled pm OSVBNG_PUNT_PROTO_PPPOE_DISCOVERY sw_if_index1 in
  let one (now : f64) (p : bool) (b : vlib_buffer_t) (sw : Z) (pm : osvbng_punt_main_t)
      (c : punt_counts) : option (osvbng_punt_main_t * punt_counts * punt_outcome) :=
    if p then
      let b := rewind_to_l2 b in
      '(pm, ok) ← osvbng_punt_send_packet thread_index now b sw OSVBNG_PUNT_PROTO_PPPOE_DISCOVERY pm;
      let e := if (ok : bool) then PUNT_ERROR_PUNTED else PUNT_ERROR_DROPPED in
      Some (pm, count_punt e c, (b, PUNT_NEXT_DROP, e))
    else Some (pm, count_punt PUNT_ERROR_NOT_ENABLED c, (b, PUNT_NEXT_DROP, PUNT_ERROR_NOT_ENABLED)) in
  '(pm, c, out0) ← one now0 p0 b0 sw_if_index0 pm c;
  '(pm, c, out1) ← one now1 p1 b1 sw_if_index1 pm c;
  Some (pm, c, out0, out1).

(** The inner loops; what is left of the frame and of the room is returned. *)
Fixpoint disc_dual (room : nat) (pm : osvbng_punt_main_t) (c : punt_counts)
    (frame : list (f64 * vlib_buffer_t)) {struct frame}
    : option (osvbng_punt_main_t * punt_counts * list punt_outcome * nat * list (f64 * vlib_buffer_t)) :=
  match frame, room with
  | (now0, b0) :: (now1, b1) :: rest, S (S room') =>
      if (2 <=? length rest)%nat then
        '(pm, c, out0, out1) ← osvbng_punt_pppoe_disc_2 now0 now1 pm c b0 b1;
        '(pm, c, outs, room, more) ← disc_dual room' pm c rest;
        Some (pm, c, out0 :: out1 :: outs, room, more)
      else Some (pm, c, [], room, frame)
  | _, _ => Some (pm, c, [], room, frame)
  end.

Fixpoint disc_single (room : nat) (pm : osvbng_punt_main_t) (c : punt_counts)
    (frame : list (f64 * vlib_buffer_t)) {struct frame}
    : option (osvbng_punt_main_t * punt_counts * list punt_outcome * list (f64 * vlib_buffer_t)) :=
  match frame, room with
  | (now0, b0) :: rest, S room' =>
      '(pm, out) ← disc_1 now0 pm b0;
      '(pm, c, outs, more) ← disc_single room' pm (count_punt (snd out) c) rest;
      Some (pm, c, out :: outs, more)
  | _, _ => Some (pm, c, [], frame)
  end.

(** The outer loop, which asks for a new frame when the last is full. *)
Fixpoint disc_outer (rooms : list nat) (pm : osvbng_punt_main_t) (c : punt_counts)
    (frame : list (f64 * vlib_buffer_t))
    : option (osvbng_punt_main_t * punt_counts * list punt_outcome) :=
  match frame, rooms with
  | [], _ => Some (pm, c, [])
  | _, [] => None
  | _, room :: rooms =>
      '(pm, c, outs, room, more) ← disc_dual room pm c frame;
      '(pm, c, outs', more) ← disc_single room pm c more;
      '(pm, c, outs'') ← disc_outer rooms pm c more;
      Some (pm, c, outs ++ outs' ++ outs'')
  end.

Definition osvbng_punt_pppoe_disc_inline (rooms : list nat) (pm : osvbng_punt_main_t)
    (frame : list (f64 * vlib_buffer_t))
    : option (osvbng_punt_main_t * punt_counts * list punt_outcome) :=
  disc_outer rooms pm (mkPuntCounts 0 0 0) frame.

End Disc.
