(* ===== verification/PuntSystem.v ===== *)
(** From the nodes to the daemon: what is punted arrives as the frame it was received in,
    every attempt is counted once, and the discovery node's loops do what its step does. *)

From S2P Require Import Prelude Packet PuntShm PuntConfig PuntLayout PuntRing PuntNodes.

#[local] Open Scope Z_scope.

(** * Loops *)

(** Punting leaves the configuration alone. *)
Lemma to_shm_enabled t now b sw proto ov iv pm pm' ok :
  osvbng_punt_to_shm t now b sw proto ov iv pm = Some (pm', ok) →
  pm_enabled_interfaces pm' = pm_enabled_interfaces pm.
Proof.
  unfold osvbng_punt_to_shm. destruct (negb _); [by intros [= <- <-]|].
  unfold punt_reserve. destruct (pm_per_thread pm !! t) as [pt|]; [|done]. cbn [mbind option_bind].
  destruct (osvbng_punt_policer_allow pt now proto) as [[pt1 [|]]|]; [| |done]; cbn [mbind option_bind negb].
  2: by intros [= <- <-].
  destruct (_ <=? _); cbn [mbind option_bind]; [by intros [= <- <-]|].
  unfold punt_fill. destruct (pm_per_thread _ !! t) as [pt2|]; [|done]. cbn [mbind option_bind].
  destruct (pt_descs pt2 !! _); [|done]. cbn [mbind option_bind].
  unfold punt_publish. destruct (pm_per_thread _ !! t) as [pt3|]; [|done]. cbn [mbind option_bind].
  unfold punt_signal. destruct (pm_per_thread _ !! t) as [pt4|]; [|done]. cbn [mbind option_bind].
  by intros [= <- <-].
Qed.

Section Disc.

Context `{VlibVpp}.
Variable thread_index : nat.

Notation disc_1 := (osvbng_punt_pppoe_disc_1 thread_index).

Lemma disc_2_eq now0 now1 pm c b0 b1 :
  osvbng_punt_pppoe_disc_2 thread_index now0 now1 pm c b0 b1 =
  '(pm, out0) ← disc_1 now0 pm b0;
  '(pm, out1) ← disc_1 now1 pm b1;
  Some (pm, count_punt (snd out1) (count_punt (snd out0) c), out0, out1).
Proof.
  unfold osvbng_punt_pppoe_disc_2, osvbng_punt_pppoe_disc_1. cbv zeta.
  destruct (punt_enabled pm _ (b_rx b0)); cbn [mbind option_bind].
  - destruct (osvbng_punt_send_packet _ _ (rewind_to_l2 b0) _ _ pm) as [[pm1 ok]|] eqn:E; [|done].
    cbn [mbind option_bind].
    assert (punt_enabled pm1 OSVBNG_PUNT_PROTO_PPPOE_DISCOVERY (b_rx b1) =
            punt_enabled pm OSVBNG_PUNT_PROTO_PPPOE_DISCOVERY (b_rx b1)) as ->.
    { unfold punt_enabled. by rewrite (to_shm_enabled _ _ _ _ _ _ _ _ _ _ E). }
    destruct (punt_enabled pm _ (b_rx b1)); [|done].
    by destruct (osvbng_punt_send_packet _ _ (rewind_to_l2 b1) _ _ pm1) as [[pm2 ok2]|].
  - destruct (punt_enabled pm _ (b_rx b1)); [|done].
    by destruct (osvbng_punt_send_packet _ _ (rewind_to_l2 b1) _ _ pm) as [[pm2 ok2]|].
Qed.

(** The node's loop goes on with the outcomes [outs] in front. *)
Definition loop_from (r : option (osvbng_punt_main_t * punt_counts * list punt_outcome))
    (outs : list punt_outcome) : option (osvbng_punt_main_t * punt_counts * list punt_outcome) :=
  match r with Some (pm, c, o) => Some (pm, c, outs ++ o) | None => None end.

Notation loop := (punt_node_loop disc_1).

Lemma loop_from_nil r : loop_from r [] = r.
Proof. by destruct r as [[[??]?]|]. Qed.

Lemma loop_cons now b pm c frame :
  loop pm c ((now, b) :: frame) =
  '(pm, out) ← disc_1 now pm b; loop_from (loop pm (count_punt (snd out) c) frame) [out].
Proof.
  cbn [punt_node_loop]. destruct (disc_1 now pm b) as [[pm1 out]|]; [|done]. cbn [mbind option_bind].
  by destruct (loop pm1 _ frame) as [[[??]?]|].
Qed.

Lemma loop_from_app r o o' : loop_from (loop_from r o) o' = loop_from r (o' ++ o).
Proof. destruct r as [[[??]?]|]; [|done]. simpl. by rewrite app_assoc. Qed.

Lemma dual_ok room pm c frame :
  match disc_dual thread_index room pm c frame with
  | None => loop pm c frame = None
  | Some (pm', c', outs, room', more) =>
      loop pm c frame = loop_from (loop pm' c' more) outs /\
      (length more + length outs = length frame)%nat /\ (room' + length outs = room)%nat
  end.
Proof.
  revert room pm c. induction frame as [frame IH] using (induction_ltof1 _ (@length _)).
  intros room pm c. unfold ltof in IH.
  destruct frame as [|[now0 b0] [|[now1 b1] rest]]; cbn [disc_dual].
  - rewrite loop_from_nil. simpl. split_and!; [done|lia..].
  - rewrite loop_from_nil. simpl. split_and!; [done|lia..].
  - destruct room as [|[|room]]; cbn [disc_dual].
    1,2: rewrite loop_from_nil; simpl; split_and!; [done|lia..].
    destruct (2 <=? length rest)%nat.
    2: rewrite loop_from_nil; simpl; split_and!; [done|lia..].
    rewrite disc_2_eq, loop_cons.
    destruct (disc_1 now0 pm b0) as [[pm1 out0]|]; [|done]. cbn [mbind option_bind].
    rewrite loop_cons. destruct (disc_1 now1 pm1 b1) as [[pm2 out1]|]; [|done]. cbn [mbind option_bind].
    specialize (IH rest ltac:(simpl; lia) room pm2 (count_punt out1.2 (count_punt out0.2 c))).
    destruct (disc_dual _ room pm2 _ rest) as [[[[[pm3 c3] outs] room3] more]|]; cbn [mbind option_bind].
    + destruct IH as (-> & ? & ?). rewrite !loop_from_app. simpl. split_and!; [done|lia..].
    + by rewrite IH.
Qed.

Lemma single_ok room pm c frame :
  match disc_single thread_index room pm c frame with
  | None => loop pm c frame = None
  | Some (pm', c', outs, more) =>
      loop pm c frame = loop_from (loop pm' c' more) outs /\
      (length more + length outs = length frame)%nat /\
      (0 < length outs \/ room = 0 \/ frame = [])%nat
  end.
Proof.
  revert room pm c. induction frame as [|[now b] frame IH]; intros room pm c; cbn [disc_single].
  { rewrite loop_from_nil. simpl. auto. }
  destruct room as [|room]; [rewrite loop_from_nil; simpl; auto|]. rewrite loop_cons.
  destruct (disc_1 now pm b) as [[pm1 out]|]; [|done]. cbn [mbind option_bind].
  specialize (IH room pm1 (count_punt out.2 c)).
  destruct (disc_single _ room pm1 _ frame) as [[[[pm2 c2] outs] more]|]; cbn [mbind option_bind].
  - destruct IH as (-> & ? & ?). rewrite !loop_from_app. simpl. split_and!; [done|lia..].
  - by rewrite IH.
Qed.

Lemma outer_ok rooms pm c frame :
  Forall (λ n, 0 < n)%nat rooms → (length frame <= length rooms)%nat →
  disc_outer thread_index rooms pm c frame = loop pm c frame.
Proof.
  revert pm c frame. induction rooms as [|room rooms IH]; intros pm c frame Hr Hl.
  { destruct frame; [done|simpl in Hl; lia]. }
  inversion Hr as [|? ? Hroom Hr']; subst.
  destruct frame as [|x frame]; [done|]. remember (x :: frame) as fr eqn:Efr.
  assert (disc_outer thread_index (room :: rooms) pm c fr =
    '(pm, c, outs, room, more) ← disc_dual thread_index room pm c fr;
    '(pm, c, outs', more) ← disc_single thread_index room pm c more;
    '(pm, c, outs'') ← disc_outer thread_index rooms pm c more;
    Some (pm, c, outs ++ outs' ++ outs'')) as -> by (by rewrite Efr).
  pose proof (dual_ok room pm c fr) as Hd.
  destruct (disc_dual _ room pm c fr) as [[[[[pm1 c1] outs1] room1] more1]|]; [|by rewrite Hd].
  cbn [mbind option_bind]. destruct Hd as (-> & Hl1 & Hr1).
  pose proof (single_ok room1 pm1 c1 more1) as Hs.
  destruct (disc_single _ room1 pm1 c1 more1) as [[[[pm2 c2] outs2] more2]|]; [|by rewrite Hs].
  cbn [mbind option_bind]. destruct Hs as (-> & Hl2 & Hp).
  assert (length more2 <= length rooms)%nat as Hm.
  { assert (0 < length fr)%nat by (subst fr; simpl; lia). simpl in Hl.
    destruct Hp as [?|[?| ->]]; [lia|lia|]. simpl in Hl2. destruct more2; [simpl; lia|simpl in Hl2; lia]. }
  rewrite (IH pm2 c2 more2 Hr' Hm), loop_from_app.
  destruct (loop pm2 c2 more2) as [[[pm3 c3] outs3]|]; cbn; [|done]. by rewrite app_assoc.
Qed.

(** The discovery node's two-at-a-time loop, its one-at-a-time loop and the loop around
    them, which starts over whenever the next node's frame is full, do to a frame exactly
    what the step for one packet does to its packets in order: same rings, same counters,
    same outcomes, whatever room each frame has, as long as it has some. *)
Theorem disc_loops_are_packets rooms pm frame :
  Forall (λ n, 0 < n)%nat rooms → (length frame <= length rooms)%nat →
  osvbng_punt_pppoe_disc_inline thread_index rooms pm frame =
  punt_node (osvbng_punt_pppoe_disc_1 thread_index) pm frame.
Proof. apply outer_ok. Qed.

End Disc.

(** * What the daemon gets *)

(** The nodes that punt. *)
Inductive punt_kind := KArp | KDisc | KDhcp | KDhcp6 | KNd | KL2tp | KShmTx.

Section Deliver.

Context `{VlibVppLaws}.
Variables (sup_of : Z → option Z) (l2tpv2_next : option Z).

Definition punt_node_1 (k : punt_kind) (t : nat) (now : f64) (pm : osvbng_punt_main_t)
    (b : vlib_buffer_t) : option (osvbng_punt_main_t * punt_outcome) :=
  match k with
  | KArp => osvbng_punt_arp_1 t now pm b
  | KDisc => osvbng_punt_pppoe_disc_1 t now pm b
  | KDhcp => osvbng_punt_dhcp_1 t now sup_of pm b
  | KDhcp6 => osvbng_punt_dhcp6_1 t now sup_of pm b
  | KNd => osvbng_punt_ipv6_nd_1 t now pm b
  | KL2tp => osvbng_punt_l2tp_1 t now l2tpv2_next pm b
  | KShmTx => osvbng_punt_shm_tx_1 t now pm b
  end.

Definition kind_protocol (k : punt_kind) (b : vlib_buffer_t) : Z :=
  match k with
  | KArp => OSVBNG_PUNT_PROTO_ARP
  | KDisc => OSVBNG_PUNT_PROTO_PPPOE_DISCOVERY
  | KDhcp => OSVBNG_PUNT_PROTO_DHCPV4
  | KDhcp6 => OSVBNG_PUNT_PROTO_DHCPV6
  | KNd => OSVBNG_PUNT_PROTO_IPV6_ND
  | KL2tp => OSVBNG_PUNT_PROTO_L2TP
  | KShmTx => b_opaque2_1 b
  end.

(** Which packets a node punts. *)
Definition takes (k : punt_kind) (pm : osvbng_punt_main_t) (b : vlib_buffer_t) : bool :=
  match k with
  | KArp | KDisc | KNd => punt_enabled pm (kind_protocol k b) (b_rx b)
  | KDhcp | KDhcp6 => punt_enabled_sup sup_of pm (kind_protocol k b) (b_rx b)
  | KL2tp => negb (Z.land (b_data b (b_current_data b)) L2TPV2_FLAG_T_MASK =? 0) &&
             punt_enabled pm (kind_protocol k b) (b_rx b)
  | KShmTx => true
  end.

(** The VLAN tags the buffer is marked with. *)
Definition vlan_tags (b : vlib_buffer_t) : Z :=
  match b_vlan_1_deep b, b_vlan_2_deep b with
  | _, true => 2
  | true, false => 1
  | false, false => 0
  end.

Lemma vlan_bytes_tags b : vlan_bytes b = 4 * vlan_tags b.
Proof. unfold vlan_bytes, vlan_tags. by destruct (b_vlan_1_deep b), (b_vlan_2_deep b). Qed.

(** How far in front of the current byte the Ethernet header is, when a packet is
    dispatched to the node: VLAN tags, IPv4 or IPv6 without options, UDP. *)
Definition l2_header (k : punt_kind) (b : vlib_buffer_t) : Z :=
  match k with
  | KArp | KDisc => b_current_data b - default 0 (b_l2_hdr_offset b)
  | KDhcp | KL2tp => 8 + 20 + 14 + 4 * vlan_tags b
  | KDhcp6 => 8 + 40 + 14 + 4 * vlan_tags b
  | KNd => 14 + 4 * vlan_tags b
  | KShmTx => 0
  end.

(** The frame [l] has come to the node as the buffer [b]. *)
Record arrives (k : punt_kind) (b : vlib_buffer_t) (l : list Z) : Prop := {
  ar_frame : exists hdr, l = hdr ++ contents b /\ Z.of_nat (length hdr) = l2_header k b /\
               lies (b_data b) (b_current_data b - l2_header k b) hdr;
  ar_length : 0 <= b_current_length b /\ Z.of_nat (length l) < 2 ^ 16;
  ar_room : - 2 ^ 15 <= b_current_data b - l2_header k b /\ b_current_data b < 2 ^ 15
}.

(** The buffer as it is punted. *)
Definition rewound (k : punt_kind) (b : vlib_buffer_t) : vlib_buffer_t :=
  match k with
  | KArp | KDisc => rewind_to_l2 b
  | KDhcp | KDhcp6 | KNd | KL2tp => vlib_buffer_advance (- l2_header k b) b
  | KShmTx => b
  end.

Lemma bytes_take d o n m : bytes d o (Nat.min n m) = take m (bytes d o n).
Proof.
  destruct (decide (n <= m)%nat).
  - rewrite Nat.min_l, take_ge by (rewrite ?bytes_length; lia). done.
  - rewrite Nat.min_r by lia. replace n with (m + (n - m))%nat by lia.
    rewrite bytes_app, take_app_length'; [done|]. by rewrite bytes_length.
Qed.

Lemma rewound_ok k b l : arrives k b l →
  contents (rewound k b) = l /\ b_current_length (rewound k b) = Z.of_nat (length l).
Proof using All.
  intros [(hdr & -> & Hh & Hl) [Hlen1 Hlen2] Hroom].
  pose proof (contents_length b Hlen1) as Hc. rewrite length_app in *.
  assert (rewound k b =
    b⟪b_current_data ::= λ o, o - l2_header k b⟫⟪b_current_length ::= λ n, n + l2_header k b⟫) as ->.
  { destruct b as [d cur len rest o1 o2 rx tx v1 v2 off]. rsimpl in Hh. rsimpl in Hl. rsimpl in Hroom.
    simpl in *.
    destruct k; unfold rewound, rewind_to_l2, l2_header in *; simpl in *; rsimpl.
    all: try (rewrite advance_eq by (simpl; lia); rsimpl; f_equal; lia).
    3: f_equal; lia.
    all: destruct off as [off|]; simpl in *; [rewrite advance_eq by (simpl; lia); rsimpl; f_equal; lia|].
    all: rewrite reset_eq by (simpl; lia); rsimpl; f_equal; lia. }
  rproj. split; [|lia]. apply contents_lies; rproj; [lia|]. rewrite length_app. split; [lia|].
  apply lies_app. split; [done|]. eapply lies_at; [|].
  - unfold contents, lies. rewrite bytes_length. reflexivity.
  - rewrite Hh. lia.
Qed.

(** A node that takes a packet punts the rewound buffer, and drops it. *)
Lemma takes_punts k t now pm b :
  takes k pm b = true →
  exists e, punt_node_1 k t now pm b =
  match osvbng_punt_to_shm t now (rewound k b) (b_rx b) (kind_protocol k b) 0 0 pm with
  | Some (pm', ok) => Some (pm', (rewound k b, PUNT_NEXT_DROP, e ok))
  | None => None
  end.
Proof.
  destruct k; cbn [takes punt_node_1 kind_protocol rewound l2_header]; intros Ht;
    rewrite <- ?vlan_bytes_tags.
  - exists (λ ok : bool, if ok then PUNT_ERROR_PUNTED else PUNT_ERROR_DROPPED).
    unfold osvbng_punt_arp_1. by rewrite Ht.
  - exists (λ ok : bool, if ok then PUNT_ERROR_PUNTED else PUNT_ERROR_DROPPED).
    unfold osvbng_punt_pppoe_disc_1. by rewrite Ht.
  - exists (λ _, PUNT_ERROR_PUNTED). unfold osvbng_punt_dhcp_1. by rewrite Ht.
  - exists (λ _, PUNT_ERROR_NONE). unfold osvbng_punt_dhcp6_1. by rewrite Ht.
  - exists (λ ok : bool, if ok then PUNT_ERROR_PUNTED else PUNT_ERROR_DROPPED).
    unfold osvbng_punt_ipv6_nd_1. by rewrite Ht.
  - exists (λ _, PUNT_ERROR_NONE). unfold osvbng_punt_l2tp_1.
    apply andb_true_iff in Ht as [-> ->]. done.
  - by exists (λ _, PUNT_ERROR_NONE).
Qed.

(** Whether the policer lets a packet pass and the ring has room for it. *)
Definition punt_admits (t : nat) (now : f64) (protocol : Z) (pm : osvbng_punt_main_t) : bool :=
  match pm_per_thread pm !! t with
  | Some pt =>
      match osvbng_punt_policer_allow pt now protocol with
      | Some (_, allowed) =>
          allowed && negb (pm_punt_ring_size pm <=? osvbng_ring_count (pt_ring pt))
      | None => false
      end
  | None => false
  end.

Lemma to_shm_admits t now b sw proto ov iv pm pm' ok :
  pm_shm_initialized pm = true →
  osvbng_punt_to_shm t now b sw proto ov iv pm = Some (pm', ok) → ok = punt_admits t now proto pm.
Proof.
  unfold osvbng_punt_to_shm, punt_reserve, punt_admits. intros ->. cbn [negb].
  destruct (pm_per_thread pm !! t) as [pt|]; [|done]. cbn [mbind option_bind].
  destruct (osvbng_punt_policer_allow pt now proto) as [[pt1 allowed]|] eqn:Ep; [|done].
  cbn [mbind option_bind].
  assert (pt_ring pt1 = pt_ring pt) as ->.
  { unfold osvbng_punt_policer_allow in Ep. cbv zeta in Ep.
    destruct (pt_rate pt !! _); [|done]. cbn [mbind option_bind] in Ep.
    destruct (SpecFloat.SFeqb _ _); [by injection Ep as <- <-|].
    destruct (pt_last_update pt !! _); [|done]. destruct (pt_tokens pt !! _); [|done].
    destruct (pt_burst pt !! _); [|done]. cbn [mbind option_bind] in Ep.
    destruct (SpecFloat.SFleb _ _); by injection Ep as <- <-. }
  destruct allowed; cbn [negb andb mbind option_bind]; [|by intros [= _ <-]].
  unfold osvbng_ring_count. destruct (_ <=? _); cbn [negb mbind option_bind]; [by intros [= _ <-]|].
  destruct (punt_fill _ _ _ _ _ _ _ _ _); [|done]. cbn [mbind option_bind].
  destruct (punt_publish _ _ _); [|done]. cbn [mbind option_bind].
  destruct (punt_signal _ _ _); [|done]. by intros [= _ <-].
Qed.

(** The entry the daemon is to get for the frame [l]. *)
Definition punted_frame (slot_size : Z) (k : punt_kind) (now : f64) (b : vlib_buffer_t) (l : list Z)
    : punt_entry :=
  mkPuntEntry (b_rx b) (kind_protocol k b) 0 0 (f64_to_u64 (f64_mul now (f64_of_Z 1000000000)))
    (take (Z.to_nat slot_size) l).

(** With the invariant of the rings. *)
Lemma node_delivers s evs k t now b l :
  sys_inv s evs → ps_pc s !! t = Some PuntIdle → arrives k b l → takes k (ps_main s) b = true →
  0 <= kind_protocol k b < OSVBNG_PUNT_N_PROTO →
  let ok := punt_admits t now (kind_protocol k b) (ps_main s) in
  exists pm' e, punt_node_1 k t now (ps_main s) b = Some (pm', (rewound k b, PUNT_NEXT_DROP, e)) /\
    geometry pm' = geometry (ps_main s) /\
    sys_inv (mkPuntSys pm' (ps_pc s) (ps_cursor s))
      (evs ++ if ok then [Accepted t (punted_frame (pm_slot_size (ps_main s)) k now b l)] else []).
Proof using All.
  intros Hs Hi Ha Ht Hp ok. destruct (rewound_ok k b l Ha) as [Hc Hl].
  pose proof (ar_length _ _ _ Ha) as [_ Hl16]. pose proof (si_region _ _ Hs) as Hok.
  set (j := mkJob now (rewound k b) (b_rx b) (kind_protocol k b) 0 0).
  destruct (to_shm_ok s evs t j Hs Hi) as (pm' & ok' & He & Hs' & Hg).
  { split; [done|]. unfold is_u16. cbn. lia. }
  destruct (takes_punts k t now (ps_main s) b Ht) as [e ->].
  cbn [jb_now jb_buffer jb_sw_if_index jb_protocol jb_outer_vlan jb_inner_vlan j] in He.
  rewrite He. exists pm', (e ok'). split; [done|]. split; [done|].
  assert (ok' = ok) as -> by (eapply to_shm_admits; [by apply Hok|done]).
  unfold geometry in Hg. injection Hg as _ _ _ Hslot _ _ _.
  revert Hs'. destruct ok; [|done]. rewrite Hslot.
  assert (job_entry (pm_slot_size (ps_main s)) j = punted_frame (pm_slot_size (ps_main s)) k now b l)
    as ->; [|done].
  unfold job_entry, punted_frame, job_frame, j. cbn. f_equal.
  pose proof (region_positive _ Hok) as (_ & _ & Hsl). unfold contents in Hc. rewrite Hl in Hc.
  rewrite Hl, Z2Nat.inj_min, bytes_take, Nat2Z.id. rewrite Nat2Z.id in Hc. by rewrite Hc.
Qed.

End Deliver.

(** Entries the daemon can still read, after a call that accepted [es]. *)
Lemma contents_after s s' evs t u es :
  sys_inv s evs → sys_inv s' (evs ++ map (Accepted t) es) →
  geometry (ps_main s') = geometry (ps_main s) → Z.of_nat u < pm_n_punt_rings (ps_main s) →
  exists q, ring_contents s u = Some q /\
    ring_contents s' u = Some (q ++ if decide (u = t) then es else []).
Proof.
  intros Hs Hs' Hg Hu. unfold geometry in Hg. injection Hg as Hn _ _ _ _ _ _.
  destruct (contents_ok s evs u Hs Hu) as (q & Hq & Ha & _).
  destruct (contents_ok s' _ u Hs') as (q' & Hq' & Ha' & _); [by rewrite Hn|].
  exists q. split; [done|]. rewrite Hq'. f_equal.
  assert (delivered u (map (Accepted t) es) = []) as Hd by (clear; by induction es).
  assert (accepted u (map (Accepted t) es) = if decide (u = t) then es else []) as Hacc.
  { clear. induction es as [|e es IH]; [by destruct (decide _)|]. simpl in IH |- *. rewrite IH.
    destruct (decide (t = u)) as [->|]; [by rewrite !decide_True|].
    by rewrite !decide_False by congruence. }
  rewrite accepted_app, delivered_app, Hd, Hacc, Ha, app_nil_r, <- app_assoc in Ha'.
  by apply app_inv_head in Ha'.
Qed.

(** * Properties *)

(** Interfaces are enabled while the plugin runs. *)
Lemma region_enabled pm en : region_ok pm → region_ok (pm⟪pm_enabled_interfaces := en⟫).
Proof. intros [O1 O2 O3 O4 O5 O6]. split; try done. intros t pt Ht. by destruct (O5 t pt Ht). Qed.

Section Delivers.

Context `{VlibVppLaws}.

(** C10. From a packet to the daemon.  Take any moment of any interleaving of the threads and
    the daemon, a thread between two packets, and a packet that comes to a node that punts
    it.  The node's step drops the buffer and adds to what the daemon can read from that
    thread's ring one entry at the end, unless the policer or a full ring refuses it, with
    the packet's interface and protocol and the bytes [l], byte for byte, cut to the size of
    a slot.  No other ring changes.  [l] is what [arrives] says: the first buffer from the
    node's rewind distance in front of the current byte to its end, less than 65536 bytes.
    The ARP and discovery nodes rewind to the buffer's own layer 2 offset; the DHCP, DHCPv6,
    neighbour discovery and L2TP nodes by the fixed lengths of an Ethernet header, the VLAN
    tags the buffer is marked with, and the IPv4 or IPv6 header without options, and UDP; the
    last node by nothing.  So [l] is the received Ethernet frame where the Ethernet header is
    just that far in front.  It is not of a packet with IPv4 options or IPv6 extension
    headers, or decapsulated from PPPoE, for which [l] begins in the wrong place
    (osvbng_punt_dhcp.c:126); and of a chain of buffers only the first one's bytes are in [l]
    (osvbng_punt_shm.c:413). *)
Theorem punt_node_delivers n os listen file now0 pm0 pm en ops s evs sup_of arc k t now b l :
  osvbng_punt_main_loop_enter n os listen file now0 pm0 = (pm, true) →
  rates_ok pm0 → pm_sizes_ok pm → Forall (op_ok n) ops →
  punt_run ops (punt_start (pm⟪pm_enabled_interfaces := en⟫)) = Some (s, evs) →
  ps_pc s !! t = Some PuntIdle → arrives k b l → takes sup_of k (ps_main s) b = true →
  0 <= kind_protocol k b < OSVBNG_PUNT_N_PROTO →
  exists pm' b' e,
    punt_node_1 sup_of arc k t now (ps_main s) b = Some (pm', (b', PUNT_NEXT_DROP, e)) /\
    ∀ u, Z.of_nat u < n →
      exists q, ring_contents s u = Some q /\
        ring_contents (mkPuntSys pm' (ps_pc s) (ps_cursor s)) u =
        Some (q ++ if decide (u = t) then
                     if punt_admits t now (kind_protocol k b) (ps_main s)
                     then [punted_frame (pm_slot_size pm) k now b l] else []
                   else []).
Proof using All.
  intros Hb Hr Hs Hops Hrun Hi Ha Ht Hp.
  destruct (loop_enter_ok _ _ _ _ _ _ _ Hb Hr Hs) as (Hok & Hempty & _ & _ & _ & Hn).
  assert (sys_inv (punt_start (pm⟪pm_enabled_interfaces := en⟫)) []) as Hstart
    by (apply start_ok; [by apply region_enabled|done]).
  destruct (punt_run_ok ops _ [] Hstart) as (s1 & evs1 & He & Hinv & Hg).
  { cbn [punt_start ps_main]. rproj. by rewrite Hn. }
  rewrite Hrun in He. injection He as <- <-. cbn [app] in Hinv.
  unfold geometry in Hg. injection Hg as Gn _ _ Gs _ _ _. cbn [punt_start ps_main] in Gn, Gs.
  rproj in Gn. rproj in Gs.
  destruct (node_delivers sup_of arc s evs k t now b l Hinv Hi Ha Ht Hp) as (pm' & e & -> & Hg' & Hinv').
  exists pm', (rewound k b), e. split; [done|]. intros u Hu. rewrite <- Gs.
  set (es := if punt_admits _ _ _ _ then _ else _).
  apply (contents_after s _ evs t u es); [done| |done|by rewrite Gn, Hn].
  revert Hinv'. unfold es. by destruct (punt_admits _ _ _ _).
Qed.

End Delivers.

(** An ARP request behind a tag, dispatched at its ARP header. *)
Definition sample_arp_frame : list Z :=
  [255; 255; 255; 255; 255; 255; 2; 0; 0; 0; 0; 1; 129; 0; 0; 100; 8; 6; 0; 1; 8; 0; 6; 4; 0; 1].
Definition sample_arp : vlib_buffer_t :=
  (sample_buffer 0 sample_arp_frame 0)⟪b_current_data := 18⟫⟪b_current_length := 8⟫
    ⟪b_rx := 10⟫⟪b_vlan_1_deep := true⟫⟪b_l2_hdr_offset := Some 0⟫.
Definition sample_enabled : list (gset Z) := [∅; ∅; {[10]}; ∅; ∅; ∅; ∅; ∅].

Lemma sample_arp_arrives : arrives KArp sample_arp sample_arp_frame.
Proof.
  split.
  - exists (take 18 sample_arp_frame). split_and!; by vm_compute.
  - by vm_compute.
  - by vm_compute.
Qed.

Lemma punt_node_delivers_witness :
  let s := punt_start ((sample_boot 3)⟪pm_enabled_interfaces := sample_enabled⟫) in
  exists pm' b' e,
    punt_node_1 (λ _, None) None KArp 1 (f64_of_Z 1) (ps_main s) sample_arp =
      Some (pm', (b', PUNT_NEXT_DROP, e)) /\
    ∀ u, Z.of_nat u < 3 →
      exists q, ring_contents s u = Some q /\
        ring_contents (mkPuntSys pm' (ps_pc s) (ps_cursor s)) u =
        Some (q ++ if decide (u = 1%nat) then
                     if punt_admits 1 (f64_of_Z 1) (kind_protocol KArp sample_arp) (ps_main s)
                     then [punted_frame (pm_slot_size (sample_boot 3)) KArp (f64_of_Z 1) sample_arp
                             sample_arp_frame] else []
                   else []).
Proof.
  apply (punt_node_delivers 3 sample_os (Some (6, 0)) 1 (f64_of_Z 0)
           (fst (osvbng_punt_init punt_main_zero)) (sample_boot 3) sample_enabled [] _ []).
  - exact sample_boot_eq.
  - by split.
  - exact sample_boot_sizes.
  - apply Forall_nil_2.
  - reflexivity.
  - vm_compute. reflexivity.
  - exact sample_arp_arrives.
  - vm_compute. reflexivity.
  - split; by vm_compute.
Defined.

(** The policer does let it pass. *)
Example sample_arp_admitted :
  punt_admits 1 (f64_of_Z 1) OSVBNG_PUNT_PROTO_ARP (sample_boot 3) = true.
Proof. vm_compute. reflexivity. Qed.

(** Six discovery packets, two of them from an interface that does not punt, through frames
    that have room for one, four and more. *)
Definition sample_disc (sw : Z) : f64 * vlib_buffer_t :=
  (f64_of_Z 1, (sample_buffer 0 sample_arp_frame 0)⟪b_current_data := 18⟫⟪b_current_length := 8⟫
    ⟪b_rx := sw⟫⟪b_vlan_1_deep := true⟫⟪b_l2_hdr_offset := Some 0⟫).
Definition sample_disc_main : osvbng_punt_main_t :=
  (sample_boot 3)⟪pm_enabled_interfaces := [∅; ∅; ∅; {[10]}; ∅; ∅; ∅; ∅]⟫.

Lemma disc_loops_are_packets_witness :
  osvbng_punt_pppoe_disc_inline 1 [1; 4; 2; 2; 2; 2]%nat sample_disc_main (map sample_disc [10; 10; 7; 10; 7; 10]) =
  punt_node (osvbng_punt_pppoe_disc_1 1) sample_disc_main (map sample_disc [10; 10; 7; 10; 7; 10]).
Proof.
  apply (disc_loops_are_packets 1).
  - repeat (apply Forall_cons_2; [lia|]). apply Forall_nil_2.
  - simpl. lia.
Defined.

Example sample_disc_counts :
  option_map (λ r, snd (fst r))
    (osvbng_punt_pppoe_disc_inline 1 [1; 4; 2; 2; 2; 2]%nat sample_disc_main (map sample_disc [10; 10; 7; 10; 7; 10])) =
  Some (mkPuntCounts 4 0 2).
Proof. vm_compute. reflexivity. Qed.
