(* ===== verification/PuntEnable.v ===== *)
(** Which interfaces a protocol is punted from, and what the plugin has asked of VPP for
    them: in every state the API can reach, the UDP ports delivered to the plugin are those
    of the protocols enabled somewhere, and, as long as DHCPv4 is enabled and disabled in
    turn on each interface, the tables with a broadcast receive route are those of the
    interfaces it is enabled on. *)

From S2P Require Import Prelude Packet Access PuntShm PuntConfig PuntLayout.

#[local] Open Scope Z_scope.

(** * Runs *)

Section Run.

Context `{AccessVpp}.
Variable ip4_fib_index_of : Z → Z.

Definition enabled_on (pm : osvbng_punt_main_t) (protocol : Z) : gset Z :=
  default ∅ (pm_enabled_interfaces pm !! Z.to_nat protocol).

(** States and logs from start-up on.  The flag [true] restricts the calls for DHCPv4 to
    those that change something. *)
Inductive punt_cfg (strict : bool) : osvbng_punt_main_t → list punt_call → Prop :=
  | cfg_init pm cs : osvbng_punt_init punt_main_zero = (pm, cs) → punt_cfg strict pm cs
  | cfg_enter pm cs n os listen file now pm' ok :
      punt_cfg strict pm cs →
      osvbng_punt_main_loop_enter n os listen file now pm = (pm', ok) → punt_cfg strict pm' cs
  | cfg_policer pm cs now protocol rate burst pm' rv :
      punt_cfg strict pm cs →
      vl_api_osvbng_punt_policer_configure now protocol rate burst pm = (pm', rv) →
      punt_cfg strict pm' cs
  | cfg_api pm cs node sw protocol (enable : bool) pm' cs' rv :
      punt_cfg strict pm cs → is_u32 sw → 0 <= protocol < 256 →
      (strict = true → protocol = OSVBNG_PUNT_PROTO_DHCPV4 →
       enable = negb (punt_enabled pm OSVBNG_PUNT_PROTO_DHCPV4 sw)) →
      vl_api_osvbng_punt_enable_disable ip4_fib_index_of node sw protocol enable pm = (pm', cs', rv) →
      punt_cfg strict pm' (cs ++ cs').

(** * The log *)

Lemma bcast_fibs_app cs cs' :
  bcast_fibs (cs ++ cs') = foldl (λ s c, bcast_call c s) (bcast_fibs cs) cs'.
Proof. apply foldl_app. Qed.

Lemma udp_ports_app cs cs' :
  udp_ports (cs ++ cs') = foldl (λ s c, port_call c s) (udp_ports cs) cs'.
Proof. apply foldl_app. Qed.

(** * Sets of interfaces *)

Lemma enable_set_at protocol sw pm q :
  length (pm_enabled_interfaces pm) = 8%nat → 0 <= protocol < 8 → 0 <= q →
  enabled_on (enable_set protocol sw pm) q =
  if decide (q = protocol) then {[sw]} ∪ enabled_on pm q else enabled_on pm q.
Proof.
  intros Hl Hp Hq. unfold enabled_on, enable_set. rproj.
  destruct (decide (q = protocol)) as [->|Hne].
  - destruct (lookup_lt_is_Some_2 (pm_enabled_interfaces pm) (Z.to_nat protocol)) as [s Hs]; [lia|].
    by rewrite list_lookup_alter_eq, Hs.
  - rewrite list_lookup_alter_ne by lia. done.
Qed.

Lemma enable_unset_at protocol sw pm q :
  length (pm_enabled_interfaces pm) = 8%nat → 0 <= protocol < 8 → 0 <= q →
  enabled_on (enable_unset protocol sw pm) q =
  if decide (q = protocol) then enabled_on pm q ∖ {[sw]} else enabled_on pm q.
Proof.
  intros Hl Hp Hq. unfold enabled_on, enable_unset. rproj.
  destruct (decide (q = protocol)) as [->|Hne].
  - destruct (lookup_lt_is_Some_2 (pm_enabled_interfaces pm) (Z.to_nat protocol)) as [s Hs]; [lia|].
    by rewrite list_lookup_alter_eq, Hs.
  - rewrite list_lookup_alter_ne by lia. done.
Qed.

(** How many interfaces of [E] are in a table. *)
Definition in_fib (E : gset Z) (f : Z) : Z := Z.of_nat (size (filter (λ sw, ip4_fib_index_of sw = f) E)).

Lemma in_fib_add E sw f :
  sw ∉ E → in_fib ({[sw]} ∪ E) f = in_fib E f + if decide (ip4_fib_index_of sw = f) then 1 else 0.
Proof.
  intros Hsw. unfold in_fib. rewrite filter_union_L, filter_singleton_L by apply _.
  destruct (decide _) as [Hf|Hf].
  - rewrite size_union, size_singleton by set_solver. lia.
  - rewrite union_empty_l_L. lia.
Qed.

Lemma in_fib_remove E sw f :
  sw ∈ E → in_fib E f = in_fib (E ∖ {[sw]}) f + if decide (ip4_fib_index_of sw = f) then 1 else 0.
Proof.
  intros Hsw. rewrite <- in_fib_add by set_solver. f_equal.
  by rewrite <- (union_difference_singleton_L sw E).
Qed.

Lemma in_fib_pos E f : 0 < in_fib E f <-> exists sw, sw ∈ E /\ ip4_fib_index_of sw = f.
Proof.
  unfold in_fib. set (F := filter _ E). split.
  - intros Hp. destruct (set_choose_L F) as [sw Hsw].
    { intros He. rewrite He, size_empty in Hp. lia. }
    unfold F in Hsw. apply elem_of_filter in Hsw as [? ?]. eauto.
  - intros (sw & Hsw & Hf). assert (sw ∈ F) as Hin by (by apply elem_of_filter).
    assert (size F ≠ 0%nat) as Hne; [|lia]. intros H0%size_empty_inv. set_solver.
Qed.

Lemma u32_set_size (E : gset Z) : (∀ sw, sw ∈ E → is_u32 sw) → Z.of_nat (size E) <= 2 ^ 32.
Proof.
  intros HE. assert (E ⊆ list_to_set (seqZ 0 (2 ^ 32))) as Hsub.
  { intros sw Hsw. apply elem_of_list_to_set, elem_of_seqZ. apply HE in Hsw. unfold is_u32 in Hsw. lia. }
  apply subseteq_size in Hsub. rewrite size_list_to_set in Hsub by apply NoDup_seqZ.
  rewrite length_seqZ in Hsub. lia.
Qed.

Lemma in_fib_range E f : (∀ sw, sw ∈ E → is_u32 sw) → 0 <= in_fib E f <= 2 ^ 32.
Proof.
  intros HE. unfold in_fib. split; [lia|]. apply u32_set_size. intros sw [_ Hsw]%elem_of_filter. auto.
Qed.

(** * The references to the broadcast route *)

Definition refs_ok (E : gset Z) (refs : gmap Z Z) (cs : list punt_call) : Prop :=
  ∀ f, refs !! f = (if decide (in_fib E f = 0) then None else Some (in_fib E f)) /\
       (f ∈ bcast_fibs cs <-> 0 < in_fib E f).

Lemma bcast_enable_ok E pm cs sw pm' cs' :
  (∀ sw, sw ∈ E → is_u32 sw) → refs_ok E (pm_dhcp_bcast_refs pm) cs → sw ∉ E →
  osvbng_punt_dhcp_bcast_route ip4_fib_index_of sw true pm = (pm', cs') →
  refs_ok ({[sw]} ∪ E) (pm_dhcp_bcast_refs pm') (cs ++ cs') /\
  pm_enabled_interfaces pm' = pm_enabled_interfaces pm.
Proof.
  intros HE Hr Hsw He. unfold osvbng_punt_dhcp_bcast_route in He.
  destruct (Hr (ip4_fib_index_of sw)) as [Hc Hb]. rewrite Hc in He.
  pose proof (in_fib_range E (ip4_fib_index_of sw) HE) as Hrange.
  destruct (decide (in_fib E (ip4_fib_index_of sw) = 0)) as [E0|E0]; injection He as <- <-;
    (split; [|done]); intros f; rproj; rewrite in_fib_add by done;
    destruct (Hr f) as [Hc' Hb']; destruct (decide (ip4_fib_index_of sw = f)) as [<-|Hne].
  - rewrite lookup_insert_eq, E0, bcast_fibs_app. simpl. split; [done|]. set_solver by lia.
  - rewrite lookup_insert_ne, Hc', Z.add_0_r, bcast_fibs_app by done. split; [done|].
    simpl. set_solver by lia.
  - rewrite lookup_insert_eq, decide_False, u64_small, app_nil_r by (lia || unfold is_u64; lia).
    split; [done|]. rewrite Hb'. lia.
  - by rewrite lookup_insert_ne, Hc', Z.add_0_r, app_nil_r by done.
Qed.

Lemma bcast_disable_ok E pm cs sw pm' cs' :
  (∀ sw, sw ∈ E → is_u32 sw) → refs_ok E (pm_dhcp_bcast_refs pm) cs → sw ∈ E →
  osvbng_punt_dhcp_bcast_route ip4_fib_index_of sw false pm = (pm', cs') →
  refs_ok (E ∖ {[sw]}) (pm_dhcp_bcast_refs pm') (cs ++ cs') /\
  pm_enabled_interfaces pm' = pm_enabled_interfaces pm.
Proof.
  intros HE Hr Hsw He. unfold osvbng_punt_dhcp_bcast_route in He.
  destruct (Hr (ip4_fib_index_of sw)) as [Hc Hb].
  pose proof (in_fib_remove E sw (ip4_fib_index_of sw) Hsw) as Hrem. rewrite decide_True in Hrem by done.
  pose proof (in_fib_range (E ∖ {[sw]}) (ip4_fib_index_of sw) ltac:(set_solver)) as Hrange.
  rewrite decide_False in Hc by lia. rewrite Hc in He.
  destruct (Z.leb_spec (in_fib E (ip4_fib_index_of sw)) 1); injection He as <- <-;
    (split; [|done]); intros f; rproj; destruct (Hr f) as [Hc' Hb'];
    pose proof (in_fib_remove E sw f Hsw) as Hf;
    destruct (decide (ip4_fib_index_of sw = f)) as [<-|Hne].
  - rewrite lookup_delete_eq, decide_True, bcast_fibs_app by lia. simpl. split; [done|]. set_solver by lia.
  - rewrite lookup_delete_ne, Hc', bcast_fibs_app, Hf, Z.add_0_r by done. split; [done|].
    simpl. rewrite Hf, Z.add_0_r in Hb'. set_solver.
  - rewrite lookup_insert_eq, decide_False, app_nil_r by lia. split; [f_equal; lia|]. rewrite Hb'. lia.
  - rewrite lookup_insert_ne, Hc', app_nil_r, Hb', Hf, Z.add_0_r by done. done.
Qed.

(** * Ports *)

Definition proto_ports (protocol : Z) : list (Z * bool) :=
  if protocol =? OSVBNG_PUNT_PROTO_DHCPV4 then [(67, true); (68, true)]
  else if protocol =? OSVBNG_PUNT_PROTO_DHCPV6 then [(546, false); (547, false)]
  else if protocol =? OSVBNG_PUNT_PROTO_L2TP then [(1701, true)] else [].

Lemma proto_ports_disjoint p q x : x ∈ proto_ports p → x ∈ proto_ports q → p = q.
Proof.
  unfold proto_ports, OSVBNG_PUNT_PROTO_DHCPV4, OSVBNG_PUNT_PROTO_DHCPV6, OSVBNG_PUNT_PROTO_L2TP.
  zcases; subst; try done; set_solver.
Qed.

Definition ports_ok (pm : osvbng_punt_main_t) (cs : list punt_call) : Prop :=
  ∀ x, x ∈ udp_ports cs <-> exists p, 0 <= p < 8 /\ x ∈ proto_ports p /\ enabled_on pm p ≠ ∅.

Lemma enabled_on_eq pm pm' p :
  pm_enabled_interfaces pm' = pm_enabled_interfaces pm → enabled_on pm' p = enabled_on pm p.
Proof. unfold enabled_on. by intros ->. Qed.

(** A call that changes the set of the protocol [p] only. *)
Lemma ports_step p pm pm' cs cs' :
  0 <= p < 8 → (∀ q, 0 <= q → q ≠ p → enabled_on pm' q = enabled_on pm q) →
  (∀ x, x ∈ udp_ports (cs ++ cs') <->
        x ∉ proto_ports p /\ x ∈ udp_ports cs \/ x ∈ proto_ports p /\ enabled_on pm' p ≠ ∅) →
  ports_ok pm cs → ports_ok pm' (cs ++ cs').
Proof.
  intros Hp Hq Hx Hok x. rewrite Hx, (Hok x). split.
  - intros [[Hn (q & ? & Hin & Hne)]|[Hin Hne]]; [|by exists p].
    exists q. rewrite Hq; [done|lia|]. by intros ->.
  - intros (q & ? & Hin & Hne). destruct (decide (q = p)) as [->|Hne']; [by right|].
    left. split; [|exists q; by rewrite <- Hq by (lia || done)].
    intros Hin'. apply Hne'. by apply (proto_ports_disjoint q p x).
Qed.

Lemma enable_elts_0 p pm : (enable_elts p pm =? 0)%nat = bool_decide (enabled_on pm p = ∅).
Proof.
  unfold enable_elts. fold (enabled_on pm p).
  destruct (Nat.eqb_spec (size (enabled_on pm p)) 0) as [E|E]; symmetry.
  - apply bool_decide_eq_true. by apply size_empty_inv, leibniz_equiv in E.
  - apply bool_decide_eq_false. intros He. apply E. rewrite He. apply size_empty.
Qed.

(** * Every handler *)

Record cfg_ok (strict : bool) (pm : osvbng_punt_main_t) (cs : list punt_call) : Prop := {
  co_length : length (pm_enabled_interfaces pm) = 8%nat;
  co_u32 p sw : 0 <= p < 8 → sw ∈ enabled_on pm p → is_u32 sw;
  co_ports : ports_ok pm cs;
  co_refs : strict = true →
    refs_ok (enabled_on pm OSVBNG_PUNT_PROTO_DHCPV4) (pm_dhcp_bcast_refs pm) cs
}.

(** What a handler for [p] does to the sets and the log, apart from the broadcast route. *)
Record handled (p sw : Z) (enable : bool) (pm pm' : osvbng_punt_main_t) (cs : list punt_call) : Prop := {
  hd_enabled : pm_enabled_interfaces pm' =
    pm_enabled_interfaces (if enable then enable_set p sw pm else enable_unset p sw pm);
  hd_ports : ∀ s x, x ∈ foldl (λ s c, port_call c s) s cs <->
    x ∉ proto_ports p /\ x ∈ s \/
    x ∈ proto_ports p /\ (if enable then True else enabled_on pm' p ≠ ∅ /\ x ∈ s)
}.

Lemma handled_sets p sw enable pm pm' cs :
  handled p sw enable pm pm' cs → length (pm_enabled_interfaces pm) = 8%nat → 0 <= p < 8 →
  length (pm_enabled_interfaces pm') = 8%nat /\
  enabled_on pm' p = (if enable then {[sw]} ∪ enabled_on pm p else enabled_on pm p ∖ {[sw]}) /\
  ∀ q, 0 <= q → q ≠ p → enabled_on pm' q = enabled_on pm q.
Proof.
  intros [He _] Hl Hp. rewrite He. split.
  { destruct enable; unfold enable_set, enable_unset; rproj; by rewrite length_alter. }
  split.
  - rewrite (enabled_on_eq (if enable then enable_set p sw pm else enable_unset p sw pm)) by done.
    destruct enable; [rewrite enable_set_at|rewrite enable_unset_at]; try done; try lia;
      by rewrite decide_True.
  - intros q Hq Hne.
    rewrite (enabled_on_eq (if enable then enable_set p sw pm else enable_unset p sw pm)) by done.
    destruct enable; [rewrite enable_set_at|rewrite enable_unset_at]; try done; try lia;
      by rewrite decide_False.
Qed.

Lemma handled_ok strict p sw enable pm pm' cs cs' :
  cfg_ok strict pm cs → 0 <= p < 8 → is_u32 sw → handled p sw enable pm pm' cs' →
  (strict = true → refs_ok (enabled_on pm' OSVBNG_PUNT_PROTO_DHCPV4) (pm_dhcp_bcast_refs pm') (cs ++ cs')) →
  cfg_ok strict pm' (cs ++ cs').
Proof.
  intros [C1 C2 C3 C4] Hp Hsw Hh Hrefs. destruct (handled_sets _ _ _ _ _ _ Hh C1 Hp) as (H1 & H2 & H3).
  split; [done| | |done].
  - intros q w Hq. destruct (decide (q = p)) as [->|Hne]; [|rewrite H3 by (lia || done); by apply C2].
    rewrite H2. destruct enable.
    + intros [->%elem_of_singleton|?]%elem_of_union; [done|by apply (C2 p)].
    + intros [? _]%elem_of_difference. by apply (C2 p).
  - apply (ports_step p pm); [done|done| |done]. intros x. rewrite udp_ports_app, (hd_ports _ _ _ _ _ _ Hh).
    destruct enable.
    + rewrite H2. assert ({[sw]} ∪ enabled_on pm p ≠ ∅) by set_solver. tauto.
    + split; [tauto|]. intros [?|[Hin Hne]]; [by left|]. right. split_and!; try done.
      apply C3. exists p. split; [done|]. split; [done|]. rewrite H2 in Hne. set_solver.
Qed.

(** The broadcast route is no port. *)
Lemma bcast_no_port sw enable pm pm' cs :
  osvbng_punt_dhcp_bcast_route ip4_fib_index_of sw enable pm = (pm', cs) →
  pm_enabled_interfaces pm' = pm_enabled_interfaces pm /\
  (∀ s, foldl (λ s c, port_call c s) s cs = s).
Proof.
  unfold osvbng_punt_dhcp_bcast_route. destruct enable, (pm_dhcp_bcast_refs pm !! _); try destruct (_ <=? _);
    intros [= <- <-]; done.
Qed.

(** The registrations of a handler. *)
Lemma register_ports s (ports : list (Z * bool)) x :
  x ∈ foldl (λ s c, port_call c s) s (map (λ p, UdpRegister p.1 p.2) ports) <-> x ∈ ports \/ x ∈ s.
Proof.
  revert s. induction ports as [|[p f] ports IH]; intros s; simpl; [set_solver|].
  rewrite IH. set_solver.
Qed.
Lemma unregister_ports s (ports : list (Z * bool)) x :
  x ∈ foldl (λ s c, port_call c s) s (map (λ p, UdpUnregister p.1 p.2) ports) <-> x ∉ ports /\ x ∈ s.
Proof.
  revert s. induction ports as [|[p f] ports IH]; intros s; simpl; [set_solver|].
  rewrite IH. set_solver.
Qed.

Lemma handled_register p sw pm pm' cs :
  pm_enabled_interfaces pm' = pm_enabled_interfaces (enable_set p sw pm) →
  (∀ s, foldl (λ s c, port_call c s) s cs =
        foldl (λ s c, port_call c s) s (map (λ p, UdpRegister p.1 p.2) (proto_ports p))) →
  handled p sw true pm pm' cs.
Proof.
  intros He Hcs. split; [done|]. intros s x. rewrite Hcs, register_ports.
  destruct (decide (x ∈ proto_ports p)); tauto.
Qed.

Lemma handled_unregister p sw pm pm' cs :
  pm_enabled_interfaces pm' = pm_enabled_interfaces (enable_unset p sw pm) →
  (∀ s, foldl (λ s c, port_call c s) s cs =
        if (enable_elts p pm' =? 0)%nat
        then foldl (λ s c, port_call c s) s (map (λ p, UdpUnregister p.1 p.2) (proto_ports p)) else s) →
  handled p sw false pm pm' cs.
Proof.
  intros He Hcs. split; [done|]. intros s x. rewrite Hcs, enable_elts_0.
  destruct (bool_decide_reflect (enabled_on pm' p = ∅)) as [E|E].
  - rewrite unregister_ports. tauto.
  - destruct (decide (x ∈ proto_ports p)); tauto.
Qed.

(** Every call that is accepted does what its protocol's handler says. *)
Lemma api_handled node p sw enable pm pm' cs rv :
  0 <= p →
  vl_api_osvbng_punt_enable_disable ip4_fib_index_of node sw p enable pm = (pm', cs, rv) →
  (pm' = pm /\ cs = []) \/
  p < 8 /\ handled p sw enable pm pm' cs /\
  (p ≠ OSVBNG_PUNT_PROTO_DHCPV4 → pm_dhcp_bcast_refs pm' = pm_dhcp_bcast_refs pm /\ ∀ s, foldl (λ s c, bcast_call c s) s cs = s).
Proof.
  intros Hp He. unfold vl_api_osvbng_punt_enable_disable in He.
  destruct (negb _); [left; by injection He as <- <- _|].
  destruct (Z.eqb_spec p OSVBNG_PUNT_PROTO_DHCPV4) as [->|H4]; [|
  destruct (Z.eqb_spec p OSVBNG_PUNT_PROTO_DHCPV6) as [->|H6]; [|
  destruct (Z.eqb_spec p OSVBNG_PUNT_PROTO_L2TP) as [->|Ht]; [|
  destruct (Z.eqb_spec p OSVBNG_PUNT_PROTO_IPV6_ND) as [->|Hd]]]].
  - right. split; [done|]. split; [|by intros []]. destruct enable.
    + unfold osvbng_punt_enable_dhcpv4 in He.
      destruct (osvbng_punt_dhcp_bcast_route _ _ _ _) as [pm1 cs1] eqn:Eb. injection He as <- <- _.
      destruct (bcast_no_port _ _ _ _ _ Eb) as (H1 & H2). apply handled_register; [done|].
      intros s. cbn [app foldl]. by rewrite H2.
    + unfold osvbng_punt_disable_dhcpv4 in He.
      destruct (osvbng_punt_dhcp_bcast_route _ _ _ _) as [pm1 cs1] eqn:Eb. injection He as <- <- _.
      destruct (bcast_no_port _ _ _ _ _ Eb) as (H1 & H2). apply handled_unregister; [done|].
      intros s. rewrite foldl_app, H2. by destruct (_ =? _)%nat.
  - right. split; [done|]. destruct enable; injection He as <- <- _.
    + split; [by apply handled_register|done].
    + split; [|by destruct (_ =? _)%nat]. apply handled_unregister; [done|].
      intros s. by destruct (_ =? _)%nat.
  - right. split; [done|]. destruct enable.
    + unfold osvbng_punt_enable_l2tp in He. injection He as <- <- _.
      assert (pm_enabled_interfaces (osvbng_punt_l2tp_resolve_next_arc node pm) = pm_enabled_interfaces pm /\
              pm_dhcp_bcast_refs (osvbng_punt_l2tp_resolve_next_arc node pm) = pm_dhcp_bcast_refs pm) as [E1 E2].
      { unfold osvbng_punt_l2tp_resolve_next_arc. by repeat case_match. }
      split; [|done]. apply handled_register; [|done]. unfold enable_set. rproj. by rewrite E1.
    + injection He as <- <- _. split; [|by destruct (_ =? _)%nat]. apply handled_unregister; [done|].
      intros s. by destruct (_ =? _)%nat.
  - right. split; [done|]. destruct enable; injection He as <- <- _.
    + split; [by apply handled_register|done].
    + split; [|done]. apply handled_unregister; [done|]. intros s. by destruct (_ =? _)%nat.
  - unfold osvbng_punt_enable_disable in He.
    destruct (Z.leb_spec OSVBNG_PUNT_N_PROTO p) as [|Hlt]; [left; by injection He as <- <- _|].
    destruct (sw_interface_is_free sw); [left; by injection He as <- <- _|].
    destruct (negb _); [left; by injection He as <- <- _|]. right. split; [exact Hlt|].
    assert (proto_ports p = []) as Hports.
    { unfold proto_ports. by rewrite !(proj2 (Z.eqb_neq _ _)). }
    destruct enable; injection He as <- <- _; (split; [|done]).
    + apply handled_register; [done|]. by rewrite Hports.
    + apply handled_unregister; [done|]. intros s. rewrite Hports. by destruct (_ =? _)%nat.
Qed.

Lemma refs_ok_quiet E refs cs cs' :
  (∀ s, foldl (λ s c, bcast_call c s) s cs' = s) → refs_ok E refs cs → refs_ok E refs (cs ++ cs').
Proof. intros Hq Hr f. rewrite bcast_fibs_app, Hq. apply Hr. Qed.

(** DHCPv4 is enabled where it is not, or disabled where it is. *)
Lemma dhcp_refs_ok node sw enable pm pm' cs cs' rv :
  length (pm_enabled_interfaces pm) = 8%nat →
  (∀ w, w ∈ enabled_on pm OSVBNG_PUNT_PROTO_DHCPV4 → is_u32 w) →
  refs_ok (enabled_on pm OSVBNG_PUNT_PROTO_DHCPV4) (pm_dhcp_bcast_refs pm) cs →
  enable = negb (punt_enabled pm OSVBNG_PUNT_PROTO_DHCPV4 sw) →
  vl_api_osvbng_punt_enable_disable ip4_fib_index_of node sw OSVBNG_PUNT_PROTO_DHCPV4 enable pm
    = (pm', cs', rv) →
  refs_ok (enabled_on pm' OSVBNG_PUNT_PROTO_DHCPV4) (pm_dhcp_bcast_refs pm') (cs ++ cs').
Proof.
  intros Hl Hu Hr Hen He. unfold vl_api_osvbng_punt_enable_disable in He.
  destruct (negb (sw_interface_is_api_valid sw)); [injection He as <- <- _; by rewrite app_nil_r|].
  rewrite Z.eqb_refl in He. unfold punt_enabled in Hen.
  fold (enabled_on pm OSVBNG_PUNT_PROTO_DHCPV4) in Hen.
  destruct (bool_decide_reflect (sw ∈ enabled_on pm OSVBNG_PUNT_PROTO_DHCPV4)) as [Hin|Hin];
    cbn [negb] in Hen; subst enable.
  - unfold osvbng_punt_disable_dhcpv4 in He.
    destruct (osvbng_punt_dhcp_bcast_route _ _ _ _) as [pm1 cs1] eqn:Eb. injection He as <- <- _.
    apply (bcast_disable_ok (enabled_on pm OSVBNG_PUNT_PROTO_DHCPV4) _ cs) in Eb as [Hr' Hsame];
      [|done|done|done].
    rewrite (enabled_on_eq _ _ _ Hsame), enable_unset_at, decide_True by done.
    rewrite app_assoc. apply refs_ok_quiet; [|done]. intros s. by destruct (_ =? _)%nat.
  - unfold osvbng_punt_enable_dhcpv4 in He.
    destruct (osvbng_punt_dhcp_bcast_route _ _ _ _) as [pm1 cs1] eqn:Eb. injection He as <- <- _.
    apply (bcast_enable_ok (enabled_on pm OSVBNG_PUNT_PROTO_DHCPV4) _
             (cs ++ [UdpRegister 67 true; UdpRegister 68 true])) in Eb as [Hr' Hsame];
      [|done|by apply refs_ok_quiet|done].
    rewrite (enabled_on_eq _ _ _ Hsame), enable_set_at, decide_True by done.
    by rewrite <- app_assoc in Hr'.
Qed.

(** Start-up and the policer leave the interfaces alone. *)
Lemma enter_keeps n os listen file now pm pm' ok :
  osvbng_punt_main_loop_enter n os listen file now pm = (pm', ok) →
  pm_enabled_interfaces pm' = pm_enabled_interfaces pm /\ pm_dhcp_bcast_refs pm' = pm_dhcp_bcast_refs pm.
Proof.
  assert (∀ pm1 ok1, osvbng_punt_shm_init n os pm = (pm1, ok1) →
    pm_enabled_interfaces pm1 = pm_enabled_interfaces pm /\
    pm_dhcp_bcast_refs pm1 = pm_dhcp_bcast_refs pm) as Hinit.
  { intros pm1 ok1. unfold osvbng_punt_shm_init.
    destruct os as [[fd|] [|] [|] [pfd|] [efd|]]; intros [<- <-]%pair_eq; split; reflexivity. }
  unfold osvbng_punt_main_loop_enter.
  destruct (osvbng_punt_shm_init n os pm) as [pm1 ok1]. destruct (Hinit pm1 ok1 eq_refl) as [H1 H2].
  rewrite <- H1, <- H2. clear. destruct ok1; cbn [negb]; [|by intros [<- <-]%pair_eq].
  unfold osvbng_punt_eventfd_socket_init. destruct (negb _); cbn [negb]; [by intros [<- <-]%pair_eq|].
  destruct listen as [[lfd lfile]|]; cbn [negb]; [|by intros [<- <-]%pair_eq].
  unfold osvbng_punt_egress_init. destruct (_ || _); cbn [negb]; by intros [<- <-]%pair_eq.
Qed.

Lemma init_sets pm cs :
  osvbng_punt_init punt_main_zero = (pm, cs) →
  pm_enabled_interfaces pm = replicate 8 ∅ /\ pm_dhcp_bcast_refs pm = ∅ /\
  cs = osvbng_punt_register_ethertypes.
Proof. intros [<- <-]%pair_eq. split_and!; reflexivity. Qed.

Lemma cfg_sound strict pm cs : punt_cfg strict pm cs → cfg_ok strict pm cs.
Proof.
  induction 1 as [pm cs He|pm cs n os listen file now pm' ok _ IH He
                 |pm cs now p rate burst pm' rv _ IH He|pm cs node sw p enable pm' cs' rv _ IH Hsw Hp Hst He].
  - destruct (init_sets pm cs He) as (Hen & Hrefs & ->).
    assert (∀ p, enabled_on pm p = ∅) as Hempty.
    { intros p. unfold enabled_on. rewrite Hen. destruct (replicate _ _ !! _) eqn:E; [|done].
      by apply lookup_replicate in E as [-> _]. }
    split; [by rewrite Hen| | |].
    + intros p sw Hp. rewrite Hempty. set_solver.
    + intros x. split; [set_solver|]. intros (p & ? & _ & Hne). by rewrite Hempty in Hne.
    + intros _ f. rewrite Hempty, Hrefs, lookup_empty. unfold in_fib.
      rewrite filter_empty_L, size_empty by apply _. split; [done|]. split; [set_solver|lia].
  - destruct (enter_keeps _ _ _ _ _ _ _ _ He) as [H1 H2]. destruct IH as [C1 C2 C3 C4].
    assert (∀ q, enabled_on pm' q = enabled_on pm q) as Hq by (intros; by apply enabled_on_eq).
    split; [congruence| | |by rewrite Hq, H2].
    + intros q w. rewrite Hq. apply C2.
    + intros x. rewrite (C3 x). by setoid_rewrite Hq.
  - assert (pm_enabled_interfaces pm' = pm_enabled_interfaces pm /\
            pm_dhcp_bcast_refs pm' = pm_dhcp_bcast_refs pm) as [H1 H2].
    { unfold vl_api_osvbng_punt_policer_configure, osvbng_punt_policer_configure in He.
      destruct (_ <=? p); [by injection He as <- <-|].
      destruct (0 <? _); by injection He as <- <-. }
    destruct IH as [C1 C2 C3 C4].
    assert (∀ q, enabled_on pm' q = enabled_on pm q) as Hq by (intros; by apply enabled_on_eq).
    split; [congruence| | |by rewrite Hq, H2].
    + intros q w. rewrite Hq. apply C2.
    + intros x. rewrite (C3 x). by setoid_rewrite Hq.
  - destruct (api_handled node p sw enable pm pm' cs' rv) as [[-> ->]|(Hlt & Hh & Hquiet)];
      [lia|done|by rewrite app_nil_r|].
    apply (handled_ok strict p sw enable pm); [done|lia|done|done|]. intros Hstrict.
    destruct IH as [C1 C2 C3 C4]. destruct (decide (p = OSVBNG_PUNT_PROTO_DHCPV4)) as [->|Hne].
    + apply (dhcp_refs_ok node sw enable pm pm' cs cs' rv); try done; [|by apply C4|by apply Hst].
      intros w. by apply C2.
    + destruct (Hquiet Hne) as [-> Hq]. apply refs_ok_quiet; [done|].
      destruct (handled_sets _ _ _ _ _ _ Hh C1 ltac:(lia)) as (_ & _ & Hothers).
      rewrite Hothers by (lia || done). by apply C4.
Qed.


(** The UDP ports are exact.  In every state the API can reach, in any order of calls,
    a DHCP or L2TP port is delivered to the plugin exactly when the protocol it belongs to
    is punted from some interface. *)
Theorem punt_ports_exact pm cs x :
  punt_cfg false pm cs →
  x ∈ udp_ports cs <-> exists p, 0 <= p < 8 /\ x ∈ proto_ports p /\ enabled_on pm p ≠ ∅.
Proof. intros Hc. apply (co_ports _ _ _ (cfg_sound false pm cs Hc)). Qed.

End Run.

(** ** Runs to look at *)

(** The state and log after a list of enables (or disables) of DHCPv4. *)
Fixpoint dhcp_calls (l : list (Z * bool)) (pm : osvbng_punt_main_t) (cs : list punt_call)
    : osvbng_punt_main_t * list punt_call :=
  match l with
  | [] => (pm, cs)
  | (sw, enable) :: l =>
      let '(pm, cs', _) :=
        vl_api_osvbng_punt_enable_disable (λ w, w mod 10) 1 sw OSVBNG_PUNT_PROTO_DHCPV4 enable pm in
      dhcp_calls l pm (cs ++ cs')
  end.
Definition sample_cfg (l : list (Z * bool)) : osvbng_punt_main_t * list punt_call :=
  let '(pm, cs) := osvbng_punt_init punt_main_zero in dhcp_calls l pm cs.

Lemma sample_cfg_snoc strict l sw enable :
  let '(pm, cs) := sample_cfg l in
  punt_cfg (λ w, w mod 10) strict pm cs → is_u32 sw →
  (strict = true → enable = negb (punt_enabled pm OSVBNG_PUNT_PROTO_DHCPV4 sw)) →
  let '(pm', cs') := sample_cfg (l ++ [(sw, enable)]) in punt_cfg (λ w, w mod 10) strict pm' cs'.
Proof.
  unfold sample_cfg. destruct (osvbng_punt_init punt_main_zero) as [pm0 cs0].
  revert pm0 cs0. induction l as [|[w e] l IH]; intros pm0 cs0; cbn [dhcp_calls app].
  - intros Hc Hsw He.
    destruct (vl_api_osvbng_punt_enable_disable _ _ _ _ _ _) as [[pm1 cs1] rv] eqn:E.
    eapply cfg_api; [exact Hc|done|done| |exact E]. auto.
  - destruct (vl_api_osvbng_punt_enable_disable _ _ _ _ _ _) as [[pm1 cs1] rv]. apply IH.
Qed.

Lemma sample_cfg_run strict l :
  forallb (λ x, (0 <=? x.1) && (x.1 <? 2 ^ 32)) l = true →
  (strict = true → ∀ k sw e, l !! k = Some (sw, e) →
     e = negb (punt_enabled (sample_cfg (take k l)).1 OSVBNG_PUNT_PROTO_DHCPV4 sw)) →
  punt_cfg (λ w, w mod 10) strict (sample_cfg l).1 (sample_cfg l).2.
Proof.
  induction l as [|[sw e] l IH] using rev_ind; intros Hr Hst.
  { apply cfg_init. unfold sample_cfg. by destruct (osvbng_punt_init punt_main_zero). }
  rewrite forallb_app in Hr. apply andb_true_iff in Hr as [Hr1 Hr2]. simpl in Hr2.
  pose proof (sample_cfg_snoc strict l sw e) as Hs.
  destruct (sample_cfg (l ++ [(sw, e)])) as [pm' cs'].
  assert (punt_cfg (λ w, w mod 10) strict (sample_cfg l).1 (sample_cfg l).2) as Hc.
  { apply IH; [done|]. intros Hstrict k w b Hk. pose proof (lookup_lt_Some _ _ _ Hk).
    specialize (Hst Hstrict k w b). rewrite lookup_app_l, take_app_le in Hst by lia. auto. }
  assert (strict = true → e = negb (punt_enabled (sample_cfg l).1 OSVBNG_PUNT_PROTO_DHCPV4 sw)) as He.
  { intros Hstrict. specialize (Hst Hstrict (length l) sw e).
    rewrite lookup_app_r, Nat.sub_diag, take_app_length in Hst by lia. auto. }
  destruct (sample_cfg l) as [pm cs]. simpl in *. apply Hs; [done| |done]. unfold is_u32. lia.
Qed.

Definition sample_dhcp : list (Z * bool) := [(11, true); (21, true); (12, true); (12, false); (21, false)].

Lemma sample_dhcp_cfg strict : punt_cfg (λ w, w mod 10) strict (sample_cfg sample_dhcp).1 (sample_cfg sample_dhcp).2.
Proof.
  apply sample_cfg_run; [done|]. intros _ k sw e Hk.
  do 5 (destruct k as [|k]; [injection Hk as <- <-; by vm_compute|]). done.
Qed.


Lemma punt_ports_exact_witness :
  (67, true) ∈ udp_ports (sample_cfg sample_dhcp).2 <->
  exists p, 0 <= p < 8 /\ (67, true) ∈ proto_ports p /\ enabled_on (sample_cfg sample_dhcp).1 p ≠ ∅.
Proof. apply (punt_ports_exact (λ w, w mod 10)). apply sample_dhcp_cfg. Defined.

(** Disabling DHCPv4 on an interface it was never enabled on takes the route away from
    another in the same table, and enabling it twice leaves the route behind. *)
Example dhcp_disable_twice_removes_route :
  let l := [(11, true); (21, false)] in
  11 ∈ enabled_on (sample_cfg l).1 OSVBNG_PUNT_PROTO_DHCPV4 /\ 1 ∉ bcast_fibs (sample_cfg l).2.
Proof. split; refine (bool_decide_unpack _ _); vm_compute; exact I. Qed.

Example dhcp_enable_twice_leaks_route :
  let l := [(11, true); (11, true); (11, false)] in
  enabled_on (sample_cfg l).1 OSVBNG_PUNT_PROTO_DHCPV4 = ∅ /\ 1 ∈ bcast_fibs (sample_cfg l).2.
Proof. split; refine (bool_decide_unpack _ _); vm_compute; exact I. Qed.

(** The command line marks the interface and registers nothing: no port and no route, so
    that the frames never reach the node that would punt them. *)
Example cli_enables_without_ports :
  let '(pm, cs) := sample_cfg [] in
  let pm := pm⟪pm_shm_initialized := true⟫ in
  let '(pm, err) := osvbng_punt_enable_disable_command_fn [WInterface 3; WProtocol OSVBNG_PUNT_PROTO_DHCPV4] pm in
  err = None /\ punt_enabled pm OSVBNG_PUNT_PROTO_DHCPV4 3 = true /\ udp_ports cs = ∅ /\ bcast_fibs cs = ∅.
Proof. vm_compute. by split_and!. Qed.

Example sample_registrations :
  vl_api_osvbng_punt_registration_dump (sample_cfg [(11, true)]).1 = [(11, 0%nat)] /\
  pca_supported_protocols (vl_api_osvbng_punt_capabilities_get (sample_cfg []).1) = clib_net_to_host_u32 255.
Proof. split; vm_compute; reflexivity. Qed.
