(* ===== verification/PuntEgress.v ===== *)
(** The egress node: packets from the daemon to VPP's interfaces
    ([plugins/osvbng_punt/osvbng_punt_egress.c]).

    [osvbng_egress_node] is the whole node.  Its loop, [egress_loop], works on what the
    ring held when head was loaded; the buffers it can allocate are an argument, and so is
    what VPP says of interfaces meanwhile.  Frames handed to output nodes are a list in
    the order they are handed over. *)

From S2P Require Import Prelude Packet TxFrames PuntShm.

#[local] Open Scope Z_scope.

Definition OSVBNG_EGRESS_MAX_BATCH : Z := VLIB_FRAME_SIZE.
Definition OSVBNG_EGRESS_MAX_IFS : Z := 8.

(** What VPP answers while the node runs. *)
Record egress_env := mkEgressEnv {
  ee_is_free : Z → bool;                (* pool_is_free_index of the interface *)
  ee_admin_up : Z → bool;
  ee_hidden : Z → bool;
  ee_output_node : Z → option Z;        (* vnet_get_sup_hw_interface, output_node_index *)
  ee_data_size : Z                      (* vlib_buffer_get_default_data_size *)
}.

(** The node's variables: [es_free] has the buffers the
    allocator has, [es_filled] those that hold a packet. *)
Record egress_st := mkEgressSt {
  es_tail : Z;                          (* u64 *)
  es_n_tx : Z;                          (* u32 *)
  es_frames : tx_frames;                (* [pending] *)
  es_free : list (Z * vlib_buffer_t);
  es_filled : list (Z * vlib_buffer_t);
  es_alloc_fail : Z
}.
#[export] Instance eta_egress_st : Eta egress_st := λ s,
  mkEgressSt (es_tail s) (es_n_tx s) (es_frames s) (es_free s) (es_filled s)
    (es_alloc_fail s).

Section Node.

Variable env : egress_env.

(** The interface takes packets, towards this output node. *)
Definition egress_output (sw_if_index : Z) : option Z :=
  if ee_is_free env sw_if_index then None
  else if negb (ee_admin_up env sw_if_index) || ee_hidden env sw_if_index then None
  else ee_output_node env sw_if_index.

(** The buffer as it leaves, from the descriptor's bytes in the shared memory. *)
Definition egress_fill (mem : Z → Z) (desc : osvbng_egress_desc_t) (b : vlib_buffer_t) : vlib_buffer_t :=
  let max_len := ee_data_size env in
  let len := if max_len <? ed_data_length desc then max_len else ed_data_length desc in
  b⟪b_data ::= λ d, put d 0 (bytes mem (ed_data_offset desc) (Z.to_nat len))⟫
   ⟪b_current_length := u16 len⟫⟪b_tx := ed_sw_if_index desc⟫⟪b_rx := ed_sw_if_index desc⟫.

(** One turn of the loop: [Some (st, false)] is its [break].  [None]: the descriptor or its
    bytes are outside of the ring or the shared memory. *)
Definition egress_1 (pm : osvbng_punt_main_t) (st : egress_st) : option (egress_st * bool) :=
  let mask := OSVBNG_RING_MASK (pm_egress_ring_size pm) in
  desc ← pm_egress_descs pm !! Z.to_nat (Z.land (es_tail st) mask);
  match egress_output (ed_sw_if_index desc) with
  | None => Some (st⟪es_tail ::= λ t, u64 (t + 1)⟫, true)
  | Some out_node =>
      match es_free st with
      | [] => Some (st⟪es_alloc_fail ::= λ n, u64 (n + 1)⟫, false)
      | (bi, b) :: free =>
          if pm_shm_size pm <? ed_data_offset desc + ed_data_length desc then None
          else
            let b := egress_fill (pm_shm_data pm) desc b in
            let st := st⟪es_free := free⟫⟪es_filled ::= λ l, l ++ [(bi, b)]⟫ in
            Some (st⟪es_frames ::= frames_enqueue OSVBNG_EGRESS_MAX_IFS out_node bi⟫⟪es_tail ::= λ t, u64 (t + 1)⟫
                    ⟪es_n_tx ::= λ n, n + 1⟫, true)
      end
  end.

Fixpoint egress_loop (fuel : nat) (head : Z) (pm : osvbng_punt_main_t) (st : egress_st)
    : option egress_st :=
  match fuel with
  | O => None
  | S fuel =>
      if negb (es_tail st =? head) && (es_n_tx st <? OSVBNG_EGRESS_MAX_BATCH) then
        '(st, go) ← egress_1 pm st;
        if (go : bool) then egress_loop fuel head pm st else Some st
      else Some st
  end.

(** The load of head and the loop.  A turn advances the tail or ends the loop, so as many
    turns as there are entries, and one to see that, are enough. *)
Definition egress_drain (free : list (Z * vlib_buffer_t)) (pm : osvbng_punt_main_t)
    : option egress_st :=
  let head := rg_head (pm_egress_ring pm) in
  let tail := pm_egress_tail pm in
  egress_loop (S (Z.to_nat (u64 (head - tail)))) head pm
    (mkEgressSt tail 0 (mkTxFrames [] []) free [] (pm_egress_alloc_fail pm)).

Definition egress_local (st : egress_st) (pm : osvbng_punt_main_t) : osvbng_punt_main_t :=
  pm⟪pm_egress_tail := es_tail st⟫⟪pm_egress_alloc_fail := es_alloc_fail st⟫.
Definition egress_store_tail (pm : osvbng_punt_main_t) : osvbng_punt_main_t :=
  pm⟪pm_egress_ring ::= λ r, r⟪rg_tail := pm_egress_tail pm⟫⟫.
Definition egress_clear (pm : osvbng_punt_main_t) : osvbng_punt_main_t :=
  pm⟪pm_egress_ring ::= λ r, r⟪rg_interrupt_pending := 0⟫⟫.
Definition egress_recheck (pm : osvbng_punt_main_t) : bool :=
  negb (rg_head (pm_egress_ring pm) =? pm_egress_tail pm).

(** The result: the state, the frames handed over, the buffers they name, how many packets
    went out, and whether the node interrupts itself. *)
Definition osvbng_egress_node (free : list (Z * vlib_buffer_t)) (pm : osvbng_punt_main_t)
    : option (osvbng_punt_main_t * list (Z * list Z) * list (Z * vlib_buffer_t) * Z * bool) :=
  if negb (pm_shm_initialized pm) then Some (pm, [], [], 0, false)
  else
    st ← egress_drain free pm;
    let pm := egress_clear (egress_store_tail (egress_local st pm)) in
    let again := egress_recheck pm in
    let pm := pm⟪pm_egress_transmitted ::= λ n, u64 (n + es_n_tx st)⟫ in
    Some (pm, frames_flush (es_frames st), es_filled st, es_n_tx st, again).

End Node.

(** * Where packets go *)

(** The ring's entries from the node's tail to its head. *)
Definition egress_entries (pm : osvbng_punt_main_t) : option (list osvbng_egress_desc_t) :=
  mapM (λ k, pm_egress_descs pm !! Z.to_nat (Z.land (u64 (pm_egress_tail pm + k))
                                      (OSVBNG_RING_MASK (pm_egress_ring_size pm))))
    (seqZ 0 (u64 (rg_head (pm_egress_ring pm) - pm_egress_tail pm))).

(** Packets given buffers: those of an output node. *)
Definition towards (env : egress_env) (x : Z) (sent : list ((Z * vlib_buffer_t) * osvbng_egress_desc_t))
    : list Z :=
  map (λ p, p.1.1) (filter (λ p, egress_output env (ed_sw_if_index p.2) = Some x) sent).

Definition sendable (env : egress_env) (d : osvbng_egress_desc_t) : Prop :=
  is_Some (egress_output env (ed_sw_if_index d)).
#[export] Instance sendable_dec env d : Decision (sendable env d).
Proof. unfold sendable. apply _. Defined.

(** ** The loop *)

Section Loop.

Context (env : egress_env) (pm : osvbng_punt_main_t).
Context (entries : list osvbng_egress_desc_t) (Hentries : egress_entries pm = Some entries).
Context (Htail : is_u64 (pm_egress_tail pm)) (Hhead : is_u64 (rg_head (pm_egress_ring pm))).

(** The daemon's descriptors: a packet's bytes are in the shared memory. *)
Definition desc_ok (d : osvbng_egress_desc_t) : Prop :=
  ed_data_offset d + ed_data_length d <= pm_shm_size pm.
Context (Hdescs : Forall desc_ok entries).

Lemma entries_length : Z.of_nat (length entries) = u64 (rg_head (pm_egress_ring pm) - pm_egress_tail pm).
Proof using Hentries.
  unfold egress_entries in Hentries. apply mapM_Some, Forall2_length in Hentries. rewrite <- Hentries, length_seqZ.
  pose proof (u64_range (rg_head (pm_egress_ring pm) - pm_egress_tail pm)) as [? _]. lia.
Qed.

Lemma entry_lookup k d :
  entries !! k = Some d →
  pm_egress_descs pm !! Z.to_nat (Z.land (u64 (pm_egress_tail pm + Z.of_nat k))
                                    (OSVBNG_RING_MASK (pm_egress_ring_size pm))) = Some d.
Proof using Hentries.
  intros Hk. unfold egress_entries in Hentries. apply mapM_Some in Hentries.
  destruct (Forall2_lookup_r _ _ _ k d Hentries Hk) as (z & Hz & Hd).
  apply lookup_seqZ in Hz as [-> _]. exact Hd.
Qed.

(** The tail has come to the head when all entries have been taken. *)
Lemma at_head k :
  (k <= length entries)%nat →
  u64 (pm_egress_tail pm + Z.of_nat k) = rg_head (pm_egress_ring pm) <-> k = length entries.
Proof using Hentries Htail Hhead.
  intros Hk. pose proof entries_length as Hl. unfold is_u64 in *. split; [|intros ->]; ints.
Qed.

(** After [consumed], of which [sent] have gone out. *)
Record loop_inv (free : list (Z * vlib_buffer_t)) (consumed : list osvbng_egress_desc_t)
    (sent : list ((Z * vlib_buffer_t) * osvbng_egress_desc_t)) (st : egress_st) : Prop := {
  li_tail : es_tail st = u64 (pm_egress_tail pm + Z.of_nat (length consumed));
  li_n_tx : es_n_tx st = Z.of_nat (length sent);
  li_sent : map snd sent = filter (sendable env) consumed;
  li_free : free = map fst sent ++ es_free st;
  li_filled : es_filled st = map (λ p, (p.1.1, egress_fill env (pm_shm_data pm) p.2 p.1.2)) sent;
  li_nodes : NoDup (pend_nodes (tf_pending (es_frames st)));
  li_handed x : handed x (frames_flush (es_frames st)) = towards env x sent
}.

(** Why the loop stops. *)
Definition stops (free : list (Z * vlib_buffer_t)) (rest : list osvbng_egress_desc_t)
    (sent : list ((Z * vlib_buffer_t) * osvbng_egress_desc_t)) : Prop :=
  rest = [] \/ Z.of_nat (length sent) = OSVBNG_EGRESS_MAX_BATCH \/
  length sent = length free /\ exists d rest', rest = d :: rest' /\ sendable env d.

Lemma loop_ok free rest : ∀ consumed sent st,
  entries = consumed ++ rest → loop_inv free consumed sent st →
  Z.of_nat (length sent) <= OSVBNG_EGRESS_MAX_BATCH →
  exists consumed' rest' sent' st',
    egress_loop env (S (length rest)) (rg_head (pm_egress_ring pm)) pm st = Some st' /\
    entries = consumed' ++ rest' /\ loop_inv free consumed' sent' st' /\
    Z.of_nat (length sent') <= OSVBNG_EGRESS_MAX_BATCH /\ stops free rest' sent'.
Proof using Hentries Htail Hhead Hdescs.
  induction rest as [|d rest IH]; intros consumed sent st He Hi Hn.
  - exists consumed, [], sent, st. split_and!; try done; [|by left]. cbn [length egress_loop].
    assert (length consumed = length entries) as Hlen by (by rewrite He, app_nil_r).
    rewrite (li_tail _ _ _ _ Hi), (proj2 (at_head (length consumed) ltac:(lia)) Hlen). by rewrite Z.eqb_refl.
  - cbn [length]. set (fuel := S (length rest)). cbn [egress_loop].
    assert (entries !! length consumed = Some d) as Hd.
    { rewrite He, lookup_app_r, Nat.sub_diag by lia. done. }
    assert (es_tail st ≠ rg_head (pm_egress_ring pm)) as Hne.
    { rewrite (li_tail _ _ _ _ Hi), at_head by (rewrite He, length_app; lia).
      rewrite He, length_app. simpl. lia. }
    rewrite (proj2 (Z.eqb_neq _ _) Hne). cbn [negb andb]. rewrite (li_n_tx _ _ _ _ Hi).
    destruct (Z.ltb_spec (Z.of_nat (length sent)) OSVBNG_EGRESS_MAX_BATCH).
    2: { exists consumed, (d :: rest), sent, st. split_and!; try done. right. left. lia. }
    unfold egress_1. rewrite (li_tail _ _ _ _ Hi), (entry_lookup _ _ Hd). cbn [mbind option_bind].
    assert (∀ k, u64 (u64 (pm_egress_tail pm + Z.of_nat k) + 1) = u64 (pm_egress_tail pm + Z.of_nat (S k)))
      as Hsucc by (intros; ints).
    destruct (egress_output env (ed_sw_if_index d)) as [out_node|] eqn:Ho.
    + destruct (es_free st) as [|[bi b] free'] eqn:Hf.
      { exists consumed, (d :: rest), sent, (st⟪es_alloc_fail ::= λ n, u64 (n + 1)⟫).
        split_and!; try done; [by destruct Hi; split; rewrite <- ?Hf|].
        right. right. rewrite (li_free _ _ _ _ Hi), Hf, app_nil_r, length_map.
        split; [done|]. exists d, rest. unfold sendable. by rewrite Ho. }
      rewrite (proj2 (Z.ltb_ge _ _)).
      2: { rewrite Forall_forall in Hdescs. apply Hdescs. by eapply list_elem_of_lookup_2. }
      set (st1 := st⟪es_free := free'⟫⟪es_filled ::= _⟫).
      destruct (enqueue_ok OSVBNG_EGRESS_MAX_IFS out_node bi (es_frames st)) as [Hnd Hh]; [apply Hi|].
      cbn [mbind option_bind]. apply (IH (consumed ++ [d]) (sent ++ [((bi, b), d)])).
      * by rewrite <- app_assoc.
      * destruct Hi as [I1 I2 I3 I4 I5 I6 I7]. split; unfold st1; rproj.
        -- rewrite I1, Hsucc, length_app. simpl. do 3 f_equal. lia.
        -- rewrite I2, length_app. simpl. lia.
        -- rewrite map_app, filter_app, I3. f_equal. simpl. rewrite filter_cons_True; [done|].
           unfold sendable. by rewrite Ho.
        -- rewrite map_app, <- app_assoc. by rewrite I4, Hf.
        -- rewrite map_app. by rewrite I5.
        -- done.
        -- intros x. rewrite Hh, I7. unfold towards. rewrite filter_app, map_app. f_equal.
           rewrite filter_cons, filter_nil. simpl. rewrite Ho.
           destruct (decide (out_node = x)) as [->|];
             [by rewrite decide_True|by rewrite decide_False by congruence].
      * rewrite length_app. simpl. lia.
    + cbn [mbind option_bind]. apply (IH (consumed ++ [d]) sent); [by rewrite <- app_assoc| |done].
      destruct Hi as [I1 I2 I3 I4 I5 I6 I7]. split; rproj; try done.
      * rewrite I1, Hsucc, length_app. simpl. do 3 f_equal. lia.
      * rewrite filter_app, I3, filter_cons_False, filter_nil, app_nil_r; [done|].
        unfold sendable. rewrite Ho. by intros [? ?].
Qed.

End Loop.

(** The loop on what the ring holds. *)
Lemma drain_ok env pm entries free :
  egress_entries pm = Some entries → is_u64 (pm_egress_tail pm) → is_u64 (rg_head (pm_egress_ring pm)) →
  Forall (desc_ok pm) entries →
  exists consumed rest sent st,
    egress_drain env free pm = Some st /\ entries = consumed ++ rest /\
    loop_inv env pm free consumed sent st /\
    Z.of_nat (length sent) <= OSVBNG_EGRESS_MAX_BATCH /\ stops env free rest sent.
Proof.
  intros He Ht Hh Hd. unfold egress_drain. cbv zeta.
  rewrite <- (entries_length pm entries He), Nat2Z.id.
  apply (loop_ok env pm entries He Ht Hh Hd free entries [] []); [done| |done].
  split; try done.
  - simpl. rewrite Z.add_0_r. symmetry. by apply u64_small.
  - apply NoDup_nil_2.
Qed.

(** C11. The egress node.  It always ends; it takes entries from the front of the ring, none
    twice; of those, every packet whose interface can take packets, and no other, gets a
    buffer with the packet's bytes and goes to that interface's output node, and what each
    output node is handed is its packets in the order the daemon put them in, although the
    node batches them per output node and runs out of room for batches.  It stops early
    only after a full batch or when no buffer is to be had, and then interrupts itself. *)
Theorem egress_in_order env pm entries free :
  pm_shm_initialized pm = true →
  egress_entries pm = Some entries → is_u64 (pm_egress_tail pm) → is_u64 (rg_head (pm_egress_ring pm)) →
  Forall (desc_ok pm) entries →
  exists pm' puts bufs n again consumed rest sent,
    osvbng_egress_node env free pm = Some (pm', puts, bufs, n, again) /\
    entries = consumed ++ rest /\
    map snd sent = filter (sendable env) consumed /\ (exists unused, free = map fst sent ++ unused) /\
    (∀ x, handed x puts = towards env x sent) /\
    bufs = map (λ p, (p.1.1, egress_fill env (pm_shm_data pm) p.2 p.1.2)) sent /\
    n = Z.of_nat (length sent) /\ n <= OSVBNG_EGRESS_MAX_BATCH /\ stops env free rest sent /\
    pm_egress_tail pm' = u64 (pm_egress_tail pm + Z.of_nat (length consumed)) /\
    rg_tail (pm_egress_ring pm') = pm_egress_tail pm' /\ (again = true <-> rest ≠ []).
Proof.
  intros Hinit He Ht Hh Hd.
  destruct (drain_ok env pm entries free He Ht Hh Hd) as (consumed & rest & sent & st & Hdr & Hsplit & Hi & Hn & Hs).
  unfold osvbng_egress_node. rewrite Hinit, Hdr. cbn [negb mbind option_bind].
  destruct Hi as [I1 I2 I3 I4 I5 I6 I7].
  eexists _, _, _, _, _, consumed, rest, sent. split; [reflexivity|].
  split_and!; try done; [by exists (es_free st)|lia|].
  unfold egress_recheck, egress_clear, egress_store_tail, egress_local. rproj.
  assert ((length consumed <= length entries)%nat) as Hle by (rewrite Hsplit, length_app; lia).
  pose proof (at_head pm entries He Ht Hh (length consumed) Hle) as Hat. rewrite <- I1 in Hat.
  destruct (Z.eqb_spec (rg_head (pm_egress_ring pm)) (es_tail st)) as [E|E]; cbn [negb].
  - split; [done|]. intros Hne. exfalso. symmetry in E. apply Hat in E. rewrite Hsplit, length_app in E.
    destruct rest; [done|simpl in E; lia].
  - split; [|done]. intros _ ->. apply E. symmetry. apply Hat. by rewrite Hsplit, app_nil_r.
Qed.

(** Five packets: two to one output node, and one to a hidden interface. *)
Definition sample_env : egress_env :=
  mkEgressEnv (λ sw, 100 <=? sw) (λ sw, true) (λ sw, sw =? 50) (λ sw, Some (sw + 1000)) 2048.
Definition sample_egress : osvbng_punt_main_t :=
  let descs := map (λ sw, mkEgressDesc 4096 sw 3) [1; 2; 50; 1; 3; 0; 0; 0] in
  (mkPuntMain [] ∅ None (λ o, o - 4096) None 65536 true false 8 8 2048 1 448 704 4096 []
     (mkRing 5 0 1) descs None None None None None 0 0 0 None [] [] 0).
Definition sample_free (n : nat) : list (Z * vlib_buffer_t) :=
  map (λ k, (Z.of_nat k, sample_buffer 0 [] 0)) (seq 0 n).

Example sample_egress_run :
  match osvbng_egress_node sample_env (sample_free 8) sample_egress with
  | Some (pm', puts, _, n, again) =>
      (puts, n, again, pm_egress_tail pm') =
      ([(1001, [0; 2]); (1002, [1]); (1003, [3])], 4, false, 5)
  | None => False
  end.
Proof. reflexivity. Qed.

Lemma egress_in_order_witness :
  let entries := take 5 (pm_egress_descs sample_egress) in
  exists pm' puts bufs n again consumed rest sent,
    osvbng_egress_node sample_env (sample_free 5) sample_egress = Some (pm', puts, bufs, n, again) /\
    entries = consumed ++ rest /\
    map snd sent = filter (sendable sample_env) consumed /\
    (exists unused, sample_free 5 = map fst sent ++ unused) /\
    (∀ x, handed x puts = towards sample_env x sent) /\
    bufs = map (λ p, (p.1.1, egress_fill sample_env (pm_shm_data sample_egress) p.2 p.1.2)) sent /\
    n = Z.of_nat (length sent) /\ n <= OSVBNG_EGRESS_MAX_BATCH /\ stops sample_env (sample_free 5) rest sent /\
    pm_egress_tail pm' = u64 (pm_egress_tail sample_egress + Z.of_nat (length consumed)) /\
    rg_tail (pm_egress_ring pm') = pm_egress_tail pm' /\ (again = true <-> rest ≠ []).
Proof.
  apply (egress_in_order sample_env sample_egress).
  - done.
  - vm_compute. reflexivity.
  - by vm_compute.
  - by vm_compute.
  - unfold desc_ok. cbn. repeat (apply Forall_cons_2; [cbn; lia|]). apply Forall_nil_2.
Defined.

(** * Waking up

    The daemon signals the eventfd when its exchange finds the flag clear; the main thread
    reads the eventfd and sets the node's interrupt; the node drains the ring, stores its
    tail, clears the flag and looks at the head again.  An operation is one step of the
    daemon, of the main thread or, in [sys_tso], of its store buffer: on a machine with
    total store order, as x86 is, the node's two plain stores wait in a buffer, and the
    load after them does not wait for them. *)

Inductive daemon_pc := DaemonIdle | DaemonPublished | DaemonSignals.
Inductive vpp_pc := VppIdle | VppEventRead | VppDrained | VppTailStored | VppCleared.
Inductive vpp_store := StoreTail (v : Z) | StoreClear.

Record wake_sys := mkWake {
  wk_main : osvbng_punt_main_t;
  wk_daemon : daemon_pc;
  wk_vpp : vpp_pc;
  wk_buffer : list vpp_store;           (* stores not in memory yet, oldest first *)
  wk_eventfd : Z;
  wk_interrupt : bool
}.
#[export] Instance eta_wake : Eta wake_sys := λ s,
  mkWake (wk_main s) (wk_daemon s) (wk_vpp s) (wk_buffer s) (wk_eventfd s) (wk_interrupt s).

Inductive wake_op :=
  | WkPublish (desc : osvbng_egress_desc_t)   (* the daemon writes an entry and stores head *)
  | WkDaemon                                  (* its exchange, then its write if it has to *)
  | WkEvent                                   (* osvbng_egress_eventfd_handler: the read *)
  | WkDispatch (env : egress_env) (free : list (Z * vlib_buffer_t))
  | WkVpp                                     (* the main thread's next step *)
  | WkCommit.                                 (* the oldest store reaches memory *)

Definition commit_store (x : vpp_store) (pm : osvbng_punt_main_t) : osvbng_punt_main_t :=
  match x with
  | StoreTail v => pm⟪pm_egress_ring ::= λ r, r⟪rg_tail := v⟫⟫
  | StoreClear => egress_clear pm
  end.

(** The daemon's entry, when it sees room for one. *)
Definition egress_publish (desc : osvbng_egress_desc_t) (pm : osvbng_punt_main_t) : osvbng_punt_main_t :=
  let head := rg_head (pm_egress_ring pm) in
  pm⟪pm_egress_descs ::= <[Z.to_nat (Z.land head (OSVBNG_RING_MASK (pm_egress_ring_size pm))) := desc]>⟫
    ⟪pm_egress_ring ::= λ r, r⟪rg_head := u64 (head + 1)⟫⟫.

Section Wake.

Variable tso : bool.

(** A store of the main thread. *)
Definition vpp_stores (x : vpp_store) (s : wake_sys) : wake_sys :=
  if tso then s⟪wk_buffer ::= λ l, l ++ [x]⟫ else s⟪wk_main ::= commit_store x⟫.

Definition wake_step (op : wake_op) (s : wake_sys) : option wake_sys :=
  let pm := wk_main s in
  match op with
  | WkPublish desc =>
      match wk_daemon s with
      | DaemonIdle =>
          if osvbng_ring_has_space (pm_egress_ring pm) (pm_egress_ring_size pm) 1
          then Some (s⟪wk_main := egress_publish desc pm⟫⟪wk_daemon := DaemonPublished⟫)
          else Some s
      | _ => Some s
      end
  | WkDaemon =>
      match wk_daemon s with
      | DaemonIdle => Some s
      | DaemonPublished =>
          let was := rg_interrupt_pending (pm_egress_ring pm) in
          Some (s⟪wk_main := pm⟪pm_egress_ring ::= λ r, r⟪rg_interrupt_pending := 1⟫⟫⟫
                 ⟪wk_daemon := if was =? 0 then DaemonSignals else DaemonIdle⟫)
      | DaemonSignals => Some (s⟪wk_eventfd ::= λ n, n + 1⟫⟪wk_daemon := DaemonIdle⟫)
      end
  | WkEvent =>
      match wk_vpp s with
      | VppIdle => if 0 <? wk_eventfd s
                   then Some (s⟪wk_eventfd := 0⟫⟪wk_vpp := VppEventRead⟫) else Some s
      | _ => Some s
      end
  | WkDispatch env free =>
      match wk_vpp s with
      | VppIdle =>
          if wk_interrupt s then
            st ← egress_drain env free pm;
            Some (s⟪wk_interrupt := false⟫⟪wk_main := egress_local st pm⟫⟪wk_vpp := VppDrained⟫)
          else Some s
      | _ => Some s
      end
  | WkVpp =>
      match wk_vpp s with
      | VppIdle => Some s
      | VppEventRead => Some (s⟪wk_interrupt := true⟫⟪wk_vpp := VppIdle⟫)
      | VppDrained => Some ((vpp_stores (StoreTail (pm_egress_tail pm)) s)⟪wk_vpp := VppTailStored⟫)
      | VppTailStored => Some ((vpp_stores StoreClear s)⟪wk_vpp := VppCleared⟫)
      | VppCleared =>
          Some ((if egress_recheck pm then s⟪wk_interrupt := true⟫ else s)⟪wk_vpp := VppIdle⟫)
      end
  | WkCommit =>
      match wk_buffer s with
      | [] => Some s
      | x :: l => Some (s⟪wk_buffer := l⟫⟪wk_main ::= commit_store x⟫)
      end
  end.

Fixpoint wake_run (ops : list wake_op) (s : wake_sys) : option wake_sys :=
  match ops with
  | [] => Some s
  | op :: ops => s ← wake_step op s; wake_run ops s
  end.

End Wake.

Definition wake_start (pm : osvbng_punt_main_t) : wake_sys := mkWake pm DaemonIdle VppIdle [] 0 false.

(** Nobody is doing anything, and nothing is about to reach memory. *)
Definition wake_idle (s : wake_sys) : Prop :=
  wk_daemon s = DaemonIdle /\ wk_vpp s = VppIdle /\ wk_buffer s = [].

(** The ring has something for the node. *)
Definition egress_work (s : wake_sys) : bool := egress_recheck (wk_main s).

(** ** No wake-up is lost where stores are in memory when the next step begins *)

(** Something will make the node run. *)
Definition wake_armed (s : wake_sys) : Prop :=
  0 < wk_eventfd s \/ wk_interrupt s = true \/ wk_daemon s = DaemonSignals \/
  wk_vpp s = VppEventRead \/ wk_vpp s = VppDrained \/ wk_vpp s = VppTailStored.

(** A set flag means that somebody has signalled and the node has not run since; entries in
    the ring, that or that one of the sides is about to look. *)
Record wake_inv (s : wake_sys) : Prop := {
  wi_buffer : wk_buffer s = [];
  wi_eventfd : 0 <= wk_eventfd s;
  wi_pending : rg_interrupt_pending (pm_egress_ring (wk_main s)) ≠ 0 → wake_armed s;
  wi_work : egress_work s = true → wake_armed s \/ wk_vpp s = VppCleared \/ wk_daemon s = DaemonPublished
}.

#[local] Arguments egress_drain : simpl never.

(** Closes the cases of a step in which the parties' positions decide. *)
Ltac wake_case :=
  unfold wake_armed, egress_work, egress_recheck, egress_local, egress_clear, egress_publish in *;
  cbn in *; intuition (discriminate || lia || congruence).

Lemma wake_start_ok pm :
  rg_interrupt_pending (pm_egress_ring pm) = 0 → rg_head (pm_egress_ring pm) = pm_egress_tail pm →
  wake_inv (wake_start pm).
Proof.
  intros Hp Ht. split; [done|done|intros Hn; by destruct Hn|].
  unfold egress_work, egress_recheck. cbn. by rewrite Ht, Z.eqb_refl.
Qed.

Lemma wake_daemon_ok pm d v e i s' :
  wake_inv (mkWake pm d v [] e i) → wake_step false WkDaemon (mkWake pm d v [] e i) = Some s' → wake_inv s'.
Proof.
  intros [_ He Hp Hw]. unfold wake_step. cbn in *. destruct d; intros [= <-].
  - by split.
  - destruct (Z.eqb_spec (rg_interrupt_pending (pm_egress_ring pm)) 0); split; wake_case.
  - split; wake_case.
Qed.

Lemma wake_vpp_ok pm d v e i s' :
  wake_inv (mkWake pm d v [] e i) → wake_step false WkVpp (mkWake pm d v [] e i) = Some s' → wake_inv s'.
Proof.
  intros [_ He Hp Hw]. unfold wake_step. cbn in *. destruct v; intros [= <-]; [by split|split; wake_case..|].
  destruct (egress_recheck pm) eqn:Hr; split; wake_case.
Qed.

Lemma wake_step_ok op s s' : wake_inv s → wake_step false op s = Some s' → wake_inv s'.
Proof.
  destruct s as [pm d v l e i]. intros Hi. pose proof (wi_buffer _ Hi) as Hl. cbn in Hl. subst l.
  destruct op as [desc| | |env free| |]; [|by apply wake_daemon_ok| | |by apply wake_vpp_ok|];
    destruct Hi as [_ He Hp Hw]; cbn in *.
  - destruct d; [|by intros [= <-]..]. destruct (osvbng_ring_has_space _ _ _); intros [= <-]; [|by split].
    split; wake_case.
  - destruct v; [|by intros [= <-]..]. destruct (Z.ltb_spec 0 e); intros [= <-]; [|by split].
    split; wake_case.
  - destruct v; [|by intros [= <-]..]. destruct i; [|by intros [= <-]].
    destruct (egress_drain env free pm) as [st|]; cbn; [|done]. intros [= <-]. split; wake_case.
  - by intros [= <-].
Qed.

Lemma wake_run_ok ops s s' : wake_inv s → wake_run false ops s = Some s' → wake_inv s'.
Proof.
  revert s. induction ops as [|op ops IH]; intros s Hi; cbn; [by intros [= <-]|].
  destruct (wake_step false op s) as [s1|] eqn:Hs; cbn; [|done].
  apply IH. by eapply wake_step_ok.
Qed.

(** C12. No packet of the daemon is stranded in the egress ring, however its publications,
    exchanges and eventfd writes interleave with VPP's eventfd reads and runs of the egress
    node, provided each store is visible before the thread's next step: whenever everybody is
    idle and the ring has entries, the eventfd or the node's interrupt is pending, so the
    main loop's next turn runs the node. *)
Theorem egress_no_lost_wakeup (pm : osvbng_punt_main_t) (ops : list wake_op) (s : wake_sys)
    (env : egress_env) (free : list (Z * vlib_buffer_t)) (st : egress_st) :
  rg_interrupt_pending (pm_egress_ring pm) = 0 → rg_head (pm_egress_ring pm) = pm_egress_tail pm →
  wake_run false ops (wake_start pm) = Some s → wake_idle s → egress_work s = true →
  egress_drain env free (wk_main s) = Some st →
  (0 < wk_eventfd s \/ wk_interrupt s = true) /\
  exists s', wake_run false [WkEvent; WkVpp; WkDispatch env free] s = Some s' /\
    wk_vpp s' = VppDrained /\ pm_egress_tail (wk_main s') = es_tail st.
Proof.
  intros Hp Ht Hrun Hidle Hwork Hdr.
  pose proof (wake_run_ok _ _ _ (wake_start_ok pm Hp Ht) Hrun) as Hi.
  destruct s as [pm' d v l e i]. destruct Hidle as (Hd & Hv & Hl). destruct Hi as [_ He _ Hw].
  assert (0 < e \/ i = true) as Hk by (specialize (Hw Hwork); wake_case).
  split; [done|]. cbn in *. subst d v l.
  destruct (Z.ltb_spec 0 e) as [Hpos|]; cbn; [|destruct Hk as [? | ->]; [lia|cbn]];
    rewrite Hdr; eexists; by split_and!.
Qed.

(** The daemon publishes while the node clears the flag: the second look at head sees it. *)
Definition sample_wake : osvbng_punt_main_t :=
  sample_egress⟪pm_egress_ring := mkRing 0 0 0⟫.
Definition wake_packet : osvbng_egress_desc_t := mkEgressDesc 4096 3 3.
Definition sample_wake_ops : list wake_op :=
  [WkPublish wake_packet; WkDaemon; WkDaemon; WkEvent; WkVpp; WkDispatch sample_env (sample_free 4); WkVpp;
   WkPublish wake_packet; WkDaemon; WkVpp; WkVpp].

Lemma ends_in {A} (r : option A) (d : A) : (if r then true else false) = true → r = Some (default d r).
Proof. by destruct r. Qed.

Definition sample_wake_end : wake_sys :=
  default (wake_start sample_wake) (wake_run false sample_wake_ops (wake_start sample_wake)).
Definition sample_wake_drained : egress_st :=
  default (mkEgressSt 0 0 (mkTxFrames [] []) [] [] 0)
    (egress_drain sample_env (sample_free 4) (wk_main sample_wake_end)).

Lemma egress_no_lost_wakeup_witness :
  (0 < wk_eventfd sample_wake_end \/ wk_interrupt sample_wake_end = true) /\
  exists s', wake_run false [WkEvent; WkVpp; WkDispatch sample_env (sample_free 4)] sample_wake_end = Some s' /\
    wk_vpp s' = VppDrained /\ pm_egress_tail (wk_main s') = es_tail sample_wake_drained.
Proof.
  apply (egress_no_lost_wakeup sample_wake sample_wake_ops).
  - reflexivity.
  - reflexivity.
  - apply ends_in. vm_compute. reflexivity.
  - split_and!; vm_compute; reflexivity.
  - vm_compute. reflexivity.
  - apply ends_in. vm_compute. reflexivity.
Defined.

(** With a store buffer a wake-up is lost: the node loads head while its store of the flag
    is in the buffer, the daemon's exchange then finds the flag set and writes no eventfd,
    and the cleared flag reaches memory last. *)
Definition lost_wake_ops : list wake_op :=
  [WkPublish wake_packet; WkDaemon; WkDaemon; WkEvent; WkVpp; WkDispatch sample_env (sample_free 4); WkVpp; WkVpp;
   WkVpp; WkPublish wake_packet; WkDaemon; WkCommit; WkCommit].

Example wakeup_lost_with_store_buffer :
  option_map (λ s, (wk_daemon s, wk_vpp s, wk_buffer s, egress_work s, wk_eventfd s, wk_interrupt s))
    (wake_run true lost_wake_ops (wake_start sample_wake)) =
  Some (DaemonIdle, VppIdle, [], true, 0, false).
Proof. reflexivity. Qed.
