(* ===== verification/L2gwCircuit.v ===== *)
(** Circuits of the layer 2 gateway: [plugins/osvbng_l2gw/osvbng_l2gw.h],
    [osvbng_l2gw.c] and the handlers of [osvbng_l2gw_api.c].

    A circuit is two entries of a pool, one per direction, each found by the port and the
    tags of the frames it takes.  The pool's free slots are arguments; [None] is an access
    to a freed entry. *)

From S2P Require Import Prelude Packet Access PuntShm.

#[local] Open Scope Z_scope.

Definition L2GW_CVLAN_ANY : Z := 65535.      (* 0xFFFF *)
Definition L2GW_ENTRY_F_ENABLED : Z := 1.
Definition L2GW_ENTRY_F_WILDCARD : Z := 2.
Definition L2GW_ENTRY_F_TRANSPARENT : Z := 4.
Definition L2GW_ENTRY_F_ACCESS_SIDE : Z := 8.

(** * Data *)

(** The two words of a key. *)
Definition l2gw_key_t : Type := Z * Z.

Record l2gw_entry_t := mkL2gwEntry {
  le_tx_sw_if_index : Z;
  le_tx_svlan : Z;               (* u16, 0: untagged *)
  le_tx_cvlan : Z;               (* u16, 0: no inner tag *)
  le_tx_outer_tpid : Z;          (* u16 *)
  le_flags : Z;                  (* u8 *)
  le_rx_sw_if_index : Z;
  le_rx_svlan : Z;
  le_rx_cvlan : Z;
  le_peer_entry_index : Z;
  le_circuit_id : Z;
  le_qos_index : Z;
  le_acl_index : Z
}.
#[export] Instance eta_l2gw_entry : Eta l2gw_entry_t := λ e,
  mkL2gwEntry (le_tx_sw_if_index e) (le_tx_svlan e) (le_tx_cvlan e) (le_tx_outer_tpid e) (le_flags e)
    (le_rx_sw_if_index e) (le_rx_svlan e) (le_rx_cvlan e) (le_peer_entry_index e) (le_circuit_id e)
    (le_qos_index e) (le_acl_index e).

(** A result is a word; all ones when there is none. *)
Definition L2GW_NO_RESULT : Z := 2 ^ 64 - 1.
Definition result_entry_index (raw : Z) : Z := u32 raw.

(** [vnet_feature_enable_disable], on device-input. *)
Inductive l2gw_call := FeatureEnable (sw_if_index : Z) (enable : bool).

Record l2gw_main_t := mkL2gw {
  lg_entries : gmap Z l2gw_entry_t;
  lg_circuit_table : gmap l2gw_key_t Z;
  lg_enabled_by_sw_if_index : gset Z;
  lg_trigger_svlans : gmap Z (gset Z);       (* None: NULL, or past the vector's end *)
  lg_trigger_any_svlans : gmap Z (gset Z);
  lg_trigger_dampener : gmap Z f64;
  lg_trigger_dampen_interval : f64;
  lg_punt_shm_tx_next_arc : option Z;
  lg_counters : gmap Z (Z * Z);              (* packets and bytes, of one thread *)
  lg_calls : list l2gw_call
}.
#[export] Instance eta_l2gw : Eta l2gw_main_t := λ m,
  mkL2gw (lg_entries m) (lg_circuit_table m) (lg_enabled_by_sw_if_index m) (lg_trigger_svlans m)
    (lg_trigger_any_svlans m) (lg_trigger_dampener m) (lg_trigger_dampen_interval m)
    (lg_punt_shm_tx_next_arc m) (lg_counters m) (lg_calls m).

Record vnet_l2gw_add_del_circuit_args_t := mkL2gwArgs {
  la_is_add : bool;
  la_access_sw_if_index : Z;
  la_access_svlan : Z;
  la_access_cvlan : Z;
  la_access_tpid : Z;
  la_handoff_sw_if_index : Z;
  la_handoff_svlan : Z;
  la_handoff_cvlan : Z;
  la_handoff_tpid : Z;
  la_transparent : bool;
  la_enabled : bool
}.

Inductive l2gw_rv :=
  | L2_OK
  | L2_INVALID_SW_IF_INDEX
  | L2_INVALID_VALUE
  | L2_INVALID_VALUE_2
  | L2_NO_SUCH_ENTRY
  | L2_ENTRY_NEEDS_REFRESH
  | L2_VALUE_EXIST
  | L2_FEATURE.                  (* what vnet_feature_enable_disable returned *)
#[export] Instance l2gw_rv_eq_dec : EqDecision l2gw_rv.
Proof. solve_decision. Defined.

(** * The table *)

(** The fields in memory, over zeros. *)
Definition l2gw_make_key (sw_if_index svlan cvlan : Z) : l2gw_key_t :=
  let key := put (λ _, 0) 0 (le32 sw_if_index ++ le16 svlan ++ le16 cvlan) in
  (ld64 key 0, ld64 key 8).

Definition l2gw_table_add_del (key : l2gw_key_t) (entry_index : Z) (is_add : bool) (m : l2gw_main_t)
    : l2gw_main_t :=
  m⟪lg_circuit_table ::= if is_add then insert key (u32 entry_index) else delete key⟫.

Definition l2gw_table_lookup (key : l2gw_key_t) (m : l2gw_main_t) : option Z :=
  option_map result_entry_index (lg_circuit_table m !! key).

(** The key and result of a one-entry cache, and its first contents. *)
Definition l2gw_cache : Type := l2gw_key_t * Z.
Definition L2GW_EMPTY_CACHE : l2gw_cache := ((2 ^ 64 - 1, 2 ^ 64 - 1), L2GW_NO_RESULT).

Definition l2gw_lookup_1 (table : gmap l2gw_key_t Z) (cached : l2gw_cache) (sw_if_index svlan cvlan : Z)
    : Z * l2gw_cache :=
  let key := l2gw_make_key sw_if_index svlan cvlan in
  if (fst key =? fst (fst cached)) && (snd key =? snd (fst cached)) then (snd cached, cached)
  else
    let result := default L2GW_NO_RESULT (table !! key) in (result, (key, result)).

(** * Circuits *)

Definition l2gw_normalize_tpid (tpid : Z) : Z := if tpid =? 0 then ETHERNET_TYPE_DOT1AD else tpid.

Definition entry_has (flag : Z) (e : l2gw_entry_t) : bool := negb (Z.land (le_flags e) flag =? 0).

Definition l2gw_fill_entry (rx_sw_if_index rx_svlan rx_cvlan tx_sw_if_index tx_svlan tx_cvlan tx_tpid flags : Z)
    : l2gw_entry_t :=
  mkL2gwEntry tx_sw_if_index tx_svlan tx_cvlan tx_tpid flags rx_sw_if_index rx_svlan rx_cvlan 0 0 NONE NONE.

Definition l2gw_entry_matches_args (access_e handoff_e : l2gw_entry_t)
    (a : vnet_l2gw_add_del_circuit_args_t) (flags_common : Z) : bool :=
  let atpid := l2gw_normalize_tpid (la_access_tpid a) in
  let htpid := l2gw_normalize_tpid (la_handoff_tpid a) in
  let kind := Z.lor L2GW_ENTRY_F_WILDCARD L2GW_ENTRY_F_TRANSPARENT in
  (le_tx_sw_if_index access_e =? la_handoff_sw_if_index a) &&
  (le_tx_svlan access_e =? if la_transparent a then 0 else la_handoff_svlan a) &&
  (le_tx_cvlan access_e =? if la_transparent a || (la_handoff_cvlan a =? L2GW_CVLAN_ANY) then 0
                           else la_handoff_cvlan a) &&
  (le_tx_outer_tpid access_e =? htpid) &&
  (le_tx_svlan handoff_e =? if la_transparent a then 0 else la_access_svlan a) &&
  (le_tx_cvlan handoff_e =? if la_transparent a || (la_access_cvlan a =? L2GW_CVLAN_ANY) then 0
                            else la_access_cvlan a) &&
  (le_tx_outer_tpid handoff_e =? atpid) &&
  (Z.land (le_flags access_e) kind =? Z.land flags_common kind).

Definition upd_entry (i : Z) (g : l2gw_entry_t → l2gw_entry_t) (m : l2gw_main_t) : l2gw_main_t :=
  m⟪lg_entries ::= alter g i⟫.

Definition flag_enabled (enabled : bool) (e : l2gw_entry_t) : l2gw_entry_t :=
  e⟪le_flags ::= λ f, if enabled then Z.lor f L2GW_ENTRY_F_ENABLED
                      else Z.land f (255 - L2GW_ENTRY_F_ENABLED)⟫.

Section L2gw.

Context `{AccessVpp}.

(** [Some rv] is an error. *)
Definition l2gw_validate_args (a : vnet_l2gw_add_del_circuit_args_t) : option l2gw_rv :=
  let access_wild := la_access_cvlan a =? L2GW_CVLAN_ANY in
  let handoff_wild := la_handoff_cvlan a =? L2GW_CVLAN_ANY in
  let atpid := l2gw_normalize_tpid (la_access_tpid a) in
  let htpid := l2gw_normalize_tpid (la_handoff_tpid a) in
  let tpid_ok t := (t =? ETHERNET_TYPE_DOT1AD) || (t =? ETHERNET_TYPE_VLAN) in
  if negb (sw_interface_is_api_valid (la_access_sw_if_index a)) ||
     negb (sw_interface_is_api_valid (la_handoff_sw_if_index a)) then Some L2_INVALID_SW_IF_INDEX
  else if (4095 <? la_access_svlan a) || (4095 <? la_handoff_svlan a) then Some L2_INVALID_VALUE
  else if negb access_wild && (4095 <? la_access_cvlan a) then Some L2_INVALID_VALUE
  else if negb handoff_wild && (4095 <? la_handoff_cvlan a) then Some L2_INVALID_VALUE
  else if negb (Bool.eqb access_wild handoff_wild) then Some L2_INVALID_VALUE_2
  else if access_wild && ((la_access_svlan a =? 0) || (la_handoff_svlan a =? 0)) then Some L2_INVALID_VALUE_2
  else if negb handoff_wild && negb (la_handoff_cvlan a =? 0) && (la_handoff_svlan a =? 0)
  then Some L2_INVALID_VALUE_2
  else if negb access_wild && negb (la_access_cvlan a =? 0) && (la_access_svlan a =? 0)
  then Some L2_INVALID_VALUE_2
  else if negb (tpid_ok atpid) || negb (tpid_ok htpid) then Some L2_INVALID_VALUE
  else None.

(** Removal, of the circuit the access key leads to. *)
Definition l2gw_del_circuit (existing_access : Z) (m : l2gw_main_t) : option (l2gw_main_t * Z) :=
  e ← lg_entries m !! existing_access;
  peer ← lg_entries m !! le_peer_entry_index e;
  let ekey := l2gw_make_key (le_rx_sw_if_index e) (le_rx_svlan e) (le_rx_cvlan e) in
  let pkey := l2gw_make_key (le_rx_sw_if_index peer) (le_rx_svlan peer) (le_rx_cvlan peer) in
  let m := l2gw_table_add_del pkey (le_peer_entry_index e) false
             (l2gw_table_add_del ekey existing_access false m) in
  Some (m⟪lg_entries ::= λ es, delete existing_access (delete (le_peer_entry_index e) es)⟫,
        le_circuit_id e).

Definition l2gw_flags_common (a : vnet_l2gw_add_del_circuit_args_t) : Z :=
  let f := if la_enabled a then L2GW_ENTRY_F_ENABLED else 0 in
  let f := if la_access_cvlan a =? L2GW_CVLAN_ANY then Z.lor f L2GW_ENTRY_F_WILDCARD else f in
  if la_transparent a then Z.lor f L2GW_ENTRY_F_TRANSPARENT else f.

(** The two entries of a new circuit. *)
Definition access_entry (a : vnet_l2gw_add_del_circuit_args_t) (access_index handoff_index : Z)
    : l2gw_entry_t :=
  let wild_or_transparent := la_transparent a || (la_access_cvlan a =? L2GW_CVLAN_ANY) in
  (l2gw_fill_entry (la_access_sw_if_index a) (la_access_svlan a) (la_access_cvlan a)
     (la_handoff_sw_if_index a) (if la_transparent a then 0 else la_handoff_svlan a)
     (if wild_or_transparent then 0 else la_handoff_cvlan a) (l2gw_normalize_tpid (la_handoff_tpid a))
     (Z.lor (l2gw_flags_common a) L2GW_ENTRY_F_ACCESS_SIDE))
    ⟪le_peer_entry_index := handoff_index⟫⟪le_circuit_id := access_index⟫.
Definition handoff_entry (a : vnet_l2gw_add_del_circuit_args_t) (access_index : Z) : l2gw_entry_t :=
  let wild_or_transparent := la_transparent a || (la_access_cvlan a =? L2GW_CVLAN_ANY) in
  (l2gw_fill_entry (la_handoff_sw_if_index a) (la_handoff_svlan a) (la_handoff_cvlan a)
     (la_access_sw_if_index a) (if la_transparent a then 0 else la_access_svlan a)
     (if wild_or_transparent then 0 else la_access_cvlan a) (l2gw_normalize_tpid (la_access_tpid a))
     (l2gw_flags_common a))
    ⟪le_peer_entry_index := access_index⟫⟪le_circuit_id := access_index⟫.

Definition l2gw_add_circuit (a : vnet_l2gw_add_del_circuit_args_t) (access_key handoff_key : l2gw_key_t)
    (access_index handoff_index : Z) (m : l2gw_main_t) : l2gw_main_t :=
  let m := m⟪lg_entries ::= λ es,
               <[handoff_index := handoff_entry a access_index]>
                 (<[access_index := access_entry a access_index handoff_index]> es)⟫
            ⟪lg_counters ::= λ cs, <[handoff_index := (0, 0)]> (<[access_index := (0, 0)]> cs)⟫ in
  l2gw_table_add_del handoff_key handoff_index true (l2gw_table_add_del access_key access_index true m).

(** The result has the circuit's id, [None] for ~0. *)
Definition vnet_l2gw_add_del_circuit (a : vnet_l2gw_add_del_circuit_args_t)
    (access_index handoff_index : Z) (m : l2gw_main_t) : option (l2gw_main_t * l2gw_rv * option Z) :=
  match l2gw_validate_args a with
  | Some rv => Some (m, rv, None)
  | None =>
      let access_key := l2gw_make_key (la_access_sw_if_index a) (la_access_svlan a) (la_access_cvlan a) in
      let handoff_key := l2gw_make_key (la_handoff_sw_if_index a) (la_handoff_svlan a) (la_handoff_cvlan a) in
      match l2gw_table_lookup access_key m, la_is_add a with
      | None, false => Some (m, L2_NO_SUCH_ENTRY, None)
      | Some existing_access, false =>
          '(m, id) ← l2gw_del_circuit existing_access m; Some (m, L2_OK, Some id)
      | Some existing_access, true =>
          e ← lg_entries m !! existing_access;
          peer ← lg_entries m !! le_peer_entry_index e;
          let same := l2gw_entry_matches_args e peer a (l2gw_flags_common a) &&
            (le_rx_sw_if_index peer =? la_handoff_sw_if_index a) &&
            (le_rx_svlan peer =? la_handoff_svlan a) && (le_rx_cvlan peer =? la_handoff_cvlan a) in
          Some (m, if same then L2_OK else L2_ENTRY_NEEDS_REFRESH, Some (le_circuit_id e))
      | None, true =>
          match l2gw_table_lookup handoff_key m with
          | Some _ => Some (m, L2_VALUE_EXIST, None)
          | None =>
              Some (l2gw_add_circuit a access_key handoff_key access_index handoff_index m, L2_OK,
                    Some access_index)
          end
      end
  end.

(** [None]: all circuits. *)
Definition vnet_l2gw_circuit_set_state (circuit_id : option Z) (enabled : bool) (m : l2gw_main_t)
    : option (l2gw_main_t * l2gw_rv) :=
  match circuit_id with
  | None => Some (m⟪lg_entries ::= fmap (flag_enabled enabled)⟫, L2_OK)
  | Some id =>
      match lg_entries m !! id with
      | None => Some (m, L2_NO_SUCH_ENTRY)
      | Some e =>
          if negb (entry_has L2GW_ENTRY_F_ACCESS_SIDE e) then Some (m, L2_NO_SUCH_ENTRY)
          else
            _ ← lg_entries m !! le_peer_entry_index e;
            Some (upd_entry (le_peer_entry_index e) (flag_enabled enabled)
                    (upd_entry id (flag_enabled enabled) m), L2_OK)
      end
  end.

(** * Ports *)

(** [feature_ok]: vnet_feature_enable_disable returned 0. *)
Definition vnet_l2gw_enable_disable (sw_if_index : Z) (enable feature_ok : bool) (m : l2gw_main_t)
    : l2gw_main_t * l2gw_rv :=
  if negb (sw_interface_is_api_valid sw_if_index) then (m, L2_INVALID_SW_IF_INDEX)
  else if Bool.eqb (bool_decide (sw_if_index ∈ lg_enabled_by_sw_if_index m)) enable then (m, L2_OK)
  else
    let m := m⟪lg_calls ::= λ l, l ++ [FeatureEnable sw_if_index enable]⟫ in
    if negb feature_ok then (m, L2_FEATURE)
    else (m⟪lg_enabled_by_sw_if_index ::=
               λ s, if enable then {[sw_if_index]} ∪ s else s ∖ {[sw_if_index]}⟫, L2_OK).

(** The S-VLANs from [lo] to [hi]. *)
Definition svlan_range (lo hi : Z) : gset Z := list_to_set (seqZ lo (hi - lo + 1)).

Definition vnet_l2gw_trigger_svlan_range (sw_if_index svlan_lo svlan_hi : Z) (any_protocol is_add : bool)
    (m : l2gw_main_t) : l2gw_main_t * l2gw_rv :=
  if negb (sw_interface_is_api_valid sw_if_index) then (m, L2_INVALID_SW_IF_INDEX)
  else if (svlan_lo =? 0) || (4094 <? svlan_hi) || (svlan_hi <? svlan_lo) then (m, L2_INVALID_VALUE)
  else
    let range := svlan_range svlan_lo svlan_hi in
    let arm (bms : gmap Z (gset Z)) :=
      let bm := default ∅ (bms !! sw_if_index) in
      <[sw_if_index := if is_add then bm ∪ range else bm ∖ range]> bms in
    ((if any_protocol then m⟪lg_trigger_any_svlans ::= arm⟫ else m⟪lg_trigger_svlans ::= arm⟫), L2_OK).

(** An interface is added or deleted. *)
Definition l2gw_sw_interface_add_del (sw_if_index : Z) (is_add : bool) (m : l2gw_main_t) : l2gw_main_t :=
  if is_add then m
  else m⟪lg_trigger_svlans ::= delete sw_if_index⟫
        ⟪lg_enabled_by_sw_if_index ::= λ s, s ∖ {[sw_if_index]}⟫.

Definition L2GW_DAMPENER_DEFAULT_INTERVAL : f64 := f64_of_Z 5.

(** [next_arc]: towards osvbng-punt-shm-tx, when the punt plugin is there. *)
Definition l2gw_init (next_arc : option Z) : l2gw_main_t :=
  mkL2gw ∅ ∅ ∅ ∅ ∅ ∅ L2GW_DAMPENER_DEFAULT_INTERVAL next_arc ∅ [].

(** * The API *)

Definition vl_api_osvbng_l2gw_enable_disable_t_handler (sw_if_index : Z) (enable feature_ok : bool)
    (m : l2gw_main_t) : l2gw_main_t * l2gw_rv :=
  vnet_l2gw_enable_disable (clib_net_to_host_u32 sw_if_index) enable feature_ok m.

Definition vl_api_osvbng_l2gw_trigger_svlan_range_t_handler (sw_if_index svlan_lo svlan_hi : Z)
    (any_protocol is_add : bool) (m : l2gw_main_t) : l2gw_main_t * l2gw_rv :=
  vnet_l2gw_trigger_svlan_range (clib_net_to_host_u32 sw_if_index) (clib_net_to_host_u16 svlan_lo)
    (clib_net_to_host_u16 svlan_hi) any_protocol is_add m.

(** A message, with its fields in network order. *)
Record vl_api_osvbng_l2gw_add_del_circuit_t := mkL2gwMsg {
  lm_is_add : bool;
  lm_access_sw_if_index : Z;
  lm_access_svlan : Z;
  lm_access_cvlan : Z;
  lm_access_cvlan_any : bool;
  lm_access_tpid : Z;
  lm_handoff_sw_if_index : Z;
  lm_handoff_svlan : Z;
  lm_handoff_cvlan : Z;
  lm_handoff_cvlan_any : bool;
  lm_handoff_tpid : Z;
  lm_transparent : bool;
  lm_enabled : bool
}.

Definition circuit_args (mp : vl_api_osvbng_l2gw_add_del_circuit_t) : vnet_l2gw_add_del_circuit_args_t :=
  mkL2gwArgs (lm_is_add mp) (clib_net_to_host_u32 (lm_access_sw_if_index mp))
    (clib_net_to_host_u16 (lm_access_svlan mp))
    (if lm_access_cvlan_any mp then L2GW_CVLAN_ANY else clib_net_to_host_u16 (lm_access_cvlan mp))
    (clib_net_to_host_u16 (lm_access_tpid mp)) (clib_net_to_host_u32 (lm_handoff_sw_if_index mp))
    (clib_net_to_host_u16 (lm_handoff_svlan mp))
    (if lm_handoff_cvlan_any mp then L2GW_CVLAN_ANY else clib_net_to_host_u16 (lm_handoff_cvlan mp))
    (clib_net_to_host_u16 (lm_handoff_tpid mp)) (lm_transparent mp) (lm_enabled mp).

(** The reply has the circuit's id and the index of its other entry. *)
Definition vl_api_osvbng_l2gw_add_del_circuit_t_handler (mp : vl_api_osvbng_l2gw_add_del_circuit_t)
    (access_index handoff_index : Z) (m : l2gw_main_t)
    : option (l2gw_main_t * l2gw_rv * option Z * option Z) :=
  '(m, rv, circuit_id) ← vnet_l2gw_add_del_circuit (circuit_args mp) access_index handoff_index m;
  let handoff_entry_index :=
    id ← circuit_id; e ← lg_entries m !! id; Some (le_peer_entry_index e) in
  Some (m, rv, circuit_id, handoff_entry_index).

Definition vl_api_osvbng_l2gw_circuit_set_state_t_handler (circuit_id : Z) (enabled : bool)
    (m : l2gw_main_t) : option (l2gw_main_t * l2gw_rv) :=
  let id := clib_net_to_host_u32 circuit_id in
  vnet_l2gw_circuit_set_state (if id =? NONE then None else Some id) enabled m.

(** A circuit as it is reported: its id, its entries, and the message that adds it. *)
Record l2gw_details := mkL2gwDetails {
  ld_circuit_id : Z;
  ld_access_entry_index : Z;
  ld_handoff_entry_index : Z;
  ld_circuit : vl_api_osvbng_l2gw_add_del_circuit_t
}.

Definition send_l2gw_circuit_details (access_e : l2gw_entry_t) (m : l2gw_main_t) : option l2gw_details :=
  let net16 := clib_net_to_host_u16 in
  let net32 := clib_net_to_host_u32 in
  handoff_e ← lg_entries m !! le_peer_entry_index access_e;
  let access_any := le_rx_cvlan access_e =? L2GW_CVLAN_ANY in
  let handoff_any := le_rx_cvlan handoff_e =? L2GW_CVLAN_ANY in
  Some (mkL2gwDetails (net32 (le_circuit_id access_e)) (net32 (le_circuit_id access_e))
    (net32 (le_peer_entry_index access_e))
    (mkL2gwMsg true (net32 (le_rx_sw_if_index access_e)) (net16 (le_rx_svlan access_e))
       (if access_any then 0 else net16 (le_rx_cvlan access_e)) access_any
       (net16 (le_tx_outer_tpid handoff_e)) (net32 (le_rx_sw_if_index handoff_e))
       (net16 (le_rx_svlan handoff_e)) (if handoff_any then 0 else net16 (le_rx_cvlan handoff_e))
       handoff_any (net16 (le_tx_outer_tpid access_e)) (entry_has L2GW_ENTRY_F_TRANSPARENT access_e)
       (entry_has L2GW_ENTRY_F_ENABLED access_e))).

Definition vl_api_osvbng_l2gw_circuit_dump_t_handler (circuit_id : Z) (m : l2gw_main_t)
    : option (list l2gw_details) :=
  let id := clib_net_to_host_u32 circuit_id in
  let access := filter (λ e, entry_has L2GW_ENTRY_F_ACCESS_SIDE e = true) in
  if id =? NONE
  then mapM (λ e, send_l2gw_circuit_details e m) (access (map_to_list (lg_entries m)).*2)
  else
    match lg_entries m !! id with
    | None => Some []
    | Some e => mapM (λ e, send_l2gw_circuit_details e m) (access [e])
    end.

End L2gw.
