(* ===== verification/L2gwCli.v ===== *)
(** The commands of the layer 2 gateway ([plugins/osvbng_l2gw/osvbng_l2gw_cli.c]).

    A command's words are what [unformat] finds in its input; a word of another command is
    [LOther].  Numbers are u32; those of tags are then assigned to u16. *)

From S2P Require Import Prelude Packet Access PuntShm L2gwCircuit.

#[local] Open Scope Z_scope.

(** What follows [svlan %d] of a side. *)
Inductive l2gw_cv_word := NoCvlan | CvlanAny | Cvlan (v : Z).

Inductive l2gw_word :=
  | LDisable | LEnable | LDel | LAny | LAll
  | LInterface (sw_if_index : Z)
  | LSvlans (lo hi : Z)                          (* svlan lo-hi *)
  | LSvlan (v : Z)
  | LAccess (sw_if_index svlan : Z) (c : l2gw_cv_word)
  | LHandoff (sw_if_index svlan : Z) (c : l2gw_cv_word)
  | LAccessTpid (t : Z) | LHandoffTpid (t : Z)   (* dot1q or dot1ad *)
  | LTransparent | LDisabled
  | LNumber (n : Z)
  | LOther.

Inductive l2gw_cli_error := L2CliUnknown | L2CliMissing | L2CliRefresh (id : option Z) | L2CliFailed (rv : l2gw_rv).

Definition l2gw_cli_result (rv : l2gw_rv) : option l2gw_cli_error :=
  match rv with L2_OK => None | _ => Some (L2CliFailed rv) end.

(** [osvbng l2gw]. *)
Fixpoint l2gw_enable_parse (words : list l2gw_word) (sw_if_index : option Z) (enable : bool)
    : option (option Z * bool) :=
  match words with
  | [] => Some (sw_if_index, enable)
  | LDisable :: words => l2gw_enable_parse words sw_if_index false
  | LInterface sw :: words => l2gw_enable_parse words (Some (u32 sw)) enable
  | _ => None
  end.

(** [osvbng l2gw trigger]. *)
Fixpoint l2gw_trigger_parse (words : list l2gw_word) (sw_if_index : option Z) (lo hi : Z) (any_protocol is_add : bool)
    : option (option Z * Z * Z * bool * bool) :=
  match words with
  | [] => Some (sw_if_index, lo, hi, any_protocol, is_add)
  | LDel :: words => l2gw_trigger_parse words sw_if_index lo hi any_protocol false
  | LAny :: words => l2gw_trigger_parse words sw_if_index lo hi true is_add
  | LSvlans lo hi :: words => l2gw_trigger_parse words sw_if_index (u32 lo) (u32 hi) any_protocol is_add
  | LSvlan v :: words => l2gw_trigger_parse words sw_if_index (u32 v) (u32 v) any_protocol is_add
  | LInterface sw :: words => l2gw_trigger_parse words (Some (u32 sw)) lo hi any_protocol is_add
  | _ => None
  end.

(** [osvbng l2gw circuit].  Interfaces begin as ~0. *)
Definition l2gw_cli_args : vnet_l2gw_add_del_circuit_args_t :=
  mkL2gwArgs true NONE 0 0 0 NONE 0 0 0 false true.

Definition cvlan_word (c : l2gw_cv_word) (old : Z) : Z :=
  match c with NoCvlan => old | CvlanAny => L2GW_CVLAN_ANY | Cvlan v => u16 v end.

Definition l2gw_circuit_word (w : l2gw_word) (a : vnet_l2gw_add_del_circuit_args_t)
    : option vnet_l2gw_add_del_circuit_args_t :=
  let '(mkL2gwArgs is_add asw asv acv atp hsw hsv hcv htp tr en) := a in
  match w with
  | LDel => Some (mkL2gwArgs false asw asv acv atp hsw hsv hcv htp tr en)
  | LAccess sw sv c => Some (mkL2gwArgs is_add (u32 sw) (u16 sv) (cvlan_word c acv) atp hsw hsv hcv htp tr en)
  | LHandoff sw sv c => Some (mkL2gwArgs is_add asw asv acv atp (u32 sw) (u16 sv) (cvlan_word c hcv) htp tr en)
  | LAccessTpid t => Some (mkL2gwArgs is_add asw asv acv t hsw hsv hcv htp tr en)
  | LHandoffTpid t => Some (mkL2gwArgs is_add asw asv acv atp hsw hsv hcv t tr en)
  | LTransparent => Some (mkL2gwArgs is_add asw asv acv atp hsw hsv hcv htp true en)
  | LDisabled => Some (mkL2gwArgs is_add asw asv acv atp hsw hsv hcv htp tr false)
  | _ => None
  end.

Fixpoint l2gw_circuit_parse (words : list l2gw_word) (a : vnet_l2gw_add_del_circuit_args_t)
    : option vnet_l2gw_add_del_circuit_args_t :=
  match words with
  | [] => Some a
  | w :: words => a ← l2gw_circuit_word w a; l2gw_circuit_parse words a
  end.

(** [osvbng l2gw state]; [None] is ~0, all circuits. *)
Fixpoint l2gw_state_parse (words : list l2gw_word) (circuit_id : Z) (enabled : option bool)
    : option (Z * option bool) :=
  match words with
  | [] => Some (circuit_id, enabled)
  | LAll :: words => l2gw_state_parse words NONE enabled
  | LNumber n :: words => l2gw_state_parse words (u32 n) enabled
  | LEnable :: words => l2gw_state_parse words circuit_id (Some true)
  | LDisable :: words => l2gw_state_parse words circuit_id (Some false)
  | _ => None
  end.

Section Cli.

Context `{AccessVpp}.

Definition l2gw_enable_disable_command_fn (words : list l2gw_word) (feature_ok : bool) (m : l2gw_main_t)
    : l2gw_main_t * option l2gw_cli_error :=
  match l2gw_enable_parse words None true with
  | None => (m, Some L2CliUnknown)
  | Some (None, _) => (m, Some L2CliMissing)
  | Some (Some sw, enable) =>
      let '(m, rv) := vnet_l2gw_enable_disable sw enable feature_ok m in (m, l2gw_cli_result rv)
  end.

(** The call takes its S-VLANs as u16. *)
Definition l2gw_trigger_command_fn (words : list l2gw_word) (m : l2gw_main_t)
    : l2gw_main_t * option l2gw_cli_error :=
  match l2gw_trigger_parse words None 0 0 false true with
  | None => (m, Some L2CliUnknown)
  | Some (None, _, _, _, _) => (m, Some L2CliMissing)
  | Some (Some sw, lo, hi, any_protocol, is_add) =>
      if lo =? 0 then (m, Some L2CliMissing)
      else
        let '(m, rv) := vnet_l2gw_trigger_svlan_range sw (u16 lo) (u16 hi) any_protocol is_add m in
        (m, l2gw_cli_result rv)
  end.

(** With the circuit printed, if it is there. *)
Definition l2gw_circuit_add_del_command_fn (words : list l2gw_word) (access_index handoff_index : Z)
    (m : l2gw_main_t) : option (l2gw_main_t * (option Z + l2gw_cli_error)) :=
  match l2gw_circuit_parse words l2gw_cli_args with
  | None => Some (m, inr L2CliUnknown)
  | Some a =>
      if (la_access_sw_if_index a =? NONE) || (la_handoff_sw_if_index a =? NONE) then Some (m, inr L2CliMissing)
      else
        '(m, rv, circuit_id) ← vnet_l2gw_add_del_circuit a access_index handoff_index m;
        Some (m, match rv with
                 | L2_OK => inl circuit_id
                 | L2_ENTRY_NEEDS_REFRESH => inr (L2CliRefresh circuit_id)
                 | _ => inr (L2CliFailed rv)
                 end)
  end.

Definition l2gw_circuit_state_command_fn (words : list l2gw_word) (m : l2gw_main_t)
    : option (l2gw_main_t * option l2gw_cli_error) :=
  match l2gw_state_parse words NONE None with
  | None => Some (m, Some L2CliUnknown)
  | Some (_, None) => Some (m, Some L2CliMissing)
  | Some (circuit_id, Some enabled) =>
      '(m, rv) ← vnet_l2gw_circuit_set_state (if circuit_id =? NONE then None else Some circuit_id) enabled m;
      Some (m, l2gw_cli_result rv)
  end.

End Cli.

(** A circuit of [show osvbng l2gw circuits], with its counters up and down. *)
Record l2gw_line := mkL2gwLine {
  ll_circuit_id : Z;
  ll_enabled : bool;
  ll_transparent : bool;
  ll_wildcard : bool;
  ll_access : Z * Z * Z;
  ll_handoff : Z * Z * Z;
  ll_up : Z * Z;
  ll_down : Z * Z
}.

Definition show_circuit (e : l2gw_entry_t) (m : l2gw_main_t) : option l2gw_line :=
  peer ← lg_entries m !! le_peer_entry_index e;
  let side e := (le_rx_sw_if_index e, le_rx_svlan e, le_rx_cvlan e) in
  let counter i := default (0, 0) (lg_counters m !! i) in
  Some (mkL2gwLine (le_circuit_id e) (entry_has L2GW_ENTRY_F_ENABLED e) (entry_has L2GW_ENTRY_F_TRANSPARENT e)
          (entry_has L2GW_ENTRY_F_WILDCARD e) (side e) (side peer) (counter (le_circuit_id e))
          (counter (le_peer_entry_index e))).

Definition l2gw_show_circuits_command_fn (m : l2gw_main_t) : option (list l2gw_line) :=
  mapM (λ e, show_circuit e m)
    (filter (λ e, entry_has L2GW_ENTRY_F_ACCESS_SIDE e = true) (map_to_list (lg_entries m)).*2).
