(* ===== verification/L2gwNode.v ===== *)
(** The input node of the layer 2 gateway
    ([plugins/osvbng_l2gw/osvbng_l2gw_node.c]).

    [l2gw_input_1] is the step for one packet, [l2gw_input_node] the node: its loop, with
    the two one-entry caches, the frames towards output nodes and the counters. *)

From S2P Require Import Prelude Packet Access TxFrames PuntShm L2gwCircuit.

#[local] Open Scope Z_scope.

Definition L2GW_MAX_TX_OUTPUTS : Z := 8.
Definition ETHERNET_TYPE_VLAN_9100 : Z := 37120.       (* 0x9100 *)
Definition SIZEOF_IP6_HEADER : Z := 40.
Definition IP_PROTOCOL_UDP : Z := 17.

(** * Tags *)

Definition l2gw_is_tag_tpid (ethertype : Z) : bool :=
  (ethertype =? ETHERNET_TYPE_VLAN) || (ethertype =? ETHERNET_TYPE_DOT1AD) ||
  (ethertype =? ETHERNET_TYPE_VLAN_9100).

Record l2gw_tags := mkTags {
  tg_n : Z;
  tg_svlan : Z;
  tg_cvlan : Z;
  tg_outer_prio : Z;
  tg_inner_prio : Z
}.

(** The tags of the frame at [eth]. *)
Definition l2gw_parse_tags (d : Z → Z) (eth : Z) : l2gw_tags :=
  let net16 o := clib_net_to_host_u16 (ld16 d o) in
  let p := eth + SIZEOF_ETHERNET in
  if l2gw_is_tag_tpid (net16 (eth + 12)) then
    let tci := net16 p in
    let svlan := Z.land tci 4095 in            (* 0xFFF *)
    let outer_prio := Z.land tci 61440 in      (* 0xF000 *)
    if l2gw_is_tag_tpid (net16 (p + 2)) then
      let tci := net16 (p + SIZEOF_VLAN) in
      mkTags 2 svlan (Z.land tci 4095) outer_prio (Z.land tci 61440)
    else mkTags 1 svlan 0 outer_prio 0
  else mkTags 0 0 0 0 0.

(** * Triggers *)

Definition l2gw_trigger_armed (m : l2gw_main_t) (sw_if_index svlan : Z) : bool :=
  if svlan =? 0 then false
  else match lg_trigger_svlans m !! sw_if_index with
       | None => false
       | Some bm => bool_decide (svlan ∈ bm)
       end.

Definition l2gw_trigger_any_armed (m : l2gw_main_t) (sw_if_index svlan : Z) : bool :=
  if svlan =? 0 then false
  else match lg_trigger_any_svlans m !! sw_if_index with
       | None => false
       | Some bm => bool_decide (svlan ∈ bm)
       end.

Definition dampener_key (sw_if_index svlan cvlan : Z) : Z :=
  Z.lor (Z.lor (u64 (Z.shiftl sw_if_index 32)) (Z.shiftl svlan 16)) cvlan.

(** Whether a tuple may punt at [now], and that it has. *)
Definition l2gw_trigger_dampen_allow (now : f64) (sw_if_index svlan cvlan : Z) (m : l2gw_main_t)
    : l2gw_main_t * bool :=
  let key := dampener_key sw_if_index svlan cvlan in
  let hit := match lg_trigger_dampener m !! key with
             | Some last => SpecFloat.SFltb (f64_sub now last) (lg_trigger_dampen_interval m)
             | None => false
             end in
  if hit then (m, false) else (m⟪lg_trigger_dampener ::= <[key := now]>⟫, true).

(** The punt protocol of a DHCP frame. *)
Definition l2gw_frame_is_dhcp_trigger (b : vlib_buffer_t) (n_tags : Z) : option Z :=
  let d := b_data b in
  let eth := b_current_data b in
  let net16 o := clib_net_to_host_u16 (ld16 d o) in
  let p := eth + SIZEOF_ETHERNET + n_tags * SIZEOF_VLAN in
  let type := if n_tags =? 0 then net16 (eth + 12) else net16 (p - 2) in
  let l2_len := p - eth in
  if b_current_length b <? l2_len then None
  else
    let avail := b_current_length b - l2_len in
    if type =? ETHERNET_TYPE_IP4 then
      let ihl := Z.land (d p) 15 * 4 in
      if avail <? SIZEOF_IP4_HEADER + SIZEOF_UDP_HEADER then None
      else if negb (d (p + 9) =? IP_PROTOCOL_UDP) then None
      else if avail <? ihl + SIZEOF_UDP_HEADER then None
      else if negb (ld16 d (p + ihl + 2) =? clib_net_to_host_u16 67) then None
      else Some OSVBNG_PUNT_PROTO_DHCPV4
    else if type =? ETHERNET_TYPE_IP6 then
      if avail <? SIZEOF_IP6_HEADER + SIZEOF_UDP_HEADER then None
      else if negb (d (p + 6) =? IP_PROTOCOL_UDP) then None
      else if negb (ld16 d (p + SIZEOF_IP6_HEADER + 2) =? clib_net_to_host_u16 547) then None
      else Some OSVBNG_PUNT_PROTO_DHCPV6
    else None.

Section Node.

Context `{VlibVpp, AccessVpp}.

(** [vnet_get_sup_hw_interface] and its [output_node_index]. *)
Variable output_node_of : Z → Z.

(** * Rewriting *)

(** A 16-bit field in network order. *)
Definition st_net16 (d : Z → Z) (o v : Z) : Z → Z := st16 d o (clib_net_to_host_u16 v).

Definition l2gw_rewrite (b : vlib_buffer_t) (e : l2gw_entry_t) (n_rx_tags outer_prio inner_prio : Z)
    : vlib_buffer_t :=
  let outer_tci := Z.lor outer_prio (le_tx_svlan e) in
  if entry_has L2GW_ENTRY_F_TRANSPARENT e then b
  else if entry_has L2GW_ENTRY_F_WILDCARD e then
    let eth := b_current_data b in
    b⟪b_data ::= λ d, st_net16 (st_net16 d (eth + 12) (le_tx_outer_tpid e)) (eth + SIZEOF_ETHERNET) outer_tci⟫
  else
    let n_tx_tags := (if le_tx_svlan e =? 0 then 0 else 1) + (if le_tx_cvlan e =? 0 then 0 else 1) in
    let b :=
      if n_tx_tags =? n_rx_tags then b
      else
        let mac_block := bytes (b_data b) (b_current_data b) 12 in
        let b := vlib_buffer_advance (- ((n_tx_tags - n_rx_tags) * SIZEOF_VLAN)) b in
        b⟪b_data ::= λ d, put d (b_current_data b) mac_block⟫ in
    let eth := b_current_data b in
    let p := eth + SIZEOF_ETHERNET in
    if n_tx_tags =? 0 then b
    else
      let b := b⟪b_data ::= λ d, st_net16 (st_net16 d (eth + 12) (le_tx_outer_tpid e)) p outer_tci⟫ in
      if n_tx_tags =? 2 then
        b⟪b_data ::= λ d, st_net16 (st_net16 d (p + 2) ETHERNET_TYPE_VLAN) (p + SIZEOF_VLAN)
                            (Z.lor inner_prio (le_tx_cvlan e))⟫
      else b.

(** * Packets *)

Inductive l2gw_next :=
  | L2gwFeatureNext              (* vnet_feature_next *)
  | L2gwPunt (arc : Z)
  | L2gwDrop
  | L2gwSwitched (out_node : Z).

(** The counters of the node. *)
Inductive l2gw_error_t :=
  | L2GW_ERROR_SWITCHED
  | L2GW_ERROR_NO_CIRCUIT
  | L2GW_ERROR_DISABLED
  | L2GW_ERROR_TX_UNRESOLVED
  | L2GW_ERROR_TRIGGER_PUNTED
  | L2GW_ERROR_TRIGGER_DAMPENED.
#[global] Instance l2gw_error_eq_dec : EqDecision l2gw_error_t.
Proof. solve_decision. Defined.

Definition l2gw_outcome : Type := vlib_buffer_t * l2gw_next * list l2gw_error_t.

(** A frame without a circuit that forwards. *)
Definition l2gw_miss (now : f64) (tags : l2gw_tags) (b : vlib_buffer_t) (m : l2gw_main_t)
    : l2gw_main_t * l2gw_outcome :=
  let sw_if_index0 := b_rx b in
  let go (m : l2gw_main_t) (arc : Z) (proto : option Z) (errs : list l2gw_error_t) :=
    match proto with
    | Some proto => (m, (b⟪b_opaque2_1 := proto⟫, L2gwPunt arc, errs ++ [L2GW_ERROR_TRIGGER_PUNTED]))
    | None => (m, (b, L2gwFeatureNext, errs))
    end in
  match lg_punt_shm_tx_next_arc m with
  | None => (m, (b, L2gwFeatureNext, []))
  | Some arc =>
      if l2gw_trigger_any_armed m sw_if_index0 (tg_svlan tags) then
        let '(m, allow) := l2gw_trigger_dampen_allow now sw_if_index0 (tg_svlan tags) (tg_cvlan tags) m in
        if (allow : bool) then go m arc (Some OSVBNG_PUNT_PROTO_L2GW_TRIGGER) []
        else go m arc None [L2GW_ERROR_TRIGGER_DAMPENED]
      else if l2gw_trigger_armed m sw_if_index0 (tg_svlan tags)
      then go m arc (l2gw_frame_is_dhcp_trigger b (tg_n tags)) []
      else go m arc None []
  end.

(** A frame of the circuit's direction [entry_index]. *)
Definition l2gw_forward (entry_index : Z) (e0 : l2gw_entry_t) (tags : l2gw_tags) (b : vlib_buffer_t)
    (m : l2gw_main_t) : l2gw_main_t * l2gw_outcome :=
  if sw_interface_is_free (le_tx_sw_if_index e0) then (m, (b, L2gwDrop, [L2GW_ERROR_TX_UNRESOLVED]))
  else
    let m := m⟪lg_counters ::= alter (λ c, (u64 (fst c + 1), u64 (snd c + vlib_buffer_length_in_chain b)))
                                 entry_index⟫ in
    let b := l2gw_rewrite b e0 (tg_n tags) (tg_outer_prio tags) (tg_inner_prio tags) in
    (m, (b⟪b_tx := le_tx_sw_if_index e0⟫, L2gwSwitched (output_node_of (le_tx_sw_if_index e0)),
         [L2GW_ERROR_SWITCHED])).

(** What is done when the lookups gave [result0]. *)
Definition l2gw_act (now : f64) (result0 : Z) (tags : l2gw_tags) (b : vlib_buffer_t) (m : l2gw_main_t)
    : option (l2gw_main_t * l2gw_outcome) :=
  let missed (err : l2gw_error_t) :=
    let '(m, (b, next, errs)) := l2gw_miss now tags b m in Some (m, (b, next, err :: errs)) in
  if result0 =? L2GW_NO_RESULT then missed L2GW_ERROR_NO_CIRCUIT
  else
    let entry_index := result_entry_index result0 in
    e0 ← lg_entries m !! entry_index;
    if negb (entry_has L2GW_ENTRY_F_ENABLED e0) then missed L2GW_ERROR_DISABLED
    else Some (l2gw_forward entry_index e0 tags b m).

(** The exact lookup, then the wildcard one, each with its cache. *)
Definition l2gw_lookups (table : gmap l2gw_key_t Z) (caches : l2gw_cache * l2gw_cache)
    (sw_if_index0 svlan0 cvlan0 : Z) : Z * (l2gw_cache * l2gw_cache) :=
  let '(exact, wild) := caches in
  let '(result0, exact) := l2gw_lookup_1 table exact sw_if_index0 svlan0 cvlan0 in
  if (result0 =? L2GW_NO_RESULT) && negb (svlan0 =? 0) then
    let '(result0, wild) := l2gw_lookup_1 table wild sw_if_index0 svlan0 L2GW_CVLAN_ANY in
    (result0, (exact, wild))
  else (result0, (exact, wild)).

Definition l2gw_input_1 (caches : l2gw_cache * l2gw_cache) (now : f64) (b0 : vlib_buffer_t)
    (m : l2gw_main_t) : option (l2gw_main_t * (l2gw_cache * l2gw_cache) * l2gw_outcome) :=
  let tags := l2gw_parse_tags (b_data b0) (b_current_data b0) in
  let '(result0, caches) := l2gw_lookups (lg_circuit_table m) caches (b_rx b0) (tg_svlan tags) (tg_cvlan tags) in
  '(m, out) ← l2gw_act now result0 tags b0 m;
  Some (m, caches, out).

(** * Frames *)

Record l2gw_counts := mkL2gwCounts {     (* u32 *)
  lc_switched : Z;
  lc_no_circuit : Z;
  lc_disabled : Z;
  lc_tx_unresolved : Z;
  lc_trigger_punted : Z;
  lc_trigger_dampened : Z
}.

Definition count_l2gw (c : l2gw_counts) (err : l2gw_error_t) : l2gw_counts :=
  let on (x : l2gw_error_t) (n : Z) := if decide (x = err) then u32 (n + 1) else n in
  mkL2gwCounts (on L2GW_ERROR_SWITCHED (lc_switched c)) (on L2GW_ERROR_NO_CIRCUIT (lc_no_circuit c))
    (on L2GW_ERROR_DISABLED (lc_disabled c)) (on L2GW_ERROR_TX_UNRESOLVED (lc_tx_unresolved c))
    (on L2GW_ERROR_TRIGGER_PUNTED (lc_trigger_punted c))
    (on L2GW_ERROR_TRIGGER_DAMPENED (lc_trigger_dampened c)).

(** A buffer's outcome, towards its output node if it is switched. *)
Definition l2gw_dispatch (bi : Z) (out : l2gw_outcome) (fs : tx_frames) : tx_frames :=
  match out with
  | (_, L2gwSwitched out_node, _) => frames_enqueue L2GW_MAX_TX_OUTPUTS out_node bi fs
  | _ => fs
  end.

(** The buffers of the frame have indices, and the clock is read at each. *)
Fixpoint l2gw_input_loop (caches : l2gw_cache * l2gw_cache) (fs : tx_frames) (c : l2gw_counts)
    (frame : list (Z * f64 * vlib_buffer_t)) (m : l2gw_main_t)
    : option (l2gw_main_t * tx_frames * l2gw_counts * list (Z * l2gw_outcome)) :=
  match frame with
  | [] => Some (m, fs, c, [])
  | (bi, now, b0) :: frame =>
      '(m, caches, out) ← l2gw_input_1 caches now b0 m;
      '(m, fs, c, outs) ← l2gw_input_loop caches (l2gw_dispatch bi out fs)
                            (foldl count_l2gw c (snd out)) frame m;
      Some (m, fs, c, (bi, out) :: outs)
  end.

(** The result: the state, the frames handed to output nodes, the counters, and every
    buffer's outcome. *)
Definition l2gw_input_node (frame : list (Z * f64 * vlib_buffer_t)) (m : l2gw_main_t)
    : option (l2gw_main_t * list (Z * list Z) * l2gw_counts * list (Z * l2gw_outcome)) :=
  '(m, fs, c, outs) ← l2gw_input_loop (L2GW_EMPTY_CACHE, L2GW_EMPTY_CACHE) (mkTxFrames [] [])
                        (mkL2gwCounts 0 0 0 0 0 0) frame m;
  Some (m, frames_flush fs, c, outs).

End Node.
