(* ===== verification/L2gwInv.v ===== *)
(** What the layer 2 gateway keeps true of its circuits.

    [l2gw_ok]: the table has the keys of the entries and no others, an entry's peer is the
    other direction of its circuit, and the two agree. *)

From S2P Require Import Prelude Packet Access PuntShm L2gwCircuit.

#[local] Open Scope Z_scope.

(** * Keys *)

Lemma l2gw_key_eq w v c :
  is_u32 w → is_u16 v → is_u16 c → l2gw_make_key w v c = (w + v * 2 ^ 32 + c * 2 ^ 48, 0).
Proof.
  intros Hw Hv Hc. unfold l2gw_make_key. set (l := le32 w ++ le16 v ++ le16 c). rewrite !ld64_value.
  assert (bytes (put (λ _, 0) 0 l) 0 8 = l) as ->
    by (change 8%nat with (length l); apply (bytes_put (λ _, 0) 0 l)).
  rewrite bytes_put_out by (right; reflexivity). f_equal.
  unfold l, le32, le16, le_value. cbn [app foldr]. unfold u8. rewrite !Z.shiftr_div_pow2 by lia.
  unfold is_u32, is_u16 in *. ints.
Qed.

Lemma l2gw_key_inj w v c w' v' c' :
  is_u32 w → is_u16 v → is_u16 c → is_u32 w' → is_u16 v' → is_u16 c' →
  l2gw_make_key w v c = l2gw_make_key w' v' c' → w = w' /\ v = v' /\ c = c'.
Proof.
  intros Hw Hv Hc Hw' Hv' Hc'. rewrite !l2gw_key_eq by done. intros [= He].
  unfold is_u32, is_u16 in *. lia.
Qed.

(** * Entries *)

(** The frames an entry takes: port, outer and inner tag. *)
Definition l2gw_end : Type := Z * Z * Z.
Definition rx_end (e : l2gw_entry_t) : l2gw_end := (le_rx_sw_if_index e, le_rx_svlan e, le_rx_cvlan e).
Definition end_key (x : l2gw_end) : l2gw_key_t := l2gw_make_key x.1.1 x.1.2 x.2.

(** An end that a valid circuit can have: an inner tag needs an outer one. *)
Definition end_ok (x : l2gw_end) : Prop :=
  is_u32 x.1.1 /\ 0 <= x.1.2 <= 4095 /\ (0 <= x.2 <= 4095 \/ x.2 = L2GW_CVLAN_ANY) /\
  (x.2 ≠ 0 → x.1.2 ≠ 0).

(** [faces e p]: what the direction [e] of a circuit says of the other one, [p]. *)
Record faces (e p : l2gw_entry_t) : Prop := {
  fc_port : le_tx_sw_if_index e = le_rx_sw_if_index p;
  fc_svlan : le_tx_svlan e = if entry_has L2GW_ENTRY_F_TRANSPARENT e then 0 else le_rx_svlan p;
  fc_cvlan : le_tx_cvlan e =
    if entry_has L2GW_ENTRY_F_TRANSPARENT e || (le_rx_cvlan p =? L2GW_CVLAN_ANY) then 0 else le_rx_cvlan p;
  fc_wild : (le_rx_cvlan p =? L2GW_CVLAN_ANY) = entry_has L2GW_ENTRY_F_WILDCARD e;
  fc_tpid : le_tx_outer_tpid e = ETHERNET_TYPE_DOT1AD \/ le_tx_outer_tpid e = ETHERNET_TYPE_VLAN;
  fc_enabled : entry_has L2GW_ENTRY_F_ENABLED p = entry_has L2GW_ENTRY_F_ENABLED e;
  fc_wildcard : entry_has L2GW_ENTRY_F_WILDCARD p = entry_has L2GW_ENTRY_F_WILDCARD e;
  fc_transparent : entry_has L2GW_ENTRY_F_TRANSPARENT p = entry_has L2GW_ENTRY_F_TRANSPARENT e;
  fc_side : entry_has L2GW_ENTRY_F_ACCESS_SIDE p = negb (entry_has L2GW_ENTRY_F_ACCESS_SIDE e);
  fc_id : le_circuit_id p = le_circuit_id e
}.

(** The entry [i] is one half of a circuit. *)
Record paired (m : l2gw_main_t) (i : Z) (e p : l2gw_entry_t) : Prop := {
  pr_slot : is_u32 i;
  pr_end : end_ok (rx_end e);
  pr_peer : lg_entries m !! le_peer_entry_index e = Some p;
  pr_back : le_peer_entry_index p = i;
  pr_other : le_peer_entry_index e ≠ i;
  pr_faces : faces e p;
  pr_access : entry_has L2GW_ENTRY_F_ACCESS_SIDE e = true → le_circuit_id e = i
}.

Record l2gw_ok (m : l2gw_main_t) : Prop := {
  lo_pair i e : lg_entries m !! i = Some e → exists p, paired m i e p;
  lo_table k raw : lg_circuit_table m !! k = Some raw →
    exists e, lg_entries m !! raw = Some e /\ end_key (rx_end e) = k;
  (* a circuit between an end and itself has one key for two entries *)
  lo_keyed i e : lg_entries m !! i = Some e →
    lg_circuit_table m !! end_key (rx_end e) = Some i \/
    lg_circuit_table m !! end_key (rx_end e) = Some (le_peer_entry_index e)
}.

(** ** Flags *)

Lemma has_bit k e : 0 <= k → entry_has (2 ^ k) e = Z.testbit (le_flags e) k.
Proof.
  intros Hk. unfold entry_has. destruct (Z.testbit (le_flags e) k) eqn:Hb.
  - destruct (Z.eqb_spec (Z.land (le_flags e) (2 ^ k)) 0) as [E|]; [|done].
    apply (f_equal (λ z, Z.testbit z k)) in E.
    by rewrite Z.land_spec, Hb, Z.pow2_bits_true, Z.bits_0 in E.
  - rewrite (proj2 (Z.eqb_eq _ _)); [done|]. apply Z.bits_inj'. intros n Hn.
    rewrite Z.land_spec, Z.bits_0, Z.pow2_bits_eqb by done.
    destruct (Z.eqb_spec k n) as [->|]; [by rewrite Hb|by rewrite andb_false_r].
Qed.

Lemma flag_enabled_has en flag e :
  flag ∈ [2; 4; 8] → entry_has flag (flag_enabled en e) = entry_has flag e.
Proof.
  intros Hf. assert (∃ k, 0 < k < 8 /\ flag = 2 ^ k) as (k & Hk & ->).
  { repeat (apply elem_of_cons in Hf as [->|Hf]); [by exists 1|by exists 2|by exists 3|].
    by apply not_elem_of_nil in Hf. }
  rewrite !has_bit by lia. unfold flag_enabled. rproj. destruct en.
  - rewrite Z.lor_spec. change L2GW_ENTRY_F_ENABLED with (2 ^ 0). rewrite Z.pow2_bits_false by lia.
    by rewrite orb_false_r.
  - rewrite Z.land_spec. replace (Z.testbit (255 - L2GW_ENTRY_F_ENABLED) k) with true; [by rewrite andb_true_r|].
    assert (k = 1 \/ k = 2 \/ k = 3 \/ k = 4 \/ k = 5 \/ k = 6 \/ k = 7) as Hc by lia.
    by repeat destruct Hc as [->|Hc]; [..|subst k].
Qed.

Lemma flag_enabled_is en e : entry_has L2GW_ENTRY_F_ENABLED (flag_enabled en e) = en.
Proof.
  change L2GW_ENTRY_F_ENABLED with (2 ^ 0). rewrite has_bit by lia. unfold flag_enabled. rproj. destruct en.
  - rewrite Z.lor_spec. by rewrite orb_true_r.
  - rewrite Z.land_spec. by rewrite andb_false_r.
Qed.

Lemma flags_of_args (a : vnet_l2gw_add_del_circuit_args_t) (side : bool) (e : l2gw_entry_t) :
  le_flags e = (if side then Z.lor (l2gw_flags_common a) L2GW_ENTRY_F_ACCESS_SIDE else l2gw_flags_common a) →
  entry_has L2GW_ENTRY_F_ENABLED e = la_enabled a /\
  entry_has L2GW_ENTRY_F_WILDCARD e = (la_access_cvlan a =? L2GW_CVLAN_ANY) /\
  entry_has L2GW_ENTRY_F_TRANSPARENT e = la_transparent a /\
  entry_has L2GW_ENTRY_F_ACCESS_SIDE e = side.
Proof.
  unfold entry_has, l2gw_flags_common. intros ->.
  destruct side, (la_enabled a), (la_access_cvlan a =? L2GW_CVLAN_ANY), (la_transparent a); by split_and!.
Qed.

(** * Keys of valid ends *)

Lemma end_key_inj x y : end_ok x → end_ok y → end_key x = end_key y → x = y.
Proof.
  destruct x as [[w v] c], y as [[w' v'] c']. unfold end_ok, end_key. cbn [fst snd].
  intros (Hw & Hv & Hc & _) (Hw' & Hv' & Hc' & _) He. unfold L2GW_CVLAN_ANY in *.
  apply l2gw_key_inj in He as (-> & -> & ->); [done|done|..|done| |]; unfold is_u16; lia.
Qed.

Lemma pair_end m i e : l2gw_ok m → lg_entries m !! i = Some e → end_ok (rx_end e).
Proof. intros Hok He. destruct (lo_pair m Hok i e He) as (p & Hp). apply Hp. Qed.

(** What a lookup leads to. *)
Lemma lookup_entry m k i :
  l2gw_ok m → l2gw_table_lookup k m = Some i →
  exists e, lg_entries m !! i = Some e /\ end_key (rx_end e) = k /\ lg_circuit_table m !! k = Some i.
Proof.
  intros Hok. unfold l2gw_table_lookup. destruct (lg_circuit_table m !! k) as [raw|] eqn:Hk; [|done].
  cbn [option_map]. intros [= <-]. destruct (lo_table m Hok k raw Hk) as (e & He & Hke).
  destruct (lo_pair m Hok raw e He) as (p & Hp). pose proof (pr_slot _ _ _ _ Hp) as Hs.
  unfold result_entry_index. rewrite u32_small by done. eauto.
Qed.

(** No entry has a key that a lookup misses. *)
Lemma lookup_none m k i e :
  l2gw_ok m → l2gw_table_lookup k m = None → lg_entries m !! i = Some e → end_key (rx_end e) ≠ k.
Proof.
  intros Hok Hn He <-. unfold l2gw_table_lookup in Hn.
  by destruct (lo_keyed m Hok i e He) as [E|E]; rewrite E in Hn.
Qed.

(** Entries with one key are the two halves of a circuit. *)
Lemma same_key m i e j e' :
  l2gw_ok m → lg_entries m !! i = Some e → lg_entries m !! j = Some e' →
  rx_end e = rx_end e' → j = i \/ j = le_peer_entry_index e.
Proof.
  intros Hok He He' Hx.
  destruct (lo_pair m Hok i e He) as (p & Hp), (lo_pair m Hok j e' He') as (p' & Hp').
  pose proof (lo_keyed m Hok i e He) as Hk. pose proof (lo_keyed m Hok j e' He') as Hk'. rewrite <- Hx in Hk'.
  destruct Hk as [E|E], Hk' as [E'|E']; rewrite E in E'; injection E' as E'.
  - by left.
  - right. subst i. pose proof (pr_peer _ _ _ _ Hp') as Hq. rewrite He in Hq. injection Hq as <-.
    by rewrite (pr_back _ _ _ _ Hp').
  - by right.
  - left. pose proof (pr_peer _ _ _ _ Hp) as Hq. pose proof (pr_peer _ _ _ _ Hp') as Hq'.
    rewrite <- E', Hq in Hq'. injection Hq' as <-.
    by rewrite <- (pr_back _ _ _ _ Hp), <- (pr_back _ _ _ _ Hp').
Qed.

(** ** Changes elsewhere *)

Lemma ok_same m m' :
  lg_entries m' = lg_entries m → lg_circuit_table m' = lg_circuit_table m → l2gw_ok m → l2gw_ok m'.
Proof.
  intros E1 E2 [H1 H2 H3]. split; rewrite ?E1, ?E2; [|done|done].
  intros i e He. destruct (H1 i e He) as (p & Hp). exists p. destruct Hp. split; rewrite ?E1; done.
Qed.

(** ** State *)

(** The flag of whole circuits changes. *)
Lemma set_flags_ok m m' (sel : Z → bool) en :
  l2gw_ok m → lg_circuit_table m' = lg_circuit_table m →
  (∀ i, lg_entries m' !! i = (λ e, if sel i then flag_enabled en e else e) <$> lg_entries m !! i) →
  (∀ i e, lg_entries m !! i = Some e → sel (le_peer_entry_index e) = sel i) →
  l2gw_ok m'.
Proof.
  intros Hok Et Ee Hsel.
  assert (∀ i e, rx_end (if sel i then flag_enabled en e else e) = rx_end e) as Hrx
    by (intros; by destruct (sel _)).
  assert (∀ i e, le_peer_entry_index (if sel i then flag_enabled en e else e) = le_peer_entry_index e) as Hpe
    by (intros; by destruct (sel _)).
  split.
  - intros i e'. rewrite Ee, fmap_Some. intros (e & He & ->).
    destruct (lo_pair m Hok i e He) as (p & [P1 P2 P3 P4 P5 P6 P7]).
    exists (if sel i then flag_enabled en p else p). split; rewrite ?Hpe, ?Hrx; try done.
    + by rewrite Ee, P3, (Hsel i e He).
    + destruct (sel i); [|done]. destruct P6 as [F1 F2 F3 F4 F5 F6 F7 F8 F9 F10].
      split; rewrite ?flag_enabled_is, ?flag_enabled_has by set_solver; done.
    + destruct (sel i); [|done]. by rewrite flag_enabled_has by set_solver.
  - intros k raw. rewrite Et. intros Hk. destruct (lo_table m Hok k raw Hk) as (e & He & Hx).
    exists (if sel raw then flag_enabled en e else e). rewrite Ee, He, Hrx. done.
  - intros i e'. rewrite Ee, fmap_Some. intros (e & He & ->). rewrite Et, Hrx, Hpe. by apply (lo_keyed m Hok).
Qed.

Lemma set_state_ok id en m :
  l2gw_ok m →
  exists m' rv, vnet_l2gw_circuit_set_state id en m = Some (m', rv) /\ l2gw_ok m'.
Proof.
  intros Hok. unfold vnet_l2gw_circuit_set_state. destruct id as [id|].
  2: { eexists _, _. split; [reflexivity|]. apply (set_flags_ok m _ (λ _, true) en Hok); [done| |done].
       intros i. rproj. by rewrite lookup_fmap. }
  destruct (lg_entries m !! id) as [e|] eqn:He; [|by eexists _, _].
  destruct (negb (entry_has L2GW_ENTRY_F_ACCESS_SIDE e)); [by eexists _, _|].
  destruct (lo_pair m Hok id e He) as (p & Hp). rewrite (pr_peer _ _ _ _ Hp). cbn [mbind option_bind].
  eexists _, _. split; [reflexivity|].
  apply (set_flags_ok m _ (λ i, bool_decide (i = id \/ i = le_peer_entry_index e)) en Hok); [done|..].
  - intros i. unfold upd_entry. rproj. pose proof (pr_other _ _ _ _ Hp) as Hne.
    destruct (decide (i = le_peer_entry_index e)) as [->|H1]; [|destruct (decide (i = id)) as [->|H2]].
    + rewrite bool_decide_true by by right. by rewrite lookup_alter_eq, lookup_alter_ne.
    + rewrite bool_decide_true by by left. by rewrite lookup_alter_ne, lookup_alter_eq.
    + rewrite bool_decide_false by naive_solver. rewrite !lookup_alter_ne by done.
      by destruct (lg_entries m !! i).
  - intros i e' He'. destruct (lo_pair m Hok i e' He') as (p' & Hp'). apply bool_decide_ext.
    pose proof (pr_back _ _ _ _ Hp) as B. pose proof (pr_peer _ _ _ _ Hp) as Q.
    pose proof (pr_back _ _ _ _ Hp') as B'. pose proof (pr_peer _ _ _ _ Hp') as Q'. split.
    + intros [E|E]; rewrite E in Q'; [rewrite He in Q'; injection Q' as <-; by right|].
      rewrite Q in Q'. injection Q' as <-. left. by rewrite <- B, B'.
    + intros [->| ->]; [rewrite He in He'|rewrite Q in He']; injection He' as <-; [by right|by left].
Qed.
