(* ===== verification/L2gwRun.v ===== *)
(** Circuits as the control plane sees them, and what its calls do to them.

    [circuits m] are the circuits in the gateway's tables, by their ids, and
    [circuit_step] says what an addition or removal is to do and to answer. *)

From S2P Require Import Prelude Packet Access PuntShm L2gwCircuit L2gwInv.

#[local] Open Scope Z_scope.

(** * Circuits *)

Record l2gw_circuit := mkCircuit {
  ci_access : l2gw_end;
  ci_handoff : l2gw_end;
  ci_access_tpid : Z;
  ci_handoff_tpid : Z;
  ci_transparent : bool;
  ci_enabled : bool
}.

(** Seen from the other side. *)
Definition flip (c : l2gw_circuit) : l2gw_circuit :=
  mkCircuit (ci_handoff c) (ci_access c) (ci_handoff_tpid c) (ci_access_tpid c) (ci_transparent c)
    (ci_enabled c).

(** The same up to its state. *)
Definition same_circuit (c c' : l2gw_circuit) : Prop :=
  ci_access c = ci_access c' /\ ci_handoff c = ci_handoff c' /\ ci_access_tpid c = ci_access_tpid c' /\
  ci_handoff_tpid c = ci_handoff_tpid c' /\ ci_transparent c = ci_transparent c'.
#[export] Instance same_circuit_dec c c' : Decision (same_circuit c c').
Proof. unfold same_circuit. apply _. Defined.

(** From the direction [e], whose other one is [p]. *)
Definition circuit_of (e p : l2gw_entry_t) : l2gw_circuit :=
  mkCircuit (rx_end e) (rx_end p) (le_tx_outer_tpid p) (le_tx_outer_tpid e)
    (entry_has L2GW_ENTRY_F_TRANSPARENT e) (entry_has L2GW_ENTRY_F_ENABLED e).

Definition circuits (m : l2gw_main_t) : gmap Z l2gw_circuit :=
  map_imap (λ i e, if entry_has L2GW_ENTRY_F_ACCESS_SIDE e
                   then p ← lg_entries m !! le_peer_entry_index e; Some (circuit_of e p)
                   else None) (lg_entries m).

Definition args_access (a : vnet_l2gw_add_del_circuit_args_t) : l2gw_end :=
  (la_access_sw_if_index a, la_access_svlan a, la_access_cvlan a).
Definition args_handoff (a : vnet_l2gw_add_del_circuit_args_t) : l2gw_end :=
  (la_handoff_sw_if_index a, la_handoff_svlan a, la_handoff_cvlan a).
Definition args_circuit (a : vnet_l2gw_add_del_circuit_args_t) : l2gw_circuit :=
  mkCircuit (args_access a) (args_handoff a) (l2gw_normalize_tpid (la_access_tpid a))
    (l2gw_normalize_tpid (la_handoff_tpid a)) (la_transparent a) (la_enabled a).

(** No circuit has the end [x]. *)
Definition free_end (x : l2gw_end) (cs : gmap Z l2gw_circuit) : Prop :=
  ∀ k c, cs !! k = Some c → ci_access c ≠ x /\ ci_handoff c ≠ x.

Section Spec.

Context `{AccessVpp}.

(** What a call does and answers: a circuit is named by any of its ends, an addition that
    is already there changes nothing, and no end is in two circuits. *)
Inductive circuit_step (a : vnet_l2gw_add_del_circuit_args_t) (id : Z) (cs : gmap Z l2gw_circuit)
    : gmap Z l2gw_circuit → l2gw_rv → option Z → Prop :=
  | step_invalid rv : l2gw_validate_args a = Some rv → circuit_step a id cs cs rv None
  | step_missing :
      l2gw_validate_args a = None → la_is_add a = false → free_end (args_access a) cs →
      circuit_step a id cs cs L2_NO_SUCH_ENTRY None
  | step_removed k c :
      l2gw_validate_args a = None → la_is_add a = false →
      cs !! k = Some c → ci_access c = args_access a \/ ci_handoff c = args_access a →
      circuit_step a id cs (delete k cs) L2_OK (Some k)
  | step_present k c v :
      l2gw_validate_args a = None → la_is_add a = true →
      cs !! k = Some c → v = c \/ v = flip c → ci_access v = args_access a →
      circuit_step a id cs cs
        (if decide (same_circuit v (args_circuit a)) then L2_OK else L2_ENTRY_NEEDS_REFRESH) (Some k)
  | step_taken :
      l2gw_validate_args a = None → la_is_add a = true → free_end (args_access a) cs →
      ~ free_end (args_handoff a) cs → circuit_step a id cs cs L2_VALUE_EXIST None
  | step_added :
      l2gw_validate_args a = None → la_is_add a = true → cs !! id = None →
      free_end (args_access a) cs → free_end (args_handoff a) cs →
      circuit_step a id cs (<[id := args_circuit a]> cs) L2_OK (Some id).

End Spec.

(** ** In the tables *)

Lemma circuits_lookup m k c :
  circuits m !! k = Some c <->
  exists e p, lg_entries m !! k = Some e /\ entry_has L2GW_ENTRY_F_ACCESS_SIDE e = true /\
    lg_entries m !! le_peer_entry_index e = Some p /\ c = circuit_of e p.
Proof.
  unfold circuits. rewrite map_lookup_imap. split.
  - destruct (lg_entries m !! k) as [e|] eqn:He; [|done]. cbn [mbind option_bind].
    destruct (entry_has _ e) eqn:Ha; [|done].
    destruct (lg_entries m !! le_peer_entry_index e) as [p|] eqn:Hp; [|done].
    intros [= <-]. by exists e, p.
  - intros (e & p & He & Ha & Hp & ->). rewrite He. cbn [mbind option_bind]. rewrite Ha. by rewrite Hp.
Qed.

(** The other direction shows the other side. *)
Lemma circuit_flip m i e p : paired m i e p → circuit_of p e = flip (circuit_of e p).
Proof.
  intros Hp. destruct (pr_faces _ _ _ _ Hp). unfold circuit_of, flip. cbn. by f_equal.
Qed.

(** Every entry is a side of the circuit it names. *)
Lemma entry_circuit m i e p :
  l2gw_ok m → lg_entries m !! i = Some e → paired m i e p →
  exists c, circuits m !! le_circuit_id e = Some c /\ (circuit_of e p = c \/ circuit_of e p = flip c) /\
    (le_circuit_id e = i \/ le_circuit_id e = le_peer_entry_index e).
Proof.
  intros Hok He Hp. destruct (entry_has L2GW_ENTRY_F_ACCESS_SIDE e) eqn:Ha.
  - rewrite (pr_access _ _ _ _ Hp Ha). exists (circuit_of e p). split_and!; [|by left|by left].
    apply circuits_lookup. exists e, p. split_and!; try done. apply Hp.
  - pose proof (pr_peer _ _ _ _ Hp) as Hq. destruct (lo_pair m Hok _ p Hq) as (e' & Hp').
    pose proof (pr_peer _ _ _ _ Hp') as Hq'. rewrite (pr_back _ _ _ _ Hp), He in Hq'. injection Hq' as <-.
    assert (entry_has L2GW_ENTRY_F_ACCESS_SIDE p = true) as Ha'
      by (by rewrite (fc_side _ _ (pr_faces _ _ _ _ Hp)), Ha).
    rewrite <- (fc_id _ _ (pr_faces _ _ _ _ Hp)), (pr_access _ _ _ _ Hp' Ha').
    exists (circuit_of p e). split_and!; [| |by right].
    + apply circuits_lookup. exists p, e. split_and!; try done. apply Hp'.
    + right. by apply (circuit_flip m (le_peer_entry_index e)).
Qed.

Lemma free_lookup m x :
  l2gw_ok m → end_ok x → free_end x (circuits m) <-> l2gw_table_lookup (end_key x) m = None.
Proof.
  intros Hok Hx. split.
  - intros Hf. destruct (l2gw_table_lookup (end_key x) m) as [i|] eqn:Hl; [|done]. exfalso.
    destruct (lookup_entry m _ i Hok Hl) as (e & He & Hk & _). destruct (lo_pair m Hok i e He) as (p & Hp).
    apply end_key_inj in Hk; [|by apply Hp|done].
    destruct (entry_circuit m i e p Hok He Hp) as (c & Hc & [E|E] & _); apply (f_equal ci_access) in E;
      destruct (Hf _ c Hc) as [F1 F2]; cbn in E; congruence.
  - intros Hl k c (e & p & He & _ & Hp & ->)%circuits_lookup. cbn.
    pose proof (lookup_none m _ _ _ Hok Hl He). pose proof (lookup_none m _ _ _ Hok Hl Hp). naive_solver.
Qed.

(** * Addition and removal *)

(** Values as the API's decoding leaves them. *)
Definition args_ok (a : vnet_l2gw_add_del_circuit_args_t) : Prop :=
  is_u32 (la_access_sw_if_index a) /\ is_u32 (la_handoff_sw_if_index a) /\
  is_u16 (la_access_svlan a) /\ is_u16 (la_handoff_svlan a) /\
  is_u16 (la_access_cvlan a) /\ is_u16 (la_handoff_cvlan a).

(** Two free slots. *)
Definition slots_free (i j : Z) (m : l2gw_main_t) : Prop :=
  is_u32 i /\ is_u32 j /\ i ≠ j /\ lg_entries m !! i = None /\ lg_entries m !! j = None.

Section AddDel.

Context `{AccessVpp}.

Lemma validate_ok a :
  args_ok a → l2gw_validate_args a = None →
  end_ok (args_access a) /\ end_ok (args_handoff a) /\
  (la_access_cvlan a =? L2GW_CVLAN_ANY) = (la_handoff_cvlan a =? L2GW_CVLAN_ANY) /\
  (l2gw_normalize_tpid (la_access_tpid a) = ETHERNET_TYPE_DOT1AD \/
   l2gw_normalize_tpid (la_access_tpid a) = ETHERNET_TYPE_VLAN) /\
  (l2gw_normalize_tpid (la_handoff_tpid a) = ETHERNET_TYPE_DOT1AD \/
   l2gw_normalize_tpid (la_handoff_tpid a) = ETHERNET_TYPE_VLAN).
Proof.
  intros (Hw & Hw' & Hv & Hv' & Hc & Hc'). unfold l2gw_validate_args, end_ok, args_access, args_handoff.
  cbn [fst snd]. unfold is_u16, L2GW_CVLAN_ANY in *.
  repeat (case_match; [discriminate|]). intros _.
  repeat match goal with Hb : _ || _ = false |- _ => apply orb_false_iff in Hb as [? ?] end.
  repeat match goal with Hb : negb _ = false |- _ => apply negb_false_iff in Hb end.
  repeat match goal with Hb : Bool.eqb _ _ = true |- _ => apply eqb_prop in Hb end.
  repeat match goal with Hb : _ || _ = true |- _ => apply orb_true_iff in Hb end.
  destruct (Z.eqb_spec (la_access_cvlan a) 65535), (Z.eqb_spec (la_handoff_cvlan a) 65535);
    cbn in *; try discriminate; split_and!; try done; lia.
Qed.

(** ** Removal *)

Lemma del_ok m i e p :
  l2gw_ok m → lg_entries m !! i = Some e → paired m i e p →
  exists m', l2gw_del_circuit i m = Some (m', le_circuit_id e) /\ l2gw_ok m' /\
    circuits m' = delete (le_circuit_id e) (circuits m).
Proof.
  intros Hok He Hp. pose proof (pr_peer _ _ _ _ Hp) as Hq. pose proof (pr_back _ _ _ _ Hp) as Hb.
  unfold l2gw_del_circuit. rewrite He. cbn [mbind option_bind]. rewrite Hq. cbn [mbind option_bind].
  eexists. split; [reflexivity|].
  change (l2gw_make_key (le_rx_sw_if_index e) (le_rx_svlan e) (le_rx_cvlan e)) with (end_key (rx_end e)).
  change (l2gw_make_key (le_rx_sw_if_index p) (le_rx_svlan p) (le_rx_cvlan p)) with (end_key (rx_end p)).
  set (q := le_peer_entry_index e) in *.
  set (m' := _ ⟪lg_entries ::= _⟫).
  assert (∀ k, lg_entries m' !! k = if decide (k = i \/ k = q) then None else lg_entries m !! k) as Ee.
  { intros k. unfold m', l2gw_table_add_del. rproj.
    destruct (decide (k = i)) as [->|]; [rewrite decide_True by (by left); by rewrite lookup_delete_eq|].
    destruct (decide (k = q)) as [->|].
    - rewrite decide_True by by right. by rewrite lookup_delete_ne, lookup_delete_eq.
    - rewrite decide_False by naive_solver. by rewrite !lookup_delete_ne by done. }
  assert (∀ k, lg_circuit_table m' !! k =
    if decide (k = end_key (rx_end e) \/ k = end_key (rx_end p)) then None
    else lg_circuit_table m !! k) as Et.
  { intros k. unfold m', l2gw_table_add_del. rproj.
    destruct (decide (k = end_key (rx_end p))) as [->|].
    - rewrite decide_True by by right. by rewrite lookup_delete_eq.
    - rewrite lookup_delete_ne by done. destruct (decide (k = end_key (rx_end e))) as [->|].
      + rewrite decide_True by by left. by rewrite lookup_delete_eq.
      + rewrite decide_False by naive_solver. by rewrite lookup_delete_ne. }
  (* another entry has another peer and another key *)
  assert (∀ k e', lg_entries m !! k = Some e' → k ≠ i → k ≠ q →
    le_peer_entry_index e' ≠ i /\ le_peer_entry_index e' ≠ q /\
    end_key (rx_end e') ≠ end_key (rx_end e) /\ end_key (rx_end e') ≠ end_key (rx_end p)) as Hother.
  { intros k e' He' Hk1 Hk2. destruct (lo_pair m Hok k e' He') as (p' & Hp').
    pose proof (pr_peer _ _ _ _ Hp') as Hq'. pose proof (pr_back _ _ _ _ Hp') as Hb'.
    destruct (lo_pair m Hok q p Hq) as (e0 & Hp0). pose proof (pr_end _ _ _ _ Hp0) as Hend.
    split_and!.
    - intros E. rewrite E, He in Hq'. injection Hq' as <-. apply Hk2. by rewrite <- Hb'.
    - intros E. rewrite E, Hq in Hq'. injection Hq' as <-. apply Hk1. by rewrite <- Hb', Hb.
    - intros E%end_key_inj; [|by apply Hp'|by apply Hp].
      destruct (same_key m i e k e' Hok He He' (eq_sym E)); naive_solver.
    - intros E%end_key_inj; [|by apply Hp'|done].
      destruct (same_key m q p k e' Hok Hq He' (eq_sym E)); [naive_solver|congruence]. }
  split.
  - split.
    + intros k e'. rewrite Ee. destruct (decide (k = i \/ k = q)) as [|Hk]; [done|]. intros He'.
      destruct (Hother k e' He') as (O1 & O2 & _); [naive_solver..|].
      destruct (lo_pair m Hok k e' He') as (p' & []). exists p'. split; try done.
      rewrite Ee, decide_False by naive_solver. done.
    + intros k raw. rewrite Et. destruct (decide _) as [|Hk]; [done|]. intros Hr.
      destruct (lo_table m Hok k raw Hr) as (e' & He' & <-). exists e'. split; [|done].
      rewrite Ee, decide_False; [done|].
      intros [->| ->]; [rewrite He in He'|rewrite Hq in He']; injection He' as <-; naive_solver.
    + intros k e'. rewrite Ee. destruct (decide (k = i \/ k = q)) as [|Hk]; [done|]. intros He'.
      destruct (Hother k e' He') as (_ & _ & O3 & O4); [naive_solver..|].
      rewrite Et, decide_False by naive_solver. by apply (lo_keyed m Hok).
  - destruct (entry_circuit m i e p Hok He Hp) as (c & Hc & _ & Hid). fold q in Hid.
    apply map_eq. intros k. apply option_eq. intros c'. rewrite lookup_delete_Some, !circuits_lookup. split.
    + intros (e' & p' & He' & Ha & Hp' & ->). rewrite Ee in He'. destruct (decide _) as [|Hk]; [done|].
      destruct (Hother k e' He') as (O1 & O2 & _); [naive_solver..|].
      rewrite Ee, decide_False in Hp' by naive_solver. split; [naive_solver|]. by exists e', p'.
    + intros (Hne & e' & p' & He' & Ha & Hp' & ->). exists e', p'.
      assert (k ≠ i /\ k ≠ q) as [K1 K2].
      { split; intros ->.
        - rewrite He in He'. injection He' as <-. by rewrite (pr_access _ _ _ _ Hp Ha) in Hne.
        - rewrite Hq in He'. injection He' as <-. destruct (lo_pair m Hok q p Hq) as (p2 & Hp2).
          by rewrite <- (fc_id _ _ (pr_faces _ _ _ _ Hp)), (pr_access _ _ _ _ Hp2 Ha) in Hne. }
      destruct (Hother k e' He' K1 K2) as (O1 & O2 & _).
      by rewrite !Ee, !decide_False by naive_solver.
Qed.

(** ** Addition *)

Lemma new_pair a i j m :
  args_ok a → l2gw_validate_args a = None → slots_free i j m →
  let e := access_entry a i j in
  let p := handoff_entry a i in
  faces e p /\ faces p e /\ circuit_of e p = args_circuit a /\
  entry_has L2GW_ENTRY_F_ACCESS_SIDE e = true /\ entry_has L2GW_ENTRY_F_ACCESS_SIDE p = false.
Proof.
  intros Ha Hv _. destruct (validate_ok a Ha Hv) as (_ & _ & Hw & Hat & Hht). cbv zeta.
  destruct (flags_of_args a true (access_entry a i j) eq_refl) as (E1 & E2 & E3 & E4).
  destruct (flags_of_args a false (handoff_entry a i) eq_refl) as (P1 & P2 & P3 & P4).
  split_and!; [| | |done|done].
  - split; rewrite ?E1, ?E2, ?E3, ?E4, ?P1, ?P2, ?P3, ?P4; cbn; rewrite ?Hw; done.
  - split; rewrite ?E1, ?E2, ?E3, ?E4, ?P1, ?P2, ?P3, ?P4; cbn; rewrite ?Hw; done.
  - unfold circuit_of, args_circuit. by rewrite E1, E3.
Qed.

Lemma add_ok a i j m :
  l2gw_ok m → args_ok a → l2gw_validate_args a = None → slots_free i j m →
  l2gw_table_lookup (end_key (args_access a)) m = None →
  l2gw_table_lookup (end_key (args_handoff a)) m = None →
  let m' := l2gw_add_circuit a (end_key (args_access a)) (end_key (args_handoff a)) i j m in
  l2gw_ok m' /\ circuits m' = <[i := args_circuit a]> (circuits m).
Proof.
  intros Hok Ha Hv Hs Hla Hlh m'. pose proof Hs as (Hi & Hj & Hne & Hfi & Hfj).
  destruct (validate_ok a Ha Hv) as (Hea & Heh & _).
  destruct (new_pair a i j m Ha Hv Hs) as (F1 & F2 & Hc & S1 & S2).
  set (e := access_entry a i j) in *. set (p := handoff_entry a i) in *.
  assert (rx_end e = args_access a /\ rx_end p = args_handoff a) as [Re Rp] by done.
  assert (∀ k, lg_entries m' !! k =
    if decide (k = j) then Some p else if decide (k = i) then Some e else lg_entries m !! k) as Ee.
  { intros k. unfold m', l2gw_add_circuit, l2gw_table_add_del. rproj.
    destruct (decide (k = j)) as [->|]; [by rewrite lookup_insert_eq|]. rewrite lookup_insert_ne by done.
    destruct (decide (k = i)) as [->|]; [by rewrite lookup_insert_eq|by rewrite lookup_insert_ne]. }
  assert (∀ k, lg_circuit_table m' !! k =
    if decide (k = end_key (args_handoff a)) then Some j
    else if decide (k = end_key (args_access a)) then Some i else lg_circuit_table m !! k) as Et.
  { intros k. unfold m', l2gw_add_circuit, l2gw_table_add_del. rproj. rewrite !u32_small by done.
    destruct (decide (k = end_key (args_handoff a))) as [->|]; [by rewrite lookup_insert_eq|].
    rewrite lookup_insert_ne by done.
    destruct (decide (k = end_key (args_access a))) as [->|]; [by rewrite lookup_insert_eq|by rewrite lookup_insert_ne]. }
  assert (∀ k e', lg_entries m !! k = Some e' → k ≠ i /\ k ≠ j /\
    le_peer_entry_index e' ≠ i /\ le_peer_entry_index e' ≠ j) as Hold.
  { intros k e' He'. destruct (lo_pair m Hok k e' He') as (p' & Hp').
    pose proof (pr_peer _ _ _ _ Hp'). split_and!; congruence. }
  assert (paired m' i e p /\ paired m' j p e) as [Pi Pj].
  { split; split; try done; rewrite ?Ee; try (by rewrite decide_True); try (by rewrite decide_False, decide_True).
    by rewrite S2. }
  split; [split|].
  - intros k e'. rewrite Ee. destruct (decide (k = j)) as [->|]; [intros [= <-]; by exists e|].
    destruct (decide (k = i)) as [->|]; [intros [= <-]; by exists p|]. intros He'.
    destruct (Hold k e' He') as (_ & _ & O1 & O2). destruct (lo_pair m Hok k e' He') as (p' & []).
    exists p'. split; try done. by rewrite Ee, !decide_False.
  - intros k raw. rewrite Et. destruct (decide (k = end_key (args_handoff a))) as [->|].
    { intros [= <-]. exists p. by rewrite Ee, decide_True. }
    destruct (decide (k = end_key (args_access a))) as [->|].
    { intros [= <-]. exists e. by rewrite Ee, decide_False, decide_True. }
    intros Hr. destruct (lo_table m Hok k raw Hr) as (e' & He' & <-). exists e'. split; [|done].
    destruct (Hold raw e' He') as (? & ? & _). by rewrite Ee, !decide_False.
  - intros k e'. rewrite Ee. destruct (decide (k = j)) as [->|].
    { intros [= <-]. rewrite Et, Rp, decide_True by done. by left. }
    destruct (decide (k = i)) as [->|].
    { intros [= <-]. rewrite Et, Re. destruct (decide _); [by right|]. rewrite decide_True by done. by left. }
    intros He'. rewrite Et, !decide_False by (by eapply lookup_none). by apply (lo_keyed m Hok).
  - apply map_eq. intros k. apply option_eq. intros c'. rewrite lookup_insert_Some, !circuits_lookup. split.
    + intros (e' & p' & He' & Hac & Hp' & ->). rewrite Ee in He'.
      destruct (decide (k = j)) as [->|]; [injection He' as <-; by rewrite S2 in Hac|].
      destruct (decide (k = i)) as [->|].
      { injection He' as <-. rewrite Ee, decide_True in Hp' by done. injection Hp' as <-. by left. }
      right. split; [done|]. exists e', p'. destruct (Hold k e' He') as (_ & _ & O1 & O2).
      rewrite Ee, !decide_False in Hp' by done. done.
    + intros [[<- <-]|(Hk & e' & p' & He' & Hac & Hp' & ->)].
      { exists e, p. rewrite !Ee, (decide_False (P := i = j)), !decide_True by done. done. }
      exists e', p'. destruct (Hold k e' He') as (? & ? & ? & ?). by rewrite !Ee, !decide_False.
Qed.

(** ** The comparison with what is there *)

Lemma kind_eq f g :
  (Z.land f 6 =? Z.land g 6) =
  Bool.eqb (Z.testbit f 1) (Z.testbit g 1) && Bool.eqb (Z.testbit f 2) (Z.testbit g 2).
Proof.
  assert (∀ x, Z.land x 6 = (if Z.testbit x 1 then 2 else 0) + (if Z.testbit x 2 then 4 else 0)) as Hl.
  { intros x. replace (Z.land x 6) with (Z.land (x mod 2 ^ 3) 6)
      by (rewrite <- Z.land_ones, <- Z.land_assoc by lia; done).
    rewrite <- (Z.mod_pow2_bits_low x 3 1), <- (Z.mod_pow2_bits_low x 3 2) by lia.
    assert (0 <= x mod 2 ^ 3 < 8) as Hr by (apply Z.mod_pos_bound; lia). revert Hr.
    generalize (x mod 2 ^ 3). intros y Hy.
    assert (y = 0 \/ y = 1 \/ y = 2 \/ y = 3 \/ y = 4 \/ y = 5 \/ y = 6 \/ y = 7) as Hc by lia.
    by repeat destruct Hc as [->|Hc]; [..|subst y]. }
  rewrite !Hl. by destruct (Z.testbit f 1), (Z.testbit g 1), (Z.testbit f 2), (Z.testbit g 2).
Qed.

Lemma matches_eq e p a :
  faces e p → faces p e → rx_end e = args_access a → args_ok a → l2gw_validate_args a = None →
  l2gw_entry_matches_args e p a (l2gw_flags_common a) && (le_rx_sw_if_index p =? la_handoff_sw_if_index a) &&
  (le_rx_svlan p =? la_handoff_svlan a) && (le_rx_cvlan p =? la_handoff_cvlan a) =
  bool_decide (same_circuit (circuit_of e p) (args_circuit a)).
Proof.
  intros F F' Hx Ha Hv. destruct (validate_ok a Ha Hv) as (_ & _ & Hw & _).
  unfold l2gw_entry_matches_args. change (Z.lor L2GW_ENTRY_F_WILDCARD L2GW_ENTRY_F_TRANSPARENT) with 6.
  rewrite kind_eq, <- !has_bit by lia.
  change (2 ^ 1) with L2GW_ENTRY_F_WILDCARD. change (2 ^ 2) with L2GW_ENTRY_F_TRANSPARENT.
  destruct (flags_of_args a false (handoff_entry a 0) eq_refl) as (_ & G2 & G3 & _).
  change (Z.testbit (l2gw_flags_common a)) with (Z.testbit (le_flags (handoff_entry a 0))).
  rewrite <- !has_bit by lia. change (2 ^ 1) with L2GW_ENTRY_F_WILDCARD.
  change (2 ^ 2) with L2GW_ENTRY_F_TRANSPARENT. rewrite G2, G3.
  destruct F as [A1 A2 A3 A4 _ _ _ A8 _ _], F' as [B1 B2 B3 B4 _ _ _ _ _ _].
  rewrite A1, A2, A3, B2, B3, A8, <- A4.
  unfold rx_end, args_access in Hx. injection Hx as X1 X2 X3. rewrite X2, X3.
  unfold same_circuit, circuit_of, args_circuit. cbn [ci_access ci_handoff ci_access_tpid ci_handoff_tpid ci_transparent].
  unfold rx_end, args_access, args_handoff. rewrite X1, X2, X3.
  apply eq_true_iff_eq. rewrite bool_decide_eq_true, !andb_true_iff, !Z.eqb_eq, !eqb_true_iff.
  split.
  - intros [[[[[[[[[[T1 T2] T3] T4] T5] T6] T7] [T8 T9]] T10] T11] T12]. rewrite T10, T11, T12. done.
  - intros (_ & [= Y1 Y2 Y3] & Y4 & Y5 & Y6). rewrite Y1, Y2, Y3, Y4, Y5, Y6, Hw. done.
Qed.

(** ** The call *)

Lemma add_del_ok a i j m :
  l2gw_ok m → args_ok a → slots_free i j m →
  exists m' rv id, vnet_l2gw_add_del_circuit a i j m = Some (m', rv, id) /\ l2gw_ok m' /\
    circuit_step a i (circuits m) (circuits m') rv id.
Proof.
  intros Hok Ha Hs. unfold vnet_l2gw_add_del_circuit. destruct (l2gw_validate_args a) as [rv|] eqn:Hv.
  { exists m, rv, None. split_and!; try done. by apply step_invalid. }
  destruct (validate_ok a Ha Hv) as (Hea & Heh & _).
  change (l2gw_make_key (la_access_sw_if_index a) (la_access_svlan a) (la_access_cvlan a))
    with (end_key (args_access a)).
  change (l2gw_make_key (la_handoff_sw_if_index a) (la_handoff_svlan a) (la_handoff_cvlan a))
    with (end_key (args_handoff a)).
  destruct (l2gw_table_lookup (end_key (args_access a)) m) as [x|] eqn:Hl.
  - destruct (lookup_entry m _ x Hok Hl) as (e & He & Hk & _).
    destruct (lo_pair m Hok x e He) as (p & Hp). apply end_key_inj in Hk; [|by apply Hp|done].
    destruct (entry_circuit m x e p Hok He Hp) as (c & Hc & Hview & _).
    assert (ci_access (circuit_of e p) = args_access a) as Hci by done.
    destruct (la_is_add a) eqn:Hadd.
    + rewrite He. cbn [mbind option_bind]. rewrite (pr_peer _ _ _ _ Hp). cbn [mbind option_bind].
      pose proof (pr_peer _ _ _ _ Hp) as Hq. destruct (lo_pair m Hok _ p Hq) as (e' & Hp').
      pose proof (pr_peer _ _ _ _ Hp') as Hq'. rewrite (pr_back _ _ _ _ Hp), He in Hq'. injection Hq' as <-.
      rewrite (matches_eq e p a); [|by apply Hp|by apply Hp'|done..].
      eexists m, _, _. split_and!; [reflexivity|done|].
      pose proof (step_present a i (circuits m) _ c (circuit_of e p) Hv Hadd Hc Hview Hci) as Hst.
      by destruct (decide (same_circuit (circuit_of e p) (args_circuit a)));
        [rewrite bool_decide_true by done|rewrite bool_decide_false by done].
    + destruct (del_ok m x e p Hok He Hp) as (m' & -> & Hok' & Hcs). cbn [mbind option_bind].
      eexists m', _, _. split_and!; [reflexivity|done|]. rewrite Hcs.
      apply (step_removed a i (circuits m) _ c); try done.
      destruct Hview as [<-|E]; [by left|]. right. apply (f_equal ci_access) in E. by rewrite Hci in E.
  - pose proof (proj2 (free_lookup m _ Hok Hea) Hl) as Hfa. destruct (la_is_add a) eqn:Hadd.
    2: { exists m, L2_NO_SUCH_ENTRY, None. split_and!; try done. by apply step_missing. }
    destruct (l2gw_table_lookup (end_key (args_handoff a)) m) as [y|] eqn:Hl'.
    + exists m, L2_VALUE_EXIST, None. split_and!; try done. apply step_taken; try done.
      rewrite free_lookup by done. by rewrite Hl'.
    + destruct (add_ok a i j m Hok Ha Hv Hs Hl Hl') as [Hok' Hcs].
      eexists _, _, _. split_and!; [reflexivity|done|]. rewrite Hcs. apply step_added; try done.
      * destruct (circuits m !! i) as [c|] eqn:Hc; [|done].
        apply circuits_lookup in Hc as (e & p & He & _). destruct Hs as (_ & _ & _ & Hfi & _). congruence.
      * by apply free_lookup.
Qed.

Lemma circuit_args_ok mp : args_ok (circuit_args mp).
Proof.
  unfold args_ok, circuit_args. cbn. split_and!; auto with bng; case_match; auto with bng; done.
Qed.

End AddDel.
