(* ===== verification/L2gwSystem.v ===== *)
(** The layer 2 gateway over any calls and frames: its circuits are what the calls say,
    and the dump tells all of them. *)

From S2P Require Import Prelude Packet Access TxFrames PuntShm L2gwCircuit L2gwCli L2gwNode L2gwInv L2gwRun.

#[local] Open Scope Z_scope.

Section System.

Context `{VlibVpp, AccessVpp}.
Variable output_node_of : Z → Z.

(** * Frames leave circuits alone *)

Definition tables (m : l2gw_main_t) : gmap Z l2gw_entry_t * gmap l2gw_key_t Z :=
  (lg_entries m, lg_circuit_table m).

Lemma miss_tables now tags b m : tables (l2gw_miss now tags b m).1 = tables m.
Proof.
  unfold l2gw_miss. destruct (lg_punt_shm_tx_next_arc m) as [arc|]; [|done].
  destruct (l2gw_trigger_any_armed _ _ _).
  - unfold l2gw_trigger_dampen_allow. cbv zeta.
    destruct (match lg_trigger_dampener m !! _ with Some _ => _ | None => _ end); done.
  - destruct (l2gw_trigger_armed _ _ _); [|done]. by destruct (l2gw_frame_is_dhcp_trigger _ _).
Qed.

Lemma act_tables now r tags b m m' out :
  l2gw_act output_node_of now r tags b m = Some (m', out) → tables m' = tables m.
Proof.
  unfold l2gw_act. pose proof (miss_tables now tags b m) as Hm.
  destruct (l2gw_miss now tags b m) as [m1 [[b1 n1] e1]]. cbn [fst] in Hm.
  destruct (r =? L2GW_NO_RESULT); [by intros [= <- <-]|].
  destruct (lg_entries m !! _) as [e|]; [|done]. cbn [mbind option_bind].
  destruct (negb _); [by intros [= <- <-]|]. unfold l2gw_forward.
  destruct (sw_interface_is_free _); by intros [= <- <-].
Qed.

Lemma loop_tables caches fs c frame m r :
  l2gw_input_loop output_node_of caches fs c frame m = Some r → tables r.1.1.1 = tables m.
Proof.
  revert caches fs c m r. induction frame as [|[[bi now] b] frame IH]; intros caches fs c m r;
    cbn [l2gw_input_loop]; [by intros [= <-]|].
  unfold l2gw_input_1. destruct (l2gw_lookups _ _ _ _ _) as [r0 caches'].
  destruct (l2gw_act _ _ _ _ _ _) as [[m1 out]|] eqn:Ha; cbn [mbind option_bind]; [|done].
  destruct (l2gw_input_loop _ _ _ _ _ m1) as [[[[m2 fs2] c2] outs]|] eqn:Hl; cbn [mbind option_bind]; [|done].
  intros [= <-]. apply IH in Hl. cbn [fst] in *. by rewrite Hl, (act_tables _ _ _ _ _ _ _ Ha).
Qed.

(** * Runs *)

(** The calls, commands and interface events that reach the gateway beside its frames. *)
Inductive l2gw_call (m : l2gw_main_t) : l2gw_main_t → Prop :=
  | call_circuit mp i j m' rv id h :
      slots_free i j m →
      vl_api_osvbng_l2gw_add_del_circuit_t_handler mp i j m = Some (m', rv, id, h) → l2gw_call m m'
  | call_state id en m' rv :
      vl_api_osvbng_l2gw_circuit_set_state_t_handler id en m = Some (m', rv) → l2gw_call m m'
  | call_enable sw en ok : l2gw_call m (vl_api_osvbng_l2gw_enable_disable_t_handler sw en ok m).1
  | call_trigger sw lo hi any add :
      l2gw_call m (vl_api_osvbng_l2gw_trigger_svlan_range_t_handler sw lo hi any add m).1
  | call_cli_circuit words i j m' r :
      slots_free i j m → l2gw_circuit_add_del_command_fn words i j m = Some (m', r) → l2gw_call m m'
  | call_cli_state words m' r : l2gw_circuit_state_command_fn words m = Some (m', r) → l2gw_call m m'
  | call_cli_enable words ok : l2gw_call m (l2gw_enable_disable_command_fn words ok m).1
  | call_cli_trigger words : l2gw_call m (l2gw_trigger_command_fn words m).1
  | call_interface sw add : l2gw_call m (l2gw_sw_interface_add_del sw add m).

(** What can happen to the gateway, from its start. *)
Inductive l2gw_run : l2gw_main_t → Prop :=
  | run_init arc : l2gw_run (l2gw_init arc)
  | run_call m m' : l2gw_run m → l2gw_call m m' → l2gw_run m'
  | run_frame m frame m' puts c outs :
      l2gw_run m → l2gw_input_node output_node_of frame m = Some (m', puts, c, outs) → l2gw_run m'.

Lemma same_tables m m' : tables m' = tables m → l2gw_ok m → l2gw_ok m'.
Proof. intros E. injection E as E1 E2. by apply ok_same. Qed.

Lemma l2gw_init_ok arc : l2gw_ok (l2gw_init arc).
Proof. split; cbn; intros *; by rewrite lookup_empty. Qed.

(** What a command's words make of its arguments. *)
Lemma cli_args_ok words a a' : l2gw_circuit_parse words a = Some a' → args_ok a → args_ok a'.
Proof.
  revert a. induction words as [|w words IH]; intros a; cbn [l2gw_circuit_parse]; [by intros [= <-]|].
  destruct (l2gw_circuit_word w a) as [a1|] eqn:E; cbn [mbind option_bind]; [|done].
  intros Hp Ha. apply (IH a1 Hp). destruct a, Ha as (A1 & A2 & A3 & A4 & A5 & A6).
  assert (∀ c old, is_u16 old → is_u16 (cvlan_word c old)) as Hc by (intros [| |v] old Ho; [done..|apply u16_range]).
  unfold args_ok. cbn in *.
  destruct w; try done; injection E as <-; cbn; split_and!; auto using u16_range, u32_range.
Qed.

Lemma enable_tables sw en ok m : tables (vnet_l2gw_enable_disable sw en ok m).1 = tables m.
Proof.
  unfold vnet_l2gw_enable_disable. destruct (negb _); [done|]. destruct (Bool.eqb _ _); [done|]. by destruct (negb ok).
Qed.

Lemma trigger_tables sw lo hi any add m : tables (vnet_l2gw_trigger_svlan_range sw lo hi any add m).1 = tables m.
Proof.
  unfold vnet_l2gw_trigger_svlan_range. destruct (negb _); [done|]. destruct (_ || _); [done|]. by destruct any.
Qed.

Lemma call_ok a i j m m' rv id :
  l2gw_ok m → args_ok a → slots_free i j m →
  vnet_l2gw_add_del_circuit a i j m = Some (m', rv, id) → l2gw_ok m'.
Proof.
  intros Hok Ha Hs Hc. destruct (add_del_ok a i j m Hok Ha Hs) as (m1 & rv1 & id1 & E & Hok' & _).
  rewrite E in Hc. by injection Hc as <- _ _.
Qed.

Lemma state_ok id en m m' rv : l2gw_ok m → vnet_l2gw_circuit_set_state id en m = Some (m', rv) → l2gw_ok m'.
Proof.
  intros Hok Hc. destruct (set_state_ok id en m Hok) as (m1 & rv1 & E & Hok'). rewrite E in Hc.
  by injection Hc as <- _.
Qed.

Lemma l2gw_call_ok m m' : l2gw_call m m' → l2gw_ok m → l2gw_ok m'.
Proof.
  intros Hc IH. destruct Hc as [mp i j m' rv id h Hs Hh|id en m' rv Hh|sw en ok|sw lo hi any add
    |words i j m' r Hs Hh|words m' r Hh|words ok|words|sw add].
  - unfold vl_api_osvbng_l2gw_add_del_circuit_t_handler in Hh.
    destruct (vnet_l2gw_add_del_circuit _ _ _ _) as [[[m1 rv1] id1]|] eqn:E; cbn [mbind option_bind] in Hh; [|done].
    injection Hh as <- _ _ _. by apply (call_ok (circuit_args mp) i j m m1 rv1 id1 IH (circuit_args_ok mp) Hs).
  - by apply (state_ok (if clib_net_to_host_u32 id =? NONE then None else Some (clib_net_to_host_u32 id)) en m m' rv).
  - apply (same_tables m); [apply enable_tables|done].
  - apply (same_tables m); [apply trigger_tables|done].
  - unfold l2gw_circuit_add_del_command_fn in Hh.
    destruct (l2gw_circuit_parse words l2gw_cli_args) as [a|] eqn:Ep; [|by injection Hh as <- _].
    destruct (_ || _); [by injection Hh as <- _|].
    destruct (vnet_l2gw_add_del_circuit a i j m) as [[[m1 rv1] id1]|] eqn:E; cbn [mbind option_bind] in Hh; [|done].
    injection Hh as <- _. apply (call_ok a i j m m1 rv1 id1 IH); [|done..]. by apply (cli_args_ok words l2gw_cli_args).
  - unfold l2gw_circuit_state_command_fn in Hh.
    destruct (l2gw_state_parse words NONE None) as [[id [en|]]|]; [|by injection Hh as <- _..].
    destruct (vnet_l2gw_circuit_set_state _ en m) as [[m1 rv1]|] eqn:E; cbn [mbind option_bind] in Hh; [|done].
    injection Hh as <- _. by eapply state_ok.
  - apply (same_tables m); [|done]. unfold l2gw_enable_disable_command_fn.
    destruct (l2gw_enable_parse words None true) as [[[sw|] en]|]; [|done..].
    pose proof (enable_tables sw en ok m) as Ht. by destruct (vnet_l2gw_enable_disable sw en ok m).
  - apply (same_tables m); [|done]. unfold l2gw_trigger_command_fn.
    destruct (l2gw_trigger_parse words None 0 0 false true) as [[[[[[sw|] lo] hi] any] add]|]; [|done..].
    destruct (lo =? 0); [done|]. pose proof (trigger_tables sw (u16 lo) (u16 hi) any add m) as Ht.
    by destruct (vnet_l2gw_trigger_svlan_range sw (u16 lo) (u16 hi) any add m).
  - apply (same_tables m); [|done]. unfold l2gw_sw_interface_add_del. by destruct add.
Qed.

Lemma l2gw_run_ok m : l2gw_run m → l2gw_ok m.
Proof.
  induction 1 as [arc|m m' _ IH Hc|m frame m' puts c outs _ IH Hn];
    [apply l2gw_init_ok|by apply (l2gw_call_ok m)|].
  apply (same_tables m); [|done]. unfold l2gw_input_node in Hn.
  destruct (l2gw_input_loop _ _ _ _ _ _) as [[[[m1 fs] c1] outs1]|] eqn:El; cbn [mbind option_bind] in Hn; [|done].
  injection Hn as <- _ _ _. by apply loop_tables in El.
Qed.

(** * Calls *)

(** C17. The gateway's tables implement a set of circuits, each between two ends (port,
    S-VLAN, C-VLAN): whatever has happened before, an addition or removal given two
    free pool slots reads no freed entry and does to the set, and answers, exactly one of
    these ([circuit_step]).  Arguments that do not validate are refused with the
    validation's error.  A removal takes away a circuit that has the given access end
    as its access or as its handoff end, and answers NO_SUCH_ENTRY if there is none; what is
    given as handoff end plays no part.  An addition whose access end is in no circuit adds
    the circuit of the arguments if its handoff end is in none either, and is refused with
    VALUE_EXIST otherwise.  An addition whose access end is in a circuit, on either side,
    changes nothing: it succeeds if that circuit, seen from this end, has the same ends,
    TPIDs and transparency, and asks for a refresh otherwise.  This is what the code does,
    and it is not what its descriptions say in two places: osvbng_l2gw.api keys a deletion
    on the access side alone, where the handoff end deletes too, and osvbng_l2gw.h promises
    ENTRY_NEEDS_REFRESH for every drifted mutable field, where a circuit that differs only
    in being enabled or not is answered with success. *)
Theorem l2gw_implements_circuits m mp i j :
  l2gw_run m → slots_free i j m →
  exists m' rv id h,
    vl_api_osvbng_l2gw_add_del_circuit_t_handler mp i j m = Some (m', rv, id, h) /\
    circuit_step (circuit_args mp) i (circuits m) (circuits m') rv id.
Proof.
  intros Hrun Hs. apply l2gw_run_ok in Hrun.
  destruct (add_del_ok _ i j m Hrun (circuit_args_ok mp) Hs) as (m' & rv & id & E & _ & Hst).
  unfold vl_api_osvbng_l2gw_add_del_circuit_t_handler. rewrite E. cbn [mbind option_bind]. eauto 6.
Qed.

(** A frame's tags lead to a circuit exactly when some direction takes them: a lookup
    finds only entries with that port and those tags, every entry is found by its own (or
    its peer is, of a circuit from an end to itself), each entry's peer is the way back,
    and both say the same of the circuit. *)
Theorem l2gw_tables_exact m x i :
  l2gw_run m → end_ok x →
  (l2gw_table_lookup (end_key x) m = Some i → exists e, lg_entries m !! i = Some e /\ rx_end e = x) /\
  ∀ e, lg_entries m !! i = Some e →
    exists p, lg_entries m !! le_peer_entry_index e = Some p /\ le_peer_entry_index p = i /\
      faces e p /\ faces p e /\
      (l2gw_table_lookup (end_key (rx_end e)) m = Some i \/
       l2gw_table_lookup (end_key (rx_end e)) m = Some (le_peer_entry_index e) /\ rx_end p = rx_end e).
Proof.
  intros Hrun Hx. apply l2gw_run_ok in Hrun. split.
  - intros Hl. destruct (lookup_entry m _ i Hrun Hl) as (e & He & Hk & _). exists e. split; [done|].
    apply end_key_inj in Hk; [done| |done]. by apply (pair_end m i).
  - intros e He. destruct (lo_pair m Hrun i e He) as (p & Hp). exists p.
    pose proof (pr_peer _ _ _ _ Hp) as Hq. destruct (lo_pair m Hrun _ p Hq) as (e' & Hp').
    pose proof (pr_peer _ _ _ _ Hp') as Hq'. rewrite (pr_back _ _ _ _ Hp), He in Hq'. injection Hq' as <-.
    split_and!; try by apply Hp. { by apply Hp'. }
    unfold l2gw_table_lookup.
    destruct (lo_keyed m Hrun i e He) as [E|E]; rewrite E; cbn [option_map]; unfold result_entry_index.
    + left. by rewrite u32_small by apply Hp.
    + right. rewrite u32_small by apply Hp'. split; [done|].
      destruct (lo_table m Hrun _ _ E) as (p' & Hp2 & Hk). rewrite Hq in Hp2. injection Hp2 as <-.
      apply end_key_inj in Hk; [done|by apply Hp'|by apply Hp].
Qed.

(** * The dump *)

(** What is reported of the direction [e], and the message in it. *)
Lemma details_ok m i e p :
  paired m i e p → l2gw_ok m → lg_entries m !! i = Some e →
  entry_has L2GW_ENTRY_F_ACCESS_SIDE e = true → is_u32 (le_peer_entry_index e) →
  exists d, send_l2gw_circuit_details e m = Some d /\
    clib_net_to_host_u32 (ld_circuit_id d) = i /\
    clib_net_to_host_u32 (ld_handoff_entry_index d) = le_peer_entry_index e /\
    la_is_add (circuit_args (ld_circuit d)) = true /\
    args_circuit (circuit_args (ld_circuit d)) = circuit_of e p.
Proof.
  intros Hp Hok He Ha Hu. unfold send_l2gw_circuit_details. rewrite (pr_peer _ _ _ _ Hp). cbn [mbind option_bind].
  eexists. split; [reflexivity|]. cbn [ld_circuit_id ld_handoff_entry_index ld_circuit circuit_args la_is_add].
  rewrite (pr_access _ _ _ _ Hp Ha), !swap32_involutive by (done || apply Hp).
  split_and!; try done.
  pose proof (pr_peer _ _ _ _ Hp) as Hq.
  destruct (pair_end m i e Hok He) as (E1 & E2 & E3 & _), (pair_end m _ p Hok Hq) as (P1 & P2 & P3 & _).
  cbn [rx_end fst snd] in *.
  assert (∀ c, 0 <= c <= 4095 \/ c = L2GW_CVLAN_ANY →
    (if c =? L2GW_CVLAN_ANY then L2GW_CVLAN_ANY
     else clib_net_to_host_u16 (if c =? L2GW_CVLAN_ANY then 0 else clib_net_to_host_u16 c)) = c) as Hc.
  { intros c Hc. destruct (Z.eqb_spec c L2GW_CVLAN_ANY) as [->|]; [done|].
    apply swap16_involutive. unfold is_u16. lia. }
  unfold args_circuit, circuit_of, args_access, args_handoff, rx_end, circuit_args.
  cbn [la_access_sw_if_index la_access_svlan la_access_cvlan la_access_tpid la_handoff_sw_if_index
       la_handoff_svlan la_handoff_cvlan la_handoff_tpid la_transparent la_enabled
       lm_is_add lm_access_sw_if_index lm_access_svlan lm_access_cvlan lm_access_cvlan_any lm_access_tpid
       lm_handoff_sw_if_index lm_handoff_svlan lm_handoff_cvlan lm_handoff_cvlan_any lm_handoff_tpid
       lm_transparent lm_enabled].
  rewrite !swap32_involutive by done. rewrite !(swap16_involutive (le_rx_svlan _)) by (unfold is_u16; lia).
  rewrite !Hc by done.
  assert (∀ t, t = ETHERNET_TYPE_DOT1AD \/ t = ETHERNET_TYPE_VLAN →
    l2gw_normalize_tpid (clib_net_to_host_u16 (clib_net_to_host_u16 t)) = t) as Ht.
  { intros t [->| ->]; reflexivity. }
  destruct (lo_pair m Hok _ p Hq) as (e' & Hp').
  pose proof (pr_peer _ _ _ _ Hp') as Hq'. rewrite (pr_back _ _ _ _ Hp), He in Hq'. injection Hq' as <-.
  by rewrite !Ht by (apply (fc_tpid _ _ (pr_faces _ _ _ _ Hp)) || apply (fc_tpid _ _ (pr_faces _ _ _ _ Hp'))).
Qed.

Lemma peer_u32 m i e p : l2gw_ok m → paired m i e p → is_u32 (le_peer_entry_index e).
Proof.
  intros Hok Hp. destruct (lo_pair m Hok _ p (pr_peer _ _ _ _ Hp)) as (e' & Hp'). apply Hp'.
Qed.

(** The list of a dump, and where each of its lines comes from. *)
Lemma dump_ok m :
  l2gw_ok m →
  exists l, vl_api_osvbng_l2gw_circuit_dump_t_handler NONE m = Some l /\
    ∀ d, d ∈ l <-> exists i e, lg_entries m !! i = Some e /\
      entry_has L2GW_ENTRY_F_ACCESS_SIDE e = true /\ send_l2gw_circuit_details e m = Some d.
Proof.
  intros Hok. unfold vl_api_osvbng_l2gw_circuit_dump_t_handler.
  change (clib_net_to_host_u32 NONE =? NONE) with true. cbv iota zeta.
  set (es := filter _ _).
  assert (∀ e, e ∈ es <-> exists i, lg_entries m !! i = Some e /\ entry_has L2GW_ENTRY_F_ACCESS_SIDE e = true) as Hes.
  { intros e. unfold es. rewrite list_elem_of_filter, list_elem_of_fmap. split.
    - intros (Ha & [i e'] & -> & Hi%elem_of_map_to_list). by exists i.
    - intros (i & Hi & Ha). split; [done|]. exists (i, e). by rewrite elem_of_map_to_list. }
  destruct (mapM (λ e, send_l2gw_circuit_details e m) es) as [l|] eqn:Hl.
  - exists l. split; [done|]. apply mapM_Some in Hl. intros d. split.
    + intros Hd. apply list_elem_of_lookup_1 in Hd as [k Hd].
      destruct (Forall2_lookup_r _ _ _ k d Hl Hd) as (e & He & Hs).
      apply list_elem_of_lookup_2, Hes in He as (i & ? & ?). by exists i, e.
    + intros (i & e & He & Ha & Hs). assert (e ∈ es) as Hin by (apply Hes; eauto).
      apply list_elem_of_lookup_1 in Hin as [k Hk].
      destruct (Forall2_lookup_l _ _ _ k e Hl Hk) as (d' & Hd & Hs'). rewrite Hs in Hs'. injection Hs' as <-.
      by eapply list_elem_of_lookup_2.
  - exfalso. apply eq_None_not_Some in Hl. apply Hl, mapM_is_Some, Forall_forall. intros e He.
    apply Hes in He as (i & He & Ha). destruct (lo_pair m Hok i e He) as (p & Hp).
    destruct (details_ok m i e p Hp Hok He Ha (peer_u32 m i e p Hok Hp)) as (d & Hs & _). by exists d.
Qed.

(** The message of a line passes the checks while its ports are there. *)
Lemma details_valid m i e p a :
  paired m i e p → paired m (le_peer_entry_index e) p e → args_circuit a = circuit_of e p →
  sw_interface_is_api_valid (la_access_sw_if_index a) = true →
  sw_interface_is_api_valid (la_handoff_sw_if_index a) = true →
  l2gw_validate_args a = None.
Proof.
  intros Hp Hp' Ha V1 V2. pose proof (f_equal ci_access Ha) as A1. pose proof (f_equal ci_handoff Ha) as A2.
  pose proof (f_equal ci_access_tpid Ha) as A3. pose proof (f_equal ci_handoff_tpid Ha) as A4. cbn in A1, A2, A3, A4.
  pose proof (pr_end _ _ _ _ Hp) as (_ & E2 & E3 & E4). pose proof (pr_end _ _ _ _ Hp') as (_ & P2 & P3 & P4).
  rewrite <- A1, <- A2 in *. unfold args_access, args_handoff in *. cbn [fst snd] in *.
  unfold l2gw_validate_args. rewrite V1, V2, A3, A4. cbn [negb orb].
  assert ((la_access_cvlan a =? L2GW_CVLAN_ANY) = (la_handoff_cvlan a =? L2GW_CVLAN_ANY)) as Hw.
  { pose proof (fc_wild _ _ (pr_faces _ _ _ _ Hp)) as W. pose proof (fc_wild _ _ (pr_faces _ _ _ _ Hp')) as W'.
    rewrite (fc_wildcard _ _ (pr_faces _ _ _ _ Hp)) in W'.
    injection A1 as _ _ A1. injection A2 as _ _ A2. by rewrite A1, A2, W, W'. }
  rewrite Hw, eqb_reflx. cbn [negb].
  assert (∀ t, t = ETHERNET_TYPE_DOT1AD \/ t = ETHERNET_TYPE_VLAN →
    (t =? ETHERNET_TYPE_DOT1AD) || (t =? ETHERNET_TYPE_VLAN) = true) as Ht by (by intros t [->| ->]).
  rewrite (Ht _ (fc_tpid _ _ (pr_faces _ _ _ _ Hp))), (Ht _ (fc_tpid _ _ (pr_faces _ _ _ _ Hp'))).
  rewrite !(proj2 (Z.ltb_ge 4095 _)) by lia. cbn [orb negb].
  assert (∀ c v, (c ≠ 0 → v ≠ 0) → negb (c =? 0) && (v =? 0) = false) as Htag.
  { intros c v Hcv. destruct (Z.eqb_spec c 0), (Z.eqb_spec v 0); (done || exfalso; tauto). }
  destruct (la_handoff_cvlan a =? L2GW_CVLAN_ANY) eqn:HW; cbn [negb andb].
  - apply Z.eqb_eq in HW, Hw. unfold L2GW_CVLAN_ANY in *. by rewrite !(proj2 (Z.eqb_neq _ 0)) by lia.
  - apply Z.eqb_neq in HW, Hw. unfold L2GW_CVLAN_ANY in *.
    rewrite !(proj2 (Z.ltb_ge 4095 _)) by lia. by rewrite !Htag.
Qed.

(** C36. The dump reports every circuit and no other, each with the message that adds it:
    sent again while the ports exist, the message is answered with success, the same ids
    and no change, unless the circuit goes from an end to itself. *)
Theorem l2gw_dump_exact m :
  l2gw_run m →
  exists l, vl_api_osvbng_l2gw_circuit_dump_t_handler NONE m = Some l /\
    (∀ id c, circuits m !! id = Some c <->
       exists d, d ∈ l /\ clib_net_to_host_u32 (ld_circuit_id d) = id /\
         args_circuit (circuit_args (ld_circuit d)) = c) /\
    ∀ d i j, d ∈ l → let a := circuit_args (ld_circuit d) in
      sw_interface_is_api_valid (la_access_sw_if_index a) = true →
      sw_interface_is_api_valid (la_handoff_sw_if_index a) = true →
      args_access a ≠ args_handoff a →
      vl_api_osvbng_l2gw_add_del_circuit_t_handler (ld_circuit d) i j m =
        Some (m, L2_OK, Some (clib_net_to_host_u32 (ld_circuit_id d)),
              Some (clib_net_to_host_u32 (ld_handoff_entry_index d))).
Proof.
  intros Hok%l2gw_run_ok. destruct (dump_ok m Hok) as (l & Hl & Hd). exists l. split; [done|].
  assert (∀ i e, lg_entries m !! i = Some e → entry_has L2GW_ENTRY_F_ACCESS_SIDE e = true →
    exists p d, paired m i e p /\ paired m (le_peer_entry_index e) p e /\
      send_l2gw_circuit_details e m = Some d /\ clib_net_to_host_u32 (ld_circuit_id d) = i /\
      clib_net_to_host_u32 (ld_handoff_entry_index d) = le_peer_entry_index e /\
      la_is_add (circuit_args (ld_circuit d)) = true /\
      args_circuit (circuit_args (ld_circuit d)) = circuit_of e p) as Hdet.
  { intros i e He Ha. destruct (lo_pair m Hok i e He) as (p & Hp).
    destruct (details_ok m i e p Hp Hok He Ha (peer_u32 m i e p Hok Hp)) as (d & D1 & D2 & D3 & D4 & D5).
    pose proof (pr_peer _ _ _ _ Hp) as Hq. destruct (lo_pair m Hok _ p Hq) as (e' & Hp').
    pose proof (pr_peer _ _ _ _ Hp') as Hq'. rewrite (pr_back _ _ _ _ Hp), He in Hq'. injection Hq' as <-.
    by exists p, d. }
  split.
  - intros id c. rewrite circuits_lookup. split.
    + intros (e & p & He & Ha & Hp & ->). destruct (Hdet id e He Ha) as (p' & d & Hpr & _ & D1 & D2 & _ & _ & D5).
      rewrite (pr_peer _ _ _ _ Hpr) in Hp. injection Hp as ->. exists d. split_and!; [|done|done].
      apply Hd. by exists id, e.
    + intros (d & (i & e & He & Ha & Hs)%Hd & Hid & Hc).
      destruct (Hdet i e He Ha) as (p & d' & Hpr & _ & D1 & D2 & _ & _ & D5). rewrite Hs in D1. injection D1 as <-.
      exists e, p. rewrite <- Hid, D2. split_and!; try done; [apply Hpr|by rewrite <- Hc].
  - intros d i j (x & e & He & Ha & Hs)%Hd a V1 V2 Hne.
    destruct (Hdet x e He Ha) as (p & d' & Hp & Hp' & D1 & D2 & D3 & D4 & D5). rewrite Hs in D1. injection D1 as <-.
    fold a in D4, D5.
    pose proof (details_valid m x e p a Hp Hp' D5 V1 V2) as Hv. pose proof (circuit_args_ok (ld_circuit d)) as Hao.
    fold a in Hao. unfold vl_api_osvbng_l2gw_add_del_circuit_t_handler, vnet_l2gw_add_del_circuit.
    fold a. rewrite Hv, D4.
    change (l2gw_make_key (la_access_sw_if_index a) (la_access_svlan a) (la_access_cvlan a))
      with (end_key (args_access a)).
    pose proof (f_equal ci_access D5) as A1. pose proof (f_equal ci_handoff D5) as A2. cbn in A1, A2.
    assert (l2gw_table_lookup (end_key (args_access a)) m = Some x) as ->.
    { unfold l2gw_table_lookup. rewrite A1.
      destruct (lo_keyed m Hok x e He) as [E|E]; rewrite E; cbn [option_map]; unfold result_entry_index.
      - by rewrite u32_small by apply Hp.
      - destruct (lo_table m Hok _ _ E) as (p' & Hp2 & Hk). rewrite (pr_peer _ _ _ _ Hp) in Hp2. injection Hp2 as <-.
        apply end_key_inj in Hk; [|by apply Hp'|by apply Hp]. rewrite A1, A2 in Hne. by destruct Hne. }
    rewrite He. cbn [mbind option_bind]. rewrite (pr_peer _ _ _ _ Hp). cbn [mbind option_bind].
    rewrite (matches_eq e p a); [|by apply Hp|by apply Hp'|done..].
    rewrite bool_decide_true by (by rewrite D5). cbv zeta.
    rewrite (pr_access _ _ _ _ Hp Ha), He. cbn [mbind option_bind]. by rewrite D2, D3.
Qed.

End System.

(** * An example *)

Definition sample_l2gw_msg (is_add : bool) (access asvlan acvlan handoff hsvlan hcvlan : Z)
    : vl_api_osvbng_l2gw_add_del_circuit_t :=
  mkL2gwMsg is_add (host32 access) (host16 asvlan) (host16 acvlan) false 0 (host32 handoff) (host16 hsvlan)
    (host16 hcvlan) false 0 false true.

Definition l2gw_call_circuit (mp : vl_api_osvbng_l2gw_add_del_circuit_t) (i j : Z) (m : l2gw_main_t) : l2gw_main_t :=
  match vl_api_osvbng_l2gw_add_del_circuit_t_handler mp i j m with
  | Some (m, _, _, _) => m
  | None => m
  end.

(** Port 10 takes triggers of any protocol on S-VLANs 500 to 503, and its subscriber 100.200
    is handed off to port 20 as 300.400. *)
Definition sample_l2gw_0 : l2gw_main_t :=
  (vl_api_osvbng_l2gw_trigger_svlan_range_t_handler (host32 10) (host16 500) (host16 503) true true
     (l2gw_init (Some 5))).1.
Definition sample_l2gw : l2gw_main_t :=
  l2gw_call_circuit (sample_l2gw_msg true 10 100 200 20 300 400) 0 1 sample_l2gw_0.

Lemma sample_l2gw_armed : l2gw_call (l2gw_init (Some 5)) sample_l2gw_0.
Proof. apply call_trigger. Qed.

Lemma sample_l2gw_added : l2gw_call sample_l2gw_0 sample_l2gw.
Proof.
  unfold sample_l2gw, l2gw_call_circuit.
  destruct (vl_api_osvbng_l2gw_add_del_circuit_t_handler _ _ _ _) as [[[[m rv] i] h]|] eqn:E;
    [|by vm_compute in E].
  apply (call_circuit sample_l2gw_0 (sample_l2gw_msg true 10 100 200 20 300 400) 0 1 m rv i h); [|exact E].
  by split_and!.
Qed.

Lemma sample_l2gw_run : l2gw_run id sample_l2gw.
Proof.
  apply (run_call id sample_l2gw_0); [|exact sample_l2gw_added].
  apply (run_call id (l2gw_init (Some 5))); [apply run_init|exact sample_l2gw_armed].
Qed.

Lemma l2gw_implements_circuits_witness :
  exists m' rv id' h,
    vl_api_osvbng_l2gw_add_del_circuit_t_handler (sample_l2gw_msg true 10 101 0 20 300 400) 2 3 sample_l2gw =
      Some (m', rv, id', h) /\
    circuit_step (circuit_args (sample_l2gw_msg true 10 101 0 20 300 400)) 2 (circuits sample_l2gw)
      (circuits m') rv id'.
Proof. apply (l2gw_implements_circuits id); [exact sample_l2gw_run|by split_and!]. Defined.

Lemma l2gw_tables_exact_witness :
  (l2gw_table_lookup (end_key (10, 100, 200)) sample_l2gw = Some 0 →
   exists e, lg_entries sample_l2gw !! 0 = Some e /\ rx_end e = (10, 100, 200)) /\
  ∀ e, lg_entries sample_l2gw !! 0 = Some e →
    exists p, lg_entries sample_l2gw !! le_peer_entry_index e = Some p /\ le_peer_entry_index p = 0 /\
      faces e p /\ faces p e /\
      (l2gw_table_lookup (end_key (rx_end e)) sample_l2gw = Some 0 \/
       l2gw_table_lookup (end_key (rx_end e)) sample_l2gw = Some (le_peer_entry_index e) /\ rx_end p = rx_end e).
Proof.
  apply (l2gw_tables_exact id); [exact sample_l2gw_run|].
  unfold end_ok, is_u32. cbn. split_and!; lia.
Defined.

Lemma l2gw_dump_exact_witness :
  exists l, vl_api_osvbng_l2gw_circuit_dump_t_handler NONE sample_l2gw = Some l /\
    (∀ id c, circuits sample_l2gw !! id = Some c <->
       exists d, d ∈ l /\ clib_net_to_host_u32 (ld_circuit_id d) = id /\
         args_circuit (circuit_args (ld_circuit d)) = c) /\
    ∀ d i j, d ∈ l → let a := circuit_args (ld_circuit d) in
      sw_interface_is_api_valid (la_access_sw_if_index a) = true →
      sw_interface_is_api_valid (la_handoff_sw_if_index a) = true →
      args_access a ≠ args_handoff a →
      vl_api_osvbng_l2gw_add_del_circuit_t_handler (ld_circuit d) i j sample_l2gw =
        Some (sample_l2gw, L2_OK, Some (clib_net_to_host_u32 (ld_circuit_id d)),
              Some (clib_net_to_host_u32 (ld_handoff_entry_index d))).
Proof. apply (l2gw_dump_exact id). exact sample_l2gw_run. Defined.

(** The circuit of the example is found, both ways. *)
Example sample_l2gw_lookups :
  l2gw_table_lookup (end_key (10, 100, 200)) sample_l2gw = Some 0 /\
  l2gw_table_lookup (end_key (20, 300, 400)) sample_l2gw = Some 1.
Proof. by vm_compute. Qed.

(** A circuit is removed by its handoff side too. *)
Example l2gw_handoff_removes :
  lg_circuit_table (l2gw_call_circuit (sample_l2gw_msg false 20 300 400 10 100 200) 2 3 sample_l2gw) = ∅.
Proof. by vm_compute. Qed.

(** An addition that differs only in the state succeeds and changes nothing. *)
Example l2gw_state_not_refreshed :
  let mp := sample_l2gw_msg true 10 100 200 20 300 400 in
  let off := mkL2gwMsg true (lm_access_sw_if_index mp) (lm_access_svlan mp) (lm_access_cvlan mp) false 0
               (lm_handoff_sw_if_index mp) (lm_handoff_svlan mp) (lm_handoff_cvlan mp) false 0 false false in
  option_map (λ r, r.1.1.2) (vl_api_osvbng_l2gw_add_del_circuit_t_handler off 2 3 sample_l2gw) = Some L2_OK /\
  option_map le_flags (lg_entries (l2gw_call_circuit off 2 3 sample_l2gw) !! 0) =
    option_map le_flags (lg_entries sample_l2gw !! 0).
Proof. by vm_compute. Qed.

(** A circuit from an end to itself: its first entry is never found. *)
Example l2gw_self_circuit :
  let m := l2gw_call_circuit (sample_l2gw_msg true 30 7 8 30 7 8) 2 3 sample_l2gw in
  option_map rx_end (lg_entries m !! 2) = Some (30, 7, 8) /\
  l2gw_table_lookup (end_key (30, 7, 8)) m = Some 3.
Proof. by vm_compute. Qed.

(** Deleting an interface leaves its S-VLANs armed for any protocol. *)
Example l2gw_any_arming_stays :
  let armed m := option_map (λ s, bool_decide (500 ∈ s)) (lg_trigger_any_svlans m !! 10) in
  armed (l2gw_sw_interface_add_del 10 false sample_l2gw) = Some true.
Proof. by vm_compute. Qed.

(** The command that changes a circuit's state changes all of them when no id is given. *)
Example l2gw_state_without_id :
  option_map (λ r, option_map (entry_has L2GW_ENTRY_F_ENABLED) (lg_entries r.1 !! 0))
    (l2gw_circuit_state_command_fn [LDisable] sample_l2gw) = Some (Some false).
Proof. by vm_compute. Qed.

(** An S-VLAN that is no S-VLAN: 66036 arms 500. *)
Example l2gw_cli_cuts_svlans :
  let r := l2gw_trigger_command_fn [LInterface 11; LSvlan 66036] sample_l2gw in
  r.2 = None /\ option_map (λ s, bool_decide (500 ∈ s)) (lg_trigger_svlans r.1 !! 11) = Some true.
Proof. by vm_compute. Qed.

(** What is shown of the circuit of the example. *)
Example sample_l2gw_shown :
  option_map (map (λ l, (ll_circuit_id l, ll_access l, ll_handoff l))) (l2gw_show_circuits_command_fn sample_l2gw) =
  Some [(0, (10, 100, 200), (20, 300, 400))].
Proof. by vm_compute. Qed.
