(* ===== verification/L2gwPackets.v ===== *)
(** Frames through the layer 2 gateway: which circuit takes a frame, what its tags become,
    and that the way there and back gives the frame its own tags again.

    An [l2_frame] is a frame as a byte string: the two addresses, up to two tags, and the
    rest from its EtherType on.  [l2gw_packet] is the node's step without caches. *)

From S2P Require Import Prelude Packet Access TxFrames PuntShm L2gwCircuit L2gwNode L2gwInv L2gwRun L2gwSystem.

#[local] Open Scope Z_scope.

(** * Frames *)

(** A tag is its TPID and its TCI. *)
Record l2_frame := mkFrame {
  fr_macs : list Z;
  fr_tags : list (Z * Z);
  fr_rest : list Z
}.

Definition tag_bytes (t : Z * Z) : list Z := be16 t.1 ++ be16 t.2.
Definition frame_bytes (f : l2_frame) : list Z :=
  fr_macs f ++ concat (map tag_bytes (fr_tags f)) ++ fr_rest f.

(** The EtherType that the rest begins with. *)
Definition rest_type (l : list Z) : Z := nth 0 l 0 * 256 + nth 1 l 0.

Record frame_ok (f : l2_frame) : Prop := {
  fo_macs : length (fr_macs f) = 12%nat;
  fo_tags : Forall (λ t, l2gw_is_tag_tpid t.1 = true /\ is_u16 t.2) (fr_tags f);
  fo_two : (length (fr_tags f) <= 2)%nat;
  fo_rest : (2 <= length (fr_rest f))%nat;
  fo_last : l2gw_is_tag_tpid (rest_type (fr_rest f)) = false;
  fo_bytes : Forall byte (fr_macs f) /\ Forall byte (fr_rest f)
}.

Definition vid (t : Z * Z) : Z := Z.land t.2 4095.
Definition prio (t : Z * Z) : Z := Z.land t.2 61440.

(** What parsing is to find. *)
Definition tags_of (ts : list (Z * Z)) : l2gw_tags :=
  match ts with
  | [] => mkTags 0 0 0 0 0
  | [t] => mkTags 1 (vid t) 0 (prio t) 0
  | t :: t' :: _ => mkTags 2 (vid t) (vid t') (prio t) (prio t')
  end.

Lemma tag_tpid_u16 t : l2gw_is_tag_tpid t = true → is_u16 t.
Proof.
  unfold l2gw_is_tag_tpid, ETHERNET_TYPE_VLAN, ETHERNET_TYPE_DOT1AD, ETHERNET_TYPE_VLAN_9100, is_u16.
  rewrite !orb_true_iff, !Z.eqb_eq. lia.
Qed.

Lemma tag_length t : length (tag_bytes t) = 4%nat.
Proof. done. Qed.

Lemma tags_length ts : length (concat (map tag_bytes ts)) = (4 * length ts)%nat.
Proof. induction ts as [|t ts IH]; [done|]. cbn [map concat length]. rewrite length_app, tag_length, IH. lia. Qed.

(** The type field where the rest begins. *)
Lemma load_rest d o l :
  (2 <= length l)%nat → Forall byte l → lies d o l → clib_net_to_host_u16 (ld16 d o) = rest_type l.
Proof.
  destruct l as [|x [|y l]]; cbn [length]; [lia..|]. intros _ Hb Hl.
  inversion Hb as [|? ? Hx Hb']; inversion Hb' as [|? ? Hy _]; subst. unfold byte in *.
  rewrite !lies_cons in Hl. destruct Hl as (E1 & E2 & _).
  apply (load_be16 d o (rest_type (x :: y :: l))); [|unfold rest_type, is_u16; cbn; lia].
  unfold be16, rest_type. cbn [nth]. rewrite !lies_cons, E1, E2. unfold u8.
  rewrite Z.shiftr_div_pow2 by lia. split_and!; [ints..|apply lies_nil].
Qed.

Lemma parse_ok d eth f :
  frame_ok f → lies d eth (frame_bytes f) → l2gw_parse_tags d eth = tags_of (fr_tags f).
Proof.
  intros [Hm Ht H2 Hr Hlast [_ Hb]] Hl. unfold frame_bytes in Hl. rewrite !lies_app, Hm in Hl.
  destruct Hl as (_ & Ht' & Hrest). change (Z.of_nat 12) with 12 in *. rewrite tags_length in Hrest.
  unfold l2gw_parse_tags. change SIZEOF_ETHERNET with 14. change SIZEOF_VLAN with 4.
  assert (∀ o, o = eth + 12 + Z.of_nat (4 * length (fr_tags f)) →
    clib_net_to_host_u16 (ld16 d o) = rest_type (fr_rest f)) as Hty by (intros ? ->; by apply load_rest).
  destruct (fr_tags f) as [|[t1 v1] [|[t2 v2] [|]]]; cbn [length] in *; [..|lia].
  - rewrite Hty by lia. by rewrite Hlast.
  - inversion Ht as [|? ? [T1 V1] _]; subst. cbn [fst snd] in *.
    cbn [map concat] in Ht'. rewrite app_nil_r in Ht'. unfold tag_bytes in Ht'. cbn [fst snd] in Ht'.
    rewrite lies_app in Ht'. destruct Ht' as [A1 A2]. change (Z.of_nat (length (be16 t1))) with 2 in A2.
    rewrite (load_be16 d _ t1 A1) by by apply tag_tpid_u16. rewrite T1.
    rewrite (load_be16_at d (eth + 14) _ v1 A2) by (done || lia).
    rewrite (Hty (eth + 14 + 2)) by lia. by rewrite Hlast.
  - inversion Ht as [|? ? [T1 V1] Ht2]; subst. inversion Ht2 as [|? ? [T2 V2] _]; subst. cbn [fst snd] in *.
    cbn [map concat] in Ht'. rewrite app_nil_r in Ht'. unfold tag_bytes in Ht'. cbn [fst snd] in Ht'.
    rewrite !lies_app, length_app, !be16_length in Ht'. destruct Ht' as ([A1 A2] & A3 & A4).
    rewrite (load_be16 d _ t1 A1) by by apply tag_tpid_u16. rewrite T1.
    rewrite (load_be16_at d (eth + 14) _ v1 A2) by (done || lia).
    rewrite (load_be16_at d (eth + 14 + 2) _ t2 A3) by (lia || by apply tag_tpid_u16). rewrite T2.
    by rewrite (load_be16_at d (eth + 14 + 4) _ v2 A4) by (done || lia).
Qed.

(** * Rewriting *)

(** The tags of a frame that leaves by [e]. *)
Definition out_tags (e : l2gw_entry_t) (ts : list (Z * Z)) : list (Z * Z) :=
  let g := tags_of ts in
  let outer := (le_tx_outer_tpid e, Z.lor (tg_outer_prio g) (le_tx_svlan e)) in
  let inner := (ETHERNET_TYPE_VLAN, Z.lor (tg_inner_prio g) (le_tx_cvlan e)) in
  if entry_has L2GW_ENTRY_F_TRANSPARENT e then ts
  else if entry_has L2GW_ENTRY_F_WILDCARD e then outer :: tail ts
  else if le_tx_svlan e =? 0 then []
  else if le_tx_cvlan e =? 0 then [outer] else [outer; inner].

Definition out_frame (e : l2gw_entry_t) (f : l2_frame) : l2_frame :=
  mkFrame (fr_macs f) (out_tags e (fr_tags f)) (fr_rest f).

Lemma put_lies d o l p : lies d o l → put d o l p = d p.
Proof.
  intros Hl. unfold put. zcases; try done. rewrite lies_nth in Hl. rewrite <- Hl by lia. f_equal. lia.
Qed.

Lemma put_ext d d' o l p : (∀ p, d p = d' p) → put d o l p = put d' o l p.
Proof. intros Hd. unfold put. by rewrite Hd. Qed.

(** A field stored behind what is written so far. *)
Lemma put_snoc d d1 c l o v p :
  (∀ p, d1 p = put d c l p) → o = c + Z.of_nat (length l) → st_net16 d1 o v p = put d c (l ++ be16 v) p.
Proof.
  intros Hd ->. unfold st_net16. rewrite st16_be16, put_app. by apply put_ext.
Qed.

(** A buffer that begins with [l] and goes on as before. *)
Lemma contents_written b d c l r :
  (∀ p, b_data b p = put d c l p) → b_current_data b = c →
  b_current_length b = Z.of_nat (length l + length r) → lies d (c + Z.of_nat (length l)) r →
  contents b = l ++ r.
Proof.
  intros Hd Hc Hn Hr. unfold contents. rewrite Hc, Hn, Nat2Z.id, bytes_app. f_equal.
  - rewrite (bytes_ext _ (put d c l)) by auto. apply bytes_put.
  - rewrite (bytes_ext _ d); [exact Hr|]. intros p Hp. rewrite Hd. apply put_out. lia.
Qed.

Section Rewrite.

Context `{VlibVppLaws}.

(** Room in front of a frame for two tags, and in the buffer's length. *)
Definition room_ok (b : vlib_buffer_t) : Prop :=
  - 2 ^ 15 <= b_current_data b - 8 /\ b_current_data b + 8 < 2 ^ 15 /\ b_current_length b + 8 < 2 ^ 16.

(** What a valid entry's tags are. *)
Definition tx_ok (e : l2gw_entry_t) : Prop :=
  is_u16 (le_tx_svlan e) /\ is_u16 (le_tx_cvlan e) /\ (le_tx_cvlan e ≠ 0 → le_tx_svlan e ≠ 0).

Lemma tags_n ts : (length ts <= 2)%nat → tg_n (tags_of ts) = Z.of_nat (length ts).
Proof. destruct ts as [|t1 [|t2 [|t3 ts]]]; intros Hl; [done..|]. simpl in Hl. lia. Qed.

Lemma rewrite_ok b e f :
  frame_ok f → contents b = frame_bytes f → 0 <= b_current_length b → room_ok b → tx_ok e →
  (entry_has L2GW_ENTRY_F_WILDCARD e = true → fr_tags f ≠ []) →
  let g := tags_of (fr_tags f) in
  contents (l2gw_rewrite b e (tg_n g) (tg_outer_prio g) (tg_inner_prio g)) = frame_bytes (out_frame e f).
Proof.
  intros Hf Hc Hn (R1 & R2 & R3) (T1 & T2 & T3) Hw g.
  pose proof (fo_macs f Hf) as Hmac. pose proof (fo_two f Hf) as Htwo. pose proof (tags_n _ Htwo) as Hg. fold g in Hg.
  apply contents_lies in Hc as [Hlen Hlies]; [|done]. unfold frame_bytes in Hlen, Hlies.
  rewrite !length_app, Hmac, tags_length in Hlen.
  unfold l2gw_rewrite, frame_bytes, out_frame, out_tags. cbn [fr_macs fr_tags fr_rest]. fold g.
  destruct (entry_has L2GW_ENTRY_F_TRANSPARENT e).
  { apply contents_lies; [done|]. rewrite !length_app, Hmac, tags_length. done. }
  change SIZEOF_ETHERNET with 14. change SIZEOF_VLAN with 4.
  destruct (entry_has L2GW_ENTRY_F_WILDCARD e).
  { destruct (fr_tags f) as [|t ts]; [by destruct (Hw eq_refl)|]. clear Hw Hg. cbn [tail map concat].
    set (tb := tag_bytes (_, _)).
    transitivity ((fr_macs f ++ tb) ++ (concat (map tag_bytes ts) ++ fr_rest f)); [|by rewrite <- !app_assoc].
    cbn [length map concat] in *. rewrite <- app_assoc in Hlies.
    rewrite !lies_app, Hmac, tag_length in Hlies. destruct Hlies as (L1 & _ & L2 & L3).
    apply (contents_written _ (b_data b) (b_current_data b)); rproj.
    - intros p. unfold tb, tag_bytes. rewrite app_assoc. cbn [fst snd].
      apply put_snoc; [|rewrite length_app, Hmac; simpl; lia].
      intros q. apply put_snoc; [|rewrite Hmac; lia]. intros q'. symmetry. by apply put_lies.
    - done.
    - rewrite !length_app, Hmac, tags_length. unfold tb. rewrite tag_length. lia.
    - rewrite lies_app. rewrite length_app, Hmac. unfold tb. rewrite tag_length.
      split; [eapply lies_at; [exact L2|lia]|eapply lies_at; [exact L3|rewrite !tags_length; lia]]. }
  set (ntx := (if le_tx_svlan e =? 0 then 0 else 1) + (if le_tx_cvlan e =? 0 then 0 else 1)).
  rewrite !lies_app, Hmac, tags_length in Hlies. destruct Hlies as (L1 & _ & L3).
  assert (0 <= ntx <= 2) as Hntx by (unfold ntx; zcases; lia).
  set (c := b_current_data b - 4 * (ntx - tg_n g)).
  set (b1 := if ntx =? tg_n g then b else _).
  assert (b_current_data b1 = c /\ b_current_length b1 = b_current_length b + 4 * (ntx - tg_n g) /\
    ∀ p, b_data b1 p = put (b_data b) c (fr_macs f) p) as (B1 & B2 & B3).
  { unfold b1, c. destruct (Z.eqb_spec ntx (tg_n g)) as [E|E].
    - rewrite E, Z.sub_diag, Z.mul_0_r, Z.sub_0_r, Z.add_0_r. split_and!; try done.
      intros p. symmetry. by apply put_lies.
    - rewrite !advance_eq by lia. split_and!; rproj; [lia..|]. intros p.
      replace (bytes (b_data b) (b_current_data b) 12) with (fr_macs f)
        by (symmetry; unfold lies in L1; by rewrite Hmac in L1).
      f_equal. lia. }
  rewrite B1.
  assert (lies (b_data b) (c + Z.of_nat (12 + 4 * Z.to_nat ntx)) (fr_rest f)) as Hrest
    by (eapply lies_at; [exact L3|unfold c; lia]).
  assert (Z.of_nat (12 + 4 * Z.to_nat ntx + length (fr_rest f)) = b_current_length b1) as Hlen1 by lia.
  destruct (Z.eqb_spec ntx 0) as [E0|E0].
  { assert (le_tx_svlan e =? 0 = true) as -> by (unfold ntx in E0; destruct (le_tx_svlan e =? 0); [done|destruct (le_tx_cvlan e =? 0); lia]).
    rewrite E0 in *. cbn [map concat app]. apply (contents_written _ (b_data b) c); try done.
    - rewrite Hmac. by rewrite <- Hlen1.
    - rewrite Hmac. exact Hrest. }
  assert (le_tx_svlan e =? 0 = false) as Es.
  { destruct (Z.eqb_spec (le_tx_svlan e) 0) as [E|]; [|done]. exfalso. apply E0. unfold ntx. rewrite ?E. cbn [Z.eqb].
    destruct (Z.eqb_spec (le_tx_cvlan e) 0); [done|]. by destruct T3. }
  rewrite Es. set (outer := (le_tx_outer_tpid e, _)). set (inner := (ETHERNET_TYPE_VLAN, _)).
  assert (∀ p, st_net16 (st_net16 (b_data b1) (c + 12) outer.1) (c + 14) outer.2 p =
    put (b_data b) c (fr_macs f ++ tag_bytes outer) p) as W1.
  { intros p. unfold tag_bytes. rewrite app_assoc. apply put_snoc; [|rewrite length_app, Hmac; simpl; lia].
    intros q. apply put_snoc; [exact B3|rewrite Hmac; lia]. }
  destruct (Z.eqb_spec (le_tx_cvlan e) 0) as [Ec|Ec].
  - assert (ntx = 1) as E1 by (unfold ntx; by rewrite ?Es, ?Ec). rewrite E1 in *. cbn [Z.eqb Pos.eqb map concat].
    rewrite app_nil_r, app_assoc. apply (contents_written _ (b_data b) c); rproj.
    + exact W1.
    + done.
    + rewrite length_app, Hmac, tag_length, <- Hlen1. done.
    + rewrite length_app, Hmac, tag_length. exact Hrest.
  - assert (ntx = 2) as E1 by (unfold ntx; by rewrite ?Es, ?(proj2 (Z.eqb_neq _ _) Ec)). rewrite E1 in *.
    cbn [Z.eqb Pos.eqb map concat]. rewrite app_nil_r.
    transitivity (((fr_macs f ++ tag_bytes outer) ++ tag_bytes inner) ++ fr_rest f); [|by rewrite <- !app_assoc].
    apply (contents_written _ (b_data b) c); rproj.
    + intros p. rewrite <- app_assoc. unfold tag_bytes at 2. rewrite !app_assoc. cbn [fst snd].
      apply put_snoc; [|rewrite !length_app, Hmac; simpl; lia].
      intros q. apply put_snoc; [exact W1|rewrite length_app, Hmac, tag_length; lia].
    + done.
    + rewrite !length_app, Hmac, !tag_length, <- Hlen1. done.
    + rewrite !length_app, Hmac, !tag_length. exact Hrest.
Qed.

End Rewrite.

(** * Which circuit *)

(** The lookups without their caches: the exact entry, or else that of the S-VLAN. *)
Definition l2gw_find (table : gmap l2gw_key_t Z) (x : l2gw_end) : Z :=
  let r := default L2GW_NO_RESULT (table !! end_key x) in
  if (r =? L2GW_NO_RESULT) && negb (x.1.2 =? 0)
  then default L2GW_NO_RESULT (table !! end_key (x.1, L2GW_CVLAN_ANY)) else r.

(** Where a frame comes in, and with which tags. *)
Definition frame_end (b : vlib_buffer_t) (g : l2gw_tags) : l2gw_end := (b_rx b, tg_svlan g, tg_cvlan g).

Lemma land_vid x : 0 <= Z.land x 4095 <= 4095.
Proof.
  assert (Z.land x 4095 = x mod 4096) as -> by (change 4095 with (Z.ones 12); by rewrite Z.land_ones by lia).
  pose proof (Z.mod_pos_bound x 4096). lia.
Qed.

Lemma tags_range d eth : 0 <= tg_svlan (l2gw_parse_tags d eth) <= 4095 /\ 0 <= tg_cvlan (l2gw_parse_tags d eth) <= 4095.
Proof.
  unfold l2gw_parse_tags. destruct (l2gw_is_tag_tpid _); [destruct (l2gw_is_tag_tpid _)|]; cbn [tg_svlan tg_cvlan];
    split; (apply land_vid || lia).
Qed.

(** A key the parser can produce. *)
Definition end_range (x : l2gw_end) : Prop := is_u32 x.1.1 /\ 0 <= x.1.2 <= 4095 /\ 0 <= x.2 <= 4095.

Lemma range_key_inj x y : end_range x \/ end_ok x → end_range y \/ end_ok y → end_key x = end_key y → x = y.
Proof.
  destruct x as [[w v] c], y as [[w' v'] c']. unfold end_range, end_ok, end_key, L2GW_CVLAN_ANY. cbn [fst snd].
  intros Hx Hy He. apply l2gw_key_inj in He as (-> & -> & ->); [done|..]; unfold is_u16; tauto || lia.
Qed.

Lemma table_value m k raw :
  l2gw_ok m → lg_circuit_table m !! k = Some raw → (raw =? L2GW_NO_RESULT) = false /\ result_entry_index raw = raw.
Proof.
  intros Hok Hk. destruct (lo_table m Hok k raw Hk) as (e & He & _). destruct (lo_pair m Hok raw e He) as (p & Hp).
  pose proof (pr_slot _ _ _ _ Hp) as Hs. split; [apply Z.eqb_neq; unfold L2GW_NO_RESULT, is_u32 in *; lia|].
  by apply u32_small.
Qed.

Lemma entry_no_result m i e : l2gw_ok m → lg_entries m !! i = Some e → i ≠ L2GW_NO_RESULT.
Proof.
  intros Hok He ->. destruct (lo_pair m Hok _ e He) as (p & Hp). pose proof (pr_slot _ _ _ _ Hp) as Hs.
  unfold is_u32, L2GW_NO_RESULT in Hs. lia.
Qed.

(** What is found takes frames with these tags, or any with this outer one. *)
Lemma find_ok m x i :
  l2gw_ok m → end_range x → l2gw_find (lg_circuit_table m) x = i → i ≠ L2GW_NO_RESULT →
  exists e p, lg_entries m !! i = Some e /\ paired m i e p /\ result_entry_index i = i /\
    (rx_end e = x \/ rx_end e = (x.1, L2GW_CVLAN_ANY) /\ x.1.2 ≠ 0).
Proof.
  intros Hok Hx Hf Hi. unfold l2gw_find in Hf. cbv zeta in Hf.
  assert (∀ k, lg_circuit_table m !! k = Some i → exists e p, lg_entries m !! i = Some e /\ paired m i e p /\
    result_entry_index i = i /\ end_key (rx_end e) = k) as Hentry.
  { intros k Hk. destruct (lo_table m Hok k i Hk) as (e & He & Hke). destruct (lo_pair m Hok i e He) as (p & Hp).
    exists e, p. split_and!; try done. by apply (table_value m k). }
  destruct (lg_circuit_table m !! end_key x) as [r|] eqn:E; cbn [from_option] in Hf; unfold id in Hf.
  - destruct (table_value m _ _ Hok E) as [En _]. rewrite En in Hf. cbn [andb] in Hf. subst r.
    destruct (Hentry _ E) as (e & p & He & Hp & Hr & Hk). exists e, p. split_and!; try done. left.
    apply range_key_inj in Hk; [done|right; by apply Hp|by left].
  - change (L2GW_NO_RESULT =? L2GW_NO_RESULT) with true in Hf. cbn [andb] in Hf.
    destruct (Z.eqb_spec x.1.2 0) as [|Hne]; cbn [negb] in Hf; [congruence|].
    destruct (lg_circuit_table m !! end_key (x.1, L2GW_CVLAN_ANY)) as [r|] eqn:E2; cbn [from_option] in Hf; unfold id in Hf; [|congruence].
    subst r. destruct (Hentry _ E2) as (e & p & He & Hp & Hr & Hk). exists e, p. split_and!; try done. right.
    split; [|done]. apply range_key_inj in Hk; [done|right; by apply Hp|right].
    destruct Hx as (X1 & X2 & _). unfold end_ok. cbn [fst snd]. auto.
Qed.

Lemma entry_tx_ok m i e p : l2gw_ok m → paired m i e p → tx_ok e.
Proof.
  intros Hok Hp. destruct (pair_end m _ p Hok (pr_peer _ _ _ _ Hp)) as (_ & P2 & P3 & P4). cbn [rx_end fst snd] in *.
  destruct (pr_faces _ _ _ _ Hp) as [_ F2 F3 _ _ _ _ _ _ _]. unfold tx_ok. rewrite F2, F3. unfold L2GW_CVLAN_ANY, is_u16 in *.
  destruct (entry_has L2GW_ENTRY_F_TRANSPARENT e); cbn [orb]; [lia|].
  destruct (Z.eqb_spec (le_rx_cvlan p) 65535); lia.
Qed.

(** Wildcard entries are those that take any inner tag. *)
Lemma wild_end m i e p :
  l2gw_ok m → lg_entries m !! i = Some e → paired m i e p →
  entry_has L2GW_ENTRY_F_WILDCARD e = (le_rx_cvlan e =? L2GW_CVLAN_ANY) /\
  entry_has L2GW_ENTRY_F_WILDCARD e = (le_rx_cvlan p =? L2GW_CVLAN_ANY).
Proof.
  intros Hok He Hp. pose proof (pr_peer _ _ _ _ Hp) as Hq. destruct (lo_pair m Hok _ p Hq) as (e' & Hp').
  pose proof (pr_peer _ _ _ _ Hp') as Hq'. rewrite (pr_back _ _ _ _ Hp), He in Hq'. injection Hq' as <-.
  rewrite <- (fc_wildcard _ _ (pr_faces _ _ _ _ Hp)) at 1.
  by rewrite (fc_wild _ _ (pr_faces _ _ _ _ Hp)), (fc_wild _ _ (pr_faces _ _ _ _ Hp')).
Qed.

Section Packets.

Context `{VlibVppLaws, AccessVpp}.
Variable output_node_of : Z → Z.

(** The node's step for a packet, without caches. *)
Definition l2gw_packet (now : f64) (b : vlib_buffer_t) (m : l2gw_main_t) : option (l2gw_main_t * l2gw_outcome) :=
  let g := l2gw_parse_tags (b_data b) (b_current_data b) in
  l2gw_act output_node_of now (l2gw_find (lg_circuit_table m) (frame_end b g)) g b m.

(** A buffer that holds a frame, with room around it. *)
Record carries (b : vlib_buffer_t) (f : l2_frame) : Prop := {
  cy_frame : frame_ok f;
  cy_contents : contents b = frame_bytes f;
  cy_length : 0 <= b_current_length b;
  cy_room : room_ok b;
  cy_port : is_u32 (b_rx b)
}.

Lemma carries_parse b f : carries b f → l2gw_parse_tags (b_data b) (b_current_data b) = tags_of (fr_tags f).
Proof.
  intros [Hf Hc Hl _ _]. apply parse_ok; [done|]. apply contents_lies in Hc; [|done]. apply Hc.
Qed.

Lemma carries_range b f : carries b f → end_range (frame_end b (tags_of (fr_tags f))).
Proof.
  intros Hc. rewrite <- (carries_parse b f Hc). destruct (tags_range (b_data b) (b_current_data b)).
  split; [apply Hc|done].
Qed.

(** A frame that an entry takes and forwards. *)
Lemma switch_ok m now b f i e :
  l2gw_ok m → carries b f →
  l2gw_find (lg_circuit_table m) (frame_end b (tags_of (fr_tags f))) = i → lg_entries m !! i = Some e →
  entry_has L2GW_ENTRY_F_ENABLED e = true → sw_interface_is_free (le_tx_sw_if_index e) = false →
  exists m' b', l2gw_packet now b m =
      Some (m', (b', L2gwSwitched (output_node_of (le_tx_sw_if_index e)), [L2GW_ERROR_SWITCHED])) /\
    contents b' = frame_bytes (out_frame e f) /\ b_tx b' = le_tx_sw_if_index e /\
    lg_counters m' !! i = (λ c, (u64 (c.1 + 1), u64 (c.2 + vlib_buffer_length_in_chain b))) <$> lg_counters m !! i.
Proof.
  intros Hok Hc Hf He Hen Hfree. unfold l2gw_packet. rewrite (carries_parse b f Hc), Hf.
  pose proof (entry_no_result m i e Hok He) as Hi.
  destruct (find_ok m _ i Hok (carries_range b f Hc) Hf Hi) as (e' & p & He' & Hp & Hr & Hx).
  rewrite He in He'. injection He' as <-.
  unfold l2gw_act. rewrite (proj2 (Z.eqb_neq _ _) Hi), Hr, He. cbn [mbind option_bind]. rewrite Hen. cbn [negb].
  unfold l2gw_forward. rewrite Hfree. eexists _, _. split; [reflexivity|]. split_and!.
  - change (contents (?b0⟪b_tx := ?x⟫)) with (contents b0).
    apply rewrite_ok; try apply Hc; [by apply (entry_tx_ok m i e p)|].
    rewrite (proj1 (wild_end m i e p Hok He Hp)), Z.eqb_eq. intros Hw Hnil.
    destruct Hx as [Hx|[_ Hx]]; rewrite Hnil in Hx; [|done]. apply (f_equal snd) in Hx. cbn in Hx.
    rewrite Hw in Hx. done.
  - done.
  - rproj. by rewrite lookup_alter_eq.
Qed.

(** C20. A frame that a forwarding circuit takes, by its port and both tags or by its port
    and outer tag, leaves towards the other side's port with the tags of that side, its
    addresses and everything from its EtherType on unchanged, its priorities kept in the
    tags that remain, and it is counted once. *)
Theorem l2gw_switches m now b f i e :
  l2gw_run output_node_of m → carries b f →
  l2gw_find (lg_circuit_table m) (frame_end b (tags_of (fr_tags f))) = i → lg_entries m !! i = Some e →
  entry_has L2GW_ENTRY_F_ENABLED e = true → sw_interface_is_free (le_tx_sw_if_index e) = false →
  exists m' b', l2gw_packet now b m =
      Some (m', (b', L2gwSwitched (output_node_of (le_tx_sw_if_index e)), [L2GW_ERROR_SWITCHED])) /\
    contents b' = frame_bytes (out_frame e f) /\ b_tx b' = le_tx_sw_if_index e /\
    lg_counters m' !! i = (λ c, (u64 (c.1 + 1), u64 (c.2 + vlib_buffer_length_in_chain b))) <$> lg_counters m !! i.
Proof. intros Hrun%l2gw_run_ok. by apply switch_ok. Qed.

(** ** The way back *)

Lemma vid_lor x v y : 0 <= v <= 4095 → vid (x, Z.lor (prio y) v) = v.
Proof.
  intros Hv. unfold vid, prio. cbn [snd]. rewrite Z.land_lor_distr_l, <- Z.land_assoc.
  change (Z.land 61440 4095) with 0. rewrite Z.land_0_r, Z.lor_0_l. change 4095 with (Z.ones 12).
  rewrite Z.land_ones by lia. apply Z.mod_small. lia.
Qed.

(** The tags a frame is taken by are its VIDs. *)
Definition vid_pair (vs : list Z) : Z * Z := (nth 0 vs 0, nth 1 vs 0).

Lemma tags_vids ts :
  (length ts <= 2)%nat → (tg_svlan (tags_of ts), tg_cvlan (tags_of ts)) = vid_pair (map vid ts).
Proof. by destruct ts as [|? [|? [|]]]. Qed.

(** The VIDs that an entry writes. *)
Definition out_vids (e : l2gw_entry_t) (vs : list Z) : list Z :=
  if entry_has L2GW_ENTRY_F_WILDCARD e then le_tx_svlan e :: tail vs
  else if le_tx_svlan e =? 0 then []
  else if le_tx_cvlan e =? 0 then [le_tx_svlan e] else [le_tx_svlan e; le_tx_cvlan e].

Lemma outer_prio ts : exists y, tg_outer_prio (tags_of ts) = prio y.
Proof. destruct ts as [|t [|t' ts]]; [by exists (0, 0)|by exists t..]. Qed.
Lemma inner_prio ts : exists y, tg_inner_prio (tags_of ts) = prio y.
Proof. destruct ts as [|t [|t' ts]]; [by exists (0, 0)|by exists (0, 0)|by exists t']. Qed.

Lemma out_tags_vids e ts :
  0 <= le_tx_svlan e <= 4095 → 0 <= le_tx_cvlan e <= 4095 → entry_has L2GW_ENTRY_F_TRANSPARENT e = false →
  map vid (out_tags e ts) = out_vids e (map vid ts).
Proof.
  intros Hs Hc Ht. unfold out_tags, out_vids. rewrite Ht.
  destruct (outer_prio ts) as (yo & ->), (inner_prio ts) as (yi & ->).
  destruct (entry_has L2GW_ENTRY_F_WILDCARD e);
    [|destruct (le_tx_svlan e =? 0); [done|destruct (le_tx_cvlan e =? 0)]];
    cbn [map]; rewrite !vid_lor by done; try done. by rewrite tl_map.
Qed.

(** The VIDs of a frame that [e] takes are those that its other direction gives back. *)
Lemma back_vids e p q vs :
  faces p q → rx_end q = rx_end e → entry_has L2GW_ENTRY_F_WILDCARD p = entry_has L2GW_ENTRY_F_WILDCARD e →
  entry_has L2GW_ENTRY_F_TRANSPARENT p = false → (length vs <= 2)%nat → Forall (λ v, v ≠ 0) vs →
  let x := vid_pair vs in
  le_rx_svlan e = x.1 /\ (le_rx_cvlan e = x.2 \/ le_rx_cvlan e = L2GW_CVLAN_ANY /\ x.1 ≠ 0) →
  x.2 ≠ L2GW_CVLAN_ANY → out_vids p (out_vids e vs) = vs.
Proof.
  intros [_ F2 F3 F4 _ _ _ _ _ _] [= _ E1 E2] Hw Ht Hl Hv x Hx Hany. rewrite E1, E2 in *.
  unfold out_vids. rewrite <- Hw.
  rewrite F2, F3, Ht, <- F4. cbn [orb].
  destruct (Z.eqb_spec (le_rx_cvlan e) L2GW_CVLAN_ANY) as [Ew|Ew]; cbv iota.
  - destruct vs as [|v vs]; [simpl in *; lia|]. cbn [tail]. f_equal. exact (proj1 Hx).
  - destruct Hx as [Hs [Hc|[? _]]]; [|done]. rewrite Hs, Hc. subst x.
    destruct vs as [|v [|v' [|]]]; cbn [length] in Hl; [done| | |lia]; unfold vid_pair; cbn [nth fst snd];
      repeat match goal with Hf : Forall _ (_ :: _) |- _ => inversion Hf; clear Hf; subst end;
      by rewrite ?(proj2 (Z.eqb_neq v 0)), ?(proj2 (Z.eqb_neq v' 0)) by done.
Qed.

(** What the table has for the other side: that direction, or for a circuit from an end to
    itself perhaps this one. *)
Lemma other_side m i e p :
  l2gw_ok m → lg_entries m !! i = Some e → paired m i e p →
  exists j e' q, lg_circuit_table m !! end_key (rx_end p) = Some j /\ lg_entries m !! j = Some e' /\
    faces e' q /\ faces q e' /\ rx_end e' = rx_end p /\ rx_end q = rx_end e /\
    entry_has L2GW_ENTRY_F_ENABLED e' = entry_has L2GW_ENTRY_F_ENABLED e /\
    entry_has L2GW_ENTRY_F_WILDCARD e' = entry_has L2GW_ENTRY_F_WILDCARD e /\
    entry_has L2GW_ENTRY_F_TRANSPARENT e' = entry_has L2GW_ENTRY_F_TRANSPARENT e.
Proof.
  intros Hok He Hp. pose proof (pr_peer _ _ _ _ Hp) as Hq. destruct (lo_pair m Hok _ p Hq) as (e' & Hp').
  pose proof (pr_peer _ _ _ _ Hp') as Hq'. rewrite (pr_back _ _ _ _ Hp), He in Hq'. injection Hq' as <-.
  pose proof (pr_faces _ _ _ _ Hp) as F. pose proof (pr_faces _ _ _ _ Hp') as F'.
  destruct (lo_keyed m Hok _ p Hq) as [E|E].
  - exists (le_peer_entry_index e), p, e. split_and!; try done; apply F.
  - rewrite (pr_back _ _ _ _ Hp) in E. exists i, e, p. split_and!; try done;
      destruct (lo_table m Hok _ _ E) as (e' & He' & Hk); rewrite He in He'; injection He' as <-;
      (apply end_key_inj in Hk; [done|by apply Hp|by apply Hp']).
Qed.

(** A frame from the other side with the VIDs of that side is found there. *)
Lemma find_back m x j e' :
  l2gw_ok m → lg_circuit_table m !! end_key (rx_end e') = Some j →
  (rx_end e' = x \/ rx_end e' = (x.1, L2GW_CVLAN_ANY) /\ x.1.2 ≠ 0 /\ lg_circuit_table m !! end_key x = None) →
  l2gw_find (lg_circuit_table m) x = j.
Proof.
  intros Hok Hj Hx. destruct (table_value m _ _ Hok Hj) as [Hn _]. unfold l2gw_find. cbv zeta.
  destruct Hx as [<-|(Hx & Hs & Hnone)].
  - rewrite Hj. cbn [from_option]. unfold id. by rewrite Hn.
  - rewrite Hnone. cbn [from_option]. unfold id. change (L2GW_NO_RESULT =? L2GW_NO_RESULT) with true.
    rewrite (proj2 (Z.eqb_neq _ _) Hs). cbn [andb negb]. rewrite <- Hx. by rewrite Hj.
Qed.

(** The VIDs that [e] writes are those that the other direction takes. *)
Lemma out_pair e p vs :
  faces e p → end_ok (rx_end p) → entry_has L2GW_ENTRY_F_TRANSPARENT e = false →
  (vid_pair (out_vids e vs)).1 = le_rx_svlan p /\
  if entry_has L2GW_ENTRY_F_WILDCARD e then le_rx_cvlan p = L2GW_CVLAN_ANY /\ le_rx_svlan p ≠ 0
  else (vid_pair (out_vids e vs)).2 = le_rx_cvlan p.
Proof.
  intros [_ F2 F3 F4 _ _ _ _ _ _] (_ & E1 & E2 & E3) Ht. cbn [rx_end fst snd] in *. unfold out_vids.
  rewrite F2, F3, Ht, F4. cbn [orb]. rewrite <- F4.
  destruct (Z.eqb_spec (le_rx_cvlan p) L2GW_CVLAN_ANY) as [Ew|Ew].
  - rewrite Ew in *. split_and!; [done|done|by apply E3].
  - unfold vid_pair. destruct (Z.eqb_spec (le_rx_svlan p) 0) as [E0|E0]; cbn [nth fst snd].
    + rewrite E0. split; [done|]. destruct (Z.eq_dec (le_rx_cvlan p) 0) as [->|Hc]; [done|]. by destruct (E3 Hc).
    + destruct (Z.eqb_spec (le_rx_cvlan p) 0) as [E0'|E0']; by rewrite ?E0'.
Qed.

(** The reply is found, and gets back the VIDs. *)
Lemma reply_found m b f i e b2 f2 :
  l2gw_ok m → carries b f → Forall (λ t, vid t ≠ 0) (fr_tags f) →
  l2gw_find (lg_circuit_table m) (frame_end b (tags_of (fr_tags f))) = i → lg_entries m !! i = Some e →
  entry_has L2GW_ENTRY_F_TRANSPARENT e = false →
  carries b2 f2 → b_rx b2 = le_tx_sw_if_index e → map vid (fr_tags f2) = map vid (out_tags e (fr_tags f)) →
  (entry_has L2GW_ENTRY_F_WILDCARD e = true →
   lg_circuit_table m !! end_key (frame_end b2 (tags_of (fr_tags f2))) = None) →
  exists j e', l2gw_find (lg_circuit_table m) (frame_end b2 (tags_of (fr_tags f2))) = j /\
    lg_entries m !! j = Some e' /\ le_tx_sw_if_index e' = b_rx b /\
    entry_has L2GW_ENTRY_F_ENABLED e' = entry_has L2GW_ENTRY_F_ENABLED e /\
    map vid (out_tags e' (fr_tags f2)) = map vid (fr_tags f).
Proof.
  intros Hok Hc Hv Hf He Ht Hc2 Hp2 Hv2 Hw.
  pose proof (entry_no_result m i e Hok He) as Hi.
  destruct (find_ok m _ i Hok (carries_range b f Hc) Hf Hi) as (e0 & p & He0 & Hp & _ & Hx).
  rewrite He in He0. injection He0 as <-.
  destruct (other_side m i e p Hok He Hp) as (j & e' & q & Hj & He' & F & F' & Ee & Eq & Gen & Gw & Gt).
  exists j, e'. destruct (lo_pair m Hok j e' He') as (p' & Hp').
  pose proof (pr_faces _ _ _ _ Hp) as Fp. pose proof (pair_end m i e Hok He) as Xe.
  pose proof (pair_end m _ p Hok (pr_peer _ _ _ _ Hp)) as Xp. rewrite <- Eq in Xe.
  pose proof (carries_range b f Hc) as (_ & _ & Rc). pose proof (fo_two f (cy_frame b f Hc)) as L1.
  pose proof (fo_two f2 (cy_frame b2 f2 Hc2)) as L2. cbn [frame_end snd] in Rc.
  pose proof (tags_vids _ L1) as T1. pose proof (tags_vids _ L2) as T2.
  assert (∀ e p, faces e p → end_ok (rx_end p) → entry_has L2GW_ENTRY_F_TRANSPARENT e = false →
    ∀ ts, map vid (out_tags e ts) = out_vids e (map vid ts)) as Hvids.
  { clear. intros e p [_ F2 F3 _ _ _ _ _ _ _] (_ & P2 & P3 & _) Ht ts. cbn [rx_end fst snd] in *.
    apply out_tags_vids; rewrite ?F2, ?F3, ?Ht; [done| |done]. cbn [orb].
    destruct (Z.eqb_spec (le_rx_cvlan p) L2GW_CVLAN_ANY); lia. }
  rewrite (Hvids e p Fp Xp Ht) in Hv2. rewrite (Hvids e' q F Xe), Hv2 by congruence.
  assert (le_rx_svlan e = tg_svlan (tags_of (fr_tags f)) /\ (le_rx_cvlan e = tg_cvlan (tags_of (fr_tags f)) \/
    le_rx_cvlan e = L2GW_CVLAN_ANY /\ tg_svlan (tags_of (fr_tags f)) ≠ 0)) as Hsv.
  { unfold rx_end, frame_end in Hx. cbn [fst snd] in Hx.
    destruct Hx as [[= _ -> ->]|[[= _ -> ->] ?]]; auto. }
  split_and!; [|done| |done|].
  - apply (find_back m _ _ e' Hok); [by rewrite Ee|]. rewrite Ee.
    destruct (out_pair e p (map vid (fr_tags f)) Fp Xp Ht) as [O1 O2]. rewrite <- Hv2, <- T2 in O1, O2.
    unfold frame_end, rx_end in *. cbn [fst snd] in *. rewrite Hp2, (fc_port _ _ Fp) in *.
    destruct (entry_has L2GW_ENTRY_F_WILDCARD e).
    + right. destruct O2 as [O2 O3]. split_and!; [congruence..|by apply Hw].
    + left. by rewrite <- O1, <- O2.
  - rewrite (fc_port _ _ F). injection Eq as -> _ _. unfold rx_end, frame_end in Hx. cbn [fst snd] in Hx.
    by destruct Hx as [[= -> _ _]|[[= -> _ _] _]].
  - apply (back_vids e e' q); try done.
    + congruence.
    + by rewrite length_map.
    + by rewrite Forall_map.
    + rewrite <- T1. exact Hsv.
    + rewrite <- T1. cbn [snd]. unfold L2GW_CVLAN_ANY. lia.
Qed.

(** C21. A circuit that puts its own tags on frames is undone by the way back: any frame
    that comes from the other side with the VIDs that a frame left with is switched to the
    port that the frame came from, with the VIDs it came with.  For a circuit that takes
    any inner tag this needs that no circuit takes exactly those VIDs there. *)
Theorem l2gw_reply_returns m b f i e now2 b2 f2 :
  l2gw_run output_node_of m → carries b f → Forall (λ t, vid t ≠ 0) (fr_tags f) →
  l2gw_find (lg_circuit_table m) (frame_end b (tags_of (fr_tags f))) = i → lg_entries m !! i = Some e →
  entry_has L2GW_ENTRY_F_ENABLED e = true → entry_has L2GW_ENTRY_F_TRANSPARENT e = false →
  sw_interface_is_free (b_rx b) = false →
  carries b2 f2 → b_rx b2 = le_tx_sw_if_index e → map vid (fr_tags f2) = map vid (out_tags e (fr_tags f)) →
  (entry_has L2GW_ENTRY_F_WILDCARD e = true →
   lg_circuit_table m !! end_key (frame_end b2 (tags_of (fr_tags f2))) = None) →
  exists m' b' f', l2gw_packet now2 b2 m =
      Some (m', (b', L2gwSwitched (output_node_of (b_rx b)), [L2GW_ERROR_SWITCHED])) /\
    b_tx b' = b_rx b /\ contents b' = frame_bytes f' /\ map vid (fr_tags f') = map vid (fr_tags f) /\
    fr_macs f' = fr_macs f2 /\ fr_rest f' = fr_rest f2.
Proof.
  intros Hok%l2gw_run_ok Hc Hv Hf He Hen Ht Hfree Hc2 Hp2 Hv2 Hw.
  destruct (reply_found m b f i e b2 f2 Hok Hc Hv Hf He Ht Hc2 Hp2 Hv2 Hw) as (j & e' & Hj & He' & Hport & Hen' & Hback).
  rewrite Hen in Hen'. rewrite <- Hport in Hfree |- *.
  destruct (switch_ok m now2 b2 f2 j e' Hok Hc2 Hj He' Hen' Hfree) as (m' & b' & E & Hb & Htx & _).
  exists m', b', (out_frame e' f2). by split_and!.
Qed.

End Packets.

(** * An example *)

(** The tag with this TPID, VID and priority bits. *)
Definition sample_tag (tpid v p : Z) : Z * Z := (tpid, v + p * 4096).

Definition sample_l2_frame (tags : list (Z * Z)) : l2_frame :=
  mkFrame (sample_mac 1 ++ sample_mac 2) tags ([8; 0] ++ repeat 7 20).
Definition sample_l2_buffer (sw_if_index : Z) (f : l2_frame) : vlib_buffer_t :=
  (sample_buffer 64 (frame_bytes f) 0)⟪b_rx := sw_if_index⟫.

Definition sample_l2_out : l2_frame := sample_l2_frame [sample_tag 34984 100 5; sample_tag 33024 200 3].
Definition sample_l2_back : l2_frame := sample_l2_frame [sample_tag 34984 300 0; sample_tag 33024 400 1].

Lemma sample_tags_ok tags :
  (length tags <= 2)%nat →
  forallb (λ t, l2gw_is_tag_tpid t.1 && (0 <=? t.2) && (t.2 <? 2 ^ 16)) tags = true →
  frame_ok (sample_l2_frame tags).
Proof.
  intros Hl Ht. split; try done.
  - apply Forall_forall. intros t Hin. rewrite forallb_forall in Ht. apply list_elem_of_In, Ht in Hin.
    rewrite !andb_true_iff, Z.leb_le, Z.ltb_lt in Hin. unfold is_u16. tauto.
  - cbn. lia.
  - split; apply sample_bytes; reflexivity.
Qed.

Lemma sample_carries sw f :
  is_u32 sw → frame_ok f → (length (frame_bytes f) < 1000)%nat → carries (sample_l2_buffer sw f) f.
Proof.
  intros Hs Hf Hl. unfold sample_l2_buffer, sample_buffer. split; try done; rproj.
  - unfold contents. cbn [b_data b_current_data b_current_length]. rewrite Nat2Z.id. apply (bytes_put (λ _, 0)).
  - cbn [b_current_length]. lia.
  - unfold room_ok. cbn [b_current_data b_current_length]. lia.
Qed.

Lemma sample_out_carries : carries (sample_l2_buffer 10 sample_l2_out) sample_l2_out.
Proof. apply sample_carries; [done| |cbn; lia]. apply sample_tags_ok; [cbn; lia|reflexivity]. Qed.
Lemma sample_back_carries : carries (sample_l2_buffer 20 sample_l2_back) sample_l2_back.
Proof. apply sample_carries; [done| |cbn; lia]. apply sample_tags_ok; [cbn; lia|reflexivity]. Qed.

Lemma sample_entry_0 :
  exists e, lg_entries sample_l2gw !! 0 = Some e /\ entry_has L2GW_ENTRY_F_ENABLED e = true /\
    entry_has L2GW_ENTRY_F_TRANSPARENT e = false /\ entry_has L2GW_ENTRY_F_WILDCARD e = false /\
    le_tx_sw_if_index e = 20 /\ le_tx_svlan e = 300 /\ le_tx_cvlan e = 400.
Proof. vm_compute. eexists. by split_and!. Qed.

Lemma l2gw_switches_witness :
  exists e m' b', l2gw_packet id (f64_of_Z 1) (sample_l2_buffer 10 sample_l2_out) sample_l2gw =
      Some (m', (b', L2gwSwitched 20, [L2GW_ERROR_SWITCHED])) /\
    contents b' = frame_bytes (out_frame e sample_l2_out) /\ b_tx b' = 20 /\
    map vid (out_tags e (fr_tags sample_l2_out)) = [300; 400].
Proof.
  destruct sample_entry_0 as (e & He & E1 & E2 & E3 & E4 & E5 & E6).
  destruct (l2gw_switches id sample_l2gw (f64_of_Z 1) (sample_l2_buffer 10 sample_l2_out) sample_l2_out 0 e
    sample_l2gw_run sample_out_carries ltac:(by vm_compute) He E1) as (m' & b' & P1 & P2 & P3 & _); [by rewrite E4|].
  rewrite E4 in P1, P3. exists e, m', b'. split; [exact P1|]. split; [exact P2|]. split; [exact P3|].
  unfold out_tags. rewrite E2, E3, E5, E6. vm_compute. reflexivity.
Defined.

Lemma l2gw_reply_returns_witness :
  exists m' b' f', l2gw_packet id (f64_of_Z 2) (sample_l2_buffer 20 sample_l2_back) sample_l2gw =
      Some (m', (b', L2gwSwitched (id (b_rx (sample_l2_buffer 10 sample_l2_out))), [L2GW_ERROR_SWITCHED])) /\
    b_tx b' = b_rx (sample_l2_buffer 10 sample_l2_out) /\ contents b' = frame_bytes f' /\
    map vid (fr_tags f') = map vid (fr_tags sample_l2_out) /\
    fr_macs f' = fr_macs sample_l2_back /\ fr_rest f' = fr_rest sample_l2_back.
Proof.
  destruct sample_entry_0 as (e & He & E1 & E2 & E3 & E4 & E5 & E6).
  apply (l2gw_reply_returns id sample_l2gw (sample_l2_buffer 10 sample_l2_out) sample_l2_out 0 e (f64_of_Z 2)
    (sample_l2_buffer 20 sample_l2_back) sample_l2_back sample_l2gw_run sample_out_carries).
  - apply Forall_cons_2; [by vm_compute|]. apply Forall_cons_2; [by vm_compute|]. apply Forall_nil_2.
  - vm_compute. reflexivity.
  - exact He.
  - exact E1.
  - exact E2.
  - reflexivity.
  - exact sample_back_carries.
  - rewrite E4. reflexivity.
  - unfold out_tags. rewrite E2, E3, E5, E6. vm_compute. reflexivity.
  - rewrite E3. intros Hw. discriminate Hw.
Defined.
