(* ===== verification/L2gwFrame.v ===== *)
(** The layer 2 gateway's node on whole frames: its two one-entry caches and its batching
    per output node change nothing. *)

From S2P Require Import Prelude Packet Access TxFrames PuntShm L2gwCircuit L2gwNode L2gwInv L2gwRun L2gwSystem L2gwPackets.

#[local] Open Scope Z_scope.

Section Frame.

Context `{VlibVpp, AccessVpp}.
Variable output_node_of : Z → Z.

(** * The node without caches *)

(** The frame's packets, one after the other. *)
Fixpoint l2gw_packets (frame : list (Z * f64 * vlib_buffer_t)) (m : l2gw_main_t)
    : option (l2gw_main_t * list (Z * l2gw_outcome)) :=
  match frame with
  | [] => Some (m, [])
  | (bi, now, b0) :: frame =>
      '(m, out) ← l2gw_packet output_node_of now b0 m;
      '(m, outs) ← l2gw_packets frame m;
      Some (m, (bi, out) :: outs)
  end.

(** The buffers switched to the output node [x]. *)
Definition is_switched (x : Z) (o : Z * l2gw_outcome) : bool :=
  match o.2.1.2 with L2gwSwitched n => n =? x | _ => false end.
Definition switched_to (x : Z) (outs : list (Z * l2gw_outcome)) : list Z :=
  map fst (filter (λ o, is_switched x o = true) outs).

(** How often [err] was counted, in 32 bits. *)
Definition errors_of (outs : list (Z * l2gw_outcome)) : list l2gw_error_t := concat (map (λ o, o.2.2) outs).
Definition counted (outs : list (Z * l2gw_outcome)) (err : l2gw_error_t) : Z :=
  u32 (Z.of_nat (length (filter (λ x, x = err) (errors_of outs)))).

(** ** Caches *)

(** A cache holds nothing yet or what the table has for its key. *)
Definition cache_ok (table : gmap l2gw_key_t Z) (c : l2gw_cache) : Prop :=
  c.1 = (2 ^ 64 - 1, 2 ^ 64 - 1) \/ c.2 = default L2GW_NO_RESULT (table !! c.1).

Lemma l2gw_lookup_cached table c w v k :
  cache_ok table c → is_u32 w → is_u16 v → is_u16 k →
  let r := l2gw_lookup_1 table c w v k in
  r.1 = default L2GW_NO_RESULT (table !! l2gw_make_key w v k) /\ cache_ok table r.2.
Proof.
  intros Hc Hw Hv Hk. unfold l2gw_lookup_1. cbv zeta.
  destruct (_ && _) eqn:E; [|split; [done|by right]]. cbn [fst snd]. split; [|done].
  apply andb_true_iff in E as [E1%Z.eqb_eq E2%Z.eqb_eq].
  assert (l2gw_make_key w v k = c.1) as Hkey by (by apply injective_projections).
  rewrite Hkey. destruct Hc as [Hc|Hc]; [|done].
  rewrite Hc, (l2gw_key_eq w v k Hw Hv Hk) in Hkey. discriminate Hkey.
Qed.

Definition caches_ok (m : l2gw_main_t) (cs : l2gw_cache * l2gw_cache) : Prop :=
  cache_ok (lg_circuit_table m) cs.1 /\ cache_ok (lg_circuit_table m) cs.2.

Lemma lookups_ok m cs x :
  caches_ok m cs → end_range x →
  let r := l2gw_lookups (lg_circuit_table m) cs x.1.1 x.1.2 x.2 in
  r.1 = l2gw_find (lg_circuit_table m) x /\ caches_ok m r.2.
Proof.
  intros [C1 C2] (X1 & X2 & X3). destruct cs as [exact wild]. cbn [fst snd] in *. unfold l2gw_lookups, l2gw_find.
  destruct (l2gw_lookup_cached _ exact x.1.1 x.1.2 x.2 C1 X1) as [R1 K1]; [unfold is_u16; lia..|].
  destruct (l2gw_lookup_1 _ exact _ _ _) as [r exact']. cbn [fst snd] in *.
  fold (end_key x) in R1. rewrite <- R1.
  destruct (_ && _); [|done].
  destruct (l2gw_lookup_cached _ wild x.1.1 x.1.2 L2GW_CVLAN_ANY C2 X1) as [R2 K2]; [unfold is_u16; lia|done|].
  by destruct (l2gw_lookup_1 _ wild _ _ _) as [r' wild'].
Qed.

(** ** Counters *)

Lemma count_step (n : nat) (err x : l2gw_error_t) (l : list l2gw_error_t) :
  (if decide (err = x) then u32 (u32 (Z.of_nat (length (filter (λ y, y = err) l))) + 1)
   else u32 (Z.of_nat (length (filter (λ y, y = err) l)))) =
  u32 (Z.of_nat (length (filter (λ y, y = err) (l ++ [x])))).
Proof.
  rewrite filter_app, filter_cons, filter_nil, length_app. destruct (decide (err = x)) as [->|Hne].
  - rewrite decide_True by done. cbn [length]. rewrite Nat2Z.inj_add. unfold u32. by rewrite Zplus_mod_idemp_l.
  - rewrite decide_False by congruence. cbn [length]. by rewrite Nat.add_0_r.
Qed.

Definition counts_of (l : list l2gw_error_t) : l2gw_counts :=
  let n err := u32 (Z.of_nat (length (filter (λ x, x = err) l))) in
  mkL2gwCounts (n L2GW_ERROR_SWITCHED) (n L2GW_ERROR_NO_CIRCUIT) (n L2GW_ERROR_DISABLED)
    (n L2GW_ERROR_TX_UNRESOLVED) (n L2GW_ERROR_TRIGGER_PUNTED) (n L2GW_ERROR_TRIGGER_DAMPENED).

Lemma count_ok l errs : foldl count_l2gw (counts_of l) errs = counts_of (l ++ errs).
Proof.
  revert l. induction errs as [|x errs IH]; intros l; [by rewrite app_nil_r|].
  cbn [foldl]. replace (l ++ x :: errs) with ((l ++ [x]) ++ errs) by by rewrite <- app_assoc.
  rewrite <- IH. f_equal. unfold count_l2gw, counts_of. cbn [lc_switched lc_no_circuit lc_disabled lc_tx_unresolved
    lc_trigger_punted lc_trigger_dampened]. by rewrite !(count_step 0).
Qed.

(** ** The loop *)

Lemma dispatch_ok bi out fs :
  NoDup (pend_nodes (tf_pending fs)) →
  NoDup (pend_nodes (tf_pending (l2gw_dispatch bi out fs))) /\
  ∀ x, handed x (frames_flush (l2gw_dispatch bi out fs)) = handed x (frames_flush fs) ++ switched_to x [(bi, out)].
Proof.
  intros Hn. destruct out as [[b next] errs]. unfold l2gw_dispatch, switched_to.
  assert (∀ x, filter (λ o, is_switched x o = true) [(bi, (b, next, errs))] =
    if is_switched x (bi, (b, next, errs)) then [(bi, (b, next, errs))] else []) as Hf.
  { intros x. rewrite filter_cons, filter_nil. by destruct (is_switched x _). }
  destruct next; try (split; [done|]; intros x; by rewrite Hf, app_nil_r).
  destruct (enqueue_ok L2GW_MAX_TX_OUTPUTS out_node bi fs Hn) as [H1 H2]. split; [done|].
  intros x. rewrite H2, Hf. unfold is_switched. cbn [fst snd]. f_equal.
  destruct (Z.eqb_spec out_node x); [by rewrite decide_True|by rewrite decide_False].
Qed.

Lemma switched_app x l l' : switched_to x (l ++ l') = switched_to x l ++ switched_to x l'.
Proof. unfold switched_to. by rewrite filter_app, map_app. Qed.

(** An index that was found is an entry. *)
Lemma packet_some m now b :
  l2gw_ok m → is_u32 (b_rx b) → exists m' out, l2gw_packet output_node_of now b m = Some (m', out).
Proof.
  intros Hok Hb. unfold l2gw_packet. set (g := l2gw_parse_tags _ _). set (i := l2gw_find _ _).
  unfold l2gw_act. destruct (l2gw_miss now g b m) as [m1 [[b1 n1] e1]].
  destruct (Z.eqb_spec i L2GW_NO_RESULT) as [|Hi]; [eauto|].
  assert (end_range (frame_end b g)) as Hr.
  { destruct (tags_range (b_data b) (b_current_data b)). split; [exact Hb|done]. }
  destruct (find_ok m _ i Hok Hr eq_refl Hi) as (e & p & He & _ & Hu & _). rewrite Hu, He. cbn [mbind option_bind].
  destruct (negb _); [eauto|]. destruct (l2gw_forward _ _ _ _ _ _) as [m2 out]. eauto.
Qed.

Lemma input_1_ok m cs now b :
  l2gw_ok m → caches_ok m cs → is_u32 (b_rx b) →
  exists m' cs' out, l2gw_input_1 output_node_of cs now b m = Some (m', cs', out) /\
    l2gw_packet output_node_of now b m = Some (m', out) /\ tables m' = tables m /\ caches_ok m' cs'.
Proof.
  intros Hok Hcs Hb. unfold l2gw_input_1. set (g := l2gw_parse_tags _ _).
  assert (end_range (frame_end b g)) as Hr.
  { destruct (tags_range (b_data b) (b_current_data b)). split; [exact Hb|done]. }
  destruct (lookups_ok m cs _ Hcs Hr) as [L1 L2]. cbn [frame_end fst snd] in L1, L2.
  destruct (l2gw_lookups _ _ _ _ _) as [r cs']. cbn [fst snd] in *. subst r.
  destruct (packet_some m now b Hok Hb) as (m' & out & E). exists m', cs', out.
  pose proof E as E'. unfold l2gw_packet in E. cbv zeta in E. fold g in E. rewrite E. cbn [mbind option_bind].
  pose proof (act_tables _ _ _ _ _ _ _ _ E) as Ht. split_and!; try done.
  unfold caches_ok. injection Ht as _ ->. done.
Qed.

Lemma l2gw_loop_ok frame m cs fs l :
  l2gw_ok m → caches_ok m cs → Forall (λ p, is_u32 (b_rx p.2)) frame → NoDup (pend_nodes (tf_pending fs)) →
  exists m' outs fs', l2gw_packets frame m = Some (m', outs) /\
    l2gw_input_loop output_node_of cs fs (counts_of l) frame m = Some (m', fs', counts_of (l ++ errors_of outs), outs) /\
    ∀ x, handed x (frames_flush fs') = handed x (frames_flush fs) ++ switched_to x outs.
Proof.
  revert m cs fs l. induction frame as [|[[bi now] b] frame IH]; intros m cs fs l Hok Hcs Hf Hn.
  - exists m, [], fs. cbn. rewrite app_nil_r. split_and!; [done..|]. intros x. by rewrite app_nil_r.
  - apply Forall_cons in Hf as [Hb Hf]. cbn [snd] in Hb. cbn [l2gw_packets l2gw_input_loop].
    destruct (input_1_ok m cs now b Hok Hcs Hb) as (m1 & cs1 & out & E1 & E2 & Ht & Hcs1).
    rewrite E1, E2. cbn [mbind option_bind].
    destruct (dispatch_ok bi out fs Hn) as [Hn1 Hd].
    destruct (IH m1 cs1 (l2gw_dispatch bi out fs) (l ++ out.2) (same_tables _ _ Ht Hok) Hcs1 Hf Hn1)
      as (m' & outs & fs' & P1 & P2 & P3).
    rewrite P1, count_ok, P2. cbn [mbind option_bind]. exists m', ((bi, out) :: outs), fs'. split_and!; [done| |].
    + unfold errors_of. cbn [map concat snd]. by rewrite app_assoc.
    + intros x. rewrite P3, Hd, <- app_assoc, <- switched_app. done.
Qed.

(** C34. A frame of any length in any state that calls and frames lead to: the node works
    through all of it without touching a freed entry, does with each packet what it would
    do alone and without its lookup caches, hands every output node the packets switched
    to it in their order however many output nodes there are, and its counters are how
    often each outcome occurred. *)
Theorem l2gw_frame_is_packets m frame :
  l2gw_run output_node_of m → Forall (λ p, is_u32 (b_rx p.2)) frame →
  exists m' puts outs, l2gw_packets frame m = Some (m', outs) /\
    l2gw_input_node output_node_of frame m =
      Some (m', puts,
            mkL2gwCounts (counted outs L2GW_ERROR_SWITCHED) (counted outs L2GW_ERROR_NO_CIRCUIT)
              (counted outs L2GW_ERROR_DISABLED) (counted outs L2GW_ERROR_TX_UNRESOLVED)
              (counted outs L2GW_ERROR_TRIGGER_PUNTED) (counted outs L2GW_ERROR_TRIGGER_DAMPENED), outs) /\
    ∀ x, handed x puts = switched_to x outs.
Proof.
  intros Hok%l2gw_run_ok Hf.
  destruct (l2gw_loop_ok frame m (L2GW_EMPTY_CACHE, L2GW_EMPTY_CACHE) (mkTxFrames [] []) [] Hok)
    as (m' & outs & fs & E1 & E2 & E3); [by split; left|done|apply NoDup_nil_2|].
  exists m', (frames_flush fs), outs. split_and!; [done| |].
  - unfold l2gw_input_node. change (mkL2gwCounts 0 0 0 0 0 0) with (counts_of []). by rewrite E2.
  - intros x. by rewrite E3.
Qed.

End Frame.

(** * An example *)

(** Both frames of the example, and one without a circuit. *)
Definition sample_l2_miss : l2_frame := sample_l2_frame [sample_tag 34984 501 0; sample_tag 33024 9 0].
Definition sample_l2_frames : list (Z * f64 * vlib_buffer_t) :=
  [(70, f64_of_Z 1, sample_l2_buffer 10 sample_l2_out); (71, f64_of_Z 1, sample_l2_buffer 20 sample_l2_back);
   (72, f64_of_Z 1, sample_l2_buffer 10 sample_l2_miss); (73, f64_of_Z 1, sample_l2_buffer 10 sample_l2_out)].

Lemma sample_l2_ports : Forall (λ p, is_u32 (b_rx p.2)) sample_l2_frames.
Proof. repeat (apply Forall_cons_2; [by vm_compute|]). apply Forall_nil_2. Qed.

Lemma l2gw_frame_is_packets_witness :
  exists m' puts outs, l2gw_packets id sample_l2_frames sample_l2gw = Some (m', outs) /\
    l2gw_input_node id sample_l2_frames sample_l2gw =
      Some (m', puts,
            mkL2gwCounts (counted outs L2GW_ERROR_SWITCHED) (counted outs L2GW_ERROR_NO_CIRCUIT)
              (counted outs L2GW_ERROR_DISABLED) (counted outs L2GW_ERROR_TX_UNRESOLVED)
              (counted outs L2GW_ERROR_TRIGGER_PUNTED) (counted outs L2GW_ERROR_TRIGGER_DAMPENED), outs) /\
    ∀ x, handed x puts = switched_to x outs.
Proof. apply (l2gw_frame_is_packets id); [exact sample_l2gw_run|exact sample_l2_ports]. Defined.

(** Who gets which buffer. *)
Example sample_l2_puts :
  option_map (λ r, (r.1.1.2, lc_switched r.1.2, lc_no_circuit r.1.2, lc_trigger_punted r.1.2))
    (l2gw_input_node id sample_l2_frames sample_l2gw) = Some ([(20, [70; 73]); (10, [71])], 3, 1, 1).
Proof. by vm_compute. Qed.
