(* ===== verification/L2gwTrigger.v ===== *)
(** Trigger frames of the layer 2 gateway: a frame without a circuit is punted to the
    daemon where the operator armed its outer tag for any protocol, at most once per interval
    and tuple, over any sequence of frames and calls. *)

From S2P Require Import Prelude Packet Access TxFrames PuntShm L2gwCircuit L2gwCli L2gwNode L2gwInv L2gwRun L2gwSystem L2gwPackets L2gwFrame.

#[local] Open Scope Z_scope.

Lemma dampener_key_eq w v c :
  is_u32 w → is_u16 v → is_u16 c → dampener_key w v c = w * 2 ^ 32 + v * 2 ^ 16 + c.
Proof.
  intros Hw Hv Hc. unfold dampener_key, is_u32, is_u16 in *.
  assert (u64 (Z.shiftl w 32) = Z.shiftl (w * 2 ^ 16) 16) as ->.
  { rewrite !Z.shiftl_mul_pow2 by lia. unfold u64. rewrite Z.mod_small by lia. lia. }
  assert (Z.lor (w * 2 ^ 16) v = v + w * 2 ^ 16) as E.
  { rewrite <- (Z.shiftl_mul_pow2 w 16), Z.lor_comm, lor_shiftl_add, Z.shiftl_mul_pow2 by lia. done. }
  rewrite <- Z.shiftl_lor, E, Z.lor_comm, lor_shiftl_add by lia. lia.
Qed.

Section Trigger.

Context `{VlibVpp, AccessVpp}.
Variable output_node_of : Z → Z.

Definition tags_at (b : vlib_buffer_t) : l2gw_tags := l2gw_parse_tags (b_data b) (b_current_data b).

(** The tuple of a frame: its port and tags. *)
Definition tuple (b : vlib_buffer_t) : l2gw_end := frame_end b (tags_at b).
Definition tuple_key (x : l2gw_end) : Z := dampener_key x.1.1 x.1.2 x.2.

Lemma tuple_range b : is_u32 (b_rx b) → end_range (tuple b).
Proof. intros Hb. destruct (tags_range (b_data b) (b_current_data b)). split; [exact Hb|done]. Qed.

Lemma tuple_key_inj x y : end_range x → end_range y → tuple_key x = tuple_key y → x = y.
Proof.
  destruct x as [[w v] c], y as [[w' v'] c']. unfold end_range, tuple_key. cbn [fst snd].
  intros (? & ? & ?) (? & ? & ?). rewrite !dampener_key_eq by (done || unfold is_u16; lia).
  unfold is_u32 in *. intros ?. f_equal; [f_equal|]; lia.
Qed.

(** Punted for any protocol, which is dampened. *)
Definition any_punt (out : l2gw_outcome) : Prop :=
  match out.1.2 with
  | L2gwPunt _ => b_opaque2_1 out.1.1 = OSVBNG_PUNT_PROTO_L2GW_TRIGGER
  | _ => False
  end.
#[export] Instance any_punt_dec out : Decision (any_punt out).
Proof. unfold any_punt. destruct out.1.2; apply _. Defined.

(** Another punt at [now] would be too soon. *)
Definition too_soon (m : l2gw_main_t) (now last : f64) : bool :=
  SpecFloat.SFltb (f64_sub now last) (lg_trigger_dampen_interval m).

(** What a frame does to the dampener. *)
Definition dampener_step (now : f64) (b : vlib_buffer_t) (m m' : l2gw_main_t) (out : l2gw_outcome) : Prop :=
  lg_trigger_dampen_interval m' = lg_trigger_dampen_interval m /\
  (any_punt out /\ lg_trigger_dampener m' = <[tuple_key (tuple b) := now]> (lg_trigger_dampener m) /\
     (∀ last, lg_trigger_dampener m !! tuple_key (tuple b) = Some last → too_soon m now last = false) \/
   ~ any_punt out /\ lg_trigger_dampener m' = lg_trigger_dampener m).

Lemma dhcp_proto b n p :
  l2gw_frame_is_dhcp_trigger b n = Some p → p = OSVBNG_PUNT_PROTO_DHCPV4 \/ p = OSVBNG_PUNT_PROTO_DHCPV6.
Proof.
  unfold l2gw_frame_is_dhcp_trigger. cbv zeta. intros Hp.
  repeat match type of Hp with (if ?c then _ else _) = _ => destruct c; [try done|try done] end;
    injection Hp as <-; auto.
Qed.

Lemma miss_step now b m err :
  let r := l2gw_miss now (tags_at b) b m in dampener_step now b m r.1 (r.2.1, err :: r.2.2).
Proof.
  unfold l2gw_miss, dampener_step. destruct (lg_punt_shm_tx_next_arc m) as [arc|]; [|split; [done|by right; split; [intros []|]]].
  destruct (l2gw_trigger_any_armed _ _ _).
  - unfold l2gw_trigger_dampen_allow. fold (tuple_key (tuple b)). cbv zeta.
    change (dampener_key (b_rx b) (tg_svlan (tags_at b)) (tg_cvlan (tags_at b))) with (tuple_key (tuple b)).
    destruct (lg_trigger_dampener m !! tuple_key (tuple b)) as [last|] eqn:Hl.
    + fold (too_soon m now last). destruct (too_soon m now last) eqn:Ht; cbn [fst snd]; rproj; (split; [done|]).
      * right. by split; [intros []|].
      * left. split_and!; [done|done|]. by intros ? [= <-].
    + cbn [fst snd]. rproj. split; [done|]. left. by split_and!.
  - destruct (l2gw_trigger_armed _ _ _); [|split; [done|by right; split; [intros []|]]].
    destruct (l2gw_frame_is_dhcp_trigger b (tg_n (tags_at b))) as [p|] eqn:Hp; (split; [done|right]).
    + split; [|done]. unfold any_punt. cbn [fst snd]. rproj. by destruct (dhcp_proto _ _ _ Hp) as [->| ->].
    + by split; [intros []|].
Qed.

Lemma packet_step now b m m' out :
  l2gw_packet output_node_of now b m = Some (m', out) → dampener_step now b m m' out.
Proof.
  unfold l2gw_packet, l2gw_act. cbv zeta. fold (tags_at b). pose proof (miss_step now b m) as Hm.
  destruct (l2gw_miss now (tags_at b) b m) as [m1 [[b1 n1] e1]]. cbn [fst snd] in Hm.
  destruct (_ =? L2GW_NO_RESULT); [intros [= <- <-]; apply Hm|].
  destruct (lg_entries m !! _) as [e|]; [|done]. cbn [mbind option_bind].
  destruct (negb _); [intros [= <- <-]; apply Hm|]. unfold l2gw_forward.
  destruct (sw_interface_is_free _); intros [= <- <-]; (split; [done|right; split; [intros []|done]]).
Qed.

(** * Histories *)

(** A packet with what became of it. *)
Definition handled : Type := (Z * f64 * vlib_buffer_t) * (Z * l2gw_outcome).
Definition at_time (e : handled) : f64 := e.1.1.2.
Definition of_packet (e : handled) : vlib_buffer_t := e.1.2.

(** A punt of the tuple [x] for any protocol. *)
Definition punt_of (x : l2gw_end) (e : handled) : Prop := tuple (of_packet e) = x /\ any_punt e.2.2.
#[export] Instance punt_of_dec x e : Decision (punt_of x e).
Proof. unfold punt_of. apply _. Defined.

(** What the gateway made of its packets, in their order, whatever calls came between its
    frames. *)
Inductive l2gw_trace : l2gw_main_t → list handled → Prop :=
  | trace_init arc : l2gw_trace (l2gw_init arc) []
  | trace_call m m' l : l2gw_trace m l → l2gw_call m m' → l2gw_trace m' l
  | trace_frame m l frame m' puts c outs :
      l2gw_trace m l → Forall (λ p, is_u32 (b_rx p.2)) frame →
      l2gw_input_node output_node_of frame m = Some (m', puts, c, outs) →
      l2gw_trace m' (l ++ zip frame outs).

Lemma trace_run m l : l2gw_trace m l → l2gw_run output_node_of m.
Proof. induction 1; [apply run_init|by eapply run_call|by eapply run_frame]. Qed.

(** No call touches what the dampener remembers. *)
Definition damper (m : l2gw_main_t) : gmap Z f64 * f64 := (lg_trigger_dampener m, lg_trigger_dampen_interval m).

Lemma add_del_damper a i j m m' rv id :
  vnet_l2gw_add_del_circuit a i j m = Some (m', rv, id) → damper m' = damper m.
Proof.
  unfold vnet_l2gw_add_del_circuit, l2gw_del_circuit.
  destruct (l2gw_validate_args a); [by intros [= <- _ _]|].
  destruct (l2gw_table_lookup _ m) as [e|], (la_is_add a); cbn [mbind option_bind].
  - destruct (lg_entries m !! e) as [en|]; cbn [mbind option_bind]; [|done].
    destruct (lg_entries m !! _); cbn [mbind option_bind]; [by intros [= <- _ _]|done].
  - destruct (lg_entries m !! e) as [en|]; cbn [mbind option_bind]; [|done].
    destruct (lg_entries m !! _); cbn [mbind option_bind]; [by intros [= <- _ _]|done].
  - destruct (l2gw_table_lookup _ m); by intros [= <- _ _].
  - by intros [= <- _ _].
Qed.

Lemma set_state_damper id en m m' rv :
  vnet_l2gw_circuit_set_state id en m = Some (m', rv) → damper m' = damper m.
Proof.
  unfold vnet_l2gw_circuit_set_state. destruct id as [id|]; [|by intros [= <- _]].
  destruct (lg_entries m !! id) as [e|]; [|by intros [= <- _]].
  destruct (negb _); [by intros [= <- _]|].
  destruct (lg_entries m !! _); cbn [mbind option_bind]; [by intros [= <- _]|done].
Qed.

Lemma enable_damper sw en ok m : damper (vnet_l2gw_enable_disable sw en ok m).1 = damper m.
Proof. unfold vnet_l2gw_enable_disable. by repeat case_match. Qed.

Lemma range_damper sw lo hi any add m : damper (vnet_l2gw_trigger_svlan_range sw lo hi any add m).1 = damper m.
Proof. unfold vnet_l2gw_trigger_svlan_range. by repeat case_match. Qed.

Lemma call_damper m m' : l2gw_call m m' → damper m' = damper m.
Proof.
  intros [mp i j m1 rv id h _ Hh|id en m1 rv Hh|sw en ok|sw lo hi any add
    |words i j m1 r _ Hh|words m1 r Hh|words ok|words|sw add].
  - unfold vl_api_osvbng_l2gw_add_del_circuit_t_handler in Hh.
    destruct (vnet_l2gw_add_del_circuit _ _ _ _) as [[[m2 rv2] id2]|] eqn:E; cbn [mbind option_bind] in Hh; [|done].
    injection Hh as <- _ _ _. by eapply add_del_damper.
  - by eapply set_state_damper.
  - apply enable_damper.
  - apply range_damper.
  - unfold l2gw_circuit_add_del_command_fn in Hh. destruct (l2gw_circuit_parse words _) as [a|]; [|by injection Hh as <- _].
    destruct (_ || _); [by injection Hh as <- _|].
    destruct (vnet_l2gw_add_del_circuit a i j m) as [[[m2 rv2] id2]|] eqn:E; cbn [mbind option_bind] in Hh; [|done].
    injection Hh as <- _. by eapply add_del_damper.
  - unfold l2gw_circuit_state_command_fn in Hh.
    destruct (l2gw_state_parse words NONE None) as [[id [en|]]|]; [|by injection Hh as <- _..].
    destruct (vnet_l2gw_circuit_set_state _ en m) as [[m2 rv2]|] eqn:E; cbn [mbind option_bind] in Hh; [|done].
    injection Hh as <- _. by eapply set_state_damper.
  - unfold l2gw_enable_disable_command_fn. destruct (l2gw_enable_parse words None true) as [[[sw|] en]|]; [|done..].
    pose proof (enable_damper sw en ok m). by destruct (vnet_l2gw_enable_disable sw en ok m).
  - unfold l2gw_trigger_command_fn.
    destruct (l2gw_trigger_parse words None 0 0 false true) as [[[[[[sw|] lo] hi] any] add]|]; [|done..].
    destruct (lo =? 0); [done|]. pose proof (range_damper sw (u16 lo) (u16 hi) any add m).
    by destruct (vnet_l2gw_trigger_svlan_range sw (u16 lo) (u16 hi) any add m).
  - unfold l2gw_sw_interface_add_del. by destruct add.
Qed.

(** * What the dampener remembers *)

(** When the tuple [x] was last punted. *)
Definition last_punt (x : l2gw_end) (l : list handled) : option f64 :=
  foldl (λ acc e, if decide (punt_of x e) then Some (at_time e) else acc) None l.

Lemma last_punt_snoc x l e :
  last_punt x (l ++ [e]) = if decide (punt_of x e) then Some (at_time e) else last_punt x l.
Proof. unfold last_punt. by rewrite foldl_app. Qed.

(** Every punt comes late enough after the last one of its tuple. *)
Definition spaced (interval : f64) (l : list handled) : Prop :=
  ∀ k e last, l !! k = Some e → any_punt e.2.2 → last_punt (tuple (of_packet e)) (take k l) = Some last →
    SpecFloat.SFltb (f64_sub (at_time e) last) interval = false.

Record damped (m : l2gw_main_t) (l : list handled) : Prop := {
  da_interval : lg_trigger_dampen_interval m = L2GW_DAMPENER_DEFAULT_INTERVAL;
  da_last x : end_range x → lg_trigger_dampener m !! tuple_key x = last_punt x l;
  da_spaced : spaced L2GW_DAMPENER_DEFAULT_INTERVAL l
}.

Lemma damped_call m m' l : damper m' = damper m → damped m l → damped m' l.
Proof. intros [= E1 E2] [D1 D2 D3]. split; [congruence|by rewrite E1|done]. Qed.

Lemma spaced_snoc iv l e :
  spaced iv l →
  (∀ last, any_punt e.2.2 → last_punt (tuple (of_packet e)) l = Some last →
     SpecFloat.SFltb (f64_sub (at_time e) last) iv = false) →
  spaced iv (l ++ [e]).
Proof.
  intros Hl He k e' last Hk Ha Hlast. apply lookup_snoc_Some in Hk as [[Hk Hk']|[-> <-]].
  - rewrite take_app_le in Hlast by exact (Nat.lt_le_incl _ _ Hk). by apply (Hl k e' last).
  - rewrite take_app_length in Hlast. by apply He.
Qed.

Lemma damped_packet m l bi now b m' out bi' :
  is_u32 (b_rx b) → l2gw_packet output_node_of now b m = Some (m', out) →
  damped m l → damped m' (l ++ [((bi, now, b), (bi', out))]).
Proof.
  intros Hb Hp [D1 D2 D3]. destruct (packet_step now b m m' out Hp) as [Hint Hs].
  pose proof (D2 _ (tuple_range b Hb)) as Dx.
  split.
  - congruence.
  - intros x Hx. rewrite last_punt_snoc. unfold punt_of. cbn [of_packet at_time fst snd].
    destruct Hs as [(Ha & -> & _)|[Ha ->]].
    + destruct (decide (tuple b = x)) as [<-|Hne].
      * by rewrite decide_True, lookup_insert_eq.
      * rewrite decide_False, lookup_insert_ne; [by apply D2| |by intros []].
        intros He. apply tuple_key_inj in He; [done|by apply tuple_range|done].
    + rewrite decide_False; [by apply D2|by intros []].
  - apply spaced_snoc; [done|]. cbn [of_packet at_time fst snd]. intros last Ha Hlast.
    destruct Hs as [(_ & _ & Hsoon)|[[] _]]; [|done]. rewrite <- D1. apply (Hsoon last). by rewrite Dx.
Qed.

Lemma damped_packets frame m l m' outs :
  Forall (λ p, is_u32 (b_rx p.2)) frame → l2gw_packets output_node_of frame m = Some (m', outs) →
  damped m l → damped m' (l ++ zip frame outs).
Proof.
  revert m l outs. induction frame as [|[[bi now] b] frame IH]; intros m l outs Hf Hp Hd.
  { injection Hp as <- <-. by rewrite app_nil_r. }
  apply Forall_cons in Hf as [Hb Hf]. cbn [l2gw_packets] in Hp.
  destruct (l2gw_packet _ now b m) as [[m1 out]|] eqn:E0; cbn [mbind option_bind] in Hp; [|done].
  destruct (l2gw_packets _ frame m1) as [[m2 outs']|] eqn:E1; cbn [mbind option_bind] in Hp; [|done].
  injection Hp as <- <-. cbn [zip zip_with]. rewrite cons_middle, app_assoc.
  apply (IH m1); [done..|]. by apply (damped_packet m).
Qed.

Lemma trace_damped m l : l2gw_trace m l → damped m l.
Proof.
  induction 1 as [arc|m m' l Ht IH Hc|m l frame m' puts c outs Ht IH Hf Hn].
  - split; [done|intros x _; apply lookup_empty|]. intros k e last Hk. by rewrite lookup_nil in Hk.
  - apply (damped_call m); [by apply call_damper|done].
  - pose proof (l2gw_run_ok output_node_of m (trace_run m l Ht)) as Hok.
    destruct (l2gw_loop_ok output_node_of frame m (L2GW_EMPTY_CACHE, L2GW_EMPTY_CACHE) (mkTxFrames [] []) [] Hok)
      as (m1 & outs1 & fs & E1 & E2 & _); [by split; left|done|apply NoDup_nil_2|].
    unfold l2gw_input_node in Hn. change (mkL2gwCounts 0 0 0 0 0 0) with (counts_of []) in Hn.
    rewrite E2 in Hn. cbn [mbind option_bind] in Hn. injection Hn as <- _ _ <-. by apply (damped_packets frame m).
Qed.

(** Between a punt and the next of its tuple, the first is the last. *)
Lemma last_punt_between l i j e x :
  l !! i = Some e → punt_of x e → (i < j)%nat →
  (∀ k e', (i < k < j)%nat → l !! k = Some e' → ~ punt_of x e') →
  last_punt x (take j l) = Some (at_time e).
Proof.
  intros Hi Hp. revert j. induction j as [|j IH]; [lia|]. intros Hj Hnone.
  destruct (l !! j) as [ej|] eqn:Ej.
  - rewrite (take_S_r _ _ _ Ej), last_punt_snoc. destruct (decide (i = j)) as [<-|Hne].
    + rewrite Hi in Ej. injection Ej as <-. by rewrite decide_True.
    + rewrite decide_False by (by apply (Hnone j); [lia|]). apply IH; [lia|].
      intros k e' Hk. apply Hnone. lia.
  - assert (take (S j) l = take j l) as ->
      by (apply lookup_ge_None_1 in Ej; rewrite !take_ge by lia; done).
    destruct (decide (i = j)) as [<-|Hne]; [congruence|]. apply IH; [lia|].
    intros k e' Hk. apply Hnone. lia.
Qed.


End Trigger.

(** * An example *)

(** The frame of an armed tag three times: at 1 and at 3, within 5 seconds, in one frame of
    the node, and at 7 in the next, after the port was armed again. *)
Definition sample_l2_trigger (bi t : Z) : Z * f64 * vlib_buffer_t :=
  (bi, f64_of_Z t, sample_l2_buffer 10 sample_l2_miss).
Definition sample_l2_triggers1 := [sample_l2_trigger 80 1; sample_l2_trigger 81 3].
Definition sample_l2_triggers2 := [sample_l2_trigger 82 7].

Definition sample_l2_step (frame : list (Z * f64 * vlib_buffer_t)) (s : l2gw_main_t * list handled)
    : l2gw_main_t * list handled :=
  match l2gw_input_node id frame s.1 with
  | Some (m, _, _, outs) => (m, s.2 ++ zip frame outs)
  | None => s
  end.
Definition sample_l2_rearm (m : l2gw_main_t) : l2gw_main_t :=
  (vl_api_osvbng_l2gw_trigger_svlan_range_t_handler (host32 10) (host16 500) (host16 503) true true m).1.
Definition sample_l2_first := sample_l2_step sample_l2_triggers1 (sample_l2gw, []).
Definition sample_l2_history :=
  sample_l2_step sample_l2_triggers2 (sample_l2_rearm sample_l2_first.1, sample_l2_first.2).

Lemma sample_l2_step_trace frame s :
  Forall (λ p, is_u32 (b_rx p.2)) frame → l2gw_trace id s.1 s.2 →
  l2gw_trace id (sample_l2_step frame s).1 (sample_l2_step frame s).2.
Proof.
  intros Hf Ht. unfold sample_l2_step.
  destruct (l2gw_input_node id frame s.1) as [[[[m puts] c] outs]|] eqn:E; [|done].
  by apply (trace_frame id s.1 s.2 frame m puts c).
Qed.

Lemma sample_l2_trace : l2gw_trace id sample_l2_history.1 sample_l2_history.2.
Proof.
  assert (is_u32 (b_rx (sample_l2_buffer 10 sample_l2_miss))) as Hp by by vm_compute.
  apply sample_l2_step_trace; [by apply Forall_cons_2; [|apply Forall_nil_2]|]. cbn [fst snd].
  apply (trace_call id sample_l2_first.1); [|apply call_trigger].
  apply sample_l2_step_trace; [by repeat apply Forall_cons_2; try apply Forall_nil_2|]. cbn [fst snd].
  apply (trace_call id sample_l2gw_0); [|exact sample_l2gw_added].
  apply (trace_call id (l2gw_init (Some 5))); [apply trace_init|exact sample_l2gw_armed].
Qed.

Lemma sample_l2_step_packets frame s n :
  option_map (λ r, length r.2) (l2gw_input_node id frame s.1) = Some n → n = length frame →
  map fst (sample_l2_step frame s).2 = map fst s.2 ++ frame.
Proof.
  unfold sample_l2_step. intros E Hn.
  destruct (l2gw_input_node id frame s.1) as [[[[m puts] c] outs]|]; [|done]. injection E as E.
  cbn [snd] in *. rewrite map_app. f_equal. apply fst_zip. lia.
Qed.

Lemma sample_l2_packets : map fst sample_l2_history.2 = sample_l2_triggers1 ++ sample_l2_triggers2.
Proof.
  unfold sample_l2_history, sample_l2_first.
  rewrite (sample_l2_step_packets _ _ 1) by (by vm_compute). cbn [fst snd].
  by rewrite (sample_l2_step_packets _ _ 2) by (by vm_compute).
Qed.

Example sample_l2_punts :
  map (λ e, (e.1.1.1, bool_decide (any_punt e.2.2))) sample_l2_history.2 = [(80, true); (81, false); (82, true)].
Proof. by vm_compute. Qed.

