(* ===== verification/SrgGroup.v ===== *)
(** Subscriber redundancy groups: [plugins/osvbng_srg/osvbng_srg.h], [osvbng_srg.c] and the
    handlers of [osvbng_srg_api.c].

    A group has interfaces and a virtual MAC address, which is on the interfaces' hardware
    while the group is active.  [None] is an access to freed memory. *)

From S2P Require Import Prelude Packet Access.

#[local] Open Scope Z_scope.

(** * Data *)

Record osvbng_srg_t := mkSrg {
  sg_srg_name : list Z;                      (* up to its terminator *)
  sg_virtual_mac : list Z;
  sg_is_active : bool;
  sg_sw_if_indices : list Z
}.
#[export] Instance eta_srg : Eta osvbng_srg_t := λ s,
  mkSrg (sg_srg_name s) (sg_virtual_mac s) (sg_is_active s) (sg_sw_if_indices s).

(** The group's elements of the five counter vectors. *)
Record srg_counts_t := mkSrgCounts {
  sc_garp_sent : Z;
  sc_na_sent : Z;
  sc_mac_adds : Z;
  sc_mac_removes : Z;
  sc_garp_skipped : Z
}.
#[export] Instance eta_srg_counts : Eta srg_counts_t := λ c,
  mkSrgCounts (sc_garp_sent c) (sc_na_sent c) (sc_mac_adds c) (sc_mac_removes c) (sc_garp_skipped c).

(** [vnet_hw_interface_add_del_mac_address], and whether it succeeded. *)
Inductive srg_call := MacAddDel (hw_if_index : Z) (mac : list Z) (is_add ok : bool).

(** The name table's keys are pointers to the names in the pool's elements: each entry has
    the address that the pool had when its key was stored. *)
Record osvbng_srg_main_t := mkSrgMain {
  sm_srgs : gmap Z osvbng_srg_t;
  sm_pool_address : Z;
  sm_srg_by_name : gmap (list Z) (Z * Z);    (* index, the pool's address then *)
  sm_if_to_srg : gmap Z Z;                   (* None: ~0, or past the vector's end *)
  sm_hw_mac_refcount : gmap (Z * list Z) Z;  (* uword *)
  sm_counts : gmap Z srg_counts_t;
  sm_calls : list srg_call
}.
#[export] Instance eta_srg_main : Eta osvbng_srg_main_t := λ m,
  mkSrgMain (sm_srgs m) (sm_pool_address m) (sm_srg_by_name m) (sm_if_to_srg m) (sm_hw_mac_refcount m)
    (sm_counts m) (sm_calls m).

Inductive srg_rv :=
  | SRG_OK | SRG_ALREADY_EXISTS | SRG_INVALID_SW_IF_INDEX | SRG_VALUE_EXIST | SRG_NO_SUCH_ENTRY | SRG_FAILED.

(** What VPP's interfaces are at a call. *)
Record srg_env := mkSrgEnv {
  se_is_free : Z → bool;                     (* sw_interfaces has no such element *)
  se_sup_hw : Z → Z;                         (* vnet_get_sup_hw_interface *)
  se_output_node : Z → Z;                    (* the output_node_index of a hardware interface *)
  se_hw_sw_if_index : Z → Z
}.

(** * Groups *)

Definition srg_name_terminate (name : list Z) : list Z := take 63 name.

(** [hash_get_mem]; a key in a pool that has moved is in freed memory, and a lookup may compare
    with any of the keys. *)
Definition srg_lookup (name : list Z) (m : osvbng_srg_main_t) : option (option Z) :=
  if bool_decide (map_Forall (λ _ e, e.2 = sm_pool_address m) (sm_srg_by_name m))
  then Some (option_map fst (sm_srg_by_name m !! name))
  else None.

(** The interfaces of a new group: there, and in no group. *)
Fixpoint srg_check_ifs (env : srg_env) (sws : list Z) (m : osvbng_srg_main_t) : option srg_rv :=
  match sws with
  | [] => None
  | sw :: sws =>
      if se_is_free env sw then Some SRG_INVALID_SW_IF_INDEX
      else match sm_if_to_srg m !! sw with
           | Some _ => Some SRG_VALUE_EXIST
           | None => srg_check_ifs env sws m
           end
  end.

(** The reference of the [i]-th interface is taken or given back; [mac_ok i] is whether VPP
    adds or removes the address then. *)
Definition srg_set_interface (env : srg_env) (mac_ok : nat → bool) (is_active : bool) (srg_index : Z)
    (mac : list Z) (i : nat) (sw_if_index : Z) (m : osvbng_srg_main_t) : osvbng_srg_main_t :=
  if se_is_free env sw_if_index then m
  else
    let hw := se_sup_hw env sw_if_index in
    let key := (hw, mac) in
    let call (m : osvbng_srg_main_t) := m⟪sm_calls ::= λ l, l ++ [MacAddDel hw mac is_active (mac_ok i)]⟫ in
    match sm_hw_mac_refcount m !! key, is_active with
    | Some n, true => m⟪sm_hw_mac_refcount ::= <[key := u64 (n + 1)]>⟫
    | None, true =>
        let m := call m in
        if negb (mac_ok i) then m
        else m⟪sm_hw_mac_refcount ::= <[key := 1]>⟫
              ⟪sm_counts ::= alter (λ c, c⟪sc_mac_adds ::= λ n, u64 (n + 1)⟫) srg_index⟫
    | None, false => m
    | Some n, false =>
        if 1 <? n then m⟪sm_hw_mac_refcount ::= <[key := n - 1]>⟫
        else
          let m := call m in
          if negb (mac_ok i) then m
          else m⟪sm_hw_mac_refcount ::= delete key⟫
                ⟪sm_counts ::= alter (λ c, c⟪sc_mac_removes ::= λ n, u64 (n + 1)⟫) srg_index⟫
    end.

Fixpoint srg_set_interfaces (env : srg_env) (mac_ok : nat → bool) (is_active : bool) (srg_index : Z)
    (mac : list Z) (i : nat) (sws : list Z) (m : osvbng_srg_main_t) : osvbng_srg_main_t :=
  match sws with
  | [] => m
  | sw :: sws =>
      srg_set_interfaces env mac_ok is_active srg_index mac (S i) sws
        (srg_set_interface env mac_ok is_active srg_index mac i sw m)
  end.

Definition osvbng_srg_set_state (env : srg_env) (mac_ok : nat → bool) (name : list Z) (is_active : bool)
    (m : osvbng_srg_main_t) : option (osvbng_srg_main_t * srg_rv) :=
  p ← srg_lookup name m;
  match p with
  | None => Some (m, SRG_NO_SUCH_ENTRY)
  | Some srg_index =>
      srg ← sm_srgs m !! srg_index;
      if Bool.eqb is_active (sg_is_active srg) then Some (m, SRG_OK)
      else
        let m := srg_set_interfaces env mac_ok is_active srg_index (sg_virtual_mac srg) 0
                   (sg_sw_if_indices srg) m in
        Some (m⟪sm_srgs ::= alter (λ s, s⟪sg_is_active := is_active⟫) srg_index⟫, SRG_OK)
  end.

(** [slot] and [address] are the element that [pool_get] gives and where the pool is then. *)
Definition srg_add (name mac : list Z) (sws : list Z) (slot address : Z) (m : osvbng_srg_main_t)
    : osvbng_srg_main_t :=
  let srg_name := srg_name_terminate name in
  m⟪sm_srgs ::= <[slot := mkSrg srg_name mac false sws]>⟫
   ⟪sm_pool_address := address⟫
   ⟪sm_if_to_srg ::= λ t, foldl (λ t sw, <[sw := slot]> t) t sws⟫
   ⟪sm_srg_by_name ::= <[srg_name := (slot, address)]>⟫
   ⟪sm_counts ::= <[slot := mkSrgCounts 0 0 0 0 0]>⟫.

Definition srg_del (srg_index : Z) (srg : osvbng_srg_t) (m : osvbng_srg_main_t) : osvbng_srg_main_t :=
  m⟪sm_if_to_srg ::= λ t, foldl (λ t sw, delete sw t) t (sg_sw_if_indices srg)⟫
   ⟪sm_srg_by_name ::= delete (sg_srg_name srg)⟫
   ⟪sm_srgs ::= delete srg_index⟫.

Definition osvbng_srg_add_del (env : srg_env) (mac_ok : nat → bool) (name mac : list Z) (sws : list Z)
    (is_add : bool) (slot address : Z) (m : osvbng_srg_main_t) : option (osvbng_srg_main_t * srg_rv) :=
  p ← srg_lookup name m;
  match p, is_add with
  | Some _, true => Some (m, SRG_ALREADY_EXISTS)
  | None, true =>
      match srg_check_ifs env sws m with
      | Some rv => Some (m, rv)
      | None =>
          (* the new key is compared with the others when it is stored *)
          let m := srg_add name mac sws slot address m in
          _ ← srg_lookup name m;
          Some (m, SRG_OK)
      end
  | None, false => Some (m, SRG_NO_SUCH_ENTRY)
  | Some srg_index, false =>
      srg ← sm_srgs m !! srg_index;
      '(m, _) ← (if sg_is_active srg then osvbng_srg_set_state env mac_ok name false m else Some (m, SRG_OK));
      Some (srg_del srg_index srg m, SRG_OK)
  end.

Definition osvbng_srg_init (address : Z) : osvbng_srg_main_t := mkSrgMain ∅ address ∅ ∅ ∅ ∅ [].

(** * The API *)

Definition vl_api_osvbng_srg_add_del_t_handler (env : srg_env) (mac_ok : nat → bool) (name mac : list Z)
    (sw_if_indices : list Z) (is_add : bool) (slot address : Z) (m : osvbng_srg_main_t)
    : option (osvbng_srg_main_t * srg_rv) :=
  osvbng_srg_add_del env mac_ok name mac (map clib_net_to_host_u32 sw_if_indices) is_add slot address m.

Definition vl_api_osvbng_srg_set_state_t_handler (env : srg_env) (mac_ok : nat → bool) (name : list Z)
    (is_active : bool) (m : osvbng_srg_main_t) : option (osvbng_srg_main_t * srg_rv) :=
  osvbng_srg_set_state env mac_ok name is_active m.

(** A group in the dump, and on the command line with what follows. *)
Record srg_details := mkSrgDetails {
  sd_srg_name : list Z;
  sd_garp_sent : Z;
  sd_na_sent : Z;
  sd_mac_adds : Z;
  sd_mac_removes : Z
}.
Record srg_line := mkSrgLine {
  sl_srg_name : list Z;
  sl_virtual_mac : list Z;
  sl_is_active : bool;
  sl_n_ifs : Z;
  sl_counts : srg_counts_t
}.

Definition send_srg_counter_details (srg : osvbng_srg_t) (srg_index : Z) (m : osvbng_srg_main_t)
    : option srg_details :=
  c ← sm_counts m !! srg_index;
  Some (mkSrgDetails (sg_srg_name srg) (sc_garp_sent c) (sc_na_sent c) (sc_mac_adds c) (sc_mac_removes c)).

Definition show_srg (srg : osvbng_srg_t) (srg_index : Z) (m : osvbng_srg_main_t) : option srg_line :=
  c ← sm_counts m !! srg_index;
  Some (mkSrgLine (sg_srg_name srg) (sg_virtual_mac srg) (sg_is_active srg)
          (Z.of_nat (length (sg_sw_if_indices srg))) c).

(** One group by its name, or all. *)
Definition srg_walk {A} (f : osvbng_srg_t → Z → osvbng_srg_main_t → option A) (name : option (list Z))
    (m : osvbng_srg_main_t) : option (list A) :=
  match name with
  | Some name =>
      p ← srg_lookup name m;
      match p with
      | None => Some []
      | Some i => srg ← sm_srgs m !! i; d ← f srg i m; Some [d]
      end
  | None => mapM (λ p, f p.2 p.1 m) (map_to_list (sm_srgs m))
  end.

Definition vl_api_osvbng_srg_counter_dump_t_handler (name : list Z) (m : osvbng_srg_main_t)
    : option (list srg_details) :=
  srg_walk send_srg_counter_details (match name with [] => None | _ => Some name end) m.

(** [None]: no [name] word. *)
Definition show_osvbng_srg_command_fn (name : option (list Z)) (m : osvbng_srg_main_t) : option (list srg_line) :=
  srg_walk show_srg name m.
