(* ===== verification/SrgGarp.v ===== *)
(** Gratuitous ARPs and unsolicited neighbour advertisements of a redundancy group:
    [plugins/osvbng_srg/osvbng_srg_garp.c] and the handler that sends them. *)

From S2P Require Import Prelude Packet Access TxFrames SrgGroup.

#[local] Open Scope Z_scope.

(** The padded length of a frame, and [ip6_tcp_udp_icmp_compute_checksum] of the IPv6 header
    at an offset of a buffer. *)
Class SrgVpp := {
  ETHERNET_MIN_PACKET_BYTES : Z;
  ip6_tcp_udp_icmp_compute_checksum : vlib_buffer_t → Z → Z
}.
Class SrgVppLaws `{SrgVpp} : Prop := {
  min_packet_bytes : 0 <= ETHERNET_MIN_PACKET_BYTES < 2 ^ 14
}.

(** An address as the control plane sends it. *)
Inductive srg_ip := SrgIp4 (a : list Z) | SrgIp6 (a : list Z).

Record osvbng_srg_garp_entry_arg_t := mkGarp {
  ga_sw_if_index : Z;
  ga_outer_vlan : Z;                (* u16, 0: untagged *)
  ga_inner_vlan : Z;                (* u16, 0: single tag *)
  ga_outer_tpid : Z;                (* u16, 0: 0x8100 *)
  ga_ip : srg_ip                    (* and is_ip6 *)
}.

Definition is_ip6 (e : osvbng_srg_garp_entry_arg_t) : bool :=
  match ga_ip e with SrgIp4 _ => false | SrgIp6 _ => true end.

Definition ETHERNET_TYPE_ARP : Z := 2054.              (* 0x0806 *)
Definition broadcast_mac : list Z := repeat 255 6.
Definition all_nodes_mac : list Z := [51; 51; 0; 0; 0; 1].

Definition garp_l2_header (vmac dst_mac : list Z) (e : osvbng_srg_garp_entry_arg_t) (ethertype : Z) : list Z :=
  let outer := ga_outer_vlan e in
  let inner := ga_inner_vlan e in
  let outer_tpid := if ga_outer_tpid e =? 0 then ETHERNET_TYPE_VLAN else ga_outer_tpid e in
  dst_mac ++ vmac ++
  if negb (outer =? 0) && negb (inner =? 0)
  then be16 outer_tpid ++ be16 (Z.land outer 4095) ++
       be16 ETHERNET_TYPE_VLAN ++ be16 (Z.land inner 4095) ++ be16 ethertype
  else if negb (outer =? 0) || negb (inner =? 0)
  then be16 (if outer =? 0 then ETHERNET_TYPE_VLAN else outer_tpid) ++
       be16 (Z.land (if outer =? 0 then inner else outer) 4095) ++ be16 ethertype
  else be16 ethertype.

(** An ARP reply about an address, to everyone: the sender's hardware address is the virtual
    one, the target's the broadcast address (the comment on [osvbng_srg_garp_build] says both
    are the virtual one; the code writes what is here). *)
Definition garp_arp (vmac ip4 : list Z) : list Z :=
  be16 1 ++ be16 ETHERNET_TYPE_IP4 ++ [6; 4] ++ be16 2 ++ vmac ++ ip4 ++ broadcast_mac ++ ip4.

(** The IPv6 header, from the link-local address of the virtual MAC to all nodes, and the
    advertisement without its checksum. *)
Definition eui64 (vmac : list Z) : list Z :=
  [Z.lxor (nth 0 vmac 0) 2; nth 1 vmac 0; nth 2 vmac 0; 255; 254; nth 3 vmac 0; nth 4 vmac 0; nth 5 vmac 0].
Definition na_ip6_header (vmac : list Z) : list Z :=
  [96; 0; 0; 0] ++ be16 32 ++ [58; 255] ++ ([254; 128] ++ repeat 0 6 ++ eui64 vmac) ++
  ([255; 2] ++ repeat 0 13 ++ [1]).
Definition na_payload (vmac ip6 : list Z) : list Z :=
  [136; 0; 0; 0] ++ [160; 0; 0; 0] ++ ip6 ++ [2; 1] ++ vmac.

Section Garp.

Context `{VlibVpp, SrgVpp}.

(** A header written and stepped over. *)
Definition put_header (l : list Z) (b : vlib_buffer_t) : vlib_buffer_t :=
  let n := Z.of_nat (length l) in
  vlib_buffer_advance n
    (b⟪b_data ::= λ d, put d (b_current_data b) l⟫⟪b_current_length ::= λ k, k + n⟫).

(** A part of the packet, [k] bytes from the current one. *)
Definition put_part (k : Z) (l : list Z) (b : vlib_buffer_t) : vlib_buffer_t :=
  b⟪b_data ::= λ d, put d (b_current_data b + k) l⟫⟪b_current_length ::= λ n, n + Z.of_nat (length l)⟫.

Definition osvbng_srg_garp_build (b : vlib_buffer_t) (e : osvbng_srg_garp_entry_arg_t) (ip4 vmac : list Z)
    : vlib_buffer_t :=
  let b := put_header (garp_l2_header vmac broadcast_mac e ETHERNET_TYPE_ARP) b in
  put_part 0 (garp_arp vmac ip4) b.

Definition osvbng_srg_na_build (b : vlib_buffer_t) (e : osvbng_srg_garp_entry_arg_t) (ip6 vmac : list Z)
    : vlib_buffer_t :=
  let b := put_header (garp_l2_header vmac all_nodes_mac e ETHERNET_TYPE_IP6) b in
  let ip6h := b_current_data b in
  let b := put_part 40 (na_payload vmac ip6) (put_part 0 (na_ip6_header vmac) b) in
  b⟪b_data ::= λ d, st16 d (ip6h + 42) (ip6_tcp_udp_icmp_compute_checksum b ip6h)⟫.

(** The wire parent of an interface, if it can transmit. *)
Definition garp_tx_sw_if_index (env : srg_env) (sw_if_index : Z) : option Z :=
  if se_is_free env sw_if_index then None
  else
    let hw := se_sup_hw env sw_if_index in
    if se_output_node env hw =? 0 then None else Some (se_hw_sw_if_index env hw).

(** A runt is filled up with zeros. *)
Definition garp_pad (b : vlib_buffer_t) : vlib_buffer_t :=
  if b_current_length b <? ETHERNET_MIN_PACKET_BYTES
  then put_part (b_current_length b) (repeat 0 (Z.to_nat (ETHERNET_MIN_PACKET_BYTES - b_current_length b))) b
  else b.

(** The buffer for an entry; its flag [VNET_BUFFER_F_LOCALLY_ORIGINATED] is read by VPP only. *)
Definition garp_frame_buffer (e : osvbng_srg_garp_entry_arg_t) (vmac : list Z) (tx : Z) (b : vlib_buffer_t)
    : vlib_buffer_t :=
  let b := b⟪b_rx := 0⟫⟪b_tx := tx⟫ in
  let b := match ga_ip e with
           | SrgIp6 a => osvbng_srg_na_build b e a vmac
           | SrgIp4 a => osvbng_srg_garp_build b e a vmac
           end in
  garp_pad (vlib_buffer_reset b).

Definition count_garp (srg_index : option Z) (f : srg_counts_t → srg_counts_t) (m : osvbng_srg_main_t)
    : osvbng_srg_main_t :=
  match srg_index with Some i => m⟪sm_counts ::= alter f i⟫ | None => m end.

(** Entries into the buffers of a batch: the frame, the buffers freed, the counters. *)
Fixpoint garp_entries (env : srg_env) (srg_index : option Z) (vmac : list Z)
    (work : list (osvbng_srg_garp_entry_arg_t * (Z * vlib_buffer_t))) (m : osvbng_srg_main_t)
    : osvbng_srg_main_t * list (Z * vlib_buffer_t) * list Z :=
  match work with
  | [] => (m, [], [])
  | (e, (bi, b)) :: work =>
      match garp_tx_sw_if_index env (ga_sw_if_index e) with
      | None =>
          let '(m, frame, freed) := garp_entries env srg_index vmac work
            (count_garp srg_index (λ c, c⟪sc_garp_skipped ::= λ n, u64 (n + 1)⟫) m) in
          (m, frame, bi :: freed)
      | Some tx =>
          let m := count_garp srg_index
            (λ c, if is_ip6 e then c⟪sc_na_sent ::= λ n, u64 (n + 1)⟫ else c⟪sc_garp_sent ::= λ n, u64 (n + 1)⟫) m in
          let '(m, frame, freed) := garp_entries env srg_index vmac work m in
          (m, (bi, garp_frame_buffer e vmac tx b) :: frame, freed)
      end
  end.

(** The batches; [alloc k n] is what the [k]-th [vlib_buffer_alloc] gives of [n]. *)
Fixpoint garp_batches (fuel : nat) (env : srg_env) (alloc : nat → nat → list (Z * vlib_buffer_t)) (k : nat)
    (srg_index : option Z) (vmac : list Z) (entries : list osvbng_srg_garp_entry_arg_t) (m : osvbng_srg_main_t)
    : option (osvbng_srg_main_t * list (list (Z * vlib_buffer_t)) * list Z * srg_rv) :=
  match entries, fuel with
  | [], _ => Some (m, [], [], SRG_OK)
  | _, O => None
  | _, S fuel =>
      let batch := Nat.min (length entries) (Z.to_nat VLIB_FRAME_SIZE) in
      match alloc k batch with
      | [] => Some (m, [], [], SRG_FAILED)
      | bufs =>
          let batch := Nat.min batch (length bufs) in
          let '(m, frame, freed) := garp_entries env srg_index vmac (zip (take batch entries) (take batch bufs)) m in
          '(m, frames, freed', rv) ← garp_batches fuel env alloc (S k) srg_index vmac (drop batch entries) m;
          Some (m, frame :: frames, freed ++ freed', rv)
      end
  end.

Definition osvbng_srg_send_garp_batch (env : srg_env) (alloc : nat → nat → list (Z * vlib_buffer_t))
    (srg_name : list Z) (entries : list osvbng_srg_garp_entry_arg_t) (virtual_mac : list Z) (m : osvbng_srg_main_t)
    : option (osvbng_srg_main_t * list (list (Z * vlib_buffer_t)) * list Z * srg_rv) :=
  p ← srg_lookup srg_name m;
  garp_batches (length entries) env alloc 0 p virtual_mac entries m.

(** An entry of the message, its fields in network order. *)
Definition garp_entry_arg (e : osvbng_srg_garp_entry_arg_t) : osvbng_srg_garp_entry_arg_t :=
  mkGarp (clib_net_to_host_u32 (ga_sw_if_index e)) (clib_net_to_host_u16 (ga_outer_vlan e))
    (clib_net_to_host_u16 (ga_inner_vlan e)) (clib_net_to_host_u16 (ga_outer_tpid e)) (ga_ip e).

Definition vl_api_osvbng_srg_send_garp_t_handler (env : srg_env) (alloc : nat → nat → list (Z * vlib_buffer_t))
    (srg_name : list Z) (entries : list osvbng_srg_garp_entry_arg_t) (m : osvbng_srg_main_t)
    : option (osvbng_srg_main_t * list (list (Z * vlib_buffer_t)) * list Z * srg_rv) :=
  p ← srg_lookup srg_name m;
  match p with
  | None => Some (m, [], [], SRG_NO_SUCH_ENTRY)
  | Some srg_index =>
      srg ← sm_srgs m !! srg_index;
      osvbng_srg_send_garp_batch env alloc srg_name (map garp_entry_arg entries) (sg_virtual_mac srg) m
  end.

End Garp.
