(* ===== verification/SrgSystem.v ===== *)
(** Redundancy groups over any calls: what the calls do to the set of groups, and that the
    hardware has the virtual MAC addresses of the active groups and no others. *)

From S2P Require Import Prelude Packet Access TxFrames SrgGroup SrgGarp.

#[local] Open Scope Z_scope.

(** * Groups as the control plane sees them *)

Record srg_group := mkGroup {
  gr_virtual_mac : list Z;
  gr_interfaces : list Z;
  gr_active : bool
}.

Definition group_of (s : osvbng_srg_t) : srg_group :=
  mkGroup (sg_virtual_mac s) (sg_sw_if_indices s) (sg_is_active s).
Definition groups (m : osvbng_srg_main_t) : gmap (list Z) srg_group :=
  omap (λ e, group_of <$> sm_srgs m !! e.1) (sm_srg_by_name m).

(** The interface is in a group. *)
Definition in_group (sw : Z) (gs : gmap (list Z) srg_group) : Prop :=
  map_Exists (λ _ g, sw ∈ gr_interfaces g) gs.
#[export] Instance in_group_dec sw gs : Decision (in_group sw gs).
Proof. unfold in_group. apply _. Defined.

(** What is wrong with the first interface that cannot be in a new group. *)
Fixpoint interfaces_verdict (env : srg_env) (sws : list Z) (gs : gmap (list Z) srg_group) : option srg_rv :=
  match sws with
  | [] => None
  | sw :: sws =>
      if se_is_free env sw then Some SRG_INVALID_SW_IF_INDEX
      else if decide (in_group sw gs) then Some SRG_VALUE_EXIST else interfaces_verdict env sws gs
  end.

(** The calls on a set of groups. *)
Definition group_add_del (env : srg_env) (name mac : list Z) (sws : list Z) (is_add : bool)
    (gs : gmap (list Z) srg_group) : gmap (list Z) srg_group * srg_rv :=
  match gs !! name, is_add with
  | Some _, true => (gs, SRG_ALREADY_EXISTS)
  | None, true =>
      match interfaces_verdict env sws gs with
      | Some rv => (gs, rv)
      | None => (<[name := mkGroup mac sws false]> gs, SRG_OK)
      end
  | None, false => (gs, SRG_NO_SUCH_ENTRY)
  | Some _, false => (delete name gs, SRG_OK)
  end.
Definition group_set_state (name : list Z) (is_active : bool) (gs : gmap (list Z) srg_group)
    : gmap (list Z) srg_group * srg_rv :=
  match gs !! name with
  | None => (gs, SRG_NO_SUCH_ENTRY)
  | Some g => (<[name := mkGroup (gr_virtual_mac g) (gr_interfaces g) is_active]> gs, SRG_OK)
  end.

(** * The tables *)

Record srg_ok (m : osvbng_srg_main_t) : Prop := {
  so_named n e : sm_srg_by_name m !! n = Some e →
    e.2 = sm_pool_address m /\ exists s, sm_srgs m !! e.1 = Some s /\ sg_srg_name s = n;
  so_name i s : sm_srgs m !! i = Some s → sm_srg_by_name m !! sg_srg_name s = Some (i, sm_pool_address m);
  so_member sw i : sm_if_to_srg m !! sw = Some i <-> exists s, sm_srgs m !! i = Some s /\ sw ∈ sg_sw_if_indices s;
  so_counts i : is_Some (sm_srgs m !! i) → is_Some (sm_counts m !! i);
  so_sizes i s : sm_srgs m !! i = Some s → is_u32 i /\ Z.of_nat (length (sg_sw_if_indices s)) < 2 ^ 32
}.

Lemma srg_lookup_ok m name : srg_ok m → srg_lookup name m = Some (option_map fst (sm_srg_by_name m !! name)).
Proof.
  intros Hok. unfold srg_lookup. rewrite bool_decide_true; [done|]. intros n e He. by apply (so_named m Hok n).
Qed.

Lemma groups_lookup m name :
  srg_ok m →
  groups m !! name = match sm_srg_by_name m !! name with
                     | Some e => group_of <$> sm_srgs m !! e.1
                     | None => None
                     end.
Proof.
  intros Hok. unfold groups. rewrite lookup_omap. by destruct (sm_srg_by_name m !! name).
Qed.

(** An index and a name of one group. *)
Lemma named_group m name e :
  srg_ok m → sm_srg_by_name m !! name = Some e →
  exists s, sm_srgs m !! e.1 = Some s /\ sg_srg_name s = name /\ groups m !! name = Some (group_of s) /\
    e = (e.1, sm_pool_address m).
Proof.
  intros Hok He. destruct (so_named m Hok name e He) as (Ha & s & Hs & Hn). exists s.
  rewrite groups_lookup, He, Hs by done. split_and!; try done. destruct e. cbn in *. by subst.
Qed.

Lemma not_named m name : srg_ok m → sm_srg_by_name m !! name = None → groups m !! name = None.
Proof. intros Hok He. by rewrite groups_lookup, He. Qed.

(** Only the references, counters and calls change. *)
Record same_groups (m m' : osvbng_srg_main_t) : Prop := {
  sg_same_srgs : sm_srgs m' = sm_srgs m;
  sg_same_address : sm_pool_address m' = sm_pool_address m;
  sg_same_names : sm_srg_by_name m' = sm_srg_by_name m;
  sg_same_ifs : sm_if_to_srg m' = sm_if_to_srg m;
  sg_same_counts i : is_Some (sm_counts m !! i) → is_Some (sm_counts m' !! i)
}.

Lemma same_groups_refl m : same_groups m m.
Proof. by split. Qed.
Lemma same_groups_trans m1 m2 m3 : same_groups m1 m2 → same_groups m2 m3 → same_groups m1 m3.
Proof. intros [A1 A2 A3 A4 A5] [B1 B2 B3 B4 B5]. split; try congruence. auto. Qed.

Lemma same_groups_ok m m' : same_groups m m' → srg_ok m → srg_ok m' /\ groups m' = groups m.
Proof.
  intros [A1 A2 A3 A4 A5] [B1 B2 B3 B4 B5]. split; [|unfold groups; by rewrite A1, A3].
  split; intros *; rewrite ?A1, ?A2, ?A3, ?A4; auto.
Qed.

Lemma alter_counts (f : srg_counts_t → srg_counts_t) (t : gmap Z srg_counts_t) i j :
  is_Some (t !! j) → is_Some (alter f i t !! j).
Proof. intros. by rewrite lookup_alter_is_Some. Qed.

Lemma set_interface_same env ok act i mac k sw m : same_groups m (srg_set_interface env ok act i mac k sw m).
Proof.
  unfold srg_set_interface. destruct (se_is_free env sw); [apply same_groups_refl|].
  destruct (sm_hw_mac_refcount m !! _) as [n|], act; [by split|destruct (1 <? n); [by split|]| |by split];
    destruct (negb (ok k)); split; try done; intros j; rproj; apply alter_counts.
Qed.

Lemma set_interfaces_same env ok act i mac k sws m :
  same_groups m (srg_set_interfaces env ok act i mac k sws m).
Proof.
  revert k m. induction sws as [|sw sws IH]; intros k m; [apply same_groups_refl|].
  eapply same_groups_trans; [apply set_interface_same|apply IH].
Qed.

(** ** A group's state *)

Lemma with_state_ok m i s act :
  srg_ok m → sm_srgs m !! i = Some s →
  let m' := m⟪sm_srgs ::= alter (λ s, s⟪sg_is_active := act⟫) i⟫ in
  srg_ok m' /\
  groups m' = <[sg_srg_name s := mkGroup (sg_virtual_mac s) (sg_sw_if_indices s) act]> (groups m).
Proof.
  intros Hok Hs m'.
  assert (∀ j s', sm_srgs m' !! j = Some s' → exists s0, sm_srgs m !! j = Some s0 /\
    sg_srg_name s' = sg_srg_name s0 /\ sg_sw_if_indices s' = sg_sw_if_indices s0) as Hback.
  { intros j s'. unfold m'. rproj. rewrite lookup_alter_Some.
    intros [(-> & s0 & Hs0 & ->)|(_ & Hs0)]; eauto. }
  assert (∀ j s0, sm_srgs m !! j = Some s0 → exists s', sm_srgs m' !! j = Some s' /\
    sg_srg_name s' = sg_srg_name s0 /\ sg_sw_if_indices s' = sg_sw_if_indices s0) as Hforth.
  { intros j s0 Hs0. unfold m'. rproj. destruct (decide (i = j)) as [->|Hne].
    - rewrite lookup_alter_eq, Hs0. cbn. eauto.
    - rewrite lookup_alter_ne, Hs0 by done. eauto. }
  split.
  - split.
    + intros n e He. destruct (so_named m Hok n e He) as (Ha & s0 & Hs0 & Hn). split; [done|].
      destruct (Hforth _ _ Hs0) as (s' & Hs' & E & _). exists s'. by rewrite E.
    + intros j s' Hs'. destruct (Hback j s' Hs') as (s0 & Hs0 & -> & _). by apply (so_name m Hok).
    + intros sw j. change (sm_if_to_srg m') with (sm_if_to_srg m). rewrite (so_member m Hok). split.
      * intros (s0 & Hs0 & Hin). destruct (Hforth _ _ Hs0) as (s' & Hs' & _ & E). exists s'. by rewrite E.
      * intros (s' & Hs' & Hin). destruct (Hback _ _ Hs') as (s0 & Hs0 & _ & E). exists s0. by rewrite <- E.
    + intros j [s' Hs']. destruct (Hback j s' Hs') as (s0 & Hs0 & _). apply (so_counts m Hok). eauto.
    + intros j s' Hs'. destruct (Hback j s' Hs') as (s0 & Hs0 & _ & ->). by apply (so_sizes m Hok j s0).
  - pose proof (so_name m Hok i s Hs) as Hn. apply map_eq. intros n. unfold groups, m'. rproj.
    rewrite lookup_omap. destruct (decide (n = sg_srg_name s)) as [->|Hne].
    + rewrite Hn, lookup_insert_eq. cbn. by rewrite lookup_alter_eq, Hs.
    + rewrite lookup_insert_ne, lookup_omap by done.
      destruct (sm_srg_by_name m !! n) as [e|] eqn:He; [|done]. cbn. rewrite lookup_alter_ne; [done|].
      intros ->. destruct (so_named m Hok n e He) as (_ & s0 & Hs0 & Hn0). congruence.
Qed.

Lemma set_state_groups env ok name act m :
  srg_ok m →
  exists m', osvbng_srg_set_state env ok name act m = Some (m', (group_set_state name act (groups m)).2) /\
    srg_ok m' /\ groups m' = (group_set_state name act (groups m)).1.
Proof.
  intros Hok. unfold osvbng_srg_set_state, group_set_state. rewrite srg_lookup_ok by done. cbn [mbind option_bind].
  destruct (sm_srg_by_name m !! name) as [e|] eqn:He; cbn [option_map].
  2: { rewrite not_named by done. by exists m. }
  destruct (named_group m name e Hok He) as (s & Hs & Hn & Hg & _). rewrite Hs, Hg. cbn [mbind option_bind].
  destruct (Bool.eqb act (sg_is_active s)) eqn:Ea.
  - exists m. split_and!; [done|done|]. cbn [fst]. rewrite insert_id; [done|]. rewrite Hg.
    apply eqb_prop in Ea. by rewrite Ea.
  - set (m1 := srg_set_interfaces _ _ _ _ _ _ _ m).
    pose proof (set_interfaces_same env ok act e.1 (sg_virtual_mac s) 0 (sg_sw_if_indices s) m) as Hs1. fold m1 in Hs1.
    destruct (same_groups_ok m m1 Hs1 Hok) as [Hok1 Hg1].
    assert (sm_srgs m1 !! e.1 = Some s) as Hs' by (by rewrite (sg_same_srgs _ _ Hs1)).
    destruct (with_state_ok m1 e.1 s act Hok1 Hs') as [Hok2 Hg2].
    eexists. split; [reflexivity|]. split; [exact Hok2|]. cbn [fst]. rewrite Hg2, Hg1, Hn. done.
Qed.

(** ** Addition and removal *)

Lemma fold_insert_lookup (sws : list Z) (v : Z) (t : gmap Z Z) x :
  foldl (λ t sw, <[sw := v]> t) t sws !! x = if decide (x ∈ sws) then Some v else t !! x.
Proof.
  revert t. induction sws as [|sw sws IH]; intros t; [done|]. cbn [foldl]. rewrite IH.
  destruct (decide (x ∈ sws)) as [Hin|Hin]; [by rewrite decide_True by by right|].
  destruct (decide (sw = x)) as [->|Hne].
  - rewrite lookup_insert_eq. by rewrite decide_True by by left.
  - rewrite lookup_insert_ne by done. rewrite decide_False; [done|]. by intros [?|?]%elem_of_cons.
Qed.

Lemma fold_delete_lookup (sws : list Z) (t : gmap Z Z) x :
  foldl (λ t sw, delete sw t) t sws !! x = if decide (x ∈ sws) then None else t !! x.
Proof.
  revert t. induction sws as [|sw sws IH]; intros t; [done|]. cbn [foldl]. rewrite IH.
  destruct (decide (x ∈ sws)) as [Hin|Hin]; [by rewrite decide_True by by right|].
  destruct (decide (sw = x)) as [->|Hne].
  - rewrite lookup_delete_eq. by rewrite decide_True by by left.
  - rewrite lookup_delete_ne by done. rewrite decide_False; [done|]. by intros [?|?]%elem_of_cons.
Qed.

Lemma in_group_member m sw : srg_ok m → in_group sw (groups m) <-> is_Some (sm_if_to_srg m !! sw).
Proof.
  intros Hok. unfold in_group, map_Exists. split.
  - intros (n & g & Hg & Hin). rewrite groups_lookup in Hg by done.
    destruct (sm_srg_by_name m !! n) as [e|]; [|done].
    destruct (sm_srgs m !! e.1) as [s|] eqn:Hs; [|done]. injection Hg as <-.
    exists e.1. apply (so_member m Hok). by exists s.
  - intros [i (s & Hs & Hin)%(so_member m Hok)]. exists (sg_srg_name s), (group_of s). split; [|done].
    rewrite groups_lookup, (so_name m Hok i s Hs) by done. cbn [fst]. by rewrite Hs.
Qed.

Lemma verdict_ok env sws m : srg_ok m → srg_check_ifs env sws m = interfaces_verdict env sws (groups m).
Proof.
  intros Hok. induction sws as [|sw sws IH]; [done|]. cbn [srg_check_ifs interfaces_verdict]. rewrite IH.
  destruct (se_is_free env sw); [done|]. pose proof (in_group_member m sw Hok) as Hin.
  destruct (sm_if_to_srg m !! sw) eqn:E; destruct (decide _) as [Hd|Hd]; try done; exfalso.
  - apply Hd, Hin. by exists z.
  - apply Hin in Hd as [? [=]].
Qed.

Lemma verdict_none env sws m : srg_check_ifs env sws m = None → ∀ sw, sw ∈ sws → sm_if_to_srg m !! sw = None.
Proof.
  induction sws as [|sw sws IH]; [by intros _ ? ?%not_elem_of_nil|]. cbn [srg_check_ifs].
  destruct (se_is_free env sw); [done|]. destruct (sm_if_to_srg m !! sw) eqn:E; [done|].
  intros Hn x [->|Hx]%elem_of_cons; [done|]. by apply IH.
Qed.

(** A new element of the pool, which stays where it is unless there are no keys into it. *)
Definition slot_ok (slot address : Z) (m : osvbng_srg_main_t) : Prop :=
  is_u32 slot /\ sm_srgs m !! slot = None /\ (address = sm_pool_address m \/ sm_srg_by_name m = ∅).

Lemma srg_add_ok name mac sws slot address m :
  srg_ok m → (length name <= 63)%nat → Z.of_nat (length sws) < 2 ^ 32 → slot_ok slot address m →
  sm_srg_by_name m !! name = None → (∀ sw, sw ∈ sws → sm_if_to_srg m !! sw = None) →
  let m' := srg_add name mac sws slot address m in
  srg_ok m' /\ groups m' = <[name := mkGroup mac sws false]> (groups m).
Proof.
  intros Hok Hl Hc (Hu & Hf & Ha) Hn Hifs m'.
  assert (srg_name_terminate name = name) as Hname by (by apply take_ge).
  assert (∀ n e, sm_srg_by_name m !! n = Some e → e.2 = address) as Hold.
  { intros n e He. destruct Ha as [->|Ha]; [by apply (so_named m Hok n)|]. by rewrite Ha, lookup_empty in He. }
  assert (∀ n e, sm_srg_by_name m !! n = Some e → e.1 ≠ slot) as Hslot.
  { intros n e He E. destruct (so_named m Hok n e He) as (_ & s & Hs & _). congruence. }
  unfold m', srg_add. rewrite Hname. set (s0 := mkSrg name mac false sws). split.
  - split; rproj.
    + intros n e. rewrite lookup_insert_Some. intros [(<- & <-)|(Hne & He)].
      * split; [done|]. exists s0. by rewrite lookup_insert_eq.
      * split; [by apply (Hold n)|]. destruct (so_named m Hok n e He) as (_ & s & Hs & Hsn). exists s.
        rewrite lookup_insert_ne; [done|]. intros E. by apply (Hslot n e He).
    + intros i s. rewrite lookup_insert_Some. intros [(<- & <-)|(Hne & Hs)]; [by rewrite lookup_insert_eq|].
      pose proof (so_name m Hok i s Hs) as Hsn. rewrite lookup_insert_ne by (intros ->; congruence).
      pose proof (Hold _ _ Hsn) as Ha'. cbn in Ha'. by rewrite Hsn, Ha'.
    + intros sw i. rewrite fold_insert_lookup. split.
      * destruct (decide (sw ∈ sws)) as [Hin|Hin].
        -- intros [= <-]. exists s0. by rewrite lookup_insert_eq.
        -- intros (s & Hs & Hi)%(so_member m Hok). exists s. rewrite lookup_insert_ne by congruence. done.
      * intros (s & [(<- & <-)|(Hne & Hs)]%lookup_insert_Some & Hi); [by rewrite decide_True|].
        assert (sm_if_to_srg m !! sw = Some i) as Hsw by (apply (so_member m Hok); eauto).
        rewrite decide_False; [done|]. intros Hin. rewrite (Hifs sw Hin) in Hsw. done.
    + intros i [s [(<- & _)|(Hne & Hs)]%lookup_insert_Some]; [by rewrite lookup_insert_eq|].
      rewrite lookup_insert_ne by done. apply (so_counts m Hok). eauto.
    + intros i s [(<- & <-)|(Hne & Hs)]%lookup_insert_Some; [done|]. by apply (so_sizes m Hok).
  - apply map_eq. intros n. unfold groups. rproj. rewrite lookup_omap. destruct (decide (n = name)) as [->|Hne].
    + rewrite !lookup_insert_eq. cbn. by rewrite lookup_insert_eq.
    + rewrite !lookup_insert_ne, lookup_omap by done.
      destruct (sm_srg_by_name m !! n) as [e|] eqn:He; [|done]. cbn.
      rewrite lookup_insert_ne; [done|]. intros E. by apply (Hslot n e He).
Qed.

Lemma srg_del_ok i s m :
  srg_ok m → sm_srgs m !! i = Some s →
  srg_ok (srg_del i s m) /\ groups (srg_del i s m) = delete (sg_srg_name s) (groups m).
Proof.
  intros Hok Hs. pose proof (so_name m Hok i s Hs) as Hn.
  assert (∀ n e, sm_srg_by_name m !! n = Some e → n ≠ sg_srg_name s → e.1 ≠ i) as Hother.
  { intros n e He Hne E. destruct (so_named m Hok n e He) as (_ & s' & Hs' & Hn'). congruence. }
  unfold srg_del. split.
  - split; rproj.
    + intros n e [Hne He]%lookup_delete_Some. destruct (so_named m Hok n e He) as (Ha & s' & Hs' & Hn').
      split; [done|]. exists s'. rewrite lookup_delete_ne; [done|]. intros E. by apply (Hother n e He).
    + intros j s' [Hne Hs']%lookup_delete_Some. pose proof (so_name m Hok j s' Hs') as Hn'.
      rewrite lookup_delete_ne; [done|]. intros E. rewrite <- E, Hn in Hn'. congruence.
    + intros sw j. rewrite fold_delete_lookup. split.
      * destruct (decide (sw ∈ sg_sw_if_indices s)) as [|Hin]; [done|].
        intros (s' & Hs' & Hi)%(so_member m Hok). exists s'. rewrite lookup_delete_ne by congruence. done.
      * intros (s' & [Hne Hs']%lookup_delete_Some & Hi).
        assert (sm_if_to_srg m !! sw = Some j) as Hsw by (apply (so_member m Hok); eauto).
        rewrite decide_False; [done|]. intros Hin.
        assert (sm_if_to_srg m !! sw = Some i) as Hsw' by (apply (so_member m Hok); eauto). congruence.
    + intros j [s' [Hne Hs']%lookup_delete_Some]. apply (so_counts m Hok). eauto.
    + intros j s' [Hne Hs']%lookup_delete_Some. by apply (so_sizes m Hok).
  - apply map_eq. intros n. unfold groups. rproj. rewrite lookup_omap.
    destruct (decide (sg_srg_name s = n)) as [<-|Hne].
    + by rewrite !lookup_delete_eq.
    + rewrite !lookup_delete_ne, lookup_omap by done. destruct (sm_srg_by_name m !! n) as [e|] eqn:He; [|done]. cbn.
      rewrite lookup_delete_ne; [done|]. intros E. by apply (Hother n e He).
Qed.

Lemma add_del_groups env ok name mac sws is_add slot address m :
  srg_ok m → (length name <= 63)%nat → Z.of_nat (length sws) < 2 ^ 32 → slot_ok slot address m →
  exists m', osvbng_srg_add_del env ok name mac sws is_add slot address m =
      Some (m', (group_add_del env name mac sws is_add (groups m)).2) /\
    srg_ok m' /\ groups m' = (group_add_del env name mac sws is_add (groups m)).1.
Proof.
  intros Hok Hl Hc Hslot. unfold osvbng_srg_add_del, group_add_del. rewrite (srg_lookup_ok m name Hok).
  cbn [mbind option_bind]. destruct (sm_srg_by_name m !! name) as [e|] eqn:He; cbn [option_map].
  - destruct (named_group m name e Hok He) as (s & Hs & Hn & Hg & _). rewrite Hg.
    destruct is_add; [by exists m|]. rewrite Hs. cbn [mbind option_bind].
    assert (exists m1, (if sg_is_active s then osvbng_srg_set_state env ok name false m else Some (m, SRG_OK)) =
        Some (m1, SRG_OK) /\ srg_ok m1 /\ delete name (groups m1) = delete name (groups m) /\
        exists s1, sm_srgs m1 !! e.1 = Some s1 /\ sg_srg_name s1 = name /\
          sg_sw_if_indices s1 = sg_sw_if_indices s) as (m1 & E & Hok1 & Hg1 & s1 & Hs1 & Hn1 & Hi1).
    { destruct (sg_is_active s) eqn:Ea; [|exists m; split_and!; [done..|by exists s]].
      destruct (set_state_groups env ok name false m Hok) as (m1 & E & Hok1 & Hg1).
      unfold group_set_state in E, Hg1. rewrite Hg in E, Hg1. cbn [fst snd] in E, Hg1.
      exists m1. split_and!; [done|done| |].
      - rewrite Hg1. by rewrite delete_insert_eq.
      - revert E. unfold osvbng_srg_set_state. rewrite srg_lookup_ok, He by done. cbn [option_map mbind option_bind].
        rewrite Hs. cbn [mbind option_bind]. rewrite Ea. cbn [Bool.eqb]. intros [= <-].
        eexists. rproj. rewrite (sg_same_srgs _ _ (set_interfaces_same _ _ _ _ _ _ _ _)), lookup_alter_eq, Hs.
        cbn. split; [reflexivity|]. by split. }
    rewrite E. cbn [mbind option_bind].
    destruct (srg_del_ok e.1 s1 m1 Hok1 Hs1) as [Hok2 Hg2].
    assert (srg_del e.1 s m1 = srg_del e.1 s1 m1) as -> by (unfold srg_del; by rewrite Hi1, Hn1, Hn).
    exists (srg_del e.1 s1 m1). split_and!; [done|done|]. rewrite Hg2, Hn1. exact Hg1.
  - rewrite not_named by done. destruct is_add; [|by exists m].
    rewrite <- verdict_ok by done. destruct (srg_check_ifs env sws m) as [rv|] eqn:Ev; [by exists m|].
    destruct (srg_add_ok name mac sws slot address m Hok Hl Hc Hslot He (verdict_none env sws m Ev)) as [Hok1 Hg1].
    cbv zeta. rewrite (srg_lookup_ok _ name Hok1). cbn [mbind option_bind].
    exists (srg_add name mac sws slot address m). done.
Qed.

(** * Virtual MAC addresses *)

(** What the calls leave on the hardware interfaces. *)
Definition installed_step (X : gset (Z * list Z)) (c : srg_call) : gset (Z * list Z) :=
  match c with
  | MacAddDel hw mac true true => {[(hw, mac)]} ∪ X
  | MacAddDel hw mac false true => X ∖ {[(hw, mac)]}
  | _ => X
  end.
Definition installed (l : list srg_call) : gset (Z * list Z) := foldl installed_step ∅ l.

Lemma installed_snoc l c : installed (l ++ [c]) = installed_step (installed l) c.
Proof. unfold installed. by rewrite foldl_app. Qed.

Section Refs.

(** The hardware interface of each interface. *)
Variable hw : Z → Z.

Definition count_hw (h : Z) (sws : list Z) : Z := Z.of_nat (length (filter (λ sw, hw sw = h) sws)).

Lemma count_hw_cons h sw sws : count_hw h (sw :: sws) = (if decide (hw sw = h) then 1 else 0) + count_hw h sws.
Proof. unfold count_hw. rewrite filter_cons. destruct (decide (hw sw = h)); cbn [length]; lia. Qed.

Lemma count_hw_range h sws : 0 <= count_hw h sws <= Z.of_nat (length sws).
Proof. unfold count_hw. pose proof (length_filter (λ sw, hw sw = h) sws). lia. Qed.

(** A group's interfaces on [k.1], if it holds the address [k.2] there. *)
Definition group_refs (k : Z * list Z) (s : osvbng_srg_t) : Z :=
  if sg_is_active s then if decide (sg_virtual_mac s = k.2) then count_hw k.1 (sg_sw_if_indices s) else 0 else 0.
Definition refs (m : osvbng_srg_main_t) (k : Z * list Z) : Z := msum (group_refs k) (sm_srgs m).

Lemma group_refs_range k s : 0 <= group_refs k s <= Z.of_nat (length (sg_sw_if_indices s)).
Proof.
  unfold group_refs. pose proof (count_hw_range k.1 (sg_sw_if_indices s)).
  destruct (sg_is_active s), (decide (sg_virtual_mac s = k.2)); lia.
Qed.

(** The reference counts are [R], and exactly the addresses with references are there. *)
Record counted (m : osvbng_srg_main_t) (R : Z * list Z → Z) : Prop := {
  ct_refs k : sm_hw_mac_refcount m !! k = if R k =? 0 then None else Some (R k);
  ct_installed k : k ∈ installed (sm_calls m) <-> R k ≠ 0;
  ct_nonneg k : 0 <= R k
}.

Lemma counted_ext m m' R R' :
  sm_hw_mac_refcount m' = sm_hw_mac_refcount m → sm_calls m' = sm_calls m → (∀ k, R' k = R k) →
  counted m R → counted m' R'.
Proof. intros E1 E2 ER [C1 C2 C3]. split; intros k; rewrite ?E1, ?E2, ?ER; auto. Qed.

Definition one_more (mac : list Z) (sw : Z) (k : Z * list Z) : Z := if decide ((hw sw, mac) = k) then 1 else 0.

Lemma refs_insert (k key : Z * list Z) (t : gmap (Z * list Z) Z) (R : Z * list Z → Z) n :
  (∀ k, t !! k = if R k =? 0 then None else Some (R k)) →
  (if n =? 0 then delete key t else <[key := n]> t) !! k =
  (if (if decide (key = k) then n else R k) =? 0 then None else Some (if decide (key = k) then n else R k)).
Proof.
  intros Ht. destruct (decide (key = k)) as [<-|Hne].
  - destruct (n =? 0); [apply lookup_delete_eq|apply lookup_insert_eq].
  - rewrite <- Ht. destruct (n =? 0); [by apply lookup_delete_ne|by apply lookup_insert_ne].
Qed.

Lemma take_ref env ok i mac j sw m R :
  counted m R → se_is_free env sw = false → se_sup_hw env sw = hw sw → ok j = true →
  R (hw sw, mac) + 1 < 2 ^ 64 →
  counted (srg_set_interface env ok true i mac j sw m) (λ k, R k + one_more mac sw k).
Proof.
  intros [C1 C2 C3] Hf Hhw Hok HB. unfold srg_set_interface. rewrite Hf, Hhw, C1. pose proof (C3 (hw sw, mac)) as Hn.
  assert (∀ k, R k + one_more mac sw k = if decide ((hw sw, mac) = k) then R (hw sw, mac) + 1 else R k) as HR.
  { intros k. unfold one_more. destruct (decide _) as [<-|]; lia. }
  pose proof (λ k, refs_insert k (hw sw, mac) _ R (R (hw sw, mac) + 1) C1) as Hins.
  rewrite (proj2 (Z.eqb_neq (R (hw sw, mac) + 1) 0)) in Hins by lia.
  destruct (Z.eqb_spec (R (hw sw, mac)) 0) as [E|E]; rewrite ?Hok; cbn [negb].
  - split; rproj; intros k; rewrite HR.
    + rewrite <- Hins, E. done.
    + rewrite installed_snoc. cbn [installed_step]. rewrite elem_of_union, elem_of_singleton, C2.
      destruct (decide _) as [<-|Hne]; [split; [lia|by left]|]. split; [intros [?|?]; congruence|by right].
    + destruct (decide _); [lia|apply C3].
  - split; rproj; intros k; rewrite HR.
    + rewrite u64_small by (unfold is_u64; lia). apply Hins.
    + rewrite C2. destruct (decide _) as [<-|Hne]; [lia|done].
    + destruct (decide _); [lia|apply C3].
Qed.

Lemma drop_ref env ok i mac j sw m R :
  counted m R → se_is_free env sw = false → se_sup_hw env sw = hw sw → ok j = true → 1 <= R (hw sw, mac) →
  counted (srg_set_interface env ok false i mac j sw m) (λ k, R k - one_more mac sw k).
Proof.
  intros [C1 C2 C3] Hf Hhw Hok HB. unfold srg_set_interface. rewrite Hf, Hhw, C1.
  rewrite (proj2 (Z.eqb_neq (R (hw sw, mac)) 0)) by lia.
  assert (∀ k, R k - one_more mac sw k = if decide ((hw sw, mac) = k) then R (hw sw, mac) - 1 else R k) as HR.
  { intros k. unfold one_more. destruct (decide _) as [<-|]; lia. }
  pose proof (λ k, refs_insert k (hw sw, mac) _ R (R (hw sw, mac) - 1) C1) as Hins.
  destruct (Z.ltb_spec 1 (R (hw sw, mac))) as [E|E]; rewrite ?Hok; cbn [negb].
  - rewrite (proj2 (Z.eqb_neq (R (hw sw, mac) - 1) 0)) in Hins by lia.
    split; rproj; intros k; rewrite HR.
    + apply Hins.
    + rewrite C2. destruct (decide _) as [<-|Hne]; [lia|done].
    + destruct (decide _); [lia|apply C3].
  - rewrite (proj2 (Z.eqb_eq (R (hw sw, mac) - 1) 0)) in Hins by lia.
    split; rproj; intros k; rewrite HR.
    + apply Hins.
    + rewrite installed_snoc. cbn [installed_step]. rewrite elem_of_difference, elem_of_singleton, C2.
      destruct (decide _) as [<-|Hne]; [split; [by intros [_ []]|lia]|]. split; [by intros [? _]|intros ?; by split].
    + destruct (decide _); [lia|apply C3].
Qed.

(** What a group's references are, over its interfaces. *)
Definition mac_refs (mac : list Z) (sws : list Z) (k : Z * list Z) : Z :=
  if decide (mac = k.2) then count_hw k.1 sws else 0.

Lemma mac_refs_cons mac sw sws k : mac_refs mac (sw :: sws) k = one_more mac sw k + mac_refs mac sws k.
Proof.
  unfold mac_refs, one_more. rewrite count_hw_cons. destruct k as [h mac']. cbn [fst snd].
  destruct (decide (mac = mac')) as [->|Hne].
  - destruct (decide (hw sw = h)) as [->|Hne]; [by rewrite decide_True|]. rewrite decide_False; [done|congruence].
  - rewrite decide_False; [done|congruence].
Qed.

Lemma mac_refs_range mac sws k : 0 <= mac_refs mac sws k.
Proof. unfold mac_refs. pose proof (count_hw_range k.1 sws). destruct (decide _); lia. Qed.

Lemma mac_refs_nil mac k : mac_refs mac [] k = 0.
Proof. unfold mac_refs. by destruct (decide _). Qed.

Definition steady_env (env : srg_env) (sws : list Z) : Prop :=
  Forall (λ sw, se_is_free env sw = false /\ se_sup_hw env sw = hw sw) sws.

Lemma take_refs env ok i mac sws j m R :
  counted m R → steady_env env sws → (∀ j, ok j = true) → (∀ k, R k + mac_refs mac sws k < 2 ^ 64) →
  counted (srg_set_interfaces env ok true i mac j sws m) (λ k, R k + mac_refs mac sws k).
Proof.
  revert j m R. induction sws as [|sw sws IH]; intros j m R HC Hs Hok HB.
  - apply (counted_ext m m R); [done|done| |done]. intros k. rewrite mac_refs_nil. lia.
  - apply Forall_cons in Hs as [[H1 H2] Hs]. cbn [srg_set_interfaces].
    assert (∀ k, R k + mac_refs mac (sw :: sws) k = R k + one_more mac sw k + mac_refs mac sws k) as HR
      by (intros k; rewrite mac_refs_cons; lia).
    set (m1 := srg_set_interface env ok true i mac j sw m).
    assert (counted m1 (λ k, R k + one_more mac sw k)) as HC1.
    { apply take_ref; try done. pose proof (HB (hw sw, mac)) as Hb. rewrite HR in Hb.
      pose proof (mac_refs_range mac sws (hw sw, mac)). unfold one_more in Hb. rewrite decide_True in Hb by done. lia. }
    eapply counted_ext; [reflexivity|reflexivity|exact HR|]. apply (IH (S j) m1 _ HC1 Hs Hok).
    intros k. rewrite <- HR. apply HB.
Qed.

Lemma drop_refs env ok i mac sws j m R :
  counted m R → steady_env env sws → (∀ j, ok j = true) → (∀ k, mac_refs mac sws k <= R k) →
  counted (srg_set_interfaces env ok false i mac j sws m) (λ k, R k - mac_refs mac sws k).
Proof.
  revert j m R. induction sws as [|sw sws IH]; intros j m R HC Hs Hok HB.
  - apply (counted_ext m m R); [done|done| |done]. intros k. rewrite mac_refs_nil. lia.
  - apply Forall_cons in Hs as [[H1 H2] Hs]. cbn [srg_set_interfaces].
    assert (∀ k, R k - mac_refs mac (sw :: sws) k = R k - one_more mac sw k - mac_refs mac sws k) as HR
      by (intros k; rewrite mac_refs_cons; lia).
    set (m1 := srg_set_interface env ok false i mac j sw m).
    assert (counted m1 (λ k, R k - one_more mac sw k)) as HC1.
    { apply drop_ref; try done. pose proof (HB (hw sw, mac)) as Hb. rewrite mac_refs_cons in Hb.
      pose proof (mac_refs_range mac sws (hw sw, mac)). unfold one_more in Hb. rewrite decide_True in Hb by done. lia. }
    eapply counted_ext; [reflexivity|reflexivity|exact HR|]. apply (IH (S j) m1 _ HC1 Hs Hok).
    intros k. pose proof (HB k). rewrite mac_refs_cons in *. lia.
Qed.

End Refs.

(** ** Over calls *)

Section Exact.

Variable hw : Z → Z.

Definition exact_refs (m : osvbng_srg_main_t) : Prop := counted m (refs hw m).

Lemma exact_same m m' :
  sm_srgs m' = sm_srgs m → sm_hw_mac_refcount m' = sm_hw_mac_refcount m → sm_calls m' = sm_calls m →
  exact_refs m → exact_refs m'.
Proof. intros E1 E2 E3. apply counted_ext; [done|done|]. intros k. unfold refs. by rewrite E1. Qed.

Lemma map_size_bound {A} (t : gmap Z A) : (∀ i x, t !! i = Some x → is_u32 i) → Z.of_nat (size t) <= 2 ^ 32.
Proof.
  intros Hu. replace (Z.of_nat (size t)) with (msum (λ _, 1) t).
  - apply (msum_keys_bound (λ _, 1) (λ i _, i)); [lia| |done].
    intros i x Hx. right. split; [done|]. by apply (Hu i x).
  - clear Hu. induction t as [|i x t Hi IH] using map_ind; [by rewrite msum_empty|].
    rewrite msum_insert_new, map_size_insert_None by done. lia.
Qed.

Lemma refs_small m k : srg_ok m → 0 <= refs hw m k < 2 ^ 64.
Proof.
  intros Hok. pose proof (msum_le (group_refs hw k) (sm_srgs m) (2 ^ 32 - 1)) as Hm.
  pose proof (map_size_bound (sm_srgs m) (λ i x Hx, proj1 (so_sizes m Hok i x Hx))) as Hz.
  unfold refs. destruct Hm as [H1 H2]; [|nia].
  intros i s Hs. pose proof (group_refs_range hw k s). destruct (so_sizes m Hok i s Hs). lia.
Qed.

Lemma refs_with_state m i s act k :
  sm_srgs m !! i = Some s →
  refs hw (m⟪sm_srgs ::= alter (λ s, s⟪sg_is_active := act⟫) i⟫) k =
  refs hw m k - group_refs hw k s + (if act then mac_refs hw (sg_virtual_mac s) (sg_sw_if_indices s) k else 0).
Proof.
  intros Hs. unfold refs. rproj. rewrite (alter_insert_lookup _ i _ s Hs), (msum_insert _ _ i s) by done.
  by destruct act.
Qed.

Lemma group_refs_active k s :
  group_refs hw k s = if sg_is_active s then mac_refs hw (sg_virtual_mac s) (sg_sw_if_indices s) k else 0.
Proof. done. Qed.

Definition steady (env : srg_env) (m : osvbng_srg_main_t) : Prop :=
  ∀ i s, sm_srgs m !! i = Some s → steady_env hw env (sg_sw_if_indices s).

Lemma set_state_exact env ok name act m m' rv :
  srg_ok m → steady env m → (∀ j, ok j = true) → exact_refs m →
  osvbng_srg_set_state env ok name act m = Some (m', rv) → exact_refs m'.
Proof.
  intros Hok Hst Hmac HC. unfold osvbng_srg_set_state. rewrite srg_lookup_ok by done. cbn [mbind option_bind].
  destruct (option_map fst _) as [i|]; [|by intros [= <- _]].
  destruct (sm_srgs m !! i) as [s|] eqn:Hs; cbn [mbind option_bind]; [|done].
  destruct (Bool.eqb act (sg_is_active s)) eqn:Ea; [by intros [= <- _]|].
  set (m1 := srg_set_interfaces _ _ _ _ _ _ _ m). intros [= <- _].
  pose proof (set_interfaces_same env ok act i (sg_virtual_mac s) 0 (sg_sw_if_indices s) m) as Hs1. fold m1 in Hs1.
  destruct (same_groups_ok m m1 Hs1 Hok) as [Hok1 _].
  assert (sm_srgs m1 !! i = Some s) as Hs' by (by rewrite (sg_same_srgs _ _ Hs1)).
  assert (∀ k, refs hw m1 k = refs hw m k) as Hr by (intros k; unfold refs; by rewrite (sg_same_srgs _ _ Hs1)).
  destruct (with_state_ok m1 i s act Hok1 Hs') as [Hok2 _].
  assert (∀ k, refs hw (m1⟪sm_srgs ::= alter (λ s, s⟪sg_is_active := act⟫) i⟫) k =
    if act then refs hw m k + mac_refs hw (sg_virtual_mac s) (sg_sw_if_indices s) k
    else refs hw m k - mac_refs hw (sg_virtual_mac s) (sg_sw_if_indices s) k) as Hr2.
  { intros k. rewrite (refs_with_state m1 i s act k Hs'), Hr, group_refs_active.
    destruct act, (sg_is_active s); try done; lia. }
  destruct act.
  - apply (counted_ext m1 _ (λ k, refs hw m k + mac_refs hw (sg_virtual_mac s) (sg_sw_if_indices s) k)); try done.
    apply (take_refs hw env ok i (sg_virtual_mac s) (sg_sw_if_indices s) 0 m); try done; [by apply (Hst i)|].
    intros k. rewrite <- Hr2. by apply refs_small.
  - apply (counted_ext m1 _ (λ k, refs hw m k - mac_refs hw (sg_virtual_mac s) (sg_sw_if_indices s) k)); try done.
    apply (drop_refs hw env ok i (sg_virtual_mac s) (sg_sw_if_indices s) 0 m); try done; [by apply (Hst i)|].
    intros k. destruct (sg_is_active s) eqn:E; [|done].
    pose proof (refs_small _ k Hok2) as Hp. rewrite Hr2 in Hp. lia.
Qed.

Lemma add_del_exact env ok name mac sws is_add slot address m m' rv :
  srg_ok m → sm_srgs m !! slot = None → (is_add = false → steady env m /\ ∀ j, ok j = true) → exact_refs m →
  osvbng_srg_add_del env ok name mac sws is_add slot address m = Some (m', rv) → exact_refs m'.
Proof.
  intros Hok Hslot Hst HC. unfold osvbng_srg_add_del. rewrite (srg_lookup_ok m name Hok). cbn [mbind option_bind].
  destruct (sm_srg_by_name m !! name) as [e|] eqn:He; cbn [option_map]; destruct is_add; try by intros [= <- _].
  - destruct (named_group m name e Hok He) as (s & Hs & Hn & Hg & _). rewrite Hs. cbn [mbind option_bind].
    destruct (Hst eq_refl) as [Hst1 Hmac].
    assert (∀ m1 s1, exact_refs m1 → sm_srgs m1 !! e.1 = Some s1 → sg_is_active s1 = false →
      exact_refs (srg_del e.1 s m1)) as Hdel.
    { intros m1 s1 HC1 Hs1 Ha1. apply (counted_ext m1 _ (refs hw m1)); [done|done| |done].
      intros k. unfold refs, srg_del. rproj. rewrite (msum_delete _ (sm_srgs m1) e.1 s1 Hs1), group_refs_active, Ha1. done. }
    destruct (sg_is_active s) eqn:Ea.
    + destruct (osvbng_srg_set_state env ok name false m) as [[m1 rv1]|] eqn:E; cbn [mbind option_bind]; [|done].
      intros [= <- _]. pose proof (set_state_exact env ok name false m m1 rv1 Hok Hst1 Hmac HC E) as HC1.
      revert E. unfold osvbng_srg_set_state. rewrite (srg_lookup_ok m name Hok), He. cbn [option_map mbind option_bind].
      rewrite Hs. cbn [mbind option_bind]. rewrite Ea. cbn [Bool.eqb]. intros [= E _].
      apply (Hdel m1 (s⟪sg_is_active := false⟫) HC1); [|done]. rewrite <- E. rproj.
      by rewrite (sg_same_srgs _ _ (set_interfaces_same _ _ _ _ _ _ _ _)), lookup_alter_eq, Hs.
    + cbn [mbind option_bind]. intros [= <- _]. by apply (Hdel m s).
  - destruct (srg_check_ifs env sws m) as [rv1|]; [by intros [= <- _]|]. cbv zeta.
    destruct (srg_lookup name _); cbn [mbind option_bind]; [|done]. intros [= <- _].
    apply (counted_ext m _ (refs hw m)); [done|done| |done]. intros k. unfold refs, srg_add. rproj.
    rewrite msum_insert_new by done. done.
Qed.

End Exact.

(** * Runs *)

Section Runs.

Context `{VlibVpp, SrgVpp}.

Inductive srg_op :=
  | OpSrgAddDel (env : srg_env) (mac_ok : nat → bool) (name mac sws : list Z) (is_add : bool) (slot address : Z)
  | OpSrgState (env : srg_env) (mac_ok : nat → bool) (name : list Z) (is_active : bool)
  | OpSrgGarp (env : srg_env) (alloc : nat → nat → list (Z * vlib_buffer_t)) (name : list Z)
      (entries : list osvbng_srg_garp_entry_arg_t).

Definition srg_exec (op : srg_op) (m : osvbng_srg_main_t) : option (osvbng_srg_main_t * srg_rv) :=
  match op with
  | OpSrgAddDel env mac_ok name mac sws is_add slot address =>
      vl_api_osvbng_srg_add_del_t_handler env mac_ok name mac sws is_add slot address m
  | OpSrgState env mac_ok name is_active => vl_api_osvbng_srg_set_state_t_handler env mac_ok name is_active m
  | OpSrgGarp env alloc name entries =>
      '(m, _, _, rv) ← vl_api_osvbng_srg_send_garp_t_handler env alloc name entries m; Some (m, rv)
  end.

(** With [Some hw] the interfaces of groups stay, on the hardware [hw], and VPP does not
    refuse an address. *)
Definition srg_op_ok (hw : option (Z → Z)) (m : osvbng_srg_main_t) (op : srg_op) : Prop :=
  match op with
  | OpSrgAddDel env mac_ok name mac sws is_add slot address =>
      (length name <= 63)%nat /\ Z.of_nat (length sws) < 2 ^ 32 /\ slot_ok slot address m /\
      ∀ hw', hw = Some hw' → is_add = false → steady hw' env m /\ ∀ j, mac_ok j = true
  | OpSrgState env mac_ok name is_active => ∀ hw', hw = Some hw' → steady hw' env m /\ ∀ j, mac_ok j = true
  | OpSrgGarp _ _ _ _ => True
  end.

Inductive srg_run (hw : option (Z → Z)) : osvbng_srg_main_t → Prop :=
  | srun_init address : srg_run hw (osvbng_srg_init address)
  | srun_step m op m' rv :
      srg_run hw m → srg_op_ok hw m op → srg_exec op m = Some (m', rv) → srg_run hw m'.

(** Announcements change counters only. *)
Definition only_counts (m m' : osvbng_srg_main_t) : Prop :=
  same_groups m m' /\ sm_hw_mac_refcount m' = sm_hw_mac_refcount m /\ sm_calls m' = sm_calls m.

Lemma count_garp_same p f m : only_counts m (count_garp p f m).
Proof. destruct p as [i|]; (split; [|done]); split; try done. intros j. apply alter_counts. Qed.

Lemma only_counts_trans m1 m2 m3 : only_counts m1 m2 → only_counts m2 m3 → only_counts m1 m3.
Proof. intros (A1 & A2 & A3) (B1 & B2 & B3). split; [by eapply same_groups_trans|]. split; congruence. Qed.

Lemma garp_entries_same env p vmac work m : only_counts m (garp_entries env p vmac work m).1.1.
Proof.
  revert m. induction work as [|[e [bi b]] work IH]; intros m; [split; [apply same_groups_refl|done]|].
  cbn [garp_entries]. destruct (garp_tx_sw_if_index env (ga_sw_if_index e)) as [tx|].
  - set (m1 := count_garp _ _ m). pose proof (count_garp_same p _ m : only_counts m m1) as Hc. specialize (IH m1).
    destruct (garp_entries env p vmac work m1) as [[m2 fr] freed]. by eapply only_counts_trans.
  - set (m1 := count_garp _ _ m). pose proof (count_garp_same p _ m : only_counts m m1) as Hc. specialize (IH m1).
    destruct (garp_entries env p vmac work m1) as [[m2 fr] freed]. by eapply only_counts_trans.
Qed.

Lemma garp_batches_same fuel env alloc k p vmac entries m r :
  garp_batches fuel env alloc k p vmac entries m = Some r → only_counts m r.1.1.1.
Proof.
  revert k entries m r. induction fuel as [|fuel IH]; intros k entries m r;
    (destruct entries as [|e entries]; [by intros [= <-]|]); [done|]. cbn [garp_batches].
  destruct (alloc k _) as [|buf bufs]; [by intros [= <-]|].
  match goal with |- context [garp_entries env p vmac ?w m] =>
    pose proof (garp_entries_same env p vmac w m) as Hs; destruct (garp_entries env p vmac w m) as [[m1 fr] freed] end.
  match goal with |- context [garp_batches fuel env alloc (S k) p vmac ?es m1] =>
    destruct (garp_batches fuel env alloc (S k) p vmac es m1) as [r1|] eqn:E end; cbn [mbind option_bind]; [|done].
  apply IH in E. destruct r1 as [[[m2 frs] freed'] rv]. intros [= <-]. cbn [fst] in *. by eapply only_counts_trans.
Qed.

Lemma send_garp_same env alloc name entries m r :
  vl_api_osvbng_srg_send_garp_t_handler env alloc name entries m = Some r → only_counts m r.1.1.1.
Proof.
  unfold vl_api_osvbng_srg_send_garp_t_handler, osvbng_srg_send_garp_batch.
  destruct (srg_lookup name m) as [[i|]|]; cbn [mbind option_bind]; [|by intros [= <-]|done].
  destruct (sm_srgs m !! i) as [s|]; cbn [mbind option_bind]; [|done]. apply garp_batches_same.
Qed.

Lemma srg_init_ok address : srg_ok (osvbng_srg_init address).
Proof.
  split; cbn; intros *; rewrite ?lookup_empty; try done. split; [done|]. by intros (s & ? & _).
Qed.

Lemma srg_run_ok hw m : srg_run hw m → srg_ok m /\ ∀ hw', hw = Some hw' → exact_refs hw' m.
Proof.
  induction 1 as [address|m op m' rv _ [IH IHx] Hop He].
  - split; [apply srg_init_ok|]. intros hw' _. split; intros k; cbn; [|set_solver|done].
    by rewrite lookup_empty.
  - destruct op as [env ok name mac sws is_add slot address|env ok name act|env alloc name entries]; cbn [srg_exec] in He.
    + destruct Hop as (Hl & Hc & Hslot & Hst). unfold vl_api_osvbng_srg_add_del_t_handler in He.
      destruct (add_del_groups env ok name mac (map clib_net_to_host_u32 sws) is_add slot address m IH Hl)
        as (m1 & E & Hok & _); [by rewrite length_map|done|].
      pose proof He as He'. rewrite E in He'. injection He' as -> _. split; [done|].
      intros hw' Hhw. apply (add_del_exact hw' env ok name mac (map clib_net_to_host_u32 sws) is_add slot address m m' rv);
        [done|apply Hslot|by apply Hst|by apply IHx|done].
    + unfold vl_api_osvbng_srg_set_state_t_handler in He.
      destruct (set_state_groups env ok name act m IH) as (m1 & E & Hok & _).
      pose proof He as He'. rewrite E in He'. injection He' as -> _. split; [done|].
      intros hw' Hhw. destruct (Hop hw' Hhw). by apply (set_state_exact hw' env ok name act m m' rv); auto.
    + destruct (vl_api_osvbng_srg_send_garp_t_handler env alloc name entries m) as [[[[m1 frs] freed] rv1]|] eqn:E;
        cbn [mbind option_bind] in He; [|done]. injection He as -> _.
      pose proof (send_garp_same env alloc name entries m _ E) as (Hs & E1 & E2). cbn [fst] in *.
      split; [by apply (same_groups_ok m m' Hs)|]. intros hw' Hhw.
      apply (exact_same hw' m); [apply Hs|done|done|by apply IHx].
Qed.

(** C18. The calls do to the plugin's tables what they say they do to a set of groups:
    whatever came before, a group is added, removed or switched, or the call is refused,
    as [group_add_del] and [group_set_state] say, nothing else changes, and no freed
    memory is read, provided that the pool of groups does not move while it has any. *)
Theorem srg_implements_groups hw m :
  srg_run hw m →
  (∀ env mac_ok name mac sws is_add slot address,
     (length name <= 63)%nat → Z.of_nat (length sws) < 2 ^ 32 → slot_ok slot address m →
     exists m', vl_api_osvbng_srg_add_del_t_handler env mac_ok name mac sws is_add slot address m =
         Some (m', (group_add_del env name mac (map clib_net_to_host_u32 sws) is_add (groups m)).2) /\
       groups m' = (group_add_del env name mac (map clib_net_to_host_u32 sws) is_add (groups m)).1) /\
  ∀ env mac_ok name is_active,
    exists m', vl_api_osvbng_srg_set_state_t_handler env mac_ok name is_active m =
        Some (m', (group_set_state name is_active (groups m)).2) /\
      groups m' = (group_set_state name is_active (groups m)).1.
Proof.
  intros [Hok _]%srg_run_ok. split.
  - intros env ok name mac sws is_add slot address Hl Hc Hs.
    destruct (add_del_groups env ok name mac (map clib_net_to_host_u32 sws) is_add slot address m Hok Hl)
      as (m' & E & _ & Hg); [by rewrite length_map|done|by exists m'].
  - intros env ok name act. destruct (set_state_groups env ok name act m Hok) as (m' & E & _ & Hg). by exists m'.
Qed.

(** ** Which addresses are on the hardware *)

Lemma msum_pos {A} (f : A → Z) (t : gmap Z A) :
  (∀ x, 0 <= f x) → msum f t ≠ 0 <-> exists i x, t !! i = Some x /\ f x ≠ 0.
Proof.
  intros Hf. split.
  - intros Hne. destruct (decide (map_Forall (λ _ x, f x = 0) t)) as [Ha|Ha].
    + exfalso. apply Hne, msum_zero. exact Ha.
    + apply map_not_Forall in Ha as (i & x & Hx & Hn); [|apply _]. by exists i, x.
  - intros (i & x & Hx & Hn). pose proof (msum_elem_le f t i x Hf Hx). pose proof (Hf x). lia.
Qed.

Lemma count_hw_pos hw h sws : count_hw hw h sws ≠ 0 <-> exists sw, sw ∈ sws /\ hw sw = h.
Proof.
  unfold count_hw. split.
  - destruct (filter (λ sw, hw sw = h) sws) as [|sw l] eqn:E; [done|]. intros _.
    assert (sw ∈ filter (λ sw, hw sw = h) sws) as [Hh Hin]%list_elem_of_filter by (rewrite E; by left). by exists sw.
  - intros (sw & Hin & Hh). assert (sw ∈ filter (λ sw, hw sw = h) sws) as Hf by (by apply list_elem_of_filter).
    destruct (filter _ _); [by apply not_elem_of_nil in Hf|]. cbn [length]. lia.
Qed.

(** C19. While the interfaces of groups stay on their hardware and VPP takes the changes, a
    hardware interface has exactly the virtual MAC addresses of the active groups with an
    interface on it, however many groups and interfaces share one, through any sequence of
    additions, deletions, switches and announcements. *)
Theorem srg_vmacs_exact hw m h mac :
  srg_run (Some hw) m →
  (h, mac) ∈ installed (sm_calls m) <->
  exists name g, groups m !! name = Some g /\ gr_active g = true /\ gr_virtual_mac g = mac /\
    exists sw, sw ∈ gr_interfaces g /\ hw sw = h.
Proof.
  intros [Hok Hx]%srg_run_ok. specialize (Hx hw eq_refl). rewrite (ct_installed _ _ Hx). unfold refs.
  rewrite msum_pos by (intros; apply group_refs_range). split.
  - intros (i & s & Hs & Hr). unfold group_refs in Hr. cbn [fst snd] in Hr.
    destruct (sg_is_active s) eqn:Ha; [|done]. destruct (decide (sg_virtual_mac s = mac)) as [Hm|]; [|done].
    exists (sg_srg_name s), (group_of s). split_and!; [|done|done|by apply count_hw_pos].
    rewrite groups_lookup, (so_name m Hok i s Hs) by done. cbn [fst]. by rewrite Hs.
  - intros (name & g & Hg & Ha & Hm & Hsw). rewrite groups_lookup in Hg by done.
    destruct (sm_srg_by_name m !! name) as [e|]; [|done]. destruct (sm_srgs m !! e.1) as [s|] eqn:Hs; [|done].
    injection Hg as <-. exists e.1, s. split; [done|]. unfold group_refs. cbn [fst snd].
    cbn [group_of gr_active gr_virtual_mac gr_interfaces] in *. rewrite Ha, decide_True by done. by apply count_hw_pos.
Qed.

End Runs.

(** * An example *)

#[export] Instance sample_srg_vpp : SrgVpp := {|
  ETHERNET_MIN_PACKET_BYTES := 64;
  ip6_tcp_udp_icmp_compute_checksum b o := 4660
|}.
#[export] Instance sample_srg_vpp_laws : SrgVppLaws.
Proof. split. cbn. lia. Qed.

(** Interfaces 100 to 199 are on hardware 1, and so on; [gone] is one that is not there. *)
Definition sample_srg_env (gone : Z) : srg_env :=
  mkSrgEnv (λ w, w =? gone) (λ w, w / 100) (λ h, h + 1) (λ h, h * 100).
Definition sample_vmac : list Z := [0; 0; 94; 0; 1; 7].
Definition sample_add (name : Z) (sws : list Z) (slot : Z) : srg_op :=
  OpSrgAddDel (sample_srg_env 0) (λ _, true) [name] sample_vmac (map host32 sws) true slot 4096.
Definition sample_state (name : Z) (act : bool) : srg_op := OpSrgState (sample_srg_env 0) (λ _, true) [name] act.

Definition srg_do (op : srg_op) (m : osvbng_srg_main_t) : osvbng_srg_main_t :=
  match srg_exec op m with Some (m, _) => m | None => m end.

Lemma srg_do_run hw m op : srg_run hw m → srg_op_ok hw m op → srg_run hw (srg_do op m).
Proof.
  intros Hm Hop. unfold srg_do. destruct (srg_exec op m) as [[m' rv]|] eqn:E; [|done].
  by apply (srun_step hw m op m' rv).
Qed.

(** Groups A and B have the same address, and interfaces on the same hardware. *)
Definition sample_srg_1 : osvbng_srg_main_t := srg_do (sample_add 65 [101; 102] 0) (osvbng_srg_init 4096).
Definition sample_srg_2 : osvbng_srg_main_t := srg_do (sample_add 66 [103] 1) sample_srg_1.
Definition sample_srg_3 : osvbng_srg_main_t := srg_do (sample_state 65 true) sample_srg_2.
Definition sample_srg : osvbng_srg_main_t := srg_do (sample_state 66 true) sample_srg_3.

Lemma sample_steady m :
  map_Forall (λ _ s, Forall (λ sw, (sw =? 0) = false) (sg_sw_if_indices s)) (sm_srgs m) →
  steady (λ w, w / 100) (sample_srg_env 0) m.
Proof. intros Hm i s Hs. specialize (Hm i s Hs). eapply Forall_impl; [exact Hm|]. by intros sw Hsw. Qed.

Lemma sample_srg_run : srg_run (Some (λ w, w / 100)) sample_srg.
Proof.
  assert (∀ m name act, map_Forall (λ _ s, Forall (λ sw, (sw =? 0) = false) (sg_sw_if_indices s)) (sm_srgs m) →
    srg_op_ok (Some (λ w, w / 100)) m (sample_state name act)) as Hstate.
  { intros m name act Hm hw' [= <-]. split; [by apply sample_steady|done]. }
  assert (∀ m name sws slot, Z.of_nat (length sws) < 2 ^ 32 → slot_ok slot 4096 m →
    srg_op_ok (Some (λ w, w / 100)) m (sample_add name sws slot)) as Hadd.
  { intros m name sws slot Hl Hs. split_and!; [cbn; lia|by rewrite length_map|done|by intros]. }
  apply srg_do_run; [apply srg_do_run; [apply srg_do_run; [apply srg_do_run; [apply srun_init|]|]|]|].
  - apply Hadd; [done|]. split_and!; [done|done|by left].
  - apply Hadd; [done|]. split_and!; [done|by vm_compute|by left].
  - apply Hstate. apply (bool_decide_unpack _). by vm_compute.
  - apply Hstate. apply (bool_decide_unpack _). by vm_compute.
Qed.

Lemma srg_implements_groups_witness :
  exists m', vl_api_osvbng_srg_set_state_t_handler (sample_srg_env 0) (λ _, true) [65] false sample_srg =
      Some (m', (group_set_state [65] false (groups sample_srg)).2) /\
    groups m' = (group_set_state [65] false (groups sample_srg)).1.
Proof. apply (srg_implements_groups (Some (λ w, w / 100)) sample_srg sample_srg_run). Defined.

Lemma srg_vmacs_exact_witness :
  (1, sample_vmac) ∈ installed (sm_calls sample_srg) <->
  exists name g, groups sample_srg !! name = Some g /\ gr_active g = true /\ gr_virtual_mac g = sample_vmac /\
    exists sw, sw ∈ gr_interfaces g /\ sw / 100 = 1.
Proof. apply (srg_vmacs_exact (λ w, w / 100)). exact sample_srg_run. Defined.

(** One call to VPP for three interfaces. *)
Example sample_srg_calls : sm_calls sample_srg = [MacAddDel 1 sample_vmac true true].
Proof. by vm_compute. Qed.

(** What the theorem's conditions exclude.  If VPP refuses A's address, A gives back B's
    reference when it is switched off, and B, still active, is without its address. *)
Example srg_failed_add_takes_reference :
  let m := srg_do (OpSrgState (sample_srg_env 0) (λ _, false) [65] true) sample_srg_2 in
  let m := srg_do (sample_state 66 true) m in
  let m := srg_do (sample_state 65 false) m in
  option_map gr_active (groups m !! [66]) = Some true /\ bool_decide ((1, sample_vmac) ∈ installed (sm_calls m)) = false.
Proof. by vm_compute. Qed.

(** If B's interface goes while B is active, the address stays after B and A are switched off. *)
Example srg_deleted_interface_keeps_address :
  let m := srg_do (OpSrgState (sample_srg_env 103) (λ _, true) [66] false) sample_srg in
  let m := srg_do (sample_state 65 false) m in
  option_map gr_active (groups m !! [65]) = Some false /\ option_map gr_active (groups m !! [66]) = Some false /\
  bool_decide ((1, sample_vmac) ∈ installed (sm_calls m)) = true.
Proof. by vm_compute. Qed.

(** If the pool moves when it grows, the names in the table are in freed memory. *)
Example srg_moved_pool_faults :
  srg_exec (OpSrgAddDel (sample_srg_env 0) (λ _, true) [66] sample_vmac [host32 103] true 1 8192) sample_srg_1 = None.
Proof. by vm_compute. Qed.
