(* ===== verification/SrgFrames.v ===== *)
(** The announcements of a redundancy group as frames: what goes out, on which interface,
    and what is counted. *)

From S2P Require Import Prelude Packet Access TxFrames L2gwPackets SrgGroup SrgGarp SrgSystem.

#[local] Open Scope Z_scope.

(** * What an entry asks for *)

(** Its tags: outer and inner, or the one that is not 0. *)
Definition garp_tags (e : osvbng_srg_garp_entry_arg_t) : list (Z * Z) :=
  let outer_tpid := if ga_outer_tpid e =? 0 then ETHERNET_TYPE_VLAN else ga_outer_tpid e in
  (if ga_outer_vlan e =? 0 then [] else [(outer_tpid, Z.land (ga_outer_vlan e) 4095)]) ++
  (if ga_inner_vlan e =? 0 then [] else [(ETHERNET_TYPE_VLAN, Z.land (ga_inner_vlan e) 4095)]).

(** The frame, before it is padded; [ck] is the checksum field of an advertisement. *)
Definition garp_frame (vmac : list Z) (e : osvbng_srg_garp_entry_arg_t) (ck : Z) : l2_frame :=
  match ga_ip e with
  | SrgIp4 a => mkFrame (broadcast_mac ++ vmac) (garp_tags e) (be16 ETHERNET_TYPE_ARP ++ garp_arp vmac a)
  | SrgIp6 a => mkFrame (all_nodes_mac ++ vmac) (garp_tags e)
      (be16 ETHERNET_TYPE_IP6 ++ na_ip6_header vmac ++ [136; 0] ++ le16 ck ++ drop 4 (na_payload vmac a))
  end.

Lemma header_frame vmac dst e ty :
  garp_l2_header vmac dst e ty = (dst ++ vmac) ++ concat (map tag_bytes (garp_tags e)) ++ be16 ty.
Proof.
  unfold garp_l2_header, garp_tags. rewrite <- app_assoc. do 2 f_equal.
  destruct (ga_outer_vlan e =? 0), (ga_inner_vlan e =? 0); reflexivity.
Qed.

Section Frames.

Context `{VlibVppLaws, SrgVpp, !SrgVppLaws}.

Definition padded (l : list Z) : list Z := l ++ repeat 0 (Z.to_nat (ETHERNET_MIN_PACKET_BYTES - Z.of_nat (length l))).

(** The checksum is VPP's, of the packet with 0 in its field. *)
Definition na_checksum (vmac ip6 : list Z) (ck : Z) : Prop :=
  exists b o, lies (b_data b) o (na_ip6_header vmac ++ na_payload vmac ip6) /\
    ck = ip6_tcp_udp_icmp_compute_checksum b o.

(** [l] announces the entry. *)
Definition announces (vmac : list Z) (e : osvbng_srg_garp_entry_arg_t) (l : list Z) : Prop :=
  exists ck, l = padded (frame_bytes (garp_frame vmac e ck)) /\
    match ga_ip e with SrgIp4 _ => True | SrgIp6 a => na_checksum vmac a ck end.

(** A buffer as [vlib_buffer_alloc] gives it. *)
Definition fresh_buffer (b : vlib_buffer_t) : Prop := b_current_data b = 0 /\ b_current_length b = 0.

Definition entry_ok (e : osvbng_srg_garp_entry_arg_t) : Prop :=
  match ga_ip e with SrgIp4 a => length a = 4%nat | SrgIp6 a => length a = 16%nat end.

(** ** Building *)

Lemma header_length vmac dst e ty :
  length vmac = 6%nat → length dst = 6%nat → (14 <= length (garp_l2_header vmac dst e ty) <= 22)%nat.
Proof.
  intros Hv Hd. rewrite header_frame, !length_app, tags_length, Hv, Hd, be16_length. unfold garp_tags.
  destruct (ga_outer_vlan e =? 0), (ga_inner_vlan e =? 0); cbn [app length]; lia.
Qed.

(** The Ethernet header written into a fresh buffer. *)
Lemma put_header_eq l b :
  fresh_buffer b → (length l < 100)%nat →
  b_data (put_header l b) = put (b_data b) 0 l /\ b_current_data (put_header l b) = Z.of_nat (length l) /\
  b_current_length (put_header l b) = 0 /\ b_tx (put_header l b) = b_tx b.
Proof.
  intros [Hd Hn] Hl. unfold put_header. rewrite advance_eq; rproj; rewrite ?Hd, ?Hn; [|lia..].
  split_and!; [done|lia|lia|done].
Qed.

(** A packet back at its first byte, and padded. *)
Lemma reset_pad b l tx :
  b_tx b = tx → lies (b_data b) 0 l → b_current_data b + b_current_length b = Z.of_nat (length l) → 0 <= b_current_data b →
  contents (garp_pad (vlib_buffer_reset b)) = padded l /\ b_tx (garp_pad (vlib_buffer_reset b)) = tx.
Proof.
  intros <- Hl Hn Hd. rewrite reset_eq by done. split.
  2: { unfold garp_pad, put_part. by destruct (_ <? _). } set (b1 := b⟪b_current_length ::= _⟫⟪b_current_data := 0⟫).
  assert (b_current_length b1 = Z.of_nat (length l)) as N1 by (unfold b1; rproj; lia).
  assert (b_current_data b1 = 0) as N2 by done. assert (b_data b1 = b_data b) as N3 by done.
  clearbody b1. pose proof min_packet_bytes as Hmin. unfold garp_pad, padded. rewrite N1.
  destruct (Z.ltb_spec (Z.of_nat (length l)) ETHERNET_MIN_PACKET_BYTES) as [Hlt|Hge].
  - set (z := repeat 0 _). unfold put_part.
    apply contents_lies; rproj; rewrite ?N1, ?N2, ?N3; [lia|]. split; [rewrite length_app; lia|].
    rewrite lies_app. split; [rewrite lies_put_out by lia; exact Hl|apply lies_put].
  - rewrite (Z2Nat.nonpos) by lia. cbn [repeat]. rewrite app_nil_r.
    apply contents_lies; rewrite ?N1, ?N2, ?N3; [lia|done].
Qed.

Lemma garp_built b e vmac a :
  fresh_buffer b → length vmac = 6%nat → ga_ip e = SrgIp4 a →
  contents (garp_pad (vlib_buffer_reset (osvbng_srg_garp_build b e a vmac))) =
    padded (frame_bytes (garp_frame vmac e 0)) /\
  b_tx (garp_pad (vlib_buffer_reset (osvbng_srg_garp_build b e a vmac))) = b_tx b.
Proof.
  intros Hb Hv Ha. unfold osvbng_srg_garp_build, garp_frame. rewrite Ha. unfold frame_bytes. cbn [fr_macs fr_tags fr_rest].
  set (hdr := garp_l2_header vmac broadcast_mac e ETHERNET_TYPE_ARP).
  assert ((14 <= length hdr <= 22)%nat) as Hh by (by apply header_length).
  replace (_ ++ concat _ ++ be16 _ ++ _) with (hdr ++ garp_arp vmac a)
    by (unfold hdr; by rewrite header_frame, <- !app_assoc).
  destruct (put_header_eq hdr b Hb) as (E1 & E2 & E3 & E4); [lia|]. unfold put_part.
  apply reset_pad; rproj; rewrite ?E1, ?E2, ?E3, ?length_app; [exact E4| |lia..].
  rewrite lies_app. split; [rewrite lies_put_out by lia; apply lies_put|].
  eapply lies_at; [apply lies_put|lia].
Qed.

Lemma na_built b e vmac a :
  fresh_buffer b → length vmac = 6%nat → length a = 16%nat → ga_ip e = SrgIp6 a →
  exists ck, na_checksum vmac a ck /\
    contents (garp_pad (vlib_buffer_reset (osvbng_srg_na_build b e a vmac))) =
      padded (frame_bytes (garp_frame vmac e ck)) /\
    b_tx (garp_pad (vlib_buffer_reset (osvbng_srg_na_build b e a vmac))) = b_tx b.
Proof.
  intros Hb Hv Hl Ha. unfold osvbng_srg_na_build, garp_frame. rewrite Ha. unfold frame_bytes. cbn [fr_macs fr_tags fr_rest].
  set (hdr := garp_l2_header vmac all_nodes_mac e ETHERNET_TYPE_IP6).
  assert ((14 <= length hdr <= 22)%nat) as Hh by (by apply header_length).
  destruct (put_header_eq hdr b Hb) as (E1 & E2 & E3 & E4); [lia|].
  set (h6 := na_ip6_header vmac). set (pay := na_payload vmac a). set (b1 := put_header hdr b) in *.
  assert (length h6 = 40%nat) as L6 by done.
  assert (length pay = 32%nat) as Lp by (unfold pay, na_payload; rewrite !length_app, Hl, Hv; done).
  cbv zeta. set (b2 := put_part 40 pay (put_part 0 h6 b1)).
  assert (b_data b2 = put (put (b_data b1) (Z.of_nat (length hdr) + 0) h6) (Z.of_nat (length hdr) + 40) pay) as D2
    by (unfold b2, put_part; rproj; by rewrite E2).
  assert (b_current_data b2 = Z.of_nat (length hdr)) as C2 by exact E2.
  assert (b_current_length b2 = 72) as N2 by (unfold b2, put_part; rproj; rewrite E3, L6, Lp; lia).
  rewrite E2. exists (ip6_tcp_udp_icmp_compute_checksum b2 (Z.of_nat (length hdr))). set (ck := ip6_tcp_udp_icmp_compute_checksum _ _).
  assert (lies (b_data b2) 0 (hdr ++ h6 ++ pay)) as Hlies.
  { rewrite D2, E1, !lies_app. split_and!.
    - rewrite !lies_put_out by lia. apply lies_put.
    - rewrite lies_put_out by lia. eapply lies_at; [apply lies_put|lia].
    - eapply lies_at; [apply lies_put|lia]. }
  rewrite !lies_app in Hlies. destruct Hlies as (M1 & M2 & M3). split.
  { exists b2, (Z.of_nat (length hdr)). split; [|done]. rewrite lies_app. split; [eapply lies_at; [exact M2|lia]|].
    eapply lies_at; [exact M3|]. change (na_ip6_header vmac) with h6. lia. }
  replace (_ ++ concat _ ++ be16 _ ++ _) with (hdr ++ h6 ++ [136; 0] ++ le16 ck ++ drop 4 pay)
    by (unfold hdr; by rewrite header_frame, <- !app_assoc).
  change pay with ([136; 0] ++ [0; 0] ++ drop 4 pay) in M3. rewrite !lies_app in M3. destruct M3 as (M3 & _ & M4).
  apply reset_pad; rproj; rewrite ?C2, ?N2.
  - exact E4.
  - apply (lies_ext (put (b_data b2) (Z.of_nat (length hdr) + 42) (le16 ck))).
    { intros p _. by rewrite st16_put. }
    rewrite !lies_app. split_and!.
    + rewrite lies_put_out by lia. exact M1.
    + rewrite lies_put_out by lia. exact M2.
    + rewrite lies_put_out by (cbn; lia). exact M3.
    + eapply lies_at; [apply lies_put|rewrite L6; cbn; lia].
    + rewrite lies_put_out by (cbn; lia). eapply lies_at; [exact M4|cbn; lia].
  - rewrite !length_app, length_drop, L6, Lp. cbn. lia.
  - lia.
Qed.

Lemma frame_built e vmac tx b :
  fresh_buffer b → length vmac = 6%nat → entry_ok e →
  b_tx (garp_frame_buffer e vmac tx b) = tx /\ announces vmac e (contents (garp_frame_buffer e vmac tx b)).
Proof.
  intros Hb Hv He. unfold entry_ok in He. unfold garp_frame_buffer.
  set (b0 := b⟪b_rx := 0⟫⟪b_tx := tx⟫). assert (fresh_buffer b0) as Hb0 by exact Hb.
  assert (b_tx b0 = tx) as Ht by reflexivity. clearbody b0. cbv zeta. unfold announces.
  destruct (ga_ip e) as [a|a] eqn:Ha.
  - destruct (garp_built b0 e vmac a) as [Hc Htx]; [assumption..|]. rewrite Htx. split; [exact Ht|].
    exists 0. split; [exact Hc|exact I].
  - destruct (na_built b0 e vmac a) as (ck & Hck & Hc & Htx); [assumption..|]. rewrite Htx. split; [exact Ht|].
    exists ck. split; [exact Hc|exact Hck].
Qed.

(** ** The entries of a batch *)

(** The entries whose interface can transmit, with its wire parent. *)
Definition on_wire (env : srg_env) (entries : list osvbng_srg_garp_entry_arg_t) : list (osvbng_srg_garp_entry_arg_t * Z) :=
  omap (λ e, pair e <$> garp_tx_sw_if_index env (ga_sw_if_index e)) entries.

(** A buffer for an entry. *)
Definition sends (vmac : list Z) (w : osvbng_srg_garp_entry_arg_t * Z) (v : Z * vlib_buffer_t) : Prop :=
  b_tx v.2 = w.2 /\ announces vmac w.1 (contents v.2).

(** The entries sent for an address family, and the entries refused. *)
Definition wire_count (env : srg_env) (six : bool) (entries : list osvbng_srg_garp_entry_arg_t) : Z :=
  Z.of_nat (length (filter (λ w, is_ip6 w.1 = six) (on_wire env entries))).
Definition refused_count (env : srg_env) (entries : list osvbng_srg_garp_entry_arg_t) : Z :=
  Z.of_nat (length (filter (λ e, garp_tx_sw_if_index env (ga_sw_if_index e) = None) entries)).

(** The 64-bit counters of the group count the entries; the others stay. *)
Record counts_entries (env : srg_env) (i : Z) (entries : list osvbng_srg_garp_entry_arg_t)
    (m m' : osvbng_srg_main_t) : Prop := {
  ce_group c : sm_counts m !! i = Some c → exists c', sm_counts m' !! i = Some c' /\
    u64 (sc_garp_sent c') = u64 (sc_garp_sent c + wire_count env false entries) /\
    u64 (sc_na_sent c') = u64 (sc_na_sent c + wire_count env true entries) /\
    u64 (sc_garp_skipped c') = u64 (sc_garp_skipped c + refused_count env entries) /\
    sc_mac_adds c' = sc_mac_adds c /\ sc_mac_removes c' = sc_mac_removes c;
  ce_others j : j ≠ i → sm_counts m' !! j = sm_counts m !! j
}.

Lemma on_wire_app env l1 l2 : on_wire env (l1 ++ l2) = on_wire env l1 ++ on_wire env l2.
Proof. apply omap_app. Qed.
Lemma wire_count_app env six l1 l2 :
  wire_count env six (l1 ++ l2) = wire_count env six l1 + wire_count env six l2.
Proof. unfold wire_count. rewrite on_wire_app, filter_app, length_app. lia. Qed.
Lemma refused_count_app env l1 l2 : refused_count env (l1 ++ l2) = refused_count env l1 + refused_count env l2.
Proof. unfold refused_count. rewrite filter_app, length_app. lia. Qed.

Lemma u64_add_cong a b c : u64 a = u64 b → u64 (a + c) = u64 (b + c).
Proof. unfold u64. intros E. rewrite <- Z.add_mod_idemp_l, E, Z.add_mod_idemp_l by done. done. Qed.

Lemma counts_nil env i m : counts_entries env i [] m m.
Proof. split; [|done]. intros c Hc. exists c. cbn. rewrite !Z.add_0_r. done. Qed.

Lemma counts_app env i l1 l2 m1 m2 m3 :
  counts_entries env i l1 m1 m2 → counts_entries env i l2 m2 m3 → counts_entries env i (l1 ++ l2) m1 m3.
Proof.
  intros [A1 A2] [B1 B2]. split.
  - intros c Hc. destruct (A1 c Hc) as (c1 & Hc1 & E1 & E2 & E3 & E4 & E5).
    destruct (B1 c1 Hc1) as (c2 & Hc2 & F1 & F2 & F3 & F4 & F5). exists c2.
    rewrite !wire_count_app, refused_count_app, F1, F2, F3, F4, F5, !Z.add_assoc.
    rewrite (u64_add_cong _ _ _ E1), (u64_add_cong _ _ _ E2), (u64_add_cong _ _ _ E3). done.
  - intros j Hj. by rewrite B2, A2.
Qed.

(** One entry is counted. *)
Lemma counts_one env i e m :
  counts_entries env i [e] m
    (count_garp (Some i) (match garp_tx_sw_if_index env (ga_sw_if_index e) with
       | None => λ c, c⟪sc_garp_skipped ::= λ n, u64 (n + 1)⟫
       | Some _ => λ c, if is_ip6 e then c⟪sc_na_sent ::= λ n, u64 (n + 1)⟫ else c⟪sc_garp_sent ::= λ n, u64 (n + 1)⟫
       end) m).
Proof.
  assert (∀ n, u64 (u64 n) = u64 n) as Huu by (intros n; unfold u64; by rewrite Z.mod_mod).
  split.
  - intros c Hc. cbn [count_garp]. rproj. rewrite lookup_alter_eq, Hc. eexists. split; [reflexivity|].
    unfold wire_count, refused_count, on_wire. cbn [omap list_omap]. rewrite filter_cons, filter_nil.
    destruct (garp_tx_sw_if_index env (ga_sw_if_index e)) as [tx|]; cbn [fmap option_fmap option_map].
    + rewrite filter_cons, filter_cons, !filter_nil. cbn [fst].
      destruct (is_ip6 e); cbn; rproj; rewrite ?Huu, ?Z.add_0_r; done.
    + rewrite !filter_nil. cbn. rproj. rewrite ?Huu, ?Z.add_0_r. done.
  - intros j Hj. cbn [count_garp]. rproj. by rewrite lookup_alter_ne.
Qed.

Lemma entries_sent env i vmac work m :
  length vmac = 6%nat → Forall (λ w, entry_ok w.1 /\ fresh_buffer w.2.2) work →
  let '(m', frame, freed) := garp_entries env (Some i) vmac work m in
  Forall2 (sends vmac) (on_wire env work.*1) frame /\ frame.*1 ++ freed ≡ₚ work.*2.*1 /\
  counts_entries env i work.*1 m m'.
Proof.
  intros Hv. revert m. induction work as [|[e [bi b]] work IH]; intros m Hw.
  { split_and!; [constructor|done|apply counts_nil]. }
  apply Forall_cons in Hw as [[He Hb] Hw]. cbn [garp_entries fst snd] in *.
  pose proof (counts_one env i e m) as Hone. cbn [fmap list_fmap fst snd].
  change (on_wire env (e :: work.*1)) with (on_wire env ([e] ++ work.*1)).
  rewrite on_wire_app. change (e :: work.*1) with ([e] ++ work.*1).
  unfold on_wire at 1. cbn [omap list_omap].
  destruct (garp_tx_sw_if_index env (ga_sw_if_index e)) as [tx|]; cbn [fmap option_fmap option_map];
    set (m1 := count_garp _ _ m) in *; specialize (IH m1 Hw);
    destruct (garp_entries env (Some i) vmac work m1) as [[m2 fr] freed]; destruct IH as (IH1 & IH2 & IH3).
  - split_and!; [|cbn; by constructor|by eapply counts_app].
    constructor; [|done]. apply frame_built; assumption.
  - split_and!; [done| |by eapply counts_app]. rewrite <- IH2. symmetry. apply Permutation_middle.
Qed.

(** ** The batches *)

(** [vlib_buffer_alloc] gives at most what it was asked for. *)
Definition alloc_ok (alloc : nat → nat → list (Z * vlib_buffer_t)) : Prop :=
  ∀ k n, (length (alloc k n) <= n)%nat /\ Forall (λ v, fresh_buffer v.2) (alloc k n).

(** What the allocations from the [k]-th gave, asked for [ns] buffers. *)
Fixpoint taken (alloc : nat → nat → list (Z * vlib_buffer_t)) (k : nat) (ns : list nat) : list (Z * vlib_buffer_t) :=
  match ns with
  | [] => []
  | n :: ns => alloc k n ++ taken alloc (S k) ns
  end.

(** The entries sent and refused are the first [length done]; their buffers are in frames
    or freed.  The loop stops before [rest] only when there is no buffer. *)
Record announced (env : srg_env) (alloc : nat → nat → list (Z * vlib_buffer_t)) (k : nat) (i : Z) (vmac : list Z)
    (handled rest : list osvbng_srg_garp_entry_arg_t) (m m' : osvbng_srg_main_t)
    (frames : list (list (Z * vlib_buffer_t))) (freed : list Z) (rv : srg_rv) : Prop := {
  an_frames : Forall2 (sends vmac) (on_wire env handled) (concat frames);
  an_size : Forall (λ f, Z.of_nat (length f) <= VLIB_FRAME_SIZE) frames;
  an_buffers : exists ns, length ns = length frames /\ (concat frames).*1 ++ freed ≡ₚ (taken alloc k ns).*1 /\
    length handled = length (taken alloc k ns);
  an_counts : counts_entries env i handled m m';
  an_end : match rest with
           | [] => rv = SRG_OK
           | _ => rv = SRG_FAILED /\
               alloc (k + length frames)%nat (Nat.min (length rest) (Z.to_nat VLIB_FRAME_SIZE)) = []
           end
}.

Lemma batches_sent fuel env alloc k i vmac entries m :
  (length entries <= fuel)%nat → length vmac = 6%nat → Forall entry_ok entries → alloc_ok alloc →
  exists m' frames freed rv handled rest,
    garp_batches fuel env alloc k (Some i) vmac entries m = Some (m', frames, freed, rv) /\
    entries = handled ++ rest /\ announced env alloc k i vmac handled rest m m' frames freed rv.
Proof.
  intros Hf Hv He Ha. revert k entries m Hf He.
  induction fuel as [|fuel IH]; intros k entries m Hf He; (destruct (decide (entries = [])) as [->|Hne];
    [exists m, [], [], SRG_OK, [], []; split; [done|]; split; [done|];
     split; [constructor|constructor|by exists []|apply counts_nil|done]|]).
  { destruct entries; [done|cbn in Hf; lia]. }
  set (n := Nat.min (length entries) (Z.to_nat VLIB_FRAME_SIZE)).
  assert (garp_batches (S fuel) env alloc k (Some i) vmac entries m =
    match alloc k n with
    | [] => Some (m, [], [], SRG_FAILED)
    | bufs =>
        let n := Nat.min n (length bufs) in
        let '(m, frame, freed) := garp_entries env (Some i) vmac (zip (take n entries) (take n bufs)) m in
        '(m, frames, freed', rv) ← garp_batches fuel env alloc (S k) (Some i) vmac (drop n entries) m;
        Some (m, frame :: frames, freed ++ freed', rv)
    end) as -> by (by destruct entries).
  destruct (Ha k n) as [Hl Hfresh]. destruct (alloc k n) as [|buf bufs] eqn:Ek.
  { exists m, [], [], SRG_FAILED, [], entries. split; [done|]. split; [done|].
    split; [constructor|constructor|exists []; done|apply counts_nil|].
    cbn [length]. rewrite Nat.add_0_r. fold n. by destruct entries. }
  set (all := buf :: bufs) in *. assert (0 < length all)%nat by (cbn; lia). clearbody all. clear buf bufs.
  cbv zeta. rewrite Nat.min_r by done. rewrite (take_ge all) by done.
  assert (length all <= length entries)%nat as Hle by lia.
  assert (length (take (length all) entries) = length all) as Hlt by (rewrite length_take; lia).
  set (work := zip (take (length all) entries) all).
  assert (work.*1 = take (length all) entries) as W1 by (apply fst_zip; lia).
  assert (work.*2 = all) as W2 by (apply snd_zip; lia).
  pose proof (entries_sent env i vmac work m Hv) as Hs.
  destruct (garp_entries env (Some i) vmac work m) as [[m1 frame] freed] eqn:Eg.
  destruct Hs as (S1 & S2 & S3).
  { apply Forall_forall. intros [e v] Hin. pose proof (list_elem_of_fmap_2 fst _ _ Hin) as Hin1.
    pose proof (list_elem_of_fmap_2 snd _ _ Hin) as Hin2. rewrite W1 in Hin1. rewrite W2 in Hin2. cbn [fst snd] in *.
    split; [|by apply (Forall_forall _ _) with (1 := Hfresh)].
    rewrite Forall_forall in He. apply He. by apply elem_of_take in Hin1 as (? & ?%list_elem_of_lookup_2 & _). }
  rewrite W1 in S1, S3. rewrite W2 in S2.
  destruct (IH (S k) (drop (length all) entries) m1) as (m' & frames & freed' & rv & handled & rest & E & Ed & A).
  { rewrite length_drop. lia. }
  { by apply Forall_drop. }
  rewrite E. cbn [mbind option_bind]. destruct A as [A1 A2 (ns & A3 & A4 & A5) A6 A7].
  exists m', (frame :: frames), (freed ++ freed'), rv, (take (length all) entries ++ handled), rest.
  split; [done|]. split; [by rewrite <- app_assoc, <- Ed, take_drop|]. split.
  - rewrite on_wire_app. cbn [concat]. by apply Forall2_app.
  - constructor; [|done]. pose proof (Permutation_length S2) as Hsz. rewrite length_app, !length_fmap in Hsz.
    unfold n in Hl. unfold VLIB_FRAME_SIZE in *. lia.
  - exists (n :: ns). cbn [length taken concat]. rewrite Ek. split_and!; [lia| |].
    + rewrite !fmap_app, <- S2, <- A4. solve_Permutation.
    + rewrite !length_app, Hlt. lia.
  - by eapply counts_app.
  - cbn [length]. by rewrite <- Nat.add_succ_comm.
Qed.

End Frames.

(** C37. The announcements of a group: asked for any entries, the handler returns, and the
    entries it gets to are, in their order, each either counted as skipped, because their
    interface cannot transmit, or sent on the wire parent of their interface as a padded
    Ethernet frame with the entry's tags, from the group's virtual MAC address, that is an
    ARP reply to everyone or a neighbour advertisement to all nodes, and counted as such.
    The ARP reply's sender hardware address is the virtual MAC address and its target
    hardware address is the broadcast address, both with the entry's address for protocol
    address: this is what the code writes, where the comment at osvbng_srg_garp.c:72 says
    that both hardware addresses are the virtual MAC address.
    No frame has more than 256 buffers, each buffer allocated is in one frame or is freed, and
    it is only for want of buffers that entries are left; then the call fails. *)
Theorem srg_announces `{VlibVppLaws, SrgVpp, !SrgVppLaws} hw m name g env alloc entries :
  srg_run hw m → groups m !! name = Some g → length (gr_virtual_mac g) = 6%nat →
  Forall entry_ok entries → alloc_ok alloc →
  exists i m' frames freed rv handled rest,
    sm_srg_by_name m !! name = Some (i, sm_pool_address m) /\
    vl_api_osvbng_srg_send_garp_t_handler env alloc name entries m = Some (m', frames, freed, rv) /\
    map garp_entry_arg entries = handled ++ rest /\
    announced env alloc 0 i (gr_virtual_mac g) handled rest m m' frames freed rv /\
    groups m' = groups m.
Proof.
  intros [Hok _]%srg_run_ok Hg Hv He Ha. pose proof Hg as Hg'. rewrite groups_lookup in Hg' by done.
  destruct (sm_srg_by_name m !! name) as [e|] eqn:Hn; [|done].
  destruct (named_group m name e Hok Hn) as (s & Hs & _ & Hg2 & Ee). rewrite Hg in Hg2. injection Hg2 as ->.
  destruct (batches_sent (length (map garp_entry_arg entries)) env alloc 0 e.1 (sg_virtual_mac s)
    (map garp_entry_arg entries) m) as (m' & frames & freed & rv & handled & rest & E & Ed & A); [done|done| |done|].
  { apply Forall_map. eapply Forall_impl; [exact He|]. by intros []. }
  exists e.1, m', frames, freed, rv, handled, rest.
  assert (vl_api_osvbng_srg_send_garp_t_handler env alloc name entries m = Some (m', frames, freed, rv)) as Eh.
  { unfold vl_api_osvbng_srg_send_garp_t_handler, osvbng_srg_send_garp_batch.
    rewrite !srg_lookup_ok, Hn by done. cbn [option_map mbind option_bind]. rewrite Hs. exact E. }
  split_and!; [by f_equal|exact Eh|done|exact A|].
  pose proof (send_garp_same env alloc name entries m _ Eh) as (Hsame & _). by apply (same_groups_ok m m' Hsame).
Qed.

(** * An example *)

Definition sample_fresh : vlib_buffer_t := mkBuffer (λ _, 0) 0 0 0 0 0 0 0 false false None.
Definition sample_alloc (most k n : nat) : list (Z * vlib_buffer_t) :=
  map (λ j, (Z.of_nat (1000 * k + j), sample_fresh)) (seq 0 (Nat.min most n)).
Definition sample_garps : list osvbng_srg_garp_entry_arg_t :=
  [mkGarp (host32 101) (host16 10) (host16 20) (host16 34984) (SrgIp4 [10; 0; 0; 1]);
   mkGarp (host32 7) 0 0 0 (SrgIp4 [10; 0; 0; 2]);
   mkGarp (host32 102) (host16 10) 0 0 (SrgIp6 ([254; 128] ++ repeat 0 13 ++ [1]))].

Lemma sample_alloc_ok most : alloc_ok (sample_alloc most).
Proof.
  intros k n. unfold sample_alloc. split; [rewrite length_map, length_seq; lia|].
  apply Forall_map, Forall_forall. by intros j _.
Qed.

Lemma srg_announces_witness :
  exists i m' frames freed rv handled rest,
    sm_srg_by_name sample_srg !! [65] = Some (i, sm_pool_address sample_srg) /\
    vl_api_osvbng_srg_send_garp_t_handler (sample_srg_env 7) (sample_alloc 2) [65] sample_garps sample_srg =
      Some (m', frames, freed, rv) /\
    map garp_entry_arg sample_garps = handled ++ rest /\
    announced (sample_srg_env 7) (sample_alloc 2) 0 i sample_vmac handled rest sample_srg m' frames freed rv /\
    groups m' = groups sample_srg.
Proof.
  apply (srg_announces (Some (λ w, w / 100)) sample_srg [65] (mkGroup sample_vmac [101; 102] true)).
  - exact sample_srg_run.
  - vm_compute. reflexivity.
  - reflexivity.
  - repeat constructor.
  - apply sample_alloc_ok.
Defined.

(** Two buffers at a time: the second entry's interface is gone, so its buffer is freed. *)
Example sample_garps_sent :
  option_map (λ r : _ * _ * _ * _, (map (map (λ v : _ * _, (v.1, b_tx v.2))) r.1.1.2, r.1.2, r.2))
    (vl_api_osvbng_srg_send_garp_t_handler (sample_srg_env 7) (sample_alloc 2) [65] sample_garps sample_srg) =
  Some ([[(0, 100)]; [(1000, 100)]], [1], SRG_OK).
Proof. vm_compute. reflexivity. Qed.

(** The frame of the first: S-tag 10, C-tag 20, padded. *)
Example sample_garp_frame :
  contents (garp_frame_buffer (mkGarp 101 10 20 34984 (SrgIp4 [10; 0; 0; 1])) sample_vmac 100 sample_fresh) =
  repeat 255 6 ++ sample_vmac ++ [136; 168; 0; 10; 129; 0; 0; 20; 8; 6; 0; 1; 8; 0; 6; 4; 0; 2] ++ sample_vmac ++
  [10; 0; 0; 1] ++ repeat 255 6 ++ [10; 0; 0; 1] ++ repeat 0 14.
Proof. vm_compute. reflexivity. Qed.
